(* ===== verification/_CoqProject ===== *)
-Q . S2P
Prelude.v
IoAddr.v
StunAddr.v
StunDefs.v
StunMsg.v
StunMsgFacts.v
StunFraming.v
StunCrc.v
StunFingerprint.v
StunAuth.v
StunAuthFacts.v
OAuth.v
OAuthFacts.v
StunBuild.v
StunBuildFacts.v
KeyMap.v
TurnMaps.v
Base64.v
TurnMapsFacts.v
KHash.v
KHashFacts.v
TurnPorts.v
TurnPortsFacts.v
SlotTable.v
Timers.v
Allocation.v
AllocationFacts.v
NetBuffer.v
Sockets.v
RelayEngine.v
RelayEngineFacts.v
TurnServer.v
TurnServerFacts.v
TurnSession.v
DataPath.v
DataPathFacts.v
PeerPathFacts.v
Cluster.v
ServerAuth.v
ServerAuthFacts.v
UserDb.v
UserDbFacts.v
UserKey.v
UserKeyFacts.v
Allocate.v
AllocateFacts.v
AllocateHandler.v
AllocateOutcome.v
AuthFlow.v
AuthFlowFacts.v
RefreshOutcome.v
SessionEnd.v
QuotaSystem.v
Binding.v
BindingFacts.v
TcpConn.v
TcpConnFacts.v
Command.v
CommandFacts.v
Proxy.v
ProxyFacts.v
ProxySystem.v
