(* ===== verification/Prelude.v ===== *)
(** * Verification of a TURN cluster: coturn and its proxy

    The repository carries a coturn 4.5.1.3 (src/coturn) changed to run as a
    cluster, and the proxy in front of the servers (src/coturn-proxy).  Clients
    talk to the proxy; the proxy puts a header of fourteen bytes in front of each
    message and sends it to a server; a server that must reach a peer behind
    another server sends the data, with such a header, to that server.  This
    library models the code that decides what is done with the bytes received
    and with the relay resources, and proves it correct or shows where it is not.

    ** The program and its models

    - Socket addresses (client/ns_turn_ioaddr.c).  [IoAddr]: the union [ioa_addr]
      as a record with the family, the port bytes and both address fields;
      equality, hashing, ports, address ranges, multicast and loopback, the
      public/private table, the text forms.
    - Address attributes (client/ns_turn_msg_addr.c).  [StunAddr]: encoding and
      decoding, plain and xor-ed.
    - STUN messages (client/ns_turn_msg.c and the _defs headers).  [StunDefs]:
      constants.  [StunMsg]: header, classification, transaction ids, the
      attribute iterator, adding and reading attributes; a message under
      construction is an [mbuf], the caller's array with [*len].
      [StunFraming]: ChannelData headers, the length of the next message of a
      stream, HTTP detection.  [StunCrc], [StunFingerprint]: CRC-32 and
      FINGERPRINT.  [StunAuth]: MESSAGE-INTEGRITY, keys, stored passwords,
      SASLprep.  [StunBuild]: error, allocate, channel-bind and binding
      messages, challenge responses, the attributes of RFC 5780.  [OAuth]: keys
      and access tokens; the GCM functions of OpenSSL are the class [Evp].
    - Maps (server/ns_turn_maps.c).  [TurnMaps]: the local map [lm_map], the
      address map [ur_addr_map], the string map [ur_string_map].  [KHash]: the
      hash table of server/ns_turn_khash.h and [ur_map].  [KeyMap] holds
      the interface: the class [HashKey] of keys with an equality and a bucket
      function, the class [KVStore] of maps with put, get and del and its laws,
      and the theorem that a lawful store refines a finite map over any sequence
      of operations; it also has the bucket tables the maps are built from.
    - Relay ports (apps/relay/turn_ports.c).  [TurnPorts]: the ring of free ports
      of one address, reservation of even/odd pairs, the pools per backend
      address and transport (which use the address map through its interface).
    - Relay sockets (apps/relay/ns_ioalib_engine_impl.c,
      server/ns_turn_maps_rtcp.c).  [RelayEngine]: creating, binding and closing
      relay sockets with the accounting of their ports, the sockets reserved for
      RTCP; the system calls are the class [Kernel].
    - Allocations (server/ns_turn_allocation.c).  [Allocation]: permissions and
      channels in two tables of reusable slots ([SlotTable]) that point into each
      other, relay sessions, unsent buffers; [Timers]: the timer events of the
      engine (apps/relay/ns_ioalib_engine_impl.c), a class [Malloc] for handles.
    - Server (server/ns_turn_server.c).  [TurnServer]: the peer filter, lifetimes
      and their timers, ChannelBind and CreatePermission.  [TurnSession]: a
      session as a step relation, requests and timer events in any order.
      [ServerAuth]: [check_stun_auth] and the challenge.  [Command]: the dispatch
      of a message in [handle_turn_command], with alternate servers, origins and
      the response; the handlers it calls are fields of the record [handlers]
      where they are not those of [TurnServer] and [DataPath].  [Allocate]: the
      handlers of Allocate and Refresh, the relay connection they make, the
      timers and the end of a session; the quota callbacks are the class
      [Quotas], with [QuotaLaws] for what the theorems use of them.
      [Binding]: the handler of Binding with the behaviour discovery of RFC 5780.
      [TcpConn]: the TCP connections of RFC 6062 as objects of a heap, with the
      sockets, timers and buffers they own.
    - User database (apps/relay/userdb.c, apps/relay/netengine.c,
      apps/common/apputils.c).  [UserDb]: realms, quotas, bandwidth, the names
      of the REST interface.  [UserKey]: [get_user_key] with OAuth tokens,
      shared secrets, accounts and the database, whose driver is the record
      [dbdriver].  [Base64].  [AuthFlow]: a request on its way through the
      authentication thread and back.  [QuotaSystem]: the database as an
      instance of [Quotas], under the handlers of [Allocate].
    - Data path.  [NetBuffer]: network buffers and the cluster header.
      [Sockets]: socket state and [send_data_from_ioa_socket_nbh].  [DataPath]:
      Send indications and ChannelData to a peer, [peer_input_handler] to the
      client.  [Cluster]: two servers, one forwarding to the other.
    - Proxy (src/coturn-proxy/src).  [Proxy]: [StunProxyMgr] with its four
      tables and the handling of one datagram.  [ProxyFacts]: the same as a
      reactive specification.  [ProxySystem]: the proxy with the servers.

    The files whose names end in Facts hold the lemmas and theorems of the
    component; those on [Allocate] are in AllocateFacts, AllocateHandler (the
    attributes and the response), AllocateOutcome, RefreshOutcome and
    SessionEnd.  Cluster, TurnSession, QuotaSystem, AuthFlow and ProxySystem are
    about components together.

    ** Correspondence

    A definition has the name of the C function it translates.  Pointers into a
    buffer are the buffer and an offset; a read or write outside the object is
    [UB], so that a result [Ret _] states memory safety.  Unsigned integers are
    [Z] with the wrap-around of their width written out ([u8], [u16], [u32],
    [u64]), bytes are [Z], arrays are lists.  Functions that update through
    pointers return the new contents.  Random bytes, the address conversions of
    the C library, the digests of OpenSSL, the answers of the kernel and of
    libevent and the callbacks into the user database are arguments; what the
    theorems use of the digests is the class [CryptoLaws] (sizes and byte range),
    with an instance in the witnesses.  What memcpy does with overlapping areas
    is the class [Memcpy].  Memory allocation does not fail.  Callbacks that free
    values are modelled by the list of values they are called with.  Logging and
    statistics are left out.

    ** What the theorems show

    - The cluster (ProxySystem, Cluster): data of a client on a channel reach the
      other client through the proxy and two servers unchanged; the client hears
      only peers it asked for; the proxy handles every datagram without an
      access out of bounds and as its specification says; responses return to
      the client that asked.  A server relays data only under a permission.
    - Access (ServerAuthFacts, CommandFacts): the check of a request is total; no
      handler of a TURN request runs unless the message carries the HMAC under
      the key of the session; otherwise the state is unchanged and the answer is
      an error, with a challenge when credentials are missing.
    - Credentials (UserKeyFacts, AuthFlowFacts, OAuthFacts, Base64): with shared
      secrets a request that was postponed is served after the answer of the
      database exactly when its time has not passed and one of the secrets signs
      it; a printed key becomes the account it was printed for; tokens and
      base64 text round trip.
    - Allocations of a client (AllocateOutcome, RefreshOutcome, SessionEnd,
      RelayEngineFacts): what every Allocate and Refresh request leaves; an
      allocation that ends gives back its sockets, ports, timers, quota and
      bandwidth, and the timers end what they should.
    - Binding (BindingFacts): a client reads its own address in the answer, which
      goes nowhere but to its host.
    - TCP connections (TcpConnFacts): over any sequence of operations and events
      their lists, ids, timers, sockets and buffers agree; nothing is used after
      it was freed or freed twice.
    - Quotas (UserDbFacts, QuotaSystem): over any sequence of grants and
      releases the counters are the number of allocations held, no quota is
      exceeded, and bandwidth stays within the capacity; a realm that is full
      refuses Allocate requests and the end of a session opens it again.
    - Sessions (TurnServerFacts, TurnSession, AllocationFacts): the handlers keep
      the invariant that the channel table, the permission table and the timers
      describe the same bindings, over any sequence of requests and timer
      events; removal and clearing release what they should.
    - Parsing (StunMsgFacts, StunAddr, StunFraming): searching attributes in
      arbitrary bytes ends, stays inside the message, and on bytes of a message
      finds the first attribute of the type; appended attributes appear at the
      end of the abstract message; addresses, message types, channel data and
      stream framing round trip.
    - Integrity (StunCrc, StunFingerprint, StunAuthFacts): the table-driven
      checksum is CRC-32; fingerprints round trip and detect every burst of up to
      four bytes; the integrity check accepts what was signed and accepts only
      bytes that equal the HMAC; stored passwords and SASLprep.
    - Messages (StunBuildFacts): what a client reads from error, allocate,
      channel-bind and challenge messages is what the server wrote.
    - Relay state (TurnMapsFacts, KHashFacts, TurnPortsFacts): the maps refine
      finite maps over any sequence of operations, the hash table with its
      probes and its rehashing in place too; a port is never handed out twice and none
      is lost.
    - Where the code departs from this (the nonce that is not compared, strangers
      who write the cluster header, keys of the proxy that collide, IPv6 ranges
      and loopback, fingerprints without room, ADDRESS-ERROR-CODE, duplicate keys
      of the local map, pair reservation on an exhausted pool and others), a
      theorem states what it does instead.

    ** Bounds

    The attribute loop has the message length as fuel: every attribute takes at
    least four bytes.  SASLprep has one round per character, the search of the
    ring of ports one per position between its counters and one more.  The
    theorems show that these bounds are never reached.  The ring counters are 32
    bits wide; the theorem on the pool allows 4,294,000,000 operations, and
    [high_wraps_to_failure] shows what happens when a counter wraps.  A relay
    socket is tried 0xFFFF times per address, as in the code.  The decoder of
    base64 has one round per four characters.  The theorem on quotas allows
    2^31 - 1 allocations of a realm, the range of its counter.  The loops of the
    hash table have the number of its cells as fuel; its theorem allows 2^29
    different keys, with which no table has more than 2^31 cells and no index
    wraps.

    ** Not modelled

    The messages and streams of TCP connections (RFC 6062), the transfer of a
    session to another socket (mobility), and the programs around the library: event loop and
    listeners, TLS, the drivers of the databases, administration, clients, the
    configuration and threads of the proxy: input and output of libraries that
    the sources only call.

    ** This file

    The outcome monad of C code with undefined behaviour, the wrap-around of
    unsigned integers, byte buffers with block reads and writes, big- and
    little-endian integers, and the tactics and hint databases of the
    development. *)

From stdpp Require Import base option numbers list.

Declare Scope turn_scope.
Delimit Scope turn_scope with turn.
Open Scope Z_scope.
Open Scope turn_scope.

(** * Outcomes of C code

    [Ret a] is a normal return, [UB] an access outside the object the pointer
    points into (or another undefined behaviour the text of the code admits),
    [NoFuel] a loop whose bound in the model was too small.  A theorem that
    some function equals [Ret _] therefore states memory safety and
    termination at once. *)
Inductive outcome (A : Type) : Type :=
| Ret (a : A)
| UB
| NoFuel.
Arguments Ret {A} a.
Arguments UB {A}.
Arguments NoFuel {A}.

#[export] Instance outcome_ret : MRet outcome := fun A a => Ret a.
#[export] Instance outcome_bind : MBind outcome := fun A B f m =>
  match m with
  | Ret a => f a
  | UB => UB
  | NoFuel => NoFuel
  end.
#[export] Instance outcome_fmap : FMap outcome := fun A B f m =>
  match m with
  | Ret a => Ret (f a)
  | UB => UB
  | NoFuel => NoFuel
  end.
Arguments outcome_bind _ _ _ !_ /.
Arguments outcome_fmap _ _ _ !_ /.

(** The function returns normally: no undefined behaviour, no divergence. *)
Definition returns {A} (m : outcome A) : Prop := exists a, m = Ret a.

(** * Machine-width integers *)
Definition u8 (v : Z) : Z := v mod 2 ^ 8.
Definition u16 (v : Z) : Z := v mod 2 ^ 16.
Definition u32 (v : Z) : Z := v mod 2 ^ 32.
Definition u64 (v : Z) : Z := v mod 2 ^ 64.
(** Conversion of an [unsigned] or [long] value to a 32-bit signed one. *)
Definition i32 (v : Z) : Z := (v + 2 ^ 31) mod 2 ^ 32 - 2 ^ 31.

(** A C truth value from an [int]. *)
Definition truthy (v : Z) : bool := negb (v =? 0).

(** * Bytes *)
Definition is_byte (b : Z) : Prop := 0 <= b < 256.
Definition bytes_ok (l : list Z) : Prop := Forall is_byte l.

Definition bytes_okb (l : list Z) : bool := forallb (fun b => (0 <=? b) && (b <? 256)) l.

Definition blen {A} (l : list A) : Z := Z.of_nat (length l).

Definition slice {A} (buf : list A) (i n : Z) : list A :=
  take (Z.to_nat n) (drop (Z.to_nat i) buf).

Definition splice {A} (buf : list A) (i : Z) (bs : list A) : list A :=
  take (Z.to_nat i) buf ++ bs ++ drop (Z.to_nat i + length bs) buf.

(** Reading [n] bytes at offset [i] of a buffer, writing [bs] at offset [i]. *)
Definition rd_bytes (buf : list Z) (i n : Z) : outcome (list Z) :=
  if (0 <=? i) && (0 <=? n) && (i + n <=? blen buf) then Ret (slice buf i n) else UB.

Definition wr_bytes (buf : list Z) (i : Z) (bs : list Z) : outcome (list Z) :=
  if (0 <=? i) && (i + blen bs <=? blen buf) then Ret (splice buf i bs) else UB.

(** ** Integers in network (big-endian) and host (little-endian) byte order *)
Fixpoint be_acc (acc : Z) (bs : list Z) : Z :=
  match bs with
  | [] => acc
  | b :: r => be_acc (acc * 256 + b) r
  end.
Definition be (bs : list Z) : Z := be_acc 0 bs.

Fixpoint to_be (n : nat) (v : Z) : list Z :=
  match n with
  | O => []
  | S n' => to_be n' (v / 256) ++ [v mod 256]
  end.

Fixpoint le (bs : list Z) : Z :=
  match bs with
  | [] => 0
  | b :: r => b + 256 * le r
  end.

Fixpoint to_le (n : nat) (v : Z) : list Z :=
  match n with
  | O => []
  | S n' => v mod 256 :: to_le n' (v / 256)
  end.

(** Byte-wise exclusive or, the effect of [^] on integers kept as bytes. *)
Definition xor_bytes (a b : list Z) : list Z := zip_with Z.lxor a b.

Definition rd8 (buf : list Z) (i : Z) : outcome Z := be <$> rd_bytes buf i 1.
Definition rd16 (buf : list Z) (i : Z) : outcome Z := be <$> rd_bytes buf i 2.
Definition rd32 (buf : list Z) (i : Z) : outcome Z := be <$> rd_bytes buf i 4.

(** The bytes of a C string up to its terminating zero. *)
Fixpoint cstr (s : list Z) : list Z :=
  match s with
  | [] => []
  | c :: r => if c =? 0 then [] else c :: cstr r
  end.
Definition strlen (s : list Z) : Z := blen (cstr s).

(** The difference of the first differing characters. *)
Fixpoint strcmp_chars (a b : list Z) : Z :=
  match a, b with
  | [], [] => 0
  | [], y :: _ => - y
  | x :: _, [] => x
  | x :: a', y :: b' => if x =? y then strcmp_chars a' b' else x - y
  end.
Definition strcmp (a b : list Z) : Z := strcmp_chars (cstr a) (cstr b).

(** * Tactics and hint databases *)
Create HintDb turn.
Create HintDb bytes.
Create Rewrite HintDb blen.

(** Split boolean guards and conditionals of the code into arithmetic facts. *)
Ltac bool_arith :=
  repeat match goal with
  | H : (_ && _) = true |- _ => apply andb_true_iff in H; destruct H
  | H : (_ || _) = false |- _ => apply orb_false_iff in H; destruct H
  | H : negb _ = true |- _ => apply negb_true_iff in H
  | H : negb _ = false |- _ => apply negb_false_iff in H
  | H : (_ <=? _) = true |- _ => apply Z.leb_le in H
  | H : (_ <=? _) = false |- _ => apply Z.leb_gt in H
  | H : (_ <? _) = true |- _ => apply Z.ltb_lt in H
  | H : (_ <? _) = false |- _ => apply Z.ltb_ge in H
  | H : (_ >=? _) = true |- _ => rewrite Z.geb_leb in H
  | H : (_ >=? _) = false |- _ => rewrite Z.geb_leb in H
  | H : (_ >? _) = true |- _ => rewrite Z.gtb_ltb in H
  | H : (_ >? _) = false |- _ => rewrite Z.gtb_ltb in H
  | H : (_ =? _) = true |- _ => apply Z.eqb_eq in H
  | H : (_ =? _) = false |- _ => apply Z.eqb_neq in H
  end.

(** Decide the innermost conditional of the goal by arithmetic where possible,
    by cases otherwise. *)
Ltac if_case :=
  match goal with
  | |- context [if ?b then _ else _] =>
      lazymatch b with
      | context [if _ then _ else _] => fail
      | _ => destruct b eqn:?; bool_arith; try lia
      end
  end.

(** One step of the outcome monad, nothing else. *)
Ltac mstep := cbn [mbind outcome_bind fmap outcome_fmap].

(** Decompose a successful run of a monadic computation. *)
Ltac outcome_inv H :=
  repeat match type of H with
  | context [mbind _ ?m] =>
      let E := fresh "E" in destruct m eqn:E; simpl in H; try discriminate H
  end.

Lemma bind_ret {A B} (m : outcome A) (f : A -> outcome B) (b : B) :
  (m ≫= f) = Ret b <-> exists a, m = Ret a /\ f a = Ret b.
Proof.
  destruct m as [a| |]; simpl; split; [eauto| |done| |done|].
  - by intros (? & [= <-] & ?).
  - by intros (? & ? & ?).
  - by intros (? & ? & ?).
Qed.

Lemma returns_ret {A} (a : A) : returns (Ret a).
Proof. by exists a. Qed.

Lemma returns_bind {A B} (m : outcome A) (f : A -> outcome B) :
  returns m -> (forall a, m = Ret a -> returns (f a)) -> returns (m ≫= f).
Proof. intros [a ->] H. simpl. by apply H. Qed.
#[export] Hint Resolve returns_ret returns_bind : turn.

Lemma u8_small v : 0 <= v < 2 ^ 8 -> u8 v = v.
Proof. apply Z.mod_small. Qed.
Lemma u16_small v : 0 <= v < 2 ^ 16 -> u16 v = v.
Proof. apply Z.mod_small. Qed.
Lemma u32_small v : 0 <= v < 2 ^ 32 -> u32 v = v.
Proof. apply Z.mod_small. Qed.
Lemma u64_small v : 0 <= v < 2 ^ 64 -> u64 v = v.
Proof. apply Z.mod_small. Qed.
Lemma i32_small v : 0 <= v < 2 ^ 31 -> i32 v = v.
Proof. intros H. unfold i32. rewrite Z.mod_small by lia. lia. Qed.
Lemma u32_range v : 0 <= u32 v < 2 ^ 32.
Proof. apply Z.mod_pos_bound. lia. Qed.
Lemma u16_range v : 0 <= u16 v < 2 ^ 16.
Proof. apply Z.mod_pos_bound. lia. Qed.

(** ** Lengths, slices and splices *)
Lemma blen_nonneg {A} (l : list A) : 0 <= blen l.
Proof. unfold blen. lia. Qed.

(** [lia] with the non-negativity of every length in sight. *)
Ltac blen_pos :=
  repeat match goal with
  | |- context [blen ?l] => assert_fails (assert (0 <= blen l) by assumption);
                            pose proof (blen_nonneg l)
  | H : context [blen ?l] |- _ => assert_fails (assert (0 <= blen l) by assumption);
                                  pose proof (blen_nonneg l)
  end.
Ltac blia := blen_pos; lia.

Lemma blen_app {A} (l k : list A) : blen (l ++ k) = blen l + blen k.
Proof. unfold blen. rewrite length_app. lia. Qed.

Lemma blen_nil {A} : blen (@nil A) = 0.
Proof. done. Qed.

Lemma blen_cons {A} (x : A) l : blen (x :: l) = 1 + blen l.
Proof. unfold blen. simpl. lia. Qed.

Lemma blen_take {A} (l : list A) n : 0 <= n <= blen l -> blen (take (Z.to_nat n) l) = n.
Proof. unfold blen. rewrite length_take. lia. Qed.

Lemma blen_slice {A} (l : list A) i n :
  0 <= i -> 0 <= n -> i + n <= blen l -> blen (slice l i n) = n.
Proof. unfold slice, blen. rewrite length_take, length_drop. lia. Qed.

Lemma blen_splice {A} (l : list A) i bs :
  0 <= i -> i + blen bs <= blen l -> blen (splice l i bs) = blen l.
Proof.
  unfold splice, blen. rewrite !length_app, length_take, length_drop. lia.
Qed.

Lemma slice_0 {A} (l : list A) i : slice l i 0 = [].
Proof. done. Qed.

Lemma slice_all {A} (l : list A) n : n = blen l -> slice l 0 n = l.
Proof. intros ->. unfold slice, blen. rewrite drop_0, firstn_all2; [done|lia]. Qed.

Lemma slice_app_l {A} (l k : list A) i n :
  0 <= i -> 0 <= n -> i + n <= blen l -> slice (l ++ k) i n = slice l i n.
Proof.
  unfold slice, blen. intros. rewrite drop_app_le by lia.
  rewrite take_app_le; [done|]. rewrite length_drop. lia.
Qed.

Lemma slice_app_r {A} (l k : list A) i n :
  blen l <= i -> slice (l ++ k) i n = slice k (i - blen l) n.
Proof.
  unfold slice, blen. intros. rewrite drop_app_ge by lia.
  by replace (Z.to_nat (i - Z.of_nat (length l))) with (Z.to_nat i - length l)%nat by lia.
Qed.

Lemma slice_slice {A} (l : list A) i n j m :
  0 <= i -> 0 <= j -> 0 <= m -> j + m <= n ->
  slice (slice l i n) j m = slice l (i + j) m.
Proof.
  unfold slice. intros. rewrite skipn_firstn_comm, take_take, drop_drop.
  f_equal; [lia|]. f_equal. lia.
Qed.

Lemma slice_add {A} (l : list A) i n m :
  0 <= i -> 0 <= n -> 0 <= m -> slice l i (n + m) = slice l i n ++ slice l (i + n) m.
Proof.
  unfold slice. intros. rewrite !Z2Nat.inj_add by lia.
  by rewrite <- drop_drop, <- take_take_drop.
Qed.

Lemma slice_splice_same {A} (l : list A) i bs :
  0 <= i -> i + blen bs <= blen l -> slice (splice l i bs) i (blen bs) = bs.
Proof.
  intros. unfold splice. rewrite slice_app_r; rewrite blen_take; try blia.
  rewrite Z.sub_diag, slice_app_l by blia. by apply slice_all.
Qed.

Lemma slice_splice_before {A} (l : list A) i bs j n :
  0 <= j -> 0 <= n -> j + n <= i -> i + blen bs <= blen l ->
  slice (splice l i bs) j n = slice l j n.
Proof.
  intros. pose proof (blen_nonneg bs). unfold splice.
  rewrite slice_app_l by (try rewrite blen_take; lia).
  unfold slice. rewrite skipn_firstn_comm, take_take. f_equal. lia.
Qed.

Lemma slice_splice_after {A} (l : list A) i bs j n :
  0 <= i -> i + blen bs <= j -> i + blen bs <= blen l ->
  slice (splice l i bs) j n = slice l j n.
Proof.
  intros. pose proof (blen_nonneg bs). unfold splice.
  rewrite !slice_app_r; rewrite ?blen_take; try lia.
  unfold slice, blen in *. rewrite drop_drop. f_equal. f_equal. lia.
Qed.

Lemma slice_splice_inside {A} (l : list A) i bs j n :
  0 <= i -> i <= j -> 0 <= n -> j + n <= i + blen bs -> i + blen bs <= blen l ->
  slice (splice l i bs) j n = slice bs (j - i) n.
Proof.
  intros. rewrite <- (slice_splice_same l i bs) at 2 by blia.
  rewrite slice_slice by lia. by replace (i + (j - i)) with j by lia.
Qed.

Lemma splice_slice_id {A} (l : list A) i n :
  0 <= i -> 0 <= n -> i + n <= blen l -> splice l i (slice l i n) = l.
Proof.
  intros. unfold splice. replace (length (slice l i n)) with (Z.to_nat n).
  - unfold slice. rewrite <- drop_drop, take_drop. apply take_drop.
  - pose proof (blen_slice l i n). unfold blen in *. lia.
Qed.

Lemma splice_splice_same {A} (l : list A) i bs cs :
  0 <= i -> i + blen bs <= blen l -> length bs = length cs ->
  splice (splice l i bs) i cs = splice l i cs.
Proof.
  intros ? ? Hl. unfold splice, blen in *.
  rewrite take_app_le, take_take by (rewrite length_take; lia).
  rewrite drop_app_ge by (rewrite length_take; lia).
  rewrite drop_app_ge by (rewrite length_take; lia).
  rewrite drop_drop, length_take.
  f_equal; [f_equal; lia|]. do 2 f_equal. lia.
Qed.

Lemma rd_bytes_ret buf i n :
  0 <= i -> 0 <= n -> i + n <= blen buf -> rd_bytes buf i n = Ret (slice buf i n).
Proof. intros. unfold rd_bytes. if_case. done. Qed.

Lemma rd_bytes_inv buf i n bs :
  rd_bytes buf i n = Ret bs ->
  0 <= i /\ 0 <= n /\ i + n <= blen buf /\ bs = slice buf i n.
Proof. unfold rd_bytes. if_case; intros [= <-]. done. Qed.

Lemma wr_bytes_ret buf i bs :
  0 <= i -> i + blen bs <= blen buf -> wr_bytes buf i bs = Ret (splice buf i bs).
Proof. intros. unfold wr_bytes. if_case. done. Qed.

Lemma wr_bytes_ub buf i bs : blen buf < i + blen bs -> wr_bytes buf i bs = UB.
Proof. intros. unfold wr_bytes. by if_case. Qed.

Lemma wr_bytes_inv buf i bs buf' :
  wr_bytes buf i bs = Ret buf' ->
  0 <= i /\ i + blen bs <= blen buf /\ buf' = splice buf i bs.
Proof. unfold wr_bytes. if_case; intros [= <-]. done. Qed.

Lemma rd8_ret buf i : 0 <= i -> i + 1 <= blen buf -> rd8 buf i = Ret (be (slice buf i 1)).
Proof. intros. unfold rd8. rewrite rd_bytes_ret by lia. done. Qed.
Lemma rd16_ret buf i : 0 <= i -> i + 2 <= blen buf -> rd16 buf i = Ret (be (slice buf i 2)).
Proof. intros. unfold rd16. rewrite rd_bytes_ret by lia. done. Qed.
Lemma rd32_ret buf i : 0 <= i -> i + 4 <= blen buf -> rd32 buf i = Ret (be (slice buf i 4)).
Proof. intros. unfold rd32. rewrite rd_bytes_ret by lia. done. Qed.
#[export] Hint Rewrite @blen_app @blen_nil @blen_cons : blen.

(** ** Byte ranges *)
Lemma bytes_ok_slice l i n : bytes_ok l -> bytes_ok (slice l i n).
Proof. intros. by apply Forall_take, Forall_drop. Qed.

Lemma bytes_ok_splice l i bs : bytes_ok l -> bytes_ok bs -> bytes_ok (splice l i bs).
Proof. intros. apply Forall_app; split; [by apply Forall_take|].
  apply Forall_app; split; [done|by apply Forall_drop]. Qed.

Lemma bytes_ok_cons x l : is_byte x -> bytes_ok l -> bytes_ok (x :: l).
Proof. by constructor. Qed.

Lemma bytes_ok_nil : bytes_ok [].
Proof. constructor. Qed.

Lemma bytes_ok_take n l : bytes_ok l -> bytes_ok (take n l).
Proof. apply Forall_take. Qed.

Lemma bytes_ok_drop n l : bytes_ok l -> bytes_ok (drop n l).
Proof. apply Forall_drop. Qed.

Lemma bytes_okb_spec l : bytes_okb l = true <-> bytes_ok l.
Proof.
  unfold bytes_okb, bytes_ok.
  induction l as [|b l IH]; simpl; [by split|].
  rewrite andb_true_iff, IH, Forall_cons. unfold is_byte.
  rewrite andb_true_iff, Z.leb_le, Z.ltb_lt. done.
Qed.

Lemma bytes_ok_app l k : bytes_ok l -> bytes_ok k -> bytes_ok (l ++ k).
Proof. intros. by apply Forall_app. Qed.

Lemma bytes_ok_snoc l b : bytes_ok (l ++ [b]) -> bytes_ok l /\ 0 <= b < 256.
Proof. intros [? Hb]%Forall_app. inversion_clear Hb. done. Qed.

Lemma bytes_ok_to_be n v : bytes_ok (to_be n v).
Proof.
  revert v. induction n as [|n IH]; intros v; [constructor|].
  apply bytes_ok_app; [apply IH|]. constructor; [|constructor].
  apply Z.mod_pos_bound. lia.
Qed.

Lemma bytes_ok_to_le n v : bytes_ok (to_le n v).
Proof.
  revert v. induction n as [|n IH]; intros v; constructor; [|apply IH].
  apply Z.mod_pos_bound. lia.
Qed.
#[export] Hint Resolve bytes_ok_take bytes_ok_drop bytes_ok_slice bytes_ok_splice bytes_ok_app bytes_ok_to_be
  bytes_ok_to_le bytes_ok_cons bytes_ok_nil : bytes.
#[export] Hint Extern 1 (is_byte _) => unfold is_byte; lia : bytes.

(** ** C strings *)
Lemma cstr_nonzero l : Forall (fun c => c <> 0) l -> cstr l = l.
Proof. induction 1 as [|c l Hc Hl IH]; simpl; [done|]. destruct (c =? 0) eqn:?; bool_arith; [done|]. by rewrite IH. Qed.

Lemma cstr_app_zero r rest : Forall (fun c => c <> 0) r -> cstr (r ++ 0 :: rest) = r.
Proof.
  induction 1 as [|c r Hc Hr IH]; simpl; [done|]. destruct (c =? 0) eqn:?; bool_arith; [done|].
  by rewrite IH.
Qed.

Lemma strcmp_chars_zero a b :
  Forall (fun c => c <> 0) a -> Forall (fun c => c <> 0) b -> strcmp_chars a b = 0 <-> a = b.
Proof.
  intros Ha. revert b. induction Ha as [|x a Hx Ha IH]; intros [|y b] Hb; simpl; try done.
  - inversion_clear Hb. split; [lia|done].
  - inversion_clear Hb as [|? ? Hy Hb']. destruct (x =? y) eqn:?; bool_arith.
    + subst y. rewrite IH by done. split; congruence.
    + split; [lia|]. intros [= ? ?]. done.
Qed.

(** ** Big- and little-endian round trips *)
Lemma length_to_be n v : length (to_be n v) = n.
Proof. revert v. induction n; intros v; [done|]. simpl. rewrite length_app, IHn. simpl. lia. Qed.

Lemma blen_to_be n v : blen (to_be n v) = Z.of_nat n.
Proof. unfold blen. by rewrite length_to_be. Qed.

Lemma length_to_le n v : length (to_le n v) = n.
Proof. revert v. induction n; intros v; [done|]. simpl. by rewrite IHn. Qed.

Lemma be_acc_app acc l k : be_acc acc (l ++ k) = be_acc (be_acc acc l) k.
Proof. revert acc. induction l; intros acc; [done|]. apply IHl. Qed.

Lemma be_snoc l b : be (l ++ [b]) = be l * 256 + b.
Proof. unfold be. by rewrite be_acc_app. Qed.

Lemma pow_256_S n : 256 ^ Z.of_nat (S n) = 256 * 256 ^ Z.of_nat n.
Proof. rewrite Nat2Z.inj_succ, Z.pow_succ_r; lia. Qed.

Lemma be_to_be n v : be (to_be n v) = v mod 256 ^ Z.of_nat n.
Proof.
  revert v. induction n as [|n IH]; intros v.
  - simpl. by rewrite Z.mod_1_r.
  - simpl to_be. rewrite be_snoc, IH, pow_256_S.
    rewrite Z.rem_mul_r by (try apply Z.pow_pos_nonneg; lia). lia.
Qed.

Lemma be_to_be_small n v : 0 <= v < 256 ^ Z.of_nat n -> be (to_be n v) = v.
Proof. intros. rewrite be_to_be. by apply Z.mod_small. Qed.

Lemma be_range l : bytes_ok l -> 0 <= be l < 256 ^ blen l.
Proof.
  induction l as [|b l IH] using rev_ind; intros Hl; [done|].
  apply bytes_ok_snoc in Hl as [Hl Hb].
  rewrite be_snoc, blen_app. change (blen [b]) with 1.
  rewrite Z.pow_add_r, Z.pow_1_r by blia. specialize (IH Hl).
  generalize dependent (256 ^ blen l). intros. lia.
Qed.

Lemma to_be_be l : bytes_ok l -> to_be (length l) (be l) = l.
Proof.
  induction l as [|b l IH] using rev_ind; intros Hl; [done|].
  apply bytes_ok_snoc in Hl as [Hl Hb].
  rewrite length_app, Nat.add_1_r. simpl to_be. rewrite be_snoc.
  rewrite Z.div_add_l, Z.div_small, Z.add_0_r by lia. rewrite (IH Hl). do 2 f_equal.
  rewrite Z.add_comm, Z.mod_add, Z.mod_small; lia.
Qed.

Lemma to_be_be_n n l : bytes_ok l -> length l = n -> to_be n (be l) = l.
Proof. intros ? <-. by apply to_be_be. Qed.

Lemma be_inj l k : bytes_ok l -> bytes_ok k -> length l = length k -> be l = be k -> l = k.
Proof. intros Hl Hk Hlen E. rewrite <- (to_be_be l), <- (to_be_be k) by done. by rewrite Hlen, E. Qed.

Lemma to_le_le l : bytes_ok l -> to_le (length l) (le l) = l.
Proof.
  induction 1 as [|b l Hb Hl IH]; [done|]. unfold is_byte in Hb. simpl.
  rewrite (Z.mul_comm 256), Z.mod_add, Z.mod_small by lia.
  rewrite Z.div_add, Z.div_small, Z.add_0_l by lia. by rewrite IH.
Qed.

Lemma slice_splice_eq {A} (l : list A) i bs j n :
  j = i -> n = blen bs -> 0 <= i -> i + blen bs <= blen l -> slice (splice l i bs) j n = bs.
Proof. intros -> ->. apply slice_splice_same. Qed.

Lemma splice_nil {A} (l : list A) i : splice l i [] = l.
Proof. unfold splice. simpl. rewrite Nat.add_0_r. apply take_drop. Qed.

(** Side conditions about lengths of overwritten buffers, and the value of a
    slice of one. *)
Ltac buf_side :=
  rewrite ?blen_to_be; try rewrite !blen_splice by buf_side; rewrite ?blen_to_be; blia.
Ltac slice_simpl :=
  repeat first
    [ rewrite slice_splice_eq by buf_side
    | rewrite slice_splice_before by buf_side
    | rewrite slice_splice_after by buf_side ].

Arguments to_be : simpl never.
Arguments to_le : simpl never.
Arguments be : simpl never.
Arguments le : simpl never.
Arguments blen : simpl never.
Arguments slice : simpl never.
Arguments splice : simpl never.
Arguments rd_bytes : simpl never.
Arguments wr_bytes : simpl never.
Arguments rd8 : simpl never.
Arguments rd16 : simpl never.
Arguments rd32 : simpl never.
Arguments u8 : simpl never.
Arguments u16 : simpl never.
Arguments u32 : simpl never.
Arguments u64 : simpl never.
#[global] Arguments Z.land : simpl never.
#[global] Arguments Z.lor : simpl never.
#[global] Arguments Z.lxor : simpl never.
#[global] Arguments Z.shiftl : simpl never.
#[global] Arguments Z.shiftr : simpl never.
#[global] Arguments Z.modulo : simpl never.
#[global] Arguments Z.div : simpl never.
#[global] Arguments Z.pow : simpl never.
