(* ===== verification/IoAddr.v ===== *)
(** Socket addresses: src/coturn/src/client/ns_turn_ioaddr.c.

    [ioa_addr] is the union of [sockaddr], [sockaddr_in] and [sockaddr_in6].
    On the Linux ABI its 28 bytes are disjoint fields shared by the members:
    the family at 0, the port at 2 ([sin_port] and [sin6_port]), 4 bytes at 4
    ([sin_addr] of IPv4, [sin6_flowinfo] of IPv6), 16 bytes at 8 ([sin6_addr])
    and 4 bytes at 24 ([sin6_scope_id]).  The record keeps these fields as the
    bytes in memory, so the port and the IPv4 address are in network order. *)

From stdpp Require Import base option numbers list.
From S2P Require Import Prelude.

(** * Data *)
Definition AF_INET : Z := 2.
Definition AF_INET6 : Z := 10.
Definition SIZEOF_SOCKADDR_IN : Z := 16.
Definition SIZEOF_SOCKADDR_IN6 : Z := 28.

Record ioa_addr : Type := IoaAddr {
  sa_family : Z;
  sin_port : list Z;
  sin_addr : list Z;
  sin6_addr : list Z;
  sin6_scope : list Z }.

Record ioa_addr_range : Type := IoaAddrRange { range_min : ioa_addr; range_max : ioa_addr }.

Definition addr_wf (a : ioa_addr) : Prop :=
  0 <= sa_family a < 2 ^ 16 /\
  (length (sin_port a) = 2%nat /\ bytes_ok (sin_port a)) /\
  (length (sin_addr a) = 4%nat /\ bytes_ok (sin_addr a)) /\
  (length (sin6_addr a) = 16%nat /\ bytes_ok (sin6_addr a)) /\
  (length (sin6_scope a) = 4%nat /\ bytes_ok (sin6_scope a)).

Definition addr_wfb (a : ioa_addr) : bool :=
  (0 <=? sa_family a) && (sa_family a <? 2 ^ 16) &&
  ((length (sin_port a) =? 2)%nat && bytes_okb (sin_port a)) &&
  ((length (sin_addr a) =? 4)%nat && bytes_okb (sin_addr a)) &&
  ((length (sin6_addr a) =? 16)%nat && bytes_okb (sin6_addr a)) &&
  ((length (sin6_scope a) =? 4)%nat && bytes_okb (sin6_scope a)).

Definition zeros (n : nat) : list Z := replicate n 0.
Arguments zeros : simpl never.

(** A zeroed union: [bzero(addr,sizeof(ioa_addr))]. *)
Definition addr_zero : ioa_addr := IoaAddr 0 (zeros 2) (zeros 4) (zeros 16) (zeros 4).

Definition set_family (a : ioa_addr) (f : Z) : ioa_addr :=
  IoaAddr f (sin_port a) (sin_addr a) (sin6_addr a) (sin6_scope a).
Definition set_port_bytes (a : ioa_addr) (p : list Z) : ioa_addr :=
  IoaAddr (sa_family a) p (sin_addr a) (sin6_addr a) (sin6_scope a).
Definition set_sin_addr (a : ioa_addr) (x : list Z) : ioa_addr :=
  IoaAddr (sa_family a) (sin_port a) x (sin6_addr a) (sin6_scope a).
Definition set_sin6_addr (a : ioa_addr) (x : list Z) : ioa_addr :=
  IoaAddr (sa_family a) (sin_port a) (sin_addr a) x (sin6_scope a).

#[export] Instance ioa_addr_eq_dec : EqDecision ioa_addr.
Proof. solve_decision. Defined.

(** * Operations

    A pointer argument the C code tests against NULL is an [option]. *)
Definition get_ioa_addr_len (a : ioa_addr) : Z :=
  if sa_family a =? AF_INET then SIZEOF_SOCKADDR_IN
  else if sa_family a =? AF_INET6 then SIZEOF_SOCKADDR_IN6
  else 0.

Definition addr_set_any (addr : option ioa_addr) : option ioa_addr :=
  match addr with Some _ => Some addr_zero | None => None end.

Definition all_zero (l : list Z) : bool := forallb (fun b => b =? 0) l.

Definition addr_any (addr : option ioa_addr) : bool :=
  match addr with
  | None => true
  | Some a =>
      if sa_family a =? AF_INET then all_zero (sin_addr a) && all_zero (sin_port a)
      else if sa_family a =? AF_INET6 then
        if negb (all_zero (sin_port a)) then false else all_zero (sin6_addr a)
      else true
  end.

Definition addr_any_no_port (addr : option ioa_addr) : bool :=
  match addr with
  | None => true
  | Some a =>
      if sa_family a =? AF_INET then all_zero (sin_addr a)
      else if sa_family a =? AF_INET6 then all_zero (sin6_addr a)
      else true
  end.

Definition hash_int32 (a : Z) : Z :=
  let a := Z.lxor a (Z.shiftr a 4) in
  let a := u32 (Z.lxor a 0xdeadbeef + u32 (Z.shiftl a 5)) in
  Z.lxor a (Z.shiftr a 11).

Definition hash_int64 (a : Z) : Z :=
  let a := Z.lxor a (Z.shiftr a 4) in
  let a := u64 (Z.lxor a 0xdeadbeefdeadbeef + u64 (Z.shiftl a 5)) in
  Z.lxor a (Z.shiftr a 11).

(** The integers in the fields are read in host order, little-endian here. *)
Definition addr_hash (addr : option ioa_addr) : Z :=
  match addr with
  | None => 0
  | Some a =>
      if sa_family a =? AF_INET then hash_int32 (u32 (le (sin_addr a) + le (sin_port a)))
      else
        let a0 := le (slice (sin6_addr a) 0 8) in
        let a1 := le (slice (sin6_addr a) 8 8) in
        u32 (u64 (u64 (Z.shiftl (hash_int64 a0) 3) + hash_int64 (u64 (a1 + le (sin_port a)))))
  end.

Definition addr_hash_no_port (addr : option ioa_addr) : Z :=
  match addr with
  | None => 0
  | Some a =>
      if sa_family a =? AF_INET then hash_int32 (le (sin_addr a))
      else
        let a0 := le (slice (sin6_addr a) 0 8) in
        let a1 := le (slice (sin6_addr a) 8 8) in
        u32 (u64 (u64 (Z.shiftl (hash_int64 a0) 3) + hash_int64 a1))
  end.

Definition addr_cpy (dst src : option ioa_addr) : option ioa_addr :=
  match dst, src with
  | Some _, Some s => Some s
  | _, _ => dst
  end.

(** The copies of a bare [sockaddr_in] or [sockaddr_in6] overwrite the prefix
    of the union that the source structure covers. *)
Definition addr_cpy4 (dst src : option ioa_addr) : option ioa_addr :=
  match src, dst with
  | Some s, Some d =>
      Some (IoaAddr (sa_family s) (sin_port s) (sin_addr s)
              (take 8 (sin6_addr s) ++ drop 8 (sin6_addr d)) (sin6_scope d))
  | _, _ => dst
  end.

Definition addr_cpy6 (dst src : option ioa_addr) : option ioa_addr :=
  match src, dst with
  | Some s, Some _ => Some s
  | _, _ => dst
  end.

Definition bytes_eqb (a b : list Z) : bool := bool_decide (a = b).

Definition addr_eq_s (a1 a2 : ioa_addr) : bool :=
  if sa_family a1 =? sa_family a2 then
    if (sa_family a1 =? AF_INET) && bytes_eqb (sin_port a1) (sin_port a2) then
      bytes_eqb (sin_addr a1) (sin_addr a2)
    else if (sa_family a1 =? AF_INET6) && bytes_eqb (sin_port a1) (sin_port a2) then
      bytes_eqb (sin6_addr a1) (sin6_addr a2)
    else false
  else false.

Definition addr_eq (a1 a2 : option ioa_addr) : bool :=
  match a1, a2 with
  | None, None => true
  | None, Some _ => false
  | Some _, None => false
  | Some x, Some y => addr_eq_s x y
  end.

Definition addr_eq_no_port_s (a1 a2 : ioa_addr) : bool :=
  if sa_family a1 =? sa_family a2 then
    if sa_family a1 =? AF_INET then bytes_eqb (sin_addr a1) (sin_addr a2)
    else if sa_family a1 =? AF_INET6 then bytes_eqb (sin6_addr a1) (sin6_addr a2)
    else false
  else false.

Definition addr_eq_no_port (a1 a2 : option ioa_addr) : bool :=
  match a1, a2 with
  | None, None => true
  | None, Some _ => false
  | Some _, None => false
  | Some x, Some y => addr_eq_no_port_s x y
  end.

Definition addr_set_port (addr : option ioa_addr) (port : Z) : option ioa_addr :=
  match addr with
  | None => None
  | Some a =>
      if sa_family a =? AF_INET then Some (set_port_bytes a (to_be 2 port))
      else if sa_family a =? AF_INET6 then Some (set_port_bytes a (to_be 2 port))
      else Some a
  end.

Definition addr_get_port (addr : option ioa_addr) : Z :=
  match addr with
  | None => 0
  | Some a =>
      if sa_family a =? AF_INET then be (sin_port a)
      else if sa_family a =? AF_INET6 then be (sin_port a)
      else 0
  end.

(** [addr_set_port(&a,port)] and [addr_get_port(&a)] on a structure. *)
Definition set_port (a : ioa_addr) (port : Z) : ioa_addr :=
  default a (addr_set_port (Some a) port).
Definition get_port (a : ioa_addr) : Z := addr_get_port (Some a).

(** ** Ranges *)
Definition ioa_addr_range_set (range : option ioa_addr_range)
    (addr_min addr_max : option ioa_addr) : option ioa_addr_range :=
  match range with
  | None => None
  | Some r => Some (IoaAddrRange (default addr_zero addr_min) (default addr_zero addr_max))
  end.

(** The IPv6 loop of [addr_less_eq]: it returns 0 at the first byte of the
    first address that is larger, and 1 when there is none. *)
Fixpoint bytes_all_le (l k : list Z) : bool :=
  match l, k with
  | x :: l', y :: k' => if x >? y then false else bytes_all_le l' k'
  | _, _ => true
  end.

Definition addr_less_eq (addr1 addr2 : option ioa_addr) : bool :=
  match addr1, addr2 with
  | None, _ => true
  | Some _, None => false
  | Some a, Some b =>
      if negb (sa_family a =? sa_family b) then sa_family a <? sa_family b
      else if sa_family a =? AF_INET then be (sin_addr a) <=? be (sin_addr b)
      else if sa_family a =? AF_INET6 then bytes_all_le (sin6_addr a) (sin6_addr b)
      else true
  end.

Definition ioa_addr_in_range (range : option ioa_addr_range) (addr : option ioa_addr) : bool :=
  match range, addr with
  | Some r, Some a =>
      if addr_any (Some (range_min r)) || addr_less_eq (Some (range_min r)) (Some a) then
        if addr_any (Some (range_max r)) then true
        else addr_less_eq (Some a) (Some (range_max r))
      else false
  | _, _ => false
  end.

Definition ioa_addr_range_cpy (dest src : option ioa_addr_range) : option ioa_addr_range :=
  match dest, src with
  | Some _, Some s => Some s
  | _, _ => dest
  end.

(** ** Address classes *)
Definition byte_at (l : list Z) (i : nat) : Z := default 0 (l !! i).

Definition ioa_addr_is_multicast (addr : option ioa_addr) : bool :=
  match addr with
  | None => false
  | Some a =>
      if sa_family a =? AF_INET then byte_at (sin_addr a) 0 >? 223
      else if sa_family a =? AF_INET6 then byte_at (sin6_addr a) 0 =? 255
      else false
  end.

Definition ioa_addr_is_loopback (addr : option ioa_addr) : bool :=
  match addr with
  | None => false
  | Some a =>
      if sa_family a =? AF_INET then byte_at (sin_addr a) 0 =? 127
      else if sa_family a =? AF_INET6 then
        if byte_at (sin6_addr a) 7 =? 1 then all_zero (take 7 (sin6_addr a)) else false
      else false
  end.

(** ** The table of public and private addresses

    [public_addrs] and [private_addrs] are global arrays that grow together;
    the model is the list of the pairs at equal indices. *)
Record addr_mapping : Type := AddrMapping { public_addr : ioa_addr; private_addr : ioa_addr }.

Definition ioa_addr_add_mapping (maps : list addr_mapping) (apub apriv : ioa_addr) :
    list addr_mapping := maps ++ [AddrMapping apub apriv].

Fixpoint map_addr_from_public_to_private (maps : list addr_mapping) (pub : ioa_addr) : ioa_addr :=
  match maps with
  | [] => pub
  | m :: r =>
      if addr_eq_no_port_s pub (public_addr m) then set_port (private_addr m) (get_port pub)
      else map_addr_from_public_to_private r pub
  end.

Fixpoint map_addr_from_private_to_public (maps : list addr_mapping) (priv : ioa_addr) : ioa_addr :=
  match maps with
  | [] => priv
  | m :: r =>
      if addr_eq_no_port_s priv (private_addr m) then set_port (public_addr m) (get_port priv)
      else map_addr_from_private_to_public r priv
  end.

(** ** Textual addresses

    [inet_pton], [inet_ntop] and [getaddrinfo] are C library services: they are
    parameters.  [pton4 s] and [pton6 s] are the bytes of a numeric address,
    [resolve s] is the list of resolver answers (a family and the address
    structure [ai_addr]), or [None] for an error. *)
Section text.
Variable pton4 : list Z -> option (list Z).
Variable pton6 : list Z -> option (list Z).
Variable resolve : list Z -> option (list (Z * ioa_addr)).
Variable ntop4 : list Z -> list Z.
Variable ntop6 : list Z -> list Z.

Definition SP : Z := 32.
Definition COLON : Z := 58.
Definition LBRACKET : Z := 91.
Definition RBRACKET : Z := 93.

Fixpoint skip_spaces (s : list Z) : list Z :=
  match s with
  | c :: r => if c =? SP then skip_spaces r else s
  | [] => []
  end.

Definition trim_right (s : list Z) : list Z := reverse (skip_spaces (reverse s)).

(** The first resolver answer of the given family. *)
Fixpoint find_family (l : list (Z * ioa_addr)) (family : Z) : option ioa_addr :=
  match l with
  | [] => None
  | (f, a) :: r => if f =? family then Some a else find_family r family
  end.

(** [saddr0] is a C string; at most 256 of its characters are used.  The
    result is the returned code with the contents of [*addr]. *)
Definition make_ioa_addr (saddr0 : option (list Z)) (port : Z) (addr : option ioa_addr) :
    Z * option ioa_addr :=
  match saddr0, addr with
  | Some s0, Some _ =>
      let ssaddr := take 256 (cstr s0) in
      let saddr := trim_right (skip_spaces ssaddr) in
      let v4 := if blen saddr =? 0 then Some (zeros 4) else pton4 saddr in
      match v4 with
      | Some b => (0, Some (set_port_bytes (set_family (set_sin_addr addr_zero b) AF_INET)
                              (to_be 2 port)))
      | None =>
          match pton6 saddr with
          | Some b => (0, Some (set_port_bytes (set_family (set_sin6_addr addr_zero b) AF_INET6)
                                  (to_be 2 port)))
          | None =>
              match resolve saddr with
              | None => (-1, Some addr_zero)
              | Some [] => (-1, Some addr_zero)
              | Some l =>
                  match find_family l AF_INET with
                  | Some a => (0, Some (set_port_bytes
                                          (default addr_zero (addr_cpy4 (Some addr_zero) (Some a)))
                                          (to_be 2 port)))
                  | None =>
                      match find_family l AF_INET6 with
                      | Some a => (0, Some (set_port_bytes a (to_be 2 port)))
                      | None => (0, Some addr_zero)
                      end
                  end
              end
          end
      end
  | _, _ => (-1, addr)
  end.

(** [atoi] on a C string: blanks, an optional sign, decimal digits. *)
Definition is_blank (c : Z) : bool := (c =? SP) || ((9 <=? c) && (c <=? 13)).
Definition is_digit (c : Z) : bool := (48 <=? c) && (c <=? 57).

Fixpoint skip_blanks (s : list Z) : list Z :=
  match s with
  | c :: r => if is_blank c then skip_blanks r else s
  | [] => []
  end.

Fixpoint digits_value (acc : Z) (s : list Z) : Z :=
  match s with
  | c :: r => if is_digit c then digits_value (acc * 10 + (c - 48)) r else acc
  | [] => acc
  end.

Definition atoi (s : list Z) : Z :=
  match skip_blanks s with
  | c :: r => if c =? 45 then - digits_value 0 r
              else if c =? 43 then digits_value 0 r
              else digits_value 0 (c :: r)
  | [] => 0
  end.

(** The part of a string before and after the first [c], if there is one. *)
Fixpoint split_at (c : Z) (s : list Z) : option (list Z * list Z) :=
  match s with
  | [] => None
  | x :: r =>
      if x =? c then Some ([], r)
      else match split_at c r with
           | Some (a, b) => Some (x :: a, b)
           | None => None
           end
  end.

Definition get_addr_string_and_port (s0 : list Z) : option (list Z * Z) :=
  let s := skip_spaces s0 in
  match s with
  | c :: s' =>
      if c =? LBRACKET then
        match split_at RBRACKET s' with
        | Some (host, tail) =>
            match skip_spaces tail with
            | [] => Some (host, 0)
            | d :: t => if d =? COLON then Some (host, atoi t) else None
            end
        | None => None
        end
      else match split_at COLON s with
           | Some (host, tail) => Some (host, atoi tail)
           | None => Some (s, 0)
           end
  | [] => Some ([], 0)
  end.

Definition make_ioa_addr_from_full_string (saddr : list Z) (default_port : Z)
    (addr : option ioa_addr) : Z * option ioa_addr :=
  match addr with
  | None => (-1, None)
  | Some _ =>
      match get_addr_string_and_port (cstr saddr) with
      | Some (sa, port) =>
          let port := if port <? 1 then default_port else port in
          make_ioa_addr (Some sa) port addr
      | None => (-1, addr)
      end
  end.

(** Decimal digits of a port, as [%d] prints them. *)
Fixpoint dec_digits (fuel : nat) (v : Z) (acc : list Z) : list Z :=
  match fuel with
  | O => acc
  | S f =>
      let acc := (48 + v mod 10) :: acc in
      if v / 10 =? 0 then acc else dec_digits f (v / 10) acc
  end.
Definition print_port (p : Z) : list Z := dec_digits 6 p [].

Definition MAX_IOA_ADDR_STRING : nat := 65.

(** The text written to [saddr]; [snprintf] keeps 64 characters. *)
Definition addr_to_string (a : ioa_addr) : option (list Z) :=
  if sa_family a =? AF_INET then
    let t := ntop4 (sin_addr a) in
    Some (if get_port a >? 0 then take (MAX_IOA_ADDR_STRING - 1) (t ++ [COLON] ++ print_port (get_port a))
          else take MAX_IOA_ADDR_STRING t)
  else if sa_family a =? AF_INET6 then
    let t := ntop6 (sin6_addr a) in
    Some (if get_port a >? 0 then
            take (MAX_IOA_ADDR_STRING - 1)
              ([LBRACKET] ++ t ++ [RBRACKET; COLON] ++ print_port (get_port a))
          else take MAX_IOA_ADDR_STRING t)
  else None.

Definition addr_to_string_no_port (a : ioa_addr) : option (list Z) :=
  if sa_family a =? AF_INET then Some (take MAX_IOA_ADDR_STRING (ntop4 (sin_addr a)))
  else if sa_family a =? AF_INET6 then Some (take MAX_IOA_ADDR_STRING (ntop6 (sin6_addr a)))
  else None.
End text.

(** * Properties *)
Definition known_family (a : ioa_addr) : Prop :=
  sa_family a = AF_INET \/ sa_family a = AF_INET6.

Lemma addr_wfb_spec a : addr_wfb a = true <-> addr_wf a.
Proof.
  unfold addr_wfb, addr_wf.
  rewrite !andb_true_iff, !Nat.eqb_eq, !bytes_okb_spec, Z.leb_le, Z.ltb_lt. tauto.
Qed.

Lemma bytes_eqb_eq a b : bytes_eqb a b = true <-> a = b.
Proof. apply bool_decide_eq_true. Qed.

Lemma bytes_eqb_refl a : bytes_eqb a a = true.
Proof. by apply bytes_eqb_eq. Qed.

(** What [addr_eq] compares, as a proposition. *)
Lemma addr_eq_s_spec a b :
  addr_eq_s a b = true <->
  sa_family a = sa_family b /\ sin_port a = sin_port b /\
  ((sa_family a = AF_INET /\ sin_addr a = sin_addr b) \/
   (sa_family a = AF_INET6 /\ sin6_addr a = sin6_addr b)).
Proof.
  unfold addr_eq_s. rewrite <- !bytes_eqb_eq.
  destruct (Z.eqb_spec (sa_family a) (sa_family b)) as [E|E]; [|naive_solver].
  destruct (Z.eqb_spec (sa_family a) AF_INET) as [F|F],
           (Z.eqb_spec (sa_family a) AF_INET6) as [G|G]; simpl;
    destruct (bytes_eqb (sin_port a) (sin_port b)); simpl; try naive_solver.
  all: rewrite F in G; discriminate G.
Qed.

Lemma addr_eq_no_port_s_spec a b :
  addr_eq_no_port_s a b = true <->
  sa_family a = sa_family b /\
  ((sa_family a = AF_INET /\ sin_addr a = sin_addr b) \/
   (sa_family a = AF_INET6 /\ sin6_addr a = sin6_addr b)).
Proof.
  unfold addr_eq_no_port_s. rewrite <- !bytes_eqb_eq.
  destruct (Z.eqb_spec (sa_family a) (sa_family b)) as [E|E]; [|naive_solver].
  destruct (Z.eqb_spec (sa_family a) AF_INET) as [F|F],
           (Z.eqb_spec (sa_family a) AF_INET6) as [G|G]; simpl; try naive_solver.
  all: rewrite F in G; discriminate G.
Qed.

Lemma addr_eq_s_refl a : known_family a -> addr_eq_s a a = true.
Proof. intros H. apply addr_eq_s_spec. destruct H; auto 6. Qed.

Lemma addr_eq_s_sym a b : addr_eq_s a b = addr_eq_s b a.
Proof.
  apply eq_true_iff_eq. rewrite !addr_eq_s_spec.
  split; intros (E & P & [[F A]|[F A]]); rewrite F in *; auto 7.
Qed.

Lemma addr_eq_s_trans a b c : addr_eq_s a b = true -> addr_eq_s b c = true -> addr_eq_s a c = true.
Proof.
  rewrite !addr_eq_s_spec. intros (E & P & H) (E' & P' & H').
  rewrite <- E in *. rewrite P. split; [congruence|]. split; [done|].
  destruct H as [[F A]|[F A]], H' as [[F' A']|[F' A']]; try (rewrite F in F'; discriminate F').
  - left. split; congruence.
  - right. split; congruence.
Qed.

Lemma addr_eq_no_port_s_sym a b : addr_eq_no_port_s a b = addr_eq_no_port_s b a.
Proof.
  apply eq_true_iff_eq. rewrite !addr_eq_no_port_s_spec.
  split; intros (E & [[F A]|[F A]]); rewrite F in *; auto 7.
Qed.

Lemma addr_eq_no_port_s_refl a : known_family a -> addr_eq_no_port_s a a = true.
Proof. intros H. apply addr_eq_no_port_s_spec. destruct H; auto. Qed.

Lemma addr_eq_no_port_s_trans a b c :
  addr_eq_no_port_s a b = true -> addr_eq_no_port_s b c = true -> addr_eq_no_port_s a c = true.
Proof.
  rewrite !addr_eq_no_port_s_spec. intros (E & H) (E' & H').
  rewrite <- E in *. split; [congruence|].
  destruct H as [[F A]|[F A]], H' as [[F' A']|[F' A']]; try (rewrite F in F'; discriminate F').
  - left. split; congruence.
  - right. split; congruence.
Qed.

Lemma addr_eq_s_known a b : addr_eq_s a b = true -> known_family a /\ known_family b.
Proof. rewrite addr_eq_s_spec. unfold known_family. intros (<- & _ & [[F _]|[F _]]); auto. Qed.

Lemma addr_eq_no_port_s_known a b : addr_eq_no_port_s a b = true -> known_family a /\ known_family b.
Proof. rewrite addr_eq_no_port_s_spec. unfold known_family. intros (<- & [[F _]|[F _]]); auto. Qed.

(** Equal addresses hash alike: the hash tables keyed by addresses look in
    the bucket an equal key was stored in. *)
Lemma addr_hash_proper a b : addr_eq_s a b = true -> addr_hash (Some a) = addr_hash (Some b).
Proof.
  rewrite addr_eq_s_spec. intros (E & P & H). simpl. rewrite <- E, P.
  destruct H as [[F A]|[F A]]; rewrite F, A; done.
Qed.

Lemma addr_hash_no_port_proper a b :
  addr_eq_no_port_s a b = true -> addr_hash_no_port (Some a) = addr_hash_no_port (Some b).
Proof.
  rewrite addr_eq_no_port_s_spec. intros (E & H). simpl. rewrite <- E.
  destruct H as [[F A]|[F A]]; rewrite F, A; done.
Qed.

Lemma set_port_family a p : sa_family (set_port a p) = sa_family a.
Proof. unfold set_port. simpl. by repeat if_case. Qed.

Lemma set_port_eq_no_port a p b : addr_eq_no_port_s (set_port a p) b = addr_eq_no_port_s a b.
Proof.
  unfold addr_eq_no_port_s. rewrite set_port_family. unfold set_port. simpl.
  by repeat if_case.
Qed.

Lemma get_set_port a p : known_family a -> get_port (set_port a p) = u16 p.
Proof.
  intros [F|F]; unfold get_port, set_port; simpl; rewrite F; simpl; rewrite F; simpl;
    by rewrite (be_to_be 2).
Qed.

Lemma get_port_range a : addr_wf a -> 0 <= get_port a < 2 ^ 16.
Proof.
  intros (_ & [L B] & _). unfold get_port. simpl. pose proof (be_range _ B) as R.
  unfold blen in R. rewrite L in R. repeat if_case.
Qed.

(** ** Ranges *)
Lemma be_acc_cons acc l : be_acc acc l = acc * 256 ^ blen l + be l.
Proof.
  revert acc. induction l as [|b l IH]; intros acc.
  - change (acc = acc * 1 + 0). lia.
  - change (be (b :: l)) with (be_acc b l). simpl.
    rewrite (IH (acc * 256 + b)), (IH b), blen_cons.
    rewrite Z.pow_add_r, Z.pow_1_r by blia. ring.
Qed.

Lemma be_cons b l : be (b :: l) = b * 256 ^ blen l + be l.
Proof. apply (be_acc_cons b l). Qed.

(** Byte-wise comparison implies numeric comparison of equally long addresses. *)
Lemma bytes_all_le_numeric l k :
  length l = length k -> bytes_all_le l k = true -> be l <= be k.
Proof.
  revert k. induction l as [|x l IH]; intros [|y k] Hlen Hle; try discriminate.
  simpl in Hlen, Hle. rewrite !be_cons.
  destruct (x >? y) eqn:E; [discriminate|]. bool_arith.
  assert (blen l = blen k) as -> by (unfold blen; lia).
  specialize (IH k ltac:(lia) Hle).
  assert (0 < 256 ^ blen k) by (apply Z.pow_pos_nonneg; blia). nia.
Qed.

Lemma addr_any_not_zero4 a :
  addr_wf a -> sa_family a = AF_INET -> addr_any (Some a) = true -> be (sin_addr a) = 0.
Proof.
  intros (_ & _ & [L _] & _) F. simpl. rewrite F. simpl. intros H. bool_arith.
  destruct (sin_addr a) as [|x [|y [|z [|w [|]]]]]; try discriminate L.
  simpl in *. bool_arith. subst. done.
Qed.

Lemma less_eq4 a b :
  sa_family a = AF_INET -> sa_family b = AF_INET ->
  addr_less_eq (Some a) (Some b) = (be (sin_addr a) <=? be (sin_addr b)).
Proof. intros Fa Fb. unfold addr_less_eq. by rewrite Fa, Fb. Qed.

Lemma less_eq6 a b :
  sa_family a = AF_INET6 -> sa_family b = AF_INET6 ->
  addr_less_eq (Some a) (Some b) = bytes_all_le (sin6_addr a) (sin6_addr b).
Proof. intros Fa Fb. unfold addr_less_eq. by rewrite Fa, Fb. Qed.

(** The IPv4 address range, on addresses of the family. *)
Lemma in_range4_spec mn mx a :
  sa_family mn = AF_INET -> sa_family mx = AF_INET -> sa_family a = AF_INET ->
  addr_any (Some mx) = false -> addr_wf mn -> addr_wf a ->
  ioa_addr_in_range (Some (IoaAddrRange mn mx)) (Some a) = true <->
  be (sin_addr mn) <= be (sin_addr a) <= be (sin_addr mx).
Proof.
  intros Fn Fx Fa Hx Wn Wa. unfold ioa_addr_in_range. cbn [range_min range_max].
  rewrite Hx, !less_eq4 by done.
  assert (0 <= be (sin_addr a)) by (apply be_range; apply Wa).
  destruct (addr_any (Some mn)) eqn:E; cbn [orb].
  - pose proof (addr_any_not_zero4 mn Wn Fn E). rewrite Z.leb_le. lia.
  - destruct (Z.leb_spec (be (sin_addr mn)) (be (sin_addr a))); rewrite ?Z.leb_le; lia.
Qed.

Lemma in_range6_sound mn mx a :
  sa_family mn = AF_INET6 -> sa_family mx = AF_INET6 -> sa_family a = AF_INET6 ->
  addr_any (Some mn) = false -> addr_any (Some mx) = false ->
  addr_wf mn -> addr_wf mx -> addr_wf a ->
  ioa_addr_in_range (Some (IoaAddrRange mn mx)) (Some a) = true ->
  be (sin6_addr mn) <= be (sin6_addr a) <= be (sin6_addr mx).
Proof.
  intros Fn Fx Fa Hn Hx Wn Wx Wa. unfold ioa_addr_in_range. cbn [range_min range_max].
  rewrite Hn, Hx, !less_eq6 by done. cbn [orb].
  destruct Wn as (_ & _ & _ & [Ln _] & _), Wx as (_ & _ & _ & [Lx _] & _),
    Wa as (_ & _ & _ & [La _] & _).
  destruct (bytes_all_le (sin6_addr mn) (sin6_addr a)) eqn:E; [|discriminate].
  intros. split; apply bytes_all_le_numeric; congruence.
Qed.

(** ** The public/private table *)
Definition mapping_wf (m : addr_mapping) : Prop :=
  known_family (public_addr m) /\ known_family (private_addr m).

(** No public address and no private address occurs twice. *)
Fixpoint mappings_distinct (maps : list addr_mapping) : Prop :=
  match maps with
  | [] => True
  | m :: r =>
      Forall (fun m' => addr_eq_no_port_s (public_addr m) (public_addr m') = false /\
                        addr_eq_no_port_s (private_addr m) (private_addr m') = false) r /\
      mappings_distinct r
  end.

Lemma map_pub_hit maps m pub :
  mappings_distinct maps -> m ∈ maps -> addr_eq_no_port_s pub (public_addr m) = true ->
  map_addr_from_public_to_private maps pub = set_port (private_addr m) (get_port pub).
Proof.
  induction maps as [|m0 r IH]; intros D Hin He; [by apply not_elem_of_nil in Hin|].
  destruct D as [D0 D]. simpl.
  apply elem_of_cons in Hin as [->|Hin]; [by rewrite He|].
  destruct (addr_eq_no_port_s pub (public_addr m0)) eqn:E; [|by apply IH].
  rewrite Forall_forall in D0. destruct (D0 _ Hin) as [Hd _].
  rewrite addr_eq_no_port_s_sym in E. by rewrite (addr_eq_no_port_s_trans _ _ _ E He) in Hd.
Qed.

Lemma map_pub_miss maps pub :
  Forall (fun m => addr_eq_no_port_s pub (public_addr m) = false) maps ->
  map_addr_from_public_to_private maps pub = pub.
Proof. induction 1 as [|m r E _ IH]; simpl; [done|]. by rewrite E. Qed.

(** The first entry of the table that matches a private address decides. *)
Lemma map_priv_cases maps priv :
  (exists m, m ∈ maps /\ addr_eq_no_port_s priv (private_addr m) = true /\
     map_addr_from_private_to_public maps priv = set_port (public_addr m) (get_port priv)) \/
  (Forall (fun m => addr_eq_no_port_s priv (private_addr m) = false) maps /\
     map_addr_from_private_to_public maps priv = priv).
Proof.
  induction maps as [|m r IH]; simpl; [by right|].
  destruct (addr_eq_no_port_s priv (private_addr m)) eqn:E.
  - left. exists m. split; [apply elem_of_cons; by left|done].
  - destruct IH as [(m' & Hin & ?)|[? ?]]; [left|right; auto].
    exists m'. split; [apply elem_of_cons; by right|done].
Qed.

Lemma set_port_restores a b :
  addr_wf a -> addr_eq_no_port_s a b = true -> addr_eq_s (set_port b (get_port a)) a = true.
Proof.
  intros (_ & [L B] & _) He. pose proof (addr_eq_no_port_s_known _ _ He) as [Ka Kb].
  apply addr_eq_no_port_s_spec in He as [E H]. apply addr_eq_s_spec.
  rewrite set_port_family. unfold set_port, get_port. simpl.
  destruct Ka as [F|F]; rewrite F in *; rewrite <- E; simpl.
  all: rewrite (to_be_be_n 2) by done; split; [done|]; split; [done|].
  all: destruct H as [[G A]|[G A]]; try discriminate G; auto.
Qed.

(** * Claims *)

(** Addresses that [addr_eq] (or [addr_eq_no_port]) identifies have the
    same hash, so a lookup by an equal address visits the bucket the entry was
    stored in; the comparison itself is an equivalence on IPv4 and IPv6
    addresses. *)
Theorem addr_eq_hash_consistent :
  (forall a b, addr_eq (Some a) (Some b) = true -> addr_hash (Some a) = addr_hash (Some b)) /\
  (forall a b, addr_eq_no_port (Some a) (Some b) = true ->
     addr_hash_no_port (Some a) = addr_hash_no_port (Some b)) /\
  (forall a, known_family a -> addr_eq (Some a) (Some a) = true) /\
  (forall a b, addr_eq (Some a) (Some b) = addr_eq (Some b) (Some a)) /\
  (forall a b c, addr_eq (Some a) (Some b) = true -> addr_eq (Some b) (Some c) = true ->
     addr_eq (Some a) (Some c) = true).
Proof.
  split; [exact addr_hash_proper|]. split; [exact addr_hash_no_port_proper|].
  split; [exact addr_eq_s_refl|]. split; [exact addr_eq_s_sym|exact addr_eq_s_trans].
Qed.

(** Translating a private address to its public one and back gives the
    original address, port included, whenever the table maps no address twice
    and the address is either one of the table's private addresses or not a
    public address of the table. *)
Theorem map_private_public_roundtrip maps priv :
  addr_wf priv -> known_family priv -> Forall mapping_wf maps -> mappings_distinct maps ->
  Exists (fun m => addr_eq_no_port_s priv (private_addr m) = true) maps \/
  Forall (fun m => addr_eq_no_port_s priv (public_addr m) = false) maps ->
  addr_eq_s (map_addr_from_public_to_private maps
               (map_addr_from_private_to_public maps priv)) priv = true.
Proof.
  intros W K WF D H.
  destruct (map_priv_cases maps priv) as [(m & Hin & He & ->)|[Hmiss ->]].
  - rewrite Forall_forall in WF. destruct (WF _ Hin) as [Kp _].
    rewrite (map_pub_hit maps m) by
      (rewrite ?set_port_eq_no_port; auto using addr_eq_no_port_s_refl).
    rewrite get_set_port by done. unfold u16. rewrite Z.mod_small by (by apply get_port_range).
    by apply set_port_restores.
  - destruct H as [H|H].
    + exfalso. rewrite Forall_forall in Hmiss. apply Exists_exists in H as (m & Hin & He).
      by rewrite (Hmiss m Hin) in He.
    + rewrite map_pub_miss by done. by apply addr_eq_s_refl.
Qed.

Definition ex_v4 (a b c d port : Z) : ioa_addr :=
  IoaAddr AF_INET (to_be 2 port) [a; b; c; d] (zeros 16) (zeros 4).
Definition ex_v6 (l : list Z) : ioa_addr :=
  IoaAddr AF_INET6 (zeros 2) (zeros 4) l (zeros 4).

Lemma map_private_public_roundtrip_witness :
  addr_eq_s (map_addr_from_public_to_private [AddrMapping (ex_v4 8 8 8 8 0) (ex_v4 10 0 0 1 0)]
    (map_addr_from_private_to_public [AddrMapping (ex_v4 8 8 8 8 0) (ex_v4 10 0 0 1 0)]
       (ex_v4 10 0 0 1 3478))) (ex_v4 10 0 0 1 3478) = true.
Proof.
  apply map_private_public_roundtrip.
  - by apply addr_wfb_spec.
  - by left.
  - repeat constructor.
  - by repeat constructor.
  - left. by constructor.
Defined.

(** An IPv4 range contains exactly the addresses between its bounds in
    numeric order; the bounds of a configured range with a zero minimum are
    open below. *)
Theorem ipv4_range_exact mn mx a :
  sa_family mn = AF_INET -> sa_family mx = AF_INET -> sa_family a = AF_INET ->
  addr_any (Some mx) = false -> addr_wf mn -> addr_wf a ->
  ioa_addr_in_range (Some (IoaAddrRange mn mx)) (Some a) = true <->
  be (sin_addr mn) <= be (sin_addr a) <= be (sin_addr mx).
Proof. apply in_range4_spec. Qed.

Lemma ipv4_range_exact_witness :
  ioa_addr_in_range (Some (IoaAddrRange (ex_v4 10 0 0 0 0) (ex_v4 10 255 255 255 0)))
    (Some (ex_v4 10 1 2 3 99)) = true.
Proof. apply ipv4_range_exact; try reflexivity; try by apply addr_wfb_spec. vm_compute. split; discriminate. Defined.

(** For IPv6 the range test compares byte by byte: it accepts only
    addresses between the bounds, but it misses addresses that are numerically
    inside (here ::1:5 against the range ::1:0 to ::2:0). *)
Theorem ipv6_range_incomplete :
  (forall mn mx a,
     sa_family mn = AF_INET6 -> sa_family mx = AF_INET6 -> sa_family a = AF_INET6 ->
     addr_any (Some mn) = false -> addr_any (Some mx) = false ->
     addr_wf mn -> addr_wf mx -> addr_wf a ->
     ioa_addr_in_range (Some (IoaAddrRange mn mx)) (Some a) = true ->
     be (sin6_addr mn) <= be (sin6_addr a) <= be (sin6_addr mx)) /\
  (let mn := ex_v6 (zeros 13 ++ [1; 0; 0]) in
   let mx := ex_v6 (zeros 13 ++ [2; 0; 0]) in
   let a := ex_v6 (zeros 13 ++ [1; 0; 5]) in
   be (sin6_addr mn) < be (sin6_addr a) < be (sin6_addr mx) /\
   ioa_addr_in_range (Some (IoaAddrRange mn mx)) (Some a) = false).
Proof. split; [exact in_range6_sound|]. by vm_compute. Qed.

(** The IPv6 loopback test looks at the first eight bytes only: it holds
    exactly of the addresses 0:0:0:1::/64, so the loopback address ::1 is not
    recognised. *)
Theorem ipv6_loopback_prefix_only a :
  addr_wf a -> sa_family a = AF_INET6 ->
  ioa_addr_is_loopback (Some a) = bool_decide (take 8 (sin6_addr a) = zeros 7 ++ [1]) /\
  (sin6_addr a = zeros 15 ++ [1] -> ioa_addr_is_loopback (Some a) = false).
Proof.
  intros (_ & _ & _ & [L _] & _) F. unfold ioa_addr_is_loopback. rewrite F.
  cbn [Z.eqb AF_INET6 AF_INET Pos.eqb]. split.
  - destruct (sin6_addr a) as [|b0 [|b1 [|b2 [|b3 [|b4 [|b5 [|b6 [|b7 r]]]]]]]];
      try discriminate L. unfold byte_at. simpl.
    apply eq_true_iff_eq. rewrite bool_decide_eq_true. split.
    + destruct (b7 =? 1) eqn:E; [|discriminate]. intros. bool_arith. by subst.
    + by intros [= -> -> -> -> -> -> -> ->].
  - intros ->. reflexivity.
Qed.

Lemma ipv6_loopback_prefix_only_witness :
  ioa_addr_is_loopback (Some (ex_v6 (zeros 15 ++ [1]))) = false.
Proof. apply (ipv6_loopback_prefix_only (ex_v6 (zeros 15 ++ [1]))); [by apply addr_wfb_spec|reflexivity|reflexivity]. Defined.
