(* ===== verification/StunAddr.v ===== *)
(** The wire form of addresses in STUN attributes:
    src/coturn/src/client/ns_turn_msg_addr.c.  The code combines raw integers
    of the address structure with [nswap16]/[nswap32] of the cookie by [^];
    both sides being in network order in memory, this is the exclusive or of
    the bytes. *)

From stdpp Require Import base option numbers list.
From S2P Require Import Prelude IoAddr.

(** * Operations *)

(** The bytes [cfield[0..*clen)] on success, [None] for the result -1.  The
    tests of [cfield] and [clen] against NULL have no counterpart: they are the
    result here. *)
Definition stun_addr_encode (ca : option ioa_addr) (xor_ed : bool) (mc : Z)
    (tsx_id : option (list Z)) : option (list Z) :=
  match ca, tsx_id with
  | Some ca, Some tid =>
      if (sa_family ca =? AF_INET) || (sa_family ca =? 0) then
        if xor_ed then
          Some ([0; 1] ++ xor_bytes (sin_port ca) (to_be 2 (Z.shiftr mc 16)) ++
                xor_bytes (sin_addr ca) (to_be 4 mc))
        else Some ([0; 1] ++ sin_port ca ++ sin_addr ca)
      else if sa_family ca =? AF_INET6 then
        if xor_ed then
          Some ([0; 2] ++ xor_bytes (sin_port ca) (to_be 2 (Z.shiftr mc 16)) ++
                xor_bytes (take 4 (sin6_addr ca)) (to_be 4 mc) ++
                xor_bytes (drop 4 (sin6_addr ca)) (take 12 tid))
        else Some ([0; 2] ++ sin_port ca ++ sin6_addr ca)
      else None
  | _, _ => None
  end.

(** The returned code and the contents of [*ca]; [cfield] is the memory the
    pointer points to. *)
Definition stun_addr_decode (ca : ioa_addr) (cfield : option (list Z)) (len : Z) (xor_ed : bool)
    (mc : Z) (tsx_id : list Z) : outcome (Z * ioa_addr) :=
  match cfield with
  | None => Ret (-1, ca)
  | Some cf =>
      if (len =? 0) || (len <? 8) then Ret (-1, ca)
      else
        c0 ← rd8 cf 0;
        if negb (c0 =? 0) then Ret (-1, ca)
        else
          c1 ← rd8 cf 1;
          if c1 =? 1 then
            let ca := set_family ca AF_INET in
            if negb (len =? 8) then Ret (-1, ca)
            else
              port ← rd_bytes cf 2 2;
              addr ← rd_bytes cf 4 4;
              if xor_ed then
                Ret (0, set_sin_addr (set_port_bytes ca (xor_bytes port (to_be 2 (Z.shiftr mc 16))))
                          (xor_bytes addr (to_be 4 mc)))
              else Ret (0, set_sin_addr (set_port_bytes ca port) addr)
          else if c1 =? 2 then
            let ca := set_family ca AF_INET6 in
            if negb (len =? 20) then Ret (-1, ca)
            else
              port ← rd_bytes cf 2 2;
              addr ← rd_bytes cf 4 16;
              if xor_ed then
                Ret (0, set_sin6_addr
                          (set_port_bytes ca (xor_bytes port (to_be 2 (Z.shiftr mc 16))))
                          (xor_bytes (take 4 addr) (to_be 4 mc) ++
                           xor_bytes (drop 4 addr) (take 12 tsx_id)))
              else Ret (0, set_sin6_addr (set_port_bytes ca port) addr)
          else Ret (-1, ca)
  end.

(** * Properties *)
Lemma length_xor_bytes a b : length (xor_bytes a b) = (length a `min` length b)%nat.
Proof. apply length_zip_with. Qed.

Lemma xor_bytes_involutive a b :
  length a = length b -> xor_bytes (xor_bytes a b) b = a.
Proof.
  revert b. induction a as [|x a IH]; intros [|y b] L; try discriminate; [done|].
  simpl. rewrite Z.lxor_assoc, Z.lxor_nilpotent, Z.lxor_0_r. f_equal. apply IH. naive_solver.
Qed.

Lemma lxor_byte x y : is_byte x -> is_byte y -> is_byte (Z.lxor x y).
Proof.
  unfold is_byte. intros Hx Hy.
  assert (0 <= Z.lxor x y) by (apply Z.lxor_nonneg; lia). split; [done|].
  destruct (Z.eq_dec (Z.lxor x y) 0) as [->|E]; [lia|].
  change 256 with (2 ^ 8). apply Z.log2_lt_pow2; [lia|].
  pose proof (Z.log2_lxor x y ltac:(lia) ltac:(lia)).
  assert (Z.log2 x <= Z.log2 255 /\ Z.log2 y <= Z.log2 255) by (split; apply Z.log2_le_mono; lia).
  change (Z.log2 255) with 7 in *. lia.
Qed.

Lemma bytes_ok_xor a b : bytes_ok a -> bytes_ok b -> bytes_ok (xor_bytes a b).
Proof.
  intros Ha. revert b. induction Ha as [|x a Hx Ha IH]; intros [|y b] Hb; try constructor.
  - inversion_clear Hb. by apply lxor_byte.
  - inversion_clear Hb. by apply IH.
Qed.
#[export] Hint Resolve bytes_ok_xor : bytes.

(** The field layout of an address with four or sixteen address bytes. *)
Lemma length_encode ca xor_ed mc tid bs :
  addr_wf ca -> length tid = 12%nat ->
  stun_addr_encode (Some ca) xor_ed mc (Some tid) = Some bs ->
  bytes_ok tid -> bytes_ok bs /\ (blen bs = 8 \/ blen bs = 20).
Proof.
  intros (_ & [Lp Bp] & [La Ba] & [L6 B6] & _) Lt E Bt. unfold stun_addr_encode in E.
  repeat match type of E with
  | (if ?b then _ else _) = _ => destruct b
  end; try discriminate E; injection E as <-.
  all: split; [auto 8 with bytes|].
  all: unfold blen; cbn [length app]; rewrite ?length_app, ?length_xor_bytes;
    rewrite ?length_take, ?length_drop, ?length_to_be, ?Lp, ?La, ?L6, ?Lt; simpl; auto.
Qed.

(** Reading back the fields of a block built by concatenation. *)
Lemma rd8_app pre b rest i :
  i = blen pre -> rd8 (pre ++ b :: rest) i = Ret b.
Proof.
  intros ->. rewrite rd8_ret by (rewrite ?blen_app, ?blen_cons; blia).
  rewrite slice_app_r, Z.sub_diag by lia. done.
Qed.

Lemma rd_bytes_app pre mid rest i n :
  i = blen pre -> n = blen mid -> rd_bytes (pre ++ mid ++ rest) i n = Ret mid.
Proof.
  intros -> ->. rewrite rd_bytes_ret by (rewrite ?blen_app; blia).
  rewrite slice_app_r, Z.sub_diag, slice_app_l by blia. by rewrite slice_all.
Qed.

(** The address part an attribute of the family carries. *)
Definition same_endpoint (a b : ioa_addr) : Prop :=
  sin_port a = sin_port b /\
  ((sa_family a = AF_INET /\ (sa_family b = AF_INET \/ sa_family b = 0) /\
    sin_addr a = sin_addr b) \/
   (sa_family a = AF_INET6 /\ sa_family b = AF_INET6 /\ sin6_addr a = sin6_addr b)).

Lemma decode4 ca0 port addr rest xor_ed mc tid :
  length port = 2%nat -> length addr = 4%nat ->
  stun_addr_decode ca0 (Some ([0; 1] ++ port ++ addr ++ rest)) 8 xor_ed mc tid =
  Ret (0, set_sin_addr
            (set_port_bytes (set_family ca0 AF_INET)
               (if xor_ed then xor_bytes port (to_be 2 (Z.shiftr mc 16)) else port))
            (if xor_ed then xor_bytes addr (to_be 4 mc) else addr)).
Proof.
  intros Lp La. unfold stun_addr_decode. cbn [Z.eqb Z.ltb orb Z.compare Pos.compare Pos.compare_cont].
  set (cf := [0; 1] ++ port ++ addr ++ rest).
  assert (rd8 cf 0 = Ret 0) as -> by (by apply (rd8_app [] 0)).
  assert (rd8 cf 1 = Ret 1) as H1 by (by apply (rd8_app [0] 1)).
  assert (rd_bytes cf 2 2 = Ret port) as H2
    by (apply (rd_bytes_app [0; 1]); unfold blen; rewrite ?Lp; done).
  assert (rd_bytes cf 4 4 = Ret addr) as H3.
  { subst cf. rewrite app_assoc.
    apply rd_bytes_app; unfold blen; rewrite ?length_app, ?Lp, ?La; done. }
  simpl. rewrite H1. simpl. rewrite H2. simpl. rewrite H3. by destruct xor_ed.
Qed.

Lemma decode6 ca0 port addr rest xor_ed mc tid :
  length port = 2%nat -> length addr = 16%nat ->
  stun_addr_decode ca0 (Some ([0; 2] ++ port ++ addr ++ rest)) 20 xor_ed mc tid =
  Ret (0, set_sin6_addr
            (set_port_bytes (set_family ca0 AF_INET6)
               (if xor_ed then xor_bytes port (to_be 2 (Z.shiftr mc 16)) else port))
            (if xor_ed then xor_bytes (take 4 addr) (to_be 4 mc) ++
                            xor_bytes (drop 4 addr) (take 12 tid) else addr)).
Proof.
  intros Lp La. unfold stun_addr_decode. cbn [Z.eqb Z.ltb orb Z.compare Pos.compare Pos.compare_cont].
  set (cf := [0; 2] ++ port ++ addr ++ rest).
  assert (rd8 cf 0 = Ret 0) as -> by (by apply (rd8_app [] 0)).
  assert (rd8 cf 1 = Ret 2) as H1 by (by apply (rd8_app [0] 2)).
  assert (rd_bytes cf 2 2 = Ret port) as H2
    by (apply (rd_bytes_app [0; 2]); unfold blen; rewrite ?Lp; done).
  assert (rd_bytes cf 4 16 = Ret addr) as H3.
  { subst cf. rewrite app_assoc.
    apply rd_bytes_app; unfold blen; rewrite ?length_app, ?Lp, ?La; done. }
  simpl. rewrite H1. simpl. rewrite H2. simpl. rewrite H3. by destruct xor_ed.
Qed.

Lemma xor_address6 addr m tid :
  length addr = 16%nat -> length m = 4%nat -> length tid = 12%nat ->
  let e := xor_bytes (take 4 addr) m ++ xor_bytes (drop 4 addr) tid in
  length e = 16%nat /\ xor_bytes (take 4 e) m ++ xor_bytes (drop 4 e) tid = addr.
Proof.
  intros La Lm Lt e.
  assert (length (xor_bytes (take 4 addr) m) = 4%nat) as L4
    by (rewrite length_xor_bytes, length_take, La, Lm; done).
  assert (length (drop 4 addr) = 12%nat) as L12 by (rewrite length_drop; lia).
  subst e. split.
  - rewrite length_app, L4, length_xor_bytes, L12, Lt. done.
  - rewrite take_app_length', drop_app_length' by done.
    rewrite !xor_bytes_involutive by (rewrite ?length_take; lia). apply take_drop.
Qed.

(** Decoding an encoded address, with anything after it in memory. *)
Lemma decode_encode ca0 ca xor_ed mc tid bs rest :
  addr_wf ca -> length tid = 12%nat ->
  stun_addr_encode (Some ca) xor_ed mc (Some tid) = Some bs ->
  exists ca', stun_addr_decode ca0 (Some (bs ++ rest)) (blen bs) xor_ed mc tid = Ret (0, ca') /\
              same_endpoint ca' ca.
Proof.
  intros (_ & [Lp _] & [La _] & [L6 _] & _) Lt E. unfold stun_addr_encode in E.
  assert (take 12 tid = tid) as Ht by (apply firstn_all2; lia).
  destruct ((sa_family ca =? AF_INET) || (sa_family ca =? 0)) eqn:F4.
  - apply orb_true_iff in F4.
    assert (sa_family ca = AF_INET \/ sa_family ca = 0) as F by (destruct F4; bool_arith; auto).
    destruct xor_ed; apply (inj Some) in E as <-.
    + assert (length (xor_bytes (sin_port ca) (to_be 2 (mc ≫ 16))) = 2%nat) as Lp'
        by (rewrite length_xor_bytes, length_to_be, Lp; done).
      assert (length (xor_bytes (sin_addr ca) (to_be 4 mc)) = 4%nat) as La'
        by (rewrite length_xor_bytes, length_to_be, La; done).
      eexists. rewrite <- !app_assoc. split.
      * rewrite <- (decode4 ca0 _ _ rest true mc tid Lp' La').
        unfold blen. rewrite !length_app, Lp', La'. done.
      * unfold same_endpoint. simpl. rewrite !xor_bytes_involutive by (rewrite length_to_be; lia).
        auto.
    + eexists. rewrite <- !app_assoc. split.
      * rewrite <- (decode4 ca0 _ _ rest false mc tid Lp La).
        unfold blen. rewrite !length_app, Lp, La. done.
      * unfold same_endpoint. simpl. auto.
  - destruct (sa_family ca =? AF_INET6) eqn:F6; [|discriminate]. bool_arith.
    rewrite Ht in E. destruct xor_ed; apply (inj Some) in E as <-.
    + assert (length (xor_bytes (sin_port ca) (to_be 2 (mc ≫ 16))) = 2%nat) as Lp'
        by (rewrite length_xor_bytes, length_to_be, Lp; done).
      destruct (xor_address6 (sin6_addr ca) (to_be 4 mc) tid L6 (length_to_be 4 mc) Lt) as [Le Hx].
      eexists. rewrite <- !app_assoc, (app_assoc (xor_bytes (take 4 _) _)). split.
      * rewrite <- (decode6 ca0 _ _ rest true mc tid Lp' Le).
        unfold blen. rewrite !length_app in *. rewrite Lp', Le. done.
      * unfold same_endpoint. simpl. rewrite Ht, Hx, xor_bytes_involutive by (rewrite length_to_be; lia).
        auto.
    + eexists. rewrite <- !app_assoc. split.
      * rewrite <- (decode6 ca0 _ _ rest false mc tid Lp L6).
        unfold blen. rewrite !length_app, Lp, L6. done.
      * unfold same_endpoint. simpl. auto.
Qed.

Lemma rd8_range buf i b : bytes_ok buf -> rd8 buf i = Ret b -> 0 <= b < 256.
Proof.
  intros B. unfold rd8. destruct (rd_bytes buf i 1) eqn:E; simpl; intros [= <-].
  apply rd_bytes_inv in E as (? & ? & ? & ->).
  pose proof (be_range _ (bytes_ok_slice buf i 1 B)) as R. by rewrite blen_slice in R by lia.
Qed.

(** * Claims *)

Lemma decode_safe ca0 cf len xor_ed mc tid :
  len <= blen cf ->
  exists r ca', stun_addr_decode ca0 (Some cf) len xor_ed mc tid = Ret (r, ca') /\
    (r = 0 \/ r = -1) /\
    (r = 0 <-> (len = 8 /\ slice cf 0 2 = [0; 1]) \/ (len = 20 /\ slice cf 0 2 = [0; 2])).
Proof.
  intros Hlen. unfold stun_addr_decode.
  destruct ((len =? 0) || (len <? 8)) eqn:E8.
  { exists (-1), ca0. apply orb_true_iff in E8. split; [done|]. split; [auto|].
    destruct E8; bool_arith; lia. }
  bool_arith.
  destruct cf as [|b0 [|b1 cf']]; try (unfold blen in Hlen; simpl in Hlen; lia).
  assert (rd8 (b0 :: b1 :: cf') 0 = Ret b0) as -> by (by apply (rd8_app [] b0)).
  assert (rd8 (b0 :: b1 :: cf') 1 = Ret b1) as H1 by (by apply (rd8_app [b0] b1)).
  change (slice (b0 :: b1 :: cf') 0 2) with [b0; b1]. simpl. rewrite H1. simpl.
  destruct (b0 =? 0) eqn:?; destruct (b1 =? 1) eqn:?; [| |..]; try destruct (b1 =? 2) eqn:?;
    destruct (len =? 8) eqn:?; destruct (len =? 20) eqn:?; bool_arith; subst; try lia; simpl;
    rewrite ?rd_bytes_ret by lia; simpl; try destruct xor_ed;
    (eexists _, _; split; [reflexivity|]; split; [auto|]; naive_solver lia).
Qed.

(** Round trip of address attributes: an IPv4 (or unspecified-family) or
    IPv6 address encoded in plain or xor-ed form is 8 or 20 bytes long, and
    decoding these bytes with the same cookie and transaction id, whatever
    follows them in memory, succeeds with the same family, port and address. *)
Theorem stun_addr_roundtrip ca0 ca xor_ed mc tid rest :
  addr_wf ca -> sa_family ca = AF_INET \/ sa_family ca = 0 \/ sa_family ca = AF_INET6 ->
  length tid = 12%nat ->
  exists bs ca',
    stun_addr_encode (Some ca) xor_ed mc (Some tid) = Some bs /\
    (blen bs = 8 \/ blen bs = 20) /\
    stun_addr_decode ca0 (Some (bs ++ rest)) (blen bs) xor_ed mc tid = Ret (0, ca') /\
    same_endpoint ca' ca.
Proof.
  intros W F Lt.
  assert (exists bs, stun_addr_encode (Some ca) xor_ed mc (Some tid) = Some bs) as [bs E].
  { unfold stun_addr_encode. destruct F as [-> | [-> | ->] ]; destruct xor_ed; simpl; eauto. }
  destruct (decode_encode ca0 ca xor_ed mc tid bs rest W Lt E) as (ca' & D & S).
  exists bs, ca'. split; [done|]. split; [|done].
  assert (length bs = length (default [] (stun_addr_encode (Some ca) false mc (Some tid)))) as L.
  { revert E. unfold stun_addr_encode. destruct W as (_ & [Lp _] & [La _] & [L6 _] & _).
    destruct F as [-> | [-> | ->] ]; destruct xor_ed; simpl; intros [= <-]; simpl;
      rewrite ?length_app, ?length_xor_bytes, ?length_take, ?length_drop, ?length_to_be,
        ?Lp, ?La, ?L6, ?Lt; done. }
  unfold blen. rewrite L. unfold stun_addr_encode.
  destruct W as (_ & [Lp _] & [La _] & [L6 _] & _).
  destruct F as [-> | [-> | ->] ]; simpl; rewrite length_app, Lp, ?La, ?L6; auto.
Qed.

Lemma stun_addr_roundtrip_witness :
  exists bs ca',
    stun_addr_encode (Some (ex_v4 192 0 2 1 32853)) true 0x2112A442 (Some (zeros 12)) = Some bs /\
    (blen bs = 8 \/ blen bs = 20) /\
    stun_addr_decode addr_zero (Some (bs ++ [7; 7])) (blen bs) true 0x2112A442 (zeros 12) =
      Ret (0, ca') /\
    same_endpoint ca' (ex_v4 192 0 2 1 32853).
Proof.
  apply stun_addr_roundtrip; [by apply addr_wfb_spec|by left|reflexivity].
Defined.

(** Decoding is safe on any attribute value: given as many bytes as the
    attribute's length says, it reads none beyond them, and it succeeds exactly
    when the value starts with a zero byte and carries family 1 with length 8
    or family 2 with length 20. *)
Theorem stun_addr_decode_safe ca0 cf len xor_ed mc tid :
  len <= blen cf ->
  exists r ca', stun_addr_decode ca0 (Some cf) len xor_ed mc tid = Ret (r, ca') /\
    (r = 0 \/ r = -1) /\
    (r = 0 <-> (len = 8 /\ slice cf 0 2 = [0; 1]) \/ (len = 20 /\ slice cf 0 2 = [0; 2])).
Proof. apply decode_safe. Qed.

Lemma stun_addr_decode_safe_witness :
  exists r ca', stun_addr_decode addr_zero (Some [0; 1; 0; 80; 1; 2; 3; 4]) 8 false 0 [] = Ret (r, ca') /\
    (r = 0 \/ r = -1) /\
    (r = 0 <-> (8 = 8 /\ slice [0; 1; 0; 80; 1; 2; 3; 4] 0 2 = [0; 1]) \/
               (8 = 20 /\ slice [0; 1; 0; 80; 1; 2; 3; 4] 0 2 = [0; 2])).
Proof. apply stun_addr_decode_safe. discriminate. Defined.
