(* ===== verification/StunDefs.v ===== *)
(** Constants and enumerations of the STUN/TURN protocol:
    src/coturn/src/client/ns_turn_msg_defs.h,
    src/coturn/src/client/ns_turn_msg_defs_experimental.h,
    src/coturn/src/client/ns_turn_msg.h and src/coturn/src/ns_turn_defs.h. *)

From stdpp Require Import base option numbers list strings.
From S2P Require Import Prelude.

Definition STUN_HEADER_LENGTH : Z := 20.
Definition STUN_CHANNEL_HEADER_LENGTH : Z := 4.
Definition STUN_MAX_USERNAME_SIZE : Z := 512.
Definition STUN_MAX_REALM_SIZE : Z := 127.
Definition STUN_MAX_NONCE_SIZE : Z := 127.
Definition STUN_MAX_PWD_SIZE : Z := 256.
Definition STUN_MAGIC_COOKIE : Z := 0x2112A442.
Definition STUN_TID_SIZE : nat := 12.
Definition MAX_STUN_MESSAGE_SIZE : Z := 65507.

(** [turn_time_before]: a signed difference of 32 bits. *)
Definition turn_time_before (t1 t2 : Z) : outcome bool :=
  let d := i32 t1 - i32 t2 in
  if (- 2 ^ 31 <=? d) && (d <? 2 ^ 31) then Ret (d <? 0) else UB.

(** ** Message classes *)
Definition IS_STUN_REQUEST (t : Z) : bool := Z.land t 0x0110 =? 0x0000.
Definition IS_STUN_INDICATION (t : Z) : bool := Z.land t 0x0110 =? 0x0010.
Definition IS_STUN_SUCCESS_RESP (t : Z) : bool := Z.land t 0x0110 =? 0x0100.
Definition IS_STUN_ERR_RESP (t : Z) : bool := Z.land t 0x0110 =? 0x0110.
Definition GET_STUN_REQUEST (t : Z) : Z := Z.land t 0xFEEF.
Definition GET_STUN_INDICATION (t : Z) : Z := Z.lor (Z.land t 0xFEEF) 0x0010.
Definition GET_STUN_SUCCESS_RESP (t : Z) : Z := Z.lor (Z.land t 0xFEEF) 0x0100.
Definition GET_STUN_ERR_RESP (t : Z) : Z := Z.lor t 0x0110.

(** ** Lifetimes *)
Definition STUN_DEFAULT_ALLOCATE_LIFETIME : Z := 600.
Definition STUN_MIN_ALLOCATE_LIFETIME : Z := STUN_DEFAULT_ALLOCATE_LIFETIME.
Definition STUN_DEFAULT_MAX_ALLOCATE_LIFETIME : Z := 3600.
Definition STUN_DEFAULT_CHANNEL_LIFETIME : Z := 600.
Definition STUN_DEFAULT_NONCE_EXPIRATION_TIME : Z := 600.
Definition STUN_DEFAULT_PERMISSION_LIFETIME : Z := 300.

(** ** Methods *)
Definition STUN_METHOD_BINDING : Z := 0x0001.
Definition STUN_METHOD_ALLOCATE : Z := 0x0003.
Definition STUN_METHOD_REFRESH : Z := 0x0004.
Definition STUN_METHOD_SEND : Z := 0x0006.
Definition STUN_METHOD_DATA : Z := 0x0007.
Definition STUN_METHOD_CREATE_PERMISSION : Z := 0x0008.
Definition STUN_METHOD_CHANNEL_BIND : Z := 0x0009.
Definition STUN_METHOD_CONNECT : Z := 0x000a.
Definition STUN_METHOD_CONNECTION_BIND : Z := 0x000b.
Definition STUN_METHOD_CONNECTION_ATTEMPT : Z := 0x000c.

(** ** Attributes *)
Definition STUN_ATTRIBUTE_MAPPED_ADDRESS : Z := 0x0001.
Definition OLD_STUN_ATTRIBUTE_RESPONSE_ADDRESS : Z := 0x0002.
Definition STUN_ATTRIBUTE_CHANGE_REQUEST : Z := 0x0003.
Definition OLD_STUN_ATTRIBUTE_SOURCE_ADDRESS : Z := 0x0004.
Definition OLD_STUN_ATTRIBUTE_CHANGED_ADDRESS : Z := 0x0005.
Definition STUN_ATTRIBUTE_USERNAME : Z := 0x0006.
Definition STUN_ATTRIBUTE_MESSAGE_INTEGRITY : Z := 0x0008.
Definition STUN_ATTRIBUTE_ERROR_CODE : Z := 0x0009.
Definition STUN_ATTRIBUTE_UNKNOWN_ATTRIBUTES : Z := 0x000A.
Definition OLD_STUN_ATTRIBUTE_REFLECTED_FROM : Z := 0x000B.
Definition STUN_ATTRIBUTE_CHANNEL_NUMBER : Z := 0x000C.
Definition STUN_ATTRIBUTE_LIFETIME : Z := 0x000D.
Definition STUN_ATTRIBUTE_BANDWIDTH : Z := 0x0010.
Definition STUN_ATTRIBUTE_XOR_PEER_ADDRESS : Z := 0x0012.
Definition STUN_ATTRIBUTE_DATA : Z := 0x0013.
Definition STUN_ATTRIBUTE_REALM : Z := 0x0014.
Definition STUN_ATTRIBUTE_NONCE : Z := 0x0015.
Definition STUN_ATTRIBUTE_XOR_RELAYED_ADDRESS : Z := 0x0016.
Definition STUN_ATTRIBUTE_REQUESTED_ADDRESS_FAMILY : Z := 0x0017.
Definition STUN_ATTRIBUTE_EVEN_PORT : Z := 0x0018.
Definition STUN_ATTRIBUTE_REQUESTED_TRANSPORT : Z := 0x0019.
Definition STUN_ATTRIBUTE_DONT_FRAGMENT : Z := 0x001A.
Definition STUN_ATTRIBUTE_OAUTH_ACCESS_TOKEN : Z := 0x001B.
Definition STUN_ATTRIBUTE_XOR_MAPPED_ADDRESS : Z := 0x0020.
Definition STUN_ATTRIBUTE_RESERVATION_TOKEN : Z := 0x0022.
Definition STUN_ATTRIBUTE_PRIORITY : Z := 0x0024.
Definition STUN_ATTRIBUTE_PADDING : Z := 0x0026.
Definition STUN_ATTRIBUTE_RESPONSE_PORT : Z := 0x0027.
Definition STUN_ATTRIBUTE_CONNECTION_ID : Z := 0x002A.
Definition STUN_ATTRIBUTE_NEW_BANDWIDTH : Z := 0x8000 + STUN_ATTRIBUTE_BANDWIDTH.
Definition STUN_ATTRIBUTE_SOFTWARE : Z := 0x8022.
Definition STUN_ATTRIBUTE_ALTERNATE_SERVER : Z := 0x8023.
Definition STUN_ATTRIBUTE_FINGERPRINT : Z := 0x8028.
Definition STUN_ATTRIBUTE_RESPONSE_ORIGIN : Z := 0x802B.
Definition STUN_ATTRIBUTE_OTHER_ADDRESS : Z := 0x802C.
Definition STUN_ATTRIBUTE_THIRD_PARTY_AUTHORIZATION : Z := 0x802E.
Definition STUN_ATTRIBUTE_ORIGIN : Z := 0x802F.
Definition STUN_ATTRIBUTE_MOBILITY_TICKET : Z := 0x8030.
Definition STUN_ATTRIBUTE_ADDITIONAL_ADDRESS_FAMILY : Z := 0x8032.
Definition STUN_ATTRIBUTE_ADDRESS_ERROR_CODE : Z := 0x8033.

Definition STUN_VALID_CHANNEL (chn : Z) : bool := (0x4000 <=? chn) && (chn <=? 0x7FFF).

Definition STUN_ATTRIBUTE_REQUESTED_ADDRESS_FAMILY_VALUE_IPV4 : Z := 0x01.
Definition STUN_ATTRIBUTE_REQUESTED_ADDRESS_FAMILY_VALUE_IPV6 : Z := 0x02.
Definition STUN_ATTRIBUTE_REQUESTED_ADDRESS_FAMILY_VALUE_DEFAULT : Z := 0x00.
Definition STUN_ATTRIBUTE_REQUESTED_ADDRESS_FAMILY_VALUE_INVALID : Z := -1.
Definition STUN_ATTRIBUTE_TRANSPORT_TCP_VALUE : Z := 6.
Definition STUN_ATTRIBUTE_TRANSPORT_UDP_VALUE : Z := 17.

(** ** Hash functions of message integrity *)
Definition SHA1SIZEBYTES : Z := 20.
Definition SHA256SIZEBYTES : Z := 32.
Definition SHA384SIZEBYTES : Z := 48.
Definition SHA512SIZEBYTES : Z := 64.
Definition MAXSHASIZE : Z := 128.

Inductive SHATYPE : Type :=
| SHATYPE_ERROR
| SHATYPE_SHA1
| SHATYPE_SHA256
| SHATYPE_SHA384
| SHATYPE_SHA512.

#[export] Instance SHATYPE_eq_dec : EqDecision SHATYPE.
Proof. solve_decision. Defined.

Inductive turn_credential_type : Type :=
| TURN_CREDENTIALS_NONE
| TURN_CREDENTIALS_LONG_TERM
| TURN_CREDENTIALS_SHORT_TERM
| TURN_CREDENTIALS_UNDEFINED.

#[export] Instance turn_credential_type_eq_dec : EqDecision turn_credential_type.
Proof. solve_decision. Defined.

(** The characters of a string literal. *)
Fixpoint bytes_of_string (s : string) : list Z :=
  match s with
  | EmptyString => []
  | String c r => Z.of_N (Ascii.N_of_ascii c) :: bytes_of_string r
  end.
