(* ===== verification/StunMsg.v ===== *)
(** STUN messages: src/coturn/src/client/ns_turn_msg.c (header, message types,
    initialisation, transaction ids, attributes).

    A message under construction is the memory [buf] points to together with
    [*len] ([mbuf]); memory beyond [*len] keeps what was there before, as in
    the code, which writes no padding bytes.  An attribute reference
    ([stun_attr_ref], a pointer into the buffer) is an [option Z]: the offset
    of the attribute in the buffer, [None] for NULL.  [nswap16] of a 16-bit
    load is a big-endian load whatever the host order. *)

From stdpp Require Import base option numbers list strings.
From S2P Require Import Prelude IoAddr StunAddr StunDefs.

Record mbuf : Type := MBuf { mdata : list Z; mlen : Z }.

(** * Header *)
Definition stun_get_command_message_len_str (buf : list Z) (len : Z) : outcome Z :=
  if len <? STUN_HEADER_LENGTH then Ret (-1)
  else
    l ← rd16 buf 2;
    let bufLen := l + STUN_HEADER_LENGTH in
    if bufLen >? len then Ret (-1) else Ret bufLen.

Definition stun_set_command_message_len_str (buf : list Z) (len : Z) : outcome (Z * list Z) :=
  if len <? STUN_HEADER_LENGTH then Ret (-1, buf)
  else
    buf ← wr_bytes buf 2 (to_be 2 (len - STUN_HEADER_LENGTH));
    Ret (0, buf).

Definition stun_make_type (method : Z) : Z :=
  let method := Z.land method 0x0FFF in
  Z.lor (Z.lor (Z.lor (Z.land method 0x000F) (Z.shiftl (Z.land method 0x0070) 1))
               (Z.shiftl (Z.land method 0x0380) 2))
        (Z.shiftl (Z.land method 0x0C00) 2).

(** The method of a 16-bit message type. *)
Definition method_of_type (tt : Z) : Z :=
  Z.lor (Z.lor (Z.lor (Z.land tt 0x000F) (Z.shiftr (Z.land tt 0x00E0) 1))
               (Z.shiftr (Z.land tt 0x0E00) 2))
        (Z.shiftr (Z.land tt 0x3000) 2).

(** A buffer pointer the code tests against NULL is an [option]. *)
Definition stun_get_method_str (buf : option (list Z)) (len : Z) : outcome Z :=
  match buf with
  | None => Ret 65535
  | Some b =>
      if len <? 2 then Ret 65535
      else tt ← rd16 b 0; Ret (method_of_type tt)
  end.

Definition stun_get_msg_type_str (buf : option (list Z)) (len : Z) : outcome Z :=
  match buf with
  | None => Ret 65535
  | Some b =>
      if len <? 2 then Ret 65535
      else tt ← rd16 b 0; Ret (Z.land tt 0x3FFF)
  end.

Definition is_channel_msg_str (buf : option (list Z)) (blen : Z) : outcome bool :=
  match buf with
  | None => Ret false
  | Some b =>
      if blen >=? 4 then chn ← rd16 b 0; Ret (STUN_VALID_CHANNEL chn) else Ret false
  end.

(** * Message types *)
Definition stun_is_command_message_str (buf : option (list Z)) (blen : Z) : outcome bool :=
  match buf with
  | None => Ret false
  | Some b =>
      if negb (blen >=? STUN_HEADER_LENGTH) then Ret false else
      chn ← rd16 b 0;
      if STUN_VALID_CHANNEL chn then Ret false else
      b0 ← rd8 b 0;
      if negb (Z.land b0 0xC0 =? 0) then Ret false else
      cookie ← rd32 b 4;
      if negb (cookie =? STUN_MAGIC_COOKIE) then Ret false else
      len ← rd16 b 2;
      if negb (Z.land len 0x0003 =? 0) then Ret false else
      Ret (len + STUN_HEADER_LENGTH =? blen)
  end.

(** The result with the contents of [*cookie] when it is written. *)
Definition old_stun_is_command_message_str (buf : option (list Z)) (blen : Z) :
    outcome (option Z) :=
  match buf with
  | None => Ret None
  | Some b =>
      if negb (blen >=? STUN_HEADER_LENGTH) then Ret None else
      chn ← rd16 b 0;
      if STUN_VALID_CHANNEL chn then Ret None else
      b0 ← rd8 b 0;
      if negb (Z.land b0 0xC0 =? 0) then Ret None else
      cookie ← rd32 b 4;
      if cookie =? STUN_MAGIC_COOKIE then Ret None else
      len ← rd16 b 2;
      if negb (Z.land len 0x0003 =? 0) then Ret None else
      if len + STUN_HEADER_LENGTH =? blen then Ret (Some cookie) else Ret None
  end.

Definition stun_is_request_str (buf : option (list Z)) (len : Z) : outcome bool :=
  c ← is_channel_msg_str buf len;
  if (c : bool) then Ret false
  else t ← stun_get_msg_type_str buf len; Ret (IS_STUN_REQUEST t).

Definition stun_is_success_response_str (buf : option (list Z)) (len : Z) : outcome bool :=
  c ← is_channel_msg_str buf len;
  if (c : bool) then Ret false
  else t ← stun_get_msg_type_str buf len; Ret (IS_STUN_SUCCESS_RESP t).

Definition stun_is_response_str (buf : option (list Z)) (len : Z) : outcome bool :=
  c ← is_channel_msg_str buf len;
  if (c : bool) then Ret false
  else t ← stun_get_msg_type_str buf len;
       if IS_STUN_SUCCESS_RESP t then Ret true
       else Ret (IS_STUN_ERR_RESP t).

Definition stun_is_indication_str (buf : option (list Z)) (len : Z) : outcome bool :=
  c ← is_channel_msg_str buf len;
  if (c : bool) then Ret false
  else t ← stun_get_msg_type_str buf len; Ret (IS_STUN_INDICATION t).

(** The result is truncated to the 16 bits of the return type. *)
Definition stun_make_request (method : Z) : Z := u16 (GET_STUN_REQUEST (stun_make_type method)).
Definition stun_make_indication (method : Z) : Z :=
  u16 (GET_STUN_INDICATION (stun_make_type method)).
Definition stun_make_success_response (method : Z) : Z :=
  u16 (GET_STUN_SUCCESS_RESP (stun_make_type method)).
Definition stun_make_error_response (method : Z) : Z :=
  u16 (GET_STUN_ERR_RESP (stun_make_type method)).

(** * Transaction ids

    A [stun_tid] is its 12 bytes; [rnd] is the value the random generator
    delivers. *)
Fixpoint bytes_prefix_eqb (n : nat) (a b : list Z) : bool :=
  match n with
  | O => true
  | S n' =>
      match a, b with
      | x :: a', y :: b' => if x =? y then bytes_prefix_eqb n' a' b' else false
      | _, _ => false
      end
  end.

Definition stun_tid_equals (id1 id2 : option (list Z)) : bool :=
  match id1, id2 with
  | None, None => true
  | None, Some _ => false
  | Some _, None => false
  | Some a, Some b => bytes_prefix_eqb STUN_TID_SIZE a b
  end.

Definition stun_tid_cpy (id1 id2 : option (list Z)) : option (list Z) :=
  match id1, id2 with
  | Some _, Some b => Some (take STUN_TID_SIZE b)
  | _, _ => id1
  end.

Definition stun_tid_from_message_str (buf : list Z) (len : Z) : outcome (list Z) :=
  rd_bytes buf 8 12.

Definition stun_tid_message_cpy (buf : list Z) (id : option (list Z)) : outcome (list Z) :=
  match id with
  | Some t => wr_bytes buf 8 (take STUN_TID_SIZE t)
  | None => Ret buf
  end.

(** [stun_tid_generate_in_message_str(buf,NULL)]. *)
Definition stun_tid_generate_in_message_str (buf : list Z) (rnd : list Z) : outcome (list Z) :=
  stun_tid_message_cpy buf (Some rnd).

(** * Initialisation *)
Definition stun_init_buffer_str (buf : list Z) : outcome mbuf :=
  buf ← wr_bytes buf 0 (zeros 20);
  Ret (MBuf buf STUN_HEADER_LENGTH).

Definition old_stun_init_command_str (message_type : Z) (buf : list Z) (cookie : Z) (rnd : list Z) :
    outcome mbuf :=
  m ← stun_init_buffer_str buf;
  let message_type := Z.land message_type 0x3FFF in
  b ← wr_bytes (mdata m) 0 (to_be 2 message_type);
  b ← wr_bytes b 2 (to_be 2 0);
  b ← wr_bytes b 4 (to_be 4 cookie);
  b ← stun_tid_generate_in_message_str b rnd;
  Ret (MBuf b (mlen m)).

Definition stun_init_command_str (message_type : Z) (buf : list Z) (rnd : list Z) : outcome mbuf :=
  m ← stun_init_buffer_str buf;
  let message_type := Z.land message_type 0x3FFF in
  b ← wr_bytes (mdata m) 0 (to_be 2 message_type);
  b ← wr_bytes b 2 (to_be 2 0);
  b ← wr_bytes b 4 (to_be 4 STUN_MAGIC_COOKIE);
  b ← stun_tid_generate_in_message_str b rnd;
  Ret (MBuf b (mlen m)).

Definition stun_init_request_str (method : Z) (buf rnd : list Z) : outcome mbuf :=
  stun_init_command_str (stun_make_request method) buf rnd.

Definition stun_init_indication_str (method : Z) (buf rnd : list Z) : outcome mbuf :=
  stun_init_command_str (stun_make_indication method) buf rnd.

Definition stun_init_success_response_str (method : Z) (buf : list Z) (id : option (list Z))
    (rnd : list Z) : outcome mbuf :=
  m ← stun_init_command_str (stun_make_success_response method) buf rnd;
  b ← stun_tid_message_cpy (mdata m) id;
  Ret (MBuf b (mlen m)).

Definition old_stun_init_success_response_str (method : Z) (buf : list Z) (id : option (list Z))
    (cookie : Z) (rnd : list Z) : outcome mbuf :=
  m ← old_stun_init_command_str (stun_make_success_response method) buf cookie rnd;
  b ← stun_tid_message_cpy (mdata m) id;
  Ret (MBuf b (mlen m)).

(** * Attributes *)
Definition stun_attr_get_type (buf : list Z) (attr : option Z) : outcome Z :=
  match attr with
  | Some a => rd16 buf a
  | None => Ret (-1)
  end.

Definition stun_attr_get_len (buf : list Z) (attr : option Z) : outcome Z :=
  match attr with
  | Some a => rd16 buf (a + 2)
  | None => Ret (-1)
  end.

Definition stun_attr_get_value (buf : list Z) (attr : option Z) : outcome (option Z) :=
  match attr with
  | Some a =>
      len ← rd16 buf (a + 2);
      if len <? 1 then Ret None else Ret (Some (a + 4))
  | None => Ret None
  end.

(** Rounding of an attribute length up to the next multiple of four. *)
Definition pad4 (n : Z) : Z :=
  let rem4 := Z.land (u16 n) 0x0003 in
  if truthy rem4 then n + 4 - rem4 else n.

Definition stun_attr_check_valid (buf : list Z) (attr : Z) (remaining : Z) : outcome (option Z) :=
  if remaining >=? 4 then
    attrlen ← stun_attr_get_len buf (Some attr);
    let remaining := remaining - 4 in
    if pad4 attrlen <=? remaining then Ret (Some attr) else Ret None
  else Ret None.

Definition stun_attr_get_first_str (buf : list Z) (len : Z) : outcome (option Z) :=
  bufLen ← stun_get_command_message_len_str buf len;
  if bufLen >? STUN_HEADER_LENGTH then
    stun_attr_check_valid buf STUN_HEADER_LENGTH (bufLen - STUN_HEADER_LENGTH)
  else Ret None.

Definition stun_attr_get_next_str (buf : list Z) (len : Z) (prev : option Z) : outcome (option Z) :=
  match prev with
  | None => stun_attr_get_first_str buf len
  | Some p =>
      fin ← stun_get_command_message_len_str buf len;
      attrlen ← stun_attr_get_len buf prev;
      let attrlen := pad4 attrlen in
      if attrlen <? fin - p - 4 then
        let attr_end := p + 4 + attrlen in
        stun_attr_check_valid buf attr_end (fin - attr_end)
      else Ret None
  end.

(** The loop [while(attr) { body; attr = stun_attr_get_next_str(buf,len,attr); }]:
    [body] gives [Some r] to leave the function with [r]. *)
Fixpoint attr_loop {R} (fuel : nat) (buf : list Z) (len : Z) (body : Z -> outcome (option R))
    (attr : option Z) : outcome (option R) :=
  match attr with
  | None => Ret None
  | Some a =>
      match fuel with
      | O => NoFuel
      | S f =>
          r ← body a;
          match r with
          | Some r => Ret (Some r)
          | None =>
              nxt ← stun_attr_get_next_str buf len attr;
              attr_loop f buf len body nxt
          end
      end
  end.

(** An attribute takes at least four bytes, so as many rounds as the message
    has bytes are enough. *)
Definition attr_fuel (len : Z) : nat := Z.to_nat len.

Definition attr_iter {R} (buf : list Z) (len : Z) (body : Z -> outcome (option R)) :
    outcome (option R) :=
  attr ← stun_attr_get_first_str buf len;
  attr_loop (attr_fuel len) buf len body attr.

Definition stun_attr_get_first_by_type_str (buf : list Z) (len : Z) (attr_type : Z) :
    outcome (option Z) :=
  attr_iter buf len (fun a =>
    t ← stun_attr_get_type buf (Some a);
    if t =? attr_type then Ret (Some a) else Ret None).

(** Appending an attribute: the returned code and the new message.  [avalue]
    is the memory the value is copied from, [None] for NULL. *)
Definition stun_attr_add_str (m : mbuf) (attr : Z) (avalue : option (list Z)) (alen : Z) :
    outcome (Z * mbuf) :=
  let alen := if alen <? 0 then 0 else alen in
  let '(alen, avalue) := match avalue with None => (0, [0]) | Some v => (alen, v) end in
  clen ← stun_get_command_message_len_str (mdata m) (mlen m);
  let newlen := clen + 4 + alen in
  let newlenrem4 := Z.land newlen 0x00000003 in
  let newlen := if truthy newlenrem4 then newlen + (4 - newlenrem4) else newlen in
  if newlen >=? MAX_STUN_MESSAGE_SIZE then Ret (-1, m)
  else
    '(_, b) ← stun_set_command_message_len_str (mdata m) newlen;
    b ← wr_bytes b clen (to_be 2 attr);
    b ← wr_bytes b (clen + 2) (to_be 2 alen);
    b ← (if alen >? 0 then v ← rd_bytes avalue 0 alen; wr_bytes b (clen + 4) v else Ret b);
    Ret (0, MBuf b newlen).

(** ** Attribute values *)
Definition stun_get_requested_address_family (buf : list Z) (attr : option Z) : outcome Z :=
  match attr with
  | Some a =>
      len ← rd16 buf (a + 2);
      if negb (len =? 4) then Ret STUN_ATTRIBUTE_REQUESTED_ADDRESS_FAMILY_VALUE_INVALID
      else
        val ← rd8 buf (a + 4);
        if val =? STUN_ATTRIBUTE_REQUESTED_ADDRESS_FAMILY_VALUE_IPV4 then Ret val
        else if val =? STUN_ATTRIBUTE_REQUESTED_ADDRESS_FAMILY_VALUE_IPV6 then Ret val
        else Ret STUN_ATTRIBUTE_REQUESTED_ADDRESS_FAMILY_VALUE_INVALID
  | None => Ret STUN_ATTRIBUTE_REQUESTED_ADDRESS_FAMILY_VALUE_DEFAULT
  end.

(** The common shape [value = get_value(attr); if(value && test(get_len(attr)))]. *)
Definition with_value {A} (buf : list Z) (attr : option Z) (test : Z -> bool)
    (k : Z -> outcome A) (dflt : A) : outcome A :=
  value ← stun_attr_get_value buf attr;
  match value with
  | Some v =>
      len ← stun_attr_get_len buf attr;
      if test len then k v else Ret dflt
  | None => Ret dflt
  end.

Definition stun_attr_get_channel_number (buf : list Z) (attr : option Z) : outcome Z :=
  with_value buf attr (fun l => l >=? 2)
    (fun v => cn ← rd16 buf v; if STUN_VALID_CHANNEL cn then Ret cn else Ret 0) 0.

Definition stun_attr_get_bandwidth (buf : list Z) (attr : option Z) : outcome Z :=
  with_value buf attr (fun l => l >=? 4)
    (fun v => bps ← rd32 buf v; Ret (u32 (Z.shiftl bps 7))) 0.

Definition stun_attr_get_reservation_token_value (buf : list Z) (attr : option Z) : outcome Z :=
  with_value buf attr (fun l => l =? 8) (fun v => bs ← rd_bytes buf v 8; Ret (be bs)) 0.

Definition stun_attr_get_even_port (buf : list Z) (attr : option Z) : outcome Z :=
  with_value buf attr (fun _ => true)
    (fun v => b ← rd8 buf v; if b >? 0x7F then Ret 1 else Ret 0) 0.

Definition is_addr_type (t : Z) : bool :=
  (t =? STUN_ATTRIBUTE_XOR_MAPPED_ADDRESS) || (t =? STUN_ATTRIBUTE_XOR_PEER_ADDRESS) ||
  (t =? STUN_ATTRIBUTE_XOR_RELAYED_ADDRESS) || (t =? STUN_ATTRIBUTE_MAPPED_ADDRESS) ||
  (t =? STUN_ATTRIBUTE_ALTERNATE_SERVER) || (t =? OLD_STUN_ATTRIBUTE_RESPONSE_ADDRESS) ||
  (t =? OLD_STUN_ATTRIBUTE_SOURCE_ADDRESS) || (t =? OLD_STUN_ATTRIBUTE_CHANGED_ADDRESS) ||
  (t =? OLD_STUN_ATTRIBUTE_REFLECTED_FROM) || (t =? STUN_ATTRIBUTE_RESPONSE_ORIGIN) ||
  (t =? STUN_ATTRIBUTE_OTHER_ADDRESS).

Definition stun_attr_is_addr (buf : list Z) (attr : option Z) : outcome bool :=
  match attr with
  | Some _ => t ← stun_attr_get_type buf attr; Ret (is_addr_type t)
  | None => Ret false
  end.

Definition is_xor_type (t : Z) : bool :=
  (t =? STUN_ATTRIBUTE_XOR_MAPPED_ADDRESS) || (t =? STUN_ATTRIBUTE_XOR_PEER_ADDRESS) ||
  (t =? STUN_ATTRIBUTE_XOR_RELAYED_ADDRESS).

(** [maps] is the table of public and private addresses. *)
Definition stun_attr_add_addr_str (maps : list addr_mapping) (m : mbuf) (attr_type : Z)
    (ca : ioa_addr) : outcome (Z * mbuf) :=
  tid ← stun_tid_from_message_str (mdata m) (mlen m);
  let xor_ed := is_xor_type attr_type in
  let public_addr := map_addr_from_private_to_public maps ca in
  match stun_addr_encode (Some public_addr) xor_ed STUN_MAGIC_COOKIE (Some tid) with
  | None => Ret (-1, m)
  | Some cfield =>
      '(r, m) ← stun_attr_add_str m attr_type (Some cfield) (blen cfield);
      if r <? 0 then Ret (-1, m) else Ret (0, m)
  end.

(** The returned code and [*ca]. *)
Definition stun_attr_get_addr_str (maps : list addr_mapping) (buf : list Z) (len : Z)
    (attr : option Z) (default_addr : option ioa_addr) : outcome (Z * ioa_addr) :=
  tid ← stun_tid_from_message_str buf len;
  attr_type ← stun_attr_get_type buf attr;
  if attr_type <? 0 then Ret (-1, addr_zero)
  else
    let xor_ed := is_xor_type attr_type in
    cfield ← stun_attr_get_value buf attr;
    match cfield with
    | None => Ret (-1, addr_zero)
    | Some c =>
        alen ← stun_attr_get_len buf attr;
        '(r, public_addr) ←
          stun_addr_decode addr_zero (Some (drop (Z.to_nat c) buf)) alen xor_ed
            STUN_MAGIC_COOKIE tid;
        if r <? 0 then Ret (-1, addr_zero)
        else
          let ca := map_addr_from_public_to_private maps public_addr in
          match default_addr with
          | Some d =>
              if addr_any_no_port (Some ca) && negb (addr_any_no_port (Some d)) then
                Ret (0, set_port d (get_port ca))
              else Ret (0, ca)
          | None => Ret (0, ca)
          end
    end.

Definition stun_attr_get_first_addr_str (maps : list addr_mapping) (buf : list Z) (len : Z)
    (attr_type : Z) (default_addr : option ioa_addr) : outcome (option ioa_addr) :=
  attr_iter buf len (fun a =>
    is_addr ← stun_attr_is_addr buf (Some a);
    t ← stun_attr_get_type buf (Some a);
    if is_addr && (attr_type =? t) then
      '(r, ca) ← stun_attr_get_addr_str maps buf len (Some a) default_addr;
      if r =? 0 then Ret (Some ca) else Ret None
    else Ret None).

Definition stun_attr_get_first_channel_number_str (buf : list Z) (len : Z) : outcome Z :=
  r ← attr_iter buf len (fun a =>
        t ← stun_attr_get_type buf (Some a);
        if t =? STUN_ATTRIBUTE_CHANNEL_NUMBER then
          ret ← stun_attr_get_channel_number buf (Some a);
          if STUN_VALID_CHANNEL ret then Ret (Some ret) else Ret None
        else Ret None);
  Ret (default 0 r).

Arguments stun_get_command_message_len_str : simpl never.
Arguments stun_set_command_message_len_str : simpl never.
Arguments stun_attr_get_type : simpl never.
Arguments stun_attr_get_len : simpl never.
Arguments stun_attr_get_value : simpl never.
Arguments stun_attr_check_valid : simpl never.
Arguments stun_attr_get_first_str : simpl never.
Arguments stun_attr_get_next_str : simpl never.
Arguments stun_attr_get_first_by_type_str : simpl never.
Arguments stun_attr_add_str : simpl never.
Arguments stun_attr_add_addr_str : simpl never.
Arguments stun_attr_get_addr_str : simpl never.
Arguments stun_init_command_str : simpl never.
Arguments pad4 : simpl never.
