(* ===== verification/StunMsgFacts.v ===== *)
(** Lemmas on STUN messages: the attribute iterator is memory safe and
    terminates on any input, and on well-formed messages it refines a search
    in the abstract list of attributes; the message builder refines the
    appending of an attribute to that list. *)

From stdpp Require Import base option numbers list strings.
From S2P Require Import Prelude IoAddr StunAddr StunDefs StunMsg.

(** * Arithmetic of the header *)
Lemma land3 n : Z.land n 3 = n mod 4.
Proof. change 3 with (Z.ones 2). by rewrite Z.land_ones by lia. Qed.

Lemma pad4_spec n :
  0 <= n < 2 ^ 16 -> n <= pad4 n <= n + 3 /\ pad4 n mod 4 = 0.
Proof.
  intros H. unfold pad4, truthy, u16. rewrite land3, (Z.mod_small n) by done.
  destruct (n mod 4 =? 0) eqn:E; simpl; bool_arith; [lia|].
  pose proof (Z.mod_pos_bound n 4). split; [lia|].
  rewrite (Z.div_mod n 4) at 1 by lia.
  replace (4 * (n / 4) + n mod 4 + 4 - n mod 4) with ((n / 4 + 1) * 4) by lia.
  apply Z.mod_mul. lia.
Qed.

Lemma pad4_nonneg n : 0 <= n < 2 ^ 16 -> 0 <= pad4 n.
Proof. intros. pose proof (pad4_spec n). lia. Qed.

Lemma rd16_range buf i v : bytes_ok buf -> rd16 buf i = Ret v -> 0 <= v < 2 ^ 16.
Proof.
  intros B. unfold rd16. destruct (rd_bytes buf i 2) eqn:E; simpl; intros [= <-].
  apply rd_bytes_inv in E as (? & ? & ? & ->).
  pose proof (be_range _ (bytes_ok_slice buf i 2 B)) as R. by rewrite blen_slice in R by lia.
Qed.

(** A 16-bit load inside the buffer. *)
Lemma rd16_ok buf i :
  bytes_ok buf -> 0 <= i -> i + 2 <= blen buf -> exists v, rd16 buf i = Ret v /\ 0 <= v < 2 ^ 16.
Proof.
  intros B ? ?. exists (be (slice buf i 2)). split; [by apply rd16_ret|].
  eapply rd16_range; [done|]. by apply rd16_ret.
Qed.

Lemma command_len_cases buf len :
  bytes_ok buf -> len <= blen buf ->
  exists r, stun_get_command_message_len_str buf len = Ret r /\ (r = -1 \/ 20 <= r <= len).
Proof.
  intros B L. unfold stun_get_command_message_len_str, STUN_HEADER_LENGTH.
  if_case; [eauto|].
  destruct (rd16_ok buf 2) as (v & -> & R); [done|lia..|]. simpl.
  if_case; eauto with lia.
Qed.

(** * The iterator on arbitrary input *)

(** Offset [a] holds an attribute that ends inside the message of [fin] bytes. *)
Definition attr_valid (buf : list Z) (fin a : Z) : Prop :=
  20 <= a /\ exists l, rd16 buf (a + 2) = Ret l /\ 0 <= l < 2 ^ 16 /\ a + 4 + pad4 l <= fin.

Lemma attr_valid_bound buf fin a : attr_valid buf fin a -> 20 <= a /\ a + 4 <= fin.
Proof. intros (? & l & _ & R & ?). pose proof (pad4_nonneg l R). lia. Qed.

Lemma check_valid_cases buf a fin :
  bytes_ok buf -> 20 <= a -> fin <= blen buf ->
  exists r, stun_attr_check_valid buf a (fin - a) = Ret r /\
            (r = None \/ r = Some a /\ attr_valid buf fin a).
Proof.
  intros B Ha Hf. unfold stun_attr_check_valid, stun_attr_get_len. if_case; [|eauto].
  destruct (rd16_ok buf (a + 2)) as (l & E & R); [done|lia..|]. rewrite E. simpl.
  if_case; [|eauto]. eexists. split; [done|]. right. split; [done|].
  split; [done|]. exists l. split; [done|]. lia.
Qed.

Lemma get_first_cases buf len :
  bytes_ok buf -> len <= blen buf ->
  exists r, stun_attr_get_first_str buf len = Ret r /\
    (r = None \/ exists fin, stun_get_command_message_len_str buf len = Ret fin /\
                             r = Some 20 /\ fin <= len /\ attr_valid buf fin 20).
Proof.
  intros B L. unfold stun_attr_get_first_str.
  destruct (command_len_cases buf len B L) as (fin & E & C). rewrite E. simpl.
  unfold STUN_HEADER_LENGTH. if_case; [|eauto].
  destruct (check_valid_cases buf 20 fin) as (r & -> & D); [done|lia..|].
  exists r. split; [done|]. destruct D as [->|[-> V]]; [by left|]. right.
  exists fin. split; [done|]. split; [done|]. split; [lia|done].
Qed.

Lemma get_next_cases buf len fin a :
  bytes_ok buf -> len <= blen buf -> stun_get_command_message_len_str buf len = Ret fin ->
  fin <= len -> attr_valid buf fin a ->
  exists r, stun_attr_get_next_str buf len (Some a) = Ret r /\
    (r = None \/ exists a', r = Some a' /\ a + 4 <= a' /\ attr_valid buf fin a').
Proof.
  intros B L E Hf (Ha & l & El & R & V). unfold stun_attr_get_next_str.
  rewrite E. simpl. unfold stun_attr_get_len. rewrite El. simpl. if_case; [|eauto].
  pose proof (pad4_nonneg l R).
  destruct (check_valid_cases buf (a + 4 + pad4 l) fin) as (r & -> & D); [done|lia..|].
  exists r. split; [done|]. destruct D as [->|[-> V']]; [by left|]. right.
  eexists. split; [done|]. split; [lia|done].
Qed.

Section iterator.
Context {R : Type} (buf : list Z) (len fin : Z) (body : Z -> outcome (option R)).
Hypothesis Hbytes : bytes_ok buf.
Hypothesis Hlen : len <= blen buf.
Hypothesis Hfin : stun_get_command_message_len_str buf len = Ret fin.
Hypothesis Hbody : forall a, attr_valid buf fin a -> returns (body a).

(** The loop returns when the fuel covers the rest of the message; a result it
    returns comes from the body at a valid attribute. *)
Lemma attr_loop_returns fuel attr :
  fin <= len ->
  (forall a, attr = Some a -> attr_valid buf fin a /\ fin - a <= Z.of_nat fuel) ->
  exists r, attr_loop fuel buf len body attr = Ret r /\
    (forall x, r = Some x -> exists a, attr_valid buf fin a /\ body a = Ret (Some x)).
Proof.
  intros Hle. revert attr. induction fuel as [|fuel IH]; intros [a|] Ha; simpl.
  - destruct (Ha a eq_refl) as [V Hf]. apply attr_valid_bound in V. lia.
  - eexists. split; [done|]. by intros x [=].
  - destruct (Ha a eq_refl) as [V Hf]. destruct (Hbody a V) as [[x|] E]; rewrite E; simpl.
    + eexists. split; [done|]. intros ? [= <-]. eauto.
    + destruct (get_next_cases buf len fin a) as (r & -> & D); try done. simpl. apply IH.
      intros a' ->. destruct D as [[=]|(a'' & [= <-] & ? & V')]. split; [done|lia].
  - eexists. split; [done|]. by intros x [=].
Qed.
End iterator.

Lemma attr_iter_returns {R} buf len (body : Z -> outcome (option R)) :
  bytes_ok buf -> len <= blen buf ->
  (forall fin a, fin <= len -> attr_valid buf fin a -> returns (body a)) ->
  exists r, attr_iter buf len body = Ret r /\
    (forall x, r = Some x -> exists fin a, fin <= len /\ attr_valid buf fin a /\
                                           body a = Ret (Some x)).
Proof.
  intros B L Hb. unfold attr_iter.
  destruct (get_first_cases buf len B L) as (r & -> & [->|(fin & E & -> & Hf & V)]); simpl.
  - unfold attr_fuel. destruct (Z.to_nat len); (eexists; split; [done|by intros x [=]]).
  - destruct (attr_loop_returns buf len fin body B L E (fun a => Hb fin a Hf)
                (attr_fuel len) (Some 20) Hf) as (x & Hx & Hx').
    { intros a [= <-]. split; [done|]. unfold attr_fuel. apply attr_valid_bound in V. lia. }
    exists x. split; [done|]. intros y Hy. destruct (Hx' y Hy) as (a & ? & ?). eauto.
Qed.

(** * Abstract messages *)
Record smsg : Type := SMsg {
  s_type : Z;
  s_cookie : Z;
  s_tid : list Z;
  s_attrs : list (Z * list Z) }.

Definition s_add (m : smsg) (t : Z) (v : list Z) : smsg :=
  SMsg (s_type m) (s_cookie m) (s_tid m) (s_attrs m ++ [(t, v)]).

(** The bytes from [off] to [fin] hold exactly the attributes [l]; the padding
    bytes after a value are arbitrary. *)
Fixpoint attrs_at (buf : list Z) (off fin : Z) (l : list (Z * list Z)) : Prop :=
  match l with
  | [] => off = fin
  | (t, v) :: r =>
      0 <= t < 2 ^ 16 /\ blen v < 2 ^ 16 /\
      slice buf off 2 = to_be 2 t /\ slice buf (off + 2) 2 = to_be 2 (blen v) /\
      slice buf (off + 4) (blen v) = v /\
      attrs_at buf (off + 4 + pad4 (blen v)) fin r
  end.

(** [buf] and [len] represent the abstract message [m]. *)
Record repr (buf : list Z) (len : Z) (m : smsg) : Prop := Repr {
  repr_bytes : bytes_ok buf;
  repr_len : 20 <= len <= blen buf;
  repr_len16 : len - 20 < 2 ^ 16;
  repr_type : slice buf 0 2 = to_be 2 (s_type m) /\ 0 <= s_type m < 2 ^ 14;
  repr_lenfield : slice buf 2 2 = to_be 2 (len - 20);
  repr_cookie : slice buf 4 4 = to_be 4 (s_cookie m);
  repr_tid : slice buf 8 12 = s_tid m;
  repr_attrs : attrs_at buf 20 len (s_attrs m) }.

(** [m] is represented by the message under construction. *)
Definition mrepr (b : mbuf) (m : smsg) : Prop := repr (mdata b) (mlen b) m.

Lemma attrs_at_le buf off fin l : attrs_at buf off fin l -> off <= fin /\ (fin - off) mod 4 = 0.
Proof.
  revert off. induction l as [|[t v] r IH]; simpl; intros off.
  - intros ->. by rewrite Z.sub_diag.
  - intros (_ & Hv & _ & _ & _ & Hr). apply IH in Hr as [? Hm].
    destruct (pad4_spec (blen v)) as [? Hp]; [blia|]. split; [blia|].
    replace (fin - off) with (fin - (off + 4 + pad4 (blen v)) + (1 * 4 + pad4 (blen v))) by lia.
    rewrite Z.add_mod, Hm by lia. rewrite (Z.add_comm (1 * 4)), Z.mod_add, Hp by lia. done.
Qed.

Lemma attrs_at_frame buf buf' off fin l :
  (forall i n, off <= i -> 0 <= n -> i + n <= fin -> slice buf' i n = slice buf i n) ->
  attrs_at buf off fin l -> attrs_at buf' off fin l.
Proof.
  revert off. induction l as [|[t v] r IH]; simpl; intros off F; [done|].
  intros (? & Hv & E1 & E2 & E3 & Hr).
  destruct (pad4_spec (blen v)) as [? _]; [blia|].
  pose proof (attrs_at_le _ _ _ _ Hr) as [? _].
  rewrite !F by blia. do 5 (split; [done|]). apply IH; [|done]. intros. apply F; blia.
Qed.

Lemma attrs_at_snoc buf off mid fin l t v :
  attrs_at buf off mid l -> attrs_at buf mid fin [(t, v)] -> attrs_at buf off fin (l ++ [(t, v)]).
Proof.
  revert off. induction l as [|[t' v'] r IH]; simpl; intros off.
  - by intros ->.
  - intros (? & ? & ? & ? & ? & Hr) Hlast. do 5 (split; [done|]). by apply IH.
Qed.

Lemma be2 v : 0 <= v < 2 ^ 16 -> be (to_be 2 v) = v.
Proof. intros. by rewrite be_to_be_small. Qed.

Lemma repr_command_len buf len m : repr buf len m -> stun_get_command_message_len_str buf len = Ret len.
Proof.
  intros [B L L16 _ F _ _ _]. unfold stun_get_command_message_len_str, STUN_HEADER_LENGTH.
  if_case. rewrite rd16_ret, F by lia. simpl. rewrite be2 by lia. if_case.
  by replace (len - 20 + 20) with len by lia.
Qed.

(** ** Reading an attribute of a represented message *)
Section at_attribute.
Context (buf : list Z) (len : Z) (m : smsg) (off t : Z) (v : list Z) (r : list (Z * list Z)).
Hypothesis Hrepr : repr buf len m.
Hypothesis Hoff : 20 <= off.
Hypothesis Hat : attrs_at buf off len ((t, v) :: r).

Lemma at_bounds : off + 4 + blen v <= blen buf /\ off + 4 + pad4 (blen v) <= len /\ blen v <= pad4 (blen v).
Proof.
  destruct Hat as (_ & Hv & _ & _ & _ & Hr). apply attrs_at_le in Hr as [? _].
  destruct (pad4_spec (blen v)) as [? _]; [blia|]. pose proof (repr_len _ _ _ Hrepr). blia.
Qed.

Lemma at_type : stun_attr_get_type buf (Some off) = Ret t.
Proof.
  pose proof at_bounds. destruct Hat as (? & _ & E & _). unfold stun_attr_get_type.
  rewrite rd16_ret, E by blia. by rewrite be2.
Qed.

Lemma at_len : stun_attr_get_len buf (Some off) = Ret (blen v).
Proof.
  pose proof at_bounds. destruct Hat as (_ & ? & _ & E & _). unfold stun_attr_get_len.
  rewrite rd16_ret, E by blia. by rewrite be2 by blia.
Qed.

Lemma at_value :
  stun_attr_get_value buf (Some off) = Ret (if blen v <? 1 then None else Some (off + 4)).
Proof.
  pose proof at_len as E. unfold stun_attr_get_len in E. unfold stun_attr_get_value.
  rewrite E. simpl. by destruct (blen v <? 1).
Qed.

Lemma at_value_bytes : rd_bytes buf (off + 4) (blen v) = Ret v.
Proof.
  pose proof at_bounds. destruct Hat as (_ & _ & _ & _ & E & _).
  rewrite rd_bytes_ret by blia. by rewrite E.
Qed.

Lemma at_next :
  stun_attr_get_next_str buf len (Some off) =
  Ret (match r with [] => None | _ :: _ => Some (off + 4 + pad4 (blen v)) end).
Proof.
  pose proof at_bounds as (? & ? & ?). unfold stun_attr_get_next_str.
  rewrite (repr_command_len _ _ _ Hrepr). simpl. rewrite at_len. simpl.
  destruct Hat as (_ & _ & _ & _ & _ & Hr). destruct r as [|[t' v'] r'].
  - simpl in Hr. if_case. done.
  - destruct Hr as (? & ? & E1 & E2 & E3 & Hr). apply attrs_at_le in Hr as [? _].
    destruct (pad4_spec (blen v')) as [? _]; [blia|].
    pose proof (repr_len _ _ _ Hrepr). if_case; [|blia].
    unfold stun_attr_check_valid, stun_attr_get_len. if_case; [|blia].
    rewrite rd16_ret, E2 by blia. simpl. rewrite be2 by blia. by if_case.
Qed.
End at_attribute.

(** ** The iterator refines a search in the attribute list *)
Fixpoint search {R} (body : Z -> outcome (option R)) (off : Z) (l : list (Z * list Z)) :
    outcome (option R) :=
  match l with
  | [] => Ret None
  | (t, v) :: r =>
      x ← body off;
      match x with
      | Some y => Ret (Some y)
      | None => search body (off + 4 + pad4 (blen v)) r
      end
  end.

Lemma attr_loop_search {R} buf len m (body : Z -> outcome (option R)) fuel off l :
  repr buf len m -> 20 <= off -> attrs_at buf off len l -> len - off <= Z.of_nat fuel ->
  attr_loop fuel buf len body (match l with [] => None | _ :: _ => Some off end) = search body off l.
Proof.
  intros Hm. revert off fuel. induction l as [|[t v] r IH]; intros off fuel Ho Ha Hf.
  - by destruct fuel.
  - pose proof (at_bounds _ _ _ _ _ _ _ Hm Ha) as (? & ? & ?).
    destruct fuel as [|fuel]; [blia|]. simpl.
    destruct (body off) as [[x|]| |]; simpl; try done.
    rewrite (at_next _ _ _ _ _ _ _ Hm Ho Ha). simpl.
    apply IH; [blia| |blia]. by destruct Ha as (_ & _ & _ & _ & _ & ?).
Qed.

Lemma attr_iter_search {R} buf len m (body : Z -> outcome (option R)) :
  repr buf len m -> attr_iter buf len body = search body 20 (s_attrs m).
Proof.
  intros Hm. unfold attr_iter, stun_attr_get_first_str.
  rewrite (repr_command_len _ _ _ Hm). simpl. unfold STUN_HEADER_LENGTH.
  pose proof (repr_len _ _ _ Hm) as HL. pose proof (repr_attrs _ _ _ Hm) as Ha.
  destruct (s_attrs m) as [|[t v] r] eqn:El.
  - simpl in Ha. if_case. simpl. unfold attr_fuel. by destruct (Z.to_nat len).
  - pose proof (at_bounds _ _ _ _ _ _ _ Hm Ha) as (? & ? & ?). blen_pos. if_case.
    unfold stun_attr_check_valid. if_case.
    rewrite (at_len buf len m 20 t v r Hm ltac:(lia) Ha). simpl. if_case. simpl.
    apply (attr_loop_search buf len m body (attr_fuel len) 20 ((t, v) :: r)); try done.
    unfold attr_fuel. lia.
Qed.

(** The offset of the first attribute of a type. *)
Fixpoint find_attr (off : Z) (l : list (Z * list Z)) (ty : Z) : option Z :=
  match l with
  | [] => None
  | (t, v) :: r => if t =? ty then Some off else find_attr (off + 4 + pad4 (blen v)) r ty
  end.

Lemma search_type buf len m off l ty :
  repr buf len m -> 20 <= off -> attrs_at buf off len l ->
  search (fun a => t ← stun_attr_get_type buf (Some a);
                   if t =? ty then Ret (Some a) else Ret None) off l = Ret (find_attr off l ty).
Proof.
  intros Hm. revert off. induction l as [|[t v] r IH]; intros off Ho Ha; [done|].
  simpl. rewrite (at_type _ _ _ _ _ _ _ Hm Ho Ha). simpl. destruct (t =? ty); [done|]. simpl.
  pose proof (at_bounds _ _ _ _ _ _ _ Hm Ha). apply IH; [blia|]. by destruct Ha as (_&_&_&_&_&?).
Qed.

Lemma get_first_by_type_refines buf len m ty :
  repr buf len m ->
  stun_attr_get_first_by_type_str buf len ty = Ret (find_attr 20 (s_attrs m) ty).
Proof.
  intros Hm. unfold stun_attr_get_first_by_type_str. rewrite (attr_iter_search _ _ m) by done.
  apply (search_type buf len m); [done|lia|apply Hm].
Qed.

(** The value of the first attribute of a type. *)
Fixpoint lookup_attr (l : list (Z * list Z)) (ty : Z) : option (list Z) :=
  match l with
  | [] => None
  | (t, v) :: r => if t =? ty then Some v else lookup_attr r ty
  end.

(** The offset found holds the value found. *)
Lemma find_attr_at buf len off l ty a :
  attrs_at buf off len l -> find_attr off l ty = Some a ->
  exists v r, lookup_attr l ty = Some v /\ off <= a /\ attrs_at buf a len ((ty, v) :: r).
Proof.
  revert off. induction l as [|[t v] r IH]; intros off Ha; simpl; [done|].
  destruct (t =? ty) eqn:E; bool_arith.
  - intros [= <-]. subst t. exists v, r. split; [done|]. by split.
  - intros Hf. destruct Ha as (_ & Hv & _ & _ & _ & Hr).
    destruct (IH _ Hr Hf) as (v' & r' & ? & ? & ?). exists v', r'.
    pose proof (pad4_nonneg (blen v)). split; [done|]. split; [blia|done].
Qed.

Lemma find_attr_none off l ty : find_attr off l ty = None <-> lookup_attr l ty = None.
Proof. revert off. induction l as [|[t v] r IH]; intros off; simpl; [done|]. by destruct (t =? ty). Qed.

Lemma lookup_attr_app l k ty :
  lookup_attr (l ++ k) ty = match lookup_attr l ty with Some v => Some v | None => lookup_attr k ty end.
Proof. induction l as [|[t v] r IH]; simpl; [done|]. by destruct (t =? ty). Qed.

(** The bytes a list of attributes takes. *)
Fixpoint attrs_size (l : list (Z * list Z)) : Z :=
  match l with
  | [] => 0
  | (_, v) :: r => 4 + pad4 (blen v) + attrs_size r
  end.

Lemma attrs_at_app buf off fin l k :
  attrs_at buf off fin (l ++ k) ->
  attrs_at buf off (off + attrs_size l) l /\ attrs_at buf (off + attrs_size l) fin k.
Proof.
  revert off. induction l as [|[t v] r IH]; intros off; simpl.
  - rewrite Z.add_0_r. done.
  - intros (? & ? & ? & ? & ? & Ha). apply IH in Ha.
    replace (off + (4 + pad4 (blen v) + attrs_size r)) with (off + 4 + pad4 (blen v) + attrs_size r)
      by lia. tauto.
Qed.

Lemma attrs_at_size buf off fin l : attrs_at buf off fin l -> fin = off + attrs_size l.
Proof. intros A. rewrite <- (app_nil_r l) in A. by apply attrs_at_app in A as [_ A]. Qed.

(** The search passes over the attributes of other types. *)
Lemma find_attr_skip off l k t :
  lookup_attr l t = None -> find_attr off (l ++ k) t = find_attr (off + attrs_size l) k t.
Proof.
  revert off. induction l as [|[t' v'] r IH]; intros off; simpl; [by rewrite Z.add_0_r|].
  destruct (t' =? t); [done|]. intros Hl. rewrite IH by done. f_equal. lia.
Qed.

(** * Building messages *)
Lemma round_up_newlen c n :
  c mod 4 = 0 -> 0 <= n < 2 ^ 16 ->
  (if truthy (Z.land (c + 4 + n) 3) then c + 4 + n + (4 - Z.land (c + 4 + n) 3) else c + 4 + n)
  = c + 4 + pad4 n.
Proof.
  intros Hc Hn. unfold pad4, truthy, u16. rewrite !land3, (Z.mod_small n) by done.
  replace ((c + 4 + n) mod 4) with (n mod 4).
  - destruct (n mod 4 =? 0) eqn:?; simpl; bool_arith; lia.
  - replace (c + 4 + n) with (n + c + 1 * 4) by lia.
    rewrite Z.mod_add, Z.add_mod, Hc, Z.add_0_r, Z.mod_mod by lia. done.
Qed.

Lemma set_len_ret buf n :
  20 <= n -> 4 <= blen buf ->
  stun_set_command_message_len_str buf n = Ret (0, splice buf 2 (to_be 2 (n - 20))).
Proof.
  intros. unfold stun_set_command_message_len_str, STUN_HEADER_LENGTH. if_case.
  by rewrite wr_bytes_ret by buf_side.
Qed.

(** The memory after an attribute was appended at [c]. *)
Definition added (buf : list Z) (c : Z) (t : Z) (v : list Z) : list Z :=
  splice (splice (splice (splice buf 2 (to_be 2 (c + 4 + pad4 (blen v) - 20)))
                    c (to_be 2 t)) (c + 2) (to_be 2 (blen v))) (c + 4) v.

Lemma blen_added buf c t v :
  20 <= c -> c + 4 + blen v <= blen buf -> blen (added buf c t v) = blen buf.
Proof. intros. unfold added. by rewrite !blen_splice by buf_side. Qed.

(** What appending leaves alone: everything before [c] but the length field,
    and everything after the new value. *)
Lemma added_before buf c t v i n :
  20 <= c -> c + 4 + blen v <= blen buf -> 0 <= n -> (0 <= i /\ i + n <= 2 \/ 4 <= i) -> i + n <= c ->
  slice (added buf c t v) i n = slice buf i n.
Proof.
  intros ? ? ? [[? ?]|?] ?; unfold added; slice_simpl; done.
Qed.

Lemma added_after buf c t v i n :
  20 <= c -> c + 4 + blen v <= blen buf -> c + 4 + blen v <= i ->
  slice (added buf c t v) i n = slice buf i n.
Proof. intros. unfold added. slice_simpl. done. Qed.

Lemma added_attr buf c t v :
  20 <= c -> c + 4 + blen v <= blen buf -> 0 <= t < 2 ^ 16 -> blen v < 2 ^ 16 ->
  attrs_at (added buf c t v) c (c + 4 + pad4 (blen v)) [(t, v)].
Proof.
  intros. simpl. split; [done|]. split; [done|]. unfold added.
  split; [slice_simpl; done|]. split; [slice_simpl; done|]. split; [slice_simpl; done|done].
Qed.

Lemma added_lenfield buf c t v :
  20 <= c -> c + 4 + blen v <= blen buf ->
  slice (added buf c t v) 2 2 = to_be 2 (c + 4 + pad4 (blen v) - 20).
Proof. intros. unfold added. slice_simpl. done. Qed.

(** Appending to a represented message: the code succeeds and represents the
    abstract message with the attribute appended. *)
Lemma attr_add_refines b m t v :
  mrepr b m -> 0 <= t < 2 ^ 16 -> bytes_ok v ->
  mlen b + 4 + pad4 (blen v) < MAX_STUN_MESSAGE_SIZE ->
  mlen b + 4 + pad4 (blen v) <= blen (mdata b) -> blen v < 2 ^ 16 ->
  let b' := MBuf (added (mdata b) (mlen b) t v) (mlen b + 4 + pad4 (blen v)) in
  stun_attr_add_str b t (Some v) (blen v) = Ret (0, b') /\ mrepr b' (s_add m t v).
Proof.
  intros Hm Ht Hv Hmax Hcap Hv16 b'.
  pose proof (repr_command_len _ _ _ Hm) as Hc.
  destruct Hm as [B L L16 Ty F Co Ti At].
  destruct (attrs_at_le _ _ _ _ At) as [_ Hmod].
  destruct (pad4_spec (blen v)) as [Hpad _]; [blia|].
  assert (mlen b mod 4 = 0) as Hmod4.
  { replace (mlen b) with (mlen b - 20 + 5 * 4) by lia. by rewrite Z.mod_add by lia. }
  split.
  - unfold stun_attr_add_str. rewrite Hc. cbn [mbind outcome_bind].
    destruct (blen v <? 0) eqn:?; [bool_arith; blia|].
    rewrite round_up_newlen by (try blia; done).
    destruct (_ >=? MAX_STUN_MESSAGE_SIZE) eqn:?; [bool_arith; lia|].
    rewrite set_len_ret by blia. simpl.
    rewrite wr_bytes_ret by buf_side. simpl.
    rewrite wr_bytes_ret by buf_side. simpl.
    subst b'. unfold added. if_case.
    + rewrite rd_bytes_ret by blia. simpl. rewrite slice_all by done.
      rewrite wr_bytes_ret by buf_side. done.
    + simpl. assert (v = []) as -> by (apply length_zero_iff_nil; unfold blen in *; lia).
      by rewrite splice_nil.
  - subst b'. unfold mrepr. simpl.
    constructor; simpl.
    + unfold added. auto 10 with bytes.
    + rewrite blen_added by blia. blia.
    + unfold MAX_STUN_MESSAGE_SIZE in *. lia.
    + rewrite added_before by blia. done.
    + apply added_lenfield; blia.
    + rewrite added_before by blia. done.
    + rewrite added_before by blia. done.
    + eapply attrs_at_snoc; [|apply added_attr; blia].
      eapply attrs_at_frame; [|exact At]. intros. apply added_before; blia.
Qed.

(** ** Message types: every 12-bit method and class is encoded and decoded
    without loss.  There are only 4096 methods, so the kernel checks them all. *)
Definition type_roundtrip_ok (m : Z) : bool :=
  let rq := stun_make_request m in
  let ind := stun_make_indication m in
  let ok := stun_make_success_response m in
  let er := stun_make_error_response m in
  forallb (fun t => (method_of_type t =? m) && (0 <=? t) && (t <? 2 ^ 14) && (Z.land t 0x3FFF =? t))
    [rq; ind; ok; er] &&
  IS_STUN_REQUEST rq && negb (IS_STUN_INDICATION rq) && negb (IS_STUN_SUCCESS_RESP rq) && negb (IS_STUN_ERR_RESP rq) &&
  IS_STUN_INDICATION ind && negb (IS_STUN_REQUEST ind) && negb (IS_STUN_SUCCESS_RESP ind) && negb (IS_STUN_ERR_RESP ind) &&
  IS_STUN_SUCCESS_RESP ok && negb (IS_STUN_REQUEST ok) && negb (IS_STUN_INDICATION ok) && negb (IS_STUN_ERR_RESP ok) &&
  IS_STUN_ERR_RESP er && negb (IS_STUN_REQUEST er) && negb (IS_STUN_INDICATION er) && negb (IS_STUN_SUCCESS_RESP er).

Lemma all_methods_ok : forallb type_roundtrip_ok (seqZ 0 4096) = true.
Proof. vm_compute. reflexivity. Qed.

Lemma type_roundtrip m : 0 <= m < 4096 -> type_roundtrip_ok m = true.
Proof.
  intros H. pose proof all_methods_ok as A. rewrite forallb_forall in A. apply A.
  apply list_elem_of_In, elem_of_seqZ. lia.
Qed.

Lemma made_type_small m :
  0 <= m < 4096 ->
  (Z.land (stun_make_request m) 0x3FFF = stun_make_request m) /\
  (Z.land (stun_make_indication m) 0x3FFF = stun_make_indication m) /\
  (Z.land (stun_make_success_response m) 0x3FFF = stun_make_success_response m) /\
  (Z.land (stun_make_error_response m) 0x3FFF = stun_make_error_response m).
Proof.
  intros H. apply type_roundtrip in H. unfold type_roundtrip_ok in H. cbn [forallb] in H.
  bool_arith. auto.
Qed.

(** ** Initialisation *)
Lemma land_3FFF_range t : 0 <= Z.land t 0x3FFF < 2 ^ 14.
Proof. change 0x3FFF with (Z.ones 14). rewrite Z.land_ones by lia. apply Z.mod_pos_bound. lia. Qed.

Lemma blen_zeros n : blen (zeros n) = Z.of_nat n.
Proof. unfold blen, zeros. by rewrite length_replicate. Qed.

Lemma bytes_ok_zeros n : bytes_ok (zeros n).
Proof. apply Forall_replicate. unfold is_byte. lia. Qed.
#[export] Hint Resolve bytes_ok_zeros : bytes.

Lemma old_init_refines t buf cookie rnd :
  bytes_ok buf -> 20 <= blen buf -> bytes_ok rnd -> length rnd = 12%nat ->
  exists b, old_stun_init_command_str t buf cookie rnd = Ret b /\
    mrepr b (SMsg (Z.land t 0x3FFF) cookie rnd []) /\ mlen b = 20 /\ blen (mdata b) = blen buf.
Proof.
  intros B L Br Lr. unfold old_stun_init_command_str, stun_init_buffer_str.
  assert (blen rnd = 12) as Lr' by (unfold blen; lia).
  assert (blen (zeros 20) = 20) as Lz by apply blen_zeros.
  rewrite wr_bytes_ret by blia. mstep. cbn [mdata mlen].
  rewrite wr_bytes_ret by buf_side. mstep.
  rewrite wr_bytes_ret by buf_side. mstep.
  rewrite wr_bytes_ret by buf_side. mstep.
  unfold stun_tid_generate_in_message_str, stun_tid_message_cpy, STUN_TID_SIZE.
  rewrite firstn_all2 by lia. rewrite wr_bytes_ret by buf_side. mstep.
  eexists. split; [reflexivity|].
  set (b := splice _ 8 rnd).
  assert (blen b = blen buf) as Lb by (subst b; rewrite !blen_splice by buf_side; done).
  split; [|done]. unfold mrepr, STUN_HEADER_LENGTH. simpl. constructor; simpl.
  - subst b. auto 10 with bytes.
  - blia.
  - lia.
  - split; [|apply land_3FFF_range]. subst b. slice_simpl. done.
  - subst b. slice_simpl. done.
  - subst b. slice_simpl. done.
  - subst b. slice_simpl. done.
  - done.
Qed.

Lemma init_refines t buf rnd :
  bytes_ok buf -> 20 <= blen buf -> bytes_ok rnd -> length rnd = 12%nat ->
  exists b, stun_init_command_str t buf rnd = Ret b /\
    mrepr b (SMsg (Z.land t 0x3FFF) STUN_MAGIC_COOKIE rnd []) /\ mlen b = 20 /\
    blen (mdata b) = blen buf.
Proof. apply (old_init_refines t buf STUN_MAGIC_COOKIE rnd). Qed.

(** Overwriting the transaction id. *)
Lemma tid_cpy_refines b m id :
  mrepr b m -> bytes_ok id -> length id = 12%nat ->
  exists d, stun_tid_message_cpy (mdata b) (Some id) = Ret d /\
    mrepr (MBuf d (mlen b)) (SMsg (s_type m) (s_cookie m) id (s_attrs m)) /\
    blen d = blen (mdata b).
Proof.
  intros [B L L16 [Ty Tr] F Co Ti At] Bi Li. unfold stun_tid_message_cpy, STUN_TID_SIZE.
  assert (blen id = 12) as Li' by (unfold blen; lia).
  rewrite firstn_all2 by lia. rewrite wr_bytes_ret by lia. eexists. split; [done|].
  rewrite blen_splice by lia. split; [|done].
  constructor; simpl; rewrite ?blen_splice by lia; auto with bytes.
  - split; [|done]. slice_simpl. done.
  - slice_simpl. done.
  - slice_simpl. done.
  - slice_simpl. done.
  - eapply attrs_at_frame; [|exact At]. intros. slice_simpl. done.
Qed.

(** ** Classification of a represented message *)
Lemma repr_first_byte buf len m :
  repr buf len m -> rd8 buf 0 = Ret (s_type m / 256).
Proof.
  intros [B L _ [Ty Tr] _ _ _ _]. rewrite rd8_ret by lia. f_equal.
  replace (slice buf 0 1) with (slice (slice buf 0 2) 0 1) by (by rewrite slice_slice by lia).
  rewrite Ty. unfold to_be. simpl. unfold slice. simpl. unfold be. simpl.
  rewrite Z.mod_small; [lia|]. split; [apply Z.div_pos; lia|]. apply Z.div_lt_upper_bound; lia.
Qed.

Lemma repr_is_command buf len m :
  repr buf len m ->
  stun_is_command_message_str (Some buf) len = Ret (u32 (s_cookie m) =? STUN_MAGIC_COOKIE).
Proof.
  intros Hm. pose proof (repr_first_byte _ _ _ Hm) as H0.
  destruct Hm as [B L L16 [Ty Tr] F Co Ti At].
  destruct (attrs_at_le _ _ _ _ At) as [_ Hmod].
  unfold stun_is_command_message_str, STUN_HEADER_LENGTH.
  destruct (len >=? 20) eqn:?; [|bool_arith; lia]. simpl.
  rewrite (rd16_ret buf 0), Ty, be2 by lia. simpl.
  assert (STUN_VALID_CHANNEL (s_type m) = false) as -> by (unfold STUN_VALID_CHANNEL; lia).
  rewrite H0. simpl.
  assert (Z.land (s_type m / 256) 192 = 0) as ->.
  { apply Z.bits_inj'. intros n Hn. rewrite Z.land_spec, Z.bits_0.
    destruct (Z.lt_ge_cases n 6) as [?|?].
    - replace (Z.testbit 192 n) with false; [apply andb_false_r|].
      symmetry. assert (n = 0 \/ n = 1 \/ n = 2 \/ n = 3 \/ n = 4 \/ n = 5) as Hc by lia.
      destruct Hc as [->|[->|[->|[->|[->| ->]]]]]; done.
    - rewrite (Z.bits_above_log2 (s_type m / 256)); [done| |].
      + apply Z.div_pos; lia.
      + destruct (Z.eq_dec (s_type m / 256) 0) as [->|?]; [simpl; lia|].
        apply Z.log2_lt_pow2; [pose proof (Z.div_pos (s_type m) 256); lia|].
        apply Z.div_lt_upper_bound; [lia|]. apply (Z.lt_le_trans _ (256 * 2 ^ 6)); [lia|].
        apply Z.mul_le_mono_nonneg_l; [lia|]. apply Z.pow_le_mono_r; lia. }
  cbn [negb Z.eqb]. rewrite (rd32_ret buf 4), Co, be_to_be by lia. mstep.
  change (s_cookie m mod 256 ^ Z.of_nat 4) with (u32 (s_cookie m)).
  destruct (u32 (s_cookie m) =? STUN_MAGIC_COOKIE); [|done]. simpl.
  rewrite (rd16_ret buf 2), F, be2 by lia. simpl. rewrite land3, Hmod. simpl. f_equal. lia.
Qed.

Lemma repr_msg_type buf len m :
  repr buf len m -> stun_get_msg_type_str (Some buf) len = Ret (s_type m).
Proof.
  intros [B L L16 [Ty Tr] _ _ _ _]. unfold stun_get_msg_type_str.
  destruct (len <? 2) eqn:?; [bool_arith; lia|]. rewrite (rd16_ret buf 0), Ty, be2 by lia. simpl.
  change 0x3FFF with (Z.ones 14). by rewrite Z.land_ones, Z.mod_small by lia.
Qed.

Lemma repr_method buf len m :
  repr buf len m -> stun_get_method_str (Some buf) len = Ret (method_of_type (s_type m)).
Proof.
  intros [B L L16 [Ty Tr] _ _ _ _]. unfold stun_get_method_str.
  destruct (len <? 2) eqn:?; [bool_arith; lia|]. by rewrite (rd16_ret buf 0), Ty, be2 by lia.
Qed.

Lemma repr_not_channel buf len m :
  repr buf len m -> is_channel_msg_str (Some buf) len = Ret false.
Proof.
  intros [B L L16 [Ty Tr] _ _ _ _]. unfold is_channel_msg_str.
  destruct (len >=? 4) eqn:?; [|done]. rewrite (rd16_ret buf 0), Ty, be2 by lia. simpl.
  f_equal. unfold STUN_VALID_CHANNEL. lia.
Qed.

(** ** Address attributes in messages *)
Lemma slice_drop_app (buf v : list Z) i :
  0 <= i -> slice buf i (blen v) = v -> exists rest, drop (Z.to_nat i) buf = v ++ rest.
Proof.
  intros Hi E. exists (drop (length v) (drop (Z.to_nat i) buf)).
  unfold slice, blen in E. rewrite Nat2Z.id in E.
  rewrite <- E at 1. by rewrite take_drop.
Qed.

(** Reading the first attribute of a type that is an address attribute whose
    value is an encoded address. *)
Lemma get_addr_at buf len m off t v r ca xor_ed :
  repr buf len m -> 20 <= off -> attrs_at buf off len ((t, v) :: r) ->
  length (s_tid m) = 12%nat -> addr_wf ca -> xor_ed = is_xor_type t ->
  stun_addr_encode (Some ca) xor_ed STUN_MAGIC_COOKIE (Some (s_tid m)) = Some v -> 0 < blen v ->
  exists ca', stun_attr_get_addr_str [] buf len (Some off) None = Ret (0, ca') /\ same_endpoint ca' ca.
Proof.
  intros Hm Ho Ha Lt W -> E Hv. pose proof (repr_len _ _ _ Hm).
  assert (slice buf (off + 4) (blen v) = v) as Ev by (by destruct Ha as (_ & _ & _ & _ & ? & _)).
  destruct (slice_drop_app buf v (off + 4) ltac:(lia) Ev) as [rest Hd].
  destruct (decode_encode addr_zero ca _ STUN_MAGIC_COOKIE (s_tid m) v rest W Lt E) as (ca' & D & S).
  exists ca'. split; [|done].
  unfold stun_attr_get_addr_str, stun_tid_from_message_str.
  rewrite (rd_bytes_ret buf 8 12), (repr_tid _ _ _ Hm) by lia. mstep.
  rewrite (at_type _ _ _ _ _ _ _ Hm Ho Ha). mstep.
  assert (0 <= t) as Ht by (destruct Ha as (? & _); lia).
  destruct (t <? 0) eqn:?; [bool_arith; lia|].
  rewrite (at_value _ _ _ _ _ _ _ Hm Ho Ha). mstep.
  destruct (blen v <? 1) eqn:?; [bool_arith; lia|].
  rewrite (at_len _ _ _ _ _ _ _ Hm Ho Ha). mstep. rewrite Hd, D. done.
Qed.

Lemma encode_some ca xor_ed mc tid :
  sa_family ca = AF_INET \/ sa_family ca = 0 \/ sa_family ca = AF_INET6 ->
  exists v, stun_addr_encode (Some ca) xor_ed mc (Some tid) = Some v.
Proof. unfold stun_addr_encode. intros [-> | [-> | ->] ]; destruct xor_ed; simpl; eauto. Qed.

(** The body of the loop of [stun_attr_get_first_addr_str] without address
    table and default address. *)
Definition addr_body (buf : list Z) (len ty a : Z) : outcome (option ioa_addr) :=
  is_addr ← stun_attr_is_addr buf (Some a);
  t ← stun_attr_get_type buf (Some a);
  if is_addr && (ty =? t) then
    '(r, ca) ← stun_attr_get_addr_str [] buf len (Some a) None;
    if r =? 0 then Ret (Some ca) else Ret None
  else Ret None.

Lemma get_first_addr_body buf len ty :
  stun_attr_get_first_addr_str [] buf len ty None = attr_iter buf len (addr_body buf len ty).
Proof. done. Qed.

(** The search for an address passes over the attributes of other types. *)
Lemma search_addr_skip buf len m off l ty k :
  repr buf len m -> 20 <= off -> attrs_at buf off len (l ++ k) -> lookup_attr l ty = None ->
  exists off', 20 <= off' /\ attrs_at buf off' len k /\
    search (addr_body buf len ty) off (l ++ k) = search (addr_body buf len ty) off' k.
Proof.
  intros Hm. revert off. induction l as [|[t v] r IH]; intros off Ho Ha Hl; [by exists off|].
  simpl in Hl. destruct (t =? ty) eqn:E; [done|].
  pose proof (at_bounds _ _ _ _ _ _ _ Hm Ha).
  assert (attrs_at buf (off + 4 + pad4 (blen v)) len (r ++ k)) as Hr
    by (by destruct Ha as (_ & _ & _ & _ & _ & ?)).
  destruct (IH (off + 4 + pad4 (blen v)) ltac:(blia) Hr Hl) as (off' & ? & ? & Hs).
  exists off'. split; [done|]. split; [done|]. rewrite <- Hs. cbn [search app].
  assert (addr_body buf len ty off = Ret None) as ->; [|done].
  unfold addr_body, stun_attr_is_addr. rewrite (at_type _ _ _ _ _ _ _ Hm Ho Ha). mstep.
  by rewrite (Z.eqb_sym ty t), E, andb_false_r.
Qed.

Lemma add_addr_refines b m t ca :
  mrepr b m -> length (s_tid m) = 12%nat -> addr_wf ca ->
  sa_family ca = AF_INET \/ sa_family ca = 0 \/ sa_family ca = AF_INET6 -> 0 <= t < 2 ^ 16 ->
  mlen b + 24 < MAX_STUN_MESSAGE_SIZE -> mlen b + 24 <= blen (mdata b) ->
  exists v b', stun_addr_encode (Some ca) (is_xor_type t) STUN_MAGIC_COOKIE (Some (s_tid m)) = Some v /\
    (blen v = 8 \/ blen v = 20) /\
    stun_attr_add_addr_str [] b t ca = Ret (0, b') /\ mrepr b' (s_add m t v) /\
    mlen b' = mlen b + 4 + blen v /\ blen (mdata b') = blen (mdata b).
Proof.
  intros Hm Lt W F Ht Hmax Hcap. pose proof (repr_len _ _ _ Hm) as HL.
  destruct (encode_some ca (is_xor_type t) STUN_MAGIC_COOKIE (s_tid m) F) as [v E].
  assert (bytes_ok (s_tid m)) as Bt.
  { rewrite <- (repr_tid _ _ _ Hm). apply bytes_ok_slice, (repr_bytes _ _ _ Hm). }
  destruct (length_encode _ _ _ _ _ W Lt E Bt) as [Bv Lv].
  assert (pad4 (blen v) = blen v) as Hp by (by destruct Lv as [-> | ->]).
  destruct (attr_add_refines b m t v Hm Ht Bv) as [A R]; rewrite ?Hp; try lia.
  rewrite Hp in A, R. exists v. eexists. split; [done|]. split; [done|]. split; [|split; [exact R|]].
  - unfold stun_attr_add_addr_str, stun_tid_from_message_str.
    rewrite (rd_bytes_ret (mdata b) 8 12), (repr_tid _ _ _ Hm) by lia. mstep.
    cbn [map_addr_from_private_to_public]. rewrite E, A. done.
  - simpl. split; [done|]. apply blen_added; lia.
Qed.

(** The search by type on any bytes. *)
Lemma search_by_type_safe buf len ty :
  bytes_ok buf -> len <= blen buf ->
  exists r, stun_attr_get_first_by_type_str buf len ty = Ret r /\
    (forall a, r = Some a ->
       exists l, 20 <= a /\ stun_attr_get_type buf (Some a) = Ret ty /\
                 stun_attr_get_len buf (Some a) = Ret l /\ 0 <= l /\ a + 4 + pad4 l <= len).
Proof.
  intros B L. unfold stun_attr_get_first_by_type_str.
  edestruct (attr_iter_returns (R := Z) buf len) as (r & -> & Hr); [done|done| |].
  - intros fin a Hf V. pose proof (attr_valid_bound _ _ _ V).
    destruct (rd16_ok buf a) as (t & Et & _); [done|lia|lia|].
    unfold stun_attr_get_type. rewrite Et. mstep. destruct (t =? ty); auto with turn.
  - exists r. split; [done|]. intros a ->. destruct (Hr a eq_refl) as (fin & a' & Hf & V & Eb).
    destruct V as (Ha & l & El & Rl & Hle). unfold stun_attr_get_type in Eb.
    destruct (rd16 buf a') as [t| |] eqn:Et; try discriminate Eb. simpl in Eb.
    destruct (t =? ty) eqn:E; [|discriminate]. injection Eb as <-. bool_arith. subst t.
    exists l. unfold stun_attr_get_type, stun_attr_get_len. split_and!; (done || lia).
Qed.

(** Appending over the size limit. *)
Lemma add_too_long b m t v :
  mrepr b m -> blen v < 2 ^ 16 ->
  MAX_STUN_MESSAGE_SIZE <= mlen b + 4 + pad4 (blen v) ->
  stun_attr_add_str b t (Some v) (blen v) = Ret (-1, b).
Proof.
  intros Hm Hv Hmax. unfold stun_attr_add_str.
  destruct (blen v <? 0) eqn:?; [bool_arith; blia|].
  rewrite (repr_command_len _ _ _ Hm). mstep.
  destruct (attrs_at_le _ _ _ _ (repr_attrs _ _ _ Hm)) as [_ Hmod].
  rewrite round_up_newlen.
  - destruct (_ >=? MAX_STUN_MESSAGE_SIZE) eqn:?; [done|]. bool_arith. lia.
  - replace (mlen b) with (mlen b - 20 + 5 * 4) by lia. by rewrite Z.mod_add by lia.
  - blia.
Qed.

(** Overwriting the value of the last attribute. *)
Lemma repr_set_last b m t v w :
  mrepr b (s_add m t v) -> pad4 (blen v) = blen v -> length w = length v -> bytes_ok w ->
  mrepr (MBuf (splice (mdata b) (mlen b - blen v) w) (mlen b)) (s_add m t w).
Proof.
  intros Hm Hp Hl Bw. destruct Hm as [B L L16 [Ty Ty'] Le C T A]. simpl in *.
  assert (blen w = blen v) as Hw by (unfold blen; lia).
  apply attrs_at_app in A as [A1 A2].
  pose proof (attrs_at_le _ _ _ _ A1) as [? _]. destruct A2 as (? & ? & E1 & E2 & E3 & E4).
  simpl in E4. rewrite Hp in E4. blen_pos.
  constructor; simpl.
  - by apply bytes_ok_splice.
  - rewrite blen_splice by lia. lia.
  - lia.
  - rewrite slice_splice_before by lia. done.
  - rewrite slice_splice_before by lia. done.
  - rewrite slice_splice_before by lia. done.
  - rewrite slice_splice_before by lia. done.
  - apply (attrs_at_snoc _ _ (20 + attrs_size (s_attrs m))).
    + eapply attrs_at_frame; [|exact A1]. intros. apply slice_splice_before; lia.
    + simpl. rewrite !slice_splice_before by lia. rewrite Hw, Hp.
      rewrite (slice_splice_eq _ _ w) by lia. split_and!; try done; lia.
Qed.

(** The first bytes of an overwritten buffer. *)
Lemma slice_splice_prefix (l : list Z) i bs n :
  0 <= i -> i + blen bs <= n -> n <= blen l -> slice (splice l i bs) 0 n = splice (slice l 0 n) i bs.
Proof.
  intros Hi Hb Hn. unfold slice, splice, blen in *. rewrite !drop_0, !take_app, !take_take.
  rewrite length_take. rewrite (firstn_all2 bs) by lia. rewrite skipn_firstn_comm.
  f_equal; [f_equal; lia|]. do 2 f_equal. lia.
Qed.

Lemma slice_splice_above (l : list Z) i bs n :
  0 <= n -> n <= i -> i + blen bs <= blen l -> slice (splice l i bs) 0 n = slice l 0 n.
Proof. intros. apply slice_splice_before; blia. Qed.

(** Appending an attribute with a place holder and filling in the value later,
    the way FINGERPRINT and MESSAGE-INTEGRITY are added. *)
Lemma add_fill b m t w v :
  mrepr b m -> 0 <= t < 2 ^ 16 -> bytes_ok w -> bytes_ok v -> length v = length w ->
  pad4 (blen w) = blen w -> blen w < 2 ^ 16 ->
  mlen b + 4 + blen w < MAX_STUN_MESSAGE_SIZE -> mlen b + 4 + blen w <= blen (mdata b) ->
  let d := added (mdata b) (mlen b) t w in
  stun_attr_add_str b t (Some w) (blen w) = Ret (0, MBuf d (mlen b + 4 + blen w)) /\
  blen d = blen (mdata b) /\
  slice d 0 (mlen b) = slice (splice (mdata b) 2 (to_be 2 (mlen b + 4 + blen w - 20))) 0 (mlen b) /\
  mrepr (MBuf (splice d (mlen b + 4) v) (mlen b + 4 + blen w)) (s_add m t v).
Proof.
  intros Hm Ht Bw Bv Lv Hp Hw Hmax Hcap d. pose proof (repr_len _ _ _ Hm) as HL. blen_pos.
  destruct (attr_add_refines b m t w Hm Ht Bw) as [A R]; rewrite ?Hp; try lia.
  rewrite Hp in A, R. split; [done|]. split; [apply blen_added; lia|]. split.
  - rewrite slice_splice_prefix by (rewrite ?blen_to_be; lia). subst d. unfold added. rewrite Hp.
    do 3 (rewrite slice_splice_above by buf_side).
    by rewrite slice_splice_prefix by (rewrite ?blen_to_be; lia).
  - pose proof (repr_set_last _ _ _ _ v R) as S. cbn [mdata mlen] in S.
    replace (mlen b + 4 + blen w - blen w) with (mlen b + 4) in S by lia. by apply S.
Qed.

(** An attribute appended as the only one of its type is found where the
    message ended before. *)
Lemma find_attr_last b m t l v :
  mrepr b m -> lookup_attr (s_attrs m) t = None ->
  find_attr 20 (s_attrs m ++ (t, v) :: l) t = Some (mlen b).
Proof.
  intros Hm Hn. rewrite find_attr_skip by done. simpl. rewrite Z.eqb_refl.
  by rewrite (attrs_at_size _ _ _ _ (repr_attrs _ _ _ Hm)).
Qed.

(** * Claims *)

(** C13. Searching attributes is safe on any bytes: whatever a received buffer
    holds, the search by type reads only inside the given length, ends, and a
    reference it returns points to an attribute of that type that lies
    entirely, header, value and padding, inside the received bytes. *)
Theorem attr_search_safe buf len ty :
  bytes_ok buf -> len <= blen buf ->
  exists r, stun_attr_get_first_by_type_str buf len ty = Ret r /\
    (forall a, r = Some a ->
       exists l, 20 <= a /\ stun_attr_get_type buf (Some a) = Ret ty /\
                 stun_attr_get_len buf (Some a) = Ret l /\ 0 <= l /\ a + 4 + pad4 l <= len).
Proof. apply search_by_type_safe. Qed.

Definition ex_msg : list Z :=
  [0; 1; 0; 8; 0x21; 0x12; 0xA4; 0x42] ++ zeros 12 ++ [0x80; 0x22; 0; 3; 97; 98; 99; 0].

Lemma attr_search_safe_witness :
  exists r, stun_attr_get_first_by_type_str ex_msg 28 0x8022 = Ret r /\
    (forall a, r = Some a ->
       exists l, 20 <= a /\ stun_attr_get_type ex_msg (Some a) = Ret 0x8022 /\
                 stun_attr_get_len ex_msg (Some a) = Ret l /\ 0 <= l /\ a + 4 + pad4 l <= 28).
Proof. apply attr_search_safe; [by apply bytes_okb_spec|discriminate]. Defined.

(** C14. Refinement of the parser: on bytes that represent an abstract message,
    the search by type finds exactly the first attribute of the type in the
    attribute list, and the bytes at the returned place are its value. *)
Theorem attr_search_refines buf len m ty :
  repr buf len m ->
  match lookup_attr (s_attrs m) ty with
  | None => stun_attr_get_first_by_type_str buf len ty = Ret None
  | Some v => exists a, stun_attr_get_first_by_type_str buf len ty = Ret (Some a) /\
                        stun_attr_get_len buf (Some a) = Ret (blen v) /\
                        rd_bytes buf (a + 4) (blen v) = Ret v
  end.
Proof.
  intros Hm. rewrite (get_first_by_type_refines _ _ m) by done.
  destruct (find_attr 20 (s_attrs m) ty) as [a|] eqn:E.
  - destruct (find_attr_at _ _ _ _ _ _ (repr_attrs _ _ _ Hm) E) as (v & r & -> & Ho & Ha).
    exists a. split; [done|]. split; [by eapply at_len|by eapply at_value_bytes].
  - apply find_attr_none in E. by rewrite E.
Qed.

Definition ex_smsg : smsg := SMsg 1 STUN_MAGIC_COOKIE (zeros 12) [(0x8022, [97; 98; 99])].

Lemma ex_msg_repr : repr ex_msg 28 ex_smsg.
Proof.
  constructor; try (by apply bytes_okb_spec); try done; split; done.
Qed.

Lemma attr_search_refines_witness :
  match lookup_attr (s_attrs ex_smsg) 0x8022 with
  | None => stun_attr_get_first_by_type_str ex_msg 28 0x8022 = Ret None
  | Some v => exists a, stun_attr_get_first_by_type_str ex_msg 28 0x8022 = Ret (Some a) /\
                        stun_attr_get_len ex_msg (Some a) = Ret (blen v) /\
                        rd_bytes ex_msg (a + 4) (blen v) = Ret v
  end.
Proof. apply attr_search_refines. exact ex_msg_repr. Defined.

(** Refinement of the builder: appending an attribute to a message that
    represents an abstract one, with room in the buffer and below the size
    limit, returns 0 and represents the message with the attribute appended;
    the new length is a multiple of four, nothing outside the length field and
    the new attribute changes. *)
Theorem attr_add_appends b m t v :
  mrepr b m -> 0 <= t < 2 ^ 16 -> bytes_ok v -> blen v < 2 ^ 16 ->
  mlen b + 4 + pad4 (blen v) < MAX_STUN_MESSAGE_SIZE ->
  mlen b + 4 + pad4 (blen v) <= blen (mdata b) ->
  exists b', stun_attr_add_str b t (Some v) (blen v) = Ret (0, b') /\
    mrepr b' (s_add m t v) /\ mlen b' = mlen b + 4 + pad4 (blen v) /\
    blen (mdata b') = blen (mdata b) /\
    (forall i n, 0 <= n -> (0 <= i /\ i + n <= 2 \/ 4 <= i /\ i + n <= mlen b \/
                            mlen b + 4 + blen v <= i) ->
       slice (mdata b') i n = slice (mdata b) i n).
Proof.
  intros Hm Ht Hv Hv16 Hmax Hcap. pose proof (repr_len _ _ _ Hm).
  destruct (pad4_spec (blen v)) as [? _]; [blia|].
  destruct (attr_add_refines b m t v Hm Ht Hv Hmax Hcap Hv16) as [A R].
  eexists. split; [exact A|]. split; [exact R|]. split; [done|]. cbn [mdata].
  split; [apply blen_added; blia|]. intros i n Hn [?|[?|?]].
  - apply added_before; blia.
  - apply added_before; blia.
  - apply added_after; blia.
Qed.

Definition ex_buf : list Z := zeros 64.
Definition ex_mbuf : mbuf := MBuf (ex_msg ++ zeros 36) 28.

Lemma ex_mbuf_repr : mrepr ex_mbuf ex_smsg.
Proof. constructor; try (by apply bytes_okb_spec); try done; split; done. Qed.

Lemma attr_add_appends_witness :
  exists b', stun_attr_add_str ex_mbuf 6 (Some [117; 115; 101; 114; 49]) 5 = Ret (0, b') /\
    mrepr b' (s_add ex_smsg 6 [117; 115; 101; 114; 49]) /\ mlen b' = 28 + 4 + 8 /\
    blen (mdata b') = 64 /\
    (forall i n, 0 <= n -> (0 <= i /\ i + n <= 2 \/ 4 <= i /\ i + n <= 28 \/ 28 + 4 + 5 <= i) ->
       slice (mdata b') i n = slice (mdata ex_mbuf) i n).
Proof.
  apply (attr_add_appends ex_mbuf ex_smsg 6 [117; 115; 101; 114; 49]);
    [exact ex_mbuf_repr|done|by apply bytes_okb_spec|done|done|done].
Defined.

(** Size limit: when the padded message would reach 65507 bytes,
    appending fails with -1 and leaves the message as it was. *)
Theorem attr_add_too_long b m t v :
  mrepr b m -> blen v < 2 ^ 16 ->
  MAX_STUN_MESSAGE_SIZE <= mlen b + 4 + pad4 (blen v) ->
  stun_attr_add_str b t (Some v) (blen v) = Ret (-1, b).
Proof. apply add_too_long. Qed.

Lemma attr_add_too_long_witness :
  stun_attr_add_str ex_mbuf 19 (Some (zeros (Z.to_nat 65500))) (blen (zeros (Z.to_nat 65500))) = Ret (-1, ex_mbuf).
Proof.
  apply (attr_add_too_long ex_mbuf ex_smsg); [exact ex_mbuf_repr| |].
  - rewrite blen_zeros. reflexivity.
  - rewrite blen_zeros. vm_compute. discriminate.
Defined.

(** Message types are lossless: for each of the 4096 methods and each of
    the four classes, a freshly initialised message is recognised as a STUN
    command message of that class and of no other, its method is the one
    given, and its transaction id and attribute list are the random id and
    the empty list. *)
Theorem init_message_roundtrip method buf rnd :
  0 <= method < 4096 -> bytes_ok buf -> 20 <= blen buf -> bytes_ok rnd -> length rnd = 12%nat ->
  forall mk is_cls,
    (mk, is_cls) ∈ [(stun_make_request, IS_STUN_REQUEST); (stun_make_indication, IS_STUN_INDICATION);
                    (stun_make_success_response, IS_STUN_SUCCESS_RESP);
                    (stun_make_error_response, IS_STUN_ERR_RESP)] ->
    exists b, stun_init_command_str (mk method) buf rnd = Ret b /\
      mrepr b (SMsg (mk method) STUN_MAGIC_COOKIE rnd []) /\
      stun_is_command_message_str (Some (mdata b)) (mlen b) = Ret true /\
      stun_get_method_str (Some (mdata b)) (mlen b) = Ret method /\
      (t ← stun_get_msg_type_str (Some (mdata b)) (mlen b); Ret (is_cls t)) = Ret true.
Proof.
  intros Hmeth B L Br Lr mk is_cls Hin.
  destruct (init_refines (mk method) buf rnd B L Br Lr) as (b & E & R & _).
  assert (Z.land (mk method) 0x3FFF = mk method /\ method_of_type (mk method) = method /\
          is_cls (mk method) = true) as (Hl & Hmt & Hc).
  { apply type_roundtrip in Hmeth. unfold type_roundtrip_ok in Hmeth. cbn [forallb] in Hmeth.
    bool_arith. rewrite !elem_of_cons, elem_of_nil in Hin.
    destruct Hin as [ [= -> ->] | [ [= -> ->] | [ [= -> ->] | [ [= -> ->] | [] ] ] ] ]; auto. }
  rewrite Hl in R. exists b. split; [done|]. split; [done|].
  rewrite (repr_is_command _ _ _ R), (repr_method _ _ _ R), (repr_msg_type _ _ _ R).
  simpl. rewrite Hmt, Hc. done.
Qed.

Lemma init_message_roundtrip_witness :
  exists b, stun_init_command_str (stun_make_error_response 0x123) ex_buf (zeros 12) = Ret b /\
    mrepr b (SMsg (stun_make_error_response 0x123) STUN_MAGIC_COOKIE (zeros 12) []) /\
    stun_is_command_message_str (Some (mdata b)) (mlen b) = Ret true /\
    stun_get_method_str (Some (mdata b)) (mlen b) = Ret 0x123 /\
    (t ← stun_get_msg_type_str (Some (mdata b)) (mlen b); Ret (IS_STUN_ERR_RESP t)) = Ret true.
Proof.
  apply (init_message_roundtrip 0x123 ex_buf (zeros 12));
    [done|by apply bytes_okb_spec|done|by apply bytes_okb_spec|done|].
  rewrite !elem_of_cons. auto.
Defined.

(** An address attribute survives the message: appending an IPv4 or IPv6
    address to a represented message without an attribute of that type, and
    searching the resulting bytes for the first address of that type, gives
    back the same family, port and address (no address table configured). *)
Theorem message_addr_roundtrip b m t ca :
  mrepr b m -> length (s_tid m) = 12%nat -> addr_wf ca ->
  sa_family ca = AF_INET \/ sa_family ca = 0 \/ sa_family ca = AF_INET6 ->
  is_addr_type t = true -> lookup_attr (s_attrs m) t = None ->
  mlen b + 24 < MAX_STUN_MESSAGE_SIZE -> mlen b + 24 <= blen (mdata b) ->
  exists b' ca', stun_attr_add_addr_str [] b t ca = Ret (0, b') /\
    stun_attr_get_first_addr_str [] (mdata b') (mlen b') t None = Ret (Some ca') /\
    same_endpoint ca' ca.
Proof.
  intros Hm Lt W F Hty Hnone Hmax Hcap.
  assert (0 <= t < 2 ^ 16) as Ht.
  { unfold is_addr_type in Hty. repeat (apply orb_true_iff in Hty as [Hty|Hty]);
      bool_arith; subst t; done. }
  destruct (add_addr_refines b m t ca Hm Lt W F Ht Hmax Hcap) as (v & b' & E & Lv & A & R & _ & _).
  pose proof (repr_attrs _ _ _ R) as At.
  destruct (search_addr_skip (mdata b') (mlen b') _ 20 (s_attrs m) t [(t, v)] R ltac:(lia) At Hnone)
    as (off & Ho & Ha & Hs).
  destruct (get_addr_at _ _ _ off t v [] ca _ R Ho Ha Lt W eq_refl E ltac:(lia)) as (ca' & G & S).
  exists b', ca'. split; [done|]. split; [|done].
  rewrite get_first_addr_body, (attr_iter_search _ _ _ _ R). cbn [s_attrs s_add]. rewrite Hs.
  cbn [search]. unfold addr_body at 1, stun_attr_is_addr.
  rewrite (at_type _ _ _ _ _ _ _ R Ho Ha). mstep. rewrite Hty, Z.eqb_refl. cbn [andb].
  rewrite G. done.
Qed.

Lemma message_addr_roundtrip_witness :
  exists b' ca', stun_attr_add_addr_str [] ex_mbuf STUN_ATTRIBUTE_XOR_MAPPED_ADDRESS
                   (ex_v4 192 0 2 1 32853) = Ret (0, b') /\
    stun_attr_get_first_addr_str [] (mdata b') (mlen b') STUN_ATTRIBUTE_XOR_MAPPED_ADDRESS None
      = Ret (Some ca') /\
    same_endpoint ca' (ex_v4 192 0 2 1 32853).
Proof.
  apply (message_addr_roundtrip ex_mbuf ex_smsg); try done; try (by apply addr_wfb_spec).
  - exact ex_mbuf_repr.
  - by left.
Defined.
