(* ===== verification/StunFraming.v ===== *)
(** Framing: ChannelData messages, HTTP requests and the length of the next
    message of a byte stream (src/coturn/src/client/ns_turn_msg.c). *)

From stdpp Require Import base option numbers list strings.
From S2P Require Import Prelude IoAddr StunAddr StunDefs StunMsg StunMsgFacts.

(** * ChannelData messages *)
Definition stun_init_channel_message_str (chnumber : Z) (m : mbuf) (length : Z) (do_padding : bool) :
    outcome (Z * mbuf) :=
  let rlen := u16 length in
  if (length <? 0) || (MAX_STUN_MESSAGE_SIZE <? 4 + length) then Ret (-1, m)
  else
    b ← wr_bytes (mdata m) 0 (to_be 2 chnumber);
    b ← wr_bytes b 2 (to_be 2 length);
    let rlen := if do_padding && truthy (Z.land rlen 0x0003)
                then u16 (Z.shiftl (Z.shiftr rlen 2 + 1) 2) else rlen in
    Ret (0, MBuf b (4 + rlen)).

(** The result, the contents of [*blen] and of [*chnumber] when written. *)
Definition stun_is_channel_message_str (buf : list Z) (blen : Z) (mandatory_padding : bool) :
    outcome (bool * Z * option Z) :=
  if blen <? 4 then Ret (false, blen, None)
  else
    chn ← rd16 buf 0;
    if negb (STUN_VALID_CHANNEL chn) then Ret (false, blen, None)
    else
      let blen := if blen >? 65535 then 65535 else blen in
      let datalen_actual := u16 (u16 blen - 4) in
      datalen_header ← rd16 buf 2;
      if datalen_header >? datalen_actual then Ret (false, blen, None)
      else
        let refused :=
          if negb (datalen_header =? datalen_actual) then
            if truthy (Z.land datalen_actual 0x0003) then
              if (mandatory_padding : bool) then true
              else if (datalen_actual <? datalen_header) || (datalen_header =? 0) then true
              else u16 (datalen_actual - datalen_header) >? 3
            else false
          else false in
        if (refused : bool) then Ret (false, blen, None)
        else Ret (true, datalen_header + 4, Some chn).

(** * HTTP requests

    [is_http_inline] uses [strstr] and [strtoul] on the received buffer, which
    read up to a terminating zero: without one in the buffer the behaviour is
    undefined. *)
Definition has_nul (s : list Z) : bool := existsb (fun c => c =? 0) s.

(** [strstr(s,needle)==s]. *)
Definition strstr_is_head (s needle : list Z) : outcome bool :=
  if has_nul s then Ret (bool_decide (take (length needle) (cstr s) = needle)) else UB.

Definition tolower (c : Z) : Z := if (65 <=? c) && (c <=? 90) then c + 32 else c.

(** [full] is the memory at the pointer; the comparison stops at the first
    difference, and reads no further than the needle is long. *)
Fixpoint sheadof (head full : list Z) (ignore_case : bool) : outcome bool :=
  match head with
  | [] => Ret true
  | h :: head' =>
      match full with
      | [] => UB
      | f :: full' =>
          if (h =? f) || (ignore_case && (tolower h =? tolower f)) then
            sheadof head' full' ignore_case
          else Ret false
      end
  end.

(** The loop of [findstr] over [n] candidate positions from offset [i]. *)
Fixpoint findstr_loop (s : list Z) (i : Z) (n : nat) (needle : list Z) (ignore_case : bool) :
    outcome (option Z) :=
  match n with
  | O => Ret None
  | S n' =>
      h ← sheadof needle (drop (Z.to_nat i) s) ignore_case;
      if (h : bool) then Ret (Some i) else findstr_loop s (i + 1) n' needle ignore_case
  end.

(** [findstr(s + hay, slen, needle, ignore_case)] as an offset in [s]. *)
Definition findstr (s : list Z) (hay slen : Z) (needle : list Z) (ignore_case : bool) :
    outcome (option Z) :=
  if slen =? 0 then Ret None
  else
    let nlen := blen needle in
    if nlen <=? slen then findstr_loop s hay (Z.to_nat (slen - nlen + 1)) needle ignore_case
    else Ret None.

(** [strtoul(s,NULL,10)] with saturation at [ULONG_MAX]. *)
Definition strtoul10 (s : list Z) : outcome Z :=
  if has_nul s then
    let sat v := if v >? 2 ^ 64 - 1 then 2 ^ 64 - 1 else v in
    Ret (match skip_blanks (cstr s) with
         | c :: r =>
             if c =? 45 then
               let v := digits_value 0 r in if v >? 2 ^ 64 - 1 then 2 ^ 64 - 1 else u64 (- v)
             else if c =? 43 then sat (digits_value 0 r)
             else sat (digits_value 0 (c :: r))
         | [] => 0
         end)
  else UB.

Definition is_http_inline (s : list Z) (blen : Z) : outcome Z :=
  if negb (blen >=? 12) then Ret 0 else
  g ← strstr_is_head s (bytes_of_string "GET ");
  p ← (if (g : bool) then Ret true else strstr_is_head s (bytes_of_string "POST "));
  d ← (if (p : bool) then Ret true else strstr_is_head s (bytes_of_string "DELETE "));
  u ← (if (d : bool) then Ret true else strstr_is_head s (bytes_of_string "PUT "));
  if negb u then Ret 0 else
  sp ← findstr s 4 (blen - 4) (bytes_of_string " HTTP/") false;
  match sp with
  | None => Ret 0
  | Some sp =>
      let sp := sp + 6 in
      let diff_blen := sp in
      if diff_blen + 4 <=? blen then
        sp ← findstr s sp (blen - diff_blen) [13; 10; 13; 10] false;
        match sp with
        | None => Ret 0
        | Some sp =>
            let ret_len := sp + 4 in
            cl ← findstr s 0 sp (bytes_of_string "content-length: ") true;
            match cl with
            | None => Ret ret_len
            | Some cl =>
                clen ← strtoul10 (drop (Z.to_nat (cl + 16)) s);
                if (clen >? 0) && (clen <? 0x0FFFFFFF) then Ret (ret_len + clen) else Ret ret_len
            end
        end
      else Ret 0
  end.

Definition is_http (s : list Z) (blen : Z) : outcome Z := is_http_inline s blen.

(** * The next message of a stream: the result and [*app_len] when written *)
Definition stun_get_message_len_str (buf : option (list Z)) (blen : Z) (padding : bool) :
    outcome (Z * option Z) :=
  match buf with
  | None => Ret (-1, None)
  | Some b =>
      if blen =? 0 then Ret (-1, None) else
      stun ← (if blen >=? STUN_HEADER_LENGTH then
                chn ← rd16 b 0;
                if STUN_VALID_CHANNEL chn then Ret None else
                b0 ← rd8 b 0;
                if negb (Z.land b0 0xC0 =? 0) then Ret None else
                cookie ← rd32 b 4;
                if negb (cookie =? STUN_MAGIC_COOKIE) then Ret None else
                len ← rd16 b 2;
                if negb (Z.land len 0x0003 =? 0) then Ret None else
                let len := u16 (len + STUN_HEADER_LENGTH) in
                if len <=? blen then Ret (Some len) else Ret None
              else Ret None);
      match stun with
      | Some len => Ret (len, Some len)
      | None =>
          http_len ← is_http_inline b blen;
          if (http_len >? 0) && (http_len <=? blen) then Ret (http_len, Some http_len)
          else if blen >=? 4 then
            chn ← rd16 b 0;
            if STUN_VALID_CHANNEL chn then
              l ← rd16 b 2;
              let bret := u16 (4 + l) in
              let app_len := bret in
              let bret := if padding && truthy (Z.land bret 0x0003)
                          then u16 (Z.shiftl (Z.shiftr bret 2 + 1) 2) else bret in
              if bret <=? blen then Ret (bret, Some app_len) else Ret (-1, Some app_len)
            else Ret (-1, None)
          else Ret (-1, None)
      end
  end.

Arguments stun_init_channel_message_str : simpl never.
Arguments stun_is_channel_message_str : simpl never.
Arguments is_http_inline : simpl never.
Arguments stun_get_message_len_str : simpl never.

(** * Properties *)
Lemma round_up_shift n :
  0 <= n < 2 ^ 16 - 3 ->
  (if truthy (Z.land n 3) then u16 (Z.shiftl (Z.shiftr n 2 + 1) 2) else n) = pad4 n.
Proof.
  intros H. unfold pad4. rewrite (u16_small n) by lia.
  unfold truthy. rewrite land3. destruct (n mod 4 =? 0) eqn:E; [done|]. simpl. bool_arith.
  rewrite Z.shiftl_mul_pow2, Z.shiftr_div_pow2 by lia. change (2 ^ 2) with 4.
  pose proof (Z.div_mod n 4 ltac:(lia)). pose proof (Z.mod_pos_bound n 4 ltac:(lia)).
  rewrite u16_small by lia. lia.
Qed.

Lemma channel_len_padded n do_padding :
  0 <= n <= 65503 ->
  (if do_padding && truthy (Z.land (u16 n) 3) then u16 (Z.shiftl (Z.shiftr (u16 n) 2 + 1) 2)
   else u16 n) = if do_padding then pad4 n else n.
Proof.
  intros H. rewrite (u16_small n) by lia.
  destruct do_padding; [|done]. simpl. apply round_up_shift. lia.
Qed.

(** The header of a ChannelData message. *)
Lemma channel_accept buf blen chn n mand :
  bytes_ok buf -> 4 <= Prelude.blen buf -> slice buf 0 2 = to_be 2 chn -> slice buf 2 2 = to_be 2 n ->
  STUN_VALID_CHANNEL chn = true -> 0 <= n -> blen <= 65535 ->
  blen = 4 + n \/ blen = 4 + pad4 n ->
  stun_is_channel_message_str buf blen mand = Ret (true, n + 4, Some chn).
Proof.
  intros B L Ec En Hc Hn Hb Hcase. unfold stun_is_channel_message_str.
  assert (0x4000 <= chn <= 0x7FFF) as Rc by (unfold STUN_VALID_CHANNEL in Hc; lia).
  assert (n < 2 ^ 16) as Hn16.
  { destruct Hcase; [lia|]. destruct (Z.lt_ge_cases n (2 ^ 16)); [done|].
    unfold pad4, truthy in *. pose proof (Z.mod_pos_bound (u16 n) 4). rewrite land3 in *.
    destruct (u16 n mod 4 =? 0); simpl in *; lia. }
  destruct (pad4_spec n ltac:(lia)) as [Hp Hp4].
  assert (4 + n <= blen) by lia.
  destruct (blen <? 4) eqn:?; [bool_arith; lia|].
  rewrite (rd16_ret buf 0), Ec, be2 by lia. mstep. rewrite Hc. cbn [negb].
  rewrite (rd16_ret buf 2), En, be2 by lia. mstep.
  destruct (blen >? 65535) eqn:?; [bool_arith; lia|].
  assert (u16 (u16 blen - 4) = blen - 4) as -> by (rewrite !u16_small; rewrite ?u16_small; lia).
  destruct (n >? blen - 4) eqn:?; [bool_arith; lia|].
  destruct (n =? blen - 4) eqn:E; [done|]. cbn [negb]. bool_arith.
  assert (blen - 4 = pad4 n) as -> by lia.
  by rewrite land3, Hp4.
Qed.

Lemma init_channel_ret chn m n pad :
  bytes_ok (mdata m) -> 4 <= blen (mdata m) -> 0 <= n <= 65503 ->
  exists b, stun_init_channel_message_str chn m n pad = Ret (0, MBuf b (4 + if pad then pad4 n else n)) /\
    bytes_ok b /\ blen b = blen (mdata m) /\ slice b 0 2 = to_be 2 chn /\ slice b 2 2 = to_be 2 n /\
    (forall i k, 4 <= i -> 0 <= k -> i + k <= blen b -> slice b i k = slice (mdata m) i k).
Proof.
  intros B L H. unfold stun_init_channel_message_str, MAX_STUN_MESSAGE_SIZE.
  destruct (_ || _) eqn:E; [apply orb_true_iff in E as [E|E]; bool_arith; lia|].
  rewrite channel_len_padded by done. rewrite wr_bytes_ret by buf_side. mstep.
  rewrite wr_bytes_ret by buf_side. mstep.
  eexists. split; [reflexivity|]. split; [auto 8 with bytes|].
  assert (blen (splice (splice (mdata m) 0 (to_be 2 chn)) 2 (to_be 2 n)) = blen (mdata m)) as Lb
    by (rewrite !blen_splice by buf_side; done).
  split; [done|]. split; [slice_simpl; done|]. split; [slice_simpl; done|]. intros i k Hi Hk Hik. rewrite Lb in Hik.
  slice_simpl. done.
Qed.

(** * Claims *)

(** ChannelData round trip: for a valid channel number and up to 65503
    bytes of data, the framed message, padded or not, is accepted by the
    parser whatever its padding policy, with the same channel number and the
    exact data length, whatever data follow the header. *)
Theorem channel_message_roundtrip chn m n pad mand data :
  STUN_VALID_CHANNEL chn = true -> bytes_ok (mdata m) -> 0 <= n <= 65503 -> bytes_ok data ->
  4 + blen data <= blen (mdata m) ->
  exists b, stun_init_channel_message_str chn m n pad = Ret (0, b) /\
    mlen b = 4 + (if pad then pad4 n else n) /\
    (d ← wr_bytes (mdata b) 4 data; stun_is_channel_message_str d (mlen b) mand)
      = Ret (true, n + 4, Some chn).
Proof.
  intros Hc B Hn Bd Hcap. destruct (init_channel_ret chn m n pad B) as (b & E & Bb & Lb & S0 & S2 & _);
    [blia|done|].
  eexists. split; [exact E|]. split; [done|]. simpl.
  rewrite wr_bytes_ret by blia. simpl. destruct (pad4_spec n) as [? _]; [lia|].
  apply channel_accept; auto with bytes.
  - rewrite blen_splice by blia. blia.
  - slice_simpl. done.
  - slice_simpl. done.
  - lia.
  - destruct pad; lia.
  - destruct pad; [right|left]; done.
Qed.

Lemma channel_message_roundtrip_witness :
  exists b, stun_init_channel_message_str 0x4001 (MBuf ex_buf 0) 5 true = Ret (0, b) /\
    mlen b = 4 + pad4 5 /\
    (d ← wr_bytes (mdata b) 4 [1; 2; 3; 4; 5]; stun_is_channel_message_str d (mlen b) true)
      = Ret (true, 5 + 4, Some 0x4001).
Proof.
  apply (channel_message_roundtrip 0x4001 (MBuf ex_buf 0) 5 true true [1; 2; 3; 4; 5]);
    [done|by apply bytes_okb_spec|done|by apply bytes_okb_spec|done].
Defined.

(** The ChannelData parser is safe on any bytes: it reads only inside the
    given length, and a message it accepts has a valid channel number and a
    length between 4 and the number of bytes received. *)
Theorem channel_parse_safe buf blen0 mand :
  bytes_ok buf -> 0 <= blen0 <= blen buf ->
  exists ok len chn, stun_is_channel_message_str buf blen0 mand = Ret (ok, len, chn) /\
    (ok = true -> 4 <= len <= blen0 /\ exists c, chn = Some c /\ STUN_VALID_CHANNEL c = true).
Proof.
  intros B L. unfold stun_is_channel_message_str.
  destruct (blen0 <? 4) eqn:?; [by eexists _, _, _|]. bool_arith.
  destruct (rd16_ok buf 0) as (c & -> & _); [done|lia..|]. mstep.
  destruct (STUN_VALID_CHANNEL c) eqn:Ec; cbn [negb]; [|by eexists _, _, _].
  destruct (rd16_ok buf 2) as (h & -> & Rh); [done|lia..|]. mstep.
  set (bl := if blen0 >? 65535 then 65535 else blen0).
  assert (4 <= bl <= 65535 /\ bl <= blen0) as [? ?]
    by (subst bl; destruct (blen0 >? 65535) eqn:?; bool_arith; lia).
  assert (u16 (u16 bl - 4) = bl - 4) as -> by (rewrite !u16_small; rewrite ?u16_small; lia).
  destruct (h >? bl - 4) eqn:?; [by eexists _, _, _|]. bool_arith.
  match goal with |- context [if ?b then Ret (false, bl, None) else _] => destruct b end;
    [by eexists _, _, _|].
  eexists _, _, _. split; [done|]. intros _. split; [lia|]. eauto.
Qed.

Lemma channel_parse_safe_witness :
  exists ok len chn, stun_is_channel_message_str [0x40; 1; 0; 200; 9] 5 false = Ret (ok, len, chn) /\
    (ok = true -> 4 <= len <= 5 /\ exists c, chn = Some c /\ STUN_VALID_CHANNEL c = true).
Proof. apply channel_parse_safe; [by apply bytes_okb_spec|done]. Defined.

(** Stream framing: when a received stream starts with the bytes of a
    STUN message of less than 65536 bytes and has all of them, the next
    message length is exactly the length of that message. *)
Theorem stream_message_len buf len avail m padding :
  repr buf len m -> u32 (s_cookie m) = STUN_MAGIC_COOKIE -> len < 2 ^ 16 ->
  len <= avail <= blen buf ->
  stun_get_message_len_str (Some buf) avail padding = Ret (len, Some len).
Proof.
  intros Hm Hcookie Hlen Hav. pose proof (repr_is_command _ _ _ Hm) as Hcmd.
  destruct Hm as [B L L16 [Ty Tr] F Co Ti At].
  rewrite Hcookie, Z.eqb_refl in Hcmd. unfold stun_is_command_message_str in Hcmd.
  unfold stun_get_message_len_str, STUN_HEADER_LENGTH in *.
  destruct (len >=? 20) eqn:?; [|bool_arith; lia]. cbn [negb] in Hcmd.
  destruct (avail =? 0) eqn:?; [bool_arith; lia|].
  destruct (avail >=? 20) eqn:?; [|bool_arith; lia].
  rewrite (rd16_ret buf 0), (rd16_ret buf 2), F, be2 in * by lia. mstep. simpl in Hcmd.
  destruct (STUN_VALID_CHANNEL _); [discriminate|].
  destruct (rd8 buf 0) as [b0| |]; try discriminate Hcmd. mstep. simpl in Hcmd.
  destruct (Z.land b0 0xC0 =? 0); [|discriminate]. cbn [negb] in *.
  destruct (rd32 buf 4) as [c| |]; try discriminate Hcmd. mstep. simpl in Hcmd.
  destruct (c =? STUN_MAGIC_COOKIE); [|discriminate]. cbn [negb] in *.
  destruct (Z.land (len - 20) 3 =? 0); [|discriminate]. cbn [negb].
  assert (u16 (len - 20 + 20) = len) as -> by (rewrite u16_small; lia).
  destruct (len <=? avail) eqn:?; [done|]. bool_arith. lia.
Qed.

Lemma stream_message_len_witness :
  stun_get_message_len_str (Some (mdata ex_mbuf)) 40 true = Ret (28, Some 28).
Proof. apply (stream_message_len (mdata ex_mbuf) 28 40 ex_smsg); [exact ex_mbuf_repr|done|done|done]. Defined.

(** The 16-bit length computation of the stream framing wraps: a message
    that declares 65532 bytes of attributes is cut to 16 bytes, less than a
    STUN header, as soon as 20 bytes are available; and a ChannelData header
    that declares 65535 bytes is cut to 3 bytes. *)
Theorem stream_message_len_wraps rest padding :
  let stun := [0; 1; 0xFF; 0xFC; 0x21; 0x12; 0xA4; 0x42] ++ zeros 12 ++ rest in
  let chan := [0x40; 0; 0xFF; 0xFF] in
  stun_get_message_len_str (Some stun) (blen stun) padding = Ret (16, Some 16) /\
  stun_get_message_len_str (Some chan) 4 false = Ret (3, Some 3).
Proof.
  intros stun chan. split; [|by vm_compute].
  assert (20 <= blen stun) by (subst stun; rewrite !blen_app; unfold blen; simpl; lia).
  unfold stun_get_message_len_str, STUN_HEADER_LENGTH.
  destruct (blen stun =? 0) eqn:?; [bool_arith; lia|].
  destruct (blen stun >=? 20) eqn:?; [|bool_arith; lia].
  rewrite (rd16_ret stun 0), (rd8_ret stun 0), (rd32_ret stun 4), (rd16_ret stun 2) by lia.
  change (slice stun 0 2) with [0; 1]. change (slice stun 0 1) with [0].
  change (slice stun 4 4) with [0x21; 0x12; 0xA4; 0x42]. change (slice stun 2 2) with [0xFF; 0xFC].
  mstep. assert (STUN_VALID_CHANNEL (be [0; 1]) = false) as -> by done.
  assert (negb (Z.land (be [0]) 0xC0 =? 0) = false) as -> by done.
  assert (negb (be [0x21; 0x12; 0xA4; 0x42] =? STUN_MAGIC_COOKIE) = false) as -> by done.
  assert (negb (Z.land (be [0xFF; 0xFC]) 3 =? 0) = false) as -> by done.
  assert (u16 (be [0xFF; 0xFC] + 20) = 16) as -> by done.
  destruct (16 <=? blen stun) eqn:?; [done|]. bool_arith. lia.
Qed.
