(* ===== verification/StunCrc.v ===== *)
(** The CRC-32 of the FINGERPRINT attribute: [crctable] and [ns_crc32] of
    src/coturn/src/client/ns_turn_msg.c, with the polynomial of the commented
    out generator [make_crctable] as the reference. *)

From stdpp Require Import base option numbers list.
From S2P Require Import Prelude.

(** * Operations *)
Definition crctable : list Z :=
  [0x00000000; 0x77073096; 0xee0e612c; 0x990951ba; 0x076dc419; 0x706af48f;
   0xe963a535; 0x9e6495a3; 0x0edb8832; 0x79dcb8a4; 0xe0d5e91e; 0x97d2d988;
   0x09b64c2b; 0x7eb17cbd; 0xe7b82d07; 0x90bf1d91; 0x1db71064; 0x6ab020f2;
   0xf3b97148; 0x84be41de; 0x1adad47d; 0x6ddde4eb; 0xf4d4b551; 0x83d385c7;
   0x136c9856; 0x646ba8c0; 0xfd62f97a; 0x8a65c9ec; 0x14015c4f; 0x63066cd9;
   0xfa0f3d63; 0x8d080df5; 0x3b6e20c8; 0x4c69105e; 0xd56041e4; 0xa2677172;
   0x3c03e4d1; 0x4b04d447; 0xd20d85fd; 0xa50ab56b; 0x35b5a8fa; 0x42b2986c;
   0xdbbbc9d6; 0xacbcf940; 0x32d86ce3; 0x45df5c75; 0xdcd60dcf; 0xabd13d59;
   0x26d930ac; 0x51de003a; 0xc8d75180; 0xbfd06116; 0x21b4f4b5; 0x56b3c423;
   0xcfba9599; 0xb8bda50f; 0x2802b89e; 0x5f058808; 0xc60cd9b2; 0xb10be924;
   0x2f6f7c87; 0x58684c11; 0xc1611dab; 0xb6662d3d; 0x76dc4190; 0x01db7106;
   0x98d220bc; 0xefd5102a; 0x71b18589; 0x06b6b51f; 0x9fbfe4a5; 0xe8b8d433;
   0x7807c9a2; 0x0f00f934; 0x9609a88e; 0xe10e9818; 0x7f6a0dbb; 0x086d3d2d;
   0x91646c97; 0xe6635c01; 0x6b6b51f4; 0x1c6c6162; 0x856530d8; 0xf262004e;
   0x6c0695ed; 0x1b01a57b; 0x8208f4c1; 0xf50fc457; 0x65b0d9c6; 0x12b7e950;
   0x8bbeb8ea; 0xfcb9887c; 0x62dd1ddf; 0x15da2d49; 0x8cd37cf3; 0xfbd44c65;
   0x4db26158; 0x3ab551ce; 0xa3bc0074; 0xd4bb30e2; 0x4adfa541; 0x3dd895d7;
   0xa4d1c46d; 0xd3d6f4fb; 0x4369e96a; 0x346ed9fc; 0xad678846; 0xda60b8d0;
   0x44042d73; 0x33031de5; 0xaa0a4c5f; 0xdd0d7cc9; 0x5005713c; 0x270241aa;
   0xbe0b1010; 0xc90c2086; 0x5768b525; 0x206f85b3; 0xb966d409; 0xce61e49f;
   0x5edef90e; 0x29d9c998; 0xb0d09822; 0xc7d7a8b4; 0x59b33d17; 0x2eb40d81;
   0xb7bd5c3b; 0xc0ba6cad; 0xedb88320; 0x9abfb3b6; 0x03b6e20c; 0x74b1d29a;
   0xead54739; 0x9dd277af; 0x04db2615; 0x73dc1683; 0xe3630b12; 0x94643b84;
   0x0d6d6a3e; 0x7a6a5aa8; 0xe40ecf0b; 0x9309ff9d; 0x0a00ae27; 0x7d079eb1;
   0xf00f9344; 0x8708a3d2; 0x1e01f268; 0x6906c2fe; 0xf762575d; 0x806567cb;
   0x196c3671; 0x6e6b06e7; 0xfed41b76; 0x89d32be0; 0x10da7a5a; 0x67dd4acc;
   0xf9b9df6f; 0x8ebeeff9; 0x17b7be43; 0x60b08ed5; 0xd6d6a3e8; 0xa1d1937e;
   0x38d8c2c4; 0x4fdff252; 0xd1bb67f1; 0xa6bc5767; 0x3fb506dd; 0x48b2364b;
   0xd80d2bda; 0xaf0a1b4c; 0x36034af6; 0x41047a60; 0xdf60efc3; 0xa867df55;
   0x316e8eef; 0x4669be79; 0xcb61b38c; 0xbc66831a; 0x256fd2a0; 0x5268e236;
   0xcc0c7795; 0xbb0b4703; 0x220216b9; 0x5505262f; 0xc5ba3bbe; 0xb2bd0b28;
   0x2bb45a92; 0x5cb36a04; 0xc2d7ffa7; 0xb5d0cf31; 0x2cd99e8b; 0x5bdeae1d;
   0x9b64c2b0; 0xec63f226; 0x756aa39c; 0x026d930a; 0x9c0906a9; 0xeb0e363f;
   0x72076785; 0x05005713; 0x95bf4a82; 0xe2b87a14; 0x7bb12bae; 0x0cb61b38;
   0x92d28e9b; 0xe5d5be0d; 0x7cdcefb7; 0x0bdbdf21; 0x86d3d2d4; 0xf1d4e242;
   0x68ddb3f8; 0x1fda836e; 0x81be16cd; 0xf6b9265b; 0x6fb077e1; 0x18b74777;
   0x88085ae6; 0xff0f6a70; 0x66063bca; 0x11010b5c; 0x8f659eff; 0xf862ae69;
   0x616bffd3; 0x166ccf45; 0xa00ae278; 0xd70dd2ee; 0x4e048354; 0x3903b3c2;
   0xa7672661; 0xd06016f7; 0x4969474d; 0x3e6e77db; 0xaed16a4a; 0xd9d65adc;
   0x40df0b66; 0x37d83bf0; 0xa9bcae53; 0xdebb9ec5; 0x47b2cf7f; 0x30b5ffe9;
   0xbdbdf21c; 0xcabac28a; 0x53b39330; 0x24b4a3a6; 0xbad03605; 0xcdd70693;
   0x54de5729; 0x23d967bf; 0xb3667a2e; 0xc4614ab8; 0x5d681b02; 0x2a6f2b94;
   0xb40bbe37; 0xc30c8ea1; 0x5a05df1b; 0x2d02ef8d].

Definition CRC_MASK : Z := 0xFFFFFFFF.

(** [UPDATE_CRC(crc, c)] on a 32-bit [crc]. *)
Definition UPDATE_CRC (crc c : Z) : Z :=
  Z.lxor (nth (Z.to_nat (Z.lxor (u8 crc) (u8 c))) crctable 0) (Z.shiftr crc 8).

(** The loop over the first bytes of the buffer, and the complemented result. *)
Definition ns_crc32 (bytes : list Z) : Z := Z.lxor (foldl UPDATE_CRC CRC_MASK bytes) CRC_MASK.

(** ** Reference: division by the reversed polynomial, one bit at a time *)
Definition CRCPOLY : Z := 0xEDB88320.

Definition crc_bit (r : Z) : Z :=
  if Z.odd r then Z.lxor (Z.shiftr r 1) CRCPOLY else Z.shiftr r 1.

Definition crc_byte (r : Z) : Z := Nat.iter 8 crc_bit r.

(** The table entry [i] as [make_crctable] computes it. *)
Definition make_crctable_entry (i : Z) : Z := crc_byte i.

Definition crc32_spec (bytes : list Z) : Z :=
  Z.lxor (foldl (fun crc c => crc_byte (Z.lxor crc c)) CRC_MASK bytes) CRC_MASK.

(** * Properties *)
Lemma crc_bit_alt r : crc_bit r = Z.lxor (Z.shiftr r 1) (if Z.odd r then CRCPOLY else 0).
Proof. unfold crc_bit. destruct (Z.odd r); [done|]. by rewrite Z.lxor_0_r. Qed.

Lemma odd_lxor a b : Z.odd (Z.lxor a b) = xorb (Z.odd a) (Z.odd b).
Proof. rewrite <- !Z.bit0_odd. apply Z.lxor_spec. Qed.

(** The bit step is linear over exclusive or. *)
Lemma crc_bit_lxor a b : crc_bit (Z.lxor a b) = Z.lxor (crc_bit a) (crc_bit b).
Proof.
  rewrite !crc_bit_alt, odd_lxor, Z.shiftr_lxor. apply Z.bits_inj'. intros n _.
  destruct (Z.odd a), (Z.odd b); simpl; rewrite !Z.lxor_spec, ?Z.bits_0;
    destruct (Z.testbit (Z.shiftr a 1) n), (Z.testbit (Z.shiftr b 1) n), (Z.testbit CRCPOLY n); done.
Qed.

Lemma iter_crc_lxor n a b :
  Nat.iter n crc_bit (Z.lxor a b) = Z.lxor (Nat.iter n crc_bit a) (Nat.iter n crc_bit b).
Proof. induction n as [|n IH]; [done|]. simpl. by rewrite IH, crc_bit_lxor. Qed.

Lemma crc_byte_lxor a b : crc_byte (Z.lxor a b) = Z.lxor (crc_byte a) (crc_byte b).
Proof. apply iter_crc_lxor. Qed.

(** On a multiple of [2^n] the first [n] steps only shift. *)
Lemma iter_crc_shift n y : Nat.iter n crc_bit (Z.shiftl y (Z.of_nat n)) = y.
Proof.
  revert y. induction n as [|n IH]; intros y; [apply Z.shiftl_0_r|].
  rewrite Nat.iter_succ_r. rewrite crc_bit_alt, Nat2Z.inj_succ.
  assert (Z.odd (Z.shiftl y (Z.succ (Z.of_nat n))) = false) as ->.
  { rewrite <- Z.bit0_odd. by rewrite Z.shiftl_spec_low by lia. }
  rewrite Z.lxor_0_r, Z.shiftr_shiftl_l by lia.
  replace (Z.succ (Z.of_nat n) - 1) with (Z.of_nat n) by lia. apply IH.
Qed.

Lemma crc_byte_shift y : crc_byte (Z.shiftl y 8) = y.
Proof. apply (iter_crc_shift 8). Qed.

(** Splitting off the low byte. *)
Lemma split_low_byte x : Z.lxor (u8 x) (Z.shiftl (Z.shiftr x 8) 8) = x.
Proof.
  apply Z.bits_inj'. intros n Hn. unfold u8. rewrite Z.lxor_spec.
  destruct (Z.lt_ge_cases n 8) as [H|H].
  - rewrite Z.mod_pow2_bits_low, Z.shiftl_spec_low by lia. apply xorb_false_r.
  - rewrite Z.mod_pow2_bits_high, Z.shiftl_spec, Z.shiftr_spec by lia.
    rewrite xorb_false_l. f_equal. lia.
Qed.

Lemma crctable_generated : crctable = make_crctable_entry <$> seqZ 0 256.
Proof. vm_compute. reflexivity. Qed.

Lemma crctable_nth i : 0 <= i < 256 -> nth (Z.to_nat i) crctable 0 = crc_byte i.
Proof.
  intros H. rewrite crctable_generated.
  apply nth_lookup_Some. rewrite list_lookup_fmap, lookup_seqZ_lt by lia. simpl.
  by rewrite Z2Nat.id by lia.
Qed.

Lemma u8_lxor a b : u8 (Z.lxor a b) = Z.lxor (u8 a) (u8 b).
Proof.
  apply Z.bits_inj'. intros n Hn. unfold u8. rewrite Z.lxor_spec.
  destruct (Z.lt_ge_cases n 8).
  - by rewrite !Z.mod_pow2_bits_low, Z.lxor_spec by lia.
  - by rewrite !Z.mod_pow2_bits_high by lia.
Qed.

(** One table step is eight bit steps. *)
Lemma update_crc_spec crc c : 0 <= c < 256 -> UPDATE_CRC crc c = crc_byte (Z.lxor crc c).
Proof.
  intros Hc. unfold UPDATE_CRC. rewrite <- u8_lxor.
  rewrite crctable_nth by (apply Z.mod_pos_bound; lia).
  rewrite <- (split_low_byte (Z.lxor crc c)) at 2. rewrite crc_byte_lxor, crc_byte_shift.
  f_equal. rewrite Z.shiftr_lxor. rewrite (Z.shiftr_div_pow2 c) by lia.
  by rewrite Z.div_small, Z.lxor_0_r by lia.
Qed.

Lemma foldl_update_spec bytes crc :
  bytes_ok bytes -> foldl UPDATE_CRC crc bytes = foldl (fun r c => crc_byte (Z.lxor r c)) crc bytes.
Proof.
  intros B. revert crc. induction B as [|c l Hc Hl IH]; intros crc; [done|]. simpl.
  rewrite IH. by rewrite update_crc_spec.
Qed.

(** ** Ranges and injectivity *)
Lemma lxor_range n a b : 0 <= n -> 0 <= a < 2 ^ n -> 0 <= b < 2 ^ n -> 0 <= Z.lxor a b < 2 ^ n.
Proof.
  intros Hn Ha Hb. assert (0 <= Z.lxor a b) by (apply Z.lxor_nonneg; lia). split; [done|].
  destruct (Z.eq_dec (Z.lxor a b) 0) as [->|E]; [lia|].
  apply Z.log2_lt_pow2; [lia|]. pose proof (Z.log2_lxor a b ltac:(lia) ltac:(lia)).
  assert (forall x, 0 <= x < 2 ^ n -> Z.log2 x < n \/ x = 0) as Hx.
  { intros x ?. destruct (Z.eq_dec x 0); [by right|left]. apply Z.log2_lt_pow2; lia. }
  assert (n <> 0) by (intros ->; simpl in *; assert (a = 0) as -> by lia;
    assert (b = 0) as -> by lia; done).
  destruct (Hx a Ha) as [?| ->], (Hx b Hb) as [?| ->]; simpl in *; try lia;
    change (Z.log2 0) with 0 in *; lia.
Qed.

Lemma lxor_inj_l a b c : Z.lxor a c = Z.lxor b c -> a = b.
Proof.
  intros E. apply (f_equal (fun x => Z.lxor x c)) in E.
  by rewrite !Z.lxor_assoc, !Z.lxor_nilpotent, !Z.lxor_0_r in E.
Qed.

Lemma crc_bit_range r : 0 <= r < 2 ^ 32 -> 0 <= crc_bit r < 2 ^ 32.
Proof.
  intros H. rewrite crc_bit_alt. apply lxor_range; [lia| |destruct (Z.odd r); done].
  rewrite Z.shiftr_div_pow2 by lia. change (2 ^ 1) with 2.
  split; [apply Z.div_pos; lia|]. apply Z.div_lt_upper_bound; lia.
Qed.

(** Bit 31 of the result tells which branch was taken. *)
Lemma crc_bit_top r : 0 <= r < 2 ^ 32 -> Z.testbit (crc_bit r) 31 = Z.odd r.
Proof.
  intros H. rewrite crc_bit_alt, Z.lxor_spec, Z.shiftr_spec by lia.
  replace (Z.testbit r (31 + 1)) with false.
  - by destruct (Z.odd r).
  - symmetry. rewrite <- (Z.mod_small r (2 ^ 32)) by done. apply Z.mod_pow2_bits_high. lia.
Qed.

Lemma crc_bit_inj a b :
  0 <= a < 2 ^ 32 -> 0 <= b < 2 ^ 32 -> crc_bit a = crc_bit b -> a = b.
Proof.
  intros Ha Hb E. assert (Z.odd a = Z.odd b) as Ho by (rewrite <- !crc_bit_top by done; by rewrite E).
  rewrite !crc_bit_alt, Ho in E.
  assert (Z.shiftr a 1 = Z.shiftr b 1) as Es.
  { apply (f_equal (fun x => Z.lxor x (if Z.odd b then CRCPOLY else 0))) in E.
    by rewrite !Z.lxor_assoc, !Z.lxor_nilpotent, !Z.lxor_0_r in E. }
  rewrite !Z.shiftr_div_pow2 in Es by lia. change (2 ^ 1) with 2 in Es.
  pose proof (Z.div_mod a 2 ltac:(lia)). pose proof (Z.div_mod b 2 ltac:(lia)).
  rewrite !Zmod_odd, Ho in *. lia.
Qed.

Lemma iter_crc_inj n a b :
  0 <= a < 2 ^ 32 -> 0 <= b < 2 ^ 32 -> Nat.iter n crc_bit a = Nat.iter n crc_bit b -> a = b.
Proof.
  revert a b. induction n as [|n IH]; intros a b Ha Hb; [done|].
  rewrite !Nat.iter_succ_r. intros E. apply IH in E; try by apply crc_bit_range.
  by apply crc_bit_inj.
Qed.

Lemma iter_crc_range n a : 0 <= a < 2 ^ 32 -> 0 <= Nat.iter n crc_bit a < 2 ^ 32.
Proof. intros H. induction n as [|n IH]; [done|]. simpl. by apply crc_bit_range. Qed.


(** ** Bursts *)
Lemma le_cons_lxor b x : is_byte b -> b + 256 * x = Z.lxor b (Z.shiftl x 8).
Proof.
  intros Hb. unfold is_byte in Hb. rewrite <- (split_low_byte (b + 256 * x)).
  rewrite Z.shiftr_div_pow2 by lia. unfold u8. change (2 ^ 8) with 256.
  rewrite (Z.mul_comm 256 x), Z.mod_add, Z.mod_small by lia.
  by rewrite Z.div_add, Z.div_small by lia.
Qed.

(** Feeding a block of bytes is shifting the register, into which the block
    was mixed as a little-endian number, by its number of bits. *)
Lemma foldl_crc_block bs r :
  bytes_ok bs ->
  foldl (fun r c => crc_byte (Z.lxor r c)) r bs = Nat.iter (8 * length bs) crc_bit (Z.lxor r (le bs)).
Proof.
  intros B. revert r. induction B as [|b bs Hb B IH]; intros r.
  - unfold le. simpl. by rewrite Z.lxor_0_r.
  - cbn [foldl length]. rewrite IH. replace (8 * S (length bs))%nat with (8 * length bs + 8)%nat by lia.
    rewrite Nat.iter_add. f_equal. change (le (b :: bs)) with (b + 256 * le bs).
    rewrite le_cons_lxor by done. rewrite <- Z.lxor_assoc.
    change (Nat.iter 8 crc_bit) with crc_byte. by rewrite (crc_byte_lxor (Z.lxor r b)), crc_byte_shift.
Qed.

Lemma le_range l : bytes_ok l -> 0 <= le l < 256 ^ blen l.
Proof.
  induction 1 as [|b l Hb Hl IH]; [done|]. rewrite blen_cons, Z.pow_add_r by blia.
  change (le (b :: l)) with (b + 256 * le l). unfold is_byte in Hb. lia.
Qed.

Lemma le_inj l k : bytes_ok l -> bytes_ok k -> length l = length k -> le l = le k -> l = k.
Proof. intros. rewrite <- (to_le_le l), <- (to_le_le k) by done. congruence. Qed.

Lemma foldl_crc_range bs r :
  bytes_ok bs -> 0 <= r < 2 ^ 32 ->
  0 <= foldl (fun r c => crc_byte (Z.lxor r c)) r bs < 2 ^ 32.
Proof.
  intros B. revert r. induction B as [|b bs Hb B IH]; intros r Hr; [done|].
  apply IH, iter_crc_range, lxor_range; [lia|done|]. unfold is_byte in Hb. lia.
Qed.

Lemma foldl_crc_inj bs a b :
  bytes_ok bs -> 0 <= a < 2 ^ 32 -> 0 <= b < 2 ^ 32 ->
  foldl (fun r c => crc_byte (Z.lxor r c)) a bs = foldl (fun r c => crc_byte (Z.lxor r c)) b bs ->
  a = b.
Proof.
  intros B. revert a b. induction B as [|x bs Hx B IH]; intros a b Ha Hb; [done|].
  unfold is_byte in Hx. simpl. intros E.
  assert (0 <= Z.lxor a x < 2 ^ 32 /\ 0 <= Z.lxor b x < 2 ^ 32) as [? ?]
    by (split; apply lxor_range; lia).
  apply IH, iter_crc_inj in E; try apply iter_crc_range; try done. eapply lxor_inj_l, E.
Qed.

Lemma ns_crc32_spec l : bytes_ok l -> ns_crc32 l = crc32_spec l.
Proof. intros B. unfold ns_crc32, crc32_spec. by rewrite foldl_update_spec. Qed.

Lemma ns_crc32_range l : bytes_ok l -> 0 <= ns_crc32 l < 2 ^ 32.
Proof.
  intros B. rewrite ns_crc32_spec by done. apply lxor_range; [lia| |done].
  by apply foldl_crc_range.
Qed.

(** Two inputs that differ inside one window of at most four bytes have
    different checksums. *)
Lemma ns_crc32_burst pre x y post :
  bytes_ok pre -> bytes_ok x -> bytes_ok y -> bytes_ok post ->
  length x = length y -> (length x <= 4)%nat -> x <> y ->
  ns_crc32 (pre ++ x ++ post) <> ns_crc32 (pre ++ y ++ post).
Proof.
  intros Bp Bx By Bq L L4 N E. apply N. rewrite !ns_crc32_spec in E by auto with bytes.
  unfold crc32_spec in E. apply lxor_inj_l in E. rewrite !foldl_app in E.
  assert (0 <= CRC_MASK < 2 ^ 32) as Hm by done.
  apply foldl_crc_inj in E; try done; try (apply foldl_crc_range; [done|]; by apply foldl_crc_range).
  rewrite !foldl_crc_block, L in E by done.
  set (r := Nat.iter (8 * length pre) crc_bit (Z.lxor CRC_MASK (le pre))) in *.
  assert (0 <= r < 2 ^ 32) as Hr
    by (subst r; rewrite <- foldl_crc_block by done; by apply foldl_crc_range).
  assert (forall l, bytes_ok l -> (length l <= 4)%nat -> 0 <= le l < 2 ^ 32) as Hle.
  { intros l Bl Ll. pose proof (le_range l Bl) as [? ?]. split; [done|].
    eapply Z.lt_le_trans; [done|]. change (2 ^ 32) with (256 ^ 4).
    apply Z.pow_le_mono_r; [lia|]. unfold blen. lia. }
  apply iter_crc_inj in E; try (apply lxor_range; [lia|done|]; apply Hle; [done|lia]).
  rewrite (Z.lxor_comm r), (Z.lxor_comm r (le y)) in E. apply lxor_inj_l in E. by apply le_inj.
Qed.

(** * Claims *)

(** C40. The table-driven checksum computes CRC-32: on every byte string it
    equals the bit-serial division by the reversed polynomial 0xEDB88320, the
    computation the comment next to the table describes. *)
Theorem crc32_table_equiv l : bytes_ok l -> ns_crc32 l = crc32_spec l.
Proof. apply ns_crc32_spec. Qed.

Lemma crc32_table_equiv_witness :
  ns_crc32 [49; 50; 51; 52; 53; 54; 55; 56; 57] = crc32_spec [49; 50; 51; 52; 53; 54; 55; 56; 57] /\
  ns_crc32 [49; 50; 51; 52; 53; 54; 55; 56; 57] = 0xCBF43926.
Proof. split; [apply crc32_table_equiv; by apply bytes_okb_spec|vm_compute; reflexivity]. Defined.
