(* ===== verification/StunFingerprint.v ===== *)
(** FINGERPRINT: src/coturn/src/client/ns_turn_msg.c, adding the attribute
    ([stun_attr_add_fingerprint_str]) and the full check of a received command
    message ([stun_is_command_message_full_check_str]). *)

From stdpp Require Import base option numbers list strings.
From S2P Require Import Prelude IoAddr StunAddr StunDefs StunMsg StunMsgFacts StunCrc.

Definition FINGERPRINT_XOR : Z := 0x5354554e.

(** [ns_crc32(buf,len)]: the loop reads the first [len] bytes. *)
Definition crc_of (buf : list Z) (len : Z) : outcome Z :=
  bs ← rd_bytes buf 0 (u32 len);
  Ret (ns_crc32 bs).

(** The result of [stun_attr_add_str] is ignored, as in the code. *)
Definition stun_attr_add_fingerprint_str (m : mbuf) : outcome (Z * mbuf) :=
  '(_, m) ← stun_attr_add_str m STUN_ATTRIBUTE_FINGERPRINT (Some (zeros 4)) 4;
  crc32 ← crc_of (mdata m) (mlen m - 8);
  b ← wr_bytes (mdata m) (mlen m - 4) (to_be 4 (Z.lxor crc32 FINGERPRINT_XOR));
  Ret (0, MBuf b (mlen m)).

(** The result and the value written to [*fingerprint_present], if any. *)
Definition stun_is_command_message_full_check_str (buf : list Z) (blen : Z)
    (must_check_fingerprint : bool) : outcome (bool * option Z) :=
  c ← stun_is_command_message_str (Some buf) blen;
  if negb c then Ret (false, None) else
  sar ← stun_attr_get_first_by_type_str buf blen STUN_ATTRIBUTE_FINGERPRINT;
  match sar with
  | None =>
      method ← stun_get_method_str (Some buf) blen;
      if method =? STUN_METHOD_BINDING then Ret (true, Some 0)
      else Ret (negb must_check_fingerprint, Some 0)
  | Some _ =>
      l ← stun_attr_get_len buf sar;
      if negb (l =? 4) then Ret (false, None) else
      fingerprint ← stun_attr_get_value buf sar;
      match fingerprint with
      | None => Ret (negb must_check_fingerprint, None)
      | Some fp =>
          let crc32len := fp - 4 in
          crc32 ← crc_of buf crc32len;
          v ← rd32 buf fp;
          let ret := v =? Z.lxor crc32 FINGERPRINT_XOR in
          Ret (ret, if ret then Some 1 else None)
      end
  end.

(** * Properties *)
Lemma crc_of_ret buf n :
  0 <= n <= blen buf -> n < 2 ^ 32 -> crc_of buf n = Ret (ns_crc32 (slice buf 0 n)).
Proof. intros. unfold crc_of. rewrite u32_small by lia. by rewrite rd_bytes_ret by lia. Qed.

(** The value [stun_attr_add_fingerprint_str] computes: the checksum of the
    message before the attribute, with the length field already counting it. *)
Definition fingerprint_of (b : mbuf) : Z :=
  Z.lxor (ns_crc32 (slice (splice (mdata b) 2 (to_be 2 (mlen b + 8 - 20))) 0 (mlen b)))
         FINGERPRINT_XOR.

Lemma fingerprint_of_range b : bytes_ok (mdata b) -> 0 <= fingerprint_of b < 2 ^ 32.
Proof.
  intros B. apply lxor_range; [lia| |done]. apply ns_crc32_range. auto with bytes.
Qed.

Lemma blen_zeros4 : blen (zeros 4) = 4.
Proof. done. Qed.

Lemma add_fingerprint_refines b m :
  mrepr b m -> mlen b + 8 < MAX_STUN_MESSAGE_SIZE -> mlen b + 8 <= blen (mdata b) ->
  exists b', stun_attr_add_fingerprint_str b = Ret (0, b') /\
    mrepr b' (s_add m STUN_ATTRIBUTE_FINGERPRINT (to_be 4 (fingerprint_of b))) /\
    mlen b' = mlen b + 8 /\ blen (mdata b') = blen (mdata b) /\
    slice (mdata b') 0 (mlen b) =
      slice (splice (mdata b) 2 (to_be 2 (mlen b + 8 - 20))) 0 (mlen b).
Proof.
  intros Hm Hmax Hcap. pose proof (repr_len _ _ _ Hm) as HL.
  destruct (add_fill b m STUN_ATTRIBUTE_FINGERPRINT (zeros 4) (to_be 4 (fingerprint_of b)) Hm)
    as (A & Hd & Hpre & R); rewrite ?blen_zeros4; auto with bytes; try lia; try done.
  rewrite blen_zeros4 in A, R, Hpre. replace (mlen b + 4 + 4) with (mlen b + 8) in * by lia.
  set (d := added _ _ _ _) in *.
  eexists. unfold stun_attr_add_fingerprint_str. rewrite A. mstep. cbn [mdata mlen].
  replace (mlen b + 8 - 8) with (mlen b) by lia. unfold MAX_STUN_MESSAGE_SIZE in *.
  rewrite crc_of_ret by lia. mstep. rewrite wr_bytes_ret by buf_side. mstep. rewrite Hpre.
  replace (mlen b + 8 - 4) with (mlen b + 4) by lia.
  split; [done|]. split; [exact R|]. split; [done|]. cbn [mdata].
  split; [by rewrite blen_splice by buf_side|]. rewrite slice_splice_before by buf_side. done.
Qed.

(** The full check of a represented message. *)
Lemma full_check_repr buf len m must a v r :
  repr buf len m -> s_cookie m = STUN_MAGIC_COOKIE ->
  find_attr 20 (s_attrs m) STUN_ATTRIBUTE_FINGERPRINT = Some a ->
  20 <= a -> attrs_at buf a len ((STUN_ATTRIBUTE_FINGERPRINT, v) :: r) -> blen v = 4 ->
  stun_is_command_message_full_check_str buf len must =
  Ret (let ret := be v =? Z.lxor (ns_crc32 (slice buf 0 a)) FINGERPRINT_XOR in
       (ret, if ret then Some 1 else None)).
Proof.
  intros Hm Hc Hf Ha At Lv. unfold stun_is_command_message_full_check_str.
  rewrite (repr_is_command _ _ _ Hm), Hc, Z.eqb_refl. mstep. cbn [negb].
  rewrite (get_first_by_type_refines _ _ _ _ Hm), Hf. mstep.
  rewrite (at_len _ _ _ _ _ _ _ Hm Ha At), Lv. mstep. cbn [Z.eqb negb].
  change (4 =? 4) with true. cbn [negb].
  rewrite (at_value _ _ _ _ _ _ _ Hm Ha At), Lv. mstep. change (4 <? 1) with false. cbn iota.
  pose proof (repr_len _ _ _ Hm). pose proof (repr_len16 _ _ _ Hm).
  destruct (at_bounds _ _ _ _ _ _ _ Hm At) as (? & ? & ?).
  replace (a + 4 - 4) with a by lia. rewrite crc_of_ret by lia. mstep.
  unfold rd32. pose proof (at_value_bytes _ _ _ _ _ _ _ Hm Ha At) as E. rewrite Lv in E.
  rewrite E. done.
Qed.

Lemma is_command_returns buf len :
  bytes_ok buf -> len <= blen buf -> returns (stun_is_command_message_str (Some buf) len).
Proof.
  intros B L. unfold stun_is_command_message_str, STUN_HEADER_LENGTH.
  destruct (len >=? 20) eqn:E; cbn [negb]; bool_arith; [|by exists false].
  rewrite (rd16_ret buf 0) by lia. mstep. if_case; auto with turn.
  rewrite (rd8_ret buf 0) by lia. mstep. if_case; auto with turn.
  rewrite (rd32_ret buf 4) by lia. mstep. if_case; auto with turn.
  rewrite (rd16_ret buf 2) by lia. mstep. if_case; auto with turn.
Qed.

Lemma value_of_len4 buf a :
  stun_attr_get_len buf (Some a) = Ret 4 -> stun_attr_get_value buf (Some a) = Ret (Some (a + 4)).
Proof. unfold stun_attr_get_len, stun_attr_get_value. by intros ->. Qed.

(** A checksum over a prefix of a buffer that differs from another one inside
    a window of at most four bytes of that prefix. *)
Lemma crc_prefix_burst pre x y post n :
  bytes_ok (pre ++ x ++ post) -> bytes_ok y -> length x = length y -> (length x <= 4)%nat -> x <> y ->
  blen pre + blen x <= n -> n <= blen (pre ++ x ++ post) ->
  ns_crc32 (slice (pre ++ x ++ post) 0 n) <> ns_crc32 (slice (pre ++ y ++ post) 0 n).
Proof.
  intros B By L L4 N Hn Hn'. apply Forall_app in B as [Bp B]. apply Forall_app in B as [Bx Bq].
  assert (blen y = blen x) as Ly by (unfold blen; lia).
  assert (forall z, length z = length x ->
            slice (pre ++ z ++ post) 0 n = pre ++ z ++ slice post 0 (n - blen pre - blen x)) as Hs.
  { intros z Lz. unfold slice, blen in *. rewrite !drop_0, !take_app.
    rewrite !firstn_all2 by lia. do 3 f_equal. lia. }
  rewrite !Hs by lia. apply ns_crc32_burst; auto with bytes.
Qed.

(** What [stun_attr_add_fingerprint_str] builds passes the full check. *)
Lemma full_check_after_add b m b' must :
  mrepr b m -> s_cookie m = STUN_MAGIC_COOKIE ->
  lookup_attr (s_attrs m) STUN_ATTRIBUTE_FINGERPRINT = None ->
  mlen b + 8 < MAX_STUN_MESSAGE_SIZE -> mlen b + 8 <= blen (mdata b) ->
  stun_attr_add_fingerprint_str b = Ret (0, b') ->
  stun_is_command_message_full_check_str (mdata b') (mlen b') must = Ret (true, Some 1).
Proof.
  intros Hm Hc Hn Hmax Hcap A0.
  destruct (add_fingerprint_refines b m Hm Hmax Hcap) as (b2 & A & R & Hl & Hd & Hpre).
  rewrite A in A0. injection A0 as ->.
  pose proof (find_attr_last _ _ _ [] (to_be 4 (fingerprint_of b)) Hm Hn) as Hf.
  destruct (find_attr_at _ _ _ _ _ _ (repr_attrs _ _ _ R) Hf) as (v & r & Ev & Ho & Ha).
  cbn [s_attrs s_add] in Ev. rewrite lookup_attr_app, Hn in Ev. simpl in Ev. injection Ev as <-.
  rewrite (full_check_repr _ _ _ must _ _ _ R Hc Hf Ho Ha) by apply blen_to_be.
  rewrite Hpre, be_to_be_small by (apply fingerprint_of_range, (repr_bytes _ _ _ Hm)).
  unfold fingerprint_of. by rewrite Z.eqb_refl.
Qed.

(** * Claims *)

(** FINGERPRINT round trip: adding the fingerprint to a message without
    one succeeds and appends one attribute, and the full check of the result
    accepts it and reports the fingerprint present, whether or not the check
    is mandatory. *)
Theorem fingerprint_roundtrip b m must :
  mrepr b m -> s_cookie m = STUN_MAGIC_COOKIE ->
  lookup_attr (s_attrs m) STUN_ATTRIBUTE_FINGERPRINT = None ->
  mlen b + 8 < MAX_STUN_MESSAGE_SIZE -> mlen b + 8 <= blen (mdata b) ->
  exists b' v, stun_attr_add_fingerprint_str b = Ret (0, b') /\
    mrepr b' (s_add m STUN_ATTRIBUTE_FINGERPRINT v) /\ mlen b' = mlen b + 8 /\
    stun_is_command_message_full_check_str (mdata b') (mlen b') must = Ret (true, Some 1).
Proof.
  intros Hm Hc Hn Hmax Hcap. destruct (add_fingerprint_refines b m Hm Hmax Hcap) as (b' & A & R & Hl & _ & _).
  exists b', (to_be 4 (fingerprint_of b)). split; [done|]. split; [done|]. split; [done|].
  by apply (full_check_after_add b m).
Qed.

Lemma fingerprint_roundtrip_witness :
  exists b' v, stun_attr_add_fingerprint_str ex_mbuf = Ret (0, b') /\
    mrepr b' (s_add ex_smsg STUN_ATTRIBUTE_FINGERPRINT v) /\ mlen b' = 36 /\
    stun_is_command_message_full_check_str (mdata b') (mlen b') true = Ret (true, Some 1).
Proof. apply (fingerprint_roundtrip ex_mbuf ex_smsg true); try done. exact ex_mbuf_repr. Defined.

(** C39. The fingerprint detects transmission errors: when a message with a
    fingerprint is accepted, no message that differs from it only inside a
    window of at most four consecutive bytes before the fingerprint, and whose
    fingerprint is still found at the same place, is accepted. *)
Theorem fingerprint_detects_burst pre x y post len must a :
  let buf := pre ++ x ++ post in
  let buf' := pre ++ y ++ post in
  bytes_ok buf -> bytes_ok y -> length x = length y -> (length x <= 4)%nat -> x <> y ->
  len <= blen buf -> len < 2 ^ 31 -> blen pre + blen x <= a ->
  stun_attr_get_first_by_type_str buf len STUN_ATTRIBUTE_FINGERPRINT = Ret (Some a) ->
  stun_attr_get_first_by_type_str buf' len STUN_ATTRIBUTE_FINGERPRINT = Ret (Some a) ->
  stun_is_command_message_full_check_str buf len must = Ret (true, Some 1) ->
  exists p, stun_is_command_message_full_check_str buf' len must = Ret (false, p).
Proof.
  intros buf buf' B By L L4 N Hlen Hlen31 Ha F F' C.
  assert (blen buf' = blen buf) as Hb.
  { subst buf buf'. unfold blen. rewrite !length_app. lia. }
  assert (bytes_ok buf') as B' by (subst buf buf'; unfold bytes_ok in *; rewrite !Forall_app in *; tauto).
  destruct (search_by_type_safe buf' len STUN_ATTRIBUTE_FINGERPRINT B' ltac:(lia)) as (q & Eq & Hq).
  rewrite F' in Eq. injection Eq as <-. destruct (Hq a eq_refl) as (l' & Ha20 & _ & El' & Hl' & Hle).
  destruct (search_by_type_safe buf len STUN_ATTRIBUTE_FINGERPRINT B ltac:(lia)) as (q & Eq & Hq').
  rewrite F in Eq. injection Eq as <-. destruct (Hq' a eq_refl) as (l & _ & _ & El & Hl & Hle').
  unfold stun_is_command_message_full_check_str in C |- *.
  destruct (stun_is_command_message_str (Some buf) len) as [[]| |]; try discriminate C.
  destruct (is_command_returns buf' len B' ltac:(lia)) as [[] ->]; mstep; [|by exists None].
  revert C. mstep. cbn [negb]. rewrite F, F'. mstep. rewrite El, El'. mstep.
  destruct (l =? 4) eqn:E4; cbn [negb]; [|discriminate].
  destruct (l' =? 4) eqn:E4'; cbn [negb]; [|by exists None]. bool_arith. subst l l'.
  change (pad4 4) with 4 in *. rewrite !(value_of_len4) by done. mstep.
  replace (a + 4 - 4) with a by lia. rewrite !crc_of_ret by lia. mstep.
  rewrite !rd32_ret by lia. mstep.
  assert (slice buf' (a + 4) 4 = slice buf (a + 4) 4) as ->.
  { subst buf buf'. assert (blen y = blen x) by (unfold blen; lia).
    rewrite !slice_app_r by blia. by replace (a + 4 - blen pre - blen y) with (a + 4 - blen pre - blen x) by lia. }
  destruct (_ =? _) eqn:E1; [|discriminate]. intros _. exists None.
  destruct (be (slice buf (a + 4) 4) =? Z.lxor (ns_crc32 (slice buf' 0 a)) FINGERPRINT_XOR) eqn:E2; [|done].
  bool_arith. rewrite E1 in E2. apply lxor_inj_l in E2.
  by destruct (crc_prefix_burst pre x y post a B By L L4 N ltac:(lia) ltac:(subst buf; lia)).
Qed.

(** A binding request with a fingerprint, and one with four bytes of the
    transaction id damaged. *)
Definition ex_fp_pre : list Z := [0; 1; 0; 8; 0x21; 0x12; 0xA4; 0x42].
Definition ex_fp_post : list Z := zeros 8 ++ [0x80; 0x28; 0; 4] ++ to_be 4 3350783575.

Lemma fingerprint_detects_burst_witness :
  exists p, stun_is_command_message_full_check_str (ex_fp_pre ++ [9; 8; 7; 6] ++ ex_fp_post) 28 true
            = Ret (false, p).
Proof.
  apply (fingerprint_detects_burst ex_fp_pre [1; 2; 3; 4] [9; 8; 7; 6] ex_fp_post 28 true 20);
    try (by apply bytes_okb_spec); try done; try (vm_compute; reflexivity); vm_compute; discriminate.
Defined.

(** Without room for the attribute (the message would reach 65507 bytes)
    no fingerprint is appended, yet the operation reports success and the last
    four bytes of the message, which belong to another attribute or to the
    transaction id, are replaced by a checksum. *)
Theorem fingerprint_overwrites_when_full b m :
  mrepr b m -> MAX_STUN_MESSAGE_SIZE <= mlen b + 8 ->
  exists w, length w = 4%nat /\
    stun_attr_add_fingerprint_str b = Ret (0, MBuf (splice (mdata b) (mlen b - 4) w) (mlen b)).
Proof.
  intros Hm Hmax. pose proof (repr_len _ _ _ Hm). pose proof (repr_len16 _ _ _ Hm).
  eexists (to_be 4 (Z.lxor (ns_crc32 (slice (mdata b) 0 (mlen b - 8))) FINGERPRINT_XOR)).
  split; [done|]. unfold stun_attr_add_fingerprint_str.
  pose proof (add_too_long b m STUN_ATTRIBUTE_FINGERPRINT (zeros 4) Hm eq_refl ltac:(change (pad4 (blen (zeros 4))) with 4; lia)) as E.
  rewrite blen_zeros4 in E. rewrite E. mstep.
  rewrite crc_of_ret by lia. mstep. by rewrite wr_bytes_ret by buf_side.
Qed.

(** A message of 65500 bytes. *)
Lemma ex_full_message : exists b m, mrepr b m /\ MAX_STUN_MESSAGE_SIZE <= mlen b + 8.
Proof.
  assert (forall n k, Z.of_nat n = 65536 -> Z.of_nat k = 65476 ->
            exists b m, mrepr b m /\ MAX_STUN_MESSAGE_SIZE <= mlen b + 8) as H.
  { intros n k Hn Hk.
    destruct (init_refines 1 (zeros n) (zeros 12)) as (b0 & _ & R0 & L0 & C0);
      [apply bytes_ok_zeros|rewrite blen_zeros; lia|apply bytes_ok_zeros|done|].
    rewrite blen_zeros, Hn in C0.
    destruct (attr_add_refines b0 _ STUN_ATTRIBUTE_DATA (zeros k) R0) as [_ R];
      rewrite ?L0, ?C0, ?blen_zeros, ?Hk; try done; [apply bytes_ok_zeros|].
    rewrite L0, blen_zeros, Hk in R. eexists _, _. split; [exact R|done]. }
  apply (H (Z.to_nat 65536) (Z.to_nat 65476)); by rewrite Z2Nat.id.
Qed.

Lemma fingerprint_overwrites_when_full_witness :
  exists b m w, mrepr b m /\ MAX_STUN_MESSAGE_SIZE <= mlen b + 8 /\
    stun_attr_add_fingerprint_str b = Ret (0, MBuf (splice (mdata b) (mlen b - 4) w) (mlen b)).
Proof.
  destruct ex_full_message as (b & m & R & L).
  destruct (fingerprint_overwrites_when_full b m R L) as (w & _ & E).
  exists b, m, w. split; [exact R|]. split; [exact L|exact E].
Defined.
