(* ===== verification/StunAuth.v ===== *)
(** Message integrity and passwords: src/coturn/src/client/ns_turn_msg.c
    (HMAC of messages, long-term keys, SASLprep, stored passwords).

    The digests and the HMAC are OpenSSL's and enter as the class [Crypto];
    what the code relies on, the sizes of their results, is [CryptoLaws].  The
    build has all of SHA-1, SHA-256, SHA-384 and SHA-512.  Arguments that are C
    strings are lists of characters; a character array the code takes the
    length of is a list in which the terminating zero must be found. *)

From stdpp Require Import base option numbers list strings.
From S2P Require Import Prelude IoAddr StunAddr StunDefs StunMsg StunMsgFacts StunCrc StunFingerprint.

(** * OpenSSL *)
Inductive evp_md : Type := EVP_md5 | EVP_sha1 | EVP_sha256 | EVP_sha384 | EVP_sha512.

Definition evp_md_size (md : evp_md) : Z :=
  match md with
  | EVP_md5 => 16
  | EVP_sha1 => 20
  | EVP_sha256 => 32
  | EVP_sha384 => 48
  | EVP_sha512 => 64
  end.

(** [HMAC md key data] is [None] when the library reports failure. *)
Class Crypto : Type := {
  HMAC : evp_md -> list Z -> list Z -> option (list Z);
  EVP_Digest : evp_md -> list Z -> list Z }.

Class CryptoLaws {C : Crypto} : Prop := {
  hmac_size md k d h : HMAC md k d = Some h -> blen h = evp_md_size md;
  hmac_bytes md k d h : HMAC md k d = Some h -> bytes_ok h;
  digest_size md d : blen (EVP_Digest md d) = evp_md_size md;
  digest_bytes md d : bytes_ok (EVP_Digest md d) }.
Arguments CryptoLaws C : clear implicits.

(** * Keys *)
Definition get_hmackey_size (shatype : SHATYPE) : Z :=
  match shatype with
  | SHATYPE_SHA256 => 32
  | SHATYPE_SHA384 => 48
  | SHATYPE_SHA512 => 64
  | _ => 16
  end.

(** [strlen] of a character array. *)
Definition strlen_array (a : list Z) : outcome Z :=
  if existsb (Z.eqb 0) a then Ret (strlen a) else UB.

(** [strncpy(dst,src,n)] into an array of [n] characters. *)
Definition strncpy_array (n : Z) (src : list Z) : list Z :=
  take (Z.to_nat n) (cstr src ++ zeros (Z.to_nat n)).

Section with_crypto.
Context {C : Crypto}.

(** The HMAC of [len] bytes of [buf] under [keylen] bytes of [key]. *)
Definition stun_calculate_hmac (buf : list Z) (len : Z) (key : list Z) (keylen : Z)
    (shatype : SHATYPE) : outcome (option (list Z)) :=
  data ← rd_bytes buf 0 len;
  k ← rd_bytes key 0 keylen;
  Ret (match shatype with
       | SHATYPE_SHA256 => HMAC EVP_sha256 k data
       | SHATYPE_SHA384 => HMAC EVP_sha384 k data
       | SHATYPE_SHA512 => HMAC EVP_sha512 k data
       | _ => HMAC EVP_sha1 k data
       end).

(** The HMAC of a message: under the password for short-term credentials,
    under the key otherwise. *)
Definition message_hmac (ct : turn_credential_type) (buf : list Z) (len : Z) (key pwd : list Z)
    (shatype : SHATYPE) : outcome (option (list Z)) :=
  if decide (ct = TURN_CREDENTIALS_SHORT_TERM) then
    plen ← strlen_array pwd;
    stun_calculate_hmac buf len pwd plen shatype
  else stun_calculate_hmac buf len key (get_hmackey_size shatype) shatype.

(** The returned code and the key array ([key] is its content before). *)
Definition stun_produce_integrity_key_str (uname realm upwd : list Z) (key : list Z)
    (shatype : SHATYPE) : outcome (Z * list Z) :=
  let str := cstr uname ++ [58] ++ cstr realm ++ [58] ++ cstr upwd in
  let md := match shatype with
            | SHATYPE_SHA256 => EVP_sha256
            | SHATYPE_SHA384 => EVP_sha384
            | SHATYPE_SHA512 => EVP_sha512
            | _ => EVP_md5
            end in
  key ← wr_bytes key 0 (EVP_Digest md str);
  Ret (0, key).

(** * Adding MESSAGE-INTEGRITY *)
Definition integrity_shasize (shatype : SHATYPE) : Z :=
  match shatype with
  | SHATYPE_SHA256 => SHA256SIZEBYTES
  | SHATYPE_SHA384 => SHA384SIZEBYTES
  | SHATYPE_SHA512 => SHA512SIZEBYTES
  | _ => SHA1SIZEBYTES
  end.

(** [hmac] is the content of the uninitialised array of that name. *)
Definition stun_attr_add_integrity_str (hmac : list Z) (ct : turn_credential_type) (m : mbuf)
    (key pwd : list Z) (shatype : SHATYPE) : outcome (Z * mbuf) :=
  let shasize := integrity_shasize shatype in
  '(r, m) ← stun_attr_add_str m STUN_ATTRIBUTE_MESSAGE_INTEGRITY (Some hmac) shasize;
  if r <? 0 then Ret (-1, m) else
  h ← message_hmac ct (mdata m) (mlen m - 4 - shasize) key pwd shatype;
  match h with
  | None => Ret (-1, m)
  | Some h => b ← wr_bytes (mdata m) (mlen m - shasize) h; Ret (0, MBuf b (mlen m))
  end.

Definition stun_attr_add_integrity_by_key_str (hmac : list Z) (m : mbuf) (uname realm : list Z)
    (key : list Z) (nonce : list Z) (shatype : SHATYPE) : outcome (Z * mbuf) :=
  '(r, m) ← stun_attr_add_str m STUN_ATTRIBUTE_USERNAME (Some uname) (strlen uname);
  if r <? 0 then Ret (-1, m) else
  '(r, m) ← stun_attr_add_str m STUN_ATTRIBUTE_NONCE (Some nonce) (strlen nonce);
  if r <? 0 then Ret (-1, m) else
  '(r, m) ← stun_attr_add_str m STUN_ATTRIBUTE_REALM (Some realm) (strlen realm);
  if r <? 0 then Ret (-1, m) else
  stun_attr_add_integrity_str hmac TURN_CREDENTIALS_LONG_TERM m key [] shatype.

(** [key] is the content of the uninitialised key array. *)
Definition stun_attr_add_integrity_by_user_str (hmac key : list Z) (m : mbuf)
    (uname realm upwd nonce : list Z) (shatype : SHATYPE) : outcome (Z * mbuf) :=
  '(r, key) ← stun_produce_integrity_key_str uname realm upwd key shatype;
  if r <? 0 then Ret (-1, m) else
  stun_attr_add_integrity_by_key_str hmac m uname realm key nonce shatype.

Definition stun_attr_add_integrity_by_user_short_term_str (hmac key : list Z) (m : mbuf)
    (uname pwd : list Z) (shatype : SHATYPE) : outcome (Z * mbuf) :=
  '(r, m) ← stun_attr_add_str m STUN_ATTRIBUTE_USERNAME (Some uname) (strlen uname);
  if r <? 0 then Ret (-1, m) else
  stun_attr_add_integrity_str hmac TURN_CREDENTIALS_SHORT_TERM m key pwd shatype.

(** * Checking MESSAGE-INTEGRITY *)

(** [shasize] when the length of the attribute and the type agree. *)
Definition check_shasize (sarlen : Z) (shatype : SHATYPE) : option Z :=
  if sarlen =? SHA256SIZEBYTES then
    if decide (shatype <> SHATYPE_SHA256) then None else Some SHA256SIZEBYTES
  else if sarlen =? SHA384SIZEBYTES then
    if decide (shatype <> SHATYPE_SHA384) then None else Some SHA384SIZEBYTES
  else if sarlen =? SHA512SIZEBYTES then
    if decide (shatype <> SHATYPE_SHA512) then None else Some SHA512SIZEBYTES
  else if sarlen =? SHA1SIZEBYTES then
    if decide (shatype <> SHATYPE_SHA1) then None else Some SHA1SIZEBYTES
  else None.

(** The returned code (-1 failure, 0 wrong, 1 right) and the buffer, whose
    length field is changed and set back. *)
Definition stun_check_message_integrity_by_key_str (ct : turn_credential_type) (buf : list Z)
    (len : Z) (key pwd : list Z) (shatype : SHATYPE) : outcome (Z * list Z) :=
  sar ← stun_attr_get_first_by_type_str buf len STUN_ATTRIBUTE_MESSAGE_INTEGRITY;
  match sar with
  | None => Ret (-1, buf)
  | Some a =>
      sarlen ← stun_attr_get_len buf sar;
      match check_shasize sarlen shatype with
      | None => Ret (-1, buf)
      | Some shasize =>
          orig_len ← stun_get_command_message_len_str buf len;
          if orig_len <? 0 then Ret (-1, buf) else
          let new_len := a + 4 + shasize in
          if new_len >? orig_len then Ret (-1, buf) else
          '(r, buf) ← stun_set_command_message_len_str buf new_len;
          if r <? 0 then Ret (-1, buf) else
          res ← message_hmac ct buf (new_len - 4 - shasize) key pwd shatype;
          '(_, buf) ← stun_set_command_message_len_str buf orig_len;
          match res with
          | None => Ret (-1, buf)
          | Some new_hmac =>
              old_hmac ← stun_attr_get_value buf sar;
              match old_hmac with
              | None => Ret (-1, buf)
              | Some o =>
                  old ← rd_bytes buf o (blen new_hmac);
                  if decide (old = new_hmac) then Ret (1, buf) else Ret (0, buf)
              end
          end
      end
  end.

(** [key] and [pwd] are the contents of the two uninitialised arrays. *)
Definition stun_check_message_integrity_str (key pwd : list Z) (ct : turn_credential_type)
    (buf : list Z) (len : Z) (uname realm upwd : list Z) (shatype : SHATYPE) :
    outcome (Z * list Z) :=
  if decide (ct = TURN_CREDENTIALS_SHORT_TERM) then
    stun_check_message_integrity_by_key_str ct buf len key
      (strncpy_array (STUN_MAX_PWD_SIZE + 1) upwd) shatype
  else
    '(r, key) ← stun_produce_integrity_key_str uname realm upwd key shatype;
    if r <? 0 then Ret (-1, buf)
    else stun_check_message_integrity_by_key_str ct buf len key pwd shatype.

(** * Stored passwords *)
Definition PWD_SALT_SIZE : Z := 8.

Definition hex_digit (d : Z) : Z := if d <? 10 then 48 + d else 87 + d.

(** [snprintf(..,"%02x",b)] of an unsigned char. *)
Definition hex2 (b : Z) : list Z := [hex_digit (b / 16); hex_digit (b mod 16)].

(** The characters written before the terminating zero. *)
Definition readable_string (orig : list Z) (sz : Z) : outcome (list Z) :=
  bs ← rd_bytes orig 0 sz;
  Ret (concat (hex2 <$> bs)).

(** The string left in [result]; [rnd] is what [generate_random_nonce] puts
    into the salt when [orig_salt] is NULL. *)
Definition generate_enc_password (pwd : list Z) (orig_salt : option (list Z)) (rnd : list Z) :
    outcome (list Z) :=
  salt ← (match orig_salt with
          | None => rd_bytes rnd 0 PWD_SALT_SIZE
          | Some s => rd_bytes s 0 PWD_SALT_SIZE
          end);
  rsalt ← readable_string salt PWD_SALT_SIZE;
  let hash := EVP_Digest EVP_sha256 (salt ++ cstr pwd) in
  out ← readable_string hash (blen hash);
  Ret ([36; 53; 36] ++ rsalt ++ [36] ++ out).

Definition generate_new_enc_password (pwd rnd : list Z) : outcome (list Z) :=
  generate_enc_password pwd None rnd.

(** [strtoul(s,NULL,16)]: white space, sign, optional 0x, hexadecimal digits;
    zero when there is no number. *)
Definition hex_value (c : Z) : option Z :=
  if (48 <=? c) && (c <=? 57) then Some (c - 48)
  else if (97 <=? c) && (c <=? 102) then Some (c - 87)
  else if (65 <=? c) && (c <=? 70) then Some (c - 55)
  else None.

Definition isspace (c : Z) : bool := (c =? 32) || ((9 <=? c) && (c <=? 13)).

Fixpoint hex_digits (acc : Z) (s : list Z) : Z :=
  match s with
  | [] => acc
  | c :: r => match hex_value c with Some d => hex_digits (acc * 16 + d) r | None => acc end
  end.

Fixpoint skip_spaces (s : list Z) : list Z :=
  match s with
  | c :: r => if isspace c then skip_spaces r else s
  | [] => []
  end.

Definition strtoul16 (s : list Z) : Z :=
  let s := skip_spaces (cstr s) in
  let '(neg, s) := match s with
                   | c :: r => if c =? 45 then (true, r) else if c =? 43 then (false, r) else (false, s)
                   | [] => (false, s)
                   end in
  let s := match s with
           | z :: x :: d :: r =>
               if (z =? 48) && ((x =? 120) || (x =? 88)) && bool_decide (is_Some (hex_value d))
               then d :: r else s
           | _ => s
           end in
  let v := hex_digits 0 s in
  u64 (if (neg : bool) then - v else v).

(** The salt of a stored password, [None] when it is not in the stored form. *)
Definition encrypted_password (pin : list Z) : option (list Z) :=
  let pin := cstr pin in
  let min_len := 3 + PWD_SALT_SIZE + PWD_SALT_SIZE + 1 + 32 in
  let at_ i := nth i pin 0 in
  if blen pin >=? min_len then
    if (at_ 0%nat =? 36) && (at_ 1%nat =? 53) && (at_ 2%nat =? 36) && (at_ 19%nat =? 36) then
      Some ((fun i => u8 (strtoul16 [at_ (3 + i + i)%nat; at_ (3 + i + i + 1)%nat])) <$> seq 0 8)
    else None
  else None.

Definition check_password (pin pwd : list Z) : outcome Z :=
  match encrypted_password pwd with
  | None => Ret (strcmp pin pwd)
  | Some salt =>
      enc_pin ← generate_enc_password pin (Some salt) [];
      Ret (strcmp enc_pin pwd)
  end.
End with_crypto.

(** * SASLprep

    [strin] and [strout] are offsets into the string, which is rewritten in
    place; the string includes its terminating zero. *)
Fixpoint saslprep_loop (fuel : nat) (s : list Z) (strin strout : Z) : outcome (Z * list Z) :=
  match fuel with
  | O => NoFuel
  | S f =>
      c ← rd8 s strin;
      if c =? 0 then s ← wr_bytes s strout [0]; Ret (0, s)
      else if c =? 0xAD then saslprep_loop f s (strin + 1) strout
      else if (c =? 0xA0) || (c =? 0x20) then
        s ← wr_bytes s strout [0x20]; saslprep_loop f s (strin + 1) (strout + 1)
      else if c =? 0x7F then Ret (-1, s)
      else if c <? 0x1F then Ret (-1, s)
      else if (c >=? 0x80) && (c <=? 0x9F) then Ret (-1, s)
      else s ← wr_bytes s strout [c]; saslprep_loop f s (strin + 1) (strout + 1)
  end.

(** One round per character of the string. *)
Definition SASLprep (s : option (list Z)) : outcome (Z * option (list Z)) :=
  match s with
  | None => Ret (0, None)
  | Some s => '(r, s) ← saslprep_loop (S (length s)) s 0 0; Ret (r, Some s)
  end.

Arguments stun_calculate_hmac : simpl never.
Arguments stun_attr_add_integrity_str : simpl never.
Arguments stun_check_message_integrity_by_key_str : simpl never.
