(* ===== verification/StunAuthFacts.v ===== *)
(** Properties of message integrity, SASLprep and stored passwords. *)

From stdpp Require Import base option numbers list strings.
From S2P Require Import Prelude IoAddr StunAddr StunDefs StunMsg StunMsgFacts StunCrc.
From S2P Require Import StunFingerprint StunAuth.

(** * The HMAC of a message *)
Definition hmac_md (shatype : SHATYPE) : evp_md :=
  match shatype with
  | SHATYPE_SHA256 => EVP_sha256
  | SHATYPE_SHA384 => EVP_sha384
  | SHATYPE_SHA512 => EVP_sha512
  | _ => EVP_sha1
  end.

(** [K] is the secret the code feeds to the HMAC, and reading it is defined. *)
Definition key_ready (ct : turn_credential_type) (key pwd : list Z) (shatype : SHATYPE)
    (K : list Z) : Prop :=
  if decide (ct = TURN_CREDENTIALS_SHORT_TERM) then existsb (Z.eqb 0) pwd = true /\ K = cstr pwd
  else get_hmackey_size shatype <= blen key /\ K = slice key 0 (get_hmackey_size shatype).

Lemma cstr_prefix s : blen (cstr s) <= blen s /\ slice s 0 (blen (cstr s)) = cstr s.
Proof.
  unfold slice, blen. rewrite drop_0, Nat2Z.id. induction s as [|c s [IH1 IH2]]; simpl; [done|].
  destruct (c =? 0); simpl; [split; [lia|done]|]. split; [lia|]. by f_equal.
Qed.

Lemma integrity_shasize_pad shatype :
  0 < integrity_shasize shatype <= 64 /\ pad4 (integrity_shasize shatype) = integrity_shasize shatype /\
  evp_md_size (hmac_md shatype) = integrity_shasize shatype.
Proof. by destruct shatype. Qed.

(** The message as the HMAC covers it: the length field counts the integrity
    attribute at [a] and nothing after it. *)
Definition hmac_input (buf : list Z) (a shasize : Z) : list Z :=
  slice (splice buf 2 (to_be 2 (a + 4 + shasize - 20))) 0 a.

Lemma hmac_input_prefix buf buf' a n :
  20 <= a -> a <= blen buf -> a <= blen buf' -> slice buf 0 a = slice buf' 0 a ->
  hmac_input buf a n = hmac_input buf' a n.
Proof.
  intros ? ? ? E. unfold hmac_input.
  by rewrite !slice_splice_prefix, E by (rewrite ?blen_to_be; lia).
Qed.

(** Changing the length field does not matter. *)
Lemma hmac_input_len buf a n x :
  20 <= a -> a <= blen buf -> hmac_input (splice buf 2 (to_be 2 x)) a n = hmac_input buf a n.
Proof.
  intros. unfold hmac_input. rewrite splice_splice_same; [done|lia|rewrite blen_to_be; lia|done].
Qed.

Section with_crypto.
Context {C : Crypto}.

Lemma message_hmac_ret ct buf n key pwd shatype K :
  key_ready ct key pwd shatype K -> 0 <= n <= blen buf ->
  message_hmac ct buf n key pwd shatype = Ret (HMAC (hmac_md shatype) K (slice buf 0 n)).
Proof.
  intros Hk Hn. unfold message_hmac, key_ready in *.
  destruct (decide _) as [_|_]; destruct Hk as [Hk ->].
  - unfold strlen_array. rewrite Hk. mstep. unfold stun_calculate_hmac.
    rewrite (rd_bytes_ret buf) by lia. mstep. destruct (cstr_prefix pwd) as [? E]. unfold strlen.
    rewrite rd_bytes_ret, E by blia. mstep. by destruct shatype.
  - unfold stun_calculate_hmac. rewrite (rd_bytes_ret buf) by lia. mstep.
    assert (0 <= get_hmackey_size shatype) by (by destruct shatype).
    rewrite rd_bytes_ret by lia. mstep. by destruct shatype.
Qed.

(** A longer source array does not change what is appended. *)
Lemma attr_add_take m t v n :
  0 <= n <= blen v -> stun_attr_add_str m t (Some v) n = stun_attr_add_str m t (Some (slice v 0 n)) n.
Proof.
  intros Hn. unfold stun_attr_add_str.
  assert (rd_bytes (slice v 0 n) 0 (if n <? 0 then 0 else n) = rd_bytes v 0 (if n <? 0 then 0 else n))
    as ->; [|done].
  if_case. rewrite !rd_bytes_ret; rewrite ?blen_slice; try lia.
  f_equal. rewrite slice_slice by lia. done.
Qed.

Context {CL : CryptoLaws C}.

Lemma add_integrity_refines hmac ct b m key pwd shatype K h :
  let sz := integrity_shasize shatype in
  mrepr b m -> bytes_ok hmac -> MAXSHASIZE <= blen hmac -> key_ready ct key pwd shatype K ->
  mlen b + 4 + sz < MAX_STUN_MESSAGE_SIZE -> mlen b + 4 + sz <= blen (mdata b) ->
  HMAC (hmac_md shatype) K (hmac_input (mdata b) (mlen b) sz) = Some h ->
  exists b', stun_attr_add_integrity_str hmac ct b key pwd shatype = Ret (0, b') /\
    mrepr b' (s_add m STUN_ATTRIBUTE_MESSAGE_INTEGRITY h) /\ mlen b' = mlen b + 4 + sz /\
    blen (mdata b') = blen (mdata b) /\ blen h = sz /\
    slice (mdata b') 0 (mlen b) = hmac_input (mdata b) (mlen b) sz.
Proof.
  intros sz Hm Bh Lh Hk Hmax Hcap HH. pose proof (repr_len _ _ _ Hm) as HL.
  destruct (integrity_shasize_pad shatype) as (Hsz & Hp & Hmd). fold sz in Hsz, Hp, Hmd.
  assert (blen h = sz) as Lhh by (rewrite (hmac_size _ _ _ _ HH); done).
  unfold MAXSHASIZE in Lh. set (w := slice hmac 0 sz).
  assert (blen w = sz) as Lw by (apply blen_slice; lia).
  destruct (add_fill b m STUN_ATTRIBUTE_MESSAGE_INTEGRITY w h Hm) as (A & Hd & Hpre & R);
    rewrite ?Lw; try lia; try done.
  { subst w. auto with bytes. } { by eapply hmac_bytes. } { unfold blen in *. lia. }
  rewrite Lw in A, R, Hpre. set (d := added _ _ _ _) in *.
  unfold stun_attr_add_integrity_str. fold sz. rewrite attr_add_take by lia. fold w. rewrite A.
  mstep. cbn [mdata mlen]. change (0 <? 0) with false. cbn iota.
  replace (mlen b + 4 + sz - 4 - sz) with (mlen b) by lia.
  rewrite (message_hmac_ret _ _ _ _ _ _ K) by (done || lia). rewrite Hpre.
  fold (hmac_input (mdata b) (mlen b) sz). rewrite HH. mstep.
  replace (mlen b + 4 + sz - sz) with (mlen b + 4) by lia. rewrite wr_bytes_ret by lia. mstep.
  eexists. split; [done|]. split; [exact R|]. split; [done|]. cbn [mdata].
  split; [by rewrite blen_splice by lia|]. split; [done|].
  rewrite slice_splice_above by lia. exact Hpre.
Qed.

(** ** Checking *)
Lemma check_shasize_some l shatype n :
  check_shasize l shatype = Some n ->
  l = n /\ n = integrity_shasize shatype /\ shatype <> SHATYPE_ERROR.
Proof.
  unfold check_shasize.
  repeat (destruct (l =? _) eqn:?; bool_arith; [destruct (decide _) as [|Hs]; [done|]|]);
    [..|done]; apply dec_stable in Hs; subst shatype; intros [= <-]; done.
Qed.

Lemma check_shasize_ok shatype :
  shatype <> SHATYPE_ERROR ->
  check_shasize (integrity_shasize shatype) shatype = Some (integrity_shasize shatype).
Proof. by destruct shatype. Qed.

Lemma len_field_restore buf len fin x :
  bytes_ok buf -> stun_get_command_message_len_str buf len = Ret fin -> 0 <= fin ->
  splice (splice buf 2 (to_be 2 x)) 2 (to_be 2 (fin - 20)) = buf /\ 20 <= fin <= len /\ 4 <= blen buf.
Proof.
  intros B E Hf. unfold stun_get_command_message_len_str, STUN_HEADER_LENGTH in E.
  destruct (len <? 20) eqn:?; [simplify_eq; lia|]. bool_arith.
  destruct (rd16 buf 2) as [v| |] eqn:Ev; try discriminate E. mstep. cbn [mbind outcome_bind] in E.
  destruct (_ >? len) eqn:?; [simplify_eq; lia|]. bool_arith. injection E as <-.
  pose proof (rd16_range _ _ _ B Ev). unfold rd16 in Ev.
  destruct (rd_bytes buf 2 2) as [bs| |] eqn:Eb; try discriminate Ev. injection Ev as <-.
  apply rd_bytes_inv in Eb as (_ & _ & Hb & ->). split; [|lia].
  rewrite splice_splice_same by (rewrite ?blen_to_be; done || lia).
  replace (be (slice buf 2 2) + 20 - 20) with (be (slice buf 2 2)) by lia.
  rewrite to_be_be_n; auto with bytes; [by apply splice_slice_id|].
  pose proof (blen_slice buf 2 2). unfold blen in *. lia.
Qed.

(** The check, once the attribute is found and its length fits. *)
Lemma check_at ct buf len key pwd shatype K a l fin :
  let sz := integrity_shasize shatype in
  bytes_ok buf -> len <= blen buf -> key_ready ct key pwd shatype K ->
  stun_attr_get_first_by_type_str buf len STUN_ATTRIBUTE_MESSAGE_INTEGRITY = Ret (Some a) ->
  stun_attr_get_len buf (Some a) = Ret l -> check_shasize l shatype = Some sz ->
  stun_get_command_message_len_str buf len = Ret fin -> 20 <= a -> a + 4 + sz <= fin ->
  stun_check_message_integrity_by_key_str ct buf len key pwd shatype =
  Ret (match HMAC (hmac_md shatype) K (hmac_input buf a sz) with
       | None => -1
       | Some h => if decide (slice buf (a + 4) sz = h) then 1 else 0
       end, buf).
Proof.
  intros sz B L Hk F El Ec Ef Ha Hfin. unfold stun_check_message_integrity_by_key_str.
  destruct (integrity_shasize_pad shatype) as (Hsz & _ & Hmd). fold sz in Hsz, Hmd.
  destruct (len_field_restore buf len fin (a + 4 + sz - 20) B Ef ltac:(lia)) as (Hres & ? & ?).
  rewrite F. mstep. rewrite El. mstep. rewrite Ec, Ef. mstep.
  destruct (fin <? 0) eqn:?; [bool_arith; lia|]. destruct (_ >? fin) eqn:?; [bool_arith; lia|].
  rewrite set_len_ret by lia. mstep. change (0 <? 0) with false. cbn iota.
  replace (a + 4 + sz - 4 - sz) with a by lia.
  rewrite (message_hmac_ret _ _ _ _ _ _ K) by (done || (rewrite blen_splice by buf_side; lia)).
  mstep. rewrite set_len_ret by (rewrite ?blen_splice by buf_side; lia). mstep. rewrite Hres.
  fold (hmac_input buf a sz). destruct (HMAC _ _ _) as [h|] eqn:HH; [|done].
  assert (blen h = sz) as Lh by (rewrite (hmac_size _ _ _ _ HH); done).
  assert (stun_attr_get_value buf (Some a) = Ret (Some (a + 4))) as ->.
  { apply check_shasize_some in Ec as (-> & _). unfold stun_attr_get_len in El.
    unfold stun_attr_get_value. rewrite El. mstep. by destruct (sz <? 1) eqn:?; [bool_arith; lia|]. }
  mstep. rewrite rd_bytes_ret, Lh by lia. mstep. by destruct (decide _).
Qed.

(** The check of a message that represents an abstract one. *)
Lemma check_repr ct buf len m key pwd shatype K a v r h :
  let sz := integrity_shasize shatype in
  repr buf len m -> key_ready ct key pwd shatype K -> shatype <> SHATYPE_ERROR ->
  find_attr 20 (s_attrs m) STUN_ATTRIBUTE_MESSAGE_INTEGRITY = Some a -> 20 <= a ->
  attrs_at buf a len ((STUN_ATTRIBUTE_MESSAGE_INTEGRITY, v) :: r) -> blen v = sz ->
  HMAC (hmac_md shatype) K (hmac_input buf a sz) = Some h ->
  stun_check_message_integrity_by_key_str ct buf len key pwd shatype =
  Ret (if decide (v = h) then 1 else 0, buf).
Proof.
  intros sz Hm Hk Hs Hf Ha At Lv HH.
  destruct (integrity_shasize_pad shatype) as (Hsz & Hp & _). fold sz in Hsz, Hp.
  destruct (at_bounds _ _ _ _ _ _ _ Hm At) as (? & ? & ?). rewrite Lv, Hp in *.
  rewrite (check_at ct buf len key pwd shatype K a sz len); try done; fold sz.
  - rewrite HH. do 2 f_equal.
    destruct At as (_ & _ & _ & _ & E & _). by rewrite Lv in E; rewrite E.
  - apply Hm.
  - apply Hm.
  - by rewrite (get_first_by_type_refines _ _ _ _ Hm), Hf.
  - by rewrite (at_len _ _ _ _ _ _ _ Hm Ha At), Lv.
  - by apply check_shasize_ok.
  - by apply (repr_command_len _ _ m).
Qed.

(** ** Stored passwords *)
Lemma hex_roundtrip_all :
  forallb (fun b => (u8 (strtoul16 (hex2 b)) =? b) && forallb (fun c => negb (c =? 0)) (hex2 b))
    (seqZ 0 256) = true.
Proof. vm_compute. reflexivity. Qed.

Lemma hex_roundtrip b :
  is_byte b -> u8 (strtoul16 (hex2 b)) = b /\ Forall (fun c => c <> 0) (hex2 b).
Proof.
  intros Hb. pose proof hex_roundtrip_all as H. rewrite forallb_forall in H.
  assert (In b (seqZ 0 256)) as Hin by (apply list_elem_of_In, elem_of_seqZ; unfold is_byte in Hb; lia).
  specialize (H b Hin). apply andb_true_iff in H as [H1 H2]. bool_arith. split; [done|].
  apply Forall_forall. intros c Hc. rewrite forallb_forall in H2.
  apply list_elem_of_In, H2 in Hc. by bool_arith.
Qed.

Lemma hex2_inj a b : is_byte a -> is_byte b -> hex2 a = hex2 b -> a = b.
Proof.
  intros Ha Hb E. apply hex_roundtrip in Ha as [<- _]. apply hex_roundtrip in Hb as [<- _].
  by rewrite E.
Qed.

Lemma hex_string_inj l k :
  bytes_ok l -> bytes_ok k -> concat (hex2 <$> l) = concat (hex2 <$> k) -> l = k.
Proof.
  intros Bl. revert k. induction Bl as [|a l Ha Bl IH]; intros [|b k] Bk E; try done.
  inversion_clear Bk as [|? ? Hb Bk']. simpl in E. injection E as E1 E2 E3.
  assert (a = b) as -> by (apply hex2_inj; [done..|]; unfold hex2; congruence).
  f_equal. by apply IH.
Qed.

Lemma hex_string_nonzero l : bytes_ok l -> Forall (fun c => c <> 0) (concat (hex2 <$> l)).
Proof.
  induction 1 as [|a l Ha Bl IH]; simpl; [constructor|].
  apply (Forall_app _ (hex2 a)). split; [by apply hex_roundtrip|done].
Qed.

Lemma hex_string_length l : length (concat (hex2 <$> l)) = (2 * length l)%nat.
Proof. induction l as [|a l IH]; [done|]. rewrite fmap_cons. cbn [concat].
  rewrite length_app, IH. simpl. lia. Qed.

(** The stored form of a password. *)
Definition stored (salt pwd : list Z) : list Z :=
  [36; 53; 36] ++ concat (hex2 <$> salt) ++ [36] ++
  concat (hex2 <$> EVP_Digest EVP_sha256 (salt ++ cstr pwd)).

Lemma stored_nonzero salt pwd : bytes_ok salt -> Forall (fun c => c <> 0) (stored salt pwd).
Proof.
  intros B. unfold stored. rewrite !Forall_app. split_and!.
  - repeat (constructor; [done|]). constructor.
  - by apply hex_string_nonzero.
  - by repeat constructor.
  - apply hex_string_nonzero, digest_bytes.
Qed.

Lemma generate_stored pwd salt :
  length salt = 8%nat -> generate_enc_password pwd (Some salt) [] = Ret (stored salt pwd) /\
  generate_new_enc_password pwd salt = Ret (stored salt pwd).
Proof.
  intros L. unfold generate_new_enc_password, generate_enc_password, readable_string, PWD_SALT_SIZE.
  assert (blen salt = 8) as L8 by (unfold blen; lia).
  rewrite (rd_bytes_ret salt), slice_all by lia. mstep.
  rewrite (rd_bytes_ret salt), slice_all by lia. mstep.
  rewrite rd_bytes_ret, slice_all by blia. done.
Qed.

Lemma encrypted_stored salt pwd :
  bytes_ok salt -> length salt = 8%nat -> encrypted_password (stored salt pwd) = Some salt.
Proof.
  intros B L. unfold encrypted_password. rewrite cstr_nonzero by (by apply stored_nonzero).
  assert (blen (stored salt pwd) = 84) as ->.
  { pose proof (digest_size EVP_sha256 (salt ++ cstr pwd)) as Hd. unfold blen in *.
    unfold stored. rewrite !length_app, !hex_string_length. simpl in *. lia. }
  do 8 (destruct salt as [|? salt]; [done|]). destruct salt; [|done]. unfold bytes_ok in B.
  rewrite !Forall_cons in B. destruct B as (H0 & H1 & H2 & H3 & H4 & H5 & H6 & H7 & _).
  change (84 >=? _) with true. cbn -[strtoul16 hex2 u8].
  repeat f_equal; by apply hex_roundtrip.
Qed.
End with_crypto.

(** * SASLprep *)
Definition sasl_prohibited (c : Z) : bool :=
  (c =? 0x7F) || (c <? 0x1F) || ((0x80 <=? c) && (c <=? 0x9F)).

(** Soft hyphens vanish, the non-breaking space becomes a space. *)
Fixpoint sasl_map (l : list Z) : list Z :=
  match l with
  | [] => []
  | c :: r =>
      if c =? 0xAD then sasl_map r
      else if c =? 0xA0 then 0x20 :: sasl_map r
      else c :: sasl_map r
  end.

Lemma sasl_map_length l : (length (sasl_map l) <= length l)%nat.
Proof. induction l as [|c l IH]; simpl; [done|]. repeat case_match; simpl; lia. Qed.

Lemma rd8_drop s i c r :
  drop i s = c :: r -> is_byte c -> rd8 s (Z.of_nat i) = Ret c /\ (i < length s)%nat /\ drop (S i) s = r.
Proof.
  intros E Hc. assert (i < length s)%nat as Hi.
  { destruct (Nat.lt_ge_cases i (length s)) as [?|H]; [done|]. by rewrite drop_ge in E. }
  split; [|split; [done|]].
  - rewrite rd8_ret by (unfold blen; lia). unfold slice. rewrite Nat2Z.id, E. simpl. done.
  - replace (S i) with (i + 1)%nat by lia. rewrite <- drop_drop, E. done.
Qed.

Lemma write_char s i o c :
  (o <= i)%nat -> (i < length s)%nat ->
  exists s', wr_bytes s (Z.of_nat o) [c] = Ret s' /\ length s' = length s /\
    take (S o) s' = take o s ++ [c] /\ drop (S i) s' = drop (S i) s /\
    s' = take o s ++ c :: drop (S o) s.
Proof.
  intros Ho Hi. exists (take o s ++ c :: drop (S o) s). split.
  - rewrite wr_bytes_ret by (unfold blen; simpl; lia). unfold splice. rewrite Nat2Z.id. simpl.
    by rewrite Nat.add_1_r.
  - split; [rewrite length_app, length_take; simpl; rewrite length_drop; lia|]. split; [|split; [|done]].
    + rewrite take_app_ge by (rewrite length_take; lia). rewrite length_take.
      replace (S o - o `min` length s)%nat with 1%nat by lia. done.
    + rewrite drop_app_ge by (rewrite length_take; lia). rewrite length_take.
      replace (S i - o `min` length s)%nat with (S (i - o)) by lia. simpl. rewrite drop_drop. f_equal. lia.
Qed.

Section saslprep.
Context (rest : list Z).

(** The loop on an accepted rest of the string. *)
Lemma saslprep_loop_ok l : forall fuel s i o,
  (o <= i)%nat -> drop i s = l ++ 0 :: rest -> (length l < fuel)%nat ->
  bytes_ok l -> Forall (fun c => c <> 0) l -> forallb (fun c => negb (sasl_prohibited c)) l = true ->
  exists s' tl, saslprep_loop fuel s (Z.of_nat i) (Z.of_nat o) = Ret (0, s') /\
    s' = take o s ++ sasl_map l ++ 0 :: tl /\ length s' = length s.
Proof.
  induction l as [|c l IH]; intros [|fuel] s i o Ho E Hf B N P; simpl in Hf; try lia.
  - destruct (rd8_drop s i 0 rest E) as (R & Hi & _); [done|].
    destruct (write_char s i o 0 Ho Hi) as (s' & W & L & _ & _ & Es).
    exists s', (drop (S o) s). cbn [saslprep_loop]. rewrite R. mstep. change (0 =? 0) with true.
    cbn iota. rewrite W. done.
  - inversion_clear B as [|? ? Bc Bl]. inversion_clear N as [|? ? Nc Nl]. simpl in P.
    apply andb_true_iff in P as [Pc Pl]. apply negb_true_iff in Pc. unfold sasl_prohibited in Pc.
    apply orb_false_iff in Pc as [Pc P3]. apply orb_false_iff in Pc as [P1 P2].
    destruct (rd8_drop s i c (l ++ 0 :: rest) E Bc) as (R & Hi & E').
    assert (forall ch, exists s', wr_bytes s (Z.of_nat o) [ch] = Ret s' /\
              exists s'' tl, saslprep_loop fuel s' (Z.of_nat i + 1) (Z.of_nat o + 1) = Ret (0, s'') /\
                s'' = take o s ++ ch :: sasl_map l ++ 0 :: tl /\ length s'' = length s) as Hw.
    { intros ch. destruct (write_char s i o ch Ho Hi) as (s' & W & L & T & D & _).
      exists s'. split; [done|].
      destruct (IH fuel s' (S i) (S o)) as (s'' & tl & F & Es & L'); try done; try lia.
      { by rewrite D. }
      exists s'', tl. replace (Z.of_nat i + 1) with (Z.of_nat (S i)) by lia.
      replace (Z.of_nat o + 1) with (Z.of_nat (S o)) by lia. split; [done|].
      split; [|lia]. by rewrite Es, T, <- app_assoc. }
    cbn [saslprep_loop sasl_map]. rewrite R. mstep.
    destruct (c =? 0) eqn:?; [bool_arith; done|]. destruct (c =? 0xAD) eqn:EAD.
    { replace (Z.of_nat i + 1) with (Z.of_nat (S i)) by lia. apply IH; try done; lia. }
    destruct (c =? 0xA0) eqn:EA0; cbn [orb].
    { destruct (Hw 0x20) as (s' & -> & ?). done. }
    destruct (c =? 0x20) eqn:E20.
    { bool_arith. subst c. destruct (Hw 0x20) as (s' & -> & ?). done. }
    rewrite P1, P2, Z.geb_leb, P3. destruct (Hw c) as (s' & -> & ?). done.
Qed.

(** A prohibited character stops the loop. *)
Lemma saslprep_loop_bad l : forall fuel s i o,
  (o <= i)%nat -> drop i s = l ++ 0 :: rest -> (length l < fuel)%nat ->
  bytes_ok l -> Forall (fun c => c <> 0) l -> existsb sasl_prohibited l = true ->
  exists s', saslprep_loop fuel s (Z.of_nat i) (Z.of_nat o) = Ret (-1, s').
Proof.
  induction l as [|c l IH]; intros [|fuel] s i o Ho E Hf B N P; simpl in Hf, P; try lia; try done.
  inversion_clear B as [|? ? Bc Bl]. inversion_clear N as [|? ? Nc Nl].
  destruct (rd8_drop s i c (l ++ 0 :: rest) E Bc) as (R & Hi & E').
  assert (existsb sasl_prohibited l = true -> forall ch, exists s',
            wr_bytes s (Z.of_nat o) [ch] = Ret s' /\
            exists s'', saslprep_loop fuel s' (Z.of_nat i + 1) (Z.of_nat o + 1) = Ret (-1, s'')) as Hw.
  { intros Pl ch. destruct (write_char s i o ch Ho Hi) as (s' & W & L & T & D & _).
    exists s'. split; [done|]. replace (Z.of_nat i + 1) with (Z.of_nat (S i)) by lia.
    replace (Z.of_nat o + 1) with (Z.of_nat (S o)) by lia. apply IH; try done; try lia. by rewrite D. }
  cbn [saslprep_loop]. rewrite R. mstep.
  destruct (c =? 0) eqn:?; [bool_arith; done|]. unfold sasl_prohibited in P at 1.
  destruct (c =? 0xAD) eqn:EAD.
  { bool_arith. subst c. simpl in P. replace (Z.of_nat i + 1) with (Z.of_nat (S i)) by lia.
    apply IH; try done; lia. }
  destruct ((c =? 0xA0) || (c =? 0x20)) eqn:ES.
  { assert (existsb sasl_prohibited l = true) as Pl
      by (apply orb_true_iff in ES as [ES|ES]; bool_arith; subst c; exact P).
    destruct (Hw Pl 0x20) as (s' & -> & ?). done. }
  destruct (c =? 0x7F); [eauto|]. destruct (c <? 0x1F); [eauto|]. rewrite Z.geb_leb.
  destruct ((0x80 <=? c) && (c <=? 0x9F)); [eauto|].
  destruct (Hw P c) as (s' & -> & ?). done.
Qed.
End saslprep.

(** * Claims *)


(** A small stand-in for the digests: every byte is the sum of the input. *)
Definition toy_sum (md : evp_md) (l : list Z) : list Z :=
  replicate (Z.to_nat (evp_md_size md)) (u8 (foldl Z.add 0 l)).

#[local] Instance toy_crypto : Crypto := {|
  HMAC md k d := Some (toy_sum md (k ++ d));
  EVP_Digest := toy_sum |}.

#[local] Instance toy_laws : CryptoLaws toy_crypto.
Proof.
  assert (forall md l, blen (toy_sum md l) = evp_md_size md) as Hs.
  { intros md l. unfold blen, toy_sum. rewrite length_replicate. by destruct md. }
  assert (forall md l, bytes_ok (toy_sum md l)) as Hb.
  { intros md l. apply Forall_replicate. unfold is_byte, u8. apply Z.mod_pos_bound. lia. }
  constructor; try done; intros md k d h [= <-]; auto.
Qed.

Definition ex_auth_msg : smsg := SMsg 1 STUN_MAGIC_COOKIE (zeros 12) [(0x8022, [97; 98; 99])].
Definition ex_auth_mbuf : mbuf := MBuf (ex_msg ++ zeros 100) 28.

Lemma ex_auth_repr : mrepr ex_auth_mbuf ex_auth_msg.
Proof. constructor; try (by apply bytes_okb_spec); try done; split; done. Qed.


(** The check on any received bytes. *)
Lemma integrity_check_spec {C : Crypto} {CL : CryptoLaws C} ct buf len key pwd shatype K :
  let sz := integrity_shasize shatype in
  bytes_ok buf -> len <= blen buf -> key_ready ct key pwd shatype K ->
  exists r, stun_check_message_integrity_by_key_str ct buf len key pwd shatype = Ret (r, buf) /\
    (r = -1 \/ r = 0 \/ r = 1) /\
    (r = 1 -> exists a, 20 <= a /\ a + 4 + sz <= len /\
       stun_attr_get_first_by_type_str buf len STUN_ATTRIBUTE_MESSAGE_INTEGRITY = Ret (Some a) /\
       stun_attr_get_len buf (Some a) = Ret sz /\
       HMAC (hmac_md shatype) K (hmac_input buf a sz) = Some (slice buf (a + 4) sz)).
Proof.
  intros sz B L Hk.
  destruct (search_by_type_safe buf len STUN_ATTRIBUTE_MESSAGE_INTEGRITY B L) as (q & F & Hq).
  assert (forall x, stun_check_message_integrity_by_key_str ct buf len key pwd shatype = Ret (-1, buf) ->
            exists r, stun_check_message_integrity_by_key_str ct buf len key pwd shatype = Ret (r, buf) /\
              (r = -1 \/ r = 0 \/ r = 1) /\ (r = 1 -> x)) as Fail.
  { intros x ->. eexists. split; [done|]. split; [auto|lia]. }
  destruct q as [a|].
  2: { apply Fail. unfold stun_check_message_integrity_by_key_str. by rewrite F. }
  destruct (Hq a eq_refl) as (l & Ha & _ & El & Hl & Hle).
  destruct (check_shasize l shatype) as [n|] eqn:Ec.
  2: { apply Fail. unfold stun_check_message_integrity_by_key_str. rewrite F. mstep. rewrite El. mstep.
       by rewrite Ec. }
  destruct (check_shasize_some _ _ _ Ec) as (-> & -> & _). fold sz in Ec, El, Hle, Hl.
  destruct (integrity_shasize_pad shatype) as (Hsz & Hp & _). fold sz in Hsz, Hp. rewrite Hp in Hle.
  destruct (command_len_cases buf len B L) as (fin & Ef & Hfin).
  destruct (Z.lt_ge_cases fin (a + 4 + sz)) as [Hlt|Hge].
  { apply Fail. unfold stun_check_message_integrity_by_key_str. rewrite F. mstep. rewrite El. mstep.
    rewrite Ec, Ef. mstep. destruct (fin <? 0); [done|]. by destruct (_ >? fin) eqn:?; [|bool_arith; lia]. }
  rewrite (check_at ct buf len key pwd shatype K a sz fin); try done.
  fold sz. eexists. split; [done|].
  destruct (HMAC _ _ _) as [h|] eqn:HH; [|split; [auto|lia]].
  destruct (decide _) as [E|E]; [|split; [auto|lia]]. split; [auto|]. intros _.
  exists a. rewrite HH, E. split_and!; (done || lia).
Qed.

(** C34. Soundness and safety of the integrity check on any received bytes:
    it never reads outside the message, leaves the buffer as it was, answers
    -1, 0 or 1, and answers 1 only if the bytes of the first integrity
    attribute equal the HMAC, under the given secret, of everything before
    that attribute with the length field cut to the end of the attribute. *)
Theorem integrity_check_sound {C : Crypto} {CL : CryptoLaws C} ct buf len key pwd shatype K :
  let sz := integrity_shasize shatype in
  bytes_ok buf -> len <= blen buf -> key_ready ct key pwd shatype K ->
  exists r, stun_check_message_integrity_by_key_str ct buf len key pwd shatype = Ret (r, buf) /\
    (r = -1 \/ r = 0 \/ r = 1) /\
    (r = 1 -> exists a, 20 <= a /\ a + 4 + sz <= len /\
       stun_attr_get_first_by_type_str buf len STUN_ATTRIBUTE_MESSAGE_INTEGRITY = Ret (Some a) /\
       stun_attr_get_len buf (Some a) = Ret sz /\
       HMAC (hmac_md shatype) K (hmac_input buf a sz) = Some (slice buf (a + 4) sz)).
Proof. apply integrity_check_spec. Qed.

Lemma integrity_check_sound_witness :
  exists r, stun_check_message_integrity_by_key_str TURN_CREDENTIALS_SHORT_TERM ex_msg 28 [] [112; 0]
              SHATYPE_SHA256 = Ret (r, ex_msg) /\
    (r = -1 \/ r = 0 \/ r = 1) /\
    (r = 1 -> exists a, 20 <= a /\ a + 4 + 32 <= 28 /\
       stun_attr_get_first_by_type_str ex_msg 28 STUN_ATTRIBUTE_MESSAGE_INTEGRITY = Ret (Some a) /\
       stun_attr_get_len ex_msg (Some a) = Ret 32 /\
       HMAC EVP_sha256 [112] (hmac_input ex_msg a 32) = Some (slice ex_msg (a + 4) 32)).
Proof.
  apply (integrity_check_sound TURN_CREDENTIALS_SHORT_TERM ex_msg 28 [] [112; 0] SHATYPE_SHA256 [112]);
    [by apply bytes_okb_spec|done|done].
Defined.

(** SASLprep: on any string (bytes up to the first zero) the in-place
    rewriting stays inside the string and ends; it answers -1 exactly when the
    string has a prohibited character, and otherwise leaves the mapped string:
    soft hyphens removed, non-breaking spaces turned into spaces. *)
Theorem saslprep_correct l rest :
  bytes_ok l -> Forall (fun c => c <> 0) l ->
  if existsb sasl_prohibited l
  then exists s', SASLprep (Some (l ++ 0 :: rest)) = Ret (-1, Some s')
  else exists tl, SASLprep (Some (l ++ 0 :: rest)) = Ret (0, Some (sasl_map l ++ 0 :: tl)) /\
                  length (sasl_map l ++ 0 :: tl) = length (l ++ 0 :: rest).
Proof.
  intros B N. unfold SASLprep.
  assert (length l < S (length (l ++ 0%Z :: rest)))%nat as Hf by (rewrite length_app; simpl; lia).
  destruct (existsb sasl_prohibited l) eqn:E.
  - destruct (saslprep_loop_bad rest l _ (l ++ 0 :: rest) 0 0 (le_n 0) eq_refl Hf B N E) as (s' & H).
    change (Z.of_nat 0) with 0 in H. rewrite H. by exists s'.
  - destruct (saslprep_loop_ok rest l _ (l ++ 0 :: rest) 0 0 (le_n 0) eq_refl Hf B N) as (s' & tl & H & -> & Ls).
    { apply not_true_iff_false in E. apply forallb_forall. intros c Hc. apply negb_true_iff.
      apply not_true_iff_false. intros Hp. apply E, existsb_exists. eauto. }
    change (Z.of_nat 0) with 0 in H. rewrite H. exists tl. split; [done|exact Ls].
Qed.

Lemma saslprep_correct_witness :
  exists tl, SASLprep (Some ([0x61; 0xAD; 0xA0; 0x62] ++ 0 :: [])) = Ret (0, Some ([0x61; 0x20; 0x62] ++ 0 :: tl)) /\
             length ([0x61; 0x20; 0x62] ++ 0 :: tl) = 5%nat.
Proof.
  apply (saslprep_correct [0x61; 0xAD; 0xA0; 0x62] []); [by apply bytes_okb_spec|].
  by repeat constructor.
Defined.

(** Stored passwords: for every salt of eight bytes, the salt is read
    back from the stored form, and checking a password against the stored
    form of another answers 0 (equal) exactly when the salted digests agree;
    so the right password is always accepted. *)
Theorem check_password_exact {C : Crypto} {CL : CryptoLaws C} pwd pin salt :
  bytes_ok salt -> length salt = 8%nat ->
  exists enc r, generate_new_enc_password pwd salt = Ret enc /\
    encrypted_password enc = Some salt /\ check_password pin enc = Ret r /\
    (r = 0 <-> EVP_Digest EVP_sha256 (salt ++ cstr pin) = EVP_Digest EVP_sha256 (salt ++ cstr pwd)).
Proof.
  intros B L. exists (stored salt pwd). eexists.
  split; [by apply generate_stored|]. pose proof (encrypted_stored salt pwd B L) as E.
  split; [done|]. unfold check_password. rewrite E.
  destruct (generate_stored pin salt L) as [-> _]. mstep. split; [done|]. unfold strcmp.
  rewrite !cstr_nonzero by (by apply stored_nonzero).
  rewrite strcmp_chars_zero by (by apply stored_nonzero). unfold stored. split.
  - intros H. do 2 apply app_inv_head in H. injection H as H.
    apply hex_string_inj in H; [done|apply digest_bytes..].
  - by intros ->.
Qed.

Lemma check_password_exact_witness :
  exists enc r, generate_new_enc_password [112; 119] [1; 2; 3; 4; 5; 6; 7; 255] = Ret enc /\
    encrypted_password enc = Some [1; 2; 3; 4; 5; 6; 7; 255] /\ check_password [112; 119] enc = Ret r /\
    (r = 0 <-> EVP_Digest EVP_sha256 ([1; 2; 3; 4; 5; 6; 7; 255] ++ cstr [112; 119]) =
               EVP_Digest EVP_sha256 ([1; 2; 3; 4; 5; 6; 7; 255] ++ cstr [112; 119])).
Proof. apply check_password_exact; [by apply bytes_okb_spec|done]. Defined.

(** The unit separator, a control character, passes SASLprep. *)
Lemma saslprep_allows_unit_separator : SASLprep (Some [0x1F; 0]) = Ret (0, Some [0x1F; 0]).
Proof. reflexivity. Qed.
