(* ===== verification/OAuth.v ===== *)
(** OAuth access tokens: the last part of src/coturn/src/client/ns_turn_msg.c.

    The authenticated encryption of OpenSSL is the class [Evp]; what the
    theorems use of it is [EvpLaws] of OAuthFacts.  The build has GCM.  The
    contents of arrays on the stack are arguments. *)

From stdpp Require Import base option numbers list strings.
From S2P Require Import Prelude IoAddr StunAddr StunDefs StunMsg StunAuth.

Definition OAUTH_KID_SIZE : Z := 128.
Definition OAUTH_ALG_SIZE : Z := 64.
Definition OAUTH_KEY_SIZE : Z := 256.
Definition OAUTH_GCM_NONCE_SIZE : Z := 12.
Definition OAUTH_MAX_NONCE_SIZE : Z := 256.
Definition OAUTH_GCM_TAG_SIZE : Z := 16.
Definition OAUTH_DEFAULT_LIFETIME : Z := 0.
Definition MAX_ENCODED_OAUTH_TOKEN_SIZE : Z := 1024.

Inductive ENC_ALG : Type := ENC_ALG_ERROR | A256GCM | A128GCM.

#[export] Instance ENC_ALG_eq_dec : EqDecision ENC_ALG.
Proof. solve_decision. Defined.

Definition ENC_ALG_DEFAULT : ENC_ALG := A256GCM.

(** ** Structures; character arrays with their full size *)
Record oauth_key_data : Type := OauthKeyData {
  kd_kid : list Z;
  kd_ikm_key : list Z;
  kd_ikm_key_size : Z;
  kd_timestamp : Z;
  kd_lifetime : Z;
  kd_as_rs_alg : list Z }.

Record oauth_key : Type := OauthKey {
  kid : list Z;
  ikm_key : list Z;
  ikm_key_size : Z;
  k_timestamp : Z;
  k_lifetime : Z;
  as_rs_alg : ENC_ALG;
  as_rs_key : list Z;
  as_rs_key_size : Z;
  auth_key : list Z;
  auth_key_size : Z }.

Record oauth_encrypted_block : Type := OauthBlock {
  nonce_length : Z;
  eb_nonce : list Z;
  key_length : Z;
  mac_key : list Z;
  eb_timestamp : Z;
  eb_lifetime : Z }.

Record encoded_oauth_token : Type := EncodedToken { token : list Z; et_size : Z }.

(** ** Keys *)
Fixpoint skip_blanks (s : list Z) : list Z :=
  match s with
  | c :: r => if c =? 32 then skip_blanks r else s
  | [] => []
  end.

Fixpoint first_word (s : list Z) : list Z :=
  match s with
  | c :: r => if c =? 32 then [] else c :: first_word r
  | [] => []
  end.

(** The string in the array becomes its first word, unless it has none. *)
Definition remove_spaces (s : list Z) : outcome (list Z) :=
  if existsb (Z.eqb 0) s then
    match skip_blanks (cstr s) with
    | [] => Ret s
    | w => wr_bytes s 0 (first_word w ++ [0])
    end
  else UB.

Definition normalize_char (c : Z) : Z :=
  if c =? 95 then 45 else if (97 <=? c) && (c <=? 122) then c - 97 + 65 else c.

Definition normalize_algorithm (s : list Z) : outcome (list Z) :=
  if existsb (Z.eqb 0) s then wr_bytes s 0 (normalize_char <$> cstr s) else UB.

Definition calculate_enc_key_length (a : ENC_ALG) : Z := match a with A128GCM => 16 | _ => 32 end.
Definition calculate_auth_key_length (a : ENC_ALG) : Z := 0.

(** [new_key_size] bytes of the old key. *)
Definition calculate_key (key new_key : list Z) (new_key_size : Z) : outcome (list Z) :=
  k ← rd_bytes key 0 new_key_size;
  wr_bytes new_key 0 k.

(** [STRCPY] into an array of [n] characters. *)
Definition STRCPY (n : Z) (src : list Z) : list Z := take (Z.to_nat (n - 1)) (strncpy_array n src) ++ [0].

Definition find_alg (s : list Z) : option ENC_ALG :=
  if strcmp s (bytes_of_string "A128GCM") =? 0 then Some A128GCM
  else if strcmp s (bytes_of_string "A256GCM") =? 0 then Some A256GCM
  else None.

(** The returned code, the key and the error message; [now] is [turn_time()]. *)
Definition convert_oauth_key_data (now : Z) (oakd : oauth_key_data) (key : oauth_key) :
    outcome (Z * oauth_key * option (list Z)) :=
  let err := if kd_ikm_key_size oakd =? 0 then Some (bytes_of_string "key is not defined") else None in
  k ← remove_spaces (kd_kid oakd);
  alg ← remove_spaces (kd_as_rs_alg oakd);
  alg ← normalize_algorithm alg;
  if hd 0 k =? 0 then Ret (-1, key, Some (bytes_of_string "KID is not defined")) else
  let ts := if kd_timestamp oakd =? 0 then now else kd_timestamp oakd in
  let lt := if kd_lifetime oakd =? 0 then OAUTH_DEFAULT_LIFETIME else kd_lifetime oakd in
  let blank := zeros (Z.to_nat (OAUTH_KEY_SIZE + 1)) in
  let make a key_bytes size := OauthKey (STRCPY (OAUTH_KID_SIZE + 1) k) (kd_ikm_key oakd) (kd_ikm_key_size oakd) ts lt a
                                 key_bytes size blank 0 in
  match find_alg alg with
  | None =>
      Ret (-1, make ENC_ALG_DEFAULT blank 0,
           Some (bytes_of_string "Wrong oAuth token encryption algorithm: " ++ cstr alg ++ bytes_of_string " (2)" ++ [10]))
  | Some a =>
      let n := calculate_enc_key_length a in
      kb ← calculate_key (kd_ikm_key oakd) blank n;
      Ret (0, make a kb n, err)
  end.

(** ** Encryption *)
Inductive EVP_CIPHER : Type := EVP_aes_128_gcm | EVP_aes_256_gcm.

Definition get_cipher_type (a : ENC_ALG) : option EVP_CIPHER :=
  match a with A128GCM => Some EVP_aes_128_gcm | A256GCM => Some EVP_aes_256_gcm | ENC_ALG_ERROR => None end.

(** A context is created with the cipher, the key and the nonce (the three
    initialising calls in one, which fail together) and, for decryption, the
    expected tag.  An update without output bytes takes associated data: it
    returns the code, the number of bytes taken and the bytes written. *)
Class Evp : Type := {
  evp_ctx : Type;
  EVP_EncryptInit : EVP_CIPHER -> list Z -> list Z -> option evp_ctx;
  EVP_DecryptInit : EVP_CIPHER -> list Z -> list Z -> list Z -> option evp_ctx;
  EVP_EncryptUpdate : evp_ctx -> bool -> list Z -> Z * Z * list Z * evp_ctx;
  EVP_DecryptUpdate : evp_ctx -> bool -> list Z -> Z * Z * list Z * evp_ctx;
  EVP_EncryptFinal : evp_ctx -> list Z * list Z;
  EVP_DecryptFinal : evp_ctx -> Z * list Z }.

Section evp.
Context {E : Evp}.

(** [while((out_len<inl)&&(++cycle<128))]: the code, the bytes written and the
    context. *)
Fixpoint my_EVP_Update (fuel : nat) (update : evp_ctx -> bool -> list Z -> Z * Z * list Z * evp_ctx) (ctx : evp_ctx) (out : bool)
    (inp : list Z) (out_len : Z) (written : list Z) : Z * list Z * evp_ctx :=
  match fuel with
  | O => (1, written, ctx)
  | S f =>
      if out_len <? blen inp then
        let '(ret, tmp_outl, bs, ctx) := update ctx out (drop (Z.to_nat out_len) inp) in
        if ret <? 1 then (ret, written ++ bs, ctx)
        else my_EVP_Update f update ctx out inp (out_len + tmp_outl) (written ++ bs)
      else (1, written, ctx)
  end.

Definition my_EVP_EncryptUpdate (ctx : evp_ctx) (out : bool) (inp : list Z) : Z * list Z * evp_ctx :=
  my_EVP_Update 127 EVP_EncryptUpdate ctx out inp 0 [].
Definition my_EVP_DecryptUpdate (ctx : evp_ctx) (out : bool) (inp : list Z) : Z * list Z * evp_ctx :=
  my_EVP_Update 127 EVP_DecryptUpdate ctx out inp 0 [].

(** [orig_field] behind the nonce. *)
Definition plain_fields (d : oauth_encrypted_block) (mk : list Z) : list Z :=
  to_be 2 (key_length d) ++ mk ++ to_be 8 (eb_timestamp d) ++ to_be 4 (eb_lifetime d).

(** The returned code and the token; [rnd] are the random bytes of the nonce. *)
Definition encode_oauth_token_gcm (server_name : list Z) (etoken : encoded_oauth_token) (key : oauth_key)
    (d : oauth_encrypted_block) (nonce0 : option (list Z)) (rnd : list Z) : outcome (Z * encoded_oauth_token) :=
  if negb (key_length d <=? MAXSHASIZE) then Ret (-1, etoken) else
  nonce ← (match nonce0 with Some n => rd_bytes n 0 OAUTH_GCM_NONCE_SIZE | None => rd_bytes rnd 0 OAUTH_GCM_NONCE_SIZE end);
  mk ← rd_bytes (mac_key d) 0 (key_length d);
  orig ← wr_bytes (zeros (Z.to_nat MAX_ENCODED_OAUTH_TOKEN_SIZE)) 0 (to_be 2 OAUTH_GCM_NONCE_SIZE ++ nonce ++ plain_fields d mk);
  match get_cipher_type (as_rs_alg key) with
  | None => Ret (-1, etoken)
  | Some cipher =>
      match EVP_EncryptInit cipher (as_rs_key key) nonce with
      | None => Ret (-1, etoken)
      | Some ctx =>
          let '(ret, _, ctx) := my_EVP_EncryptUpdate ctx false (cstr server_name) in
          if negb (ret =? 1) then Ret (-1, etoken) else
          head ← rd_bytes orig 0 (OAUTH_GCM_NONCE_SIZE + 2);
          tok ← wr_bytes (token etoken) 0 head;
          start_field ← rd_bytes orig (OAUTH_GCM_NONCE_SIZE + 2) (2 + key_length d + 8 + 4);
          let '(ret, ct, ctx) := my_EVP_EncryptUpdate ctx true start_field in
          tok ← wr_bytes tok (OAUTH_GCM_NONCE_SIZE + 2) ct;
          if negb (ret =? 1) then Ret (-1, EncodedToken tok (et_size etoken)) else
          let '(last, tag) := EVP_EncryptFinal ctx in
          tok ← wr_bytes tok (OAUTH_GCM_NONCE_SIZE + 2 + blen ct) last;
          tok ← wr_bytes tok (OAUTH_GCM_NONCE_SIZE + 2 + blen ct + blen last) (take (Z.to_nat OAUTH_GCM_TAG_SIZE) tag);
          Ret (0, EncodedToken tok (2 + OAUTH_GCM_NONCE_SIZE + (blen ct + blen last + OAUTH_GCM_TAG_SIZE)))
      end
  end.

(** The returned code and the block; [decoded0] is the array on the stack. *)
Definition decode_oauth_token_gcm (server_name : list Z) (etoken : encoded_oauth_token) (key : oauth_key)
    (d : oauth_encrypted_block) (decoded0 : list Z) : outcome (Z * oauth_encrypted_block) :=
  nonce_len ← rd16 (token etoken) 0;
  let d := OauthBlock nonce_len (eb_nonce d) (key_length d) (mac_key d) (eb_timestamp d) (eb_lifetime d) in
  if et_size etoken <? 2 + 4 + 8 + nonce_len + 2 + OAUTH_GCM_TAG_SIZE + 1 then Ret (-1, d) else
  let encoded_field_size := u32 (u32 (et_size etoken) - nonce_len - 2 - OAUTH_GCM_TAG_SIZE) in
  nonce ← rd_bytes (token etoken) 2 nonce_len;
  dn ← wr_bytes (eb_nonce d) 0 nonce;
  let d := OauthBlock nonce_len dn (key_length d) (mac_key d) (eb_timestamp d) (eb_lifetime d) in
  tag ← rd_bytes (token etoken) (nonce_len + 2 + encoded_field_size) OAUTH_GCM_TAG_SIZE;
  match get_cipher_type (as_rs_alg key) with
  | None => Ret (-1, d)
  | Some cipher =>
      match EVP_DecryptInit cipher (as_rs_key key) nonce tag with
      | None => Ret (-1, d)
      | Some ctx =>
          let '(ret, _, ctx) := my_EVP_DecryptUpdate ctx false (cstr server_name) in
          if negb (ret =? 1) then Ret (-1, d) else
          encoded_field ← rd_bytes (token etoken) (nonce_len + 2) encoded_field_size;
          let '(ret, pt, ctx) := my_EVP_DecryptUpdate ctx true encoded_field in
          decoded ← wr_bytes decoded0 0 pt;
          if negb (ret =? 1) then Ret (-1, d) else
          let '(ret, last) := EVP_DecryptFinal ctx in
          if ret <? 1 then Ret (-1, d) else
          decoded ← wr_bytes decoded (blen pt) last;
          kl ← rd16 decoded 0;
          mk ← rd_bytes decoded 2 kl;
          mk ← wr_bytes (mac_key d) 0 mk;
          ts ← rd_bytes decoded (2 + kl) 8;
          lt ← rd_bytes decoded (2 + kl + 8) 4;
          Ret (0, OauthBlock nonce_len dn kl mk (be ts) (be lt))
      end
  end.

Definition encode_oauth_token (server_name : list Z) (etoken : encoded_oauth_token) (key : oauth_key)
    (d : oauth_encrypted_block) (nonce : option (list Z)) (rnd : list Z) : outcome (Z * encoded_oauth_token) :=
  match as_rs_alg key with
  | A256GCM | A128GCM => encode_oauth_token_gcm server_name etoken key d nonce rnd
  | ENC_ALG_ERROR => Ret (-1, etoken)
  end.

Definition decode_oauth_token (server_name : list Z) (etoken : encoded_oauth_token) (key : oauth_key)
    (d : oauth_encrypted_block) (decoded0 : list Z) : outcome (Z * oauth_encrypted_block) :=
  match as_rs_alg key with
  | A256GCM | A128GCM => decode_oauth_token_gcm server_name etoken key d decoded0
  | ENC_ALG_ERROR => Ret (-1, d)
  end.
End evp.
