(* ===== verification/OAuthFacts.v ===== *)
(** OAuth access tokens: what is encoded is decoded, a token is accepted only if
    it was sealed under the key, and a nonce that is too long overflows the
    block before anything is checked. *)

From stdpp Require Import base option numbers list strings.
From S2P Require Import Prelude IoAddr StunAddr StunDefs StunMsg StunMsgFacts StunAuth OAuth.

(** * Authenticated encryption *)
Section aead.
Context {E : Evp}.

(** Associated data, given in one update, or not at all when there are none. *)
Definition absorb (update : evp_ctx -> bool -> list Z -> Z * Z * list Z * evp_ctx) (ctx : evp_ctx) (aad : list Z) : evp_ctx :=
  if bool_decide (aad = []) then ctx else (update ctx false aad).2.

(** The ciphertext and the tag. *)
Definition seal (c : EVP_CIPHER) (key nonce aad pt : list Z) : option (list Z * list Z) :=
  ctx ← EVP_EncryptInit c key nonce;
  let '(_, _, ct, ctx) := EVP_EncryptUpdate (absorb EVP_EncryptUpdate ctx aad) true pt in
  Some (ct, (EVP_EncryptFinal ctx).2).

Definition open (c : EVP_CIPHER) (key nonce aad ct tag : list Z) : option (list Z) :=
  ctx ← EVP_DecryptInit c key nonce tag;
  let '(_, _, pt, ctx) := EVP_DecryptUpdate (absorb EVP_DecryptUpdate ctx aad) true ct in
  if (EVP_DecryptFinal ctx).1 <? 1 then None else Some pt.

(** An update of GCM takes its whole input and writes as many bytes (none for
    associated data); the final calls write nothing. *)
Definition takes_all (update : evp_ctx -> bool -> list Z -> Z * Z * list Z * evp_ctx) : Prop :=
  forall ctx out l, exists bs ctx', update ctx out l = (1, blen l, bs, ctx') /\
    (bytes_ok l -> bytes_ok bs) /\ if out : bool then blen bs = blen l else bs = [].

Class EvpLaws : Prop := {
  enc_takes_all : takes_all EVP_EncryptUpdate;
  dec_takes_all : takes_all EVP_DecryptUpdate;
  init_gcm c key nonce : blen nonce = OAUTH_GCM_NONCE_SIZE -> is_Some (EVP_EncryptInit c key nonce);
  enc_final ctx : (EVP_EncryptFinal ctx).1 = [] /\ blen (EVP_EncryptFinal ctx).2 = OAUTH_GCM_TAG_SIZE /\
    bytes_ok (EVP_EncryptFinal ctx).2;
  dec_final ctx : (EVP_DecryptFinal ctx).2 = [];
  open_seal c key nonce aad pt ct tag : seal c key nonce aad pt = Some (ct, tag) -> open c key nonce aad ct tag = Some pt;
  seal_open c key nonce aad pt ct tag : open c key nonce aad ct tag = Some pt -> seal c key nonce aad pt = Some (ct, tag) }.
End aead.
Arguments EvpLaws E : clear implicits.

Section tokens.
Context {E : Evp} {L : EvpLaws E}.

(** The loop runs once, or not at all on no input. *)
Lemma update_once update ctx out l :
  takes_all update ->
  my_EVP_Update 127 update ctx out l 0 [] =
    if bool_decide (l = []) then (1, [], ctx) else (1, (update ctx out l).1.2, (update ctx out l).2).
Proof.
  intros T. destruct (T ctx out l) as (bs & ctx' & U & _). case_bool_decide as Hl; [by subst l|].
  assert (0 < blen l) by (destruct l; [done|unfold blen; simpl; lia]).
  change 127%nat with (S (S 125)). cbn [my_EVP_Update]. rewrite (proj2 (Z.ltb_lt _ _)) by done.
  change (Z.to_nat 0) with 0%nat. rewrite drop_0, U. cbn [fst snd Z.ltb Z.compare Pos.compare Pos.compare_cont app].
  rewrite Z.add_0_l, Z.ltb_irrefl. done.
Qed.

Lemma absorb_update update ctx aad :
  takes_all update -> my_EVP_Update 127 update ctx false aad 0 [] = (1, [], absorb update ctx aad).
Proof.
  intros T. rewrite update_once by done. unfold absorb. case_bool_decide; [done|].
  destruct (T ctx false aad) as (bs & ctx' & -> & _ & ->). done.
Qed.

(** * Well-formed structures *)
Record block_ok (d : oauth_encrypted_block) : Prop := BlockOk {
  bk_key : 0 <= key_length d <= MAXSHASIZE;
  bk_mac : bytes_ok (mac_key d) /\ blen (mac_key d) = MAXSHASIZE;
  bk_nonce : blen (eb_nonce d) = OAUTH_MAX_NONCE_SIZE;
  bk_time : 0 <= eb_timestamp d < 2 ^ 64;
  bk_life : 0 <= eb_lifetime d < 2 ^ 32 }.

Definition token_ok (t : encoded_oauth_token) : Prop :=
  bytes_ok (token t) /\ blen (token t) = MAX_ENCODED_OAUTH_TOKEN_SIZE.

(** The key bytes and the plaintext of a block. *)
Definition mac_bytes (d : oauth_encrypted_block) : list Z := slice (mac_key d) 0 (key_length d).
Definition plaintext (d : oauth_encrypted_block) : list Z := plain_fields d (mac_bytes d).

Lemma blen_mac_bytes d : block_ok d -> blen (mac_bytes d) = key_length d.
Proof. intros [? [? Hm] ? ? ?]. unfold mac_bytes. apply blen_slice; lia. Qed.

Lemma blen_plaintext d : block_ok d -> blen (plaintext d) = 14 + key_length d.
Proof. intros B. unfold plaintext, plain_fields. rewrite !blen_app, !blen_to_be, blen_mac_bytes by done. lia. Qed.

Lemma bytes_plaintext d : block_ok d -> bytes_ok (plaintext d).
Proof. intros [? [? ?] ? ? ?]. unfold plaintext, plain_fields, mac_bytes. auto with bytes. Qed.

(** The bytes of a token: the length of the nonce, the nonce, ciphertext and
    tag. *)
Record token_holds (t : encoded_oauth_token) (nonce ct tag : list Z) : Prop := TokenHolds {
  th_len : slice (token t) 0 2 = to_be 2 (blen nonce);
  th_nonce : slice (token t) 2 (blen nonce) = nonce;
  th_ct : slice (token t) (blen nonce + 2) (blen ct) = ct;
  th_tag : slice (token t) (blen nonce + 2 + blen ct) OAUTH_GCM_TAG_SIZE = tag;
  th_size : et_size t = 2 + blen nonce + blen ct + OAUTH_GCM_TAG_SIZE }.

(** ** Encoding *)
Lemma orig_parts nonce pt :
  blen nonce = 12 -> blen pt <= 1000 ->
  let o := splice (zeros (Z.to_nat 1024)) 0 (to_be 2 12 ++ nonce ++ pt) in
  wr_bytes (zeros (Z.to_nat 1024)) 0 (to_be 2 12 ++ nonce ++ pt) = Ret o /\
  rd_bytes o 0 (12 + 2) = Ret (to_be 2 12 ++ nonce) /\ rd_bytes o (12 + 2) (blen pt) = Ret pt.
Proof.
  intros Ln Lp o. pose proof (blen_nonneg pt). set (orig := to_be 2 12 ++ nonce ++ pt) in o |- *.
  assert (blen orig = 14 + blen pt) as Lo by (unfold orig; rewrite !blen_app, blen_to_be; lia).
  assert (blen (zeros (Z.to_nat 1024)) = 1024) as Lz by done.
  assert (blen o = 1024) as Ls by (unfold o; rewrite blen_splice; lia).
  assert (blen (to_be 2 12 ++ nonce) = 14) as Lh by (rewrite blen_app, blen_to_be; lia).
  assert (orig = (to_be 2 12 ++ nonce) ++ pt) as Eo by (unfold orig; by rewrite app_assoc).
  split; [apply wr_bytes_ret; lia|]. rewrite !rd_bytes_ret by lia. unfold o. rewrite !slice_splice_inside by lia.
  rewrite Eo. split; f_equal; [rewrite slice_app_l by lia|rewrite slice_app_r, Lh by lia]; apply slice_all; lia.
Qed.

Lemma written_holds tok nonce ct tag :
  bytes_ok tok -> blen tok = 1024 -> bytes_ok nonce -> blen nonce = 12 -> bytes_ok ct -> blen ct <= 900 ->
  bytes_ok tag -> blen tag = 16 ->
  let t1 := splice tok 0 (to_be 2 12 ++ nonce) in
  let t2 := splice t1 (12 + 2) ct in
  let t' := EncodedToken (splice t2 (12 + 2 + blen ct) tag) (2 + 12 + (blen ct + 16)) in
  blen t1 = 1024 /\ blen t2 = 1024 /\ token_holds t' nonce ct tag /\ token_ok t'.
Proof.
  intros Bt Lt Bn Ln Bc Lc Btag Ltag t1 t2 t'. pose proof (blen_nonneg ct).
  assert (blen (to_be 2 12 ++ nonce) = 14) as Lh by (rewrite blen_app, blen_to_be; lia).
  assert (bytes_ok (to_be 2 12 ++ nonce)) as Bh by auto with bytes.
  assert (blen t1 = 1024) as L1 by (unfold t1; rewrite blen_splice; lia).
  assert (blen t2 = 1024) as L2 by (unfold t2; rewrite blen_splice; lia).
  split; [done|]. split; [done|]. split.
  { constructor; unfold t', OAUTH_GCM_TAG_SIZE; cbn [token et_size]; rewrite ?Ln.
    - rewrite slice_splice_before by lia. unfold t2. rewrite slice_splice_before by lia. unfold t1.
      rewrite slice_splice_inside by lia. rewrite slice_app_l by (rewrite ?blen_to_be; lia). apply slice_all. by rewrite blen_to_be.
    - rewrite slice_splice_before by lia. unfold t2. rewrite slice_splice_before by lia. unfold t1.
      rewrite slice_splice_inside by lia. rewrite slice_app_r by (rewrite ?blen_to_be; lia). rewrite blen_to_be. apply slice_all. lia.
    - rewrite slice_splice_before by lia. unfold t2. apply slice_splice_eq; lia.
    - apply slice_splice_eq; lia.
    - lia. }
  split; unfold t'; cbn [token]; [unfold t2, t1; auto 10 with bytes|]. unfold MAX_ENCODED_OAUTH_TOKEN_SIZE. rewrite blen_splice; lia.
Qed.

Lemma encode_spec sn t key d nonce rnd c :
  token_ok t -> block_ok d -> get_cipher_type (as_rs_alg key) = Some c -> bytes_ok nonce -> blen nonce = OAUTH_GCM_NONCE_SIZE ->
  exists ct tag t', seal c (as_rs_key key) nonce (cstr sn) (plaintext d) = Some (ct, tag) /\
    encode_oauth_token sn t key d (Some nonce) rnd = Ret (0, t') /\ token_holds t' nonce ct tag /\ token_ok t' /\
    blen ct = 14 + key_length d /\ blen tag = OAUTH_GCM_TAG_SIZE.
Proof.
  intros [Bt Lt] B Hc Bn Ln.
  assert (encode_oauth_token sn t key d (Some nonce) rnd = encode_oauth_token_gcm sn t key d (Some nonce) rnd) as ->
    by (unfold encode_oauth_token; by destruct (as_rs_alg key)).
  unfold encode_oauth_token_gcm. pose proof (bk_key _ B) as Hk. destruct (bk_mac _ B) as [Bm Lm].
  rewrite (proj2 (Z.leb_le _ _)) by lia. cbn [negb].
  rewrite (rd_bytes_ret nonce) by (unfold OAUTH_GCM_NONCE_SIZE in *; lia).
  rewrite (slice_all nonce) by done. mstep. rewrite rd_bytes_ret by lia. mstep.
  change (slice (mac_key d) 0 (key_length d)) with (mac_bytes d). change (plain_fields d (mac_bytes d)) with (plaintext d).
  pose proof (blen_plaintext d B) as Lp. pose proof (bytes_plaintext d B) as Bp.
  unfold OAUTH_GCM_NONCE_SIZE, OAUTH_GCM_TAG_SIZE, MAX_ENCODED_OAUTH_TOKEN_SIZE, MAXSHASIZE in *.
  destruct (orig_parts nonce (plaintext d) Ln ltac:(lia)) as (-> & Rh & Rp). mstep. rewrite Hc.
  destruct (init_gcm c (as_rs_key key) nonce Ln) as [ctx Ei].
  rewrite Ei. unfold my_EVP_EncryptUpdate. rewrite absorb_update by apply enc_takes_all. cbn [negb Z.eqb Pos.eqb].
  rewrite Rh. mstep. rewrite wr_bytes_ret by (rewrite ?blen_app, ?blen_to_be; lia). mstep.
  replace (2 + key_length d + 8 + 4) with (blen (plaintext d)) by lia. rewrite Rp. mstep.
  rewrite update_once by apply enc_takes_all. rewrite bool_decide_false by (intros Ep; rewrite Ep in Lp; unfold blen in Lp; simpl in Lp; lia).
  destruct (enc_takes_all (absorb EVP_EncryptUpdate ctx (cstr sn)) true (plaintext d)) as (ct & ctx' & Eu & Bc & Lc).
  rewrite Eu. cbn [fst snd]. destruct (enc_final ctx') as (Ef & Ltag & Btag).
  destruct (EVP_EncryptFinal ctx') as [last tag] eqn:Efin. cbn [fst snd] in Ef, Ltag, Btag. subst last.
  destruct (written_holds (token t) nonce ct tag Bt Lt Bn Ln (Bc Bp) ltac:(lia) Btag Ltag) as (L1 & L2 & Hh & Hok).
  rewrite wr_bytes_ret by lia. mstep. cbn [negb Z.eqb Pos.eqb]. rewrite wr_bytes_ret by (rewrite ?blen_nil; lia). mstep.
  rewrite splice_nil. change (blen []) with 0. rewrite (Z.add_0_r (12 + 2 + blen ct)), (Z.add_0_r (blen ct)). rewrite (firstn_all2 tag) by (unfold OAUTH_GCM_TAG_SIZE, blen in Ltag; lia).
  unfold OAUTH_GCM_TAG_SIZE in Ltag. rewrite wr_bytes_ret by lia. mstep.
  eexists ct, tag, _. split; [|split; [done|split; [exact Hh|split; [exact Hok|split; [lia|done] ] ] ] ].
  unfold seal. rewrite Ei. cbn [mbind option_bind]. rewrite Eu. by rewrite Efin.
Qed.

(** ** Decoding *)

(** The fields of a decrypted token. *)
Definition read_block (d : oauth_encrypted_block) (decoded : list Z) : outcome (Z * oauth_encrypted_block) :=
  kl ← rd16 decoded 0;
  mk ← rd_bytes decoded 2 kl;
  mk ← wr_bytes (mac_key d) 0 mk;
  ts ← rd_bytes decoded (2 + kl) 8;
  lt ← rd_bytes decoded (2 + kl + 8) 4;
  Ret (0, OauthBlock (nonce_length d) (eb_nonce d) kl mk (be ts) (be lt)).

(** The declared length of the nonce, the nonce, the ciphertext and the tag. *)
Definition nonce_len (t : encoded_oauth_token) : Z := be (slice (token t) 0 2).
Definition token_nonce (t : encoded_oauth_token) : list Z := slice (token t) 2 (nonce_len t).
Definition token_ct (t : encoded_oauth_token) : list Z :=
  slice (token t) (nonce_len t + 2) (et_size t - nonce_len t - 2 - OAUTH_GCM_TAG_SIZE).
Definition token_tag (t : encoded_oauth_token) : list Z := slice (token t) (et_size t - OAUTH_GCM_TAG_SIZE) OAUTH_GCM_TAG_SIZE.

Definition with_token_nonce (d : oauth_encrypted_block) (t : encoded_oauth_token) : oauth_encrypted_block :=
  OauthBlock (nonce_len t) (splice (eb_nonce d) 0 (token_nonce t)) (key_length d) (mac_key d) (eb_timestamp d) (eb_lifetime d).

Lemma nonce_len_range t : token_ok t -> 0 <= nonce_len t < 2 ^ 16.
Proof.
  intros [B Lt]. unfold nonce_len. pose proof (be_range _ (bytes_ok_slice (token t) 0 2 B)) as R.
  rewrite blen_slice in R by (unfold MAX_ENCODED_OAUTH_TOKEN_SIZE in *; lia). done.
Qed.

(** A token long enough and with a nonce that fits is decrypted and read. *)
Lemma decode_steps sn t key d decoded0 c :
  token_ok t -> et_size t <= MAX_ENCODED_OAUTH_TOKEN_SIZE -> blen (eb_nonce d) = OAUTH_MAX_NONCE_SIZE ->
  blen decoded0 = MAX_ENCODED_OAUTH_TOKEN_SIZE -> get_cipher_type (as_rs_alg key) = Some c ->
  nonce_len t <= OAUTH_MAX_NONCE_SIZE -> nonce_len t + 33 <= et_size t ->
  decode_oauth_token_gcm sn t key d decoded0 =
    match open c (as_rs_key key) (token_nonce t) (cstr sn) (token_ct t) (token_tag t) with
    | None => Ret (-1, with_token_nonce d t)
    | Some pt => read_block (with_token_nonce d t) (splice decoded0 0 pt)
    end.
Proof.
  intros Ok Sz Ld L0 Hc Hn Hs. pose proof (nonce_len_range t Ok) as Hr. destruct Ok as [Bt Lt].
  unfold OAUTH_MAX_NONCE_SIZE, MAX_ENCODED_OAUTH_TOKEN_SIZE in *.
  unfold decode_oauth_token_gcm. rewrite rd16_ret by lia. mstep. fold (nonce_len t). cbv zeta.
  destruct (et_size t <? _) eqn:Esz; bool_arith; [unfold OAUTH_GCM_TAG_SIZE in *; lia|]. clear Esz.
  rewrite (rd_bytes_ret (token t) 2) by lia. mstep. fold (token_nonce t).
  assert (blen (token_nonce t) = nonce_len t) as Ln by (apply blen_slice; lia).
  cbn [eb_nonce key_length mac_key eb_timestamp eb_lifetime]. rewrite wr_bytes_ret by lia. mstep.
  assert (u32 (u32 (et_size t) - nonce_len t - 2 - OAUTH_GCM_TAG_SIZE) = et_size t - nonce_len t - 2 - OAUTH_GCM_TAG_SIZE) as ->.
  { unfold OAUTH_GCM_TAG_SIZE. rewrite !u32_small; rewrite ?u32_small; lia. }
  rewrite (rd_bytes_ret (token t) (nonce_len t + 2 + _)) by (unfold OAUTH_GCM_TAG_SIZE; lia). mstep.
  replace (nonce_len t + 2 + (et_size t - nonce_len t - 2 - OAUTH_GCM_TAG_SIZE)) with (et_size t - OAUTH_GCM_TAG_SIZE) by lia.
  fold (token_tag t). rewrite Hc. unfold open.
  destruct (EVP_DecryptInit c (as_rs_key key) (token_nonce t) (token_tag t)) as [ctx|]; [|done].
  unfold my_EVP_DecryptUpdate. rewrite absorb_update by apply dec_takes_all. cbn [negb Z.eqb Pos.eqb mbind option_bind].
  rewrite rd_bytes_ret by (unfold OAUTH_GCM_TAG_SIZE; lia). mstep. fold (token_ct t).
  assert (blen (token_ct t) = et_size t - nonce_len t - 18) as Lc by (unfold token_ct, OAUTH_GCM_TAG_SIZE; rewrite blen_slice; lia).
  rewrite update_once by apply dec_takes_all. rewrite bool_decide_false by (intros Ep; rewrite Ep in Lc; unfold blen in Lc; simpl in Lc; lia).
  destruct (dec_takes_all (absorb EVP_DecryptUpdate ctx (cstr sn)) true (token_ct t)) as (pt & ctx' & -> & _ & Lp). cbn [fst snd].
  rewrite wr_bytes_ret by lia. mstep. cbn [negb Z.eqb Pos.eqb].
  pose proof (dec_final ctx') as Df. destruct (EVP_DecryptFinal ctx') as [r last]. cbn [fst snd] in *. subst last.
  destruct (r <? 1); [done|]. rewrite wr_bytes_ret; [|blia|rewrite blen_splice, blen_nil by lia; lia]. mstep.
  by rewrite splice_nil.
Qed.

Lemma decode_gcm sn t key d decoded0 c :
  get_cipher_type (as_rs_alg key) = Some c -> decode_oauth_token sn t key d decoded0 = decode_oauth_token_gcm sn t key d decoded0.
Proof. unfold decode_oauth_token. by destruct (as_rs_alg key). Qed.

(** Fields at the beginning of the decrypted array. *)
Lemma read_plaintext d d0 decoded0 :
  block_ok d0 -> blen (mac_key d) = MAXSHASIZE -> blen decoded0 = MAX_ENCODED_OAUTH_TOKEN_SIZE ->
  read_block d (splice decoded0 0 (plaintext d0)) =
    Ret (0, OauthBlock (nonce_length d) (eb_nonce d) (key_length d0) (splice (mac_key d) 0 (mac_bytes d0))
              (eb_timestamp d0) (eb_lifetime d0)).
Proof.
  intros B Lm L0. pose proof (blen_plaintext d0 B) as Lp. pose proof (blen_mac_bytes d0 B) as Lk. destruct B as [Hk _ _ Ht Hl].
  unfold MAXSHASIZE, MAX_ENCODED_OAUTH_TOKEN_SIZE in *.
  assert (forall i n, 0 <= i -> 0 <= n -> i + n <= 14 + key_length d0 ->
            rd_bytes (splice decoded0 0 (plaintext d0)) i n = Ret (slice (plaintext d0) i n)) as In.
  { intros i n ? ? ?. rewrite rd_bytes_ret by (rewrite ?blen_splice; lia).
    rewrite slice_splice_inside by lia. by rewrite Z.sub_0_r. }
  assert (slice (plaintext d0) 0 2 = to_be 2 (key_length d0)) as S0.
  { unfold plaintext, plain_fields. rewrite slice_app_l by (rewrite ?blen_to_be; lia). by apply slice_all. }
  assert (slice (plaintext d0) 2 (key_length d0) = mac_bytes d0) as S1.
  { unfold plaintext, plain_fields. rewrite slice_app_r, slice_app_l by (rewrite ?blen_to_be; lia). apply slice_all. lia. }
  assert (slice (plaintext d0) (2 + key_length d0) 8 = to_be 8 (eb_timestamp d0)) as S2.
  { unfold plaintext, plain_fields. rewrite !slice_app_r, slice_app_l by (rewrite ?blen_to_be; lia).
    rewrite blen_to_be. replace (2 + key_length d0 - Z.of_nat 2 - blen (mac_bytes d0)) with 0 by lia. by apply slice_all. }
  assert (slice (plaintext d0) (2 + key_length d0 + 8) 4 = to_be 4 (eb_lifetime d0)) as S3.
  { unfold plaintext, plain_fields. rewrite !slice_app_r by (rewrite ?blen_to_be; lia).
    rewrite !blen_to_be. replace (_ - blen (mac_bytes d0) - _) with 0 by lia. by apply slice_all. }
  unfold read_block, rd16. rewrite In, S0 by lia. mstep. rewrite be2 by lia. rewrite (In 2), S1 by lia. mstep.
  rewrite wr_bytes_ret by lia. mstep. rewrite (In (2 + key_length d0)), S2 by lia. mstep.
  rewrite In, S3 by lia. mstep. by rewrite !be_to_be_small by lia.
Qed.

(** What is encoded is where decoding looks for it. *)
Lemma token_holds_parts t nonce ct tag :
  token_holds t nonce ct tag -> blen nonce < 2 ^ 16 ->
  nonce_len t = blen nonce /\ token_nonce t = nonce /\ token_ct t = ct /\ token_tag t = tag.
Proof.
  intros [H1 H2 H3 H4 H5] Hn. assert (nonce_len t = blen nonce) as E1.
  { unfold nonce_len. rewrite H1. apply be2. blia. }
  split; [done|]. unfold token_nonce, token_ct, token_tag. rewrite E1, H5. split; [done|]. split.
  - by replace (2 + blen nonce + blen ct + OAUTH_GCM_TAG_SIZE - blen nonce - 2 - OAUTH_GCM_TAG_SIZE) with (blen ct) by lia.
  - by replace (2 + blen nonce + blen ct + OAUTH_GCM_TAG_SIZE - OAUTH_GCM_TAG_SIZE) with (blen nonce + 2 + blen ct) by lia.
Qed.
End tokens.

(** * Properties *)

(** C37. OAuth tokens round trip: for either algorithm, any server name, nonce
    and block of 1 to 128 key bytes, the token that [encode_oauth_token]
    writes is decoded by [decode_oauth_token] under the same key and server name
    to the same nonce, key, timestamp and lifetime, and takes 44 bytes more than
    the key. *)
Theorem oauth_token_roundtrip {E : Evp} {L : EvpLaws E} sn t key d d' nonce rnd decoded0 :
  token_ok t -> block_ok d -> 0 < key_length d -> blen (eb_nonce d') = OAUTH_MAX_NONCE_SIZE -> blen (mac_key d') = MAXSHASIZE ->
  as_rs_alg key <> ENC_ALG_ERROR -> bytes_ok nonce -> blen nonce = OAUTH_GCM_NONCE_SIZE ->
  blen decoded0 = MAX_ENCODED_OAUTH_TOKEN_SIZE ->
  exists t' d'', encode_oauth_token sn t key d (Some nonce) rnd = Ret (0, t') /\ et_size t' = 44 + key_length d /\
    decode_oauth_token sn t' key d' decoded0 = Ret (0, d'') /\
    nonce_length d'' = OAUTH_GCM_NONCE_SIZE /\ slice (eb_nonce d'') 0 OAUTH_GCM_NONCE_SIZE = nonce /\
    key_length d'' = key_length d /\ mac_bytes d'' = mac_bytes d /\
    eb_timestamp d'' = eb_timestamp d /\ eb_lifetime d'' = eb_lifetime d.
Proof.
  intros Ht B Hkl Ln' Lm' Ha Bn Ln L0. assert (exists c, get_cipher_type (as_rs_alg key) = Some c) as [c Hc].
  { destruct (as_rs_alg key); [done|by eexists..]. }
  destruct (encode_spec sn t key d nonce rnd c Ht B Hc Bn Ln) as (ct & tag & t' & S & -> & Hh & Hok & Lc & Ltag).
  unfold OAUTH_GCM_NONCE_SIZE, OAUTH_MAX_NONCE_SIZE in *. pose proof (bk_key _ B) as Hk. unfold MAXSHASIZE in Hk.
  destruct (token_holds_parts t' nonce ct tag Hh ltac:(lia)) as (N1 & N2 & N3 & N4).
  pose proof (th_size _ _ _ _ Hh) as Sz. unfold OAUTH_GCM_TAG_SIZE in *.
  exists t'. eexists. split; [done|]. split; [lia|]. split.
  { rewrite (decode_gcm _ _ _ _ _ c) by done. rewrite (decode_steps sn t' key d' decoded0 c); try done;
      unfold OAUTH_MAX_NONCE_SIZE, MAX_ENCODED_OAUTH_TOKEN_SIZE; try lia.
    rewrite N2, N3, N4, (open_seal _ _ _ _ _ _ _ S). by rewrite read_plaintext. }
  cbn [nonce_length eb_nonce key_length mac_key eb_timestamp eb_lifetime with_token_nonce mac_bytes].
  split; [lia|]. rewrite N2. split; [apply slice_splice_eq; lia|]. split; [done|]. split; [|done].
  unfold mac_bytes at 1. cbn [mac_key key_length]. pose proof (blen_mac_bytes d B). unfold MAXSHASIZE in *. apply slice_splice_eq; lia.
Qed.

(** C36. What decoding makes of arbitrary bytes.  A token whose declared nonce
    fits the block is either rejected with -1, or its ciphertext and tag are the
    encryption of some plaintext under the key, with the nonce it carries and
    the server name.  A token of sufficient size whose declared nonce is longer
    than the 256 bytes of the block is copied past the end of the block, before
    any key is used. *)
Theorem oauth_decode_exact {E : Evp} {L : EvpLaws E} sn t key d decoded0 c :
  token_ok t -> et_size t <= MAX_ENCODED_OAUTH_TOKEN_SIZE -> block_ok d ->
  blen decoded0 = MAX_ENCODED_OAUTH_TOKEN_SIZE -> get_cipher_type (as_rs_alg key) = Some c ->
  (nonce_len t <= OAUTH_MAX_NONCE_SIZE ->
   (exists d', decode_oauth_token sn t key d decoded0 = Ret (-1, d')) \/
   exists pt, seal c (as_rs_key key) (token_nonce t) (cstr sn) pt = Some (token_ct t, token_tag t)) /\
  (OAUTH_MAX_NONCE_SIZE < nonce_len t -> nonce_len t + 33 <= et_size t -> decode_oauth_token sn t key d decoded0 = UB).
Proof.
  intros Ht Sz B L0 Hc. pose proof (bk_nonce _ B) as Ln. rewrite (decode_gcm _ _ _ _ _ c) by done.
  pose proof (nonce_len_range t Ht) as Hr. split.
  - intros Hn. destruct (Z.lt_ge_cases (et_size t) (nonce_len t + 33)) as [Hs|Hs].
    { left. unfold decode_oauth_token_gcm. destruct Ht as [_ Lt]. unfold MAX_ENCODED_OAUTH_TOKEN_SIZE in *. rewrite rd16_ret by lia.
      mstep. fold (nonce_len t). destruct (_ <? _) eqn:Es; bool_arith; [by eexists|]. unfold OAUTH_GCM_TAG_SIZE in *. lia. }
    rewrite (decode_steps sn t key d decoded0 c) by done.
    destruct (open _ _ _ _ _ _) as [pt|] eqn:Eo; [right|left; by eexists]. exists pt. by apply seal_open.
  - intros Hn Hs. destruct Ht as [_ Lt]. unfold OAUTH_MAX_NONCE_SIZE, MAX_ENCODED_OAUTH_TOKEN_SIZE in *.
    unfold decode_oauth_token_gcm. rewrite rd16_ret by lia. mstep. fold (nonce_len t). cbv zeta.
    destruct (_ <? _) eqn:Es; bool_arith; [unfold OAUTH_GCM_TAG_SIZE in *; lia|].
    rewrite (rd_bytes_ret (token t) 2) by lia. mstep. rewrite wr_bytes_ub; [done|]. cbn [eb_nonce]. rewrite blen_slice by lia. lia.
Qed.

(** ** Examples

    A cipher that leaves the text as it is and a tag that sums up everything. *)
Record toy_ctx : Type := ToyCtx { tc_seed : list Z; tc_tag : list Z; tc_seen : list Z }.

Definition toy_update (ctx : toy_ctx) (out : bool) (l : list Z) : Z * Z * list Z * toy_ctx :=
  (1, blen l, (if out then l else []), ToyCtx (tc_seed ctx) (tc_tag ctx) (tc_seen ctx ++ l)).

Definition toy_tag (ctx : toy_ctx) : list Z := replicate 16 (u8 (foldl Z.add 0 (tc_seed ctx ++ tc_seen ctx))).

#[local] Instance toy_evp : Evp := {|
  evp_ctx := toy_ctx;
  EVP_EncryptInit c k n := Some (ToyCtx (k ++ n) [] []);
  EVP_DecryptInit c k n tag := Some (ToyCtx (k ++ n) tag []);
  EVP_EncryptUpdate := toy_update;
  EVP_DecryptUpdate := toy_update;
  EVP_EncryptFinal ctx := ([], toy_tag ctx);
  EVP_DecryptFinal ctx := (if bool_decide (tc_tag ctx = toy_tag ctx) then 1 else 0, []) |}.

#[local] Instance toy_evp_laws : EvpLaws toy_evp.
Proof.
  assert (takes_all (E := toy_evp) toy_update) as T.
  { intros ctx out l. eexists _, _. split; [done|]. by destruct out; split; auto with bytes. }
  assert (forall ctx aad, absorb (E := toy_evp) toy_update ctx aad = ToyCtx (tc_seed ctx) (tc_tag ctx) (tc_seen ctx ++ aad)) as A.
  { intros [] aad. unfold absorb. case_bool_decide; [|done]. subst. by rewrite app_nil_r. }
  split.
  - exact T.
  - exact T.
  - intros. cbn. eauto.
  - intros ctx. split; [done|]. split; [done|]. apply (Forall_replicate is_byte 16). unfold is_byte, u8. apply Z.mod_pos_bound. lia.
  - done.
  - intros c k n aad pt ct tag. unfold seal, open. cbn. rewrite !A. cbn. intros [= <- <-]. by rewrite bool_decide_true.
  - intros c k n aad pt ct tag. unfold seal, open. cbn. rewrite !A. cbn. case_bool_decide as Ht; [|done].
    cbn in Ht. intros [= <-]. do 2 f_equal. symmetry. exact Ht.
Qed.

Definition ex_token : encoded_oauth_token := EncodedToken (zeros 1024) 0.
Definition ex_block : oauth_encrypted_block := OauthBlock 0 (zeros 256) 4 ([1; 2; 3; 4] ++ zeros 124) 1600000000 600.
Definition ex_key_data (alg : string) (size : Z) : oauth_key_data :=
  OauthKeyData (bytes_of_string " north " ++ zeros 122) (repeat 65 32 ++ zeros 225) size 0 0 (bytes_of_string alg ++ zeros 57).
Definition ex_no_key : oauth_key := OauthKey [] [] 0 0 0 ENC_ALG_ERROR [] 0 [] 0.
Definition ex_key : oauth_key :=
  match convert_oauth_key_data 1000 (ex_key_data "a256gcm" 32) ex_no_key with Ret (_, k, _) => k | _ => ex_no_key end.
Definition ex_nonce : list Z := [104; 52; 106; 51; 107; 50; 108; 50; 110; 52; 98; 53].

Lemma ex_token_ok : token_ok ex_token.
Proof. split; [by apply bytes_okb_spec|done]. Qed.

Lemma ex_block_ok : block_ok ex_block.
Proof. constructor; try done. split; [by apply bytes_okb_spec|done]. Qed.

Lemma oauth_token_roundtrip_witness :
  exists t' d'', encode_oauth_token (bytes_of_string "blackdow.carleon.gov") ex_token ex_key ex_block (Some ex_nonce) [] = Ret (0, t') /\
    et_size t' = 48 /\
    decode_oauth_token (bytes_of_string "blackdow.carleon.gov") t' ex_key ex_block (zeros 1024) = Ret (0, d'') /\
    nonce_length d'' = 12 /\ slice (eb_nonce d'') 0 12 = ex_nonce /\ key_length d'' = 4 /\ mac_bytes d'' = mac_bytes ex_block /\
    eb_timestamp d'' = 1600000000 /\ eb_lifetime d'' = 600.
Proof.
  apply (oauth_token_roundtrip (bytes_of_string "blackdow.carleon.gov") ex_token ex_key ex_block ex_block ex_nonce []); try done.
  - apply ex_token_ok.
  - apply ex_block_ok.
  - by apply bytes_okb_spec.
Defined.

(** A token that declares a nonce of 300 bytes. *)
Definition ex_long_nonce : encoded_oauth_token := EncodedToken (to_be 2 300 ++ zeros 1022) 400.

Lemma oauth_decode_exact_witness :
  (nonce_len ex_long_nonce <= 256 ->
   (exists d', decode_oauth_token [114] ex_long_nonce ex_key ex_block (zeros 1024) = Ret (-1, d')) \/
   exists pt, seal EVP_aes_256_gcm (as_rs_key ex_key) (token_nonce ex_long_nonce) [114] pt =
     Some (token_ct ex_long_nonce, token_tag ex_long_nonce)) /\
  (256 < nonce_len ex_long_nonce -> nonce_len ex_long_nonce + 33 <= et_size ex_long_nonce ->
   decode_oauth_token [114] ex_long_nonce ex_key ex_block (zeros 1024) = UB).
Proof.
  apply (oauth_decode_exact [114] ex_long_nonce ex_key ex_block (zeros 1024) EVP_aes_256_gcm); try done.
  - split; [by apply bytes_okb_spec|done].
  - apply ex_block_ok.
Defined.

(** A key that is not defined is reported, and used all the same. *)
Example undefined_key_accepted :
  match convert_oauth_key_data 1000 (ex_key_data "A128GCM" 0) ex_no_key with
  | Ret (rc, k, msg) => rc = 0 /\ as_rs_key_size k = 16 /\ msg = Some (bytes_of_string "key is not defined")
  | _ => False
  end.
Proof. vm_compute. done. Qed.

(** A token for an empty key is written and cannot be read. *)
Example empty_key_not_decoded :
  let d := OauthBlock 0 (zeros 256) 0 (zeros 128) 0 0 in
  match encode_oauth_token [114] ex_token ex_key d (Some ex_nonce) [] with
  | Ret (rc, t) => rc = 0 /\ exists d', decode_oauth_token [114] t ex_key d (zeros 1024) = Ret (-1, d')
  | _ => False
  end.
Proof. vm_compute. split; [done|]. by eexists. Qed.
