(* ===== verification/StunBuild.v ===== *)
(** Building and reading whole STUN/TURN messages:
    src/coturn/src/client/ns_turn_msg.c (error responses, challenge responses,
    Allocate, ChannelBind and Binding messages, and the attributes with a fixed
    layout).

    [rnd] is the transaction id the random generator delivers, [maps] the table
    of public and private addresses; a pointer argument that may be NULL is an
    [option]; an [int] used as a truth value is a [bool]. *)

From stdpp Require Import base option numbers list strings.
From S2P Require Import Prelude IoAddr StunAddr StunDefs StunMsg StunAuth.

(** * Names *)
Definition method_names : list (Z * string) :=
  [ (STUN_METHOD_BINDING, "BINDING"); (STUN_METHOD_ALLOCATE, "ALLOCATE");
    (STUN_METHOD_REFRESH, "REFRESH"); (STUN_METHOD_SEND, "SEND"); (STUN_METHOD_DATA, "DATA");
    (STUN_METHOD_CREATE_PERMISSION, "CREATE_PERMISSION"); (STUN_METHOD_CHANNEL_BIND, "CHANNEL_BIND");
    (STUN_METHOD_CONNECT, "CONNECT"); (STUN_METHOD_CONNECTION_BIND, "CONNECTION_BIND");
    (STUN_METHOD_CONNECTION_ATTEMPT, "CONNECTION_ATTEMPT") ]%string.

Fixpoint switch {A} (cases : list (Z * A)) (dflt : A) (v : Z) : A :=
  match cases with
  | [] => dflt
  | (c, a) :: r => if v =? c then a else switch r dflt v
  end.

(** The returned code and the string copied to [smethod]. *)
Definition stun_method_str (method : Z) : Z * list Z :=
  switch ((fun '(c, s) => (c, (0, bytes_of_string s))) <$> method_names)
    (-1, bytes_of_string "UNKNOWN") method.

Definition reasons : list (Z * string) :=
  [ (300, "Try Alternate"); (400, "Bad Request"); (401, "Unauthorized"); (403, "Forbidden");
    (404, "Not Found"); (420, "Unknown Attribute"); (437, "Allocation Mismatch");
    (438, "Stale Nonce"); (440, "Address Family not Supported"); (441, "Wrong Credentials");
    (442, "Unsupported Transport Protocol"); (443, "Peer Address Family Mismatch");
    (446, "Connection Already Exists"); (447, "Connection Timeout or Failure");
    (486, "Allocation Quota Reached"); (487, "Role Conflict"); (500, "Server Error");
    (508, "Insufficient Capacity") ]%string.

Definition get_default_reason (error_code : Z) : list Z :=
  bytes_of_string (switch reasons "Unknown error"%string error_code).

(** * Error responses *)

(** The array [avalue] of 513 bytes and the padded length [alen]. *)
Definition error_value (b0 error_code : Z) (reason : list Z) : list Z * Z :=
  let text := take 508 (strncpy_array 509 reason) ++ [0] in
  let avalue := [b0; 0; u8 (Z.quot error_code 100); u8 (Z.rem error_code 100)] ++ text in
  let alen := 4 + strlen text in
  let rem := alen mod 4 in
  (avalue, if truthy rem then alen + (4 - rem) else alen).

Definition stun_init_error_response_common_str (m : mbuf) (error_code : Z) (reason : option (list Z))
    (id : option (list Z)) : outcome mbuf :=
  let reason := match reason with
                | None => get_default_reason error_code
                | Some r => if strcmp r (bytes_of_string "Unknown error") =? 0
                            then get_default_reason error_code else r
                end in
  let '(avalue, alen) := error_value 0 error_code reason in
  '(_, m) ← stun_attr_add_str m STUN_ATTRIBUTE_ERROR_CODE (Some avalue) alen;
  b ← stun_tid_message_cpy (mdata m) id;
  Ret (MBuf b (mlen m)).

Definition old_stun_init_error_response_str (method : Z) (buf : list Z) (error_code : Z)
    (reason id : option (list Z)) (cookie : Z) (rnd : list Z) : outcome mbuf :=
  m ← old_stun_init_command_str (stun_make_error_response method) buf cookie rnd;
  stun_init_error_response_common_str m error_code reason id.

Definition stun_init_error_response_str (method : Z) (buf : list Z) (error_code : Z)
    (reason id : option (list Z)) (rnd : list Z) : outcome mbuf :=
  m ← stun_init_command_str (stun_make_error_response method) buf rnd;
  stun_init_error_response_common_str m error_code reason id.

(** [err_code] is the integer pointed to, [err_msg] the array of
    [err_msg_size] bytes; both are returned as the code leaves them. *)
Definition stun_is_error_response_str (buf : list Z) (len : Z) (err_code : option Z)
    (err_msg : option (list Z)) (err_msg_size : Z) : outcome (bool * option Z * option (list Z)) :=
  c ← is_channel_msg_str (Some buf) len;
  if (c : bool) then Ret (false, err_code, err_msg) else
  t ← stun_get_msg_type_str (Some buf) len;
  if negb (IS_STUN_ERR_RESP t) then Ret (false, err_code, err_msg) else
  match err_code with
  | None => Ret (true, err_code, err_msg)
  | Some _ =>
      sar ← stun_attr_get_first_by_type_str buf len STUN_ATTRIBUTE_ERROR_CODE;
      match sar with
      | None => Ret (true, err_code, err_msg)
      | Some _ =>
          alen ← stun_attr_get_len buf sar;
          if negb (alen >=? 4) then Ret (true, err_code, err_msg) else
          val ← stun_attr_get_value buf sar;
          match val with
          | None => UB
          | Some v =>
              v2 ← rd8 buf (v + 2);
              v3 ← rd8 buf (v + 3);
              let code := Some (v2 * 100 + v3) in
              match err_msg with
              | Some msg =>
                  if err_msg_size >? 0 then
                    msg ← wr_bytes msg 0 [0];
                    if alen >? 4 then
                      let msg_len := alen - 4 in
                      let msg_len := if msg_len >? err_msg_size - 1 then err_msg_size - 1 else msg_len in
                      text ← rd_bytes buf (v + 4) msg_len;
                      msg ← wr_bytes msg 0 text;
                      msg ← wr_bytes msg msg_len [0];
                      Ret (true, code, Some msg)
                    else Ret (true, code, Some msg)
                  else Ret (true, code, err_msg)
              | None => Ret (true, code, err_msg)
              end
          end
      end
  end.

(** What the caller's variables hold after [stun_is_challenge_response_str]. *)
Record challenge : Type := Challenge {
  ch_ret : bool;
  ch_err_code : option Z;
  ch_err_msg : option (list Z);
  ch_realm : list Z;
  ch_nonce : list Z;
  ch_server_name : option (list Z);
  ch_oauth : option Z }.

(** [bcopy(value,dst,vlen)] of an attribute's value, whatever the size of
    the destination array. *)
Definition copy_value (buf : list Z) (v vlen : Z) (dst : list Z) : outcome (list Z) :=
  bs ← rd_bytes buf v vlen;
  wr_bytes dst 0 bs.

Definition stun_is_challenge_response_str (buf : list Z) (len : Z) (err_code : option Z)
    (err_msg : option (list Z)) (err_msg_size : Z) (realm nonce : list Z)
    (server_name : option (list Z)) (oauth : option Z) : outcome challenge :=
  '(ret, err_code, err_msg) ← stun_is_error_response_str buf len err_code err_msg err_msg_size;
  let no realm server_name := Ret (Challenge false err_code err_msg realm nonce server_name oauth) in
  if negb ret then no realm server_name else
  match err_code with
  | None => UB
  | Some code =>
      if negb ((code =? 401) || (code =? 438)) then no realm server_name else
      sar ← stun_attr_get_first_by_type_str buf len STUN_ATTRIBUTE_REALM;
      value ← stun_attr_get_value buf sar;
      match value with
      | None => no realm server_name
      | Some v =>
          vlen ← stun_attr_get_len buf sar;
          realm ← copy_value buf v vlen realm;
          realm ← wr_bytes realm vlen [0];
          sar ← stun_attr_get_first_by_type_str buf len STUN_ATTRIBUTE_THIRD_PARTY_AUTHORIZATION;
          value ← stun_attr_get_value buf sar;
          '(server_name, found_oauth) ←
            (match value with
             | None => Ret (server_name, 0)
             | Some v =>
                 vlen ← stun_attr_get_len buf sar;
                 if vlen >? 0 then
                   match server_name with
                   | Some sn => sn ← copy_value buf v vlen sn; Ret (Some sn, 1)
                   | None => Ret (None, 1)
                   end
                 else Ret (server_name, 0)
             end);
          sar ← stun_attr_get_first_by_type_str buf len STUN_ATTRIBUTE_NONCE;
          value ← stun_attr_get_value buf sar;
          match value with
          | None => no realm server_name
          | Some v =>
              vlen ← stun_attr_get_len buf sar;
              nonce ← copy_value buf v vlen nonce;
              nonce ← wr_bytes nonce vlen [0];
              Ret (Challenge true err_code err_msg realm nonce server_name
                     (match oauth with Some _ => Some found_oauth | None => None end))
          end
      end
  end.

(** * Attributes with a fixed layout *)
Definition stun_attr_add_channel_number_str (m : mbuf) (chnumber : Z) : outcome (Z * mbuf) :=
  stun_attr_add_str m STUN_ATTRIBUTE_CHANNEL_NUMBER (Some (to_be 2 chnumber ++ [0; 0])) 4.

Definition stun_attr_add_bandwidth_str (m : mbuf) (bps0 : Z) : outcome (Z * mbuf) :=
  let bps := u32 (Z.shiftr bps0 7) in
  stun_attr_add_str m STUN_ATTRIBUTE_NEW_BANDWIDTH (Some (to_be 4 bps)) 4.

Definition stun_attr_add_address_error_code (m : mbuf) (requested_address_family error_code : Z) :
    outcome (Z * mbuf) :=
  let reason := get_default_reason error_code in
  let '(avalue, alen) := error_value (u8 requested_address_family) error_code reason in
  '(_, m) ← stun_attr_add_str m STUN_ATTRIBUTE_ADDRESS_ERROR_CODE (Some avalue) alen;
  Ret (0, m).

(** The returned code, [*requested_address_family] and [*error_code]. *)
Definition stun_attr_get_address_error_code (buf : option (list Z)) (len : Z) : outcome (Z * Z * Z) :=
  match buf with
  | None => Ret (0, 0, 0)
  | Some b =>
      if len =? 0 then Ret (0, 0, 0) else
      sar ← stun_attr_get_first_by_type_str b len STUN_ATTRIBUTE_ADDRESS_ERROR_CODE;
      match sar with
      | None => Ret (0, 0, 0)
      | Some _ =>
          value ← stun_attr_get_value b sar;
          match value with
          | None => Ret (-1, 0, 0)
          | Some v =>
              alen ← stun_attr_get_len b sar;
              if negb (alen =? 4) then Ret (-1, 0, 0) else
              v0 ← rd8 b v;
              v2 ← rd8 b (v + 2);
              v3 ← rd8 b (v + 3);
              Ret (0, v0, v2 * 100 + v3)
          end
      end
  end.

(** The returned code, [*change_ip] and [*change_port] when it is 0. *)
Definition stun_attr_get_change_request_str (buf : list Z) (attr : option Z) : outcome (option (Z * Z)) :=
  len ← stun_attr_get_len buf attr;
  if len =? 4 then
    value ← stun_attr_get_value buf attr;
    match value with
    | Some v => b ← rd8 buf (v + 3); Ret (Some (Z.land b 0x04, Z.land b 0x02))
    | None => Ret None
    end
  else Ret None.

Definition stun_attr_add_change_request_str (m : mbuf) (change_ip change_port : bool) : outcome (Z * mbuf) :=
  let b3 := if change_ip then (if change_port then 0x06 else 0x04)
            else if change_port then 0x02 else 0 in
  stun_attr_add_str m STUN_ATTRIBUTE_CHANGE_REQUEST (Some [0; 0; 0; b3]) 4.

Definition stun_attr_get_response_port_str (buf : list Z) (attr : option Z) : outcome Z :=
  len ← stun_attr_get_len buf attr;
  if len >=? 2 then
    value ← stun_attr_get_value buf attr;
    match value with
    | Some v => rd16 buf v
    | None => Ret (-1)
    end
  else Ret (-1).

Definition stun_attr_add_response_port_str (m : mbuf) (port : Z) : outcome (Z * mbuf) :=
  stun_attr_add_str m STUN_ATTRIBUTE_RESPONSE_PORT (Some (to_be 2 port ++ [0; 0])) 4.

Definition stun_attr_get_padding_len_str (buf : list Z) (attr : option Z) : outcome Z :=
  len ← stun_attr_get_len buf attr;
  if len <? 0 then Ret (-1) else Ret (u16 len).

(** The array has 65535 bytes, of which the first [padding_len] are cleared. *)
Definition stun_attr_add_padding_str (m : mbuf) (padding_len : Z) : outcome (Z * mbuf) :=
  stun_attr_add_str m STUN_ATTRIBUTE_PADDING (Some (zeros (Z.to_nat padding_len))) padding_len.

(** * Lifetimes *)
Definition stun_adjust_allocate_lifetime (lifetime max_allowed_lifetime max_lifetime : Z) : Z :=
  let lifetime :=
    if lifetime =? 0 then STUN_DEFAULT_ALLOCATE_LIFETIME
    else if lifetime <? STUN_MIN_ALLOCATE_LIFETIME then STUN_MIN_ALLOCATE_LIFETIME
    else if lifetime >? max_allowed_lifetime then max_allowed_lifetime
    else lifetime in
  if truthy max_lifetime && (max_lifetime <? lifetime) then max_lifetime else lifetime.

(** * Whole messages *)

(** [if(stun_attr_add_str(buf,len,t,v,sizeof(v))<0) return -1;] *)
Definition add_or_fail (m : mbuf) (t : Z) (v : list Z) (k : mbuf -> outcome (Z * mbuf)) : outcome (Z * mbuf) :=
  '(r, m) ← stun_attr_add_str m t (Some v) (blen v);
  if r <? 0 then Ret (-1, m) else k m.

Definition add_addr_or_fail (maps : list addr_mapping) (m : mbuf) (t : Z) (ca : ioa_addr)
    (k : mbuf -> outcome (Z * mbuf)) : outcome (Z * mbuf) :=
  '(r, m) ← stun_attr_add_addr_str maps m t ca;
  if r <? 0 then Ret (-1, m) else k m.

(** [rt] is the reservation token's memory; [ep] is negative for none. *)
Definition stun_set_allocate_request_str (buf : list Z) (lifetime : Z) (af4 af6 : bool) (transport : Z)
    (mobile : bool) (rt : option (list Z)) (ep : Z) (rnd : list Z) : outcome (Z * mbuf) :=
  m ← stun_init_request_str STUN_METHOD_ALLOCATE buf rnd;
  add_or_fail m STUN_ATTRIBUTE_REQUESTED_TRANSPORT [transport; 0; 0; 0] (fun m =>
  let lifetime := if lifetime <? 1 then STUN_DEFAULT_ALLOCATE_LIFETIME else lifetime in
  add_or_fail m STUN_ATTRIBUTE_LIFETIME (to_be 4 lifetime) (fun m =>
  (if mobile then add_or_fail m STUN_ATTRIBUTE_MOBILITY_TICKET [] else fun k => k m) (fun m =>
  (if ep >? -1 then add_or_fail m STUN_ATTRIBUTE_EVEN_PORT [if truthy ep then 0x80 else 0x00]
   else fun k => k m) (fun m =>
  match rt with
  | Some rt => '(_, m) ← stun_attr_add_str m STUN_ATTRIBUTE_RESERVATION_TOKEN (Some rt) 8; Ret (0, m)
  | None =>
      (if af4 && negb af6 then
         add_or_fail m STUN_ATTRIBUTE_REQUESTED_ADDRESS_FAMILY
           [STUN_ATTRIBUTE_REQUESTED_ADDRESS_FAMILY_VALUE_IPV4; 0; 0; 0]
       else fun k => k m) (fun m =>
      (if af6 && negb af4 then
         add_or_fail m STUN_ATTRIBUTE_REQUESTED_ADDRESS_FAMILY
           [STUN_ATTRIBUTE_REQUESTED_ADDRESS_FAMILY_VALUE_IPV6; 0; 0; 0]
       else fun k => k m) (fun m =>
      (if af4 && af6 then
         add_or_fail m STUN_ATTRIBUTE_ADDITIONAL_ADDRESS_FAMILY
           [STUN_ATTRIBUTE_REQUESTED_ADDRESS_FAMILY_VALUE_IPV6; 0; 0; 0]
       else fun k => k m) (fun m => Ret (0, m))))
  end)))).

(** [mobile_id] is a C string. *)
Definition stun_set_allocate_response_str (maps : list addr_mapping) (buf : list Z) (tid : option (list Z))
    (relayed_addr1 relayed_addr2 reflexive_addr : option ioa_addr) (lifetime max_lifetime : Z)
    (error_code : Z) (reason : option (list Z)) (reservation_token : Z) (mobile_id : option (list Z))
    (rnd : list Z) : outcome (Z * mbuf) :=
  let opt_addr m t (ca : option ioa_addr) :=
    match ca with
    | Some ca => add_addr_or_fail maps m t ca
    | None => fun k => k m
    end in
  if error_code =? 0 then
    m ← stun_init_success_response_str STUN_METHOD_ALLOCATE buf tid rnd;
    opt_addr m STUN_ATTRIBUTE_XOR_RELAYED_ADDRESS relayed_addr1 (fun m =>
    opt_addr m STUN_ATTRIBUTE_XOR_RELAYED_ADDRESS relayed_addr2 (fun m =>
    opt_addr m STUN_ATTRIBUTE_XOR_MAPPED_ADDRESS reflexive_addr (fun m =>
    m ← (if truthy reservation_token then
           '(_, m) ← stun_attr_add_str m STUN_ATTRIBUTE_RESERVATION_TOKEN (Some (to_be 8 reservation_token)) 8;
           Ret m
         else Ret m);
    let lifetime := if lifetime <? 1 then STUN_DEFAULT_ALLOCATE_LIFETIME
                    else if lifetime >? max_lifetime then max_lifetime else lifetime in
    add_or_fail m STUN_ATTRIBUTE_LIFETIME (to_be 4 lifetime) (fun m =>
    match mobile_id with
    | Some id =>
        if strlen id >? 0 then add_or_fail m STUN_ATTRIBUTE_MOBILITY_TICKET (cstr id) (fun m => Ret (0, m))
        else Ret (0, m)
    | None => Ret (0, m)
    end))))
  else
    m ← stun_init_error_response_str STUN_METHOD_ALLOCATE buf (u16 error_code) reason tid rnd;
    Ret (0, m).

(** [rnd_chn] is the value of [turn_random]. *)
Definition stun_set_channel_bind_request_str (maps : list addr_mapping) (buf : list Z)
    (peer_addr : option ioa_addr) (channel_number : Z) (rnd_chn : Z) (rnd : list Z) : outcome (Z * mbuf) :=
  let channel_number := if negb (STUN_VALID_CHANNEL channel_number)
                        then 0x4000 + u16 (u32 rnd_chn mod (0x7FFF - 0x4000 + 1))
                        else channel_number in
  m ← stun_init_request_str STUN_METHOD_CHANNEL_BIND buf rnd;
  '(r, m) ← stun_attr_add_channel_number_str m channel_number;
  if r <? 0 then Ret (0, m) else
  let ca := match peer_addr with None => addr_zero | Some a => a end in
  '(r, m) ← stun_attr_add_addr_str maps m STUN_ATTRIBUTE_XOR_PEER_ADDRESS ca;
  if r <? 0 then Ret (0, m) else Ret (channel_number, m).

Definition stun_set_channel_bind_response_str (buf : list Z) (tid : option (list Z)) (error_code : Z)
    (reason : option (list Z)) (rnd : list Z) : outcome mbuf :=
  if error_code =? 0 then stun_init_success_response_str STUN_METHOD_CHANNEL_BIND buf tid rnd
  else stun_init_error_response_str STUN_METHOD_CHANNEL_BIND buf (u16 error_code) reason tid rnd.

Definition stun_set_binding_request_str (buf rnd : list Z) : outcome mbuf :=
  stun_init_request_str STUN_METHOD_BINDING buf rnd.

Definition stun_set_binding_response_str (maps : list addr_mapping) (buf : list Z) (tid : option (list Z))
    (reflexive_addr : option ioa_addr) (error_code : Z) (reason : option (list Z)) (cookie : Z)
    (old_stun : bool) (rnd : list Z) : outcome (Z * mbuf) :=
  if error_code =? 0 then
    m ← (if negb old_stun then stun_init_success_response_str STUN_METHOD_BINDING buf tid rnd
         else old_stun_init_success_response_str STUN_METHOD_BINDING buf tid cookie rnd);
    (match reflexive_addr with
     | Some ca => if negb old_stun then add_addr_or_fail maps m STUN_ATTRIBUTE_XOR_MAPPED_ADDRESS ca
                  else fun k => k m
     | None => fun k => k m
     end) (fun m =>
    match reflexive_addr with
    | Some ca => add_addr_or_fail maps m STUN_ATTRIBUTE_MAPPED_ADDRESS ca (fun m => Ret (0, m))
    | None => Ret (0, m)
    end)
  else if negb old_stun then
    m ← stun_init_error_response_str STUN_METHOD_BINDING buf (u16 error_code) reason tid rnd; Ret (0, m)
  else
    m ← old_stun_init_error_response_str STUN_METHOD_BINDING buf (u16 error_code) reason tid cookie rnd;
    Ret (0, m).

Definition stun_is_binding_request_str (buf : list Z) (len offset : Z) : outcome bool :=
  if offset <? len then
    let b := drop (Z.to_nat offset) buf in
    let len := len - offset in
    c ← stun_is_command_message_str (Some b) len;
    if (c : bool) then
      r ← stun_is_request_str (Some b) len;
      if (r : bool) then m ← stun_get_method_str (Some b) len; Ret (m =? STUN_METHOD_BINDING)
      else Ret false
    else Ret false
  else Ret false.

Definition stun_is_binding_response_str (buf : list Z) (len : Z) : outcome bool :=
  c ← stun_is_command_message_str (Some buf) len;
  if (c : bool) then
    m ← stun_get_method_str (Some buf) len;
    if m =? STUN_METHOD_BINDING then stun_is_response_str (Some buf) len else Ret false
  else Ret false.

Definition stun_is_command_message_offset_str (buf : list Z) (blen offset : Z) : outcome bool :=
  stun_is_command_message_str (Some (drop (Z.to_nat offset) buf)) blen.
