(* ===== verification/StunBuildFacts.v ===== *)
(** Properties of the message builders and of the readers of error, challenge,
    Allocate and ChannelBind messages: what a builder writes, the
    corresponding reader gives back. *)

From stdpp Require Import base option numbers list strings.
From S2P Require Import Prelude IoAddr StunAddr StunDefs StunMsg StunMsgFacts StunCrc.
From S2P Require Import StunFingerprint StunAuth StunAuthFacts StunBuild.

(** * Reading a represented message *)

(** The first attribute of a type with a non-empty value. *)
Lemma first_value buf len m ty v :
  repr buf len m -> lookup_attr (s_attrs m) ty = Some v -> 0 < blen v ->
  exists a r, stun_attr_get_first_by_type_str buf len ty = Ret (Some a) /\ 20 <= a /\
    stun_attr_get_value buf (Some a) = Ret (Some (a + 4)) /\
    stun_attr_get_len buf (Some a) = Ret (blen v) /\ rd_bytes buf (a + 4) (blen v) = Ret v /\
    attrs_at buf a len ((ty, v) :: r).
Proof.
  intros Hm Hl Hv. rewrite (get_first_by_type_refines _ _ m) by done.
  destruct (find_attr 20 (s_attrs m) ty) as [a|] eqn:E; [|apply find_attr_none in E; congruence].
  destruct (find_attr_at _ _ _ _ _ _ (repr_attrs _ _ _ Hm) E) as (v' & r & Ev & Ho & Ha).
  rewrite Hl in Ev. injection Ev as <-. exists a, r. split; [done|]. split; [done|].
  rewrite (at_value _ _ _ _ _ _ _ Hm Ho Ha). destruct (blen v <? 1) eqn:?; [bool_arith; lia|].
  split; [done|]. split; [by eapply at_len|]. split; [by eapply at_value_bytes|done].
Qed.

Lemma first_none buf len m ty :
  repr buf len m -> lookup_attr (s_attrs m) ty = None ->
  stun_attr_get_first_by_type_str buf len ty = Ret None.
Proof.
  intros Hm Hl. rewrite (get_first_by_type_refines _ _ m) by done. by apply find_attr_none with (off := 20) in Hl as ->.
Qed.

(** Part of a value. *)
Lemma value_part buf a v i n :
  rd_bytes buf a (blen v) = Ret v -> 0 <= i -> 0 <= n -> i + n <= blen v ->
  rd_bytes buf (a + i) n = Ret (slice v i n).
Proof.
  intros E Hi Hn Hb. apply rd_bytes_inv in E as (? & ? & ? & Ev).
  rewrite rd_bytes_ret by lia. f_equal. rewrite Ev at 1. by rewrite slice_slice by lia.
Qed.

Lemma value_byte buf a v i :
  rd_bytes buf a (blen v) = Ret v -> 0 <= i -> i + 1 <= blen v ->
  rd8 buf (a + i) = Ret (be (slice v i 1)).
Proof. intros E ? ?. unfold rd8. by rewrite (value_part _ _ v) by (done || lia). Qed.

(** The search for an address attribute: the first of its type is decoded. *)
Lemma get_first_addr_repr buf len m l k t v ca :
  repr buf len m -> length (s_tid m) = 12%nat -> addr_wf ca -> is_addr_type t = true ->
  s_attrs m = l ++ (t, v) :: k -> lookup_attr l t = None -> 0 < blen v ->
  stun_addr_encode (Some ca) (is_xor_type t) STUN_MAGIC_COOKIE (Some (s_tid m)) = Some v ->
  exists ca', stun_attr_get_first_addr_str [] buf len t None = Ret (Some ca') /\ same_endpoint ca' ca.
Proof.
  intros R Lt W Hty Hat Hnone Hv E. pose proof (repr_attrs _ _ _ R) as At. rewrite Hat in At.
  destruct (search_addr_skip buf len _ 20 l t ((t, v) :: k) R ltac:(lia) At Hnone)
    as (off & Ho & Ha & Hs).
  destruct (get_addr_at _ _ _ off t v k ca _ R Ho Ha Lt W eq_refl E Hv) as (ca' & G & S).
  exists ca'. split; [|done]. rewrite get_first_addr_body, (attr_iter_search _ _ _ _ R), Hat, Hs.
  cbn [search]. assert (addr_body buf len t off = Ret (Some ca')) as ->; [|done].
  unfold addr_body, stun_attr_is_addr. rewrite (at_type _ _ _ _ _ _ _ R Ho Ha). mstep.
  rewrite Hty, Z.eqb_refl. cbn [andb]. rewrite G. done.
Qed.

(** * Error values *)
Lemma zeros_app n m : zeros n ++ zeros m = zeros (n + m).
Proof. unfold zeros. by rewrite replicate_add. Qed.

Lemma take_zeros n m : take n (zeros m) = zeros (n `min` m).
Proof. unfold zeros. by rewrite take_replicate. Qed.

Definition nonzero_bytes (r : list Z) : Prop := bytes_ok r /\ Forall (fun c => c <> 0) r.

(** The value of an error attribute: code, reason and zero padding. *)
Definition error_attr (b0 code : Z) (r : list Z) : list Z :=
  [b0; 0; u8 (Z.quot code 100); u8 (Z.rem code 100)] ++ r ++ zeros (Z.to_nat (pad4 (4 + blen r) - 4 - blen r)).

Lemma error_attr_length b0 code r : blen r <= 508 -> blen (error_attr b0 code r) = pad4 (4 + blen r).
Proof.
  intros Hr. unfold error_attr. destruct (pad4_spec (4 + blen r)) as [? _]; [blia|].
  rewrite !blen_app, blen_zeros, Z2Nat.id by lia. change (blen [b0; _; _; _]) with 4. lia.
Qed.

Lemma error_attr_bytes b0 code r : is_byte b0 -> bytes_ok r -> bytes_ok (error_attr b0 code r).
Proof.
  intros. unfold error_attr. assert (forall x, is_byte (u8 x)) as U
    by (intros; unfold is_byte, u8; apply Z.mod_pos_bound; lia).
  apply bytes_ok_app; [|auto with bytes]. repeat (constructor; [try done; try apply U; unfold is_byte; lia|]).
  constructor.
Qed.

Lemma error_value_spec b0 code r :
  nonzero_bytes r -> blen r <= 508 ->
  exists avalue, error_value b0 code r = (avalue, pad4 (4 + blen r)) /\
    pad4 (4 + blen r) <= blen avalue /\ slice avalue 0 (pad4 (4 + blen r)) = error_attr b0 code r.
Proof.
  intros [Br Nr] Hr. unfold error_value, strncpy_array. rewrite cstr_nonzero by done.
  set (n := (509 - length r)%nat). pose proof (blen_nonneg r).
  assert (take 508 (take (Z.to_nat 509) (r ++ zeros (Z.to_nat 509))) ++ [0] = r ++ zeros n) as ->.
  { change (Z.to_nat 509) with 509%nat. unfold blen in Hr. rewrite take_take, take_app.
    rewrite firstn_all2 by lia. rewrite take_zeros, <- app_assoc. f_equal.
    change [0] with (zeros 1). rewrite zeros_app. f_equal. lia. }
  assert (zeros n = 0 :: zeros (n - 1)) as Hz.
  { subst n. unfold blen in Hr. destruct (509 - length r)%nat as [|k] eqn:E; [lia|].
    simpl. by rewrite Nat.sub_0_r. }
  assert (strlen (r ++ zeros n) = blen r) as ->.
  { unfold strlen. by rewrite Hz, cstr_app_zero. }
  assert ((if truthy ((4 + blen r) mod 4) then 4 + blen r + (4 - (4 + blen r) mod 4) else 4 + blen r)
          = pad4 (4 + blen r)) as ->.
  { unfold pad4. rewrite u16_small, land3 by lia. destruct (truthy _); lia. }
  destruct (pad4_spec (4 + blen r)) as [Hp Hm4]; [lia|].
  assert (pad4 (4 + blen r) <= 512) as Hp5 by (apply Z.mod_divide in Hm4 as [q Hq]; lia).
  eexists. split; [done|]. split.
  - rewrite !blen_app, blen_zeros. change (blen [b0; _; _; _]) with 4. subst n. unfold blen in *. lia.
  - unfold slice, error_attr. rewrite drop_0, !take_app. f_equal; [|f_equal].
    + rewrite firstn_all2; [done|]. simpl. lia.
    + rewrite firstn_all2; [done|]. unfold blen in *. simpl length. lia.
    + rewrite take_zeros. f_equal. subst n. unfold blen in *. simpl length. lia.
Qed.

Lemma error_attr_parts b0 code r :
  0 <= code < 25600 ->
  be (slice (error_attr b0 code r) 2 1) * 100 + be (slice (error_attr b0 code r) 3 1) = code.
Proof.
  intros Hc. unfold error_attr. rewrite !slice_app_l by (rewrite ?blen_cons, ?blen_nil; lia).
  change (be (slice [b0; 0; u8 (code ÷ 100); u8 (Z.rem code 100)] 2 1)) with (0 * 256 + u8 (code ÷ 100)).
  change (be (slice [b0; 0; u8 (code ÷ 100); u8 (Z.rem code 100)] 3 1)) with (0 * 256 + u8 (Z.rem code 100)).
  rewrite Z.quot_div_nonneg, Z.rem_mod_nonneg by lia.
  pose proof (Z.mod_pos_bound code 100). pose proof (Z.div_mod code 100).
  assert (0 <= code / 100 < 256) by (split; [apply Z.div_pos; lia|apply Z.div_lt_upper_bound; lia]).
  rewrite !u8_small by lia. lia.
Qed.

Lemma blen_one (x : Z) : blen [x] = 1.
Proof. done. Qed.

(** Reading the error of a represented error response. *)
Lemma is_error_response_repr buf len m b0 code r k msg n :
  repr buf len m -> IS_STUN_ERR_RESP (s_type m) = true ->
  lookup_attr (s_attrs m) STUN_ATTRIBUTE_ERROR_CODE = Some (error_attr b0 code r) ->
  nonzero_bytes r -> blen r <= 508 -> 0 <= code < 25600 -> blen msg = n -> blen r < n ->
  exists msg', stun_is_error_response_str buf len (Some k) (Some msg) n = Ret (true, Some code, Some msg') /\
    cstr msg' = r.
Proof.
  intros Hm He Hl [Br Nr] Hr Hc Hn Hrn. pose proof (blen_nonneg r).
  destruct (pad4_spec (4 + blen r)) as [Hp _]; [lia|].
  pose proof (error_attr_length b0 code r Hr) as Lv.
  destruct (first_value buf len m _ _ Hm Hl) as (a & rr & F & Ha & Hv & Hlen & Hb & _); [lia|].
  unfold stun_is_error_response_str. rewrite (repr_not_channel _ _ _ Hm). mstep.
  rewrite (repr_msg_type _ _ _ Hm). mstep. rewrite He. cbn [negb]. rewrite F. mstep.
  rewrite Hlen. mstep. destruct (_ >=? 4) eqn:?; [|bool_arith; lia]. cbn [negb]. rewrite Hv. mstep.
  rewrite !(value_byte _ _ _ _ Hb) by lia. mstep. rewrite error_attr_parts by done.
  destruct (n >? 0) eqn:?; [|bool_arith; lia].
  rewrite wr_bytes_ret by (rewrite ?blen_one; lia). mstep. rewrite Lv in *.
  assert (blen (splice msg 0 [0]) = n) as L0 by (rewrite blen_splice; rewrite ?blen_one; lia).
  set (P := pad4 (4 + blen r)) in *. destruct (P >? 4) eqn:E4; bool_arith.
  - set (ml := if P - 4 >? n - 1 then n - 1 else P - 4).
    assert (blen r <= ml <= P - 4 /\ ml <= n - 1) as Hml
      by (subst ml; destruct (_ >? _) eqn:?; bool_arith; lia).
    rewrite <- Lv in Hb. rewrite (value_part _ _ _ 4 ml Hb) by lia. mstep.
    set (text := slice (error_attr b0 code r) 4 ml).
    assert (blen text = ml) as Lt by (apply blen_slice; lia).
    rewrite wr_bytes_ret by lia. mstep.
    rewrite wr_bytes_ret by (rewrite ?blen_one; try rewrite (blen_splice _ 0 text) by lia; lia). mstep.
    eexists. split; [done|].
    assert (exists q, text = r ++ zeros q) as [q Hq].
    { exists (Z.to_nat (ml - blen r)). subst text. unfold error_attr.
      rewrite slice_app_r by (change (blen [b0; _; _; _]) with 4; lia).
      change (blen [b0; _; _; _]) with 4. rewrite Z.sub_diag.
      unfold slice. rewrite drop_0, take_app, take_zeros. unfold blen in *.
      rewrite firstn_all2 by lia. do 2 f_equal. subst P. lia. }
    set (s1 := splice (splice msg 0 [0]) 0 text).
    assert (exists tl, splice s1 ml [0] = text ++ 0 :: tl) as [tl ->].
    { exists (drop (Z.to_nat ml + 1) s1). unfold splice at 1. simpl. f_equal.
      subst s1. unfold splice at 1. change (Z.to_nat 0) with 0%nat. rewrite take_0. simpl.
      rewrite take_app_le by (unfold blen in *; lia). rewrite firstn_all2; [done|unfold blen in *; lia]. }
    rewrite Hq. destruct q as [|q].
    + change (zeros 0) with (@nil Z). rewrite app_nil_r. by apply cstr_app_zero.
    + simpl. rewrite <- app_assoc. by apply cstr_app_zero.
  - assert (r = []) as -> by (apply length_zero_iff_nil; unfold blen in *; lia).
    eexists. split; [done|]. unfold splice. done.
Qed.

(** * Builders *)
Lemma add_step b m t v :
  mrepr b m -> 0 <= t < 2 ^ 16 -> bytes_ok v -> blen v < 2 ^ 16 ->
  mlen b + 4 + pad4 (blen v) < MAX_STUN_MESSAGE_SIZE ->
  mlen b + 4 + pad4 (blen v) <= blen (mdata b) ->
  exists b', stun_attr_add_str b t (Some v) (blen v) = Ret (0, b') /\ mrepr b' (s_add m t v) /\
    mlen b' = mlen b + 4 + pad4 (blen v) /\ blen (mdata b') = blen (mdata b).
Proof.
  intros Hm Ht Hv Hv16 Hmax Hcap. pose proof (repr_len _ _ _ Hm).
  destruct (pad4_spec (blen v)) as [? _]; [blia|].
  destruct (attr_add_refines b m t v Hm Ht Hv Hmax Hcap Hv16) as [A R].
  eexists. split; [exact A|]. split; [exact R|]. split; [done|]. apply blen_added; blia.
Qed.

Lemma add_or_fail_step b m t v k :
  mrepr b m -> 0 <= t < 2 ^ 16 -> bytes_ok v -> blen v < 2 ^ 16 ->
  mlen b + 4 + pad4 (blen v) < MAX_STUN_MESSAGE_SIZE ->
  mlen b + 4 + pad4 (blen v) <= blen (mdata b) ->
  exists b', add_or_fail b t v k = k b' /\ mrepr b' (s_add m t v) /\
    mlen b' = mlen b + 4 + pad4 (blen v) /\ blen (mdata b') = blen (mdata b).
Proof.
  intros. destruct (add_step b m t v) as (b' & A & ?); try done. exists b'.
  split; [|done]. unfold add_or_fail. by rewrite A.
Qed.

Lemma init_success_refines method buf id rnd :
  0 <= method < 4096 -> bytes_ok buf -> 20 <= blen buf -> bytes_ok rnd -> length rnd = 12%nat ->
  bytes_ok id -> length id = 12%nat ->
  exists b, stun_init_success_response_str method buf (Some id) rnd = Ret b /\
    mrepr b (SMsg (stun_make_success_response method) STUN_MAGIC_COOKIE id []) /\ mlen b = 20 /\
    blen (mdata b) = blen buf.
Proof.
  intros Hmeth B L Br Lr Bi Li. unfold stun_init_success_response_str.
  destruct (init_refines (stun_make_success_response method) buf rnd B L Br Lr) as (b & E & R & Hl & Hd).
  destruct (made_type_small method Hmeth) as (_ & _ & Ht & _). rewrite Ht in R.
  rewrite E. mstep. destruct (tid_cpy_refines b _ id R Bi Li) as (d & -> & R' & Hd'). mstep.
  eexists. split; [done|]. split; [exact R'|]. simpl. split; [done|lia].
Qed.

Lemma init_request_refines method buf rnd :
  0 <= method < 4096 -> bytes_ok buf -> 20 <= blen buf -> bytes_ok rnd -> length rnd = 12%nat ->
  exists b, stun_init_request_str method buf rnd = Ret b /\
    mrepr b (SMsg (stun_make_request method) STUN_MAGIC_COOKIE rnd []) /\ mlen b = 20 /\
    blen (mdata b) = blen buf.
Proof.
  intros Hmeth B L Br Lr. unfold stun_init_request_str.
  destruct (init_refines (stun_make_request method) buf rnd B L Br Lr) as (b & E & R & Hl & Hd).
  destruct (made_type_small method Hmeth) as (Ht & _). rewrite Ht in R. by exists b.
Qed.

(** The reason the code puts into the response. *)
Definition effective_reason (code : Z) (reason : option (list Z)) : list Z :=
  match reason with
  | None => get_default_reason code
  | Some r => if strcmp r (bytes_of_string "Unknown error") =? 0 then get_default_reason code else r
  end.

(** Appending an error attribute. *)
Lemma add_error_value b m t b0 code r :
  mrepr b m -> 0 <= t < 2 ^ 16 -> is_byte b0 -> nonzero_bytes r -> blen r <= 508 ->
  mlen b + 520 < MAX_STUN_MESSAGE_SIZE -> mlen b + 520 <= blen (mdata b) ->
  exists avalue alen b', error_value b0 code r = (avalue, alen) /\
    stun_attr_add_str b t (Some avalue) alen = Ret (0, b') /\
    mrepr b' (s_add m t (error_attr b0 code r)) /\ mlen b' <= mlen b + 520 /\
    blen (mdata b') = blen (mdata b).
Proof.
  intros Hm Ht H0 Hr Hr5 Hmax Hcap. pose proof (blen_nonneg r).
  destruct (error_value_spec b0 code r Hr Hr5) as (av & Ev & La & Sv).
  destruct (pad4_spec (4 + blen r)) as [? Hm4]; [lia|].
  pose proof (error_attr_length b0 code r Hr5) as Le.
  assert (pad4 (blen (error_attr b0 code r)) = blen (error_attr b0 code r)) as Hpp.
  { rewrite Le. destruct (pad4_spec (pad4 (4 + blen r))) as [? Hm5]; [lia|].
    apply Z.mod_divide in Hm4 as [q Hq]; [|lia]. apply Z.mod_divide in Hm5 as [q' Hq']; lia. }
  destruct (add_step b m t (error_attr b0 code r)) as (b' & A & R & L & D); rewrite ?Hpp, ?Le;
    try done; try lia. { apply error_attr_bytes; [done|apply Hr]. }
  exists av, (pad4 (4 + blen r)), b'. split; [done|]. split.
  - rewrite attr_add_take by lia. rewrite Sv, <- Le. exact A.
  - split; [done|]. rewrite Hpp, Le in L. split; [lia|done].
Qed.

Lemma error_common_refines b m code reason id :
  mrepr b m -> bytes_ok id -> length id = 12%nat ->
  nonzero_bytes (effective_reason code reason) -> blen (effective_reason code reason) <= 508 ->
  mlen b + 520 < MAX_STUN_MESSAGE_SIZE -> mlen b + 520 <= blen (mdata b) ->
  exists b', stun_init_error_response_common_str b code reason (Some id) = Ret b' /\
    mrepr b' (SMsg (s_type m) (s_cookie m) id
                (s_attrs m ++ [(STUN_ATTRIBUTE_ERROR_CODE, error_attr 0 code (effective_reason code reason))])) /\
    mlen b' <= mlen b + 520 /\ blen (mdata b') = blen (mdata b).
Proof.
  intros Hm Bi Li Hr Hr5 Hmax Hcap. unfold stun_init_error_response_common_str.
  fold (effective_reason code reason).
  destruct (add_error_value b m STUN_ATTRIBUTE_ERROR_CODE 0 code _ Hm ltac:(done) ltac:(done) Hr Hr5 Hmax Hcap)
    as (av & alen & b' & -> & -> & R & Hl & Hd). mstep.
  destruct (tid_cpy_refines b' _ id R Bi Li) as (d & -> & R' & Hd'). mstep. eexists. split; [done|].
  split; [exact R'|]. cbn [mdata mlen]. split; [done|lia].
Qed.

(** A channel number attribute. *)
Lemma get_channel_at buf len m off n r :
  repr buf len m -> 20 <= off ->
  attrs_at buf off len ((STUN_ATTRIBUTE_CHANNEL_NUMBER, to_be 2 n ++ [0; 0]) :: r) ->
  STUN_VALID_CHANNEL n = true -> stun_attr_get_channel_number buf (Some off) = Ret n.
Proof.
  intros Hm Ho Ha Hn. unfold stun_attr_get_channel_number, with_value.
  assert (blen (to_be 2 n ++ [0; 0]) = 4) as L by done.
  rewrite (at_value _ _ _ _ _ _ _ Hm Ho Ha), L. mstep. change (4 <? 1) with false. cbn iota.
  rewrite (at_len _ _ _ _ _ _ _ Hm Ho Ha), L. mstep. change (4 >=? 2) with true. cbn iota.
  pose proof (at_value_bytes _ _ _ _ _ _ _ Hm Ho Ha) as E.
  unfold rd16. rewrite <- (Z.add_0_r (off + 4)), (value_part _ _ _ 0 2 E) by (rewrite ?L; lia). mstep.
  rewrite slice_app_l, slice_all by (rewrite ?blen_to_be; lia || done).
  assert (0x4000 <= n <= 0x7FFF) by (unfold STUN_VALID_CHANNEL in Hn; bool_arith; lia).
  rewrite be2 by lia. by rewrite Hn.
Qed.

(** ** Allocate responses *)
Definition s_app (m : smsg) (l : list (Z * list Z)) : smsg :=
  SMsg (s_type m) (s_cookie m) (s_tid m) (s_attrs m ++ l).

(** An address that can be encoded. *)
Definition addr_ok (a : ioa_addr) : Prop :=
  addr_wf a /\ (sa_family a = AF_INET \/ sa_family a = 0 \/ sa_family a = AF_INET6).

(** An optional address attribute. *)
Lemma opt_addr_step b m t (ca : option ioa_addr) :
  mrepr b m -> length (s_tid m) = 12%nat -> (forall a, ca = Some a -> addr_ok a) -> 0 <= t < 2 ^ 16 ->
  mlen b + 24 < MAX_STUN_MESSAGE_SIZE -> mlen b + 24 <= blen (mdata b) ->
  exists l b', (forall k, (match ca with Some ca => add_addr_or_fail [] b t ca | None => fun k => k b end) k = k b') /\
    mrepr b' (s_app m l) /\ mlen b' <= mlen b + 24 /\ blen (mdata b') = blen (mdata b) /\
    match ca with
    | None => l = []
    | Some a => exists v, l = [(t, v)] /\ 0 < blen v /\
        stun_addr_encode (Some a) (is_xor_type t) STUN_MAGIC_COOKIE (Some (s_tid m)) = Some v
    end.
Proof.
  intros Hm Lt Hca Ht Hmax Hcap. destruct ca as [a|].
  - destruct (Hca a eq_refl) as [W F].
    destruct (add_addr_refines b m t a Hm Lt W F Ht Hmax Hcap) as (v & b' & E & Lv & A & R & L & D).
    exists [(t, v)], b'. split; [intros k; unfold add_addr_or_fail; by rewrite A|].
    split; [exact R|]. split; [lia|]. split; [done|]. exists v. split; [done|]. split; [lia|done].
  - exists [], b. split; [done|]. split; [|split; [lia|done]].
    unfold s_app. rewrite app_nil_r. by destruct m.
Qed.

Lemma token_step b m token :
  mrepr b m -> mlen b + 12 < MAX_STUN_MESSAGE_SIZE -> mlen b + 12 <= blen (mdata b) ->
  exists l b', (if truthy token then
      '(_, m) ← stun_attr_add_str b STUN_ATTRIBUTE_RESERVATION_TOKEN (Some (to_be 8 token)) 8; Ret m
      else Ret b) = Ret b' /\
    mrepr b' (s_app m l) /\ mlen b' <= mlen b + 12 /\ blen (mdata b') = blen (mdata b) /\
    lookup_attr l STUN_ATTRIBUTE_LIFETIME = None.
Proof.
  intros Hm Hmax Hcap. destruct (truthy token).
  - destruct (add_step b m STUN_ATTRIBUTE_RESERVATION_TOKEN (to_be 8 token) Hm) as (b' & A & R & L & D);
      rewrite ?blen_to_be; try (change (pad4 (Z.of_nat 8)) with 8); auto with bytes; try done; try lia.
    change (pad4 (blen (to_be 8 token))) with 8 in L. change (blen (to_be 8 token)) with 8 in A.
    rewrite A. eexists _, b'. split; [done|]. split; [exact R|]. split; [lia|done].
  - exists [], b. split; [done|]. split; [|split; [lia|done]].
    unfold s_app. rewrite app_nil_r. by destruct m.
Qed.

(** The attributes of a success response. *)
Lemma allocate_response_refines buf id rel1 rel2 refl lifetime max_lifetime token rnd :
  let granted := if lifetime <? 1 then STUN_DEFAULT_ALLOCATE_LIFETIME
                 else if lifetime >? max_lifetime then max_lifetime else lifetime in
  bytes_ok buf -> 200 <= blen buf -> bytes_ok rnd -> length rnd = 12%nat -> bytes_ok id -> length id = 12%nat ->
  addr_ok rel1 -> (forall a, rel2 = Some a -> addr_ok a) -> addr_ok refl ->
  exists b v1 l2 v3 l4, stun_set_allocate_response_str [] buf (Some id) (Some rel1) rel2 (Some refl) lifetime
                max_lifetime 0 None token None rnd = Ret (0, b) /\
    mrepr b (SMsg (stun_make_success_response STUN_METHOD_ALLOCATE) STUN_MAGIC_COOKIE id
       ((((STUN_ATTRIBUTE_XOR_RELAYED_ADDRESS, v1) :: l2) ++ [(STUN_ATTRIBUTE_XOR_MAPPED_ADDRESS, v3)]) ++ l4 ++
        [(STUN_ATTRIBUTE_LIFETIME, to_be 4 granted)])) /\
    Forall (fun x => x.1 = STUN_ATTRIBUTE_XOR_RELAYED_ADDRESS) l2 /\
    lookup_attr l4 STUN_ATTRIBUTE_LIFETIME = None /\ 0 < blen v1 /\ 0 < blen v3 /\
    stun_addr_encode (Some rel1) true STUN_MAGIC_COOKIE (Some id) = Some v1 /\
    stun_addr_encode (Some refl) true STUN_MAGIC_COOKIE (Some id) = Some v3.
Proof.
  intros granted B L Br Lr Bi Li H1 H2 H3.
  unfold stun_set_allocate_response_str. change (0 =? 0) with true. cbn iota.
  destruct (init_success_refines STUN_METHOD_ALLOCATE buf id rnd) as (b0 & -> & R0 & L0 & D0);
    try done; try lia. mstep.
  destruct (opt_addr_step b0 _ STUN_ATTRIBUTE_XOR_RELAYED_ADDRESS (Some rel1) R0) as (l1 & b1 & K1 & R1 & L1 & D1 & E1);
    unfold MAX_STUN_MESSAGE_SIZE; try done; try lia; [by intros ? [= <-]|]. rewrite K1.
  destruct E1 as (v1 & -> & P1 & E1).
  destruct (opt_addr_step b1 _ STUN_ATTRIBUTE_XOR_RELAYED_ADDRESS rel2 R1) as (l2 & b2 & K2 & R2 & L2 & D2 & E2);
    unfold MAX_STUN_MESSAGE_SIZE; try done; try lia. rewrite K2.
  destruct (opt_addr_step b2 _ STUN_ATTRIBUTE_XOR_MAPPED_ADDRESS (Some refl) R2) as (l3 & b3 & K3 & R3 & L3 & D3 & E3);
    unfold MAX_STUN_MESSAGE_SIZE; try done; try lia; [by intros ? [= <-]|]. rewrite K3.
  destruct E3 as (v3 & -> & P3 & E3).
  destruct (token_step b3 _ token R3) as (l4 & b4 & K4 & R4 & L4 & D4 & E4);
    unfold MAX_STUN_MESSAGE_SIZE; try lia. rewrite K4. mstep. fold granted.
  edestruct (add_or_fail_step b4) as (b5 & -> & R5 & L5 & D5);
    [exact R4|done|apply bytes_ok_to_be|done|..];
    try (change (pad4 (blen (to_be 4 _))) with 4; unfold MAX_STUN_MESSAGE_SIZE; lia).
  exists b5, v1, l2, v3, l4. split; [done|]. split.
  { revert R5. unfold s_add, s_app. cbn [s_type s_cookie s_tid s_attrs app]. by rewrite <- !app_assoc. }
  split; [|done]. destruct rel2 as [r2|]; [destruct E2 as (v2 & -> & _); by repeat constructor|subst l2; constructor].
Qed.

Lemma lookup_attr_other l t t' :
  Forall (fun x => x.1 = t) l -> t <> t' -> lookup_attr l t' = None.
Proof.
  induction 1 as [|[x v] l Hx Hl IH]; intros N; simpl in *; [done|]. subst x.
  destruct (t =? t') eqn:?; bool_arith; [done|]. by apply IH.
Qed.

(** * Claims *)

(** Error responses round trip: for every method, every code below 25600
    and every reason of at most 508 characters (or the default reason of the
    code), the response built for a transaction id is an error response of
    that method and id, and reading it gives back the code and the reason
    text, whatever the padding. *)
Theorem error_response_roundtrip method buf code reason id rnd k msg :
  let r := effective_reason code reason in
  0 <= method < 4096 -> bytes_ok buf -> 540 <= blen buf -> bytes_ok rnd -> length rnd = 12%nat ->
  bytes_ok id -> length id = 12%nat -> nonzero_bytes r -> blen r <= 508 -> 0 <= code < 25600 ->
  blen r < blen msg ->
  exists b msg', stun_init_error_response_str method buf code reason (Some id) rnd = Ret b /\
    stun_get_method_str (Some (mdata b)) (mlen b) = Ret method /\
    stun_tid_from_message_str (mdata b) (mlen b) = Ret id /\
    stun_is_error_response_str (mdata b) (mlen b) (Some k) (Some msg) (blen msg) =
      Ret (true, Some code, Some msg') /\
    cstr msg' = r.
Proof.
  intros r Hmeth B L Br Lr Bi Li Hr Hr5 Hc Hmsg. unfold stun_init_error_response_str.
  destruct (init_refines (stun_make_error_response method) buf rnd B ltac:(lia) Br Lr) as (b0 & E & R & Hl & Hd).
  destruct (made_type_small method Hmeth) as (_ & _ & _ & Ht). rewrite Ht in R.
  rewrite E. mstep. unfold MAX_STUN_MESSAGE_SIZE.
  destruct (error_common_refines b0 _ code reason id R Bi Li Hr Hr5) as (b & Eb & Rb & _);
    unfold MAX_STUN_MESSAGE_SIZE; try lia. fold r in Rb. rewrite Eb.
  destruct (is_error_response_repr (mdata b) (mlen b) _ 0 code r k msg (blen msg) Rb) as (msg' & Em & Es);
    try done.
  { cbn [s_type]. apply type_roundtrip in Hmeth. unfold type_roundtrip_ok in Hmeth. by bool_arith. }
  exists b, msg'. split; [done|]. split; [|split; [|done] ].
  - rewrite (repr_method _ _ _ Rb). cbn [s_type]. apply type_roundtrip in Hmeth.
    unfold type_roundtrip_ok in Hmeth. cbn [forallb] in Hmeth. bool_arith. congruence.
  - unfold stun_tid_from_message_str. pose proof (repr_len _ _ _ Rb).
    rewrite (rd_bytes_ret _ 8 12) by lia. by rewrite (repr_tid _ _ _ Rb).
Qed.

Lemma error_response_roundtrip_witness :
  exists b msg', stun_init_error_response_str STUN_METHOD_ALLOCATE (zeros 600) 486 None
                   (Some [1; 2; 3; 4; 5; 6; 7; 8; 9; 10; 11; 12]) (zeros 12) = Ret b /\
    stun_get_method_str (Some (mdata b)) (mlen b) = Ret STUN_METHOD_ALLOCATE /\
    stun_tid_from_message_str (mdata b) (mlen b) = Ret [1; 2; 3; 4; 5; 6; 7; 8; 9; 10; 11; 12] /\
    stun_is_error_response_str (mdata b) (mlen b) (Some 0) (Some (zeros 64)) 64 =
      Ret (true, Some 486, Some msg') /\
    cstr msg' = bytes_of_string "Allocation Quota Reached".
Proof.
  apply (error_response_roundtrip STUN_METHOD_ALLOCATE (zeros 600) 486 None
           [1; 2; 3; 4; 5; 6; 7; 8; 9; 10; 11; 12] (zeros 12) 0 (zeros 64));
    try done; try (by apply bytes_okb_spec).
  split; [by apply bytes_okb_spec|]. by repeat constructor.
Defined.

(** Reading an authentication challenge: a represented error response
    with code 401 or 438 whose REALM and NONCE fit the caller's arrays is
    recognised, and the arrays then hold the realm and the nonce as strings;
    but a REALM that does not leave room for the terminating zero is copied
    all the same, past the end of the caller's array. *)
Theorem challenge_response_copies buf len m code em em' es realm nonce rv nv oa :
  repr buf len m ->
  stun_is_error_response_str buf len (Some 0) em es = Ret (true, Some code, em') ->
  code = 401 \/ code = 438 ->
  lookup_attr (s_attrs m) STUN_ATTRIBUTE_REALM = Some rv -> 0 < blen rv ->
  lookup_attr (s_attrs m) STUN_ATTRIBUTE_NONCE = Some nv -> 0 < blen nv ->
  lookup_attr (s_attrs m) STUN_ATTRIBUTE_THIRD_PARTY_AUTHORIZATION = None ->
  blen nv < blen nonce ->
  (blen rv < blen realm ->
   stun_is_challenge_response_str buf len (Some 0) em es realm nonce None (Some oa) =
   Ret (Challenge true (Some code) em'
          (rv ++ 0 :: drop (length rv + 1) realm) (nv ++ 0 :: drop (length nv + 1) nonce)
          None (Some 0))) /\
  (blen realm <= blen rv ->
   stun_is_challenge_response_str buf len (Some 0) em es realm nonce None (Some oa) = UB).
Proof.
  intros Hm He Hc Hr Hr0 Hn Hn0 Ht Hnn.
  destruct (first_value _ _ _ _ _ Hm Hr Hr0) as (a & ra & Fa & Ha & Va & La & Ba & _).
  destruct (first_value _ _ _ _ _ Hm Hn Hn0) as (c & rc & Fc & Hcc & Vc & Lc & Bc & _).
  pose proof (first_none _ _ _ _ Hm Ht) as Ft.
  assert (forall (dst v : list Z), blen v < blen dst ->
            splice (splice dst 0 v) (blen v) [0] = v ++ 0 :: drop (length v + 1) dst) as Hs.
  { intros dst v Hv. unfold splice, blen in *. change (Z.to_nat 0) with 0%nat. rewrite take_0, Nat2Z.id. simpl.
    rewrite take_app_le, firstn_all2 by lia. f_equal. f_equal.
    rewrite drop_app_ge by lia. rewrite drop_drop. f_equal. lia. }
  assert (forall v (x dst : list Z), rd_bytes buf v (blen x) = Ret x ->
            copy_value buf v (blen x) dst = wr_bytes dst 0 x) as Hcp
    by (intros ? ? ? E; unfold copy_value; by rewrite E).
  assert ((code =? 401) || (code =? 438) = true) as Hcb by (destruct Hc as [-> | ->]; done).
  unfold stun_is_challenge_response_str. rewrite He. mstep. cbn [negb]. rewrite Hcb. cbn [negb].
  rewrite Fa. mstep. rewrite Va. mstep. rewrite La. mstep. rewrite (Hcp (a + 4) rv) by done.
  split; intros Hfit.
  - rewrite wr_bytes_ret by lia. mstep. rewrite wr_bytes_ret by (rewrite ?blen_one; try rewrite blen_splice by lia; lia).
    mstep. rewrite Ft. mstep. change (stun_attr_get_value buf None) with (@Ret (option Z) None). mstep.
    rewrite Fc. mstep. rewrite Vc. mstep. rewrite Lc. mstep. rewrite Hcp by done.
    rewrite wr_bytes_ret by lia. mstep. rewrite wr_bytes_ret by (rewrite ?blen_one; try rewrite blen_splice by lia; lia).
    mstep. rewrite !Hs by lia. done.
  - destruct (Z.eq_dec (blen rv) (blen realm)) as [Heq|Hne].
    + rewrite wr_bytes_ret by lia. mstep.
      rewrite wr_bytes_ub; [done|]. rewrite blen_splice, blen_one by lia. lia.
    + rewrite wr_bytes_ub; [done|lia].
Qed.

Definition ex_challenge : list Z :=
  [0x01; 0x13; 0; 24; 0x21; 0x12; 0xA4; 0x42] ++ zeros 12 ++ [0; 9; 0; 4; 0; 0; 4; 1] ++
  [0; 0x14; 0; 4; 97; 98; 99; 100] ++ [0; 0x15; 0; 4; 49; 50; 51; 52].

Lemma challenge_response_copies_witness :
  stun_is_challenge_response_str ex_challenge 44 (Some 0) None 0 (zeros 16) (zeros 16) None (Some 0) =
    Ret (Challenge true (Some 401) None ([97; 98; 99; 100] ++ 0 :: drop 5 (zeros 16))
           ([49; 50; 51; 52] ++ 0 :: drop 5 (zeros 16)) None (Some 0)) /\
  stun_is_challenge_response_str ex_challenge 44 (Some 0) None 0 (zeros 4) (zeros 16) None (Some 0) = UB.
Proof.
  assert (repr ex_challenge 44 (SMsg 0x113 STUN_MAGIC_COOKIE (zeros 12)
            [(9, [0; 0; 4; 1]); (0x14, [97; 98; 99; 100]); (0x15, [49; 50; 51; 52])])) as R
    by (constructor; try (by apply bytes_okb_spec); try done; split; done).
  split.
  - apply (challenge_response_copies ex_challenge 44 _ 401 None None 0 (zeros 16) (zeros 16)
             [97; 98; 99; 100] [49; 50; 51; 52] 0 R); try done. by left.
  - apply (challenge_response_copies ex_challenge 44 _ 401 None None 0 (zeros 4) (zeros 16)
             [97; 98; 99; 100] [49; 50; 51; 52] 0 R); try done. by left.
Defined.

(** Allocate responses round trip: the success response built for a
    transaction id carries the id, and reading it gives the relayed address
    (the first one when two are given), the reflexive address, and the
    lifetime, cut to the maximum, that the server granted. *)
Theorem allocate_response_roundtrip buf id rel1 rel2 refl lifetime max_lifetime token rnd :
  let granted := if lifetime <? 1 then STUN_DEFAULT_ALLOCATE_LIFETIME
                 else if lifetime >? max_lifetime then max_lifetime else lifetime in
  bytes_ok buf -> 200 <= blen buf -> bytes_ok rnd -> length rnd = 12%nat -> bytes_ok id -> length id = 12%nat ->
  addr_ok rel1 -> (forall a, rel2 = Some a -> addr_ok a) -> addr_ok refl ->
  exists b rel1' refl', stun_set_allocate_response_str [] buf (Some id) (Some rel1) rel2 (Some refl) lifetime
                max_lifetime 0 None token None rnd = Ret (0, b) /\
    stun_is_success_response_str (Some (mdata b)) (mlen b) = Ret true /\
    stun_get_method_str (Some (mdata b)) (mlen b) = Ret STUN_METHOD_ALLOCATE /\
    stun_tid_from_message_str (mdata b) (mlen b) = Ret id /\
    stun_attr_get_first_addr_str [] (mdata b) (mlen b) STUN_ATTRIBUTE_XOR_RELAYED_ADDRESS None = Ret (Some rel1') /\
    same_endpoint rel1' rel1 /\
    stun_attr_get_first_addr_str [] (mdata b) (mlen b) STUN_ATTRIBUTE_XOR_MAPPED_ADDRESS None = Ret (Some refl') /\
    same_endpoint refl' refl /\
    (exists a, stun_attr_get_first_by_type_str (mdata b) (mlen b) STUN_ATTRIBUTE_LIFETIME = Ret (Some a) /\
               rd_bytes (mdata b) (a + 4) 4 = Ret (to_be 4 granted)).
Proof.
  intros granted B L Br Lr Bi Li H1 H2 H3.
  destruct (allocate_response_refines buf id rel1 rel2 refl lifetime max_lifetime token rnd B L Br Lr Bi Li H1 H2 H3)
    as (b & v1 & l2 & v3 & l4 & E & R & F2 & N4 & P1 & P3 & E1 & E3). fold granted in R.
  destruct (get_first_addr_repr (mdata b) (mlen b) _ [] ((l2 ++ [(STUN_ATTRIBUTE_XOR_MAPPED_ADDRESS, v3)]) ++
              l4 ++ [(STUN_ATTRIBUTE_LIFETIME, to_be 4 granted)])
              STUN_ATTRIBUTE_XOR_RELAYED_ADDRESS v1 rel1 R) as (rel1' & G1 & S1); try done; [by apply H1|].
  destruct (get_first_addr_repr (mdata b) (mlen b) _ ((STUN_ATTRIBUTE_XOR_RELAYED_ADDRESS, v1) :: l2)
              (l4 ++ [(STUN_ATTRIBUTE_LIFETIME, to_be 4 granted)])
              STUN_ATTRIBUTE_XOR_MAPPED_ADDRESS v3 refl R) as (refl' & G3 & S3); try done.
  { by apply H3. } { cbn [s_attrs]. by rewrite <- app_assoc. } { simpl. by eapply lookup_attr_other. }
  destruct (first_value (mdata b) (mlen b) _ STUN_ATTRIBUTE_LIFETIME (to_be 4 granted) R)
    as (a & ra & Fa & _ & _ & _ & Ba & _); try done.
  { cbn [s_attrs]. rewrite !lookup_attr_app. simpl. rewrite (lookup_attr_other l2 _ _ F2) by done. by rewrite N4. }
  exists b, rel1', refl'. split; [done|]. split.
  { unfold stun_is_success_response_str. rewrite (repr_not_channel _ _ _ R). mstep.
    by rewrite (repr_msg_type _ _ _ R). }
  split; [by rewrite (repr_method _ _ _ R)|]. split.
  { unfold stun_tid_from_message_str. pose proof (repr_len _ _ _ R).
    rewrite (rd_bytes_ret _ 8 12) by lia. by rewrite (repr_tid _ _ _ R). }
  do 4 (split; [done|]). exists a. split; [done|exact Ba].
Qed.

Lemma allocate_response_roundtrip_witness :
  exists b rel1' refl', stun_set_allocate_response_str [] (zeros 256) (Some (zeros 12)) (Some (ex_v4 192 0 2 1 49160))
                None (Some (ex_v4 198 51 100 7 5000)) 700 600 0 None 17 None (zeros 12) = Ret (0, b) /\
    stun_is_success_response_str (Some (mdata b)) (mlen b) = Ret true /\
    stun_get_method_str (Some (mdata b)) (mlen b) = Ret STUN_METHOD_ALLOCATE /\
    stun_tid_from_message_str (mdata b) (mlen b) = Ret (zeros 12) /\
    stun_attr_get_first_addr_str [] (mdata b) (mlen b) STUN_ATTRIBUTE_XOR_RELAYED_ADDRESS None = Ret (Some rel1') /\
    same_endpoint rel1' (ex_v4 192 0 2 1 49160) /\
    stun_attr_get_first_addr_str [] (mdata b) (mlen b) STUN_ATTRIBUTE_XOR_MAPPED_ADDRESS None = Ret (Some refl') /\
    same_endpoint refl' (ex_v4 198 51 100 7 5000) /\
    (exists a, stun_attr_get_first_by_type_str (mdata b) (mlen b) STUN_ATTRIBUTE_LIFETIME = Ret (Some a) /\
               rd_bytes (mdata b) (a + 4) 4 = Ret (to_be 4 600)).
Proof.
  apply (allocate_response_roundtrip (zeros 256) (zeros 12) (ex_v4 192 0 2 1 49160) None (ex_v4 198 51 100 7 5000)
           700 600 17 (zeros 12)); try done; try (by apply bytes_okb_spec);
    (split; [by apply addr_wfb_spec|by left]).
Defined.

(** The message a ChannelBind request is. *)
Lemma channel_bind_request_repr buf peer chn rnd_chn rnd :
  bytes_ok buf -> 100 <= blen buf -> bytes_ok rnd -> length rnd = 12%nat -> addr_ok peer -> 0 <= chn < 2 ^ 16 ->
  exists b n v, stun_set_channel_bind_request_str [] buf (Some peer) chn rnd_chn rnd = Ret (n, b) /\
    STUN_VALID_CHANNEL n = true /\ (STUN_VALID_CHANNEL chn = true -> n = chn) /\
    mrepr b (SMsg (stun_make_request STUN_METHOD_CHANNEL_BIND) STUN_MAGIC_COOKIE rnd
               [(STUN_ATTRIBUTE_CHANNEL_NUMBER, to_be 2 n ++ [0; 0]); (STUN_ATTRIBUTE_XOR_PEER_ADDRESS, v)]) /\
    stun_addr_encode (Some peer) true STUN_MAGIC_COOKIE (Some rnd) = Some v /\ 0 < blen v.
Proof.
  intros B L Br Lr [W F] Hchn. unfold stun_set_channel_bind_request_str.
  set (n := if negb (STUN_VALID_CHANNEL chn) then _ else chn).
  assert (STUN_VALID_CHANNEL n = true /\ (STUN_VALID_CHANNEL chn = true -> n = chn)) as [Hn Hnc].
  { subst n. destruct (STUN_VALID_CHANNEL chn) eqn:V; cbn [negb]; [done|]. split; [|done].
    pose proof (Z.mod_pos_bound (u32 rnd_chn) (0x7FFF - 0x4000 + 1) ltac:(lia)).
    unfold STUN_VALID_CHANNEL. rewrite u16_small by lia.
    apply andb_true_iff. rewrite !Z.leb_le. lia. }
  clearbody n. destruct (init_request_refines STUN_METHOD_CHANNEL_BIND buf rnd) as (b0 & -> & R0 & L0 & D0);
    try done; try lia. mstep.
  assert (blen (to_be 2 n ++ [0; 0]) = 4) as L4 by done.
  destruct (add_step b0 _ STUN_ATTRIBUTE_CHANNEL_NUMBER (to_be 2 n ++ [0; 0]) R0) as (b1 & A1 & R1 & L1 & D1);
    rewrite ?L4; try (change (pad4 4) with 4); unfold MAX_STUN_MESSAGE_SIZE; auto with bytes; try done; try lia.
  rewrite L4 in A1, L1. change (pad4 4) with 4 in L1. unfold stun_attr_add_channel_number_str. rewrite A1. mstep.
  change (0 <? 0) with false. cbn iota.
  destruct (add_addr_refines b1 _ STUN_ATTRIBUTE_XOR_PEER_ADDRESS peer R1) as (v & b & E & Lv & A & R & _ & _);
    unfold MAX_STUN_MESSAGE_SIZE; try done; try lia. rewrite A. mstep. change (0 <? 0) with false. cbn iota.
  exists b, n, v. split_and!; (done || lia).
Qed.

(** ChannelBind requests round trip: whatever number the caller asks for,
    the request carries a channel number inside 0x4000-0x7FFF (the one asked
    for when it is valid), returns it, and reading the request gives back that
    number and the peer's address. *)
Theorem channel_bind_roundtrip buf peer chn rnd_chn rnd :
  bytes_ok buf -> 100 <= blen buf -> bytes_ok rnd -> length rnd = 12%nat -> addr_ok peer -> 0 <= chn < 2 ^ 16 ->
  exists b n peer', stun_set_channel_bind_request_str [] buf (Some peer) chn rnd_chn rnd = Ret (n, b) /\
    STUN_VALID_CHANNEL n = true /\ (STUN_VALID_CHANNEL chn = true -> n = chn) /\
    stun_is_request_str (Some (mdata b)) (mlen b) = Ret true /\
    stun_get_method_str (Some (mdata b)) (mlen b) = Ret STUN_METHOD_CHANNEL_BIND /\
    stun_attr_get_first_channel_number_str (mdata b) (mlen b) = Ret n /\
    stun_attr_get_first_addr_str [] (mdata b) (mlen b) STUN_ATTRIBUTE_XOR_PEER_ADDRESS None = Ret (Some peer') /\
    same_endpoint peer' peer.
Proof.
  intros B L Br Lr A Hchn. destruct (channel_bind_request_repr buf peer chn rnd_chn rnd B L Br Lr A Hchn)
    as (b & n & v & E & Hn & Hnc & R & Ev & Hv).
  destruct (get_first_addr_repr (mdata b) (mlen b) _ [(STUN_ATTRIBUTE_CHANNEL_NUMBER, to_be 2 n ++ [0; 0])] []
              STUN_ATTRIBUTE_XOR_PEER_ADDRESS v peer R) as (peer' & G & S); try done; [apply A|].
  exists b, n, peer'. do 3 (split; [done|]). split.
  { unfold stun_is_request_str. rewrite (repr_not_channel _ _ _ R). mstep. by rewrite (repr_msg_type _ _ _ R). }
  split; [by rewrite (repr_method _ _ _ R)|]. split; [|done].
  unfold stun_attr_get_first_channel_number_str. rewrite (attr_iter_search _ _ _ _ R).
  pose proof (repr_attrs _ _ _ R) as At. cbn [s_attrs search] in At |- *.
  rewrite (at_type _ _ _ _ _ _ _ R (Z.le_refl 20) At). mstep. rewrite Z.eqb_refl.
  rewrite (get_channel_at _ _ _ _ _ _ R (Z.le_refl 20) At Hn). mstep. by rewrite Hn.
Qed.

Lemma channel_bind_roundtrip_witness :
  exists b n peer', stun_set_channel_bind_request_str [] (zeros 100) (Some (ex_v4 192 0 2 9 3478)) 5 12345 (zeros 12)
                      = Ret (n, b) /\
    STUN_VALID_CHANNEL n = true /\ (STUN_VALID_CHANNEL 5 = true -> n = 5) /\
    stun_is_request_str (Some (mdata b)) (mlen b) = Ret true /\
    stun_get_method_str (Some (mdata b)) (mlen b) = Ret STUN_METHOD_CHANNEL_BIND /\
    stun_attr_get_first_channel_number_str (mdata b) (mlen b) = Ret n /\
    stun_attr_get_first_addr_str [] (mdata b) (mlen b) STUN_ATTRIBUTE_XOR_PEER_ADDRESS None = Ret (Some peer') /\
    same_endpoint peer' (ex_v4 192 0 2 9 3478).
Proof.
  apply channel_bind_roundtrip; try done; try (by apply bytes_okb_spec).
  split; [by apply addr_wfb_spec|by left].
Defined.

(** ADDRESS-ERROR-CODE does not survive its own reader: for every known
    error code the attribute that [stun_attr_add_address_error_code] appends
    carries the reason text, so it is longer than four bytes and
    [stun_attr_get_address_error_code] rejects it with -1. *)
Theorem address_error_code_lost b m family code :
  mrepr b m -> lookup_attr (s_attrs m) STUN_ATTRIBUTE_ADDRESS_ERROR_CODE = None -> code ∈ reasons.*1 ->
  mlen b + 520 < MAX_STUN_MESSAGE_SIZE -> mlen b + 520 <= blen (mdata b) ->
  exists b', stun_attr_add_address_error_code b family code = Ret (0, b') /\
    stun_attr_get_address_error_code (Some (mdata b')) (mlen b') = Ret (-1, 0, 0).
Proof.
  intros Hm Hn Hc Hmax Hcap.
  assert (nonzero_bytes (get_default_reason code) /\ 0 < blen (get_default_reason code) <= 508) as [Hr Hl].
  { assert (forallb (fun c => bytes_okb (get_default_reason c) &&
        forallb (fun x => negb (x =? 0)) (get_default_reason c) && (0 <? blen (get_default_reason c)) &&
        (blen (get_default_reason c) <=? 508)) (reasons.*1) = true) as H by (vm_compute; reflexivity).
    rewrite forallb_forall in H. specialize (H code ltac:(by apply list_elem_of_In)). bool_arith.
    split; [|lia]. split; [by apply bytes_okb_spec|]. apply Forall_forall. intros x Hx.
    rewrite forallb_forall in H2. apply list_elem_of_In, H2 in Hx. by bool_arith. }
  unfold stun_attr_add_address_error_code.
  destruct (add_error_value b m STUN_ATTRIBUTE_ADDRESS_ERROR_CODE (u8 family) code _ Hm ltac:(done)
              ltac:(unfold is_byte, u8; apply Z.mod_pos_bound; lia) Hr ltac:(lia) Hmax Hcap)
    as (av & alen & b' & -> & -> & R & _ & _). mstep.
  exists b'. split; [done|]. unfold stun_attr_get_address_error_code. pose proof (repr_len _ _ _ R).
  destruct (mlen b' =? 0) eqn:?; [bool_arith; lia|].
  pose proof (error_attr_length (u8 family) code (get_default_reason code) ltac:(lia)) as Le.
  destruct (pad4_spec (4 + blen (get_default_reason code))) as [? _]; [lia|].
  destruct (first_value _ _ _ STUN_ATTRIBUTE_ADDRESS_ERROR_CODE
              (error_attr (u8 family) code (get_default_reason code)) R) as (a & ra & Fa & _ & Va & La & _ & _).
  { cbn [s_attrs s_add]. by rewrite lookup_attr_app, Hn. } { lia. }
  rewrite Fa. mstep. rewrite Va. mstep. rewrite La. mstep.
  by destruct (_ =? 4) eqn:?; [bool_arith; lia|].
Qed.

Definition ex_big_mbuf : mbuf := MBuf (ex_msg ++ zeros 600) 28.

Lemma address_error_code_lost_witness :
  exists b', stun_attr_add_address_error_code ex_big_mbuf 2 440 = Ret (0, b') /\
    stun_attr_get_address_error_code (Some (mdata b')) (mlen b') = Ret (-1, 0, 0).
Proof.
  apply (address_error_code_lost ex_big_mbuf ex_smsg); try done.
  - constructor; try (by apply bytes_okb_spec); try done; split; done.
  - rewrite list_elem_of_In. simpl. tauto.
Defined.
