(* ===== verification/KeyMap.v ===== *)
(** Hash tables with buckets, generically: keys with a boolean equality that
    may be coarser than [=], association lists modulo that equality, tables of
    buckets indexed by a hash, and the interface [KVStore]/[KVLaws] that a map
    component promises to the components that keep their state in it. *)

From stdpp Require Import base option numbers list.
From S2P Require Import Prelude.

(** * Keys *)
Class HashKey (K : Type) : Type := {
  key_eqb : K -> K -> bool;
  key_hash : K -> nat }.

Class HashKeyLaws (K : Type) {HK : HashKey K} : Prop := {
  key_eqb_sym k k' : key_eqb k k' = key_eqb k' k;
  key_eqb_trans k1 k2 k3 : key_eqb k1 k2 = true -> key_eqb k2 k3 = true -> key_eqb k1 k3 = true;
  key_hash_proper k k' : key_eqb k k' = true -> key_hash k = key_hash k' }.
Arguments HashKeyLaws K {HK}.

(** A key that equals itself. *)
Definition key_ok {K} {HK : HashKey K} (k : K) : Prop := key_eqb k k = true.

(** * The interface of a key-value store

    [kv_abs] is the abstract content: a function from keys; the operations are
    the code's, with their outcome. *)
Class KVStore (K V S : Type) : Type := {
  kv_inv : S -> Prop;
  kv_value_ok : V -> Prop;
  kv_abs : S -> K -> option V;
  kv_get : S -> K -> outcome (option V);
  kv_put : S -> K -> V -> outcome S;
  kv_del : S -> K -> outcome S }.

Class KVLaws (K V S : Type) {HK : HashKey K} {KV : KVStore K V S} : Prop := {
  kv_get_ok s k : kv_inv s -> kv_get s k = Ret (kv_abs s k);
  kv_put_ok s k v : kv_inv s -> key_ok k -> kv_value_ok v ->
    exists s', kv_put s k v = Ret s' /\ kv_inv s' /\
      forall k', kv_abs s' k' = if key_eqb k k' then Some v else kv_abs s k';
  kv_del_ok s k : kv_inv s ->
    exists s', kv_del s k = Ret s' /\ kv_inv s' /\
      forall k', kv_abs s' k' = if key_eqb k k' then None else kv_abs s k' }.
Arguments KVLaws K V S {HK KV}.

(** Sequences of operations, on a store and on the abstract content. *)
Inductive kv_op (K V : Type) : Type :=
| OpPut (k : K) (v : V)
| OpDel (k : K).
Arguments OpPut {K V} k v.
Arguments OpDel {K V} k.

Section kv_sequences.
Context {K V S : Type} {HK : HashKey K} {KV : KVStore K V S}.

Definition kv_step (s : S) (o : kv_op K V) : outcome S :=
  match o with
  | OpPut k v => kv_put s k v
  | OpDel k => kv_del s k
  end.

Fixpoint kv_run (s : S) (ops : list (kv_op K V)) : outcome S :=
  match ops with
  | [] => Ret s
  | o :: r => s ← kv_step s o; kv_run s r
  end.

(** The last operation on a key decides. *)
Definition ref_step (g : K -> option V) (o : kv_op K V) : K -> option V :=
  fun k' => match o with
            | OpPut k v => if key_eqb k k' then Some v else g k'
            | OpDel k => if key_eqb k k' then None else g k'
            end.

Definition ref_run (g : K -> option V) (ops : list (kv_op K V)) : K -> option V := foldl ref_step g ops.

Definition op_ok (o : kv_op K V) : Prop :=
  match o with
  | OpPut k v => key_ok k /\ kv_value_ok v
  | OpDel _ => True
  end.

Lemma ref_run_ext g g' ops k : (forall k, g k = g' k) -> ref_run g ops k = ref_run g' ops k.
Proof.
  revert g g'. induction ops as [|o ops IH]; intros g g' E; simpl; [done|].
  apply IH. intros k'. destruct o; simpl; by rewrite E.
Qed.

Context {KL : KVLaws K V S}.

Lemma kv_step_ok s o :
  kv_inv s -> op_ok o ->
  exists s', kv_step s o = Ret s' /\ kv_inv s' /\ forall k, kv_abs s' k = ref_step (kv_abs s) o k.
Proof.
  intros Hs Ho. destruct o as [k v|k]; simpl in *.
  - destruct Ho. by apply kv_put_ok.
  - by apply kv_del_ok.
Qed.

(** Every sequence of operations on a store that keeps the laws has the effect
    of the same sequence on the abstract content. *)
Lemma kv_run_refines s ops :
  kv_inv s -> Forall op_ok ops ->
  exists s', kv_run s ops = Ret s' /\ kv_inv s' /\ forall k, kv_abs s' k = ref_run (kv_abs s) ops k.
Proof.
  intros Hs Hops. revert s Hs. induction Hops as [|o ops Ho Hops IH]; intros s Hs; simpl; [by exists s|].
  destruct (kv_step_ok s o Hs Ho) as (s1 & -> & H1 & A1). mstep.
  destruct (IH s1 H1) as (s2 & -> & H2 & A2). exists s2. split; [done|]. split; [done|].
  intros k. rewrite A2. by apply ref_run_ext.
Qed.
End kv_sequences.

(** * Association lists modulo key equality *)
Section alist.
Context {K V : Type} {HK : HashKey K}.
Implicit Types (l : list (K * V)) (k : K).

Fixpoint find_key k l : option V :=
  match l with
  | [] => None
  | (k', v) :: r => if key_eqb k' k then Some v else find_key k r
  end.

Fixpoint update_first k (v : V) l : list (K * V) :=
  match l with
  | [] => []
  | (k', v') :: r => if key_eqb k' k then (k', v) :: r else (k', v') :: update_first k v r
  end.

Definition remove_key k l : list (K * V) := filter (fun e => key_eqb e.1 k = false) l.

Fixpoint uniq l : Prop :=
  match l with
  | [] => True
  | (k, _) :: r => Forall (fun e => key_eqb e.1 k = false) r /\ uniq r
  end.

Lemma update_first_keys k v l : (update_first k v l).*1 = l.*1.
Proof. induction l as [|[k' v'] l IH]; simpl; [done|]. destruct (key_eqb k' k); csimpl; by rewrite ?IH. Qed.

Lemma Forall_keys (P : K -> Prop) l l' :
  l.*1 = l'.*1 -> Forall (fun e => P e.1) l -> Forall (fun e => P e.1) l'.
Proof.
  intros E F. revert l' E. induction F as [|[k v] l Hk F IH]; intros [|[k2 v2] l'] E; try done.
  injection E as -> E. constructor; [done|by apply IH].
Qed.

Lemma uniq_keys l l' : l.*1 = l'.*1 -> uniq l -> uniq l'.
Proof.
  revert l'. induction l as [|[k v] l IH]; intros [|[k' v'] l'] E; try done.
  injection E as -> E. intros [F U]. split; [|by apply IH].
  by apply (Forall_keys (fun x => key_eqb x k' = false) l).
Qed.

Context {HL : HashKeyLaws K}.

Lemma key_eqb_cong k1 k2 k : key_eqb k1 k2 = true -> key_eqb k1 k = key_eqb k2 k.
Proof.
  intros E. apply eq_true_iff_eq. split; intros H.
  - eapply key_eqb_trans; [|exact H]. by rewrite key_eqb_sym.
  - by eapply key_eqb_trans.
Qed.

Lemma find_key_cong k1 k2 l : key_eqb k1 k2 = true -> find_key k1 l = find_key k2 l.
Proof.
  intros E. induction l as [|[k v] l IH]; simpl; [done|].
  by rewrite (key_eqb_sym k k1), (key_eqb_sym k k2), (key_eqb_cong k1 k2 k E), IH.
Qed.

#[export] Instance uniq_perm : Proper ((≡ₚ) ==> iff) uniq.
Proof.
  assert (forall l l', l ≡ₚ l' -> uniq l -> uniq l') as H.
  { induction 1 as [|[k v] l l' P IH|[k v] [k' v'] l|l l' l'' P1 IH1 P2 IH2]; simpl; try tauto.
    - intros [F U]. split; [by rewrite <- P|auto].
    - intros [F [F' U]]. inversion_clear F as [|? ? E F2]. simpl in E.
      split; [constructor; [simpl; by rewrite key_eqb_sym|done]|]. done. }
  intros l l' P. split; [by apply H|by apply H; symmetry].
Qed.

Lemma find_key_none k l : find_key k l = None <-> Forall (fun e => key_eqb e.1 k = false) l.
Proof.
  induction l as [|[k' v] l IH]; simpl; [by split|]. rewrite Forall_cons, <- IH. simpl.
  destruct (key_eqb k' k); split; try tauto; [done|by intros [? _]].
Qed.

Lemma find_key_some k l v :
  uniq l -> find_key k l = Some v <-> exists k', (k', v) ∈ l /\ key_eqb k' k = true.
Proof.
  induction l as [|[k' v'] l IH]; simpl; intros U.
  - split; [done|]. by intros (? & H%not_elem_of_nil & _).
  - destruct U as [F U]. destruct (key_eqb k' k) eqn:E.
    + split.
      * intros [= <-]. exists k'. split; [left|done].
      * intros (k2 & H & E2). apply elem_of_cons in H as [[= -> ->]|H]; [done|].
        rewrite Forall_forall in F. specialize (F _ H). simpl in F.
        rewrite key_eqb_sym, (key_eqb_cong k' k) in F by done. rewrite key_eqb_sym in F. congruence.
    + rewrite IH by done. split; intros (k2 & H & E2); exists k2; split; try done; [by right|].
      apply elem_of_cons in H as [[= -> ->]|H]; [congruence|done].
Qed.

Lemma find_key_perm k l l' : uniq l -> l ≡ₚ l' -> find_key k l = find_key k l'.
Proof.
  intros U P. assert (uniq l') as U' by (by rewrite <- P). apply option_eq. intros v.
  rewrite !find_key_some by done. by setoid_rewrite P.
Qed.

Lemma find_key_update k v k' l :
  find_key k' (update_first k v l) =
  match find_key k l with
  | Some _ => if key_eqb k k' then Some v else find_key k' l
  | None => find_key k' l
  end.
Proof.
  induction l as [|[k2 v2] l IH]; simpl; [done|]. destruct (key_eqb k2 k) eqn:E; simpl.
  - rewrite <- (key_eqb_cong k2 k) by done. by destruct (key_eqb k2 k').
  - rewrite IH. destruct (find_key k l); destruct (key_eqb k2 k') eqn:E2; try done.
    destruct (key_eqb k k') eqn:E3; [|done]. rewrite (key_eqb_sym k) in E3.
    rewrite key_eqb_sym in E2. assert (key_eqb k2 k = true); [|congruence].
    rewrite key_eqb_sym in E2. by eapply key_eqb_trans.
Qed.

Lemma find_key_remove k k' l :
  find_key k' (remove_key k l) = if key_eqb k k' then None else find_key k' l.
Proof.
  unfold remove_key. induction l as [|[k2 v2] l IH]; [by destruct (key_eqb k k')|].
  rewrite filter_cons. simpl. destruct (decide _) as [E|E]; simpl; rewrite IH.
  - destruct (key_eqb k2 k') eqn:E2; [|done]. destruct (key_eqb k k') eqn:E3; [|done].
    rewrite (key_eqb_sym k) in E3. assert (key_eqb k2 k = true); [by eapply key_eqb_trans|congruence].
  - apply not_false_is_true in E. destruct (key_eqb k k') eqn:E3; [done|].
    rewrite (key_eqb_cong k2 k), E3 by done. done.
Qed.

Lemma uniq_remove k l : uniq l -> uniq (remove_key k l).
Proof.
  unfold remove_key. induction l as [|[k2 v2] l IH]; simpl; [done|]. intros [F U].
  rewrite filter_cons. destruct (decide _) as [_|_]; simpl; [|by apply IH]. split; [|by apply IH].
  rewrite Forall_forall in F |- *. intros e [_ He]%list_elem_of_filter. by apply F.
Qed.
End alist.

(** * Tables of buckets *)
Section table.
Context {K V B : Type} {HK : HashKey K} {HL : HashKeyLaws K} (elems : B -> list (K * V)) (size : nat).
Implicit Types (t : list B) (b : B) (k : K).

Definition tget t k : option V :=
  match t !! key_hash k with
  | Some b => find_key k (elems b)
  | None => None
  end.

(** No key twice, every key in the bucket its hash selects. *)
Definition bucket_wf (i : nat) b : Prop :=
  uniq (elems b) /\ Forall (fun e => key_hash e.1 = i) (elems b).

Definition twf t : Prop :=
  length t = size /\ forall i b, t !! i = Some b -> bucket_wf i b.

Lemma twf_insert t i b : twf t -> bucket_wf i b -> twf (<[i:=b]> t).
Proof.
  intros [L W] Hb. split; [by rewrite length_insert|]. intros j b' Hj.
  destruct (decide (i = j)) as [->|N].
  - destruct (decide (j < length t)%nat).
    + rewrite list_lookup_insert_eq in Hj by done. by injection Hj as <-.
    + rewrite list_insert_ge in Hj by lia. by apply W.
  - rewrite list_lookup_insert_ne in Hj by done. by apply W.
Qed.

Lemma tget_insert t b b0 k k' :
  t !! key_hash k = Some b0 ->
  tget (<[key_hash k:=b]> t) k' =
  if decide (key_hash k = key_hash k') then find_key k' (elems b) else tget t k'.
Proof.
  intros Hb. unfold tget. destruct (decide _) as [E|N].
  - rewrite <- E, list_lookup_insert_eq; [done|]. by eapply lookup_lt_Some.
  - by rewrite list_lookup_insert_ne.
Qed.

(** In the selected bucket the table and the bucket agree. *)
Lemma tget_bucket t b k k' :
  t !! key_hash k = Some b -> key_hash k = key_hash k' -> tget t k' = find_key k' (elems b).
Proof. intros Hb E. unfold tget. by rewrite <- E, Hb. Qed.

(** A new entry under a key the table does not have. *)
Lemma table_add t b b' k v :
  twf t -> t !! key_hash k = Some b -> find_key k (elems b) = None ->
  elems b' ≡ₚ (k, v) :: elems b ->
  twf (<[key_hash k:=b']> t) /\
  forall k', tget (<[key_hash k:=b']> t) k' = if key_eqb k k' then Some v else tget t k'.
Proof.
  intros W Hb Hn P. destruct (proj2 W _ _ Hb) as [U F].
  assert (uniq ((k, v) :: elems b)) as U' by (split; [by apply find_key_none|done]).
  split.
  - apply twf_insert; [done|]. split; [by rewrite P|]. rewrite P. by constructor.
  - intros k'. rewrite (tget_insert _ _ _ _ _ Hb). destruct (decide _) as [E|N].
    + rewrite (tget_bucket _ _ _ _ Hb E). rewrite <- (find_key_perm k' _ _ U') by done. done.
    + destruct (key_eqb k k') eqn:E; [|done]. by apply key_hash_proper in E.
Qed.

(** A new value for a key the table has. *)
Lemma table_update t b b' k v :
  twf t -> t !! key_hash k = Some b -> find_key k (elems b) <> None ->
  elems b' = update_first k v (elems b) ->
  twf (<[key_hash k:=b']> t) /\
  forall k', tget (<[key_hash k:=b']> t) k' = if key_eqb k k' then Some v else tget t k'.
Proof.
  intros W Hb Hn E. destruct (proj2 W _ _ Hb) as [U F]. split.
  - apply twf_insert; [done|]. split; rewrite E.
    + eapply uniq_keys; [|exact U]. symmetry. apply update_first_keys.
    + eapply (Forall_keys (fun x => key_hash x = key_hash k)); [|exact F].
      symmetry. apply update_first_keys.
  - intros k'. rewrite (tget_insert _ _ _ _ _ Hb). destruct (decide _) as [Eh|N].
    + rewrite (tget_bucket _ _ _ _ Hb Eh), E, find_key_update.
      by destruct (find_key k (elems b)).
    + destruct (key_eqb k k') eqn:Ek; [|done]. by apply key_hash_proper in Ek.
Qed.

(** Removal of a key. *)
Lemma table_remove t b b' k :
  twf t -> t !! key_hash k = Some b -> elems b' = remove_key k (elems b) ->
  twf (<[key_hash k:=b']> t) /\
  forall k', tget (<[key_hash k:=b']> t) k' = if key_eqb k k' then None else tget t k'.
Proof.
  intros W Hb E. destruct (proj2 W _ _ Hb) as [U F]. split.
  - apply twf_insert; [done|]. split; rewrite E; [by apply uniq_remove|].
    unfold remove_key. rewrite Forall_forall in F |- *. intros e [_ He]%list_elem_of_filter. by apply F.
  - intros k'. rewrite (tget_insert _ _ _ _ _ Hb). destruct (decide _) as [Eh|N].
    + by rewrite (tget_bucket _ _ _ _ Hb Eh), E, find_key_remove.
    + destruct (key_eqb k k') eqn:Ek; [|done]. by apply key_hash_proper in Ek.
Qed.

Lemma twf_empty b0 : elems b0 = [] -> twf (replicate size b0).
Proof.
  intros E. split; [by rewrite length_replicate|]. intros i b [-> _]%lookup_replicate.
  split; by rewrite E.
Qed.

Lemma tget_empty b0 k : elems b0 = [] -> tget (replicate size b0) k = None.
Proof.
  intros E. unfold tget. destruct (replicate size b0 !! key_hash k) as [b|] eqn:H; [|done].
  apply lookup_replicate in H as [-> _]. by rewrite E.
Qed.
End table.

(** * Slots

    A bucket keeps its entries in slots that may be free; the entries are the
    slots in use, in order. *)
Section slots.
Context {A : Type} (used : A -> bool).

Definition live (l : list A) : list A := filter (fun x => used x = true) l.

(** Put [x] into the first free slot; [None] when there is none. *)
Fixpoint fill_free (x : A) (l : list A) : option (list A) :=
  match l with
  | [] => None
  | y :: r => if used y then (y ::.) <$> fill_free x r else Some (x :: r)
  end.

Lemma live_cons x l : live (x :: l) = if used x then x :: live l else live l.
Proof. unfold live. rewrite filter_cons. destruct (decide _) as [->|H]; [done|]. by destruct (used x). Qed.

Lemma live_app l l' : live (l ++ l') = live l ++ live l'.
Proof. apply filter_app. Qed.

Lemma fill_free_live x l l' : used x = true -> fill_free x l = Some l' -> live l' ≡ₚ x :: live l.
Proof.
  intros Hx. unfold live. revert l'. induction l as [|y l IH]; intros l'; simpl; [done|].
  rewrite !filter_cons. destruct (used y) eqn:E.
  - destruct (fill_free x l) as [l2|]; [|done]. intros [= <-].
    rewrite filter_cons, E, (decide_True (P := true = true)) by done. rewrite IH by done. constructor.
  - intros [= <-]. by rewrite filter_cons, Hx, decide_True by done.
Qed.

Lemma fill_free_length x l l' : fill_free x l = Some l' -> length l' = length l.
Proof.
  revert l'. induction l as [|y l IH]; intros l'; simpl; [done|]. destruct (used y).
  - destruct (fill_free x l) as [l2|]; [|done]. intros [= <-]. simpl. by rewrite (IH l2).
  - by intros [= <-].
Qed.
End slots.
