(* ===== verification/TurnMaps.v ===== *)
(** Maps of the server: src/coturn/src/server/ns_turn_maps.c and .h, the
    "local" map from 64-bit keys ([lm_map]), the map from addresses
    ([ur_addr_map]) and the map from strings ([ur_string_map]).

    An array of the C structure is a list; the separately allocated extra cells
    of a bucket are a second list, empty for a NULL array (the code never
    stores a NULL cell into it).  An element pointer into a bucket is the
    element's place.  A callback that frees values is modelled by the list of
    the values it is called with.  Allocation does not fail; the mutexes are
    not modelled. *)

From stdpp Require Import base option numbers list strings.
From S2P Require Import Prelude IoAddr KeyMap.

Definition MAGIC_HASH : Z := 0x90ABCDEF.

(** [t[i]] of an array. *)
Definition at_index {A} (t : list A) (i : nat) : outcome A :=
  match t !! i with Some b => Ret b | None => UB end.

(** * Local maps *)
Definition LM_MAP_HASH_SIZE : nat := 8.
Definition LM_MAP_ARRAY_SIZE : nat := 3.

(** [main_keys[i]] and [main_values[i]], [*extra_keys[i]] and
    [*extra_values[i]] as pairs. *)
Record lm_map_array : Type := LmMapArray { lm_main : list (Z * Z); lm_extra : list (Z * Z) }.
Abbreviation lm_map := (list lm_map_array).

Definition lm_map_init : lm_map :=
  replicate LM_MAP_HASH_SIZE (LmMapArray (replicate LM_MAP_ARRAY_SIZE (0, 0)) []).

Definition lm_index (key : Z) : nat := Z.to_nat (Z.land key (Z.of_nat LM_MAP_HASH_SIZE - 1)).

(** The loop over the main cells: [Some (r, cells)] when it returns [r]. *)
Fixpoint lm_put_main (key value : Z) (cells : list (Z * Z)) : option (Z * list (Z * Z)) :=
  match cells with
  | [] => None
  | (key0, value0) :: r =>
      if key0 =? key then Some (if value0 =? value then 0 else -1, cells)
      else if (key0 =? 0) || (value0 =? 0) then Some (0, (key, value) :: r)
      else match lm_put_main key value r with
           | Some (x, r') => Some (x, (key0, value0) :: r')
           | None => None
           end
  end.

(** The loop over the extra cells. *)
Fixpoint lm_put_extra (key value : Z) (cells : list (Z * Z)) : option (list (Z * Z)) :=
  match cells with
  | [] => None
  | (key0, value0) :: r =>
      if (key0 =? 0) || (value0 =? 0) then Some ((key, value) :: r)
      else match lm_put_extra key value r with
           | Some r' => Some ((key0, value0) :: r')
           | None => None
           end
  end.

Definition lm_map_put (map : lm_map) (key value : Z) : outcome (Z * lm_map) :=
  if truthy key && truthy value then
    let index := lm_index key in
    a ← at_index map index;
    match lm_put_main key value (lm_main a) with
    | Some (r, cells) => Ret (r, <[index := LmMapArray cells (lm_extra a)]> map)
    | None =>
        let extra := match lm_put_extra key value (lm_extra a) with
                     | Some cells => cells
                     | None => lm_extra a ++ [(key, value)]
                     end in
        Ret (0, <[index := LmMapArray (lm_main a) extra]> map)
    end
  else Ret (-1, map).

(** In the main cells a value of zero is passed over, in the extra cells it
    is not. *)
Fixpoint lm_get_main (key : Z) (cells : list (Z * Z)) : option Z :=
  match cells with
  | [] => None
  | (key0, value0) :: r =>
      if (key0 =? key) && truthy value0 then Some value0 else lm_get_main key r
  end.

Fixpoint lm_get_extra (key : Z) (cells : list (Z * Z)) : option Z :=
  match cells with
  | [] => None
  | (key0, value0) :: r => if key0 =? key then Some value0 else lm_get_extra key r
  end.

(** [Some v] for the result 1 with [*value = v]. *)
Definition lm_map_get (map : lm_map) (key : Z) : outcome (option Z) :=
  if truthy key then
    a ← at_index map (lm_index key);
    match lm_get_main key (lm_main a) with
    | Some v => Ret (Some v)
    | None => Ret (lm_get_extra key (lm_extra a))
    end
  else Ret None.

Fixpoint lm_del_main (key : Z) (cells : list (Z * Z)) : option (Z * list (Z * Z)) :=
  match cells with
  | [] => None
  | (key0, value0) :: r =>
      if (key0 =? key) && truthy value0 then Some (value0, (0, 0) :: r)
      else match lm_del_main key r with
           | Some (v, r') => Some (v, (key0, value0) :: r')
           | None => None
           end
  end.

Fixpoint lm_del_extra (key : Z) (cells : list (Z * Z)) : option (Z * list (Z * Z)) :=
  match cells with
  | [] => None
  | (key0, value0) :: r =>
      if key0 =? key then Some (value0, (0, 0) :: r)
      else match lm_del_extra key r with
           | Some (v, r') => Some (v, (key0, value0) :: r')
           | None => None
           end
  end.

(** The result, the map and the values [delfunc] is called with. *)
Definition lm_map_del (map : lm_map) (key : Z) : outcome (Z * lm_map * list Z) :=
  if truthy key then
    let index := lm_index key in
    a ← at_index map index;
    match lm_del_main key (lm_main a) with
    | Some (v, cells) => Ret (1, <[index := LmMapArray cells (lm_extra a)]> map, [v])
    | None =>
        match lm_del_extra key (lm_extra a) with
        | Some (v, cells) => Ret (1, <[index := LmMapArray (lm_main a) cells]> map, [v])
        | None => Ret (0, map, [])
        end
    end
  else Ret (0, map, []).

Definition lm_map_exist (map : lm_map) (key : Z) : outcome bool :=
  v ← lm_map_get map key;
  Ret (bool_decide (is_Some v)).

(** Freeing the extra cells and clearing everything. *)
Definition lm_map_clean (map : lm_map) : lm_map := lm_map_init.

Definition lm_used (c : Z * Z) : bool := truthy c.1 && truthy c.2.

Definition lm_map_size (map : lm_map) : Z :=
  foldl (fun ret a => ret + blen (live lm_used (lm_main a)) + blen (live lm_used (lm_extra a))) 0 map.

(** The loop calls [func] on the used cells and stops when it answers
    non-zero; the result and the cells it was called with. *)
Fixpoint foreach_until (func : Z -> Z -> bool) (cells : list (Z * Z)) : bool * list (Z * Z) :=
  match cells with
  | [] => (false, [])
  | c :: r =>
      if func c.1 c.2 then (true, [c])
      else let '(b, l) := foreach_until func r in (b, c :: l)
  end.

Definition lm_cells (a : lm_map_array) : list (Z * Z) := live lm_used (lm_main a) ++ live lm_used (lm_extra a).

Definition lm_map_foreach (map : lm_map) (func : Z -> Z -> bool) : bool * list (Z * Z) :=
  foreach_until func (concat (lm_cells <$> map)).

Definition lm_map_foreach_arg {A} (map : lm_map) (func : Z -> Z -> A -> bool) (arg : A) : bool * list (Z * Z) :=
  foreach_until (fun k v => func k v arg) (concat (lm_cells <$> map)).

(** * Address lists *)
Definition ADDR_MAP_SIZE : nat := 1024.
Definition ADDR_ARRAY_SIZE : nat := 4.

Abbreviation addr_elem := (ioa_addr * Z)%type.
Record addr_list_header : Type := AddrListHeader { main_list : list addr_elem; extra_list : list addr_elem }.

Definition elem_used (e : addr_elem) : bool := truthy e.2.

Definition addr_list_free : addr_list_header :=
  AddrListHeader (replicate ADDR_ARRAY_SIZE (addr_zero, 0)) [].

Definition addr_list_add (slh : addr_list_header) (key : ioa_addr) (value : Z) : addr_list_header :=
  if negb (truthy value) then slh
  else
    match fill_free elem_used (key, value) (main_list slh) with
    | Some l => AddrListHeader l (extra_list slh)
    | None =>
        match fill_free elem_used (key, value) (extra_list slh) with
        | Some l => AddrListHeader (main_list slh) l
        | None => AddrListHeader (main_list slh) (extra_list slh ++ [(key, value)])
        end
    end.

(** Does the slot hold the key? *)
Definition elem_matches (key : ioa_addr) (e : addr_elem) : bool :=
  elem_used e && addr_eq (Some e.1) (Some key).

(** One loop: the values of the matching slots are cleared; the list, the
    values given to [delfunc]. *)
Fixpoint remove_slots (key : ioa_addr) (l : list addr_elem) : list addr_elem * list Z :=
  match l with
  | [] => ([], [])
  | e :: r =>
      let '(r', freed) := remove_slots key r in
      if elem_matches key e then ((e.1, 0) :: r', e.2 :: freed) else (e :: r', freed)
  end.

(** The list, the values given to [delfunc]; [*counter] is their number. *)
Definition addr_list_remove (slh : addr_list_header) (key : ioa_addr) : addr_list_header * list Z :=
  let '(m, f1) := remove_slots key (main_list slh) in
  let '(e, f2) := remove_slots key (extra_list slh) in
  (AddrListHeader m e, f1 ++ f2).

(** The values [func] is called with. *)
Definition addr_list_foreach (slh : addr_list_header) : list Z :=
  (live elem_used (main_list slh)).*2 ++ (live elem_used (extra_list slh)).*2.

Definition addr_list_num_elements (slh : addr_list_header) : Z :=
  blen (live elem_used (main_list slh)) + blen (live elem_used (extra_list slh)).

Definition addr_list_size (slh : addr_list_header) : Z :=
  Z.of_nat ADDR_ARRAY_SIZE + blen (extra_list slh).

(** A pointer to an element of a list header. *)
Inductive elem_ref : Type := InMain (i : nat) | InExtra (i : nat).

Definition addr_list_get (slh : addr_list_header) (key : ioa_addr) : option elem_ref :=
  match list_find (fun e => elem_matches key e = true) (main_list slh) with
  | Some (i, _) => Some (InMain i)
  | None =>
      match list_find (fun e => elem_matches key e = true) (extra_list slh) with
      | Some (i, _) => Some (InExtra i)
      | None => None
      end
  end.

Definition addr_list_get_const : addr_list_header -> ioa_addr -> option elem_ref := addr_list_get.

(** [elem->value] and [elem->value = v]. *)
Definition elem_value (slh : addr_list_header) (r : elem_ref) : outcome Z :=
  match r with
  | InMain i => e ← at_index (main_list slh) i; Ret e.2
  | InExtra i => e ← at_index (extra_list slh) i; Ret e.2
  end.

Definition set_elem_value (slh : addr_list_header) (r : elem_ref) (v : Z) : addr_list_header :=
  match r with
  | InMain i => AddrListHeader (alter (fun e => (e.1, v)) i (main_list slh)) (extra_list slh)
  | InExtra i => AddrListHeader (main_list slh) (alter (fun e => (e.1, v)) i (extra_list slh))
  end.

(** * Address maps *)
Record ur_addr_map : Type := UrAddrMap { addr_lists : list addr_list_header; addr_magic : Z }.

Definition addr_map_index (key : ioa_addr) : nat :=
  Z.to_nat (Z.land (addr_hash (Some key)) (Z.of_nat ADDR_MAP_SIZE - 1)).

Definition ur_addr_map_valid (map : ur_addr_map) : bool := addr_magic map =? MAGIC_HASH.

Definition ur_addr_map_init : ur_addr_map :=
  UrAddrMap (replicate ADDR_MAP_SIZE addr_list_free) MAGIC_HASH.

Definition ur_addr_map_clean (map : ur_addr_map) : ur_addr_map :=
  if ur_addr_map_valid map then UrAddrMap (replicate ADDR_MAP_SIZE addr_list_free) 0 else map.

Definition ur_addr_map_put (map : ur_addr_map) (key : ioa_addr) (value : Z) : outcome (Z * ur_addr_map) :=
  if negb (ur_addr_map_valid map) then Ret (-1, map)
  else
    let i := addr_map_index key in
    slh ← at_index (addr_lists map) i;
    let slh := match addr_list_get slh key with
               | Some elem => set_elem_value slh elem value
               | None => addr_list_add slh key value
               end in
    Ret (0, UrAddrMap (<[i := slh]> (addr_lists map)) (addr_magic map)).

Definition ur_addr_map_get (map : ur_addr_map) (key : ioa_addr) : outcome (option Z) :=
  if negb (ur_addr_map_valid map) then Ret None
  else
    slh ← at_index (addr_lists map) (addr_map_index key);
    match addr_list_get_const slh key with
    | Some elem => v ← elem_value slh elem; Ret (Some v)
    | None => Ret None
    end.

Definition ur_addr_map_del (map : ur_addr_map) (key : ioa_addr) : outcome (bool * ur_addr_map * list Z) :=
  if negb (ur_addr_map_valid map) then Ret (false, map, [])
  else
    let i := addr_map_index key in
    slh ← at_index (addr_lists map) i;
    let '(slh, freed) := addr_list_remove slh key in
    let counter := blen freed in
    Ret (counter >? 0, UrAddrMap (<[i := slh]> (addr_lists map)) (addr_magic map), freed).

Definition ur_addr_map_foreach (map : ur_addr_map) : list Z :=
  if ur_addr_map_valid map then concat (addr_list_foreach <$> addr_lists map) else [].

Definition ur_addr_map_num_elements (map : ur_addr_map) : Z :=
  if ur_addr_map_valid map
  then foldl (fun ret slh => ret + addr_list_num_elements slh) 0 (addr_lists map) else 0.

Definition ur_addr_map_size (map : ur_addr_map) : Z :=
  if ur_addr_map_valid map
  then foldl (fun ret slh => ret + addr_list_size slh) 0 (addr_lists map) else 0.

(** * String lists and maps

    A list of elements is linked through [next]: a Rocq list, the head first.
    Keys are C strings; values are pointers, 0 for NULL. *)
Definition STRING_MAP_SIZE : nat := 1024.

Abbreviation string_elem := (list Z * Z)%type.
Abbreviation string_list := (list string_elem).

Definition string_list_size (sl : string_list) : Z := blen sl.

(** The values given to [del_value_func]. *)
Definition string_list_free (sl : string_list) : string_list * list Z :=
  ([], filter (fun v => truthy v = true) sl.*2).

Definition string_list_add (sl : string_list) (key : list Z) (value : Z) : string_list :=
  (cstr key, value) :: sl.

Fixpoint string_list_remove (sl : string_list) (key : list Z) : string_list * list Z :=
  match sl with
  | [] => ([], [])
  | elem :: tail =>
      let '(tail', freed) := string_list_remove tail key in
      if strcmp elem.1 key =? 0 then (tail', elem.2 :: freed) else (elem :: tail', freed)
  end.

(** The place of the element found. *)
Fixpoint string_list_get (sl : string_list) (key : list Z) : option nat :=
  match sl with
  | [] => None
  | elem :: tail => if strcmp elem.1 key =? 0 then Some 0%nat else S <$> string_list_get tail key
  end.

Record ur_string_map : Type := UrStringMap { string_lists : list string_list; string_magic : Z }.

Fixpoint string_hash_loop (hash : Z) (s : list Z) : Z :=
  match s with
  | [] => hash
  | c :: r => string_hash_loop (u32 (c + u32 (Z.shiftl hash 6) + u32 (Z.shiftl hash 16) - hash)) r
  end.
Definition string_hash (key : list Z) : Z := string_hash_loop 0 (cstr key).

Definition string_map_index (key : list Z) : nat := Z.to_nat (string_hash key mod Z.of_nat STRING_MAP_SIZE).

Definition ur_string_map_valid (map : ur_string_map) : bool := string_magic map =? MAGIC_HASH.

Definition ur_string_map_init : ur_string_map := UrStringMap (replicate STRING_MAP_SIZE []) MAGIC_HASH.
Definition ur_string_map_create : ur_string_map := ur_string_map_init.

(** The result, the map and the values given to [del_value_func]. *)
Definition ur_string_map_put (map : ur_string_map) (key : list Z) (value : Z) :
    outcome (Z * ur_string_map * list Z) :=
  if negb (ur_string_map_valid map) then Ret (-1, map, [])
  else
    let i := string_map_index key in
    list ← at_index (string_lists map) i;
    match string_list_get list key with
    | Some elem =>
        e ← at_index list elem;
        if negb (e.2 =? value) then
          Ret (0, UrStringMap (<[i := <[elem := (e.1, value)]> list]> (string_lists map)) (string_magic map), [e.2])
        else Ret (0, map, [])
    | None =>
        Ret (0, UrStringMap (<[i := string_list_add list key value]> (string_lists map)) (string_magic map), [])
    end.

Definition ur_string_map_get (map : ur_string_map) (key : list Z) : outcome (option Z) :=
  if negb (ur_string_map_valid map) then Ret None
  else
    list ← at_index (string_lists map) (string_map_index key);
    match string_list_get list key with
    | Some elem => e ← at_index list elem; Ret (Some e.2)
    | None => Ret None
    end.

Definition ur_string_map_del (map : ur_string_map) (key : list Z) : outcome (bool * ur_string_map * list Z) :=
  if negb (ur_string_map_valid map) then Ret (false, map, [])
  else
    let i := string_map_index key in
    list ← at_index (string_lists map) i;
    let '(list, freed) := string_list_remove list key in
    let counter := blen freed in
    Ret (counter >? 0, UrStringMap (<[i := list]> (string_lists map)) (string_magic map), freed).

Definition ur_string_map_clean (map : ur_string_map) : ur_string_map * list Z :=
  if ur_string_map_valid map then
    (UrStringMap ((fun l => (string_list_free l).1) <$> string_lists map) (string_magic map),
     concat ((fun l => (string_list_free l).2) <$> string_lists map))
  else (map, []).

Definition ur_string_map_size (map : ur_string_map) : Z :=
  if ur_string_map_valid map then foldl (fun ret l => ret + string_list_size l) 0 (string_lists map) else 0.
