(* ===== verification/Base64.v ===== *)
(** Base 64 (apps/common/apputils.c): [base64_encode], [base64_decode] and its
    table; the passwords of the REST interface and the stored OAuth keys are in
    this form.  The theorem is the round trip. *)

From stdpp Require Import base option numbers list.
From S2P Require Import Prelude.
From S2P Require Import IoAddr.
From S2P Require Import TurnMaps.

(** * The code *)
Definition encoding_table : list Z :=
  [65; 66; 67; 68; 69; 70; 71; 72; 73; 74; 75; 76; 77; 78; 79; 80; 81; 82; 83; 84; 85; 86; 87; 88; 89; 90;
   97; 98; 99; 100; 101; 102; 103; 104; 105; 106; 107; 108; 109; 110; 111; 112; 113; 114; 115; 116; 117; 118; 119; 120; 121; 122;
   48; 49; 50; 51; 52; 53; 54; 55; 56; 57; 43; 47].

Definition mod_table : list Z := [0; 2; 1].

Definition EQUALS : Z := 61.

(** [i < input_length ? data[i++] : 0] *)
Definition octet (data : list Z) (input_length i : Z) : outcome (Z * Z) :=
  if i <? input_length then b ← rd8 data i; Ret (b, i + 1) else Ret (0, i).

Definition encoded_at (triple shift : Z) : outcome Z :=
  at_index encoding_table (Z.to_nat (Z.land (triple ≫ shift) 0x3F)).

Fixpoint encode_loop (fuel : nat) (data : list Z) (input_length : Z) (encoded_data : list Z) (i j : Z) : outcome (list Z) :=
  if i <? input_length then
    match fuel with
    | O => NoFuel
    | S fuel =>
        '(octet_a, i) ← octet data input_length i;
        '(octet_b, i) ← octet data input_length i;
        '(octet_c, i) ← octet data input_length i;
        let triple := u32 (u32 (octet_a ≪ 0x10) + u32 (octet_b ≪ 0x08) + octet_c) in
        c0 ← encoded_at triple 18;
        c1 ← encoded_at triple 12;
        c2 ← encoded_at triple 6;
        c3 ← encoded_at triple 0;
        encoded_data ← wr_bytes encoded_data j [c0; c1; c2; c3];
        encode_loop fuel data input_length encoded_data i (j + 4)
    end
  else Ret encoded_data.

Fixpoint pad_loop (n : nat) (encoded_data : list Z) (output_length i : Z) : outcome (list Z) :=
  match n with
  | O => Ret encoded_data
  | S n => encoded_data ← wr_bytes encoded_data (output_length - 1 - i) [EQUALS]; pad_loop n encoded_data output_length (i + 1)
  end.

(** The array, with its terminating zero, and its length without it. *)
Definition base64_encode (data : list Z) (input_length : Z) : outcome (list Z * Z) :=
  let output_length := 4 * ((input_length + 2) / 3) in
  encoded_data ← encode_loop (Z.to_nat input_length) data input_length (zeros (Z.to_nat (output_length + 1))) 0 0;
  n ← at_index mod_table (Z.to_nat (input_length mod 3));
  encoded_data ← pad_loop (Z.to_nat n) encoded_data output_length 0;
  encoded_data ← wr_bytes encoded_data output_length [0];
  Ret (encoded_data, output_length).

Fixpoint fill_table (table codes : list Z) (i : Z) : list Z :=
  match codes with
  | [] => table
  | c :: r => fill_table (<[Z.to_nat c := i]> table) r (i + 1)
  end.

Definition build_base64_decoding_table : list Z := fill_table (zeros 256) encoding_table 0.

(** [data[i] == '=' ? 0 & i++ : decoding_table[(int)data[i++]]]; the type [char]
    is signed, so that a byte above 127 is a negative index. *)
Definition sextet (data : list Z) (i : Z) : outcome (Z * Z) :=
  c ← rd8 data i;
  if c =? EQUALS then Ret (0, i + 1)
  else if c <? 128 then v ← at_index build_base64_decoding_table (Z.to_nat c); Ret (v, i + 1)
  else UB.

Definition put_octet (decoded_data : list Z) (j output_length v : Z) : outcome (list Z * Z) :=
  if j <? output_length then d ← wr_bytes decoded_data j [Z.land v 0xFF]; Ret (d, j + 1) else Ret (decoded_data, j).

Fixpoint decode_loop (fuel : nat) (data : list Z) (input_length : Z) (decoded_data : list Z) (output_length i j : Z) : outcome (list Z) :=
  if i <? i32 input_length then
    match fuel with
    | O => NoFuel
    | S fuel =>
        '(sextet_a, i) ← sextet data i;
        '(sextet_b, i) ← sextet data i;
        '(sextet_c, i) ← sextet data i;
        '(sextet_d, i) ← sextet data i;
        let triple := u32 (u32 (sextet_a ≪ 18) + u32 (sextet_b ≪ 12) + u32 (sextet_c ≪ 6) + sextet_d) in
        '(d, j) ← put_octet decoded_data j output_length (triple ≫ 16);
        '(d, j) ← put_octet d j output_length (triple ≫ 8);
        '(d, j) ← put_octet d j output_length triple;
        decode_loop fuel data input_length d output_length i j
    end
  else Ret decoded_data.

Definition base64_decode (data : list Z) (input_length : Z) : outcome (option (list Z)) :=
  if negb (input_length mod 4 =? 0) then Ret None
  else
    let output_length := input_length / 4 * 3 in
    c1 ← rd8 data (input_length - 1);
    let output_length := if c1 =? EQUALS then output_length - 1 else output_length in
    c2 ← rd8 data (input_length - 2);
    let output_length := if c2 =? EQUALS then output_length - 1 else output_length in
    Some <$> decode_loop (Z.to_nat input_length) data input_length (zeros (Z.to_nat output_length)) output_length 0 0.

Example encode_man : base64_encode [77; 97; 110; 33] 4 = Ret ([84; 87; 70; 117; 73; 81; 61; 61; 0], 8).
Proof. reflexivity. Qed.
Example decode_man : base64_decode [84; 87; 70; 117; 73; 81; 61; 61; 0] 8 = Ret (Some [77; 97; 110; 33]).
Proof. reflexivity. Qed.

(** * The specification

    Four digits for three bytes, zero for the bytes that are missing at the end;
    the digits without a bit of the input are replaced by ['=']. *)
Definition triple_of (a b c : Z) : Z := a * 65536 + b * 256 + c.
Definition digit (t k : Z) : Z := (t / 2 ^ (6 * k)) mod 64.
Definition letter (s : Z) : Z := nth (Z.to_nat s) encoding_table 0.
Definition quad (a b c : Z) : list Z := (fun k => letter (digit (triple_of a b c) k)) <$> [3; 2; 1; 0].

Fixpoint raw (l : list Z) : list Z :=
  match l with
  | [] => []
  | [a] => quad a 0 0
  | [a; b] => quad a b 0
  | a :: b :: c :: r => quad a b c ++ raw r
  end.

Fixpoint b64 (l : list Z) : list Z :=
  match l with
  | [] => []
  | [a] => take 2 (quad a 0 0) ++ [EQUALS; EQUALS]
  | [a; b] => take 3 (quad a b 0) ++ [EQUALS]
  | a :: b :: c :: r => quad a b c ++ b64 r
  end.

(** Induction by groups of three. *)
Lemma by_threes (P : list Z -> Prop) :
  P [] -> (forall a, P [a]) -> (forall a b, P [a; b]) -> (forall a b c r, P r -> P (a :: b :: c :: r)) -> forall l, P l.
Proof.
  intros H0 H1 H2 H3. fix IH 1. intros [|a [|b [|c r]]]; [done|apply H1|apply H2|apply H3, IH].
Qed.

(** ** Digits and letters *)
Lemma digit_range t k : 0 <= digit t k < 64.
Proof. unfold digit. by apply Z.mod_pos_bound. Qed.

Lemma letters_decoded :
  forallb (fun s => let c := letter (Z.of_nat s) in
    negb (c =? EQUALS) && (0 <? c) && (c <? 128) && bool_decide (build_base64_decoding_table !! Z.to_nat c = Some (Z.of_nat s))) (seq 0 64) = true.
Proof. vm_compute. reflexivity. Qed.

Lemma letter_decoded s : 0 <= s < 64 ->
  letter s <> EQUALS /\ 0 < letter s < 128 /\ build_base64_decoding_table !! Z.to_nat (letter s) = Some s.
Proof.
  intros Hs. pose proof letters_decoded as H. rewrite forallb_forall in H. specialize (H (Z.to_nat s)).
  rewrite Z2Nat.id in H by lia. assert (In (Z.to_nat s) (seq 0 64)) as Hi by (apply in_seq; lia). specialize (H Hi).
  cbv zeta in H. apply andb_true_iff in H as [H Hd]. apply bool_decide_eq_true in Hd. bool_arith. split; [done|]. split; [lia|done].
Qed.

Lemma encoded_at_letter t k : 0 <= t -> 0 <= k -> encoded_at t (6 * k) = Ret (letter (digit t k)).
Proof.
  intros Ht Hk. unfold encoded_at. change 0x3F with (Z.ones 6). rewrite Z.land_ones, Z.shiftr_div_pow2 by lia. change (2 ^ 6) with 64.
  fold (digit t k). pose proof (digit_range t k). unfold at_index, letter.
  destruct (encoding_table !! Z.to_nat (digit t k)) as [c|] eqn:E.
  - by rewrite (nth_lookup_Some _ _ _ _ E).
  - apply lookup_ge_None in E. change (length encoding_table) with 64%nat in E. lia.
Qed.

Lemma digits_triple t : 0 <= t < 2 ^ 24 -> digit t 3 * 2 ^ 18 + digit t 2 * 2 ^ 12 + digit t 1 * 2 ^ 6 + digit t 0 = t.
Proof. intros H. unfold digit. change (2 ^ (6 * 3)) with 262144. change (2 ^ (6 * 2)) with 4096. change (2 ^ (6 * 1)) with 64. change (2 ^ (6 * 0)) with 1. Z.div_mod_to_equations. lia. Qed.

Lemma triple_range a b c : is_byte a -> is_byte b -> is_byte c -> 0 <= triple_of a b c < 2 ^ 24.
Proof. unfold is_byte, triple_of. lia. Qed.

(** ** Arrays *)
Lemma rd8_at (l : list Z) b r : rd8 (l ++ b :: r) (blen l) = Ret b.
Proof.
  rewrite rd8_ret; [|apply blen_nonneg|unfold blen; rewrite length_app; simpl; lia].
  unfold slice, blen. rewrite Nat2Z.id, drop_app_length. done.
Qed.

Lemma wr_at (l m r : list Z) bs : length m = length bs -> wr_bytes (l ++ m ++ r) (blen l) bs = Ret (l ++ bs ++ r).
Proof.
  intros E. rewrite wr_bytes_ret; [|apply blen_nonneg|unfold blen; rewrite !length_app; lia].
  unfold splice, blen. rewrite Nat2Z.id, take_app_length. f_equal. f_equal. f_equal.
  rewrite <- E, app_assoc, <- length_app, drop_app_length. done.
Qed.

(** ** Encoding *)
Lemma octet_at pre a r n : blen pre < n -> octet (pre ++ a :: r) n (blen pre) = Ret (a, blen (pre ++ [a])).
Proof. intros H. unfold octet. if_case. rewrite rd8_at. mstep. by rewrite blen_app. Qed.

Lemma octet_end data n : octet data n n = Ret (0, n).
Proof. unfold octet. by rewrite Z.ltb_irrefl. Qed.

Lemma triple_u32 a b c : is_byte a -> is_byte b -> is_byte c ->
  u32 (u32 (a ≪ 0x10) + u32 (b ≪ 0x08) + c) = triple_of a b c.
Proof.
  unfold is_byte. intros. rewrite !Z.shiftl_mul_pow2 by lia. unfold triple_of. change (2 ^ 0x10) with 65536. change (2 ^ 0x08) with 256.
  rewrite (u32_small (a * 65536)), (u32_small (b * 256)) by lia. apply u32_small. lia.
Qed.

(** The bytes of a group, with zero for those behind the end. *)
Lemma octets_at {A} pre (l tail : list Z) n (f : Z -> Z -> Z -> Z -> outcome A) :
  (0 < length l <= 3)%nat -> (if bool_decide (length l = 3%nat) then blen (pre ++ l) <= n else n = blen (pre ++ l)) ->
  ('(a, i) ← octet (pre ++ l ++ tail) n (blen pre); '(b, i) ← octet (pre ++ l ++ tail) n i; '(c, i) ← octet (pre ++ l ++ tail) n i;
   f a b c i) = f (nth 0 l 0) (nth 1 l 0) (nth 2 l 0) (blen (pre ++ l)).
Proof.
  intros Hl Hn. destruct l as [|a [|b [|c [|]]]]; simpl in Hl; try lia; cbn [app nth]; cbn in Hn.
  all: rewrite octet_at by (rewrite !blen_app in *; unfold blen in *; simpl in *; lia); mstep.
  - rewrite <- Hn, octet_end. mstep. by rewrite octet_end.
  - replace (pre ++ a :: b :: tail) with ((pre ++ [a]) ++ b :: tail) by by rewrite <- app_assoc.
    rewrite octet_at by (rewrite !blen_app in *; unfold blen in *; simpl in *; lia). mstep. rewrite <- !app_assoc. cbn [app].
    by rewrite <- Hn, octet_end.
  - replace (pre ++ a :: b :: c :: tail) with ((pre ++ [a]) ++ b :: c :: tail) by by rewrite <- app_assoc.
    rewrite octet_at by (rewrite !blen_app in *; unfold blen in *; simpl in *; lia). mstep.
    replace ((pre ++ [a]) ++ b :: c :: tail) with (((pre ++ [a]) ++ [b]) ++ c :: tail) by by rewrite <- !app_assoc.
    rewrite octet_at by (rewrite !blen_app in *; unfold blen in *; simpl in *; lia). mstep. by rewrite <- !app_assoc.
Qed.

Lemma length_quad a b c : length (quad a b c) = 4%nat.
Proof. done. Qed.

(** One round of the loop. *)
Lemma encode_step fuel pre l tail n out zs k :
  bytes_ok l -> (0 < length l <= 3)%nat -> (if bool_decide (length l = 3%nat) then blen (pre ++ l) <= n else n = blen (pre ++ l)) ->
  length zs = 4%nat ->
  encode_loop (S fuel) (pre ++ l ++ tail) n (out ++ zs ++ k) (blen pre) (blen out) =
  encode_loop fuel (pre ++ l ++ tail) n ((out ++ quad (nth 0 l 0) (nth 1 l 0) (nth 2 l 0)) ++ k) (blen (pre ++ l)) (blen out + 4).
Proof.
  intros B Hl Hn Hz. cbn [encode_loop]. destruct (blen pre <? n) eqn:E; bool_arith.
  2: { rewrite blen_app in Hn. destruct (bool_decide _); unfold blen in *; lia. }
  rewrite octets_at by done. assert (forall i, is_byte (nth i l 0)) as Hb.
  { intros i. destruct (nth_in_or_default i l 0) as [Hi| ->]; [|done]. unfold bytes_ok in B. rewrite Forall_forall in B. by apply B, list_elem_of_In. }
  cbv zeta. rewrite triple_u32 by done. pose proof (triple_range _ _ _ (Hb 0%nat) (Hb 1%nat) (Hb 2%nat)).
  rewrite (encoded_at_letter _ 3), (encoded_at_letter _ 2), (encoded_at_letter _ 1), (encoded_at_letter _ 0) by lia. mstep.
  rewrite wr_at by done. mstep. by rewrite <- app_assoc.
Qed.

Lemma encode_loop_end fuel data n e j : encode_loop fuel data n e n j = Ret e.
Proof. destruct fuel; cbn [encode_loop]; by rewrite Z.ltb_irrefl. Qed.

Lemma encode_loop_spec l : forall fuel pre tail out zs,
  bytes_ok l -> (length l <= fuel)%nat -> length zs = length (raw l) ->
  encode_loop fuel (pre ++ l ++ tail) (blen (pre ++ l)) (out ++ zs ++ [0]) (blen pre) (blen out) = Ret (out ++ raw l ++ [0]).
Proof.
  induction l as [|a|a b|a b c r IH] using by_threes; intros fuel pre tail out zs B F Z.
  - rewrite app_nil_r, encode_loop_end. by destruct zs.
  - destruct fuel as [|fuel]; [simpl in F; lia|]. rewrite encode_step by (try done; simpl; lia). rewrite encode_loop_end. by rewrite <- app_assoc.
  - destruct fuel as [|fuel]; [simpl in F; lia|]. rewrite encode_step by (try done; simpl; lia). rewrite encode_loop_end. by rewrite <- app_assoc.
  - destruct fuel as [|fuel]; [simpl in F; lia|]. cbn [raw] in Z |- *.
    rewrite length_app, length_quad in Z. destruct zs as [|z0 [|z1 [|z2 [|z3 zs]]]]; simpl in Z; try lia.
    change (z0 :: z1 :: z2 :: z3 :: zs) with ([z0; z1; z2; z3] ++ zs). change (a :: b :: c :: r) with ([a; b; c] ++ r) in *.
    apply Forall_app in B as [B1 B2]. rewrite <- (app_assoc [a; b; c] r tail), <- (app_assoc _ zs).
    rewrite encode_step; [|done|simpl; lia| |done].
    2: { cbn. rewrite !blen_app. unfold blen. simpl. lia. }
    replace (blen out + 4) with (blen (out ++ quad a b c)) by (rewrite blen_app; done). cbn [nth].
    replace (pre ++ [a; b; c] ++ r ++ tail) with ((pre ++ [a; b; c]) ++ r ++ tail) by by rewrite <- app_assoc.
    replace (pre ++ [a; b; c] ++ r) with ((pre ++ [a; b; c]) ++ r) by by rewrite <- app_assoc.
    rewrite IH; [by rewrite <- !app_assoc|done|simpl in F; lia|lia].
Qed.

Lemma raw_padded l : exists x y,
  raw l = x ++ y /\ b64 l = x ++ replicate (length y) EQUALS /\ mod_table !! Z.to_nat (blen l mod 3) = Some (blen y) /\
  (length y <= 2)%nat /\ blen (raw l) = 4 * ((blen l + 2) / 3).
Proof.
  induction l as [|a|a b|a b c r (x & y & E1 & E2 & E3 & Ly & L)] using by_threes.
  - exists [], []. split_and!; try done; simpl; lia.
  - exists (take 2 (quad a 0 0)), (drop 2 (quad a 0 0)). split_and!; try done; simpl; lia.
  - exists (take 3 (quad a b 0)), (drop 3 (quad a b 0)). split_and!; try done; simpl; lia.
  - exists (quad a b c ++ x), y. cbn [raw b64]. rewrite E1, E2, <- !app_assoc. split; [done|]. split; [done|].
    rewrite !blen_cons. replace (1 + (1 + (1 + blen r))) with (blen r + 1 * 3) by lia. rewrite Z.mod_add by lia. split; [done|]. split; [done|].
    rewrite <- E1, blen_app, L. replace (blen r + 1 * 3 + 2) with (blen r + 2 + 1 * 3) by lia. rewrite Z.div_add by lia.
    change (blen (quad a b c)) with 4. lia.
Qed.

Lemma blen_b64 l : blen (b64 l) = 4 * ((blen l + 2) / 3).
Proof.
  destruct (raw_padded l) as (x & y & E1 & E2 & _ & _ & <-). rewrite E1, E2, !blen_app. unfold blen. by rewrite length_replicate.
Qed.

Lemma pad_loop_spec x y : (length y <= 2)%nat ->
  pad_loop (length y) (x ++ y ++ [0]) (blen (x ++ y)) 0 = Ret (x ++ replicate (length y) EQUALS ++ [0]).
Proof.
  intros H. destruct y as [|c [|d [|]]]; simpl in H; try lia; cbn [pad_loop length]; [done| |].
  - replace (blen (x ++ [c]) - 1 - 0) with (blen x) by (rewrite blen_app; unfold blen; simpl; lia). rewrite wr_at by done. done.
  - replace (x ++ [c; d] ++ [0]) with ((x ++ [c]) ++ [d] ++ [0]) by by rewrite <- app_assoc.
    replace (blen (x ++ [c; d]) - 1 - 0) with (blen (x ++ [c])) by (rewrite !blen_app; unfold blen; simpl; lia). rewrite wr_at by done. mstep.
    rewrite <- app_assoc. replace (blen (x ++ [c; d]) - 1 - (0 + 1)) with (blen x) by (rewrite !blen_app; unfold blen; simpl; lia).
    by rewrite wr_at.
Qed.

(** Encoding never leaves its arrays and gives the specified text. *)
Lemma base64_encode_spec l tail :
  bytes_ok l -> base64_encode (l ++ tail) (blen l) = Ret (b64 l ++ [0], blen (b64 l)).
Proof.
  intros B. destruct (raw_padded l) as (x & y & E1 & E2 & E3 & Ly & L). unfold base64_encode. rewrite <- L.
  pose proof (blen_nonneg (raw l)). unfold zeros. rewrite Z2Nat.inj_add, replicate_add by lia.
  pose proof (encode_loop_spec l (Z.to_nat (blen l)) [] tail [] (replicate (Z.to_nat (blen (raw l))) 0)) as H1. cbn [app] in H1.
  change (blen []) with 0 in H1. change (replicate (Z.to_nat 1) 0) with [0]. rewrite H1; [|done|unfold blen; lia|unfold blen; rewrite length_replicate; lia].
  mstep. unfold at_index at 1. rewrite E3. mstep. rewrite E1, <- app_assoc.
  replace (Z.to_nat (blen y)) with (length y) by (unfold blen; lia). rewrite pad_loop_spec by done. mstep.
  rewrite app_assoc, <- E2. assert (blen (x ++ y) = blen (b64 l)) as -> by (rewrite <- E1, blen_b64; done).
  replace (b64 l ++ [0]) with (b64 l ++ [0] ++ []) by done. by rewrite wr_at.
Qed.

(** ** Decoding *)
Definition means (x v : Z) : Prop := x = EQUALS /\ v = 0 \/ x = letter v /\ 0 <= v < 64.

Lemma sextet_means pre x v r : means x v -> sextet (pre ++ x :: r) (blen pre) = Ret (v, blen (pre ++ [x])).
Proof.
  intros H. unfold sextet. rewrite rd8_at, blen_app. mstep. destruct H as [[-> ->]|[-> Hv]]; [done|].
  destruct (letter_decoded v Hv) as (N & R & E). destruct (letter v =? EQUALS) eqn:?; [bool_arith; done|].
  destruct (letter v <? 128) eqn:?; bool_arith; [|lia]. unfold at_index. by rewrite E.
Qed.

Lemma sextets_at {A} pre x0 x1 x2 x3 tail v0 v1 v2 v3 (f : Z -> Z -> Z -> Z -> Z -> outcome A) :
  means x0 v0 -> means x1 v1 -> means x2 v2 -> means x3 v3 ->
  let data := pre ++ [x0; x1; x2; x3] ++ tail in
  ('(a, i) ← sextet data (blen pre); '(b, i) ← sextet data i; '(c, i) ← sextet data i; '(d, i) ← sextet data i; f a b c d i)
  = f v0 v1 v2 v3 (blen (pre ++ [x0; x1; x2; x3])).
Proof.
  intros H0 H1 H2 H3. cbv zeta. cbn [app]. rewrite (sextet_means _ _ v0) by done. mstep.
  replace (pre ++ x0 :: x1 :: x2 :: x3 :: tail) with ((pre ++ [x0]) ++ x1 :: x2 :: x3 :: tail) by by rewrite <- app_assoc.
  rewrite (sextet_means _ _ v1) by done. mstep.
  replace ((pre ++ [x0]) ++ x1 :: x2 :: x3 :: tail) with (((pre ++ [x0]) ++ [x1]) ++ x2 :: x3 :: tail) by by rewrite <- !app_assoc.
  rewrite (sextet_means _ _ v2) by done. mstep.
  replace (((pre ++ [x0]) ++ [x1]) ++ x2 :: x3 :: tail) with ((((pre ++ [x0]) ++ [x1]) ++ [x2]) ++ x3 :: tail) by by rewrite <- !app_assoc.
  rewrite (sextet_means _ _ v3) by done. mstep. by rewrite <- !app_assoc.
Qed.

Lemma put_octet_at d z k n v b : blen d < n -> Z.land v 0xFF = b -> put_octet (d ++ z :: k) (blen d) n v = Ret (d ++ b :: k, blen (d ++ [b])).
Proof. intros H <-. unfold put_octet. if_case. rewrite (wr_at d [z] k) by done. mstep. by rewrite blen_app. Qed.

Lemma put_octet_end d n v : put_octet d n n v = Ret (d, n).
Proof. unfold put_octet. by rewrite Z.ltb_irrefl. Qed.

Lemma put_octets {A} (l d zs k : list Z) n v0 v1 v2 (f : list Z -> Z -> outcome A) :
  (0 < length l <= 3)%nat -> length zs = length l -> (if bool_decide (length l = 3%nat) then blen (d ++ l) <= n else n = blen (d ++ l)) ->
  Z.land v0 0xFF = nth 0 l 0 -> Z.land v1 0xFF = nth 1 l 0 -> Z.land v2 0xFF = nth 2 l 0 ->
  ('(d, j) ← put_octet (d ++ zs ++ k) (blen d) n v0; '(d, j) ← put_octet d j n v1; '(d, j) ← put_octet d j n v2; f d j)
  = f (d ++ l ++ k) (blen (d ++ l)).
Proof.
  intros Hl Hz Hn E0 E1 E2. destruct l as [|a [|b [|c [|]]]]; simpl in Hl; try lia; destruct zs as [|z0 [|z1 [|z2 [|]]]]; try done;
    cbn [app nth] in *; cbn in Hn.
  all: rewrite (put_octet_at _ _ _ _ _ a) by (try done; rewrite !blen_app in *; unfold blen in *; simpl in *; lia); mstep.
  - rewrite <- Hn, put_octet_end. mstep. by rewrite put_octet_end.
  - replace (d ++ a :: z1 :: k) with ((d ++ [a]) ++ z1 :: k) by by rewrite <- app_assoc.
    rewrite (put_octet_at _ _ _ _ _ b) by (try done; rewrite !blen_app in *; unfold blen in *; simpl in *; lia). mstep.
    rewrite <- !app_assoc. cbn [app]. by rewrite <- Hn, put_octet_end.
  - replace (d ++ a :: z1 :: z2 :: k) with ((d ++ [a]) ++ z1 :: z2 :: k) by by rewrite <- app_assoc.
    rewrite (put_octet_at _ _ _ _ _ b) by (try done; rewrite !blen_app in *; unfold blen in *; simpl in *; lia). mstep.
    replace ((d ++ [a]) ++ b :: z2 :: k) with (((d ++ [a]) ++ [b]) ++ z2 :: k) by by rewrite <- !app_assoc.
    rewrite (put_octet_at _ _ _ _ _ c) by (try done; rewrite !blen_app in *; unfold blen in *; simpl in *; lia). mstep.
    by rewrite <- !app_assoc.
Qed.

Lemma octets_of_triple a b c : is_byte a -> is_byte b -> is_byte c ->
  let t := triple_of a b c in Z.land (t ≫ 16) 0xFF = a /\ Z.land (t ≫ 8) 0xFF = b /\ Z.land t 0xFF = c.
Proof.
  unfold is_byte, triple_of. intros. cbv zeta. change 0xFF with (Z.ones 8). rewrite !Z.land_ones, !Z.shiftr_div_pow2 by lia.
  change (2 ^ 8) with 256. change (2 ^ 16) with 65536. Z.div_mod_to_equations. lia.
Qed.

Lemma digits_u32 t : 0 <= t < 2 ^ 24 ->
  u32 (u32 (digit t 3 ≪ 18) + u32 (digit t 2 ≪ 12) + u32 (digit t 1 ≪ 6) + digit t 0) = t.
Proof.
  intros H. pose proof (digits_triple t H). rewrite !Z.shiftl_mul_pow2 by lia.
  pose proof (digit_range t 0). pose proof (digit_range t 1). pose proof (digit_range t 2). pose proof (digit_range t 3).
  rewrite !(u32_small (_ * _)) by lia. rewrite u32_small by lia. lia.
Qed.

(** One round of the loop. *)
Lemma decode_step fuel pre x0 x1 x2 x3 tail n d zs k m l :
  bytes_ok l -> (0 < length l <= 3)%nat -> length zs = length l ->
  (if bool_decide (length l = 3%nat) then blen (d ++ l) <= m else m = blen (d ++ l)) -> blen pre < n < 2 ^ 31 ->
  let t := triple_of (nth 0 l 0) (nth 1 l 0) (nth 2 l 0) in
  means x0 (digit t 3) -> means x1 (digit t 2) -> means x2 (digit t 1) -> means x3 (digit t 0) ->
  decode_loop (S fuel) (pre ++ [x0; x1; x2; x3] ++ tail) n (d ++ zs ++ k) m (blen pre) (blen d) =
  decode_loop fuel (pre ++ [x0; x1; x2; x3] ++ tail) n (d ++ l ++ k) m (blen (pre ++ [x0; x1; x2; x3])) (blen (d ++ l)).
Proof.
  intros B Hl Hz Hm Hn t M0 M1 M2 M3. cbn [decode_loop]. pose proof (blen_nonneg pre). rewrite i32_small by lia. if_case.
  rewrite (sextets_at pre x0 x1 x2 x3 tail _ _ _ _ _ M0 M1 M2 M3). cbv zeta.
  assert (forall i, is_byte (nth i l 0)) as Hb.
  { intros i. destruct (nth_in_or_default i l 0) as [Hi| ->]; [|done]. unfold bytes_ok in B. rewrite Forall_forall in B. by apply B, list_elem_of_In. }
  rewrite digits_u32 by by apply triple_range. destruct (octets_of_triple _ _ _ (Hb 0%nat) (Hb 1%nat) (Hb 2%nat)) as (E0 & E1 & E2).
  by rewrite (put_octets l).
Qed.

Lemma decode_loop_end fuel data n e m j : 0 <= n < 2 ^ 31 -> decode_loop fuel data n e m n j = Ret e.
Proof. intros. destruct fuel; cbn [decode_loop]; rewrite i32_small by done; by rewrite Z.ltb_irrefl. Qed.

Lemma means_letter v : 0 <= v < 64 -> means (letter v) v.
Proof. by right. Qed.

Lemma means_padding t k : (t / 2 ^ (6 * k)) mod 64 = 0 -> means EQUALS (digit t k).
Proof. by left. Qed.

(** The four characters of the last group and of a full one. *)
Lemma quad_means a b c : let t := triple_of a b c in
  means (letter (digit t 3)) (digit t 3) /\ means (letter (digit t 2)) (digit t 2) /\ means (letter (digit t 1)) (digit t 1) /\
  means (letter (digit t 0)) (digit t 0).
Proof. cbv zeta. split_and!; apply means_letter, digit_range. Qed.

Lemma decode_loop_spec l : forall fuel pre tail d,
  bytes_ok l -> (length (b64 l) <= fuel)%nat -> blen (pre ++ b64 l) < 2 ^ 31 ->
  decode_loop fuel (pre ++ b64 l ++ tail) (blen (pre ++ b64 l)) (d ++ zeros (length l)) (blen (d ++ l)) (blen pre) (blen d) = Ret (d ++ l).
Proof.
  induction l as [|a|a b|a b c r IH] using by_threes; intros fuel pre tail d B F L; pose proof (blen_nonneg pre).
  - change (b64 []) with (@nil Z) in *. change (zeros (length [])) with (@nil Z). rewrite !app_nil_r in *.
    by rewrite decode_loop_end by lia.
  - destruct (quad_means a 0 0) as (M3 & M2 & _). destruct fuel as [|fuel]; [simpl in F; lia|].
    change (b64 [a]) with [letter (digit (triple_of a 0 0) 3); letter (digit (triple_of a 0 0) 2); EQUALS; EQUALS] in *.
    rewrite <- (app_nil_r (zeros _)), (decode_step _ _ _ _ _ _ _ _ _ _ _ _ [a]); try done; try (apply means_padding; unfold triple_of; cbn [nth]; Z.div_mod_to_equations; lia).
    { rewrite decode_loop_end by (split; [apply blen_nonneg|done]). by rewrite app_nil_r. } { simpl. lia. }
    rewrite blen_app in *. unfold blen in *. simpl in *. lia.
  - destruct (quad_means a b 0) as (M3 & M2 & M1 & _). destruct fuel as [|fuel]; [simpl in F; lia|].
    change (b64 [a; b]) with [letter (digit (triple_of a b 0) 3); letter (digit (triple_of a b 0) 2); letter (digit (triple_of a b 0) 1); EQUALS] in *.
    rewrite <- (app_nil_r (zeros _)), (decode_step _ _ _ _ _ _ _ _ _ _ _ _ [a; b]); try done; try (apply means_padding; unfold triple_of; cbn [nth]; Z.div_mod_to_equations; lia).
    { rewrite decode_loop_end by (split; [apply blen_nonneg|done]). by rewrite app_nil_r. } { simpl. lia. }
    rewrite blen_app in *. unfold blen in *. simpl in *. lia.
  - destruct (quad_means a b c) as (M3 & M2 & M1 & M0). destruct fuel as [|fuel]; [simpl in F; lia|].
    change (b64 (a :: b :: c :: r)) with (quad a b c ++ b64 r) in *. change (a :: b :: c :: r) with ([a; b; c] ++ r) in *.
    apply Forall_app in B as [B1 B2]. rewrite <- (app_assoc (quad a b c)).
    change (zeros (length ([a; b; c] ++ r))) with ([0; 0; 0] ++ zeros (length r)).
    change (quad a b c) with [letter (digit (triple_of a b c) 3); letter (digit (triple_of a b c) 2); letter (digit (triple_of a b c) 1);
      letter (digit (triple_of a b c) 0)] in *. set (q := [letter _; _; _; _]) in *. assert (blen q = 4) as Lq by done.
    pose proof (fun X0 X1 => decode_step fuel pre _ _ _ _ (b64 r ++ tail) (blen (pre ++ q ++ b64 r)) d [0; 0; 0] (zeros (length r)) (blen (d ++ [a; b; c] ++ r))
      [a; b; c] B1 ltac:(simpl; lia) eq_refl X0 X1 M3 M2 M1 M0) as D. fold q in D. rewrite D; clear D;
      [|cbn; rewrite !blen_app; unfold blen; simpl; lia|rewrite !blen_app in *; pose proof (blen_nonneg (b64 r)); lia].
    replace (pre ++ q ++ b64 r ++ tail) with ((pre ++ q) ++ b64 r ++ tail) by by rewrite <- app_assoc.
    rewrite !(app_assoc pre q (b64 r)), !(app_assoc d [a; b; c]) in *. apply IH; [done| |done]. rewrite length_app in F. change (length q) with 4%nat in F. lia.
Qed.

(** The last two characters tell how many bytes the last group has. *)
Lemma b64_tail l : l <> [] -> exists x y c2 c1, b64 l = x ++ [c2; c1] /\
  blen l = blen (b64 l) / 4 * 3 - (if c1 =? EQUALS then 1 else 0) - (if c2 =? EQUALS then 1 else 0) /\ blen (b64 l) = 4 * y.
Proof.
  assert (forall a b c k, (letter (digit (triple_of a b c) k) =? EQUALS) = false) as Nl.
  { intros. apply Z.eqb_neq. by destruct (letter_decoded _ (digit_range (triple_of a b c) k)). }
  induction l as [|a|a b|a b c r IH] using by_threes; intros Ne; [done|..].
  - eexists (take 2 (quad a 0 0)), 1, EQUALS, EQUALS. done.
  - eexists (take 2 (quad a b 0)), 1, (letter (digit (triple_of a b 0) 1)), EQUALS. split; [done|]. rewrite Nl. done.
  - destruct r as [|z r'].
    + eexists (take 2 (quad a b c)), 1, (letter (digit (triple_of a b c) 1)), (letter (digit (triple_of a b c) 0)). split; [done|]. rewrite !Nl. done.
    + destruct IH as (x & y & c2 & c1 & E & L & D); [done|]. set (r := z :: r') in *. exists (quad a b c ++ x), (1 + y), c2, c1.
      change (b64 (a :: b :: c :: r)) with (quad a b c ++ b64 r). rewrite blen_app, !blen_cons, D. change (blen (quad a b c)) with 4.
      rewrite D in L. replace (4 + 4 * y) with ((1 + y) * 4) by lia. replace (4 * y) with (y * 4) in L by lia. rewrite Z.div_mul in * by lia.
      rewrite <- app_assoc, <- E. split; [done|]. split; [|lia]. rewrite L. lia.
Qed.

(** The text has no zero. *)
Lemma b64_nonzero l : Forall (fun c => c <> 0) (b64 l).
Proof.
  assert (forall a b c, Forall (fun c => c <> 0) (quad a b c)) as Q.
  { intros. repeat constructor; destruct (letter_decoded _ (digit_range (triple_of a b c) 3)), (letter_decoded _ (digit_range (triple_of a b c) 2)),
      (letter_decoded _ (digit_range (triple_of a b c) 1)), (letter_decoded _ (digit_range (triple_of a b c) 0)); lia. }
  induction l as [|a|a b|a b c r IH] using by_threes; [constructor|..].
  - apply Forall_app. split; [by apply Forall_take|by repeat constructor].
  - apply Forall_app. split; [by apply Forall_take|by repeat constructor].
  - change (b64 (a :: b :: c :: r)) with (quad a b c ++ b64 r). apply Forall_app. by split.
Qed.

Lemma base64_decode_spec l tail :
  l <> [] -> bytes_ok l -> blen (b64 l) < 2 ^ 31 -> base64_decode (b64 l ++ tail) (blen (b64 l)) = Ret (Some l).
Proof.
  intros Ne B L. destruct (b64_tail l Ne) as (x & y & c2 & c1 & E & Ll & Ld). unfold base64_decode.
  assert (blen (b64 l) mod 4 = 0) as -> by (rewrite Ld, Z.mul_comm; apply Z.mod_mul; lia). cbn [negb Z.eqb].
  assert (rd8 (b64 l ++ tail) (blen (b64 l) - 1) = Ret c1) as ->.
  { rewrite E, blen_app. replace (blen x + blen [c2; c1] - 1) with (blen (x ++ [c2])) by (rewrite blen_app; unfold blen; simpl; lia).
    replace ((x ++ [c2; c1]) ++ tail) with ((x ++ [c2]) ++ c1 :: tail) by by rewrite <- !app_assoc. apply rd8_at. }
  mstep. assert (rd8 (b64 l ++ tail) (blen (b64 l) - 2) = Ret c2) as ->.
  { rewrite E, blen_app. replace (blen x + blen [c2; c1] - 2) with (blen x) by (unfold blen; simpl; lia). rewrite <- app_assoc. apply rd8_at. }
  mstep. replace (if c2 =? EQUALS then _ else _) with (blen l) by (destruct (c1 =? EQUALS), (c2 =? EQUALS); lia).
  pose proof (decode_loop_spec l (Z.to_nat (blen (b64 l))) [] tail []) as H. cbn [app] in H. change (blen []) with 0 in H.
  replace (Z.to_nat (blen l)) with (length l) by (unfold blen; lia). rewrite H; [done|done|unfold blen; lia|done].
Qed.

(** C38. What [base64_encode] writes, [base64_decode] reads back: for any
    nonempty bytes whose text is shorter than 2^31, encoding returns a text of
    four letters for every three bytes with its terminating zero, and decoding
    that text returns the bytes; neither leaves its arrays. *)
Theorem base64_roundtrip l tail :
  l <> [] -> bytes_ok l -> 4 * ((blen l + 2) / 3) < 2 ^ 31 ->
  exists text, base64_encode (l ++ tail) (blen l) = Ret (text, strlen text) /\ blen text = 4 * ((blen l + 2) / 3) + 1 /\
    strlen text = blen text - 1 /\ base64_decode text (strlen text) = Ret (Some l).
Proof.
  intros Ne B L. exists (b64 l ++ [0]).
  assert (strlen (b64 l ++ [0]) = blen (b64 l)) as -> by (unfold strlen; by rewrite (cstr_app_zero _ [] (b64_nonzero l))).
  rewrite base64_encode_spec by done. rewrite blen_app, <- blen_b64 in *. change (blen [0]) with 1. split; [done|]. split; [done|].
  split; [lia|]. by apply base64_decode_spec.
Qed.

Lemma base64_roundtrip_witness :
  exists text, base64_encode [104; 101; 108; 108; 111; 7] 5 = Ret (text, 8) /\ base64_decode text 8 = Ret (Some [104; 101; 108; 108; 111]).
Proof.
  destruct (base64_roundtrip [104; 101; 108; 108; 111] [7]) as (text & E & L & S & D).
  - discriminate.
  - apply bytes_okb_spec. reflexivity.
  - reflexivity.
  - rewrite L in S. change (strlen text = 8) in S. rewrite S in E, D. exists text. split; [exact E|exact D].
Defined.
