(* ===== verification/TurnMapsFacts.v ===== *)
(** The maps of the server are finite maps: invariants, the laws of [KVStore]
    for the address map and the string map, and the behaviour of the local
    map, whose insertion is only safe for new keys. *)

From stdpp Require Import base option numbers list strings.
From S2P Require Import Prelude IoAddr KeyMap TurnMaps.

(** * Generic lemmas *)
Lemma find_key_app {K V} {HK : HashKey K} (k : K) (l l' : list (K * V)) :
  find_key k (l ++ l') = match find_key k l with Some v => Some v | None => find_key k l' end.
Proof. induction l as [|[k' v] l IH]; simpl; [done|]. by destruct (key_eqb k' k). Qed.

Lemma update_first_app {K V} {HK : HashKey K} (k : K) (v : V) l l' :
  update_first k v (l ++ l') =
  match find_key k l with
  | Some _ => update_first k v l ++ l'
  | None => l ++ update_first k v l'
  end.
Proof.
  induction l as [|[k' v'] l IH]; simpl; [done|]. destruct (key_eqb k' k); [done|].
  rewrite IH. by destruct (find_key k l).
Qed.

(** Removing the first entry of a key. *)
Fixpoint remove_first {K V} {HK : HashKey K} (k : K) (l : list (K * V)) : list (K * V) :=
  match l with
  | [] => []
  | (k', v) :: r => if key_eqb k' k then r else (k', v) :: remove_first k r
  end.

Lemma remove_first_app {K V} {HK : HashKey K} (k : K) (l l' : list (K * V)) :
  remove_first k (l ++ l') =
  match find_key k l with
  | Some _ => remove_first k l ++ l'
  | None => l ++ remove_first k l'
  end.
Proof.
  induction l as [|[k' v'] l IH]; simpl; [done|]. destruct (key_eqb k' k); [done|].
  rewrite IH. by destruct (find_key k l).
Qed.

Lemma remove_key_absent {K V} {HK : HashKey K} (k : K) (l : list (K * V)) :
  Forall (fun e => key_eqb e.1 k = false) l -> remove_key k l = l.
Proof.
  unfold remove_key. induction 1 as [|e l He Hl IH]; [done|]. rewrite filter_cons.
  by rewrite decide_True, IH.
Qed.

Lemma remove_first_uniq {K V} {HK : HashKey K} {HL : HashKeyLaws K} (k : K) (l : list (K * V)) :
  uniq l -> remove_first k l = remove_key k l.
Proof.
  induction l as [|[k' v] l IH]; simpl; [done|]. intros [F U]. unfold remove_key. rewrite filter_cons. simpl.
  destruct (key_eqb k' k) eqn:E.
  - rewrite decide_False by done. symmetry. apply remove_key_absent.
    eapply Forall_impl; [exact F|]. intros [k2 v2]. simpl. intros H.
    by rewrite key_eqb_sym, <- (key_eqb_cong k' k), key_eqb_sym by done.
  - rewrite decide_True by done. by rewrite IH.
Qed.

Lemma at_index_ret {A} (t : list A) i b : t !! i = Some b -> at_index t i = Ret b.
Proof. unfold at_index. by intros ->. Qed.

(** A table of the right length has every bucket. *)
Lemma table_bucket {B} (t : list B) n i : length t = n -> (i < n)%nat -> exists b, t !! i = Some b.
Proof. intros L H. apply lookup_lt_is_Some_2. lia. Qed.

Lemma land_mask_lt x n : 0 <= n -> (Z.to_nat (Z.land x (2 ^ n - 1)) < Z.to_nat (2 ^ n))%nat.
Proof.
  intros Hn. replace (2 ^ n - 1) with (Z.ones n) by (rewrite Z.ones_equiv; lia).
  rewrite Z.land_ones by done. pose proof (Z.mod_pos_bound x (2 ^ n)).
  assert (0 < 2 ^ n) by (apply Z.pow_pos_nonneg; lia). lia.
Qed.

(** * Local maps *)
#[export] Instance lm_key : HashKey Z := {| key_eqb := Z.eqb; key_hash := lm_index |}.

#[export] Instance lm_key_laws : HashKeyLaws Z.
Proof.
  constructor; simpl.
  - apply Z.eqb_sym.
  - intros k1 k2 k3 H1 H2. bool_arith. apply Z.eqb_eq. congruence.
  - intros k k' H. bool_arith. by subst.
Qed.

Lemma lm_index_lt k : (lm_index k < LM_MAP_HASH_SIZE)%nat.
Proof. apply (land_mask_lt k 3). lia. Qed.

(** A cell is free, key and value zero, or used, both non-zero. *)
Definition cell_ok (c : Z * Z) : Prop := (c.1 = 0 /\ c.2 = 0) \/ lm_used c = true.

Definition lm_inv (m : lm_map) : Prop :=
  twf lm_cells LM_MAP_HASH_SIZE m /\
  Forall (fun a => Forall cell_ok (lm_main a) /\ Forall cell_ok (lm_extra a)) m.

Definition lm_abs (m : lm_map) (k : Z) : option Z := tget lm_cells m k.

Lemma lm_used_eq c : lm_used c = negb ((c.1 =? 0) || (c.2 =? 0)).
Proof. unfold lm_used, truthy. by rewrite negb_orb. Qed.

Lemma lm_get_main_live k cells : k <> 0 -> lm_get_main k cells = find_key k (live lm_used cells).
Proof.
  intros Hk. induction cells as [|[k0 v0] r IH]; [done|]. rewrite live_cons, lm_used_eq. simpl.
  unfold truthy. destruct (k0 =? k) eqn:E; simpl.
  - bool_arith. subst k0. destruct (k =? 0) eqn:?; [bool_arith; done|]. simpl.
    destruct (v0 =? 0); simpl; [done|]. by rewrite Z.eqb_refl.
  - destruct (_ || _); simpl; [done|]. by rewrite E.
Qed.

(** The two shapes of a cell, against a non-zero key. *)
Lemma cell_cases k c :
  k <> 0 -> cell_ok c ->
  (lm_used c = false /\ c = (0, 0) /\ (c.1 =? k) = false) \/
  (lm_used c = true /\ truthy c.2 = true /\ (c.1 =? 0) || (c.2 =? 0) = false).
Proof.
  intros Hk [[E1 E2]|U].
  - left. destruct c as [a b]. simpl in *. subst. split; [done|]. split; [done|]. apply Z.eqb_neq. congruence.
  - right. split; [done|]. rewrite lm_used_eq in U. apply negb_true_iff in U. split; [|done].
    unfold truthy. apply orb_false_iff in U as [_ ->]. done.
Qed.

Lemma lm_get_extra_live k cells :
  k <> 0 -> Forall cell_ok cells -> lm_get_extra k cells = find_key k (live lm_used cells).
Proof.
  intros Hk. induction 1 as [|[k0 v0] r Hc Hr IH]; [done|]. rewrite live_cons. simpl.
  destruct (cell_cases k _ Hk Hc) as [(-> & _ & E)|(-> & _ & _)]; simpl in *; by rewrite ?E, IH.
Qed.

Lemma lm_put_main_fresh k v cells :
  k <> 0 -> Forall cell_ok cells -> find_key k (live lm_used cells) = None ->
  lm_put_main k v cells = (fun c => (0, c)) <$> fill_free lm_used (k, v) cells.
Proof.
  intros Hk. induction 1 as [|[k0 v0] r Hc Hr IH]; [done|]. rewrite live_cons. simpl.
  destruct (cell_cases k _ Hk Hc) as [(-> & Ec & E)|(-> & _ & F)]; simpl in *.
  - rewrite E. by injection Ec as -> ->.
  - destruct (k0 =? k); [done|]. intros H. rewrite F, IH by done. by destruct (fill_free _ _ r).
Qed.

Lemma lm_put_extra_fill k v cells : lm_put_extra k v cells = fill_free lm_used (k, v) cells.
Proof.
  induction cells as [|[k0 v0] r IH]; [done|]. simpl. rewrite lm_used_eq. simpl.
  destruct ((k0 =? 0) || (v0 =? 0)); simpl; [done|]. rewrite IH. by destruct (fill_free _ _ r).
Qed.

Lemma fill_free_ok x l l' : cell_ok x -> Forall cell_ok l -> fill_free lm_used x l = Some l' -> Forall cell_ok l'.
Proof.
  intros Hx Hl. revert l'. induction Hl as [|c l Hc Hl IH]; intros l'; simpl; [done|].
  destruct (lm_used c).
  - destruct (fill_free lm_used x l) as [l2|]; [|done]. intros [= <-]. constructor; [done|by apply IH].
  - intros [= <-]. by constructor.
Qed.

(** Deletion from one of the two arrays. *)
Lemma lm_del_main_live k cells :
  k <> 0 -> Forall cell_ok cells ->
  match find_key k (live lm_used cells) with
  | Some v => exists cells', lm_del_main k cells = Some (v, cells') /\ Forall cell_ok cells' /\
                live lm_used cells' = remove_first k (live lm_used cells)
  | None => lm_del_main k cells = None
  end.
Proof.
  intros Hk. induction 1 as [|[k0 v0] r Hc Hr IH]; [done|]. rewrite live_cons. simpl.
  destruct (cell_cases k _ Hk Hc) as [(U & _ & E)|(U & T & _)]; rewrite U; simpl in *.
  - rewrite E. simpl. destruct (find_key k _) as [v|]; [|by rewrite IH]. destruct IH as (r' & -> & Hr' & L).
    eexists. split; [done|]. split; [by constructor|]. by rewrite live_cons, U.
  - rewrite T. destruct (k0 =? k) eqn:E; simpl.
    + eexists. split; [done|]. split; [constructor; [by left|done]|]. by rewrite live_cons.
    + destruct (find_key k _) as [v|]; [|by rewrite IH]. destruct IH as (r' & -> & Hr' & L).
      eexists. split; [done|]. split; [by constructor|]. by rewrite live_cons, U, L.
Qed.

Lemma lm_del_extra_main k cells : k <> 0 -> Forall cell_ok cells -> lm_del_extra k cells = lm_del_main k cells.
Proof.
  intros Hk. induction 1 as [|[k0 v0] r Hc Hr IH]; [done|]. simpl. rewrite IH.
  destruct (cell_cases k _ Hk Hc) as [(_ & _ & E)|(_ & T & _)]; simpl in *.
  - by rewrite E.
  - by rewrite T, andb_true_r.
Qed.

Lemma lm_size_sum (m : lm_map) : lm_map_size m = blen (concat (lm_cells <$> m)).
Proof.
  unfold lm_map_size.
  assert (forall z, foldl (fun ret a => ret + blen (live lm_used (lm_main a)) + blen (live lm_used (lm_extra a))) z m
                    = z + blen (concat (lm_cells <$> m))) as H; [|by rewrite H].
  induction m as [|a m IH]; intros z; csimpl; [rewrite blen_nil; lia|].
  rewrite IH, blen_app. unfold lm_cells at 2. rewrite blen_app. lia.
Qed.

Lemma concat_insert_length {B V} (f : B -> list V) (t : list B) i b b' :
  t !! i = Some b ->
  blen (concat (f <$> <[i:=b']> t)) = blen (concat (f <$> t)) - blen (f b) + blen (f b').
Proof.
  revert i. induction t as [|x t IH]; intros [|i] H; csimpl in *; try done.
  - injection H as ->. rewrite !blen_app. lia.
  - rewrite !blen_app, IH by done. lia.
Qed.

Section lm_ops.
Context (m : lm_map) (k : Z).
Hypothesis Hinv : lm_inv m.
Hypothesis Hk : k <> 0.

Lemma lm_bucket : exists a, m !! lm_index k = Some a /\ at_index m (lm_index k) = Ret a /\
  Forall cell_ok (lm_main a) /\ Forall cell_ok (lm_extra a) /\ uniq (lm_cells a).
Proof.
  destruct Hinv as [[L W] F]. destruct (table_bucket m _ (lm_index k) L (lm_index_lt k)) as [a Ha].
  exists a. split; [done|]. split; [by apply at_index_ret|]. rewrite Forall_lookup in F.
  destruct (F _ _ Ha). destruct (W _ _ Ha). done.
Qed.

Lemma truthy_key : truthy k = true.
Proof. unfold truthy. destruct (k =? 0) eqn:?; [bool_arith; done|done]. Qed.

Lemma lm_get_abs : lm_map_get m k = Ret (lm_abs m k).
Proof.
  destruct lm_bucket as (a & Ha & E & F1 & F2 & _). unfold lm_map_get. rewrite truthy_key, E. mstep.
  rewrite (lm_get_main_live k (lm_main a)), (lm_get_extra_live k (lm_extra a)) by done.
  unfold lm_abs. rewrite (tget_bucket (HK := lm_key) lm_cells m a k k Ha eq_refl). unfold lm_cells. rewrite find_key_app.
  by destruct (find_key k (live lm_used (lm_main a))).
Qed.

(** Replacing the bucket of [k]. *)
Lemma lm_replace a a' :
  m !! lm_index k = Some a -> twf lm_cells LM_MAP_HASH_SIZE (<[lm_index k:=a']> m) ->
  Forall cell_ok (lm_main a') -> Forall cell_ok (lm_extra a') ->
  lm_inv (<[lm_index k:=a']> m) /\
  lm_map_size (<[lm_index k:=a']> m) = lm_map_size m - blen (lm_cells a) + blen (lm_cells a').
Proof.
  intros Ha W F1 F2. split; [split; [done|]|].
  - apply Forall_insert; [apply Hinv|done].
  - rewrite !lm_size_sum. by apply concat_insert_length.
Qed.

Lemma lm_put_fresh v :
  v <> 0 -> lm_abs m k = None ->
  exists m', lm_map_put m k v = Ret (0, m') /\ lm_inv m' /\ lm_map_size m' = lm_map_size m + 1 /\
    forall k', lm_abs m' k' = if k =? k' then Some v else lm_abs m k'.
Proof.
  intros Hv Hn. destruct lm_bucket as (a & Ha & E & F1 & F2 & _).
  assert (truthy v = true) as Tv by (unfold truthy; destruct (v =? 0) eqn:?; [bool_arith; done|done]).
  assert (lm_used (k, v) = true) as U by (unfold lm_used; simpl; by rewrite truthy_key, Tv).
  unfold lm_abs in Hn. rewrite (tget_bucket (HK := lm_key) lm_cells m a k k Ha eq_refl) in Hn.
  unfold lm_cells in Hn. rewrite find_key_app in Hn.
  destruct (find_key k (live lm_used (lm_main a))) eqn:N1; [done|].
  assert (exists a', lm_map_put m k v = Ret (0, <[lm_index k:=a']> m) /\ lm_cells a' ≡ₚ (k, v) :: lm_cells a /\
            Forall cell_ok (lm_main a') /\ Forall cell_ok (lm_extra a')) as (a' & P & Q & G1 & G2).
  { unfold lm_map_put. rewrite truthy_key, Tv, E. mstep. rewrite lm_put_main_fresh, lm_put_extra_fill by done.
    unfold lm_cells.
    destruct (fill_free lm_used (k, v) (lm_main a)) as [c|] eqn:Fm; simpl.
    - eexists. split; [done|]. simpl. split; [by rewrite (fill_free_live _ _ _ _ U Fm)|].
      split; [|done]. eapply fill_free_ok; [by right|exact F1|exact Fm].
    - destruct (fill_free lm_used (k, v) (lm_extra a)) as [c|] eqn:Fe; (eexists; split; [done|]; simpl; split).
      + rewrite (fill_free_live _ _ _ _ U Fe). by rewrite <- Permutation_middle.
      + split; [done|]. eapply fill_free_ok; [by right|exact F2|exact Fe].
      + rewrite live_app, live_cons, U. change (live lm_used []) with (@nil (Z * Z)).
        rewrite app_assoc. by rewrite <- Permutation_cons_append.
      + split; [done|]. apply Forall_app. split; [done|]. constructor; [by right|constructor]. }
  destruct (table_add lm_cells LM_MAP_HASH_SIZE m a a' k v (proj1 Hinv) Ha) as [W G]; try done.
  { unfold lm_cells. by rewrite find_key_app, N1. }
  destruct (lm_replace a a' Ha W G1 G2) as [I S]. eexists. split; [exact P|]. split; [exact I|]. split; [|exact G].
  rewrite S. unfold blen. rewrite (Permutation_length Q). simpl. lia.
Qed.

Lemma lm_del_spec :
  exists m', lm_map_del m k = Ret (match lm_abs m k with Some _ => 1 | None => 0 end, m', option_list (lm_abs m k)) /\
    lm_inv m' /\ lm_map_size m' = lm_map_size m - blen (option_list (lm_abs m k)) /\
    forall k', lm_abs m' k' = if k =? k' then None else lm_abs m k'.
Proof.
  destruct lm_bucket as (a & Ha & E & F1 & F2 & U).
  assert (lm_abs m k = find_key k (lm_cells a)) as Eabs
    by (apply (tget_bucket (HK := lm_key) lm_cells m a k k Ha eq_refl)).
  rewrite Eabs. unfold lm_map_del. rewrite truthy_key, E. mstep.
  destruct (find_key k (lm_cells a)) as [v|] eqn:Ev.
  - assert (exists a', (match lm_del_main k (lm_main a) with
       | Some (v, cells) => Ret (1, <[lm_index k:=LmMapArray cells (lm_extra a)]> m, [v])
       | None => match lm_del_extra k (lm_extra a) with
                 | Some (v, cells) => Ret (1, <[lm_index k:=LmMapArray (lm_main a) cells]> m, [v])
                 | None => Ret (0, m, [])
                 end
       end) = Ret (1, <[lm_index k:=a']> m, [v]) /\ lm_cells a' = remove_first k (lm_cells a) /\
         Forall cell_ok (lm_main a') /\ Forall cell_ok (lm_extra a')) as (a' & -> & Q & G1 & G2).
    { unfold lm_cells in Ev |- *. rewrite find_key_app in Ev. rewrite remove_first_app, lm_del_extra_main by done.
      pose proof (lm_del_main_live k (lm_main a) Hk F1) as D1. pose proof (lm_del_main_live k (lm_extra a) Hk F2) as D2.
      destruct (find_key k (live lm_used (lm_main a))) as [v1|].
      - injection Ev as ->. destruct D1 as (c & -> & Fc & Lc). eexists. split; [done|]. simpl. by rewrite Lc.
      - rewrite D1. rewrite Ev in D2. destruct D2 as (c & -> & Fc & Lc). eexists. split; [done|]. simpl. by rewrite Lc. }
    destruct (table_remove lm_cells LM_MAP_HASH_SIZE m a a' k (proj1 Hinv) Ha) as [W G].
    { by rewrite <- remove_first_uniq. }
    destruct (lm_replace a a' Ha W G1 G2) as [I S]. eexists. split; [done|]. split; [exact I|]. split; [|exact G].
    rewrite S, Q. simpl. change (blen [v]) with 1.
    enough (blen (lm_cells a) = blen (remove_first k (lm_cells a)) + 1) by lia.
    clear -Ev. induction (lm_cells a) as [|[k0 v0] l IH]; simpl in *; [done|].
    destruct (k0 =? k); rewrite !blen_cons; [lia|]. rewrite IH by done. lia.
  - unfold lm_cells in Ev. rewrite find_key_app in Ev. rewrite lm_del_extra_main by done.
    pose proof (lm_del_main_live k (lm_main a) Hk F1) as D1. pose proof (lm_del_main_live k (lm_extra a) Hk F2) as D2.
    destruct (find_key k (live lm_used (lm_main a))); [done|]. rewrite Ev in D2. rewrite D1, D2.
    exists m. split; [done|]. split; [done|]. split; [unfold blen; simpl; lia|]. intros k'.
    destruct (k =? k') eqn:Ek; [|done]. bool_arith. by subst k'.
Qed.
End lm_ops.

(** * Address maps *)
#[export] Instance addr_key : HashKey ioa_addr := {| key_eqb := addr_eq_s; key_hash := addr_map_index |}.

#[export] Instance addr_key_laws : HashKeyLaws ioa_addr.
Proof.
  constructor; simpl.
  - apply addr_eq_s_sym.
  - apply addr_eq_s_trans.
  - intros k k' H. unfold addr_map_index. by rewrite (addr_hash_proper k k').
Qed.

Lemma addr_map_index_lt k : (addr_map_index k < ADDR_MAP_SIZE)%nat.
Proof. apply (land_mask_lt (addr_hash (Some k)) 10). lia. Qed.

(** The entries of a list header, in order. *)
Definition addr_elems (h : addr_list_header) : list (ioa_addr * Z) :=
  live elem_used (main_list h) ++ live elem_used (extra_list h).

Definition addr_map_inv (m : ur_addr_map) : Prop :=
  addr_magic m = MAGIC_HASH /\ twf addr_elems ADDR_MAP_SIZE (addr_lists m).

Definition addr_map_abs (m : ur_addr_map) (k : ioa_addr) : option Z := tget addr_elems (addr_lists m) k.

(** The first slot that holds the key, in one array. *)
Lemma list_find_live k l :
  match find_key k (live elem_used l) with
  | Some v => exists i e, list_find (fun e => elem_matches k e = true) l = Some (i, e) /\ l !! i = Some e /\ e.2 = v /\
                forall v', v' <> 0 -> live elem_used (alter (fun e => (e.1, v')) i l) = update_first k v' (live elem_used l)
  | None => list_find (fun e => elem_matches k e = true) l = None
  end.
Proof.
  induction l as [|[k0 v0] l IH]; [done|]. rewrite live_cons. cbn [list_find].
  destruct (elem_used (k0, v0)) eqn:U; simpl.
  - destruct (addr_eq_s k0 k) eqn:E.
    + rewrite decide_True by (unfold elem_matches; simpl; by rewrite U, E). exists 0%nat, (k0, v0).
      split; [done|]. split; [done|]. split; [done|]. intros v' Hv'. simpl. rewrite live_cons.
      unfold elem_used at 1, truthy. simpl. by destruct (v' =? 0) eqn:?; [bool_arith|].
    + rewrite decide_False by (unfold elem_matches; simpl; by rewrite U, E).
      destruct (find_key k _) as [v|]; [|by rewrite IH].
      destruct IH as (i & e & -> & Hi & Hv & Hup). exists (S i), e. simpl. do 3 (split; [done|]).
      intros v' Hv'. transitivity (live elem_used ((k0, v0) :: alter (fun e => (e.1, v')) i l)); [done|].
      rewrite live_cons, U, Hup by done. simpl. by rewrite ?E.
  - rewrite decide_False by (unfold elem_matches; simpl; by rewrite U).
    destruct (find_key k _) as [v|]; [|by rewrite IH].
    destruct IH as (i & e & -> & Hi & Hv & Hup). exists (S i), e. simpl. do 3 (split; [done|]).
    intros v' Hv'. transitivity (live elem_used ((k0, v0) :: alter (fun e => (e.1, v')) i l)); [done|].
    by rewrite live_cons, U, Hup.
Qed.

(** The element pointer of [addr_list_get]. *)
Lemma addr_list_get_spec h k :
  match find_key k (addr_elems h) with
  | Some v => exists r, addr_list_get h k = Some r /\ elem_value h r = Ret v /\
                forall v', v' <> 0 -> addr_elems (set_elem_value h r v') = update_first k v' (addr_elems h)
  | None => addr_list_get h k = None
  end.
Proof.
  unfold addr_elems. rewrite find_key_app. unfold addr_list_get.
  pose proof (list_find_live k (main_list h)) as H1. pose proof (list_find_live k (extra_list h)) as H2.
  destruct (find_key k (live elem_used (main_list h))) as [v|] eqn:E1.
  - destruct H1 as (i & e & -> & Hi & <- & Hup). eexists. split; [done|]. split.
    + simpl. by rewrite (at_index_ret _ _ _ Hi).
    + intros v' Hv'. simpl. rewrite Hup by done. by rewrite update_first_app, E1.
  - rewrite H1. destruct (find_key k (live elem_used (extra_list h))) as [v|].
    + destruct H2 as (i & e & -> & Hi & <- & Hup). eexists. split; [done|]. split.
      * simpl. by rewrite (at_index_ret _ _ _ Hi).
      * intros v' Hv'. simpl. rewrite Hup by done. by rewrite update_first_app, E1.
    + by rewrite H2.
Qed.

Lemma addr_list_add_spec h k v : v <> 0 -> addr_elems (addr_list_add h k v) ≡ₚ (k, v) :: addr_elems h.
Proof.
  intros Hv. unfold addr_list_add. assert (truthy v = true) as T by (by apply truthy_key).
  rewrite T. cbn [negb]. assert (elem_used (k, v) = true) as U by done. unfold addr_elems.
  destruct (fill_free _ _ (main_list h)) as [l|] eqn:F1; simpl.
  - by rewrite (fill_free_live _ _ _ _ U F1).
  - destruct (fill_free _ _ (extra_list h)) as [l|] eqn:F2; simpl.
    + rewrite (fill_free_live _ _ _ _ U F2). by rewrite <- Permutation_middle.
    + rewrite live_app, live_cons, U. change (live elem_used []) with (@nil addr_elem).
      rewrite app_assoc. by rewrite <- Permutation_cons_append.
Qed.

Lemma remove_slots_spec k l :
  live elem_used (remove_slots k l).1 = remove_key k (live elem_used l) /\
  (remove_slots k l).2 = (filter (fun e => key_eqb e.1 k = true) (live elem_used l)).*2.
Proof.
  induction l as [|[k0 v0] l [IH1 IH2]]; [done|]. simpl. destruct (remove_slots k l) as [l' f]. simpl in *.
  unfold elem_matches. simpl. rewrite live_cons. destruct (elem_used (k0, v0)) eqn:U; simpl.
  - unfold remove_key in *. rewrite !filter_cons. simpl. destruct (addr_eq_s k0 k) eqn:E; simpl.
    + rewrite live_cons. simpl. subst f. done.
    + rewrite live_cons, U. by rewrite IH1.
  - by rewrite live_cons, U.
Qed.

Lemma addr_list_remove_spec h k :
  addr_elems (addr_list_remove h k).1 = remove_key k (addr_elems h) /\
  (addr_list_remove h k).2 = (filter (fun e => key_eqb e.1 k = true) (addr_elems h)).*2.
Proof.
  unfold addr_list_remove. pose proof (remove_slots_spec k (main_list h)) as [A1 A2].
  pose proof (remove_slots_spec k (extra_list h)) as [B1 B2].
  destruct (remove_slots k (main_list h)) as [m f1], (remove_slots k (extra_list h)) as [e f2]. simpl in *.
  unfold addr_elems, remove_key in *. simpl. rewrite !filter_app, fmap_app. subst. by rewrite A1, B1.
Qed.

Lemma addr_bucket m k :
  addr_map_inv m ->
  exists h, addr_lists m !! addr_map_index k = Some h /\ at_index (addr_lists m) (addr_map_index k) = Ret h /\
    ur_addr_map_valid m = true /\ addr_map_abs m k = find_key k (addr_elems h).
Proof.
  intros [Hm [L W]]. destruct (table_bucket _ _ (addr_map_index k) L (addr_map_index_lt k)) as [h Hh].
  exists h. split; [done|]. split; [by apply at_index_ret|].
  split; [unfold ur_addr_map_valid; by rewrite Hm|].
  apply (tget_bucket (HK := addr_key) addr_elems _ h k k Hh eq_refl).
Qed.

Lemma addr_get_abs m k : addr_map_inv m -> ur_addr_map_get m k = Ret (addr_map_abs m k).
Proof.
  intros Hi. destruct (addr_bucket m k Hi) as (h & Hh & E & V & A).
  unfold ur_addr_map_get, addr_list_get_const. rewrite V, E, A. mstep.
  pose proof (addr_list_get_spec h k) as S. cbn [negb]. destruct (find_key k (addr_elems h)) as [v|].
  - destruct S as (r & -> & -> & _). done.
  - by rewrite S.
Qed.

Lemma addr_put_spec m k v :
  addr_map_inv m -> v <> 0 ->
  exists m', ur_addr_map_put m k v = Ret (0, m') /\ addr_map_inv m' /\
    forall k', addr_map_abs m' k' = if key_eqb k k' then Some v else addr_map_abs m k'.
Proof.
  intros Hi Hv. destruct (addr_bucket m k Hi) as (h & Hh & E & V & A). destruct Hi as [Hm W].
  unfold ur_addr_map_put. rewrite V, E. mstep. cbn [negb].
  pose proof (addr_list_get_spec h k) as S. eexists. split; [done|]. unfold addr_map_inv, addr_map_abs. simpl.
  destruct (find_key k (addr_elems h)) as [v0|] eqn:F.
  - destruct S as (r & -> & _ & Hup). destruct (table_update (HK := addr_key) addr_elems ADDR_MAP_SIZE (addr_lists m) h
      (set_elem_value h r v) k v W Hh) as [W' G]; [by rewrite F|by apply Hup|]. done.
  - rewrite S. destruct (table_add (HK := addr_key) addr_elems ADDR_MAP_SIZE (addr_lists m) h
      (addr_list_add h k v) k v W Hh F) as [W' G]; [by apply addr_list_add_spec|]. done.
Qed.

Lemma addr_del_spec m k :
  addr_map_inv m ->
  exists m' b freed, ur_addr_map_del m k = Ret (b, m', freed) /\ addr_map_inv m' /\
    forall k', addr_map_abs m' k' = if key_eqb k k' then None else addr_map_abs m k'.
Proof.
  intros Hi. destruct (addr_bucket m k Hi) as (h & Hh & E & V & A). destruct Hi as [Hm W].
  unfold ur_addr_map_del. rewrite V, E. mstep. cbn [negb].
  pose proof (addr_list_remove_spec h k) as [S _]. destruct (addr_list_remove h k) as [h' freed]. simpl in S.
  eexists _, _, freed. split; [done|]. unfold addr_map_inv, addr_map_abs. simpl.
  destruct (table_remove (HK := addr_key) addr_elems ADDR_MAP_SIZE (addr_lists m) h h' k W Hh S) as [W' G]. done.
Qed.

#[export] Instance addr_map_store : KVStore ioa_addr Z ur_addr_map := {|
  kv_inv := addr_map_inv;
  kv_value_ok v := v <> 0;
  kv_abs := addr_map_abs;
  kv_get := ur_addr_map_get;
  kv_put m k v := '(_, m') ← ur_addr_map_put m k v; Ret m';
  kv_del m k := '(_, m', _) ← ur_addr_map_del m k; Ret m' |}.

#[export] Instance addr_map_laws : KVLaws ioa_addr Z ur_addr_map.
Proof.
  constructor; simpl.
  - apply addr_get_abs.
  - intros m k v Hi _ Hv. destruct (addr_put_spec m k v Hi Hv) as (m' & -> & ?). by exists m'.
  - intros m k Hi. destruct (addr_del_spec m k Hi) as (m' & b & f & -> & ?). by exists m'.
Qed.

Lemma addr_map_init_inv : addr_map_inv ur_addr_map_init.
Proof. split; [done|]. by apply twf_empty. Qed.

(** * String maps *)
Lemma cstr_all_nonzero s : Forall (fun c => c <> 0) (cstr s).
Proof.
  induction s as [|c s IH]; simpl; [constructor|]. destruct (c =? 0) eqn:?; [constructor|].
  constructor; [by bool_arith|done].
Qed.

Lemma strcmp_zero a b : (strcmp a b =? 0) = true <-> cstr a = cstr b.
Proof. rewrite Z.eqb_eq. apply strcmp_chars_zero; apply cstr_all_nonzero. Qed.

Lemma cstr_cstr s : cstr (cstr s) = cstr s.
Proof. apply cstr_nonzero, cstr_all_nonzero. Qed.

#[export] Instance string_key : HashKey (list Z) :=
  {| key_eqb a b := strcmp a b =? 0; key_hash := string_map_index |}.

#[export] Instance string_key_laws : HashKeyLaws (list Z).
Proof.
  constructor; simpl.
  - intros k k'. apply eq_true_iff_eq. rewrite !strcmp_zero. done.
  - intros k1 k2 k3. rewrite !strcmp_zero. congruence.
  - intros k k'. rewrite strcmp_zero. unfold string_map_index, string_hash. by intros ->.
Qed.

Lemma string_map_index_lt k : (string_map_index k < STRING_MAP_SIZE)%nat.
Proof.
  unfold string_map_index. pose proof (Z.mod_pos_bound (string_hash k) (Z.of_nat STRING_MAP_SIZE)).
  unfold STRING_MAP_SIZE in *. lia.
Qed.

Definition string_map_inv (m : ur_string_map) : Prop :=
  string_magic m = MAGIC_HASH /\ twf (fun l : string_list => l) STRING_MAP_SIZE (string_lists m).

Definition string_map_abs (m : ur_string_map) (k : list Z) : option Z :=
  tget (fun l : string_list => l) (string_lists m) k.

Lemma string_list_get_spec (l : string_list) k :
  match find_key k l with
  | Some v => exists i e, string_list_get l k = Some i /\ l !! i = Some e /\ e.2 = v /\
                forall v', <[i := (e.1, v')]> l = update_first k v' l
  | None => string_list_get l k = None
  end.
Proof.
  induction l as [|[k0 v0] l IH]; [done|]. simpl. destruct (strcmp k0 k =? 0) eqn:E.
  - by exists 0%nat, (k0, v0).
  - destruct (find_key k l) as [v|]; [|by rewrite IH].
    destruct IH as (i & e & -> & Hi & Hv & Hup). exists (S i), e. do 3 (split; [done|]).
    intros v'. simpl. by rewrite <- Hup.
Qed.

Lemma string_list_remove_spec (l : string_list) k :
  (string_list_remove l k).1 = remove_key k l /\
  (string_list_remove l k).2 = (filter (fun e => key_eqb e.1 k = true) l).*2.
Proof.
  unfold remove_key. induction l as [|[k0 v0] l [IH1 IH2]]; [done|]. simpl. destruct (string_list_remove l k) as [l' f].
  simpl in *. rewrite !filter_cons. simpl. destruct (strcmp k0 k =? 0); simpl; by rewrite ?IH1, ?IH2.
Qed.

Lemma string_bucket m k :
  string_map_inv m ->
  exists l, string_lists m !! string_map_index k = Some l /\ at_index (string_lists m) (string_map_index k) = Ret l /\
    ur_string_map_valid m = true /\ string_map_abs m k = find_key k l.
Proof.
  intros [Hm [L W]]. destruct (table_bucket _ _ (string_map_index k) L (string_map_index_lt k)) as [h Hh].
  exists h. split; [done|]. split; [by apply at_index_ret|].
  split; [unfold ur_string_map_valid; by rewrite Hm|].
  apply (tget_bucket (HK := string_key) (fun l : string_list => l) _ h k k Hh eq_refl).
Qed.

Lemma string_get_abs m k : string_map_inv m -> ur_string_map_get m k = Ret (string_map_abs m k).
Proof.
  intros Hi. destruct (string_bucket m k Hi) as (l & Hl & E & V & A).
  unfold ur_string_map_get. rewrite V, E, A. mstep. cbn [negb].
  pose proof (string_list_get_spec l k) as S. destruct (find_key k l) as [v|].
  - destruct S as (i & e & -> & He & <- & _). by rewrite (at_index_ret _ _ _ He).
  - by rewrite S.
Qed.

(** All values of the map. *)
Definition string_values (m : ur_string_map) : list Z :=
  concat ((fun l : string_list => l.*2) <$> string_lists m).

Lemma concat_insert_perm {A} (t : list (list A)) i l l' x y :
  t !! i = Some l -> x ++ l' ≡ₚ y ++ l -> x ++ concat (<[i:=l']> t) ≡ₚ y ++ concat t.
Proof.
  revert i. induction t as [|a t IH]; intros [|i] Hl P; simpl in *; try done.
  - injection Hl as ->. by rewrite !app_assoc, P.
  - specialize (IH i Hl P). rewrite !(Permutation_app_comm a), !app_assoc, IH. done.
Qed.

Lemma update_first_values (k : list Z) (v v0 : Z) (l : string_list) :
  find_key k l = Some v0 -> v0 :: (update_first k v l).*2 ≡ₚ v :: l.*2.
Proof.
  induction l as [|[k1 v1] l IH]; simpl; [done|]. destruct (strcmp k1 k =? 0).
  - intros [= ->]. csimpl. by constructor.
  - intros H. csimpl. rewrite Permutation_swap, IH by done. by rewrite Permutation_swap.
Qed.

Lemma remove_values (k : list Z) (l : string_list) :
  (filter (fun e => key_eqb e.1 k = true) l).*2 ++ (remove_key k l).*2 ≡ₚ l.*2.
Proof.
  unfold remove_key. induction l as [|[k1 v1] l IH]; [done|]. rewrite !filter_cons. simpl.
  destruct (strcmp k1 k =? 0); csimpl.
  - by rewrite IH.
  - rewrite <- Permutation_middle. by rewrite IH.
Qed.

(** Insertion: the map afterwards, and which values were handed to the
    destructor: none is lost and none is kept twice. *)
Lemma string_put_spec m k v :
  string_map_inv m ->
  exists m' freed, ur_string_map_put m k v = Ret (0, m', freed) /\ string_map_inv m' /\
    (forall k', string_map_abs m' k' = if key_eqb k k' then Some v else string_map_abs m k') /\
    (string_map_abs m k = Some v -> m' = m /\ freed = []) /\
    (string_map_abs m k <> Some v -> freed ++ string_values m' ≡ₚ v :: string_values m).
Proof.
  intros Hi. destruct (string_bucket m k Hi) as (l & Hl & E & V & A).
  pose proof Hi as [Hm W]. unfold ur_string_map_put. rewrite V, E. mstep. cbn [negb].
  pose proof (string_list_get_spec l k) as S. rewrite A. destruct (find_key k l) as [v0|] eqn:F.
  - destruct S as (i & e & -> & He & Ev & Hup). rewrite (at_index_ret _ _ _ He). mstep. rewrite Ev.
    destruct (v0 =? v) eqn:Eq; cbn [negb]; bool_arith.
    + subst v0. exists m, []. split; [done|]. split; [done|]. split; [|split; [done|congruence]].
      intros k'. destruct (key_eqb k k') eqn:Ek; [|done].
      destruct (string_bucket m k' Hi) as (l' & Hl' & _ & _ & ->).
      assert (l' = l) as -> by (rewrite (key_hash_proper (HK := string_key) k k' Ek : string_map_index k = string_map_index k') in Hl; congruence).
      pose proof (find_key_cong (HK := string_key) k k' l Ek). congruence.
    + destruct (table_update (HK := string_key) (fun l : string_list => l) STRING_MAP_SIZE (string_lists m) l
        (update_first k v l) k v W Hl) as [W' G]; [by rewrite F|done|].
      rewrite Hup. eexists _, [v0]. split; [done|]. split; [split; [exact Hm|exact W']|]. split; [exact G|].
      split; [congruence|]. intros _. unfold string_values. cbn [string_lists]. rewrite list_fmap_insert.
      apply (concat_insert_perm _ _ l.*2 _ [v0] [v]); [by rewrite list_lookup_fmap, Hl|].
      by apply update_first_values.
  - rewrite S. unfold string_list_add.
    assert (string_map_index (cstr k) = string_map_index k) as Hidx
      by (unfold string_map_index, string_hash; by rewrite cstr_cstr).
    assert (forall k', key_eqb k k' = key_eqb (cstr k) k') as Hkey
      by (intros k'; simpl; unfold strcmp; by rewrite cstr_cstr).
    rewrite <- Hidx in Hl |- *.
    destruct (table_add (HK := string_key) (fun l : string_list => l) STRING_MAP_SIZE (string_lists m) l
        ((cstr k, v) :: l) (cstr k) v W Hl) as [W' G]; [|done|].
    { rewrite <- F. clear. induction l as [|[a b] l IH]; simpl; [done|]. rewrite IH. unfold strcmp. by rewrite cstr_cstr. }
    eexists _, []. split; [done|]. split; [split; [exact Hm|exact W']|].
    split; [intros k'; rewrite Hkey; apply G|]. split; [done|]. intros _.
    unfold string_values. cbn [string_lists]. rewrite list_fmap_insert.
    apply (concat_insert_perm _ _ l.*2 _ [] [v]); [by rewrite list_lookup_fmap, Hl|done].
Qed.

Lemma string_del_spec m k :
  string_map_inv m ->
  exists m' b freed, ur_string_map_del m k = Ret (b, m', freed) /\ string_map_inv m' /\
    (forall k', string_map_abs m' k' = if key_eqb k k' then None else string_map_abs m k') /\
    freed ++ string_values m' ≡ₚ string_values m.
Proof.
  intros Hi. destruct (string_bucket m k Hi) as (l & Hl & E & V & A). destruct Hi as [Hm W].
  unfold ur_string_map_del. rewrite V, E. mstep. cbn [negb].
  pose proof (string_list_remove_spec l k) as [S1 S2]. destruct (string_list_remove l k) as [l' freed]. simpl in S1, S2.
  destruct (table_remove (HK := string_key) (fun l : string_list => l) STRING_MAP_SIZE (string_lists m) l l' k W Hl S1)
    as [W' G].
  eexists _, _, freed. split; [done|]. split; [split; [exact Hm|exact W']|]. split; [exact G|].
  unfold string_values. cbn [string_lists]. rewrite list_fmap_insert.
  apply (concat_insert_perm _ _ l.*2 _ freed []); [by rewrite list_lookup_fmap, Hl|].
  subst. apply remove_values.
Qed.

#[export] Instance string_map_store : KVStore (list Z) Z ur_string_map := {|
  kv_inv := string_map_inv;
  kv_value_ok _ := True;
  kv_abs := string_map_abs;
  kv_get := ur_string_map_get;
  kv_put m k v := '(_, m', _) ← ur_string_map_put m k v; Ret m';
  kv_del m k := '(_, m', _) ← ur_string_map_del m k; Ret m' |}.

#[export] Instance string_map_laws : KVLaws (list Z) Z ur_string_map.
Proof.
  constructor; simpl.
  - apply string_get_abs.
  - intros m k v Hi _ _. destruct (string_put_spec m k v Hi) as (m' & f & -> & ? & ? & _). by exists m'.
  - intros m k Hi. destruct (string_del_spec m k Hi) as (m' & b & f & -> & ? & ? & _). by exists m'.
Qed.

Lemma string_map_init_inv : string_map_inv ur_string_map_init.
Proof. split; [done|]. by apply (twf_empty (HK := string_key) (fun l : string_list => l)). Qed.

(** * Claims *)

(** The address map is a finite map from transport addresses: after any
    sequence of insertions (non-zero values under IPv4 or IPv6 addresses) and
    deletions on a fresh map, looking up an address gives the value of the last
    insertion under an equal address that no deletion followed. *)
Theorem addr_map_refines (ops : list (kv_op ioa_addr Z)) :
  Forall op_ok ops ->
  exists m, kv_run ur_addr_map_init ops = Ret m /\
    forall k, ur_addr_map_get m k = Ret (ref_run (fun _ => None) ops k).
Proof.
  intros Hops. destruct (kv_run_refines (KV := addr_map_store) ur_addr_map_init ops addr_map_init_inv Hops) as (m & E & I & A).
  exists m. split; [done|]. intros k. rewrite addr_get_abs by done. f_equal. etransitivity; [apply A|].
  apply ref_run_ext. intros k'. by apply tget_empty.
Qed.

Lemma addr_map_refines_witness :
  exists m, kv_run ur_addr_map_init
      [OpPut (ex_v4 192 0 2 1 1000) 7; OpPut (ex_v4 192 0 2 1 1000) 8; OpDel (ex_v4 192 0 2 2 1000)] = Ret m /\
    forall k, ur_addr_map_get m k =
      Ret (ref_run (fun _ => None)
        [OpPut (ex_v4 192 0 2 1 1000) 7; OpPut (ex_v4 192 0 2 1 1000) 8; OpDel (ex_v4 192 0 2 2 1000)] k).
Proof. apply addr_map_refines. repeat constructor; simpl; lia. Defined.

(** The string map is a finite map, and it owns its values: after any
    sequence of insertions and deletions a lookup gives the last value put
    under the string; an insertion that changes the value hands exactly the
    replaced value to the destructor, a deletion exactly the removed ones, so
    no value is lost and none is destroyed while still in the map. *)
Theorem string_map_refines :
  (forall ops : list (kv_op (list Z) Z),
     exists m, kv_run ur_string_map_init ops = Ret m /\
       forall k, ur_string_map_get m k = Ret (ref_run (fun _ => None) ops k)) /\
  (forall m k v, string_map_inv m -> string_map_abs m k <> Some v ->
     exists m' freed, ur_string_map_put m k v = Ret (0, m', freed) /\
       freed ++ string_values m' ≡ₚ v :: string_values m) /\
  (forall m k, string_map_inv m ->
     exists m' b freed, ur_string_map_del m k = Ret (b, m', freed) /\
       freed ++ string_values m' ≡ₚ string_values m).
Proof.
  split; [|split].
  - intros ops. destruct (kv_run_refines (KV := string_map_store) ur_string_map_init ops string_map_init_inv) as (m & E & I & A).
    { apply Forall_forall. intros [k v|k] _; [|done]. split; [|done]. unfold key_ok. simpl. by apply strcmp_zero. }
    exists m. split; [done|]. intros k. rewrite string_get_abs by done. f_equal. etransitivity; [apply A|].
    apply ref_run_ext. intros k'. by apply (tget_empty (HK := string_key) (fun l : string_list => l)).
  - intros m k v Hi Hv. destruct (string_put_spec m k v Hi) as (m' & f & E & _ & _ & _ & P).
    exists m', f. split; [done|by apply P].
  - intros m k Hi. destruct (string_del_spec m k Hi) as (m' & b & f & E & _ & _ & P). by exists m', b, f.
Qed.

Lemma string_map_refines_witness :
  exists m' freed, ur_string_map_put ur_string_map_init [97] 5 = Ret (0, m', freed) /\
    freed ++ string_values m' ≡ₚ 5 :: string_values ur_string_map_init.
Proof. apply string_map_refines; [exact string_map_init_inv|vm_compute; discriminate]. Defined.

(** The local map, on keys it does not hold: insertion of a new key
    succeeds, adds exactly that entry and keeps all others; deletion removes
    exactly the key, reports whether it was there and passes its value to the
    destructor; lookup agrees with the abstract map; the size counts the
    entries. *)
Theorem lm_map_correct m k v :
  lm_inv m -> k <> 0 -> v <> 0 ->
  lm_map_get m k = Ret (lm_abs m k) /\
  (lm_abs m k = None ->
     exists m', lm_map_put m k v = Ret (0, m') /\ lm_inv m' /\ lm_map_size m' = lm_map_size m + 1 /\
       forall k', lm_abs m' k' = if k =? k' then Some v else lm_abs m k') /\
  (exists m', lm_map_del m k = Ret (match lm_abs m k with Some _ => 1 | None => 0 end, m', option_list (lm_abs m k)) /\
     lm_inv m' /\ lm_map_size m' = lm_map_size m - blen (option_list (lm_abs m k)) /\
     forall k', lm_abs m' k' = if k =? k' then None else lm_abs m k').
Proof.
  intros Hi Hk Hv. split; [by apply lm_get_abs|]. split; [by intros; apply lm_put_fresh|by apply lm_del_spec].
Qed.

Lemma lm_map_init_inv : lm_inv lm_map_init.
Proof. split; [by apply twf_empty|]. repeat constructor; by left. Qed.

Lemma lm_map_correct_witness :
  exists m', lm_map_put lm_map_init 8 5 = Ret (0, m') /\ lm_inv m' /\ lm_map_size m' = lm_map_size lm_map_init + 1 /\
    forall k', lm_abs m' k' = if 8 =? k' then Some 5 else lm_abs lm_map_init k'.
Proof. apply (lm_map_correct lm_map_init 8 5); [exact lm_map_init_inv|lia|lia|]. reflexivity. Defined.

(** The local map under a key it holds: insertion stops at the first free
    cell without looking further, so after a deletion has freed an earlier cell
    it stores a key a second time, reports success although the stored value
    differs, and a later deletion brings the old value back. *)
Theorem lm_map_put_duplicates :
  exists m1 m2 m3,
    (r1 ← lm_map_put lm_map_init 8 1; r2 ← lm_map_put r1.2 16 2; r3 ← lm_map_del r2.2 8; Ret r3.1.2) = Ret m1 /\
    lm_map_get m1 16 = Ret (Some 2) /\
    lm_map_put m1 16 3 = Ret (0, m2) /\ lm_map_get m2 16 = Ret (Some 3) /\
    lm_map_del m2 16 = Ret (1, m3, [3]) /\ lm_map_get m3 16 = Ret (Some 2).
Proof. do 3 eexists. repeat split. Qed.
