(* ===== verification/KHash.v ===== *)
(** The hash table behind the maps of sessions and of reserved sockets:
    server/ns_turn_khash.h, instantiated for 64-bit keys, and [ur_map] of
    server/ns_turn_maps.c.

    Cells of the arrays of keys and values that were never written are [None];
    reading one is undefined.  The flags are two bits a cell in words of 32
    bits.  [malloc] and [realloc] do not fail; the mutex of [ur_map] is not
    modelled. *)

From stdpp Require Import base option numbers list.
From S2P Require Import Prelude TurnMaps.

Definition __ac_HASH_PRIME_SIZE : nat := 32.
Definition __ac_prime_list : list Z :=
  [0; 3; 11; 23; 53;
   97; 193; 389; 769; 1543;
   3079; 6151; 12289; 24593; 49157;
   98317; 196613; 393241; 786433; 1572869;
   3145739; 6291469; 12582917; 25165843; 50331653;
   100663319; 201326611; 402653189; 805306457; 1610612741;
   3221225473; 4294967291].

(** ** Flags *)
Definition flag_shift (i : Z) : Z := Z.shiftl (Z.land i 15) 1.
Definition flag_word (flag : list Z) (i : Z) : outcome Z := at_index flag (Z.to_nat (Z.shiftr i 4)).
Definition flag_put (flag : list Z) (i : Z) (f : Z -> Z) : outcome (list Z) :=
  w ← flag_word flag i; Ret (<[Z.to_nat (Z.shiftr i 4) := f w]> flag).

Definition __ac_isempty (flag : list Z) (i : Z) : outcome bool :=
  w ← flag_word flag i; Ret (truthy (Z.land (Z.shiftr w (flag_shift i)) 2)).
Definition __ac_isdel (flag : list Z) (i : Z) : outcome bool :=
  w ← flag_word flag i; Ret (truthy (Z.land (Z.shiftr w (flag_shift i)) 1)).
Definition __ac_iseither (flag : list Z) (i : Z) : outcome bool :=
  w ← flag_word flag i; Ret (truthy (Z.land (Z.shiftr w (flag_shift i)) 3)).
Definition __ac_set_isempty_false (flag : list Z) (i : Z) : outcome (list Z) :=
  flag_put flag i (fun w => Z.ldiff w (Z.shiftl 2 (flag_shift i))).
Definition __ac_set_isboth_false (flag : list Z) (i : Z) : outcome (list Z) :=
  flag_put flag i (fun w => Z.ldiff w (Z.shiftl 3 (flag_shift i))).
Definition __ac_set_isdel_true (flag : list Z) (i : Z) : outcome (list Z) :=
  flag_put flag i (fun w => Z.lor w (Z.shiftl 1 (flag_shift i))).

(** [(khint_t)(n * 0.77 + 0.5)]: the numbers of the list are odd, so that the
    exact value is never an integer and the rounding of the double does not
    change its integral part. *)
Definition hash_upper (n : Z) : Z := (n * 77 + 50) / 100.

Definition kh_int64_hash_func (key : Z) : Z :=
  u32 (Z.lxor (Z.lxor (Z.shiftr key 33) key) (u64 (Z.shiftl key 11))).

Section khash.
Context {V : Type}.

Record khash : Type := KHash {
  n_buckets : Z;
  kh_size : Z;
  n_occupied : Z;
  upper_bound : Z;
  kh_flags : list Z;
  kh_keys : list (option Z);
  kh_vals : list (option V) }.

Definition kh_init : khash := KHash 0 0 0 0 [] [] [].

Definition cell {A} (l : list (option A)) (i : Z) : outcome A :=
  x ← at_index l (Z.to_nat i);
  match x with Some a => Ret a | None => UB end.
Definition set_cell {A} (l : list (option A)) (i : Z) (a : A) : outcome (list (option A)) :=
  _ ← at_index l (Z.to_nat i); Ret (<[Z.to_nat i := Some a]> l).

Definition umod (a b : Z) : outcome Z := if b =? 0 then UB else Ret (a mod b).

(** The next place of the probe. *)
Definition probe_next (n inc i : Z) : Z :=
  let s := u32 (i + inc) in if s >=? n then u32 (s - n) else s.

(** [!isempty(i) && (isdel(i) || keys[i] != key)] *)
Definition other_cell (h : khash) (key i : Z) : outcome bool :=
  e ← __ac_isempty (kh_flags h) i;
  if (e : bool) then Ret false else
  d ← __ac_isdel (kh_flags h) i;
  if (d : bool) then Ret true else
  k ← cell (kh_keys h) i;
  Ret (negb (k =? key)).

Fixpoint get_loop (fuel : nat) (h : khash) (key inc last i : Z) : outcome Z :=
  match fuel with
  | O => NoFuel
  | S f =>
      go ← other_cell h key i;
      if (go : bool) then
        let i := probe_next (n_buckets h) inc i in
        if i =? last then Ret (n_buckets h) else get_loop f h key inc last i
      else x ← __ac_iseither (kh_flags h) i; Ret (if (x : bool) then n_buckets h else i)
  end.

Definition kh_get (h : khash) (key : Z) : outcome Z :=
  if truthy (n_buckets h) then
    let k := kh_int64_hash_func key in
    i ← umod k (n_buckets h);
    inc ← umod k (u32 (n_buckets h - 1));
    get_loop (S (Z.to_nat (n_buckets h))) h key (u32 (1 + inc)) i i
  else Ret 0.

(** ** Growing and rehashing in place *)
Fixpoint prime_index (t : nat) (new_n_buckets : Z) : outcome nat :=
  p ← at_index __ac_prime_list t;
  if p >? new_n_buckets then match t with O => UB | S t => prime_index t new_n_buckets end else Ret t.

(** What is moved: the old and the new flags, the keys and the values. *)
Record rehash : Type := Rehash {
  rh_flags : list Z;
  rh_new : list Z;
  rh_keys : list (option Z);
  rh_vals : list (option V) }.

Fixpoint empty_loop (fuel : nat) (new_flags : list Z) (new_n inc i : Z) : outcome Z :=
  match fuel with
  | O => NoFuel
  | S f =>
      e ← __ac_isempty new_flags i;
      if (e : bool) then Ret i else empty_loop f new_flags new_n inc (probe_next new_n inc i)
  end.

(** The pair gets its place; one that is there and not yet moved is kicked out
    and gets another. *)
Fixpoint kick_loop (fuel : nat) (n new_n : Z) (r : rehash) (key : Z) (val : V) : outcome rehash :=
  match fuel with
  | O => NoFuel
  | S f =>
      let k := kh_int64_hash_func key in
      i ← umod k new_n;
      inc ← umod k (u32 (new_n - 1));
      i ← empty_loop (S (Z.to_nat new_n)) (rh_new r) new_n (u32 (1 + inc)) i;
      new_flags ← __ac_set_isempty_false (rh_new r) i;
      x ← (if i <? n then __ac_iseither (rh_flags r) i else Ret true);
      if negb x then
        key' ← cell (rh_keys r) i;
        keys ← set_cell (rh_keys r) i key;
        val' ← cell (rh_vals r) i;
        vals ← set_cell (rh_vals r) i val;
        flags ← __ac_set_isdel_true (rh_flags r) i;
        kick_loop f n new_n (Rehash flags new_flags keys vals) key' val'
      else
        keys ← set_cell (rh_keys r) i key;
        vals ← set_cell (rh_vals r) i val;
        Ret (Rehash (rh_flags r) new_flags keys vals)
  end.

Fixpoint move_loop (todo : nat) (j n new_n : Z) (r : rehash) : outcome rehash :=
  match todo with
  | O => Ret r
  | S t =>
      x ← __ac_iseither (rh_flags r) j;
      r ← (if (x : bool) then Ret r
           else
             key ← cell (rh_keys r) j;
             val ← cell (rh_vals r) j;
             flags ← __ac_set_isdel_true (rh_flags r) j;
             kick_loop (S (Z.to_nat n)) n new_n (Rehash flags (rh_new r) (rh_keys r) (rh_vals r)) key val);
      move_loop t (j + 1) n new_n r
  end.

Definition realloc_cells {A} (l : list (option A)) (n : Z) : list (option A) :=
  take (Z.to_nat n) l ++ replicate (Z.to_nat n - length l) None.

Definition grow_cells {A} (n new_n : Z) (l : list (option A)) : list (option A) := if n <? new_n then realloc_cells l new_n else l.
Definition shrink_cells {A} (n new_n : Z) (l : list (option A)) : list (option A) := if n >? new_n then realloc_cells l new_n else l.

Definition kh_resize (h : khash) (new_n_buckets : Z) : outcome khash :=
  t ← prime_index (__ac_HASH_PRIME_SIZE - 1) new_n_buckets;
  new_n ← at_index __ac_prime_list (S t);
  if kh_size h >=? hash_upper new_n then Ret h
  else
    let new_flags := replicate (Z.to_nat (Z.shiftr new_n 4 + 1)) 0xaaaaaaaa in
    let n := n_buckets h in
    r ← move_loop (Z.to_nat n) 0 n new_n (Rehash (kh_flags h) new_flags (grow_cells n new_n (kh_keys h)) (grow_cells n new_n (kh_vals h)));
    Ret (KHash new_n (kh_size h) (kh_size h) (hash_upper new_n) (rh_new r) (shrink_cells n new_n (rh_keys r)) (shrink_cells n new_n (rh_vals r))).

(** ** Insertion and removal *)

(** The place where the search ends, the last deleted cell on the way and the
    place chosen when the search came round; [n_buckets] for none. *)
Fixpoint put_loop (fuel : nat) (h : khash) (key inc last i site : Z) : outcome (Z * Z * Z) :=
  match fuel with
  | O => NoFuel
  | S f =>
      go ← other_cell h key i;
      if (go : bool) then
        d ← __ac_isdel (kh_flags h) i;
        let site := if (d : bool) then i else site in
        let i := probe_next (n_buckets h) inc i in
        if i =? last then Ret (i, site, site) else put_loop f h key inc last i site
      else Ret (i, site, n_buckets h)
  end.

Definition put_place (h : khash) (key : Z) : outcome Z :=
  let n := n_buckets h in
  let k := kh_int64_hash_func key in
  i ← umod k n;
  e ← __ac_isempty (kh_flags h) i;
  if (e : bool) then Ret i else
  inc ← umod k (u32 (n - 1));
  '(i, site, x) ← put_loop (S (Z.to_nat n)) h key (u32 (1 + inc)) i i n;
  if x =? n then
    e ← __ac_isempty (kh_flags h) i;
    Ret (if e && negb (site =? n) then site else i)
  else Ret x.

(** The place, the table and [*ret]. *)
Definition kh_put (h : khash) (key : Z) : outcome (Z * khash * Z) :=
  h ← (if n_occupied h >=? upper_bound h then
         if n_buckets h >? u32 (Z.shiftl (kh_size h) 1) then kh_resize h (u32 (n_buckets h - 1)) else kh_resize h (u32 (n_buckets h + 1))
       else Ret h);
  x ← put_place h key;
  e ← __ac_isempty (kh_flags h) x;
  d ← __ac_isdel (kh_flags h) x;
  if (e || d : bool) then
    keys ← set_cell (kh_keys h) x key;
    flags ← __ac_set_isboth_false (kh_flags h) x;
    Ret (x, KHash (n_buckets h) (u32 (kh_size h + 1)) (if e then u32 (n_occupied h + 1) else n_occupied h) (upper_bound h) flags keys (kh_vals h),
         if e then 1 else 2)
  else Ret (x, h, 0).

Definition kh_del (h : khash) (x : Z) : outcome khash :=
  if x =? n_buckets h then Ret h else
  b ← __ac_iseither (kh_flags h) x;
  if (b : bool) then Ret h else
  flags ← __ac_set_isdel_true (kh_flags h) x;
  Ret (KHash (n_buckets h) (u32 (kh_size h - 1)) (n_occupied h) (upper_bound h) flags (kh_keys h) (kh_vals h)).

Definition kh_exist (h : khash) (x : Z) : outcome bool := b ← __ac_iseither (kh_flags h) x; Ret (negb b).

Definition set_value (h : khash) (x : Z) (v : V) : outcome khash :=
  vals ← set_cell (kh_vals h) x v;
  Ret (KHash (n_buckets h) (kh_size h) (n_occupied h) (upper_bound h) (kh_flags h) (kh_keys h) vals).

(** * ur_map *)
Record ur_map : Type := UrMapOf { um_h : khash; um_magic : Z }.

Definition ur_map_create : ur_map := UrMapOf kh_init MAGIC_HASH.
Definition ur_map_valid (map : ur_map) : bool := um_magic map =? MAGIC_HASH.
Definition with_h (map : ur_map) (h : khash) : ur_map := UrMapOf h (um_magic map).

Definition ur_map_put (map : ur_map) (key : Z) (value : V) : outcome (Z * ur_map) :=
  if negb (ur_map_valid map) then Ret (-1, map) else
  let h := um_h map in
  k ← kh_get h key;
  h ← (if k =? n_buckets h then Ret h else kh_del h k);
  '(k, h, ret) ← kh_put h key;
  if truthy ret then h ← set_value h k value; Ret (0, with_h map h)
  else h ← kh_del h k; Ret (-1, with_h map h).

(** The cell of the key, when it has one. *)
Definition ur_map_find (map : ur_map) (key : Z) : outcome (option Z) :=
  if negb (ur_map_valid map) then Ret None else
  k ← kh_get (um_h map) key;
  if k =? n_buckets (um_h map) then Ret None
  else e ← kh_exist (um_h map) k; Ret (if (e : bool) then Some k else None).

Definition ur_map_get (map : ur_map) (key : Z) : outcome (option V) :=
  k ← ur_map_find map key;
  match k with Some k => v ← cell (kh_vals (um_h map)) k; Ret (Some v) | None => Ret None end.

(** The answer, the map and the value given to [delfunc]. *)
Definition ur_map_del (map : ur_map) (key : Z) : outcome (bool * ur_map * option V) :=
  k ← ur_map_find map key;
  match k with
  | Some k => v ← cell (kh_vals (um_h map)) k; h ← kh_del (um_h map) k; Ret (true, with_h map h, Some v)
  | None => Ret (false, map, None)
  end.

Definition ur_map_exist (map : ur_map) (key : Z) : outcome bool :=
  k ← ur_map_find map key; Ret (match k with Some _ => true | None => false end).

(** [NULL] afterwards, when the map is valid. *)
Definition ur_map_free (map : ur_map) : option ur_map := if ur_map_valid map then None else Some map.

Definition ur_map_size (map : ur_map) : Z := if ur_map_valid map then kh_size (um_h map) else 0.

(** [func] changes [arg] and stops the walk with [true]. *)
Fixpoint foreach_loop {A} (todo : nat) (k : Z) (h : khash) (func : A -> Z -> V -> A * bool) (arg : A) : outcome (A * bool) :=
  match todo with
  | O => Ret (arg, false)
  | S t =>
      e ← kh_exist h k;
      if (e : bool) then
        key ← cell (kh_keys h) k;
        v ← cell (kh_vals h) k;
        let '(arg, stop) := func arg key v in
        if (stop : bool) then Ret (arg, true) else foreach_loop t (k + 1) h func arg
      else foreach_loop t (k + 1) h func arg
  end.

Definition ur_map_foreach_arg {A} (map : ur_map) (func : A -> Z -> V -> A * bool) (arg : A) : outcome (A * bool) :=
  if ur_map_valid map then foreach_loop (Z.to_nat (n_buckets (um_h map))) 0 (um_h map) func arg else Ret (arg, false).
End khash.
Arguments khash : clear implicits.
Arguments rehash : clear implicits.
Arguments ur_map : clear implicits.
