(* ===== verification/KHashFacts.v ===== *)
(** The hash table of KHash is a finite map: the flags, the probe over a prime
    number of cells, the invariant, rehashing in place, and the refinement. *)

From stdpp Require Import base option numbers list.
From Stdlib Require Import Znumtheory.
From S2P Require Import Prelude TurnMaps TurnMapsFacts KeyMap KHash.

(** * Flags *)
Definition wrd (fl : list Z) (i : Z) : Z := default 0 (fl !! Z.to_nat (i / 16)).
Definition fe (fl : list Z) (i : Z) : bool := Z.testbit (wrd fl i) (2 * (i mod 16) + 1).
Definition fd (fl : list Z) (i : Z) : bool := Z.testbit (wrd fl i) (2 * (i mod 16)).
Definition live (fl : list Z) (i : Z) : bool := negb (fe fl i) && negb (fd fl i).

Lemma flag_shift_eq i : flag_shift i = 2 * (i mod 16).
Proof. unfold flag_shift. change 15 with (Z.ones 4). rewrite Z.land_ones, Z.shiftl_mul_pow2 by lia. change (2 ^ 4) with 16. lia. Qed.

Lemma flag_word_eq fl i : 0 <= i < 16 * blen fl -> flag_word fl i = Ret (wrd fl i).
Proof.
  intros H. unfold flag_word, wrd. rewrite Z.shiftr_div_pow2 by lia. change (2 ^ 4) with 16.
  assert (is_Some (fl !! Z.to_nat (i / 16))) as [w Hw].
  { apply lookup_lt_is_Some. pose proof (Z.div_pos i 16). assert (i / 16 < blen fl) by (apply Z.div_lt_upper_bound; lia). unfold blen in *. lia. }
  rewrite (at_index_ret _ _ _ Hw). by rewrite Hw.
Qed.

Lemma land_bit w b : 0 <= b -> truthy (Z.land w (2 ^ b)) = Z.testbit w b.
Proof.
  intros Hb. unfold truthy. destruct (Z.testbit w b) eqn:E.
  - apply negb_true_iff, Z.eqb_neq. intros H. apply (f_equal (fun x => Z.testbit x b)) in H.
    by rewrite Z.land_spec, E, Z.pow2_bits_true, Z.bits_0 in H by done.
  - apply negb_false_iff, Z.eqb_eq, Z.bits_inj'. intros n Hn. rewrite Z.land_spec, Z.bits_0, Z.pow2_bits_eqb by done.
    destruct (Z.eqb_spec b n) as [<-|]; [by rewrite E|apply andb_false_r].
Qed.

Section flag_ops.
Context (fl : list Z) (i : Z).
Hypothesis Hi : 0 <= i < 16 * blen fl.

Lemma isempty_ret : __ac_isempty fl i = Ret (fe fl i).
Proof.
  unfold __ac_isempty. rewrite (flag_word_eq fl i Hi), flag_shift_eq. mstep. f_equal. change 2 with (2 ^ 1) at 2. rewrite land_bit by lia.
  rewrite Z.shiftr_spec by lia. unfold fe. f_equal. lia.
Qed.

Lemma isdel_ret : __ac_isdel fl i = Ret (fd fl i).
Proof.
  unfold __ac_isdel. rewrite (flag_word_eq fl i Hi), flag_shift_eq. mstep. f_equal. change 1 with (2 ^ 0) at 1. rewrite land_bit by lia.
  by rewrite Z.shiftr_spec by lia.
Qed.

Lemma iseither_ret : __ac_iseither fl i = Ret (negb (live fl i)).
Proof.
  unfold __ac_iseither. rewrite (flag_word_eq fl i Hi), flag_shift_eq. mstep. f_equal. unfold live. rewrite negb_andb, !negb_involutive.
  set (w := Z.shiftr (wrd fl i) _). assert (fe fl i = Z.testbit w 1 /\ fd fl i = Z.testbit w 0) as [-> ->].
  { unfold w. rewrite !Z.shiftr_spec by (pose proof (Z.mod_pos_bound i 16); lia). unfold fe, fd. split; f_equal; lia. }
  change 3 with (Z.lor (2 ^ 1) (2 ^ 0)). rewrite Z.land_lor_distr_r. rewrite <- !land_bit by lia. unfold truthy.
  destruct (Z.eqb_spec (Z.lor (Z.land w (2 ^ 1)) (Z.land w (2 ^ 0))) 0) as [E|E].
  - apply Z.lor_eq_0_iff in E as [-> ->]. done.
  - destruct (Z.eqb_spec (Z.land w (2 ^ 1)) 0) as [E1|E1], (Z.eqb_spec (Z.land w (2 ^ 0)) 0) as [E0|E0]; try done.
    by rewrite E1, E0 in E.
Qed.

Lemma wrd_put f j : 0 <= j -> wrd (<[Z.to_nat (i / 16) := f (wrd fl i)]> fl) j = if decide (j / 16 = i / 16) then f (wrd fl i) else wrd fl j.
Proof.
  intros Hj. unfold wrd at 1. destruct (decide (j / 16 = i / 16)) as [->|N].
  - rewrite list_lookup_insert_eq; [done|]. pose proof (Z.div_pos i 16). assert (i / 16 < blen fl) by (apply Z.div_lt_upper_bound; lia). unfold blen in *. lia.
  - rewrite list_lookup_insert_ne; [done|]. intros E. apply N. pose proof (Z.div_pos i 16). pose proof (Z.div_pos j 16). lia.
Qed.

Lemma flag_put_ret f : flag_put fl i f = Ret (<[Z.to_nat (i / 16) := f (wrd fl i)]> fl).
Proof. unfold flag_put. rewrite (flag_word_eq fl i Hi). mstep. by rewrite Z.shiftr_div_pow2 by lia. Qed.

(** A change of some bits of the cell [i] only. *)
Lemma put_bits f (P : Z -> bool -> bool) :
  (forall w b, 0 <= b -> Z.testbit (f w) b = if decide (2 * (i mod 16) <= b <= 2 * (i mod 16) + 1) then P (b - 2 * (i mod 16)) (Z.testbit w b) else Z.testbit w b) ->
  exists fl', flag_put fl i f = Ret fl' /\ length fl' = length fl /\
    forall j, 0 <= j -> fe fl' j = (if decide (j = i) then P 1 (fe fl i) else fe fl j) /\ fd fl' j = (if decide (j = i) then P 0 (fd fl i) else fd fl j).
Proof.
  intros Hf. rewrite flag_put_ret. eexists. split; [done|]. split; [apply length_insert|]. intros j Hj. unfold fe, fd. rewrite wrd_put by done.
  pose proof (Z.mod_pos_bound i 16). pose proof (Z.mod_pos_bound j 16). destruct (decide (j = i)) as [->|N].
  - rewrite decide_True by done. rewrite !Hf by lia. rewrite !decide_True by lia. split; f_equal; lia.
  - destruct (decide (j / 16 = i / 16)) as [E|E]; [|done]. assert (wrd fl j = wrd fl i) as -> by (unfold wrd; by rewrite E).
    assert (j mod 16 <> i mod 16) by (intros M; apply N; rewrite (Z.div_mod j 16), (Z.div_mod i 16) by lia; lia).
    rewrite !Hf by lia. rewrite !decide_False by lia. done.
Qed.
End flag_ops.

Lemma set_isempty_false_ret fl i : 0 <= i < 16 * blen fl ->
  exists fl', __ac_set_isempty_false fl i = Ret fl' /\ length fl' = length fl /\
    forall j, 0 <= j -> fe fl' j = (if decide (j = i) then false else fe fl j) /\ fd fl' j = fd fl j.
Proof.
  intros Hi. destruct (put_bits fl i Hi (fun w => Z.ldiff w (Z.shiftl 2 (flag_shift i))) (fun b x => x && negb (b =? 1))) as (fl' & E & L & H).
  - intros w b Hb. rewrite Z.ldiff_spec, Z.shiftl_spec, flag_shift_eq by lia. change 2 with (2 ^ 1) at 1.
    rewrite Z.pow2_bits_eqb by lia. destruct (decide _) as [|N]; [by rewrite (Z.eqb_sym 1)|].
    destruct (Z.eqb_spec 1 (b - 2 * (i mod 16))); [lia|apply andb_true_r].
  - exists fl'. split; [done|]. split; [done|]. intros j Hj. destruct (H j Hj) as [-> ->]. rewrite andb_false_r, andb_true_r.
    split; [done|]. by destruct (decide (j = i)) as [->|].
Qed.

Lemma set_isboth_false_ret fl i : 0 <= i < 16 * blen fl ->
  exists fl', __ac_set_isboth_false fl i = Ret fl' /\ length fl' = length fl /\
    forall j, 0 <= j -> fe fl' j = (if decide (j = i) then false else fe fl j) /\ fd fl' j = (if decide (j = i) then false else fd fl j).
Proof.
  intros Hi. destruct (put_bits fl i Hi (fun w => Z.ldiff w (Z.shiftl 3 (flag_shift i))) (fun _ _ => false)) as (fl' & E & L & H).
  - intros w b Hb. rewrite Z.ldiff_spec, Z.shiftl_spec, flag_shift_eq by lia. change 3 with (Z.ones 2).
    rewrite Z.testbit_ones by lia. destruct (decide _) as [D|N].
    + assert (((0 <=? b - 2 * (i mod 16)) && (b - 2 * (i mod 16) <? 2)) = true) as -> by (apply andb_true_iff; split; [apply Z.leb_le|apply Z.ltb_lt]; lia).
      apply andb_false_r.
    + assert (((0 <=? b - 2 * (i mod 16)) && (b - 2 * (i mod 16) <? 2)) = false) as ->; [|apply andb_true_r].
      apply andb_false_iff. destruct (Z.leb_spec 0 (b - 2 * (i mod 16))); [right; apply Z.ltb_ge; lia|by left].
  - by exists fl'.
Qed.

Lemma set_isdel_true_ret fl i : 0 <= i < 16 * blen fl ->
  exists fl', __ac_set_isdel_true fl i = Ret fl' /\ length fl' = length fl /\
    forall j, 0 <= j -> fe fl' j = fe fl j /\ fd fl' j = (if decide (j = i) then true else fd fl j).
Proof.
  intros Hi. destruct (put_bits fl i Hi (fun w => Z.lor w (Z.shiftl 1 (flag_shift i))) (fun b x => x || (b =? 0))) as (fl' & E & L & H).
  - intros w b Hb. rewrite Z.lor_spec, Z.shiftl_spec, flag_shift_eq by lia. change 1 with (2 ^ 0) at 1.
    rewrite Z.pow2_bits_eqb by lia. destruct (decide _) as [|N]; [by rewrite (Z.eqb_sym 0)|].
    destruct (Z.eqb_spec 0 (b - 2 * (i mod 16))); [lia|apply orb_false_r].
  - exists fl'. split; [done|]. split; [done|]. intros j Hj. destruct (H j Hj) as [-> ->]. rewrite orb_false_r, orb_true_r.
    split; [|done]. by destruct (decide (j = i)) as [->|].
Qed.

Lemma live_put fl fl' i j :
  fe fl' j = (if decide (j = i) then false else fe fl j) -> fd fl' j = (if decide (j = i) then false else fd fl j) ->
  live fl' j = if decide (j = i) then true else live fl j.
Proof. unfold live. intros -> ->. by destruct (decide _). Qed.

Lemma live_del fl fl' i j :
  fe fl' j = fe fl j -> fd fl' j = (if decide (j = i) then true else fd fl j) -> live fl' j = if decide (j = i) then false else live fl j.
Proof. unfold live. intros -> ->. destruct (decide _); [apply andb_false_r|done]. Qed.

(** The flags of a new table: all cells are empty. *)
Lemma new_flags_empty m i : 0 <= i < 16 * Z.of_nat m -> fe (replicate m 0xaaaaaaaa) i = true /\ fd (replicate m 0xaaaaaaaa) i = false.
Proof.
  intros H. assert (wrd (replicate m 0xaaaaaaaa) i = 0xaaaaaaaa) as E.
  { unfold wrd. rewrite lookup_replicate_2; [done|]. assert (i / 16 < Z.of_nat m) by (apply Z.div_lt_upper_bound; lia). pose proof (Z.div_pos i 16). lia. }
  unfold fe, fd. rewrite E. pose proof (Z.mod_pos_bound i 16 ltac:(lia)) as B. revert B. generalize (i mod 16). intros r B.
  assert (forallb (fun r => Z.testbit 0xaaaaaaaa (2 * r + 1) && negb (Z.testbit 0xaaaaaaaa (2 * r))) (seqZ 0 16) = true) as F by (vm_compute; reflexivity).
  rewrite forallb_forall in F. specialize (F r). rewrite <- list_elem_of_In, elem_of_seqZ in F. specialize (F ltac:(lia)).
  apply andb_true_iff in F as [-> F]. by apply negb_true_iff in F.
Qed.

(** * Prime numbers *)
(** Trial division by 3, 5, ... up to the root. *)
Fixpoint trial (fuel : nat) (d n : Z) : bool :=
  match fuel with O => true | S f => negb (n mod d =? 0) && trial f (d + 2) n end.
Definition prime_test (n : Z) : bool := (1 <? n) && Z.odd n && trial (Z.to_nat (Z.sqrt n / 2)) 3 n.

Lemma trial_sound fuel : forall d n, 0 < d -> trial fuel d n = true -> forall i, 0 <= i < Z.of_nat fuel -> ~ (d + 2 * i | n).
Proof.
  induction fuel as [|f IH]; intros d n Hd H i Hi; [lia|]. cbn [trial] in H. apply andb_true_iff in H as [H1 H2]. apply negb_true_iff, Z.eqb_neq in H1.
  destruct (Z.eq_dec i 0) as [->|N].
  - rewrite Z.mul_0_r, Z.add_0_r. intros D. apply H1. apply Z.mod_divide; [lia|done].
  - replace (d + 2 * i) with (d + 2 + 2 * (i - 1)) by lia. apply (IH (d + 2) n); [lia|done|lia].
Qed.

Lemma prime_test_sound n : prime_test n = true -> Z.prime n.
Proof.
  unfold prime_test. intros [[H1 Ho]%andb_true_iff H]%andb_true_iff. bool_arith. split; [done|].
  assert (forall d, 1 < d -> d * d <= n -> ~ (d | n)) as Small.
  { intros d Hd Hs Dv. assert (d <= Z.sqrt n) as Hr by (apply Z.sqrt_le_square; lia). destruct (Z.odd d) eqn:Od.
    - apply Z.odd_spec in Od as [q ->]. apply (trial_sound _ 3 n ltac:(lia) H (q - 1)); [|by replace (3 + 2 * (q - 1)) with (2 * q + 1) by lia].
      assert (q <= Z.sqrt n / 2) by (apply Z.div_le_lower_bound; lia). lia.
    - destruct Dv as [q Hq]. rewrite Hq, Z.odd_mul, Od, andb_false_r in Ho. done. }
  intros d Hd Dv. pose proof Dv as [q Hq]. destruct (Z_le_gt_dec (d * d) n) as [L|G]; [by apply (Small d); [lia|..]|].
  apply (Small q); [nia|nia|]. exists d. lia.
Qed.

Lemma primes_all : forallb prime_test (drop 1 (take 30 __ac_prime_list)) = true.
Proof. vm_compute. reflexivity. Qed.

(** The sizes of tables that are used. *)
Definition table_size (n : Z) : Prop := exists t : nat, (1 <= t <= 29)%nat /\ __ac_prime_list !! t = Some n.

Lemma table_prime n : table_size n -> Z.prime n.
Proof.
  intros (t & Ht & E). apply prime_test_sound. pose proof primes_all as H. rewrite forallb_forall in H. apply H, list_elem_of_In.
  apply list_elem_of_lookup. exists (t - 1)%nat. rewrite lookup_drop, lookup_take by lia. rewrite decide_True by lia.
  by replace (1 + (t - 1))%nat with t by lia.
Qed.

Lemma table_bounds n : table_size n -> 3 <= n < 2 ^ 31.
Proof.
  intros (t & Ht & E). assert (forallb (fun p => (3 <=? p) && (p <? 2 ^ 31)) (drop 1 (take 30 __ac_prime_list)) = true) as H by (vm_compute; reflexivity).
  rewrite forallb_forall in H. assert (In n (drop 1 (take 30 __ac_prime_list))) as Hin.
  { apply list_elem_of_In, list_elem_of_lookup. exists (t - 1)%nat. rewrite lookup_drop, lookup_take by lia. rewrite decide_True by lia.
    by replace (1 + (t - 1))%nat with t by lia. }
  apply H in Hin. bool_arith. lia.
Qed.

(** * The probe *)
Definition home (n key : Z) : Z := kh_int64_hash_func key mod n.
Definition stride (n key : Z) : Z := 1 + kh_int64_hash_func key mod (n - 1).
Definition path (n key j : Z) : Z := (home n key + j * stride n key) mod n.

Section probe.
Context (n : Z) (Hn : table_size n) (key : Z).

Lemma home_range : 0 <= home n key < n.
Proof. pose proof (table_bounds n Hn). apply Z.mod_pos_bound. lia. Qed.

Lemma stride_range : 1 <= stride n key < n.
Proof. pose proof (table_bounds n Hn). unfold stride. pose proof (Z.mod_pos_bound (kh_int64_hash_func key) (n - 1) ltac:(lia)). lia. Qed.

Lemma path_range j : 0 <= path n key j < n.
Proof. pose proof (table_bounds n Hn). apply Z.mod_pos_bound. lia. Qed.

Lemma path_0 : path n key 0 = home n key.
Proof. unfold path. rewrite Z.mul_0_l, Z.add_0_r. apply Z.mod_small, home_range. Qed.

(** The first [n] places are different, and they are all places. *)
Lemma path_inj a b : 0 <= a < n -> 0 <= b < n -> path n key a = path n key b -> a = b.
Proof.
  intros Ha Hb E. pose proof (table_bounds n Hn). pose proof stride_range. unfold path in E.
  assert ((n | (a - b) * stride n key)) as D.
  { apply Z.mod_divide; [lia|]. replace ((a - b) * stride n key) with ((home n key + a * stride n key) - (home n key + b * stride n key)) by lia.
    rewrite Zminus_mod, E, Z.sub_diag. apply Z.mod_0_l. lia. }
  apply Z.divide_prime_mul in D; [|by apply table_prime]. destruct D as [[q Hq]|[q Hq]].
  - assert (q = 0) by nia. lia.
  - assert (0 < q < 1) by nia. lia.
Qed.

Lemma path_surj i : 0 <= i < n -> exists j, 0 <= j < n /\ path n key j = i.
Proof.
  intros Hi. pose proof (table_bounds n Hn). pose proof stride_range.
  pose proof (Z.invmod_prime (stride n key) n (table_prime n Hn)) as Hi'. rewrite (Z.mod_small (stride n key)) in Hi' by lia.
  specialize (Hi' ltac:(lia)). exists (((i - home n key) * Z.invmod (stride n key) n) mod n). split; [apply Z.mod_pos_bound; lia|].
  unfold path. rewrite <- Zplus_mod_idemp_r, Zmult_mod_idemp_l, <- Z.mul_assoc, <- Zmult_mod_idemp_r, Hi', Z.mul_1_r, Zplus_mod_idemp_r.
  replace (home n key + (i - home n key)) with i by lia. apply Z.mod_small. lia.
Qed.

Lemma path_next j : probe_next n (stride n key) (path n key j) = path n key (j + 1).
Proof.
  pose proof (table_bounds n Hn). pose proof stride_range. pose proof (path_range j). unfold probe_next. cbv zeta.
  rewrite (u32_small (_ + _)) by lia.
  assert (path n key (j + 1) = (path n key j + stride n key) mod n) as ->.
  { unfold path. rewrite Zplus_mod_idemp_l. f_equal. lia. }
  destruct (_ >=? n) eqn:E; bool_arith.
  - rewrite u32_small by lia. symmetry. rewrite <- (Z.mod_small (path n key j + stride n key - n) n) by lia.
    replace (path n key j + stride n key) with (path n key j + stride n key - n + 1 * n) at 1 by lia. by rewrite Z.mod_add by lia.
  - symmetry. apply Z.mod_small. lia.
Qed.

Lemma start_ret : umod (kh_int64_hash_func key) n = Ret (home n key).
Proof. pose proof (table_bounds n Hn). unfold umod. destruct (n =? 0) eqn:?; bool_arith; [lia|done]. Qed.

Lemma stride_ret : umod (kh_int64_hash_func key) (u32 (n - 1)) = Ret (stride n key - 1) /\ u32 (1 + (stride n key - 1)) = stride n key.
Proof.
  pose proof (table_bounds n Hn). pose proof stride_range. rewrite !u32_small by lia. unfold umod. destruct (n - 1 =? 0) eqn:?; bool_arith; [lia|].
  split; [f_equal; unfold stride; lia|lia].
Qed.
End probe.

(** The first place on a path where the search ends. *)
Lemma first_stop (P : Z -> bool) (m : nat) : P (Z.of_nat m) = true ->
  exists j : nat, (j <= m)%nat /\ P (Z.of_nat j) = true /\ forall i : nat, (i < j)%nat -> P (Z.of_nat i) = false.
Proof.
  induction m as [m IH] using lt_wf_ind. intros Hm. destruct (existsb (fun i => P (Z.of_nat i)) (seq 0 m)) eqn:E.
  - apply existsb_exists in E as (i & Hi & Pi). apply in_seq in Hi. destruct (IH i ltac:(lia) Pi) as (j & Hj & Pj & Hb).
    exists j. split; [lia|done].
  - exists m. split; [done|]. split; [done|]. intros i Hi. apply not_true_iff_false. intros Pi.
    apply not_true_iff_false in E. apply E, existsb_exists. exists i. split; [apply in_seq; lia|done].
Qed.

(** * Counting cells *)
Fixpoint cntn (P : Z -> bool) (n : nat) : Z :=
  match n with O => 0 | S n => cntn P n + Z.b2z (P (Z.of_nat n)) end.
Definition cnt (P : Z -> bool) (n : Z) : Z := cntn P (Z.to_nat n).

Lemma cntn_ext P Q n : (forall i, 0 <= i < Z.of_nat n -> P i = Q i) -> cntn P n = cntn Q n.
Proof. induction n as [|n IH]; intros H; cbn [cntn]; [done|]. rewrite IH, H by (intros; try apply H; lia). done. Qed.

Lemma cntn_set P Q n x b : 0 <= x < Z.of_nat n -> P x = negb b -> (forall i, 0 <= i < Z.of_nat n -> Q i = if decide (i = x) then b else P i) ->
  cntn Q n = cntn P n + (if b then 1 else -1).
Proof.
  intros Hx Px H. induction n as [|n IH]; [lia|]. cbn [cntn]. rewrite (H (Z.of_nat n)) by lia. destruct (decide (Z.of_nat n = x)) as [<-|N].
  - rewrite Px, (cntn_ext Q P) by (intros i Hi; rewrite H by lia; by rewrite decide_False by lia). destruct b; simpl; lia.
  - rewrite IH; [destruct b; lia|lia|]. intros i Hi. apply H. lia.
Qed.

Lemma cnt_set P Q n x b : 0 <= x < n -> P x = negb b -> (forall i, 0 <= i < n -> Q i = if decide (i = x) then b else P i) ->
  cnt Q n = cnt P n + (if b then 1 else -1).
Proof. intros Hx Px H. apply (cntn_set _ _ _ x); [lia|done|]. intros i Hi. apply H. lia. Qed.

Lemma cnt_ext P Q n : (forall i, 0 <= i < n -> P i = Q i) -> cnt P n = cnt Q n.
Proof. intros H. apply cntn_ext. intros i Hi. apply H. lia. Qed.

Lemma cntn_bounds P n : 0 <= cntn P n <= Z.of_nat n.
Proof. induction n as [|n IH]; cbn [cntn]; [done|]. destruct (P (Z.of_nat n)); simpl; lia. Qed.

Lemma cntn_le P n m : 0 <= m -> (forall i, 0 <= i -> P i = true -> i < m) -> cntn P n <= m.
Proof.
  intros Hm H. induction n as [|n IH]; cbn [cntn]; [done|]. destruct (P (Z.of_nat n)) eqn:E; simpl; [|lia].
  apply H in E; [|lia]. pose proof (cntn_bounds P n). lia.
Qed.

Lemma cnt_extend P Q n n' : 0 <= n <= n' -> (forall i, 0 <= i < n -> P i = Q i) -> (forall i, n <= i < n' -> Q i = false) -> cnt Q n' = cnt P n.
Proof.
  intros Hn H1 H2. rewrite (cnt_ext P Q n H1). unfold cnt. replace (Z.to_nat n') with (Z.to_nat n + (Z.to_nat n' - Z.to_nat n))%nat by lia.
  assert (forall d, (Z.to_nat n + d <= Z.to_nat n')%nat -> cntn Q (Z.to_nat n + d) = cntn Q (Z.to_nat n)) as D; [|apply D; lia].
  induction d as [|d IH]; intros Hd; [by rewrite Nat.add_0_r|]. rewrite Nat.add_succ_r. cbn [cntn]. rewrite IH by lia. rewrite H2 by lia. simpl. lia.
Qed.

Lemma cnt_none P n : (forall i, 0 <= i < n -> P i = false) -> cnt P n = 0.
Proof.
  intros H. unfold cnt. rewrite (cntn_ext P (fun _ => false)) by (intros; apply H; lia). generalize (Z.to_nat n). intros m.
  induction m as [|m IH]; cbn [cntn]; [done|]. rewrite IH. done.
Qed.

Lemma cntn_room P n : cntn P n < Z.of_nat n -> exists i, 0 <= i < Z.of_nat n /\ P i = false.
Proof.
  induction n as [|n IH]; cbn [cntn]; intros H; [lia|]. destruct (P (Z.of_nat n)) eqn:E; simpl in H.
  - destruct IH as (i & Hi & Pi); [lia|]. exists i. split; [lia|done].
  - exists (Z.of_nat n). split; [lia|done].
Qed.

Lemma cntn_zero P n i : cntn P n = 0 -> 0 <= i < Z.of_nat n -> P i = false.
Proof.
  intros H Hi. destruct (P i) eqn:E; [|done]. pose proof (cntn_set P (fun j => if decide (j = i) then false else P j) n i false Hi E (fun _ _ => eq_refl)) as C.
  pose proof (cntn_bounds (fun j => if decide (j = i) then false else P j) n). simpl in C. lia.
Qed.

Lemma cntn_mono P Q n : (forall i, 0 <= i < Z.of_nat n -> P i = true -> Q i = true) -> cntn P n <= cntn Q n.
Proof.
  induction n as [|n IH]; intros H; cbn [cntn]; [done|]. specialize (IH (fun i Hi => H i ltac:(lia))). specialize (H (Z.of_nat n) ltac:(lia)).
  destruct (P (Z.of_nat n)), (Q (Z.of_nat n)); simpl; try lia.
Qed.

Lemma upper_room n : table_size n -> n / 2 < hash_upper n < n.
Proof.
  intros Hn. pose proof (table_bounds n Hn). unfold hash_upper. split; [|apply Z.div_lt_upper_bound; lia].
  apply Z.div_lt_upper_bound; [lia|]. pose proof (Z.mod_pos_bound (n * 77 + 50) 100 ltac:(lia)). pose proof (Z.div_mod (n * 77 + 50) 100 ltac:(lia)). lia.
Qed.

(** * The invariant *)
Section table.
Context {V : Type}.
Implicit Types (h : khash V) (g : Z -> option V).

(** The cell [i] holds the pair. *)
Definition holds (keys : list (option Z)) (vals : list (option V)) (i k : Z) (v : V) : Prop :=
  keys !! Z.to_nat i = Some (Some k) /\ vals !! Z.to_nat i = Some (Some v).

(** The search for [k] comes to [i]. *)
Definition reached (n : Z) (fl : list Z) (k i : Z) : Prop :=
  exists j, 0 <= j < n /\ path n k j = i /\ forall j', 0 <= j' < j -> fe fl (path n k j') = false.

Record kh_inv h g : Prop := KhInv {
  ki_n : table_size (n_buckets h);
  ki_flags : n_buckets h <= 16 * blen (kh_flags h);
  ki_keys : blen (kh_keys h) = n_buckets h;
  ki_vals : blen (kh_vals h) = n_buckets h;
  ki_live : forall i, 0 <= i < n_buckets h -> live (kh_flags h) i = true ->
    exists k v, holds (kh_keys h) (kh_vals h) i k v /\ g k = Some v /\ reached (n_buckets h) (kh_flags h) k i;
  ki_all : forall k v, g k = Some v -> exists i, 0 <= i < n_buckets h /\ live (kh_flags h) i = true /\ holds (kh_keys h) (kh_vals h) i k v;
  ki_uniq : forall i i' k v v', 0 <= i < n_buckets h -> 0 <= i' < n_buckets h -> live (kh_flags h) i = true -> live (kh_flags h) i' = true ->
    holds (kh_keys h) (kh_vals h) i k v -> holds (kh_keys h) (kh_vals h) i' k v' -> i = i';
  ki_size : kh_size h = cnt (live (kh_flags h)) (n_buckets h);
  ki_occ : n_occupied h = cnt (fun i => negb (fe (kh_flags h) i)) (n_buckets h);
  ki_up : upper_bound h = hash_upper (n_buckets h);
  ki_room : n_occupied h <= upper_bound h }.

Lemma cell_ret {A} (l : list (option A)) i a : l !! Z.to_nat i = Some (Some a) -> cell l i = Ret a.
Proof. intros H. unfold cell. by rewrite (at_index_ret _ _ _ H). Qed.

Lemma set_cell_ret {A} (l : list (option A)) i a : 0 <= i < blen l -> set_cell l i a = Ret (<[Z.to_nat i := Some a]> l).
Proof.
  intros H. unfold set_cell. destruct (lookup_lt_is_Some_2 l (Z.to_nat i)) as [x Hx]; [unfold blen in H; lia|].
  by rewrite (at_index_ret _ _ _ Hx).
Qed.

(** ** Searching *)
Definition stopb h (key i : Z) : bool :=
  fe (kh_flags h) i || (negb (fd (kh_flags h) i) && bool_decide (kh_keys h !! Z.to_nat i = Some (Some key))).

Section search.
Context h g (I : kh_inv h g) (key : Z).
Let n := n_buckets h.

Lemma flags_in i : 0 <= i < n -> 0 <= i < 16 * blen (kh_flags h).
Proof. pose proof (ki_flags _ _ I). unfold n. lia. Qed.

Lemma other_cell_ret i : 0 <= i < n -> other_cell h key i = Ret (negb (stopb h key i)).
Proof.
  intros Hi. pose proof (flags_in i Hi) as Hf. unfold other_cell, stopb. rewrite isempty_ret by done. mstep.
  destruct (fe (kh_flags h) i) eqn:Ee; [done|]. rewrite isdel_ret by done. mstep. destruct (fd (kh_flags h) i) eqn:Ed; [done|].
  destruct (ki_live _ _ I i Hi) as (k & v & [Hk Hv] & _); [by unfold live; rewrite Ee, Ed|]. rewrite (cell_ret _ _ _ Hk). mstep. f_equal. f_equal.
  rewrite Hk. simpl. destruct (Z.eqb_spec k key) as [->|N]; [by rewrite bool_decide_true|]. rewrite bool_decide_false; [done|congruence].
Qed.

Lemma some_empty : exists i, 0 <= i < n /\ fe (kh_flags h) i = true.
Proof.
  pose proof (table_bounds _ (ki_n _ _ I)). pose proof (upper_room _ (ki_n _ _ I)). pose proof (ki_room _ _ I). rewrite (ki_occ _ _ I), (ki_up _ _ I) in *.
  destruct (cntn_room (fun i => negb (fe (kh_flags h) i)) (Z.to_nat n)) as (i & Hi & E); [unfold cnt, n in *; lia|].
  exists i. unfold n in *. split; [lia|]. by apply negb_false_iff.
Qed.

Lemma search_ends : exists j, 0 <= j < n /\ stopb h key (path n key j) = true /\ forall i, 0 <= i < j -> stopb h key (path n key i) = false.
Proof.
  destruct some_empty as (e & He & Ee). destruct (path_surj n (ki_n _ _ I) key e He) as (j0 & Hj0 & P0).
  destruct (first_stop (fun j => stopb h key (path n key j)) (Z.to_nat j0)) as (j & Hj & Sj & Hb).
  { rewrite Z2Nat.id by lia. rewrite P0. unfold stopb. by rewrite Ee. }
  exists (Z.of_nat j). split; [lia|]. split; [done|]. intros i Hi. specialize (Hb (Z.to_nat i) ltac:(lia)). by rewrite Z2Nat.id in Hb by lia.
Qed.

(** Before the end of the search nothing is empty, and the key is not there. *)
Lemma before_end i : stopb h key i = false -> fe (kh_flags h) i = false.
Proof. unfold stopb. by intros [? _]%orb_false_iff. Qed.

Lemma end_found j v : 0 <= j < n -> stopb h key (path n key j) = true -> (forall i, 0 <= i < j -> stopb h key (path n key i) = false) ->
  g key = Some v -> live (kh_flags h) (path n key j) = true /\ holds (kh_keys h) (kh_vals h) (path n key j) key v.
Proof.
  intros Hj Sj Hb Gv. destruct (ki_all _ _ I key v Gv) as (i & Hi & Li & Hh).
  destruct (ki_live _ _ I i Hi Li) as (k & v' & [Hk' _] & _ & (a & Ha & Pa & Hna)). destruct Hh as [Hk Hv].
  assert (k = key) as -> by congruence. pose proof Li as Li'. unfold live in Li'. apply andb_true_iff in Li' as [Le Ld]. apply negb_true_iff in Le, Ld.
  assert (stopb h key i = true) as Si by (unfold stopb; rewrite Le, Ld, bool_decide_true by done; done).
  assert (a = j) as ->; [|subst i; by repeat split].
  destruct (Z.lt_total a j) as [L|[?|L]]; [|done|].
  - specialize (Hb a ltac:(lia)). fold n in Pa. rewrite Pa in Hb. congruence.
  - pose proof (Hna j ltac:(lia)) as Ej. fold n in Ej, Pa. unfold stopb in Sj. rewrite Ej in Sj. apply andb_true_iff in Sj as [Dj Kj]. apply bool_decide_eq_true_1 in Kj.
    assert (live (kh_flags h) (path n key j) = true) as Lj by (unfold live; by rewrite Ej, Dj).
    destruct (ki_live _ _ I (path n key j) (path_range n (ki_n _ _ I) key j) Lj) as (k2 & v2 & [Hk2 Hv2] & _). rewrite Kj in Hk2. injection Hk2 as <-.
    assert (path n key j = i) as E by (eapply (ki_uniq _ _ I); [apply path_range, I|done|done|done|by split|by split]).
    rewrite <- Pa in E. apply (path_inj n (ki_n _ _ I) key) in E; lia.
Qed.

Lemma get_loop_ret j : 0 <= j < n -> stopb h key (path n key j) = true -> (forall i, 0 <= i < j -> stopb h key (path n key i) = false) ->
  forall fuel a, 0 <= a <= j -> j - a < Z.of_nat fuel ->
  get_loop fuel h key (stride n key) (home n key) (path n key a) = Ret (if live (kh_flags h) (path n key j) then path n key j else n).
Proof.
  intros Hj Sj Hb. induction fuel as [|f IH]; intros a Ha Hf; [lia|]. cbn [get_loop]. pose proof (path_range n (ki_n _ _ I) key a) as Ra.
  rewrite other_cell_ret by done. mstep. destruct (Z.eq_dec a j) as [->|N].
  - rewrite Sj. cbn [negb]. rewrite iseither_ret by (by apply flags_in). mstep. by destruct (live _ _).
  - rewrite (Hb a) by lia. cbn [negb]. fold n. rewrite (path_next n (ki_n _ _ I)).
    destruct (path n key (a + 1) =? home n key) eqn:E; bool_arith; [|apply IH; lia].
    rewrite <- (path_0 n (ki_n _ _ I) key) in E. apply (path_inj n (ki_n _ _ I)) in E; lia.
Qed.

Lemma kh_get_spec :
  exists x, kh_get h key = Ret x /\
    match g key with
    | Some v => 0 <= x < n /\ live (kh_flags h) x = true /\ holds (kh_keys h) (kh_vals h) x key v
    | None => x = n
    end.
Proof.
  pose proof (table_bounds _ (ki_n _ _ I)) as Bn. unfold kh_get. assert (truthy (n_buckets h) = true) as -> by (unfold truthy; apply negb_true_iff, Z.eqb_neq; lia).
  fold n. rewrite (start_ret n (ki_n _ _ I)). mstep. destruct (stride_ret n (ki_n _ _ I) key) as [-> Es]. mstep. rewrite Es.
  destruct search_ends as (j & Hj & Sj & Hb). pose proof (get_loop_ret j Hj Sj Hb (S (Z.to_nat n)) 0 ltac:(lia) ltac:(lia)) as El.
  rewrite (path_0 n (ki_n _ _ I)) in El. rewrite El. eexists. split; [done|]. destruct (g key) as [v|] eqn:G.
  - destruct (end_found j v Hj Sj Hb G) as [L Hh]. rewrite L. split; [apply path_range, I|by split].
  - destruct (live (kh_flags h) (path n key j)) eqn:L; [|done].
    destruct (ki_live _ _ I _ (path_range n (ki_n _ _ I) key j) L) as (k & v & [Hk Hv] & Gk & _). exfalso.
    unfold live in L. apply andb_true_iff in L as [Le Ld]. apply negb_true_iff in Le, Ld. unfold stopb in Sj. rewrite Le in Sj. apply andb_true_iff in Sj as [_ Kj].
    apply bool_decide_eq_true_1 in Kj. congruence.
Qed.

(** ** The place of a new key *)

(** Where a key may be put: what comes before on its path is not empty, and the
    cell is free. *)
Definition free_place (x : Z) : Prop :=
  reached n (kh_flags h) key x /\ 0 <= x < n /\ live (kh_flags h) x = false.

Lemma put_loop_ret j : 0 <= j < n -> stopb h key (path n key j) = true -> (forall i, 0 <= i < j -> stopb h key (path n key i) = false) ->
  forall fuel a site, 0 <= a <= j -> j - a < Z.of_nat fuel -> (site = n \/ exists s, 0 <= s < a /\ path n key s = site /\ fd (kh_flags h) site = true) ->
  exists site', put_loop fuel h key (stride n key) (home n key) (path n key a) site = Ret (path n key j, site', n) /\
    (site' = n \/ exists s, 0 <= s < j /\ path n key s = site' /\ fd (kh_flags h) site' = true).
Proof.
  intros Hj Sj Hb. induction fuel as [|f IH]; intros a site Ha Hf Hs; [lia|]. cbn [put_loop]. pose proof (path_range n (ki_n _ _ I) key a) as Ra.
  rewrite other_cell_ret by done. mstep. destruct (Z.eq_dec a j) as [->|N].
  - rewrite Sj. cbn [negb]. exists site. by split.
  - rewrite (Hb a) by lia. cbn [negb]. rewrite isdel_ret by (by apply flags_in). mstep. fold n. rewrite (path_next n (ki_n _ _ I)).
    destruct (path n key (a + 1) =? home n key) eqn:E; bool_arith.
    { rewrite <- (path_0 n (ki_n _ _ I) key) in E. apply (path_inj n (ki_n _ _ I)) in E; lia. }
    apply IH; [lia..|]. destruct (fd (kh_flags h) (path n key a)) eqn:D.
    + right. exists a. split; [lia|done].
    + destruct Hs as [->|(s & Hs & P & D')]; [by left|]. right. exists s. split; [lia|done].
Qed.

Lemma put_place_spec : g key = None -> exists x, put_place h key = Ret x /\ free_place x.
Proof.
  intros G. pose proof (table_bounds _ (ki_n _ _ I)) as Bn. unfold put_place. cbv zeta. fold n. rewrite (start_ret n (ki_n _ _ I)). mstep.
  pose proof (home_range n (ki_n _ _ I) key) as Hh. rewrite isempty_ret by (by apply flags_in). mstep.
  destruct (fe (kh_flags h) (home n key)) eqn:E0.
  { exists (home n key). split; [done|]. split; [|split; [done|unfold live; by rewrite E0]]. exists 0. split; [lia|]. split; [by apply path_0, I|lia]. }
  destruct (stride_ret n (ki_n _ _ I) key) as [-> Es]. mstep. rewrite Es. destruct search_ends as (j & Hj & Sj & Hb).
  destruct (put_loop_ret j Hj Sj Hb (S (Z.to_nat n)) 0 n) as (site & El & Hs); [lia|lia|by left|]. rewrite (path_0 n (ki_n _ _ I)) in El.
  rewrite El. mstep. rewrite Z.eqb_refl. pose proof (path_range n (ki_n _ _ I) key j) as Rj. rewrite isempty_ret by (by apply flags_in). mstep.
  assert (fe (kh_flags h) (path n key j) = true) as Ej.
  { destruct (fe (kh_flags h) (path n key j)) eqn:Ej; [done|]. unfold stopb in Sj. rewrite Ej in Sj. apply andb_true_iff in Sj as [Dj Kj]. apply bool_decide_eq_true_1 in Kj.
    destruct (ki_live _ _ I (path n key j) Rj) as (k & v & [Hk _] & Gk & _); [unfold live; by rewrite Ej, Dj|]. congruence. }
  rewrite Ej. cbn [andb]. eexists. split; [done|].
  assert (forall s, 0 <= s <= j -> live (kh_flags h) (path n key s) = false -> free_place (path n key s)) as Ok.
  { intros s Hs' Lv. split; [|split; [apply path_range, I|done]]. exists s. split; [lia|]. split; [done|]. intros i Hi. apply before_end, Hb. lia. }
  destruct Hs as [->|(s & Hs & <- & Ds)].
  - rewrite Z.eqb_refl. cbn [negb]. apply Ok; [lia|]. unfold live. by rewrite Ej.
  - pose proof (path_range n (ki_n _ _ I) key s). destruct (path n key s =? n) eqn:?; bool_arith; [lia|]. cbn [negb]. apply Ok; [lia|].
    unfold live. rewrite Ds. apply andb_false_r.
Qed.
End search.
End table.

(** * Rehashing in place *)
Section rehash.
Context {V : Type} (n new_n sz : Z) (g : Z -> option V).
Hypothesis Hnew : table_size new_n.
Hypothesis Hn : 0 <= n <= new_n.
Hypothesis Hsz : sz < new_n.
Implicit Types (r : rehash V).

(** Pairs that wait in their old cells, and pairs that have their new ones. *)
Definition waits r (i : Z) : bool := (i <? n) && live (rh_flags r) i.
Definition settled r (i : Z) : bool := negb (fe (rh_new r) i).
Definition rh_holds r (i k : Z) (v : V) : Prop := holds (rh_keys r) (rh_vals r) i k v.

Record rh_inv r (hand : option (Z * V)) : Prop := RhInv {
  ri_flags : n <= 16 * blen (rh_flags r);
  ri_new : new_n <= 16 * blen (rh_new r);
  ri_keys : blen (rh_keys r) = new_n;
  ri_vals : blen (rh_vals r) = new_n;
  ri_del : forall i, 0 <= i < new_n -> fd (rh_new r) i = false;
  ri_disj : forall i, 0 <= i < new_n -> waits r i = true -> settled r i = false;
  ri_occ : forall i, 0 <= i < new_n -> waits r i || settled r i = true ->
    exists k v, rh_holds r i k v /\ g k = Some v /\ forall v', hand <> Some (k, v');
  ri_uniq : forall i i' k v v', 0 <= i < new_n -> 0 <= i' < new_n -> waits r i || settled r i = true -> waits r i' || settled r i' = true ->
    rh_holds r i k v -> rh_holds r i' k v' -> i = i';
  ri_hand : forall k v, hand = Some (k, v) -> g k = Some v;
  ri_all : forall k v, g k = Some v ->
    hand = Some (k, v) \/ exists i, 0 <= i < new_n /\ waits r i || settled r i = true /\ rh_holds r i k v;
  ri_reach : forall i k v, 0 <= i < new_n -> settled r i = true -> rh_holds r i k v -> reached new_n (rh_new r) k i;
  ri_count : cnt (waits r) new_n + cnt (settled r) new_n + match hand with Some _ => 1 | None => 0 end = sz }.

Lemma holds_set (keys : list (option Z)) (vals : list (option V)) i k v i' k' v' :
  0 <= i < blen keys -> 0 <= i < blen vals -> 0 <= i' ->
  holds (<[Z.to_nat i := Some k]> keys) (<[Z.to_nat i := Some v]> vals) i' k' v' <->
  (i' = i /\ k' = k /\ v' = v) \/ (i' <> i /\ holds keys vals i' k' v').
Proof.
  intros Hk Hv Hi. unfold holds, blen in *. destruct (decide (i' = i)) as [->|N].
  - rewrite !list_lookup_insert_eq by lia. split; [intros [[= <-] [= <-]]; by left|]. by intros [(_ & -> & ->)|[? _]].
  - rewrite !list_lookup_insert_ne by lia. split; [by right|]. by intros [[? _]|[_ ?]].
Qed.

Lemma reached_mono fl fl' k i :
  (forall j, 0 <= j -> fe fl' j = true -> fe fl j = true) -> reached new_n fl k i -> reached new_n fl' k i.
Proof.
  intros M (j & Hj & P & Hb). exists j. split; [done|]. split; [done|]. intros j' Hj'. specialize (Hb j' Hj').
  apply not_true_iff_false. intros E. apply M in E; [congruence|]. apply path_range, Hnew.
Qed.

Lemma empty_loop_ret (fl : list Z) key j :
  new_n <= 16 * blen fl -> 0 <= j < new_n -> fe fl (path new_n key j) = true -> (forall i, 0 <= i < j -> fe fl (path new_n key i) = false) ->
  forall fuel a, 0 <= a <= j -> j - a < Z.of_nat fuel ->
  empty_loop fuel fl new_n (stride new_n key) (path new_n key a) = Ret (path new_n key j).
Proof.
  intros Hf Hj Ej Hb. induction fuel as [|f IH]; intros a Ha Hfu; [lia|]. cbn [empty_loop]. pose proof (path_range new_n Hnew key a).
  rewrite isempty_ret by lia. mstep. destruct (Z.eq_dec a j) as [->|N]; [by rewrite Ej|]. rewrite Hb by lia.
  rewrite (path_next new_n Hnew). apply IH; lia.
Qed.

(** The place that a pair in hand gets. *)
Lemma find_empty r k v : rh_inv r (Some (k, v)) ->
  exists i, 0 <= i < new_n /\ settled r i = false /\ reached new_n (rh_new r) k i /\
    empty_loop (S (Z.to_nat new_n)) (rh_new r) new_n (stride new_n k) (home new_n k) = Ret i.
Proof.
  intros I. pose proof (ri_count _ _ I) as C. cbn iota in C. pose proof (cntn_bounds (waits r) (Z.to_nat new_n)). pose proof (table_bounds _ Hnew).
  destruct (cntn_room (settled r) (Z.to_nat new_n)) as (e & He & Se); [unfold cnt in *; lia|]. unfold settled in Se. apply negb_false_iff in Se.
  destruct (path_surj new_n Hnew k e ltac:(lia)) as (j0 & Hj0 & P0).
  destruct (first_stop (fun j => fe (rh_new r) (path new_n k j)) (Z.to_nat j0)) as (j & Hj & Ej & Hb); [by rewrite Z2Nat.id, P0 by lia|].
  assert (forall i, 0 <= i < Z.of_nat j -> fe (rh_new r) (path new_n k i) = false) as Hb'.
  { intros i Hi. specialize (Hb (Z.to_nat i) ltac:(lia)). by rewrite Z2Nat.id in Hb by lia. }
  exists (path new_n k (Z.of_nat j)). split; [apply path_range, Hnew|]. split; [unfold settled; by rewrite Ej|]. split.
  - exists (Z.of_nat j). split; [lia|done].
  - rewrite <- (path_0 new_n Hnew). apply (empty_loop_ret _ _ (Z.of_nat j) (ri_new _ _ I)); try done; lia.
Qed.

(** The pair in hand is put into a free cell. *)
Lemma settle_free r k v i new' :
  rh_inv r (Some (k, v)) -> 0 <= i < new_n -> settled r i = false -> reached new_n (rh_new r) k i -> waits r i = false ->
  length new' = length (rh_new r) ->
  (forall j, 0 <= j -> fe new' j = (if decide (j = i) then false else fe (rh_new r) j) /\ fd new' j = fd (rh_new r) j) ->
  rh_inv (Rehash (rh_flags r) new' (<[Z.to_nat i := Some k]> (rh_keys r)) (<[Z.to_nat i := Some v]> (rh_vals r))) None.
Proof.
  intros I Hi Si Ri Wi L Hf. set (r' := Rehash _ _ _ _).
  assert (forall j, 0 <= j < new_n -> settled r' j = if decide (j = i) then true else settled r j) as Sj.
  { intros j Hj. unfold settled, r'. cbn [rh_new]. rewrite (proj1 (Hf j ltac:(lia))). by destruct (decide _). }
  assert (forall j, waits r' j = waits r j) as Wj by done.
  assert (forall j, 0 <= j -> fe new' j = true -> fe (rh_new r) j = true) as Mono.
  { intros j Hj. rewrite (proj1 (Hf j Hj)). by destruct (decide _). }
  assert (forall j k' v', 0 <= j -> rh_holds r' j k' v' <-> (j = i /\ k' = k /\ v' = v) \/ (j <> i /\ rh_holds r j k' v')) as Hh.
  { intros. apply holds_set; rewrite ?(ri_keys _ _ I), ?(ri_vals _ _ I); lia. }
  assert (forall j, 0 <= j < new_n -> j <> i -> waits r' j || settled r' j = waits r j || settled r j) as Oj.
  { intros j Hj N. by rewrite Wj, Sj, decide_False by done. }
  constructor; cbn [rh_flags rh_new rh_keys rh_vals r'].
  - apply I.
  - unfold blen. rewrite L. apply I.
  - unfold blen. rewrite length_insert. apply I.
  - unfold blen. rewrite length_insert. apply I.
  - intros j Hj. rewrite (proj2 (Hf j ltac:(lia))). by apply I.
  - intros j Hj W. rewrite Sj by done. destruct (decide (j = i)) as [->|]; [congruence|]. by apply I.
  - intros j Hj O. destruct (decide (j = i)) as [->|N].
    + exists k, v. split; [apply Hh; [lia|by left]|]. split; [by eapply (ri_hand _ _ I)|done].
    + rewrite Oj in O by done. destruct (ri_occ _ _ I j Hj O) as (k' & v' & Hk & G & _). exists k', v'.
      split; [apply Hh; [lia|by right]|done].
  - intros a b k' v1 v2 Ha Hb Oa Ob H1 H2. apply Hh in H1; [|lia]. apply Hh in H2; [|lia].
    assert (forall c w, 0 <= c < new_n -> c <> i -> waits r' c || settled r' c = true -> rh_holds r c k w -> False) as No.
    { intros c w Hc Nc Oc Hw. rewrite Oj in Oc by done. destruct (ri_occ _ _ I c Hc Oc) as (k2 & v3 & [Hk2 Hv2] & _ & Hne).
      destruct Hw as [Hw _]. rewrite Hw in Hk2. injection Hk2 as <-. by apply (Hne v). }
    destruct H1 as [(-> & -> & ->)|[N1 H1]], H2 as [(-> & E2 & E3)|[N2 H2]]; subst; try done.
    + by destruct (No b v2).
    + by destruct (No a v1).
    + rewrite Oj in Oa, Ob by done. by eapply (ri_uniq _ _ I a b).
  - done.
  - intros k' v' G. right. destruct (ri_all _ _ I k' v' G) as [[= -> ->]|(j & Hj & Oj' & Hk)].
    + exists i. split; [done|]. split; [rewrite Sj, decide_True by done; apply orb_true_r|]. apply Hh; [lia|by left].
    + exists j. split; [done|]. assert (j <> i) by (intros ->; rewrite Wi, Si in Oj'; done). split; [by rewrite Oj|]. apply Hh; [lia|by right].
  - intros j k' v' Hj S Hk. apply Hh in Hk; [|lia]. destruct Hk as [(-> & -> & ->)|[N Hk]].
    + by eapply reached_mono.
    + rewrite Sj, decide_False in S by done. eapply reached_mono; [done|]. by eapply (ri_reach _ _ I).
  - rewrite <- (ri_count _ _ I). rewrite (cnt_set (settled r) (settled r') new_n i true Hi Si Sj). rewrite (cnt_ext (waits r') (waits r)) by done. lia.
Qed.

Lemma waits_del r flags' keys vals new' x :
  (forall j, 0 <= j -> fe flags' j = fe (rh_flags r) j /\ fd flags' j = if decide (j = x) then true else fd (rh_flags r) j) ->
  forall j, 0 <= j -> waits (Rehash flags' new' keys vals) j = if decide (j = x) then false else waits r j.
Proof.
  intros Hf j Hj. unfold waits. cbn [rh_flags]. rewrite (live_del _ _ x j (proj1 (Hf j Hj)) (proj2 (Hf j Hj))).
  destruct (decide _); [apply andb_false_r|done].
Qed.

(** The pair in hand is put into a cell whose pair waits, which is then in
    hand. *)
Lemma settle_kick r k v i new' flags' k1 v1 :
  rh_inv r (Some (k, v)) -> 0 <= i < new_n -> settled r i = false -> reached new_n (rh_new r) k i -> waits r i = true ->
  rh_holds r i k1 v1 -> length new' = length (rh_new r) -> length flags' = length (rh_flags r) ->
  (forall j, 0 <= j -> fe new' j = (if decide (j = i) then false else fe (rh_new r) j) /\ fd new' j = fd (rh_new r) j) ->
  (forall j, 0 <= j -> fe flags' j = fe (rh_flags r) j /\ fd flags' j = if decide (j = i) then true else fd (rh_flags r) j) ->
  rh_inv (Rehash flags' new' (<[Z.to_nat i := Some k]> (rh_keys r)) (<[Z.to_nat i := Some v]> (rh_vals r))) (Some (k1, v1)).
Proof.
  intros I Hi Si Ri Wi H1 Ln Lf Hf Hd. set (r' := Rehash _ _ _ _).
  assert (forall j, 0 <= j < new_n -> settled r' j = if decide (j = i) then true else settled r j) as Sj.
  { intros j Hj. unfold settled, r'. cbn [rh_new]. rewrite (proj1 (Hf j ltac:(lia))). by destruct (decide _). }
  assert (forall j, 0 <= j -> waits r' j = if decide (j = i) then false else waits r j) as Wj by (by apply waits_del).
  assert (forall j, 0 <= j -> fe new' j = true -> fe (rh_new r) j = true) as Mono.
  { intros j Hj. rewrite (proj1 (Hf j Hj)). by destruct (decide _). }
  assert (forall j k' v', 0 <= j -> rh_holds r' j k' v' <-> (j = i /\ k' = k /\ v' = v) \/ (j <> i /\ rh_holds r j k' v')) as Hh.
  { intros. apply holds_set; rewrite ?(ri_keys _ _ I), ?(ri_vals _ _ I); lia. }
  assert (forall j, 0 <= j < new_n -> waits r' j || settled r' j = waits r j || settled r j) as Oj.
  { intros j Hj. rewrite Wj, Sj by lia. destruct (decide (j = i)) as [->|]; [by rewrite Wi|done]. }
  assert (forall c w, 0 <= c < new_n -> waits r c || settled r c = true -> rh_holds r c k w -> False) as No.
  { intros c w Hc Oc Hw. destruct (ri_occ _ _ I c Hc Oc) as (k2 & v3 & [Hk2 Hv2] & _ & Hne).
    destruct Hw as [Hw _]. rewrite Hw in Hk2. injection Hk2 as <-. by apply (Hne v). }
  assert (waits r i || settled r i = true) as Oi by (by rewrite Wi).
  constructor; cbn [rh_flags rh_new rh_keys rh_vals r'].
  - unfold blen. rewrite Lf. apply I.
  - unfold blen. rewrite Ln. apply I.
  - unfold blen. rewrite length_insert. apply I.
  - unfold blen. rewrite length_insert. apply I.
  - intros j Hj. rewrite (proj2 (Hf j ltac:(lia))). by apply I.
  - intros j Hj W. rewrite Wj in W by lia. rewrite Sj by done. destruct (decide (j = i)) as [->|]; [done|]. by apply I.
  - intros j Hj O. rewrite Oj in O by done. destruct (decide (j = i)) as [->|N].
    + exists k, v. split; [apply Hh; [lia|by left]|]. split; [by eapply (ri_hand _ _ I)|]. intros v' [= -> ->]. by apply (No i v').
    + destruct (ri_occ _ _ I j Hj O) as (k' & v' & Hk & G & _). exists k', v'. split; [apply Hh; [lia|by right]|]. split; [done|].
      intros v2 [= -> ->]. apply N. by eapply (ri_uniq _ _ I j i).
  - intros a b k' va vb Ha Hb Oa Ob Ka Kb. rewrite Oj in Oa, Ob by done. apply Hh in Ka; [|lia]. apply Hh in Kb; [|lia].
    destruct Ka as [(-> & -> & ->)|[N1 Ka]], Kb as [(-> & E2 & E3)|[N2 Kb]]; subst; try done.
    + by destruct (No b vb).
    + by destruct (No a va).
    + by eapply (ri_uniq _ _ I a b).
  - intros k' v' [= <- <-]. destruct (ri_occ _ _ I i Hi Oi) as (k2 & v2 & [Hk2 Hv2] & G & _). destruct H1 as [Hk1 Hv1]. congruence.
  - intros k' v' G. destruct (ri_all _ _ I k' v' G) as [[= -> ->]|(j & Hj & Oj' & Hk)].
    + right. exists i. split; [done|]. split; [by rewrite Oj|]. apply Hh; [lia|by left].
    + destruct (decide (j = i)) as [->|N].
      * left. destruct Hk as [Hk Hv], H1 as [Hk1 Hv1]. congruence.
      * right. exists j. split; [done|]. split; [by rewrite Oj|]. apply Hh; [lia|by right].
  - intros j k' v' Hj S Hk. apply Hh in Hk; [|lia]. destruct Hk as [(-> & -> & ->)|[N Hk]].
    + by eapply reached_mono.
    + rewrite Sj, decide_False in S by done. eapply reached_mono; [done|]. by eapply (ri_reach _ _ I).
  - rewrite <- (ri_count _ _ I). rewrite (cnt_set (settled r) (settled r') new_n i true Hi Si Sj).
    rewrite (cnt_set (waits r) (waits r') new_n i false Hi Wi) by (intros; apply Wj; lia). lia.
Qed.

(** A pair that waits is taken into the hand. *)
Lemma take_waiting r j flags' k v :
  rh_inv r None -> 0 <= j < new_n -> waits r j = true -> rh_holds r j k v -> length flags' = length (rh_flags r) ->
  (forall i, 0 <= i -> fe flags' i = fe (rh_flags r) i /\ fd flags' i = if decide (i = j) then true else fd (rh_flags r) i) ->
  rh_inv (Rehash flags' (rh_new r) (rh_keys r) (rh_vals r)) (Some (k, v)).
Proof.
  intros I Hj Wj Hk Lf Hd. set (r' := Rehash _ _ _ _).
  assert (forall i, 0 <= i -> waits r' i = if decide (i = j) then false else waits r i) as Wi by (by apply waits_del).
  assert (forall i, settled r' i = settled r i) as Si by done.
  assert (settled r j = false) as Sj by (by apply (ri_disj _ _ I)). assert (waits r j || settled r j = true) as Oj by (by rewrite Wj).
  assert (forall i, 0 <= i < new_n -> waits r' i || settled r' i = true -> i <> j /\ waits r i || settled r i = true) as Oi.
  { intros i Hi O. rewrite Wi, Si in O by lia. destruct (decide (i = j)) as [->|]; [by rewrite Sj in O|done]. }
  constructor; cbn [rh_flags rh_new rh_keys rh_vals r'].
  - unfold blen. rewrite Lf. apply I.
  - apply I.
  - apply I.
  - apply I.
  - apply I.
  - intros i Hi W. rewrite Wi in W by lia. destruct (decide (i = j)); [done|]. by apply (ri_disj _ _ I).
  - intros i Hi O. destruct (Oi i Hi O) as [N O']. destruct (ri_occ _ _ I i Hi O') as (k' & v' & Hk' & G & _). exists k', v'.
    split; [done|]. split; [done|]. intros v2 [= -> ->]. apply N. by eapply (ri_uniq _ _ I i j).
  - intros a b k' va vb Ha Hb Oa Ob. apply (ri_uniq _ _ I); try done; by apply Oi.
  - intros k' v' [= <- <-]. destruct (ri_occ _ _ I j Hj Oj) as (k2 & v2 & [Hk2 Hv2] & G & _). destruct Hk as [Hk1 Hv1]. congruence.
  - intros k' v' G. destruct (ri_all _ _ I k' v' G) as [?|(i & Hi & O & Hk')]; [done|]. destruct (decide (i = j)) as [->|N].
    + left. destruct Hk as [Hk Hv], Hk' as [Hk1 Hv1]. congruence.
    + right. exists i. split; [done|]. split; [|done]. by rewrite Wi, Si, decide_False by (done || lia).
  - apply (ri_reach _ _ I).
  - rewrite <- (ri_count _ _ I). rewrite (cnt_set (waits r) (waits r') new_n j false Hj Wj) by (intros; apply Wi; lia).
    rewrite (cnt_ext (settled r') (settled r)) by done. lia.
Qed.

(** ** The loops *)
Lemma kick_loop_ret fuel : forall r k v,
  rh_inv r (Some (k, v)) -> cnt (waits r) new_n < Z.of_nat fuel ->
  exists r', kick_loop fuel n new_n r k v = Ret r' /\ rh_inv r' None /\ forall i, 0 <= i -> waits r' i = true -> waits r i = true.
Proof.
  induction fuel as [|f IH]; intros r k v I Hf; [pose proof (cntn_bounds (waits r) (Z.to_nat new_n)); unfold cnt in Hf; lia|]. cbn [kick_loop].
  rewrite (start_ret new_n Hnew). mstep. destruct (stride_ret new_n Hnew k) as [-> Es]. mstep. rewrite Es.
  destruct (find_empty r k v I) as (i & Hi & Si & Ri & ->). mstep. pose proof (ri_new _ _ I). pose proof (ri_flags _ _ I).
  destruct (set_isempty_false_ret (rh_new r) i ltac:(lia)) as (new' & -> & Ln & Hfn). mstep.
  assert ((if i <? n then __ac_iseither (rh_flags r) i else Ret true) = Ret (negb (waits r i))) as ->.
  { unfold waits. destruct (i <? n) eqn:?; bool_arith; [|done]. by rewrite iseither_ret by lia. }
  mstep. rewrite negb_involutive. rewrite !set_cell_ret by (rewrite ?(ri_keys _ _ I), ?(ri_vals _ _ I); lia).
  destruct (waits r i) eqn:Wi.
  - destruct (ri_occ _ _ I i Hi) as (k1 & v1 & [Hk1 Hv1] & _); [by rewrite Wi|]. rewrite (cell_ret _ _ _ Hk1). mstep. rewrite (cell_ret _ _ _ Hv1). mstep.
    assert (i < n) by (unfold waits in Wi; apply andb_true_iff in Wi as [Wi _]; bool_arith; lia).
    destruct (set_isdel_true_ret (rh_flags r) i ltac:(lia)) as (flags' & -> & Lf & Hd). mstep.
    pose proof (settle_kick r k v i new' flags' k1 v1 I Hi Si Ri Wi (conj Hk1 Hv1) Ln Lf Hfn Hd) as I'.
    set (r1 := Rehash flags' _ _ _) in *. assert (forall j, 0 <= j -> waits r1 j = if decide (j = i) then false else waits r j) as Wj by (by apply waits_del).
    destruct (IH r1 k1 v1 I') as (r' & -> & I2 & Hw).
    { rewrite (cnt_set (waits r) (waits r1) new_n i false Hi Wi) by (intros; apply Wj; lia). lia. }
    exists r'. split; [done|]. split; [done|]. intros j Hj W. specialize (Hw j Hj W). rewrite Wj in Hw by done. by destruct (decide _).
  - mstep. eexists. split; [done|]. split; [by apply settle_free|]. done.
Qed.

Lemma move_loop_ret todo : forall j r,
  rh_inv r None -> 0 <= j -> j + Z.of_nat todo = n -> (forall i, 0 <= i < j -> waits r i = false) ->
  exists r', move_loop todo j n new_n r = Ret r' /\ rh_inv r' None /\ forall i, 0 <= i < n -> waits r' i = false.
Proof.
  induction todo as [|t IH]; intros j r I Hj E Hb; cbn [move_loop]; [exists r; split; [done|]; split; [done|]; intros; apply Hb; lia|].
  pose proof (ri_flags _ _ I). rewrite iseither_ret by lia. mstep.
  assert (waits r j = live (rh_flags r) j) as Wj by (unfold waits; by rewrite (proj2 (Z.ltb_lt j n)) by lia).
  destruct (live (rh_flags r) j) eqn:Lj; cbn [negb].
  - destruct (ri_occ _ _ I j ltac:(lia)) as (k & v & [Hk Hv] & _); [by rewrite Wj|]. rewrite (cell_ret _ _ _ Hk). mstep. rewrite (cell_ret _ _ _ Hv). mstep.
    destruct (set_isdel_true_ret (rh_flags r) j ltac:(lia)) as (flags' & -> & Lf & Hd). mstep.
    pose proof (take_waiting r j flags' k v I ltac:(lia) Wj (conj Hk Hv) Lf Hd) as I1. set (r1 := Rehash flags' _ _ _) in *.
    assert (forall i, 0 <= i -> waits r1 i = if decide (i = j) then false else waits r i) as Wi by (by apply waits_del).
    destruct (kick_loop_ret (S (Z.to_nat n)) r1 k v I1) as (r2 & -> & I2 & Hw).
    { assert (cnt (waits r1) new_n <= n); [|lia]. apply cntn_le; [lia|]. intros i _ W. unfold waits in W. apply andb_true_iff in W as [W _]. bool_arith. lia. }
    mstep. apply IH; [done|lia|lia|]. intros i Hi. apply not_true_iff_false. intros W. apply Hw in W; [|lia]. rewrite Wi in W by lia.
    destruct (decide (i = j)); [done|]. rewrite Hb in W; [done|lia].
  - mstep. apply IH; [done|lia|lia|]. intros i Hi. destruct (decide (i = j)) as [->|]; [done|]. apply Hb. lia.
Qed.
End rehash.

(** * The operations of the table *)
Section operations.
Context {V : Type}.
Implicit Types (h : khash V) (g : Z -> option V).

(** The new table holds what the old one held. *)
Lemma rehash_start h g n new_n :
  n = n_buckets h -> table_size new_n -> 0 <= n <= new_n -> (kh_inv h g \/ h = kh_init /\ forall k, g k = None) ->
  rh_inv n new_n (kh_size h) g
    (Rehash (kh_flags h) (replicate (Z.to_nat (Z.shiftr new_n 4 + 1)) 0xaaaaaaaa) (grow_cells n new_n (kh_keys h)) (grow_cells n new_n (kh_vals h))) None.
Proof.
  intros -> Hnew Hn Hok. pose proof (table_bounds _ Hnew) as Bn. set (new := replicate _ _).
  assert (16 * Z.of_nat (Z.to_nat (Z.shiftr new_n 4 + 1)) >= new_n) as Ln.
  { rewrite Z.shiftr_div_pow2 by lia. change (2 ^ 4) with 16. pose proof (Z.div_mod new_n 16 ltac:(lia)). pose proof (Z.mod_pos_bound new_n 16 ltac:(lia)). pose proof (Z.div_pos new_n 16). lia. }
  assert (forall i, 0 <= i < new_n -> fe new i = true /\ fd new i = false) as Hnf by (intros; apply new_flags_empty; lia).
  assert (forall A (l : list (option A)), blen l = n_buckets h -> blen (grow_cells (n_buckets h) new_n l) = new_n /\ forall i x, 0 <= i < n_buckets h -> l !! Z.to_nat i = Some x -> grow_cells (n_buckets h) new_n l !! Z.to_nat i = Some x) as G.
  { intros A l Hl. unfold grow_cells. destruct (_ <? new_n) eqn:?; bool_arith; [|split; [lia|done]]. unfold realloc_cells, blen in *. split.
    - rewrite length_app, length_take, length_replicate. lia.
    - intros i x Hi Hx. rewrite lookup_app_l by (rewrite length_take; lia). rewrite lookup_take by lia. by rewrite decide_True by lia. }
  assert (blen (kh_keys h) = n_buckets h /\ blen (kh_vals h) = n_buckets h) as [Lk Lv] by (destruct Hok as [I|[-> _]]; [split; apply I|done]).
  destruct (G _ _ Lk) as [Gk Hk], (G _ _ Lv) as [Gv Hv].
  assert (forall i, 0 <= i < n_buckets h -> live (kh_flags h) i = true -> exists k v, holds (kh_keys h) (kh_vals h) i k v /\ g k = Some v) as Hl.
  { intros i Hi L. destruct Hok as [I|[-> _]]; [|simpl in Hi; lia]. destruct (ki_live _ _ I i Hi L) as (k & v & H1 & H2 & _). by exists k, v. }
  assert (forall i k v, 0 <= i < n_buckets h -> holds (kh_keys h) (kh_vals h) i k v -> holds (grow_cells (n_buckets h) new_n (kh_keys h)) (grow_cells (n_buckets h) new_n (kh_vals h)) i k v) as Hg.
  { intros i k v Hi [? ?]. split; [by apply Hk|by apply Hv]. }
  set (r0 := Rehash _ _ _ _).
  assert (forall i, 0 <= i < new_n -> settled r0 i = false) as S0 by (intros i Hi; unfold settled, r0; cbn [rh_new]; by rewrite (proj1 (Hnf i Hi))).
  assert (forall i, 0 <= i < new_n -> waits (n_buckets h) r0 i || settled r0 i = true -> 0 <= i < n_buckets h /\ live (kh_flags h) i = true) as W0.
  { intros i Hi. rewrite S0, orb_false_r by done. unfold waits. intros [? ?]%andb_true_iff. bool_arith. split; [lia|done]. }
  constructor; cbn [rh_flags rh_new rh_keys rh_vals r0].
  - destruct Hok as [I|[-> _]]; [apply I|done].
  - unfold blen, new. rewrite length_replicate. lia.
  - done.
  - done.
  - intros i Hi. by apply Hnf.
  - intros i Hi _. by apply S0.
  - intros i Hi O. destruct (W0 i Hi O) as [Hi' L]. destruct (Hl i Hi' L) as (k & v & H1 & H2). exists k, v. split; [by apply Hg|done].
  - intros a b k va vb Ha Hb Oa Ob H1 H2. destruct (W0 a Ha Oa) as [Ha' La], (W0 b Hb Ob) as [Hb' Lb].
    destruct Hok as [I|[-> _]]; [|simpl in Ha'; lia]. destruct (Hl a Ha' La) as (k1 & v1 & K1 & _), (Hl b Hb' Lb) as (k2 & v2 & K2 & _).
    pose proof (Hg _ _ _ Ha' K1) as [E1 _]. pose proof (Hg _ _ _ Hb' K2) as [E2 _]. destruct H1 as [H1 _], H2 as [H2 _]. cbn [rh_keys r0] in H1, H2.
    assert (k1 = k) as -> by congruence. assert (k2 = k) as -> by congruence. by eapply (ki_uniq _ _ I a b).
  - done.
  - intros k v Gkv. right. destruct Hok as [I|[-> E]]; [|by rewrite E in Gkv]. destruct (ki_all _ _ I k v Gkv) as (i & Hi & L & Hh). exists i.
    split; [lia|]. split; [|by apply Hg]. unfold waits. cbn [rh_flags r0]. by rewrite L, (proj2 (Z.ltb_lt i (n_buckets h))) by lia.
  - intros i k v Hi S. by rewrite S0 in S.
  - rewrite (cnt_none (settled r0) new_n) by done.
    rewrite (cnt_extend (live (kh_flags h)) (waits (n_buckets h) r0) (n_buckets h) new_n); [|done|..].
    + destruct Hok as [I|[-> _]]; [rewrite (ki_size _ _ I); lia|done].
    + intros i Hi. unfold waits. by rewrite (proj2 (Z.ltb_lt i (n_buckets h))) by lia.
    + intros i Hi. unfold waits. by rewrite (proj2 (Z.ltb_ge i (n_buckets h))) by lia.
Qed.

Lemma rehash_end n new_n sz g (r : rehash V) :
  table_size new_n -> 0 <= n <= new_n -> 0 <= sz < hash_upper new_n -> rh_inv n new_n sz g r None -> (forall i, 0 <= i < n -> waits n r i = false) ->
  kh_inv (KHash new_n sz sz (hash_upper new_n) (rh_new r) (rh_keys r) (rh_vals r)) g.
Proof.
  intros Hnew Hn Hsz I Hw. assert (forall i, 0 <= i < new_n -> waits n r i = false) as W0.
  { intros i Hi. destruct (Z.lt_ge_cases i n); [apply Hw; lia|]. unfold waits. by rewrite (proj2 (Z.ltb_ge i n)) by lia. }
  assert (forall i, 0 <= i < new_n -> live (rh_new r) i = settled r i) as L by (intros i Hi; unfold live, settled; by rewrite (ri_del _ _ _ _ _ _ I i Hi), andb_true_r).
  assert (forall i, 0 <= i < new_n -> waits n r i || settled r i = live (rh_new r) i) as O by (intros i Hi; by rewrite W0, L).
  assert (cnt (settled r) new_n = sz) as C.
  { pose proof (ri_count _ _ _ _ _ _ I) as C. rewrite (cnt_none (waits n r) new_n) in C by done. lia. }
  constructor; cbn [n_buckets kh_size n_occupied upper_bound kh_flags kh_keys kh_vals].
  - done.
  - apply I.
  - apply I.
  - apply I.
  - intros i Hi Lv. rewrite <- O in Lv by done. destruct (ri_occ _ _ _ _ _ _ I i Hi Lv) as (k & v & Hh & G & _). exists k, v. split; [done|]. split; [done|].
    rewrite O, L in Lv by done. by eapply (ri_reach _ _ _ _ _ _ I).
  - intros k v G. destruct (ri_all _ _ _ _ _ _ I k v G) as [?|(i & Hi & Lv & Hh)]; [done|]. exists i. split; [done|]. by rewrite O in Lv by done.
  - intros a b k va vb Ha Hb La Lb. rewrite <- O in La, Lb by done. by apply (ri_uniq _ _ _ _ _ _ I).
  - rewrite <- C. symmetry. by apply cnt_ext.
  - rewrite <- C. by apply cnt_ext.
  - done.
  - lia.
Qed.

(** A table, or none yet. *)
Definition kh_ok h g : Prop := kh_inv h g \/ h = kh_init /\ forall k, g k = None.

(** ** The next size *)
Definition size_step (t : nat) (add : Z) : option nat :=
  match __ac_prime_list !! t with
  | Some p => match prime_index (__ac_HASH_PRIME_SIZE - 1) (p + add) with Ret x => Some x | _ => None end
  | None => None
  end.

Lemma sizes_all :
  forallb (fun t => bool_decide (size_step t (-1) = Some (t - 1)%nat) && bool_decide (size_step t 1 = Some t)) (seq 1 29) = true.
Proof. vm_compute. reflexivity. Qed.

Lemma size_steps t p : (1 <= t <= 29)%nat -> __ac_prime_list !! t = Some p ->
  prime_index (__ac_HASH_PRIME_SIZE - 1) (p - 1) = Ret (t - 1)%nat /\ prime_index (__ac_HASH_PRIME_SIZE - 1) (p + 1) = Ret t.
Proof.
  intros Ht E. pose proof sizes_all as H. rewrite forallb_forall in H. specialize (H t). rewrite in_seq in H. specialize (H ltac:(lia)).
  apply andb_true_iff in H as [H1 H2]. apply bool_decide_eq_true_1 in H1, H2. unfold size_step in H1, H2. rewrite E in H1, H2.
  change (p + -1) with (p - 1) in H1. destruct (prime_index _ (p - 1)); [|done..]. destruct (prime_index _ (p + 1)); [|done..]. injection H1 as ->. by injection H2 as ->.
Qed.

Lemma next_size t p : (t <= 28)%nat -> __ac_prime_list !! t = Some p -> exists p', __ac_prime_list !! S t = Some p' /\ table_size p' /\ p + 2 <= p'.
Proof.
  intros Ht E. assert (forallb (fun t => match __ac_prime_list !! t, __ac_prime_list !! S t with Some p, Some p' => p + 2 <=? p' | _, _ => false end) (seq 0 29) = true)
    as H by (vm_compute; reflexivity).
  rewrite forallb_forall in H. specialize (H t). rewrite in_seq, E in H. specialize (H ltac:(lia)).
  destruct (__ac_prime_list !! S t) as [p'|] eqn:E'; [|done]. exists p'. split; [done|]. split; [exists (S t); split; [lia|done]|]. bool_arith. lia.
Qed.

(** Only tables below 2^30 cells are made larger. *)
Lemma small_index n : table_size n -> n < 2 ^ 30 -> exists t : nat, (1 <= t <= 28)%nat /\ __ac_prime_list !! t = Some n.
Proof.
  intros (t & Ht & E) Hs. exists t. split; [|done]. destruct (decide (t = 29%nat)) as [->|]; [|lia]. vm_compute in E. injection E as <-. lia.
Qed.

Lemma kh_size_bounds h g : kh_inv h g -> 0 <= kh_size h <= n_occupied h.
Proof.
  intros I. rewrite (ki_size _ _ I), (ki_occ _ _ I). split; [apply cntn_bounds|]. apply cntn_mono. intros i _ L. unfold live in L.
  by apply andb_true_iff in L as [? _].
Qed.

Lemma hash_upper_grows p p' : p + 2 <= p' -> hash_upper p < hash_upper p'.
Proof.
  intros H. unfold hash_upper. pose proof (Z.div_mod (p * 77 + 50) 100 ltac:(lia)). pose proof (Z.mod_pos_bound (p * 77 + 50) 100 ltac:(lia)).
  pose proof (Z.div_mod (p' * 77 + 50) 100 ltac:(lia)). pose proof (Z.mod_pos_bound (p' * 77 + 50) 100 ltac:(lia)). lia.
Qed.

Lemma resize_to h g m t new_n :
  kh_ok h g -> prime_index (__ac_HASH_PRIME_SIZE - 1) m = Ret t -> __ac_prime_list !! S t = Some new_n -> table_size new_n ->
  n_buckets h <= new_n -> kh_size h < hash_upper new_n ->
  exists h', kh_resize h m = Ret h' /\ kh_inv h' g /\ n_occupied h' < upper_bound h' /\ kh_size h' = kh_size h.
Proof.
  intros Ok Et Ep Ht Hn Hs. unfold kh_resize. rewrite Et. mstep. rewrite (at_index_ret _ _ _ Ep). mstep.
  destruct (kh_size h >=? hash_upper new_n) eqn:?; bool_arith; [lia|]. cbv zeta.
  assert (0 <= n_buckets h /\ 0 <= kh_size h) as [N0 S0].
  { destruct Ok as [I|[-> _]]; [|done]. pose proof (table_bounds _ (ki_n _ _ I)). pose proof (kh_size_bounds h g I). lia. }
  pose proof (upper_room _ Ht). pose proof (rehash_start h g (n_buckets h) new_n eq_refl Ht ltac:(lia) Ok) as I0.
  destruct (move_loop_ret (n_buckets h) new_n (kh_size h) g Ht ltac:(lia) ltac:(lia) (Z.to_nat (n_buckets h)) 0 _ I0) as (r & -> & I & W); [lia|lia|lia|].
  mstep. eexists. split; [done|]. unfold shrink_cells. destruct (n_buckets h >? new_n) eqn:?; bool_arith; [lia|].
  split; [by apply (rehash_end (n_buckets h)); [..|done]; try done; lia|]. cbn [n_occupied upper_bound kh_size]. split; [lia|done].
Qed.

(** ** Insertion *)
Definition resized h : outcome (khash V) :=
  if n_occupied h >=? upper_bound h then
    if n_buckets h >? u32 (Z.shiftl (kh_size h) 1) then kh_resize h (u32 (n_buckets h - 1)) else kh_resize h (u32 (n_buckets h + 1))
  else Ret h.

Lemma resized_spec h g : kh_ok h g -> kh_size h < 2 ^ 29 ->
  exists h', resized h = Ret h' /\ kh_inv h' g /\ n_occupied h' < upper_bound h' /\ kh_size h' = kh_size h.
Proof.
  intros Ok Hs. unfold resized. destruct Ok as [I|[-> G]].
  - pose proof (table_bounds _ (ki_n _ _ I)). pose proof (upper_room _ (ki_n _ _ I)). pose proof (kh_size_bounds h g I). pose proof (ki_room _ _ I). pose proof (ki_up _ _ I) as Up.
    destruct (n_occupied h >=? upper_bound h) eqn:?; bool_arith; [|exists h; split; [done|]; split; [done|]; split; [lia|done]].
    rewrite Z.shiftl_mul_pow2, (u32_small (_ * _)) by lia. destruct (n_buckets h >? kh_size h * 2 ^ 1) eqn:?; bool_arith.
    + pose proof (ki_n _ _ I) as (t & Ht & Et). rewrite u32_small by lia. destruct (size_steps t _ Ht Et) as [Ep _].
      apply (resize_to h g _ _ (n_buckets h) (or_introl I) Ep); [by replace (S (t - 1)) with t by lia|apply I|lia|].
      assert (kh_size h <= n_buckets h / 2) by (apply Z.div_le_lower_bound; lia). lia.
    + destruct (small_index _ (ki_n _ _ I)) as (t & Ht & Et); [lia|]. rewrite u32_small by lia. destruct (size_steps t _ ltac:(lia) Et) as [_ Ep].
      destruct (next_size t _ ltac:(lia) Et) as (p' & E' & Hp' & Hlt). apply (resize_to h g _ _ p' (or_introl I) Ep); try done; [lia|].
      pose proof (hash_upper_grows _ _ Hlt). lia.
  - change (n_occupied kh_init >=? upper_bound kh_init) with true. cbn iota. change (n_buckets kh_init >? _) with false. cbn iota.
    apply (resize_to kh_init g _ 0%nat 3); [right; by split|reflexivity|reflexivity|exists 1%nat; split; [lia|reflexivity]|simpl; lia|reflexivity].
Qed.

Lemma kh_put_spec h g key v : kh_ok h g -> kh_size h < 2 ^ 29 -> g key = None ->
  exists x h1 h2 ret, kh_put h key = Ret (x, h1, ret) /\ truthy ret = true /\ set_value h1 x v = Ret h2 /\
    kh_inv h2 (fun k => if k =? key then Some v else g k) /\ kh_size h2 = kh_size h + 1.
Proof.
  intros Ok Hs G. unfold kh_put. fold (resized h). destruct (resized_spec h g Ok Hs) as (h' & -> & I & Room & Sz). mstep.
  destruct (put_place_spec h' g I key G) as (x & -> & Re & Hx & Lx). mstep. pose proof (flags_in h' g I x Hx) as Fx.
  rewrite isempty_ret, isdel_ret by done. mstep. assert (fe (kh_flags h') x || fd (kh_flags h') x = true) as ->.
  { unfold live in Lx. by destruct (fe _ x), (fd _ x). }
  rewrite set_cell_ret by (rewrite (ki_keys _ _ I); lia). mstep.
  destruct (set_isboth_false_ret (kh_flags h') x Fx) as (fl' & -> & Lf & Hf). mstep.
  pose proof (table_bounds _ (ki_n _ _ I)) as Bn. pose proof (kh_size_bounds h' g I). pose proof (upper_room _ (ki_n _ _ I)). pose proof (ki_up _ _ I) as Up.
  eexists _, _, _, _. split; [done|]. split; [by destruct (fe (kh_flags h') x)|]. unfold set_value. cbn [kh_vals].
  rewrite set_cell_ret by (rewrite (ki_vals _ _ I); lia). mstep. split; [done|]. rewrite (u32_small (kh_size h' + 1)) by lia.
  split; [|cbn [kh_size]; lia].
  assert (forall j, 0 <= j < n_buckets h' -> live fl' j = if decide (j = x) then true else live (kh_flags h') j) as Lj.
  { intros j Hj. apply live_put; apply Hf; lia. }
  assert (forall j, 0 <= j -> fe fl' j = true -> fe (kh_flags h') j = true) as Mono by (intros j Hj; rewrite (proj1 (Hf j Hj)); by destruct (decide _)).
  assert (forall j k' v', 0 <= j -> holds (<[Z.to_nat x := Some key]> (kh_keys h')) (<[Z.to_nat x := Some v]> (kh_vals h')) j k' v' <->
     (j = x /\ k' = key /\ v' = v) \/ (j <> x /\ holds (kh_keys h') (kh_vals h') j k' v')) as Hh.
  { intros. apply holds_set; rewrite ?(ki_keys _ _ I), ?(ki_vals _ _ I); lia. }
  assert (forall j k' v', 0 <= j < n_buckets h' -> live (kh_flags h') j = true -> holds (kh_keys h') (kh_vals h') j k' v' -> k' <> key) as Ne.
  { intros j k' v' Hj L [Hk Hv] ->. destruct (ki_live _ _ I j Hj L) as (k2 & v2 & [Hk2 _] & G2 & _). congruence. }
  constructor; cbn [n_buckets kh_size n_occupied upper_bound kh_flags kh_keys kh_vals].
  - apply I.
  - unfold blen. rewrite Lf. apply I.
  - unfold blen. rewrite length_insert. apply I.
  - unfold blen. rewrite length_insert. apply I.
  - intros j Hj L. rewrite Lj in L by done. destruct (decide (j = x)) as [->|N].
    + exists key, v. split; [apply Hh; [lia|by left]|]. rewrite Z.eqb_refl. split; [done|]. eapply reached_mono; [apply I|exact Mono|done].
    + destruct (ki_live _ _ I j Hj L) as (k' & v' & Hk & Gk & R). exists k', v'. split; [apply Hh; [lia|by right]|].
      destruct (k' =? key) eqn:?; bool_arith; [by destruct (Ne j k' v')|]. split; [done|]. eapply reached_mono; [apply I|exact Mono|done].
  - intros k' v' Gk. destruct (k' =? key) eqn:?; bool_arith.
    + injection Gk as <-. subst k'. exists x. split; [done|]. split; [by rewrite Lj, decide_True by done|]. apply Hh; [lia|by left].
    + destruct (ki_all _ _ I k' v' Gk) as (j & Hj & L & Hk). assert (j <> x) by (intros ->; congruence). exists j. split; [done|].
      split; [by rewrite Lj, decide_False by done|]. apply Hh; [lia|by right].
  - intros a b k' va vb Ha Hb La Lb Ka Kb. rewrite Lj in La, Lb by done. apply Hh in Ka; [|lia]. apply Hh in Kb; [|lia].
    destruct Ka as [(-> & -> & ->)|[Na Ka]], Kb as [(-> & E2 & _)|[Nb Kb]]; subst; try done.
    + rewrite decide_False in Lb by done. by destruct (Ne b key vb).
    + rewrite decide_False in La by done. by destruct (Ne a key va).
    + rewrite decide_False in La by done. rewrite decide_False in Lb by done. by eapply (ki_uniq _ _ I a b).
  - rewrite (cnt_set (live (kh_flags h')) (live fl') _ x true Hx Lx Lj), (ki_size _ _ I). lia.
  - assert (forall j, 0 <= j < n_buckets h' -> negb (fe fl' j) = if decide (j = x) then true else negb (fe (kh_flags h') j)) as Ej.
    { intros j Hj. rewrite (proj1 (Hf j ltac:(lia))). by destruct (decide _). }
    destruct (fe (kh_flags h') x) eqn:Ex.
    + rewrite (cnt_set (fun i => negb (fe (kh_flags h') i)) (fun i => negb (fe fl' i)) _ x true Hx); [|by rewrite Ex|done].
      rewrite u32_small by lia. rewrite (ki_occ _ _ I). lia.
    + rewrite (ki_occ _ _ I). apply cnt_ext. intros j Hj. rewrite Ej by done. destruct (decide (j = x)) as [->|]; [by rewrite Ex|done].
  - apply I.
  - destruct (fe (kh_flags h') x); [rewrite u32_small by lia|]; lia.
Qed.

(** ** Removal *)
Lemma kh_del_spec h g x key v : kh_inv h g -> 0 <= x < n_buckets h -> live (kh_flags h) x = true -> holds (kh_keys h) (kh_vals h) x key v ->
  exists h', kh_del h x = Ret h' /\ kh_inv h' (fun k => if k =? key then None else g k) /\ kh_size h' = kh_size h - 1.
Proof.
  intros I Hx Lx Hk. unfold kh_del. destruct (x =? n_buckets h) eqn:?; bool_arith; [lia|]. pose proof (flags_in h g I x Hx) as Fx.
  rewrite iseither_ret, Lx by done. mstep. cbn [negb]. destruct (set_isdel_true_ret (kh_flags h) x Fx) as (fl' & -> & Lf & Hf). mstep.
  pose proof (table_bounds _ (ki_n _ _ I)) as Bn. pose proof (kh_size_bounds h g I). pose proof (upper_room _ (ki_n _ _ I)). pose proof (ki_up _ _ I). pose proof (ki_room _ _ I).
  assert (forall j, 0 <= j < n_buckets h -> live fl' j = if decide (j = x) then false else live (kh_flags h) j) as Lj.
  { intros j Hj. apply live_del; apply Hf; lia. }
  pose proof (cnt_set (live (kh_flags h)) (live fl') _ x false Hx Lx Lj) as C. cbn iota in C. pose proof (cntn_bounds (live fl') (Z.to_nat (n_buckets h))) as C0. fold (cnt (live fl') (n_buckets h)) in C0.
  rewrite <- (ki_size _ _ I) in C. rewrite (u32_small (kh_size h - 1)) by lia. eexists. split; [done|]. split; [|done].
  assert (forall j k, reached (n_buckets h) (kh_flags h) k j -> reached (n_buckets h) fl' k j) as Rm.
  { intros j k R. eapply reached_mono; [apply I| |exact R]. intros i Hi. by rewrite (proj1 (Hf i Hi)). }
  constructor; cbn [n_buckets kh_size n_occupied upper_bound kh_flags kh_keys kh_vals].
  - apply I.
  - unfold blen. rewrite Lf. apply I.
  - apply I.
  - apply I.
  - intros j Hj L. rewrite Lj in L by done. destruct (decide (j = x)) as [->|N]; [done|].
    destruct (ki_live _ _ I j Hj L) as (k' & v' & Hk' & Gk & R). exists k', v'. split; [done|]. split; [|by apply Rm].
    destruct (k' =? key) eqn:?; bool_arith; [|done]. subst k'. exfalso. apply N. by eapply (ki_uniq _ _ I j x).
  - intros k' v' Gk. destruct (k' =? key) eqn:?; bool_arith; [done|]. destruct (ki_all _ _ I k' v' Gk) as (j & Hj & L & Hk').
    exists j. split; [done|]. split; [|done]. rewrite Lj by done. destruct (decide (j = x)) as [->|]; [|done]. destruct Hk as [Hk _], Hk' as [Hk' _]. congruence.
  - intros a b k' va vb Ha Hb La Lb. rewrite Lj in La, Lb by done. destruct (decide (a = x)), (decide (b = x)); try done. by apply (ki_uniq _ _ I).
  - lia.
  - rewrite (ki_occ _ _ I). apply cnt_ext. intros j Hj. by rewrite (proj1 (Hf j ltac:(lia))).
  - apply I.
  - done.
Qed.
End operations.

(** * Maps *)
Section maps.
Context {V : Type}.
Implicit Types (m : ur_map V) (h : khash V) (g : Z -> option V).

Definition map_ok m g : Prop := um_magic m = MAGIC_HASH /\ kh_ok (um_h m) g.

Lemma kh_ok_ext h g g' : (forall k, g k = g' k) -> kh_ok h g -> kh_ok h g'.
Proof.
  intros E [I|[-> G]]; [left|right; split; [done|intros k; by rewrite <- E]]. destruct I as [? ? ? ? Lv Al ? ? ? ? ?]. constructor; try done.
  - intros i Hi L. destruct (Lv i Hi L) as (k & v & ? & ? & ?). exists k, v. by rewrite <- E.
  - intros k v. rewrite <- E. apply Al.
Qed.

Lemma map_valid m g : map_ok m g -> ur_map_valid m = true.
Proof. intros [E _]. unfold ur_map_valid. by rewrite E. Qed.

Lemma kh_get_ok h g key : kh_ok h g ->
  exists x, kh_get h key = Ret x /\
    match g key with
    | Some v => kh_inv h g /\ 0 <= x < n_buckets h /\ live (kh_flags h) x = true /\ holds (kh_keys h) (kh_vals h) x key v
    | None => x = n_buckets h
    end.
Proof.
  intros [I|[-> G]].
  - destruct (kh_get_spec h g I key) as (x & E & H). exists x. split; [done|]. by destruct (g key).
  - exists 0. split; [done|]. by rewrite G.
Qed.

Lemma find_spec m g key : map_ok m g ->
  exists o, ur_map_find m key = Ret o /\
    match g key with
    | Some v => exists x, o = Some x /\ kh_inv (um_h m) g /\ 0 <= x < n_buckets (um_h m) /\ live (kh_flags (um_h m)) x = true /\
                  holds (kh_keys (um_h m)) (kh_vals (um_h m)) x key v
    | None => o = None
    end.
Proof.
  intros Ok. unfold ur_map_find. rewrite (map_valid m g Ok). cbn [negb]. destruct (kh_get_ok (um_h m) g key (proj2 Ok)) as (x & -> & H). mstep.
  destruct (g key) as [v|] eqn:G.
  - destruct H as (I & Hx & L & Hh). destruct (x =? n_buckets (um_h m)) eqn:?; bool_arith; [lia|]. unfold kh_exist.
    rewrite iseither_ret, L by (by apply (flags_in _ _ I)). mstep. eexists. split; [done|]. by exists x.
  - subst x. rewrite Z.eqb_refl. by eexists.
Qed.

Lemma ur_map_get_spec m g key : map_ok m g -> ur_map_get m key = Ret (g key).
Proof.
  intros Ok. unfold ur_map_get. destruct (find_spec m g key Ok) as (o & -> & H). mstep. destruct (g key) as [v|] eqn:G; [|by subst o].
  destruct H as (x & -> & _ & _ & _ & [_ Hv]). by rewrite (cell_ret _ _ _ Hv).
Qed.

Lemma ur_map_exist_spec m g key : map_ok m g -> ur_map_exist m key = Ret (bool_decide (is_Some (g key))).
Proof.
  intros Ok. unfold ur_map_exist. destruct (find_spec m g key Ok) as (o & -> & H). mstep. destruct (g key) as [v|] eqn:G.
  - destruct H as (x & -> & _). by rewrite bool_decide_true by (by eexists).
  - subst o. rewrite bool_decide_false; [done|]. by intros [? ?].
Qed.

Lemma ur_map_del_spec m g key : map_ok m g ->
  exists b m', ur_map_del m key = Ret (b, m', g key) /\ map_ok m' (fun k => if k =? key then None else g k) /\ kh_size (um_h m') <= kh_size (um_h m).
Proof.
  intros Ok. unfold ur_map_del. destruct (find_spec m g key Ok) as (o & -> & H). mstep. destruct (g key) as [v|] eqn:G.
  - destruct H as (x & -> & I & Hx & L & Hh). rewrite (cell_ret _ _ _ (proj2 Hh)). mstep. destruct (kh_del_spec (um_h m) g x key v I Hx L Hh) as (h' & -> & I' & Sz).
    mstep. eexists _, _. split; [done|]. split; [split; [apply Ok|by left]|]. cbn [um_h with_h]. lia.
  - subst o. eexists _, _. split; [done|]. split; [|done]. split; [apply Ok|]. eapply kh_ok_ext; [|apply Ok]. intros k. cbv beta.
    destruct (k =? key) eqn:?; bool_arith; [by subst|done].
Qed.

Lemma ur_map_put_spec m g key v : map_ok m g -> kh_size (um_h m) < 2 ^ 29 ->
  exists m', ur_map_put m key v = Ret (0, m') /\ map_ok m' (fun k => if k =? key then Some v else g k) /\
    kh_size (um_h m') <= kh_size (um_h m) + 1.
Proof.
  intros Ok Hs. unfold ur_map_put. rewrite (map_valid m g Ok). cbn [negb]. cbv zeta. destruct (kh_get_ok (um_h m) g key (proj2 Ok)) as (x & -> & H). mstep.
  set (g' := fun k => if k =? key then None else g k).
  assert (exists h', (if x =? n_buckets (um_h m) then Ret (um_h m) else kh_del (um_h m) x) = Ret h' /\ kh_ok h' g' /\ kh_size h' <= kh_size (um_h m)) as (h' & -> & Ok' & Sz).
  { destruct (g key) as [v0|] eqn:G.
    - destruct H as (I & Hx & L & Hh). destruct (x =? n_buckets (um_h m)) eqn:?; bool_arith; [lia|].
      destruct (kh_del_spec (um_h m) g x key v0 I Hx L Hh) as (h' & -> & I' & Sz). exists h'. split; [done|]. split; [by left|lia].
    - subst x. rewrite Z.eqb_refl. exists (um_h m). split; [done|]. split; [|done]. eapply kh_ok_ext; [|apply Ok]. intros k. unfold g'.
      destruct (k =? key) eqn:?; bool_arith; [by subst|done]. }
  mstep. destruct (kh_put_spec h' g' key v Ok') as (y & h1 & h2 & ret & -> & Hr & Hv & I2 & S2); [lia|unfold g'; by rewrite Z.eqb_refl|].
  mstep. rewrite Hr, Hv. mstep. eexists. split; [done|]. split; [|cbn [um_h with_h]; lia]. split; [apply Ok|]. apply (kh_ok_ext _ (fun k => if k =? key then Some v else g' k)); [|by left].
  intros k. unfold g'. by destruct (k =? key).
Qed.

(** ** Walking over the map *)
Fixpoint cells_of (todo : nat) (k : Z) h : list (Z * V) :=
  match todo with
  | O => []
  | S t => match kh_keys h !! Z.to_nat k, kh_vals h !! Z.to_nat k with
           | Some (Some a), Some (Some v) => if live (kh_flags h) k then [(a, v)] else []
           | _, _ => []
           end ++ cells_of t (k + 1) h
  end.

Fixpoint walk {A} (func : A -> Z -> V -> A * bool) (arg : A) (l : list (Z * V)) : A * bool :=
  match l with
  | [] => (arg, false)
  | (k, v) :: l => let '(arg, stop) := func arg k v in if (stop : bool) then (arg, true) else walk func arg l
  end.

Section cells.
Context h g (I : kh_inv h g).

Lemma cell_live k : 0 <= k < n_buckets h -> live (kh_flags h) k = true -> exists a v, holds (kh_keys h) (kh_vals h) k a v /\
  match kh_keys h !! Z.to_nat k, kh_vals h !! Z.to_nat k with
  | Some (Some a), Some (Some v) => if live (kh_flags h) k then [(a, v)] else []
  | _, _ => []
  end = [(a, v)].
Proof.
  intros Hk L. destruct (ki_live _ _ I k Hk L) as (a & v & [Ha Hv] & _). exists a, v. split; [done|]. by rewrite Ha, Hv, L.
Qed.

Lemma cell_free k : live (kh_flags h) k = false ->
  match kh_keys h !! Z.to_nat k, kh_vals h !! Z.to_nat k with
  | Some (Some a), Some (Some v) => if live (kh_flags h) k then [(a, v)] else []
  | _, _ => []
  end = @nil (Z * V).
Proof. intros ->. by destruct (kh_keys h !! Z.to_nat k) as [[?|]|], (kh_vals h !! Z.to_nat k) as [[?|]|]. Qed.

Lemma foreach_ret {A} (func : A -> Z -> V -> A * bool) todo : forall k arg, 0 <= k -> k + Z.of_nat todo <= n_buckets h ->
  foreach_loop todo k h func arg = Ret (walk func arg (cells_of todo k h)).
Proof.
  induction todo as [|t IH]; intros k arg Hk Hn; cbn [foreach_loop cells_of walk]; [done|]. unfold kh_exist. rewrite iseither_ret by (apply (flags_in _ _ I); lia). mstep.
  rewrite negb_involutive. destruct (live (kh_flags h) k) eqn:L.
  - destruct (cell_live k ltac:(lia) L) as (a & v & [Ha Hv] & E). rewrite L in E. rewrite E, (cell_ret _ _ _ Ha). mstep. rewrite (cell_ret _ _ _ Hv). mstep. cbn [app walk].
    destruct (func arg a v) as [arg' []]; [done|]. apply IH; lia.
  - pose proof (cell_free k L) as E. rewrite L in E. rewrite E. apply IH; lia.
Qed.

Lemma cells_elem todo : forall k a v, 0 <= k -> k + Z.of_nat todo <= n_buckets h ->
  (a, v) ∈ cells_of todo k h <-> exists i, k <= i < k + Z.of_nat todo /\ live (kh_flags h) i = true /\ holds (kh_keys h) (kh_vals h) i a v.
Proof.
  induction todo as [|t IH]; intros k a v Hk Hn; cbn [cells_of].
  { split; [by intros ?%elem_of_nil|]. intros (i & Hi & _). lia. }
  rewrite elem_of_app, IH by lia. destruct (live (kh_flags h) k) eqn:L.
  - destruct (cell_live k ltac:(lia) L) as (a' & v' & Hh & E). rewrite L in E. rewrite E, list_elem_of_singleton. split.
    + intros [[= -> ->]|(i & Hi & ?)]; [exists k; split; [lia|done]|exists i; split; [lia|done]].
    + intros (i & Hi & Li & Ka). destruct (decide (i = k)) as [->|]; [left|right; exists i; split; [lia|done]]. destruct Ka as [? ?], Hh as [? ?]. congruence.
  - pose proof (cell_free k L) as E. rewrite L in E. rewrite E. split.
    + intros [?%elem_of_nil|(i & Hi & ?)]; [done|]. exists i. split; [lia|done].
    + intros (i & Hi & Li & Ka). destruct (decide (i = k)) as [->|]; [congruence|]. right. exists i. split; [lia|done].
Qed.

Lemma cells_nodup todo : forall k, 0 <= k -> k + Z.of_nat todo <= n_buckets h -> NoDup (cells_of todo k h).*1.
Proof.
  induction todo as [|t IH]; intros k Hk Hn; cbn [cells_of]; [constructor|]. destruct (live (kh_flags h) k) eqn:L.
  - destruct (cell_live k ltac:(lia) L) as (a & v & Hh & E). rewrite L in E. rewrite E. cbn [app fmap list_fmap fst]. constructor; [|apply IH; lia].
    intros ([a' v'] & Ea & Hin)%list_elem_of_fmap. cbn [fst] in Ea. subst a'. apply cells_elem in Hin as (i & Hi & Li & Ki); [|lia..].
    assert (i = k) by (eapply (ki_uniq _ _ I i k); try done; lia). lia.
  - pose proof (cell_free k L) as E. rewrite L in E. rewrite E. apply IH; lia.
Qed.

Lemma cells_length todo : forall k : nat, Z.of_nat k + Z.of_nat todo <= n_buckets h ->
  cntn (live (kh_flags h)) (k + todo) = cntn (live (kh_flags h)) k + blen (cells_of todo (Z.of_nat k) h).
Proof.
  induction todo as [|t IH]; intros k Hn; cbn [cells_of]; [rewrite Nat.add_0_r; unfold blen; simpl; lia|].
  replace (k + S t)%nat with (S k + t)%nat by lia. rewrite IH by lia. cbn [cntn]. replace (Z.of_nat (S k)) with (Z.of_nat k + 1) by lia. rewrite blen_app.
  destruct (live (kh_flags h) (Z.of_nat k)) eqn:L.
  - destruct (cell_live (Z.of_nat k) ltac:(lia) L) as (a & v & Hh & E). rewrite L in E. rewrite E. change (blen [(a, v)]) with 1. simpl. lia.
  - pose proof (cell_free (Z.of_nat k) L) as E. rewrite L in E. rewrite E. change (blen (@nil (Z * V))) with 0. simpl. lia.
Qed.
End cells.

(** The entries of the map, in the order of the cells. *)
Definition map_cells m : list (Z * V) := cells_of (Z.to_nat (n_buckets (um_h m))) 0 (um_h m).

Lemma map_cells_spec m g : map_ok m g ->
  NoDup (map_cells m).*1 /\ (forall k v, (k, v) ∈ map_cells m <-> g k = Some v) /\ ur_map_size m = blen (map_cells m) /\
  forall A (func : A -> Z -> V -> A * bool) arg, ur_map_foreach_arg m func arg = Ret (walk func arg (map_cells m)).
Proof.
  intros Ok. unfold ur_map_size, ur_map_foreach_arg, map_cells. rewrite (map_valid m g Ok). destruct Ok as [_ [I|[-> G]]].
  - pose proof (table_bounds _ (ki_n _ _ I)). split; [apply (cells_nodup _ g I); lia|]. split; [|split].
    + intros k v. rewrite (cells_elem _ g I) by lia. split.
      * intros (i & Hi & L & Hh). destruct (ki_live _ _ I i ltac:(lia) L) as (k' & v' & [Hk Hv] & Gk & _). destruct Hh. congruence.
      * intros Gk. destruct (ki_all _ _ I k v Gk) as (i & Hi & L & Hh). exists i. split; [lia|done].
    + rewrite (ki_size _ _ I). unfold cnt. pose proof (cells_length _ g I (Z.to_nat (n_buckets (um_h m))) 0%nat ltac:(lia)) as C. cbn [cntn] in C. rewrite Nat.add_0_l in C. change (Z.of_nat 0) with 0 in C. lia.
    + intros A func arg. apply (foreach_ret _ g I); lia.
  - split; [constructor|]. split; [|split; [done|done]]. intros k v. rewrite G. split; [by intros ?%elem_of_nil|done].
Qed.

#[export] Instance ur_map_store : KVStore Z V (ur_map V) := {|
  kv_inv m := exists g, map_ok m g;
  kv_value_ok _ := True;
  kv_abs m k := match ur_map_get m k with Ret o => o | _ => None end;
  kv_get m k := ur_map_get m k;
  kv_put m k v := '(_, m) ← ur_map_put m k v; Ret m;
  kv_del m k := '(_, m, _) ← ur_map_del m k; Ret m |}.

(** The keys that an operation may add. *)
Definition op_key (o : kv_op Z V) : list Z := match o with OpPut k _ => [k] | OpDel _ => [] end.

Lemma size_keys m g ks : map_ok m g -> (forall k, is_Some (g k) -> k ∈ ks) -> kh_size (um_h m) <= blen ks.
Proof.
  intros Ok Hk. destruct (map_cells_spec m g Ok) as (Nd & El & Sz & _). unfold ur_map_size in Sz. rewrite (map_valid m g Ok) in Sz. rewrite Sz.
  unfold blen. rewrite <- (length_fmap fst (map_cells m)). apply Nat2Z.inj_le, submseteq_length, NoDup_submseteq; [done|].
  intros k ([k' v] & -> & Hin)%list_elem_of_fmap. apply Hk. exists v. by apply El.
Qed.

Lemma ur_map_run ks ops : blen ks < 2 ^ 29 -> (forall k, k ∈ flat_map op_key ops -> k ∈ ks) -> forall m g,
  map_ok m g -> (forall k, is_Some (g k) -> k ∈ ks) -> exists m', kv_run m ops = Ret m' /\ map_ok m' (ref_run g ops).
Proof.
  intros Hl. induction ops as [|o ops IH]; intros Hops m g Ok Hk; cbn [kv_run]; [by exists m|].
  pose proof (size_keys m g ks Ok Hk) as Sz.
  assert (exists m1, kv_step m o = Ret m1 /\ map_ok m1 (ref_step g o)) as (m1 & -> & Ok1).
  { destruct o as [k v|k]; cbn [kv_step kv_put kv_del ur_map_store].
    - destruct (ur_map_put_spec m g k v Ok) as (m1 & -> & Ok1 & S1); [lia|]. mstep. exists m1. split; [done|].
      split; [apply Ok1|]. eapply kh_ok_ext; [|apply Ok1]. intros k'. cbn. by rewrite Z.eqb_sym.
    - destruct (ur_map_del_spec m g k Ok) as (x & m1 & -> & Ok1 & S1). mstep. exists m1. split; [done|].
      split; [apply Ok1|]. eapply kh_ok_ext; [|apply Ok1]. intros k'. cbn. by rewrite Z.eqb_sym. }
  mstep. apply IH; [|done|].
  - intros k Hin. apply Hops. cbn [flat_map]. apply elem_of_app. by right.
  - intros k' [v' Hv]. destruct o as [k v|k]; cbn in Hv; destruct (k =? k') eqn:?; bool_arith; try done; try (apply Hk; by eexists).
    subst k'. apply Hops. cbn [flat_map op_key app]. left.
Qed.
End maps.

(** C33. The hash table refines a finite map: whatever sequence of insertions
    and removals with fewer than 2^29 different keys is run on a new [ur_map],
    with its growing, its rehashing in place and its deleted cells, every
    operation ends (the probe over a prime number of cells finds an empty one,
    the pairs that are kicked out find their places), no cell that was never
    written is read, and afterwards every key has the value that the last
    operation on it left; a walk over the map visits each entry exactly once,
    and the size is their number. *)
Theorem ur_map_refines {V : Type} (ops : list (kv_op Z V)) :
  blen (remove_dups (flat_map op_key ops)) < 2 ^ 29 ->
  exists m, kv_run ur_map_create ops = Ret m /\
    let g := ref_run (fun _ => None) ops in
    (forall k, ur_map_get m k = Ret (g k)) /\ (forall k, ur_map_exist m k = Ret (bool_decide (is_Some (g k)))) /\
    exists l, NoDup l.*1 /\ (forall k v, (k, v) ∈ l <-> g k = Some v) /\ ur_map_size m = blen l /\
      forall A (func : A -> Z -> V -> A * bool) arg, ur_map_foreach_arg m func arg = Ret (walk func arg l).
Proof.
  intros Hl. destruct (ur_map_run _ ops Hl) with (m := @ur_map_create V) (g := fun _ : Z => @None V) as (m & E & Ok);
    [intros k; apply elem_of_remove_dups|split; [done|right; by split]|by intros k [? ?]|].
  exists m. split; [done|]. cbv zeta. split; [intros k; by apply ur_map_get_spec|]. split; [intros k; by apply ur_map_exist_spec|].
  exists (map_cells m). by apply map_cells_spec.
Qed.

Definition ex_map_ops : list (kv_op Z Z) := OpDel 7 :: flat_map (fun i => [OpPut (i * 8589934592) i; OpPut i (i + 1); OpDel (i - 3)]) (seqZ 0 20).

Lemma ur_map_refines_witness :
  exists m, kv_run ur_map_create ex_map_ops = Ret m /\
    let g := ref_run (fun _ => None) ex_map_ops in
    (forall k, ur_map_get m k = Ret (g k)) /\ (forall k, ur_map_exist m k = Ret (bool_decide (is_Some (g k)))) /\
    exists l, NoDup l.*1 /\ (forall k v, (k, v) ∈ l <-> g k = Some v) /\ ur_map_size m = blen l /\
      forall A (func : A -> Z -> Z -> A * bool) arg, ur_map_foreach_arg m func arg = Ret (walk func arg l).
Proof. apply (ur_map_refines ex_map_ops). vm_compute. reflexivity. Defined.

(** The same by computation: the table has grown to 53 cells. *)
Example ex_map_run :
  (m ← kv_run ur_map_create ex_map_ops; v ← ur_map_get m (5 * 8589934592); w ← ur_map_get m 5; Ret (n_buckets (um_h m), ur_map_size m, v, w)) =
  Ret (53, 22, Some 5, None).
Proof. vm_compute. reflexivity. Qed.
