(* ===== verification/TurnPorts.v ===== *)
(** Relay port allocation: src/coturn/src/apps/relay/turn_ports.c.

    The two arrays of 65536 entries are functions updated at one index.  All
    indices but those in [turnports_randomize] are 16-bit values, so only that
    function checks them.  [low] and [high] are 32-bit counters that wrap.  A
    [turnports*] kept in an address map is a pointer into the list of the
    structures created so far ([NULL] is 0).  The mutexes are not modelled:
    each operation runs under its lock from start to end. *)

From stdpp Require Import base option numbers list.
From S2P Require Import Prelude IoAddr StunDefs KeyMap TurnMaps.

(** * Data *)
Definition PORTS_SIZE : Z := 65536.
Definition TPS_OUT_OF_RANGE : Z := u32 (-1).
Definition TPS_TAKEN_SINGLE : Z := u32 (-2).
Definition TPS_TAKEN_EVEN : Z := u32 (-3).
Definition TPS_TAKEN_ODD : Z := u32 (-4).

Record turnports : Type := TurnPorts {
  status : Z -> Z;
  low : Z;
  high : Z;
  range_start : Z;
  range_stop : Z;
  ports : Z -> Z }.

Definition upd (f : Z -> Z) (i v : Z) : Z -> Z := fun j => if j =? i then v else f j.

Definition set_status (tp : turnports) (port v : Z) : turnports :=
  TurnPorts (upd (status tp) port v) (low tp) (high tp) (range_start tp) (range_stop tp) (ports tp).
Definition set_ports (tp : turnports) (pos v : Z) : turnports :=
  TurnPorts (status tp) (low tp) (high tp) (range_start tp) (range_stop tp) (upd (ports tp) pos v).
Definition inc_low (tp : turnports) : turnports :=
  TurnPorts (status tp) (u32 (low tp + 1)) (high tp) (range_start tp) (range_stop tp) (ports tp).
Definition inc_high (tp : turnports) : turnports :=
  TurnPorts (status tp) (low tp) (u32 (high tp + 1)) (range_start tp) (range_stop tp) (ports tp).

Definition is_taken (st : Z) : bool :=
  (st =? TPS_TAKEN_SINGLE) || (st =? TPS_TAKEN_EVEN) || (st =? TPS_TAKEN_ODD).

(** * Initialisation *)

(** [tp->ports[i]] with an index that may be out of bounds. *)
Definition ports_at (tp : turnports) (i : Z) : outcome Z :=
  if (0 <=? i) && (i <? PORTS_SIZE) then Ret (ports tp i) else UB.

(** One exchange; [r1] and [r2] are the values of [random]. *)
Definition randomize_step (tp : turnports) (size r1 r2 : Z) : outcome turnports :=
  let port1 := u16 (low tp + u16 (u64 r1 mod size)) in
  let port2 := u16 (low tp + u16 (u64 r2 mod size)) in
  if negb (port1 =? port2) then
    let pos1 := i32 (status tp port1) in
    let pos2 := i32 (status tp port2) in
    let tmp := status tp port1 in
    let tp := set_status tp port1 (status tp port2) in
    let tp := set_status tp port2 tmp in
    p1 ← ports_at tp pos1;
    p2 ← ports_at tp pos2;
    let tp := set_ports tp pos1 p2 in
    Ret (set_ports tp pos2 p1)
  else Ret tp.

(** [rnd i] are the two random values of round [i]. *)
Fixpoint randomize_loop (n : nat) (tp : turnports) (size : Z) (rnd : nat -> Z * Z) : outcome turnports :=
  match n with
  | O => Ret tp
  | S n' =>
      tp ← randomize_step tp size (rnd O).1 (rnd O).2;
      randomize_loop n' tp size (fun i => rnd (S i))
  end.

Definition turnports_randomize (tp : turnports) (rnd : nat -> Z * Z) : outcome turnports :=
  let size := u32 (high tp - low tp) in
  let cycles := u32 (size * 10) in
  randomize_loop (Z.to_nat cycles) tp size rnd.

Definition turnports_init (start end_ : Z) (rnd : nat -> Z * Z) : outcome turnports :=
  turnports_randomize
    (TurnPorts (fun i => if (start <=? i) && (i <=? end_) then i else TPS_OUT_OF_RANGE)
       start (end_ + 1) start end_ (fun i => i)) rnd.

(** [None] for NULL. *)
Definition turnports_create (start end_ : Z) (rnd : nat -> Z * Z) : outcome (option turnports) :=
  if start >? end_ then Ret None
  else tp ← turnports_init start end_ rnd; Ret (Some tp).

(** * Allocation and release *)
Definition turnports_size (tp : turnports) : Z := u16 (high tp - low tp).

Fixpoint allocate_loop (fuel : nat) (tp : turnports) : outcome (Z * turnports) :=
  match fuel with
  | O => NoFuel
  | S f =>
      if high tp <=? low tp then Ret (-1, tp) else
      let position := u16 (Z.land (low tp) 0x0000FFFF) in
      let port := ports tp position in
      if (port <? range_start tp) || (port >? range_stop tp) then Ret (-1, tp) else
      if is_taken (status tp port) then allocate_loop f (inc_low tp) else
      if negb (status tp port =? low tp) then allocate_loop f (inc_low tp) else
      Ret (port, inc_low (set_status tp port TPS_TAKEN_SINGLE))
  end.

(** Every round but the last advances [low] towards [high]. *)
Definition turnports_allocate (tp : turnports) : outcome (Z * turnports) :=
  allocate_loop (S (Z.to_nat (high tp - low tp))) tp.

Definition turnports_release (tp : turnports) (port : Z) : turnports :=
  if (port >=? range_start tp) && (port <=? range_stop tp) then
    let position := u16 (Z.land (high tp) 0x0000FFFF) in
    if is_taken (status tp port) then
      inc_high (set_ports (set_status tp port (high tp)) position port)
    else tp
  else tp.

Definition turnports_is_allocated (tp : turnports) (port : Z) : bool := is_taken (status tp port).

Definition turnports_is_available (tp : turnports) (port : Z) : bool :=
  let st := status tp port in
  if negb (st =? TPS_OUT_OF_RANGE) && negb (is_taken st) then
    let position := u16 (Z.land st 0x0000FFFF) in
    ports tp position =? port
  else false.

(** The loop of [turnports_allocate_even] over [size] rounds. *)
Fixpoint allocate_even_loop (n : nat) (tp : turnports) (allocate_rtcp : bool) : outcome (Z * turnports) :=
  match n with
  | O => Ret (-1, tp)
  | S n' =>
      '(port, tp) ← turnports_allocate tp;
      if truthy (Z.land port 0x00000001) then
        allocate_even_loop n' (turnports_release tp (u16 port)) allocate_rtcp
      else if negb allocate_rtcp then Ret (port, tp)
      else
        let rtcp_port := port + 1 in
        if rtcp_port >? range_stop tp then
          allocate_even_loop n' (turnports_release tp (u16 port)) allocate_rtcp
        else if negb (turnports_is_available tp (u16 rtcp_port)) then
          allocate_even_loop n' (turnports_release tp (u16 port)) allocate_rtcp
        else
          Ret (port, set_status (set_status tp port TPS_TAKEN_EVEN) rtcp_port TPS_TAKEN_ODD)
  end.

(** The port and, when an RTCP port was reserved too, the first half of the
    reservation token; the other half is random. *)
Definition turnports_allocate_even (tp : turnports) (allocate_rtcp : bool) :
    outcome (Z * turnports * option (Z * Z)) :=
  let size := turnports_size tp in
  if size >? 1 then
    '(port, tp) ← allocate_even_loop (Z.to_nat size) tp allocate_rtcp;
    let v16 := (ports tp (u16 (Z.land (low tp) 0x0000FFFF)), ports tp (u16 (Z.land (high tp) 0x0000FFFF))) in
    Ret (port, tp, if allocate_rtcp && (port >=? 0) then Some v16 else None)
  else Ret (-1, tp, None).

(** * Ports per backend address *)
Record turnipports : Type := TurnIpPorts {
  ip_start : Z;
  ip_end : Z;
  ip_to_turnports_udp : ur_addr_map;
  ip_to_turnports_tcp : ur_addr_map;
  ip_heap : list turnports }.

Definition get_map (tp : turnipports) (transport : Z) : ur_addr_map :=
  if transport =? STUN_ATTRIBUTE_TRANSPORT_TCP_VALUE then ip_to_turnports_tcp tp else ip_to_turnports_udp tp.

Definition set_map (tp : turnipports) (transport : Z) (m : ur_addr_map) : turnipports :=
  if transport =? STUN_ATTRIBUTE_TRANSPORT_TCP_VALUE
  then TurnIpPorts (ip_start tp) (ip_end tp) (ip_to_turnports_udp tp) m (ip_heap tp)
  else TurnIpPorts (ip_start tp) (ip_end tp) m (ip_to_turnports_tcp tp) (ip_heap tp).

Definition set_heap (tp : turnipports) (h : list turnports) : turnipports :=
  TurnIpPorts (ip_start tp) (ip_end tp) (ip_to_turnports_udp tp) (ip_to_turnports_tcp tp) h.

(** The structure a non-NULL pointer points to. *)
Definition deref (tp : turnipports) (t : Z) : outcome turnports :=
  if t =? 0 then UB else at_index (ip_heap tp) (Z.to_nat (t - 1)).

Definition assign (tp : turnipports) (t : Z) (v : turnports) : turnipports :=
  set_heap tp (<[Z.to_nat (t - 1) := v]> (ip_heap tp)).

Definition turnipports_create (start end_ : Z) : turnipports :=
  TurnIpPorts start end_ ur_addr_map_init ur_addr_map_init [].

(** The pointer and the new state. *)
Definition turnipports_add (tp : turnipports) (transport : Z) (backend_addr : ioa_addr) (rnd : nat -> Z * Z) :
    outcome (Z * turnipports) :=
  let ba := set_port backend_addr 0 in
  t ← ur_addr_map_get (get_map tp transport) ba;
  match t with
  | Some t => Ret (t, tp)
  | None =>
      n ← turnports_create (ip_start tp) (ip_end tp) rnd;
      let '(t, tp) := match n with
                      | Some p => (blen (ip_heap tp) + 1, set_heap tp (ip_heap tp ++ [p]))
                      | None => (0, tp)
                      end in
      '(_, m) ← ur_addr_map_put (get_map tp transport) ba t;
      Ret (t, set_map tp transport m)
  end.

Definition turnipports_add_ip (singleton : turnipports) (transport : Z) (backend_addr : ioa_addr)
    (rnd : nat -> Z * Z) : outcome turnipports :=
  '(_, tp) ← turnipports_add singleton transport backend_addr rnd;
  Ret tp.

Definition turnipports_allocate (tp : turnipports) (transport : Z) (backend_addr : ioa_addr)
    (rnd : nat -> Z * Z) : outcome (Z * turnipports) :=
  '(t, tp) ← turnipports_add tp transport backend_addr rnd;
  p ← deref tp t;
  '(ret, p) ← turnports_allocate p;
  Ret (ret, assign tp t p).

Definition turnipports_allocate_even (tp : turnipports) (backend_addr : ioa_addr) (allocate_rtcp : bool)
    (rnd : nat -> Z * Z) : outcome (Z * turnipports * option (Z * Z)) :=
  '(t, tp) ← turnipports_add tp STUN_ATTRIBUTE_TRANSPORT_UDP_VALUE backend_addr rnd;
  if t =? 0 then Ret (-1, tp, None) else
  p ← deref tp t;
  '(ret, p, v16) ← turnports_allocate_even p allocate_rtcp;
  Ret (ret, assign tp t p, v16).

Definition turnipports_release (tp : turnipports) (transport : Z) (socket_addr : ioa_addr) : outcome turnipports :=
  let ba := set_port socket_addr 0 in
  t ← ur_addr_map_get (get_map tp transport) ba;
  match t with
  | Some t => p ← deref tp t; Ret (assign tp t (turnports_release p (get_port socket_addr)))
  | None => Ret tp
  end.

Definition turnipports_is_allocated (tp : turnipports) (transport : Z) (backend_addr : ioa_addr) (port : Z) :
    outcome bool :=
  t ← ur_addr_map_get (get_map tp transport) (set_port backend_addr 0);
  match t with
  | Some t => p ← deref tp t; Ret (turnports_is_allocated p port)
  | None => Ret false
  end.

Definition turnipports_is_available (tp : turnipports) (transport : Z) (backend_addr : ioa_addr) (port : Z) :
    outcome bool :=
  t ← ur_addr_map_get (get_map tp transport) (set_port backend_addr 0);
  match t with
  | None => Ret true
  | Some t => p ← deref tp t; Ret (turnports_is_available p port)
  end.
