(* ===== verification/TurnPortsFacts.v ===== *)
(** Properties of the port allocator: the ring of free ports, exclusiveness
    and completeness of allocation, independence of the pools of different
    backend addresses. *)

From stdpp Require Import base option numbers list.
From S2P Require Import Prelude IoAddr StunDefs KeyMap TurnMaps TurnMapsFacts TurnPorts.

(** * Arithmetic *)
Lemma position_mod x : 0 <= x -> u16 (Z.land x 0x0000FFFF) = x mod 65536.
Proof.
  intros Hx. unfold u16. change 0xFFFF with (Z.ones 16). rewrite Z.land_ones by lia.
  rewrite Z.mod_mod by lia. done.
Qed.

(** Positions closer than the size of the ring are different cells. *)
Lemma ring_distinct i j : 0 < j - i < 65536 -> i mod 65536 <> j mod 65536.
Proof.
  intros H E. pose proof (Z.div_mod i 65536 ltac:(lia)). pose proof (Z.div_mod j 65536 ltac:(lia)). lia.
Qed.

(** An injection of an interval into another that misses a point. *)
Lemma pigeonhole (f : Z -> Z) a b c d p :
  c <= p <= d -> (forall i, a <= i < b -> c <= f i <= d /\ f i <> p) ->
  (forall i j, a <= i < b -> a <= j < b -> f i = f j -> i = j) -> b - a <= d - c.
Proof.
  intros Hp Hf Hinj. destruct (Z.le_gt_cases b a) as [|Hab]; [lia|].
  set (l := p :: (f <$> seqZ a (b - a))).
  assert (NoDup l) as ND.
  { constructor.
    - rewrite list_elem_of_fmap. intros (i & Hi & Hin). apply elem_of_seqZ in Hin.
      destruct (Hf i ltac:(lia)). congruence.
    - apply NoDup_fmap_2_strong; [|apply NoDup_seqZ]. intros i j Hi Hj. apply elem_of_seqZ in Hi, Hj.
      apply Hinj; lia. }
  assert (l ⊆ seqZ c (d - c + 1)) as Sub.
  { intros x. unfold l. rewrite elem_of_cons, list_elem_of_fmap, elem_of_seqZ.
    intros [->|(i & -> & Hi)]; [lia|]. apply elem_of_seqZ in Hi. destruct (Hf i); lia. }
  pose proof (NoDup_submseteq _ _ ND Sub) as Sm. apply submseteq_length in Sm.
  unfold l in Sm. simpl in Sm. rewrite length_fmap, !length_seqZ in Sm. lia.
Qed.

(** * The ring of free ports *)
Definition in_range (tp : turnports) (p : Z) : Prop := range_start tp <= p <= range_stop tp.

(** Positions stay below the markers of the status field. *)
Definition POSITION_LIMIT : Z := 2 ^ 32 - 4.

Record ring_inv (tp : turnports) : Prop := RingInv {
  ri_range : 0 <= range_start tp <= range_stop tp /\ range_stop tp < 65536;
  ri_bounds : 0 <= low tp <= high tp /\ high tp <= POSITION_LIMIT;
  ri_free : forall p, in_range tp p -> is_taken (status tp p) = false ->
    low tp <= status tp p < high tp /\ ports tp (status tp p mod 65536) = p;
  ri_queue : forall i, low tp <= i < high tp ->
    in_range tp (ports tp (i mod 65536)) /\ status tp (ports tp (i mod 65536)) = i }.

Lemma position_not_taken i : i < POSITION_LIMIT -> is_taken i = false.
Proof.
  unfold POSITION_LIMIT, is_taken. intros H.
  change TPS_TAKEN_SINGLE with (2 ^ 32 - 2). change TPS_TAKEN_EVEN with (2 ^ 32 - 3).
  change TPS_TAKEN_ODD with (2 ^ 32 - 4). rewrite !orb_false_iff, !Z.eqb_neq. lia.
Qed.

Lemma upd_same f i v : upd f i v i = v.
Proof. unfold upd. by rewrite Z.eqb_refl. Qed.

Lemma upd_other f i v j : j <> i -> upd f i v j = f j.
Proof. unfold upd. intros. destruct (j =? i) eqn:?; [bool_arith; done|done]. Qed.

(** The port at the head of the queue is free, and allocation takes it. *)
Lemma allocate_spec tp :
  ring_inv tp ->
  (high tp = low tp /\ turnports_allocate tp = Ret (-1, tp)) \/
  (exists p, in_range tp p /\ is_taken (status tp p) = false /\ low tp < high tp /\
     status tp p = low tp /\ ports tp (low tp mod 65536) = p /\
     turnports_allocate tp = Ret (p, inc_low (set_status tp p TPS_TAKEN_SINGLE))).
Proof.
  intros I. pose proof (ri_bounds _ I). unfold turnports_allocate. cbn [allocate_loop].
  destruct (high tp <=? low tp) eqn:E; bool_arith; [left; split; [lia|done]|]. right.
  destruct (ri_queue _ I (low tp) ltac:(lia)) as [Hr Hs]. rewrite position_mod by lia.
  set (p := ports tp (low tp mod 65536)) in *. exists p.
  assert (is_taken (low tp) = false) as Hf by (apply position_not_taken; lia).
  split; [done|]. rewrite Hs, Hf. do 4 (split; [done|]). unfold in_range in Hr.
  destruct (_ || _) eqn:Er; [apply orb_true_iff in Er as [?|?]; bool_arith; lia|].
  by rewrite Z.eqb_refl.
Qed.

Lemma allocate_inv tp p :
  ring_inv tp -> in_range tp p -> low tp < high tp -> status tp p = low tp ->
  ports tp (low tp mod 65536) = p -> ring_inv (inc_low (set_status tp p TPS_TAKEN_SINGLE)).
Proof.
  intros I Hr Hlt Hs Hp. pose proof (ri_bounds _ I) as [Hb Hh]. unfold POSITION_LIMIT in Hh.
  assert (u32 (low tp + 1) = low tp + 1) as Hw by (apply u32_small; lia).
  constructor; simpl; rewrite ?Hw.
  - apply I.
  - unfold POSITION_LIMIT. lia.
  - intros q Hq Ht. destruct (Z.eq_dec q p) as [->|N]; [by rewrite upd_same in Ht|].
    rewrite upd_other in Ht |- * by done. destruct (ri_free _ I q Hq Ht) as [? Hpq]. split; [|done].
    destruct (Z.eq_dec (status tp q) (low tp)) as [E|]; [|lia]. rewrite E in Hpq. congruence.
  - intros i Hi. destruct (ri_queue _ I i ltac:(lia)) as [? Hq]. split; [done|].
    rewrite upd_other; [done|]. intros E. rewrite E, Hs in Hq. lia.
Qed.

(** Room in the ring while a port is taken. *)
Lemma ring_room tp p : ring_inv tp -> in_range tp p -> is_taken (status tp p) = true -> high tp - low tp < 65536.
Proof.
  intros I Hr Ht. destruct (ri_range _ I). destruct (ri_bounds _ I) as [_ Hh].
  enough (high tp - low tp <= range_stop tp - range_start tp) by lia.
  apply (pigeonhole (fun i => ports tp (i mod 65536)) (low tp) (high tp) _ _ p Hr).
  - intros i Hi. destruct (ri_queue _ I i Hi) as [? Hs]. split; [done|]. intros E. rewrite E in Hs.
    rewrite Hs, position_not_taken in Ht by lia. done.
  - intros i j Hi Hj E. destruct (ri_queue _ I i Hi) as [_ Hsi]. destruct (ri_queue _ I j Hj) as [_ Hsj].
    rewrite E in Hsi. congruence.
Qed.

Lemma release_inv tp p : ring_inv tp -> high tp < POSITION_LIMIT -> ring_inv (turnports_release tp p).
Proof.
  intros I Hlim. unfold turnports_release.
  destruct ((p >=? range_start tp) && (p <=? range_stop tp)) eqn:Er; [|done]. bool_arith.
  destruct (is_taken (status tp p)) eqn:Ht; [|done].
  pose proof (ring_room tp p I ltac:(unfold in_range; lia) Ht) as Hroom.
  pose proof (ri_bounds _ I) as [Hb _]. unfold POSITION_LIMIT in Hlim. rewrite position_mod by lia.
  assert (u32 (high tp + 1) = high tp + 1) as Hw by (apply u32_small; lia).
  constructor; simpl; rewrite ?Hw; unfold POSITION_LIMIT; [apply I|lia| |].
  - intros q Hq Htq. destruct (Z.eq_dec q p) as [->|N].
    + rewrite upd_same. split; [lia|]. by rewrite upd_same.
    + rewrite upd_other in Htq |- * by done. destruct (ri_free _ I q Hq Htq) as [? Hpq]. split; [lia|].
      rewrite upd_other; [done|]. apply ring_distinct. lia.
  - intros i Hi. destruct (Z.eq_dec i (high tp)) as [->|N].
    + rewrite upd_same. split; [unfold in_range; simpl; lia|]. by rewrite upd_same.
    + rewrite upd_other by (apply ring_distinct; lia).
      destruct (ri_queue _ I i ltac:(lia)) as [? Hq]. split; [done|]. rewrite upd_other; [done|].
      intros E. rewrite E in Hq. rewrite Hq, position_not_taken in Ht by (unfold POSITION_LIMIT; lia). done.
Qed.

(** What release does to the ports in use. *)
Lemma release_taken tp p q :
  ring_inv tp -> high tp < POSITION_LIMIT -> in_range tp q ->
  is_taken (status (turnports_release tp p) q) = is_taken (status tp q) && negb (q =? p).
Proof.
  intros I Hlim Hq. unfold turnports_release, in_range in *.
  destruct ((p >=? range_start tp) && (p <=? range_stop tp)) eqn:Er.
  - destruct (is_taken (status tp p)) eqn:Ht; simpl.
    + destruct (Z.eq_dec q p) as [->|N].
      * rewrite upd_same, Z.eqb_refl, andb_false_r. by apply position_not_taken.
      * rewrite upd_other by done. destruct (q =? p) eqn:?; [bool_arith; done|]. by rewrite andb_true_r.
    + destruct (q =? p) eqn:E; [bool_arith; subst; by rewrite Ht|by rewrite andb_true_r].
  - destruct (q =? p) eqn:E; [|by rewrite andb_true_r]. bool_arith. subst q.
    apply andb_false_iff in Er as [?|?]; bool_arith; lia.
Qed.

(** * Initialisation *)
Record fresh_inv (tp : turnports) : Prop := FreshInv {
  fi_range : 0 <= range_start tp <= range_stop tp /\ range_stop tp < 65536;
  fi_low : low tp = range_start tp;
  fi_high : high tp = range_stop tp + 1;
  fi_status : forall p, in_range tp p -> in_range tp (status tp p) /\ ports tp (status tp p) = p;
  fi_ports : forall i, in_range tp i -> in_range tp (ports tp i) /\ status tp (ports tp i) = i }.

Lemma randomize_step_inv tp r1 r2 :
  fresh_inv tp -> exists tp', randomize_step tp (high tp - low tp) r1 r2 = Ret tp' /\ fresh_inv tp' /\
    range_start tp' = range_start tp /\ range_stop tp' = range_stop tp.
Proof.
  intros I. destruct (fi_range _ I). pose proof (fi_low _ I) as Hl. pose proof (fi_high _ I) as Hh.
  unfold randomize_step. set (size := high tp - low tp).
  assert (forall r, in_range tp (u16 (low tp + u16 (u64 r mod size)))) as Hport.
  { intros r. pose proof (Z.mod_pos_bound (u64 r) size ltac:(lia)). unfold in_range.
    rewrite (u16_small (u64 r mod size)), u16_small by lia. lia. }
  pose proof (Hport r1) as H1. pose proof (Hport r2) as H2.
  set (p1 := u16 (low tp + u16 (u64 r1 mod size))) in *. set (p2 := u16 (low tp + u16 (u64 r2 mod size))) in *.
  destruct (p1 =? p2) eqn:E; cbn [negb]; [by exists tp|]. bool_arith.
  destruct (fi_status _ I p1 H1) as [S1 P1]. destruct (fi_status _ I p2 H2) as [S2 P2].
  unfold in_range in S1, S2. rewrite !i32_small by lia.
  assert (status tp p1 <> status tp p2) as Hne by congruence.
  unfold ports_at, PORTS_SIZE. if_case. mstep. if_case. mstep. cbn [set_status set_ports ports status].
  eexists. split; [done|]. split; [|done]. rewrite P1, P2.
  constructor; simpl; try done.
  - intros q Hq. unfold in_range in *. simpl. destruct (Z.eq_dec q p2) as [->|N2].
    { rewrite upd_same. split; [lia|]. rewrite upd_other, upd_same by done. done. }
    rewrite (upd_other _ p2) by done. destruct (Z.eq_dec q p1) as [->|N1].
    { rewrite upd_same. split; [lia|]. by rewrite upd_same. }
    rewrite upd_other by done. destruct (fi_status _ I q Hq) as [Sq Pq]. unfold in_range in Sq. split; [done|].
    rewrite !upd_other; [done|congruence|congruence].
  - intros i Hi. unfold in_range in *. simpl. destruct (Z.eq_dec i (status tp p2)) as [->|N2].
    { rewrite upd_same. split; [lia|]. rewrite upd_other, upd_same by congruence. done. }
    rewrite (upd_other _ (status tp p2)) by done. destruct (Z.eq_dec i (status tp p1)) as [->|N1].
    { rewrite upd_same. split; [lia|]. by rewrite upd_same. }
    rewrite upd_other by done. destruct (fi_ports _ I i Hi) as [Sq Pq]. unfold in_range in Sq. split; [done|].
    rewrite !upd_other; [done|congruence|congruence].
Qed.

Lemma randomize_loop_inv n : forall tp rnd,
  fresh_inv tp -> exists tp', randomize_loop n tp (high tp - low tp) rnd = Ret tp' /\ fresh_inv tp' /\
    range_start tp' = range_start tp /\ range_stop tp' = range_stop tp.
Proof.
  induction n as [|n IH]; intros tp rnd I; simpl; [by exists tp|].
  destruct (randomize_step_inv tp (rnd O).1 (rnd O).2 I) as (tp1 & -> & I1 & R1 & R2). mstep.
  assert (high tp - low tp = high tp1 - low tp1) as ->
    by (rewrite (fi_high _ I), (fi_low _ I), (fi_high _ I1), (fi_low _ I1); lia).
  destruct (IH tp1 (fun i => rnd (S i)) I1) as (tp' & -> & I' & ? & ?). exists tp'. split; [done|]. split; [done|]. lia.
Qed.

Lemma init_inv start end_ rnd :
  0 <= start <= end_ -> end_ < 65536 ->
  exists tp, turnports_init start end_ rnd = Ret tp /\ ring_inv tp /\
    range_start tp = start /\ range_stop tp = end_ /\ high tp <= 65536 /\
    forall p, in_range tp p -> is_taken (status tp p) = false.
Proof.
  intros H1 H2. unfold turnports_init, turnports_randomize. cbn [high low].
  set (tp0 := TurnPorts _ _ _ _ _ _).
  assert (fresh_inv tp0) as I0.
  { constructor; simpl; try done; unfold in_range; simpl; intros p Hp; split; try done;
      destruct (_ && _) eqn:E; try done; apply andb_false_iff in E as [?|?]; bool_arith; lia. }
  rewrite (u32_small (end_ + 1 - start)) by lia. change (end_ + 1 - start) with (high tp0 - low tp0).
  destruct (randomize_loop_inv (Z.to_nat (u32 ((high tp0 - low tp0) * 10))) tp0 rnd I0) as (tp & E & I & R1 & R2).
  exists tp. split; [done|]. simpl in R1, R2. destruct I as [Hr Hl Hh Hs Hp].
  assert (forall p, in_range tp p -> is_taken (status tp p) = false) as Hfree.
  { intros p Hp'. destruct (Hs p Hp') as [S _]. unfold in_range in S. apply position_not_taken.
    unfold POSITION_LIMIT. lia. }
  split; [|split_and!; (done || lia)]. constructor.
  - done.
  - unfold POSITION_LIMIT. lia.
  - intros p Hp' _. destruct (Hs p Hp') as [S P]. unfold in_range in S. rewrite Z.mod_small by lia. split; [lia|done].
  - intros i Hi. rewrite Z.mod_small by lia. apply Hp. unfold in_range. lia.
Qed.

(** * Sequences of operations

    A client asks for ports and gives ports back; [held] are the ports handed
    out and not yet given back. *)
Inductive port_op : Type := PAlloc | PRelease (p : Z).

Definition port_step (st : turnports * list Z) (o : port_op) : outcome (turnports * list Z) :=
  let '(tp, held) := st in
  match o with
  | PAlloc =>
      '(p, tp) ← turnports_allocate tp;
      Ret (tp, if p >=? 0 then p :: held else held)
  | PRelease p => Ret (turnports_release tp p, filter (fun q => q <> p) held)
  end.

Fixpoint port_run (st : turnports * list Z) (ops : list port_op) : outcome (turnports * list Z) :=
  match ops with
  | [] => Ret st
  | o :: r => st ← port_step st o; port_run st r
  end.

Record pool_inv (tp : turnports) (held : list Z) : Prop := PoolInv {
  pi_ring : ring_inv tp;
  pi_taken : forall p, in_range tp p -> is_taken (status tp p) = true <-> p ∈ held;
  pi_nodup : NoDup held;
  pi_range : Forall (in_range tp) held }.

Lemma port_step_inv tp held o :
  pool_inv tp held -> high tp < POSITION_LIMIT ->
  exists tp' held', port_step (tp, held) o = Ret (tp', held') /\ pool_inv tp' held' /\ high tp' <= high tp + 1 /\
    range_start tp' = range_start tp /\ range_stop tp' = range_stop tp.
Proof.
  intros [I T N R] Hlim. pose proof (ri_bounds _ I). pose proof (ri_range _ I).
  destruct o as [|p]; simpl.
  - destruct (allocate_spec tp I) as [[_ ->]|(p & Hr & Hf & Hlt & Hs & Hp & ->)]; mstep.
    + exists tp, held. split; [done|]. split; [done|]. lia.
    + unfold in_range in Hr. destruct (p >=? 0) eqn:?; [|bool_arith; lia].
      eexists _, _. split; [done|]. simpl. split; [|lia]. constructor.
      * by apply allocate_inv.
      * intros q Hq. simpl. rewrite elem_of_cons. destruct (Z.eq_dec q p) as [->|Ne].
        { rewrite upd_same. by split; [left|]. }
        rewrite upd_other by done. rewrite T by done. split; [by right|]. by intros [?|?].
      * constructor; [|done]. intros Hin. apply T in Hin; [congruence|done].
      * by constructor.
  - eexists _, _. split; [done|].
    assert (high (turnports_release tp p) <= high tp + 1 /\
            range_start (turnports_release tp p) = range_start tp /\
            range_stop (turnports_release tp p) = range_stop tp) as (Hh & Hs1 & Hs2).
    { unfold turnports_release. destruct (_ && _); [|split_and!; (done || lia)].
      destruct (is_taken _); simpl; [|split_and!; (done || lia)]. unfold POSITION_LIMIT in *.
      rewrite u32_small by lia. split_and!; (done || lia). }
    split; [|done]. constructor.
    + by apply release_inv.
    + intros q Hq. unfold in_range in Hq. rewrite Hs1, Hs2 in Hq. rewrite release_taken by done.
      rewrite andb_true_iff, T, negb_true_iff, Z.eqb_neq, list_elem_of_filter by done. tauto.
    + by apply NoDup_filter.
    + unfold in_range. rewrite Hs1, Hs2. rewrite Forall_forall in R |- *. intros q [_ Hq]%list_elem_of_filter. by apply R.
Qed.

Lemma port_run_inv ops : forall tp held,
  pool_inv tp held -> high tp + blen ops <= POSITION_LIMIT ->
  exists tp' held', port_run (tp, held) ops = Ret (tp', held') /\ pool_inv tp' held' /\
    range_start tp' = range_start tp /\ range_stop tp' = range_stop tp.
Proof.
  induction ops as [|o ops IH]; intros tp held I Hb; [by exists tp, held|]. rewrite blen_cons in Hb.
  cbn [port_run]. pose proof (blen_nonneg ops).
  destruct (port_step_inv tp held o I) as (tp1 & held1 & -> & I1 & H1 & R1 & R2); [lia|]. mstep.
  destruct (IH tp1 held1 I1) as (tp' & held' & -> & I' & ? & ?); [lia|]. exists tp', held'. split; [done|].
  split; [done|]. split; congruence.
Qed.

Lemma pool_init tp :
  ring_inv tp -> (forall p, in_range tp p -> is_taken (status tp p) = false) -> pool_inv tp [].
Proof.
  intros I F. constructor; [done| |constructor|constructor].
  intros p Hp. rewrite (F p Hp). split; [done|]. by intros ?%not_elem_of_nil.
Qed.

(** * Pools per backend address

    The address maps enter only through the laws of [KVStore]. *)
Definition is_tcp (transport : Z) : bool := transport =? STUN_ATTRIBUTE_TRANSPORT_TCP_VALUE.

Definition pool_of (tp : turnipports) (transport : Z) (a : ioa_addr) : option Z :=
  kv_abs (get_map tp transport) (set_port a 0).

Record ip_inv (tp : turnipports) : Prop := IpInv {
  ii_range : 0 <= ip_start tp <= ip_end tp /\ ip_end tp < 65536;
  ii_udp : kv_inv (ip_to_turnports_udp tp);
  ii_tcp : kv_inv (ip_to_turnports_tcp tp);
  ii_ptr : forall tr k t, kv_abs (get_map tp tr) k = Some t -> 1 <= t <= blen (ip_heap tp);
  ii_inj : forall tr k tr' k' t, kv_abs (get_map tp tr) k = Some t -> kv_abs (get_map tp tr') k' = Some t ->
    is_tcp tr = is_tcp tr' /\ key_eqb k k' = true;
  ii_pools : Forall (fun p => ring_inv p /\ range_start p = ip_start tp /\ range_stop p = ip_end tp) (ip_heap tp) }.

Lemma ii_map tp tr : ip_inv tp -> kv_inv (get_map tp tr).
Proof. intros I. unfold get_map. destruct (_ =? _); [apply (ii_tcp _ I)|apply (ii_udp _ I)]. Qed.

Lemma get_set_map tp tr m tr' :
  get_map (set_map tp tr m) tr' = if eqb (is_tcp tr) (is_tcp tr') then m else get_map tp tr'.
Proof. unfold get_map, set_map, is_tcp. by destruct (tr =? _), (tr' =? _). Qed.

Lemma get_map_tcp tp tr tr' : is_tcp tr = is_tcp tr' -> get_map tp tr = get_map tp tr'.
Proof. unfold is_tcp, get_map. by intros ->. Qed.

(** What a pointer of the maps points to. *)
Lemma deref_ok tp tr k t :
  ip_inv tp -> kv_abs (get_map tp tr) k = Some t ->
  exists p, deref tp t = Ret p /\ ip_heap tp !! Z.to_nat (t - 1) = Some p /\ ring_inv p /\
    range_start p = ip_start tp /\ range_stop p = ip_end tp.
Proof.
  intros I Ht. pose proof (ii_ptr _ I _ _ _ Ht) as Hb. unfold deref. destruct (t =? 0) eqn:?; [bool_arith; lia|].
  destruct (ip_heap tp !! Z.to_nat (t - 1)) as [p|] eqn:E.
  - exists p. rewrite (at_index_ret _ _ _ E). pose proof (ii_pools _ I) as F. rewrite Forall_lookup in F.
    destruct (F _ _ E) as (? & ? & ?). done.
  - apply lookup_ge_None in E. unfold blen in Hb. lia.
Qed.

Lemma deref_heap tp tp' t :
  ip_heap tp' !! Z.to_nat (t - 1) = ip_heap tp !! Z.to_nat (t - 1) -> deref tp' t = deref tp t.
Proof. intros E. unfold deref, at_index. by rewrite E. Qed.

Lemma is_allocated_pool tp tr b q :
  ip_inv tp ->
  turnipports_is_allocated tp tr b q =
  match pool_of tp tr b with
  | Some t => p ← deref tp t; Ret (is_taken (status p q))
  | None => Ret false
  end.
Proof.
  intros I. unfold turnipports_is_allocated, pool_of.
  pose proof (kv_get_ok (KV := addr_map_store) (get_map tp tr) (set_port b 0) (ii_map tp tr I)) as E.
  change (ur_addr_map_get (get_map tp tr) (set_port b 0)) with (kv_get (get_map tp tr) (set_port b 0)).
  rewrite E. mstep. by destruct (kv_abs _ _).
Qed.

(** Another transport or another address. *)
Definition other_pool (tr : Z) (a : ioa_addr) (tr' : Z) (b : ioa_addr) : Prop :=
  is_tcp tr <> is_tcp tr' \/ key_eqb (set_port a 0) (set_port b 0) = false.

(** Adding a pool under a new key. *)
Lemma add_new_inv tp tr a p :
  ip_inv tp -> key_ok (set_port a 0) -> pool_of tp tr a = None ->
  ring_inv p -> range_start p = ip_start tp -> range_stop p = ip_end tp ->
  let t := blen (ip_heap tp) + 1 in
  exists m, ur_addr_map_put (get_map tp tr) (set_port a 0) t = Ret (0, m) /\
    let tp' := set_map (set_heap tp (ip_heap tp ++ [p])) tr m in
    ip_inv tp' /\ pool_of tp' tr a = Some t /\
    (forall tr' b, other_pool tr a tr' b -> pool_of tp' tr' b = pool_of tp tr' b).
Proof.
  intros I Hk Hn Rp R1 R2 t. pose proof (blen_nonneg (ip_heap tp)).
  destruct (addr_put_spec (get_map tp tr) (set_port a 0) t (ii_map tp tr I) ltac:(lia)) as (m & Ep & Im & Am).
  exists m. split; [done|]. intros tp'.
  assert (ip_heap tp' = ip_heap tp ++ [p]) as Hheap by (unfold tp', set_map; by destruct (_ =? _)).
  assert (ip_start tp' = ip_start tp /\ ip_end tp' = ip_end tp) as [Hs He]
    by (unfold tp', set_map; by destruct (_ =? _)).
  assert (forall tr' k, kv_abs (get_map tp' tr') k =
            if eqb (is_tcp tr) (is_tcp tr') && key_eqb (set_port a 0) k then Some t else kv_abs (get_map tp tr') k) as Habs.
  { intros tr' k. unfold tp'. rewrite get_set_map. destruct (eqb (is_tcp tr) (is_tcp tr')) eqn:E; simpl.
    - apply eqb_prop in E. rewrite <- (get_map_tcp tp tr tr' E). apply Am.
    - done. }
  assert (forall tr' k t', kv_abs (get_map tp tr') k = Some t' -> t' <> t) as Hold.
  { intros tr' k t' H'. apply (ii_ptr _ I) in H'. lia. }
  split; [|split].
  - constructor.
    + rewrite Hs, He. apply I.
    + unfold tp', set_map. destruct (_ =? _); simpl; [apply (ii_udp _ I)|exact Im].
    + unfold tp', set_map. destruct (_ =? _); simpl; [exact Im|apply (ii_tcp _ I)].
    + intros tr' k t' Ht. rewrite Habs in Ht. rewrite Hheap, blen_app. change (blen [p]) with 1.
      destruct (_ && _); [injection Ht as <-; lia|]. apply (ii_ptr _ I) in Ht. lia.
    + intros tr1 k1 tr2 k2 t' H1 H2. rewrite Habs in H1, H2.
      destruct (eqb (is_tcp tr) (is_tcp tr1) && key_eqb (set_port a 0) k1) eqn:E1,
               (eqb (is_tcp tr) (is_tcp tr2) && key_eqb (set_port a 0) k2) eqn:E2; simplify_eq.
      * apply andb_true_iff in E1 as [E1%eqb_prop K1]. apply andb_true_iff in E2 as [E2%eqb_prop K2].
        split; [congruence|]. rewrite key_eqb_sym in K1. by eapply key_eqb_trans.
      * by apply Hold in H2.
      * by apply Hold in H1.
      * by eapply (ii_inj _ I).
    + rewrite Hheap, Hs, He. apply Forall_app. split; [apply I|]. by constructor.
  - unfold pool_of. rewrite Habs. rewrite eqb_reflx. unfold key_ok in Hk. by rewrite Hk.
  - intros tr' b [N|N]; unfold pool_of; rewrite Habs.
    + by destruct (eqb _ _) eqn:E; [apply eqb_prop in E|].
    + by rewrite N, andb_false_r.
Qed.

(** Finding or creating the pool of an address; the other pools stay. *)
Lemma add_spec tp tr a rnd :
  ip_inv tp -> key_ok (set_port a 0) ->
  exists t tp' p, turnipports_add tp tr a rnd = Ret (t, tp') /\ ip_inv tp' /\ pool_of tp' tr a = Some t /\
    ip_start tp' = ip_start tp /\ ip_end tp' = ip_end tp /\ deref tp' t = Ret p /\
    (forall q, ip_start tp <= q <= ip_end tp -> turnipports_is_allocated tp tr a q = Ret (is_taken (status p q))) /\
    (forall tr' b q, other_pool tr a tr' b ->
       turnipports_is_allocated tp' tr' b q = turnipports_is_allocated tp tr' b q).
Proof.
  intros I Hk. unfold turnipports_add.
  pose proof (kv_get_ok (KV := addr_map_store) (get_map tp tr) (set_port a 0) (ii_map tp tr I)) as Eg.
  change (ur_addr_map_get (get_map tp tr) (set_port a 0)) with (kv_get (get_map tp tr) (set_port a 0)).
  rewrite Eg. mstep. change (kv_abs (get_map tp tr) (set_port a 0)) with (pool_of tp tr a).
  destruct (pool_of tp tr a) as [t|] eqn:Ep.
  - destruct (deref_ok tp tr _ t I Ep) as (p & Ed & _). exists t, tp, p. do 6 (split; [done|]). split; [|done].
    intros q _. by rewrite is_allocated_pool, Ep, Ed by done.
  - unfold turnports_create. destruct (ii_range _ I). destruct (ip_start tp >? ip_end tp) eqn:?; [bool_arith; lia|].
    destruct (init_inv (ip_start tp) (ip_end tp) rnd) as (p & -> & Rp & R1 & R2 & _ & Free); [lia|lia|]. mstep.
    destruct (add_new_inv tp tr a p I Hk Ep Rp R1 R2) as (m & Em & I' & Pt & Po).
    assert (get_map (set_heap tp (ip_heap tp ++ [p])) tr = get_map tp tr) as -> by done. rewrite Em. mstep.
    set (tp' := set_map _ tr m) in *.
    assert (ip_heap tp' = ip_heap tp ++ [p]) as Hheap by (unfold tp', set_map; by destruct (_ =? _)).
    exists (blen (ip_heap tp) + 1), tp', p. split; [done|]. split; [done|]. split; [done|].
    split; [unfold tp', set_map; by destruct (_ =? _)|]. split; [unfold tp', set_map; by destruct (_ =? _)|].
    split; [|split].
    + unfold deref. pose proof (blen_nonneg (ip_heap tp)). destruct (_ =? 0) eqn:?; [bool_arith; lia|].
      apply at_index_ret. rewrite Hheap, lookup_app_r by (unfold blen; lia).
      replace (Z.to_nat (blen (ip_heap tp) + 1 - 1) - length (ip_heap tp))%nat with 0%nat by (unfold blen; lia). done.
    + intros q Hq. rewrite is_allocated_pool, Ep by done. by rewrite Free by (unfold in_range; lia).
    + intros tr' b q Ho. rewrite !is_allocated_pool, Po by done. destruct (pool_of tp tr' b) as [t'|] eqn:Et; [|done].
      apply (ii_ptr _ I) in Et. rewrite (deref_heap tp tp' t'); [done|].
      rewrite Hheap, lookup_app_l; [done|]. unfold blen in Et. lia.
Qed.

(** Updating a pool in place. *)
Lemma assign_spec tp tr a t p p' :
  ip_inv tp -> pool_of tp tr a = Some t -> deref tp t = Ret p -> ring_inv p' ->
  range_start p' = range_start p -> range_stop p' = range_stop p ->
  ip_inv (assign tp t p') /\
  (forall q, turnipports_is_allocated (assign tp t p') tr a q = Ret (is_taken (status p' q))) /\
  (forall tr' b q, other_pool tr a tr' b ->
     turnipports_is_allocated (assign tp t p') tr' b q = turnipports_is_allocated tp tr' b q).
Proof.
  intros I Ht Hd Rp R1 R2. destruct (deref_ok tp tr _ t I Ht) as (p0 & Hd0 & Hl & _ & Hs & He).
  rewrite Hd in Hd0. injection Hd0 as <-. pose proof (lookup_lt_Some _ _ _ Hl) as Hlt.
  assert (ip_inv (assign tp t p')) as I'.
  { constructor; try apply I; simpl.
    - intros tr' k t' Ht'. unfold blen. rewrite length_insert. by apply (ii_ptr _ I tr' k).
    - apply Forall_insert; [apply I|]. split; [done|]. split; congruence. }
  split; [done|]. split.
  - intros q. rewrite is_allocated_pool by done. change (pool_of (assign tp t p') tr a) with (pool_of tp tr a).
    rewrite Ht. unfold deref, assign. simpl. pose proof (ii_ptr _ I _ _ _ Ht). destruct (t =? 0) eqn:?; [bool_arith; lia|].
    rewrite (at_index_ret _ _ p'); [done|]. by apply list_lookup_insert_eq.
  - intros tr' b q Ho. rewrite !is_allocated_pool by done.
    change (pool_of (assign tp t p') tr' b) with (pool_of tp tr' b).
    destruct (pool_of tp tr' b) as [t'|] eqn:Et; [|done]. rewrite (deref_heap tp); [done|].
    unfold assign. simpl. apply list_lookup_insert_ne. intros E.
    pose proof (ii_ptr _ I _ _ _ Ht). pose proof (ii_ptr _ I _ _ _ Et). assert (t' = t) as -> by lia.
    destruct (ii_inj _ I _ _ _ _ _ Ht Et) as [E1 E2]. destruct Ho; congruence.
Qed.

Lemma key_ok_no_port a : known_family a -> key_ok (set_port a 0).
Proof.
  intros H. unfold key_ok. simpl. apply addr_eq_s_refl. unfold known_family in *.
  by rewrite set_port_family.
Qed.

(** * Claims *)

(** C32. No port is handed out twice and none is lost: from a fresh pool of
    any range, shuffled by any random numbers, after any sequence of fewer than
    four billion single allocations and releases, the ports handed out and not
    given back are distinct ports of the range and exactly those the pool
    reports as allocated; the next allocation fails if and only if every port
    of the range is out, and otherwise gives a port of the range that is not. *)
Theorem port_pool_exact start end_ rnd ops :
  0 <= start <= end_ -> end_ < 65536 -> blen ops <= 4294000000 ->
  exists tp0 tp held r tp', turnports_init start end_ rnd = Ret tp0 /\
    port_run (tp0, []) ops = Ret (tp, held) /\ NoDup held /\
    Forall (fun p => start <= p <= end_) held /\
    (forall p, start <= p <= end_ -> turnports_is_allocated tp p = true <-> p ∈ held) /\
    turnports_allocate tp = Ret (r, tp') /\
    (r = -1 <-> forall p, start <= p <= end_ -> p ∈ held) /\
    (r <> -1 -> start <= r <= end_ /\ r ∉ held).
Proof.
  intros H1 H2 Hops. destruct (init_inv start end_ rnd H1 H2) as (tp0 & E & I & R1 & R2 & Hh & F).
  destruct (port_run_inv ops tp0 [] (pool_init tp0 I F)) as (tp & held & Er & [I' T N R] & R3 & R4).
  { unfold POSITION_LIMIT. lia. }
  assert (forall p, in_range tp p <-> start <= p <= end_) as Hr by (intros; unfold in_range; lia).
  assert (exists r tp', turnports_allocate tp = Ret (r, tp') /\
            ((r = -1 /\ high tp = low tp) \/ (in_range tp r /\ is_taken (status tp r) = false))) as (r & tp' & Ea & Hc).
  { destruct (allocate_spec tp I') as [[? ?]|(p & ? & ? & _ & _ & _ & ?)]; eauto 8. }
  exists tp0, tp, held, r, tp'. do 3 (split; [done|]). split; [|split; [|split; [done|]]].
  - eapply Forall_impl; [exact R|]. intros p. apply Hr.
  - intros p Hp. apply T. by apply Hr.
  - destruct Hc as [[-> Heq]|[Hin Hfree]].
    + split; [|done]. split; [|done]. intros _ p Hp. apply T; [by apply Hr|].
      destruct (is_taken (status tp p)) eqn:Et; [done|].
      destruct (ri_free _ I' p) as [? _]; [by apply Hr|done|lia].
    + assert (start <= r <= end_) as Hrr by (by apply Hr). split.
      * split; [lia|]. intros Hall. apply Hall, T in Hrr; [congruence|done].
      * intros _. split; [done|]. intros Hh'. apply T in Hh'; [congruence|done].
Qed.

Lemma port_pool_exact_witness :
  exists tp0 tp held r tp', turnports_init 49152 49155 (fun i => (Z.of_nat i, 2)) = Ret tp0 /\
    port_run (tp0, []) [PAlloc; PAlloc; PRelease 49153; PAlloc] = Ret (tp, held) /\ NoDup held /\
    Forall (fun p => 49152 <= p <= 49155) held /\
    (forall p, 49152 <= p <= 49155 -> turnports_is_allocated tp p = true <-> p ∈ held) /\
    turnports_allocate tp = Ret (r, tp') /\
    (r = -1 <-> forall p, 49152 <= p <= 49155 -> p ∈ held) /\
    (r <> -1 -> 49152 <= r <= 49155 /\ r ∉ held).
Proof. apply port_pool_exact; [lia|lia|vm_compute; discriminate]. Defined.

(** The random numbers that put the even ports of 65530-65535 first. *)
Definition evens_first (i : nat) : Z * Z :=
  match i with
  | 0%nat => (1, 2)
  | 1%nat => (1, 4)
  | 2%nat => (1, 3)
  | _ => (0, 0)
  end.

(** A pair request on an exhausted pool takes a port away from its owner:
    in the range 65530-65535, after three even/odd pairs have taken all six
    ports, a fourth request for a pair fails, as it must, but while failing it
    releases port (uint16_t)(-1) = 65535, which the third pair still uses, and
    the next allocation hands 65535 out a second time. *)
Theorem allocate_even_steals_last_port :
  (tp0 ← turnports_init 65530 65535 evens_first;
   '(p1, tp1, _) ← turnports_allocate_even tp0 true;
   '(p2, tp2, _) ← turnports_allocate_even tp1 true;
   '(p3, tp3, _) ← turnports_allocate_even tp2 true;
   '(p4, tp4, _) ← turnports_allocate_even tp3 true;
   '(p5, tp5) ← turnports_allocate tp4;
   Ret (p1, p2, p3, turnports_is_allocated tp3 65535, p4, turnports_is_allocated tp4 65535, p5))
  = Ret (65530, 65532, 65534, true, -1, false, 65535).
Proof. vm_compute. reflexivity. Qed.

(** A ring that has come to its 2^32-nd release: the counter wraps, and no
    port is handed out any more although one is free. *)
Lemma high_wraps_to_failure tp p :
  range_start tp <= p <= range_stop tp -> is_taken (status tp p) = true -> high tp = 2 ^ 32 - 1 -> 0 <= low tp ->
  let tp' := turnports_release tp p in
  turnports_allocate tp' = Ret (-1, tp').
Proof.
  intros Hr Ht Hh Hl. unfold turnports_release. destruct (_ && _) eqn:E.
  - rewrite Ht. simpl. unfold turnports_allocate. simpl. rewrite Hh. change (u32 (2 ^ 32 - 1 + 1)) with 0.
    by destruct (0 <=? low tp) eqn:?; [|bool_arith; lia].
  - apply andb_false_iff in E as [?|?]; bool_arith; lia.
Qed.

(** Every backend address and transport has a pool of its own: allocating
    a relay port for an address never fails for want of memory safety, gives -1
    or a port of the configured range that was free and is now taken for that
    address and transport, and leaves the ports of every other address and of
    the other transport as they were. *)
Theorem ip_allocate_independent tp tr a rnd :
  ip_inv tp -> known_family a ->
  exists r tp', turnipports_allocate tp tr a rnd = Ret (r, tp') /\ ip_inv tp' /\
    (r <> -1 -> ip_start tp <= r <= ip_end tp /\
       turnipports_is_allocated tp tr a r = Ret false /\ turnipports_is_allocated tp' tr a r = Ret true) /\
    (forall tr' b q, other_pool tr a tr' b ->
       turnipports_is_allocated tp' tr' b q = turnipports_is_allocated tp tr' b q).
Proof.
  intros I Hf. destruct (add_spec tp tr a rnd I (key_ok_no_port a Hf)) as (t & tp1 & p & E & I1 & Pt & S1 & S2 & Ed & Al & Oth).
  unfold turnipports_allocate. rewrite E. mstep. rewrite Ed. mstep.
  destruct (deref_ok tp1 tr _ t I1 Pt) as (p0 & Ed0 & _ & Rp & Rs & Re). rewrite Ed in Ed0. injection Ed0 as <-.
  destruct (allocate_spec p Rp) as [[_ ->]|(r & Hr & Hfree & Hlt & Hs & Hp & ->)]; mstep.
  - destruct (assign_spec tp1 tr a t p p I1 Pt Ed Rp eq_refl eq_refl) as (I2 & _ & Oth2).
    eexists _, _. split; [done|]. split; [done|]. split; [done|]. intros. rewrite Oth2, Oth by done. done.
  - edestruct (assign_spec tp1 tr a t p _ I1 Pt Ed (allocate_inv p r Rp Hr Hlt Hs Hp) eq_refl eq_refl) as (I2 & Al2 & Oth2).
    eexists _, _. split; [done|]. split; [done|]. split.
    + intros _. unfold in_range in Hr. split; [lia|]. rewrite Al by lia. rewrite Hfree. split; [done|].
      rewrite Al2. simpl. by rewrite upd_same.
    + intros. rewrite Oth2, Oth by done. done.
Qed.

Lemma ip_allocate_independent_witness :
  exists r tp', turnipports_allocate (turnipports_create 49152 49160) 17 (ex_v4 10 0 0 1 0) (fun _ => (1, 2)) = Ret (r, tp') /\
    ip_inv tp' /\
    (r <> -1 -> 49152 <= r <= 49160 /\
       turnipports_is_allocated (turnipports_create 49152 49160) 17 (ex_v4 10 0 0 1 0) r = Ret false /\
       turnipports_is_allocated tp' 17 (ex_v4 10 0 0 1 0) r = Ret true) /\
    (forall tr' b q, other_pool 17 (ex_v4 10 0 0 1 0) tr' b ->
       turnipports_is_allocated tp' tr' b q = turnipports_is_allocated (turnipports_create 49152 49160) tr' b q).
Proof.
  apply ip_allocate_independent; [|by left].
  assert (forall k, kv_abs ur_addr_map_init k = None) as H by (intros; by apply tget_empty).
  constructor; simpl; try lia.
  - exact addr_map_init_inv.
  - exact addr_map_init_inv.
  - intros tr k t. unfold get_map. simpl. destruct (_ =? _); by rewrite H.
  - intros tr k tr' k' t. unfold get_map. simpl. destruct (tr =? _); by rewrite H.
  - constructor.
Defined.
