(* ===== verification/SlotTable.v ===== *)
(** Tables of slots that are reused and never move: eight buckets of slots,
    with pointers to slots.  The permissions and the channels of an allocation
    live in such tables (three slots inside the structure, further ones
    allocated one by one and kept until the whole table is freed). *)

From stdpp Require Import base option numbers list.
From S2P Require Import Prelude TurnMaps.

(** The pointer to slot [j] of bucket [i]; NULL is 0. *)
Definition slot_ptr (i j : nat) : Z := 1 + Z.of_nat i + 8 * Z.of_nat j.
Definition ptr_bucket (P : Z) : nat := Z.to_nat ((P - 1) mod 8).
Definition ptr_slot (P : Z) : nat := Z.to_nat ((P - 1) / 8).

Section slot_table.
Context {A : Type} (used : A -> bool).
Implicit Types (t : list (list A)) (b : list A).

Definition slot_at t (P : Z) : option A :=
  if 0 <? P then b ← t !! ptr_bucket P; b !! ptr_slot P else None.

Definition deref_slot t (P : Z) : outcome A :=
  match slot_at t P with Some x => Ret x | None => UB end.

Definition set_slot t (P : Z) (x : A) : list (list A) :=
  alter (fun b => <[ptr_slot P := x]> b) (ptr_bucket P) t.

(** The first slot with a property. *)
Definition find_slot (p : A -> bool) t (i : nat) : outcome (option Z) :=
  b ← at_index t i;
  Ret (match list_find (fun x => p x = true) b with
       | Some (j, _) => Some (slot_ptr i j)
       | None => None
       end).

(** The first slot not in use, or a new one with content [x0] at the end. *)
Definition free_slot t (i : nat) (x0 : A) : outcome (Z * list (list A)) :=
  b ← at_index t i;
  match list_find (fun x => used x = false) b with
  | Some (j, _) => Ret (slot_ptr i j, t)
  | None => Ret (slot_ptr i (length b), <[i := b ++ [x0]]> t)
  end.

(** * Lemmas *)
Lemma at_index_some (t : list (list A)) i b : t !! i = Some b -> at_index t i = Ret b.
Proof. unfold at_index. by intros ->. Qed.

Lemma ptr_bucket_lt P : (ptr_bucket P < 8)%nat.
Proof. unfold ptr_bucket. pose proof (Z.mod_pos_bound (P - 1) 8). lia. Qed.

Lemma ptr_decode i j : (i < 8)%nat -> ptr_bucket (slot_ptr i j) = i /\ ptr_slot (slot_ptr i j) = j /\ 0 < slot_ptr i j.
Proof.
  intros Hi. unfold ptr_bucket, ptr_slot, slot_ptr.
  replace (1 + Z.of_nat i + 8 * Z.of_nat j - 1) with (Z.of_nat i + Z.of_nat j * 8) by lia.
  rewrite Z.mod_add, Z.div_add, Z.mod_small, Z.div_small by lia. lia.
Qed.

Lemma ptr_encode P : 0 < P -> slot_ptr (ptr_bucket P) (ptr_slot P) = P.
Proof.
  intros HP. unfold ptr_bucket, ptr_slot, slot_ptr. pose proof (Z.mod_pos_bound (P - 1) 8).
  pose proof (Z.div_mod (P - 1) 8). assert (0 <= (P - 1) / 8) by (apply Z.div_pos; lia). lia.
Qed.

Lemma slot_at_pos t P x : slot_at t P = Some x -> 0 < P.
Proof. unfold slot_at. destruct (0 <? P) eqn:?; [bool_arith; done|done]. Qed.

Lemma slot_at_ptr t i j : (i < 8)%nat -> slot_at t (slot_ptr i j) = t !! i ≫= (.!! j).
Proof.
  intros Hi. destruct (ptr_decode i j Hi) as (E1 & E2 & Hp). unfold slot_at.
  destruct (0 <? slot_ptr i j) eqn:?; [|bool_arith; lia]. by rewrite E1, E2.
Qed.

Lemma slot_at_split t P : 0 < P -> slot_at t P = t !! ptr_bucket P ≫= (.!! ptr_slot P).
Proof. intros HP. unfold slot_at. by destruct (0 <? P) eqn:?; [|bool_arith; lia]. Qed.

Lemma ptr_eq P Q : 0 < P -> 0 < Q -> ptr_bucket P = ptr_bucket Q -> ptr_slot P = ptr_slot Q -> P = Q.
Proof. intros HP HQ E1 E2. rewrite <- (ptr_encode P), <- (ptr_encode Q) by done. by rewrite E1, E2. Qed.

Lemma length_set_slot t P x : length (set_slot t P x) = length t.
Proof. unfold set_slot. apply length_alter. Qed.

Lemma slot_at_set t P x y Q :
  slot_at t P = Some y -> slot_at (set_slot t P x) Q = if Q =? P then Some x else slot_at t Q.
Proof.
  intros HP. pose proof (slot_at_pos _ _ _ HP) as Hpos. rewrite slot_at_split in HP by done.
  destruct (t !! ptr_bucket P) as [b|] eqn:Eb; [|done]. simpl in HP.
  destruct (0 <? Q) eqn:HQ.
  2: { unfold slot_at. rewrite HQ. destruct (Q =? P) eqn:?; bool_arith; [lia|done]. }
  bool_arith. rewrite !slot_at_split by done. unfold set_slot.
  destruct (decide (ptr_bucket P = ptr_bucket Q)) as [E|N].
  - rewrite <- E, list_lookup_alter_eq, Eb. simpl. destruct (Q =? P) eqn:EQ; bool_arith.
    + subst Q. apply list_lookup_insert_eq. by eapply lookup_lt_Some.
    + rewrite list_lookup_insert_ne; [done|]. intros E2. apply EQ. symmetry. by apply ptr_eq.
  - rewrite list_lookup_alter_ne by done. destruct (Q =? P) eqn:EQ; bool_arith; [subst; done|done].
Qed.

Lemma find_slot_some p t i P :
  (i < 8)%nat -> find_slot p t i = Ret (Some P) ->
  exists x, slot_at t P = Some x /\ p x = true /\ ptr_bucket P = i.
Proof.
  intros Hi. unfold find_slot, at_index. destruct (t !! i) as [b|] eqn:Eb; [|done]. mstep.
  destruct (list_find _ b) as [[j x]|] eqn:F; [|done]. intros [= <-].
  apply list_find_Some in F as (Hj & Hp & _). exists x. rewrite slot_at_ptr, Eb by done. simpl.
  split; [done|]. split; [done|]. by apply ptr_decode.
Qed.

Lemma find_slot_none p t i P x :
  find_slot p t i = Ret None -> slot_at t P = Some x -> ptr_bucket P = i -> p x = false.
Proof.
  unfold find_slot, at_index. intros F HP Hb. pose proof (slot_at_pos _ _ _ HP) as Hpos.
  rewrite slot_at_split in HP by done. rewrite Hb in HP. destruct (t !! i) as [b|]; [|done]. simpl in *.
  destruct (list_find (fun x => p x = true) b) as [[j y]|] eqn:E; [done|]. apply list_find_None in E.
  rewrite Forall_lookup in E. apply not_true_is_false. by eapply E.
Qed.

Lemma find_slot_returns p t i : (i < length t)%nat -> exists r, find_slot p t i = Ret r.
Proof.
  intros Hi. apply lookup_lt_is_Some_2 in Hi as [b Hb]. unfold find_slot. rewrite (at_index_some t i b Hb).
  mstep. eauto.
Qed.

(** The pointer of [free_slot] is that of a slot not in use, or a new one. *)
Lemma free_slot_spec t i x0 :
  length t = 8%nat -> (i < 8)%nat -> used x0 = false ->
  exists P t', free_slot t i x0 = Ret (P, t') /\ length t' = 8%nat /\ 0 < P /\ ptr_bucket P = i /\
    (exists x, slot_at t' P = Some x /\ used x = false /\ (slot_at t P = Some x \/ x = x0)) /\
    (forall Q, slot_at t Q = None -> slot_at t' Q = None \/ Q = P) /\
    (forall Q x, slot_at t Q = Some x -> slot_at t' Q = Some x) /\
    (forall x, slot_at t P = Some x -> used x = false).
Proof.
  intros L Hi U. destruct (lookup_lt_is_Some_2 t i ltac:(lia)) as [b Hb]. unfold free_slot.
  rewrite (at_index_some t i b Hb). mstep. destruct (list_find _ b) as [[j x]|] eqn:F.
  - apply list_find_Some in F as (Hj & Hx & _). destruct (ptr_decode i j Hi) as (E1 & E2 & Hp).
    assert (slot_at t (slot_ptr i j) = Some x) as Hs by (rewrite slot_at_ptr, Hb by done; done).
    exists (slot_ptr i j), t. do 4 (split; [done|]). split; [by exists x; auto|]. split; [auto|]. split; [done|].
    intros y Hy. congruence.
  - destruct (ptr_decode i (length b) Hi) as (E1 & E2 & Hp).
    exists (slot_ptr i (length b)), (<[i:=b ++ [x0]]> t). split; [done|].
    split; [by rewrite length_insert|]. split; [done|]. split; [done|].
    assert (forall Q, 0 < Q -> ptr_bucket Q <> i -> slot_at (<[i:=b ++ [x0]]> t) Q = slot_at t Q) as Hother.
    { intros Q HQ N. rewrite !slot_at_split by done. by rewrite list_lookup_insert_ne. }
    assert (forall Q, 0 < Q -> ptr_bucket Q = i -> slot_at (<[i:=b ++ [x0]]> t) Q = (b ++ [x0]) !! ptr_slot Q) as Hsame.
    { intros Q HQ E. rewrite slot_at_split by done. rewrite E, list_lookup_insert_eq; [done|lia]. }
    split; [|split; [|split]].
    + exists x0. rewrite Hsame, E2 by done. rewrite lookup_app_r, Nat.sub_diag by lia. auto.
    + intros Q HQ. destruct (0 <? Q) eqn:EQ; [|left; unfold slot_at; by rewrite EQ]. bool_arith.
      destruct (decide (ptr_bucket Q = i)) as [E|N]; [|left; by rewrite Hother].
      destruct (decide (ptr_slot Q = length b)) as [Es|Ns]; [right; apply ptr_eq; congruence|].
      left. rewrite Hsame by done. rewrite slot_at_split, E, Hb in HQ by done. simpl in HQ.
      apply lookup_ge_None in HQ. apply lookup_ge_None. rewrite length_app. simpl. lia.
    + intros Q x HQ. pose proof (slot_at_pos _ _ _ HQ) as Hpos.
      destruct (decide (ptr_bucket Q = i)) as [E|N]; [|by rewrite Hother].
      rewrite Hsame by done. rewrite slot_at_split, E, Hb in HQ by done. simpl in HQ. by apply lookup_app_l_Some.
    + intros x HP. rewrite slot_at_ptr, Hb in HP by done. simpl in HP. by rewrite lookup_ge_None_2 in HP.
Qed.
End slot_table.
