(* ===== verification/Timers.v ===== *)
(** The timers of the event engine: [set_ioa_timer] and [delete_ioa_timer] of
    src/coturn/src/apps/relay/ns_ioalib_engine_impl.c and the macro
    [IOA_EVENT_DEL] of ns_turn_ioalib.h.

    A timer is a block of memory with the callback and its argument; its handle
    is the address of the block, which [malloc] chooses.  The list holds the
    blocks that are allocated.  Deleting a handle that is not allocated is a
    use after free, [UB].  Time is in seconds; [now] is the clock of the event
    library. *)

From stdpp Require Import base option numbers list sets.
From S2P Require Import Prelude.

(** The callbacks of one session with their argument: the permission, the
    channel, or the index of the relay session. *)
Inductive timer_cb : Type :=
| PermTimeout (P : Z)
| ChanTimeout (C : Z)
| AllocTimeout (i : nat).

#[export] Instance timer_cb_eq_dec : EqDecision timer_cb.
Proof. solve_decision. Defined.

Record timer : Type := Timer { t_handle : Z; t_deadline : Z; t_cb : timer_cb }.

(** [malloc]: an address that no allocated block has. *)
Class Malloc : Type := { malloc : list Z -> Z }.
Class MallocLaws {M : Malloc} : Prop := {
  malloc_pos : forall l, 0 < malloc l;
  malloc_fresh : forall l, malloc l ∉ l }.

Section timers.
Context {M : Malloc}.

Definition set_ioa_timer (l : list timer) (now secs : Z) (cb : timer_cb) : Z * list timer :=
  if secs >? 0 then
    let h := malloc (t_handle <$> l) in (h, Timer h (now + secs) cb :: l)
  else (0, l).

Definition delete_ioa_timer (l : list timer) (th : Z) : outcome (list timer) :=
  if bool_decide (th ∈ (t_handle <$> l)) then Ret (filter (fun t => t_handle t <> th) l) else UB.

Definition IOA_EVENT_DEL (l : list timer) (ev : Z) : outcome (list timer) :=
  if truthy ev then delete_ioa_timer l ev else Ret l.

(** * The timers that should be allocated

    [f cb] is the pair of the handle stored for the callback and the expiration
    time stored with it; the handle 0 stands for none.  The allocated timers are
    exactly the stored ones, and none fires before the stored time. *)
Definition armed := timer_cb -> option (Z * Z).

Record timers_inv (f : armed) (l : list timer) : Prop := TimersInv {
  ti_unique : NoDup (t_handle <$> l);
  ti_pos : forall t, t ∈ l -> 0 < t_handle t;
  ti_stored : forall cb h e, f cb = Some (h, e) -> h <> 0 -> exists d, Timer h d cb ∈ l /\ e <= d;
  ti_needed : forall h d cb, Timer h d cb ∈ l -> exists e, f cb = Some (h, e) /\ e <= d }.

Definition upd_armed (f : armed) (cb : timer_cb) (v : option (Z * Z)) : armed :=
  fun c => if decide (c = cb) then v else f c.

(** Stored handles 0 do not count. *)
Definition armed_eq (f g : armed) : Prop := forall cb h e, h <> 0 -> f cb = Some (h, e) <-> g cb = Some (h, e).

#[export] Instance armed_eq_equiv : Equivalence armed_eq.
Proof.
  split.
  - by intros f cb h e N.
  - intros f g H cb h e N. by rewrite (H cb h e N).
  - intros f g k H1 H2 cb h e N. by rewrite (H1 cb h e N), (H2 cb h e N).
Qed.

#[export] Instance timers_inv_proper : Proper (armed_eq ==> eq ==> iff) timers_inv.
Proof.
  assert (forall f g l, armed_eq f g -> timers_inv f l -> timers_inv g l) as H.
  { intros f g l E [U P S N]. constructor; [done|done| |].
    - intros cb h e G NZ. apply (S cb h e); [by apply E|done].
    - intros h d cb T. destruct (N h d cb T) as (e & F & Le). exists e. split; [|done]. apply E; [|done].
      specialize (P _ T). simpl in P. lia. }
  intros f g E l ? <-. split; apply H; [done|by symmetry].
Qed.

Lemma timer_unique l h d d' cb cb' :
  NoDup (t_handle <$> l) -> Timer h d cb ∈ l -> Timer h d' cb' ∈ l -> d = d' /\ cb = cb'.
Proof.
  intros U H1 H2. apply list_elem_of_lookup in H1 as [i Hi], H2 as [j Hj].
  assert (i = j) as ->; [|by split; congruence].
  apply (NoDup_lookup (t_handle <$> l) i j h U); rewrite list_lookup_fmap; [by rewrite Hi|by rewrite Hj].
Qed.

Lemma timers_empty f : (forall cb h e, f cb = Some (h, e) -> h = 0) -> timers_inv f [].
Proof. intros H. constructor; [constructor|set_solver| |set_solver]. intros cb h e F N. by destruct N; eapply H. Qed.

(** Deleting the timer stored for a callback. *)
Lemma timers_del f l cb h e :
  timers_inv f l -> f cb = Some (h, e) ->
  exists l', IOA_EVENT_DEL l h = Ret l' /\ timers_inv (upd_armed f cb None) l' /\ l' ⊆ l.
Proof.
  intros I F. pose proof I as [U P S N]. unfold IOA_EVENT_DEL, truthy.
  destruct (h =? 0) eqn:E0; bool_arith; simpl.
  - exists l. split; [done|]. split; [|done]. eapply timers_inv_proper; [|reflexivity|exact I].
    intros c h' e' NZ. unfold upd_armed. destruct (decide (c = cb)) as [->|]; [|done]. split; [done|congruence].
  - destruct (S cb h e F E0) as (d & T & Le). unfold delete_ioa_timer.
    rewrite bool_decide_true by (apply list_elem_of_fmap; by exists (Timer h d cb)).
    eexists. split; [done|]. split; [|intros t Ht; by apply list_elem_of_filter in Ht as [_ ?]]. constructor.
    + eapply sublist_NoDup; [exact U|]. by apply fmap_sublist, sublist_filter.
    + intros t [_ Ht]%list_elem_of_filter. by apply P.
    + intros c h' e' F' NZ. unfold upd_armed in F'. destruct (decide (c = cb)) as [->|Nc]; [done|].
      destruct (S c h' e' F' NZ) as (d' & T' & Le'). exists d'. split; [|done]. apply list_elem_of_filter. split; [|done].
      simpl. intros ->. destruct (timer_unique l h d d' cb c U T T') as [_ ->]. done.
    + intros h' d' c [Nh T']%list_elem_of_filter. simpl in Nh. destruct (N h' d' c T') as (e' & F' & Le').
      exists e'. split; [|done]. unfold upd_armed. destruct (decide (c = cb)) as [->|]; [congruence|done].
Qed.

(** A new timer for a callback that has none. *)
Lemma timers_cons f l h d cb e :
  timers_inv f l -> (forall h e, f cb = Some (h, e) -> h = 0) -> 0 < h -> h ∉ (t_handle <$> l) -> e <= d ->
  timers_inv (upd_armed f cb (Some (h, e))) (Timer h d cb :: l).
Proof.
  intros [U P S N] F0 Hp Hf He. constructor.
  - simpl. by constructor.
  - intros t [->|Ht]%elem_of_cons; [done|by apply P].
  - intros c h' e' F NZ. unfold upd_armed in F. destruct (decide (c = cb)) as [->|Nc].
    + injection F as <- <-. exists d. split; [left|done].
    + destruct (S c h' e' F NZ) as (d' & T & Le). exists d'. split; [by right|done].
  - intros h' d' c [[= -> -> ->]|T]%elem_of_cons.
    + exists e. unfold upd_armed. by destruct (decide (cb = cb)).
    + destruct (N h' d' c T) as (e' & F & Le). exists e'. split; [|done]. unfold upd_armed.
      destruct (decide (c = cb)) as [->|]; [|done]. specialize (F0 _ _ F). specialize (P _ T). simpl in P. lia.
Qed.

(** Setting a timer for a callback that has none. *)
Lemma timers_set `{!MallocLaws} f l now secs cb e :
  timers_inv f l -> (forall h e, f cb = Some (h, e) -> h = 0) -> 0 < secs -> e <= now + secs ->
  exists h l', set_ioa_timer l now secs cb = (h, l') /\ 0 < h /\ timers_inv (upd_armed f cb (Some (h, e))) l'.
Proof.
  intros I F0 Hs He. unfold set_ioa_timer. destruct (secs >? 0) eqn:Es; bool_arith; [|lia]. eexists _, _. split; [done|].
  split; [apply malloc_pos|]. apply timers_cons; [done|done|apply malloc_pos|apply malloc_fresh|done].
Qed.
End timers.

(** A [malloc]: one more than all addresses in use. *)
Definition bump_malloc (l : list Z) : Z := 1 + foldr Z.max 0 l.

Definition bump : Malloc := {| malloc := bump_malloc |}.

Lemma bump_above l x : x ∈ l -> x < bump_malloc l.
Proof.
  unfold bump_malloc. induction l as [|y l IH]; [set_solver|]. intros [->|H]%elem_of_cons; simpl; [lia|].
  specialize (IH H). lia.
Qed.

Lemma bump_laws : MallocLaws (M := bump).
Proof.
  constructor; simpl.
  - intros l. unfold bump_malloc. assert (0 <= foldr Z.max 0 l) by (induction l; simpl; lia). lia.
  - intros l H. apply bump_above in H. lia.
Qed.
