(* ===== verification/Allocation.v ===== *)
(** Allocations: src/coturn/src/server/ns_turn_allocation.c and .h, the
    permissions and channels of an allocation, its relay sessions and the
    queues of unsent buffers.

    The main slots and the extra slots of a bucket form one list, the main ones
    first; a pointer to a permission or a channel is a slot of the table
    ([SlotTable.slot_ptr]), 0 is NULL.  The pointers a permission keeps in its
    map of channels and the [owner] of a channel are such pointers, so the
    sharing between the two tables is that of the code.  Socket handles are
    integers, 0 for none; closing a socket resets the field that held it.  The
    timers of the event engine that belong to the allocation ([Timers]) are
    carried along, so that deleting a timer twice is seen. *)

From stdpp Require Import base option numbers list.
From S2P Require Import Prelude IoAddr StunDefs KeyMap TurnMaps SlotTable Timers.

(** * Data *)
Record ch_info : Type := ChInfo {
  chnum : Z;
  ch_allocated : bool;
  ch_port : Z;
  ch_peer_addr : ioa_addr;
  ch_expiration_time : Z;
  ch_lifetime_ev : Z;
  ch_owner : Z;
  kernel_channel : Z }.

Definition ch_zero : ch_info := ChInfo 0 false 0 addr_zero 0 0 0 0.

Record turn_permission_info : Type := TurnPermissionInfo {
  p_allocated : bool;
  p_chns : lm_map;
  p_addr : ioa_addr;
  p_expiration_time : Z;
  p_lifetime_ev : Z;
  p_owner : Z;
  p_verbose : Z;
  p_session_id : Z }.

Definition perm_zero : turn_permission_info := TurnPermissionInfo false lm_map_init addr_zero 0 0 0 0 0.

Record relay_endpoint_session : Type := RelaySession { rs_s : Z; rs_expiration_time : Z; rs_lifetime_ev : Z }.

Definition TURN_PERMISSION_HASHTABLE_SIZE : nat := 8.
Definition TURN_PERMISSION_ARRAY_SIZE : nat := 3.
Definition CH_MAP_HASH_SIZE : nat := 8.
Definition CH_MAP_ARRAY_SIZE : nat := 3.

Abbreviation turn_permission_hashtable := (list (list turn_permission_info)).
Abbreviation ch_map := (list (list ch_info)).

(** [a_timers] is not a field of the C structure but the part of the event
    engine that belongs to it.  The TCP connections are not part of the model. *)
Record allocation : Type := Allocation {
  is_valid : Z;
  a_tid : list Z;
  addr_to_perm : turn_permission_hashtable;
  relay_sessions : list relay_endpoint_session;
  relay_sessions_failure : list Z;
  a_chns : ch_map;
  a_owner : Z;
  a_timers : list timer }.

Definition with_perms (a : allocation) (t : turn_permission_hashtable) : allocation :=
  Allocation (is_valid a) (a_tid a) t (relay_sessions a) (relay_sessions_failure a) (a_chns a) (a_owner a) (a_timers a).
Definition with_chns (a : allocation) (t : ch_map) : allocation :=
  Allocation (is_valid a) (a_tid a) (addr_to_perm a) (relay_sessions a) (relay_sessions_failure a) t (a_owner a) (a_timers a).
Definition with_sessions (a : allocation) (l : list relay_endpoint_session) : allocation :=
  Allocation (is_valid a) (a_tid a) (addr_to_perm a) l (relay_sessions_failure a) (a_chns a) (a_owner a) (a_timers a).
Definition with_timers (a : allocation) (l : list timer) : allocation :=
  Allocation (is_valid a) (a_tid a) (addr_to_perm a) (relay_sessions a) (relay_sessions_failure a) (a_chns a) (a_owner a) l.
Definition with_chns_map (p : turn_permission_info) (m : lm_map) : turn_permission_info :=
  TurnPermissionInfo (p_allocated p) m (p_addr p) (p_expiration_time p) (p_lifetime_ev p) (p_owner p)
    (p_verbose p) (p_session_id p).

(** [p->...] and [*p = x] for the two kinds of pointers. *)
Definition get_perm (a : allocation) (P : Z) : outcome turn_permission_info := deref_slot (addr_to_perm a) P.
Definition get_chan (a : allocation) (C : Z) : outcome ch_info := deref_slot (a_chns a) C.
Definition put_perm (a : allocation) (P : Z) (p : turn_permission_info) : allocation :=
  with_perms a (set_slot (addr_to_perm a) P p).
Definition put_chan (a : allocation) (C : Z) (c : ch_info) : allocation :=
  with_chns a (set_slot (a_chns a) C c).

(** [IOA_EVENT_DEL] on a handle of the allocation. *)
Definition event_del (a : allocation) (ev : Z) : outcome allocation :=
  l ← IOA_EVENT_DEL (a_timers a) ev; Ret (with_timers a l).

(** * Allocation *)
Definition init_turn_permission_hashtable : turn_permission_hashtable :=
  replicate TURN_PERMISSION_HASHTABLE_SIZE (replicate TURN_PERMISSION_ARRAY_SIZE perm_zero).

Definition ch_map_zero : ch_map := replicate CH_MAP_HASH_SIZE (replicate CH_MAP_ARRAY_SIZE ch_zero).

Definition init_allocation (owner : Z) : allocation :=
  Allocation 0 (zeros 12) init_turn_permission_hashtable (replicate 2 (RelaySession 0 0 0)) [0; 0] ch_map_zero owner [].

Definition ALLOC_INDEX (family : Z) : nat := if family =? AF_INET6 then 1%nat else 0%nat.

Definition get_relay_session (a : allocation) (family : Z) : outcome relay_endpoint_session :=
  at_index (relay_sessions a) (ALLOC_INDEX family).

Definition get_relay_session_failure (a : allocation) (family : Z) : outcome Z :=
  at_index (relay_sessions_failure a) (ALLOC_INDEX family).

Definition set_relay_session_failure (a : allocation) (family : Z) : allocation :=
  Allocation (is_valid a) (a_tid a) (addr_to_perm a) (relay_sessions a)
    (<[ALLOC_INDEX family := 1]> (relay_sessions_failure a)) (a_chns a) (a_owner a) (a_timers a).

Definition get_relay_socket (a : allocation) (family : Z) : outcome Z :=
  r ← at_index (relay_sessions a) (ALLOC_INDEX family);
  Ret (rs_s r).

(** Without the TCP connections. *)
Definition set_allocation_family_invalid (a : allocation) (family : Z) : outcome allocation :=
  let index := ALLOC_INDEX family in
  r ← at_index (relay_sessions a) index;
  if truthy (rs_s r) then
    a ← event_del a (rs_lifetime_ev r);
    Ret (with_sessions a (<[index := RelaySession 0 (rs_expiration_time r) 0]> (relay_sessions a)))
  else Ret a.

Definition set_allocation_lifetime_ev (a : allocation) (exp_time ev family : Z) : outcome allocation :=
  r ← at_index (relay_sessions a) (ALLOC_INDEX family);
  a ← event_del a (rs_lifetime_ev r);
  Ret (with_sessions a (<[ALLOC_INDEX family := RelaySession (rs_s r) exp_time ev]> (relay_sessions a))).

Definition is_allocation_valid (a : allocation) : Z := is_valid a.

Definition set_allocation_valid (a : allocation) (value : Z) : allocation :=
  Allocation value (a_tid a) (addr_to_perm a) (relay_sessions a) (relay_sessions_failure a) (a_chns a) (a_owner a)
    (a_timers a).

(** * Permissions *)
Definition perm_index (addr : ioa_addr) : nat :=
  Z.to_nat (Z.land (addr_hash_no_port (Some addr)) (Z.of_nat TURN_PERMISSION_HASHTABLE_SIZE - 1)).

Definition get_from_turn_permission_hashtable (map : turn_permission_hashtable) (addr : ioa_addr) :
    outcome (option Z) :=
  find_slot (fun info => p_allocated info && addr_eq_no_port (Some (p_addr info)) (Some addr))
    map (perm_index addr).

Definition allocation_get_permission (a : allocation) (addr : ioa_addr) : outcome (option Z) :=
  get_from_turn_permission_hashtable (addr_to_perm a) addr.

(** [owner] is the address of the allocation itself. *)
Definition allocation_add_permission (a : allocation) (owner : Z) (addr : ioa_addr) : outcome (Z * allocation) :=
  '(P, t) ← free_slot p_allocated (addr_to_perm a) (perm_index addr) perm_zero;
  let elem := TurnPermissionInfo true lm_map_init addr 0 0 owner 0 0 in
  Ret (P, put_perm (with_perms a t) P elem).

(** * Channels *)
Definition ch_index (chnum : Z) : nat := Z.to_nat (Z.land chnum (Z.of_nat CH_MAP_HASH_SIZE - 1)).

(** With [new_chn] the first slot not in use, or a new one; otherwise the
    first channel with the number. *)
Definition ch_map_get (map : ch_map) (num : Z) (new_chn : bool) : outcome (option Z * ch_map) :=
  if new_chn then
    '(C, map) ← free_slot ch_allocated map (ch_index num) ch_zero;
    Ret (Some C, map)
  else
    r ← find_slot (fun chi => ch_allocated chi && (chnum chi =? num)) map (ch_index num);
    Ret (r, map).

Definition ch_info_clean (a : allocation) (C : Z) : outcome allocation :=
  c ← get_chan a C;
  a ← event_del a (ch_lifetime_ev c);
  Ret (put_chan a C ch_zero).

Definition delete_channel_info_from_allocation_map (a : allocation) (key value : Z) : outcome allocation :=
  if truthy value then ch_info_clean a value else Ret a.

(** The callback answers 0, so the loop visits all cells. *)
Fixpoint delete_channels (a : allocation) (cells : list (Z * Z)) : outcome allocation :=
  match cells with
  | [] => Ret a
  | (key, value) :: r => a ← delete_channel_info_from_allocation_map a key value; delete_channels a r
  end.

Definition turn_permission_clean (a : allocation) (P : Z) : outcome allocation :=
  tinfo ← get_perm a P;
  if p_allocated tinfo then
    a ← event_del a (p_lifetime_ev tinfo);
    a ← delete_channels a (lm_map_foreach (p_chns tinfo) (fun _ _ => false)).2;
    Ret (put_perm a P perm_zero)
  else Ret a.

(** The permissions in use are cleaned, the extra slots freed. *)
Fixpoint clean_permissions (a : allocation) (ptrs : list Z) : outcome allocation :=
  match ptrs with
  | [] => Ret a
  | P :: r => a ← turn_permission_clean a P; clean_permissions a r
  end.

(** The pointers of all slots, bucket by bucket. *)
Definition all_ptrs {A} (t : list (list A)) : list Z :=
  concat (imap (fun i b => slot_ptr i <$> seq 0 (length b)) t).

Definition free_turn_permission_hashtable (a : allocation) : outcome allocation :=
  a ← clean_permissions a (all_ptrs (addr_to_perm a));
  Ret (with_perms a (take TURN_PERMISSION_ARRAY_SIZE <$> addr_to_perm a)).

Fixpoint clean_channels (a : allocation) (ptrs : list Z) : outcome allocation :=
  match ptrs with
  | [] => Ret a
  | C :: r =>
      chi ← get_chan a C;
      a ← (if ch_allocated chi then ch_info_clean a C else Ret a);
      clean_channels a r
  end.

Definition ch_map_clean (a : allocation) : outcome allocation :=
  a ← clean_channels a (all_ptrs (a_chns a));
  Ret (with_chns a (take CH_MAP_ARRAY_SIZE <$> a_chns a)).

(** The relay sessions from index [i] on. *)
Fixpoint clear_sessions (a : allocation) (i n : nat) : outcome allocation :=
  match n with
  | O => Ret a
  | S n =>
      r ← at_index (relay_sessions a) i;
      a ← event_del a (rs_lifetime_ev r);
      clear_sessions (with_sessions a (<[i := RelaySession 0 (rs_expiration_time r) 0]> (relay_sessions a))) (S i) n
  end.

(** Without the TCP connections; both relay sockets are closed. *)
Definition clear_allocation (a : allocation) : outcome allocation :=
  a ← clear_sessions a 0 2;
  a ← free_turn_permission_hashtable a;
  a ← ch_map_clean a;
  Ret (set_allocation_valid a 0).

Definition turn_channel_delete (a : allocation) (C : Z) : outcome allocation :=
  chn ← get_chan a C;
  let port := get_port (ch_peer_addr chn) in
  a ← (if ch_owner chn =? 0 then Ret a
       else
         tinfo ← get_perm a (ch_owner chn);
         '(_, m, _) ← lm_map_del (p_chns tinfo) port;
         Ret (put_perm a (ch_owner chn) (with_chns_map tinfo m)));
  delete_channel_info_from_allocation_map a port C.

(** [a_ptr] is the address of the allocation. *)
Definition allocation_get_new_ch_info (a : allocation) (a_ptr num : Z) (peer_addr : ioa_addr) :
    outcome (Z * allocation) :=
  tinfo ← get_from_turn_permission_hashtable (addr_to_perm a) peer_addr;
  '(P, a) ← (match tinfo with
             | Some P => Ret (P, a)
             | None => allocation_add_permission a a_ptr peer_addr
             end);
  '(chn, map) ← ch_map_get (a_chns a) num true;
  match chn with
  | None => UB
  | Some C =>
      let a := with_chns a map in
      c ← get_chan a C;
      let a := put_chan a C (ChInfo num true (get_port peer_addr) peer_addr (ch_expiration_time c)
                               (ch_lifetime_ev c) P (kernel_channel c)) in
      p ← get_perm a P;
      '(_, m) ← lm_map_put (p_chns p) (get_port peer_addr) C;
      Ret (C, put_perm a P (with_chns_map p m))
  end.

Definition allocation_get_ch_info (a : allocation) (num : Z) : outcome (option Z) :=
  '(r, _) ← ch_map_get (a_chns a) num false;
  Ret r.

Definition get_turn_channel (a : allocation) (P : Z) (addr : ioa_addr) : outcome (option Z) :=
  tinfo ← get_perm a P;
  t ← lm_map_get (p_chns tinfo) (get_port addr);
  match t with
  | Some t =>
      if truthy t then
        chn ← get_chan a t;
        if STUN_VALID_CHANNEL (chnum chn) then Ret (Some t) else Ret None
      else Ret None
  | None => Ret None
  end.

Definition get_turn_channel_number (a : allocation) (P : Z) (addr : ioa_addr) : outcome Z :=
  tinfo ← get_perm a P;
  t ← lm_map_get (p_chns tinfo) (get_port addr);
  match t with
  | Some t =>
      if truthy t then
        chn ← get_chan a t;
        if STUN_VALID_CHANNEL (chnum chn) then Ret (chnum chn) else Ret 0
      else Ret 0
  | None => Ret 0
  end.

Definition allocation_get_ch_info_by_peer_addr (a : allocation) (peer_addr : ioa_addr) : outcome (option Z) :=
  tinfo ← get_from_turn_permission_hashtable (addr_to_perm a) peer_addr;
  match tinfo with
  | Some P => get_turn_channel a P peer_addr
  | None => Ret None
  end.

Definition can_accept_tcp_connection_from_peer (a : allocation) (peer_addr : ioa_addr) (server_relay : bool) :
    outcome bool :=
  if server_relay then Ret true
  else
    r ← get_from_turn_permission_hashtable (addr_to_perm a) peer_addr;
    Ret (bool_decide (is_Some r)).

(** * Unsent buffers

    Handles of network buffers, 0 for NULL; the buffers deleted are returned. *)
Definition MAX_UNSENT_BUFFER_SIZE : Z := 0x10.

Definition unsent_buffer : Type := list Z.

Definition clear_unsent_buffer (ub : unsent_buffer) : unsent_buffer * list Z :=
  ([], filter (fun h => h <> 0) ub).

Definition add_unsent_buffer (ub : unsent_buffer) (nbh : Z) : unsent_buffer * list Z :=
  if blen ub >=? MAX_UNSENT_BUFFER_SIZE then (ub, [nbh]) else (ub ++ [nbh], []).

Definition top_unsent_buffer (ub : unsent_buffer) : Z :=
  match list_find (fun h => h <> 0) ub with
  | Some (_, h) => h
  | None => 0
  end.

Definition pop_unsent_buffer (ub : unsent_buffer) : unsent_buffer :=
  match list_find (fun h => h <> 0) ub with
  | Some (i, _) => <[i := 0]> ub
  | None => ub
  end.
