(* ===== verification/AllocationFacts.v ===== *)
(** The two tables of an allocation describe one set of bindings.

    A channel is reached by its number through the channel table, and by its
    peer through the permission of the peer's address and the map from ports
    the permission keeps.  [alloc_inv] says that the two ways agree: every
    channel in use is entered with its permission, every entry of a permission
    points to a channel in use that points back.  [timers_ok] says that the
    timers of the allocation are exactly those its permissions, channels and
    relay sessions hold, so that no timer refers to a slot that was freed or
    reused and no timer is deleted twice.  Both are kept by binding a channel,
    deleting a channel and removing a permission, and the theorems say what the
    lookups answer afterwards. *)

From stdpp Require Import base option numbers list sets.
From S2P Require Import Prelude IoAddr StunDefs KeyMap TurnMaps TurnMapsFacts SlotTable Timers Allocation.

(** * Permissions and channels in use *)
Definition live_perm (a : allocation) (P : Z) (p : turn_permission_info) : Prop :=
  slot_at (addr_to_perm a) P = Some p /\ p_allocated p = true.

Definition live_chan (a : allocation) (C : Z) (c : ch_info) : Prop :=
  slot_at (a_chns a) C = Some c /\ ch_allocated c = true.

(** The same address and port. *)
Definition same_peer (x y : ioa_addr) : bool := addr_eq_no_port_s x y && (get_port x =? get_port y).

Record perm_ok (a : allocation) (P : Z) (p : turn_permission_info) : Prop := PermOk {
  perm_bucket : ptr_bucket P = perm_index (p_addr p);
  perm_owner : p_owner p <> 0;
  perm_map : lm_inv (p_chns p);
  perm_entry : forall port C, lm_abs (p_chns p) port = Some C ->
    exists c, live_chan a C c /\ ch_owner c = P /\ ch_port c = port }.

Record chan_ok (a : allocation) (C : Z) (c : ch_info) : Prop := ChanOk {
  chan_bucket : ptr_bucket C = ch_index (chnum c);
  chan_valid : STUN_VALID_CHANNEL (chnum c) = true;
  chan_port : ch_port c = get_port (ch_peer_addr c);
  chan_port_nz : ch_port c <> 0;
  chan_entry : exists p, live_perm a (ch_owner c) p /\ lm_abs (p_chns p) (ch_port c) = Some C /\
    addr_eq_no_port_s (p_addr p) (ch_peer_addr c) = true }.

Record alloc_inv (a : allocation) : Prop := AllocInv {
  inv_perm_buckets : length (addr_to_perm a) = 8%nat;
  inv_chan_buckets : length (a_chns a) = 8%nat;
  inv_perm : forall P p, live_perm a P p -> perm_ok a P p;
  inv_chan : forall C c, live_chan a C c -> chan_ok a C c;
  inv_perm_unique : forall P Q p q, live_perm a P p -> live_perm a Q q ->
    addr_eq_no_port_s (p_addr p) (p_addr q) = true -> P = Q;
  inv_chan_unique : forall C D c d, live_chan a C c -> live_chan a D d -> chnum c = chnum d -> C = D;
  inv_chan_free : forall C c, slot_at (a_chns a) C = Some c -> ch_allocated c = false -> c = ch_zero;
  inv_sessions : length (relay_sessions a) = 2%nat }.

(** The timer handles and expiration times the allocation holds. *)
Definition alloc_armed (a : allocation) : armed := fun cb =>
  match cb with
  | PermTimeout P =>
      p ← slot_at (addr_to_perm a) P; if p_allocated p then Some (p_lifetime_ev p, p_expiration_time p) else None
  | ChanTimeout C =>
      c ← slot_at (a_chns a) C; if ch_allocated c then Some (ch_lifetime_ev c, ch_expiration_time c) else None
  | AllocTimeout i => r ← relay_sessions a !! i; Some (rs_lifetime_ev r, rs_expiration_time r)
  end.

(** All timers but that of the callback [X] are accounted for, and [X] has none. *)
Definition timers_but (X : option timer_cb) (a : allocation) : Prop :=
  timers_inv (fun cb => if decide (X = Some cb) then None else alloc_armed a cb) (a_timers a).

Definition timers_ok (a : allocation) : Prop := timers_inv (alloc_armed a) (a_timers a).

Definition alloc_ok (a : allocation) : Prop := alloc_inv a /\ timers_ok a.

(** * Basic facts *)
Lemma live_perm_fun a P p q : live_perm a P p -> live_perm a P q -> p = q.
Proof. intros [E _] [F _]. congruence. Qed.

Lemma live_chan_fun a C c d : live_chan a C c -> live_chan a C d -> c = d.
Proof. intros [E _] [F _]. congruence. Qed.

Lemma live_perm_get a P p : live_perm a P p -> get_perm a P = Ret p.
Proof. intros [E _]. unfold get_perm, deref_slot. by rewrite E. Qed.

Lemma live_chan_get a C c : live_chan a C c -> get_chan a C = Ret c.
Proof. intros [E _]. unfold get_chan, deref_slot. by rewrite E. Qed.

Lemma armed_perm a P h e :
  alloc_armed a (PermTimeout P) = Some (h, e) <->
  exists p, live_perm a P p /\ p_lifetime_ev p = h /\ p_expiration_time p = e.
Proof.
  unfold live_perm. simpl. split.
  - destruct (slot_at (addr_to_perm a) P) as [p|]; [simpl|done]. destruct (p_allocated p) eqn:E; [|done].
    intros [= <- <-]. by exists p.
  - intros (p & [-> A] & <- & <-). simpl. by rewrite A.
Qed.

Lemma armed_chan a C h e :
  alloc_armed a (ChanTimeout C) = Some (h, e) <->
  exists c, live_chan a C c /\ ch_lifetime_ev c = h /\ ch_expiration_time c = e.
Proof.
  unfold live_chan. simpl. split.
  - destruct (slot_at (a_chns a) C) as [c|]; [simpl|done]. destruct (ch_allocated c) eqn:E; [|done].
    intros [= <- <-]. by exists c.
  - intros (c & [-> A] & <- & <-). simpl. by rewrite A.
Qed.

(** Two allocations hold the same timers when their permissions, channels and
    sessions do. *)
Lemma armed_ext a a' :
  relay_sessions a' = relay_sessions a ->
  (forall P h e, h <> 0 -> (exists p, live_perm a' P p /\ p_lifetime_ev p = h /\ p_expiration_time p = e) <->
                 (exists p, live_perm a P p /\ p_lifetime_ev p = h /\ p_expiration_time p = e)) ->
  (forall C h e, h <> 0 -> (exists c, live_chan a' C c /\ ch_lifetime_ev c = h /\ ch_expiration_time c = e) <->
                 (exists c, live_chan a C c /\ ch_lifetime_ev c = h /\ ch_expiration_time c = e)) ->
  armed_eq (alloc_armed a') (alloc_armed a).
Proof.
  intros E HP HC [P|C|i] h e N.
  - by rewrite !armed_perm, HP.
  - by rewrite !armed_chan, HC.
  - simpl. by rewrite E.
Qed.

Lemma timers_but_none a : timers_but None a <-> timers_ok a.
Proof. done. Qed.

Lemma live_chan_pos a C c : live_chan a C c -> 0 < C.
Proof. intros [E _]. by eapply slot_at_pos. Qed.

Lemma land7_lt x : (Z.to_nat (Z.land x 7) < 8)%nat.
Proof. change 7 with (Z.ones 3). rewrite Z.land_ones by lia. pose proof (Z.mod_pos_bound x (2 ^ 3)). lia. Qed.

Lemma perm_index_lt x : (perm_index x < 8)%nat.
Proof. apply land7_lt. Qed.

Lemma ch_index_lt n : (ch_index n < 8)%nat.
Proof. apply land7_lt. Qed.

Lemma perm_index_proper x y : addr_eq_no_port_s x y = true -> perm_index x = perm_index y.
Proof. intros E. unfold perm_index. by rewrite (addr_hash_no_port_proper _ _ E). Qed.

Lemma same_peer_addr x y : same_peer x y = true -> addr_eq_no_port_s x y = true /\ get_port x = get_port y.
Proof. unfold same_peer. intros H. bool_arith. done. Qed.

(** Two lookups that find the same pointers are equal. *)
Lemma lookup_ext (x y : outcome (option Z)) :
  (exists r, x = Ret r) -> (exists r, y = Ret r) ->
  (forall C, x = Ret (Some C) <-> y = Ret (Some C)) -> x = y.
Proof.
  intros [r ->] [s ->] H. f_equal. apply option_eq. intros C. specialize (H C).
  split; intros ->; [assert (Ret s = Ret (Some C)) by (by apply H)|assert (Ret r = Ret (Some C)) by (by apply H)];
    congruence.
Qed.

(** A lookup that answers nothing where [gone] holds and is unchanged elsewhere. *)
Lemma lookup_without (x y : outcome (option Z)) (gone : bool) :
  (exists r, x = Ret r) -> (exists r, y = Ret r) ->
  (forall C, x = Ret (Some C) <-> gone = false /\ y = Ret (Some C)) -> x = if gone then Ret None else y.
Proof.
  intros Hx Hy H. apply lookup_ext; [done|by destruct gone; [exists None|]|]. intros C. rewrite H.
  destruct gone; naive_solver.
Qed.

Lemma addr_eq_no_port_left x y q :
  addr_eq_no_port_s x y = true -> addr_eq_no_port_s x q = addr_eq_no_port_s y q.
Proof.
  intros E. apply eq_true_iff_eq. split; intros H; [|by eapply addr_eq_no_port_s_trans].
  rewrite addr_eq_no_port_s_sym in E. by eapply addr_eq_no_port_s_trans.
Qed.

Lemma addr_eq_no_port_right x y q :
  addr_eq_no_port_s x y = true -> addr_eq_no_port_s q x = addr_eq_no_port_s q y.
Proof. intros E. rewrite !(addr_eq_no_port_s_sym q). by apply addr_eq_no_port_left. Qed.

(** * Lookups under the invariant *)
Section lookups.
Context (a : allocation) (I : alloc_inv a).

Lemma get_permission_returns q : exists r, allocation_get_permission a q = Ret r.
Proof. apply find_slot_returns. rewrite (inv_perm_buckets a I). apply perm_index_lt. Qed.

Lemma get_permission_iff q P :
  allocation_get_permission a q = Ret (Some P) <->
  exists p, live_perm a P p /\ addr_eq_no_port_s (p_addr p) q = true.
Proof.
  split.
  - intros F. apply find_slot_some in F as (p & Hp & T & _); [|apply perm_index_lt]. bool_arith. by exists p.
  - intros (p & L & E). destruct (get_permission_returns q) as [[Q|] F].
    + rewrite F. pose proof F as G. apply find_slot_some in G as (x & Hx & T & _); [|apply perm_index_lt].
      bool_arith. do 2 f_equal. eapply (inv_perm_unique a I Q P x p); [done|done|].
      eapply addr_eq_no_port_s_trans; [done|]. by rewrite addr_eq_no_port_s_sym.
    + exfalso. pose proof (inv_perm a I P p L) as K. destruct L as [L A].
      apply (find_slot_none _ _ _ P p) in F; [|done|by rewrite (perm_bucket a P p K); apply perm_index_proper].
      simpl in F. rewrite A, E in F. done.
Qed.

Lemma get_permission_none q P p :
  allocation_get_permission a q = Ret None -> live_perm a P p -> addr_eq_no_port_s (p_addr p) q = false.
Proof.
  intros F L. apply not_true_is_false. intros E.
  assert (allocation_get_permission a q = Ret (Some P)) by (apply get_permission_iff; eauto). congruence.
Qed.

Lemma get_ch_info_returns n : exists r, allocation_get_ch_info a n = Ret r.
Proof.
  unfold allocation_get_ch_info, ch_map_get.
  destruct (find_slot_returns (fun chi => ch_allocated chi && (chnum chi =? n)) (a_chns a) (ch_index n)) as [r ->];
    [|by exists r]. rewrite (inv_chan_buckets a I). apply ch_index_lt.
Qed.

Lemma get_ch_info_find n r :
  allocation_get_ch_info a n = Ret r <->
  find_slot (fun chi => ch_allocated chi && (chnum chi =? n)) (a_chns a) (ch_index n) = Ret r.
Proof.
  unfold allocation_get_ch_info, ch_map_get. destruct (find_slot _ _ _) as [s| |]; simpl; [|done|done].
  split; congruence.
Qed.

Lemma get_ch_info_iff n C :
  allocation_get_ch_info a n = Ret (Some C) <-> exists c, live_chan a C c /\ chnum c = n.
Proof.
  split.
  - rewrite get_ch_info_find. intros F. apply find_slot_some in F as (c & Hc & T & _); [|apply ch_index_lt].
    bool_arith. by exists c.
  - intros (c & L & E). destruct (get_ch_info_returns n) as [[D|] F].
    + rewrite F. apply get_ch_info_find, find_slot_some in F as (x & Hx & T & _); [|apply ch_index_lt].
      bool_arith. do 2 f_equal. eapply (inv_chan_unique a I D C x c); [done|done|congruence].
    + exfalso. pose proof (inv_chan a I C c L) as K. destruct L as [L A]. apply get_ch_info_find in F.
      apply (find_slot_none _ _ _ C c) in F; [|done|by rewrite (chan_bucket a C c K), E].
      simpl in F. rewrite A, E, Z.eqb_refl in F. done.
Qed.

Lemma get_ch_info_none n C c : allocation_get_ch_info a n = Ret None -> live_chan a C c -> chnum c <> n.
Proof.
  intros F L E. assert (allocation_get_ch_info a n = Ret (Some C)) by (apply get_ch_info_iff; eauto). congruence.
Qed.

(** The channel of a port of a permission in use. *)
Lemma turn_channel_port P p q :
  live_perm a P p -> get_port q <> 0 -> get_turn_channel a P q = Ret (lm_abs (p_chns p) (get_port q)).
Proof.
  intros L Hq. pose proof (inv_perm a I P p L) as K. unfold get_turn_channel. rewrite (live_perm_get a P p L). mstep.
  rewrite (lm_get_abs (p_chns p) (get_port q) (perm_map a P p K) Hq). mstep.
  destruct (lm_abs (p_chns p) (get_port q)) as [C|] eqn:E; [|done].
  destruct (perm_entry a P p K _ _ E) as (c & Lc & _). pose proof (live_chan_pos a C c Lc).
  unfold truthy. destruct (C =? 0) eqn:?; bool_arith; [lia|]. simpl. rewrite (live_chan_get a C c Lc). mstep.
  by rewrite (chan_valid a C c (inv_chan a I C c Lc)).
Qed.

Lemma get_turn_channel_zero P p q :
  live_perm a P p -> get_port q = 0 -> get_turn_channel a P q = Ret None.
Proof.
  intros L Hq. unfold get_turn_channel. rewrite (live_perm_get a P p L). mstep. by rewrite Hq.
Qed.

Lemma get_by_peer_returns q : exists r, allocation_get_ch_info_by_peer_addr a q = Ret r.
Proof.
  unfold allocation_get_ch_info_by_peer_addr. fold (allocation_get_permission a q).
  destruct (get_permission_returns q) as [[P|] F]; rewrite F; mstep; [|eauto].
  apply get_permission_iff in F as (p & L & _). destruct (decide (get_port q = 0)).
  - rewrite (get_turn_channel_zero P p q); eauto.
  - rewrite (turn_channel_port P p q); eauto.
Qed.

Lemma get_by_peer_iff q C :
  allocation_get_ch_info_by_peer_addr a q = Ret (Some C) <->
  exists c, live_chan a C c /\ same_peer (ch_peer_addr c) q = true.
Proof.
  unfold allocation_get_ch_info_by_peer_addr. fold (allocation_get_permission a q). split.
  - destruct (get_permission_returns q) as [[P|] F]; rewrite F; mstep; [|done].
    apply get_permission_iff in F as (p & L & E). pose proof (inv_perm a I P p L) as K.
    destruct (decide (get_port q = 0)) as [Z0|NZ]; [by rewrite (get_turn_channel_zero P p q)|].
    rewrite (turn_channel_port P p q L NZ). intros [= Ec].
    destruct (perm_entry a P p K _ _ Ec) as (c & Lc & O & Pt). exists c. split; [done|].
    destruct (chan_entry a C c (inv_chan a I C c Lc)) as (p' & Lp' & _ & Ep). rewrite O in Lp'.
    rewrite (live_perm_fun _ _ _ _ Lp' L) in Ep. unfold same_peer.
    rewrite addr_eq_no_port_s_sym in Ep. rewrite (addr_eq_no_port_s_sym (ch_peer_addr c)), addr_eq_no_port_s_sym.
    rewrite (addr_eq_no_port_s_trans _ _ _ Ep E), <- (chan_port a C c (inv_chan a I C c Lc)), Pt. apply Z.eqb_refl.
  - intros (c & Lc & S). apply same_peer_addr in S as [E Pt]. pose proof (inv_chan a I C c Lc) as K.
    destruct (chan_entry a C c K) as (p & Lp & Ep & Ea).
    assert (allocation_get_permission a q = Ret (Some (ch_owner c))) as ->.
    { apply get_permission_iff. exists p. split; [done|]. by eapply addr_eq_no_port_s_trans. }
    mstep. pose proof (chan_port_nz a C c K) as NZ. rewrite (chan_port a C c K), Pt in NZ, Ep.
    by rewrite (turn_channel_port _ p q Lp NZ), Ep.
Qed.

Lemma get_by_peer_none q C c :
  allocation_get_ch_info_by_peer_addr a q = Ret None -> live_chan a C c -> same_peer (ch_peer_addr c) q = false.
Proof.
  intros F L. apply not_true_is_false. intros E.
  assert (allocation_get_ch_info_by_peer_addr a q = Ret (Some C)) by (apply get_by_peer_iff; eauto). congruence.
Qed.
End lookups.

(** * Changes of the tables *)
Lemma get_put_perm a P x y Q :
  slot_at (addr_to_perm a) P = Some y ->
  slot_at (addr_to_perm (put_perm a P x)) Q = if Q =? P then Some x else slot_at (addr_to_perm a) Q.
Proof. intros E. by apply (slot_at_set _ _ x y). Qed.

Lemma get_put_chan a C x y D :
  slot_at (a_chns a) C = Some y ->
  slot_at (a_chns (put_chan a C x)) D = if D =? C then Some x else slot_at (a_chns a) D.
Proof. intros E. by apply (slot_at_set _ _ x y). Qed.

Lemma live_put_perm a P x y Q q :
  slot_at (addr_to_perm a) P = Some y ->
  live_perm (put_perm a P x) Q q <->
  (Q = P /\ q = x /\ p_allocated x = true) \/ (Q <> P /\ live_perm a Q q).
Proof.
  intros E. unfold live_perm. rewrite (get_put_perm a P x y Q E).
  destruct (Q =? P) eqn:?; bool_arith; naive_solver.
Qed.

Lemma live_put_chan a C x y D d :
  slot_at (a_chns a) C = Some y ->
  live_chan (put_chan a C x) D d <->
  (D = C /\ d = x /\ ch_allocated x = true) \/ (D <> C /\ live_chan a D d).
Proof.
  intros E. unfold live_chan. rewrite (get_put_chan a C x y D E).
  destruct (D =? C) eqn:?; bool_arith; naive_solver.
Qed.

(** What [free_slot] does to the slots in use: nothing. *)
Lemma free_slot_live {A} (used : A -> bool) t i x0 :
  length t = 8%nat -> (i < 8)%nat -> used x0 = false ->
  exists P t' y, free_slot used t i x0 = Ret (P, t') /\ length t' = 8%nat /\ 0 < P /\ ptr_bucket P = i /\
    slot_at t' P = Some y /\ (slot_at t P = Some y /\ used y = false \/ y = x0) /\
    (forall Q x, slot_at t' Q = Some x -> slot_at t Q = Some x \/ x = y /\ Q = P) /\
    (forall Q x, slot_at t' Q = Some x /\ used x = true <-> slot_at t Q = Some x /\ used x = true) /\
    (forall x, slot_at t P = Some x -> used x = false).
Proof.
  intros L Hi U.
  destruct (free_slot_spec used t i x0 L Hi U) as (P & t' & E & L' & Hp & B & (y & Hy & Uy & Oy) & N & S & V).
  assert (forall Q x, slot_at t' Q = Some x -> slot_at t Q = Some x \/ x = y /\ Q = P) as Back.
  { intros Q x H. destruct (slot_at t Q) as [z|] eqn:Ez; [apply S in Ez; left; congruence|].
    right. destruct (N Q Ez) as [K| ->]; [congruence|]. split; [congruence|done]. }
  exists P, t', y. do 5 (split; [done|]). split; [naive_solver|]. split; [done|]. split; [|done].
  intros Q x. split; intros [H1 H2]; [|split; [by apply S|done]].
  split; [|done]. destruct (Back Q x H1) as [H|[-> ->]]; [done|congruence].
Qed.

Definition new_perm (owner : Z) (addr : ioa_addr) : turn_permission_info :=
  TurnPermissionInfo true lm_map_init addr 0 0 owner 0 0.

Lemma lm_abs_init k : lm_abs lm_map_init k = None.
Proof. unfold lm_abs. by apply (tget_empty (HK := lm_key) lm_cells). Qed.

(** The invariant depends on the sizes of the tables and the slots in use. *)
Lemma inv_add_perm a a' P owner addr :
  alloc_inv a -> owner <> 0 -> ptr_bucket P = perm_index addr ->
  length (addr_to_perm a') = 8%nat -> a_chns a' = a_chns a -> relay_sessions a' = relay_sessions a ->
  (forall Q q, live_perm a Q q -> Q <> P /\ addr_eq_no_port_s (p_addr q) addr = false) ->
  (forall Q q, live_perm a' Q q <-> (Q = P /\ q = new_perm owner addr) \/ live_perm a Q q) ->
  alloc_inv a'.
Proof.
  intros I K B L1 EC ES N HP.
  assert (forall D d, live_chan a' D d <-> live_chan a D d) as HC by (intros; unfold live_chan; by rewrite EC).
  constructor; [done|rewrite EC; apply (inv_chan_buckets a I)| | | | |rewrite EC; apply (inv_chan_free a I)|
    rewrite ES; apply (inv_sessions a I)].
  - intros Q q HQ. apply HP in HQ as [[-> ->]|HQ].
    + constructor; [done|done|apply lm_map_init_inv|]. simpl. intros port C E. by rewrite lm_abs_init in E.
    + destruct (inv_perm a I Q q HQ) as [b k m e]. constructor; [done|done|done|].
      intros port C E. destruct (e port C E) as (c & Lc & O). exists c. split; [by apply HC|done].
  - intros C c Lc. apply HC in Lc. destruct (inv_chan a I C c Lc) as [b v p z (x & Lx & E)].
    constructor; [done..|]. exists x. split; [apply HP; by right|done].
  - intros Q R q r HQ HR E. apply HP in HQ, HR. destruct HQ as [[-> ->]|HQ], HR as [[-> ->]|HR]; [done| | |].
    + simpl in E. destruct (N R r HR) as [_ F]. rewrite addr_eq_no_port_s_sym in E. congruence.
    + simpl in E. destruct (N Q q HQ) as [_ F]. congruence.
    + by eapply (inv_perm_unique a I).
  - intros C D c d HC' HD E. apply HC in HC', HD. by eapply (inv_chan_unique a I).
Qed.

Lemma add_permission_spec a owner addr :
  alloc_ok a -> owner <> 0 -> allocation_get_permission a addr = Ret None ->
  exists P a', allocation_add_permission a owner addr = Ret (P, a') /\ alloc_ok a' /\
    (forall Q q, live_perm a' Q q <-> (Q = P /\ q = new_perm owner addr) \/ (Q <> P /\ live_perm a Q q)) /\
    (forall q, ~ live_perm a P q) /\ a_chns a' = a_chns a /\ relay_sessions a' = relay_sessions a.
Proof.
  intros [I T] K N. unfold allocation_add_permission.
  destruct (free_slot_live p_allocated (addr_to_perm a) (perm_index addr) perm_zero (inv_perm_buckets a I)
              (perm_index_lt addr) eq_refl) as (P & t & y & -> & L & Hp & B & Hy & _ & _ & HL & HN).
  mstep. fold (new_perm owner addr).
  assert (forall q, ~ live_perm a P q) as HPn.
  { intros q [E A]. rewrite (HN _ E) in A. done. }
  assert (forall Q q, live_perm (put_perm (with_perms a t) P (new_perm owner addr)) Q q <->
            (Q = P /\ q = new_perm owner addr) \/ (Q <> P /\ live_perm a Q q)) as HP.
  { intros Q q. rewrite (live_put_perm (with_perms a t) P _ y) by done. unfold live_perm at 1 2. simpl. rewrite HL.
    fold (live_perm a Q q). naive_solver. }
  exists P, (put_perm (with_perms a t) P (new_perm owner addr)). split; [done|].
  split; [|done]. split.
  - eapply (inv_add_perm a _ P owner addr); [done..| |done|done| |].
    + simpl. by rewrite length_set_slot.
    + intros Q q HQ. split; [intros ->; by eapply HPn|by eapply (get_permission_none a I)].
    + intros Q q. rewrite HP. split; [intros [?|[_ ?]]; auto|]. intros [?|HQ]; [auto|].
      right. split; [intros ->; by eapply HPn|done].
  - unfold timers_ok. eapply timers_inv_proper; [|reflexivity|exact T]. apply armed_ext; [done| |done].
    intros Q h e NZ. setoid_rewrite HP. split.
    + intros (q & [[-> ->]|[_ H]] & <- & <-); [done|by exists q].
    + intros (q & H & E). exists q. split; [|done]. right. split; [intros ->; by eapply HPn|done].
Qed.

(** ** Binding a channel *)
Lemma inv_add_chan a a' P p m C c :
  alloc_inv a -> live_perm a P p -> ptr_bucket C = ch_index (chnum c) ->
  STUN_VALID_CHANNEL (chnum c) = true -> ch_port c = get_port (ch_peer_addr c) -> ch_port c <> 0 ->
  ch_owner c = P -> addr_eq_no_port_s (p_addr p) (ch_peer_addr c) = true ->
  lm_inv m -> lm_abs (p_chns p) (ch_port c) = None ->
  (forall k, lm_abs m k = if ch_port c =? k then Some C else lm_abs (p_chns p) k) ->
  length (addr_to_perm a') = 8%nat -> length (a_chns a') = 8%nat ->
  (forall D d, live_chan a D d -> D <> C /\ chnum d <> chnum c) ->
  (forall Q q, live_perm a' Q q <-> (Q = P /\ q = with_chns_map p m) \/ (Q <> P /\ live_perm a Q q)) ->
  (forall D d, live_chan a' D d <-> (D = C /\ d = c) \/ live_chan a D d) ->
  (forall D d, slot_at (a_chns a') D = Some d -> ch_allocated d = false -> d = ch_zero) ->
  relay_sessions a' = relay_sessions a ->
  alloc_inv a'.
Proof.
  intros I LP B V Pt NZ O E Im Nn Im' L1 L2 N HP HC HF ES. set (p' := with_chns_map p m) in *.
  assert (forall Q q, live_perm a' Q q -> exists q0, live_perm a Q q0 /\ p_addr q = p_addr q0) as Back.
  { intros Q q HQ. apply HP in HQ as [[-> ->]|[_ HQ]]; eauto. }
  constructor; [done|done| | | | |done|rewrite ES; apply (inv_sessions a I)].
  - intros Q q HQ. apply HP in HQ as [[-> ->]|[n HQ]].
    + destruct (inv_perm a I P p LP) as [b k w e]. constructor; [done|done|done|].
      intros port D Hd. cbn [p' p_chns with_chns_map] in Hd. rewrite Im' in Hd. destruct (ch_port c =? port) eqn:Ep; bool_arith.
      * injection Hd as <-. exists c. split; [apply HC; by left|done].
      * destruct (e port D Hd) as (d & Ld & R). exists d. split; [apply HC; by right|done].
    + destruct (inv_perm a I Q q HQ) as [b k w e]. constructor; [done|done|done|].
      intros port D Hd. destruct (e port D Hd) as (d & Ld & R). exists d. split; [apply HC; by right|done].
  - intros D d HD. apply HC in HD as [[-> ->]|HD].
    + constructor; [done..|]. exists p'. rewrite O. split; [apply HP; by left|].
      cbn [p' p_chns p_addr with_chns_map]. by rewrite Im', Z.eqb_refl.
    + destruct (inv_chan a I D d HD) as [b v pt z (x & Lx & Ex & Ax)]. constructor; [done..|].
      destruct (decide (ch_owner d = P)) as [EP|NP].
      * rewrite EP in *. rewrite (live_perm_fun _ _ _ _ Lx LP) in Ex, Ax. exists p'. split; [apply HP; by left|].
        cbn [p' p_chns p_addr with_chns_map]. split; [|done]. rewrite Im'. destruct (ch_port c =? ch_port d) eqn:Ep; bool_arith; [congruence|done].
      * exists x. split; [apply HP; by right|done].
  - intros Q R q r HQ HR Eq. destruct (Back Q q HQ) as (q0 & Lq & Aq), (Back R r HR) as (r0 & Lr & Ar).
    rewrite Aq, Ar in Eq. by eapply (inv_perm_unique a I).
  - intros D1 D2 d1 d2 H1 H2 En. apply HC in H1, H2. destruct H1 as [[-> ->]|H1], H2 as [[-> ->]|H2]; [done| | |].
    + destruct (N _ _ H2). congruence.
    + destruct (N _ _ H1). congruence.
    + by eapply (inv_chan_unique a I).
Qed.

(** The second half of [allocation_get_new_ch_info], with the permission. *)
Definition bind_channel (a : allocation) (P num : Z) (peer_addr : ioa_addr) : outcome (Z * allocation) :=
  '(chn, map) ← ch_map_get (a_chns a) num true;
  match chn with
  | None => UB
  | Some C =>
      let a := with_chns a map in
      c ← get_chan a C;
      let a := put_chan a C (ChInfo num true (get_port peer_addr) peer_addr (ch_expiration_time c)
                               (ch_lifetime_ev c) P (kernel_channel c)) in
      p ← get_perm a P;
      '(_, m) ← lm_map_put (p_chns p) (get_port peer_addr) C;
      Ret (C, put_perm a P (with_chns_map p m))
  end.

(** The first half: the permission of the address, found or added. *)
Definition find_or_add (a : allocation) (a_ptr : Z) (peer : ioa_addr) : outcome (Z * allocation) :=
  tinfo ← allocation_get_permission a peer;
  match tinfo with Some P => Ret (P, a) | None => allocation_add_permission a a_ptr peer end.

Lemma new_ch_info_split a a_ptr num peer :
  allocation_get_new_ch_info a a_ptr num peer = ('(P, a) ← find_or_add a a_ptr peer; bind_channel a P num peer).
Proof.
  unfold allocation_get_new_ch_info, find_or_add. fold (allocation_get_permission a peer).
  by destruct (allocation_get_permission a peer).
Qed.

Lemma find_or_add_permission a a_ptr peer :
  alloc_ok a -> a_ptr <> 0 -> known_family peer ->
  exists P a1 p, find_or_add a a_ptr peer = Ret (P, a1) /\ alloc_ok a1 /\ live_perm a1 P p /\
    addr_eq_no_port_s (p_addr p) peer = true /\ (forall y, live_perm a P y -> y = p) /\
    (allocation_get_permission a peer = Ret None \/ allocation_get_permission a peer = Ret (Some P)) /\
    (forall Q q, Q <> P -> live_perm a1 Q q <-> live_perm a Q q) /\
    a_chns a1 = a_chns a /\ relay_sessions a1 = relay_sessions a.
Proof.
  intros [I T] NZ K. unfold find_or_add. destruct (get_permission_returns a I peer) as [[P|] F]; rewrite F; mstep.
  - pose proof F as (p & LP & EA)%(get_permission_iff a I). exists P, a, p.
    repeat (split; [done|]). split; [by intros y Ly; eapply live_perm_fun|auto].
  - destruct (add_permission_spec a a_ptr peer (conj I T) NZ F) as (P & a1 & E & I1 & HP & HN & HC & HS).
    exists P, a1, (new_perm a_ptr peer). split; [done|]. split; [done|]. split; [apply HP; auto|].
    split; [by apply addr_eq_no_port_s_refl|]. split; [intros y Ly; by destruct (HN y)|].
    split; [auto|]. split; [|done]. intros Q q NQ. rewrite HP. naive_solver.
Qed.

Lemma bind_channel_spec a P p num peer :
  alloc_ok a -> live_perm a P p -> addr_eq_no_port_s (p_addr p) peer = true ->
  get_port peer <> 0 -> STUN_VALID_CHANNEL num = true ->
  lm_abs (p_chns p) (get_port peer) = None ->
  (forall D d, live_chan a D d -> chnum d <> num) ->
  exists C a' m, bind_channel a P num peer = Ret (C, a') /\ alloc_ok a' /\
    (forall Q q, live_perm a' Q q <-> (Q = P /\ q = with_chns_map p m) \/ (Q <> P /\ live_perm a Q q)) /\
    (forall d, ~ live_chan a C d) /\
    (forall D d, live_chan a' D d <->
       (D = C /\ d = ChInfo num true (get_port peer) peer 0 0 P 0) \/ live_chan a D d) /\
    relay_sessions a' = relay_sessions a.
Proof.
  intros [I T] LP EA NZ V Nn Nc. unfold bind_channel, ch_map_get.
  destruct (free_slot_live ch_allocated (a_chns a) (ch_index num) ch_zero (inv_chan_buckets a I)
              (ch_index_lt num) eq_refl) as (C & t & y & -> & L & Hp & B & Hy & Oy & Back & HL & HN).
  assert (y = ch_zero) as -> by (destruct Oy as [[Oy U]| ->]; [by eapply (inv_chan_free a I)|done]). clear Oy.
  mstep. unfold get_chan, deref_slot. cbn [a_chns with_chns]. rewrite Hy. mstep. cbv zeta.
  set (c := ChInfo _ _ _ _ _ _ _ _). unfold get_perm, deref_slot. cbn [addr_to_perm put_chan with_chns].
  destruct LP as [SP AP]. rewrite SP. mstep.
  destruct (lm_put_fresh (p_chns p) (get_port peer) (perm_map a P p (inv_perm a I P p (conj SP AP))) NZ C ltac:(lia) Nn)
    as (m & -> & Im & _ & Am).
  mstep. set (p' := with_chns_map p m). set (a' := put_perm _ _ _).
  assert (forall d, ~ live_chan a C d) as Nd.
  { intros d [E A]. rewrite (HN _ E) in A. done. }
  assert (forall Q q, live_perm a' Q q <-> (Q = P /\ q = p') \/ (Q <> P /\ live_perm a Q q)) as HP.
  { intros Q q. unfold a'. rewrite (live_put_perm _ P p' p) by done.
    unfold live_perm. cbn [addr_to_perm put_chan with_chns p_allocated p' with_chns_map]. rewrite AP. naive_solver. }
  assert (forall D d, live_chan a' D d <-> (D = C /\ d = c) \/ live_chan a D d) as HC.
  { intros D d. change (live_chan a' D d) with (live_chan (put_chan (with_chns a t) C c) D d).
    rewrite (live_put_chan (with_chns a t) C c ch_zero) by done. unfold live_chan at 1 2. cbn [a_chns with_chns]. rewrite HL.
    fold (live_chan a D d). pose proof (Nd d). naive_solver. }
  exists C, a', m. split; [done|]. split; [split|done].
  - eapply (inv_add_chan a a' P p m C c); try done.
    + simpl. rewrite length_set_slot. apply (inv_perm_buckets a I).
    + simpl. by rewrite length_set_slot.
    + intros D d HD. split; [intros ->; by eapply Nd|by eapply Nc].
    + intros D d. change (a_chns a') with (a_chns (put_chan (with_chns a t) C c)).
      rewrite (get_put_chan (with_chns a t) C c ch_zero) by done. destruct (D =? C); [by intros [= <-]|].
      intros Ed A. destruct (Back D d Ed) as [H|[-> _]]; [by eapply (inv_chan_free a I)|done].
  - unfold timers_ok. eapply timers_inv_proper; [|reflexivity|exact T]. apply armed_ext; [done| |]; intros X h e NZ'.
    + setoid_rewrite HP. split; [intros (q & [[-> ->]|[_ H]] & E); [by exists p|by exists q]|].
      intros (q & H & E). destruct (decide (X = P)) as [->|]; [|by exists q; auto].
      rewrite (live_perm_fun a P q p H (conj SP AP)) in E. exists p'. auto.
    + setoid_rewrite HC. split; [intros (d & [[-> ->]|H] & <- & <-); [done|by exists d]|].
      intros (d & H & E). exists d. auto.
Qed.

(** ** Lookups after a change *)
Lemma get_ch_info_after a a' C c n :
  alloc_inv a -> alloc_inv a' -> (forall D d, live_chan a D d -> chnum d <> chnum c) ->
  (forall D d, live_chan a' D d <-> (D = C /\ d = c) \/ live_chan a D d) ->
  allocation_get_ch_info a' n = if chnum c =? n then Ret (Some C) else allocation_get_ch_info a n.
Proof.
  intros I I' N HC. destruct (chnum c =? n) eqn:E; bool_arith.
  - apply (get_ch_info_iff a' I'). exists c. split; [apply HC; by left|done].
  - apply lookup_ext; [by apply get_ch_info_returns..|]. intros D.
    rewrite (get_ch_info_iff a I), (get_ch_info_iff a' I'). split; intros (d & L & En).
    + apply HC in L as [[-> ->]|L]; [done|by exists d].
    + exists d. split; [apply HC; by right|done].
Qed.

Lemma same_peer_left x y q : same_peer x y = true -> same_peer x q = same_peer y q.
Proof.
  intros S. apply same_peer_addr in S as [E Pt]. unfold same_peer. rewrite Pt. f_equal.
  apply eq_true_iff_eq. split; intros H.
  - eapply addr_eq_no_port_s_trans; [|exact H]. by rewrite addr_eq_no_port_s_sym.
  - by eapply addr_eq_no_port_s_trans.
Qed.

Lemma get_by_peer_after a a' C c q :
  alloc_inv a -> alloc_inv a' -> known_family (ch_peer_addr c) ->
  (forall D d, live_chan a D d -> same_peer (ch_peer_addr d) (ch_peer_addr c) = false) ->
  (forall D d, live_chan a' D d <-> (D = C /\ d = c) \/ live_chan a D d) ->
  allocation_get_ch_info_by_peer_addr a' q =
  if same_peer (ch_peer_addr c) q then Ret (Some C) else allocation_get_ch_info_by_peer_addr a q.
Proof.
  intros I I' K N HC. destruct (same_peer (ch_peer_addr c) q) eqn:E.
  - apply (get_by_peer_iff a' I'). exists c. split; [apply HC; by left|done].
  - apply lookup_ext; [by apply get_by_peer_returns..|]. intros D.
    rewrite (get_by_peer_iff a I), (get_by_peer_iff a' I'). split; intros (d & L & En).
    + apply HC in L as [[-> ->]|L]; [congruence|by exists d].
    + exists d. split; [apply HC; by right|done].
Qed.

(** The permissions are those of before, but for [P] with content [p']. *)
Lemma get_permission_after a a' P p' x q :
  alloc_inv a -> alloc_inv a' -> addr_eq_no_port_s (p_addr p') x = true ->
  (forall y, live_perm a P y -> addr_eq_no_port_s (p_addr y) x = true) ->
  (forall Q r, live_perm a' Q r <-> (Q = P /\ r = p') \/ (Q <> P /\ live_perm a Q r)) ->
  allocation_get_permission a' q =
  if addr_eq_no_port_s x q then Ret (Some P) else allocation_get_permission a q.
Proof.
  intros I I' E N HP. destruct (addr_eq_no_port_s x q) eqn:Eq.
  - apply (get_permission_iff a' I'). exists p'. split; [apply HP; by left|]. by eapply addr_eq_no_port_s_trans.
  - assert (forall y, addr_eq_no_port_s y x = true -> addr_eq_no_port_s y q = true -> False) as No.
    { intros y H1 H2. rewrite addr_eq_no_port_s_sym in H1. rewrite (addr_eq_no_port_s_trans _ _ _ H1 H2) in Eq. done. }
    apply lookup_ext; [by apply get_permission_returns..|]. intros Q.
    rewrite (get_permission_iff a I), (get_permission_iff a' I'). split; intros (r & L & Er).
    + apply HP in L as [[-> ->]|[_ L]]; [exfalso; by apply (No (p_addr p'))|by exists r].
    + exists r. split; [|done]. apply HP. right. split; [|done]. intros ->. exact (No _ (N r L) Er).
Qed.

(** Binding a channel, in terms of the slots in use. *)
Lemma new_channel_spec a a_ptr num peer :
  alloc_ok a -> a_ptr <> 0 -> known_family peer -> get_port peer <> 0 -> STUN_VALID_CHANNEL num = true ->
  allocation_get_ch_info a num = Ret None ->
  allocation_get_ch_info_by_peer_addr a peer = Ret None ->
  exists C P a' p' c, allocation_get_new_ch_info a a_ptr num peer = Ret (C, a') /\ alloc_ok a' /\
    (allocation_get_permission a peer = Ret None \/ allocation_get_permission a peer = Ret (Some P)) /\
    addr_eq_no_port_s (p_addr p') peer = true /\ c = ChInfo num true (get_port peer) peer 0 0 P 0 /\
    (forall y, live_perm a P y -> addr_eq_no_port_s (p_addr y) peer = true) /\
    (forall Q q, live_perm a' Q q <-> (Q = P /\ q = p') \/ (Q <> P /\ live_perm a Q q)) /\
    (forall D d, live_chan a' D d <-> (D = C /\ d = c) \/ live_chan a D d) /\
    relay_sessions a' = relay_sessions a.
Proof.
  intros I NA K NZ V Nn Np. rewrite new_ch_info_split. pose proof (proj1 I) as Ia.
  destruct (find_or_add_permission a a_ptr peer I NA K) as (P & a1 & p & E0 & I1 & LP & EA & Np1 & Hor & HQ1 & HC1 & HS1).
  rewrite E0. mstep. pose proof (proj1 I1) as Ia1.
  assert (forall D d, live_chan a1 D d <-> live_chan a D d) as HL1 by (intros; unfold live_chan; by rewrite HC1).
  destruct (bind_channel_spec a1 P p num peer I1 LP EA NZ V) as (C & a' & m & E & I' & HP & _ & HC & HS).
  { destruct (lm_abs (p_chns p) (get_port peer)) as [D|] eqn:Ed; [|done].
    destruct (perm_entry a1 P p (inv_perm a1 Ia1 P p LP) _ _ Ed) as (d & Ld & O & Pt).
    destruct (chan_entry a1 D d (inv_chan a1 Ia1 D d Ld)) as (x & Lx & _ & Ax). rewrite O in Lx.
    rewrite (live_perm_fun _ _ _ _ Lx LP) in Ax.
    assert (same_peer (ch_peer_addr d) peer = false) as S by (apply HL1 in Ld; by eapply (get_by_peer_none a Ia)).
    unfold same_peer in S. rewrite <- (chan_port a1 D d (inv_chan a1 Ia1 D d Ld)), Pt, Z.eqb_refl, andb_true_r in S.
    rewrite addr_eq_no_port_s_sym in Ax. rewrite (addr_eq_no_port_s_trans _ _ _ Ax EA) in S. done. }
  { intros D d Ld. apply HL1 in Ld. by eapply (get_ch_info_none a Ia). }
  exists C, P, a', (with_chns_map p m), (ChInfo num true (get_port peer) peer 0 0 P 0).
  do 5 (split; [done|]). split; [intros y Ly; by rewrite (Np1 y Ly)|]. split; [|split].
  - intros Q r. rewrite HP. split; (intros [?|[? ?]]; [by left|right; split; [done|by apply HQ1]]).
  - intros D d. by rewrite HC, HL1.
  - congruence.
Qed.

(** C20. Binding a fresh channel number to a peer that has no channel: the
    call returns, the invariant is kept, afterwards the new channel is found by
    its number and by its peer, every other number and peer leads where it led
    before, the peer's address has a permission (the one it had, if it had
    one) and the permissions of other addresses are untouched. *)
Theorem new_channel_binds a a_ptr num peer :
  alloc_ok a -> a_ptr <> 0 -> known_family peer -> get_port peer <> 0 -> STUN_VALID_CHANNEL num = true ->
  allocation_get_ch_info a num = Ret None ->
  allocation_get_ch_info_by_peer_addr a peer = Ret None ->
  exists C P a', allocation_get_new_ch_info a a_ptr num peer = Ret (C, a') /\ alloc_ok a' /\
    (allocation_get_permission a peer = Ret None \/ allocation_get_permission a peer = Ret (Some P)) /\
    (forall n, allocation_get_ch_info a' n = if num =? n then Ret (Some C) else allocation_get_ch_info a n) /\
    (forall q, allocation_get_ch_info_by_peer_addr a' q =
       if same_peer peer q then Ret (Some C) else allocation_get_ch_info_by_peer_addr a q) /\
    (forall q, allocation_get_permission a' q =
       if addr_eq_no_port_s peer q then Ret (Some P) else allocation_get_permission a q).
Proof.
  intros I NA K NZ V Nn Np.
  destruct (new_channel_spec a a_ptr num peer I NA K NZ V Nn Np)
    as (C & P & a' & p' & c & E & I' & Hor & EA & Ec & Np1 & HP & HC & _).
  exists C, P, a'. split; [done|]. split; [done|]. split; [done|]. destruct I as [I _], I' as [I' _].
  assert (chnum c = num /\ ch_peer_addr c = peer) as [En Epe] by (by rewrite Ec).
  split; [|split]; intros q.
  - rewrite <- En. apply get_ch_info_after; [done|done| |done]. rewrite En. intros D d Ld. by eapply (get_ch_info_none a I).
  - rewrite <- Epe. apply get_by_peer_after; [done|done|congruence| |done].
    rewrite Epe. intros D d Ld. by eapply (get_by_peer_none a I).
  - by eapply (get_permission_after a a' P p').
Qed.

(** An allocation that has just been initialised has no permissions and no
    channels. *)
Lemma slot_at_replicate {A} (x y : A) P : slot_at (replicate 8 (replicate 3 x)) P = Some y -> y = x.
Proof.
  unfold slot_at. destruct (0 <? P); [|done]. destruct (replicate 8 _ !! ptr_bucket P) as [b|] eqn:E; [|done]. simpl.
  apply lookup_replicate in E as [-> _]. by intros [-> _]%lookup_replicate.
Qed.

Lemma empty_inv a :
  length (addr_to_perm a) = 8%nat -> length (a_chns a) = 8%nat ->
  (forall P p, ~ live_perm a P p) -> (forall C c, ~ live_chan a C c) ->
  (forall C c, slot_at (a_chns a) C = Some c -> ch_allocated c = false -> c = ch_zero) ->
  length (relay_sessions a) = 2%nat -> alloc_inv a.
Proof.
  intros L1 L2 NP NC F S. constructor; [done|done| | | | |done|done].
  - intros P p H. by destruct (NP P p).
  - intros C c H. by destruct (NC C c).
  - intros P Q p q H. by destruct (NP P p).
  - intros C D c d H. by destruct (NC C c).
Qed.

Lemma init_allocation_ok owner : alloc_ok (init_allocation owner).
Proof.
  assert (forall P p, ~ live_perm (init_allocation owner) P p) as NP.
  { intros P p [E A]. apply slot_at_replicate in E. by subst. }
  assert (forall C c, ~ live_chan (init_allocation owner) C c) as NC.
  { intros C c [E A]. apply slot_at_replicate in E. by subst. }
  split.
  - apply empty_inv; [done|done|done|done| |done]. intros C c E _. by apply slot_at_replicate in E.
  - apply timers_empty. intros [P|C|i] h e.
    + intros (p & H & _)%armed_perm. by destruct (NP P p).
    + intros (c & H & _)%armed_chan. by destruct (NC C c).
    + by destruct i as [|[|i]]; simpl; [intros [= <- _]|intros [= <- _]|].
Qed.

Definition ex_peer : ioa_addr := set_port (set_sin_addr (set_family addr_zero AF_INET) [10; 0; 0; 1]) 5000.

Lemma new_channel_binds_witness :
  exists C P a', allocation_get_new_ch_info (init_allocation 1) 2 0x4000 ex_peer = Ret (C, a') /\ alloc_ok a' /\
    (allocation_get_permission (init_allocation 1) ex_peer = Ret None \/
     allocation_get_permission (init_allocation 1) ex_peer = Ret (Some P)) /\
    (forall n, allocation_get_ch_info a' n =
       if 0x4000 =? n then Ret (Some C) else allocation_get_ch_info (init_allocation 1) n) /\
    (forall q, allocation_get_ch_info_by_peer_addr a' q =
       if same_peer ex_peer q then Ret (Some C) else allocation_get_ch_info_by_peer_addr (init_allocation 1) q) /\
    (forall q, allocation_get_permission a' q =
       if addr_eq_no_port_s ex_peer q then Ret (Some P) else allocation_get_permission (init_allocation 1) q).
Proof.
  apply (new_channel_binds (init_allocation 1) 2 0x4000 ex_peer).
  - apply init_allocation_ok.
  - discriminate.
  - left. reflexivity.
  - vm_compute. discriminate.
  - reflexivity.
  - vm_compute. reflexivity.
  - vm_compute. reflexivity.
Defined.

(** ** Removing channels *)
(** Cleaning a slot deletes its timer, if it has one. *)
Lemma clean_chan X a C y :
  X <> Some (ChanTimeout C) -> timers_but X a -> slot_at (a_chns a) C = Some y ->
  (ch_allocated y = false -> y = ch_zero) ->
  exists a', ch_info_clean a C = Ret a' /\ timers_but X a' /\ addr_to_perm a' = addr_to_perm a /\
    relay_sessions a' = relay_sessions a /\ length (a_chns a') = length (a_chns a) /\
    (forall D, slot_at (a_chns a') D = if D =? C then Some ch_zero else slot_at (a_chns a) D).
Proof.
  intros NX T E Z. unfold ch_info_clean, get_chan, deref_slot. rewrite E. mstep. unfold event_del.
  set (f := fun cb => if decide (X = Some cb) then None else alloc_armed a cb).
  assert (exists l, IOA_EVENT_DEL (a_timers a) (ch_lifetime_ev y) = Ret l /\
            timers_inv (upd_armed f (ChanTimeout C) None) l) as (l & -> & T').
  { destruct (ch_allocated y) eqn:A.
    - destruct (timers_del f (a_timers a) (ChanTimeout C) (ch_lifetime_ev y) (ch_expiration_time y)) as (l & ? & ? & _);
        [done| |by exists l].
      unfold f. rewrite decide_False by done. apply armed_chan. by exists y.
    - rewrite (Z eq_refl). exists (a_timers a). split; [done|]. eapply timers_inv_proper; [|reflexivity|exact T].
      intros cb h e N. unfold upd_armed. destruct (decide (cb = ChanTimeout C)) as [->|]; [|done].
      rewrite decide_False by done. split; [done|]. simpl. rewrite E. simpl. by rewrite A. }
  mstep. eexists. split; [done|].
  assert (forall D, slot_at (a_chns (put_chan (with_timers a l) C ch_zero)) D =
            if D =? C then Some ch_zero else slot_at (a_chns a) D) as HS
    by (intros D; by apply (get_put_chan (with_timers a l) C ch_zero y)).
  split; [|split; [done|split; [done|split; [apply length_set_slot|done]]]].
  unfold timers_but. eapply timers_inv_proper; [|reflexivity|exact T']. intros cb h e N. unfold upd_armed.
  destruct (decide (cb = ChanTimeout C)) as [->|Nc].
  - rewrite decide_False by done. unfold alloc_armed. rewrite HS, Z.eqb_refl. done.
  - unfold f. destruct (decide (X = Some cb)); [done|]. destruct cb as [P|D|i]; [done| |done].
    unfold alloc_armed. rewrite HS. destruct (D =? C) eqn:?; bool_arith; [congruence|done].
Qed.

Lemma delete_channels_spec X cells a :
  (forall C, X <> Some (ChanTimeout C)) -> timers_but X a ->
  (forall C c, slot_at (a_chns a) C = Some c -> ch_allocated c = false -> c = ch_zero) ->
  Forall (fun x => exists y, slot_at (a_chns a) x.2 = Some y) cells ->
  exists a', delete_channels a cells = Ret a' /\ timers_but X a' /\ addr_to_perm a' = addr_to_perm a /\
    relay_sessions a' = relay_sessions a /\ length (a_chns a') = length (a_chns a) /\
    (forall D, slot_at (a_chns a') D = if decide (D ∈ cells.*2) then Some ch_zero else slot_at (a_chns a) D).
Proof.
  intros NX. revert a. induction cells as [|[k v] r IH]; intros a T Z F.
  - exists a. do 5 (split; [done|]). intros D. by destruct (decide _) as [[]%not_elem_of_nil|].
  - change (((k, v) :: r).*2) with (v :: r.*2). simpl. apply Forall_cons in F as [[y Hy] F]. simpl in Hy. pose proof (slot_at_pos _ _ _ Hy).
    destruct (clean_chan X a v y (NX v) T Hy (Z v y Hy)) as (a1 & E1 & T1 & P1 & S1 & L1 & C1).
    unfold delete_channel_info_from_allocation_map, truthy. destruct (v =? 0) eqn:?; bool_arith; [lia|]. simpl.
    rewrite E1. mstep. destruct (IH a1 T1) as (a2 & E2 & T2 & P2 & S2 & L2 & C2).
    { intros C c. rewrite C1. destruct (C =? v); [by intros [= <-]|by apply Z]. }
    { eapply Forall_impl; [exact F|]. intros x [z Hz]. rewrite C1. destruct (x.2 =? v); eauto. }
    exists a2. do 2 (split; [done|]). do 3 (split; [congruence|]). intros D. rewrite C2, C1.
    destruct (D =? v) eqn:Ev; bool_arith.
    + subst. rewrite (decide_True (P := v ∈ v :: _)) by set_solver. by destruct (decide _).
    + destruct (decide (D ∈ r.*2)), (decide (D ∈ v :: r.*2)); set_solver.
Qed.

Lemma foreach_all cells : (foreach_until (fun _ _ => false) cells).2 = cells.
Proof. induction cells as [|c r IH]; [done|]. simpl. destruct (foreach_until _ r). simpl in *. by rewrite IH. Qed.

Lemma lm_foreach_abs m k v :
  lm_inv m -> (k, v) ∈ (lm_map_foreach m (fun _ _ => false)).2 <-> lm_abs m k = Some v.
Proof.
  intros [[L W] _]. unfold lm_map_foreach. rewrite foreach_all, list_elem_of_In, in_concat.
  setoid_rewrite <- list_elem_of_In. unfold lm_abs, tget. split.
  - intros (cells & Hin & Hc). apply list_elem_of_fmap in Hin as (b & -> & Hb).
    apply list_elem_of_lookup in Hb as [i Hi]. destruct (W i b Hi) as [U H]. rewrite Forall_forall in H.
    specialize (H _ Hc). simpl in H. simpl. rewrite H, Hi. apply (find_key_some (HK := lm_key)); [done|].
    exists k. split; [done|]. apply Z.eqb_refl.
  - destruct (m !! key_hash k) as [b|] eqn:E; [|done]. destruct (W _ b E) as [U _].
    rewrite (find_key_some (HK := lm_key)) by done. intros (k' & Hin & Ek). simpl in Ek. bool_arith. subst k'.
    exists (lm_cells b). split; [|done]. apply list_elem_of_fmap. exists b. split; [done|].
    by eapply list_elem_of_lookup_2.
Qed.

Lemma inv_del_chan a a' P p m C c :
  alloc_inv a -> live_perm a P p -> live_chan a C c -> ch_owner c = P ->
  lm_abs (p_chns p) (ch_port c) = Some C ->
  lm_inv m ->
  (forall k, lm_abs m k = if ch_port c =? k then None else lm_abs (p_chns p) k) ->
  length (addr_to_perm a') = 8%nat -> length (a_chns a') = 8%nat ->
  (forall Q q, live_perm a' Q q <-> (Q = P /\ q = with_chns_map p m) \/ (Q <> P /\ live_perm a Q q)) ->
  (forall D d, live_chan a' D d <-> D <> C /\ live_chan a D d) ->
  (forall D d, slot_at (a_chns a') D = Some d -> ch_allocated d = false -> d = ch_zero) ->
  relay_sessions a' = relay_sessions a ->
  alloc_inv a'.
Proof.
  intros I LP LC O Ec Im Am L1 L2 HP HC HF ES. set (p' := with_chns_map p m) in *.
  constructor; [done|done| | | | |done|rewrite ES; apply (inv_sessions a I)].
  - intros Q q HQ. apply HP in HQ as [[-> ->]|[n HQ]].
    + destruct (inv_perm a I P p LP) as [b k w e]. constructor; [done|done|done|].
      intros port D Hd. cbn [p' p_chns with_chns_map] in Hd. rewrite Am in Hd. destruct (ch_port c =? port) eqn:Ep; bool_arith; [done|].
      destruct (e port D Hd) as (d & Ld & R1 & R2). exists d. split; [|done]. apply HC. split; [|done].
      intros ->. rewrite (live_chan_fun _ _ _ _ Ld LC) in R2. congruence.
    + destruct (inv_perm a I Q q HQ) as [b k w e]. constructor; [done|done|done|].
      intros port D Hd. destruct (e port D Hd) as (d & Ld & R1 & R2). exists d. split; [|done]. apply HC.
      split; [|done]. intros ->. rewrite (live_chan_fun _ _ _ _ Ld LC) in R1. congruence.
  - intros D d HD. apply HC in HD as [ND HD]. destruct (inv_chan a I D d HD) as [b v pt z (x & Lx & Ex & Ax)].
    constructor; [done..|]. destruct (decide (ch_owner d = P)) as [EP|NP].
    + rewrite EP in *. rewrite (live_perm_fun _ _ _ _ Lx LP) in Ex, Ax. exists p'. split; [apply HP; by left|].
      cbn [p' p_chns p_addr with_chns_map]. rewrite Am. split; [|done]. destruct (ch_port c =? ch_port d) eqn:Ep; bool_arith; congruence.
    + exists x. split; [apply HP; by right|done].
  - intros Q R q r HQ HR Eq. apply HP in HQ, HR.
    destruct HQ as [[-> ->]|[NQ HQ]], HR as [[-> ->]|[NR HR]]; [done| | |by eapply (inv_perm_unique a I)].
    + eapply (inv_perm_unique a I); [exact LP|done|done].
    + eapply (inv_perm_unique a I); [done|exact LP|done].
  - intros D1 D2 d1 d2 H1 H2 En. apply HC in H1 as [_ H1], H2 as [_ H2]. by eapply (inv_chan_unique a I).
Qed.

Lemma inv_clean_perm a a' P :
  alloc_inv a -> length (addr_to_perm a') = 8%nat -> length (a_chns a') = 8%nat ->
  (forall Q q, live_perm a' Q q <-> Q <> P /\ live_perm a Q q) ->
  (forall D d, live_chan a' D d <-> ch_owner d <> P /\ live_chan a D d) ->
  (forall D d, slot_at (a_chns a') D = Some d -> ch_allocated d = false -> d = ch_zero) ->
  relay_sessions a' = relay_sessions a ->
  alloc_inv a'.
Proof.
  intros I L1 L2 HP HC HF ES. constructor; [done|done| | | | |done|rewrite ES; apply (inv_sessions a I)].
  - intros Q q HQ. apply HP in HQ as [NQ HQ]. destruct (inv_perm a I Q q HQ) as [b k m e].
    constructor; [done|done|done|]. intros port D Hd. destruct (e port D Hd) as (d & Ld & R1 & R2).
    exists d. split; [|done]. apply HC. split; [congruence|done].
  - intros D d HD. apply HC in HD as [ND HD]. destruct (inv_chan a I D d HD) as [b v pt z (x & Lx & Ex)].
    constructor; [done..|]. exists x. split; [by apply HP|done].
  - intros Q R q r HQ HR. apply HP in HQ as [_ HQ], HR as [_ HR]. by apply (inv_perm_unique a I).
  - intros D1 D2 d1 d2 H1 H2. apply HC in H1 as [_ H1], H2 as [_ H2]. by apply (inv_chan_unique a I).
Qed.

(** The channels of a permission are those whose peer has its address. *)
Lemma owner_iff_addr a P p D d :
  alloc_inv a -> live_perm a P p -> live_chan a D d ->
  ch_owner d = P <-> addr_eq_no_port_s (p_addr p) (ch_peer_addr d) = true.
Proof.
  intros I LP LD. destruct (chan_entry a D d (inv_chan a I D d LD)) as (x & Lx & _ & Ax). split.
  - intros E. rewrite E in Lx. by rewrite (live_perm_fun _ _ _ _ LP Lx).
  - intros E. eapply (inv_perm_unique a I); [done..|]. rewrite addr_eq_no_port_s_sym in E.
    by eapply addr_eq_no_port_s_trans.
Qed.

Lemma channel_delete_spec a C c :
  alloc_ok a -> live_chan a C c ->
  exists a' p m, turn_channel_delete a C = Ret a' /\ alloc_ok a' /\ live_perm a (ch_owner c) p /\
    (forall Q q, live_perm a' Q q <->
       (Q = ch_owner c /\ q = with_chns_map p m) \/ (Q <> ch_owner c /\ live_perm a Q q)) /\
    (forall D d, live_chan a' D d <-> D <> C /\ live_chan a D d) /\ relay_sessions a' = relay_sessions a.
Proof.
  intros [I T] LC. pose proof (inv_chan a I C c LC) as [b v pt z (p & LP & Ep & Ap)].
  unfold turn_channel_delete. rewrite (live_chan_get a C c LC). mstep. rewrite <- pt.
  pose proof (slot_at_pos _ _ _ (proj1 LP)). destruct (ch_owner c =? 0) eqn:?; bool_arith; [lia|].
  rewrite (live_perm_get a _ p LP). mstep.
  destruct (lm_del_spec (p_chns p) (ch_port c) (perm_map a _ p (inv_perm a I _ p LP)) z) as (m & -> & Im & _ & Am). mstep.
  set (a1 := put_perm _ _ _). destruct LC as [SC AC].
  assert (forall Q q, live_perm a1 Q q <->
     (Q = ch_owner c /\ q = with_chns_map p m) \/ (Q <> ch_owner c /\ live_perm a Q q)) as HP1.
  { intros Q q. unfold a1. rewrite (live_put_perm a _ _ p) by apply LP. cbn [p_allocated with_chns_map].
    destruct LP as [_ ->]. naive_solver. }
  assert (timers_ok a1) as T1.
  { unfold timers_ok. eapply timers_inv_proper; [|reflexivity|exact T]. apply armed_ext; [done| |done].
    intros Q h e NZ. setoid_rewrite HP1. split; [intros (q & [[-> ->]|[_ K]] & E); [by exists p|by exists q]|].
    intros (q & K & E). destruct (decide (Q = ch_owner c)) as [->|]; [|by exists q; auto].
    rewrite (live_perm_fun _ _ _ _ K LP) in E. exists (with_chns_map p m). auto. }
  destruct (clean_chan None a1 C c ltac:(done) T1 SC) as (a' & E' & T' & P' & S' & L' & C').
  { intros A. congruence. }
  unfold delete_channel_info_from_allocation_map, truthy. pose proof (slot_at_pos _ _ _ SC).
  destruct (C =? 0) eqn:?; bool_arith; [lia|]. simpl. rewrite E'.
  assert (forall Q q, live_perm a' Q q <->
     (Q = ch_owner c /\ q = with_chns_map p m) \/ (Q <> ch_owner c /\ live_perm a Q q)) as HP.
  { intros Q q. rewrite <- HP1. unfold live_perm. by rewrite P'. }
  assert (forall D d, live_chan a' D d <-> D <> C /\ live_chan a D d) as HC.
  { intros D d. unfold live_chan. rewrite C'. destruct (D =? C) eqn:?; bool_arith; [|naive_solver].
    split; [by intros [[= <-] ?]|naive_solver]. }
  exists a', p, m. split; [done|]. split; [split; [|done]|done].
  eapply (inv_del_chan a a' (ch_owner c) p m C c); try done.
  - rewrite P'. simpl. rewrite length_set_slot. apply (inv_perm_buckets a I).
  - rewrite L'. apply (inv_chan_buckets a I).
  - intros D d. rewrite C'. destruct (D =? C); [by intros [= <-]|by apply (inv_chan_free a I)].
Qed.

Lemma permission_clean_spec a P p :
  alloc_ok a -> live_perm a P p ->
  exists a', turn_permission_clean a P = Ret a' /\ alloc_ok a' /\
    (forall Q q, live_perm a' Q q <-> Q <> P /\ live_perm a Q q) /\
    (forall D d, live_chan a' D d <-> ch_owner d <> P /\ live_chan a D d) /\ relay_sessions a' = relay_sessions a /\
    (forall Q, is_Some (slot_at (addr_to_perm a) Q) -> is_Some (slot_at (addr_to_perm a') Q)).
Proof.
  intros [I T] LP. pose proof (inv_perm a I P p LP) as [b k m e].
  unfold turn_permission_clean. rewrite (live_perm_get a P p LP). mstep. pose proof LP as [SP AP]. rewrite AP.
  destruct (timers_del (alloc_armed a) (a_timers a) (PermTimeout P) (p_lifetime_ev p) (p_expiration_time p))
    as (l & El & Tl & _); [exact T|apply armed_perm; by exists p|].
  unfold event_del. rewrite El. mstep. set (a0 := with_timers a l).
  assert (timers_but (Some (PermTimeout P)) a0) as T0.
  { unfold timers_but. eapply timers_inv_proper; [|reflexivity|exact Tl]. intros cb h e' N. unfold upd_armed.
    destruct (decide (Some (PermTimeout P) = Some cb)), (decide (cb = PermTimeout P)); first [done|congruence]. }
  destruct (delete_channels_spec (Some (PermTimeout P)) (lm_map_foreach (p_chns p) (fun _ _ => false)).2 a0 ltac:(done) T0)
    as (a1 & -> & T1 & P1 & S1 & L1 & C1).
  { apply (inv_chan_free a I). }
  { rewrite Forall_forall. intros [port C] Hin. apply (lm_foreach_abs _ _ _ m) in Hin.
    destruct (e port C Hin) as (c & [Hc _] & _). by exists c. }
  mstep. set (a' := put_perm a1 P perm_zero).
  assert (forall Q q, live_perm a' Q q <-> Q <> P /\ live_perm a Q q) as HP.
  { intros Q q. unfold a'. rewrite (live_put_perm a1 P perm_zero p) by (by rewrite P1).
    unfold live_perm. rewrite P1. simpl. naive_solver. }
  assert (forall D d, live_chan a D d -> ch_owner d = P <-> D ∈ (lm_map_foreach (p_chns p) (fun _ _ => false)).2.*2) as Own.
  { intros D d L. split.
    - intros E. destruct (chan_entry a D d (inv_chan a I D d L)) as (x & Lx & Ex & _). rewrite E in Lx.
      rewrite (live_perm_fun _ _ _ _ Lx LP) in Ex. apply list_elem_of_fmap. exists (ch_port d, D).
      split; [done|]. by apply lm_foreach_abs.
    - intros Hin. apply list_elem_of_fmap in Hin as ([port D'] & E & Hin). simpl in E. subst D'.
      apply (lm_foreach_abs _ _ _ m) in Hin. destruct (e port D Hin) as (c & Lc & O & _).
      by rewrite (live_chan_fun _ _ _ _ Lc L) in O. }
  assert (forall D d, live_chan a' D d <-> ch_owner d <> P /\ live_chan a D d) as HC.
  { intros D d. unfold live_chan at 1. change (a_chns a') with (a_chns a1). rewrite C1. destruct (decide _) as [Hin|Nin].
    - split; [by intros [[= <-] ?]|]. intros [NO L]. by apply (Own D d L) in Hin.
    - change (a_chns a0) with (a_chns a). fold (live_chan a D d). split; [|naive_solver].
      intros L. split; [|done]. intros O. by apply (Own D d L) in O. }
  exists a'. split; [done|]. split; [split|split; [done|split; [done|split; [exact S1|]]]].
  3: { intros Q HQ. unfold a'. rewrite (get_put_perm a1 P perm_zero p) by (by rewrite P1). rewrite P1. by destruct (Q =? P). }
  - apply (inv_clean_perm a a' P I); [| |done|done| |exact S1].
    + unfold a'. simpl. rewrite length_set_slot, P1. apply (inv_perm_buckets a I).
    + simpl. rewrite L1. apply (inv_chan_buckets a I).
    + intros D d. change (a_chns a') with (a_chns a1). rewrite C1. destruct (decide _); [by intros [= <-]|].
      by apply (inv_chan_free a I).
  - unfold timers_ok. eapply timers_inv_proper; [|reflexivity|exact T1]. intros cb h e' N.
    destruct (decide (Some (PermTimeout P) = Some cb)) as [[= <-]|Ncb].
    + split; [|done]. intros (q & Lq & _)%armed_perm. by apply HP in Lq as [? _].
    + destruct cb as [Q|D|i]; [|done|done]. rewrite !armed_perm. setoid_rewrite HP. unfold live_perm. rewrite P1.
      change (addr_to_perm a0) with (addr_to_perm a). assert (Q <> P) by congruence. naive_solver.
Qed.

(** Removing a permission: the call returns, the invariant is kept, the
    permission is gone, exactly the channels to its address are unbound (by
    number and by peer), and everything else is found as before. *)
Theorem permission_clean_unbinds a P addr :
  alloc_ok a -> allocation_get_permission a addr = Ret (Some P) ->
  exists a', turn_permission_clean a P = Ret a' /\ alloc_ok a' /\
    (forall q, allocation_get_permission a' q =
       if addr_eq_no_port_s addr q then Ret None else allocation_get_permission a q) /\
    (forall q, allocation_get_ch_info_by_peer_addr a' q =
       if addr_eq_no_port_s addr q then Ret None else allocation_get_ch_info_by_peer_addr a q) /\
    (forall n C, allocation_get_ch_info a' n = Ret (Some C) <->
       exists c, allocation_get_ch_info a n = Ret (Some C) /\ get_chan a C = Ret c /\
         addr_eq_no_port_s addr (ch_peer_addr c) = false).
Proof.
  intros Ok G. pose proof (proj1 Ok) as I. apply (get_permission_iff a I) in G as (p & LP & EA).
  destruct (permission_clean_spec a P p Ok LP) as (a' & E & Ok' & HP & HC & _). pose proof (proj1 Ok') as I'.
  assert (forall D d, live_chan a D d -> ch_owner d = P <-> addr_eq_no_port_s addr (ch_peer_addr d) = true) as Own.
  { intros D d L. rewrite (owner_iff_addr a P p D d I LP L), (addr_eq_no_port_left _ _ _ EA). done. }
  exists a'. split; [done|]. split; [done|]. split; [|split].
  - intros q. apply lookup_without; [by apply get_permission_returns..|]. intros Q.
    rewrite (get_permission_iff a I), (get_permission_iff a' I'). rewrite <- (addr_eq_no_port_left _ _ q EA).
    setoid_rewrite HP. split.
    + intros (r & (NQ & L) & Er). split; [|by exists r]. apply not_true_is_false. intros Ep. apply NQ.
      eapply (inv_perm_unique a I); [done..|]. rewrite (addr_eq_no_port_left _ _ _ Er). by rewrite addr_eq_no_port_s_sym.
    + intros (N & r & L & Er). exists r. split; [|done]. split; [|done]. intros ->.
      rewrite (live_perm_fun _ _ _ _ L LP) in Er. congruence.
  - intros q. apply lookup_without; [by apply get_by_peer_returns..|]. intros D.
    rewrite (get_by_peer_iff a I), (get_by_peer_iff a' I'). setoid_rewrite HC.
    assert (forall d, live_chan a D d -> same_peer (ch_peer_addr d) q = true ->
              ch_owner d <> P <-> addr_eq_no_port_s addr q = false) as Own'.
    { intros d L S. apply same_peer_addr in S as [Ea _].
      by rewrite (Own D d L), (addr_eq_no_port_right _ _ addr Ea), not_true_iff_false. }
    split; [intros (d & (NO & L) & S)|intros (Nq & d & L & S)].
    + split; [by apply (Own' d)|by exists d].
    + exists d. split; [|done]. split; [by apply Own'|done].
  - intros n C. rewrite (get_ch_info_iff a' I'). setoid_rewrite (get_ch_info_iff a I). setoid_rewrite HC. split.
    + intros (c & (NO & L) & En). exists c. split; [by exists c|]. split; [by apply live_chan_get|].
      apply not_true_is_false. by rewrite <- (Own C c L).
    + intros (c & (c' & L & En) & Gc & N). rewrite (live_chan_get a C c' L) in Gc. injection Gc as ->.
      exists c. rewrite (Own C c L), N. done.
Qed.

(** Deleting a channel: the call returns, the invariant is kept, the
    channel is found neither by its number nor by its peer any more, all other
    channels and all permissions are found as before. *)
Theorem channel_delete_unbinds a C c :
  alloc_ok a -> allocation_get_ch_info a (chnum c) = Ret (Some C) -> get_chan a C = Ret c ->
  exists a', turn_channel_delete a C = Ret a' /\ alloc_ok a' /\
    (forall n, allocation_get_ch_info a' n = if chnum c =? n then Ret None else allocation_get_ch_info a n) /\
    (forall q, allocation_get_ch_info_by_peer_addr a' q =
       if same_peer (ch_peer_addr c) q then Ret None else allocation_get_ch_info_by_peer_addr a q) /\
    (forall q, allocation_get_permission a' q = allocation_get_permission a q).
Proof.
  intros Ok G Gc. pose proof (proj1 Ok) as I. apply (get_ch_info_iff a I) in G as (c' & LC & _).
  rewrite (live_chan_get a C c' LC) in Gc. injection Gc as ->.
  destruct (channel_delete_spec a C c Ok LC) as (a' & p & m & E & Ok' & LP & HP & HC & _). pose proof (proj1 Ok') as I'.
  exists a'. split; [done|]. split; [done|]. split; [|split].
  - intros n. apply lookup_without; [by apply get_ch_info_returns..|]. intros D.
    rewrite (get_ch_info_iff a I), (get_ch_info_iff a' I'). setoid_rewrite HC. rewrite Z.eqb_neq. split.
    + intros (d & (ND & L) & <-). split; [|eauto]. intros En. apply ND. by eapply (inv_chan_unique a I).
    + intros (N & d & L & <-). exists d. split; [|done]. split; [|done]. intros ->. by rewrite (live_chan_fun _ _ _ _ L LC) in N.
  - intros q. apply lookup_without; [by apply get_by_peer_returns..|]. intros D.
    assert (same_peer (ch_peer_addr c) q = true -> allocation_get_ch_info_by_peer_addr a q = Ret (Some C)) as Hq
      by (intros S; apply (get_by_peer_iff a I); eauto).
    rewrite (get_by_peer_iff a' I'). setoid_rewrite HC. split.
    + intros (d & (ND & L) & S). assert (allocation_get_ch_info_by_peer_addr a q = Ret (Some D)) as F
        by (apply (get_by_peer_iff a I); eauto).
      split; [|done]. apply not_true_is_false. intros S'. apply Hq in S'. congruence.
    + intros (N & F). apply (get_by_peer_iff a I) in F as (d & L & S). exists d. split; [|done]. split; [|done].
      intros ->. rewrite (live_chan_fun _ _ _ _ L LC) in S. congruence.
  - intros q. apply lookup_ext; [by apply get_permission_returns..|]. intros Q.
    rewrite (get_permission_iff a I), (get_permission_iff a' I'). setoid_rewrite HP. split.
    + intros (r & [[-> ->]|[_ L]] & Er); [by exists p|by exists r].
    + intros (r & L & Er). destruct (decide (Q = ch_owner c)) as [->|NQ]; [|eauto 6].
      exists (with_chns_map p m). split; [by left|]. simpl. by rewrite (live_perm_fun _ _ _ _ LP L).
Qed.

(** ** Clearing an allocation *)
Lemma all_ptrs_spec {A} (t : list (list A)) P :
  length t = 8%nat -> P ∈ all_ptrs t <-> is_Some (slot_at t P).
Proof.
  intros L. unfold all_ptrs. rewrite list_elem_of_In, in_concat. setoid_rewrite <- list_elem_of_In. split.
  - intros (ptrs & Hin & HP). apply elem_of_lookup_imap in Hin as (i & b & -> & Hb).
    apply list_elem_of_fmap in HP as (j & -> & Hj). apply elem_of_seq in Hj.
    assert (i < 8)%nat by (apply lookup_lt_Some in Hb; lia).
    rewrite slot_at_ptr, Hb by done. simpl. apply lookup_lt_is_Some_2. lia.
  - intros [x Hx]. pose proof (slot_at_pos _ _ _ Hx) as Hp. rewrite slot_at_split in Hx by done.
    destruct (t !! ptr_bucket P) as [b|] eqn:Eb; [|done]. simpl in Hx.
    exists (slot_ptr (ptr_bucket P) <$> seq 0 (length b)). split.
    + apply elem_of_lookup_imap. by exists (ptr_bucket P), b.
    + apply list_elem_of_fmap. exists (ptr_slot P). rewrite ptr_encode by done. split; [done|].
      apply elem_of_seq. apply lookup_lt_Some in Hx. lia.
Qed.

Lemma clean_permissions_spec ptrs a :
  alloc_ok a -> Forall (fun P => is_Some (slot_at (addr_to_perm a) P)) ptrs ->
  exists a', clean_permissions a ptrs = Ret a' /\ alloc_ok a' /\
    (forall P p, live_perm a' P p <-> (P ∉ ptrs) /\ live_perm a P p) /\ relay_sessions a' = relay_sessions a.
Proof.
  revert a. induction ptrs as [|P r IH]; intros a Ok F; simpl.
  - exists a. split; [done|]. split; [done|]. split; [|done]. intros P p. set_solver.
  - apply Forall_cons in F as [[p Hp] F]. destruct (p_allocated p) eqn:A.
    + destruct (permission_clean_spec a P p Ok (conj Hp A)) as (a1 & -> & Ok1 & HP & _ & S1 & Hs). mstep.
      destruct (IH a1 Ok1) as (a2 & E2 & Ok2 & HP2 & S2).
      { eapply Forall_impl; [exact F|]. intros Q. apply Hs. }
      exists a2. split; [done|]. split; [done|]. split; [|congruence]. intros Q q. rewrite HP2, HP. set_solver.
    + unfold turn_permission_clean, get_perm, deref_slot. rewrite Hp. mstep. rewrite A. mstep.
      destruct (IH a Ok F) as (a2 & E2 & Ok2 & HP2 & S2). exists a2. split; [done|]. split; [done|]. split; [|done].
      intros Q q. rewrite HP2. split; intros [H1 H2]; split; try done; [|set_solver].
      intros [->|?]%elem_of_cons; [|done]. destruct H2 as [H2 H3]. congruence.
Qed.

(** Dropping the extra slots. *)
Lemma slot_at_take {A} n (t : list (list A)) P x : slot_at (take n <$> t) P = Some x -> slot_at t P = Some x.
Proof.
  unfold slot_at. destruct (0 <? P); [|done]. rewrite list_lookup_fmap.
  destruct (t !! ptr_bucket P) as [b|]; [simpl|done]. by intros [? _]%lookup_take_Some.
Qed.

Lemma no_perms_no_chans a : alloc_inv a -> (forall P p, ~ live_perm a P p) -> forall C c, ~ live_chan a C c.
Proof. intros I NP C c L. destruct (chan_entry a C c (inv_chan a I C c L)) as (p & Lp & _). by eapply NP. Qed.

Lemma clean_channels_idle ptrs a :
  (forall C c, ~ live_chan a C c) -> Forall (fun C => is_Some (slot_at (a_chns a) C)) ptrs ->
  clean_channels a ptrs = Ret a.
Proof.
  intros NC. induction ptrs as [|C r IH]; [done|]. intros [[c Hc] F]%Forall_cons. simpl.
  unfold get_chan, deref_slot. rewrite Hc. mstep. destruct (ch_allocated c) eqn:A; [|mstep; by apply IH].
  exfalso. by apply (NC C c).
Qed.

(** The tables decide the table invariant. *)
Lemma alloc_inv_same a a' :
  addr_to_perm a' = addr_to_perm a -> a_chns a' = a_chns a -> length (relay_sessions a') = 2%nat ->
  alloc_inv a -> alloc_inv a'.
Proof.
  intros EP EC L [i1 i2 i3 i4 i5 i6 i7 i8].
  assert (forall P p, live_perm a' P p <-> live_perm a P p) as HP by (intros; unfold live_perm; by rewrite EP).
  assert (forall C c, live_chan a' C c <-> live_chan a C c) as HC by (intros; unfold live_chan; by rewrite EC).
  constructor; [congruence|congruence| | | | |rewrite EC; done|done].
  - intros P p H%HP. destruct (i3 P p H) as [b o m e]. constructor; [done..|]. setoid_rewrite HC. done.
  - intros C c H%HC. destruct (i4 C c H) as [b v pt z e]. constructor; [done..|]. setoid_rewrite HP. done.
  - intros P Q p q H1%HP H2%HP. by apply i5.
  - intros C D c d H1%HC H2%HC. by apply i6.
Qed.

Lemma get_session a family :
  alloc_inv a -> exists r, (ALLOC_INDEX family < 2)%nat /\ relay_sessions a !! ALLOC_INDEX family = Some r /\
    get_relay_socket a family = Ret (rs_s r).
Proof.
  intros I. assert (ALLOC_INDEX family < 2)%nat as Hi by (unfold ALLOC_INDEX; destruct (_ =? _); lia).
  destruct (lookup_lt_is_Some_2 (relay_sessions a) (ALLOC_INDEX family)) as [r Hr]; [by rewrite (inv_sessions a I)|].
  exists r. unfold get_relay_socket, at_index. by rewrite Hr.
Qed.

(** Deleting the timer of a relay session and storing a session without one. *)
Lemma session_step a i r r' :
  alloc_ok a -> relay_sessions a !! i = Some r -> rs_lifetime_ev r' = 0 ->
  exists l, IOA_EVENT_DEL (a_timers a) (rs_lifetime_ev r) = Ret l /\
    alloc_ok (with_sessions (with_timers a l) (<[i := r']> (relay_sessions a))).
Proof.
  intros [I T] Hr Z.
  destruct (timers_del (alloc_armed a) (a_timers a) (AllocTimeout i) (rs_lifetime_ev r) (rs_expiration_time r))
    as (l & El & Tl & _); [exact T|simpl; by rewrite Hr|].
  exists l. split; [done|]. split.
  - apply (alloc_inv_same a); [done|done| |done]. simpl. rewrite length_insert. apply (inv_sessions a I).
  - unfold timers_ok. eapply timers_inv_proper; [|reflexivity|exact Tl]. intros cb h e N. unfold upd_armed.
    destruct (decide (cb = AllocTimeout i)) as [->|Nc]; [|destruct cb as [P|C|j]; [done|done|]].
    + simpl. rewrite list_lookup_insert_eq by (by eapply lookup_lt_Some). simpl. rewrite Z. split; [congruence|done].
    + simpl. rewrite list_lookup_insert_ne by congruence. done.
Qed.

Lemma clear_sessions_spec n a i :
  alloc_ok a -> (i + n <= 2)%nat ->
  exists a', clear_sessions a i n = Ret a' /\ alloc_ok a' /\ addr_to_perm a' = addr_to_perm a /\ a_chns a' = a_chns a /\
    (forall j r, (j < i)%nat -> relay_sessions a !! j = Some r -> relay_sessions a' !! j = Some r) /\
    (forall j r, (i <= j < i + n)%nat -> relay_sessions a' !! j = Some r -> rs_lifetime_ev r = 0 /\ rs_s r = 0).
Proof.
  revert a i. induction n as [|n IH]; intros a i Ok Hn; simpl.
  - exists a. repeat (split; [done|]). intros j r Hj. lia.
  - destruct (lookup_lt_is_Some_2 (relay_sessions a) i) as [r Hr].
    { rewrite (inv_sessions a (proj1 Ok)). lia. }
    destruct (session_step a i r (RelaySession 0 (rs_expiration_time r) 0) Ok Hr eq_refl) as (l & El & Ok1).
    unfold at_index, event_del. rewrite Hr. mstep. rewrite El. mstep.
    destruct (IH _ (S i) Ok1 ltac:(lia)) as (a' & E & Ok' & EP & EC & Hlow & Hhigh). exists a'.
    split; [done|]. split; [done|]. split; [done|]. split; [done|]. split.
    + intros j x Hj Hx. apply Hlow; [lia|]. simpl. by rewrite list_lookup_insert_ne by lia.
    + intros j x Hj Hx. destruct (decide (j = i)) as [->|]; [|apply (Hhigh j); [lia|done]].
      assert (relay_sessions a' !! i = Some (RelaySession 0 (rs_expiration_time r) 0)) as E'.
      { apply Hlow; [lia|]. simpl. apply list_lookup_insert_eq. by eapply lookup_lt_Some. }
      rewrite E' in Hx. by injection Hx as <-.
Qed.

Lemma timers_none f l : timers_inv f l -> (forall cb h e, f cb = Some (h, e) -> h = 0) -> l = [].
Proof.
  intros [_ P _ N] Z. destruct l as [|[h d cb] l]; [done|]. exfalso.
  destruct (N h d cb) as (e & F & _); [left|]. specialize (P (Timer h d cb) ltac:(left)). apply Z in F. simpl in P. lia.
Qed.

Lemma clear_allocation_spec a :
  alloc_ok a ->
  exists a', clear_allocation a = Ret a' /\ alloc_ok a' /\ a_timers a' = [] /\ is_allocation_valid a' = 0 /\
    (forall q, allocation_get_permission a' q = Ret None) /\
    (forall n, allocation_get_ch_info a' n = Ret None) /\
    (forall family, get_relay_socket a' family = Ret 0) /\
    (forall P p, ~ live_perm a' P p) /\ (forall C c, ~ live_chan a' C c).
Proof.
  intros Ok. unfold clear_allocation.
  destruct (clear_sessions_spec 2 a 0 Ok ltac:(done)) as (a1 & -> & Ok1 & _ & _ & _ & HS). mstep.
  unfold free_turn_permission_hashtable. pose proof (inv_perm_buckets a1 (proj1 Ok1)) as L1.
  destruct (clean_permissions_spec (all_ptrs (addr_to_perm a1)) a1 Ok1) as (a2 & -> & Ok2 & HP2 & S2).
  { rewrite Forall_forall. intros P HP. by apply all_ptrs_spec in HP. }
  mstep. destruct Ok2 as [I2 T2].
  assert (forall P p, ~ live_perm a2 P p) as NP.
  { intros P p [N [L _]]%HP2. apply N, all_ptrs_spec; [done|]. by exists p. }
  pose proof (no_perms_no_chans a2 I2 NP) as NC. set (a3 := with_perms a2 _).
  unfold ch_map_clean. rewrite (clean_channels_idle (all_ptrs (a_chns a3)) a3 NC).
  2: { rewrite Forall_forall. intros C HC. by apply all_ptrs_spec in HC; [|apply (inv_chan_buckets a2 I2)]. }
  mstep. set (a4 := set_allocation_valid _ 0).
  assert (forall P p, ~ live_perm a4 P p) as NP4.
  { intros P p [L A]. apply slot_at_take in L. by apply (NP P p). }
  assert (forall C c, ~ live_chan a4 C c) as NC4.
  { intros C c [L A]. apply slot_at_take in L. by apply (NC C c). }
  assert (relay_sessions a4 = relay_sessions a1) as ES by exact S2.
  assert (alloc_inv a4) as I4.
  { apply empty_inv; [..|done|done| |].
    - simpl. rewrite length_fmap. apply (inv_perm_buckets a2 I2).
    - simpl. rewrite length_fmap. apply (inv_chan_buckets a2 I2).
    - intros C c L. apply slot_at_take in L. by eapply (inv_chan_free a2 I2).
    - rewrite ES. apply (inv_sessions a1 (proj1 Ok1)). }
  assert (forall cb h e, alloc_armed a4 cb = Some (h, e) -> h = 0) as Z4.
  { intros [P|C|i] h e.
    - intros (p & L & _)%armed_perm. by destruct (NP4 P p).
    - intros (c & L & _)%armed_chan. by destruct (NC4 C c).
    - simpl. intros E. change (relay_sessions a2) with (relay_sessions a4) in E. rewrite ES in E.
      destruct (relay_sessions a1 !! i) as [r|] eqn:Er; [|done]. simpl in E. injection E as <- _.
      apply (HS i); [|done]. apply lookup_lt_Some in Er. rewrite (inv_sessions a1 (proj1 Ok1)) in Er. lia. }
  assert (timers_ok a4) as T4.
  { unfold timers_ok. change (a_timers a4) with (a_timers a2). eapply timers_inv_proper; [|reflexivity|exact T2].
    apply armed_ext; [done| |]; intros X h e N; split; intros (x & L & _); exfalso;
      [by apply (NP4 X x)|by apply (NP X x)|by apply (NC4 X x)|by apply (NC X x)]. }
  exists a4. split; [done|]. split; [done|]. split; [by eapply timers_none|]. split; [done|]. split; [|split; [|split; [|done]]].
  - intros q. destruct (get_permission_returns a4 I4 q) as [[P|] F]; [|done].
    apply (get_permission_iff a4 I4) in F as (p & L & _). by destruct (NP4 P p).
  - intros n. destruct (get_ch_info_returns a4 I4 n) as [[C|] F]; [|done].
    apply (get_ch_info_iff a4 I4) in F as (c & L & _). by destruct (NC4 C c).
  - intros family. destruct (get_session a4 family I4) as (r & Hi & Hr & ->). rewrite ES in Hr.
    by destruct (HS (ALLOC_INDEX family) r ltac:(lia) Hr) as [_ ->].
Qed.


(** * An example: one channel bound in a new allocation *)
Definition ex_bound : allocation :=
  match allocation_get_new_ch_info (init_allocation 1) 2 0x4000 ex_peer with Ret (_, a) => a | _ => init_allocation 1 end.

Lemma ex_bound_ok : alloc_ok ex_bound.
Proof.
  destruct (new_channel_spec (init_allocation 1) 2 0x4000 ex_peer) as (C & P & a' & p' & c & E & I' & _).
  - apply init_allocation_ok.
  - discriminate.
  - left. reflexivity.
  - vm_compute. discriminate.
  - reflexivity.
  - vm_compute. reflexivity.
  - vm_compute. reflexivity.
  - unfold ex_bound. rewrite E. exact I'.
Qed.

Definition ex_chan : ch_info := ChInfo 0x4000 true 5000 ex_peer 0 0 6 0.

Lemma permission_clean_unbinds_witness :
  exists a', turn_permission_clean ex_bound 6 = Ret a' /\ alloc_ok a' /\
    (forall q, allocation_get_permission a' q =
       if addr_eq_no_port_s ex_peer q then Ret None else allocation_get_permission ex_bound q) /\
    (forall q, allocation_get_ch_info_by_peer_addr a' q =
       if addr_eq_no_port_s ex_peer q then Ret None else allocation_get_ch_info_by_peer_addr ex_bound q) /\
    (forall n C, allocation_get_ch_info a' n = Ret (Some C) <->
       exists c, allocation_get_ch_info ex_bound n = Ret (Some C) /\ get_chan ex_bound C = Ret c /\
         addr_eq_no_port_s ex_peer (ch_peer_addr c) = false).
Proof.
  apply (permission_clean_unbinds ex_bound 6 ex_peer).
  - apply ex_bound_ok.
  - vm_compute. reflexivity.
Defined.

Lemma channel_delete_unbinds_witness :
  exists a', turn_channel_delete ex_bound 1 = Ret a' /\ alloc_ok a' /\
    (forall n, allocation_get_ch_info a' n =
       if chnum ex_chan =? n then Ret None else allocation_get_ch_info ex_bound n) /\
    (forall q, allocation_get_ch_info_by_peer_addr a' q =
       if same_peer (ch_peer_addr ex_chan) q then Ret None else allocation_get_ch_info_by_peer_addr ex_bound q) /\
    (forall q, allocation_get_permission a' q = allocation_get_permission ex_bound q).
Proof.
  apply (channel_delete_unbinds ex_bound 1 ex_chan).
  - apply ex_bound_ok.
  - vm_compute. reflexivity.
  - vm_compute. reflexivity.
Defined.

