(* ===== verification/NetBuffer.v ===== *)
(** Network buffers and the cluster header:
    the network buffer functions of
    src/coturn/src/apps/relay/ns_ioalib_engine_impl.c, [stun_buffer] of
    src/coturn/src/apps/common/stun_buffer.h and
    src/coturn/src/server/stun_custom_header.h.

    The first fourteen bytes of a datagram between the servers of the cluster
    and their proxies are a header of its own; [ioa_network_buffer_data] skips
    them, [ioa_network_buffer_data_origin] does not. *)

From stdpp Require Import base option numbers list.
From S2P Require Import Prelude IoAddr StunDefs StunMsg.

(** * Buffers *)
Definition STUN_BUFFER_SIZE : Z := MAX_STUN_MESSAGE_SIZE.
Definition UDP_STUN_BUFFER_SIZE : Z := Z.shiftl 1024 4.
Definition STUN_CUSTOM_HEADER_LEN : Z := 14.

(** The arrays [channel] (4 bytes) and [buf] are adjacent members of bytes:
    [sb_mem] is both, [buf] begins at index 4.  A pointer into the buffer is an
    index of [sb_mem]. *)
Record stun_buffer : Type := StunBuffer {
  sb_mem : list Z;
  sb_len : Z;
  sb_offset : Z;
  sb_coffset : Z }.

Definition with_mem (nbh : stun_buffer) (m : list Z) : stun_buffer :=
  StunBuffer m (sb_len nbh) (sb_offset nbh) (sb_coffset nbh).

Definition ioa_network_buffer_allocate : stun_buffer :=
  StunBuffer (zeros (Z.to_nat (STUN_CHANNEL_HEADER_LENGTH + STUN_BUFFER_SIZE))) 0 0 0.

Definition ioa_network_buffer_data (nbh : stun_buffer) : Z :=
  STUN_CHANNEL_HEADER_LENGTH + sb_offset nbh - sb_coffset nbh + STUN_CUSTOM_HEADER_LEN.

Definition ioa_network_buffer_get_size (nbh : stun_buffer) : Z := u64 (sb_len nbh - STUN_CUSTOM_HEADER_LEN).

Definition ioa_network_buffer_data_origin (nbh : stun_buffer) : Z :=
  STUN_CHANNEL_HEADER_LENGTH + sb_offset nbh - sb_coffset nbh.

Definition ioa_network_buffer_get_size_origin (nbh : stun_buffer) : Z := sb_len nbh.

Definition ioa_network_buffer_get_capacity (nbh : stun_buffer) : Z :=
  if sb_offset nbh <? STUN_BUFFER_SIZE then STUN_BUFFER_SIZE - sb_offset nbh else 0.

Definition ioa_network_buffer_get_capacity_udp : Z := UDP_STUN_BUFFER_SIZE.

Definition ioa_network_buffer_set_size (nbh : stun_buffer) (len : Z) : stun_buffer :=
  StunBuffer (sb_mem nbh) len (sb_offset nbh) (sb_coffset nbh).

Definition ioa_network_buffer_add_offset_size (nbh : stun_buffer) (offset coffset len : Z) : stun_buffer :=
  let o := u16 (sb_offset nbh + offset) in
  let c := u8 (sb_coffset nbh + coffset) in
  if (u64 (o + len - c) >=? STUN_BUFFER_SIZE) || (o + STUN_CHANNEL_HEADER_LENGTH <? c)
  then StunBuffer (sb_mem nbh) 0 0 0
  else StunBuffer (sb_mem nbh) len o c.

Definition ioa_network_buffer_get_offset (nbh : stun_buffer) : Z := sb_offset nbh.
Definition ioa_network_buffer_get_coffset (nbh : stun_buffer) : Z := sb_coffset nbh.

(** The bytes from a pointer on, and what they become. *)
Definition nb_from (nbh : stun_buffer) (p : Z) : outcome (list Z) :=
  if (0 <=? p) && (p <=? blen (sb_mem nbh)) then Ret (drop (Z.to_nat p) (sb_mem nbh)) else UB.

Definition nb_put (nbh : stun_buffer) (p : Z) (l : list Z) : stun_buffer :=
  with_mem nbh (take (Z.to_nat p) (sb_mem nbh) ++ l).

(** ** memcpy

    The standard leaves copies between overlapping objects undefined.
    [overlapping] is what the platform does: [strict] follows the standard,
    [moving] is a memcpy that behaves as memmove. *)
Class Memcpy : Type := { overlapping : list Z -> Z -> Z -> Z -> outcome (list Z) }.

Definition memmove (mem : list Z) (dst src n : Z) : outcome (list Z) :=
  v ← rd_bytes mem src n;
  wr_bytes mem dst v.

Definition strict : Memcpy := {| overlapping := fun _ _ _ _ => UB |}.
Definition moving : Memcpy := {| overlapping := memmove |}.

Definition memcpy `{Memcpy} (mem : list Z) (dst src n : Z) : outcome (list Z) :=
  if (n =? 0) || (dst + n <=? src) || (src + n <=? dst) then memmove mem dst src n
  else overlapping mem dst src n.

(** * The cluster header

    The bit-fields of [struct custom_header] lie next to each other in the
    fourteen bytes of the union; the fields are kept as the bytes in memory,
    [htons] of a constant is the constant in network order. *)
Record stun_custom_header : Type := CustomHeader {
  identifier : list Z;
  srcIp : list Z;
  srcPort : list Z;
  dstIp : list Z;
  dstPort : list Z }.

Definition STUN_CUSTOM_IDENTIFIER : list Z := to_be 2 0x8000.
Definition STUN_CUSTOM_DATA_IDENTIFIER : list Z := to_be 2 0x8001.
Definition STUN_CUSTOM_RELEASE_IDENTIFIER : list Z := to_be 2 0x8002.

(** [htonl] and [htons] of a field on a little-endian host. *)
Definition hton (field : list Z) : list Z := rev field.

Definition header_bytes (h : stun_custom_header) : list Z :=
  identifier h ++ srcIp h ++ srcPort h ++ dstIp h ++ dstPort h.

Definition header_of (l : list Z) : stun_custom_header :=
  CustomHeader (slice l 0 2) (slice l 2 4) (slice l 6 2) (slice l 8 4) (slice l 12 2).

Definition rd_header (nbh : stun_buffer) : outcome stun_custom_header :=
  header_of <$> rd_bytes (sb_mem nbh) (ioa_network_buffer_data_origin nbh) STUN_CUSTOM_HEADER_LEN.

Definition wr_header (nbh : stun_buffer) (h : stun_custom_header) : outcome stun_buffer :=
  with_mem nbh <$> wr_bytes (sb_mem nbh) (ioa_network_buffer_data_origin nbh) (header_bytes h).
