(* ===== verification/Sockets.v ===== *)
(** Sockets of the relay engine and sending a network buffer:
    src/coturn/src/apps/relay/ns_ioalib_engine_impl.c, ns_ioalib_impl.h and
    src/coturn/src/apps/common/apputils.c.

    Handles are integers, 0 for NULL; the engine's sockets are a finite map from
    handles, and a handle that is not in it is a dangling pointer.  The answers
    of libevent, OpenSSL and the kernel are arguments. *)

From stdpp Require Import base option numbers list gmap.
From S2P Require Import Prelude IoAddr StunDefs StunMsg NetBuffer.

Definition UNKNOWN_SOCKET : Z := 0.
Definition TCP_SOCKET : Z := 6.
Definition UDP_SOCKET : Z := 17.
Definition TLS_SOCKET : Z := 56.
Definition SCTP_SOCKET : Z := 132.
Definition TLS_SCTP_SOCKET : Z := 133.
Definition DTLS_SOCKET : Z := 250.
Definition TCP_SOCKET_PROXY : Z := 253.
Definition TENTATIVE_SCTP_SOCKET : Z := 254.
Definition TENTATIVE_TCP_SOCKET : Z := 255.

Definition CLIENT_SOCKET : Z := 1.
Definition HTTP_CLIENT_SOCKET : Z := 2.
Definition HTTPS_CLIENT_SOCKET : Z := 3.
Definition RELAY_SOCKET : Z := 4.
Definition RELAY_RTCP_SOCKET : Z := 5.

Definition is_stream_socket (st : Z) : bool :=
  bool_decide (st ∈ [TCP_SOCKET; TCP_SOCKET_PROXY; TLS_SOCKET; TENTATIVE_TCP_SOCKET; SCTP_SOCKET; TLS_SCTP_SOCKET;
                     TENTATIVE_SCTP_SOCKET]).

Record traffic_bytes : Type := TrafficBytes { jiffie_bytes_read : Z; jiffie_bytes_write : Z }.

(** [bev], [ssl], [s_e] and [read_event] tell whether the pointer is set,
    [magic_ok] whether the magic number is right. *)
Record ioa_socket : Type := IoaSocket {
  fd : Z;
  parent_s : Z;
  magic_ok : bool;
  bev : bool;
  s_family : Z;
  st : Z;
  sat : Z;
  ssl : bool;
  local_addr : ioa_addr;
  connected : bool;
  remote_addr : ioa_addr;
  s_e : bool;
  done : bool;
  s_session : Z;
  current_df_relay_flag : Z;
  do_not_use_df : bool;
  tobeclosed : bool;
  broken : bool;
  default_ttl : Z;
  current_ttl : Z;
  default_tos : Z;
  current_tos : Z;
  s_jiffie : Z;
  data_traffic : traffic_bytes;
  control_traffic : traffic_bytes;
  bound : bool;
  local_addr_known : bool;
  read_event : bool }.

Abbreviation sockets := (gmap Z ioa_socket).

Definition get_sock (socks : sockets) (s : Z) : outcome ioa_socket :=
  if s =? 0 then UB else match socks !! s with Some k => Ret k | None => UB end.

(** ** Record updates *)
Definition set_remote_addr (k : ioa_socket) (a : ioa_addr) : ioa_socket :=
  IoaSocket (fd k) (parent_s k) (magic_ok k) (bev k) (s_family k) (st k) (sat k) (ssl k) (local_addr k) (connected k)
    a (s_e k) (done k) (s_session k) (current_df_relay_flag k) (do_not_use_df k) (tobeclosed k) (broken k)
    (default_ttl k) (current_ttl k) (default_tos k) (current_tos k) (s_jiffie k) (data_traffic k) (control_traffic k)
    (bound k) (local_addr_known k) (read_event k).

Definition set_session (k : ioa_socket) (ss : Z) : ioa_socket :=
  IoaSocket (fd k) (parent_s k) (magic_ok k) (bev k) (s_family k) (st k) (sat k) (ssl k) (local_addr k) (connected k)
    (remote_addr k) (s_e k) (done k) ss (current_df_relay_flag k) (do_not_use_df k) (tobeclosed k) (broken k)
    (default_ttl k) (current_ttl k) (default_tos k) (current_tos k) (s_jiffie k) (data_traffic k) (control_traffic k)
    (bound k) (local_addr_known k) (read_event k).

Definition set_df (k : ioa_socket) (df : Z) (no_df : bool) : ioa_socket :=
  IoaSocket (fd k) (parent_s k) (magic_ok k) (bev k) (s_family k) (st k) (sat k) (ssl k) (local_addr k) (connected k)
    (remote_addr k) (s_e k) (done k) (s_session k) df no_df (tobeclosed k) (broken k)
    (default_ttl k) (current_ttl k) (default_tos k) (current_tos k) (s_jiffie k) (data_traffic k) (control_traffic k)
    (bound k) (local_addr_known k) (read_event k).

Definition set_closing (k : ioa_socket) (tbc brk : bool) : ioa_socket :=
  IoaSocket (fd k) (parent_s k) (magic_ok k) (bev k) (s_family k) (st k) (sat k) (ssl k) (local_addr k) (connected k)
    (remote_addr k) (s_e k) (done k) (s_session k) (current_df_relay_flag k) (do_not_use_df k) tbc brk
    (default_ttl k) (current_ttl k) (default_tos k) (current_tos k) (s_jiffie k) (data_traffic k) (control_traffic k)
    (bound k) (local_addr_known k) (read_event k).

Definition set_ttl_tos (k : ioa_socket) (ttl tos : Z) : ioa_socket :=
  IoaSocket (fd k) (parent_s k) (magic_ok k) (bev k) (s_family k) (st k) (sat k) (ssl k) (local_addr k) (connected k)
    (remote_addr k) (s_e k) (done k) (s_session k) (current_df_relay_flag k) (do_not_use_df k) (tobeclosed k) (broken k)
    (default_ttl k) ttl (default_tos k) tos (s_jiffie k) (data_traffic k) (control_traffic k)
    (bound k) (local_addr_known k) (read_event k).

Definition set_traffic (k : ioa_socket) (j : Z) (data control : traffic_bytes) : ioa_socket :=
  IoaSocket (fd k) (parent_s k) (magic_ok k) (bev k) (s_family k) (st k) (sat k) (ssl k) (local_addr k) (connected k)
    (remote_addr k) (s_e k) (done k) (s_session k) (current_df_relay_flag k) (do_not_use_df k) (tobeclosed k) (broken k)
    (default_ttl k) (current_ttl k) (default_tos k) (current_tos k) j data control
    (bound k) (local_addr_known k) (read_event k).

(** * Socket properties *)
Definition get_ioa_socket_type (socks : sockets) (s : Z) : outcome Z :=
  if s =? 0 then Ret UNKNOWN_SOCKET else st <$> get_sock socks s.

(** The family of the parent for a child socket. *)
Definition get_ioa_socket_address_family (socks : sockets) (s : Z) : outcome Z :=
  if s =? 0 then Ret AF_INET else
  k ← get_sock socks s;
  if negb (magic_ok k) || done k then Ret AF_INET
  else if negb (parent_s k =? 0) && negb (s =? parent_s k) then
    p ← get_sock socks (parent_s k);
    if negb (magic_ok p) || done p then Ret AF_INET else Ret (s_family p)
  else Ret (s_family k).

Definition set_df_on_ioa_socket (socks : sockets) (s value : Z) : outcome sockets :=
  if s =? 0 then Ret socks else
  k ← get_sock socks s;
  if negb (parent_s k =? 0) then Ret socks
  else
    let value := if do_not_use_df k then 0 else value in
    if current_df_relay_flag k =? value then Ret socks
    else Ret (<[s := set_df k value (do_not_use_df k)]> socks).

(** * The engine around a send

    [ssl_shutdown], [writeable], [bev_write], [ssl_sent] and [udp_sent] are the
    answers of SSL_get_shutdown, of the write watermark, of bufferevent_write
    and of the send loops; [session_bps] is the [bps] of a session. *)
Record engine : Type := Engine {
  jiffie : Z;
  session_bps : Z -> Z;
  tcp_congestion_control : bool;
  ssl_shutdown : bool;
  writeable : bool;
  bev_write : Z;
  ssl_sent : Z;
  udp_sent : Z }.

Inductive wire : Type :=
| UdpOut (s : Z) (dest : option ioa_addr) (df ttl tos : Z) (bytes : list Z)
| StreamOut (s : Z) (bytes : list Z)
| SslOut (s : Z) (bytes : list Z)
| SslQueued (s : Z) (bytes : list Z).

Definition ioa_socket_tobeclosed (e : engine) (k : ioa_socket) : bool * ioa_socket :=
  if negb (magic_ok k) then (true, k)
  else if done k then (true, k)
  else if tobeclosed k then (true, k)
  else if broken k then (true, set_closing k true (broken k))
  else if fd k <? 0 then (true, set_closing k true (broken k))
  else if ssl k && ssl_shutdown e then (true, set_closing k true (broken k))
  else (false, k).

Definition CORRECT_RAW_TTL (ttl : Z) : Z := if (ttl <? 0) || (255 <? ttl) then 64 else ttl.
Definition CORRECT_RAW_TOS (tos : Z) : Z := if (tos <? 0) || (255 <? tos) then 0 else tos.

Definition set_socket_ttl (k : ioa_socket) (ttl : Z) : ioa_socket :=
  if default_ttl k <? 0 then k
  else
    let ttl := CORRECT_RAW_TTL (if ttl <? 0 then default_ttl k else ttl) in
    let ttl := if default_ttl k <? ttl then default_ttl k else ttl in
    set_ttl_tos k ttl (current_tos k).

Definition set_socket_tos (k : ioa_socket) (tos : Z) : ioa_socket :=
  if default_tos k <? 0 then k
  else
    let tos := CORRECT_RAW_TOS (if tos <? 0 then default_tos k else tos) in
    set_ttl_tos k (current_ttl k) tos.

(** The byte budget of a second.  The budget that is charged is the one of
    control messages for a client's TURN requests, the one of data otherwise;
    a new second clears the charged budget only. *)
Definition ioa_socket_check_bandwidth (e : engine) (k : ioa_socket) (nbh : stun_buffer) (read : bool) :
    outcome (bool * ioa_socket) :=
  if s_e k && ((sat k =? CLIENT_SOCKET) || (sat k =? RELAY_SOCKET) || (sat k =? RELAY_RTCP_SOCKET))
     && truthy (s_session k) then
    let sz := ioa_network_buffer_get_size nbh in
    let max_bps := session_bps e (s_session k) in
    if max_bps <? 1 then Ret (true, k)
    else
      control ← (if sat k =? CLIENT_SOCKET then
                   buf ← nb_from nbh (ioa_network_buffer_data nbh);
                   cmd ← stun_is_command_message_str (Some buf) sz;
                   if (cmd : bool) then
                     m ← stun_get_method_str (Some buf) sz;
                     Ret (negb (m =? STUN_METHOD_SEND) && negb (m =? STUN_METHOD_DATA))
                   else Ret false
                 else Ret false);
      let t := if (control : bool) then control_traffic k else data_traffic k in
      let store t j := if (control : bool) then set_traffic k j (data_traffic k) t
                       else set_traffic k j t (control_traffic k) in
      if negb (s_jiffie k =? jiffie e) then
        if max_bps <? sz then Ret (false, store (TrafficBytes 0 0) (jiffie e))
        else Ret (true, store (if read then TrafficBytes sz 0 else TrafficBytes 0 sz) (jiffie e))
      else
        let nsz := u64 ((if read then jiffie_bytes_read t else jiffie_bytes_write t) + sz) in
        if max_bps <? nsz then Ret (false, k)
        else Ret (true, store (if read then TrafficBytes nsz (jiffie_bytes_write t)
                               else TrafficBytes (jiffie_bytes_read t) nsz) (s_jiffie k))
  else Ret (true, k).

(** The port the proxy of the host listens on: [sin_port = 44070] in host
    order. *)
Definition proxy_port : list Z := to_le 2 44070.

(** [send_data_from_ioa_socket_nbh]: the returned value, the new sockets and
    what leaves the process.  [*skip] only concerns the statistics. *)
Definition send_data_from_ioa_socket_nbh (e : engine) (socks : sockets) (s : Z) (dest_addr : option ioa_addr)
    (nbh : stun_buffer) (ttl tos : Z) : outcome (Z * sockets * list wire) :=
  if s =? 0 then Ret (-1, socks, []) else
  k ← get_sock socks s;
  if done k || (fd k =? -1) then Ret (-1, socks, [])
  else
    '(ok, k) ← ioa_socket_check_bandwidth e k nbh false;
    if negb ok then Ret (i32 (ioa_network_buffer_get_size nbh), <[s := k]> socks, [])
    else
      let '(tbc, k) := ioa_socket_tobeclosed e k in
      if tbc || negb (s_e k) then Ret (-1, <[s := k]> socks, [])
      else
        let k := set_socket_tos (set_socket_ttl k ttl) tos in
        let size := ioa_network_buffer_get_size nbh in
        if connected k && bev k then
          if ((st k =? TLS_SOCKET) || (st k =? TLS_SCTP_SOCKET)) && ssl_shutdown e then
            Ret (0, <[s := set_closing k true (broken k)]> socks, [])
          else if negb (tcp_congestion_control e) || writeable e then
            bytes ← rd_bytes (sb_mem nbh) (ioa_network_buffer_data nbh) size;
            if bev_write e <? 0 then Ret (-1, <[s := set_closing k true true]> socks, [])
            else Ret (i32 size, <[s := k]> socks, [StreamOut s bytes])
          else Ret (i32 size, <[s := k]> socks, [])
        else if ssl k then
          bytes ← rd_bytes (sb_mem nbh) (ioa_network_buffer_data nbh) size;
          if ssl_sent e <? 0 then Ret (ssl_sent e, <[s := set_closing k true (broken k)]> socks, [])
          else if ssl_sent e =? 0 then Ret (0, <[s := k]> socks, [SslQueued s bytes])
          else Ret (ssl_sent e, <[s := k]> socks, [SslOut s bytes])
        else
          let '(dest, k) :=
            if connected k && (parent_s k =? 0) then (None, k)
            else match dest_addr with
                 | Some a => (Some a, k)
                 | None =>
                     let a := set_sin_addr (set_port_bytes (set_family (remote_addr k) AF_INET) proxy_port)
                                (sin_addr (local_addr k)) in
                     (Some a, set_remote_addr k a)
                 end in
          bytes ← rd_bytes (sb_mem nbh) (ioa_network_buffer_data_origin nbh)
                    (i32 (u64 (ioa_network_buffer_get_size_origin nbh + STUN_CUSTOM_HEADER_LEN)));
          let out := UdpOut s dest (current_df_relay_flag k) (current_ttl k) (current_tos k) bytes in
          if udp_sent e <? 0 then Ret (udp_sent e, <[s := set_closing k true (broken k)]> socks, [out])
          else Ret (udp_sent e, <[s := k]> socks, [out]).
