(* ===== verification/RelayEngine.v ===== *)
(** Relay sockets: the part of src/coturn/src/apps/relay/ns_ioalib_engine_impl.c
    that creates and closes them, and the map of reserved RTCP sockets
    (src/coturn/src/server/ns_turn_maps_rtcp.c).

    A relay socket takes its port from the pools of [TurnPorts]; closing the
    socket gives it back and frees the structure, so that a handle used
    afterwards is dangling.  What the kernel answers is the class [Kernel], with
    an abstract state; the list of interfaces of the host and the clock are
    arguments.  The map the reservations are kept in, [ur_map], is used through
    its interface, the class [UrMap].  Event registrations are a flag; the maps
    in which a listener finds the sockets of its clients are left out. *)

From stdpp Require Import base option numbers list strings gmap.
From S2P Require Import Prelude IoAddr StunDefs KeyMap TurnMaps TurnPorts Timers Sockets.

(** ** The kernel

    [k_socket] gives the descriptor, negative for failure; [k_bind] tells
    whether the address could be bound, [k_name] is getsockname, [k_ttl] and
    [k_tos] read the options of a socket, [k_random] gives random numbers. *)
Class Kernel (K : Type) : Type := {
  k_socket : K -> Z -> Z -> Z * K;
  k_bind : K -> Z -> ioa_addr -> bool -> bool * K;
  k_name : K -> Z -> option ioa_addr;
  k_ttl : K -> Z -> Z -> Z;
  k_tos : K -> Z -> Z -> Z;
  k_random : K -> (nat -> Z * Z) * K }.

(** ** Reservations *)
Record rtcp_alloc_type : Type := RtcpAlloc { rt_s : Z; rt_t : Z; rt_token : Z }.

Definition RTCP_TIMEOUT : Z := 300.
Definition MAX_TOKEN_DEL : nat := 1024.

(** [um_cells] is the order in which [ur_map_foreach_arg] visits the entries. *)
Class UrMap (U : Type) : Type := {
  um_store :: KVStore Z rtcp_alloc_type U;
  um_cells : U -> list (Z * rtcp_alloc_type) }.

(** ** State *)

(** The engine with its sockets; [rn_tp] is the port allocator that all engines
    share. *)
Record relay_net (K U : Type) : Type := RelayNet {
  rn_socks : sockets;
  rn_tp : turnipports;
  relay_addrs : list ioa_addr;
  relay_addr_counter : Z;
  map_rtcp : U;
  rn_kernel : K }.
Arguments RelayNet {K U}.
Arguments rn_socks {K U}.
Arguments rn_tp {K U}.
Arguments relay_addrs {K U}.
Arguments relay_addr_counter {K U}.
Arguments map_rtcp {K U}.
Arguments rn_kernel {K U}.

Definition set_port_known (k : ioa_socket) (a : ioa_addr) (bnd known : bool) : ioa_socket :=
  IoaSocket (fd k) (parent_s k) (magic_ok k) (bev k) (s_family k) (st k) (sat k) (ssl k) a (connected k)
    (remote_addr k) (s_e k) (done k) (s_session k) (current_df_relay_flag k) (do_not_use_df k) (tobeclosed k) (broken k)
    (default_ttl k) (current_ttl k) (default_tos k) (current_tos k) (s_jiffie k) (data_traffic k) (control_traffic k)
    bnd known (read_event k).

Definition set_reading (k : ioa_socket) : ioa_socket :=
  IoaSocket (fd k) (parent_s k) (magic_ok k) (bev k) (s_family k) (st k) (sat k) (ssl k) (local_addr k) (connected k)
    (remote_addr k) true (done k) (s_session k) (current_df_relay_flag k) (do_not_use_df k) (tobeclosed k) (broken k)
    (default_ttl k) (current_ttl k) (default_tos k) (current_tos k) (s_jiffie k) (data_traffic k) (control_traffic k)
    (bound k) (local_addr_known k) true.

Section relay.
Context {K U : Type} {KN : Kernel K} {UM : UrMap U} {M : Malloc}.
Abbreviation net := (relay_net K U).

Definition net_socks (n : net) (m : sockets) : net :=
  RelayNet m (rn_tp n) (relay_addrs n) (relay_addr_counter n) (map_rtcp n) (rn_kernel n).
Definition net_tp (n : net) (tp : turnipports) : net :=
  RelayNet (rn_socks n) tp (relay_addrs n) (relay_addr_counter n) (map_rtcp n) (rn_kernel n).
Definition net_relays (n : net) (l : list ioa_addr) (c : Z) : net :=
  RelayNet (rn_socks n) (rn_tp n) l c (map_rtcp n) (rn_kernel n).
Definition net_rtcp (n : net) (u : U) : net :=
  RelayNet (rn_socks n) (rn_tp n) (relay_addrs n) (relay_addr_counter n) u (rn_kernel n).
Definition net_kernel (n : net) (k : K) : net :=
  RelayNet (rn_socks n) (rn_tp n) (relay_addrs n) (relay_addr_counter n) (map_rtcp n) k.

Definition put_sock (n : net) (s : Z) (k : ioa_socket) : net := net_socks n (<[s := k]> (rn_socks n)).

(** ** Closing *)
Definition is_relay_sock (k : ioa_socket) : bool := (sat k =? RELAY_SOCKET) || (sat k =? RELAY_RTCP_SOCKET).

Definition sock_transport (k : ioa_socket) : Z :=
  if st k =? TCP_SOCKET then STUN_ATTRIBUTE_TRANSPORT_TCP_VALUE else STUN_ATTRIBUTE_TRANSPORT_UDP_VALUE.

Definition close_ioa_socket (n : net) (s : Z) : outcome net :=
  if s =? 0 then Ret n else
  k ← get_sock (rn_socks n) s;
  if negb (magic_ok k) || done k then Ret n else
  tp ← (if bound k && s_e k && is_relay_sock k then turnipports_release (rn_tp n) (sock_transport k) (local_addr k)
        else Ret (rn_tp n));
  Ret (net_tp (net_socks n (delete s (rn_socks n))) tp).

(** The field that held the handle is reset by the caller. *)
Definition IOA_CLOSE_SOCKET (n : net) (s : Z) : outcome net := close_ioa_socket n s.

(** ** Addresses of a socket *)

(** The parent of a client socket has the address. *)
Definition get_local_addr_from_ioa_socket (n : net) (s : Z) : outcome (option ioa_addr * net) :=
  if s =? 0 then Ret (None, n) else
  k ← get_sock (rn_socks n) s;
  if negb (magic_ok k) || done k then Ret (None, n) else
  let s := if parent_s k =? 0 then s else parent_s k in
  k ← get_sock (rn_socks n) s;
  if local_addr_known k then Ret (Some (local_addr k), n)
  else if bound k && (0 <? get_port (local_addr k)) then
    Ret (Some (local_addr k), put_sock n s (set_port_known k (local_addr k) (bound k) true))
  else
    match (if fd k <? 0 then None else k_name (rn_kernel n) (fd k)) with
    | None => Ret (None, n)
    | Some tmpaddr =>
        let any := addr_any (Some (local_addr k)) in
        if 0 <? get_port tmpaddr then
          let a := if any then tmpaddr else set_port (local_addr k) (get_port tmpaddr) in
          Ret (Some a, put_sock n s (set_port_known k a true true))
        else
          let a := if any then tmpaddr else local_addr k in
          Ret (Some a, put_sock n s (set_port_known k a (bound k) (local_addr_known k)))
    end.

Definition get_remote_addr_from_ioa_socket (m : sockets) (s : Z) : outcome (option ioa_addr) :=
  if s =? 0 then Ret None else
  k ← get_sock m s;
  if negb (magic_ok k) || done k then Ret None
  else if connected k then Ret (Some (remote_addr k)) else Ret None.

Definition set_ioa_socket_session (n : net) (s ss : Z) : outcome net :=
  if s =? 0 then Ret n else k ← get_sock (rn_socks n) s; Ret (put_sock n s (set_session k ss)).

Definition clear_ioa_socket_session_if (n : net) (s ss : Z) : outcome net :=
  if s =? 0 then Ret n else
  k ← get_sock (rn_socks n) s;
  if s_session k =? ss then Ret (put_sock n s (set_session k 0)) else Ret n.

(** [s] is not NULL where it is called. *)
Definition set_do_not_use_df (n : net) (s : Z) : outcome net :=
  k ← get_sock (rn_socks n) s;
  if parent_s k =? 0 then Ret (put_sock n s (set_df k 1 true)) else Ret n.

(** Registering a reader, without [clean_preexisting], for the UDP sockets it is
    used with here: the returned code. *)
Definition register_callback_on_ioa_socket (n : net) (s : Z) : outcome (Z * net) :=
  k ← get_sock (rn_socks n) s;
  if parent_s k =? 0 then
    if read_event k then Ret (-1, n) else Ret (0, put_sock n s (set_reading k))
  else Ret (0, n).

(** ** Creating *)

(** [set_socket_options_fd] and the buffer sizes only change the kernel's
    options. *)
Definition create_unbound_relay_ioa_socket (n : net) (family stype sapp : Z) : Z * net :=
  if (stype =? UDP_SOCKET) || (stype =? TCP_SOCKET) then
    let '(fd, kn) := k_socket (rn_kernel n) family stype in
    let n := net_kernel n kn in
    if fd <? 0 then (0, n)
    else
      let ttl := k_ttl kn fd family in
      let tos := k_tos kn fd family in
      let s := malloc (elements (dom (rn_socks n))) in
      (s, put_sock n s (IoaSocket fd 0 true false family stype sapp false addr_zero false addr_zero true false 0 0 false
                          false false ttl ttl tos tos 0 (TrafficBytes 0 0) (TrafficBytes 0 0) false false false))
  else (0, n).

Definition addr_bind (n : net) (fd : Z) (a : ioa_addr) (reusable : bool) : bool * net :=
  if fd <? 0 then (false, n)
  else if (sa_family a =? AF_INET) || (sa_family a =? AF_INET6) then
    let '(ok, kn) := k_bind (rn_kernel n) fd a reusable in (ok, net_kernel n kn)
  else (false, n).

(** [tmpaddr] is not initialised when [getsockname] fails. *)
Definition bind_ioa_socket (n : net) (s : Z) (a : ioa_addr) (reusable : bool) : outcome (Z * net) :=
  if s =? 0 then Ret (0, n) else
  k ← get_sock (rn_socks n) s;
  if negb (parent_s k =? 0) then Ret (0, n) else
  if (0 <=? fd k) && s_e k then
    let '(ok, n) := addr_bind n (fd k) a reusable in
    if ok then
      a ← (if get_port a <? 1 then
             match k_name (rn_kernel n) (fd k) with
             | Some tmpaddr => Ret (if addr_any (Some a) then tmpaddr else set_port a (get_port tmpaddr))
             | None => UB
             end
           else Ret a);
      Ret (0, put_sock n s (set_port_known k a true true))
    else Ret (-1, n)
  else Ret (-1, n).

(** [local_relay] is [get_a_local_relay]: the address it stores for a family. *)
Context (default_relays : bool) (local_relay : Z -> option ioa_addr).

Definition wanted_family (address_family : Z) : Z :=
  if address_family =? STUN_ATTRIBUTE_REQUESTED_ADDRESS_FAMILY_VALUE_IPV6 then AF_INET6 else AF_INET.

Definition relay_fits (address_family : Z) (a : ioa_addr) : bool :=
  if (address_family =? STUN_ATTRIBUTE_REQUESTED_ADDRESS_FAMILY_VALUE_DEFAULT) ||
     (address_family =? STUN_ATTRIBUTE_REQUESTED_ADDRESS_FAMILY_VALUE_IPV4) then sa_family a =? AF_INET
  else if address_family =? STUN_ATTRIBUTE_REQUESTED_ADDRESS_FAMILY_VALUE_IPV6 then sa_family a =? AF_INET6
  else false.

(** The address at the counter, after the lookup of a local one for an address
    that is not set. *)
Definition next_relay (n : net) (address_family : Z) : outcome (ioa_addr * net) :=
  let c := if relay_addr_counter n >=? blen (relay_addrs n) then 0 else relay_addr_counter n in
  a ← at_index (relay_addrs n) (Z.to_nat c);
  let a := if addr_any_no_port (Some a) then default a (local_relay (wanted_family address_family)) else a in
  Ret (a, net_relays n (<[Z.to_nat c := a]> (relay_addrs n)) (c + 1)).

(** The loop over the relay addresses. *)
Fixpoint find_relay (i : nat) (n : net) (address_family : Z) : outcome (option ioa_addr * net) :=
  match i with
  | O => Ret (None, n)
  | S i =>
      '(a, n) ← next_relay n address_family;
      if relay_fits address_family a then Ret (Some a, n) else find_relay i n address_family
  end.

(** The address, [*err_code] and the state. *)
Definition ioa_engine_get_relay_addr (n : net) (client_s address_family : Z) (err : Z) :
    outcome (option ioa_addr * Z * net) :=
  '(client_addr, n) ← (if default_relays then get_local_addr_from_ioa_socket n client_s else Ret (None, n));
  let fits a := if address_family =? STUN_ATTRIBUTE_REQUESTED_ADDRESS_FAMILY_VALUE_IPV4 then sa_family a =? AF_INET
                else if address_family =? STUN_ATTRIBUTE_REQUESTED_ADDRESS_FAMILY_VALUE_IPV6 then sa_family a =? AF_INET6
                else true in
  match (match client_addr with Some a => if fits a then Some a else None | None => None end) with
  | Some a => Ret (Some a, err, n)
  | None =>
      if 0 <? blen (relay_addrs n) then
        '(found, n) ← find_relay (length (relay_addrs n)) n address_family;
        match found with
        | Some a => Ret (Some a, err, n)
        | None =>
            if address_family =? STUN_ATTRIBUTE_REQUESTED_ADDRESS_FAMILY_VALUE_DEFAULT then
              let c := if relay_addr_counter n >=? blen (relay_addrs n) then 0 else relay_addr_counter n in
              a ← at_index (relay_addrs n) (Z.to_nat c);
              Ret (Some a, err, net_relays n (relay_addrs n) (c + 1))
            else Ret (None, 440, n)
        end
      else Ret (None, err, n)
  end.

(** ** A relay socket, and an RTCP socket on the port above it *)

(** [*rtp_s], [*rtcp_s] and [*out_reservation_token]. *)
Record creating : Type := Creating { cr_net : net; rtp_s : Z; rtcp_s : Z; out_token : Z }.

Inductive loop_exit : Type := Again | Break | Return.

Context (transport : Z) (even_port : Z).

Definition is_tcp_transport : bool := transport =? STUN_ATTRIBUTE_TRANSPORT_TCP_VALUE.

Definition release_port (n : net) (a : ioa_addr) (port : Z) : outcome net :=
  tp ← turnipports_release (rn_tp n) transport (set_port a port);
  Ret (net_tp n tp).

(** What becomes of the ports when the relay socket could not be made: the RTCP
    socket is closed, which gives its port back when it is bound. *)
Definition give_back (c : creating) (a : ioa_addr) (port rtcp_port : Z) : outcome creating :=
  rtcp_bound ← (if rtcp_s c =? 0 then Ret false else k ← get_sock (rn_socks (cr_net c)) (rtcp_s c); Ret (bound k));
  n ← IOA_CLOSE_SOCKET (cr_net c) (rtcp_s c);
  n ← release_port n a port;
  n ← (if (0 <=? rtcp_port) && negb rtcp_bound then release_port n a rtcp_port else Ret n);
  Ret (Creating n 0 0 (out_token c)).

Definition make_rtp (c : creating) (a : ioa_addr) (port rtcp_port : Z) : outcome (loop_exit * creating) :=
  n ← IOA_CLOSE_SOCKET (cr_net c) (rtp_s c);
  let '(s, n) := create_unbound_relay_ioa_socket n (sa_family a) (if is_tcp_transport then TCP_SOCKET else UDP_SOCKET) RELAY_SOCKET in
  if s =? 0 then
    c ← give_back (Creating n 0 (rtcp_s c) (out_token c)) a port rtcp_port;
    Ret (Return, c)
  else
    '(x, n) ← bind_ioa_socket n s (set_port a port) is_tcp_transport;
    if x >=? 0 then Ret (Break, Creating n s (rtcp_s c) (out_token c))
    else
      n ← IOA_CLOSE_SOCKET n s;
      c ← give_back (Creating n 0 (rtcp_s c) (out_token c)) a port rtcp_port;
      Ret (Again, c).

(** The RTCP socket for [port], which was allocated with the port above it. *)
Definition make_rtcp (c : creating) (a : ioa_addr) (port : Z) : outcome (loop_exit * creating) :=
  n ← IOA_CLOSE_SOCKET (cr_net c) (rtcp_s c);
  let '(s, n) := create_unbound_relay_ioa_socket n (sa_family a) UDP_SOCKET RELAY_RTCP_SOCKET in
  if s =? 0 then
    n ← IOA_CLOSE_SOCKET n (rtp_s c);
    n ← release_port n a port;
    n ← release_port n a (port + 1);
    Ret (Return, Creating n 0 0 (out_token c))
  else
    '(x, n) ← bind_ioa_socket n s (set_port a (port + 1)) is_tcp_transport;
    if x <? 0 then
      n ← release_port n a port;
      n ← release_port n a (port + 1);
      n ← IOA_CLOSE_SOCKET n s;
      Ret (Again, Creating n (rtp_s c) 0 (out_token c))
    else make_rtp (Creating n (rtp_s c) s (out_token c)) a port (port + 1).

Definition no_port (c : creating) : outcome (loop_exit * creating) :=
  n ← IOA_CLOSE_SOCKET (cr_net c) (rtp_s c);
  n ← IOA_CLOSE_SOCKET n (rtcp_s c);
  Ret (Break, Creating n 0 0 (out_token c)).

(** One round: a port is taken from the pool and the sockets are made on it. *)
Definition try_port (c : creating) (a : ioa_addr) : outcome (loop_exit * creating) :=
  let n := cr_net c in
  let '(rnd, kn) := k_random (rn_kernel n) in
  let n := net_kernel n kn in
  if even_port <? 0 then
    '(port, tp) ← turnipports_allocate (rn_tp n) transport a rnd;
    let c := Creating (net_tp n tp) (rtp_s c) (rtcp_s c) (out_token c) in
    if port <? 0 then no_port c else make_rtp c a port (-1)
  else
    '(port, tp, v16) ← turnipports_allocate_even (rn_tp n) a (truthy even_port) rnd;
    let token := match v16 with
                 | Some (v0, v1) => v0 + v1 * 2 ^ 16 + u32 (rnd 0%nat).1 * 2 ^ 32
                 | None => out_token c
                 end in
    let c := Creating (net_tp n tp) (rtp_s c) (rtcp_s c) token in
    if port <? 0 then no_port c
    else if 0 <? even_port then make_rtcp c a port
    else make_rtp c a port (-1).

(** [for (i = 0; i < 0xFFFF; i++)]; when it runs out, both sockets are closed. *)
Fixpoint port_loop (i : nat) (c : creating) (a : ioa_addr) : outcome (loop_exit * creating) :=
  match i with
  | O => no_port c
  | S i =>
      '(x, c) ← try_port c a;
      match x with
      | Again => port_loop i c a
      | _ => Ret (x, c)
      end
  end.

Definition PORT_TRIES : nat := Z.to_nat 0xFFFF.

(** The loop over the relay addresses; with [err_code] 0 the address is set. *)
Fixpoint addr_loop (i : nat) (c : creating) (client_s address_family err : Z) (reason : string) :
    outcome (loop_exit * creating * Z * string) :=
  match i with
  | O => Ret (Break, c, err, reason)
  | S i =>
      '(ra, err, n) ← ioa_engine_get_relay_addr (cr_net c) client_s address_family err;
      let c := Creating n (rtp_s c) (rtcp_s c) (out_token c) in
      if truthy err then
        Ret (Return, c, err, if err =? 440 then "Unsupported address family"%string else reason)
      else
        match ra with
        | None => UB
        | Some a =>
            n ← IOA_CLOSE_SOCKET (cr_net c) (rtp_s c);
            n ← IOA_CLOSE_SOCKET n (rtcp_s c);
            '(x, c) ← port_loop PORT_TRIES (Creating n 0 0 (out_token c)) a;
            match x with
            | Return => Ret (Return, c, err, reason)
            | _ => if rtp_s c =? 0 then addr_loop i c client_s address_family err reason
                   else Ret (Break, c, err, reason)
            end
        end
  end.

Context (now : Z).

Definition rtcp_map_put (n : net) (token s : Z) : outcome net :=
  u ← kv_put (map_rtcp n) token (RtcpAlloc s (u32 (now + RTCP_TIMEOUT)) token);
  Ret (net_rtcp n u).

(** The returned code, the state, [*err_code] and [*reason].  The callback for
    accepted TCP connections is not modelled. *)
Definition create_relay_ioa_sockets (n : net) (client_s address_family token err : Z) (reason : string) :
    outcome (Z * creating * Z * string) :=
  '(x, c, err, reason) ← addr_loop (length (relay_addrs n)) (Creating n 0 0 token) client_s address_family err reason;
  match x with
  | Return => Ret (-1, c, err, reason)
  | _ =>
      if rtp_s c =? 0 then
        n ← IOA_CLOSE_SOCKET (cr_net c) (rtcp_s c);
        Ret (-1, Creating n 0 0 (out_token c), err, reason)
      else if truthy (rtcp_s c) && truthy (out_token c) then
        n ← rtcp_map_put (cr_net c) (out_token c) (rtcp_s c);
        Ret (0, Creating n (rtp_s c) (rtcp_s c) (out_token c), err, reason)
      else Ret (0, c, err, reason)
  end.

(** ** Taking and expiring reservations *)

(** The entry is removed, the socket stays open; NULL when there is none. *)
Definition rtcp_map_get (n : net) (token : Z) : outcome (Z * net) :=
  v ← kv_get (map_rtcp n) token;
  match v with
  | Some rval => u ← kv_del (map_rtcp n) token; Ret (rt_s rval, net_rtcp n u)
  | None => Ret (0, n)
  end.

(** The returned code, [*s] and the state. *)
Definition get_ioa_socket_from_reservation (n : net) (token : Z) : outcome (Z * Z * net) :=
  if truthy token then
    '(s, n) ← rtcp_map_get n token;
    Ret (if truthy s then 0 else -1, s, n)
  else Ret (-1, 0, n).

(** [ur_map_del] with [rtcp_alloc_free], which closes the socket. *)
Definition rtcp_map_del (n : net) (token : Z) : outcome net :=
  v ← kv_get (map_rtcp n) token;
  match v with
  | Some at_ =>
      n ← IOA_CLOSE_SOCKET n (rt_s at_);
      u ← kv_del (map_rtcp n) token;
      Ret (net_rtcp n u)
  | None => Ret n
  end.

(** The tokens of the reservations that are over, no more than fit the array. *)
Fixpoint timeout_check (cells : list (Z * rtcp_alloc_type)) (tokens : list Z) : outcome (list Z) :=
  match cells with
  | [] => Ret tokens
  | (key, rat) :: r =>
      over ← turn_time_before (rt_t rat) now;
      timeout_check r (if over && Nat.ltb (length tokens) MAX_TOKEN_DEL then tokens ++ [key] else tokens)
  end.

Fixpoint delete_tokens (n : net) (tokens : list Z) : outcome net :=
  match tokens with
  | [] => Ret n
  | t :: r => n ← rtcp_map_del n t; delete_tokens n r
  end.

Definition rtcp_map_timeout_handler (n : net) : outcome net :=
  tokens ← timeout_check (um_cells (map_rtcp n)) [];
  delete_tokens n tokens.
End relay.
