(* ===== verification/RelayEngineFacts.v ===== *)
(** Relay sockets and their ports: every port taken from a pool belongs to an
    open relay socket or goes back to the pool, whatever the kernel answers. *)

From stdpp Require Import base option numbers list strings gmap.
From S2P Require Import Prelude IoAddr StunDefs KeyMap TurnMaps TurnMapsFacts TurnPorts TurnPortsFacts Timers Sockets RelayEngine.

(** * The ports in use of all pools *)
Definition same_pool (tr : Z) (a : ioa_addr) (tr' : Z) (b : ioa_addr) : bool :=
  eqb (is_tcp tr) (is_tcp tr') && key_eqb (set_port a 0) (set_port b 0).

(** The states agree on every port of the range but that of one address, which
    is in use or free as [v] says. *)
Definition ports_upd (tp tp' : turnipports) (tr : Z) (a : ioa_addr) (p : Z) (v : bool) : Prop :=
  forall tr' b q, ip_start tp <= q <= ip_end tp ->
    turnipports_is_allocated tp' tr' b q =
      if same_pool tr a tr' b && (q =? p) then Ret v else turnipports_is_allocated tp tr' b q.

Definition ports_same (tp tp' : turnipports) : Prop :=
  forall tr' b q, ip_start tp <= q <= ip_end tp ->
    turnipports_is_allocated tp' tr' b q = turnipports_is_allocated tp tr' b q.

Definition same_range (tp tp' : turnipports) : Prop := ip_start tp' = ip_start tp /\ ip_end tp' = ip_end tp.

(** The counters can grow by [N] before they come near the markers. *)
Definition ip_room (tp : turnipports) (N : Z) : Prop :=
  N <= POSITION_LIMIT - 65536 /\ Forall (fun p => high p + N <= POSITION_LIMIT) (ip_heap tp).

Lemma room_less tp N N' : N' <= N -> ip_room tp N -> ip_room tp N'.
Proof. intros L [B F]. split; [lia|]. eapply Forall_impl; [exact F|]. simpl. intros. lia. Qed.

Lemma same_pool_other tr a tr' b : same_pool tr a tr' b = false -> other_pool tr a tr' b.
Proof.
  unfold same_pool, other_pool. intros H%andb_false_iff. destruct H as [H|H]; [left|by right].
  intros E. by rewrite E, eqb_reflx in H.
Qed.

Lemma addr_map_abs_cong m k k' : key_eqb k k' = true -> addr_map_abs m k = addr_map_abs m k'.
Proof.
  intros E. unfold addr_map_abs, tget. rewrite (key_hash_proper k k' E).
  destruct (_ !! _); [|done]. by apply find_key_cong.
Qed.

(** The address of a pool may be written in another way. *)
Lemma same_pool_allocated tp tr a tr' b q :
  ip_inv tp -> same_pool tr a tr' b = true -> turnipports_is_allocated tp tr' b q = turnipports_is_allocated tp tr a q.
Proof.
  intros I [E%eqb_prop K]%andb_true_iff. rewrite !is_allocated_pool by done.
  assert (pool_of tp tr' b = pool_of tp tr a) as ->; [|done].
  unfold pool_of. rewrite <- (get_map_tcp tp tr tr' E). symmetry. by apply addr_map_abs_cong.
Qed.

(** Replacing the state of one pool. *)
Lemma replace_pool tp tr a t tp1 p p' :
  ip_inv tp1 -> pool_of tp1 tr a = Some t -> deref tp1 t = Ret p -> ring_inv p' ->
  range_start p' = range_start p -> range_stop p' = range_stop p ->
  (forall tr' b q, other_pool tr a tr' b -> turnipports_is_allocated tp1 tr' b q = turnipports_is_allocated tp tr' b q) ->
  ip_inv (assign tp1 t p') /\
  forall tr' b q, turnipports_is_allocated (assign tp1 t p') tr' b q =
      if same_pool tr a tr' b then Ret (is_taken (status p' q)) else turnipports_is_allocated tp tr' b q.
Proof.
  intros I1 Pt Ed Rp R1 R2 Oth.
  destruct (assign_spec tp1 tr a t p p' I1 Pt Ed Rp R1 R2) as (I2 & Al2 & Oth2).
  split; [done|]. intros tr' b q. destruct (same_pool tr a tr' b) eqn:Es.
  - by rewrite (same_pool_allocated _ tr a tr' b q I2 Es).
  - apply same_pool_other in Es. by rewrite Oth2, Oth.
Qed.

Lemma add_room tp tr a rnd t tp1 N :
  ip_inv tp -> turnipports_add tp tr a rnd = Ret (t, tp1) -> ip_room tp N -> ip_room tp1 N.
Proof.
  intros I E [B F]. unfold turnipports_add in E.
  destruct (ur_addr_map_get (get_map tp tr) (set_port a 0)) as [[v| ]| |]; try done; [by injection E as _ <-|].
  revert E. mstep. unfold turnports_create. destruct (ii_range _ I). destruct (ip_start tp >? ip_end tp) eqn:?; [bool_arith; lia|].
  destruct (init_inv (ip_start tp) (ip_end tp) rnd) as (p & -> & _ & _ & _ & Hh & _); [lia|lia|]. mstep.
  destruct (ur_addr_map_put _ _ _) as [[x m]| |]; [|done..]. mstep. intros [= _ <-]. split; [done|].
  assert (ip_heap (set_map (set_heap tp (ip_heap tp ++ [p])) tr m) = ip_heap tp ++ [p]) as ->
    by (unfold set_map; by destruct (_ =? _)).
  apply Forall_app. split; [done|]. constructor; [lia|constructor].
Qed.

Lemma assign_room tp t p p' N N' :
  N' <= N -> ip_room tp N -> deref tp t = Ret p -> high p' + N' <= high p + N -> ip_room (assign tp t p') N'.
Proof.
  intros L [B F] Ed Hh. split; [lia|]. simpl. apply Forall_insert.
  - eapply Forall_impl; [exact F|]. simpl. intros. lia.
  - unfold deref in Ed. destruct (t =? 0); [done|]. unfold at_index in Ed.
    destruct (ip_heap tp !! _) as [p0|] eqn:El; [|done]. injection Ed as ->.
    rewrite Forall_lookup in F. specialize (F _ _ El). simpl in F. lia.
Qed.

(** Taking a port: none is left, or a free one is now in use and nothing else
    changed. *)
Lemma ip_allocate_spec tp tr a rnd N :
  ip_inv tp -> known_family a -> ip_room tp N ->
  exists r tp', turnipports_allocate tp tr a rnd = Ret (r, tp') /\ ip_inv tp' /\ ip_room tp' N /\ same_range tp tp' /\
    ((r = -1 /\ ports_same tp tp') \/
     (ip_start tp <= r <= ip_end tp /\ turnipports_is_allocated tp tr a r = Ret false /\ ports_upd tp tp' tr a r true)).
Proof.
  intros I Hf Hr. destruct (add_spec tp tr a rnd I (key_ok_no_port a Hf)) as (t & tp1 & p & E & I1 & Pt & S1 & S2 & Ed & Al & Oth).
  unfold turnipports_allocate. rewrite E. mstep. rewrite Ed. mstep.
  pose proof (add_room tp tr a rnd t tp1 N I E Hr) as Hr1.
  destruct (deref_ok tp1 tr _ t I1 Pt) as (p0 & Ed0 & _ & Rp & Rs & Re). rewrite Ed in Ed0. injection Ed0 as <-.
  assert (forall tr' b q, same_pool tr a tr' b = true -> ip_start tp <= q <= ip_end tp ->
            turnipports_is_allocated tp tr' b q = Ret (is_taken (status p q))) as Old.
  { intros tr' b q Es Hq. rewrite (same_pool_allocated tp tr a tr' b q I Es). by apply Al. }
  destruct (allocate_spec p Rp) as [[_ ->]|(r & Hrr & Hfree & Hlt & Hs & Hp & ->)]; mstep.
  - destruct (replace_pool tp tr a t tp1 p p I1 Pt Ed Rp eq_refl eq_refl Oth) as [I2 Al2].
    eexists _, _. split; [done|]. split; [done|]. split; [by eapply assign_room; [|exact Hr1|exact Ed|]|].
    split; [done|]. left. split; [done|]. intros tr' b q Hq. rewrite Al2. destruct (same_pool tr a tr' b) eqn:Es; [|done].
    by rewrite Old.
  - destruct (replace_pool tp tr a t tp1 p _ I1 Pt Ed (allocate_inv p r Rp Hrr Hlt Hs Hp) eq_refl eq_refl Oth) as [I2 Al2].
    eexists _, _. split; [done|]. split; [done|]. split; [by eapply assign_room; [|exact Hr1|exact Ed|]|].
    split; [done|]. right. unfold in_range in Hrr. split; [lia|]. split; [by rewrite Al, Hfree by lia|].
    intros tr' b q Hq. rewrite Al2. destruct (same_pool tr a tr' b) eqn:Es; [|done]. simpl.
    unfold upd. destruct (q =? r) eqn:Eq; [by bool_arith|]. by rewrite Old.
Qed.

(** Giving a port back. *)
Lemma ip_release_spec tp tr a N :
  ip_inv tp -> ip_room tp N -> 1 <= N ->
  exists tp', turnipports_release tp tr a = Ret tp' /\ ip_inv tp' /\ ip_room tp' (N - 1) /\ same_range tp tp' /\
    ports_upd tp tp' tr a (get_port a) false.
Proof.
  intros I Hr HN. unfold turnipports_release.
  pose proof (kv_get_ok (KV := addr_map_store) (get_map tp tr) (set_port a 0) (ii_map tp tr I)) as Eg.
  change (ur_addr_map_get (get_map tp tr) (set_port a 0)) with (kv_get (get_map tp tr) (set_port a 0)).
  rewrite Eg. mstep. change (kv_abs (get_map tp tr) (set_port a 0)) with (pool_of tp tr a).
  destruct (pool_of tp tr a) as [t|] eqn:Pt.
  - destruct (deref_ok tp tr _ t I Pt) as (p & Ed & El & Rp & Rs & Re). rewrite Ed. mstep.
    assert (high p + N <= POSITION_LIMIT) as Hh by (destruct Hr as [_ F]; rewrite Forall_lookup in F; exact (F _ _ El)).
    assert (high (turnports_release p (get_port a)) <= high p + 1) as Hh'.
    { unfold turnports_release. destruct (_ && _); [|lia]. destruct (is_taken _); simpl; [|lia].
      pose proof (ri_bounds _ Rp). unfold POSITION_LIMIT in *. rewrite u32_small by lia. lia. }
    assert (range_start (turnports_release p (get_port a)) = range_start p /\
            range_stop (turnports_release p (get_port a)) = range_stop p) as [R1 R2].
    { unfold turnports_release. destruct (_ && _); [|done]. by destruct (is_taken _). }
    destruct (replace_pool tp tr a t tp p _ I Pt Ed (release_inv p (get_port a) Rp ltac:(lia)) R1 R2) as [I2 Al2]; [done|].
    eexists. split; [done|]. split; [done|]. split; [by eapply assign_room; [|exact Hr|exact Ed|]; lia|]. split; [done|].
    intros tr' b q Hq. rewrite Al2. destruct (same_pool tr a tr' b) eqn:Es; [|done].
    rewrite (same_pool_allocated tp tr a tr' b q I Es), is_allocated_pool, Pt, Ed by done. mstep.
    rewrite release_taken by (done || unfold in_range; lia).
    destruct (q =? get_port a); simpl; by rewrite ?andb_false_r, ?andb_true_r.
  - exists tp. split; [done|]. split; [done|]. split; [by eapply room_less; [|exact Hr]; lia|]. split; [done|].
    intros tr' b q Hq. destruct (same_pool tr a tr' b) eqn:Es; [|done]. simpl. destruct (_ =? _); [|done].
    by rewrite (same_pool_allocated tp tr a tr' b q I Es), is_allocated_pool, Pt by done.
Qed.

(** Taken and given back. *)
Lemma ports_take_give tp tp1 tp2 tr a p :
  same_range tp tp1 -> ip_inv tp -> turnipports_is_allocated tp tr a p = Ret false ->
  ports_upd tp tp1 tr a p true -> ports_upd tp1 tp2 tr a p false -> ports_same tp tp2.
Proof.
  intros [S1 S2] I Hf U1 U2 tr' b q Hq. rewrite U2, U1 by lia. destruct (same_pool tr a tr' b) eqn:Es; [|done].
  simpl. destruct (q =? p) eqn:Eq; bool_arith; [|done]. subst. by rewrite (same_pool_allocated tp tr a tr' b p I Es).
Qed.

Lemma set_port_twice a p q : set_port (set_port a p) q = set_port a q.
Proof.
  unfold set_port, addr_set_port, set_port_bytes. destruct a as [f pt i4 i6 x]. simpl.
  destruct (f =? AF_INET) eqn:E4; simpl; rewrite ?E4; [done|]. by destruct (f =? AF_INET6) eqn:E6; simpl; rewrite ?E4, ?E6.
Qed.

Lemma set_port_wf a p : addr_wf a -> addr_wf (set_port a p).
Proof.
  intros W. unfold set_port, addr_set_port, set_port_bytes. destruct W as (W1 & [W2 W2'] & W3 & W4 & W5).
  destruct (_ =? _); [|destruct (_ =? _); [|done]]; (split; [done|]; split; [split; [done|apply bytes_ok_to_be]|done]).
Qed.

Lemma ports_upd_port tp tp' tr a p v x : ports_upd tp tp' tr (set_port a x) p v <-> ports_upd tp tp' tr a p v.
Proof. unfold ports_upd, same_pool. by rewrite set_port_twice. Qed.

(** An address of the host that a relay socket can be bound to. *)
Definition host_addr (a : ioa_addr) : Prop := known_family a /\ addr_wf a.

(** * Relay sockets *)
Section relay_facts.
Context {K U : Type} {KN : Kernel K} {UM : UrMap U} {M : Malloc} {ML : MallocLaws}.
Abbreviation net := (relay_net K U).

(** The pools are well formed with room for [N] releases, no configured port is
    0, and the relay addresses are IPv4 or IPv6 addresses of the host. *)
Record net_ok (n : net) (N : Z) : Prop := NetOk {
  nk_pools : ip_inv (rn_tp n);
  nk_room : ip_room (rn_tp n) N;
  nk_ports : 1 <= ip_start (rn_tp n);
  nk_relays : Forall (fun a => host_addr a /\ addr_any_no_port (Some a) = false) (relay_addrs n);
  nk_counter : 0 <= relay_addr_counter n;
  nk_null : rn_socks n !! 0 = None }.

(** The same sockets, ports in use and reservations. *)
Record net_same (n n' : net) : Prop := NetSame {
  ns_socks : rn_socks n' = rn_socks n;
  ns_ports : ports_same (rn_tp n) (rn_tp n');
  ns_range : same_range (rn_tp n) (rn_tp n');
  ns_rtcp : map_rtcp n' = map_rtcp n;
  ns_relays : relay_addrs n' = relay_addrs n }.

#[export] Instance net_same_preorder : PreOrder net_same.
Proof.
  split.
  - intros n. by constructor.
  - intros n1 n2 n3 [S1 P1 [R1 R1'] C1 L1] [S2 P2 [R2 R2'] C2 L2]. constructor; [congruence| |split; congruence|congruence|congruence].
    intros tr b q Hq. rewrite P2 by lia. by apply P1.
Qed.

Lemma net_ok_less n N N' : N' <= N -> net_ok n N -> net_ok n N'.
Proof. intros L [? R ? ? ? ?]. constructor; try done. by eapply room_less. Qed.

(** A relay socket on port [p] of [a]. *)
Record relay_sock (tr : Z) (a : ioa_addr) (p : Z) (k : ioa_socket) : Prop := RelaySock {
  rl_live : magic_ok k = true /\ done k = false /\ tobeclosed k = false /\ broken k = false /\ s_e k = true;
  rl_app : sat k = RELAY_SOCKET;
  rl_type : sock_transport k = (if is_tcp_transport tr then STUN_ATTRIBUTE_TRANSPORT_TCP_VALUE
                                else STUN_ATTRIBUTE_TRANSPORT_UDP_VALUE);
  rl_addr : local_addr k = set_port a p;
  rl_bound : bound k = true /\ local_addr_known k = true;
  rl_family : s_family k = sa_family a;
  rl_fd : 0 <= fd k;
  rl_fresh : parent_s k = 0 /\ s_session k = 0 /\ read_event k = false /\ ssl k = false }.

(** A socket was made on a port that was free; nothing else changed. *)
Record net_made (tr : Z) (n n' : net) (s : Z) (a : ioa_addr) (p : Z) : Prop := NetMade {
  nm_new : 0 < s /\ rn_socks n !! s = None;
  nm_sock : exists k, rn_socks n' = <[s := k]> (rn_socks n) /\ relay_sock tr a p k;
  nm_family : known_family a;
  nm_port : ip_start (rn_tp n) <= p <= ip_end (rn_tp n);
  nm_was_free : turnipports_is_allocated (rn_tp n) tr a p = Ret false;
  nm_ports : ports_upd (rn_tp n) (rn_tp n') tr a p true;
  nm_range : same_range (rn_tp n) (rn_tp n');
  nm_rtcp : map_rtcp n' = map_rtcp n;
  nm_relays : relay_addrs n' = relay_addrs n }.

Lemma same_made tr n1 n2 n3 s a p : ip_inv (rn_tp n1) -> net_same n1 n2 -> net_made tr n2 n3 s a p -> net_made tr n1 n3 s a p.
Proof.
  intros I [S1 P1 [R1 R1'] C1 L1] [Nw (k & S2 & Rk) F P W Up [R2 R2'] C2 L2]. rewrite S1 in Nw, S2. constructor; try done.
  - by exists k.
  - lia.
  - rewrite <- W. symmetry. apply P1. lia.
  - intros tr' b q Hq. rewrite Up by lia. destruct (_ && _); [done|]. by apply P1.
  - split; congruence.
  - congruence.
  - congruence.
Qed.

Lemma fresh_handle (m : sockets) : let s := malloc (elements (dom m)) in 0 < s /\ m !! s = None.
Proof.
  simpl. split; [apply malloc_pos|]. apply not_elem_of_dom. intros H%elem_of_elements. by apply (malloc_fresh _ H).
Qed.

(** The transport a relay socket of the transport is released with. *)
Lemma transport_pool tr k : sock_transport k = (if is_tcp_transport tr then STUN_ATTRIBUTE_TRANSPORT_TCP_VALUE
                                else STUN_ATTRIBUTE_TRANSPORT_UDP_VALUE) -> is_tcp (sock_transport k) = is_tcp tr.
Proof. intros ->. unfold is_tcp_transport, is_tcp. by destruct (tr =? _). Qed.

Lemma ports_upd_tcp tp tp' tr tr' a p v : is_tcp tr = is_tcp tr' -> ports_upd tp tp' tr a p v -> ports_upd tp tp' tr' a p v.
Proof. unfold ports_upd, same_pool. by intros ->. Qed.

Lemma close_null (n : net) : IOA_CLOSE_SOCKET n 0 = Ret n.
Proof. done. Qed.

(** A socket that is not bound is only freed. *)
Lemma close_unbound (n : net) s k :
  0 < s -> rn_socks n !! s = Some k -> magic_ok k = true -> done k = false -> bound k = false ->
  IOA_CLOSE_SOCKET n s = Ret (net_tp (net_socks n (delete s (rn_socks n))) (rn_tp n)).
Proof.
  intros P Es Mk Dk Bk. unfold IOA_CLOSE_SOCKET, close_ioa_socket, get_sock. destruct (s =? 0) eqn:E0; [bool_arith; lia|].
  rewrite Es. mstep. by rewrite Mk, Dk, Bk.
Qed.

(** Closing the socket gives its port back. *)
Lemma close_relay tr n s k a p N :
  net_ok n N -> 1 <= N -> rn_socks n !! s = Some k -> relay_sock tr a p k -> known_family a ->
  ip_start (rn_tp n) <= p <= ip_end (rn_tp n) ->
  exists n', close_ioa_socket n s = Ret n' /\ net_ok n' (N - 1) /\ rn_socks n' = delete s (rn_socks n) /\
    ports_upd (rn_tp n) (rn_tp n') tr a p false /\ same_range (rn_tp n) (rn_tp n') /\ map_rtcp n' = map_rtcp n /\
    relay_addrs n' = relay_addrs n.
Proof.
  intros [I Hr Hp Hf Hc Hz] HN Es [(L1 & L2 & _ & _ & L5) A T Ad [B1 B2] F Fd Fr] Kf Rp.
  unfold close_ioa_socket, get_sock. destruct (s =? 0) eqn:E0; [bool_arith; congruence|]. rewrite Es. mstep.
  unfold is_relay_sock. rewrite L1, L2, L5, B1, A. cbn [negb orb andb]. change (RELAY_SOCKET =? RELAY_SOCKET) with true. cbn [orb].
  destruct (ip_release_spec (rn_tp n) (sock_transport k) (local_addr k) N I Hr HN) as (tp' & -> & I' & R' & [S1 S2] & U'). mstep.
  pose proof (ii_range _ I). rewrite Ad, get_set_port in U' by done. unfold u16 in U'. rewrite Z.mod_small in U' by lia.
  eexists. split; [done|]. split; [constructor; simpl; try done; [by rewrite S1|]|].
  { rewrite lookup_delete_None. by right. }
  split; [done|]. split; [|done]. apply ports_upd_port in U'. eapply ports_upd_tcp; [|exact U']. by apply transport_pool.
Qed.

(** ** One port *)
Context (tr : Z).

(** The outcome of one round without a reservation. *)
Inductive try_outcome (a : ioa_addr) (tok : Z) (n : net) (N : Z) : loop_exit -> creating -> Prop :=
| TryAgain n' : net_same n n' -> net_ok n' (N - 1) -> try_outcome a tok n N Again (Creating n' 0 0 tok)
| TryNone n' x : (x = Break \/ x = Return) -> net_same n n' -> net_ok n' (N - 1) -> try_outcome a tok n N x (Creating n' 0 0 tok)
| TryMade n' s p : net_made tr n n' s a p -> net_ok n' (N - 1) -> try_outcome a tok n N Break (Creating n' s 0 tok).

(** Creating and binding a socket on a port just taken. *)
Lemma make_rtp_spec n0 n a p tok N :
  net_ok n N -> 1 <= N -> ip_inv (rn_tp n0) -> rn_socks n = rn_socks n0 -> map_rtcp n = map_rtcp n0 ->
  relay_addrs n = relay_addrs n0 -> same_range (rn_tp n0) (rn_tp n) -> known_family a ->
  ip_start (rn_tp n0) <= p <= ip_end (rn_tp n0) -> turnipports_is_allocated (rn_tp n0) tr a p = Ret false ->
  ports_upd (rn_tp n0) (rn_tp n) tr a p true ->
  exists x c, make_rtp tr (Creating n 0 0 tok) a p (-1) = Ret (x, c) /\ try_outcome a tok n0 N x c.
Proof.
  intros Hn HN I0 Es Er El Sr Kf Rp Free Up. pose proof Hn as [I Hr Hp Hf Hc Hz]. pose proof (ii_range _ I0).
  assert (forall n', rn_socks n' = rn_socks n0 -> rn_tp n' = rn_tp n -> map_rtcp n' = map_rtcp n ->
            relay_addrs n' = relay_addrs n -> relay_addr_counter n' = relay_addr_counter n ->
            exists n'', release_port tr n' a p = Ret n'' /\ net_same n0 n'' /\ net_ok n'' (N - 1)) as Rel.
  { intros n' E1 E2 E3 E4 E5. unfold release_port.
    destruct (ip_release_spec (rn_tp n') tr (set_port a p) N) as (tp' & -> & I' & R' & [S1 S2] & U'); [by rewrite E2..|done|].
    mstep. rewrite E2 in *. rewrite get_set_port in U' by done. unfold u16 in U'. rewrite Z.mod_small in U' by lia.
    apply ports_upd_port in U'. eexists. split; [done|]. destruct Sr as [S3 S4]. split; constructor; simpl; rewrite ?E1, ?E3, ?E4, ?E5, ?S1; try done.
    - by eapply ports_take_give.
    - split; congruence.
    - by rewrite <- Es. }
  unfold make_rtp. cbn [rtp_s rtcp_s cr_net out_token]. rewrite close_null. mstep. unfold create_unbound_relay_ioa_socket.
  set (stype := if is_tcp_transport tr then TCP_SOCKET else UDP_SOCKET).
  assert ((stype =? UDP_SOCKET) || (stype =? TCP_SOCKET) = true) as -> by (unfold stype; by destruct (is_tcp_transport tr)).
  destruct (k_socket (rn_kernel n) (sa_family a) stype) as [fd kn]. destruct (fd <? 0) eqn:Ef; bool_arith.
  { change (0 =? 0) with true. unfold give_back. cbn [rtcp_s cr_net]. change (0 =? 0) with true. mstep.
    rewrite close_null. mstep.
    destruct (Rel (net_kernel n kn)) as (n' & -> & Sm & Ok); [done..|]. mstep. eexists _, _. split; [done|].
    by apply TryNone; [right| |]. }
  cbn [rn_socks net_kernel]. rewrite Es. destruct (fresh_handle (rn_socks n0)) as [Sp Sn]. set (s := malloc _) in *.
  destruct (s =? 0) eqn:E0; [bool_arith; lia|].
  set (k := IoaSocket fd 0 true false (sa_family a) _ _ _ _ _ _ _ _ _ _ _ _ _ _ _ _ _ _ _ _ _ _ _).
  unfold bind_ioa_socket. rewrite E0. unfold get_sock at 1. rewrite E0. cbn [put_sock net_socks rn_socks net_kernel].
  rewrite lookup_insert_eq. mstep. change (parent_s k) with 0. change (s_e k) with true. change (Sockets.fd k) with fd.
  assert ((0 <=? fd) = true) as -> by (apply Z.leb_le; lia). cbn [negb Z.eqb andb]. unfold addr_bind.
  assert ((fd <? 0) = false) as -> by (apply Z.ltb_ge; lia). rewrite set_port_family.
  assert ((sa_family a =? AF_INET) || (sa_family a =? AF_INET6) = true) as -> by (destruct Kf as [->| ->]; done).
  change (rn_kernel (put_sock (net_kernel n kn) s k)) with kn. destruct (k_bind kn fd (set_port a p) (is_tcp_transport tr)) as [ok kn'].
  assert ((get_port (set_port a p) <? 1) = false) as Hport.
  { rewrite get_set_port by done. unfold u16. rewrite Z.mod_small by lia. apply Z.ltb_ge. destruct Sr. lia. }
  destruct ok.
  - rewrite Hport. mstep. change (0 >=? 0) with true. eexists _, _. split; [done|]. cbn [out_token].
    apply (TryMade _ _ _ _ _ _ p).
    + constructor; simpl; try done. eexists. split; [by rewrite ?Es, insert_insert_eq|].
      constructor; simpl; try done; try lia. unfold sock_transport. simpl. by destruct (is_tcp_transport tr).
    + constructor; simpl; try done; [by eapply room_less; [|exact Hr]; lia|].
      rewrite ?Es, insert_insert_eq, lookup_insert_ne by lia. by rewrite <- Es.
  - mstep. change (-1 >=? 0) with false. cbn iota. rewrite (close_unbound _ s k) by (done || simpl; by rewrite lookup_insert_eq). mstep. unfold give_back. cbn [rtcp_s cr_net out_token]. change (0 =? 0) with true. mstep.
    rewrite close_null. mstep.
    destruct (Rel (net_tp (net_socks (net_kernel (net_socks (net_kernel n kn) (<[s:=k]> (rn_socks n))) kn')
                     (delete s (<[s:=k]> (rn_socks n)))) (rn_tp n))) as (n' & E & Sm & Ok); [|done..|].
    { simpl. by rewrite ?Es, delete_insert_id. }
    eexists _, _. split; [|by apply TryAgain]. cbn [net_tp net_socks net_kernel put_sock rn_socks rn_tp] in *.
    unfold net_tp, net_socks, net_kernel, put_sock in *. simpl in *. rewrite Es in *. rewrite E. mstep. done.
Qed.

Lemma try_port_spec n a tok N even_port :
  even_port < 0 -> net_ok n N -> 1 <= N -> known_family a ->
  exists x c, try_port tr even_port (Creating n 0 0 tok) a = Ret (x, c) /\ try_outcome a tok n N x c.
Proof.
  intros He Hn HN Kf. pose proof Hn as [I Hr Hp Hf Hc Hz]. unfold try_port. cbn [cr_net rtp_s rtcp_s out_token].
  destruct (k_random (rn_kernel n)) as [rnd kn]. destruct (even_port <? 0) eqn:E; bool_arith; [|lia].
  cbn [rn_tp net_kernel].
  destruct (ip_allocate_spec (rn_tp n) tr a rnd N I Kf Hr) as (r & tp' & -> & I' & Hr' & [S1 S2] & [[-> Sm]|(Rr & Fr & Up)]); mstep.
  - change (-1 <? 0) with true. unfold no_port. cbn [cr_net rtp_s rtcp_s out_token]. rewrite close_null. mstep.
    rewrite close_null. mstep. eexists _, _. split; [done|]. apply TryNone; [by left|by constructor|].
    constructor; simpl; try done; [by eapply room_less; [|exact Hr']; lia|by rewrite S1].
  - pose proof (ii_range _ I). destruct (r <? 0) eqn:E1; bool_arith; [lia|].
    apply make_rtp_spec; try done. constructor; simpl; try done. by rewrite S1.
Qed.

(** The outcome of the loop: a socket, or nothing changed. *)
Definition loop_outcome (a : ioa_addr) (tok : Z) (n : net) (N : Z) (x : loop_exit) (c : creating) : Prop :=
  (rtcp_s c = 0 /\ out_token c = tok) /\ net_ok (cr_net c) N /\ x <> Again /\
  ((rtp_s c = 0 /\ net_same n (cr_net c)) \/
   (x = Break /\ rtp_s c <> 0 /\ exists p, net_made tr n (cr_net c) (rtp_s c) a p)).

Lemma port_loop_spec even_port a : even_port < 0 -> known_family a -> forall i n tok N,
  net_ok n (N + Z.of_nat i) -> 0 <= N ->
  exists x c, port_loop tr even_port i (Creating n 0 0 tok) a = Ret (x, c) /\ loop_outcome a tok n N x c.
Proof.
  intros He Kf. induction i as [|i IH]; intros n tok N Hn HN.
  - simpl. unfold no_port. cbn [cr_net rtp_s rtcp_s out_token]. rewrite close_null. mstep. rewrite close_null. mstep.
    eexists _, _. split; [done|]. split; [done|]. split; [by eapply net_ok_less; [|exact Hn]; lia|].
    split; [done|]. left. done.
  - cbn [port_loop]. destruct (try_port_spec n a tok (N + Z.of_nat (S i)) even_port He Hn ltac:(lia) Kf) as (x & c & -> & T). mstep.
    destruct T as [n' Sm Ok|n' x Hx Sm Ok|n' s p Md Ok].
    + destruct (IH n' tok N) as (x & c & -> & L1 & L2 & L3 & L4); [by eapply net_ok_less; [|exact Ok]; lia|done|].
      eexists _, _. split; [done|]. do 3 (split; [done|]).
      destruct L4 as [[Z0 S']|(Hb & Nz & p & Md)].
      * left. split; [done|]. by etrans.
      * right. do 2 (split; [done|]). exists p. eapply same_made; [apply Hn|exact Sm|exact Md].
    + exists x, (Creating n' 0 0 tok). split; [by destruct Hx; subst|]. split; [done|].
      split; [by eapply net_ok_less; [|exact Ok]; lia|]. split; [by destruct Hx; subst|]. by left.
    + eexists _, _. split; [done|]. split; [done|]. split; [by eapply net_ok_less; [|exact Ok]; lia|].
      split; [done|]. right. split; [done|]. split; [simpl; pose proof (nm_new _ _ _ _ _ _ Md); lia|]. by exists p.
Qed.

(** ** The relay address *)
Context (default_relays : bool) (local_relay : Z -> option ioa_addr) (client_s : Z).

(** The known local address of the client's socket. *)
Definition client_local (m : sockets) : option ioa_addr :=
  k ← m !! client_s;
  k' ← m !! (if parent_s k =? 0 then client_s else parent_s k);
  if magic_ok k && negb (Sockets.done k) && local_addr_known k' then Some (local_addr k') else None.

(** With default relays the address of the client's socket is known. *)
Definition client_known (m : sockets) : Prop :=
  default_relays = true -> exists c, client_local m = Some c /\ host_addr c.

Lemma client_local_spec (n : net) c :
  rn_socks n !! 0 = None -> client_local (rn_socks n) = Some c -> get_local_addr_from_ioa_socket n client_s = Ret (Some c, n).
Proof.
  intros Z0. unfold client_local. destruct (rn_socks n !! client_s) as [k|] eqn:E; [|done]. simpl.
  set (s := if parent_s k =? 0 then client_s else parent_s k). destruct (rn_socks n !! s) as [k'|] eqn:E'; [|done]. simpl.
  assert (forall x y, rn_socks n !! x = Some y -> get_sock (rn_socks n) x = Ret y) as G.
  { intros x y Ex. unfold get_sock. destruct (x =? 0) eqn:?; [bool_arith; congruence|]. by rewrite Ex. }
  unfold get_local_addr_from_ioa_socket. destruct (client_s =? 0) eqn:?; [bool_arith; congruence|]. rewrite (G _ _ E). mstep. fold s.
  rewrite (G _ _ E'). mstep. destruct (magic_ok k), (Sockets.done k), (local_addr_known k'); try done. by intros [= <-].
Qed.

Definition first_relay (n : net) : Z := if relay_addr_counter n >=? blen (relay_addrs n) then 0 else relay_addr_counter n.

Lemma first_relay_in (n : net) : 0 <= relay_addr_counter n -> relay_addrs n <> [] -> 0 <= first_relay n < blen (relay_addrs n).
Proof.
  intros Hc Ne. assert (0 < length (relay_addrs n))%nat by (destruct (relay_addrs n); simpl; [done|lia]).
  unfold first_relay, blen. if_case; lia.
Qed.

(** The addresses from the counter on are looked at in turn; one that does not
    fit is passed over. *)
Lemma find_relay_spec af : forall i n N, net_ok n N -> relay_addrs n <> [] ->
  exists r c, find_relay local_relay i n af = Ret (r, net_relays n (relay_addrs n) c) /\ 0 <= c /\
    match r with
    | Some a => a ∈ relay_addrs n /\ relay_fits af a = true
    | None => forall j a, (j < i)%nat ->
                relay_addrs n !! ((Z.to_nat (first_relay n) + j) mod length (relay_addrs n))%nat = Some a -> relay_fits af a = false
    end.
Proof.
  induction i as [|i IH]; intros n N Hn Ne; pose proof Hn as [I Hr Hp Hf Hc Hz]; cbn [find_relay].
  - exists None, (relay_addr_counter n). split; [|split; [done|intros; lia]]. unfold net_relays. by destruct n.
  - unfold next_relay. fold (first_relay n). pose proof (first_relay_in n Hc Ne) as Rc. set (c := first_relay n) in *.
    destruct (relay_addrs n !! Z.to_nat c) as [a|] eqn:Ea; [|apply lookup_ge_None in Ea; unfold blen in Rc; lia].
    rewrite (at_index_ret _ _ _ Ea). mstep. rewrite Forall_lookup in Hf. destruct (Hf _ _ Ea) as [Kf Na].
    rewrite Na, (list_insert_id _ _ _ Ea). destruct (relay_fits af a) eqn:Fa.
    + exists (Some a), (c + 1). split; [done|]. split; [lia|]. split; [|done]. by eapply list_elem_of_lookup_2.
    + destruct (IH (net_relays n (relay_addrs n) (c + 1)) N) as (r & c' & -> & Hc' & H); [|done|].
      { constructor; simpl; try done; [|lia]. by rewrite Forall_lookup. }
      exists r, c'. split; [done|]. split; [done|]. destruct r as [b|]; [done|]. cbn [relay_addrs net_relays relay_addr_counter] in H.
      intros j b Hj Eb. destruct j as [|j].
      * rewrite Nat.add_0_r, Nat.mod_small in Eb by (unfold blen in Rc; lia). congruence.
      * apply (H j b); [lia|]. rewrite <- Eb. f_equal. unfold first_relay. cbn [relay_addr_counter relay_addrs net_relays].
        unfold blen in *. if_case; bool_arith; [|f_equal; lia].
        replace (Z.to_nat c + S j)%nat with (j + 1 * length (relay_addrs n))%nat by lia. by rewrite Nat.Div0.mod_add.
Qed.

(** An address that fits is found when there is one. *)
Lemma find_relay_all af n N :
  net_ok n N -> relay_addrs n <> [] ->
  exists r c, find_relay local_relay (length (relay_addrs n)) n af = Ret (r, net_relays n (relay_addrs n) c) /\ 0 <= c /\
    match r with
    | Some a => a ∈ relay_addrs n /\ relay_fits af a = true
    | None => forall a, a ∈ relay_addrs n -> relay_fits af a = false
    end.
Proof.
  intros Hn Ne. destruct (find_relay_spec af (length (relay_addrs n)) n N Hn Ne) as (r & c & E & Hc & H).
  exists r, c. do 2 (split; [done|]). destruct r as [a|]; [done|]. intros a [j Hj]%list_elem_of_lookup.
  pose proof (lookup_lt_Some _ _ _ Hj). pose proof (first_relay_in n (nk_counter _ _ Hn) Ne) as Rc. unfold blen in Rc.
  set (l := length (relay_addrs n)) in *. set (f := Z.to_nat (first_relay n)).
  apply (H ((j + l - f) mod l)%nat a); [apply Nat.mod_upper_bound; lia|]. fold f.
  rewrite Nat.Div0.add_mod_idemp_r. replace (f + (j + l - f))%nat with (j + 1 * l)%nat by lia.
  by rewrite Nat.Div0.mod_add, Nat.mod_small.
Qed.

(** What the address fits. *)
Definition chosen (n : net) (af : Z) (a : ioa_addr) : Prop :=
  host_addr a /\
  (af = STUN_ATTRIBUTE_REQUESTED_ADDRESS_FAMILY_VALUE_IPV4 -> sa_family a = AF_INET) /\
  (af = STUN_ATTRIBUTE_REQUESTED_ADDRESS_FAMILY_VALUE_IPV6 -> sa_family a = AF_INET6) /\
  (af = STUN_ATTRIBUTE_REQUESTED_ADDRESS_FAMILY_VALUE_DEFAULT -> default_relays = false ->
   (exists r, r ∈ relay_addrs n /\ sa_family r = AF_INET) -> sa_family a = AF_INET) /\
  (af = STUN_ATTRIBUTE_REQUESTED_ADDRESS_FAMILY_VALUE_DEFAULT -> default_relays = true ->
   client_local (rn_socks n) = Some a).

Definition af_ok (af : Z) : Prop :=
  af = STUN_ATTRIBUTE_REQUESTED_ADDRESS_FAMILY_VALUE_DEFAULT \/ af = STUN_ATTRIBUTE_REQUESTED_ADDRESS_FAMILY_VALUE_IPV4 \/
  af = STUN_ATTRIBUTE_REQUESTED_ADDRESS_FAMILY_VALUE_IPV6.

Lemma relay_addr_spec n N af :
  net_ok n N -> client_known (rn_socks n) -> af_ok af -> relay_addrs n <> [] ->
  exists r err c, ioa_engine_get_relay_addr default_relays local_relay n client_s af 0 = Ret (r, err, net_relays n (relay_addrs n) c) /\
    0 <= c /\
    match r with
    | Some a => err = 0 /\ chosen n af a
    | None => err = 440 /\ af <> STUN_ATTRIBUTE_REQUESTED_ADDRESS_FAMILY_VALUE_DEFAULT
    end.
Proof.
  intros Hn Ck Af Ne. pose proof Hn as [I Hr Hp Hf Hc Hz]. unfold ioa_engine_get_relay_addr.
  assert (forall a, a ∈ relay_addrs n -> host_addr a) as Kr by (intros a Ha; rewrite Forall_forall in Hf; apply (Hf a Ha)).
  assert (0 < blen (relay_addrs n)) as Hl by (unfold blen; destruct (relay_addrs n); [done|simpl; lia]).
  assert (exists x : option ioa_addr, (if default_relays then get_local_addr_from_ioa_socket n client_s else Ret (None, n)) = Ret (x, n) /\
            match x with Some c => host_addr c /\ default_relays = true /\ client_local (rn_socks n) = Some c
                       | None => default_relays = false end) as (x & -> & Hx).
  { unfold client_known in Ck. destruct default_relays; [|by exists None]. destruct (Ck eq_refl) as (c & E & Kc). exists (Some c). split; [by apply client_local_spec|done]. }
  mstep. set (y := match x with Some a => _ | None => None end).
  assert (match y with Some a => chosen n af a | None => default_relays = true -> af <> STUN_ATTRIBUTE_REQUESTED_ADDRESS_FAMILY_VALUE_DEFAULT end) as Hy.
  { unfold y. destruct x as [c|]; [|by rewrite Hx]. destruct Hx as (Kc & D & E). unfold chosen.
    destruct Af as [->|[->| ->]]; cbn -[client_local AF_INET AF_INET6].
    - split; [done|]. split; [done|]. split; [done|]. split; [congruence|done].
    - destruct (sa_family c =? AF_INET) eqn:Ef; bool_arith; [|done]. done.
    - destruct (sa_family c =? AF_INET6) eqn:Ef; bool_arith; [|done]. done. }
  destruct y as [a|].
  { exists (Some a), 0, (relay_addr_counter n). split; [unfold net_relays; by destruct n|done]. }
  destruct (0 <? blen (relay_addrs n)) eqn:E0; bool_arith; [|lia].
  destruct (find_relay_all af n N Hn Ne) as (r & c & -> & Hcc & H). mstep. destruct r as [a|].
  - destruct H as [Ha Fa]. exists (Some a), 0, c. do 3 (split; [done|]). split; [by apply Kr|]. unfold relay_fits in Fa.
    destruct Af as [->|[->| ->]]; cbn -[AF_INET AF_INET6 client_local] in Fa |- *; bool_arith.
    + do 3 (split; [done|]). intros _ D. by specialize (Hy D).
    + done.
    + done.
  - destruct (af =? _) eqn:Ea; bool_arith; [|by exists None, 440, c].
    set (n' := net_relays n (relay_addrs n) c). fold (first_relay n').
    pose proof (first_relay_in n' Hcc Ne) as Rc. change (relay_addrs n') with (relay_addrs n) in *.
    destruct (relay_addrs n !! Z.to_nat (first_relay n')) as [a|] eqn:El; [|apply lookup_ge_None in El; unfold blen in Rc; lia].
    rewrite (at_index_ret _ _ _ El). mstep. exists (Some a), 0, (first_relay n' + 1). split; [done|]. split; [lia|]. split; [done|].
    pose proof (list_elem_of_lookup_2 _ _ _ El) as Ia. split; [by apply Kr|]. subst af.
    do 2 (split; [done|]). split; [|intros _ D; by specialize (Hy D)].
    intros _ _ (r & Hr1 & Fr). specialize (H r Hr1). unfold relay_fits in H. rewrite Fr in H. done.
Qed.

Lemma chosen_same n n' af a : rn_socks n' = rn_socks n -> relay_addrs n' = relay_addrs n -> chosen n' af a -> chosen n af a.
Proof. unfold chosen. by intros -> ->. Qed.

(** ** All addresses *)
Definition addr_outcome (af tok : Z) (n : net) (N : Z) (x : loop_exit) (c : creating) : Prop :=
  (rtcp_s c = 0 /\ out_token c = tok) /\ net_ok (cr_net c) N /\
  ((rtp_s c = 0 /\ net_same n (cr_net c)) \/
   (x = Break /\ rtp_s c <> 0 /\ exists a p, chosen n af a /\ net_made tr n (cr_net c) (rtp_s c) a p)).

Definition TRIES : Z := 0xFFFF.

Lemma addr_loop_spec even_port af : even_port < 0 -> af_ok af -> forall i n tok reason N,
  (i = 0 \/ relay_addrs n <> [])%nat -> net_ok n (N + TRIES * Z.of_nat i) -> 0 <= N -> client_known (rn_socks n) ->
  exists x c err reason', addr_loop default_relays local_relay tr even_port i (Creating n 0 0 tok) client_s af 0 reason =
      Ret (x, c, err, reason') /\ addr_outcome af tok n N x c /\
    (err = 0 \/ (err = 440 /\ x = Return /\ reason' = "Unsupported address family"%string)) /\ (err = 0 -> reason' = reason).
Proof.
  intros He Af. induction i as [|i IH]; intros n tok reason N Hi Hn HN Ck; cbn [addr_loop].
  { eexists _, _, _, _. split; [done|]. split; [|by split; [left|]]. split; [done|].
    split; [by eapply net_ok_less; [|exact Hn]; lia|]. by left. }
  destruct Hi as [Hi|Ne]; [done|]. unfold TRIES in *. cbn [cr_net rtp_s rtcp_s out_token].
  destruct (relay_addr_spec n _ af Hn Ck Af Ne) as (r & err & cn & -> & Hc & Hr). mstep. cbn [cr_net rtp_s rtcp_s out_token].
  set (n1 := net_relays n (relay_addrs n) cn).
  assert (forall N', N' <= N + 65535 * Z.of_nat (S i) -> net_ok n1 N') as Ok1.
  { intros N' L. destruct Hn as [? Hroom ? ? ? ?]. constructor; simpl; try done. eapply room_less; [exact L|exact Hroom]. }
  assert (net_same n n1) as Sm by by constructor.
  destruct r as [a|].
  - destruct Hr as [-> Ch]. change (truthy 0) with false. cbn iota. rewrite close_null. mstep. rewrite close_null. mstep.
    destruct (port_loop_spec even_port a He (proj1 (proj1 Ch)) PORT_TRIES n1 tok (N + 65535 * Z.of_nat i)) as (x & c & -> & [L1 L1'] & L2 & L3 & L4).
    { apply Ok1. unfold PORT_TRIES. lia. } { lia. } mstep.
    destruct L4 as [[E0 S1]|(-> & Nz & p & Md)].
    + destruct x; [done| |].
      * rewrite E0. change (0 =? 0) with true. cbn iota.
        assert (c = Creating (cr_net c) 0 0 tok) as -> by (destruct c; simpl in *; congruence). cbn [cr_net].
        assert (net_same n (cr_net c)) as S2 by by etrans. pose proof S2 as [Es _ _ _ Er].
        destruct (IH (cr_net c) tok reason N) as (x & c' & err & reason' & -> & (A1 & A2 & A3) & R1 & R2).
        { right. by rewrite Er. } { by eapply net_ok_less; [|exact L2]; lia. } { done. } { by rewrite Es. }
        exists x, c', err, reason'. split; [done|]. split; [|done]. split; [done|]. split; [done|].
        destruct A3 as [[Z0 S3]|(Hx & Nz & b & p & Cb & Md)]; [left; split; [done|by etrans]|right].
        split; [done|]. split; [done|]. exists b, p. split; [by eapply chosen_same|]. by eapply same_made; [apply Hn|exact S2|].
      * eexists _, _, _, _. split; [done|]. split; [|by split; [left|]]. split; [done|].
        split; [by eapply net_ok_less; [|exact L2]; lia|]. left. split; [done|]. by etrans.
    + destruct (rtp_s c =? 0) eqn:Ez; [bool_arith; lia|]. eexists _, _, _, _. split; [done|]. split; [|by split; [left|]].
      split; [done|]. split; [by eapply net_ok_less; [|exact L2]; lia|]. right. split; [done|]. split; [done|].
      exists a, p. split; [done|]. by eapply same_made; [apply Hn|exact Sm|].
  - destruct Hr as [-> _]. change (truthy 440) with true. cbn iota. eexists _, _, _, _. split; [done|]. split.
    + split; [done|]. split; [apply Ok1; lia|]. by left.
    + split; [right|]; done.
Qed.

(** Creating a relay socket, without a reservation. *)
Lemma create_relay_spec even_port af now n tok reason N :
  even_port < 0 -> af_ok af -> net_ok n (N + TRIES * Z.of_nat (length (relay_addrs n))) -> 0 <= N -> client_known (rn_socks n) ->
  exists x c err reason', create_relay_ioa_sockets default_relays local_relay tr even_port now n client_s af tok 0 reason =
      Ret (x, c, err, reason') /\ rtcp_s c = 0 /\ out_token c = tok /\ net_ok (cr_net c) N /\
    (err = 0 /\ reason' = reason \/ err = 440 /\ x = -1 /\ reason' = "Unsupported address family"%string) /\
    ((x = -1 /\ rtp_s c = 0 /\ net_same n (cr_net c)) \/
     (x = 0 /\ err = 0 /\ rtp_s c <> 0 /\ exists a p, chosen n af a /\ net_made tr n (cr_net c) (rtp_s c) a p)).
Proof.
  intros He Af Hn HN Ck. unfold create_relay_ioa_sockets.
  destruct (addr_loop_spec even_port af He Af (length (relay_addrs n)) n tok reason N) as (x & c & err & reason' & -> & ([A1 A1'] & A2 & A3) & R1 & R2);
    [by destruct (relay_addrs n); [left|right]|done..|]. mstep.
  destruct A3 as [[Z0 S3]|(-> & Nz & b & p & Cb & Md)].
  - assert (c = Creating (cr_net c) 0 0 tok) as -> by (destruct c; simpl in *; congruence). cbn [rtp_s rtcp_s cr_net out_token].
    destruct R1 as [->|(-> & -> & ->)]; [|eexists _, _, _, _; split; [done|]; do 3 (split; [done|]); split; [by right|by left]].
    change (0 =? 0) with true. cbn iota. rewrite close_null. mstep.
    destruct x; eexists _, _, _, _; (split; [done|]); do 3 (split; [done|]); (split; [left; by split; [|apply R2]|by left]).
  - destruct R1 as [->|(_ & ? & _)]; [|done]. destruct (rtp_s c =? 0) eqn:Ez; [bool_arith; lia|].
    rewrite A1. change (truthy 0) with false. cbn [andb]. eexists _, _, _, _. split; [done|]. do 3 (split; [done|]).
    split; [left; by split; [|apply R2]|]. right. split; [done|]. split; [done|]. split; [done|]. by exists b, p.
Qed.
End relay_facts.

(** ** Made and closed *)
Lemma made_closed {K U : Type} {KN : Kernel K} tr (n n' : relay_net K U) s a p N :
  net_ok n N -> net_ok n' N -> 1 <= N -> net_made tr n n' s a p ->
  exists n'', close_ioa_socket n' s = Ret n'' /\ net_ok n'' (N - 1) /\ net_same n n''.
Proof.
  intros On On' HN [[Sp Sn] (k & Es & Rk) Kf Rp Fr Up [R1 R2] Er El].
  destruct (close_relay tr n' s k a p N On' HN) as (n'' & E & O2 & S2 & U2 & [R3 R4] & C2 & L2);
    [by rewrite Es, lookup_insert_eq|done|done|lia|].
  exists n''. split; [done|]. split; [done|]. constructor.
  - by rewrite S2, Es, delete_insert_id.
  - eapply ports_take_give; [by split|apply On|exact Fr|exact Up|exact U2].
  - split; congruence.
  - congruence.
  - congruence.
Qed.


(** ** Reservations *)
#[local] Instance token_key : HashKey Z := {| key_eqb := Z.eqb; key_hash := Z.to_nat |}.

(** A reserved socket is handed out once, and other reservations stay. *)
Lemma reservation_single_use {K U : Type} {UM : UrMap U} {UL : KVLaws (HK := token_key) Z rtcp_alloc_type U} now (n : relay_net K U) token s :
  kv_inv (map_rtcp n) -> kv_value_ok (RtcpAlloc s (u32 (now + RTCP_TIMEOUT)) token) ->
  exists n1 n2, rtcp_map_put now n token s = Ret n1 /\ rtcp_map_get n1 token = Ret (s, n2) /\ kv_inv (map_rtcp n2) /\
    rtcp_map_get n2 token = Ret (0, n2) /\
    forall t, t <> token -> kv_abs (map_rtcp n2) t = kv_abs (map_rtcp n) t.
Proof.
  intros I V. unfold rtcp_map_put. assert (key_ok (HK := token_key) token) as Kt by apply Z.eqb_refl.
  destruct (kv_put_ok (map_rtcp n) token _ I Kt V) as (u1 & -> & I1 & A1). mstep.
  destruct (kv_del_ok u1 token I1) as (u2 & E2 & I2 & A2). eexists (net_rtcp n u1), (net_rtcp n u2). split; [done|].
  unfold rtcp_map_get. cbn [map_rtcp net_rtcp]. rewrite kv_get_ok, A1 by done. simpl. rewrite Z.eqb_refl. mstep. rewrite E2. mstep.
  split; [done|]. split; [done|]. rewrite kv_get_ok, A2 by done. simpl. rewrite Z.eqb_refl. mstep. split; [done|].
  intros t N. rewrite A2, A1. simpl. destruct (token =? t) eqn:Et; [bool_arith; lia|done].
Qed.

(** ** Instances

    A kernel that refuses the first [n] addresses to bind. *)
Definition ex_kernel : Kernel Z := {|
  k_socket n _ _ := (4, n);
  k_bind n _ _ _ := if 0 <? n then (false, n - 1) else (true, n);
  k_name _ _ := None;
  k_ttl _ _ _ := 64;
  k_tos _ _ _ := 0;
  k_random n := (fun i => (Z.of_nat i, 3), n) |}.

Definition ex_reservations : UrMap (list (Z * rtcp_alloc_type)) := {|
  um_store := {| kv_inv _ := True; kv_value_ok _ := True; kv_abs u k := find_key k u; kv_get u k := Ret (find_key k u);
                 kv_put u k v := Ret ((k, v) :: u); kv_del u k := Ret (filter (fun e => e.1 <> k) u) |};
  um_cells u := u |}.

Definition ex_relay : ioa_addr := ex_v4 192 0 2 1 0.

Definition ex_net (refused : Z) : relay_net Z (list (Z * rtcp_alloc_type)) :=
  RelayNet ∅ (turnipports_create 49152 49160) [ex_relay] 0 [] refused.

Lemma create_ip_inv start stop : 0 <= start <= stop -> stop < 65536 -> ip_inv (turnipports_create start stop).
Proof.
  intros H1 H2. assert (forall k, kv_abs ur_addr_map_init k = None) as H by (intros; by apply tget_empty).
  constructor; simpl; try lia.
  - exact addr_map_init_inv.
  - exact addr_map_init_inv.
  - intros tr k t. unfold get_map. simpl. destruct (_ =? _); by rewrite H.
  - intros tr k tr' k' t. unfold get_map. simpl. destruct (tr =? _); by rewrite H.
  - constructor.
Qed.

Lemma ex_net_ok r : net_ok (ex_net r) 1000000.
Proof.
  constructor; [by apply create_ip_inv|split; [done|constructor]|done| |done|done].
  constructor; [split; [split; [by left|by apply addr_wfb_spec]|done]|constructor].
Qed.

