(* ===== verification/TurnServer.v ===== *)
(** Permissions and channels of a session: the handlers of
    src/coturn/src/server/ns_turn_server.c that create, refresh, use and expire
    them, with the peer filter.

    The records hold the fields of [turn_turnserver] and [ts_ur_super_session]
    that these handlers use.  [e_now] is the clock of the event library,
    [ctime] the server's copy of the time, refreshed once a second; times are
    32 bits wide.  Strings are lists of characters without the terminating
    zero.  Socket handles are integers, 0 for NULL; their types are an argument.
    Log output and statistics are not modelled. *)

From stdpp Require Import base option numbers list strings.
From S2P Require Import Prelude IoAddr StunDefs StunMsg StunBuild SlotTable TurnMaps Timers Allocation Sockets.

Record ip_range : Type := IpRange { ir_realm : list Z; ir_enc : ioa_addr_range }.

(** The lists are empty for NULL; [ioa_whitelist] and [ioa_blacklist] are those
    of the engine. *)
Record turn_turnserver : Type := TurnServer {
  no_multicast_peers : bool;
  allow_loopback_peers : bool;
  ip_whitelist : list ip_range;
  ip_blacklist : list ip_range;
  ioa_whitelist : list ip_range;
  ioa_blacklist : list ip_range;
  permission_lifetime : Z;
  channel_lifetime : Z;
  ctime : Z;
  e_now : Z;
  verbose : bool;
  server_relay : bool;
  addr_maps : list addr_mapping;
  dont_fragment : Z;
  fingerprint : bool;
  no_software_attribute : bool;
  max_allocate_lifetime : Z }.

(** [ss_alloc_ptr] is the address of [ss_alloc]. *)
Record ts_ur_super_session : Type := Session {
  ss_id : Z;
  ss_alloc : allocation;
  ss_alloc_ptr : Z;
  is_tcp_relay : bool;
  is_mobile : bool;
  client_socket : Z;
  realm_name : list Z;
  to_be_closed : bool;
  enforce_fingerprints : bool }.

Definition with_alloc (ss : ts_ur_super_session) (a : allocation) : ts_ur_super_session :=
  Session (ss_id ss) a (ss_alloc_ptr ss) (is_tcp_relay ss) (is_mobile ss) (client_socket ss) (realm_name ss)
    (to_be_closed ss) (enforce_fingerprints ss).

(** * Peer addresses *)
Definition CHECK_REALM (r realm : list Z) : bool :=
  match r, realm with
  | _ :: _, _ :: _ => bytes_eqb r realm
  | _, _ => true
  end.

(** The loop over a list of ranges, from the last one down. *)
Definition in_list (l : list ip_range) (realm : list Z) (peer_addr : ioa_addr) : bool :=
  existsb (fun r => CHECK_REALM (ir_realm r) realm && ioa_addr_in_range (Some (ir_enc r)) (Some peer_addr)) (rev l).

Definition good_peer_addr (server : turn_turnserver) (realm : list Z) (peer_addr : ioa_addr) : bool :=
  if no_multicast_peers server && ioa_addr_is_multicast (Some peer_addr) then false
  else if negb (allow_loopback_peers server) && ioa_addr_is_loopback (Some peer_addr) then false
  else if in_list (ip_whitelist server) realm peer_addr then true
  else if in_list (ioa_whitelist server) realm peer_addr then true
  else if in_list (ip_blacklist server) realm peer_addr then false
  else if in_list (ioa_blacklist server) realm peer_addr then false
  else true.

(** * Lifetimes *)
Section server.
Context {M : Malloc}.

Definition update_turn_permission_lifetime (server : turn_turnserver) (ss : ts_ur_super_session) (P time_delta : Z) :
    outcome (Z * ts_ur_super_session) :=
  if P =? 0 then Ret (-1, ss) else
  tinfo ← get_perm (ss_alloc ss) P;
  if p_owner tinfo =? 0 then Ret (-1, ss)
  else
    let time_delta := if time_delta =? 0 then u32 (permission_lifetime server) else time_delta in
    a ← event_del (ss_alloc ss) (p_lifetime_ev tinfo);
    let '(h, l) := set_ioa_timer (a_timers a) (e_now server) (i32 time_delta) (PermTimeout P) in
    let tinfo := TurnPermissionInfo (p_allocated tinfo) (p_chns tinfo) (p_addr tinfo)
                   (u32 (ctime server + time_delta)) h (p_owner tinfo)
                   (if verbose server then 1 else p_verbose tinfo)
                   (if verbose server then ss_id ss else p_session_id tinfo) in
    Ret (0, with_alloc ss (put_perm (with_timers a l) P tinfo)).

Definition update_channel_lifetime (server : turn_turnserver) (ss : ts_ur_super_session) (C : Z) :
    outcome (Z * ts_ur_super_session) :=
  if C =? 0 then Ret (-1, ss) else
  chn ← get_chan (ss_alloc ss) C;
  if ch_owner chn =? 0 then Ret (-1, ss) else
  tinfo ← get_perm (ss_alloc ss) (ch_owner chn);
  if p_owner tinfo =? 0 then Ret (-1, ss) else
  '(r, ss) ← update_turn_permission_lifetime server ss (ch_owner chn) (u32 (channel_lifetime server));
  if r <? 0 then Ret (-1, ss) else
  chn ← get_chan (ss_alloc ss) C;
  a ← event_del (ss_alloc ss) (ch_lifetime_ev chn);
  let '(h, l) := set_ioa_timer (a_timers a) (e_now server) (channel_lifetime server) (ChanTimeout C) in
  let chn := ChInfo (chnum chn) (ch_allocated chn) (ch_port chn) (ch_peer_addr chn)
               (u32 (ctime server + channel_lifetime server)) h (ch_owner chn) (kernel_channel chn) in
  Ret (0, with_alloc ss (put_chan (with_timers a l) C chn)).

(** * Timers that fire *)
Definition client_ss_channel_timeout_handler (a : allocation) (arg : Z) : outcome allocation :=
  if arg =? 0 then Ret a else turn_channel_delete a arg.

Definition client_ss_perm_timeout_handler (a : allocation) (arg : Z) : outcome allocation :=
  if arg =? 0 then Ret a
  else
    tinfo ← get_perm a arg;
    if p_allocated tinfo then turn_permission_clean a arg else Ret a.

(** * Requests *)
Definition MAX_NUMBER_OF_UNKNOWN_ATTRS : Z := 128.

(** [*err_code], [*reason] (empty for NULL), the attribute types in
    [unknown_attrs] and the constructed response. *)
Record reply : Type := Reply {
  err_code : Z;
  reason : string;
  unknown_attrs : list Z;
  resp : option mbuf }.

Definition no_reply : reply := Reply 0 EmptyString [] None.

(** [unknown_attrs[( *ua_num)++] = ...]; the array has 128 elements. *)
Definition add_unknown (r : reply) (attr_type : Z) : outcome reply :=
  if blen (unknown_attrs r) <? MAX_NUMBER_OF_UNKNOWN_ATTRS
  then Ret (Reply (err_code r) (reason r) (unknown_attrs r ++ [attr_type]) (resp r))
  else UB.

Definition fail_with (r : reply) (code : Z) (text : string) : reply :=
  Reply code text (unknown_attrs r) (resp r).

Definition SKIP_ATTRIBUTES (attr_type : Z) : bool :=
  bool_decide (attr_type ∈
    [STUN_ATTRIBUTE_OAUTH_ACCESS_TOKEN; STUN_ATTRIBUTE_PRIORITY; STUN_ATTRIBUTE_FINGERPRINT;
     STUN_ATTRIBUTE_MESSAGE_INTEGRITY; STUN_ATTRIBUTE_USERNAME; STUN_ATTRIBUTE_REALM; STUN_ATTRIBUTE_NONCE;
     STUN_ATTRIBUTE_ORIGIN]).

Definition comprehension_required (attr_type : Z) : bool := (0 <=? attr_type) && (attr_type <=? 0x7FFF).

(** [while (sar && go) { body; sar = stun_attr_get_next_str(buf,len,sar); }] *)
Fixpoint attr_while {S} (fuel : nat) (buf : list Z) (len : Z) (go : S -> bool) (body : S -> Z -> outcome S)
    (st : S) (sar : option Z) : outcome S :=
  match sar with
  | None => Ret st
  | Some a =>
      if go st then
        match fuel with
        | O => NoFuel
        | Datatypes.S f =>
            st ← body st a;
            nxt ← stun_attr_get_next_str buf len sar;
            attr_while f buf len go body st nxt
        end
      else Ret st
  end.

Definition attr_scan {S} (buf : list Z) (len : Z) (go : S -> bool) (body : S -> Z -> outcome S) (st : S) : outcome S :=
  sar ← stun_attr_get_first_str buf len;
  attr_while (attr_fuel len) buf len go body st sar.

Definition scan_goes_on (r : reply) : bool :=
  (err_code r =? 0) && (blen (unknown_attrs r) <? MAX_NUMBER_OF_UNKNOWN_ATTRS).

(** ** ChannelBind *)
Record bind_req : Type := BindReq { br_chnum : Z; br_peer : ioa_addr; br_found : bool; br_reply : reply }.

Definition bind_attr (server : turn_turnserver) (a : allocation) (buf : list Z) (len : Z) (st : bind_req) (sar : Z) :
    outcome bind_req :=
  let r := br_reply st in
  attr_type ← stun_attr_get_type buf (Some sar);
  if SKIP_ATTRIBUTES attr_type then Ret st
  else if attr_type =? STUN_ATTRIBUTE_CHANNEL_NUMBER then
    if truthy (br_chnum st) then
      Ret (BindReq 0 (br_peer st) (br_found st)
             (fail_with r 400 "Channel number cannot be duplicated in this request"))
    else
      chnum ← stun_attr_get_channel_number buf (Some sar);
      Ret (BindReq chnum (br_peer st) (br_found st)
             (if chnum =? 0 then fail_with r 400 "Channel number cannot be zero in this request" else r))
  else if attr_type =? STUN_ATTRIBUTE_XOR_PEER_ADDRESS then
    '(_, peer_addr) ← stun_attr_get_addr_str (addr_maps server) buf len (Some sar) None;
    s ← get_relay_socket a (sa_family peer_addr);
    let r := if truthy s then r else fail_with r 443 "Peer Address Family Mismatch (3)" in
    if get_port peer_addr <? 1 then
      Ret (BindReq (br_chnum st) peer_addr (br_found st)
             (fail_with r 400 "Empty port number in channel bind request"))
    else Ret (BindReq (br_chnum st) peer_addr true r)
  else if comprehension_required attr_type then
    r ← add_unknown r attr_type;
    Ret (BindReq (br_chnum st) (br_peer st) (br_found st) r)
  else Ret st.

(** The part after the attributes: the channel found or made, or an error. *)
Definition bind_lookup (server : turn_turnserver) (ss : ts_ur_super_session) (num : Z) (peer_addr : ioa_addr)
    (r : reply) : outcome (option Z * reply * ts_ur_super_session) :=
  let a := ss_alloc ss in
  chn ← allocation_get_ch_info a num;
  match chn with
  | Some C =>
      c ← get_chan a C;
      if negb (addr_eq (Some peer_addr) (Some (ch_peer_addr c))) then
        Ret (None, fail_with r 400 "You cannot use the same channel number with different peer", ss)
      else if ch_owner c =? 0 then Ret (None, fail_with r 500 "Wrong permission info", ss)
      else
        tinfo ← get_perm a (ch_owner c);
        if negb (addr_eq_no_port (Some peer_addr) (Some (p_addr tinfo))) then
          Ret (None, fail_with r 500 "Wrong permission info and peer addr combination", ss)
        else if negb (ch_port c =? get_port peer_addr) then Ret (None, fail_with r 500 "Wrong port number", ss)
        else Ret (Some C, r, ss)
  | None =>
      chn ← allocation_get_ch_info_by_peer_addr a peer_addr;
      match chn with
      | Some _ => Ret (None, fail_with r 400 "You cannot use the same peer with different channel number", ss)
      | None =>
          if negb (good_peer_addr server (realm_name ss) peer_addr) then
            Ret (None, fail_with r 403 "Forbidden IP", ss)
          else
            '(C, a) ← allocation_get_new_ch_info a (ss_alloc_ptr ss) num peer_addr;
            c ← get_chan a C;
            if ch_owner c =? 0 then Ret (None, fail_with r 500 "Wrong turn permission info", with_alloc ss a)
            else Ret (Some C, r, with_alloc ss a)
      end
  end.

(** The kernel handle is the constant the headers define for it. *)
Definition CREATE_TURN_CHANNEL_KERNEL : Z := 1.

(** [socket_type] is [get_ioa_socket_type]. *)
Definition bind_kernel (socket_type : Z -> Z) (ss : ts_ur_super_session) (C : Z) (peer_addr : ioa_addr) :
    outcome ts_ur_super_session :=
  let st := socket_type (client_socket ss) in
  if negb (is_mobile ss) && ((st =? UDP_SOCKET) || (st =? TCP_SOCKET) || (st =? SCTP_SOCKET)) then
    s ← get_relay_socket (ss_alloc ss) (sa_family peer_addr);
    if socket_type s =? UDP_SOCKET then
      c ← get_chan (ss_alloc ss) C;
      let c := ChInfo (chnum c) (ch_allocated c) (ch_port c) (ch_peer_addr c) (ch_expiration_time c)
                 (ch_lifetime_ev c) (ch_owner c) CREATE_TURN_CHANNEL_KERNEL in
      Ret (with_alloc ss (put_chan (ss_alloc ss) C c))
    else Ret ss
  else Ret ss.

(** [in_buffer] is the request, [nbh] the buffer of the response, [rnd] the
    random bytes used while the response is initialised. *)
Definition handle_turn_channel_bind (socket_type : Z -> Z) (server : turn_turnserver) (ss : ts_ur_super_session)
    (tid in_buffer : list Z) (len : Z) (nbh rnd : list Z) : outcome (reply * ts_ur_super_session) :=
  let a := ss_alloc ss in
  if is_tcp_relay ss then Ret (fail_with no_reply 403 "Channel bind cannot be used with TCP relay", ss)
  else if negb (truthy (is_allocation_valid a)) then Ret (no_reply, ss)
  else
    st ← attr_scan in_buffer len (fun st => scan_goes_on (br_reply st)) (bind_attr server a in_buffer len)
           (BindReq 0 addr_zero false no_reply);
    let r := br_reply st in
    if 0 <? blen (unknown_attrs r) then Ret (fail_with r 420 (reason r), ss)
    else if truthy (err_code r) then Ret (r, ss)
    else if (br_chnum st =? 0) || addr_any (Some (br_peer st)) || negb (br_found st) then
      Ret (fail_with r 400 "Bad channel bind request", ss)
    else if negb (STUN_VALID_CHANNEL (br_chnum st)) then Ret (fail_with r 400 "Bad channel number", ss)
    else
      '(chn, r, ss) ← bind_lookup server ss (br_chnum st) (br_peer st) r;
      match chn with
      | None => Ret (r, ss)
      | Some C =>
          '(x, ss) ← update_channel_lifetime server ss C;
          if x <? 0 then Ret (fail_with r 500 "Cannot update channel lifetime (internal error)", ss)
          else
            m ← stun_set_channel_bind_response_str nbh (Some tid) 0 None rnd;
            ss ← bind_kernel socket_type ss C (br_peer st);
            Ret (Reply (err_code r) (reason r) (unknown_attrs r) (Some m), ss)
      end.

(** ** CreatePermission *)
Definition update_permission (server : turn_turnserver) (ss : ts_ur_super_session) (peer_addr : ioa_addr) :
    outcome (Z * ts_ur_super_session) :=
  tinfo ← allocation_get_permission (ss_alloc ss) peer_addr;
  '(P, ss) ← (match tinfo with
              | Some P => Ret (P, ss)
              | None =>
                  '(P, a) ← allocation_add_permission (ss_alloc ss) (ss_alloc_ptr ss) peer_addr;
                  Ret (P, with_alloc ss a)
              end);
  '(x, ss) ← update_turn_permission_lifetime server ss P 0;
  if x <? 0 then Ret (-1, ss) else
  chn ← get_turn_channel (ss_alloc ss) P peer_addr;
  match chn with
  | Some C => '(x, ss) ← update_channel_lifetime server ss C; if x <? 0 then Ret (-1, ss) else Ret (0, ss)
  | None => Ret (0, ss)
  end.

(** The first pass: the number of acceptable addresses, or an error. *)
Definition perm_check_attr (server : turn_turnserver) (ss : ts_ur_super_session) (buf : list Z) (len : Z)
    (st : Z * reply) (sar : Z) : outcome (Z * reply) :=
  let '(addr_found, r) := st in
  attr_type ← stun_attr_get_type buf (Some sar);
  if SKIP_ATTRIBUTES attr_type then Ret st
  else if attr_type =? STUN_ATTRIBUTE_XOR_PEER_ADDRESS then
    '(_, peer_addr) ← stun_attr_get_addr_str (addr_maps server) buf len (Some sar) None;
    s ← get_relay_socket (ss_alloc ss) (sa_family peer_addr);
    if negb (truthy s) then Ret (addr_found, fail_with r 443 "Peer Address Family Mismatch (4)")
    else if negb (good_peer_addr server (realm_name ss) peer_addr) then
      Ret (addr_found, fail_with r 403 "Forbidden IP")
    else Ret (addr_found + 1, r)
  else if comprehension_required attr_type then r ← add_unknown r attr_type; Ret (addr_found, r)
  else Ret st.

(** The second pass: a permission for each address, without its port. *)
Definition perm_update_attr (server : turn_turnserver) (buf : list Z) (len : Z) (st : ts_ur_super_session * reply)
    (sar : Z) : outcome (ts_ur_super_session * reply) :=
  let '(ss, r) := st in
  attr_type ← stun_attr_get_type buf (Some sar);
  if SKIP_ATTRIBUTES attr_type then Ret st
  else if attr_type =? STUN_ATTRIBUTE_XOR_PEER_ADDRESS then
    '(_, peer_addr) ← stun_attr_get_addr_str (addr_maps server) buf len (Some sar) None;
    '(x, ss) ← update_permission server ss (set_port peer_addr 0);
    Ret (ss, if x <? 0
             then fail_with r 500 "Cannot update some permissions (critical server software error)" else r)
  else Ret st.

Definition handle_turn_create_permission (server : turn_turnserver) (ss : ts_ur_super_session)
    (tid in_buffer : list Z) (len : Z) (nbh rnd : list Z) : outcome (reply * ts_ur_super_session) :=
  if negb (truthy (is_allocation_valid (ss_alloc ss))) then Ret (no_reply, ss)
  else
    '(addr_found, r) ← attr_scan in_buffer len (fun st => scan_goes_on st.2)
                         (perm_check_attr server ss in_buffer len) (0, no_reply);
    if 0 <? blen (unknown_attrs r) then Ret (fail_with r 420 (reason r), ss)
    else if truthy (err_code r) then Ret (r, ss)
    else if addr_found =? 0 then Ret (fail_with r 400 "No address found", ss)
    else
      '(ss, r) ← attr_scan in_buffer len (fun _ => true) (perm_update_attr server in_buffer len) (ss, r);
      if err_code r =? 0 then
        m ← stun_init_success_response_str STUN_METHOD_CREATE_PERMISSION nbh (Some tid) rnd;
        Ret (Reply (err_code r) (reason r) (unknown_attrs r) (Some m), ss)
      else Ret (r, ss).
End server.
