(* ===== verification/TurnServerFacts.v ===== *)
(** What the handlers of permissions and channels guarantee.

    A session is in order ([sess_ok]) when the tables of its allocation agree
    and its timers are those the tables hold; it is armed when every permission
    and every channel in use has a timer.  The handlers keep both on every
    input, so a permission or channel in use always expires, and no timer ever
    reaches a slot that was freed or reused. *)

From stdpp Require Import base option numbers list sets strings.
From S2P Require Import Prelude IoAddr StunAddr StunDefs StunMsg StunMsgFacts StunBuild StunBuildFacts KeyMap TurnMaps.
From S2P Require Import TurnMapsFacts SlotTable Timers Allocation AllocationFacts Sockets TurnServer.

Definition sess_ok (ss : ts_ur_super_session) : Prop := alloc_ok (ss_alloc ss) /\ ss_alloc_ptr ss <> 0.

Definition all_armed (a : allocation) : Prop :=
  (forall P p, live_perm a P p -> p_lifetime_ev p <> 0) /\ (forall C c, live_chan a C c -> ch_lifetime_ev c <> 0).

Record server_ok (server : turn_turnserver) : Prop := ServerOk {
  so_perm : 0 < permission_lifetime server < 2 ^ 31;
  so_chan : 0 < channel_lifetime server < 2 ^ 31;
  so_time : 0 <= ctime server <= e_now server }.

(** The bindings of an allocation: which pointer serves which address, and
    which number and peer. *)
Definition perm_view (a : allocation) (P : Z) (x : ioa_addr) : Prop :=
  exists p, live_perm a P p /\ p_addr p = x.
Definition chan_view (a : allocation) (C n : Z) (x : ioa_addr) : Prop :=
  exists c, live_chan a C c /\ chnum c = n /\ ch_peer_addr c = x.

Definition same_view (a a' : allocation) : Prop :=
  (forall P x, perm_view a' P x <-> perm_view a P x) /\ (forall C n x, chan_view a' C n x <-> chan_view a C n x).

#[export] Instance same_view_equiv : Equivalence same_view.
Proof.
  split.
  - by intros a.
  - intros a b [H1 H2]. split; intros; [by rewrite H1|by rewrite H2].
  - intros a b c [H1 H2] [H3 H4]. split; intros; [by rewrite H3, H1|by rewrite H4, H2].
Qed.

Section views.
Context (a a' : allocation) (I : alloc_inv a) (I' : alloc_inv a') (V : same_view a a').

Lemma view_permission q : allocation_get_permission a' q = allocation_get_permission a q.
Proof.
  apply lookup_ext; [by apply get_permission_returns..|]. intros P.
  rewrite (get_permission_iff a I), (get_permission_iff a' I'). destruct V as [V1 _].
  split; intros (p & L & E).
  - destruct (proj1 (V1 P (p_addr p))) as (p' & L' & Ep); [by exists p|]. exists p'. by rewrite Ep.
  - destruct (proj2 (V1 P (p_addr p))) as (p' & L' & Ep); [by exists p|]. exists p'. by rewrite Ep.
Qed.

Lemma view_ch_info n : allocation_get_ch_info a' n = allocation_get_ch_info a n.
Proof.
  apply lookup_ext; [by apply get_ch_info_returns..|]. intros C.
  rewrite (get_ch_info_iff a I), (get_ch_info_iff a' I'). destruct V as [_ V2].
  split; intros (c & L & E).
  - destruct (proj1 (V2 C n (ch_peer_addr c))) as (c' & L' & Ec & _); [by exists c|]. by exists c'.
  - destruct (proj2 (V2 C n (ch_peer_addr c))) as (c' & L' & Ec & _); [by exists c|]. by exists c'.
Qed.

Lemma view_by_peer q : allocation_get_ch_info_by_peer_addr a' q = allocation_get_ch_info_by_peer_addr a q.
Proof.
  apply lookup_ext; [by apply get_by_peer_returns..|]. intros C.
  rewrite (get_by_peer_iff a I), (get_by_peer_iff a' I'). destruct V as [_ V2].
  split; intros (c & L & E).
  - destruct (proj1 (V2 C (chnum c) (ch_peer_addr c))) as (c' & L' & _ & Ec); [by exists c|]. exists c'. by rewrite Ec.
  - destruct (proj2 (V2 C (chnum c) (ch_peer_addr c))) as (c' & L' & _ & Ec); [by exists c|]. exists c'. by rewrite Ec.
Qed.
End views.

(** * Updating a permission or a channel in place *)
Lemma inv_upd_perm a a' P p p' :
  alloc_inv a -> live_perm a P p -> p_chns p' = p_chns p -> p_addr p' = p_addr p -> p_owner p' = p_owner p ->
  (forall Q q, live_perm a' Q q <-> (Q = P /\ q = p') \/ (Q <> P /\ live_perm a Q q)) ->
  length (addr_to_perm a') = 8%nat -> a_chns a' = a_chns a -> relay_sessions a' = relay_sessions a ->
  alloc_inv a'.
Proof.
  intros I LP Em Ea Eo HP L1 EC ES.
  assert (forall C c, live_chan a' C c <-> live_chan a C c) as HC by (intros; unfold live_chan; by rewrite EC).
  assert (forall Q q, live_perm a' Q q -> exists q0, live_perm a Q q0 /\ p_chns q = p_chns q0 /\ p_addr q = p_addr q0 /\
            p_owner q = p_owner q0) as Back.
  { intros Q q [[-> ->]|[_ H]]%HP; [by exists p|by exists q]. }
  constructor; [done|rewrite EC; apply (inv_chan_buckets a I)| | | | |rewrite EC; apply (inv_chan_free a I)|
    rewrite ES; apply (inv_sessions a I)].
  - intros Q q HQ. destruct (Back Q q HQ) as (q0 & L & E1 & E2 & E3). destruct (inv_perm a I Q q0 L) as [b o m e].
    constructor; rewrite ?E1, ?E2, ?E3; [done..|]. setoid_rewrite HC. done.
  - intros C c Lc%HC. destruct (inv_chan a I C c Lc) as [b v pt z (x & Lx & Ex & Ax)]. constructor; [done..|].
    destruct (decide (ch_owner c = P)) as [E|N].
    + exists p'. rewrite E in *. rewrite (live_perm_fun _ _ _ _ Lx LP) in *. split; [apply HP; auto|]. by rewrite Em, Ea.
    + exists x. split; [apply HP; auto|done].
  - intros Q R q r HQ HR E. destruct (Back Q q HQ) as (q0 & L & _ & E2 & _), (Back R r HR) as (r0 & L' & _ & E2' & _).
    rewrite E2, E2' in E. by eapply (inv_perm_unique a I).
  - intros C D c d H1%HC H2%HC. by apply (inv_chan_unique a I).
Qed.

Lemma inv_upd_chan a a' C c c' :
  alloc_inv a -> live_chan a C c -> ch_allocated c' = true -> chnum c' = chnum c -> ch_port c' = ch_port c ->
  ch_peer_addr c' = ch_peer_addr c -> ch_owner c' = ch_owner c ->
  (forall D, slot_at (a_chns a') D = if D =? C then Some c' else slot_at (a_chns a) D) ->
  length (a_chns a') = 8%nat -> addr_to_perm a' = addr_to_perm a -> relay_sessions a' = relay_sessions a ->
  alloc_inv a'.
Proof.
  intros I LC A En Ep Epe Eo HS L2 EP ES.
  assert (forall P p, live_perm a' P p <-> live_perm a P p) as HP by (intros; unfold live_perm; by rewrite EP).
  assert (forall D d, live_chan a' D d -> exists d0, live_chan a D d0 /\ chnum d = chnum d0 /\ ch_port d = ch_port d0 /\
            ch_peer_addr d = ch_peer_addr d0 /\ ch_owner d = ch_owner d0) as Back.
  { intros D d [H Ad]. rewrite HS in H. destruct (D =? C) eqn:E; bool_arith; [|by exists d].
    subst. injection H as <-. by exists c. }
  assert (forall D d, live_chan a D d -> exists d', live_chan a' D d' /\ ch_owner d' = ch_owner d /\ ch_port d' = ch_port d)
    as Fwd.
  { intros D d [H Ad]. unfold live_chan. setoid_rewrite HS. destruct (D =? C) eqn:E; bool_arith; [|by exists d].
    subst. exists c'. rewrite (live_chan_fun a C d c (conj H Ad) LC). done. }
  constructor; [rewrite EP; apply (inv_perm_buckets a I)|done| | | | | |rewrite ES; apply (inv_sessions a I)].
  - intros P p LP%HP. destruct (inv_perm a I P p LP) as [b o m e]. constructor; [done..|].
    intros port D HD. destruct (e port D HD) as (d & Ld & O & Pt). destruct (Fwd D d Ld) as (d' & Ld' & O' & Pt').
    exists d'. split; [done|]. split; congruence.
  - intros D d HD. destruct (Back D d HD) as (d0 & L & E1 & E2 & E3 & E4). destruct (inv_chan a I D d0 L) as [b v pt z e].
    constructor; rewrite ?E1, ?E2, ?E3, ?E4; [done..|]. setoid_rewrite HP. done.
  - intros P Q p q H1%HP H2%HP. by apply (inv_perm_unique a I).
  - intros D1 D2 d1 d2 H1 H2 E. destruct (Back _ _ H1) as (x & L1' & E1 & _), (Back _ _ H2) as (y & L2' & E2 & _).
    rewrite E1, E2 in E. by eapply (inv_chan_unique a I).
  - intros D d H Ad. rewrite HS in H. destruct (D =? C); [congruence|by eapply (inv_chan_free a I)].
Qed.

Section lifetimes.
Context {M : Malloc} {ML : MallocLaws} (server : turn_turnserver) (SO : server_ok server).

(** Replacing the timer of a callback. *)
Lemma timers_reset f l cb h e e' secs :
  timers_inv f l -> f cb = Some (h, e) -> 0 < secs -> e' <= e_now server + secs ->
  exists l1 h' l2, IOA_EVENT_DEL l h = Ret l1 /\ set_ioa_timer l1 (e_now server) secs cb = (h', l2) /\ 0 < h' /\
    timers_inv (upd_armed f cb (Some (h', e'))) l2.
Proof.
  intros T F Hs He. destruct (timers_del f l cb h e T F) as (l1 & E1 & T1 & _).
  destruct (timers_set _ l1 (e_now server) secs cb e' T1) as (h' & l2 & E2 & Hp & T2); [|done|done|].
  { intros h1 e1. unfold upd_armed. by destruct (decide _). }
  exists l1, h', l2. split; [done|]. split; [done|]. split; [done|].
  eapply timers_inv_proper; [|reflexivity|exact T2]. intros c x y _. unfold upd_armed. by destruct (decide _).
Qed.

Lemma u32_le x : 0 <= x -> u32 x <= x.
Proof. intros H. unfold u32. apply Z.mod_le; lia. Qed.

(** The fields of a permission that the lifetime does not touch. *)
Definition same_perm (p p' : turn_permission_info) : Prop :=
  p_chns p' = p_chns p /\ p_addr p' = p_addr p /\ p_owner p' = p_owner p.

Definition perm_delta (d : Z) : Z := if d =? 0 then permission_lifetime server else d.

Lemma update_perm_spec ss P p d :
  sess_ok ss -> live_perm (ss_alloc ss) P p -> 0 <= d < 2 ^ 31 ->
  exists a' p', update_turn_permission_lifetime server ss P d = Ret (0, with_alloc ss a') /\ alloc_ok a' /\
    same_perm p p' /\ p_lifetime_ev p' <> 0 /\ p_expiration_time p' = u32 (ctime server + perm_delta d) /\
    (forall Q q, live_perm a' Q q <-> (Q = P /\ q = p') \/ (Q <> P /\ live_perm (ss_alloc ss) Q q)) /\
    a_chns a' = a_chns (ss_alloc ss) /\ relay_sessions a' = relay_sessions (ss_alloc ss) /\
    is_valid a' = is_valid (ss_alloc ss).
Proof.
  intros [[I T] NZ] LP Hd. set (a := ss_alloc ss) in *. pose proof (slot_at_pos _ _ _ (proj1 LP)) as HP.
  pose proof (so_perm server SO). pose proof (so_time server SO).
  assert (0 < perm_delta d < 2 ^ 31) as Hpd by (unfold perm_delta; destruct (d =? 0) eqn:?; bool_arith; lia).
  unfold update_turn_permission_lifetime. destruct (P =? 0) eqn:?; bool_arith; [lia|]. fold a.
  rewrite (live_perm_get a P p LP). mstep.
  destruct (p_owner p =? 0) eqn:?; bool_arith; [by destruct (perm_owner a P p (inv_perm a I P p LP))|].
  assert ((if d =? 0 then u32 (permission_lifetime server) else d) = perm_delta d) as Ed.
  { unfold perm_delta. destruct (d =? 0) eqn:?; [|done]. apply u32_small. lia. }
  rewrite Ed, (i32_small (perm_delta d)) by lia.
  destruct (timers_reset (alloc_armed a) (a_timers a) (PermTimeout P) (p_lifetime_ev p) (p_expiration_time p)
              (u32 (ctime server + perm_delta d)) (perm_delta d)) as (l1 & h & l2 & E1 & E2 & Hh & T2).
  { exact T. }
  { apply armed_perm. by exists p. }
  { lia. }
  { pose proof (u32_le (ctime server + perm_delta d)). lia. }
  unfold event_del. rewrite E1. mstep. cbn [a_timers with_timers]. rewrite E2. cbv zeta.
  set (p' := TurnPermissionInfo _ _ _ _ _ _ _ _). eexists _, p'. split; [done|].
  set (a' := put_perm _ P p').
  assert (forall Q q, live_perm a' Q q <-> (Q = P /\ q = p') \/ (Q <> P /\ live_perm a Q q)) as HL.
  { intros Q q. unfold a'. rewrite (live_put_perm _ P p' p) by apply LP. cbn [p_allocated p'].
    destruct LP as [_ ->]. unfold live_perm. simpl. naive_solver. }
  split; [split|].
  - eapply (inv_upd_perm a a' P p p'); try done. simpl. rewrite length_set_slot. apply (inv_perm_buckets a I).
  - unfold timers_ok. eapply timers_inv_proper; [|reflexivity|exact T2]. intros cb x y N. unfold upd_armed.
    destruct (decide (cb = PermTimeout P)) as [->|Nc].
    + rewrite armed_perm. setoid_rewrite HL. split; [|intros [= <- <-]; exists p'; auto].
      by intros (q & [[_ ->]|[? _]] & <- & <-).
    + destruct cb as [Q|C|i]; [|done|done]. rewrite !armed_perm. setoid_rewrite HL.
      assert (Q <> P) by congruence. naive_solver.
  - split; [done|]. split; [simpl; lia|]. done.
Qed.

Lemma update_chan_spec ss C c :
  sess_ok ss -> live_chan (ss_alloc ss) C c ->
  exists a' p p' c', update_channel_lifetime server ss C = Ret (0, with_alloc ss a') /\ alloc_ok a' /\
    live_perm (ss_alloc ss) (ch_owner c) p /\ same_perm p p' /\ p_lifetime_ev p' <> 0 /\
    p_expiration_time p' = u32 (ctime server + channel_lifetime server) /\
    chnum c' = chnum c /\ ch_peer_addr c' = ch_peer_addr c /\ ch_lifetime_ev c' <> 0 /\
    ch_expiration_time c' = u32 (ctime server + channel_lifetime server) /\
    (forall Q q, live_perm a' Q q <-> (Q = ch_owner c /\ q = p') \/ (Q <> ch_owner c /\ live_perm (ss_alloc ss) Q q)) /\
    (forall D d, live_chan a' D d <-> (D = C /\ d = c') \/ (D <> C /\ live_chan (ss_alloc ss) D d)) /\
    relay_sessions a' = relay_sessions (ss_alloc ss) /\ is_valid a' = is_valid (ss_alloc ss).
Proof.
  intros SK LC. pose proof SK as [[I T] NZ]. set (a := ss_alloc ss) in *.
  pose proof (so_chan server SO). pose proof (so_time server SO). pose proof (live_chan_pos a C c LC).
  destruct (chan_entry a C c (inv_chan a I C c LC)) as (p & LP & Ep & Ap).
  pose proof (slot_at_pos _ _ _ (proj1 LP)) as HO. unfold update_channel_lifetime. fold a.
  destruct (C =? 0) eqn:?; bool_arith; [lia|]. rewrite (live_chan_get a C c LC). mstep.
  destruct (ch_owner c =? 0) eqn:?; bool_arith; [lia|]. rewrite (live_perm_get a _ p LP). mstep.
  destruct (p_owner p =? 0) eqn:?; bool_arith; [by destruct (perm_owner a _ p (inv_perm a I _ p LP))|].
  rewrite (u32_small (channel_lifetime server)) by lia.
  destruct (update_perm_spec ss (ch_owner c) p (channel_lifetime server) SK LP ltac:(lia))
    as (a1 & p' & -> & [I1 T1] & SP & Hev & Hexp & HP1 & EC1 & ES1 & EV1).
  assert (perm_delta (channel_lifetime server) = channel_lifetime server) as Epd
    by (unfold perm_delta; destruct (channel_lifetime server =? 0) eqn:?; bool_arith; lia).
  rewrite Epd in Hexp.
  mstep. cbn [Z.ltb Z.compare ss_alloc with_alloc].
  assert (live_chan a1 C c) as LC1 by (unfold live_chan; by rewrite EC1).
  rewrite (live_chan_get a1 C c LC1). mstep.
  destruct (timers_reset (alloc_armed a1) (a_timers a1) (ChanTimeout C) (ch_lifetime_ev c) (ch_expiration_time c)
              (u32 (ctime server + channel_lifetime server)) (channel_lifetime server)) as (l1 & h & l2 & E1 & E2 & Hh & T2).
  { exact T1. }
  { apply armed_chan. by exists c. }
  { lia. }
  { pose proof (u32_le (ctime server + channel_lifetime server)). lia. }
  unfold event_del. rewrite E1. mstep. cbn [a_timers with_timers]. rewrite E2. cbv zeta.
  set (c' := ChInfo _ _ _ _ _ _ _ _). set (a' := put_chan _ C c').
  assert (forall D, slot_at (a_chns a') D = if D =? C then Some c' else slot_at (a_chns a1) D) as HS.
  { intros D. by apply (get_put_chan (with_timers a1 l2) C c' c), LC1. }
  assert (forall D d, live_chan a' D d <-> (D = C /\ d = c') \/ (D <> C /\ live_chan a D d)) as HC.
  { intros D d. unfold live_chan. rewrite HS, EC1. destruct (D =? C) eqn:?; bool_arith; [|naive_solver].
    assert (ch_allocated c' = true) by apply LC. naive_solver. }
  exists a', p, p', c'. split; [done|]. split; [split|].
  - eapply (inv_upd_chan a1 a' C c c'); try done; [apply LC|]. simpl. rewrite length_set_slot. apply (inv_chan_buckets a1 I1).
  - unfold timers_ok. eapply timers_inv_proper; [|reflexivity|exact T2]. intros cb x y N. unfold upd_armed.
    destruct (decide (cb = ChanTimeout C)) as [->|Nc].
    + rewrite armed_chan. setoid_rewrite HC. split; [|intros [= <- <-]; exists c'; auto].
      by intros (q & [[_ ->]|[? _]] & <- & <-).
    + destruct cb as [Q|D|i]; [done| |done]. rewrite !armed_chan. setoid_rewrite HC. unfold live_chan. rewrite EC1.
      assert (D <> C) by congruence. naive_solver.
  - do 6 (split; [done|]). split; [simpl; lia|]. split; [done|]. split; [exact HP1|].
    split; [done|]. split; [exact ES1|exact EV1].
Qed.
End lifetimes.

(** * Attributes of a request

    On any bytes the loop over the attributes ends, and keeps what its body
    keeps. *)
Section scan.
Context {S : Type} (buf : list Z) (len : Z) (go : S -> bool) (body : S -> Z -> outcome S) (Inv : S -> Prop).
Context (B : bytes_ok buf) (L : len <= blen buf).
Context (Hbody : forall fin a st, fin <= len -> attr_valid buf fin a -> Inv st -> go st = true ->
                   exists st', body st a = Ret st' /\ Inv st').

Lemma attr_while_inv fuel fin st sar :
  stun_get_command_message_len_str buf len = Ret fin -> fin <= len -> Inv st ->
  (forall a, sar = Some a -> attr_valid buf fin a /\ fin - a <= Z.of_nat fuel) ->
  exists st', attr_while fuel buf len go body st sar = Ret st' /\ Inv st'.
Proof.
  intros E Hf. revert st sar. induction fuel as [|fuel IH]; intros st [a|] I Ha; simpl; try by exists st.
  - destruct (Ha a eq_refl) as [V Hfuel]. apply attr_valid_bound in V. destruct (go st); [lia|by exists st].
  - destruct (go st) eqn:G; [|by exists st]. destruct (Ha a eq_refl) as [V Hfuel].
    destruct (Hbody fin a st Hf V I G) as (st' & -> & I'). mstep.
    destruct (get_next_cases buf len fin a) as (r & -> & D); try done. mstep. apply IH; [done|].
    intros a' ->. destruct D as [[=]|(a'' & [= <-] & ? & V')]. split; [done|lia].
Qed.

Lemma attr_scan_inv st :
  Inv st -> exists st', attr_scan buf len go body st = Ret st' /\ Inv st'.
Proof.
  intros I. unfold attr_scan.
  destruct (get_first_cases buf len B L) as (r & -> & [->|(fin & E & -> & Hf & V)]); mstep.
  - exists st. by destruct (attr_fuel len).
  - apply (attr_while_inv _ fin); [done|done|done|]. intros a [= <-]. split; [done|].
    unfold attr_fuel. apply attr_valid_bound in V. lia.
Qed.
End scan.

(** On the bytes of a message the loop visits its attributes in order, until it
    is told to stop. *)
Section scan_repr.
Context {S : Type} (buf : list Z) (len : Z) (m : smsg) (go : S -> bool) (body : S -> Z -> outcome S).
Context (Inv : list (Z * list Z) -> S -> Prop) (R : repr buf len m).
Context (Hbody : forall off t v l1 l2 st, s_attrs m = l1 ++ (t, v) :: l2 -> 20 <= off ->
                   attrs_at buf off len ((t, v) :: l2) -> Inv l1 st -> go st = true -> exists st', body st off = Ret st' /\ Inv (l1 ++ [(t, v)]) st').

Lemma attr_while_repr fuel off l1 l2 st :
  s_attrs m = l1 ++ l2 -> 20 <= off -> attrs_at buf off len l2 -> len - off <= Z.of_nat fuel -> Inv l1 st ->
  exists l3 l4 st', attr_while fuel buf len go body st (match l2 with [] => None | _ :: _ => Some off end) = Ret st' /\
    l2 = l3 ++ l4 /\ Inv (l1 ++ l3) st' /\ (l4 = [] \/ go st' = false).
Proof.
  revert off l1 l2 st. induction fuel as [|fuel IH]; intros off l1 [|[t v] l2] st El Ho Ha Hf I.
  1,3: exists [], [], st; rewrite (app_nil_r l1); split_and!; auto.
  - pose proof (at_bounds _ _ _ _ _ _ _ R Ha) as (? & ? & ?). blia.
  - pose proof (at_bounds _ _ _ _ _ _ _ R Ha) as (? & ? & ?). simpl. destruct (go st) eqn:G.
    + destruct (Hbody off t v l1 l2 st El Ho Ha I G) as (st1 & -> & I1). mstep.
      rewrite (at_next _ _ _ _ _ _ _ R Ho Ha). mstep.
      destruct (IH (off + 4 + pad4 (blen v)) (l1 ++ [(t, v)]) l2 st1) as (l3 & l4 & st' & E & -> & I' & D);
        [by rewrite <- app_assoc|blia|by destruct Ha as (_ & _ & _ & _ & _ & ?)|blia|done|].
      exists ((t, v) :: l3), l4, st'. rewrite <- app_assoc in I'. done.
    + exists [], ((t, v) :: l2), st. rewrite (app_nil_r l1). split_and!; auto.
Qed.

Lemma attr_scan_repr st :
  Inv [] st -> exists l1 l2 st', attr_scan buf len go body st = Ret st' /\ s_attrs m = l1 ++ l2 /\ Inv l1 st' /\
    (l2 = [] \/ go st' = false).
Proof.
  intros I. unfold attr_scan, stun_attr_get_first_str. rewrite (repr_command_len _ _ _ R). mstep.
  pose proof (repr_len _ _ _ R). pose proof (repr_attrs _ _ _ R) as Ha.
  assert (exists fuel, attr_fuel len = fuel /\ len - 20 <= Z.of_nat fuel) as (fuel & -> & Hf)
    by (exists (attr_fuel len); unfold attr_fuel; split; [done|lia]).
  destruct (attr_while_repr fuel 20 [] (s_attrs m) st eq_refl ltac:(lia) Ha Hf I) as (l1 & l2 & st' & E & El & I' & D).
  exists l1, l2, st'. split; [|done]. rewrite <- E. unfold STUN_HEADER_LENGTH.
  destruct (s_attrs m) as [|[t v] r] eqn:Es.
  - simpl in Ha. by if_case.
  - pose proof (at_bounds _ _ _ _ _ _ _ R Ha) as (? & ? & ?). blen_pos. if_case.
    unfold stun_attr_check_valid. if_case. rewrite (at_len buf len m 20 t v r R ltac:(lia) Ha). mstep. by if_case.
Qed.
End scan_repr.

Section attribute.
Context (buf : list Z) (len fin a : Z) (B : bytes_ok buf) (L : len <= blen buf) (F : fin <= len).
Context (V : attr_valid buf fin a).

Lemma type_returns : exists t, stun_attr_get_type buf (Some a) = Ret t.
Proof.
  apply attr_valid_bound in V. unfold stun_attr_get_type.
  destruct (rd16_ok buf a) as (t & -> & _); [done|lia|lia|]. by exists t.
Qed.

Lemma value_returns :
  exists l, stun_attr_get_len buf (Some a) = Ret l /\ 0 <= l /\ a + 4 + l <= blen buf /\
    stun_attr_get_value buf (Some a) = Ret (if l <? 1 then None else Some (a + 4)).
Proof.
  destruct V as (Ha & l & El & Rl & Hl). exists l. pose proof (pad4_spec l ltac:(lia)).
  unfold stun_attr_get_len, stun_attr_get_value. rewrite El. mstep. split; [done|]. split; [lia|]. split; [lia|].
  by destruct (l <? 1).
Qed.

Lemma channel_number_returns : exists n, stun_attr_get_channel_number buf (Some a) = Ret n.
Proof.
  destruct value_returns as (l & El & H0 & Hl & Ev). pose proof (attr_valid_bound _ _ _ V).
  unfold stun_attr_get_channel_number, with_value. rewrite Ev. mstep. destruct (l <? 1); [by exists 0|].
  rewrite El. mstep. destruct (l >=? 2) eqn:?; bool_arith; [|by exists 0].
  destruct (rd16_ok buf (a + 4)) as (n & -> & _); [done|lia|lia|]. mstep. destruct (STUN_VALID_CHANNEL n); eauto.
Qed.

Lemma get_addr_returns maps : exists r ca, stun_attr_get_addr_str maps buf len (Some a) None = Ret (r, ca).
Proof.
  destruct value_returns as (l & El & H0 & Hl & Ev). pose proof (attr_valid_bound _ _ _ V).
  unfold stun_attr_get_addr_str, stun_tid_from_message_str. rewrite rd_bytes_ret by lia. mstep.
  destruct type_returns as [t ->]. mstep. destruct (t <? 0); [eauto|]. rewrite Ev. mstep.
  destruct (l <? 1); [eauto|]. rewrite El. mstep.
  destruct (decode_safe addr_zero (drop (Z.to_nat (a + 4)) buf) l (is_xor_type t) STUN_MAGIC_COOKIE
              (slice buf 8 12)) as (r & ca & -> & _).
  { unfold blen in *. rewrite length_drop. lia. }
  mstep. destruct (r <? 0); eauto.
Qed.
End attribute.

(** * ChannelBind *)
(** In [a'] the number [n] and the peer lead to [C], its address to [P];
    everything else is found as in [a]. *)
Definition bound (a a' : allocation) (n : Z) (peer : ioa_addr) (C P : Z) : Prop :=
  (forall k, allocation_get_ch_info a' k = if n =? k then Ret (Some C) else allocation_get_ch_info a k) /\
  (forall q, allocation_get_ch_info_by_peer_addr a' q =
     if same_peer peer q then Ret (Some C) else allocation_get_ch_info_by_peer_addr a q) /\
  (forall q, allocation_get_permission a' q =
     if addr_eq_no_port_s peer q then Ret (Some P) else allocation_get_permission a q).

Lemma port_known x : get_port x <> 0 -> known_family x.
Proof.
  unfold get_port, known_family. simpl. destruct (sa_family x =? AF_INET) eqn:?; bool_arith; [auto|].
  destruct (sa_family x =? AF_INET6) eqn:?; bool_arith; [auto|done].
Qed.

Lemma eq_same_peer x y : addr_eq_s x y = true -> same_peer x y = true.
Proof.
  rewrite addr_eq_s_spec. intros (E & Ep & H). unfold same_peer.
  assert (get_port x = get_port y) as -> by (unfold get_port; simpl; by rewrite E, Ep).
  rewrite Z.eqb_refl, andb_true_r. by apply addr_eq_no_port_s_spec.
Qed.

(** All but the channel [C] and its permission are armed. *)
Definition armed_but (a : allocation) (C P : Z) : Prop :=
  (forall Q q, live_perm a Q q -> Q <> P -> p_lifetime_ev q <> 0) /\
  (forall D d, live_chan a D d -> D <> C -> ch_lifetime_ev d <> 0).

(** A channel in use is bound as its number and peer say. *)
Lemma live_bound a C c peer :
  alloc_inv a -> live_chan a C c -> same_peer peer (ch_peer_addr c) = true -> bound a a (chnum c) peer C (ch_owner c).
Proof.
  intros I LC S. pose proof (inv_chan a I C c LC) as [b v pt z (p & LP & Ep & Ap)]. split; [|split].
  - intros k. destruct (chnum c =? k) eqn:E; bool_arith; [|done]. apply (get_ch_info_iff a I). by exists c.
  - intros q. destruct (same_peer peer q) eqn:E; [|done]. apply (get_by_peer_iff a I). exists c. split; [done|].
    by rewrite <- (same_peer_left _ _ q S).
  - intros q. destruct (addr_eq_no_port_s peer q) eqn:E; [|done]. apply (get_permission_iff a I). exists p. split; [done|].
    apply same_peer_addr in S as [S _]. rewrite (addr_eq_no_port_left _ _ q S) in E.
    by eapply addr_eq_no_port_s_trans.
Qed.

Lemma bind_lookup_spec server ss n peer r :
  sess_ok ss -> get_port peer <> 0 -> STUN_VALID_CHANNEL n = true -> err_code r = 0 ->
  (exists r', bind_lookup server ss n peer r = Ret (None, r', ss) /\ err_code r' <> 0 /\ resp r' = resp r) \/
  (exists C c a', bind_lookup server ss n peer r = Ret (Some C, r, with_alloc ss a') /\ alloc_ok a' /\ live_chan a' C c /\
     bound (ss_alloc ss) a' n peer C (ch_owner c) /\ chnum c = n /\ same_peer peer (ch_peer_addr c) = true /\
     (all_armed (ss_alloc ss) -> armed_but a' C (ch_owner c)) /\
     (allocation_get_ch_info (ss_alloc ss) n = Ret None -> good_peer_addr server (realm_name ss) peer = true)).
Proof.
  intros [[I T] NZ] NP V Z0. set (a := ss_alloc ss) in *. unfold bind_lookup. fold a.
  destruct (get_ch_info_returns a I n) as [[C|] F]; rewrite F; mstep.
  - pose proof F as (c & LC & En)%(get_ch_info_iff a I). rewrite (live_chan_get a C c LC). mstep.
    destruct (addr_eq (Some peer) (Some (ch_peer_addr c))) eqn:Ea; cbn [negb]; [|left; eexists; by repeat split].
    pose proof (inv_chan a I C c LC) as [b v pt z (p & LP & Ep & Ap)]. pose proof (slot_at_pos _ _ _ (proj1 LP)).
    destruct (ch_owner c =? 0) eqn:?; bool_arith; [lia|]. rewrite (live_perm_get a _ p LP). mstep.
    apply eq_same_peer in Ea. pose proof (same_peer_addr _ _ Ea) as [En1 En2].
    assert (addr_eq_no_port (Some peer) (Some (p_addr p)) = true) as ->.
    { simpl. rewrite addr_eq_no_port_s_sym in Ap. by eapply addr_eq_no_port_s_trans. }
    rewrite pt, En2, Z.eqb_refl. cbn [negb]. right. exists C, c, a.
    split; [by destruct ss|]. split; [done|]. split; [done|]. split; [subst n; by apply live_bound|]. do 2 (split; [done|]).
    split; [|done]. intros [A1 A2]. split; intros; [by eapply A1|by eapply A2].
  - destruct (get_by_peer_returns a I peer) as [[D|] Fp]; rewrite Fp; mstep; [left; eexists; by repeat split|].
    destruct (good_peer_addr server (realm_name ss) peer) eqn:G; cbn [negb]; [|left; eexists; by repeat split].
    destruct (new_channel_spec a (ss_alloc_ptr ss) n peer (conj I T) NZ (port_known _ NP) NP V F Fp)
      as (C & P & a' & p' & c & -> & Ok' & Hor & EA & Ec & Np1 & HP & HC & HS). mstep.
    assert (live_chan a' C c) as LC by (apply HC; auto). rewrite (live_chan_get a' C c LC). mstep.
    destruct (chan_entry a' C c (inv_chan a' (proj1 Ok') C c LC)) as (p & LP & _). pose proof (slot_at_pos _ _ _ (proj1 LP)).
    destruct (ch_owner c =? 0) eqn:?; bool_arith; [lia|]. right. exists C, c, a'.
    assert (chnum c = n /\ ch_peer_addr c = peer /\ ch_owner c = P) as (En & Epe & EP) by (by rewrite Ec).
    split; [done|]. split; [done|]. split; [done|]. split; [|split; [done|split; [|split; [|done]]]].
    + rewrite EP. split; [|split]; intros q.
      * rewrite <- En. apply get_ch_info_after; [done|apply Ok'| |done]. rewrite En. intros D d Ld.
        by eapply (get_ch_info_none a I).
      * rewrite <- Epe. apply get_by_peer_after; [done|apply Ok'|rewrite Epe; by apply port_known| |done].
        rewrite Epe. intros D d Ld. by eapply (get_by_peer_none a I).
      * eapply (get_permission_after a a' P p'); [done|apply Ok'|done|done|done].
    + rewrite Epe. unfold same_peer. by rewrite addr_eq_no_port_s_refl, Z.eqb_refl by (by apply port_known).
    + intros [A1 A2]. rewrite EP. split.
      * intros Q q [[-> _]|[_ L]]%HP N; [done|by eapply A1].
      * intros D d [[-> _]|L]%HC N; [done|by eapply A2].
Qed.

(** What the loop over the attributes of a ChannelBind request keeps. *)
Definition bind_req_ok (st : bind_req) : Prop :=
  resp (br_reply st) = None /\ (err_code (br_reply st) = 0 -> br_found st = true -> 1 <= get_port (br_peer st)).

Lemma add_unknown_ok r t : scan_goes_on r = true -> add_unknown r t = Ret (Reply (err_code r) (reason r) (unknown_attrs r ++ [t]) (resp r)).
Proof. unfold scan_goes_on, add_unknown. intros H. bool_arith. by destruct (_ <? _) eqn:?; bool_arith; [|lia]. Qed.

Lemma bind_attr_ok server a buf len fin at_ st :
  alloc_inv a -> bytes_ok buf -> len <= blen buf -> fin <= len -> attr_valid buf fin at_ ->
  bind_req_ok st -> scan_goes_on (br_reply st) = true ->
  exists st', bind_attr server a buf len st at_ = Ret st' /\ bind_req_ok st'.
Proof.
  intros I B L F V [R1 R2] G. unfold bind_attr. cbv zeta.
  destruct (type_returns buf len fin at_ B L F V) as [t ->]. mstep.
  destruct (SKIP_ATTRIBUTES t); [by exists st|]. destruct (t =? STUN_ATTRIBUTE_CHANNEL_NUMBER).
  { destruct (truthy (br_chnum st)); [by eexists|]. destruct (channel_number_returns buf len fin at_ B L F V) as [n ->].
    mstep. eexists. split; [done|]. by destruct (n =? 0). }
  destruct (t =? STUN_ATTRIBUTE_XOR_PEER_ADDRESS).
  { destruct (get_addr_returns buf len fin at_ B L F V (addr_maps server)) as (x & ca & ->). mstep.
    destruct (get_session a (sa_family ca) I) as (s & _ & _ & ->). mstep.
    destruct (get_port ca <? 1) eqn:Ep; bool_arith; (eexists; split; [done|]); (split; [by destruct (truthy _)|]).
    - done.
    - intros _ _. done. }
  destruct (comprehension_required t); [|by exists st]. rewrite (add_unknown_ok _ _ G). mstep. by eexists.
Qed.

Lemma kernel_spec (socket_type : Z -> Z) ss C c peer :
  sess_ok ss -> live_chan (ss_alloc ss) C c ->
  exists a', bind_kernel socket_type ss C peer = Ret (with_alloc ss a') /\ alloc_ok a' /\ same_view (ss_alloc ss) a' /\
    addr_to_perm a' = addr_to_perm (ss_alloc ss) /\
    (forall D d, live_chan a' D d -> exists d0, live_chan (ss_alloc ss) D d0 /\ ch_lifetime_ev d = ch_lifetime_ev d0 /\
       ch_expiration_time d = ch_expiration_time d0).
Proof.
  intros [[I T] NZ] LC. set (a := ss_alloc ss) in *. unfold bind_kernel. fold a.
  assert (forall D d, live_chan a D d -> exists d0, live_chan a D d0 /\ ch_lifetime_ev d = ch_lifetime_ev d0 /\
            ch_expiration_time d = ch_expiration_time d0) as Id by eauto.
  assert (ss = with_alloc ss a) as Ess by (by destruct ss).
  destruct (negb (is_mobile ss) && _); [|by exists a; rewrite <- Ess].
  destruct (get_session a (sa_family peer) I) as (s & _ & _ & ->). mstep.
  destruct (socket_type (rs_s s) =? UDP_SOCKET); [|by exists a; rewrite <- Ess].
  rewrite (live_chan_get a C c LC). mstep. set (c' := ChInfo _ _ _ _ _ _ _ _). exists (put_chan a C c'). split; [done|].
  assert (forall D, slot_at (a_chns (put_chan a C c')) D = if D =? C then Some c' else slot_at (a_chns a) D) as HS
    by (intros D; by apply (get_put_chan a C c' c), LC).
  assert (forall D d, live_chan (put_chan a C c') D d <-> (D = C /\ d = c') \/ (D <> C /\ live_chan a D d)) as HC.
  { intros D d. rewrite (live_put_chan a C c' c) by apply LC. assert (ch_allocated c' = true) by apply LC. naive_solver. }
  assert (alloc_inv (put_chan a C c')) as I'.
  { eapply (inv_upd_chan a _ C c c'); try done; [apply LC|]. simpl. rewrite length_set_slot. apply (inv_chan_buckets a I). }
  split; [split; [done|]|split; [|split; [done|]]].
  - unfold timers_ok. eapply timers_inv_proper; [|reflexivity|exact T]. apply armed_ext; [done|done|].
    intros D h e N. setoid_rewrite HC. split.
    + intros (d & [[-> ->]|[_ L]] & E); [by exists c|by exists d].
    + intros (d & L & E). destruct (decide (D = C)) as [->|]; [|by exists d; auto].
      exists c'. rewrite (live_chan_fun _ _ _ _ L LC) in E. auto.
  - split; [done|]. intros D n x. unfold chan_view. setoid_rewrite HC. split.
    + intros (d & [[-> ->]|[_ L]] & E); [by exists c|by exists d].
    + intros (d & L & E). destruct (decide (D = C)) as [->|]; [|by exists d; auto].
      exists c'. rewrite (live_chan_fun _ _ _ _ L LC) in E. auto.
  - intros D d [[-> ->]|[_ L]]%HC; [by exists c|by exists d].
Qed.

Lemma bound_view a a1 a2 n peer C P :
  alloc_inv a1 -> alloc_inv a2 -> same_view a1 a2 -> bound a a1 n peer C P -> bound a a2 n peer C P.
Proof.
  intros I1 I2 V (B1 & B2 & B3). split; [|split]; intros q.
  - by rewrite (view_ch_info a1 a2 I1 I2 V), B1.
  - by rewrite (view_by_peer a1 a2 I1 I2 V), B2.
  - by rewrite (view_permission a1 a2 I1 I2 V), B3.
Qed.

(** Changing a permission and a channel in place keeps the view. *)
Lemma upd_view a a' P p p' C c c' :
  live_perm a P p -> p_addr p' = p_addr p -> live_chan a C c -> chnum c' = chnum c -> ch_peer_addr c' = ch_peer_addr c ->
  (forall Q q, live_perm a' Q q <-> (Q = P /\ q = p') \/ (Q <> P /\ live_perm a Q q)) ->
  (forall D d, live_chan a' D d <-> (D = C /\ d = c') \/ (D <> C /\ live_chan a D d)) -> same_view a a'.
Proof.
  intros LP Ea LC En Epe HP HC. split.
  - intros Q x. unfold perm_view. setoid_rewrite HP. split.
    + intros (q & [[-> ->]|[_ L]] & <-); [exists p; auto|by exists q].
    + intros (q & L & <-). destruct (decide (Q = P)) as [->|]; [|by exists q; auto].
      exists p'. split; [auto|]. by rewrite Ea, (live_perm_fun _ _ _ _ L LP).
  - intros D n x. unfold chan_view. setoid_rewrite HC. split.
    + intros (d & [[-> ->]|[_ L]] & <- & <-); [exists c; auto|by exists d].
    + intros (d & L & <- & <-). destruct (decide (D = C)) as [->|]; [|by exists d; auto].
      exists c'. rewrite (live_chan_fun _ _ _ _ L LC). auto.
Qed.

Section requests.
Context {M : Malloc} {ML : MallocLaws} (server : turn_turnserver) (SO : server_ok server).

(** The part of the handler after a channel was found or made. *)
Lemma bind_finish socket_type ss C c peer nbh tid rnd :
  sess_ok ss -> live_chan (ss_alloc ss) C c -> armed_but (ss_alloc ss) C (ch_owner c) ->
  bytes_ok nbh -> 20 <= blen nbh -> bytes_ok tid -> length tid = 12%nat -> bytes_ok rnd -> length rnd = 12%nat ->
  exists a1 a2 m d, update_channel_lifetime server ss C = Ret (0, with_alloc ss a1) /\
    stun_set_channel_bind_response_str nbh (Some tid) 0 None rnd = Ret m /\
    bind_kernel socket_type (with_alloc ss a1) C peer = Ret (with_alloc ss a2) /\
    alloc_ok a2 /\ same_view (ss_alloc ss) a2 /\ all_armed a2 /\ live_chan a2 C d /\
    ch_expiration_time d = u32 (ctime server + channel_lifetime server) /\
    mrepr m (SMsg (stun_make_success_response STUN_METHOD_CHANNEL_BIND) STUN_MAGIC_COOKIE tid []).
Proof.
  intros SK LC [A1 A2] Bn Ln Bt Lt Br Lr.
  destruct (update_chan_spec server SO ss C c SK LC)
    as (a1 & p & p' & c' & E1 & Ok1 & LP & (_ & Ea & _) & Hev & _ & En & Epe & Hcev & Hexp & HP & HC & _).
  assert (live_chan a1 C c') as LC1 by (apply HC; auto).
  destruct (kernel_spec socket_type (with_alloc ss a1) C c' peer (conj Ok1 (proj2 SK)) LC1)
    as (a2 & E2 & Ok2 & V2 & EP2 & Back).
  destruct (init_success_refines STUN_METHOD_CHANNEL_BIND nbh tid rnd ltac:(done) Bn Ln Br Lr Bt Lt) as (m & Em & Rm & _).
  assert (exists d, live_chan a2 C d) as [d Ld].
  { destruct V2 as [_ V2]. destruct (proj2 (V2 C (chnum c') (ch_peer_addr c'))) as (d & L & _); [by exists c'|]. by exists d. }
  exists a1, a2, m, d. split; [done|]. split; [done|]. split; [done|]. split; [done|]. split; [|split; [|split; [done|split; [|done]]]].
  - etransitivity; [|exact V2]. by eapply (upd_view (ss_alloc ss) a1 (ch_owner c) p p' C c c').
  - split.
    + intros Q q L. unfold live_perm in L. rewrite EP2 in L. apply HP in L as [[-> ->]|[N L]]; [done|by eapply A1].
    + intros D x L. destruct (Back D x L) as (x0 & L0 & -> & _). apply HC in L0 as [[-> ->]|[N L0]]; [done|by eapply A2].
  - destruct (Back C d Ld) as (d0 & L0 & _ & ->). by rewrite (live_chan_fun _ _ _ _ L0 LC1).
Qed.

(** A handler that answers without a response and leaves the session alone. *)
Lemma unchanged ss r (Q : reply -> allocation -> Prop) :
  sess_ok ss -> all_armed (ss_alloc ss) -> resp r = None ->
  exists r' a', Ret (r, ss) = Ret (r', with_alloc ss a') /\ alloc_ok a' /\ all_armed a' /\
    (resp r' = None -> a' = ss_alloc ss) /\ (resp r' <> None -> Q r' a').
Proof. intros [Ok _] A R. exists r, (ss_alloc ss). split; [by destruct ss|]. by split_and!. Qed.

Lemma channel_bind_spec socket_type ss tid buf len nbh rnd :
  sess_ok ss -> all_armed (ss_alloc ss) -> bytes_ok buf -> len <= blen buf ->
  bytes_ok nbh -> 20 <= blen nbh -> bytes_ok tid -> length tid = 12%nat -> bytes_ok rnd -> length rnd = 12%nat ->
  exists r a', handle_turn_channel_bind socket_type server ss tid buf len nbh rnd = Ret (r, with_alloc ss a') /\
    alloc_ok a' /\ all_armed a' /\
    (resp r = None -> a' = ss_alloc ss) /\
    (resp r <> None -> err_code r = 0 /\ exists st C P d,
       attr_scan buf len (fun st => scan_goes_on (br_reply st)) (bind_attr server (ss_alloc ss) buf len)
         (BindReq 0 addr_zero false no_reply) = Ret st /\
       STUN_VALID_CHANNEL (br_chnum st) = true /\ get_port (br_peer st) <> 0 /\
       bound (ss_alloc ss) a' (br_chnum st) (br_peer st) C P /\
       (allocation_get_ch_info (ss_alloc ss) (br_chnum st) = Ret None ->
        good_peer_addr server (realm_name ss) (br_peer st) = true) /\
       get_chan a' C = Ret d /\ ch_expiration_time d = u32 (ctime server + channel_lifetime server)).
Proof.
  intros SK AA B L Bn Ln Bt Lt Br Lr. pose proof SK as [[I T] NZ]. unfold handle_turn_channel_bind.
  destruct (is_tcp_relay ss); [by apply unchanged|].
  destruct (negb (truthy (is_allocation_valid (ss_alloc ss)))); [by apply unchanged|].
  destruct (attr_scan_inv buf len (fun st => scan_goes_on (br_reply st)) (bind_attr server (ss_alloc ss) buf len)
              bind_req_ok B L) with (st := BindReq 0 addr_zero false no_reply) as (st & Est & [R1 R2]).
  { intros fin x st F V R G. by apply (bind_attr_ok server (ss_alloc ss) buf len fin x st). }
  { done. }
  rewrite Est. mstep. destruct (0 <? blen _); [by apply unchanged|].
  destruct (truthy (err_code (br_reply st))) eqn:Te; [by apply unchanged|].
  assert (err_code (br_reply st) = 0) as E0 by (unfold truthy in Te; bool_arith; done).
  destruct ((br_chnum st =? 0) || _ || negb (br_found st)) eqn:Eb; [by apply unchanged|]. bool_arith.
  destruct (negb (STUN_VALID_CHANNEL (br_chnum st))) eqn:Ev; [by apply unchanged|]. bool_arith.
  assert (get_port (br_peer st) <> 0) as NP by (assert (1 <= get_port (br_peer st)) by auto; lia).
  destruct (bind_lookup_spec server ss (br_chnum st) (br_peer st) (br_reply st) SK NP Ev E0)
    as [(r' & -> & Er & Rr)|(C & c & a1 & -> & Ok1 & LC & Bd & En & _ & Arm & Good)]; mstep.
  { apply unchanged; [done|done|congruence]. }
  destruct (bind_finish socket_type (with_alloc ss a1) C c (br_peer st) nbh tid rnd (conj Ok1 NZ) LC (Arm AA))
    as (a2 & a3 & m & d & -> & Em & Ek & Ok3 & V3 & AA3 & Ld & Hexp & Rm); [done..|]. mstep. change (0 <? 0) with false. cbn iota.
  rewrite Em. mstep. change (with_alloc (with_alloc ss a1) a2) with (with_alloc ss a2) in Ek |- *. rewrite Ek. mstep.
  eexists _, a3. split; [done|]. split; [done|]. split; [done|]. split; [done|]. intros _. split; [done|].
  exists st, C, (ch_owner c), d. do 3 (split; [done|]). split; [|split; [done|split; [by apply live_chan_get|done]]].
  eapply bound_view; [apply Ok1|apply Ok3|exact V3|exact Bd].
Qed.

(** C23. ChannelBind, on any bytes: the handler ends without touching memory
    outside the message, the 128 unknown attributes or the tables; it keeps the
    session in order with every permission and channel armed; without a
    success response the session is exactly what it was; with one, the valid
    channel number and the peer the request names are bound to each other and
    to no one else, every other binding and permission is found as before, a
    new binding was only made for a peer the address filter allows, and the
    channel expires a channel lifetime from now. *)
Theorem channel_bind_handler socket_type ss tid buf len nbh rnd :
  sess_ok ss -> all_armed (ss_alloc ss) -> bytes_ok buf -> len <= blen buf ->
  bytes_ok nbh -> 20 <= blen nbh -> bytes_ok tid -> length tid = 12%nat -> bytes_ok rnd -> length rnd = 12%nat ->
  exists r a', handle_turn_channel_bind socket_type server ss tid buf len nbh rnd = Ret (r, with_alloc ss a') /\
    alloc_ok a' /\ all_armed a' /\
    (resp r = None -> a' = ss_alloc ss) /\
    (resp r <> None -> err_code r = 0 /\ exists st C P d,
       attr_scan buf len (fun st => scan_goes_on (br_reply st)) (bind_attr server (ss_alloc ss) buf len)
         (BindReq 0 addr_zero false no_reply) = Ret st /\
       STUN_VALID_CHANNEL (br_chnum st) = true /\ get_port (br_peer st) <> 0 /\
       bound (ss_alloc ss) a' (br_chnum st) (br_peer st) C P /\
       (allocation_get_ch_info (ss_alloc ss) (br_chnum st) = Ret None ->
        good_peer_addr server (realm_name ss) (br_peer st) = true) /\
       get_chan a' C = Ret d /\ ch_expiration_time d = u32 (ctime server + channel_lifetime server)).
Proof. apply channel_bind_spec. Qed.

(** * CreatePermission *)
Lemma get_port_zero x : get_port (set_port x 0) = 0.
Proof.
  destruct (decide (known_family x)) as [K|N]; [by rewrite (get_set_port x 0 K)|].
  destruct (decide (get_port (set_port x 0) = 0)) as [E|E]; [done|]. apply port_known in E.
  unfold known_family in *. by rewrite set_port_family in E.
Qed.

(** A permission for an address, found or added, gets the permission lifetime;
    channels are left alone. *)
Lemma update_permission_spec ss x :
  sess_ok ss -> get_port x = 0 ->
  exists P a' p', update_permission server ss x = Ret (0, with_alloc ss a') /\ alloc_ok a' /\
    a_chns a' = a_chns (ss_alloc ss) /\ relay_sessions a' = relay_sessions (ss_alloc ss) /\
    (forall Q q, live_perm a' Q q <-> (Q = P /\ q = p') \/ (Q <> P /\ live_perm (ss_alloc ss) Q q)) /\
    (forall p, live_perm (ss_alloc ss) P p -> p_addr p' = p_addr p) /\
    (known_family x -> addr_eq_no_port_s (p_addr p') x = true) /\
    p_lifetime_ev p' <> 0 /\ p_expiration_time p' = u32 (ctime server + permission_lifetime server).
Proof.
  intros SK X0. pose proof SK as [[I T] NZ]. set (a := ss_alloc ss) in *. unfold update_permission. fold a.
  assert (forall ss1 P p, sess_ok ss1 -> live_perm (ss_alloc ss1) P p ->
    exists a' p', ('(y, ss2) ← update_turn_permission_lifetime server ss1 P 0;
      if y <? 0 then Ret (-1, ss2) else
      chn ← get_turn_channel (ss_alloc ss2) P x;
      match chn with
      | Some C => '(y, ss3) ← update_channel_lifetime server ss2 C; if y <? 0 then Ret (-1, ss3) else Ret (0, ss3)
      | None => Ret (0, ss2)
      end) = Ret (0, with_alloc ss1 a') /\ alloc_ok a' /\ same_perm p p' /\ p_lifetime_ev p' <> 0 /\
      p_expiration_time p' = u32 (ctime server + permission_lifetime server) /\
      (forall Q q, live_perm a' Q q <-> (Q = P /\ q = p') \/ (Q <> P /\ live_perm (ss_alloc ss1) Q q)) /\
      a_chns a' = a_chns (ss_alloc ss1) /\ relay_sessions a' = relay_sessions (ss_alloc ss1)) as Go.
  { intros ss1 P p SK1 LP.
    destruct (update_perm_spec server SO ss1 P p 0 SK1 LP ltac:(lia)) as (a' & p' & -> & Ok & SP & Hev & Hexp & HP & EC & ES & _).
    mstep. change (0 <? 0) with false. cbn iota. cbn [ss_alloc with_alloc].
    assert (live_perm a' P p') as LP' by (apply HP; auto).
    rewrite (get_turn_channel_zero a' P p' x LP' X0). mstep. exists a', p'. done. }
  destruct (get_permission_returns a I x) as [[P|] F]; rewrite F; mstep.
  - pose proof F as (p & LP & EA)%(get_permission_iff a I).
    destruct (Go ss P p SK LP) as (a' & p' & -> & Ok & (_ & Ea & _) & Hev & Hexp & HP & EC & ES).
    exists P, a', p'. do 5 (split; [done|]). split; [intros q Lq; by rewrite (live_perm_fun _ _ _ _ Lq LP)|].
    split; [intros _; by rewrite Ea|done].
  - destruct (add_permission_spec a (ss_alloc_ptr ss) x (conj I T) NZ F) as (P & a1 & -> & Ok1 & HP1 & HN & EC1 & ES1). mstep.
    destruct (Go (with_alloc ss a1) P (new_perm (ss_alloc_ptr ss) x) (conj Ok1 NZ)) as
      (a' & p' & -> & Ok & (_ & Ea & _) & Hev & Hexp & HP & EC & ES); [apply HP1; auto|].
    change (with_alloc (with_alloc ss a1) a') with (with_alloc ss a').
    exists P, a', p'. split; [done|]. split; [done|]. split; [by rewrite EC|]. split; [by rewrite ES|]. split.
    { intros Q q. rewrite HP. cbn [ss_alloc with_alloc]. setoid_rewrite HP1. naive_solver. }
    split; [intros p Lp; by destruct (HN p)|]. split; [|done]. intros K. rewrite Ea. by apply addr_eq_no_port_s_refl.
Qed.

(** After the second pass over some attributes. *)
Record perms_grown (a a' : allocation) : Prop := PermsGrown {
  pg_ok : alloc_ok a';
  pg_armed : all_armed a';
  pg_chns : a_chns a' = a_chns a;
  pg_keep : forall P p, live_perm a P p -> exists p', live_perm a' P p' /\ p_addr p' = p_addr p }.

Lemma perms_grown_refl a : alloc_ok a -> all_armed a -> perms_grown a a.
Proof. intros Ok A. constructor; eauto. Qed.

Lemma perms_grown_step a ss x :
  ss_alloc_ptr ss <> 0 -> perms_grown a (ss_alloc ss) -> get_port x = 0 ->
  exists P a' p', update_permission server ss x = Ret (0, with_alloc ss a') /\ perms_grown a a' /\
    live_perm a' P p' /\ (known_family x -> addr_eq_no_port_s (p_addr p') x = true) /\
    p_expiration_time p' = u32 (ctime server + permission_lifetime server) /\
    (forall Q q, live_perm (ss_alloc ss) Q q -> exists q', live_perm a' Q q' /\ p_addr q' = p_addr q /\
       (q' = q \/ p_expiration_time q' = u32 (ctime server + permission_lifetime server))).
Proof.
  intros NZ [Ok [A1 A2] EC K] X0.
  destruct (update_permission_spec ss x (conj Ok NZ) X0) as (P & a' & p' & E & Ok' & EC' & _ & HP & Ea & EX & Hev & Hexp).
  exists P, a', p'. split; [done|].
  assert (forall Q q, live_perm (ss_alloc ss) Q q -> exists q', live_perm a' Q q' /\ p_addr q' = p_addr q /\
       (q' = q \/ p_expiration_time q' = u32 (ctime server + permission_lifetime server))) as Keep.
  { intros Q q L. destruct (decide (Q = P)) as [->|N]; [|exists q; split; [apply HP; auto|auto]].
    exists p'. split; [apply HP; auto|]. split; [by apply Ea|auto]. }
  split; [|split; [apply HP; auto|done]].
  constructor; [done| |congruence|].
  - split; [intros Q q [[-> ->]|[_ L]]%HP; [done|by eapply A1]|].
    intros D d L. eapply A2. unfold live_chan in *. by rewrite <- EC'.
  - intros Q q L. destruct (K Q q L) as (q1 & L1 & E1). destruct (Keep Q q1 L1) as (q2 & L2 & E2 & _).
    exists q2. split; [done|congruence].
Qed.

Lemma perm_check_ok ss buf len fin at_ st :
  alloc_inv (ss_alloc ss) -> bytes_ok buf -> len <= blen buf -> fin <= len -> attr_valid buf fin at_ ->
  resp st.2 = None -> scan_goes_on st.2 = true ->
  exists st', perm_check_attr server ss buf len st at_ = Ret st' /\ resp st'.2 = None.
Proof.
  intros I B L F V R G. destruct st as [n r]. unfold perm_check_attr.
  destruct (type_returns buf len fin at_ B L F V) as [t ->]. mstep.
  destruct (SKIP_ATTRIBUTES t); [by eexists|]. destruct (t =? STUN_ATTRIBUTE_XOR_PEER_ADDRESS).
  - destruct (get_addr_returns buf len fin at_ B L F V (addr_maps server)) as (x & ca & ->). mstep.
    destruct (get_session (ss_alloc ss) (sa_family ca) I) as (s & _ & _ & ->). mstep.
    destruct (negb (truthy (rs_s s))); [by eexists|]. destruct (negb _); by eexists.
  - destruct (comprehension_required t); [|by eexists]. simpl in G, R. rewrite (add_unknown_ok r t G). mstep. by eexists.
Qed.

(** The state of the second pass. *)
Definition pass_ok (ss : ts_ur_super_session) (r0 : reply) (st : ts_ur_super_session * reply) : Prop :=
  exists a', st = (with_alloc ss a', r0) /\ perms_grown (ss_alloc ss) a'.

Lemma perm_update_ok ss r0 buf len fin at_ st :
  ss_alloc_ptr ss <> 0 -> bytes_ok buf -> len <= blen buf -> fin <= len -> attr_valid buf fin at_ ->
  pass_ok ss r0 st -> exists st', perm_update_attr server buf len st at_ = Ret st' /\ pass_ok ss r0 st'.
Proof.
  intros NZ B L F V (a' & -> & G). unfold perm_update_attr.
  destruct (type_returns buf len fin at_ B L F V) as [t ->]. mstep.
  destruct (SKIP_ATTRIBUTES t); [by eexists; split; [|exists a']|].
  destruct (t =? STUN_ATTRIBUTE_XOR_PEER_ADDRESS); [|by eexists; split; [|exists a']].
  destruct (get_addr_returns buf len fin at_ B L F V (addr_maps server)) as (x & ca & ->). mstep.
  destruct (perms_grown_step (ss_alloc ss) (with_alloc ss a') (set_port ca 0) NZ G (get_port_zero ca))
    as (P & a2 & p & -> & G2 & _). mstep. change (0 <? 0) with false. cbn iota. eexists. split; [done|]. by exists a2.
Qed.

(** The permission for an address lasts the permission lifetime from now. *)
Definition fresh_perm (a : allocation) (peer : ioa_addr) : Prop :=
  exists P p, live_perm a P p /\ addr_eq_no_port_s (p_addr p) peer = true /\
    p_expiration_time p = u32 (ctime server + permission_lifetime server).

Lemma endpoint_eq x y : same_endpoint x y -> known_family y -> addr_eq_no_port_s x y = true.
Proof.
  intros [_ H] K. apply addr_eq_no_port_s_spec. unfold known_family in K.
  destruct H as [(F & Fy & E)|(F & Fy & E)]; [|rewrite F, Fy; auto].
  destruct Fy as [Fy|Fy]; [rewrite F, Fy; auto|]. rewrite Fy in K. by destruct K.
Qed.

(** The addresses of the attributes visited have fresh permissions. *)
Definition pass_fresh (ss : ts_ur_super_session) (r0 : reply) (m : smsg) (l : list (Z * list Z))
    (st : ts_ur_super_session * reply) : Prop :=
  exists a', st = (with_alloc ss a', r0) /\ perms_grown (ss_alloc ss) a' /\
    forall v peer, (STUN_ATTRIBUTE_XOR_PEER_ADDRESS, v) ∈ l -> addr_wf peer -> known_family peer ->
      stun_addr_encode (Some peer) true STUN_MAGIC_COOKIE (Some (s_tid m)) = Some v -> fresh_perm a' peer.

Lemma fresh_keep a a' peer :
  (forall Q q, live_perm a Q q -> exists q', live_perm a' Q q' /\ p_addr q' = p_addr q /\
     (q' = q \/ p_expiration_time q' = u32 (ctime server + permission_lifetime server))) ->
  fresh_perm a peer -> fresh_perm a' peer.
Proof.
  intros K (P & p & L & E & X). destruct (K P p L) as (q & L' & E' & [->|X']); [by exists P, p|].
  exists P, q. by rewrite E'.
Qed.

Lemma encode_pos peer v tid : known_family peer -> addr_wf peer -> length tid = 12%nat ->
  stun_addr_encode (Some peer) true STUN_MAGIC_COOKIE (Some tid) = Some v -> 0 < blen v.
Proof.
  intros K W Lt E. unfold stun_addr_encode in E. destruct (_ || _); [by injection E as <-|]. destruct (_ =? _); [by injection E as <-|done].
Qed.

Lemma perm_update_fresh ss r0 buf len m off t v l1 l2 st :
  ss_alloc_ptr ss <> 0 -> addr_maps server = [] -> repr buf len m -> length (s_tid m) = 12%nat ->
  20 <= off -> attrs_at buf off len ((t, v) :: l2) -> pass_fresh ss r0 m l1 st ->
  exists st', perm_update_attr server buf len st off = Ret st' /\ pass_fresh ss r0 m (l1 ++ [(t, v)]) st'.
Proof.
  intros NZ EM R Lt Ho Ha (a' & -> & G & Fr). unfold perm_update_attr. rewrite (at_type _ _ _ _ _ _ _ R Ho Ha). mstep.
  assert (t <> STUN_ATTRIBUTE_XOR_PEER_ADDRESS -> pass_fresh ss r0 m (l1 ++ [(t, v)]) (with_alloc ss a', r0)) as Skip.
  { intros N. exists a'. split; [done|]. split; [done|]. intros v' peer [Hin|[= <- _]%list_elem_of_singleton]%elem_of_app; [by eapply Fr|done]. }
  destruct (SKIP_ATTRIBUTES t) eqn:Sk; [eexists; split; [done|]; apply Skip; intros ->; by vm_compute in Sk|].
  destruct (t =? STUN_ATTRIBUTE_XOR_PEER_ADDRESS) eqn:Et; bool_arith; [|eexists; split; [done|]; by apply Skip].
  subst t. rewrite EM. set (ad := stun_attr_get_addr_str [] buf len (Some off) None).
  assert (exists x ca, ad = Ret (x, ca)) as (x & ca & Ead).
  { pose proof (at_bounds _ _ _ _ _ _ _ R Ha) as (? & ? & ?). destruct Ha as (Ht & Hv & _ & E2 & _ & _).
    apply (get_addr_returns buf len len off (repr_bytes _ _ _ R)); [apply (repr_len _ _ _ R)|lia|].
    split; [done|]. exists (blen v). pose proof (repr_len _ _ _ R). blen_pos. rewrite rd16_ret, E2, be2 by lia. split; [done|]. lia. }
  rewrite Ead. mstep.
  destruct (perms_grown_step (ss_alloc ss) (with_alloc ss a') (set_port ca 0) NZ G (get_port_zero ca))
    as (P & a2 & p & -> & G2 & Lp & EX & Hexp & Keep). mstep. change (0 <? 0) with false. cbn iota.
  eexists. split; [done|]. exists a2. split; [done|]. split; [done|].
  intros v' peer [Hin|[= ->]%list_elem_of_singleton]%elem_of_app W K E; [eapply fresh_keep; [exact Keep|by eapply Fr]|].
  destruct (get_addr_at buf len m off _ v l2 peer true R Ho Ha Lt W eq_refl E (encode_pos _ _ _ K W Lt E)) as (ca' & Eca & Sca).
  fold ad in Eca. rewrite Ead in Eca. injection Eca as -> ->. exists P, p. split; [done|]. split; [|done].
  pose proof (endpoint_eq ca' peer Sca K) as Eq. rewrite <- (set_port_eq_no_port ca' 0) in Eq.
  eapply addr_eq_no_port_s_trans; [apply EX|exact Eq]. by apply addr_eq_no_port_s_known in Eq as [? _].
Qed.

Lemma grown_lookups a a' :
  alloc_inv a -> perms_grown a a' ->
  (forall n, allocation_get_ch_info a' n = allocation_get_ch_info a n) /\
  (forall q P, allocation_get_permission a q = Ret (Some P) -> allocation_get_permission a' q = Ret (Some P)).
Proof.
  intros I [[I' _] _ EC K]. split.
  - intros n. unfold allocation_get_ch_info. by rewrite EC.
  - intros q P (p & L & E)%(get_permission_iff a I). apply (get_permission_iff a' I').
    destruct (K P p L) as (p' & L' & Ea). exists p'. by rewrite Ea.
Qed.

Lemma create_permission_spec ss tid buf len nbh rnd :
  sess_ok ss -> all_armed (ss_alloc ss) -> bytes_ok buf -> len <= blen buf ->
  bytes_ok nbh -> 20 <= blen nbh -> bytes_ok tid -> length tid = 12%nat -> bytes_ok rnd -> length rnd = 12%nat ->
  exists r a', handle_turn_create_permission server ss tid buf len nbh rnd = Ret (r, with_alloc ss a') /\
    alloc_ok a' /\ all_armed a' /\
    (resp r = None -> a' = ss_alloc ss) /\
    (resp r <> None -> err_code r = 0 /\
       (forall n, allocation_get_ch_info a' n = allocation_get_ch_info (ss_alloc ss) n) /\
       (forall q P, allocation_get_permission (ss_alloc ss) q = Ret (Some P) ->
          allocation_get_permission a' q = Ret (Some P)) /\
       forall m v peer, addr_maps server = [] -> repr buf len m -> length (s_tid m) = 12%nat ->
         (STUN_ATTRIBUTE_XOR_PEER_ADDRESS, v) ∈ s_attrs m -> addr_wf peer -> known_family peer ->
         stun_addr_encode (Some peer) true STUN_MAGIC_COOKIE (Some (s_tid m)) = Some v ->
         exists P p, allocation_get_permission a' peer = Ret (Some P) /\ get_perm a' P = Ret p /\
           p_expiration_time p = u32 (ctime server + permission_lifetime server)).
Proof.
  intros SK AA B L Bn Ln Bt Lt Br Lr. pose proof SK as [Ok NZ]. pose proof (proj1 Ok) as I.
  unfold handle_turn_create_permission.
  destruct (negb (truthy (is_allocation_valid (ss_alloc ss)))); [by apply unchanged|].
  destruct (attr_scan_inv buf len (fun st => scan_goes_on st.2) (perm_check_attr server ss buf len)
              (fun st => resp st.2 = None) B L) with (st := (0, no_reply)) as ([n r] & Est & R1).
  { intros fin x st F V R G. by apply (perm_check_ok ss buf len fin x st). }
  { done. }
  rewrite Est. mstep. simpl in R1. destruct (0 <? blen _); [by apply unchanged|].
  destruct (truthy (err_code r)) eqn:Te; [by apply unchanged|].
  assert (err_code r = 0) as E0 by (unfold truthy in Te; bool_arith; done).
  destruct (n =? 0); [by apply unchanged|].
  destruct (attr_scan_inv buf len (fun _ => true) (perm_update_attr server buf len) (pass_ok ss r) B L)
    with (st := (ss, r)) as (st & Est2 & (a' & -> & G)).
  { intros fin x st F V R _. by apply (perm_update_ok ss r buf len fin x st). }
  { exists (ss_alloc ss). split; [by destruct ss|by apply perms_grown_refl]. }
  rewrite Est2. mstep. rewrite E0. cbn [Z.eqb].
  destruct (init_success_refines STUN_METHOD_CREATE_PERMISSION nbh tid rnd ltac:(done) Bn Ln Br Lr Bt Lt) as (m & -> & _). mstep.
  eexists _, a'. split; [done|]. split; [by destruct G|]. split; [by destruct G|]. split; [done|]. intros _. split; [done|].
  destruct (grown_lookups _ _ I G) as [G1 G2]. split; [done|]. split; [done|].
  intros m' v peer EM R Ltid Hin W K E.
  destruct (attr_scan_repr buf len m' (fun _ => true) (perm_update_attr server buf len) (pass_fresh ss r m') R)
    with (st := (ss, r)) as (l1 & l2 & st & Est3 & El & (a2 & -> & G' & Fr) & D).
  { intros off t w l1 l2 st _ Ho Ha P _. by apply (perm_update_fresh ss r buf len m' off t w l1 l2 st). }
  { exists (ss_alloc ss). split; [by destruct ss|]. split; [by apply perms_grown_refl|]. by intros w x ?%not_elem_of_nil. }
  rewrite Est2 in Est3. injection Est3 as <-. destruct D as [->|]; [|done]. rewrite app_nil_r in El. rewrite El in Hin.
  destruct (Fr v peer Hin W K E) as (P & p & Lp & Ep & Hexp). exists P, p. split; [|split; [by apply live_perm_get|done]].
  apply (get_permission_iff a' (proj1 (pg_ok _ _ G))). by exists p.
Qed.

(** C24. CreatePermission, on any bytes: the handler ends safely and keeps the
    session in order with everything armed; without a success response the
    session is exactly what it was; with one, no permission is lost and no
    channel changes.  When the bytes are those of a message, every peer address
    of the message then has a permission that lasts the permission lifetime from
    now. *)
Theorem create_permission_handler ss tid buf len nbh rnd :
  sess_ok ss -> all_armed (ss_alloc ss) -> bytes_ok buf -> len <= blen buf ->
  bytes_ok nbh -> 20 <= blen nbh -> bytes_ok tid -> length tid = 12%nat -> bytes_ok rnd -> length rnd = 12%nat ->
  exists r a', handle_turn_create_permission server ss tid buf len nbh rnd = Ret (r, with_alloc ss a') /\
    alloc_ok a' /\ all_armed a' /\
    (resp r = None -> a' = ss_alloc ss) /\
    (resp r <> None -> err_code r = 0 /\
       (forall n, allocation_get_ch_info a' n = allocation_get_ch_info (ss_alloc ss) n) /\
       (forall q P, allocation_get_permission (ss_alloc ss) q = Ret (Some P) ->
          allocation_get_permission a' q = Ret (Some P)) /\
       forall m v peer, addr_maps server = [] -> repr buf len m -> length (s_tid m) = 12%nat ->
         (STUN_ATTRIBUTE_XOR_PEER_ADDRESS, v) ∈ s_attrs m -> addr_wf peer -> known_family peer ->
         stun_addr_encode (Some peer) true STUN_MAGIC_COOKIE (Some (s_tid m)) = Some v ->
         exists P p, allocation_get_permission a' peer = Ret (Some P) /\ get_perm a' P = Ret p /\
           p_expiration_time p = u32 (ctime server + permission_lifetime server)).
Proof. apply create_permission_spec. Qed.
End requests.
