(* ===== verification/TurnSession.v ===== *)
(** The life of a session as a transition system: requests with arbitrary
    bytes, timers that fire, time that passes, and the end of the session.

    The invariant of [TurnServerFacts] holds in every state that can be reached,
    in whatever order these events come; in every such state every event can be
    handled, which is memory safety and termination of the handlers along every
    history. *)

From stdpp Require Import base option numbers list sets relations strings.
From S2P Require Import Prelude IoAddr StunAddr StunDefs StunMsg StunMsgFacts StunBuild StunBuildFacts KeyMap TurnMaps.
From S2P Require Import TurnMapsFacts SlotTable Timers Allocation AllocationFacts Sockets TurnServer TurnServerFacts.

Definition with_time (server : turn_turnserver) (now ct : Z) : turn_turnserver :=
  TurnServer (no_multicast_peers server) (allow_loopback_peers server) (ip_whitelist server) (ip_blacklist server)
    (ioa_whitelist server) (ioa_blacklist server) (permission_lifetime server) (channel_lifetime server)
    ct now (verbose server) (server_relay server) (addr_maps server) (dont_fragment server) (fingerprint server)
    (no_software_attribute server) (max_allocate_lifetime server).

(** A request as it arrives: the transaction id, the bytes received, the
    response buffer and the random bytes used for the response. *)
Record request : Type := Request { rq_tid : list Z; rq_buf : list Z; rq_len : Z; rq_nbh : list Z; rq_rnd : list Z }.

Record request_ok (q : request) : Prop := RequestOk {
  ro_buf : bytes_ok (rq_buf q);
  ro_len : rq_len q <= blen (rq_buf q);
  ro_nbh : bytes_ok (rq_nbh q) /\ 20 <= blen (rq_nbh q);
  ro_tid : bytes_ok (rq_tid q) /\ length (rq_tid q) = 12%nat;
  ro_rnd : bytes_ok (rq_rnd q) /\ length (rq_rnd q) = 12%nat }.

Abbreviation world := (turn_turnserver * ts_ur_super_session)%type.

Section session.
Context {M : Malloc} {ML : MallocLaws} (socket_type : Z -> Z).

(** The callback of a timer; the timers of the relay sessions belong to the
    allocation handlers, which are not modelled. *)
Definition fire (a : allocation) (cb : timer_cb) : outcome allocation :=
  match cb with
  | PermTimeout P => client_ss_perm_timeout_handler a P
  | ChanTimeout C => client_ss_channel_timeout_handler a C
  | AllocTimeout _ => Ret a
  end.

Inductive step : world -> world -> Prop :=
| step_channel_bind server ss q r ss' :
    request_ok q ->
    handle_turn_channel_bind socket_type server ss (rq_tid q) (rq_buf q) (rq_len q) (rq_nbh q) (rq_rnd q) = Ret (r, ss') ->
    step (server, ss) (server, ss')
| step_create_permission server ss q r ss' :
    request_ok q ->
    handle_turn_create_permission server ss (rq_tid q) (rq_buf q) (rq_len q) (rq_nbh q) (rq_rnd q) = Ret (r, ss') ->
    step (server, ss) (server, ss')
| step_timer server ss t a' :
    t ∈ a_timers (ss_alloc ss) -> t_deadline t <= e_now server -> fire (ss_alloc ss) (t_cb t) = Ret a' ->
    step (server, ss) (server, with_alloc ss a')
| step_time server ss now ct :
    e_now server <= now -> ctime server <= ct <= now ->
    step (server, ss) (with_time server now ct, ss)
| step_close server ss a' :
    clear_allocation (ss_alloc ss) = Ret a' ->
    step (server, ss) (server, with_alloc ss a').

Definition world_ok (w : world) : Prop :=
  server_ok w.1 /\ sess_ok w.2 /\ all_armed (ss_alloc w.2).

(** Firing the timer of a permission or channel removes it. *)
Lemma fire_spec a h d cb :
  alloc_ok a -> Timer h d cb ∈ a_timers a ->
  exists a', fire a cb = Ret a' /\ alloc_ok a' /\
    (forall Q q, live_perm a' Q q -> exists q0, live_perm a Q q0 /\ p_lifetime_ev q = p_lifetime_ev q0) /\
    (forall D x, live_chan a' D x -> live_chan a D x) /\
    (match cb with
     | PermTimeout P => forall p, ~ live_perm a' P p
     | ChanTimeout C => forall c, ~ live_chan a' C c
     | AllocTimeout _ => a' = a
     end).
Proof.
  intros Ok Ht. pose proof Ok as [I T]. destruct (ti_needed _ _ T h d cb Ht) as (e & F & _). destruct cb as [P|C|i]; simpl.
  - apply armed_perm in F as (p & LP & _). pose proof (slot_at_pos _ _ _ (proj1 LP)). unfold client_ss_perm_timeout_handler.
    destruct (P =? 0) eqn:?; bool_arith; [lia|]. rewrite (live_perm_get a P p LP). mstep. pose proof LP as [_ ->].
    destruct (permission_clean_spec a P p Ok LP) as (a' & -> & Ok' & HP & HC & _). exists a'.
    split; [done|]. split; [done|]. split; [intros Q q [_ L]%HP; by exists q|].
    split; [by intros D x [_ L]%HC|]. intros q [N _]%HP. done.
  - apply armed_chan in F as (c & LC & _). pose proof (live_chan_pos a C c LC). unfold client_ss_channel_timeout_handler.
    destruct (C =? 0) eqn:?; bool_arith; [lia|].
    destruct (channel_delete_spec a C c Ok LC) as (a' & p & m & -> & Ok' & LP & HP & HC & _). exists a'.
    split; [done|]. split; [done|]. split; [|split; [by intros D x [_ L]%HC|by intros x [N _]%HC]].
    intros Q q [[-> ->]|[_ L]]%HP; [by exists p|by exists q].
  - exists a. split; [done|]. split; [done|]. split; [by eauto|]. done.
Qed.

Lemma fire_armed a h d cb a' : alloc_ok a -> all_armed a -> Timer h d cb ∈ a_timers a -> fire a cb = Ret a' -> alloc_ok a' /\ all_armed a'.
Proof.
  intros Ok [A1 A2] Ht E. destruct (fire_spec a h d cb Ok Ht) as (a1 & E1 & Ok1 & HP & HC & _).
  rewrite E in E1. injection E1 as <-. split; [done|]. split.
  - intros Q q L. destruct (HP Q q L) as (q0 & L0 & ->). by eapply A1.
  - intros D x L. apply HC in L. by eapply A2.
Qed.

Lemma step_ok w w' : step w w' -> world_ok w -> world_ok w'.
Proof.
  intros St (SO & SK & AA). destruct St as [server ss q r ss' Q E|server ss q r ss' Q E|server ss t a' Ht Hd E|
    server ss now ct H1 H2|server ss a' E]; simpl in *.
  - destruct Q as [q1 q2 [q3 q4] [q5 q6] [q7 q8]].
    destruct (channel_bind_spec server SO socket_type ss (rq_tid q) (rq_buf q) (rq_len q) (rq_nbh q) (rq_rnd q))
      as (r' & a' & E' & Ok' & AA' & _); [done..|]. rewrite E in E'. injection E' as -> ->.
    split; [done|]. split; [by split; [|apply SK]|done].
  - destruct Q as [q1 q2 [q3 q4] [q5 q6] [q7 q8]].
    destruct (create_permission_spec server SO ss (rq_tid q) (rq_buf q) (rq_len q) (rq_nbh q) (rq_rnd q))
      as (r' & a' & E' & Ok' & AA' & _); [done..|]. rewrite E in E'. injection E' as -> ->.
    split; [done|]. split; [by split; [|apply SK]|done].
  - destruct t as [h d cb]. destruct (fire_armed (ss_alloc ss) h d cb a' (proj1 SK) AA Ht E) as [Ok' AA'].
    split; [done|]. split; [by split; [|apply SK]|done].
  - split; [|done]. destruct SO as [s1 s2 s3]. constructor; simpl; [done|done|lia].
  - destruct (clear_allocation_spec (ss_alloc ss) (proj1 SK)) as (a1 & E1 & Ok1 & _ & _ & _ & _ & _ & NP & NC).
    rewrite E in E1. injection E1 as <-. split; [done|]. split; [by split; [|apply SK]|].
    split; [intros P p L; by destruct (NP P p)|intros C c L; by destruct (NC C c)].
Qed.

Lemma steps_ok w w' : rtc step w w' -> world_ok w -> world_ok w'.
Proof. induction 1 as [|w1 w2 w3 St _ IH]; [done|]. intros Ok. by eapply IH, step_ok. Qed.

End session.

(** * From the client's request to the server's tables *)
Lemma by_peer_proper a x y :
  alloc_inv a -> same_peer x y = true ->
  allocation_get_ch_info_by_peer_addr a x = allocation_get_ch_info_by_peer_addr a y.
Proof.
  intros I S. apply lookup_ext; [by apply get_by_peer_returns..|]. intros C. rewrite !(get_by_peer_iff a I).
  assert (forall z, same_peer z x = same_peer z y) as E; [|by setoid_rewrite E].
  intros z. apply same_peer_addr in S as [S1 S2]. unfold same_peer. by rewrite (addr_eq_no_port_right _ _ z S1), S2.
Qed.

Lemma endpoint_peer x y : same_endpoint x y -> known_family y -> same_peer x y = true.
Proof.
  intros S K. unfold same_peer. rewrite (endpoint_eq x y S K). destruct S as [Ep H].
  assert (known_family x) as Kx by (unfold known_family; destruct H as [(F & _)|(F & _)]; auto).
  apply Z.eqb_eq. unfold get_port. simpl. rewrite Ep.
  destruct Kx as [-> | ->], K as [-> | ->]; simpl; done.
Qed.

Lemma all_zero_be l : all_zero l = true -> be l = 0.
Proof.
  unfold all_zero. induction l as [|b l IH]; [done|]. cbn [forallb]. intros H. bool_arith. rewrite be_cons, IH by done. lia.
Qed.

Lemma port_not_any x : get_port x <> 0 -> addr_any (Some x) = false.
Proof.
  intros NP. destruct (addr_any (Some x)) eqn:E; [|done]. exfalso. apply NP.
  assert (all_zero (sin_port x) = true) as Hz%all_zero_be.
  { simpl in E. destruct (port_known x NP) as [F|F]; rewrite F in E; simpl in E; [by bool_arith|].
    by destruct (all_zero (sin_port x)). }
  unfold get_port. simpl. rewrite Hz. by repeat if_case.
Qed.

(** The attributes of a ChannelBind request, as the handler collects them. *)
Lemma bind_scan_request server a buf len ty tid n peer v s :
  repr buf len (SMsg ty STUN_MAGIC_COOKIE tid
    [(STUN_ATTRIBUTE_CHANNEL_NUMBER, to_be 2 n ++ [0; 0]); (STUN_ATTRIBUTE_XOR_PEER_ADDRESS, v)]) ->
  length tid = 12%nat -> STUN_VALID_CHANNEL n = true -> addr_maps server = [] -> addr_wf peer -> known_family peer ->
  1 <= get_port peer -> stun_addr_encode (Some peer) true STUN_MAGIC_COOKIE (Some tid) = Some v -> 0 < blen v ->
  get_relay_socket a (sa_family peer) = Ret s -> s <> 0 ->
  exists peer', same_endpoint peer' peer /\
    attr_scan buf len (fun st => scan_goes_on (br_reply st)) (bind_attr server a buf len)
      (BindReq 0 addr_zero false no_reply) = Ret (BindReq n peer' true no_reply).
Proof.
  intros R Lt Hn EM W K NP Ev Hv Es Hs.
  destruct (attr_scan_repr buf len _ (fun st => scan_goes_on (br_reply st)) (bind_attr server a buf len)
    (fun l st => match l with
                 | [] => st = BindReq 0 addr_zero false no_reply
                 | [_] => st = BindReq n addr_zero false no_reply
                 | _ => exists peer', same_endpoint peer' peer /\ st = BindReq n peer' true no_reply
                 end) R) with (st := BindReq 0 addr_zero false no_reply) as (l1 & l2 & st & E & El & Inv & D).
  - intros off t w l1 l2 st El Ho Ha Inv _.
    cbn [s_attrs] in El. destruct l1 as [|x [|y l1]]; [..|by destruct l1];
      [injection El as <- <- <-|injection El as _ <- <- <-]; simpl in Inv; subst st;
      unfold bind_attr; rewrite (at_type _ _ _ _ _ _ _ R Ho Ha); mstep.
    + change (SKIP_ATTRIBUTES STUN_ATTRIBUTE_CHANNEL_NUMBER) with false. cbn iota. rewrite Z.eqb_refl.
      rewrite (get_channel_at _ _ _ _ _ _ R Ho Ha Hn). mstep. eexists. split; [done|].
      assert (0x4000 <= n) by (unfold STUN_VALID_CHANNEL in Hn; bool_arith; lia).
      by destruct (n =? 0) eqn:?; bool_arith; [lia|].
    + change (SKIP_ATTRIBUTES STUN_ATTRIBUTE_XOR_PEER_ADDRESS) with false. cbn iota.
      change (STUN_ATTRIBUTE_XOR_PEER_ADDRESS =? STUN_ATTRIBUTE_CHANNEL_NUMBER) with false. cbn iota. rewrite Z.eqb_refl, EM.
      destruct (get_addr_at buf len _ off _ v [] peer true R Ho Ha Lt W eq_refl Ev Hv) as (peer' & -> & Se). mstep.
      pose proof (same_peer_addr _ _ (endpoint_peer peer' peer Se K)) as [Sa Spt].
      apply addr_eq_no_port_s_spec in Sa as (-> & _). rewrite Es. mstep. unfold truthy.
      destruct (s =? 0) eqn:?; bool_arith; [done|]. cbn [negb]. destruct (get_port peer' <? 1) eqn:?; bool_arith; [lia|].
      eexists. split; [done|]. by exists peer'.
  - done.
  - cbn [s_attrs] in El. destruct l1 as [|x [|y l1]].
    + rewrite Inv in D. destruct D as [->|D]; [done|by vm_compute in D].
    + rewrite Inv in D. destruct D as [->|D]; [done|by vm_compute in D].
    + destruct Inv as (peer' & Se & ->). by exists peer'.
Qed.


(** * Examples

    A server with the default lifetimes at time 1000 and a session with a valid
    allocation that has an IPv4 relay socket. *)
Definition ex_server : turn_turnserver :=
  TurnServer true false [] [] [] [] STUN_DEFAULT_PERMISSION_LIFETIME STUN_DEFAULT_CHANNEL_LIFETIME 1000 1000 false false []
    1 true false STUN_DEFAULT_MAX_ALLOCATE_LIFETIME.

Definition ex_alloc : allocation :=
  set_allocation_valid (with_sessions (init_allocation 1) [RelaySession 7 0 0; RelaySession 0 0 0]) 1.

Definition ex_session : ts_ur_super_session := Session 1 ex_alloc 2 false false 5 [] false false.

Lemma ex_server_ok : server_ok ex_server.
Proof. constructor; vm_compute; split; congruence. Qed.

Lemma ex_session_ok : sess_ok ex_session.
Proof.
  destruct (init_allocation_ok 1) as [I T]. split; [split|done].
  - by apply (alloc_inv_same (init_allocation 1)).
  - unfold timers_ok. eapply timers_inv_proper; [|reflexivity|exact T]. intros [P|C|i] h e N; [done|done|].
    simpl. destruct i as [|[|i]]; simpl; [split; intros [= <- _]; done|split; intros [= <- _]; done|done].
Qed.

Lemma ex_session_armed : all_armed (ss_alloc ex_session).
Proof. split; intros P p [E A]; apply slot_at_replicate in E; by subst. Qed.

Definition ex_bind_msg : mbuf :=
  match stun_set_channel_bind_request_str [] (zeros 100) (Some ex_peer) 0x4001 0 (zeros 12) with
  | Ret (_, b) => b
  | _ => MBuf [] 0
  end.

(** A CreatePermission request with one XOR-PEER-ADDRESS attribute. *)
Definition ex_perm_msg (v : list Z) : mbuf :=
  match (m ← stun_init_request_str STUN_METHOD_CREATE_PERMISSION (zeros 100) (zeros 12);
         stun_attr_add_str m STUN_ATTRIBUTE_XOR_PEER_ADDRESS (Some v) (blen v)) with
  | Ret (_, b) => b
  | _ => MBuf [] 0
  end.

Definition ex_request (b : mbuf) : request := Request (zeros 12) (mdata b) (mlen b) (zeros 100) (zeros 12).

Definition ex_addr_value : list Z :=
  default [] (stun_addr_encode (Some ex_peer) true STUN_MAGIC_COOKIE (Some (zeros 12))).

Definition ex_socket_type (s : Z) : Z := if s =? 7 then UDP_SOCKET else TCP_SOCKET.

Definition do_bind (server : turn_turnserver) (q : request) (ss : ts_ur_super_session) : outcome (reply * ts_ur_super_session) :=
  handle_turn_channel_bind (M := bump) ex_socket_type server ss (rq_tid q) (rq_buf q) (rq_len q) (rq_nbh q) (rq_rnd q).

Definition do_perm (server : turn_turnserver) (q : request) (ss : ts_ur_super_session) : outcome (reply * ts_ur_super_session) :=
  handle_turn_create_permission (M := bump) server ss (rq_tid q) (rq_buf q) (rq_len q) (rq_nbh q) (rq_rnd q).

Definition session_of (m : outcome (reply * ts_ur_super_session)) : ts_ur_super_session :=
  match m with Ret (_, ss) => ss | _ => ex_session end.

Definition ex_after_bind : ts_ur_super_session := session_of (do_bind ex_server (ex_request ex_bind_msg) ex_session).
Definition ex_after_perm : ts_ur_super_session :=
  session_of (do_perm ex_server (ex_request (ex_perm_msg ex_addr_value)) ex_after_bind).

(** A channel outlives its permission in the books but not in fact: binding a
    channel at time 1000 sets the channel and its permission to expire at 1600;
    a CreatePermission request for the same address sets the permission back to
    1300 and does not touch the channel; when the permission's timer fires at
    1300 the channel is removed with it, 300 seconds before the expiration time
    recorded for it. *)
Theorem channel_dies_with_permission :
  exists a', get_chan (ss_alloc ex_after_perm) 2 = Ret (ChInfo 0x4001 true 5000 ex_peer 1600 2 6 1) /\
    Timer 3 1300 (PermTimeout 6) ∈ a_timers (ss_alloc ex_after_perm) /\
    client_ss_perm_timeout_handler (ss_alloc ex_after_perm) 6 = Ret a' /\
    allocation_get_ch_info (ss_alloc ex_after_perm) 0x4001 = Ret (Some 2) /\
    allocation_get_ch_info a' 0x4001 = Ret None.
Proof.
  exists (match client_ss_perm_timeout_handler (ss_alloc ex_after_perm) 6 with Ret a => a | _ => ex_alloc end).
  split_and!; [vm_compute; reflexivity|vm_compute; left|vm_compute; reflexivity..].
Qed.

Definition perms_in_use (ss : ts_ur_super_session) : nat :=
  length (filter (fun p => p_allocated p = true) (concat (addr_to_perm (ss_alloc ss)))).

(** CreatePermission accepts an XOR-PEER-ADDRESS it cannot decode: a value of
    four bytes is answered with success, makes a permission for an address of no
    family, and since no lookup ever finds such a permission, each repetition of
    the request makes one more. *)
Theorem malformed_address_adds_permissions :
  exists r1 r2 ss1 ss2, let q := ex_request (ex_perm_msg [9; 9; 9; 9]) in
    do_perm ex_server q ex_session = Ret (r1, ss1) /\ do_perm ex_server q ss1 = Ret (r2, ss2) /\
    err_code r1 = 0 /\ resp r1 <> None /\ err_code r2 = 0 /\ resp r2 <> None /\
    perms_in_use ss1 = 1%nat /\ perms_in_use ss2 = 2%nat /\
    allocation_get_permission (ss_alloc ss2) addr_zero = Ret None.
Proof.
  destruct (do_perm ex_server (ex_request (ex_perm_msg [9; 9; 9; 9])) ex_session) as [[r1 ss1]| |] eqn:E1;
    [|vm_compute in E1; discriminate E1..].
  destruct (do_perm ex_server (ex_request (ex_perm_msg [9; 9; 9; 9])) ss1) as [[r2 ss2]| |] eqn:E2;
    vm_compute in E1; injection E1 as <- <-; vm_compute in E2; [|discriminate E2..]; injection E2 as <- <-.
  eexists _, _, _, _. split_and!; vm_compute; done.
Qed.

(** ** Instances *)
Lemma ex_request_ok b : bytes_okb (mdata b) = true -> mlen b <= blen (mdata b) -> request_ok (ex_request b).
Proof.
  intros B L. constructor; simpl; [by apply bytes_okb_spec|done|..]; (split; [by apply bytes_okb_spec|done]).
Qed.

Lemma channel_bind_handler_witness :
  exists r a', do_bind ex_server (ex_request ex_bind_msg) ex_session = Ret (r, with_alloc ex_session a') /\
    resp r <> None /\ alloc_ok a' /\ all_armed a'.
Proof.
  destruct (@channel_bind_handler bump bump_laws ex_server ex_server_ok ex_socket_type ex_session (zeros 12)
              (mdata ex_bind_msg) (mlen ex_bind_msg) (zeros 100) (zeros 12)) as (r & a' & E & Ok & A & _).
  - apply ex_session_ok.
  - apply ex_session_armed.
  - apply bytes_okb_spec. vm_compute. reflexivity.
  - vm_compute. discriminate.
  - apply bytes_okb_spec. vm_compute. reflexivity.
  - vm_compute. discriminate.
  - apply bytes_okb_spec. vm_compute. reflexivity.
  - reflexivity.
  - apply bytes_okb_spec. vm_compute. reflexivity.
  - reflexivity.
  - exists r, a'. split; [exact E|]. split; [|split; [exact Ok|exact A]].
    intros N. vm_compute in E. injection E as <- _. discriminate N.
Defined.

Lemma create_permission_handler_witness :
  exists r a', do_perm ex_server (ex_request (ex_perm_msg ex_addr_value)) ex_session = Ret (r, with_alloc ex_session a') /\
    resp r <> None /\ alloc_ok a' /\ all_armed a'.
Proof.
  destruct (@create_permission_handler bump bump_laws ex_server ex_server_ok ex_session (zeros 12)
              (mdata (ex_perm_msg ex_addr_value)) (mlen (ex_perm_msg ex_addr_value)) (zeros 100) (zeros 12))
    as (r & a' & E & Ok & A & _).
  - apply ex_session_ok.
  - apply ex_session_armed.
  - apply bytes_okb_spec. vm_compute. reflexivity.
  - vm_compute. discriminate.
  - apply bytes_okb_spec. vm_compute. reflexivity.
  - vm_compute. discriminate.
  - apply bytes_okb_spec. vm_compute. reflexivity.
  - reflexivity.
  - apply bytes_okb_spec. vm_compute. reflexivity.
  - reflexivity.
  - exists r, a'. split; [exact E|]. split; [|split; [exact Ok|exact A]].
    intros N. vm_compute in E. injection E as <- _. discriminate N.
Defined.

Lemma do_bind_step server q ss r ss' :
  request_ok q -> do_bind server q ss = Ret (r, ss') -> step (M := bump) ex_socket_type (server, ss) (server, ss').
Proof. apply step_channel_bind. Qed.

(** After the channel was bound. *)
Lemma ex_history : rtc (step (M := bump) ex_socket_type) (ex_server, ex_session) (ex_server, ex_after_bind).
Proof.
  apply rtc_once. destruct (do_bind ex_server (ex_request ex_bind_msg) ex_session) as [[r ss]| |] eqn:E;
    [|vm_compute in E; discriminate E..].
  assert (ex_after_bind = ss) as -> by (unfold ex_after_bind; by rewrite E).
  apply (do_bind_step _ _ _ _ _ (ex_request_ok ex_bind_msg ltac:(vm_compute; reflexivity) ltac:(vm_compute; discriminate)) E).
Qed.


