(* ===== verification/DataPath.v ===== *)
(** The data path of a session: Send indications and ChannelData from the
    client to a peer, datagrams from a peer to the client, and the cluster
    header on them (src/coturn/src/server/ns_turn_server.c: [handle_turn_send],
    [write_to_peerchannel], [write_client_connection], [peer_input_handler]).

    A peer whose IPv4 address is that of this host gets the bare data; any other
    peer is taken for a relay address of another server of the cluster, which
    gets the client's whole message behind a header that names both relay
    addresses.  [dst_addr] is a local variable of which the code sets family,
    port and IPv4 address; its other bytes are zero here.  Statistics are not
    modelled. *)

From stdpp Require Import base option numbers list strings gmap.
From S2P Require Import Prelude IoAddr StunDefs StunMsg StunFraming StunFingerprint StunBuild SlotTable TurnMaps Timers.
From S2P Require Import Allocation NetBuffer Sockets TurnServer.

Record ioa_net_data : Type := NetData {
  src_addr : ioa_addr;
  nd_nbh : option stun_buffer;
  recv_ttl : Z;
  recv_tos : Z }.

Definition without_nbh (d : ioa_net_data) : ioa_net_data := NetData (src_addr d) None (recv_ttl d) (recv_tos d).

(** The handle [in_buffer->nbh]; it is not NULL where it is used. *)
Definition the_nbh (d : ioa_net_data) : outcome stun_buffer :=
  match nd_nbh d with Some n => Ret n | None => UB end.

Definition get_relay_socket_ss (ss : ts_ur_super_session) (family : Z) : outcome Z :=
  get_relay_socket (ss_alloc ss) family.

(** * From the client to a peer *)

(** The datagram for another server: the header is rewritten in place, with
    the relay address of this session as source; the port to send to is the one
    the header carried before. *)
Definition forward_to_server (e : engine) (socks : sockets) (s : Z) (peer_addr : ioa_addr) (nbh : stun_buffer)
    (ttl tos : Z) : outcome (Z * sockets * list wire) :=
  h ← rd_header nbh;
  let dst_addr := IoaAddr AF_INET (dstPort h) (sin_addr peer_addr) (zeros 16) (zeros 4) in
  k ← get_sock socks s;
  nbh ← wr_header nbh (CustomHeader STUN_CUSTOM_DATA_IDENTIFIER (sin_addr (local_addr k)) (sin_port (local_addr k))
                         (sin_addr peer_addr) (sin_port peer_addr));
  send_data_from_ioa_socket_nbh e socks s (Some dst_addr) nbh ttl tos.

(** Whether the peer is on this host. *)
Definition local_peer (socks : sockets) (ss : ts_ur_super_session) (peer_addr : ioa_addr) : outcome bool :=
  c ← get_sock socks (client_socket ss);
  Ret (bytes_eqb (sin_addr peer_addr) (sin_addr (local_addr c))).

(** ** Send indications *)
Record send_req : Type := SendReq {
  sr_peer : ioa_addr;
  sr_value : option Z;
  sr_len : Z;
  set_df_flag : bool;
  sr_reply : reply }.

(** [addr_found] is never set. *)
Definition send_attr (server : turn_turnserver) (buf : list Z) (len : Z) (st : send_req) (sar : Z) : outcome send_req :=
  let r := sr_reply st in
  let addr_found := false in
  attr_type ← stun_attr_get_type buf (Some sar);
  if SKIP_ATTRIBUTES attr_type then Ret st
  else if attr_type =? STUN_ATTRIBUTE_DONT_FRAGMENT then
    if dont_fragment server =? 0 then
      r ← add_unknown r attr_type;
      Ret (SendReq (sr_peer st) (sr_value st) (sr_len st) (set_df_flag st) r)
    else Ret (SendReq (sr_peer st) (sr_value st) (sr_len st) true r)
  else if attr_type =? STUN_ATTRIBUTE_XOR_PEER_ADDRESS then
    if (addr_found : bool) then
      Ret (SendReq (sr_peer st) (sr_value st) (sr_len st) (set_df_flag st) (fail_with r 400 "Address duplication"))
    else
      '(_, peer_addr) ← stun_attr_get_addr_str (addr_maps server) buf len (Some sar) None;
      Ret (SendReq peer_addr (sr_value st) (sr_len st) (set_df_flag st) r)
  else if attr_type =? STUN_ATTRIBUTE_DATA then
    if 0 <=? sr_len st then
      Ret (SendReq (sr_peer st) (sr_value st) (sr_len st) (set_df_flag st) (fail_with r 400 "Data duplication"))
    else
      l ← stun_attr_get_len buf (Some sar);
      v ← stun_attr_get_value buf (Some sar);
      Ret (SendReq (sr_peer st) v l (set_df_flag st) r)
  else if comprehension_required attr_type then
    r ← add_unknown r attr_type;
    Ret (SendReq (sr_peer st) (sr_value st) (sr_len st) (set_df_flag st) r)
  else Ret st.

(** The buffer cut down to the data: [len-STUN_CUSTOM_HEADER_LEN] is 32-bit
    unsigned arithmetic. *)
Definition bare_data (nbh : stun_buffer) (value : option Z) (len : Z) : stun_buffer :=
  match value with
  | Some v =>
      if 0 <? len then
        let offset := u16 (ioa_network_buffer_data nbh + v - ioa_network_buffer_data_origin nbh) in
        ioa_network_buffer_add_offset_size nbh offset 0 (u32 (len - STUN_CUSTOM_HEADER_LEN))
      else ioa_network_buffer_set_size nbh 0
  | None => ioa_network_buffer_set_size nbh 0
  end.

Definition send_to_peer (e : engine) (socks : sockets) (ss : ts_ur_super_session) (st : send_req)
    (in_buffer : ioa_net_data) : outcome (sockets * list wire) :=
  let peer_addr := sr_peer st in
  nbh ← the_nbh in_buffer;
  s ← get_relay_socket_ss ss (sa_family peer_addr);
  socks ← set_df_on_ioa_socket socks s (if set_df_flag st then 1 else 0);
  loc ← local_peer socks ss peer_addr;
  '(_, socks, out) ←
    (if (loc : bool) then
       send_data_from_ioa_socket_nbh e socks s (Some peer_addr) (bare_data nbh (sr_value st) (sr_len st))
         (recv_ttl in_buffer - 1) (recv_tos in_buffer)
     else forward_to_server e socks s peer_addr nbh (recv_ttl in_buffer - 1) (recv_tos in_buffer));
  Ret (socks, out).

Definition handle_turn_send (e : engine) (server : turn_turnserver) (ss : ts_ur_super_session) (socks : sockets)
    (in_buffer : ioa_net_data) : outcome (reply * ioa_net_data * sockets * list wire) :=
  let a := ss_alloc ss in
  if is_tcp_relay ss then Ret (fail_with no_reply 403 "Send cannot be used with TCP relay", in_buffer, socks, [])
  else if negb (truthy (is_allocation_valid a)) || (recv_ttl in_buffer =? 0) then Ret (no_reply, in_buffer, socks, [])
  else
    nbh ← the_nbh in_buffer;
    buf ← nb_from nbh (ioa_network_buffer_data nbh);
    let len := ioa_network_buffer_get_size nbh in
    st ← attr_scan buf len (fun st => scan_goes_on (sr_reply st)) (send_attr server buf len)
           (SendReq addr_zero None (-1) false no_reply);
    let r := sr_reply st in
    if truthy (err_code r) then Ret (r, in_buffer, socks, [])
    else if 0 <? blen (unknown_attrs r) then Ret (fail_with r 420 (reason r), in_buffer, socks, [])
    else if negb (addr_any (Some (sr_peer st))) && (0 <=? sr_len st) then
      tinfo ← (if server_relay server then Ret None else allocation_get_permission a (sr_peer st));
      if bool_decide (tinfo <> None) || server_relay server then
        '(socks, out) ← send_to_peer e socks ss st in_buffer;
        Ret (r, without_nbh in_buffer, socks, out)
      else Ret (r, in_buffer, socks, [])
    else Ret (fail_with r 400 "No address found", in_buffer, socks, []).

(** ** ChannelData *)
Definition write_to_peerchannel (e : engine) (ss : ts_ur_super_session) (socks : sockets) (chnum : Z)
    (in_buffer : ioa_net_data) : outcome (Z * ioa_net_data * sockets * list wire) :=
  if (recv_ttl in_buffer =? 0) || negb (truthy (is_allocation_valid (ss_alloc ss))) then Ret (0, in_buffer, socks, [])
  else
    chn ← allocation_get_ch_info (ss_alloc ss) chnum;
    match chn with
    | None => Ret (-1, in_buffer, socks, [])
    | Some C =>
        chn ← get_chan (ss_alloc ss) C;
        let peer_addr := ch_peer_addr chn in
        s ← get_relay_socket_ss ss (sa_family peer_addr);
        socks ← set_df_on_ioa_socket socks s 0;
        nbh ← the_nbh in_buffer;
        loc ← local_peer socks ss peer_addr;
        '(rc, socks, out) ←
          (if (loc : bool) then
             let nbh := ioa_network_buffer_add_offset_size nbh (STUN_CHANNEL_HEADER_LENGTH + STUN_CUSTOM_HEADER_LEN) 0
                          (u64 (ioa_network_buffer_get_size nbh - STUN_CHANNEL_HEADER_LENGTH)) in
             send_data_from_ioa_socket_nbh e socks s (Some peer_addr) nbh (recv_ttl in_buffer - 1) (recv_tos in_buffer)
           else forward_to_server e socks s peer_addr nbh (recv_ttl in_buffer - 1) (recv_tos in_buffer));
        Ret (rc, without_nbh in_buffer, socks, out)
    end.

(** The ChannelData branch of [read_client_connection]; [None] when the message
    is no ChannelData and the later branches take it. *)
Definition client_channel_data (e : engine) (ss : ts_ur_super_session) (socks : sockets) (in_buffer : ioa_net_data) :
    outcome (option (Z * ioa_net_data * sockets * list wire)) :=
  nbh ← the_nbh in_buffer;
  let blen := ioa_network_buffer_get_size nbh in
  st ← get_ioa_socket_type socks (client_socket ss);
  buf ← nb_from nbh (ioa_network_buffer_data nbh);
  '(is_chan, blen', chnum) ← stun_is_channel_message_str buf blen (is_stream_socket st);
  if (is_chan : bool) then
    if is_tcp_relay ss then Ret (Some (-1, in_buffer, socks, []))
    else if blen' <=? blen then
      let in_buffer := NetData (src_addr in_buffer) (Some (ioa_network_buffer_set_size nbh blen')) (recv_ttl in_buffer)
                         (recv_tos in_buffer) in
      '(_, in_buffer, socks, out) ← write_to_peerchannel e ss socks (default 0 chnum) in_buffer;
      Ret (Some (0, in_buffer, socks, out))
    else Ret (Some (0, in_buffer, socks, []))
  else Ret None.

(** * From a peer to the client *)
Definition write_client_connection (e : engine) (ss : ts_ur_super_session) (socks : sockets) (nbh : stun_buffer)
    (ttl tos : Z) : outcome (Z * sockets * list wire) :=
  if client_socket ss =? 0 then Ret (-1, socks, [])
  else send_data_from_ioa_socket_nbh e socks (client_socket ss) None nbh ttl tos.

Definition get_version (server : turn_turnserver) : list Z :=
  bytes_of_string (if no_software_attribute server then "None" else "Coturn-4.5.1.3 'dan Eider'").

Section peer_input.
Context `{Memcpy}.

(** What a peer datagram becomes once the header of another server is taken
    off: the source address, the buffer with the data at its origin, the length
    of the data and the channel number seen. *)
Record unwrapped : Type := Unwrapped { un_src : ioa_addr; un_nbh : stun_buffer; un_ilen : Z; un_chnum : Z }.

(** [chnum] is read through [payload] after the data were moved. *)
Definition unwrap_channel (src : ioa_addr) (nbh : stun_buffer) (ilen : Z) : outcome unwrapped :=
  let p := ioa_network_buffer_data nbh in
  let n := u64 (ioa_network_buffer_get_size nbh - STUN_CHANNEL_HEADER_LENGTH) in
  m ← memcpy (sb_mem nbh) (ioa_network_buffer_data_origin nbh) (p + STUN_CHANNEL_HEADER_LENGTH) n;
  let nbh := ioa_network_buffer_add_offset_size (with_mem nbh m) 0 0 n in
  chnum ← le <$> rd_bytes m p 2;
  Ret (Unwrapped src nbh (i32 n) chnum).

Definition unwrap_send (src : ioa_addr) (nbh : stun_buffer) (payload : list Z) (payload_len ilen : Z) :
    outcome unwrapped :=
  method ← stun_get_method_str (Some payload) payload_len;
  if method =? STUN_METHOD_SEND then
    value ← attr_iter payload payload_len (fun a =>
              t ← stun_attr_get_type payload (Some a);
              if t =? STUN_ATTRIBUTE_DATA then Some <$> stun_attr_get_value payload (Some a) else Ret None);
    match value with
    | Some (Some v) =>
        len ← rd16 payload (v - 2);
        m ← memcpy (sb_mem nbh) (ioa_network_buffer_data_origin nbh) (ioa_network_buffer_data nbh + v) len;
        Ret (Unwrapped src (ioa_network_buffer_add_offset_size (with_mem nbh m) 0 0 len) len 0)
    | _ => Ret (Unwrapped src nbh ilen 0)
    end
  else Ret (Unwrapped src nbh ilen 0).

Definition unwrap (src : ioa_addr) (nbh : stun_buffer) (ilen : Z) : outcome unwrapped :=
  h ← rd_header nbh;
  if bytes_eqb (identifier h) STUN_CUSTOM_DATA_IDENTIFIER then
    let src := set_port_bytes (set_sin_addr src (srcIp h)) (srcPort h) in
    payload ← nb_from nbh (ioa_network_buffer_data nbh);
    let payload_len := ioa_network_buffer_get_size nbh in
    is_chan ← is_channel_msg_str (Some payload) payload_len;
    if (is_chan : bool) then unwrap_channel src nbh ilen
    else
      ind ← stun_is_indication_str (Some payload) payload_len;
      if (ind : bool) then unwrap_send src nbh payload payload_len ilen
      else Ret (Unwrapped src nbh ilen 0)
  else Ret (Unwrapped src nbh ilen 0).

(** The header of what goes to the client's proxy. *)
Definition client_header (src : ioa_addr) : stun_custom_header :=
  CustomHeader STUN_CUSTOM_IDENTIFIER (zeros 4) (zeros 2) (hton (sin_addr src)) (hton (sin_port src)).

(** The ChannelData message, made in the buffer the datagram came in. *)
Definition channel_out (socks : sockets) (ss : ts_ur_super_session) (u : unwrapped) (chnum : Z) : outcome stun_buffer :=
  let nbh := un_nbh u in
  let len := u64 (un_ilen u) in
  m ← memcpy (sb_mem nbh) (ioa_network_buffer_data nbh) (ioa_network_buffer_data_origin nbh)
        (ioa_network_buffer_get_size_origin nbh + STUN_CHANNEL_HEADER_LENGTH);
  let nbh := ioa_network_buffer_set_size (with_mem nbh m) (len + STUN_CUSTOM_HEADER_LEN) in
  let nbh := ioa_network_buffer_add_offset_size nbh 0 STUN_CHANNEL_HEADER_LENGTH
               (ioa_network_buffer_get_size_origin nbh + STUN_CHANNEL_HEADER_LENGTH) in
  st ← get_ioa_socket_type socks (client_socket ss);
  let p := ioa_network_buffer_data nbh in
  buf ← nb_from nbh p;
  '(_, b) ← stun_init_channel_message_str chnum (MBuf buf len) len (is_stream_socket st);
  wr_header (ioa_network_buffer_set_size (nb_put nbh p (mdata b)) (mlen b)) (client_header (un_src u)).

(** The Data indication, made in a new buffer. *)
Definition indication_out (server : turn_turnserver) (ss : ts_ur_super_session) (u : unwrapped) (rnd : list Z) :
    outcome stun_buffer :=
  let nbh := ioa_network_buffer_allocate in
  let p := ioa_network_buffer_data nbh in
  buf ← nb_from nbh p;
  m ← stun_init_indication_str STUN_METHOD_DATA buf rnd;
  data ← nb_from (un_nbh u) (ioa_network_buffer_data_origin (un_nbh u));
  '(_, m) ← stun_attr_add_str m STUN_ATTRIBUTE_DATA (Some data) (un_ilen u);
  '(_, m) ← stun_attr_add_addr_str (addr_maps server) m STUN_ATTRIBUTE_XOR_PEER_ADDRESS (un_src u);
  '(_, m) ← stun_attr_add_str m STUN_ATTRIBUTE_SOFTWARE (Some (get_version server)) (blen (get_version server));
  m ← (if fingerprint server || enforce_fingerprints ss
       then '(_, m) ← stun_attr_add_fingerprint_str m; Ret m else Ret m);
  wr_header (ioa_network_buffer_set_size (nb_put nbh p (mdata m)) (mlen m)) (client_header (un_src u)).

(** [peer_input_handler] for a read event on socket [s]; [rnd] are the random
    bytes of a new transaction id. *)
Definition peer_input_handler (e : engine) (server : turn_turnserver) (ss : ts_ur_super_session) (socks : sockets)
    (s : Z) (in_buffer : ioa_net_data) (rnd : list Z) : outcome (ioa_net_data * sockets * list wire) :=
  if recv_ttl in_buffer =? 0 then Ret (in_buffer, socks, [])
  else if s =? 0 then Ret (in_buffer, socks, []) else
  k ← get_sock socks s;
  let '(tbc, k) := ioa_socket_tobeclosed e k in
  let socks := <[s := k]> socks in
  if (tbc : bool) then Ret (in_buffer, socks, [])
  else if to_be_closed ss then Ret (in_buffer, socks, [])
  else if client_socket ss =? 0 then Ret (in_buffer, socks, []) else
  c ← get_sock socks (client_socket ss);
  let '(tbc, c) := ioa_socket_tobeclosed e c in
  let socks := <[client_socket ss := c]> socks in
  if (tbc : bool) then Ret (in_buffer, socks, []) else
  family ← get_ioa_socket_address_family socks s;
  elem ← get_relay_session (ss_alloc ss) family;
  if rs_s elem =? 0 then Ret (in_buffer, socks, []) else
  nbh ← the_nbh in_buffer;
  let ilen := Z.min (i32 (ioa_network_buffer_get_size_origin nbh))
                (i32 (ioa_network_buffer_get_capacity_udp - STUN_CHANNEL_HEADER_LENGTH)) in
  if (ilen <? 0) || negb (truthy (is_allocation_valid (ss_alloc ss))) then Ret (in_buffer, socks, []) else
  u ← unwrap (src_addr in_buffer) nbh ilen;
  let in_buffer := NetData (un_src u) (Some (un_nbh u)) (recv_ttl in_buffer) (recv_tos in_buffer) in
  tinfo ← allocation_get_permission (ss_alloc ss) (un_src u);
  chnum ← (match tinfo with
           | Some P => get_turn_channel_number (ss_alloc ss) P (un_src u)
           | None => Ret (un_chnum u)
           end);
  if bool_decide (tinfo = None) && negb (server_relay server) then Ret (in_buffer, socks, [])
  else if truthy chnum then
    nbh ← channel_out socks ss u chnum;
    '(_, socks, out) ← write_client_connection e ss socks nbh (recv_ttl in_buffer - 1) (recv_tos in_buffer);
    Ret (without_nbh in_buffer, socks, out)
  else
    nbh ← indication_out server ss u rnd;
    '(_, socks, out) ← write_client_connection e ss socks nbh (recv_ttl in_buffer - 1) (recv_tos in_buffer);
    Ret (in_buffer, socks, out).
End peer_input.
