(* ===== verification/DataPathFacts.v ===== *)
(** What the data path guarantees: data cross the relay only under a
    permission, whole and to the right place, and nothing a client or a peer
    sends makes the handlers misbehave.

    The sockets are plain datagram sockets ([socks_ok]): no bufferevent and no
    TLS, which is how the servers of a cluster talk. *)

From stdpp Require Import base option numbers list strings gmap.
From S2P Require Import Prelude IoAddr StunAddr StunDefs StunMsg StunMsgFacts StunFraming StunCrc StunFingerprint.
From S2P Require Import StunBuild StunBuildFacts SlotTable KeyMap TurnMaps TurnMapsFacts Timers Allocation AllocationFacts.
From S2P Require Import NetBuffer Sockets TurnServer TurnServerFacts TurnSession DataPath.

(** * Sockets *)

(** What sending leaves alone. *)
Definition static (k : ioa_socket) :=
  (fd k, parent_s k, magic_ok k, bev k, s_family k, (st k, sat k, ssl k, local_addr k, connected k, s_e k, done k, s_session k)).

(** Sockets that differ only in what sending changes. *)
Definition socks_like (m m' : sockets) : Prop := static <$> m = static <$> m'.

#[export] Instance socks_like_equiv : Equivalence socks_like.
Proof. unfold socks_like. split; [by intros m|by intros m m' ->|by intros m m' m'' -> ->]. Qed.

Lemma socks_like_insert m s k k' : m !! s = Some k -> static k' = static k -> socks_like m (<[s := k']> m).
Proof.
  intros E S. unfold socks_like. rewrite fmap_insert, S, insert_id; [done|]. by rewrite lookup_fmap, E.
Qed.

Lemma socks_like_lookup m m' s k : socks_like m m' -> m !! s = Some k -> exists k', m' !! s = Some k' /\ static k' = static k.
Proof.
  intros L E. assert ((static <$> m') !! s = Some (static k)) as F by (rewrite <- L, lookup_fmap, E; done).
  rewrite lookup_fmap in F. destruct (m' !! s) as [k'|]; [|done]. injection F as F. exists k'. split; [done|].
  unfold static. congruence.
Qed.

Record sock_ok (k : ioa_socket) : Prop := SockOk {
  so_bev : bev k = false;
  so_ssl : ssl k = false;
  so_addr : addr_wf (local_addr k) }.

Definition socks_ok (m : sockets) : Prop :=
  forall h k, m !! h = Some k -> h <> 0 /\ sock_ok k /\ (parent_s k = 0 \/ is_Some (m !! parent_s k)).

Lemma socks_ok_like m m' : socks_like m m' -> socks_ok m -> socks_ok m'.
Proof.
  intros L Ok h k E. symmetry in L. destruct (socks_like_lookup m' m h k L E) as (k' & E' & S).
  unfold static in S. injection S as ? Ep ? Eb ? ? ? Es El ? ? ? ?.
  destruct (Ok h k' E') as (N & [B1 B2 B3] & P). split; [done|]. split; [constructor; congruence|].
  destruct P as [P|[p P]]; [left; congruence|right]. symmetry in L.
  destruct (socks_like_lookup m m' _ p L P) as (p' & P' & _). rewrite <- Ep. by exists p'.
Qed.

Lemma get_sock_ret m s k : s <> 0 -> m !! s = Some k -> get_sock m s = Ret k.
Proof. intros N E. unfold get_sock. destruct (s =? 0) eqn:?; bool_arith; [done|]. by rewrite E. Qed.

Lemma set_df_spec m s v :
  socks_ok m -> (s = 0 \/ is_Some (m !! s)) -> exists m', set_df_on_ioa_socket m s v = Ret m' /\ socks_like m m'.
Proof.
  intros Ok Hs. unfold set_df_on_ioa_socket. destruct (s =? 0) eqn:?; bool_arith; [by exists m|].
  destruct Hs as [?|[k E]]; [done|]. rewrite (get_sock_ret m s k) by done. mstep.
  destruct (negb (parent_s k =? 0)); [by exists m|].
  destruct (_ =? _); [by exists m|]. eexists. split; [reflexivity|]. by apply (socks_like_insert m s k).
Qed.

Lemma tobeclosed_static e k : static (ioa_socket_tobeclosed e k).2 = static k.
Proof. unfold ioa_socket_tobeclosed. by repeat case_match. Qed.

Lemma ttl_tos_static k ttl tos : static (set_socket_tos (set_socket_ttl k ttl) tos) = static k.
Proof. unfold set_socket_tos, set_socket_ttl. by repeat case_match. Qed.

Lemma family_returns m s : socks_ok m -> (s = 0 \/ is_Some (m !! s)) -> exists f, get_ioa_socket_address_family m s = Ret f.
Proof.
  intros Ok Hs. unfold get_ioa_socket_address_family. destruct (s =? 0) eqn:?; bool_arith; [eauto|].
  destruct Hs as [?|[k E]]; [done|]. rewrite (get_sock_ret m s k) by done. mstep.
  destruct (_ || _); [eauto|]. destruct (negb (parent_s k =? 0)) eqn:Np; simpl; [|eauto]. bool_arith.
  destruct (negb (s =? parent_s k)); [|eauto].
  destruct (Ok s k E) as (_ & _ & [?|[p P]]); [done|]. rewrite (get_sock_ret m _ p) by done. mstep.
  destruct (_ || _); eauto.
Qed.

(** * Buffers *)
Definition NB_CAP : Z := STUN_CHANNEL_HEADER_LENGTH + STUN_BUFFER_SIZE.

(** A network buffer: its memory and a position within it. *)
Record nb_ok (nbh : stun_buffer) : Prop := NbOk {
  nb_cap : blen (sb_mem nbh) = NB_CAP;
  nb_start : 0 <= ioa_network_buffer_data_origin nbh }.

(** As a datagram of the network fills it. *)
Record nb_received (nbh : stun_buffer) : Prop := NbReceived {
  nr_ok : nb_ok nbh;
  nr_bytes : bytes_ok (sb_mem nbh);
  nr_off : sb_offset nbh = 0;
  nr_coff : sb_coffset nbh = 0;
  nr_len : 0 <= sb_len nbh <= UDP_STUN_BUFFER_SIZE }.

(** The number of bytes sent by [udp_send]. *)
Definition sent_len (nbh : stun_buffer) : Z := i32 (u64 (sb_len nbh + STUN_CUSTOM_HEADER_LEN)).

(** The bytes to be sent are inside the buffer, and so is a message header. *)
Record sendable (nbh : stun_buffer) : Prop := Sendable {
  sd_ok : nb_ok nbh;
  sd_len : 0 <= sent_len nbh;
  sd_fits : ioa_network_buffer_data_origin nbh + sent_len nbh <= NB_CAP;
  sd_head : ioa_network_buffer_data_origin nbh + 34 <= NB_CAP }.

(** Bounds with the sizes in sight. *)
Ltac cap :=
  change UDP_STUN_BUFFER_SIZE with 16384 in *; change NB_CAP with 65511 in *; change STUN_BUFFER_SIZE with 65507 in *;
  change STUN_CHANNEL_HEADER_LENGTH with 4 in *; change STUN_CUSTOM_HEADER_LEN with 14 in *; blia.

Lemma nb_from_ret nbh p :
  nb_ok nbh -> 0 <= p <= NB_CAP ->
  exists l, nb_from nbh p = Ret l /\ l = drop (Z.to_nat p) (sb_mem nbh) /\ blen l = NB_CAP - p.
Proof.
  intros [L _] H. unfold nb_from. rewrite L.
  replace ((0 <=? p) && (p <=? NB_CAP)) with true by (symmetry; apply andb_true_iff; lia).
  eexists. split; [reflexivity|]. split; [done|].
  unfold blen in *. rewrite length_drop. lia.
Qed.

Lemma data_origin nbh : ioa_network_buffer_data nbh = ioa_network_buffer_data_origin nbh + 14.
Proof. done. Qed.

(** The method of a message that was recognised as one. *)
Lemma command_returns buf sz :
  20 <= blen buf -> exists b, stun_is_command_message_str (Some buf) sz = Ret b.
Proof.
  intros L. unfold stun_is_command_message_str, STUN_HEADER_LENGTH.
  destruct (sz >=? 20); cbn [negb]; [|eauto]. rewrite (rd16_ret buf 0) by lia. mstep. if_case; [eauto|].
  rewrite (rd8_ret buf 0) by lia. mstep. if_case; [eauto|].
  rewrite (rd32_ret buf 4) by lia. mstep. if_case; [eauto|].
  rewrite (rd16_ret buf 2) by lia. mstep. if_case; eauto.
Qed.

Lemma method_returns buf sz : 2 <= blen buf -> exists m, stun_get_method_str (Some buf) sz = Ret m.
Proof.
  intros L. unfold stun_get_method_str. destruct (sz <? 2); [eauto|]. rewrite (rd16_ret buf 0) by lia. mstep. eauto.
Qed.

Lemma bandwidth_spec e k nbh read :
  sendable nbh -> exists ok k', ioa_socket_check_bandwidth e k nbh read = Ret (ok, k') /\ static k' = static k.
Proof.
  intros [O L F Hd]. unfold ioa_socket_check_bandwidth. destruct (_ && truthy _); [|eauto].
  destruct (_ <? 1); [eauto|].
  assert (exists c : bool, (if sat k =? CLIENT_SOCKET then
                   buf ← nb_from nbh (ioa_network_buffer_data nbh);
                   cmd ← stun_is_command_message_str (Some buf) (ioa_network_buffer_get_size nbh);
                   if (cmd : bool) then
                     m ← stun_get_method_str (Some buf) (ioa_network_buffer_get_size nbh);
                     Ret (negb (m =? STUN_METHOD_SEND) && negb (m =? STUN_METHOD_DATA))
                   else Ret false
                 else Ret false) = Ret c) as [c ->].
  { destruct (sat k =? CLIENT_SOCKET); [|eauto]. pose proof (nb_start _ O).
    destruct (nb_from_ret nbh (ioa_network_buffer_data nbh) O) as (l & -> & _ & Ll);
      [rewrite data_origin; lia|]. mstep. rewrite data_origin in Ll.
    destruct (command_returns l (ioa_network_buffer_get_size nbh)) as [[] ->]; [lia| |eauto]. mstep.
    destruct (method_returns l (ioa_network_buffer_get_size nbh)) as [m ->]; [lia|]. mstep. eauto. }
  mstep. by repeat case_match; eauto.
Qed.

(** * Sending *)

(** Where a datagram goes: a connected socket has its peer, any other sends to
    the given address, or to the proxy of the host. *)
Definition destination (k : ioa_socket) (dest : option ioa_addr) : option ioa_addr :=
  if connected k && (parent_s k =? 0) then None
  else Some (default (set_sin_addr (set_port_bytes (set_family (remote_addr k) AF_INET) proxy_port)
                        (sin_addr (local_addr k))) dest).

(** The bytes that go out. *)
Definition datagram (nbh : stun_buffer) : list Z :=
  slice (sb_mem nbh) (ioa_network_buffer_data_origin nbh) (sent_len nbh).

(** At most one datagram leaves, with exactly these bytes. *)
Definition emits (m : sockets) (s : Z) (dest : option ioa_addr) (bytes : list Z) (out : list wire) : Prop :=
  out = [] \/ exists k k' df ttl tos, m !! s = Some k /\ static k' = static k /\
    out = [UdpOut s (destination k' dest) df ttl tos bytes].

(** The socket is open and its session has no byte budget. *)
Record ready (e : engine) (k : ioa_socket) : Prop := Ready {
  rd_magic : magic_ok k = true;
  rd_done : done k = false;
  rd_tbc : tobeclosed k = false;
  rd_broken : broken k = false;
  rd_fd : 0 <= fd k;
  rd_e : s_e k = true;
  rd_bps : session_bps e (s_session k) < 1 }.

(** Which sockets there are does not change while sending. *)
Lemma emits_like m m' s dest bytes out : socks_like m m' -> emits m' s dest bytes out -> emits m s dest bytes out.
Proof.
  intros L [->|(k & k' & df & t & o & E & S & ->)]; [by left|right]. symmetry in L.
  destruct (socks_like_lookup m' m s k L E) as (k0 & E0 & S0). exists k0, k', df, t, o. split_and!; [done|congruence|done].
Qed.

Lemma send_emits e m s dest nbh ttl tos :
  socks_ok m -> (s = 0 \/ is_Some (m !! s)) -> sendable nbh ->
  exists rc m' out, send_data_from_ioa_socket_nbh e m s dest nbh ttl tos = Ret (rc, m', out) /\ socks_like m m' /\
    emits m s dest (datagram nbh) out.
Proof.
  intros Ok Hs Sd. unfold send_data_from_ioa_socket_nbh. destruct (s =? 0) eqn:?; bool_arith.
  { eexists _, _, _. split_and!; [reflexivity|done|by left]. }
  destruct Hs as [?|[k0 E0]]; [done|]. rewrite (get_sock_ret m s k0) by done. mstep.
  destruct (_ || _); [eexists _, _, _; split_and!; [reflexivity|done|by left]|].
  destruct (bandwidth_spec e k0 nbh false Sd) as (ok & k1 & E1 & S1). rewrite E1. mstep.
  destruct ok; cbn [negb]; [|eexists _, _, _; split_and!; [reflexivity|by apply (socks_like_insert m s k0)|by left]].
  pose proof (tobeclosed_static e k1) as S2.
  destruct (ioa_socket_tobeclosed e k1) as [tbc k2]. simpl in S2.
  assert (static k2 = static k0) as S20 by congruence.
  destruct (_ || _); [eexists _, _, _; split_and!; [reflexivity|by apply (socks_like_insert m s k0)|by left]|].
  pose proof (ttl_tos_static k2 ttl tos) as S3.
  set (k3 := set_socket_tos (set_socket_ttl k2 ttl) tos) in *.
  assert (static k3 = static k0) as S30 by congruence.
  destruct (Ok s k0 E0) as (_ & [Bb Bs Ba] & _).
  assert (bev k3 = false /\ ssl k3 = false) as [-> ->] by (unfold static in S30; split; congruence).
  rewrite andb_false_r. destruct Sd as [[L St] Ln Lf Hd].
  assert (rd_bytes (sb_mem nbh) (ioa_network_buffer_data_origin nbh)
            (i32 (u64 (ioa_network_buffer_get_size_origin nbh + STUN_CUSTOM_HEADER_LEN))) = Ret (datagram nbh)) as ->.
  { unfold ioa_network_buffer_get_size_origin. fold (sent_len nbh). rewrite rd_bytes_ret by lia. done. }
  destruct (connected k3 && (parent_s k3 =? 0)) eqn:C; [|destruct dest as [d|]]; mstep;
    (destruct (udp_sent e <? 0); eexists _, _, _; (split; [reflexivity|]); (split; [by apply (socks_like_insert m s k0)|]);
     right; exists k0, k3; eexists _, _, _; unfold destination; rewrite C; by split_and!).
Qed.

Lemma ready_send e m s k dest nbh ttl tos :
  socks_ok m -> m !! s = Some k -> ready e k -> sendable nbh ->
  exists rc m' k' df t o, send_data_from_ioa_socket_nbh e m s dest nbh ttl tos
      = Ret (rc, m', [UdpOut s (destination k' dest) df t o (datagram nbh)]) /\
    socks_like m m' /\ static k' = static k.
Proof.
  intros Ok E [Rm Rd Rt Rb Rf Re Rps] Sd. destruct (Ok s k E) as (N & [Bb Bs Ba] & _).
  unfold send_data_from_ioa_socket_nbh. destruct (s =? 0) eqn:?; bool_arith; [done|].
  rewrite (get_sock_ret m s k) by done. mstep. rewrite Rd. destruct (fd k =? -1) eqn:?; bool_arith; [lia|]. cbn [orb].
  assert (ioa_socket_check_bandwidth e k nbh false = Ret (true, k)) as ->.
  { unfold ioa_socket_check_bandwidth. destruct (_ && truthy _); [|done].
    destruct (_ <? 1) eqn:?; bool_arith; [done|lia]. }
  mstep. unfold ioa_socket_tobeclosed. rewrite Rm, Rd, Rt, Rb, Bs. cbn [negb].
  destruct (fd k <? 0) eqn:?; bool_arith; [lia|]. cbn [andb orb]. rewrite Re. cbn [negb].
  pose proof (ttl_tos_static k ttl tos) as S3.
  set (k3 := set_socket_tos (set_socket_ttl k ttl) tos) in *.
  assert (bev k3 = false /\ ssl k3 = false) as [-> ->] by (unfold static in S3; split; congruence).
  rewrite andb_false_r. destruct Sd as [[L St] Ln Lf Hd].
  assert (rd_bytes (sb_mem nbh) (ioa_network_buffer_data_origin nbh)
            (i32 (u64 (ioa_network_buffer_get_size_origin nbh + STUN_CUSTOM_HEADER_LEN))) = Ret (datagram nbh)) as ->.
  { unfold ioa_network_buffer_get_size_origin. fold (sent_len nbh). rewrite rd_bytes_ret by lia. done. }
  destruct (connected k3 && (parent_s k3 =? 0)) eqn:C; [|destruct dest as [d|]]; mstep;
    (destruct (udp_sent e <? 0); eexists _, _, k3, _, _, _; (split; [unfold destination; rewrite C; reflexivity|]);
     (split; [by apply (socks_like_insert m s k)|done])).
Qed.

(** Both in one: an open socket does send. *)
Definition does_send (e : engine) (m : sockets) (s : Z) (out : list wire) : Prop :=
  forall k, m !! s = Some k -> ready e k -> out <> [].

Lemma send_spec e m s dest nbh ttl tos :
  socks_ok m -> (s = 0 \/ is_Some (m !! s)) -> sendable nbh ->
  exists rc m' out, send_data_from_ioa_socket_nbh e m s dest nbh ttl tos = Ret (rc, m', out) /\ socks_like m m' /\
    emits m s dest (datagram nbh) out /\ does_send e m s out.
Proof.
  intros Ok Hs Sd. destruct (send_emits e m s dest nbh ttl tos Ok Hs Sd) as (rc & m' & out & E & L & Em).
  exists rc, m', out. split_and!; [done|done|done|]. intros k Ek Rk.
  destruct (ready_send e m s k dest nbh ttl tos Ok Ek Rk Sd) as (rc' & m2 & k' & df & t & o & E' & _).
  rewrite E in E'. injection E' as -> -> ->. done.
Qed.

(** The don't-fragment flag is no obstacle. *)
Lemma set_df_ready e m s v m' out :
  socks_ok m -> (s = 0 \/ is_Some (m !! s)) -> set_df_on_ioa_socket m s v = Ret m' -> does_send e m' s out -> does_send e m s out.
Proof.
  intros Ok Hs E D k Ek Rk. unfold set_df_on_ioa_socket in E. destruct (Ok s k Ek) as (N & _).
  destruct (s =? 0) eqn:?; bool_arith; [done|]. rewrite (get_sock_ret m s k) in E by done. revert E. mstep.
  destruct (negb (parent_s k =? 0)); [intros [= <-]; by apply (D k)|].
  destruct (_ =? _); [intros [= <-]; by apply (D k)|]. intros [= <-].
  apply (D (set_df k (if do_not_use_df k then 0 else v) (do_not_use_df k))); [by rewrite lookup_insert_eq|].
  destruct Rk. by constructor.
Qed.

(** * Addresses and headers *)
Definition sized (x : ioa_addr) : Prop := length (sin_port x) = 2%nat /\ length (sin_addr x) = 4%nat.
Definition maps_sized (maps : list addr_mapping) : Prop := Forall (fun m => sized (private_addr m)) maps.

Lemma sized_wf x : addr_wf x -> sized x.
Proof. by intros (_ & [? _] & [? _] & _). Qed.

Lemma sized_zero : sized addr_zero.
Proof. done. Qed.

Lemma sized_set_port x p : sized x -> sized (set_port x p).
Proof. intros [? ?]. unfold set_port, addr_set_port. repeat case_match; split; simpl; rewrite ?length_to_be; done. Qed.

Lemma sized_map maps x : maps_sized maps -> sized x -> sized (map_addr_from_public_to_private maps x).
Proof.
  induction 1 as [|m r Hm _ IH]; intros Hx; simpl; [done|]. destruct (addr_eq_no_port_s _ _); [by apply sized_set_port|auto].
Qed.

Lemma length_xor a b n : length a = n -> length b = n -> length (xor_bytes a b) = n.
Proof. intros <- E. unfold xor_bytes. rewrite length_zip_with. lia. Qed.

Lemma length_rd buf i n v : rd_bytes buf i n = Ret v -> length v = Z.to_nat n.
Proof.
  intros E. apply rd_bytes_inv in E as (? & ? & ? & ->). pose proof (blen_slice buf i n). unfold blen in *. lia.
Qed.

Lemma decode_sized cf len xor_ed mc tid r ca :
  stun_addr_decode addr_zero (Some cf) len xor_ed mc tid = Ret (r, ca) -> sized ca.
Proof.
  unfold stun_addr_decode. destruct (_ || _); [by intros [= <- <-]|]. intros (c0 & _ & E)%bind_ret.
  destruct (negb (c0 =? 0)); [by injection E as <- <-|]. apply bind_ret in E as (c1 & _ & E).
  destruct (c1 =? 1); [|destruct (c1 =? 2); [|by injection E as <- <-]].
  all: destruct (negb _); [by injection E as <- <-|]; apply bind_ret in E as (port & Hp%length_rd & E);
    apply bind_ret in E as (addr & Ha%length_rd & E); destruct xor_ed; injection E as <- <-; split; simpl;
    try done; apply length_xor; rewrite ?length_to_be; done.
Qed.

Lemma get_addr_sized maps buf len a r ca :
  maps_sized maps -> stun_attr_get_addr_str maps buf len a None = Ret (r, ca) -> sized ca.
Proof.
  intros M. unfold stun_attr_get_addr_str. intros (tid & _ & E)%bind_ret. apply bind_ret in E as (t & _ & E).
  destruct (t <? 0); [by injection E as <- <-|]. apply bind_ret in E as ([c|] & _ & E); [|by injection E as <- <-].
  apply bind_ret in E as (l & _ & E). apply bind_ret in E as ([r' pub] & D%decode_sized & E).
  destruct (r' <? 0); [by injection E as <- <-|]. injection E as <- <-. by apply sized_map.
Qed.

(** A header is fourteen bytes. *)
Definition header_wf (h : stun_custom_header) : Prop := length (header_bytes h) = 14%nat.

Lemma rd_header_ret nbh :
  nb_ok nbh -> ioa_network_buffer_data_origin nbh + 14 <= NB_CAP ->
  rd_header nbh = Ret (header_of (slice (sb_mem nbh) (ioa_network_buffer_data_origin nbh) 14)).
Proof.
  intros [L S] H. unfold rd_header, STUN_CUSTOM_HEADER_LEN. rewrite rd_bytes_ret by lia. done.
Qed.

Lemma wr_header_ret nbh h :
  nb_ok nbh -> ioa_network_buffer_data_origin nbh + 14 <= NB_CAP -> header_wf h ->
  wr_header nbh h = Ret (with_mem nbh (splice (sb_mem nbh) (ioa_network_buffer_data_origin nbh) (header_bytes h))).
Proof.
  intros [L S] H W. unfold wr_header. rewrite wr_bytes_ret; [done|lia|]. unfold blen at 1. rewrite W. lia.
Qed.

(** Writing the header leaves the rest of the buffer in place. *)
Lemma header_datagram nbh h :
  nb_ok nbh -> header_wf h -> 14 <= sent_len nbh -> ioa_network_buffer_data_origin nbh + sent_len nbh <= NB_CAP ->
  datagram (with_mem nbh (splice (sb_mem nbh) (ioa_network_buffer_data_origin nbh) (header_bytes h))) =
  header_bytes h ++ slice (sb_mem nbh) (ioa_network_buffer_data_origin nbh + 14) (sent_len nbh - 14).
Proof.
  intros [L S] W H1 H2. unfold datagram. change (sent_len (with_mem nbh _)) with (sent_len nbh).
  change (ioa_network_buffer_data_origin (with_mem nbh _)) with (ioa_network_buffer_data_origin nbh). cbn [sb_mem with_mem].
  assert (blen (header_bytes h) = 14) as E14 by (unfold blen; by rewrite W).
  replace (sent_len nbh) with (14 + (sent_len nbh - 14)) at 1 by lia. rewrite slice_add by lia. f_equal.
  - rewrite <- E14. apply slice_splice_same; lia.
  - apply slice_splice_after; lia.
Qed.

(** * The two ways to a peer *)
Definition dst_of (h : stun_custom_header) (peer : ioa_addr) : ioa_addr :=
  IoaAddr AF_INET (dstPort h) (sin_addr peer) (zeros 16) (zeros 4).

(** The header of a datagram to another server. *)
Definition cluster_header (relay peer : ioa_addr) : stun_custom_header :=
  CustomHeader STUN_CUSTOM_DATA_IDENTIFIER (sin_addr relay) (sin_port relay) (sin_addr peer) (sin_port peer).

Lemma cluster_header_wf relay peer : sized relay -> sized peer -> header_wf (cluster_header relay peer).
Proof. intros [? ?] [? ?]. unfold header_wf, header_bytes. simpl. rewrite !length_app. lia. Qed.

(** The header a received datagram begins with. *)
Definition received_header (nbh : stun_buffer) : stun_custom_header := header_of (slice (sb_mem nbh) 4 14).

(** The [n] bytes of a received buffer behind the header, from offset [i]. *)
Definition payload (nbh : stun_buffer) (i n : Z) : list Z := slice (sb_mem nbh) (18 + i) n.

Lemma u64_small_len n : 0 <= n < 2 ^ 31 -> i32 (u64 n) = n.
Proof. intros H. rewrite u64_small by lia. unfold i32. rewrite Z.mod_small by lia. lia. Qed.

Lemma received_sent_len nbh : nb_received nbh -> sent_len nbh = sb_len nbh + 14.
Proof. intros [_ _ _ _ L]. unfold sent_len. apply u64_small_len. cap. Qed.

Lemma received_origin nbh : nb_received nbh -> ioa_network_buffer_data_origin nbh = 4.
Proof. intros [_ _ O C _]. unfold ioa_network_buffer_data_origin. rewrite O, C. done. Qed.

Lemma received_sendable nbh : nb_received nbh -> sendable nbh.
Proof.
  intros R. pose proof (received_sent_len _ R) as E. pose proof (received_origin _ R) as O. destruct R as [Ok _ _ _ L].
  constructor; [done|..]; cap.
Qed.

(** The header of the received datagram rewritten, and what is sent then. *)
Lemma rewrite_header nbh h :
  nb_received nbh -> header_wf h ->
  exists nbh', wr_header nbh h = Ret nbh' /\ sendable nbh' /\ datagram nbh' = header_bytes h ++ payload nbh 0 (sb_len nbh).
Proof.
  intros R W. pose proof (received_sent_len _ R) as E. pose proof (received_origin _ R) as O.
  pose proof (received_sendable _ R) as [Ok S1 S2 S3]. pose proof Ok as [C St]. pose proof (nr_len _ R).
  rewrite (wr_header_ret nbh h Ok ltac:(cap) W). eexists. split; [reflexivity|]. split.
  - constructor; [constructor; [|done]|done..]. cbn [sb_mem with_mem]. rewrite blen_splice; [done|lia|].
    unfold blen at 1. rewrite W. cap.
  - rewrite header_datagram by (done || cap). unfold payload. rewrite O, E. do 2 f_equal; lia.
Qed.

(** Forwarding: the whole received datagram behind the cluster header, to the
    address of the peer's host. *)
Lemma forward_spec e m s k peer nbh ttl tos :
  socks_ok m -> m !! s = Some k -> sized peer -> nb_received nbh ->
  exists rc m' out, forward_to_server e m s peer nbh ttl tos = Ret (rc, m', out) /\ socks_like m m' /\
    emits m s (Some (dst_of (received_header nbh) peer))
      (header_bytes (cluster_header (local_addr k) peer) ++ payload nbh 0 (sb_len nbh)) out /\ does_send e m s out.
Proof.
  intros Ok E Sp R. destruct (Ok s k E) as (N & [_ _ W] & _). unfold forward_to_server.
  pose proof (received_origin _ R) as O. pose proof (received_sendable _ R) as [Nb _ _ _].
  rewrite (rd_header_ret nbh Nb) by (rewrite O; cap). mstep. rewrite (get_sock_ret m s k) by done. mstep.
  destruct (rewrite_header nbh (cluster_header (local_addr k) peer) R) as (nbh' & Ew & Sd & D).
  { apply cluster_header_wf; [by apply sized_wf|done]. }
  unfold cluster_header in Ew. rewrite Ew. mstep. rewrite O, <- D.
  apply send_spec; [done|by right; exists k|done].
Qed.

(** The bare data of a ChannelData message of [4 + n] bytes, [n] may be
    anything from 0 on. *)
Lemma channel_bare nbh n :
  nb_received nbh -> sb_len nbh = 4 + n -> 0 <= n ->
  let nbh' := ioa_network_buffer_add_offset_size nbh (STUN_CHANNEL_HEADER_LENGTH + STUN_CUSTOM_HEADER_LEN) 0
                (u64 (ioa_network_buffer_get_size nbh - STUN_CHANNEL_HEADER_LENGTH)) in
  sendable nbh' /\ datagram nbh' = payload nbh 4 n.
Proof.
  intros [[C St] B O Co L] E Hn. intros nbh'. subst nbh'. unfold ioa_network_buffer_add_offset_size.
  rewrite O, Co. unfold ioa_network_buffer_get_size. rewrite E.
  assert (u64 (u64 (4 + n - STUN_CUSTOM_HEADER_LEN) - STUN_CHANNEL_HEADER_LENGTH) = u64 (n - 14)) as ->.
  { unfold u64. rewrite Zminus_mod_idemp_l. f_equal. cap. }
  change (u16 (0 + (STUN_CHANNEL_HEADER_LENGTH + STUN_CUSTOM_HEADER_LEN))) with 18. change (u8 (0 + 0)) with 0.
  assert (u64 (18 + u64 (n - 14) - 0) = n + 4) as ->.
  { unfold u64. rewrite Z.sub_0_r, Zplus_mod_idemp_r, Z.mod_small; cap. }
  destruct (n + 4 >=? STUN_BUFFER_SIZE) eqn:?; bool_arith; [cap|]. cbn [orb].
  destruct (18 + STUN_CHANNEL_HEADER_LENGTH <? 0) eqn:?; bool_arith; [cap|].
  assert (sent_len (StunBuffer (sb_mem nbh) (u64 (n - 14)) 18 0) = n) as Es.
  { unfold sent_len. cbn [sb_len]. unfold u64 at 1. unfold u64. rewrite Zplus_mod_idemp_l.
    replace (n - 14 + STUN_CUSTOM_HEADER_LEN) with n by cap. apply u64_small_len. cap. }
  split.
  - constructor; [constructor; [done|]|..]; rewrite ?Es; unfold ioa_network_buffer_data_origin; simpl; cap.
  - unfold datagram, payload. rewrite Es. done.
Qed.

(** The bare data of a Send indication: [value] is the offset of the data in
    the message.  Short data are lost, fourteen bytes of the header go out. *)
Lemma send_bare nbh v n :
  nb_received nbh -> 0 <= v -> 0 <= n -> v + n <= UDP_STUN_BUFFER_SIZE ->
  sendable (bare_data nbh (Some v) n) /\
  datagram (bare_data nbh (Some v) n) = (if n <? 14 then slice (sb_mem nbh) 4 14 else payload nbh v n).
Proof.
  intros [[C St] B O Co L] Hv Hn Hl. unfold bare_data.
  assert (sendable (ioa_network_buffer_set_size nbh 0) /\
          datagram (ioa_network_buffer_set_size nbh 0) = slice (sb_mem nbh) 4 14) as Reset.
  { unfold ioa_network_buffer_set_size. rewrite O, Co. split; [|done].
    constructor; [constructor; [done|]|..]; vm_compute; congruence. }
  destruct (0 <? n) eqn:?; bool_arith; [|destruct (n <? 14) eqn:?; bool_arith; [done|lia]].
  unfold ioa_network_buffer_add_offset_size, ioa_network_buffer_data, ioa_network_buffer_data_origin. rewrite O, Co.
  assert (u16 (STUN_CHANNEL_HEADER_LENGTH + 0 - 0 + STUN_CUSTOM_HEADER_LEN + v - (STUN_CHANNEL_HEADER_LENGTH + 0 - 0)) = v + 14) as ->.
  { rewrite u16_small; cap. }
  rewrite (u16_small (0 + (v + 14))) by cap. change (u8 (0 + 0)) with 0. rewrite Z.add_0_l.
  destruct (n <? 14) eqn:?; bool_arith.
  - assert (u32 (n - STUN_CUSTOM_HEADER_LEN) = n - 14 + 2 ^ 32) as ->.
    { unfold u32. rewrite <- (Z.mod_add _ 1), Z.mod_small by cap. cap. }
    rewrite (u64_small (v + 14 + (n - 14 + 2 ^ 32) - 0)) by cap.
    destruct (_ >=? STUN_BUFFER_SIZE) eqn:?; bool_arith; [|cap]. cbn [orb].
    unfold ioa_network_buffer_set_size in Reset. by rewrite O, Co in Reset.
  - rewrite (u32_small (n - STUN_CUSTOM_HEADER_LEN)) by cap.
    rewrite (u64_small (v + 14 + (n - STUN_CUSTOM_HEADER_LEN) - 0)) by cap.
    destruct (_ >=? STUN_BUFFER_SIZE) eqn:?; bool_arith; [cap|]. cbn [orb].
    destruct (_ <? 0) eqn:?; bool_arith; [cap|].
    assert (sent_len (StunBuffer (sb_mem nbh) (n - STUN_CUSTOM_HEADER_LEN) (v + 14) 0) = n) as Es.
    { unfold sent_len. cbn [sb_len]. replace (n - STUN_CUSTOM_HEADER_LEN + STUN_CUSTOM_HEADER_LEN) with n by lia.
      apply u64_small_len. cap. }
    split.
    + constructor; [constructor; [done|]|..]; rewrite ?Es; unfold ioa_network_buffer_data_origin; simpl; cap.
    + unfold datagram, payload. rewrite Es. unfold ioa_network_buffer_data_origin. simpl. f_equal. cap.
Qed.

Lemma relay_socket_returns ss f : alloc_inv (ss_alloc ss) -> exists s, get_relay_socket_ss ss f = Ret s.
Proof.
  intros I. pose proof (inv_sessions _ I) as Ls. unfold get_relay_socket_ss, get_relay_socket, ALLOC_INDEX.
  destruct (relay_sessions (ss_alloc ss)) as [|r1 [|r2 rs]]; simpl in Ls; try lia. destruct (_ =? AF_INET6); simpl; eauto.
Qed.

(** * Send indications *)

(** The peer may be sent to. *)
Definition permitted (server : turn_turnserver) (ss : ts_ur_super_session) (x : ioa_addr) : Prop :=
  server_relay server = true \/ exists P, allocation_get_permission (ss_alloc ss) x = Ret (Some P).

Record send_req_ok (len : Z) (st : send_req) : Prop := SendReqOk {
  sq_resp : resp (sr_reply st) = None;
  sq_peer : sized (sr_peer st);
  sq_value : match sr_value st with
             | Some v => 20 <= v /\ 0 <= sr_len st /\ v + sr_len st <= len
             | None => sr_len st <= 0
             end }.

Lemma send_attr_ok server buf len fin at_ st :
  maps_sized (addr_maps server) -> bytes_ok buf -> len <= blen buf -> fin <= len -> attr_valid buf fin at_ ->
  send_req_ok len st -> scan_goes_on (sr_reply st) = true ->
  exists st', send_attr server buf len st at_ = Ret st' /\ send_req_ok len st'.
Proof.
  intros M B L F V [Q1 Q2 Q3] G. unfold send_attr.
  destruct (type_returns buf len fin at_ B L F V) as [t ->]. mstep.
  destruct (SKIP_ATTRIBUTES t); [by eexists|].
  destruct (t =? STUN_ATTRIBUTE_DONT_FRAGMENT).
  { destruct (dont_fragment server =? 0); [|by eexists]. rewrite add_unknown_ok by done. mstep. by eexists. }
  destruct (t =? STUN_ATTRIBUTE_XOR_PEER_ADDRESS).
  { destruct (get_addr_returns buf len fin at_ B L F V (addr_maps server)) as (r & ca & E). rewrite E. mstep.
    apply get_addr_sized in E; [|done]. by eexists. }
  destruct (t =? STUN_ATTRIBUTE_DATA).
  { destruct (0 <=? sr_len st); [by eexists|].
    destruct V as (Ha & l & El & Rl & Hl). pose proof (pad4_spec l ltac:(lia)).
    unfold stun_attr_get_len, stun_attr_get_value. rewrite El. mstep.
    destruct (l <? 1) eqn:?; bool_arith; (eexists; split; [reflexivity|]; constructor; [done|done|simpl; lia]). }
  destruct (comprehension_required t); [|by eexists]. rewrite add_unknown_ok by done. mstep. by eexists.
Qed.

Section send.
Context (e : engine) (server : turn_turnserver) (ss : ts_ur_super_session) (m : sockets) (in_buffer : ioa_net_data).
Context (nbh : stun_buffer) (c : ioa_socket) (I : alloc_inv (ss_alloc ss)) (Ok : socks_ok m).
Context (Mp : maps_sized (addr_maps server)) (Hc : m !! client_socket ss = Some c).
Context (En : nd_nbh in_buffer = Some nbh) (Rc : nb_received nbh) (Hl : 14 <= sb_len nbh).

(** The message of the received datagram, and the scan of its attributes. *)
Definition message : list Z := drop 18 (sb_mem nbh).
Definition message_len : Z := sb_len nbh - 14.
Definition send_scan : outcome send_req :=
  attr_scan message message_len (fun st => scan_goes_on (sr_reply st)) (send_attr server message message_len)
    (SendReq addr_zero None (-1) false no_reply).

Lemma message_ret :
  nb_from nbh (ioa_network_buffer_data nbh) = Ret message /\ ioa_network_buffer_get_size nbh = message_len /\
  bytes_ok message /\ message_len <= blen message /\ 0 <= message_len <= 16370.
Proof.
  pose proof (received_origin nbh Rc) as O. destruct Rc as [Nb B _ _ L].
  destruct (nb_from_ret nbh 18 Nb) as (l & E & El & Ll); [cap|]. rewrite data_origin, O.
  unfold message, message_len. change (Z.to_nat 18) with 18%nat in El. rewrite <- El.
  split; [done|]. unfold ioa_network_buffer_get_size. rewrite u64_small by cap.
  split; [done|]. split; [subst l; auto with bytes|]. cap.
Qed.

Lemma send_scan_ret : exists st, send_scan = Ret st /\ send_req_ok message_len st.
Proof.
  destruct message_ret as (_ & _ & B & L & _). apply (attr_scan_inv message message_len); [done|done| |by constructor].
  intros fin a st F V Q G. by apply (send_attr_ok server message message_len fin).
Qed.

Lemma payload_message i n : 0 <= i -> payload nbh i n = slice message i n.
Proof.
  intros Hi. unfold payload, message, slice. rewrite drop_drop. do 2 f_equal. lia.
Qed.

Definition on_this_host (x : ioa_addr) : bool := bytes_eqb (sin_addr x) (sin_addr (local_addr c)).

(** What goes out for a Send indication to a peer that may be sent to. *)
Definition send_out (st : send_req) (s : Z) (k : ioa_socket) (out : list wire) : Prop :=
  if on_this_host (sr_peer st)
  then emits m s (Some (sr_peer st))
         (if sr_len st <? 14 then slice (sb_mem nbh) 4 14 else slice message (default 0 (sr_value st)) (sr_len st)) out
  else emits m s (Some (dst_of (received_header nbh) (sr_peer st)))
         (header_bytes (cluster_header (local_addr k) (sr_peer st)) ++ payload nbh 0 (sb_len nbh)) out.

Lemma local_peer_ret m' x : socks_like m m' -> local_peer m' ss x = Ret (on_this_host x).
Proof.
  intros L. destruct (Ok _ c Hc) as (N & _). destruct (socks_like_lookup m m' _ c L Hc) as (c' & E' & S).
  unfold local_peer. rewrite (get_sock_ret m' _ c') by done. mstep. unfold on_this_host.
  replace (local_addr c') with (local_addr c) by (unfold static in S; congruence). done.
Qed.

Lemma send_to_peer_spec st s :
  send_req_ok message_len st -> 0 <= sr_len st -> get_relay_socket_ss ss (sa_family (sr_peer st)) = Ret s ->
  is_Some (m !! s) ->
  exists k m' out, m !! s = Some k /\ send_to_peer e m ss st in_buffer = Ret (m', out) /\ socks_like m m' /\
    send_out st s k out /\ does_send e m s out.
Proof.
  intros [_ Sp Sv] Sl Es [k Ek]. unfold send_to_peer, the_nbh. rewrite En. mstep. rewrite Es. mstep.
  destruct (set_df_spec m s (if set_df_flag st then 1 else 0) Ok) as (m1 & Edf & L1); [by right; exists k|].
  rewrite Edf. mstep. assert (s = 0 \/ is_Some (m !! s)) as Hs by (right; by exists k).
  rewrite (local_peer_ret m1 _ L1). mstep. pose proof (socks_ok_like _ _ L1 Ok) as Ok1.
  destruct (socks_like_lookup m m1 s k L1 Ek) as (k1 & Ek1 & Sk). unfold send_out.
  destruct (on_this_host (sr_peer st)).
  - assert (sendable (bare_data nbh (sr_value st) (sr_len st)) /\
      datagram (bare_data nbh (sr_value st) (sr_len st)) =
        (if sr_len st <? 14 then slice (sb_mem nbh) 4 14 else slice message (default 0 (sr_value st)) (sr_len st))) as [Sd D].
    { destruct message_ret as (_ & _ & _ & _ & Hm). destruct (sr_value st) as [v|].
      - destruct (send_bare nbh v (sr_len st) Rc) as [Sd D]; [lia|lia|cap|]. split; [done|]. rewrite D.
        simpl. rewrite payload_message by lia. done.
      - destruct (send_bare nbh 0 0 Rc) as [Sd D]; [lia|lia|cap|]. split; [done|].
        destruct (sr_len st <? 14) eqn:?; bool_arith; [done|lia]. }
    destruct (send_spec e m1 s (Some (sr_peer st)) _ (recv_ttl in_buffer - 1) (recv_tos in_buffer) Ok1
      ltac:(right; by exists k1) Sd) as (rc & m2 & out & -> & L2 & Em & Ds). mstep.
    exists k, m2, out. split_and!; [done|done|by etrans| |by eapply set_df_ready]. rewrite <- D. by apply (emits_like _ m1).
  - destruct (forward_spec e m1 s k1 (sr_peer st) nbh (recv_ttl in_buffer - 1) (recv_tos in_buffer) Ok1 Ek1 Sp Rc)
      as (rc & m2 & out & -> & L2 & Em & Ds). mstep.
    exists k, m2, out. split_and!; [done|done|by etrans| |by eapply set_df_ready]. apply (emits_like _ m1); [done|].
    replace (local_addr k) with (local_addr k1) by (unfold static in Sk; congruence). done.
Qed.

(** The whole handler. *)
Definition send_ok (r : reply) (d : ioa_net_data) (m' : sockets) (out : list wire) : Prop :=
  socks_like m m' /\
  ((out = [] /\ d = in_buffer) \/
   exists st s k, send_scan = Ret st /\ err_code r = 0 /\ d = without_nbh in_buffer /\ permitted server ss (sr_peer st) /\
     get_relay_socket_ss ss (sa_family (sr_peer st)) = Ret s /\ m !! s = Some k /\ send_out st s k out /\ does_send e m s out).

Lemma handle_send_spec :
  (forall x s, permitted server ss x -> get_relay_socket_ss ss (sa_family x) = Ret s -> is_Some (m !! s)) ->
  exists r d m' out, handle_turn_send e server ss m in_buffer = Ret (r, d, m', out) /\ send_ok r d m' out.
Proof.
  intros Hr. unfold handle_turn_send.
  assert (forall r, exists r' d m' out, Ret (r, in_buffer, m, []) = Ret (r', d, m', out) /\ send_ok r' d m' out) as Quiet.
  { intros r. exists r, in_buffer, m, []. split; [done|]. split; [done|by left]. }
  destruct (is_tcp_relay ss); [apply Quiet|]. destruct (_ || _); [apply Quiet|].
  unfold the_nbh at 1. rewrite En. mstep. destruct message_ret as (-> & Es & _). mstep. rewrite Es.
  destruct send_scan_ret as (st & Sc & Q). pose proof Sc as Sc'. unfold send_scan in Sc'. rewrite Sc'. mstep.
  destruct (truthy (err_code (sr_reply st))) eqn:Er; [apply Quiet|]. destruct (0 <? _); [apply Quiet|].
  destruct (negb (addr_any (Some (sr_peer st))) && (0 <=? sr_len st)) eqn:G; [|apply Quiet]. bool_arith.
  unfold truthy in Er. bool_arith.
  assert (exists t, (if server_relay server then Ret None else allocation_get_permission (ss_alloc ss) (sr_peer st)) = Ret t /\
    (bool_decide (t <> None) || server_relay server = true -> permitted server ss (sr_peer st))) as (t & -> & Pm).
  { destruct (server_relay server) eqn:Sr; [exists None; split; [done|by left]|].
    destruct (get_permission_returns (ss_alloc ss) I (sr_peer st)) as [t Et]. exists t. split; [done|].
    rewrite orb_false_r. intros Ht%bool_decide_eq_true. destruct t as [P|]; [|done]. right. by exists P. }
  mstep. destruct (bool_decide (t <> None) || server_relay server); [|apply Quiet].
  destruct (relay_socket_returns ss (sa_family (sr_peer st)) I) as [s Hs].
  destruct (send_to_peer_spec st s Q ltac:(lia) Hs (Hr _ _ (Pm eq_refl) Hs)) as (k & m' & out & Ek & -> & L & So & Ds). mstep.
  exists (sr_reply st), (without_nbh in_buffer), m', out. split; [done|]. split; [done|]. right. exists st, s, k.
  split_and!; [done|done|done|by apply Pm|done|done|done|done].
Qed.
End send.

(** * ChannelData *)
Section channel.
Context (e : engine) (ss : ts_ur_super_session) (m : sockets) (in_buffer : ioa_net_data) (num n : Z).
Context (nbh : stun_buffer) (c : ioa_socket) (I : alloc_inv (ss_alloc ss)) (Ok : socks_ok m).
Context (Hc : m !! client_socket ss = Some c).
Context (En : nd_nbh in_buffer = Some nbh) (Rc : nb_received nbh) (Hl : sb_len nbh = 4 + n) (Hn : 0 <= n).

(** What goes out on a channel: the bare data on this host, the whole message
    behind the cluster header otherwise. *)
Definition channel_sent (chn : ch_info) (s : Z) (k : ioa_socket) (out : list wire) : Prop :=
  let peer := ch_peer_addr chn in
  if on_this_host c peer then emits m s (Some peer) (payload nbh 4 n) out
  else emits m s (Some (dst_of (received_header nbh) peer))
         (header_bytes (cluster_header (local_addr k) peer) ++ payload nbh 0 (4 + n)) out.

Definition channel_ok (d : ioa_net_data) (m' : sockets) (out : list wire) : Prop :=
  socks_like m m' /\
  ((out = [] /\ d = in_buffer /\
    (recv_ttl in_buffer = 0 \/ is_allocation_valid (ss_alloc ss) = 0 \/
     allocation_get_ch_info (ss_alloc ss) num = Ret None)) \/
   exists C chn s k, allocation_get_ch_info (ss_alloc ss) num = Ret (Some C) /\ get_chan (ss_alloc ss) C = Ret chn /\
     d = without_nbh in_buffer /\ m !! s = Some k /\
     get_relay_socket_ss ss (sa_family (ch_peer_addr chn)) = Ret s /\ channel_sent chn s k out /\ does_send e m s out).

Lemma write_channel_spec :
  (forall C chn, live_chan (ss_alloc ss) C chn -> chnum chn = num -> sized (ch_peer_addr chn) /\
     forall s, get_relay_socket_ss ss (sa_family (ch_peer_addr chn)) = Ret s -> is_Some (m !! s)) ->
  exists rc d m' out, write_to_peerchannel e ss m num in_buffer = Ret (rc, d, m', out) /\ channel_ok d m' out.
Proof.
  intros Hs. unfold write_to_peerchannel.
  destruct (_ || _) eqn:G.
  { exists 0, in_buffer, m, []. split; [done|]. split; [done|]. left. split; [done|]. split; [done|].
    apply orb_true_iff in G as [G|G]; bool_arith; [by left|]. right. left. unfold truthy in G. by bool_arith. }
  destruct (get_ch_info_returns _ I num) as [[C|] F]; rewrite F; mstep;
    [|exists (-1), in_buffer, m, []; split; [done|split; [done|left; by auto]]].
  pose proof F as (chn & LC & Enum)%(get_ch_info_iff _ I). rewrite (live_chan_get _ C chn LC). mstep.
  destruct (Hs C chn LC Enum) as [Sp Hs']. destruct (relay_socket_returns ss (sa_family (ch_peer_addr chn)) I) as [s Es].
  rewrite Es. mstep. destruct (Hs' s Es) as [k Ek].
  assert (s = 0 \/ is_Some (m !! s)) as Hsk by (right; by exists k).
  destruct (set_df_spec m s 0 Ok Hsk) as (m1 & Edf & L1). rewrite Edf. mstep.
  unfold the_nbh. rewrite En. mstep. rewrite (local_peer_ret ss m c Ok Hc m1 _ L1). mstep.
  pose proof (socks_ok_like _ _ L1 Ok) as Ok1. destruct (socks_like_lookup m m1 s k L1 Ek) as (k1 & Ek1 & Sk).
  assert (forall m' out, socks_like m1 m' -> channel_sent chn s k out -> does_send e m1 s out ->
    channel_ok (without_nbh in_buffer) m' out) as Done.
  { intros m' out L2 H Ds. split; [by etrans|]. right. exists C, chn, s, k.
    split_and!; try done; [by apply live_chan_get|by eapply set_df_ready]. }
  unfold channel_sent in Done. destruct (on_this_host c (ch_peer_addr chn)).
  - destruct (channel_bare nbh n Rc Hl Hn) as [Sd D].
    destruct (send_spec e m1 s (Some (ch_peer_addr chn)) _ (recv_ttl in_buffer - 1) (recv_tos in_buffer) Ok1
      ltac:(right; by exists k1) Sd) as (rc & m2 & out & -> & L2 & Em & Ds). mstep. exists rc, (without_nbh in_buffer), m2, out.
    split; [done|]. apply Done; [done| |done]. rewrite <- D. by apply (emits_like _ m1).
  - destruct (forward_spec e m1 s k1 (ch_peer_addr chn) nbh (recv_ttl in_buffer - 1) (recv_tos in_buffer) Ok1 Ek1 Sp Rc)
      as (rc & m2 & out & -> & L2 & Em & Ds). mstep. exists rc, (without_nbh in_buffer), m2, out.
    split; [done|]. apply Done; [done| |done]. apply (emits_like _ m1); [done|].
    replace (local_addr k) with (local_addr k1) by (unfold static in Sk; congruence). by rewrite <- Hl.
Qed.
End channel.
