(* ===== verification/PeerPathFacts.v ===== *)
(** Datagrams from peers: what [peer_input_handler] makes of them.

    A datagram is taken apart ([unwrap]) when it carries the header of another
    server; the client then gets the data as ChannelData or as a Data
    indication, if the source has a permission. *)

From stdpp Require Import base option numbers list strings gmap.
From S2P Require Import Prelude IoAddr StunAddr StunDefs StunMsg StunMsgFacts StunFraming StunCrc StunFingerprint.
From S2P Require Import StunBuild StunBuildFacts SlotTable KeyMap TurnMaps TurnMapsFacts Timers Allocation AllocationFacts.
From S2P Require Import NetBuffer Sockets TurnServer TurnServerFacts TurnSession DataPath DataPathFacts.

(** A datagram in a fresh buffer: the bytes behind it are zero. *)
Record nb_fresh (nbh : stun_buffer) : Prop := NbFresh {
  nf_received : nb_received nbh;
  nf_clean : all_zero (drop (Z.to_nat (4 + sb_len nbh)) (sb_mem nbh)) = true }.

Section peer.
Context {MC : Memcpy} (MV : forall mem d s n, overlapping mem d s n = memmove mem d s n).

Lemma memcpy_ret mem d s n :
  0 <= d -> 0 <= s -> 0 <= n -> s + n <= blen mem -> d + n <= blen mem ->
  memcpy mem d s n = Ret (splice mem d (slice mem s n)).
Proof.
  intros. assert (memmove mem d s n = Ret (splice mem d (slice mem s n))) as E.
  { unfold memmove. rewrite rd_bytes_ret by lia. mstep. rewrite wr_bytes_ret; [done|lia|]. rewrite blen_slice; lia. }
  unfold memcpy. destruct (_ || _); [done|by rewrite MV].
Qed.

(** ** Taking a datagram apart *)
Record un_ok (src : ioa_addr) (u : unwrapped) : Prop := UnOk {
  uo_nb : nb_received (un_nbh u);
  uo_ilen : 0 <= un_ilen u <= sb_len (un_nbh u);
  uo_cap : un_ilen u <= UDP_STUN_BUFFER_SIZE - 4;
  uo_src : addr_wf (un_src u);
  uo_family : sa_family (un_src u) = sa_family src }.

(** Data moved to the front of the buffer. *)
Lemma move_front nbh p n :
  nb_received nbh -> 4 <= p -> 0 <= n -> p + n <= NB_CAP -> n <= UDP_STUN_BUFFER_SIZE ->
  exists mem, memcpy (sb_mem nbh) (ioa_network_buffer_data_origin nbh) p n = Ret mem /\
    ioa_network_buffer_add_offset_size (with_mem nbh mem) 0 0 n = StunBuffer mem n 0 0 /\
    nb_received (StunBuffer mem n 0 0) /\ slice mem 4 n = slice (sb_mem nbh) p n.
Proof.
  intros R Hp Hn Hc Hu. rewrite (received_origin nbh R). pose proof R as [[C St] B O Co L].
  rewrite memcpy_ret by cap. assert (blen (slice (sb_mem nbh) p n) = n) as Ls by (rewrite blen_slice; cap).
  eexists. split; [reflexivity|]. split.
  - unfold ioa_network_buffer_add_offset_size. cbn [sb_offset sb_coffset with_mem sb_mem]. rewrite O, Co.
    change (u16 (0 + 0)) with 0. change (u8 (0 + 0)) with 0. rewrite (u64_small (0 + n - 0)) by cap.
    destruct (_ >=? _) eqn:?; bool_arith; [cap|]. done.
  - split.
    + constructor; [constructor|..]; cbn [sb_mem sb_offset sb_coffset sb_len]; [|done| |done|done|cap].
      * rewrite blen_splice; cap.
      * auto with bytes.
    + pose proof (slice_splice_same (sb_mem nbh) 4 (slice (sb_mem nbh) p n)) as E. rewrite Ls in E. apply E; cap.
Qed.

Lemma header_slices nbh : nb_received nbh ->
  length (srcIp (received_header nbh)) = 4%nat /\ length (srcPort (received_header nbh)) = 2%nat /\
  bytes_ok (srcIp (received_header nbh)) /\ bytes_ok (srcPort (received_header nbh)).
Proof.
  intros [[C _] B _ _ _]. unfold received_header, header_of. simpl.
  assert (blen (slice (sb_mem nbh) 4 14) = 14) as L by (rewrite blen_slice; cap).
  pose proof (blen_slice (slice (sb_mem nbh) 4 14) 2 4) as L1. pose proof (blen_slice (slice (sb_mem nbh) 4 14) 6 2) as L2.
  unfold blen in *. split_and!; [lia|lia|auto with bytes..].
Qed.

(** The source a datagram claims when it carries the header of a server. *)
Definition claimed_src (src : ioa_addr) (nbh : stun_buffer) : ioa_addr :=
  set_port_bytes (set_sin_addr src (srcIp (received_header nbh))) (srcPort (received_header nbh)).

Lemma claimed_wf src nbh : nb_received nbh -> addr_wf src -> addr_wf (claimed_src src nbh).
Proof.
  intros R W. destruct (header_slices nbh R) as (? & ? & ? & ?). destruct W as (F & P & A & A6 & S).
  split; [done|]. split; [done|]. split; [done|]. by split.
Qed.

Lemma zero_slice nbh i n : nb_fresh nbh -> 4 + sb_len nbh <= i -> 0 <= n -> i + n <= NB_CAP ->
  slice (sb_mem nbh) i n = zeros (Z.to_nat n).
Proof.
  intros [[[C _] _ _ _ L] Z0] Hi Hn Hc. set (k := Z.to_nat (4 + sb_len nbh)) in *.
  assert (slice (sb_mem nbh) i n = slice (drop k (sb_mem nbh)) (i - (4 + sb_len nbh)) n) as ->.
  { unfold slice. rewrite drop_drop. do 2 f_equal. lia. }
  assert (blen (slice (drop k (sb_mem nbh)) (i - (4 + sb_len nbh)) n) = n) as Ln.
  { rewrite blen_slice; [done|lia|lia|]. unfold blen in *. rewrite length_drop. cap. }
  unfold zeros. apply list_eq_same_length with (n := Z.to_nat n); [by rewrite length_replicate|unfold blen in Ln; lia|].
  intros j x y Hj Hx Hy. apply lookup_replicate in Hy as [-> _].
  unfold all_zero in Z0. rewrite forallb_forall in Z0. symmetry. apply Z.eqb_eq, Z0, list_elem_of_In.
  apply list_elem_of_lookup_2 in Hx. unfold slice in Hx. apply elem_of_take in Hx as (a & Ha & _).
  rewrite lookup_drop in Ha. by apply list_elem_of_lookup_2 in Ha.
Qed.

Definition marked (nbh : stun_buffer) : bool :=
  bytes_eqb (identifier (received_header nbh)) STUN_CUSTOM_DATA_IDENTIFIER.

(** The data a datagram turned out to carry. *)
Definition un_data (u : unwrapped) : list Z := slice (sb_mem (un_nbh u)) 4 (un_ilen u).

Lemma un_data_len src u : un_ok src u -> blen (un_data u) = un_ilen u.
Proof. intros [R ? ? _ _]. pose proof (nr_len _ R). pose proof (nb_cap _ (nr_ok _ R)). unfold un_data. rewrite blen_slice; cap. Qed.

Definition cut (nbh : stun_buffer) : Z := Z.min (sb_len nbh) (UDP_STUN_BUFFER_SIZE - 4).

Lemma unmoved_ok src src' nbh n :
  nb_received nbh -> addr_wf src' -> sa_family src' = sa_family src -> un_ok src (Unwrapped src' nbh (cut nbh) n).
Proof. intros R W F. pose proof (nr_len _ R). constructor; simpl; try done; unfold cut; cap. Qed.

Lemma channel_check_returns buf sz :
  4 <= blen buf -> exists b, is_channel_msg_str (Some buf) sz = Ret b /\ (b = true -> 4 <= sz).
Proof.
  intros L. unfold is_channel_msg_str. destruct (sz >=? 4) eqn:?; bool_arith; [|by exists false].
  rewrite (rd16_ret buf 0) by lia. mstep. eexists. split; [done|]. lia.
Qed.

Lemma indication_check_returns buf sz :
  4 <= blen buf -> exists b, stun_is_indication_str (Some buf) sz = Ret b.
Proof.
  intros L. unfold stun_is_indication_str. destruct (channel_check_returns buf sz L) as ([] & -> & _); mstep; [eauto|].
  unfold stun_get_msg_type_str. destruct (sz <? 2); mstep; [eauto|]. rewrite (rd16_ret buf 0) by lia. mstep. eauto.
Qed.

(** A ChannelData message of another server. *)
Lemma unwrap_channel_spec src src' nbh n :
  nb_received nbh -> sb_len nbh = 18 + n -> 0 <= n -> addr_wf src' -> sa_family src' = sa_family src ->
  exists u, unwrap_channel src' nbh (cut nbh) = Ret u /\ un_ok src u /\ un_src u = src' /\ un_data u = payload nbh 4 n /\
    un_ilen u = n.
Proof.
  intros R E Hn W F. pose proof (received_origin nbh R) as O. pose proof R as [[C St] B _ _ L]. unfold unwrap_channel.
  assert (u64 (ioa_network_buffer_get_size nbh - STUN_CHANNEL_HEADER_LENGTH) = n) as ->.
  { unfold ioa_network_buffer_get_size. rewrite (u64_small (sb_len nbh - _)), u64_small; cap. }
  destruct (move_front nbh (ioa_network_buffer_data nbh + STUN_CHANNEL_HEADER_LENGTH) n R) as (mem & E1 & E2 & R' & D);
    [rewrite ?data_origin, ?O; cap..|]. rewrite E1. mstep. rewrite E2.
  assert (blen mem = NB_CAP) as Cm by apply R'. rewrite rd_bytes_ret by (rewrite ?data_origin, ?O; cap). mstep.
  rewrite (i32_small n) by cap.
  eexists. split; [reflexivity|]. split; [constructor; simpl; try done; cap|]. split; [done|]. split; [|done].
  unfold un_data. simpl. rewrite D. unfold payload. f_equal. rewrite data_origin, O. done.
Qed.

Definition send_data_attr (buf : list Z) (len : Z) : outcome (option (option Z)) :=
  attr_iter buf len (fun a =>
    t ← stun_attr_get_type buf (Some a);
    if t =? STUN_ATTRIBUTE_DATA then Some <$> stun_attr_get_value buf (Some a) else Ret None).

(** A Send indication of another server: the data moved to the front, or the
    datagram as it is when it has none. *)
Lemma unwrap_send_spec src src' nbh :
  nb_received nbh -> 14 <= sb_len nbh -> addr_wf src' -> sa_family src' = sa_family src ->
  exists u, unwrap_send src' nbh (message nbh) (message_len nbh) (cut nbh) = Ret u /\ un_ok src u /\ un_src u = src'.
Proof.
  intros R Hl W F. pose proof (received_origin nbh R) as O. destruct (message_ret nbh R Hl) as (_ & _ & B & L & Hm).
  assert (NB_CAP - 18 = blen (message nbh)) as Lm.
  { unfold message, blen. rewrite length_drop. pose proof (nb_cap _ (nr_ok _ R)). unfold blen in *. cap. }
  unfold unwrap_send. destruct (method_returns (message nbh) (message_len nbh)) as [t ->]; [cap|]. mstep.
  assert (un_ok src (Unwrapped src' nbh (cut nbh) 0)) as U0 by by apply unmoved_ok.
  destruct (t =? STUN_METHOD_SEND); [|by eexists].
  destruct (attr_iter_returns (message nbh) (message_len nbh) (fun a =>
    t ← stun_attr_get_type (message nbh) (Some a);
    if t =? STUN_ATTRIBUTE_DATA then Some <$> stun_attr_get_value (message nbh) (Some a) else Ret None) B L)
    as (r & Er & Hr).
  { intros fin a Hf V. destruct (type_returns (message nbh) _ fin a B L Hf V) as [ty ->]. mstep.
    destruct (ty =? STUN_ATTRIBUTE_DATA); [|by eexists].
    destruct (value_returns (message nbh) _ fin a L Hf V) as (l & _ & _ & _ & ->). mstep. by eexists. }
  fold (send_data_attr (message nbh) (message_len nbh)) in *. rewrite Er. mstep.
  destruct r as [[v|]|]; [|by eexists..]. destruct (Hr _ eq_refl) as (fin & a & Hf & V & Eb).
  destruct (type_returns (message nbh) _ fin a B L Hf V) as [ty Ety]. rewrite Ety in Eb. revert Eb. mstep.
  destruct (ty =? STUN_ATTRIBUTE_DATA); [|done]. destruct V as (Ha & l & El & Rl & Hlen).
  pose proof (pad4_spec l ltac:(lia)). unfold stun_attr_get_value. rewrite El. mstep.
  destruct (l <? 1) eqn:?; bool_arith; intros [= <-].
  replace (a + 4 - 2) with (a + 2) by lia. rewrite El. mstep.
  destruct (move_front nbh (ioa_network_buffer_data nbh + (a + 4)) l R) as (mem & E1 & E2 & R' & D);
    [rewrite ?data_origin, ?O; cap..|]. rewrite E1. mstep. rewrite E2. eexists. split; [reflexivity|].
  split; [|done]. constructor; simpl; try done; cap.
Qed.

(** Every datagram can be taken apart; only one that is marked changes its
    source. *)
Lemma unwrap_spec src nbh :
  nb_fresh nbh -> addr_wf src ->
  exists u, unwrap src nbh (cut nbh) = Ret u /\ un_ok src u /\
    un_src u = (if marked nbh then claimed_src src nbh else src) /\
    (marked nbh = false -> un_nbh u = nbh /\ un_data u = payload nbh (-14) (cut nbh)).
Proof.
  intros Fr W. pose proof Fr as [R _]. pose proof (received_origin nbh R) as O. pose proof R as [Nb B _ _ L].
  unfold unwrap. rewrite (rd_header_ret nbh Nb) by (rewrite O; cap). mstep. rewrite O. fold (received_header nbh).
  unfold marked. destruct (bytes_eqb _ _).
  2: { eexists. split; [reflexivity|]. split; [by apply unmoved_ok|]. split; [done|]. by intros _. }
  set (src' := set_port_bytes _ _). change src' with (claimed_src src nbh). clear src'.
  pose proof (claimed_wf src nbh R W) as W'. assert (sa_family (claimed_src src nbh) = sa_family src) as F by done.
  rewrite data_origin, O. destruct (nb_from_ret nbh 18 Nb) as (l & E & -> & Ll); [cap|].
  change (4 + 14) with 18. rewrite E. mstep. change (drop (Z.to_nat 18) (sb_mem nbh)) with (message nbh) in *.
  destruct (decide (14 <= sb_len nbh)) as [H14|H14].
  - destruct (message_ret nbh R H14) as (_ & -> & _).
    destruct (channel_check_returns (message nbh) (message_len nbh)) as (ch & -> & Hch); [cap|]. mstep. destruct ch.
    { specialize (Hch eq_refl). destruct (unwrap_channel_spec src (claimed_src src nbh) nbh (message_len nbh - 4) R)
        as (u & -> & U & Es & _); [unfold message_len in *; cap|cap|done|done|]. by exists u. }
    destruct (indication_check_returns (message nbh) (message_len nbh)) as (ind & ->); [cap|]. mstep.
    destruct ind; [|eexists; split; [reflexivity|]; by split; [apply unmoved_ok|]].
    destruct (unwrap_send_spec src (claimed_src src nbh) nbh R H14 W' F) as (u & -> & U & Es). by exists u.
  - assert (slice (message nbh) 0 2 = zeros 2) as Z2.
    { rewrite <- payload_message by lia. apply (zero_slice nbh 18 2 Fr); cap. }
    assert (rd16 (message nbh) 0 = Ret 0) as E16 by (rewrite rd16_ret by cap; by rewrite Z2).
    assert (forall sz, is_channel_msg_str (Some (message nbh)) sz = Ret false) as Nc.
    { intros sz. unfold is_channel_msg_str. destruct (sz >=? 4); [|done]. by rewrite E16. }
    rewrite Nc. mstep. unfold stun_is_indication_str. rewrite Nc. mstep. unfold stun_get_msg_type_str.
    assert (ioa_network_buffer_get_size nbh = sb_len nbh - 14 + 2 ^ 64) as ->.
    { unfold ioa_network_buffer_get_size, u64. rewrite <- (Z.mod_add _ 1), Z.mod_small by cap. cap. }
    destruct (_ <? 2) eqn:?; bool_arith; [cap|]. rewrite E16. mstep. change (IS_STUN_INDICATION _) with false. cbn iota.
    eexists. split; [reflexivity|]. by split; [apply unmoved_ok|].
Qed.

(** ** To the client *)
Lemma client_header_wf src : sized src -> header_wf (client_header src).
Proof.
  intros [? ?]. unfold header_wf, header_bytes. simpl. rewrite !length_app. unfold hton. rewrite !length_rev. simpl. lia.
Qed.

(** A message at the data pointer, with the header in front. *)
Lemma finish_buffer nbh b src :
  nb_ok nbh -> sized src -> blen (mdata b) = NB_CAP - ioa_network_buffer_data nbh -> 20 <= blen (mdata b) ->
  0 <= mlen b < 2 ^ 16 -> mlen b <= blen (mdata b) ->
  exists nbh', wr_header (ioa_network_buffer_set_size (nb_put nbh (ioa_network_buffer_data nbh) (mdata b)) (mlen b))
                 (client_header src) = Ret nbh' /\
    sendable nbh' /\ datagram nbh' = header_bytes (client_header src) ++ slice (mdata b) 0 (mlen b).
Proof.
  intros Nb Hs Lb L20 Lm Hm. pose proof Nb as [C St]. rewrite data_origin in Lb. set (p := ioa_network_buffer_data nbh).
  set (nb1 := ioa_network_buffer_set_size (nb_put nbh p (mdata b)) (mlen b)).
  assert (ioa_network_buffer_data_origin nb1 = ioa_network_buffer_data_origin nbh) as O1 by done.
  assert (p = ioa_network_buffer_data_origin nbh + 14) as Ep by done.
  assert (blen (take (Z.to_nat p) (sb_mem nbh)) = p) as Lt by (apply blen_take; lia).
  assert (blen (sb_mem nb1) = NB_CAP) as C1.
  { simpl. rewrite blen_app, Lt. lia. }
  assert (nb_ok nb1) as Nb1 by (by constructor; [|rewrite O1]).
  assert (sent_len nb1 = mlen b + 14) as Sl by (unfold sent_len; simpl; apply u64_small_len; cap).
  rewrite (wr_header_ret nb1 _ Nb1 ltac:(lia) (client_header_wf src Hs)). eexists. split; [reflexivity|]. split.
  - assert (blen (header_bytes (client_header src)) = 14) as Hb by (unfold blen; by rewrite (client_header_wf src Hs)).
    constructor; [constructor; [|done]|..].
    + cbn [sb_mem with_mem]. rewrite blen_splice; [done|lia|rewrite Hb; lia].
    + change (sent_len (with_mem nb1 _)) with (sent_len nb1). lia.
    + change (sent_len (with_mem nb1 _)) with (sent_len nb1). change (ioa_network_buffer_data_origin (with_mem nb1 _)) with
        (ioa_network_buffer_data_origin nb1). lia.
    + change (ioa_network_buffer_data_origin (with_mem nb1 _)) with (ioa_network_buffer_data_origin nb1). lia.
  - rewrite header_datagram; [|done|by apply client_header_wf|lia|lia]. f_equal. rewrite Sl, O1, <- Ep. simpl.
    rewrite slice_app_r by lia. rewrite Lt. f_equal; lia.
Qed.

(** ChannelData with the number of the channel and the data. *)
Lemma channel_out_spec src m ss c u num :
  un_ok src u -> socks_ok m -> m !! client_socket ss = Some c ->
  exists nbh' pad, channel_out m ss u num = Ret nbh' /\ sendable nbh' /\
    datagram nbh' = header_bytes (client_header (un_src u)) ++ to_be 2 num ++ to_be 2 (un_ilen u) ++ un_data u ++ pad /\
    blen pad = (if is_stream_socket (st c) then pad4 (un_ilen u) - un_ilen u else 0).
Proof.
  intros [R Hi Hcp W _] Ok Hc. pose proof (received_origin _ R) as O. pose proof R as [Nb B Of Co L]. pose proof Nb as [C _].
  destruct (Ok _ c Hc) as (N & _ & _). set (mem := sb_mem (un_nbh u)) in *. set (n := un_ilen u) in *.
  unfold channel_out. fold mem. fold n. rewrite (u64_small n) by cap. rewrite data_origin, O.
  change (ioa_network_buffer_get_size_origin (un_nbh u)) with (sb_len (un_nbh u)).
  rewrite memcpy_ret by cap. mstep. set (mem1 := splice mem (4 + 14) (slice mem 4 _)).
  assert (blen mem1 = NB_CAP) as C1 by (subst mem1; rewrite blen_splice; rewrite ?blen_slice; cap).
  assert (bytes_ok mem1) as B1 by (subst mem1; auto with bytes).
  set (nb1 := ioa_network_buffer_set_size (with_mem (un_nbh u) mem1) (n + STUN_CUSTOM_HEADER_LEN)).
  assert (ioa_network_buffer_add_offset_size nb1 0 STUN_CHANNEL_HEADER_LENGTH
            (ioa_network_buffer_get_size_origin nb1 + STUN_CHANNEL_HEADER_LENGTH) = StunBuffer mem1 (n + 18) 0 4) as ->.
  { unfold ioa_network_buffer_add_offset_size, ioa_network_buffer_get_size_origin. subst nb1. simpl. rewrite Of, Co.
    change (u16 (0 + 0)) with 0. change (u8 (0 + STUN_CHANNEL_HEADER_LENGTH)) with 4.
    rewrite (u64_small (0 + (n + STUN_CUSTOM_HEADER_LEN + STUN_CHANNEL_HEADER_LENGTH) - 4)) by cap.
    destruct (_ >=? _) eqn:?; bool_arith; [cap|]. cbn [orb]. change (0 + STUN_CHANNEL_HEADER_LENGTH <? 4) with false. cbn iota.
    f_equal. cap. }
  unfold get_ioa_socket_type. destruct (client_socket ss =? 0) eqn:?; bool_arith; [done|].
  rewrite (get_sock_ret m _ c) by done. mstep. set (nb2 := StunBuffer mem1 (n + 18) 0 4).
  assert (nb_ok nb2) as Nb2 by (by constructor). change (ioa_network_buffer_data nb2) with 14.
  destruct (nb_from_ret nb2 14 Nb2) as (buf & -> & Eb & Lb); [cap|]. mstep.
  assert (bytes_ok buf) as Bb by (subst buf; simpl; auto with bytes).
  destruct (init_channel_ret num (MBuf buf n) n (is_stream_socket (st c)) Bb) as (b & -> & _ & Lb2 & S0 & S2 & Fr);
    [simpl; cap|cap|]. mstep. simpl in Lb2, Fr.
  set (plen := if is_stream_socket (st c) then pad4 n else n).
  assert (n <= plen <= n + 3) as Hp by (subst plen; pose proof (pad4_spec n ltac:(cap)); destruct (is_stream_socket _); lia).
  destruct (finish_buffer nb2 (MBuf b (4 + plen)) (un_src u) Nb2 (sized_wf _ W)) as (nbh' & E & Sd & D);
    [simpl; rewrite Lb2, Lb; done|simpl; cap|simpl; cap|simpl; cap|].
  change (ioa_network_buffer_data nb2) with 14 in E.
  exists nbh', (slice b (4 + n) (plen - n)). split; [exact E|]. split; [done|]. split.
  - rewrite D. f_equal. simpl. replace (4 + plen) with (2 + (2 + (n + (plen - n)))) by lia.
    rewrite !slice_add by lia. change (0 + 2) with 2. change (2 + 2) with 4. rewrite S0, S2.
    assert (slice b 4 n = un_data u) as ->; [|done].
    rewrite Fr by cap. subst buf. unfold un_data. fold mem. fold n. change (sb_mem nb2) with mem1.
    transitivity (slice mem1 18 n); [unfold slice; rewrite drop_drop; do 2 f_equal; lia|]. subst mem1.
    rewrite slice_splice_inside by (rewrite ?blen_slice; cap). rewrite slice_slice by cap. done.
  - rewrite blen_slice by cap. subst plen. destruct (is_stream_socket _); lia.
Qed.

(** Adding a value that is the beginning of some memory. *)
Lemma add_prefix m t mem n :
  0 <= n <= blen mem -> stun_attr_add_str m t (Some mem) n = stun_attr_add_str m t (Some (slice mem 0 n)) n.
Proof.
  intros H. unfold stun_attr_add_str. destruct (n <? 0) eqn:?; bool_arith; [lia|].
  assert (rd_bytes mem 0 n = rd_bytes (slice mem 0 n) 0 n) as ->; [|done].
  assert (blen (slice mem 0 n) = n) as L by (rewrite blen_slice; lia).
  rewrite !rd_bytes_ret by lia. by rewrite (slice_all (slice mem 0 n)).
Qed.

Definition fingerprinted (server : turn_turnserver) (ss : ts_ur_super_session) : bool :=
  fingerprint server || enforce_fingerprints ss.

(** The message a Data indication is. *)
Definition data_indication (server : turn_turnserver) (ss : ts_ur_super_session) (rnd data addr fp : list Z) : smsg :=
  SMsg (stun_make_indication STUN_METHOD_DATA) STUN_MAGIC_COOKIE rnd
    ([(STUN_ATTRIBUTE_DATA, data); (STUN_ATTRIBUTE_XOR_PEER_ADDRESS, addr);
      (STUN_ATTRIBUTE_SOFTWARE, get_version server)] ++
     if fingerprinted server ss then [(STUN_ATTRIBUTE_FINGERPRINT, fp)] else []).

Lemma version_ok server : bytes_ok (get_version server) /\ 0 < blen (get_version server) <= 28.
Proof.
  unfold get_version. destruct (no_software_attribute server);
    (split; [apply bytes_okb_spec; vm_compute; done|vm_compute; by split]).
Qed.

Lemma indication_out_spec src server ss u rnd :
  un_ok src u -> addr_maps server = [] -> known_family (un_src u) -> bytes_ok rnd -> length rnd = 12%nat ->
  exists nbh' b v fp, indication_out server ss u rnd = Ret nbh' /\ sendable nbh' /\
    datagram nbh' = header_bytes (client_header (un_src u)) ++ slice (mdata b) 0 (mlen b) /\
    mrepr b (data_indication server ss rnd (un_data u) v fp) /\
    stun_addr_encode (Some (un_src u)) true STUN_MAGIC_COOKIE (Some rnd) = Some v /\ 0 < blen v.
Proof.
  intros [R Hi Hcp W _] EM K Br Lr. pose proof (received_origin _ R) as O. pose proof R as [Nb B Of Co L]. pose proof Nb as [C _].
  unfold indication_out. set (nbh := ioa_network_buffer_allocate). change (ioa_network_buffer_data nbh) with 18.
  assert (nb_ok nbh) as Nn by (constructor; vm_compute; done || lia).
  destruct (nb_from_ret nbh 18 Nn) as (buf & -> & Eb & Lb); [cap|]. mstep.
  assert (bytes_ok buf) as Bb by (subst buf; apply bytes_ok_drop, bytes_ok_zeros).
  destruct (init_refines (stun_make_indication STUN_METHOD_DATA) buf rnd Bb ltac:(cap) Br Lr) as (m0 & E0 & R0 & L0 & D0).
  unfold stun_init_indication_str. rewrite E0. mstep. rewrite O.
  destruct (nb_from_ret (un_nbh u) 4 Nb) as (data & -> & Ed & Ld); [cap|]. mstep.
  assert (slice data 0 (un_ilen u) = un_data u) as Eu by (subst data; unfold un_data, slice; by rewrite drop_0).
  rewrite add_prefix by cap. rewrite Eu.
  assert (blen (un_data u) = un_ilen u) as Lu by (unfold un_data; rewrite blen_slice; cap).
  assert (bytes_ok (un_data u)) as Bu by (unfold un_data; auto with bytes). rewrite <- Lu.
  destruct (pad4_spec (blen (un_data u)) ltac:(cap)) as [Hp _].
  destruct (add_step m0 _ STUN_ATTRIBUTE_DATA (un_data u) R0) as (m1 & -> & R1 & L1 & D1);
    [by vm_compute|done|cap|unfold MAX_STUN_MESSAGE_SIZE; cap|cap|]. mstep. rewrite EM.
  destruct (add_addr_refines m1 _ STUN_ATTRIBUTE_XOR_PEER_ADDRESS (un_src u) R1) as (v & m2 & Ev & Lv & -> & R2 & L2 & D2);
    [done|done|destruct K; auto|by vm_compute|unfold MAX_STUN_MESSAGE_SIZE; cap|cap|]. mstep.
  destruct (version_ok server) as [Bv Lvs]. destruct (pad4_spec (blen (get_version server)) ltac:(lia)) as [Hpv _].
  destruct (add_step m2 _ STUN_ATTRIBUTE_SOFTWARE (get_version server) R2) as (m3 & -> & R3 & L3 & D3);
    [by vm_compute|done|lia|unfold MAX_STUN_MESSAGE_SIZE; cap|cap|]. mstep.
  assert (exists m4 fp, (if fingerprint server || enforce_fingerprints ss
       then '(_, m) ← stun_attr_add_fingerprint_str m3; Ret m else Ret m3) = Ret m4 /\
     mrepr m4 (data_indication server ss rnd (un_data u) v fp) /\ mlen m3 <= mlen m4 <= mlen m3 + 8 /\
     blen (mdata m4) = blen (mdata m3)) as (m4 & fp & -> & R4 & L4 & D4).
  { unfold data_indication, fingerprinted. destruct (_ || _).
    - destruct (add_fingerprint_refines m3 _ R3) as (m4 & -> & R4 & L4 & D4 & _);
        [unfold MAX_STUN_MESSAGE_SIZE; cap|cap|]. mstep. exists m4. eexists. split; [done|]. split; [exact R4|]. lia.
    - exists m3, []. split; [done|]. split; [exact R3|]. lia. }
  mstep. destruct (finish_buffer nbh m4 (un_src u) Nn (sized_wf _ W)) as (nbh' & E & Sd & D);
    [change (ioa_network_buffer_data nbh) with 18; cap|cap|cap|cap|].
  exists nbh', m4, v, fp. split; [exact E|]. split_and!; [done|done|done|done|lia].
Qed.

(** The number a permission's channel for a peer has, 0 for none. *)
Lemma channel_number_spec a P q :
  alloc_inv a -> allocation_get_permission a q = Ret (Some P) ->
  exists n, get_turn_channel_number a P q = Ret n /\
    match allocation_get_ch_info_by_peer_addr a q with
    | Ret (Some C) => exists c, live_chan a C c /\ chnum c = n /\ STUN_VALID_CHANNEL n = true
    | _ => n = 0
    end.
Proof.
  intros I F. pose proof F as (p & LP & _)%(get_permission_iff a I). pose proof (inv_perm a I P p LP) as K.
  assert (allocation_get_ch_info_by_peer_addr a q = get_turn_channel a P q) as ->.
  { unfold allocation_get_ch_info_by_peer_addr. fold (allocation_get_permission a q). by rewrite F. }
  unfold get_turn_channel_number. destruct (decide (get_port q = 0)) as [Z0|NZ].
  { rewrite (get_turn_channel_zero a P p q LP Z0). rewrite (live_perm_get a P p LP). mstep. rewrite Z0. by eexists. }
  rewrite (turn_channel_port a I P p q LP NZ), (live_perm_get a P p LP). mstep.
  rewrite (lm_get_abs (p_chns p) (get_port q) (perm_map a P p K) NZ). mstep.
  destruct (lm_abs (p_chns p) (get_port q)) as [C|] eqn:E; [|by eexists].
  destruct (perm_entry a P p K _ _ E) as (c & Lc & _). pose proof (live_chan_pos a C c Lc).
  unfold truthy. destruct (C =? 0) eqn:?; bool_arith; [lia|]. simpl. rewrite (live_chan_get a C c Lc). mstep.
  pose proof (chan_valid a C c (inv_chan a I C c Lc)) as V. rewrite V. eexists. split; [done|]. by exists c.
Qed.

Section handler.
Context (e : engine) (server : turn_turnserver) (ss : ts_ur_super_session) (m : sockets) (s : Z) (in_buffer : ioa_net_data).
Context (rnd : list Z) (nbh : stun_buffer) (c : ioa_socket).
Context (I : alloc_inv (ss_alloc ss)) (Ok : socks_ok m) (Hc : m !! client_socket ss = Some c) (Hs : is_Some (m !! s)).
Context (En : nd_nbh in_buffer = Some nbh) (Fr : nb_fresh nbh) (Ws : addr_wf (src_addr in_buffer)).
Context (Ks : known_family (src_addr in_buffer)) (EM : addr_maps server = []) (Br : bytes_ok rnd) (Lr : length rnd = 12%nat).

(** What the client gets for [data] of a peer at [src]: the cluster header, then
    ChannelData when the peer has a channel, a Data indication otherwise. *)
Definition delivered (src : ioa_addr) (data : list Z) (out : list wire) : Prop :=
  exists num bytes,
    emits m (client_socket ss) None (header_bytes (client_header src) ++ bytes) out /\
    (forall P, allocation_get_permission (ss_alloc ss) src = Ret (Some P) ->
       get_turn_channel_number (ss_alloc ss) P src = Ret num) /\
    if num =? 0
    then exists b v fp, bytes = slice (mdata b) 0 (mlen b) /\ mrepr b (data_indication server ss rnd data v fp) /\
           stun_addr_encode (Some src) true STUN_MAGIC_COOKIE (Some rnd) = Some v /\ 0 < blen v
    else exists pad, bytes = to_be 2 num ++ to_be 2 (blen data) ++ data ++ pad /\
           blen pad = (if is_stream_socket (st c) then pad4 (blen data) - blen data else 0).

Lemma write_client_spec m' nb ttl tos :
  socks_like m m' -> sendable nb ->
  exists rc m2 out, write_client_connection e ss m' nb ttl tos = Ret (rc, m2, out) /\ socks_like m m2 /\
    emits m (client_socket ss) None (datagram nb) out /\ does_send e m' (client_socket ss) out.
Proof.
  intros L Sd. destruct (Ok _ c Hc) as (N & _). unfold write_client_connection.
  destruct (client_socket ss =? 0) eqn:?; bool_arith; [done|].
  destruct (socks_like_lookup m m' _ c L Hc) as (c' & Ec & _).
  destruct (send_spec e m' (client_socket ss) None nb ttl tos (socks_ok_like _ _ L Ok)) as (rc & m2 & out & -> & L2 & Em & Ds);
    [right; by exists c'|done|]. exists rc, m2, out. split_and!; [done|by etrans|by apply (emits_like _ m')|done].
Qed.

(** The session and its sockets are open. *)
Record input_open : Prop := InputOpen {
  ir_ttl : recv_ttl in_buffer <> 0;
  ir_sock : forall k, m !! s = Some k -> ready e k;
  ir_open : to_be_closed ss = false;
  ir_client : ready e c;
  ir_relay : forall f el, get_ioa_socket_address_family m s = Ret f -> get_relay_session (ss_alloc ss) f = Ret el -> rs_s el <> 0;
  ir_valid : is_allocation_valid (ss_alloc ss) <> 0 }.

(** The datagram came from a peer with a permission. *)
Definition input_ready : Prop :=
  input_open /\ forall u, unwrap (src_addr in_buffer) nbh (cut nbh) = Ret u -> permitted server ss (un_src u).

Lemma ready_open k : sock_ok k -> ready e k -> ioa_socket_tobeclosed e k = (false, k).
Proof.
  intros [_ Sl _] [Rm Rd Rt Rb Rf _ _]. unfold ioa_socket_tobeclosed. rewrite Rm, Rd, Rt, Rb, Sl. cbn [negb].
  destruct (fd k <? 0) eqn:?; bool_arith; [lia|done].
Qed.

Definition input_ok (m' : sockets) (out : list wire) : Prop :=
  socks_like m m' /\ (input_ready -> out <> []) /\
  (out = [] \/ exists u, unwrap (src_addr in_buffer) nbh (cut nbh) = Ret u /\ permitted server ss (un_src u) /\
     delivered (un_src u) (un_data u) out).

Lemma peer_input_spec :
  exists d m' out, peer_input_handler e server ss m s in_buffer rnd = Ret (d, m', out) /\ input_ok m' out.
Proof.
  assert (forall (d : ioa_net_data) m', socks_like m m' -> ~ input_ready -> exists d' m2 out,
    Ret (d, m', []) = Ret (d', m2, out) /\ input_ok m2 out) as Quiet.
  { intros d m' L NR. exists d, m', []. split; [done|]. split; [done|]. split; [done|by left]. }
  unfold peer_input_handler. destruct (_ =? 0) eqn:?; bool_arith; [apply Quiet; [done|by intros [[]]]|].
  destruct Hs as [k Ek]. destruct (Ok s k Ek) as (Ns & Sk & _). destruct (s =? 0) eqn:?; bool_arith; [done|].
  rewrite (get_sock_ret m s k) by done. mstep.
  pose proof (tobeclosed_static e k) as S1. destruct (ioa_socket_tobeclosed e k) as [tbc k1] eqn:T1. simpl in S1.
  assert (input_ready -> tbc = false /\ k1 = k) as RI1.
  { intros [[_ Rk _ _ _ _] _]. rewrite (ready_open k Sk (Rk k Ek)) in T1. by injection T1 as <- <-. }
  pose proof (socks_like_insert m s k k1 Ek S1) as L1. set (m1 := <[s := k1]> m) in *.
  assert (input_ready -> m1 = m) as RM1 by (intros RI; destruct (RI1 RI) as [_ ->]; by apply insert_id).
  destruct tbc; [apply Quiet; [done|by intros []%RI1]|].
  destruct (to_be_closed ss) eqn:?; [apply Quiet; [done|intros [[]]; congruence]|].
  destruct (Ok _ c Hc) as (Nc & Skc & _). destruct (client_socket ss =? 0) eqn:?; bool_arith; [done|].
  destruct (socks_like_lookup m m1 _ c L1 Hc) as (c1 & Ec1 & Sc1). rewrite (get_sock_ret m1 _ c1) by done. mstep.
  assert (input_ready -> c1 = c) as RC1 by (intros RI; rewrite (RM1 RI) in Ec1; congruence).
  pose proof (tobeclosed_static e c1) as S2. destruct (ioa_socket_tobeclosed e c1) as [tbc c2] eqn:T2. simpl in S2.
  assert (input_ready -> tbc = false /\ c2 = c) as RI2.
  { intros RI. rewrite (RC1 RI), (ready_open c Skc (ir_client (proj1 RI))) in T2. by injection T2 as <- <-. }
  assert (socks_like m (<[client_socket ss := c2]> m1)) as L2 by (etrans; [exact L1|by apply (socks_like_insert m1 _ c1)]).
  set (m2 := <[client_socket ss := c2]> m1) in *.
  assert (input_ready -> m2 = m) as RM2.
  { intros RI. unfold m2. rewrite (RM1 RI). destruct (RI2 RI) as [_ ->]. by apply insert_id. }
  destruct tbc; [apply Quiet; [done|by intros []%RI2]|].
  destruct (socks_like_lookup m m2 s k L2 Ek) as (k2 & Ek2 & _). pose proof (socks_ok_like _ _ L2 Ok) as Ok2.
  destruct (family_returns m2 s Ok2) as [f Ef]; [right; by exists k2|]. rewrite Ef. mstep.
  assert (exists el, get_relay_session (ss_alloc ss) f = Ret el) as [el Eel].
  { pose proof (inv_sessions _ I) as Ls. unfold get_relay_session, ALLOC_INDEX.
    destruct (relay_sessions (ss_alloc ss)) as [|r1 [|r2 rs]]; simpl in Ls; try lia. destruct (f =? AF_INET6); simpl; eauto. }
  rewrite Eel. mstep. destruct (rs_s el =? 0) eqn:?; bool_arith.
  { apply Quiet; [done|]. intros RI. rewrite (RM2 RI) in Ef. by apply (ir_relay (proj1 RI) f el Ef Eel). }
  unfold the_nbh. rewrite En. mstep. pose proof (nr_len _ (nf_received _ Fr)) as Hlen.
  assert (Z.min (i32 (ioa_network_buffer_get_size_origin nbh))
            (i32 (ioa_network_buffer_get_capacity_udp - STUN_CHANNEL_HEADER_LENGTH)) = cut nbh) as ->.
  { unfold cut, ioa_network_buffer_get_size_origin, ioa_network_buffer_get_capacity_udp. rewrite !i32_small by cap. done. }
  destruct (_ || _) eqn:G0.
  { apply Quiet; [done|]. intros RI. apply orb_true_iff in G0 as [G0|G0]; bool_arith; [unfold cut in G0; cap|].
    unfold truthy in G0. bool_arith. by apply (ir_valid (proj1 RI)). }
  destruct (unwrap_spec (src_addr in_buffer) nbh Fr Ws) as (u & Eu & U & Es & _). rewrite Eu. mstep.
  destruct (get_permission_returns _ I (un_src u)) as [t Et]. rewrite Et. mstep.
  assert (exists num, (match t with
           | Some P => get_turn_channel_number (ss_alloc ss) P (un_src u)
           | None => Ret (un_chnum u)
           end) = Ret num) as [num En'].
  { destruct t as [P|]; [|eauto]. destruct (channel_number_spec _ P (un_src u) I Et) as (n & -> & _). eauto. }
  rewrite En'. mstep. destruct (bool_decide (t = None) && negb (server_relay server)) eqn:G.
  { apply Quiet; [done|]. intros RI. bool_arith. destruct (proj2 RI u Eu) as [Sr|[P EP]]; [congruence|].
    rewrite Et in EP. injection EP as ->. by apply bool_decide_eq_true in H. }
  assert (permitted server ss (un_src u)) as Pm.
  { destruct t as [P|]; [right; by exists P|]. left. rewrite bool_decide_eq_true_2 in G by done. simpl in G. by bool_arith. }
  assert (forall P, allocation_get_permission (ss_alloc ss) (un_src u) = Ret (Some P) ->
       get_turn_channel_number (ss_alloc ss) P (un_src u) = Ret num) as Hnum.
  { intros P EP. rewrite Et in EP. injection EP as ->. done. }
  assert (forall out, does_send e m2 (client_socket ss) out -> input_ready -> out <> []) as Send.
  { intros out Ds RI. rewrite (RM2 RI) in Ds. apply (Ds c Hc (ir_client (proj1 RI))). }
  destruct (truthy num) eqn:Tn; unfold truthy in Tn; bool_arith.
  - destruct (socks_like_lookup m m2 _ c L2 Hc) as (c' & Ec' & Sc').
    destruct (channel_out_spec _ m2 ss c' u num U Ok2 Ec') as (nb & pad & -> & Sd & D & Lp). mstep.
    destruct (write_client_spec m2 nb (recv_ttl in_buffer - 1) (recv_tos in_buffer) L2 Sd) as (rc & m3 & out & Ew & L3 & Em & Ds).
    cbn [recv_ttl recv_tos]. rewrite Ew. mstep. eexists _, m3, out. split; [reflexivity|]. split; [done|]. split; [by apply Send|].
    right. exists u. split_and!; [done|done|]. exists num, (to_be 2 num ++ to_be 2 (blen (un_data u)) ++ un_data u ++ pad).
    rewrite (un_data_len _ _ U).
    rewrite D in Em. split_and!; [done|done|]. destruct (num =? 0) eqn:?; bool_arith; [done|]. exists pad. split; [done|].
    rewrite Lp. replace (st c') with (st c) by (unfold static in Sc'; congruence). done.
  - destruct (indication_out_spec _ server ss u rnd U EM) as (nb & b & v & fp & -> & Sd & D & R & Ev & Lv);
      [unfold known_family in *; by rewrite (uo_family _ _ U)|done|done|]. mstep.
    destruct (write_client_spec m2 nb (recv_ttl in_buffer - 1) (recv_tos in_buffer) L2 Sd) as (rc & m3 & out & Ew & L3 & Em & Ds).
    cbn [recv_ttl recv_tos]. rewrite Ew. mstep. eexists _, m3, out. split; [reflexivity|]. split; [done|]. split; [by apply Send|].
    right. exists u. split_and!; [done|done|]. exists num, (slice (mdata b) 0 (mlen b)). rewrite D in Em. split_and!; [done|done|].
    subst num. simpl. by exists b, v, fp.
Qed.
End handler.
End peer.
