(* ===== verification/Cluster.v ===== *)
(** The data path across the cluster: what each handler guarantees, and that
    ChannelData one server forwards reach the client of the other. *)

From stdpp Require Import base option numbers list strings gmap.
From S2P Require Import Prelude IoAddr StunAddr StunDefs StunMsg StunMsgFacts StunFraming StunCrc StunFingerprint.
From S2P Require Import StunBuild StunBuildFacts SlotTable KeyMap TurnMaps TurnMapsFacts Timers Allocation AllocationFacts.
From S2P Require Import NetBuffer Sockets TurnServer TurnServerFacts TurnSession DataPath DataPathFacts PeerPathFacts.

(** * A datagram arrives

    The engine clears a buffer and receives into its array. *)
Definition fill (w : list Z) : stun_buffer :=
  StunBuffer (zeros 4 ++ w ++ zeros (Z.to_nat STUN_BUFFER_SIZE - length w)) (blen w) 0 0.

Lemma zeros_all_zero n : all_zero (zeros n) = true.
Proof. unfold all_zero, zeros. apply forallb_forall. intros x Hx%list_elem_of_In. by apply elem_of_replicate in Hx as [-> _]. Qed.

Lemma fill_fresh w : bytes_ok w -> blen w <= UDP_STUN_BUFFER_SIZE -> nb_fresh (fill w).
Proof.
  intros B L. pose proof (blen_nonneg w).
  assert (blen (sb_mem (fill w)) = NB_CAP) as C.
  { unfold fill, blen in *. simpl. rewrite !length_app. unfold zeros. rewrite length_replicate. cap. }
  constructor.
  - constructor; [by constructor| |done|done|done]. unfold fill. cbn [sb_mem]. auto using bytes_ok_zeros with bytes.
  - unfold fill. cbn [sb_mem sb_len]. rewrite app_assoc, drop_app_length'; [apply zeros_all_zero|].
    rewrite length_app. unfold zeros, blen in *. rewrite length_replicate. lia.
Qed.

(** What a datagram of header and message is received as. *)
Lemma fill_slice w i n : 0 <= i -> 0 <= n -> i + n <= blen w -> slice (sb_mem (fill w)) (4 + i) n = slice w i n.
Proof.
  intros. unfold fill. cbn [sb_mem]. rewrite slice_app_r by (unfold blen, zeros; rewrite ?length_replicate; lia).
  change (blen (zeros 4)) with 4. replace (4 + i - 4) with i by lia. apply slice_app_l; lia.
Qed.

Lemma fill_header h l : header_wf h ->
  length (identifier h) = 2%nat -> length (srcIp h) = 4%nat -> length (srcPort h) = 2%nat -> length (dstIp h) = 4%nat ->
  length (dstPort h) = 2%nat -> received_header (fill (header_bytes h ++ l)) = h.
Proof.
  intros W L1 L2 L3 L4 L5. unfold received_header. assert (blen (header_bytes h) = 14) as Lh by (unfold blen; by rewrite W).
  rewrite (fill_slice _ 0 14) by (rewrite ?blen_app; pose proof (blen_nonneg l); lia).
  rewrite slice_app_l by lia. rewrite slice_all by lia.
  destruct h as [i si sp di dp]; simpl in *. unfold header_bytes, header_of; simpl.
  destruct i as [|? [|? []]], si as [|? [|? [|? [|? []]]]], sp as [|? [|? []]], di as [|? [|? [|? [|? []]]]], dp as [|? [|? []]];
    simpl in *; try lia. done.
Qed.

Lemma fill_payload h l i n : header_wf h -> 0 <= i -> 0 <= n -> i + n <= blen l ->
  payload (fill (header_bytes h ++ l)) i n = slice l i n.
Proof.
  intros W. intros. unfold payload. replace (18 + i) with (4 + (14 + i)) by lia.
  assert (blen (header_bytes h) = 14) as Lh by (unfold blen; by rewrite W).
  rewrite fill_slice by (rewrite ?blen_app; lia). rewrite slice_app_r by lia. f_equal. lia.
Qed.

(** * ChannelData from one server to another

    The source address as the receiving server sees it: that of the relay of
    the sending one, whatever host the datagram came from. *)
Definition from_relay (src relay : ioa_addr) : ioa_addr := set_port_bytes (set_sin_addr src (sin_addr relay)) (sin_port relay).

Definition moves (MC : Memcpy) : Prop := forall mem d s n, overlapping mem d s n = memmove mem d s n.

Lemma forwarded_unwraps {MC : Memcpy} (MV : moves MC) src relay peer l num n :
  addr_wf src -> addr_wf relay -> sized peer -> bytes_ok (sin_addr peer) -> bytes_ok (sin_port peer) -> bytes_ok l ->
  blen l = 4 + n -> 0 <= n -> 18 + n <= UDP_STUN_BUFFER_SIZE -> slice l 0 2 = to_be 2 num -> STUN_VALID_CHANNEL num = true ->
  let nbh := fill (header_bytes (cluster_header relay peer) ++ l) in
  nb_fresh nbh /\ exists u, unwrap src nbh (cut nbh) = Ret u /\ un_ok src u /\ un_src u = from_relay src relay /\
    un_data u = slice l 4 n.
Proof.
  intros Ws Wr Sp Ba Bp Bl Ll Hn Hc Hnum V nbh. pose proof (sized_wf _ Wr) as Sr.
  pose proof (cluster_header_wf relay peer Sr Sp) as Wh. set (w := header_bytes (cluster_header relay peer) ++ l) in *.
  assert (blen w = 18 + n) as Lw by (unfold w; rewrite blen_app; unfold blen at 1; rewrite Wh; lia).
  assert (bytes_ok w) as Bw.
  { destruct Wr as (_ & [_ B1] & [_ B2] & _). unfold w, header_bytes. cbn [identifier srcIp srcPort dstIp dstPort cluster_header].
    apply bytes_ok_app; [|done]. apply bytes_ok_app; [apply bytes_ok_to_be|]. auto 10 with bytes. }
  assert (nb_fresh nbh) as Fr by (by apply fill_fresh; [|lia]).
  split; [done|]. pose proof (nf_received _ Fr) as R. pose proof (received_origin _ R) as O. pose proof R as [Nb _ _ _ _].
  assert (received_header nbh = cluster_header relay peer) as Eh.
  { destruct Sr, Sp. apply fill_header; try done. }
  unfold unwrap. rewrite (rd_header_ret nbh Nb) by (rewrite O; cap). mstep. rewrite O. fold (received_header nbh). rewrite Eh.
  cbn [identifier srcIp srcPort cluster_header]. change (bytes_eqb _ _) with true. cbn iota. fold (from_relay src relay).
  assert (sb_len nbh = 18 + n) as Ln by done.
  destruct (message_ret nbh R ltac:(lia)) as (-> & -> & _ & Lm & _). mstep. unfold is_channel_msg_str.
  destruct (message_len nbh >=? 4) eqn:?; bool_arith; [|unfold message_len in *; lia].
  assert (slice (message nbh) 0 2 = to_be 2 num) as E2.
  { rewrite <- payload_message by lia. subst nbh w. rewrite fill_payload by (exact Wh || lia). done. }
  assert (0 <= num < 2 ^ 16) as Rn by (unfold STUN_VALID_CHANNEL in V; bool_arith; lia).
  rewrite rd16_ret by (unfold message_len in *; lia). mstep. rewrite E2, be_to_be_small by (simpl; lia). rewrite V.
  assert (addr_wf (from_relay src relay)) as Wf.
  { destruct Ws as (? & ? & ? & ? & ?). destruct Wr as (? & P & A & _). split; [done|]. split; [done|]. split; [done|]. by split. }
  destruct (unwrap_channel_spec MV src (from_relay src relay) nbh n R Ln Hn Wf eq_refl) as (u & E & U & Es & Ed & _).
  exists u. split_and!; [exact E|done|done|]. rewrite Ed. subst nbh w. rewrite fill_payload by (exact Wh || lia). done.
Qed.

(** * The handlers *)




(** The server that receives what another one forwards. *)
Record receiver {MC : Memcpy} (e : engine) (server : turn_turnserver) (ss : ts_ur_super_session) (m : sockets) (s : Z)
    (src : ioa_addr) (ttl tos : Z) (rnd : list Z) (c : ioa_socket) : Prop := Receiver {
  rv_inv : alloc_inv (ss_alloc ss);
  rv_ok : socks_ok m;
  rv_client : m !! client_socket ss = Some c;
  rv_sock : is_Some (m !! s);
  rv_src : addr_wf src;
  rv_family : known_family src;
  rv_maps : addr_maps server = [];
  rv_rnd : bytes_ok rnd;
  rv_rnd_len : length rnd = 12%nat;
  rv_open : input_open e ss m s (NetData src None ttl tos) c }.

Lemma receive_forwarded {MC : Memcpy} (MV : moves MC) e server ss m s src ttl tos rnd c relay peer l num n :
  receiver e server ss m s src ttl tos rnd c -> permitted server ss (from_relay src relay) ->
  addr_wf relay -> addr_wf peer -> bytes_ok l -> blen l = 4 + n -> 0 <= n -> 18 + n <= UDP_STUN_BUFFER_SIZE ->
  slice l 0 2 = to_be 2 num -> STUN_VALID_CHANNEL num = true ->
  let w := header_bytes (cluster_header relay peer) ++ l in
  exists d m' out, peer_input_handler e server ss m s (NetData src (Some (fill w)) ttl tos) rnd = Ret (d, m', out) /\
    out <> [] /\ delivered server ss m rnd c (from_relay src relay) (slice l 4 n) out.
Proof.
  intros [I Ok Hc Hs Ws Ks EM Br Lr Op] Pm Wr Wp Bl Ll Hn Hcap Hnum V w.
  pose proof Wp as (_ & [_ Bp] & [_ Ba] & _).
  destruct (forwarded_unwraps MV src relay peer l num n Ws Wr (sized_wf _ Wp) Ba Bp Bl Ll Hn Hcap Hnum V)
    as [Fr (u & Eu & U & Es & Ed)]. fold w in Fr, Eu.
  destruct (peer_input_spec MV e server ss m s (NetData src (Some (fill w)) ttl tos) rnd (fill w) c I Ok Hc Hs eq_refl Fr Ws Ks
    EM Br Lr) as (d & m' & out & E & _ & Rd & Hout).
  exists d, m', out. split; [exact E|].
  assert (out <> []) as No.
  { apply Rd. split; [destruct Op; by constructor|]. intros u' Eu'. simpl in Eu'. rewrite Eu in Eu'. injection Eu' as <-.
    by rewrite Es. }
  split; [done|]. destruct Hout as [?|(u' & Eu' & _ & D)]; [done|]. simpl in Eu'. rewrite Eu in Eu'. injection Eu' as <-.
  by rewrite Es, Ed in D.
Qed.

Lemma channel_forwarded e ss m in_buffer num n nbh c C chn s k :
  alloc_inv (ss_alloc ss) -> socks_ok m -> m !! client_socket ss = Some c ->
  recv_ttl in_buffer <> 0 -> is_allocation_valid (ss_alloc ss) <> 0 ->
  nd_nbh in_buffer = Some nbh -> nb_received nbh -> sb_len nbh = 4 + n -> 0 <= n ->
  allocation_get_ch_info (ss_alloc ss) num = Ret (Some C) -> get_chan (ss_alloc ss) C = Ret chn ->
  sized (ch_peer_addr chn) -> on_this_host c (ch_peer_addr chn) = false ->
  get_relay_socket_ss ss (sa_family (ch_peer_addr chn)) = Ret s -> m !! s = Some k -> ready e k ->
  exists rc d m' k' df ttl tos, static k' = static k /\
    write_to_peerchannel e ss m num in_buffer = Ret (rc, d, m',
      [UdpOut s (destination k' (Some (dst_of (received_header nbh) (ch_peer_addr chn)))) df ttl tos
         (header_bytes (cluster_header (local_addr k) (ch_peer_addr chn)) ++ payload nbh 0 (4 + n))]).
Proof.
  intros I Ok Hc Ht Hv En R Hl Hn EC Ec Sp Far Es Ek Rk.
  pose proof EC as (chn' & LC & Enum)%(get_ch_info_iff _ I). assert (chn' = chn) as ->.
  { rewrite (live_chan_get _ C chn' LC) in Ec. by injection Ec. }
  destruct (write_channel_spec e ss m in_buffer num n nbh c I Ok Hc En R Hl Hn) as (rc & d & m' & out & E & _ & H).
  { intros C' chn' LC' Enum'. assert (C' = C) as ->.
    { assert (allocation_get_ch_info (ss_alloc ss) num = Ret (Some C')) as EC' by (apply (get_ch_info_iff _ I); by exists chn').
      congruence. }
    assert (chn' = chn) as -> by (destruct LC', LC; congruence). split; [done|]. intros s' Es'.
    rewrite Es in Es'. injection Es' as <-. by exists k. }
  destruct H as [(_ & _ & [?|[?|?]])|(C' & chn' & s' & k' & EC' & Ec' & _ & Ek' & Es' & Hs & Ds)]; [done|done|congruence|].
  rewrite EC in EC'. injection EC' as <-. rewrite Ec in Ec'. injection Ec' as <-. rewrite Es in Es'. injection Es' as <-.
  rewrite Ek in Ek'. injection Ek' as <-. unfold channel_sent in Hs. rewrite Far in Hs.
  specialize (Ds k Ek Rk). destruct Hs as [?|(k0 & k1 & df & ttl & tos & E0 & S & ->)]; [done|].
  rewrite Ek in E0. injection E0 as <-. exists rc, d, m', k1, df, ttl, tos. by split.
Qed.

(** ChannelData cross the cluster: when the peer of a channel is a relay
    address of another server, [write_to_peerchannel] of the first server sends
    one datagram, to the host of the peer; when that datagram reaches the second
    server, from whatever address, and the relay address of the first session is
    permitted there, [peer_input_handler] of the second sends its client exactly
    the data of the first client, with that relay address as their source. *)
Theorem cluster_channel_roundtrip {MC : Memcpy} e ss m in_buffer num n nbh c C chn s k e' server' ss' m' s' src ttl' tos' rnd c' :
  moves MC ->
  alloc_inv (ss_alloc ss) -> socks_ok m -> m !! client_socket ss = Some c ->
  recv_ttl in_buffer <> 0 -> is_allocation_valid (ss_alloc ss) <> 0 ->
  nd_nbh in_buffer = Some nbh -> nb_received nbh -> sb_len nbh = 4 + n -> 0 <= n -> 18 + n <= UDP_STUN_BUFFER_SIZE ->
  payload nbh 0 2 = to_be 2 num ->
  allocation_get_ch_info (ss_alloc ss) num = Ret (Some C) -> get_chan (ss_alloc ss) C = Ret chn ->
  addr_wf (ch_peer_addr chn) -> on_this_host c (ch_peer_addr chn) = false ->
  get_relay_socket_ss ss (sa_family (ch_peer_addr chn)) = Ret s -> m !! s = Some k -> ready e k -> connected k = false ->
  receiver e' server' ss' m' s' src ttl' tos' rnd c' -> permitted server' ss' (from_relay src (local_addr k)) ->
  exists rc d m1 df ttl tos w d' m1' out,
    write_to_peerchannel e ss m num in_buffer
      = Ret (rc, d, m1, [UdpOut s (Some (dst_of (received_header nbh) (ch_peer_addr chn))) df ttl tos w]) /\
    peer_input_handler e' server' ss' m' s' (NetData src (Some (fill w)) ttl' tos') rnd = Ret (d', m1', out) /\
    out <> [] /\ delivered server' ss' m' rnd c' (from_relay src (local_addr k)) (payload nbh 4 n) out.
Proof.
  intros MV I Ok Hc Ht Hv En R Hl Hn Hcap Hnum EC Ec Wp Far Es Ek Rk Cn Rv Pm.
  destruct (channel_forwarded e ss m in_buffer num n nbh c C chn s k) as (rc & d & m1 & k1 & df & ttl & tos & S & E);
    try done; [by apply sized_wf|].
  assert (destination k1 (Some (dst_of (received_header nbh) (ch_peer_addr chn)))
            = Some (dst_of (received_header nbh) (ch_peer_addr chn))) as Ed.
  { unfold destination. unfold static in S. replace (connected k1) with false by congruence. done. }
  rewrite Ed in E. destruct (Ok s k Ek) as (_ & [_ _ Wk] & _).
  pose proof EC as (chn' & LC & Enum)%(get_ch_info_iff _ I).
  pose proof (chan_valid _ _ _ (inv_chan _ I C chn' LC)) as V. rewrite Enum in V.
  pose proof R as [[Cap _] B _ _ _].
  assert (forall i j, 0 <= i -> 0 <= j -> i + j <= 4 + n -> slice (payload nbh 0 (4 + n)) i j = payload nbh i j) as Sub.
  { intros i j ? ? ?. unfold payload. rewrite slice_slice; [f_equal; lia|cap..]. }
  destruct (receive_forwarded MV e' server' ss' m' s' src ttl' tos' rnd c' (local_addr k) (ch_peer_addr chn)
    (payload nbh 0 (4 + n)) num n Rv Pm Wk Wp) as (d' & m1' & out & E' & No & D); try done.
  - unfold payload. auto with bytes.
  - unfold payload. rewrite blen_slice; cap.
  - rewrite Sub by lia. done.
  - rewrite Sub in D by lia. exists rc, d, m1, df, ttl, tos. eexists _, d', m1', out. split_and!; [exact E|exact E'|done|done].
Qed.

(** * Examples

    Two hosts, 10.0.0.9 and 10.0.0.1, with a session each; the relay addresses
    are 10.0.0.9:50000 and 10.0.0.1:5000, and each session has bound channel
    0x4001 to the relay address of the other. *)
Definition ex_host : ioa_addr := set_port (set_sin_addr (set_family addr_zero AF_INET) [10; 0; 0; 9]) 50000.

Definition ex_bind_to (x : ioa_addr) : mbuf :=
  match stun_set_channel_bind_request_str [] (zeros 100) (Some x) 0x4001 0 (zeros 12) with Ret (_, b) => b | _ => MBuf [] 0 end.

Definition ex_bound (x : ioa_addr) : ts_ur_super_session :=
  session_of (do_bind ex_server (ex_request (ex_bind_to x)) ex_session).

Definition ex_sock (sat : Z) (x : ioa_addr) : ioa_socket :=
  IoaSocket 3 0 true false AF_INET UDP_SOCKET sat false x false addr_zero true false 1 0 false false false 64 64 0 0 0
    (TrafficBytes 0 0) (TrafficBytes 0 0) true true true.

(** The client socket is 5, the relay socket 7. *)
Definition ex_socks (x : ioa_addr) : sockets := {[5 := ex_sock CLIENT_SOCKET x; 7 := ex_sock RELAY_SOCKET x]}.

Definition ex_engine : engine := Engine 1 (fun _ => 0) true false true 1 1 1.

(** What the proxy puts in front of a client's message. *)
Definition ex_proxy_header : list Z := [0x80; 0; 1; 2; 3; 4; 5; 6; 10; 0; 0; 1; 0x26; 0xac].
Definition ex_channel_data : stun_buffer :=
  ioa_network_buffer_set_size (fill (ex_proxy_header ++ [0x40; 1; 0; 5; 1; 2; 3; 4; 5])) 9.

Lemma ex_bound_inv x :
  bytes_okb (mdata (ex_bind_to x)) && (mlen (ex_bind_to x) <=? blen (mdata (ex_bind_to x))) = true ->
  alloc_inv (ss_alloc (ex_bound x)).
Proof.
  intros [B L%Z.leb_le]%andb_true_iff. unfold ex_bound.
  assert (world_ok (ex_server, ex_session)) as W0
    by (split; [apply ex_server_ok|split; [apply ex_session_ok|apply ex_session_armed]]).
  destruct (do_bind ex_server (ex_request (ex_bind_to x)) ex_session) as [[r ss]| |] eqn:E; [|apply W0..].
  apply (do_bind_step _ _ _ _ _ (ex_request_ok _ B L)) in E.
  apply (@step_ok bump bump_laws ex_socket_type) in E as (_ & [[I _] _] & _); [exact I|exact W0].
Qed.

Lemma ex_socks_inv x h k : ex_socks x !! h = Some k ->
  (h = 5 /\ k = ex_sock CLIENT_SOCKET x) \/ (h = 7 /\ k = ex_sock RELAY_SOCKET x).
Proof.
  unfold ex_socks. rewrite lookup_insert_Some. intros [[<- <-]|[_ [<- <-]%lookup_singleton_Some]]; [by left|by right].
Qed.

Lemma ex_socks_ok x : addr_wf x -> socks_ok (ex_socks x).
Proof. intros W h k [[-> ->]|[-> ->]]%ex_socks_inv; (split; [done|]; split; [by constructor|by left]). Qed.

Lemma ex_sock_ready sat x : ready ex_engine (ex_sock sat x).
Proof. constructor; simpl; lia || done. Qed.

Lemma ex_channel_data_received : nb_received ex_channel_data.
Proof.
  constructor; [constructor|..]; [vm_compute; reflexivity|vm_compute; congruence| |done|done|vm_compute; split; congruence].
  apply bytes_okb_spec. vm_compute. reflexivity.
Qed.

Lemma ex_host_wf : addr_wf ex_host.
Proof. apply addr_wfb_spec. reflexivity. Qed.
Lemma ex_peer_wf : addr_wf ex_peer.
Proof. apply addr_wfb_spec. reflexivity. Qed.

Definition ex_in (nbh : stun_buffer) : ioa_net_data := NetData addr_zero (Some nbh) 10 0.

(** All permissions of the examples are for IPv4 peers. *)
Definition ipv4_perms (a : allocation) : bool :=
  forallb (fun p => negb (p_allocated p) || (sa_family (p_addr p) =? AF_INET)) (concat (addr_to_perm a)).

Lemma live_in_table {A} (t : list (list A)) P x : slot_at t P = Some x -> In x (concat t).
Proof.
  intros E. rewrite slot_at_split in E by by eapply slot_at_pos. apply bind_Some in E as (b & Eb & Ex).
  apply in_concat. exists b. by split; apply list_elem_of_In; eapply list_elem_of_lookup_2.
Qed.

Lemma ipv4_permitted server ss x :
  alloc_inv (ss_alloc ss) -> ipv4_perms (ss_alloc ss) = true -> server_relay server = false -> permitted server ss x ->
  sa_family x = AF_INET.
Proof.
  intros I F Sr [?|(P & (p & [E A] & Eq)%(get_permission_iff _ I))]; [congruence|].
  unfold ipv4_perms in F. rewrite forallb_forall in F. specialize (F p (live_in_table _ _ _ E)). rewrite A in F. simpl in F.
  bool_arith. unfold addr_eq_no_port_s in Eq. repeat case_match; bool_arith; congruence.
Qed.

Lemma ex_relay_is_7 ss (m : sockets) : relay_sessions (ss_alloc ss) = [RelaySession 7 0 0; RelaySession 0 0 0] -> m !! 7 <> None ->
  forall f s, f = AF_INET -> get_relay_socket_ss ss f = Ret s -> is_Some (m !! s).
Proof.
  intros E H f s -> Hs. unfold get_relay_socket_ss, get_relay_socket in Hs. rewrite E in Hs. injection Hs as <-.
  destruct (m !! 7); [by eexists|done].
Qed.

(** ** Instances *)
Definition ex_far : ts_ur_super_session := ex_bound ex_peer.
Definition ex_near : ts_ur_super_session := ex_bound ex_host.

Lemma ex_far_inv : alloc_inv (ss_alloc ex_far).
Proof. apply ex_bound_inv. vm_compute. reflexivity. Qed.
Lemma ex_near_inv : alloc_inv (ss_alloc ex_near).
Proof. apply ex_bound_inv. vm_compute. reflexivity. Qed.

(** A Send indication to 10.0.0.9:50000 with the given data. *)
Definition ex_send_msg (data : list Z) : mbuf :=
  match (m ← stun_init_indication_str STUN_METHOD_SEND (zeros 200) (zeros 12);
         '(_, m) ← stun_attr_add_addr_str [] m STUN_ATTRIBUTE_XOR_PEER_ADDRESS ex_host;
         stun_attr_add_str m STUN_ATTRIBUTE_DATA (Some data) (blen data)) with
  | Ret (_, b) => b
  | _ => MBuf [] 0
  end.
Definition ex_send (data : list Z) : stun_buffer :=
  fill (ex_proxy_header ++ slice (mdata (ex_send_msg data)) 0 (mlen (ex_send_msg data))).

Definition ex_data : list Z := [1; 2; 3; 4; 5; 6; 7; 8; 9; 10; 11; 12; 13; 14; 15; 16].



Lemma moving_moves : moves moving.
Proof. intros mem d s n. reflexivity. Qed.


Lemma ex_receiver :
  receiver (MC := moving) ex_engine ex_server ex_near (ex_socks ex_peer) 7 ex_peer 10 0 (zeros 12) (ex_sock CLIENT_SOCKET ex_peer).
Proof.
  constructor; [apply ex_near_inv|apply ex_socks_ok, ex_peer_wf|done|by eexists|apply ex_peer_wf|by left|done| |done|].
  - apply bytes_okb_spec. reflexivity.
  - constructor; [done| |done|apply ex_sock_ready| |vm_compute; discriminate].
    + intros k [[? _]|[_ ->]]%ex_socks_inv; [done|apply ex_sock_ready].
    + intros f el Ef Eel. vm_compute in Ef. injection Ef as <-. vm_compute in Eel. injection Eel as <-. done.
Qed.

Lemma cluster_channel_roundtrip_witness :
  exists rc d m1 df ttl tos w d' m1' out,
    write_to_peerchannel ex_engine ex_far (ex_socks ex_host) 0x4001 (ex_in ex_channel_data)
      = Ret (rc, d, m1, [UdpOut 7 (Some (set_port_bytes ex_peer [0x26; 0xac])) df ttl tos w]) /\
    peer_input_handler (H := moving) ex_engine ex_server ex_near (ex_socks ex_peer) 7 (NetData ex_peer (Some (fill w)) 10 0)
      (zeros 12) = Ret (d', m1', out) /\
    out <> [] /\ delivered ex_server ex_near (ex_socks ex_peer) (zeros 12) (ex_sock CLIENT_SOCKET ex_peer) ex_host [1; 2; 3; 4; 5] out.
Proof.
  apply (@cluster_channel_roundtrip moving ex_engine ex_far (ex_socks ex_host) (ex_in ex_channel_data) 0x4001 5 ex_channel_data
    (ex_sock CLIENT_SOCKET ex_host) 2 (match get_chan (ss_alloc ex_far) 2 with Ret c => c | _ => ex_chan end) 7
    (ex_sock RELAY_SOCKET ex_host) ex_engine ex_server ex_near (ex_socks ex_peer) 7 ex_peer 10 0 (zeros 12)
    (ex_sock CLIENT_SOCKET ex_peer)).
  - apply moving_moves.
  - apply ex_far_inv.
  - apply ex_socks_ok, ex_host_wf.
  - reflexivity.
  - discriminate.
  - vm_compute. discriminate.
  - reflexivity.
  - apply ex_channel_data_received.
  - reflexivity.
  - lia.
  - vm_compute. discriminate.
  - vm_compute. reflexivity.
  - vm_compute. reflexivity.
  - vm_compute. reflexivity.
  - apply addr_wfb_spec. vm_compute. reflexivity.
  - vm_compute. reflexivity.
  - vm_compute. reflexivity.
  - reflexivity.
  - apply ex_sock_ready.
  - reflexivity.
  - apply ex_receiver.
  - right. exists (match allocation_get_permission (ss_alloc ex_near) ex_host with Ret (Some P) => P | _ => 0 end).
    vm_compute. reflexivity.
Defined.

(** * Where the data path departs from its purpose *)

(** Data of less than fourteen bytes do not reach a peer on this host: the
    length minus the header length is computed in 32 unsigned bits, the buffer
    functions find it too large and reset the buffer, and the first fourteen
    bytes of the received datagram, the proxy's header, are sent instead. *)
Theorem short_send_sends_header :
  exists r d m', handle_turn_send ex_engine ex_server ex_near (ex_socks ex_host) (ex_in (ex_send [1; 2; 3]))
    = Ret (r, d, m', [UdpOut 7 (Some ex_host) 0 9 0 ex_proxy_header]) /\ err_code r = 0.
Proof. eexists _, _, _. split; vm_compute; reflexivity. Qed.

(** A Send indication forwarded to another server is followed by fourteen more
    bytes: the size of the buffer still counts the header, and sending adds the
    header again. *)
Theorem forwarded_send_is_longer :
  exists r d m' to bytes, handle_turn_send ex_engine ex_server ex_near (ex_socks ex_peer) (ex_in (ex_send ex_data))
    = Ret (r, d, m', [UdpOut 7 to 0 9 0 bytes]) /\
    drop 14 bytes = slice (mdata (ex_send_msg ex_data)) 0 (mlen (ex_send_msg ex_data)) ++ zeros 14.
Proof. eexists _, _, _, _, _. split; vm_compute; reflexivity. Qed.

Definition ex_stranger : ioa_addr := set_port (set_sin_addr (set_family addr_zero AF_INET) [192; 0; 2; 1]) 6666.

(** Permissions do not protect the client from a host that writes the cluster
    header itself: a datagram of a stranger without a permission, beginning with
    the identifier 0x8001 and the address of a permitted peer, is relayed as the
    data of that peer. *)
Theorem stranger_is_heard :
  allocation_get_permission (ss_alloc ex_near) ex_stranger = Ret None /\
  exists d m' to, peer_input_handler (H := moving) ex_engine ex_server ex_near (ex_socks ex_peer) 7
    (NetData ex_stranger (Some (fill ([0x80; 1; 10; 0; 0; 9; 0xc3; 0x50; 0; 0; 0; 0; 0; 0] ++ [0x40; 1; 0; 3; 7; 7; 7]))) 10 0)
    (zeros 12) = Ret (d, m', [UdpOut 5 to 0 9 0
      ([0x80; 0; 0; 0; 0; 0; 0; 0; 9; 0; 0; 10; 0x50; 0xc3] ++ [0x40; 1; 0; 3; 7; 7; 7])]).
Proof. split; [vm_compute; reflexivity|]. eexists _, _, _. vm_compute. reflexivity. Qed.

(** The copies inside one buffer overlap, which the standard does not define for
    memcpy: both for a peer's datagram that becomes ChannelData and for one of
    another server. *)
Theorem overlapping_copies :
  peer_input_handler (H := strict) ex_engine ex_server ex_far (ex_socks ex_host) 7
    (NetData ex_peer (Some (fill (replicate 20 1))) 10 0) (zeros 12) = UB /\
  unwrap (H := strict) ex_host
    (fill ([0x80; 1; 10; 0; 0; 9; 0xc3; 0x50; 0; 0; 0; 0; 0; 0] ++ [0x40; 1; 0; 20] ++ replicate 20 1)) 38 = UB.
Proof. split; vm_compute; reflexivity. Qed.
