(* ===== verification/ServerAuth.v ===== *)
(** Authentication of requests: src/coturn/src/server/ns_turn_server.c
    ([check_stun_auth], [create_challenge_response]) and [is_secure_string] of
    src/coturn/src/apps/common/ns_turn_utils.c.

    The session's realm, user name and nonce are C strings, kept without their
    terminating zero; the key and the password are arrays.  The callback that
    looks credentials up ([userkeycb]) is an argument: it says whether the reply
    is postponed and what becomes of [ss->oauth].  Random numbers are arguments.
    The build is for a 64-bit host ([TURN_RANDOM_SIZE] is 8). *)

From stdpp Require Import base option numbers list strings.
From S2P Require Import Prelude IoAddr StunAddr StunDefs StunMsg StunFraming StunCrc StunFingerprint StunAuth StunBuild.
From S2P Require Import SlotTable TurnMaps Timers Allocation NetBuffer Sockets TurnServer.

Definition STUN_MAX_USERNAME_SIZE : Z := 512.
Definition STUN_MAX_REALM_SIZE : Z := 127.
Definition STUN_MAX_NONCE_SIZE : Z := 127.
Definition NONCE_LENGTH_32BITS : Z := 4.
Definition NONCE_MAX_SIZE : Z := NONCE_LENGTH_32BITS * 4 + 1.

(** The fields of the server that authentication uses; an empty name stands for
    NULL. *)
Record auth_server : Type := AuthServer {
  as_ct : turn_credential_type;
  stale_nonce : Z;
  as_ctime : Z;
  as_oauth : bool;
  oauth_server_name : list Z }.

(** The fields of the session. *)
Record auth_session : Type := AuthSession {
  nonce : list Z;
  nonce_expiration_time : Z;
  username : list Z;
  hmackey : list Z;
  hmackey_set : bool;
  pwd : list Z;
  ss_oauth : bool;
  realm_options_name : list Z }.

Definition with_nonce (a : auth_session) (n : list Z) (t : Z) : auth_session :=
  AuthSession n t (username a) (hmackey a) (hmackey_set a) (pwd a) (ss_oauth a) (realm_options_name a).
Definition with_username (a : auth_session) (u : list Z) (set : bool) : auth_session :=
  AuthSession (nonce a) (nonce_expiration_time a) u (hmackey a) set (pwd a) (ss_oauth a) (realm_options_name a).
Definition with_realm (a : auth_session) (r : list Z) : auth_session :=
  AuthSession (nonce a) (nonce_expiration_time a) (username a) (hmackey a) (hmackey_set a) (pwd a) (ss_oauth a) r.
Definition with_oauth (a : auth_session) (o : bool) : auth_session :=
  AuthSession (nonce a) (nonce_expiration_time a) (username a) (hmackey a) (hmackey_set a) (pwd a) o (realm_options_name a).

(** ** Strings *)

(** [strstr(s,needle)] is not NULL. *)
Fixpoint has_substring (needle s : list Z) : bool :=
  bool_decide (take (length needle) s = needle) ||
  match s with
  | [] => false
  | _ :: r => has_substring needle r
  end.

Definition is_secure_string (str : list Z) (sanitizesql : bool) : bool :=
  let s := tolower <$> cstr str in
  if existsb (fun c => bool_decide (c ∈ [32; 9; 39; 34; 10; 13; 92])) s then false
  else negb (sanitizesql && has_substring (bytes_of_string "union") s && has_substring (bytes_of_string "select") s).

(** An attribute copied into an array of [size] characters, as a string. *)
Definition copy_attr (buf : list Z) (sar : Z) (size : Z) : outcome (list Z) :=
  l ← stun_attr_get_len buf (Some sar);
  let alen := Z.min l (size - 1) in
  v ← stun_attr_get_value buf (Some sar);
  match v with
  | Some v => bs ← rd_bytes buf v alen; Ret (cstr (bs ++ [0]))
  | None => if alen =? 0 then Ret [] else UB
  end.

(** ** Nonces *)

(** The hexadecimal digits of a 64-bit number, at least eight of them. *)
Fixpoint hex_of (n : nat) (v : Z) : list Z :=
  match n with
  | O => []
  | S n => hex_of n (v / 16) ++ [hex_digit (v mod 16)]
  end.

Fixpoint strip_zeros (n : nat) (l : list Z) : list Z :=
  match n, l with
  | S n, c :: r => if c =? 48 then strip_zeros n r else l
  | _, _ => l
  end.

Definition fmt_08lx (v : Z) : list Z := strip_zeros 8 (hex_of 16 (u64 v)).

(** Each number is written behind the first eight digits of the one before. *)
Definition random_nonce (r0 r1 : Z) : list Z := take 8 (fmt_08lx r0) ++ take 8 (fmt_08lx r1).

Definition renew_nonce (server : auth_server) (a : auth_session) (rnd : Z * Z) : outcome auth_session :=
  stale ← (if truthy (stale_nonce server) then turn_time_before (nonce_expiration_time a) (as_ctime server) else Ret false);
  if bool_decide (nonce a = []) || stale
  then Ret (with_nonce a (random_nonce rnd.1 rnd.2) (u32 (as_ctime server + stale_nonce server)))
  else Ret a.

Definition need_stun_authentication (server : auth_server) : bool :=
  bool_decide (as_ct server = TURN_CREDENTIALS_LONG_TERM).

(** ** Replies *)
Definition reason_arg (r : reply) : option (list Z) :=
  match reason r with EmptyString => None | s => Some (bytes_of_string s) end.

Definition create_challenge_response (server : auth_server) (a : auth_session) (r : reply) (tid nbh : list Z) (method : Z)
    (rnd : list Z) : outcome reply :=
  m ← stun_init_error_response_str method nbh (err_code r) (reason_arg r) (Some tid) rnd;
  '(_, m) ← stun_attr_add_str m STUN_ATTRIBUTE_NONCE (Some (nonce a ++ zeros (Z.to_nat NONCE_MAX_SIZE))) (NONCE_MAX_SIZE - 1);
  let realm := realm_options_name a in
  '(_, m) ← stun_attr_add_str m STUN_ATTRIBUTE_REALM (Some realm) (strlen realm);
  m ← (if as_oauth server then
         let server_name := if bool_decide (oauth_server_name server = []) then realm else oauth_server_name server in
         '(_, m) ← stun_attr_add_str m STUN_ATTRIBUTE_THIRD_PARTY_AUTHORIZATION (Some server_name) (strlen server_name);
         Ret m
       else Ret m);
  Ret (Reply (err_code r) (reason r) (unknown_attrs r) (Some m)).

(** The session, the reply, [*message_integrity] and [*postpone_reply]. *)
Record auth_result : Type := AuthResult {
  ar_session : auth_session;
  ar_reply : reply;
  message_integrity : bool;
  postpone_reply : bool }.

Section auth.
Context {C : Crypto}.
Context (userkeycb : auth_session -> list Z -> list Z -> bool * bool).
Context (realm_by_name : list Z -> list Z).

(** The checks of REALM: the session and the realm used, or an error. *)
Definition check_realm (a : auth_session) (r : reply) (method : Z) (realm : list Z) : auth_session * (list Z + reply) :=
  if negb (is_secure_string realm false) then (a, inr (fail_with r 400 (reason r)))
  else if method =? STUN_METHOD_CONNECTION_BIND then (with_realm a (realm_by_name realm), inl realm)
  else if negb (strcmp realm (realm_options_name a) =? 0) then
    if negb (ss_oauth a) then
      if method =? STUN_METHOD_ALLOCATE then
        (a, inr (fail_with r 437 "Allocation mismatch: wrong credentials: the realm value is incorrect"))
      else (a, inr (fail_with r 441 "Wrong credentials: the realm value is incorrect"))
    else (a, inl (realm_options_name a))
  else (a, inl realm).

(** The checks of USERNAME. *)
Definition check_username (a : auth_session) (r : reply) (method : Z) (usname : list Z) : auth_session * option reply :=
  if negb (is_secure_string usname true) then (a, Some (fail_with r 400 (reason r)))
  else if negb (bool_decide (username a = [])) then
    if negb (strcmp (username a) usname =? 0) then
      if ss_oauth a then (with_username a usname false, None)
      else if method =? STUN_METHOD_ALLOCATE then (a, Some (fail_with r 437 "Allocation mismatch: wrong credentials"))
      else (a, Some (fail_with r 441 (reason r)))
    else (a, None)
  else (with_username a usname (hmackey_set a), None).

Definition check_stun_auth (server : auth_server) (a : auth_session) (r : reply) (tid buf : list Z) (len : Z) (nbh : list Z)
    (method : Z) (can_resume : bool) (rnd : Z * Z) (rnd_tid : list Z) : outcome auth_result :=
  if negb (need_stun_authentication server) then Ret (AuthResult a r false false) else
  a ← renew_nonce server a rnd;
  let challenge a := r ← create_challenge_response server a (fail_with r 401 (reason r)) tid nbh method rnd_tid;
                     Ret (AuthResult a r false false) in
  let fail a r := Ret (AuthResult a r false false) in
  sar ← stun_attr_get_first_by_type_str buf len STUN_ATTRIBUTE_MESSAGE_INTEGRITY;
  match sar with
  | None => challenge a
  | Some sar =>
      sarlen ← stun_attr_get_len buf (Some sar);
      if negb (sarlen =? SHA1SIZEBYTES) then challenge a else
      sar ← stun_attr_get_first_by_type_str buf len STUN_ATTRIBUTE_REALM;
      match sar with
      | None => fail a (fail_with r 400 (reason r))
      | Some sar =>
          realm ← copy_attr buf sar (STUN_MAX_REALM_SIZE + 1);
          match check_realm a r method realm with
          | (a, inr e) => fail a e
          | (a, inl realm) =>
              sar ← stun_attr_get_first_by_type_str buf len STUN_ATTRIBUTE_USERNAME;
              match sar with
              | None => fail a (fail_with r 400 (reason r))
              | Some sar =>
                  usname ← copy_attr buf sar (STUN_MAX_USERNAME_SIZE + 1);
                  match check_username a r method usname with
                  | (a, Some e) => fail a e
                  | (a, None) =>
                      sar ← stun_attr_get_first_by_type_str buf len STUN_ATTRIBUTE_NONCE;
                      match sar with
                      | None => fail a (fail_with r 400 (reason r))
                      | Some sar =>
                          _ ← copy_attr buf sar (STUN_MAX_NONCE_SIZE + 1);
                          let ask (a : auth_session) :=
                            if can_resume then
                              let '(postpone, oauth) := userkeycb a usname realm in
                              if (postpone : bool) then Ret (AuthResult (with_oauth a oauth) r false true)
                              else challenge (with_oauth a oauth)
                            else challenge a in
                          if negb (hmackey_set a) && (hd 0 (pwd a) =? 0) then ask a
                          else
                            '(ok, _) ← stun_check_message_integrity_by_key_str (as_ct server) buf len (hmackey a) (pwd a) SHATYPE_SHA1;
                            if ok <? 1 then ask a else Ret (AuthResult a r true false)
                      end
                  end
              end
          end
      end
  end.
End auth.
