(* ===== verification/ServerAuthFacts.v ===== *)
(** Authentication of requests: [check_stun_auth] is defined on every received
    message, and what it answers is one of four outcomes. *)

From stdpp Require Import base option numbers list strings sets.
From S2P Require Import Prelude IoAddr StunAddr StunDefs StunMsg StunMsgFacts StunFraming StunCrc StunFingerprint.
From S2P Require Import StunAuth StunAuthFacts StunBuild StunBuildFacts.
From S2P Require Import SlotTable TurnMaps Timers Allocation NetBuffer Sockets TurnServer ServerAuth.

(** * Strings and nonces *)
Lemma cstr_bytes s : bytes_ok s -> nonzero_bytes (cstr s).
Proof.
  intros H. induction H as [|c s Hc Hs [IH1 IH2]]; simpl; [by split; constructor|].
  destruct (c =? 0) eqn:?; bool_arith; split; constructor; done.
Qed.

Lemma cstr_snoc_zero s : blen (cstr (s ++ [0])) <= blen s.
Proof. unfold blen. induction s as [|c s IH]; simpl; [done|]. destruct (c =? 0); simpl; lia. Qed.

Lemma copy_attr_ret buf len sar l size :
  bytes_ok buf -> len <= blen buf -> 20 <= sar -> stun_attr_get_len buf (Some sar) = Ret l -> 0 <= l ->
  sar + 4 + pad4 l <= len -> 0 < size ->
  exists s, copy_attr buf sar size = Ret s /\ nonzero_bytes s /\ blen s < size.
Proof.
  intros B L Hs El Hl Hle Hsz. unfold copy_attr. rewrite El. mstep.
  unfold stun_attr_get_value. unfold stun_attr_get_len in El. rewrite El. mstep.
  pose proof (rd16_range _ _ _ B El). destruct (pad4_spec l) as [? _]; [done|].
  destruct (l <? 1) eqn:?; bool_arith; mstep.
  - replace (Z.min l (size - 1)) with 0 by lia. exists []. split; [done|]. split; [by split; constructor|].
    unfold blen. simpl. lia.
  - rewrite rd_bytes_ret by lia. mstep. eexists. split; [done|].
    split. { apply cstr_bytes. apply bytes_ok_app; auto with bytes. }
    pose proof (cstr_snoc_zero (slice buf (sar + 4) (Z.min l (size - 1)))) as Hc.
    rewrite blen_slice in Hc by lia. lia.
Qed.

(** A search for an attribute and the copy of its value. *)
Lemma string_attr buf len ty size :
  bytes_ok buf -> len <= blen buf -> 0 < size ->
  exists o, stun_attr_get_first_by_type_str buf len ty = Ret o /\
    forall sar, o = Some sar -> exists s, copy_attr buf sar size = Ret s /\ nonzero_bytes s /\ blen s < size.
Proof.
  intros B L Hs. destruct (search_by_type_safe buf len ty B L) as (o & -> & Ho). exists o. split; [done|].
  intros sar ->. destruct (Ho sar eq_refl) as (l & ? & _ & ? & ? & ?). by eapply copy_attr_ret.
Qed.

Lemma hex_digit_ok d : 0 <= d < 16 -> 48 <= hex_digit d < 256.
Proof. intros. unfold hex_digit. if_case; lia. Qed.

Lemma hex_of_ok n v : Forall (fun c => 48 <= c < 256) (hex_of n v) /\ length (hex_of n v) = n.
Proof.
  revert v. induction n as [|n IH]; intros v; simpl; [done|]. destruct (IH (v / 16)) as [? ?].
  split; [|rewrite length_app; simpl; lia]. apply Forall_app. split; [done|]. constructor; [|done].
  apply hex_digit_ok, Z.mod_pos_bound. lia.
Qed.

Lemma strip_zeros_ok n l :
  Forall (fun c => 48 <= c < 256) l -> Forall (fun c => 48 <= c < 256) (strip_zeros n l) /\
  (length l <= length (strip_zeros n l) + n)%nat.
Proof.
  revert l. induction n as [|n IH]; intros l Hl; simpl; [split; [done|lia]|].
  destruct l as [|c r]; [split; [done|lia]|]. destruct (c =? 48); [|split; [done|lia]].
  inversion_clear Hl. destruct (IH r) as [? ?]; [done|]. split; [done|]. simpl. lia.
Qed.

Lemma fmt_08lx_take v : Forall (fun c => 48 <= c < 256) (take 8 (fmt_08lx v)) /\ length (take 8 (fmt_08lx v)) = 8%nat.
Proof.
  unfold fmt_08lx. destruct (hex_of_ok 16 (u64 v)) as [H L].
  destruct (strip_zeros_ok 8 _ H) as [H' L']. rewrite length_take. split; [by apply Forall_take|lia].
Qed.

Definition is_nonce (n : list Z) : Prop := nonzero_bytes n /\ blen n = NONCE_MAX_SIZE - 1.

Lemma random_nonce_ok r0 r1 : is_nonce (random_nonce r0 r1).
Proof.
  unfold random_nonce. destruct (fmt_08lx_take r0) as [H0 L0], (fmt_08lx_take r1) as [H1 L1].
  assert (Forall (fun c => 48 <= c < 256) (take 8 (fmt_08lx r0) ++ take 8 (fmt_08lx r1))) as H by (by apply Forall_app).
  split; [split|].
  - eapply Forall_impl; [exact H|]. intros c Hc. cbv beta in Hc. unfold is_byte. lia.
  - eapply Forall_impl; [exact H|]. intros c Hc. cbv beta in *. lia.
  - unfold blen. rewrite length_app, L0, L1. done.
Qed.

(** * The session *)

(** What the code keeps true of the strings of a session. *)
Record auth_session_ok (a : auth_session) : Prop := SessionOk {
  so_nonce : nonce a = [] \/ is_nonce (nonce a);
  so_expires : 0 <= nonce_expiration_time a < 2 ^ 32;
  so_username : nonzero_bytes (username a) /\ blen (username a) <= STUN_MAX_USERNAME_SIZE;
  so_realm : nonzero_bytes (realm_options_name a) /\ blen (realm_options_name a) <= STUN_MAX_REALM_SIZE;
  so_hmackey : get_hmackey_size SHATYPE_SHA1 <= blen (hmackey a) }.

Record auth_server_ok (server : auth_server) : Prop := ServerOk {
  sv_ct : as_ct server = TURN_CREDENTIALS_LONG_TERM;
  sv_name : nonzero_bytes (oauth_server_name server) /\ blen (oauth_server_name server) <= STUN_MAX_USERNAME_SIZE;
  sv_clock : 0 <= as_ctime server < 2 ^ 31 }.

(** The clock and the expiry of the nonce are times after 1970 and before
    2038, whatever the configured lifetime of a nonce. *)
Definition times_ok (server : auth_server) (a : auth_session) : Prop :=
  stale_nonce server = 0 \/ nonce_expiration_time a < 2 ^ 31.

Lemma renew_nonce_ret server a rnd :
  auth_server_ok server -> auth_session_ok a -> times_ok server a ->
  exists n t, renew_nonce server a rnd = Ret (with_nonce a n t) /\ auth_session_ok (with_nonce a n t) /\ is_nonce n.
Proof.
  intros Hs Ha Ht. unfold renew_nonce.
  assert (exists b : bool, (if truthy (stale_nonce server) then turn_time_before (nonce_expiration_time a) (as_ctime server)
            else Ret false) = Ret b) as [b ->].
  { unfold truthy. destruct (stale_nonce server =? 0) eqn:?; simpl; [eauto|]. bool_arith.
    destruct Ht as [?|Ht]; [done|]. pose proof (sv_clock _ Hs). pose proof (so_expires _ Ha). unfold turn_time_before.
    assert (forall x, 0 <= x < 2 ^ 31 -> i32 x = x) as E.
    { intros x Hx. unfold i32. rewrite Z.mod_small by lia. lia. }
    rewrite !E by lia. if_case. eauto. }
  mstep. destruct (bool_decide (nonce a = []) || b) eqn:E.
  - eexists _, _. split; [done|]. split; [|apply random_nonce_ok]. destruct Ha. constructor; cbn [nonce nonce_expiration_time
      username realm_options_name hmackey with_nonce]; auto. { right. apply random_nonce_ok. } apply Z.mod_pos_bound. lia.
  - exists (nonce a), (nonce_expiration_time a). split; [by destruct a|]. bool_arith. apply bool_decide_eq_false in H.
    split; [by destruct a|]. by destruct (so_nonce _ Ha).
Qed.

(** * The challenge *)
Definition challenge_attrs (server : auth_server) (a : auth_session) : list (Z * list Z) :=
  [(STUN_ATTRIBUTE_ERROR_CODE, error_attr 0 401 (get_default_reason 401)); (STUN_ATTRIBUTE_NONCE, nonce a);
   (STUN_ATTRIBUTE_REALM, realm_options_name a)] ++
  (if as_oauth server
   then [(STUN_ATTRIBUTE_THIRD_PARTY_AUTHORIZATION,
          if bool_decide (oauth_server_name server = []) then realm_options_name a else oauth_server_name server)]
   else []).

Definition challenge (server : auth_server) (a : auth_session) (method : Z) (tid : list Z) : smsg :=
  SMsg (stun_make_error_response method) STUN_MAGIC_COOKIE tid (challenge_attrs server a).

(** The arguments of a request: the method, the transaction id, the reply
    buffer and the random numbers. *)
Record request_args (method : Z) (tid nbh rnd_tid : list Z) : Prop := RequestArgs {
  ra_method : 0 <= method < 4096;
  ra_tid : bytes_ok tid /\ length tid = 12%nat;
  ra_nbh : bytes_ok nbh /\ 2000 <= blen nbh;
  ra_rnd : bytes_ok rnd_tid /\ length rnd_tid = 12%nat }.

(** ** Error responses *)

(** A reason that is put into a response as it is. *)
Definition reason_ok (text : string) : bool :=
  let r := bytes_of_string text in bytes_okb r && forallb (fun c => negb (c =? 0)) r && (blen r <=? 508).

Lemma reason_ok_spec text : reason_ok text = true -> nonzero_bytes (bytes_of_string text) /\ blen (bytes_of_string text) <= 508.
Proof.
  unfold reason_ok. intros [[Hb Hz]%andb_true_iff Hl]%andb_true_iff. bool_arith. split; [|done].
  split; [by apply bytes_okb_spec|].
  apply Forall_forall. intros x Hx. rewrite forallb_forall in Hz. apply list_elem_of_In, Hz in Hx. by bool_arith.
Qed.

Lemma switch_ok l d v : forallb (fun p => reason_ok p.2) l = true -> reason_ok d = true -> reason_ok (switch l d v) = true.
Proof. intros H Hd. induction l as [|[c t] l IH]; simpl in *; [done|]. bool_arith. destruct (v =? c); auto. Qed.

Lemma default_reason_ok code : nonzero_bytes (get_default_reason code) /\ blen (get_default_reason code) <= 508.
Proof. apply reason_ok_spec. by apply switch_ok. Qed.

Lemma effective_reason_ok r code :
  reason_ok (reason r) = true ->
  nonzero_bytes (effective_reason code (reason_arg r)) /\ blen (effective_reason code (reason_arg r)) <= 508.
Proof.
  intros H. unfold reason_arg. destruct (reason r) as [|c t] eqn:E; unfold effective_reason; [apply default_reason_ok|].
  destruct (strcmp _ _ =? 0); [apply default_reason_ok|by apply reason_ok_spec].
Qed.

Definition error_msg (method : Z) (tid : list Z) (code : Z) (text : list Z) (attrs : list (Z * list Z)) : smsg :=
  SMsg (stun_make_error_response method) STUN_MAGIC_COOKIE tid ((STUN_ATTRIBUTE_ERROR_CODE, error_attr 0 code text) :: attrs).

Lemma error_response_ret method tid nbh rnd r code :
  request_args method tid nbh rnd -> reason_ok (reason r) = true ->
  exists m, stun_init_error_response_str method nbh code (reason_arg r) (Some tid) rnd = Ret m /\
    mrepr m (error_msg method tid code (effective_reason code (reason_arg r)) []) /\ mlen m <= 540 /\
    blen (mdata m) = blen nbh.
Proof.
  intros [Hm [Bt Lt] [Bb Lb] [Br Lr]] Hr. unfold stun_init_error_response_str.
  destruct (init_refines (stun_make_error_response method) nbh rnd Bb ltac:(lia) Br Lr) as (b0 & -> & R & Hl & Hd).
  destruct (made_type_small method Hm) as (_ & _ & _ & Ht). rewrite Ht in R. mstep.
  destruct (effective_reason_ok r code Hr) as [Hz H5].
  destruct (error_common_refines b0 _ code (reason_arg r) tid R Bt Lt Hz H5) as (b1 & -> & R1 & Hl1 & Hd1);
    [unfold MAX_STUN_MESSAGE_SIZE; lia|lia|]. exists b1. split; [done|]. split; [exact R1|]. lia.
Qed.

Lemma add_string b m t v n :
  mrepr b m -> 0 <= t < 2 ^ 16 -> nonzero_bytes v -> blen v <= n -> n <= 512 -> mlen b + 520 <= 2000 ->
  2000 <= blen (mdata b) ->
  exists b', stun_attr_add_str b t (Some v) (strlen v) = Ret (0, b') /\ mrepr b' (s_add m t v) /\
    mlen b' <= mlen b + 7 + n /\ blen (mdata b') = blen (mdata b).
Proof.
  intros Hm Ht [Hb Hz] Hn H5 Hl Hd. pose proof (blen_nonneg v). destruct (pad4_spec (blen v)) as [? _]; [lia|].
  unfold strlen. rewrite (cstr_nonzero v Hz).
  destruct (add_step b m t v) as (b' & E & R & L & D); try done; unfold MAX_STUN_MESSAGE_SIZE; try lia.
  exists b'. split; [done|]. split; [done|]. split; [lia|done].
Qed.

Lemma create_challenge_ret server a r method tid nbh rnd :
  auth_server_ok server -> auth_session_ok a -> is_nonce (nonce a) -> request_args method tid nbh rnd -> reason r = EmptyString ->
  exists m, create_challenge_response server a (fail_with r 401 (reason r)) tid nbh method rnd =
      Ret (Reply 401 EmptyString (unknown_attrs r) (Some m)) /\
    mrepr m (challenge server a method tid) /\ mlen m <= 1300 /\ blen (mdata m) = blen nbh.
Proof.
  intros Hs Ha [Hn Hn16] Hargs Hr. pose proof (proj2 (ra_nbh _ _ _ _ Hargs)) as Lb.
  destruct (error_response_ret method tid nbh rnd r 401 Hargs) as (b1 & E1 & R1 & Hl1 & Hd1); [by rewrite Hr|].
  unfold create_challenge_response, fail_with, reason_arg in *. rewrite Hr in *.
  cbn [err_code reason unknown_attrs effective_reason] in *. rewrite E1. mstep. unfold error_msg in R1.
  assert (slice (nonce a ++ zeros (Z.to_nat NONCE_MAX_SIZE)) 0 (NONCE_MAX_SIZE - 1) = nonce a) as En.
  { unfold slice. rewrite drop_0. replace (Z.to_nat _) with (length (nonce a)) by (unfold blen in Hn16; lia).
    apply take_app_length. }
  rewrite attr_add_take by (rewrite blen_app, Hn16, blen_zeros; unfold NONCE_MAX_SIZE, NONCE_LENGTH_32BITS; lia).
  rewrite En, <- Hn16. replace (blen (nonce a)) with (strlen (nonce a)) by (unfold strlen; by rewrite (cstr_nonzero _ (proj2 Hn))).
  destruct (add_string b1 _ STUN_ATTRIBUTE_NONCE (nonce a) 16 R1 ltac:(done) Hn) as (b2 & -> & R2 & Hl2 & Hd2);
    [by rewrite Hn16|lia..|]. mstep.
  destruct (so_realm _ Ha) as [Hrl Hrl'].
  destruct (add_string b2 _ STUN_ATTRIBUTE_REALM (realm_options_name a) STUN_MAX_REALM_SIZE R2 ltac:(done) Hrl Hrl')
    as (b3 & -> & R3 & Hl3 & Hd3); [done|lia..|]. mstep. unfold STUN_MAX_REALM_SIZE in *.
  unfold challenge, challenge_attrs. destruct (as_oauth server).
  - destruct (sv_name _ Hs) as [Hnm Hnm']. unfold STUN_MAX_USERNAME_SIZE in *.
    edestruct (add_string b3 _ STUN_ATTRIBUTE_THIRD_PARTY_AUTHORIZATION
                (if bool_decide (oauth_server_name server = []) then realm_options_name a else oauth_server_name server)
                512 R3) as (b4 & -> & R4 & Hl4 & Hd4); [done|by case_bool_decide|case_bool_decide; lia|lia..|].
    mstep. eexists. split; [done|]. split; [exact R4|]. lia.
  - mstep. eexists. split; [done|]. rewrite app_nil_r. split; [exact R3|]. lia.
Qed.

(** * The check *)
Section gate.
Context {C : Crypto} {CL : CryptoLaws C}.
Context (userkeycb : auth_session -> list Z -> list Z -> bool * bool).
Context (realm_by_name : list Z -> list Z).
Hypothesis realms_ok : forall r, nonzero_bytes (realm_by_name r) /\ blen (realm_by_name r) <= STUN_MAX_REALM_SIZE.

(** A request that may be served: its MESSAGE-INTEGRITY is the HMAC of the
    message under the key of the session, and USERNAME and REALM are the
    session's. *)
Record authentic (buf : list Z) (len method : Z) (a : auth_session) : Prop := Authentic {
  au_hmac : exists p, stun_attr_get_first_by_type_str buf len STUN_ATTRIBUTE_MESSAGE_INTEGRITY = Ret (Some p) /\
    20 <= p /\ p + 4 + SHA1SIZEBYTES <= len /\
    HMAC EVP_sha1 (slice (hmackey a) 0 16) (hmac_input buf p SHA1SIZEBYTES) = Some (slice buf (p + 4) SHA1SIZEBYTES);
  au_username : exists p, stun_attr_get_first_by_type_str buf len STUN_ATTRIBUTE_USERNAME = Ret (Some p) /\
    copy_attr buf p (STUN_MAX_USERNAME_SIZE + 1) = Ret (username a) /\ is_secure_string (username a) true = true;
  au_realm : exists p r, stun_attr_get_first_by_type_str buf len STUN_ATTRIBUTE_REALM = Ret (Some p) /\
    copy_attr buf p (STUN_MAX_REALM_SIZE + 1) = Ret r /\
    (method <> STUN_METHOD_CONNECTION_BIND -> ss_oauth a = false -> r = realm_options_name a);
  au_key_set : hmackey_set a = true \/ hd 0 (pwd a) <> 0 }.

(** The four outcomes of the check. *)
Inductive auth_outcome (server : auth_server) (tid buf : list Z) (len method : Z) (can_resume : bool) :
    auth_result -> Prop :=
| Accepted a : authentic buf len method a -> auth_outcome server tid buf len method can_resume (AuthResult a no_reply true false)
| Postponed a : can_resume = true -> auth_outcome server tid buf len method can_resume (AuthResult a no_reply false true)
| Refused a code text : code ∈ [400; 437; 441] -> reason_ok text = true ->
    auth_outcome server tid buf len method can_resume (AuthResult a (fail_with no_reply code text) false false)
| Challenged a m : mrepr m (challenge server a method tid) -> mlen m <= 1300 -> 2000 <= blen (mdata m) ->
    auth_outcome server tid buf len method can_resume (AuthResult a (Reply 401 EmptyString [] (Some m)) false false).

(** The keys of a session change only when the user database answers, and its
    user only under OAuth. *)
Definition same_keys (a a' : auth_session) : Prop :=
  hmackey a' = hmackey a /\ pwd a' = pwd a /\ (ss_oauth a = false -> username a <> [] -> username a' = username a).

Lemma same_keys_trans a b c : same_keys a b -> ss_oauth b = ss_oauth a -> same_keys b c -> same_keys a c.
Proof.
  intros (H1 & P1 & U1) O (H2 & P2 & U2). split; [congruence|]. split; [congruence|].
  intros Ho Hu. rewrite <- (U1 Ho Hu). apply U2; [congruence|]. by rewrite (U1 Ho Hu).
Qed.

Lemma strcmp_eq a b : nonzero_bytes a -> nonzero_bytes b -> strcmp a b = 0 <-> a = b.
Proof. intros [_ Ha] [_ Hb]. unfold strcmp. rewrite !cstr_nonzero by done. by apply strcmp_chars_zero. Qed.

Lemma check_realm_cases a method realm :
  auth_session_ok a -> nonzero_bytes realm -> blen realm <= STUN_MAX_REALM_SIZE ->
  exists a', auth_session_ok a' /\ same_keys a a' /\ nonce a' = nonce a /\ username a' = username a /\ ss_oauth a' = ss_oauth a /\
    hmackey_set a' = hmackey_set a /\
    ((exists code text, check_realm realm_by_name a no_reply method realm = (a', inr (fail_with no_reply code text)) /\
        code ∈ [400; 437; 441] /\ reason_ok text = true) \/
     (exists used, check_realm realm_by_name a no_reply method realm = (a', inl used) /\
        (method <> STUN_METHOD_CONNECTION_BIND -> ss_oauth a' = false -> realm = realm_options_name a'))).
Proof.
  intros Ha Hr Hl. unfold check_realm.
  destruct (is_secure_string realm false); simpl.
  2: { exists a. split_and!; try done. left. eexists _, _. split; [done|]. split; [set_solver|done]. }
  destruct (method =? STUN_METHOD_CONNECTION_BIND) eqn:?; bool_arith.
  { exists (with_realm a (realm_by_name realm)). split_and!; try done.
    - destruct Ha. constructor; try done. cbn. apply realms_ok.
    - right. eexists. by split. }
  destruct (strcmp realm (realm_options_name a) =? 0) eqn:E; simpl; bool_arith.
  { apply strcmp_eq in E; [|done|apply Ha]. exists a. split_and!; try done. right. eexists. by split. }
  destruct (ss_oauth a) eqn:Eo; simpl.
  { exists a. split_and!; try done. right. eexists. split; [done|]. congruence. }
  exists a. split_and!; try done. left.
  destruct (method =? STUN_METHOD_ALLOCATE); (eexists _, _; split; [done|]; split; [set_solver|done]).
Qed.

Lemma check_username_cases a method usname :
  auth_session_ok a -> nonzero_bytes usname -> blen usname <= STUN_MAX_USERNAME_SIZE ->
  exists a', auth_session_ok a' /\ same_keys a a' /\ nonce a' = nonce a /\ realm_options_name a' = realm_options_name a /\
    ss_oauth a' = ss_oauth a /\
    ((exists code text, check_username a no_reply method usname = (a', Some (fail_with no_reply code text)) /\
        code ∈ [400; 437; 441] /\ reason_ok text = true) \/
     (check_username a no_reply method usname = (a', None) /\ username a' = usname /\ is_secure_string usname true = true)).
Proof.
  intros Ha Hr Hl. unfold check_username.
  destruct (is_secure_string usname true); simpl.
  2: { exists a. split_and!; try done. left. eexists _, _. split; [done|]. split; [set_solver|done]. }
  assert (forall set, auth_session_ok (with_username a usname set)) as Hok by (intros; destruct Ha; by constructor).
  assert (forall set, username a = [] \/ ss_oauth a = true -> same_keys a (with_username a usname set)) as Hk.
  { intros set Hc. split; [done|]. split; [done|]. intros Ho Hu. destruct Hc; congruence. }
  case_bool_decide; simpl.
  { exists (with_username a usname (hmackey_set a)). split; [apply Hok|]. split; [auto|]. split_and!; try done. by right. }
  destruct (strcmp (username a) usname =? 0) eqn:E; simpl; bool_arith.
  { apply strcmp_eq in E; [|apply Ha|done]. exists a. split_and!; try done. by right. }
  destruct (ss_oauth a) eqn:Eo; simpl.
  { exists (with_username a usname false). split; [apply Hok|]. split; [auto|]. split_and!; try done. by right. }
  exists a. split_and!; try done. left.
  destruct (method =? STUN_METHOD_ALLOCATE); (eexists _, _; split; [done|]; split; [set_solver|done]).
Qed.

Lemma with_oauth_ok a o : auth_session_ok a -> auth_session_ok (with_oauth a o).
Proof. intros []. by constructor. Qed.

Section request.
Context (server : auth_server) (tid buf nbh rnd_tid : list Z) (len method : Z) (can_resume : bool).
Hypothesis Hserver : auth_server_ok server.
Hypothesis Hbytes : bytes_ok buf.
Hypothesis Hlen : len <= blen buf.
Hypothesis Hargs : request_args method tid nbh rnd_tid.

(** A result of the check that keeps the session [a0] in order. *)
Definition settles (a0 : auth_session) (m : outcome auth_result) : Prop :=
  exists res, m = Ret res /\ auth_outcome server tid buf len method can_resume res /\ auth_session_ok (ar_session res) /\
    same_keys a0 (ar_session res).

Lemma refuse_settles a0 a code text :
  auth_session_ok a -> same_keys a0 a -> code ∈ [400; 437; 441] -> reason_ok text = true ->
  settles a0 (Ret (AuthResult a (fail_with no_reply code text) false false)).
Proof. intros. eexists. split; [done|]. split; [by constructor|]. by split. Qed.

Lemma challenge_settles a0 a :
  auth_session_ok a -> is_nonce (nonce a) -> same_keys a0 a ->
  settles a0 (r ← create_challenge_response server a (fail_with no_reply 401 (reason no_reply)) tid nbh method rnd_tid;
              Ret (AuthResult a r false false)).
Proof.
  intros Ha Hn Hk. destruct (create_challenge_ret server a no_reply method tid nbh rnd_tid) as (m & -> & Hm & Hl & Hd); try done.
  eexists. split; [done|]. split; [constructor; try done; rewrite Hd; apply Hargs|]. by split.
Qed.

Lemma ask_settles a0 a usname realm :
  auth_session_ok a -> is_nonce (nonce a) -> same_keys a0 a ->
  let chal a := r ← create_challenge_response server a (fail_with no_reply 401 (reason no_reply)) tid nbh method rnd_tid;
                Ret (AuthResult a r false false) in
  settles a0
    (if can_resume then
       let '(postpone, oauth) := userkeycb a usname realm in
       if (postpone : bool) then Ret (AuthResult (with_oauth a oauth) no_reply false true) else chal (with_oauth a oauth)
     else chal a).
Proof.
  intros Ha Hn Hk chal. unfold chal. clear chal. destruct can_resume eqn:Er; [|by apply challenge_settles].
  destruct (userkeycb a usname realm) as [[] o]; [|by apply challenge_settles; [apply with_oauth_ok|..]].
  eexists. split; [done|]. split; [by constructor|]. split; [by apply with_oauth_ok|done].
Qed.

(** The check answers with one of the four outcomes. *)
Lemma check_stun_auth_cases a rnd :
  auth_session_ok a -> times_ok server a ->
  settles a (check_stun_auth userkeycb realm_by_name server a no_reply tid buf len nbh method can_resume rnd rnd_tid).
Proof.
  intros Ha Ht. unfold check_stun_auth, need_stun_authentication. rewrite bool_decide_true by apply Hserver.
  destruct (renew_nonce_ret server a rnd Hserver Ha Ht) as (n & t & -> & H0 & Hn). mstep. cbv zeta.
  assert (same_keys a (with_nonce a n t) /\ ss_oauth (with_nonce a n t) = ss_oauth a) as [K0 O0] by done. revert H0 K0 O0.
  assert (nonce (with_nonce a n t) = n) as En by done. revert En.
  generalize (with_nonce a n t). intros a0 En H0 K0 O0.
  destruct (search_by_type_safe buf len STUN_ATTRIBUTE_MESSAGE_INTEGRITY Hbytes Hlen) as ([p|] & Ep & Hp); rewrite Ep; mstep.
  2: { apply challenge_settles; by rewrite ?En. }
  destruct (Hp p eq_refl) as (l & Hp20 & _ & El & _). rewrite El. mstep.
  destruct (l =? SHA1SIZEBYTES); simpl; [|apply challenge_settles; by rewrite ?En].
  destruct (string_attr buf len STUN_ATTRIBUTE_REALM (STUN_MAX_REALM_SIZE + 1)) as ([ra|] & Era & Hra); try done;
    rewrite Era; mstep; [|apply refuse_settles; try done; set_solver].
  destruct (Hra ra eq_refl) as (realm & Ecr & Hrz & Hrl). rewrite Ecr. mstep.
  destruct (check_realm_cases a0 method realm H0 Hrz ltac:(lia))
    as (a1 & H1 & K1 & N1 & U1 & O1 & S1 & [(code & text & -> & Hc & Ht')|(used & -> & Hr)]).
  { apply refuse_settles; try done. by apply (same_keys_trans _ a0). }
  apply (same_keys_trans _ _ _ K0 O0) in K1.
  destruct (string_attr buf len STUN_ATTRIBUTE_USERNAME (STUN_MAX_USERNAME_SIZE + 1)) as ([ua|] & Eua & Hua); try done;
    rewrite Eua; mstep; [|apply refuse_settles; try done; set_solver].
  destruct (Hua ua eq_refl) as (us & Ecu & Huz & Hul). rewrite Ecu. mstep.
  destruct (check_username_cases a1 method us H1 Huz ltac:(lia))
    as (a2 & H2 & K2 & N2 & R2 & O2 & [(code & text & -> & Hc & Ht')|(-> & U2 & Hsec)]).
  { apply refuse_settles; try done. apply (same_keys_trans _ a1); try done. congruence. }
  assert (same_keys a a2) as K by (apply (same_keys_trans _ a1); try done; congruence).
  assert (is_nonce (nonce a2)) as N by congruence.
  destruct (string_attr buf len STUN_ATTRIBUTE_NONCE (STUN_MAX_NONCE_SIZE + 1)) as ([na|] & -> & Hna); try done;
    mstep; [|apply refuse_settles; try done; set_solver].
  destruct (Hna na eq_refl) as (nn & -> & _). mstep. cbv zeta.
  destruct (negb (hmackey_set a2) && (hd 0 (pwd a2) =? 0)) eqn:Ek; [by apply ask_settles|].
  destruct (integrity_check_spec (as_ct server) buf len (hmackey a2) (pwd a2) SHATYPE_SHA1
              (slice (hmackey a2) 0 16) Hbytes Hlen) as (r & -> & Hr01 & Hr1).
  { unfold key_ready. rewrite (sv_ct _ Hserver). destruct (decide _) as [?|_]; [done|]. split; [apply H2|done]. }
  mstep. destruct (r <? 1) eqn:?; bool_arith; [by apply ask_settles|].
  destruct Hr1 as (p' & ? & ? & Ep' & _ & HH); [lia|].
  eexists. split; [done|]. split; [|by split]. apply Accepted. constructor.
  - exists p'. by split_and!.
  - exists ua. subst us. by split_and!.
  - exists ra, realm. split_and!; try done. intros Hm Ho. rewrite R2. apply Hr; [done|congruence].
  - apply andb_false_iff in Ek as [?|?]; bool_arith; auto.
Qed.
End request.
End gate.

(** * Properties *)


Definition ex_auth_server : auth_server := AuthServer TURN_CREDENTIALS_LONG_TERM 600 1000 false [].

(** A session of user "u" of realm "r" whose nonce is "ffff...". *)
Definition ex_auth_session : auth_session :=
  AuthSession (replicate 16 102) 1600 [117] (zeros 64) true (zeros 16) false [114].

(** A CreatePermission request of that user with the nonce "old". *)
Definition ex_signed : outcome mbuf :=
  m ← stun_init_request_str STUN_METHOD_CREATE_PERMISSION (zeros 200) (zeros 12);
  '(_, m) ← stun_attr_add_str m STUN_ATTRIBUTE_USERNAME (Some [117]) 1;
  '(_, m) ← stun_attr_add_str m STUN_ATTRIBUTE_REALM (Some [114]) 1;
  '(_, m) ← stun_attr_add_str m STUN_ATTRIBUTE_NONCE (Some [111; 108; 100]) 3;
  '(_, m) ← stun_attr_add_integrity_str (C := toy_crypto) (zeros 64) TURN_CREDENTIALS_LONG_TERM m (zeros 64) [] SHATYPE_SHA1;
  Ret m.

Definition ex_signed_msg : mbuf := match ex_signed with Ret m => m | _ => MBuf [] 0 end.
Definition ex_no_database (a : auth_session) (user realm : list Z) : bool * bool := (false, ss_oauth a).

Definition ex_check (m : mbuf) : outcome auth_result :=
  check_stun_auth (C := toy_crypto) ex_no_database id ex_auth_server ex_auth_session no_reply (zeros 12) (mdata m) (mlen m)
    (zeros 2000) STUN_METHOD_CREATE_PERMISSION false (1, 2) (zeros 12).

Lemma ex_args : request_args STUN_METHOD_CREATE_PERMISSION (zeros 12) (zeros 2000) (zeros 12).
Proof. constructor; try done; by split; [apply bytes_okb_spec|]. Qed.

Lemma ex_auth_server_ok : auth_server_ok ex_auth_server.
Proof. constructor; try done. split; [by split; constructor|done]. Qed.

Lemma ex_auth_session_ok : auth_session_ok ex_auth_session.
Proof.
  constructor; try done.
  - right. split; [|done]. split; [by apply bytes_okb_spec|by repeat constructor].
  - split; [|done]. split; [by apply bytes_okb_spec|by repeat constructor].
  - split; [|done]. split; [by apply bytes_okb_spec|by repeat constructor].
Qed.


(** The nonce of a request is not compared with the session's: a message signed
    with another nonce is accepted, although the code announces a stale nonce
    check and the protocol asks for error 438. *)
Example stale_nonce_accepted :
  nonce ex_auth_session <> [111; 108; 100] /\ ex_check ex_signed_msg = Ret (AuthResult ex_auth_session no_reply true false).
Proof. split; [done|]. vm_compute. reflexivity. Qed.
