(* ===== verification/UserDb.v ===== *)
(** Realms, quotas and user names (apps/relay/userdb.c) and the bandwidth
    budget (apps/relay/netengine.c, [allocate_bps]).

    The parameters of the realms are objects that the table [realms] points to:
    a list, the default realm first; pointers are positions counted from 1, 0 is
    NULL.  Strings are C strings.  The mutexes of the tables are not modelled:
    every function holds the lock of what it changes. *)

From stdpp Require Import base option numbers list strings.
From S2P Require Import Prelude.
From S2P Require Import IoAddr.
From S2P Require Import StunDefs.
From S2P Require Import StunAuth.
From S2P Require Import TurnMaps.
From S2P Require Import ServerAuth.

(** * The parameters of the process *)
Record turn_params : Type := TurnParams {
  use_auth_secret_with_timestamp : bool;
  rest_api_separator : Z;
  static_auth_secrets : list (list Z);
  tp_oauth_server_name : list Z;
  bps_capacity : Z }.

(** * Realms *)
Record realm_options : Type := RealmOptions {
  ro_name : list Z;
  ro_max_bps : Z;
  total_quota : Z;
  user_quota : Z }.

Record realm_params : Type := RealmParams {
  is_default_realm : bool;
  rp_options : realm_options;
  total_current_allocs : Z;
  alloc_counters : ur_string_map }.

(** [o_to_realm] points to the names [origin_realms]; the account table of the
    process is in UserKey. *)
Record realm_db : Type := RealmDb {
  rp_heap : list realm_params;
  realms : ur_string_map;
  realms_list : list (list Z);
  o_to_realm : ur_string_map;
  origin_realms : list (list Z) }.

Definition with_heap (db : realm_db) (h : list realm_params) : realm_db :=
  RealmDb h (realms db) (realms_list db) (o_to_realm db) (origin_realms db).

Definition DEFAULT_REALM : Z := 1.

Definition create_default_realm : realm_db :=
  RealmDb [RealmParams true (RealmOptions [] 0 0 0) 0 ur_string_map_create] ur_string_map_create [] ur_string_map_create [].

Definition update_o_to_realm (db : realm_db) (m : ur_string_map) (names : list (list Z)) : realm_db :=
  RealmDb (rp_heap db) (realms db) (realms_list db) m names.

(** Through a pointer. *)
Definition rp_get (db : realm_db) (p : Z) : outcome realm_params :=
  if p <? 1 then UB else at_index (rp_heap db) (Z.to_nat (p - 1)).
Definition rp_set (db : realm_db) (p : Z) (r : realm_params) : realm_db :=
  with_heap db (<[Z.to_nat (p - 1) := r]> (rp_heap db)).

(** [STRCPY] into a name of [STUN_MAX_REALM_SIZE+1] characters. *)
Definition realm_strcpy (name : list Z) : list Z := take (Z.to_nat STUN_MAX_REALM_SIZE) (cstr name).

Definition with_name (o : realm_options) (name : list Z) : realm_options :=
  RealmOptions name (ro_max_bps o) (total_quota o) (user_quota o).
Definition with_options (r : realm_params) (o : realm_options) : realm_params :=
  RealmParams (is_default_realm r) o (total_current_allocs r) (alloc_counters r).
Definition with_status (r : realm_params) (n : Z) (m : ur_string_map) : realm_params :=
  RealmParams (is_default_realm r) (rp_options r) n m.

Definition get_default_realm_options (db : realm_db) : outcome realm_options :=
  r ← rp_get db DEFAULT_REALM; Ret (rp_options r).

Definition set_default_realm_name (db : realm_db) (realm : list Z) : outcome realm_db :=
  r ← rp_get db DEFAULT_REALM;
  let name := realm_strcpy realm in
  let db := rp_set db DEFAULT_REALM (with_options r (with_name (rp_options r) name)) in
  '(_, m, _) ← ur_string_map_put (realms db) name DEFAULT_REALM;
  Ret (RealmDb (rp_heap db) m (realms_list db ++ [cstr realm]) (o_to_realm db) (origin_realms db)).

(** The parameters of a realm that is not known yet are a copy of those of the
    default realm, with the name and a new table of counters. *)
Definition get_realm (db : realm_db) (name : list Z) : outcome (Z * realm_db) :=
  if bool_decide (cstr name = []) then Ret (DEFAULT_REALM, db)
  else
    value ← ur_string_map_get (realms db) name;
    match value with
    | Some value => Ret (value, db)
    | None =>
        d ← rp_get db DEFAULT_REALM;
        let p := blen (rp_heap db) + 1 in
        let ret := RealmParams (is_default_realm d) (with_name (rp_options d) (realm_strcpy name)) (total_current_allocs d)
                     ur_string_map_create in
        '(_, m, _) ← ur_string_map_put (realms db) name p;
        Ret (p, RealmDb (rp_heap db ++ [ret]) m (realms_list db ++ [cstr name]) (o_to_realm db) (origin_realms db))
    end.

Definition get_realm_data (db : realm_db) (name : list Z) : outcome (realm_params * realm_db) :=
  '(p, db) ← get_realm db name;
  r ← rp_get db p;
  Ret (r, db).

Definition get_realm_options_by_name (db : realm_db) (realm : list Z) : outcome (realm_options * realm_db) :=
  '(r, db) ← get_realm_data db realm;
  Ret (rp_options r, db).

Definition get_realm_options_by_origin (db : realm_db) (origin : list Z) : outcome (bool * realm_options * realm_db) :=
  value ← ur_string_map_get (o_to_realm db) origin;
  match value with
  | Some value =>
      if truthy value then
        realm ← (if value <? 1 then UB else at_index (origin_realms db) (Z.to_nat (value - 1)));
        '(r, db) ← get_realm_data db realm;
        Ret (true, rp_options r, db)
      else o ← get_default_realm_options db; Ret (false, o, db)
  | None => o ← get_default_realm_options db; Ret (false, o, db)
  end.

Definition change_total_quota (db : realm_db) (realm : list Z) (value : Z) : outcome (Z * realm_db) :=
  '(p, db) ← get_realm db realm;
  r ← rp_get db p;
  let o := rp_options r in
  Ret (value, rp_set db p (with_options r (RealmOptions (ro_name o) (ro_max_bps o) value (user_quota o)))).

Definition change_user_quota (db : realm_db) (realm : list Z) (value : Z) : outcome (Z * realm_db) :=
  '(p, db) ← get_realm db realm;
  r ← rp_get db p;
  let o := rp_options r in
  Ret (value, rp_set db p (with_options r (RealmOptions (ro_name o) (ro_max_bps o) (total_quota o) value))).

(** * Lists of secrets *)
Definition get_secrets_list_size (sl : list (list Z)) : Z := blen sl.
Definition get_secrets_list_elem (sl : list (list Z)) (i : Z) : option (list Z) :=
  if (0 <=? i) && (i <? get_secrets_list_size sl) then sl !! Z.to_nat i else None.
Definition add_to_secrets_list (sl : list (list Z)) (elem : option (list Z)) : list (list Z) :=
  match elem with Some e => sl ++ [cstr e] | None => sl end.
Definition clean_secrets_list (sl : list (list Z)) : list (list Z) := [].

Fixpoint copy_secrets (n : nat) (i : Z) (from sl : list (list Z)) : list (list Z) :=
  match n with
  | O => sl
  | S n => copy_secrets n (i + 1) from (add_to_secrets_list sl (get_secrets_list_elem from i))
  end.

(** [db] is the function of the database driver, when there is one: what it
    returns and the list it leaves. *)
Definition get_auth_secrets (tp : turn_params) (db : option (list (list Z) -> list Z -> Z * list (list Z))) (sl : list (list Z))
    (realm : list Z) : Z * list (list Z) :=
  let sl := clean_secrets_list sl in
  let n := get_secrets_list_size (static_auth_secrets tp) in
  let '(ret, sl) := if truthy n then (0, copy_secrets (Z.to_nat n) 0 (static_auth_secrets tp) sl) else (-1, sl) in
  match db with
  | Some f => f sl realm
  | None => (ret, sl)
  end.

(** * User names of the REST interface *)

(** [strchr]: the place of the first such character; the terminating zero
    counts. *)
Fixpoint chr_index (c : Z) (s : list Z) : option nat :=
  match s with
  | [] => None
  | x :: r => if x =? c then Some 0%nat else S <$> chr_index c r
  end.
Definition strchr (s : list Z) (c : Z) : option nat := chr_index c (cstr s ++ [0]).

Definition isdigit (c : Z) : bool := (48 <=? c) && (c <=? 57).

Fixpoint dec_digits (acc : Z) (s : list Z) : Z :=
  match s with
  | c :: r => if isdigit c then dec_digits (acc * 10 + (c - 48)) r else acc
  | [] => acc
  end.

(** [atol]: [strtol] with base 10, which saturates. *)
Definition atol (s : list Z) : Z :=
  let s := skip_spaces (cstr s) in
  let v := match s with
           | c :: r => if c =? 45 then - dec_digits 0 r else if c =? 43 then dec_digits 0 r else dec_digits 0 s
           | [] => 0
           end in
  Z.max (- 2 ^ 63) (Z.min (2 ^ 63 - 1) v).

Definition get_rest_api_timestamp (tp : turn_params) (usname : list Z) : Z :=
  let s := cstr usname in
  match strchr usname (rest_api_separator tp) with
  | Some O => u32 (atol (drop 1 s))
  | Some col =>
      if negb (forallb isdigit (take col s)) then u32 (atol (drop (S col) s))
      else u32 (atol (take col s))
  | None => u32 (atol s)
  end.

Definition get_real_username (tp : turn_params) (usname : list Z) : list Z :=
  let s := cstr usname in
  if negb (bool_decide (s = [])) && use_auth_secret_with_timestamp tp then
    match strchr usname (rest_api_separator tp) with
    | Some O => drop 1 s
    | Some col => if forallb isdigit (take col s) then drop (S col) s else take col s
    | None => s
    end
  else s.

(** * Quotas *)

(** [++] and [--] on an [int]. *)
Definition int_inc (v : Z) : outcome Z := if v =? 2 ^ 31 - 1 then UB else Ret (v + 1).
Definition int_dec (v : Z) : outcome Z := if v =? - 2 ^ 31 then UB else Ret (v - 1).

Definition check_new_allocation_quota (tp : turn_params) (db : realm_db) (user : option (list Z)) (oauth : bool) (realm : list Z) :
    outcome (Z * realm_db) :=
  match user, oauth with
  | None, false => Ret (0, db)
  | _, _ =>
      username ← (if oauth then Ret [] else match user with Some u => Ret (get_real_username tp u) | None => UB end);
      '(p, db) ← get_realm db realm;
      rp ← rp_get db p;
      let o := rp_options rp in
      if truthy (total_quota o) && (total_current_allocs rp >=? total_quota o) then Ret (-1, db)
      else if negb (bool_decide (username = [])) then
        value ← ur_string_map_get (alloc_counters rp) username;
        match value with
        | None =>
            '(_, m, _) ← ur_string_map_put (alloc_counters rp) username 1;
            n ← int_inc (total_current_allocs rp);
            Ret (0, rp_set db p (with_status rp n m))
        | Some value =>
            if truthy (user_quota o) && (u64 value >=? u64 (user_quota o)) then Ret (-1, db)
            else
              '(_, m, _) ← ur_string_map_put (alloc_counters rp) username (u64 (value + 1));
              n ← int_inc (total_current_allocs rp);
              Ret (0, rp_set db p (with_status rp n m))
        end
      else
        n ← int_inc (total_current_allocs rp);
        Ret (0, rp_set db p (with_status rp n (alloc_counters rp)))
  end.

Definition release_allocation_quota (tp : turn_params) (db : realm_db) (user : option (list Z)) (oauth : bool) (realm : list Z) :
    outcome realm_db :=
  match user with
  | None => Ret db
  | Some user =>
      let username := if oauth then [] else get_real_username tp user in
      '(p, db) ← get_realm db realm;
      rp ← rp_get db p;
      m ← (if negb (bool_decide (username = [])) then
             value ← ur_string_map_get (alloc_counters rp) username;
             match value with
             | Some value =>
                 if truthy value then
                   '(_, m, _) ← ur_string_map_put (alloc_counters rp) username (u64 (value - 1)); Ret m
                 else Ret (alloc_counters rp)
             | None => Ret (alloc_counters rp)
             end
           else Ret (alloc_counters rp));
      n ← (if truthy (total_current_allocs rp) then int_dec (total_current_allocs rp) else Ret 0);
      Ret (rp_set db p (with_status rp n m))
  end.

(** * Bandwidth

    The answer and [bps_capacity_allocated]; [band_limit_t] has 64 bits. *)
Definition allocate_bps (tp : turn_params) (allocated bps : Z) (positive : bool) : Z * Z :=
  if bps >? 0 then
    if positive then
      if negb (truthy (bps_capacity tp)) then (bps, u64 (allocated + bps))
      else if allocated <? bps_capacity tp then
        let reserve := u64 (bps_capacity tp - allocated) in
        if reserve <=? bps then (reserve, bps_capacity tp) else (bps, u64 (allocated + bps))
      else (0, allocated)
    else (0, if allocated >=? bps then u64 (allocated - bps) else 0)
  else (0, allocated).
