(* ===== verification/UserDbFacts.v ===== *)
(** Quotas are counted exactly ([check_new_allocation_quota] and
    [release_allocation_quota] of UserDb), over any sequence of allocations
    granted and ended; the bandwidth budget; the names of the REST interface. *)

From stdpp Require Import base option numbers list strings.
From S2P Require Import Prelude.
From S2P Require Import IoAddr.
From S2P Require Import StunDefs.
From S2P Require Import StunAuth.
From S2P Require Import KeyMap.
From S2P Require Import TurnMaps.
From S2P Require Import TurnMapsFacts.
From S2P Require Import ServerAuth.
From S2P Require Import UserDb.

(** * The tables *)
Record db_ok (db : realm_db) : Prop := DbOk {
  db_realms : string_map_inv (realms db);
  db_default : rp_heap db <> [];
  db_counters : Forall (fun r => string_map_inv (alloc_counters r)) (rp_heap db);
  db_ints : Forall (fun r => - 2 ^ 31 <= user_quota (rp_options r) < 2 ^ 31) (rp_heap db);
  db_pointers : forall k p, string_map_abs (realms db) k = Some p -> 1 <= p <= blen (rp_heap db) }.

(** The parameters a realm name stands for, 0 when the name is new. *)
Definition realm_of (db : realm_db) (name : list Z) : Z :=
  if bool_decide (cstr name = []) then DEFAULT_REALM else default 0 (string_map_abs (realms db) name).

Definition fresh_realm (d : realm_params) (name : list Z) : realm_params :=
  RealmParams (is_default_realm d) (with_name (rp_options d) (realm_strcpy name)) (total_current_allocs d) ur_string_map_create.

Lemma string_map_abs_create k : string_map_abs ur_string_map_create k = None.
Proof. by apply (tget_empty (HK := string_key) (fun l : string_list => l)). Qed.

Lemma string_map_abs_cong m k k' : key_eqb k k' = true -> string_map_abs m k = string_map_abs m k'.
Proof.
  intros E. unfold string_map_abs, tget. rewrite (key_hash_proper (HK := string_key) k k' E). destruct (_ !! _) as [l|]; [|done].
  by apply (find_key_cong (HK := string_key)).
Qed.

Lemma default_realm_params db : db_ok db -> exists d, rp_heap db !! 0%nat = Some d /\ rp_get db DEFAULT_REALM = Ret d.
Proof.
  intros [_ Ne _ _ _]. destruct (rp_heap db) as [|d h] eqn:E; [done|]. exists d. split; [done|]. unfold rp_get. by rewrite E.
Qed.

Lemma rp_get_at db p r : 1 <= p -> rp_heap db !! Z.to_nat (p - 1) = Some r -> rp_get db p = Ret r.
Proof. intros Hp E. unfold rp_get. destruct (p <? 1) eqn:?; bool_arith; [lia|]. by apply at_index_ret. Qed.

(** Looking a realm up adds its parameters when the name is new, and changes
    nothing else. *)
Lemma get_realm_spec db name : db_ok db ->
  exists p db' ext r, get_realm db name = Ret (p, db') /\ db_ok db' /\ rp_heap db' = rp_heap db ++ ext /\
    (forall k q, string_map_abs (realms db) k = Some q -> string_map_abs (realms db') k = Some q) /\
    realm_of db' name = p /\ 1 <= p /\ rp_heap db' !! Z.to_nat (p - 1) = Some r /\
    (ext = [] \/ exists d, rp_heap db !! 0%nat = Some d /\ ext = [fresh_realm d name]).
Proof.
  intros Ok. destruct (default_realm_params db Ok) as (d & Ed & Gd). pose proof Ok as [Ri Ne Ci Ui Pi]. unfold get_realm, realm_of.
  destruct (bool_decide (cstr name = [])) eqn:En.
  { exists 1, db, [], d. rewrite app_nil_r. split_and!; try done. by left. }
  rewrite (string_get_abs _ _ Ri). mstep. destruct (string_map_abs (realms db) name) as [p|] eqn:Ep.
  { destruct (Pi _ _ Ep) as [P1 P2]. destruct (rp_heap db !! Z.to_nat (p - 1)) as [r|] eqn:Er.
    2: { apply lookup_ge_None in Er. unfold blen in P2. lia. }
    exists p, db, [], r. rewrite app_nil_r, Ep. split_and!; try done. by left. }
  rewrite Gd. mstep. set (p := blen (rp_heap db) + 1). pose proof (blen_nonneg (rp_heap db)).
  destruct (string_put_spec (realms db) name p Ri) as (m & f & -> & Im & Am & _). mstep.
  exists p, (RealmDb (rp_heap db ++ [fresh_realm d name]) m (realms_list db ++ [cstr name]) (o_to_realm db) (origin_realms db)),
    [fresh_realm d name], (fresh_realm d name). cbn [rp_heap realms]. rewrite Am.
  assert (key_eqb name name = true) as -> by by apply strcmp_zero. split; [done|]. split; [|split_and!; try done].
  - constructor; cbn [rp_heap realms]; [done|by destruct (rp_heap db)| | |].
    + apply Forall_app. split; [done|]. constructor; [|constructor]. apply string_map_init_inv.
    + apply Forall_app. split; [done|]. constructor; [|constructor]. rewrite Forall_lookup in Ui. apply (Ui _ _ Ed).
    + intros k q. rewrite Am, blen_app. change (blen [fresh_realm d name]) with 1. destruct (key_eqb name k); [intros [= <-]; lia|].
      intros Eq. apply Pi in Eq. lia.
  - intros k q Eq. rewrite Am. destruct (key_eqb name k) eqn:Ek; [|done].
    pose proof (string_map_abs_cong (realms db) name k Ek). congruence.
  - lia.
  - rewrite lookup_app_r; unfold p, blen; [|lia]. replace (Z.to_nat _ - _)%nat with 0%nat by lia. done.
  - right. by exists d.
Qed.

(** * Counting *)
Lemma blen_filter_ext {A} (P Q : A -> Prop) `{!forall x, Decision (P x)} `{!forall x, Decision (Q x)} (l : list A) :
  (forall x, x ∈ l -> P x <-> Q x) -> blen (filter P l) = blen (filter Q l).
Proof.
  intros Eq. induction l as [|x l IH]; [done|]. rewrite !filter_cons.
  assert (blen (filter P l) = blen (filter Q l)) as E by (apply IH; intros; apply Eq; by right). pose proof (Eq x ltac:(left)) as Hx.
  destruct (decide (P x)), (decide (Q x)); try tauto; rewrite ?blen_cons; lia.
Qed.

(** What a session got an allocation for. *)
Record ticket : Type := Ticket { tk_user : list Z; tk_oauth : bool; tk_realm : list Z }.

Section ledger.
Context (tp : turn_params).

Definition name_of (t : ticket) : list Z := if tk_oauth t then [] else get_real_username tp (tk_user t).

Definition held_in (db : realm_db) (p : Z) (held : list ticket) : Z := blen (filter (fun t => realm_of db (tk_realm t) = p) held).
Definition held_by (db : realm_db) (p : Z) (u : list Z) (held : list ticket) : Z :=
  blen (filter (fun t => realm_of db (tk_realm t) = p /\ cstr (name_of t) = cstr u) held).

Lemma held_in_cons db p t held : held_in db p (t :: held) = held_in db p held + (if decide (realm_of db (tk_realm t) = p) then 1 else 0).
Proof. unfold held_in. rewrite filter_cons. destruct (decide _); rewrite ?blen_cons; lia. Qed.

Lemma held_by_cons db p u t held : held_by db p u (t :: held) =
  held_by db p u held + (if decide (realm_of db (tk_realm t) = p /\ cstr (name_of t) = cstr u) then 1 else 0).
Proof. unfold held_by. rewrite filter_cons. destruct (decide _); rewrite ?blen_cons; lia. Qed.

(** The counters of a realm in which [n] allocations are held, [by_user u] of
    them by user [u]. *)
Record account (n : Z) (by_user : list Z -> Z) (exact : bool) (B : Z) (r : realm_params) : Prop := Account {
  ac_total : 0 <= n <= total_current_allocs r /\ total_current_allocs r <= B;
  ac_exact : exact = true -> total_current_allocs r = n;
  ac_users u : cstr u <> [] -> 0 <= by_user u <= n /\ default 0 (string_map_abs (alloc_counters r) u) = by_user u;
  ac_total_quota : 0 < total_quota (rp_options r) -> n <= total_quota (rp_options r);
  ac_user_quota u : cstr u <> [] -> 0 < user_quota (rp_options r) -> by_user u <= user_quota (rp_options r) }.

(** The counters are exact in the first [known] realms; later ones may start
    above zero. *)
Definition ledger (db : realm_db) (known : nat) (B : Z) (held : list ticket) : Prop :=
  db_ok db /\ (forall t, t ∈ held -> 1 <= realm_of db (tk_realm t) <= blen (rp_heap db)) /\
  (forall i r, rp_heap db !! i = Some r ->
    account (held_in db (Z.of_nat i + 1) held) (fun u => held_by db (Z.of_nat i + 1) u held) (bool_decide (i < known)%nat) B r).

Lemma held_by_in db p u held : 0 <= held_by db p u held <= held_in db p held.
Proof.
  split; [apply blen_nonneg|]. induction held as [|t held IH]; [done|]. rewrite held_in_cons, held_by_cons.
  destruct (decide (_ /\ _)) as [[? _]|], (decide _); try lia; done.
Qed.

Lemma ledger_perm db known B held held' : held ≡ₚ held' -> ledger db known B held -> ledger db known B held'.
Proof.
  intros P (Ok & Kn & Ac). split; [done|]. split; [intros t Ht; apply Kn; by rewrite P|]. intros i r E. specialize (Ac i r E).
  assert (forall p, held_in db p held' = held_in db p held) as Ei by (intros; unfold held_in, blen; by rewrite P).
  assert (forall p u, held_by db p u held' = held_by db p u held) as Eb by (intros; unfold held_by, blen; by rewrite P).
  rewrite Ei. destruct Ac as [a1 a2 a3 a4 a5]. constructor; try done; intros u Hu; rewrite Eb; auto.
Qed.

Lemma account_more n by_user exact B B' r : B <= B' -> account n by_user exact B r -> account n by_user exact B' r.
Proof. intros H [a1 a2 a3 a4 a5]. constructor; try done. lia. Qed.

Lemma account_ext n by_user by_user' exact B r :
  (forall u, cstr u <> [] -> by_user' u = by_user u) -> account n by_user exact B r -> account n by_user' exact B r.
Proof. intros H [a1 a2 a3 a4 a5]. constructor; try done; intros u Hu; rewrite H by done; auto. Qed.

(** Looking a realm up keeps the ledger. *)
Lemma ledger_get_realm db known B held name : (0 < known <= length (rp_heap db))%nat -> ledger db known B held ->
  exists p db' r, get_realm db name = Ret (p, db') /\ ledger db' known B held /\ (length (rp_heap db) <= length (rp_heap db'))%nat /\
    realm_of db' name = p /\ 1 <= p /\ rp_heap db' !! Z.to_nat (p - 1) = Some r /\
    (forall k, 1 <= realm_of db k -> realm_of db' k = realm_of db k).
Proof.
  intros Hk (Ok & Kn & Ac). destruct (get_realm_spec db name Ok) as (p & db' & ext & r & E & Ok' & Hh & Hg & Rp & P1 & Er & Ext).
  assert (forall k, 1 <= realm_of db k -> realm_of db' k = realm_of db k) as St.
  { intros k. unfold realm_of. destruct (bool_decide _); [done|]. destruct (string_map_abs (realms db) k) as [q|] eqn:Eq; simpl; [|lia].
    by rewrite (Hg _ _ Eq). }
  assert (forall t, t ∈ held -> realm_of db' (tk_realm t) = realm_of db (tk_realm t)) as Sh by (intros t Ht; apply St; by apply Kn).
  assert (forall q, held_in db' q held = held_in db q held) as Ei by (intros; apply blen_filter_ext; intros t Ht; by rewrite Sh).
  assert (forall q u, held_by db' q u held = held_by db q u held) as Eb by (intros; apply blen_filter_ext; intros t Ht; by rewrite Sh).
  exists p, db', r. split; [done|]. split; [|split; [rewrite Hh, length_app; lia|done]]. split; [done|]. split.
  { intros t Ht. rewrite Sh, Hh, blen_app by done. pose proof (blen_nonneg ext). specialize (Kn t Ht). lia. }
  intros i r' Ei'. rewrite Ei. apply (account_ext _ (fun u => held_by db (Z.of_nat i + 1) u held)); [intros; apply Eb|].
  rewrite Hh in Ei'. apply lookup_app_Some in Ei' as [Ei'|[Hi Ei']]; [by apply Ac|]. destruct Ext as [->|(d & Ed & ->)]; [done|].
  apply list_lookup_singleton_Some in Ei' as [Hi0 <-]. assert (i = length (rp_heap db)) as -> by lia.
  assert (held_in db (Z.of_nat (length (rp_heap db)) + 1) held = 0) as Z0.
  { transitivity (blen (filter (fun _ : ticket => False) held)); [|clear; by induction held].
    apply blen_filter_ext. intros t Ht. specialize (Kn t Ht). unfold blen in Kn. lia. }
  pose proof (ac_total _ _ _ _ _ (Ac _ _ Ed)) as T0. rewrite Z0. constructor; simpl.
  - lia.
  - intros Hb. apply bool_decide_eq_true in Hb. lia.
  - intros u _. rewrite string_map_abs_create. pose proof (held_by_in db (Z.of_nat (length (rp_heap db)) + 1) u held). simpl. lia.
  - lia.
  - intros u _ Hq. pose proof (held_by_in db (Z.of_nat (length (rp_heap db)) + 1) u held). lia.
Qed.

(** Changing the counters of one realm. *)
Lemma ledger_set db known B B' held held' p r r' :
  ledger db known B held -> 1 <= p -> rp_heap db !! Z.to_nat (p - 1) = Some r -> string_map_inv (alloc_counters r') ->
  rp_options r' = rp_options r -> B <= B' -> (forall t, t ∈ held' -> 1 <= realm_of db (tk_realm t) <= blen (rp_heap db)) ->
  (forall q, q <> p -> held_in db q held' = held_in db q held /\ forall u, held_by db q u held' = held_by db q u held) ->
  account (held_in db p held') (fun u => held_by db p u held') (bool_decide (Z.to_nat (p - 1) < known)%nat) B' r' ->
  ledger (rp_set db p r') known B' held'.
Proof.
  intros (Ok & Kn & Ac) Hp Er Im Eo HB Kn' Oth Acp. pose proof Ok as [Ri Ne Ci Ui Pi]. unfold rp_set. split; [|split].
  - constructor; cbn [with_heap rp_heap realms]; [done| | | |].
    + intros X. apply (f_equal length) in X. rewrite length_insert in X. by destruct (rp_heap db).
    + by apply Forall_insert.
    + apply Forall_insert; [done|]. rewrite Eo. rewrite Forall_lookup in Ui. apply (Ui _ _ Er).
    + intros k q E. unfold blen. rewrite length_insert. by apply (Pi k q).
  - intros t Ht. unfold blen. cbn [with_heap rp_heap]. rewrite length_insert. by apply Kn'.
  - intros i r0 E. cbn [with_heap rp_heap] in E. change (held_in (with_heap db _)) with (held_in db). change (held_by (with_heap db _)) with (held_by db).
    apply list_lookup_insert_Some in E as [(<- & <- & _)|[Hi E]].
    + replace (Z.of_nat (Z.to_nat (p - 1)) + 1) with p by lia. done.
    + assert (Z.of_nat i + 1 <> p) as Hne by lia. destruct (Oth _ Hne) as [-> Eb].
      apply (account_ext _ (fun u => held_by db (Z.of_nat i + 1) u held)); [intros; apply Eb|]. apply (account_more _ _ _ B); [done|]. by apply Ac.
Qed.

Lemma held_other db t held q : realm_of db (tk_realm t) <> q ->
  held_in db q (t :: held) = held_in db q held /\ forall u, held_by db q u (t :: held) = held_by db q u held.
Proof.
  intros Hq. rewrite held_in_cons. split.
  - destruct (decide (realm_of db (tk_realm t) = q)); [done|lia].
  - intros u. rewrite held_by_cons. destruct (decide (_ /\ _)) as [[? _]|]; [done|lia].
Qed.

Lemma real_username_cstr u : cstr (get_real_username tp u) = get_real_username tp u.
Proof.
  apply cstr_nonzero. pose proof (cstr_all_nonzero u) as H. unfold get_real_username. destruct (_ && _); [|done].
  destruct (strchr _ _) as [[|c]|]; [by apply Forall_drop| |done]. destruct (forallb _ _); [by apply Forall_drop|by apply Forall_take].
Qed.

Lemma name_of_cstr t : cstr (name_of t) = name_of t.
Proof. unfold name_of. destruct (tk_oauth t); [done|]. apply real_username_cstr. Qed.

(** The counter of the user of [t], [v], is one higher in [m]. *)
Definition counted (db : realm_db) (p : Z) (held : list ticket) (t : ticket) (r : realm_params) (m : ur_string_map) (v : Z) : Prop :=
  if bool_decide (name_of t = []) then m = alloc_counters r else
    v = held_by db p (name_of t) held /\ (0 < user_quota (rp_options r) -> v + 1 <= user_quota (rp_options r)) /\
    forall k, string_map_abs m k = if key_eqb (name_of t) k then Some (v + 1) else string_map_abs (alloc_counters r) k.

(** One more allocation of the user of [t]. *)
Lemma account_take db held t p exact B r m v :
  realm_of db (tk_realm t) = p -> account (held_in db p held) (fun u => held_by db p u held) exact B r ->
  (truthy (total_quota (rp_options r)) && (total_current_allocs r >=? total_quota (rp_options r))) = false ->
  counted db p held t r m v ->
  account (held_in db p (t :: held)) (fun u => held_by db p u (t :: held)) exact (B + 1) (with_status r (total_current_allocs r + 1) m).
Proof.
  intros Hp [a1 a2 a3 a4 a5] Hq Hm. unfold counted in Hm. rewrite held_in_cons. destruct (decide _) as [_|]; [|done].
  assert (total_quota (rp_options r) = 0 \/ total_current_allocs r < total_quota (rp_options r)) as Hq'.
  { unfold truthy in Hq. destruct (total_quota (rp_options r) =? 0) eqn:E0; bool_arith; [by left|]. right.
    apply andb_false_iff in Hq as [Hq|Hq]; [done|]. bool_arith. lia. }
  constructor; cbn [with_status total_current_allocs rp_options alloc_counters]; try lia.
  - intros Ex. rewrite (a2 Ex). lia.
  - intros u Hu. pose proof (a3 u Hu) as [b1 b2]. rewrite held_by_cons. pose proof (name_of_cstr t) as Nc.
    destruct (bool_decide (name_of t = [])) eqn:En.
    + apply bool_decide_eq_true_1 in En. destruct (decide _) as [[_ X]|_]; [congruence|]. subst m. split; lia.
    + destruct Hm as (Ev & _ & Hm). rewrite Hm. destruct (key_eqb (name_of t) u) eqn:Ek.
      * pose proof Ek as Ek'. apply strcmp_zero in Ek'. destruct (decide _) as [_|X]; [|by destruct X].
        assert (held_by db p (name_of t) held = held_by db p u held) as Eu by (unfold held_by; by rewrite Ek'). simpl. lia.
      * destruct (decide _) as [[_ X]|_]; [apply strcmp_zero in X; change ((strcmp (name_of t) u =? 0) = false) in Ek; congruence|]. split; lia.
  - intros u Hu Hq0. rewrite held_by_cons. destruct (decide _) as [[_ X]|_]; [|specialize (a5 u Hu Hq0); lia].
    destruct (bool_decide (name_of t = [])) eqn:En; [apply bool_decide_eq_true_1 in En; rewrite En in X; by rewrite <- X in Hu|].
    destruct Hm as (Ev & Hv & _). assert (held_by db p (name_of t) held = held_by db p u held) as Eu by (unfold held_by; by rewrite X).
    specialize (Hv Hq0). lia.
Qed.

Lemma take_spec db known B held t : (0 < known <= length (rp_heap db))%nat -> ledger db known B held -> B < 2 ^ 31 - 1 ->
  exists x db', check_new_allocation_quota tp db (Some (tk_user t)) (tk_oauth t) (tk_realm t) = Ret (x, db') /\
    (length (rp_heap db) <= length (rp_heap db'))%nat /\
    (x = 0 /\ ledger db' known (B + 1) (t :: held) \/ x = -1 /\ ledger db' known (B + 1) held).
Proof.
  intros Hk Lg HB. unfold check_new_allocation_quota.
  assert ((if tk_oauth t then Ret [] else Ret (get_real_username tp (tk_user t))) = Ret (name_of t)) as -> by (unfold name_of; by destruct (tk_oauth t)).
  mstep. destruct (ledger_get_realm db known B held (tk_realm t) Hk Lg) as (p & db' & r & -> & Lg' & Lh & Rp & P1 & Er & _). mstep.
  rewrite (rp_get_at _ _ _ P1 Er). mstep. pose proof Lg' as (Ok' & Kn & Ac). pose proof (Ac _ _ Er) as Acp.
  replace (Z.of_nat (Z.to_nat (p - 1)) + 1) with p in Acp by lia. pose proof Acp as [[a0 a1] a2 a3 a4 a5].
  assert (string_map_inv (alloc_counters r)) as Ir by (pose proof (db_counters _ Ok') as F; rewrite Forall_lookup in F; apply (F _ _ Er)).
  assert (- 2 ^ 31 <= user_quota (rp_options r) < 2 ^ 31) as Iu by (pose proof (db_ints _ Ok') as F; rewrite Forall_lookup in F; apply (F _ _ Er)).
  assert (ledger db' known (B + 1) held) as Same.
  { split; [done|]. split; [done|]. intros i r0 E. apply (account_more _ _ _ B); [lia|]. by apply Ac. }
  assert (int_inc (total_current_allocs r) = Ret (total_current_allocs r + 1)) as Inc by (unfold int_inc; if_case; done).
  destruct (_ && _) eqn:Hq; [eexists _, _; split; [done|]; split; [done|]; by right|].
  assert (forall m v, string_map_inv m -> counted db' p held t r m v -> ledger (rp_set db' p (with_status r (total_current_allocs r + 1) m)) known (B + 1) (t :: held)) as Grant.
  { intros m v Im Hm. eapply (ledger_set db' known B _ held (t :: held) p r); try done; try lia.
    - intros t' [->|Ht]%elem_of_cons; [|by apply Kn]. rewrite Rp. apply lookup_lt_Some in Er. unfold blen. lia.
    - intros q Hne. apply held_other. congruence.
    - eapply (account_take _ _ _ _ _ _ _ m v); [done|done|done|exact Hm]. }
  unfold counted in Grant.
  assert (forall m, (length (rp_heap db) <= length (rp_heap (rp_set db' p (with_status r (total_current_allocs r + 1) m))))%nat) as Lr
    by (intros; unfold rp_set; cbn [with_heap rp_heap]; by rewrite length_insert).
  destruct (bool_decide (name_of t = [])) eqn:En; cbn [negb].
  { rewrite Inc. mstep. eexists _, _. split; [done|]. split; [done|]. left. split; [done|]. by apply (Grant _ 0). }
  assert (cstr (name_of t) <> []) as Nn by (rewrite name_of_cstr; by apply bool_decide_eq_false_1 in En).
  destruct (a3 _ Nn) as [b1 b2]. rewrite (string_get_abs _ _ Ir). mstep. destruct (string_map_abs (alloc_counters r) (name_of t)) as [v|] eqn:Ev; simpl in b2.
  - rewrite (u64_small v) by lia. destruct (truthy (user_quota (rp_options r)) && _) eqn:Hu; [eexists _, _; split; [done|]; split; [done|]; by right|].
    rewrite u64_small by lia. destruct (string_put_spec (alloc_counters r) (name_of t) (v + 1) Ir) as (m & f & -> & Im & Am & _). mstep. rewrite Inc. mstep.
    eexists _, _. split; [done|]. split; [done|]. left. split; [done|]. apply (Grant m v); [done|]. split; [done|]. split; [|done].
    intros Hp. unfold truthy in Hu. destruct (user_quota (rp_options r) =? 0) eqn:?; bool_arith; [lia|]. cbn [negb andb] in Hu. bool_arith.
    rewrite u64_small in Hu by lia. lia.
  - destruct (string_put_spec (alloc_counters r) (name_of t) 1 Ir) as (m & f & -> & Im & Am & _). mstep. rewrite Inc. mstep.
    eexists _, _. split; [done|]. split; [done|]. left. split; [done|]. apply (Grant m 0); [done|]. split; [done|]. split; [lia|exact Am].
Qed.

(** One allocation of the user of [t] less. *)
Lemma account_give db held t p exact B r m :
  realm_of db (tk_realm t) = p -> account (held_in db p (t :: held)) (fun u => held_by db p u (t :: held)) exact B r ->
  (if bool_decide (name_of t = []) then m = alloc_counters r else
     forall k, string_map_abs m k = if key_eqb (name_of t) k then Some (held_by db p (name_of t) held) else string_map_abs (alloc_counters r) k) ->
  account (held_in db p held) (fun u => held_by db p u held) exact B (with_status r (total_current_allocs r - 1) m).
Proof.
  intros Hp [a1 a2 a3 a4 a5] Hm. rewrite held_in_cons in *. destruct (decide _) as [_|]; [|done].
  pose proof (blen_nonneg (filter (fun t => realm_of db (tk_realm t) = p) held)) as Pn. fold (held_in db p held) in Pn.
  constructor; cbn [with_status total_current_allocs rp_options alloc_counters]; try lia.
  - intros Ex. rewrite (a2 Ex). lia.
  - intros u Hu. split; [apply held_by_in|]. pose proof (a3 u Hu) as [_ b2]. rewrite held_by_cons in b2. pose proof (name_of_cstr t) as Nc.
    destruct (bool_decide (name_of t = [])) eqn:En.
    + apply bool_decide_eq_true_1 in En. subst m. destruct (decide (_ /\ _)) as [[_ X]|_] in b2; [congruence|]. lia.
    + rewrite Hm. destruct (key_eqb (name_of t) u) eqn:Ek.
      * apply strcmp_zero in Ek. simpl. unfold held_by. by rewrite Ek.
      * destruct (decide (_ /\ _)) as [[_ X]|_] in b2; [|lia]. apply strcmp_zero in X. change ((strcmp (name_of t) u =? 0) = false) in Ek. congruence.
  - intros u Hu Hq. specialize (a5 u Hu Hq). rewrite held_by_cons in a5. destruct (decide (_ /\ _)) in a5; lia.
Qed.

Lemma give_spec db known B held t : (0 < known <= length (rp_heap db))%nat -> ledger db known B (t :: held) -> B < 2 ^ 31 ->
  exists db', release_allocation_quota tp db (Some (tk_user t)) (tk_oauth t) (tk_realm t) = Ret db' /\
    (length (rp_heap db) <= length (rp_heap db'))%nat /\ ledger db' known B held.
Proof.
  intros Hk Lg HB. unfold release_allocation_quota. cbv zeta. fold (name_of t).
  destruct (ledger_get_realm db known B (t :: held) (tk_realm t) Hk Lg) as (p & db' & r & -> & Lg' & Lh & Rp & P1 & Er & _). mstep.
  rewrite (rp_get_at _ _ _ P1 Er). mstep. pose proof Lg' as (Ok' & Kn & Ac). pose proof (Ac _ _ Er) as Acp.
  replace (Z.of_nat (Z.to_nat (p - 1)) + 1) with p in Acp by lia. pose proof Acp as [[a0 a1] a2 a3 a4 a5].
  assert (string_map_inv (alloc_counters r)) as Ir by (pose proof (db_counters _ Ok') as F; rewrite Forall_lookup in F; apply (F _ _ Er)).
  pose proof (blen_nonneg (filter (fun t => realm_of db' (tk_realm t) = p) held)) as Pn. fold (held_in db' p held) in Pn.
  assert (1 <= total_current_allocs r) as T1.
  { rewrite held_in_cons in a0. destruct (decide _); [lia|done]. }
  assert ((if truthy (total_current_allocs r) then int_dec (total_current_allocs r) else Ret 0) = Ret (total_current_allocs r - 1)) as Dec.
  { unfold truthy. destruct (total_current_allocs r =? 0) eqn:?; bool_arith; [lia|]. cbn [negb]. unfold int_dec. if_case. done. }
  assert (forall m, string_map_inv m ->
    (if bool_decide (name_of t = []) then m = alloc_counters r else
      forall k, string_map_abs m k = if key_eqb (name_of t) k then Some (held_by db' p (name_of t) held) else string_map_abs (alloc_counters r) k) ->
    exists db1, Ret (rp_set db' p (with_status r (total_current_allocs r - 1) m)) = Ret db1 /\
      (length (rp_heap db) <= length (rp_heap db1))%nat /\ ledger db1 known B held) as Done.
  { intros m Im Hm. eexists. split; [done|]. split; [unfold rp_set; cbn [with_heap rp_heap]; by rewrite length_insert|].
    eapply (ledger_set db' known B _ (t :: held) held p r); try done.
    - intros t' Ht. apply Kn. by right.
    - intros q Hne. destruct (held_other db' t held q) as [-> Eb]; [congruence|]. done.
    - by apply (account_give _ _ t). }
  destruct (bool_decide (name_of t = [])) eqn:En; cbn [negb].
  { mstep. rewrite Dec. mstep. by apply Done. }
  assert (cstr (name_of t) <> []) as Nn by (rewrite name_of_cstr; by apply bool_decide_eq_false_1 in En).
  destruct (a3 _ Nn) as [b1 b2]. rewrite held_by_cons in b1, b2. destruct (decide _) as [_|X]; [|by destruct X].
  pose proof (held_by_in db' p (name_of t) held) as Pb.
  rewrite (string_get_abs _ _ Ir). mstep. destruct (string_map_abs (alloc_counters r) (name_of t)) as [v|] eqn:Ev; simpl in b2; [|lia].
  assert (truthy v = true) as -> by (apply negb_true_iff, Z.eqb_neq; lia).
  assert (v <= total_current_allocs r) by lia. rewrite u64_small by lia. replace (v - 1) with (held_by db' p (name_of t) held) by lia.
  destruct (string_put_spec (alloc_counters r) (name_of t) (held_by db' p (name_of t) held) Ir) as (m & f & -> & Im & Am & _). mstep.
  rewrite Dec. mstep. by apply Done.
Qed.

(** * Sequences *)
Inductive quota_op : Type :=
| Take (t : ticket)
| Give (i : nat).

(** A grant is kept by the session, which gives it back once ([inc_quota],
    [dec_quota]). *)
Definition quota_step (s : realm_db * list ticket) (o : quota_op) : outcome (realm_db * list ticket) :=
  match o with
  | Take t =>
      '(x, db) ← check_new_allocation_quota tp s.1 (Some (tk_user t)) (tk_oauth t) (tk_realm t);
      Ret (db, if x <? 0 then s.2 else t :: s.2)
  | Give i =>
      match s.2 !! i with
      | Some t => db ← release_allocation_quota tp s.1 (Some (tk_user t)) (tk_oauth t) (tk_realm t); Ret (db, delete i s.2)
      | None => Ret s
      end
  end.

Fixpoint quota_run (s : realm_db * list ticket) (ops : list quota_op) : outcome (realm_db * list ticket) :=
  match ops with
  | [] => Ret s
  | o :: ops => s ← quota_step s o; quota_run s ops
  end.

Lemma quota_step_spec db held known B o : (0 < known <= length (rp_heap db))%nat -> ledger db known B held -> B < 2 ^ 31 - 1 ->
  exists db' held', quota_step (db, held) o = Ret (db', held') /\ (length (rp_heap db) <= length (rp_heap db'))%nat /\
    ledger db' known (B + 1) held'.
Proof.
  intros Hk Lg HB. destruct o as [t|i]; cbn [quota_step fst snd].
  - destruct (take_spec db known B held t Hk Lg HB) as (x & db' & -> & L & [[-> Lg']|[-> Lg']]); mstep; eexists _, _; split; done.
  - assert (forall db h, ledger db known B h -> ledger db known (B + 1) h) as More.
    { intros d h (Ok & Kn & Ac). split; [done|]. split; [done|]. intros j r E. apply (account_more _ _ _ B); [lia|]. by apply Ac. }
    destruct (held !! i) as [t|] eqn:Ei; [|eexists _, _; split; [done|]; split; [done|by apply More]].
    apply delete_Permutation in Ei. apply (ledger_perm _ _ _ _ _ Ei) in Lg.
    destruct (give_spec db known B _ t Hk Lg ltac:(lia)) as (db' & -> & L & Lg'). mstep. eexists _, _. split; [done|]. split; [done|by apply More].
Qed.

Lemma quota_run_spec ops : forall db held known B, (0 < known <= length (rp_heap db))%nat -> ledger db known B held ->
  B + blen ops < 2 ^ 31 ->
  exists db' held', quota_run (db, held) ops = Ret (db', held') /\ (known <= length (rp_heap db'))%nat /\ ledger db' known (B + blen ops) held'.
Proof.
  induction ops as [|o ops IH]; intros db held known B Hk Lg HB.
  - exists db, held. change (blen []) with 0. rewrite Z.add_0_r. split; [done|]. split; [lia|done].
  - rewrite blen_cons in *. pose proof (blen_nonneg ops). cbn [quota_run].
    destruct (quota_step_spec db held known B o Hk Lg) as (db1 & h1 & -> & L1 & Lg1); [lia|]. mstep.
    destruct (IH db1 h1 known (B + 1)) as (db2 & h2 & E & L2 & Lg2); [lia|done|lia|]. exists db2, h2. split; [done|]. split; [done|].
    by replace (B + (1 + blen ops)) with (B + 1 + blen ops) by lia.
Qed.

(** A database without allocations. *)
Record unused (db : realm_db) : Prop := Unused {
  un_ok : db_ok db;
  un_none : Forall (fun r => total_current_allocs r = 0 /\ forall u, string_map_abs (alloc_counters r) u = None) (rp_heap db) }.

Lemma unused_ledger db : unused db -> ledger db (length (rp_heap db)) 0 [].
Proof.
  intros [Ok F]. split; [done|]. split; [intros t Ht; by apply elem_of_nil in Ht|]. intros i r E. rewrite Forall_lookup in F. destruct (F _ _ E) as [T C].
  change (held_in db (Z.of_nat i + 1) []) with 0. constructor; rewrite ?T; try lia.
  - intros u _. rewrite C. done.
  - intros u _. change (held_by db (Z.of_nat i + 1) u []) with 0. lia.
Qed.

(** C10. Over any sequence of allocations asked for and ended, starting from a
    database without allocations, the counters stay exact: every user's
    counter in a realm is the number of allocations the user holds there, the
    total of a realm known at the start is the number held in it (a realm added
    later may count more), and neither a positive total quota nor a positive
    user quota is ever exceeded; no operation fails. *)
Theorem quotas_exact db ops :
  unused db -> blen ops < 2 ^ 31 ->
  exists db' held, quota_run (db, []) ops = Ret (db', held) /\
    forall i r, rp_heap db' !! i = Some r ->
      let p := Z.of_nat i + 1 in
      held_in db' p held <= total_current_allocs r /\ ((i < length (rp_heap db))%nat -> total_current_allocs r = held_in db' p held) /\
      (0 < total_quota (rp_options r) -> held_in db' p held <= total_quota (rp_options r)) /\
      forall u, cstr u <> [] -> default 0 (string_map_abs (alloc_counters r) u) = held_by db' p u held /\
        (0 < user_quota (rp_options r) -> held_by db' p u held <= user_quota (rp_options r)).
Proof.
  intros Un L. destruct (quota_run_spec ops db [] (length (rp_heap db)) 0) as (db' & held & E & _ & (_ & _ & Ac)).
  - split; [|done]. pose proof (db_default _ (un_ok _ Un)). destruct (rp_heap db); [done|simpl; lia].
  - by apply unused_ledger.
  - lia.
  - exists db', held. split; [done|]. intros i r Er. destruct (Ac i r Er) as [[a0 a1] a2 a3 a4 a5]. split; [lia|]. split.
    + intros Hi. apply a2. by apply bool_decide_eq_true_2.
    + split; [done|]. intros u Hu. split; [by apply a3|by apply a5].
Qed.
End ledger.

(** * Bandwidth *)
Inductive bps_op : Type :=
| Ask (bps : Z)
| Return (i : nat).

(** [bps_capacity_allocated] and what the sessions hold ([ss->bps]). *)
Definition bps_step (tp : turn_params) (s : Z * list Z) (o : bps_op) : Z * list Z :=
  match o with
  | Ask bps => let '(g, a) := allocate_bps tp s.1 bps true in (a, if 0 <? g then g :: s.2 else s.2)
  | Return i => match s.2 !! i with
                | Some g => ((allocate_bps tp s.1 g false).2, delete i s.2)
                | None => s
                end
  end.

Definition bps_run (tp : turn_params) (ops : list bps_op) : Z * list Z := foldl (bps_step tp) (0, []) ops.

Definition bps_asked (o : bps_op) : Prop := match o with Ask b => 0 <= b < 2 ^ 64 | Return _ => True end.

Definition budget (tp : turn_params) (s : Z * list Z) : Prop :=
  s.1 = foldr Z.add 0 s.2 /\ s.1 <= bps_capacity tp /\ Forall (fun g => 0 < g) s.2.

Lemma sum_perm (l k : list Z) : l ≡ₚ k -> foldr Z.add 0 l = foldr Z.add 0 k.
Proof. induction 1; simpl; lia. Qed.

Lemma sum_nonneg (l : list Z) : Forall (fun g => 0 < g) l -> 0 <= foldr Z.add 0 l.
Proof. induction 1; simpl; lia. Qed.

Lemma bps_step_budget tp s o : 0 < bps_capacity tp < 2 ^ 64 -> bps_asked o -> budget tp s -> budget tp (bps_step tp s o).
Proof.
  intros Hc Ho (E & C & F). destruct s as [a held]. simpl in *. pose proof (sum_nonneg held F) as P. destruct o as [b|i]; simpl.
  - unfold allocate_bps. destruct (b >? 0) eqn:?; bool_arith; [|done].
    assert (truthy (bps_capacity tp) = true) as -> by (apply negb_true_iff, Z.eqb_neq; lia). cbn [negb].
    destruct (a <? bps_capacity tp) eqn:?; bool_arith; [|done]. rewrite u64_small by lia.
    destruct (_ <=? b) eqn:?; bool_arith.
    + destruct (0 <? bps_capacity tp - a) eqn:?; bool_arith; [|lia]. unfold budget. simpl. split; [lia|]. split; [lia|]. constructor; [lia|done].
    + rewrite u64_small by lia. destruct (0 <? b) eqn:?; bool_arith; [|lia]. unfold budget. simpl. split; [lia|]. split; [lia|]. by constructor.
  - destruct (held !! i) as [g|] eqn:Ei; [|done]. pose proof (delete_Permutation _ _ _ Ei) as Pm. pose proof (sum_perm _ _ Pm) as Sm. simpl in Sm.
    rewrite Pm in F. inversion_clear F as [|? ? Hg F']. pose proof (sum_nonneg _ F'). unfold allocate_bps.
    destruct (g >? 0) eqn:?; bool_arith; [|lia]. cbn [snd]. destruct (a >=? g) eqn:?; bool_arith; [|lia].
    rewrite u64_small by lia. unfold budget. simpl. split; [lia|]. split; [lia|done].
Qed.

(** C31. With a bandwidth capacity, the bandwidth counted as allocated is the
    sum of what the sessions hold and never exceeds the capacity, over any
    sequence of sessions asking for bandwidth and giving theirs back. *)
Theorem bandwidth_exact tp ops :
  0 < bps_capacity tp < 2 ^ 64 -> Forall bps_asked ops ->
  let '(allocated, held) := bps_run tp ops in allocated = foldr Z.add 0 held /\ allocated <= bps_capacity tp.
Proof.
  intros Hc F. assert (forall s, budget tp s -> budget tp (foldl (bps_step tp) s ops)) as H.
  { induction F as [|o ops Ho F IH]; intros s Hs; [done|]. simpl. apply IH. by apply bps_step_budget. }
  unfold bps_run. destruct (foldl _ _ _) as [a held] eqn:E. destruct (H (0, [])) as (E1 & E2 & _); [by split; [|split; [simpl; lia|]]|].
  rewrite E in E1, E2. done.
Qed.

(** * Names of the REST interface *)
Lemma chr_index_app c l r : c ∉ l -> chr_index c (l ++ c :: r) = Some (length l).
Proof.
  induction l as [|x l IH]; intros H; cbn [app chr_index length]; [by rewrite Z.eqb_refl|]. apply not_elem_of_cons in H as [H1 H2].
  destruct (x =? c) eqn:?; bool_arith; [congruence|]. by rewrite IH.
Qed.

Lemma dec_digits_nonneg s : forall acc, 0 <= acc -> 0 <= dec_digits acc s.
Proof.
  induction s as [|c s IH]; intros acc Ha; cbn [dec_digits]; [done|]. destruct (isdigit c) eqn:Ed; [|done]. apply IH. unfold isdigit in Ed. bool_arith. lia.
Qed.

Lemma atol_digits s : forallb isdigit s = true -> 0 <= atol s.
Proof.
  intros Hd. unfold atol. assert (Forall (fun c => 48 <= c <= 57) s) as Hf.
  { apply Forall_forall. intros c Hc%list_elem_of_In. rewrite forallb_forall in Hd. apply Hd in Hc. unfold isdigit in Hc. bool_arith. lia. }
  rewrite cstr_nonzero by (eapply Forall_impl; [exact Hf|]; simpl; lia).
  destruct s as [|c s]; [done|]. inversion_clear Hf as [|? ? Hc _]. cbn [skip_spaces].
  assert (isspace c = false) as -> by (unfold isspace; destruct (c =? 32) eqn:?, (9 <=? c) eqn:?, (c <=? 13) eqn:?; bool_arith; done || lia).
  destruct (c =? 45) eqn:?, (c =? 43) eqn:?; bool_arith; try lia. pose proof (dec_digits_nonneg (c :: s) 0). lia.
Qed.

(** A name "number:user" stands for the user, whatever the number: the
    allocations of a user under several such names are counted together. *)
Theorem rest_username tp num user :
  use_auth_secret_with_timestamp tp = true -> num <> [] -> forallb isdigit num = true -> isdigit (rest_api_separator tp) = false ->
  rest_api_separator tp <> 0 -> Forall (fun c => c <> 0) user ->
  get_real_username tp (num ++ rest_api_separator tp :: user) = user /\
  get_rest_api_timestamp tp (num ++ rest_api_separator tp :: user) = u32 (atol num).
Proof.
  intros Hu Hn Hd Hs H0 Hz. set (sep := rest_api_separator tp) in *. rewrite forallb_forall in Hd.
  assert (Forall (fun c => c <> 0) num) as Nz.
  { apply Forall_forall. intros c Hc ->. apply list_elem_of_In in Hc. apply Hd in Hc. done. }
  assert (sep ∉ num) as Ns by (intros Hc; apply list_elem_of_In, Hd in Hc; congruence).
  assert (cstr (num ++ sep :: user) = num ++ sep :: user) as Ec by (apply cstr_nonzero, Forall_app; split; [done|by constructor]).
  assert (strchr (num ++ sep :: user) sep = Some (length num)) as Ei.
  { unfold strchr. rewrite Ec, <- app_assoc. by apply chr_index_app. }
  assert (forallb isdigit (take (length num) (num ++ sep :: user)) = true) as Ed by (rewrite take_app_length, forallb_forall; exact Hd).
  unfold get_real_username, get_rest_api_timestamp. rewrite Hu, Ec. fold sep. rewrite Ei.
  destruct (bool_decide _) eqn:En; [apply bool_decide_eq_true_1 in En; by destruct num|]. cbn [negb andb].
  destruct (length num) as [|n] eqn:L; [by destruct num|]. rewrite Ed. cbn [negb]. rewrite <- L at 2. rewrite take_app_length. split; [|done].
  change (num ++ sep :: user) with (num ++ [sep] ++ user). rewrite app_assoc.
  replace (S (S n)) with (length (num ++ [sep])) by (rewrite length_app, L; simpl; lia). by rewrite drop_app_length.
Qed.

(** * Instances *)
Definition ex_tp : turn_params := TurnParams true 58 [] [] 1000.

(** Two allocations in all, one for each user. *)
Definition ex_db : realm_db :=
  RealmDb [RealmParams true (RealmOptions [] 0 2 1) 0 ur_string_map_create] ur_string_map_create [] ur_string_map_create [].

Lemma ex_unused : unused ex_db.
Proof.
  constructor.
  - constructor; [apply string_map_init_inv|done|by constructor; [apply string_map_init_inv|]|by constructor|].
    intros k p. rewrite string_map_abs_create. done.
  - constructor; [|constructor]. split; [done|]. apply string_map_abs_create.
Qed.

Definition ex_ticket (c : Z) : ticket := Ticket [49; 58; c] false [].

Definition ex_ops : list quota_op :=
  [Take (ex_ticket 97); Take (ex_ticket 97); Take (ex_ticket 98); Take (ex_ticket 99); Give 0; Take (ex_ticket 99)].

(** The second allocation of the first user and the third in all are refused;
    when one ends, another one is granted. *)
Lemma ex_quota_run : exists db,
  quota_run ex_tp (ex_db, []) ex_ops =
    Ret (db, [ex_ticket 99; ex_ticket 97]).
Proof. eexists. vm_compute. reflexivity. Qed.

Lemma quotas_exact_witness :
  exists db, quota_run ex_tp (ex_db, []) ex_ops =
    Ret (db, [ex_ticket 99; ex_ticket 97]) /\
    forall r, rp_heap db !! 0%nat = Some r -> total_current_allocs r = held_in db 1 [ex_ticket 99; ex_ticket 97].
Proof.
  destruct ex_quota_run as [db Er]. exists db. split; [exact Er|].
  destruct (quotas_exact ex_tp ex_db ex_ops)
    as (db' & held & E & H).
  - exact ex_unused.
  - reflexivity.
  - rewrite Er in E. injection E as <- <-. intros r Hr. destruct (H 0%nat r Hr) as (_ & X & _). apply X. simpl. lia.
Defined.

Definition ex_bps : list bps_op := [Ask 600; Ask 600; Return 1; Ask 100].

Lemma ex_bps_run : bps_run ex_tp ex_bps = (500, [100; 400]).
Proof. vm_compute. reflexivity. Qed.

Lemma bandwidth_exact_witness : let '(allocated, held) := bps_run ex_tp ex_bps in held = [100; 400] /\ allocated <= bps_capacity ex_tp.
Proof.
  pose proof (bandwidth_exact ex_tp ex_bps) as H. rewrite ex_bps_run in H |- *. split; [reflexivity|]. apply H.
  - simpl. lia.
  - repeat constructor; simpl; lia.
Defined.

(** A realm that is used for the first time starts with the number of
    allocations of the default realm: with a total quota of one and one
    allocation in the default realm, it gets none. *)
Theorem new_realm_starts_full : exists db,
  quota_run ex_tp (RealmDb [RealmParams true (RealmOptions [] 0 1 0) 0 ur_string_map_create] ur_string_map_create [] ur_string_map_create [], [])
    [Take (ex_ticket 97); Take (Ticket [98] false [114]); Take (Ticket [99] false [114])] = Ret (db, [ex_ticket 97]) /\
  held_in db 2 [ex_ticket 97] = 0.
Proof. eexists. split; [vm_compute; reflexivity|vm_compute; reflexivity]. Qed.
