(* ===== verification/UserKey.v ===== *)
(** Credentials: [get_user_key] of apps/relay/userdb.c with its three sources
    (OAuth tokens, shared secrets of the REST interface, static accounts and the
    database), the accounts of the configuration, the key that turnadmin prints,
    and the way of a request through the authentication thread
    ([start_user_check], [auth_server_receive_message] of netengine.c,
    [resume_processing_after_username_check] of ns_turn_server.c).

    The functions of the database driver are fields of [dbdriver], absent ones
    are [None].  [turn_time()] and [time(NULL)] are arguments.  The contents of
    arrays that the code does not set are arguments as well. *)

From stdpp Require Import base option numbers list strings.
From S2P Require Import Prelude IoAddr StunAddr StunDefs StunMsg StunFraming StunAuth OAuth.
From S2P Require Import TurnMaps Base64 SlotTable Timers Allocation NetBuffer Sockets TurnServer ServerAuth UserDb.

(** * Keys of the authorization server *)
Record oauth_key_data_raw : Type := OauthKeyDataRaw {
  raw_kid : list Z;
  raw_ikm_key : list Z;
  raw_timestamp : Z;
  raw_lifetime : Z;
  raw_as_rs_alg : list Z;
  raw_realm : list Z }.

Definition convert_oauth_key_data_raw (raw : oauth_key_data_raw) : outcome oauth_key_data :=
  alg ← rd_bytes (raw_as_rs_alg raw) 0 (OAUTH_ALG_SIZE + 1);
  kid ← rd_bytes (raw_kid raw) 0 (OAUTH_KID_SIZE + 1);
  let blank := zeros (Z.to_nat (OAUTH_KEY_SIZE + 1)) in
  let okd key n := OauthKeyData kid key n (u32 (raw_timestamp raw)) (raw_lifetime raw) alg in
  if hd 0 (raw_ikm_key raw) =? 0 then Ret (okd blank 0)
  else
    n ← strlen_array (raw_ikm_key raw);
    ikm_key ← base64_decode (raw_ikm_key raw) n;
    match ikm_key with
    | Some k => key ← wr_bytes blank 0 k; Ret (okd key (blen k))
    | None => Ret (okd blank 0)
    end.

(** * The database driver *)
Record dbdriver : Type := DbDriver {
  db_get_auth_secrets : option (list (list Z) -> list Z -> Z * list (list Z));
  db_get_user_key : option (list Z -> list Z -> list Z -> Z * list Z);
  db_get_oauth_key : option (list Z -> Z * oauth_key_data_raw) }.

Definition no_driver : dbdriver := DbDriver None None None.

(** * Static accounts

    The table points to the keys. *)
Record ram_db : Type := RamDb {
  static_accounts : ur_string_map;
  account_keys : list (list Z);
  users_number : Z }.

(** * What [get_user_key] leaves *)
Record user_key : Type := UserKey {
  uk_ret : Z;
  uk_oauth : bool;
  uk_max_session_time : Z;
  uk_realm : list Z;
  uk_key : list Z }.

Definition OAUTH_TIME_DELTA : Z := 5.
Definition HMACKEY_SIZE : Z := 64.

Definition empty_block : oauth_encrypted_block :=
  OauthBlock 0 (zeros (Z.to_nat OAUTH_MAX_NONCE_SIZE)) 0 (zeros (Z.to_nat MAXSHASIZE)) 0 0.
Definition empty_key : oauth_key :=
  let blank := zeros (Z.to_nat (OAUTH_KEY_SIZE + 1)) in
  OauthKey (zeros (Z.to_nat (OAUTH_KID_SIZE + 1))) blank 0 0 0 ENC_ALG_ERROR blank 0 blank 0.

Section user_key.
Context {C : Crypto} {E : Evp}.
Context (tp : turn_params) (dbd : dbdriver) (rdb : ram_db) (now : Z).

(** ** OAuth *)

(** The time limits of the token: [None] when it is too old, otherwise
    [*max_session_time]. *)
Definition token_time (d : oauth_encrypted_block) : outcome (option Z) :=
  let lifetime := eb_lifetime d in
  if truthy lifetime then
    let ts := u32 (eb_timestamp d ≫ 16) in
    let to := u32 (ts + lifetime + OAUTH_TIME_DELTA) in
    ok ← turn_time_before now to;
    if (ok : bool) then Ret (Some (i32 (to - now))) else Ret None
  else Ret (Some 0).

(** The token [value] of the message is opened with the key [raw] of the
    database; [-1] or the answer. *)
Definition oauth_token_key (raw : oauth_key_data_raw) (value realm key buf : list Z) (len : Z) (decoded0 pwdtmp : list Z) :
    outcome user_key :=
  let fail := Ret (UserKey (-1) true 0 realm key) in
  fresh ← (if truthy (raw_lifetime raw) then turn_time_before now (u32 (raw_timestamp raw + raw_lifetime raw + OAUTH_TIME_DELTA))
           else Ret true);
  if negb fresh then fail else
  okd ← convert_oauth_key_data_raw raw;
  '(r, okey, _) ← convert_oauth_key_data now okd empty_key;
  if r <? 0 then fail else
  if MAX_ENCODED_OAUTH_TOKEN_SIZE <? blen value then fail else
  token ← wr_bytes (zeros (Z.to_nat MAX_ENCODED_OAUTH_TOKEN_SIZE)) 0 value;
  let server_name := if hd 0 (tp_oauth_server_name tp) =? 0 then realm else tp_oauth_server_name tp in
  if hd 0 server_name =? 0 then fail else
  '(r, dot) ← decode_oauth_token server_name (EncodedToken token (blen value)) okey empty_block decoded0;
  if r <? 0 then fail else
  if negb (key_length dot =? SHA1SIZEBYTES) then fail else
  '(ok, _) ← stun_check_message_integrity_by_key_str TURN_CREDENTIALS_LONG_TERM buf len (mac_key dot) pwdtmp SHATYPE_SHA1;
  if 0 <? ok then
    t ← token_time dot;
    match t with
    | None => fail
    | Some t =>
        mk ← rd_bytes (mac_key dot) 0 (key_length dot);
        key ← wr_bytes key 0 mk;
        Ret (UserKey 0 true t (if hd 0 (raw_realm raw) =? 0 then realm else cstr (raw_realm raw)) key)
    end
  else fail.

(** [None] when the message has no token. *)
Definition oauth_user_key (usname realm key buf : list Z) (len : Z) (decoded0 pwdtmp : list Z) : outcome (option user_key) :=
  sar ← stun_attr_get_first_by_type_str buf len STUN_ATTRIBUTE_OAUTH_ACCESS_TOKEN;
  match sar with
  | None => Ret None
  | Some a =>
      let fail := Ret (Some (UserKey (-1) true 0 realm key)) in
      l ← stun_attr_get_len buf sar;
      v ← stun_attr_get_value buf sar;
      match v, db_get_oauth_key dbd with
      | Some v, Some get =>
          if l >? 0 then
            let '(gres, raw) := get usname in
            if gres <? 0 then fail
            else if hd 0 (raw_kid raw) =? 0 then fail
            else
              value ← rd_bytes buf v l;
              r ← oauth_token_key raw value realm key buf len decoded0 pwdtmp;
              Ret (Some r)
          else fail
      | _, _ => fail
      end
  end.

(** ** Shared secrets *)

(** The key of a user whose password is the text of the HMAC of the name under
    the secret. *)
Definition secret_key (usname realm secret key : list Z) : outcome (option (list Z)) :=
  hmac ← stun_calculate_hmac usname (strlen usname) secret (strlen secret) SHATYPE_SHA1;
  match hmac with
  | None => Ret None
  | Some h =>
      '(pwd, pwd_length) ← base64_encode h (blen h);
      if pwd_length <? 1 then Ret None
      else '(r, key) ← stun_produce_integrity_key_str usname realm pwd key SHATYPE_SHA1; Ret (Some key)
  end.

(** The secrets are tried in order: the answer and the key array. *)
Fixpoint try_secrets (sl : list (list Z)) (usname realm key buf : list Z) (len : Z) (pwdtmp : list Z) : outcome (Z * list Z) :=
  match sl with
  | [] => Ret (-1, key)
  | secret :: sl =>
      k ← secret_key usname realm secret key;
      match k with
      | None => try_secrets sl usname realm key buf len pwdtmp
      | Some key =>
          '(ok, _) ← stun_check_message_integrity_by_key_str TURN_CREDENTIALS_LONG_TERM buf len key pwdtmp SHATYPE_SHA1;
          if 0 <? ok then Ret (0, key) else try_secrets sl usname realm key buf len pwdtmp
      end
  end.

Definition rest_user_key (ctime : Z) (usname realm key buf : list Z) (len : Z) (pwdtmp : list Z) : outcome (Z * list Z) :=
  let '(r, sl) := get_auth_secrets tp (db_get_auth_secrets dbd) [] realm in
  if r <? 0 then Ret (-1, key) else
  let ts := get_rest_api_timestamp tp usname in
  old ← turn_time_before ts ctime;
  if (old : bool) then Ret (-1, key) else
  sar ← stun_attr_get_first_by_type_str buf len STUN_ATTRIBUTE_MESSAGE_INTEGRITY;
  match sar with
  | None => Ret (-1, key)
  | Some a =>
      sarlen ← stun_attr_get_len buf sar;
      if negb (sarlen =? SHA1SIZEBYTES) then Ret (-1, key)
      else try_secrets sl usname realm key buf len pwdtmp
  end.

(** ** Stored keys *)
Definition stored_user_key (usname realm key : list Z) : outcome (Z * list Z) :=
  ukey ← ur_string_map_get (static_accounts rdb) usname;
  match ukey with
  | Some p =>
      k ← (if p <? 1 then UB else at_index (account_keys rdb) (Z.to_nat (p - 1)));
      k ← rd_bytes k 0 (get_hmackey_size SHATYPE_SHA1);
      key ← wr_bytes key 0 k;
      Ret (0, key)
  | None =>
      match db_get_user_key dbd with
      | Some f => Ret (f usname realm key)
      | None => Ret (-1, key)
      end
  end.

Definition get_user_key (in_oauth out_oauth : bool) (ctime : Z) (usname realm key buf : list Z) (len : Z) (decoded0 pwdtmp : list Z) :
    outcome user_key :=
  o ← (if in_oauth && negb (bool_decide (cstr usname = [])) then oauth_user_key usname realm key buf len decoded0 pwdtmp else Ret None);
  match o with
  | Some u => Ret u
  | None =>
      if out_oauth then Ret (UserKey (-1) true 0 realm key)
      else
        '(r, key) ← (if use_auth_secret_with_timestamp tp then rest_user_key ctime usname realm key buf len pwdtmp
                     else stored_user_key usname realm key);
        Ret (UserKey r false 0 realm key)
  end.

(** * Accounts of the configuration *)

(** [skip_blanks] of apputils.c. *)
Fixpoint skip_white (s : list Z) : list Z :=
  match s with
  | c :: r => if (c =? 32) || (c =? 9) || (c =? 10) then skip_white r else s
  | [] => []
  end.

(** [sscanf(s,"%02x",&v)] on a string of at most two characters; [None] when
    there is no number. *)
Definition sscanf_x (s : list Z) : option Z :=
  let s := StunAuth.skip_spaces (cstr s) in
  let '(neg, s) := match s with
                   | c :: r => if c =? 45 then (true, r) else if c =? 43 then (false, r) else (false, s)
                   | [] => (false, s)
                   end in
  match s with
  | c :: r =>
      if (c =? 48) && match r with x :: _ => (x =? 120) || (x =? 88) | [] => false end then None
      else match hex_value c with
           | Some _ => let v := hex_digits 0 s in Some (u32 (if (neg : bool) then - v else v))
           | None => None
           end
  | [] => None
  end.

(** [v] keeps its value when there is no number; it is not set at first. *)
Fixpoint convert_loop (n : nat) (i : Z) (keysource key : list Z) (v : option Z) : outcome (list Z) :=
  match n with
  | O => Ret key
  | S n =>
      c0 ← rd8 keysource (i * 2);
      c1 ← rd8 keysource (i * 2 + 1);
      let v := match sscanf_x [c0; c1] with Some x => Some x | None => v end in
      match v with
      | Some x => key ← wr_bytes key i [u8 x]; convert_loop n (i + 1) keysource key (Some x)
      | None => UB
      end
  end.

Definition convert_string_key_to_binary (keysource key : list Z) (sz : Z) : outcome (list Z) :=
  convert_loop (Z.to_nat sz) 0 keysource key None.

(** [user] is the array with the account; [key0] the new key array. *)
Definition add_static_user_account (db : realm_db) (user key0 : list Z) : outcome (Z * ram_db) :=
  if use_auth_secret_with_timestamp tp then Ret (-1, rdb) else
  let s := cstr user in
  match chr_index 58 s with
  | None | Some O => Ret (-1, rdb)
  | Some ulen =>
      if blen (drop ulen s) <? 2 then Ret (-1, rdb) else
      '(r, usname) ← SASLprep (Some (take ulen s ++ [0]));
      if r <? 0 then Ret (-1, rdb) else
      let usname := default [] usname in
      let pw := skip_white (drop (S ulen) s) in
      key ← (if bool_decide (take 2 pw = [48; 120]) then
               convert_string_key_to_binary (drop 2 pw ++ drop (length s) user) key0 (get_hmackey_size SHATYPE_SHA1)
             else
               d ← rp_get db DEFAULT_REALM;
               '(_, key) ← stun_produce_integrity_key_str usname (ro_name (rp_options d)) pw key0 SHATYPE_SHA1;
               Ret key);
      '(_, m, _) ← ur_string_map_put (static_accounts rdb) usname (blen (account_keys rdb) + 1);
      Ret (0, RamDb m (account_keys rdb ++ [key]) (u64 (users_number rdb + 1)))
  end.

(** The text turnadmin prints for [TA_PRINT_KEY]: "0x" and the digits. *)
Definition admin_key (user realm pwd key : list Z) : outcome (list Z) :=
  '(_, key) ← stun_produce_integrity_key_str user realm pwd key SHATYPE_SHA1;
  digits ← readable_string key (get_hmackey_size SHATYPE_SHA1);
  Ret ([48; 120] ++ digits).
End user_key.
