(* ===== verification/UserKeyFacts.v ===== *)
(** Which credentials the server accepts: the REST interface exactly, static
    accounts, OAuth tokens. *)

From stdpp Require Import base option numbers list strings.
From S2P Require Import Prelude IoAddr StunAddr StunDefs StunMsg StunMsgFacts StunFraming StunAuth StunAuthFacts StunBuildFacts OAuth OAuthFacts.
From S2P Require Import KeyMap TurnMaps TurnMapsFacts Base64 SlotTable Timers Allocation NetBuffer Sockets TurnServer ServerAuth UserDb UserDbFacts UserKey.

Section facts.
Context {C : Crypto} {CL : CryptoLaws C}.

(** The message carries the HMAC under [K]. *)
Definition signed (K buf : list Z) (len : Z) : Prop :=
  stun_check_message_integrity_by_key_str TURN_CREDENTIALS_LONG_TERM buf len K [] SHATYPE_SHA1 = Ret (1, buf).

(** Of the key array only the first sixteen bytes count, and not the password. *)
Lemma check_key_prefix buf len key pwd :
  16 <= blen key ->
  stun_check_message_integrity_by_key_str TURN_CREDENTIALS_LONG_TERM buf len key pwd SHATYPE_SHA1 =
  stun_check_message_integrity_by_key_str TURN_CREDENTIALS_LONG_TERM buf len (slice key 0 16) [] SHATYPE_SHA1.
Proof.
  intros Hk. assert (forall b n, message_hmac TURN_CREDENTIALS_LONG_TERM b n key pwd SHATYPE_SHA1 =
    message_hmac TURN_CREDENTIALS_LONG_TERM b n (slice key 0 16) [] SHATYPE_SHA1) as Hm.
  { intros b n. unfold message_hmac. destruct (decide _) as [|_]; [done|]. unfold stun_calculate_hmac. cbn [get_hmackey_size].
    assert (blen (slice key 0 16) = 16) as L16 by (rewrite blen_slice; lia).
    rewrite (rd_bytes_ret key), (rd_bytes_ret (slice key 0 16)) by lia. by rewrite (slice_slice key 0 16 0 16) by lia. }
  unfold stun_check_message_integrity_by_key_str.
  destruct (stun_attr_get_first_by_type_str buf len _) as [[a|]| |]; try done. mstep.
  destruct (stun_attr_get_len buf _) as [l| |]; try done. mstep. destruct (check_shasize l _) as [sz|]; [|done].
  destruct (stun_get_command_message_len_str buf len) as [o| |]; try done. mstep.
  destruct (o <? 0); [done|]. destruct (_ >? o); [done|]. destruct (stun_set_command_message_len_str buf _) as [[r b]| |]; try done. mstep.
  destruct (r <? 0); [done|]. by rewrite Hm.
Qed.

(** The check answers 1 exactly for signed messages. *)
Lemma check_signed buf len key pwd :
  bytes_ok buf -> len <= blen buf -> 16 <= blen key ->
  exists r, stun_check_message_integrity_by_key_str TURN_CREDENTIALS_LONG_TERM buf len key pwd SHATYPE_SHA1 = Ret (r, buf) /\
    ((0 <? r) = true <-> signed (slice key 0 16) buf len).
Proof.
  intros B L Hk. destruct (integrity_check_spec TURN_CREDENTIALS_LONG_TERM buf len key pwd SHATYPE_SHA1 (slice key 0 16) B L) as (r & E & Hr & _); [done|].
  exists r. split; [done|]. unfold signed. rewrite check_key_prefix in E by done. rewrite E. split.
  - intros X. bool_arith. f_equal. f_equal. lia.
  - intros [= ->]. done.
Qed.

(** A signed message has the attribute. *)
Lemma signed_attr K buf len : blen K = 16 -> bytes_ok buf -> len <= blen buf -> signed K buf len ->
  exists a, stun_attr_get_first_by_type_str buf len STUN_ATTRIBUTE_MESSAGE_INTEGRITY = Ret (Some a) /\
    stun_attr_get_len buf (Some a) = Ret SHA1SIZEBYTES.
Proof.
  intros HK B L S. destruct (integrity_check_spec TURN_CREDENTIALS_LONG_TERM buf len K [] SHATYPE_SHA1 (slice K 0 16) B L) as (r & E & _ & H);
    [split; [simpl; lia|done]|]. unfold signed in S. rewrite S in E. injection E as <-. destruct H as (a & _ & _ & F & El & _); [done|]. by exists a.
Qed.

(** ** Shared secrets *)

(** The key of the password that the secret gives the user. *)
Definition rest_key (usname realm secret : list Z) : option (list Z) :=
  h ← HMAC EVP_sha1 (cstr secret) (cstr usname);
  Some (EVP_Digest EVP_md5 (cstr usname ++ [58] ++ cstr realm ++ [58] ++ b64 h)).

Lemma rest_key_size usname realm secret k : rest_key usname realm secret = Some k -> blen k = 16.
Proof. unfold rest_key. destruct (HMAC _ _ _); [|done]. simpl. intros [= <-]. apply digest_size. Qed.

Lemma secret_key_spec usname realm secret key :
  16 <= blen key ->
  secret_key usname realm secret key = Ret (match rest_key usname realm secret with Some k => Some (splice key 0 k) | None => None end).
Proof.
  intros Hk. unfold secret_key, stun_calculate_hmac, strlen, rest_key. destruct (cstr_prefix usname) as [Lu Su], (cstr_prefix secret) as [Ls Ss].
  rewrite !rd_bytes_ret by (try apply blen_nonneg; lia). mstep. rewrite Su, Ss. destruct (HMAC EVP_sha1 (cstr secret) (cstr usname)) as [h|] eqn:Eh; [|done].
  pose proof (hmac_size _ _ _ _ Eh) as Lh. pose proof (base64_encode_spec h [] (hmac_bytes _ _ _ _ Eh)) as Eb. rewrite app_nil_r in Eb. rewrite Eb. mstep.
  rewrite blen_b64, Lh. change (4 * ((evp_md_size EVP_sha1 + 2) / 3) <? 1) with false. cbn iota. unfold stun_produce_integrity_key_str.
  rewrite (cstr_app_zero _ [] (b64_nonzero h)). pose proof (digest_size EVP_md5 (cstr usname ++ [58] ++ cstr realm ++ [58] ++ b64 h)) as Ld.
  rewrite wr_bytes_ret by (rewrite ?Ld; simpl; lia). done.
Qed.

Lemma splice_key (key k : list Z) : blen k = 16 -> 16 <= blen key -> slice (splice key 0 k) 0 16 = k /\ blen (splice key 0 k) = blen key.
Proof.
  intros Hk L. split; [|apply blen_splice; lia]. rewrite <- Hk. apply slice_splice_same; lia.
Qed.

(** [k] is the key under one of the secrets [sl], and signs the message. *)
Definition rest_opens (sl : list (list Z)) (usname realm buf : list Z) (len : Z) (k : list Z) : Prop :=
  exists secret, secret ∈ sl /\ rest_key usname realm secret = Some k /\ signed k buf len.

Lemma rest_opens_cons s sl usname realm buf len k :
  rest_opens (s :: sl) usname realm buf len k <->
  rest_key usname realm s = Some k /\ signed k buf len \/ rest_opens sl usname realm buf len k.
Proof.
  unfold rest_opens. split.
  - intros (s' & [->|Hs]%elem_of_cons & H); [by left|right; eauto].
  - intros [H|(s' & Hs & H)]; eexists; (split; [|done]); [left|by right].
Qed.

Lemma try_secrets_spec usname realm buf len pwdtmp : bytes_ok buf -> len <= blen buf -> forall sl key, 16 <= blen key ->
  exists r key', try_secrets sl usname realm key buf len pwdtmp = Ret (r, key') /\ blen key' = blen key /\
    (r = 0 /\ rest_opens sl usname realm buf len (slice key' 0 16) \/ r = -1 /\ forall k, ~ rest_opens sl usname realm buf len k).
Proof.
  intros B L. induction sl as [|s sl IH]; intros key Hk; cbn [try_secrets].
  { exists (-1), key. split; [done|]. split; [done|]. right. split; [done|]. intros k (s & Hs & _). by apply elem_of_nil in Hs. }
  assert (forall key', 16 <= blen key' -> blen key' = blen key -> (forall k, rest_key usname realm s = Some k -> ~ signed k buf len) ->
    exists r key'', try_secrets sl usname realm key' buf len pwdtmp = Ret (r, key'') /\ blen key'' = blen key /\
      (r = 0 /\ rest_opens (s :: sl) usname realm buf len (slice key'' 0 16) \/
       r = -1 /\ forall k, ~ rest_opens (s :: sl) usname realm buf len k)) as Next.
  { intros key' Hk' E0 No. destruct (IH key' Hk') as (r & key'' & -> & Lk & H). exists r, key''. split; [done|]. split; [lia|].
    setoid_rewrite rest_opens_cons. destruct H as [[-> H]|[-> H]]; [by left; auto|right]. split; [done|].
    intros k [[Ek S]|X]; [by apply (No k)|by apply (H k)]. }
  rewrite secret_key_spec by done. mstep. destruct (rest_key usname realm s) as [k|] eqn:Ek; [|by apply Next].
  pose proof (rest_key_size _ _ _ _ Ek) as Lk. destruct (splice_key key k Lk Hk) as [Sk Bk].
  destruct (check_signed buf len (splice key 0 k) pwdtmp B L) as (r & -> & Hr); [lia|]. mstep. rewrite Sk in Hr. destruct (0 <? r) eqn:E0.
  - eexists _, _. split; [done|]. split; [done|]. left. split; [done|]. apply rest_opens_cons. left. rewrite Sk. split; [done|by apply Hr].
  - apply Next; [lia|done|]. intros k' [= <-] S. apply Hr in S. done.
Qed.

Lemma rest_user_key_spec tp dbd ctime usname realm key buf len pwdtmp r sl old :
  bytes_ok buf -> len <= blen buf -> 16 <= blen key -> get_auth_secrets tp (db_get_auth_secrets dbd) [] realm = (r, sl) ->
  turn_time_before (get_rest_api_timestamp tp usname) ctime = Ret old ->
  exists r' key', rest_user_key tp dbd ctime usname realm key buf len pwdtmp = Ret (r', key') /\ blen key' = blen key /\
    (r' = 0 /\ 0 <= r /\ old = false /\ rest_opens sl usname realm buf len (slice key' 0 16) \/
     r' = -1 /\ (r < 0 \/ old = true \/ forall k, ~ rest_opens sl usname realm buf len k)).
Proof.
  intros B L Hk Es Et. unfold rest_user_key. rewrite Es. destruct (r <? 0) eqn:?; bool_arith.
  { eexists _, _. split; [done|]. split; [done|]. right. split; [done|]. by left. }
  rewrite Et. mstep. destruct old; [eexists _, _; split; [done|]; split; [done|]; right; auto|].
  destruct (search_by_type_safe buf len STUN_ATTRIBUTE_MESSAGE_INTEGRITY B L) as (q & F & Hq). rewrite F. mstep.
  assert ((forall a, q = Some a -> stun_attr_get_len buf (Some a) <> Ret SHA1SIZEBYTES) -> forall k, ~ rest_opens sl usname realm buf len k) as No.
  { intros Hn k (s & _ & Ek & S). destruct (signed_attr k buf len (rest_key_size _ _ _ _ Ek) B L S) as (a & F' & El).
    rewrite F in F'. injection F' as ->. by apply (Hn a). }
  destruct q as [a|]; [|eexists _, _; split; [done|]; split; [done|]; right; split; [done|]; right; right; by apply No].
  destruct (Hq a eq_refl) as (l & _ & _ & El & _). rewrite El. mstep. destruct (l =? SHA1SIZEBYTES) eqn:Ez; cbn [negb]; bool_arith.
  - destruct (try_secrets_spec usname realm buf len pwdtmp B L sl key Hk) as (r' & key' & -> & Lk & H). exists r', key'. split; [done|].
    split; [done|]. destruct H as [[-> H]|[-> H]]; [by left|by right; auto].
  - eexists _, _. split; [done|]. split; [done|]. right. split; [done|]. right. right. apply No.
    intros a' [= <-]. rewrite El. intros [= X]. lia.
Qed.
End facts.

(** ** Keys in text *)
Lemma sscanf_hex_all : forallb (fun b => match sscanf_x (hex2 b) with Some v => v =? b | None => false end) (seqZ 0 256) = true.
Proof. vm_compute. reflexivity. Qed.

Lemma sscanf_hex b : is_byte b -> sscanf_x (hex2 b) = Some b.
Proof.
  intros Hb. pose proof sscanf_hex_all as H. rewrite forallb_forall in H.
  assert (In b (seqZ 0 256)) as Hin by (apply list_elem_of_In, elem_of_seqZ; unfold is_byte in Hb; lia).
  apply H in Hin. destruct (sscanf_x (hex2 b)); [|done]. f_equal. by apply Z.eqb_eq.
Qed.

Lemma convert_loop_spec bs tail : bytes_ok bs -> forall pre done old v, blen pre = 2 * blen done -> (length bs <= length old)%nat ->
  convert_loop (length bs) (blen done) (pre ++ concat (hex2 <$> bs) ++ tail) (done ++ old) v = Ret (done ++ bs ++ drop (length bs) old).
Proof.
  intros B. induction B as [|b bs Hb B IH]; intros pre done old v Hp Ho; cbn [length convert_loop]; [by rewrite drop_0|].
  destruct old as [|o old]; [simpl in Ho; lia|]. rewrite fmap_cons. cbn [concat]. pose proof (sscanf_hex b Hb) as Hs.
  unfold hex2 in *. set (c0 := hex_digit (b / 16)) in *. set (c1 := hex_digit (b mod 16)) in *. cbn [app].
  rewrite (rd8_app pre c0 _ (blen done * 2)) by lia. mstep.
  replace (pre ++ c0 :: c1 :: concat (hex2 <$> bs) ++ tail) with ((pre ++ [c0]) ++ c1 :: concat (hex2 <$> bs) ++ tail) by (by rewrite <- app_assoc).
  rewrite rd8_app by (rewrite blen_app; change (blen [c0]) with 1; lia). mstep. rewrite Hs.
  pose proof (blen_nonneg done). pose proof (blen_nonneg old).
  rewrite wr_bytes_ret by (unfold blen; rewrite ?length_app; cbn [length]; lia). mstep.
  assert (splice (done ++ o :: old) (blen done) [u8 b] = (done ++ [b]) ++ old) as ->.
  { rewrite u8_small by (unfold is_byte in Hb; lia). unfold splice, blen. rewrite Nat2Z.id, take_app_length. rewrite <- app_assoc. f_equal.
    rewrite drop_app_ge by (simpl; lia). simpl. by replace (length done + 1 - length done)%nat with 1%nat by lia. }
  replace (blen done + 1) with (blen (done ++ [b])) by (rewrite blen_app; done).
  replace ((pre ++ [c0]) ++ c1 :: concat (hex2 <$> bs) ++ tail) with ((pre ++ [c0; c1]) ++ concat (hex2 <$> bs) ++ tail) by (by rewrite <- !app_assoc).
  rewrite IH by (rewrite ?blen_app; change (blen [c0; c1]) with 2; change (blen [b]) with 1; simpl in Ho; lia). by rewrite <- app_assoc.
Qed.

Lemma convert_hex bs tail key : bytes_ok bs -> blen bs <= blen key ->
  convert_string_key_to_binary (concat (hex2 <$> bs) ++ tail) key (blen bs) = Ret (bs ++ drop (length bs) key).
Proof.
  intros B L. unfold convert_string_key_to_binary, blen. rewrite Nat2Z.id.
  apply (convert_loop_spec bs tail B [] [] key None); [done|unfold blen in L; lia].
Qed.

(** An account with a key in text. *)
Lemma add_account {C : Crypto} {E : Evp} tp rdb db user text key1 k :
  use_auth_secret_with_timestamp tp = false -> string_map_inv (static_accounts rdb) ->
  user <> [] -> bytes_ok user -> Forall (fun c => c <> 0) user -> 58 ∉ user -> existsb sasl_prohibited user = false -> sasl_map user = user ->
  text = [48; 120] ++ concat (hex2 <$> k) -> Forall (fun c => c <> 0) text -> bytes_ok k -> blen k = 16 -> 16 <= blen key1 ->
  exists rdb', add_static_user_account tp rdb db (user ++ [58] ++ text ++ [0]) key1 = Ret (0, rdb') /\
    string_map_inv (static_accounts rdb') /\
    forall dbd usname realm key, usname = user -> 16 <= blen key ->
      exists key', stored_user_key dbd rdb' usname realm key = Ret (0, key') /\ slice key' 0 16 = k.
Proof.
  intros Hu Hi Hn B Hz Hc Hp Hm Et Nt Bk Lk L1. unfold add_static_user_account. rewrite Hu.
  assert (cstr (user ++ [58] ++ text ++ [0]) = user ++ 58 :: text) as ->.
  { change (user ++ [58] ++ text ++ [0]) with (user ++ (58 :: text) ++ [0]). rewrite app_assoc. apply (cstr_app_zero _ []).
    apply Forall_app. split; [done|]. by constructor. }
  rewrite chr_index_app by done. destruct (length user) as [|n] eqn:En; [by destruct user|]. rewrite <- En. clear n En.
  rewrite drop_app_length. assert ((blen (58 :: text) <? 2) = false) as -> by (subst text; unfold blen; simpl; apply Z.ltb_ge; lia).
  rewrite take_app_length. pose proof (saslprep_correct user [] B Hz) as Hs. rewrite Hp, Hm in Hs. destruct Hs as (tl & -> & Ltl). mstep.
  cbn [default]. assert (drop (S (length user)) (user ++ 58 :: text) = text) as ->.
  { replace (S (length user)) with (length user + 1)%nat by lia. rewrite <- drop_drop, drop_app_length. done. }
  assert (skip_white text = text) as -> by (by subst text). assert (take 2 text = [48; 120]) as Et2 by (by subst text).
  rewrite (bool_decide_true _ Et2). assert (drop 2 text = concat (hex2 <$> k)) as -> by (by subst text).
  assert (forall tail, convert_string_key_to_binary (concat (hex2 <$> k) ++ tail) key1 (get_hmackey_size SHATYPE_SHA1) =
    Ret (k ++ drop (length k) key1)) as -> by (intros; change (get_hmackey_size SHATYPE_SHA1) with 16; rewrite <- Lk; apply convert_hex; [done|lia]).
  mstep. change (0 <? 0) with false. cbn iota. unfold id.
  destruct (string_put_spec (static_accounts rdb) (user ++ 0 :: tl) (blen (account_keys rdb) + 1) Hi) as (m & f & -> & Hi' & Ab & _). mstep.
  eexists. split; [done|]. split; [done|]. intros dbd usname realm key -> Hk. unfold stored_user_key. cbn [static_accounts account_keys].
  rewrite (string_get_abs _ _ Hi'), Ab. assert (key_eqb (user ++ 0 :: tl) user = true) as ->.
  { apply strcmp_zero. rewrite (cstr_app_zero user tl Hz). by rewrite cstr_nonzero. }
  mstep. pose proof (blen_nonneg (account_keys rdb)). destruct (_ <? 1) eqn:?; bool_arith; [lia|].
  rewrite Z.add_simpl_r. unfold blen at 1. rewrite Nat2Z.id. rewrite (at_index_ret _ _ (k ++ drop (length k) key1)) by (by apply list_lookup_middle).
  mstep. change (get_hmackey_size SHATYPE_SHA1) with 16. pose proof (blen_nonneg (drop (length k) key1)).
  rewrite rd_bytes_ret by (rewrite ?blen_app; lia). mstep.
  assert (slice (k ++ drop (length k) key1) 0 16 = k) as ->.
  { unfold slice. rewrite drop_0. replace (Z.to_nat 16) with (length k) by (unfold blen in Lk; lia). apply take_app_length. }
  rewrite wr_bytes_ret by lia. mstep. eexists. split; [done|]. by apply splice_key.
Qed.

Lemma rest_get_user_key {C : Crypto} {CL : CryptoLaws C} {E : Evp} tp dbd rdb now ctime num user realm key buf len decoded0 pwdtmp r sl :
  use_auth_secret_with_timestamp tp = true ->
  num <> [] -> forallb isdigit num = true -> isdigit (rest_api_separator tp) = false -> rest_api_separator tp <> 0 ->
  Forall (fun c => c <> 0) user -> atol num < 2 ^ 31 -> 0 <= ctime < 2 ^ 31 ->
  bytes_ok buf -> len <= blen buf -> blen key = HMACKEY_SIZE ->
  get_auth_secrets tp (db_get_auth_secrets dbd) [] realm = (r, sl) ->
  let usname := num ++ rest_api_separator tp :: user in
  exists u, get_user_key tp dbd rdb now false false ctime usname realm key buf len decoded0 pwdtmp = Ret u /\
    uk_oauth u = false /\ blen (uk_key u) = HMACKEY_SIZE /\
    (uk_ret u = 0 /\ 0 <= r /\ ctime <= atol num /\ rest_opens sl usname realm buf len (slice (uk_key u) 0 16) \/
     uk_ret u = -1 /\ (r < 0 \/ atol num < ctime \/ forall k, ~ rest_opens sl usname realm buf len k)).
Proof.
  intros Hu Hn Hd Hs H0 Hz Ha Hc B L Hk Es usname. destruct (rest_username tp num user Hu Hn Hd Hs H0 Hz) as [_ Ets].
  pose proof (atol_digits num Hd) as Hp.
  assert (turn_time_before (get_rest_api_timestamp tp usname) ctime = Ret (atol num <? ctime)) as Et.
  { unfold usname. rewrite Ets. unfold turn_time_before. rewrite (i32_small ctime), (u32_small (atol num)), (i32_small (atol num)) by lia.
    if_case. f_equal. destruct (Z.ltb_spec (atol num - ctime) 0), (Z.ltb_spec (atol num) ctime); lia. }
  destruct (rest_user_key_spec tp dbd ctime usname realm key buf len pwdtmp r sl _ B L ltac:(unfold HMACKEY_SIZE in Hk; lia) Es Et)
    as (r' & key' & Er & Lk & H).
  unfold get_user_key. cbn [andb]. mstep. rewrite Hu, Er. mstep. eexists. split; [done|]. cbn [uk_oauth uk_key uk_ret]. split; [done|].
  split; [lia|]. destruct H as [(-> & Hr & Ho & H)|(-> & H)]; [left|right]; split; try done; bool_arith; [by split_and!|].
  destruct H as [?|[?|?]]; bool_arith; auto.
Qed.


(** The secret is "s", the user "2000:u", the realm "r". *)
Definition ex_rest_tp : turn_params := TurnParams true 58 [[115]] [] 1000.
Definition ex_rest_db : ram_db := RamDb ur_string_map_create [] 0.
#[local] Existing Instances toy_crypto toy_laws toy_evp.

Definition ex_rest_msg : mbuf :=
  let key := default [] (rest_key [50; 48; 48; 48; 58; 117] [114] [115]) in
  match stun_attr_add_integrity_str (zeros 128) TURN_CREDENTIALS_LONG_TERM ex_auth_mbuf key [] SHATYPE_SHA1 with
  | Ret (_, m) => m
  | _ => ex_auth_mbuf
  end.


(** The same user is served until the time has come. *)
Example rest_accepted :
  (fun t => u ← get_user_key ex_rest_tp no_driver ex_rest_db 0 false false t [50; 48; 48; 48; 58; 117] [114] (zeros 64)
       (mdata ex_rest_msg) (mlen ex_rest_msg) [] []; Ret (uk_ret u)) <$> [1000; 2000; 2001] = [Ret 0; Ret 0; Ret (-1)].
Proof. vm_compute. reflexivity. Qed.

(** A key in text: the key that [turnadmin] prints for a user, realm and
    password, put behind "user:" as an account of the configuration, gives the
    user the key MD5(user:realm:password): the account is added, and
    [get_user_key] for the user answers with that key, with every message.
    The name has no colon, no prohibited character and is its own SASLprep
    form. *)
Theorem printed_key_accepted {C : Crypto} {CL : CryptoLaws C} {E : Evp} tp dbd rdb db user realm pw key0 key1 key2 now ctime buf len d0 pwdtmp :
  use_auth_secret_with_timestamp tp = false -> string_map_inv (static_accounts rdb) ->
  user <> [] -> bytes_ok user -> Forall (fun c => c <> 0) user -> 58 ∉ user -> existsb sasl_prohibited user = false -> sasl_map user = user ->
  blen key0 = HMACKEY_SIZE -> blen key1 = HMACKEY_SIZE -> blen key2 = HMACKEY_SIZE ->
  exists text rdb' u,
    admin_key user realm pw key0 = Ret text /\
    add_static_user_account tp rdb db (user ++ [58] ++ text ++ [0]) key1 = Ret (0, rdb') /\
    string_map_inv (static_accounts rdb') /\
    get_user_key tp dbd rdb' now false false ctime user realm key2 buf len d0 pwdtmp = Ret u /\ uk_ret u = 0 /\
    slice (uk_key u) 0 16 = EVP_Digest EVP_md5 (cstr user ++ [58] ++ cstr realm ++ [58] ++ cstr pw).
Proof.
  unfold HMACKEY_SIZE. intros Hu Hi Hn B Hz Hc Hp Hm L0 L1 L2. set (k := EVP_Digest EVP_md5 _).
  assert (blen k = 16) as Lk by apply digest_size. assert (bytes_ok k) as Bk by apply digest_bytes.
  assert (admin_key user realm pw key0 = Ret ([48; 120] ++ concat (hex2 <$> k))) as Ea.
  { unfold admin_key, stun_produce_integrity_key_str. fold k. rewrite wr_bytes_ret by lia. mstep. unfold readable_string.
    cbn [get_hmackey_size]. destruct (splice_key key0 k Lk) as [Sk Bl]; [lia|]. rewrite rd_bytes_ret by lia. mstep. by rewrite Sk. }
  set (text := [48; 120] ++ _) in Ea. exists text.
  assert (Forall (fun c => c <> 0) text) as Nt by (by apply Forall_app; split; [repeat constructor|apply hex_string_nonzero]).
  destruct (add_account tp rdb db user text key1 k) as (rdb' & Ed & Hi' & Hget); try done; [lia|].
  exists rdb'. unfold get_user_key. cbn [andb]. mstep. rewrite Hu. destruct (Hget dbd user realm key2 eq_refl) as (key & -> & Hk); [lia|].
  mstep. eexists. split_and!; try done.
Qed.

Definition ex_account_tp : turn_params := TurnParams false 58 [] [] 1000.

Lemma printed_key_accepted_witness :
  exists text rdb' u,
    admin_key [117] [114] [112] (zeros 64) = Ret text /\
    add_static_user_account ex_account_tp ex_rest_db create_default_realm ([117] ++ [58] ++ text ++ [0]) (zeros 64) = Ret (0, rdb') /\
    string_map_inv (static_accounts rdb') /\
    get_user_key ex_account_tp no_driver rdb' 0 false false 0 [117] [114] (zeros 64) ex_msg 28 [] [] = Ret u /\ uk_ret u = 0 /\
    slice (uk_key u) 0 16 = EVP_Digest EVP_md5 [117; 58; 114; 58; 112].
Proof.
  apply (printed_key_accepted ex_account_tp no_driver ex_rest_db create_default_realm [117] [114] [112] (zeros 64) (zeros 64) (zeros 64));
    try done; [exact string_map_init_inv|by apply bytes_okb_spec|by repeat constructor|by apply (bool_decide_eq_true_1 (58 ∉ [117]))].
Defined.

(** Two defects.  A key in text that is too short is reported and then read all
    the same, past the end of the string; and a time after 2038 in a user name
    overflows the subtraction of [turn_time_before]. *)
Example short_key_read_past_end :
  add_static_user_account ex_account_tp ex_rest_db create_default_realm [117; 58; 48; 120; 49; 50; 0] (zeros 64) = UB.
Proof. vm_compute. reflexivity. Qed.

Example far_timestamp_overflows :
  get_user_key ex_rest_tp no_driver ex_rest_db 0 false false 1700000000 (bytes_of_string "3000000000:u") [114] (zeros 64)
    ex_msg 28 [] [] = UB.
Proof. vm_compute. reflexivity. Qed.
