(* ===== verification/Allocate.v ===== *)
(** The life of an allocation: src/coturn/src/server/ns_turn_server.c, the
    handlers of Allocate and Refresh, the relay connection they create or
    refresh, the timers that end it and the end of a session.

    A session is the record [life]: the session of [TurnServer] and the
    authentication state of [ServerAuth] with the fields that only these
    functions use.  The relay sockets and ports are those of [RelayEngine]; the
    quota and bandwidth callbacks are the class [Quotas]; the server's maps from
    ids to sessions are used through the interface [KVStore].  The decoding of
    mobility tickets and the transfer of a session to another socket, which a
    Refresh with such a ticket does, are arguments.  The TCP connections of RFC
    6062 and reports to the administration are left out. *)

From stdpp Require Import base option numbers list strings gmap.
From S2P Require Import Prelude IoAddr StunDefs StunMsg StunBuild KeyMap SlotTable TurnMaps TurnPorts Timers Allocation NetBuffer.
From S2P Require Import Sockets RelayEngine TurnServer DataPath ServerAuth.

Definition TTL_IGNORE : Z := -1.
Definition TOS_IGNORE : Z := -1.

(** ** Data *)

(** The answers of the user database: a new allocation for the user name, the
    OAuth flag and the realm is granted or not; a granted one is given back;
    bandwidth is granted (and how much) or given back. *)
Class Quotas (Q : Type) : Type := {
  chquotacb : Q -> list Z -> bool -> list Z -> outcome (bool * Q);
  raqcb : Q -> list Z -> bool -> list Z -> outcome Q;
  allocate_bps_func : Q -> Z -> bool -> Z * Q }.

Record alloc_config : Type := AllocConfig {
  ac_mobility : bool;
  no_tcp_relay : bool;
  no_udp_relay : bool;
  external_ip : option ioa_addr;
  keep_address_family : bool;
  ac_ct : turn_credential_type;
  default_relays : bool }.

(** [ss_ptr] is the address of the session; [max_bps] is an option of its realm;
    [to_be_allocated_timeout_ev] tells whether the watchdog timer is set. *)
Record life : Type := Life {
  lf_ss : ts_ur_super_session;
  lf_auth : auth_session;
  lf_origin_set : bool;
  ss_ptr : Z;
  quota_used : bool;
  max_session_time_auth : Z;
  max_bps : Z;
  ss_bps : Z;
  mobile_id : Z;
  old_mobile_id : Z;
  s_mobile_id : list Z;
  to_be_allocated_timeout_ev : bool }.

Definition life_ss (l : life) (ss : ts_ur_super_session) : life :=
  Life ss (lf_auth l) (lf_origin_set l) (ss_ptr l) (quota_used l) (max_session_time_auth l) (max_bps l) (ss_bps l)
    (mobile_id l) (old_mobile_id l) (s_mobile_id l) (to_be_allocated_timeout_ev l).
Definition life_quota (l : life) (a : auth_session) (used : bool) : life :=
  Life (lf_ss l) a (lf_origin_set l) (ss_ptr l) used (max_session_time_auth l) (max_bps l) (ss_bps l)
    (mobile_id l) (old_mobile_id l) (s_mobile_id l) (to_be_allocated_timeout_ev l).
Definition life_bps (l : life) (bps : Z) : life :=
  Life (lf_ss l) (lf_auth l) (lf_origin_set l) (ss_ptr l) (quota_used l) (max_session_time_auth l) (max_bps l) bps
    (mobile_id l) (old_mobile_id l) (s_mobile_id l) (to_be_allocated_timeout_ev l).
Definition life_mobile (l : life) (id : Z) (sid : list Z) : life :=
  Life (lf_ss l) (lf_auth l) (lf_origin_set l) (ss_ptr l) (quota_used l) (max_session_time_auth l) (max_bps l) (ss_bps l)
    id (old_mobile_id l) sid (to_be_allocated_timeout_ev l).
Definition life_watchdog (l : life) (set : bool) : life :=
  Life (lf_ss l) (lf_auth l) (lf_origin_set l) (ss_ptr l) (quota_used l) (max_session_time_auth l) (max_bps l) (ss_bps l)
    (mobile_id l) (old_mobile_id l) (s_mobile_id l) set.
Definition life_alloc (l : life) (a : allocation) : life := life_ss l (with_alloc (lf_ss l) a).
Definition lf_alloc (l : life) : allocation := ss_alloc (lf_ss l).

Definition ss_flags (ss : ts_ur_super_session) (tcp mobile : bool) : ts_ur_super_session :=
  Session (ss_id ss) (ss_alloc ss) (ss_alloc_ptr ss) tcp mobile (client_socket ss) (realm_name ss) (to_be_closed ss)
    (enforce_fingerprints ss).
Definition ss_client (ss : ts_ur_super_session) (s : Z) : ts_ur_super_session :=
  Session (ss_id ss) (ss_alloc ss) (ss_alloc_ptr ss) (is_tcp_relay ss) (is_mobile ss) s (realm_name ss) (to_be_closed ss)
    (enforce_fingerprints ss).

(** What a session shares with the others: the engine, the quotas and the maps
    of the server. *)
Record shared (K U Q S : Type) : Type := Shared {
  sh_net : relay_net K U;
  sh_quotas : Q;
  sessions_map : S;
  mobile_connections_map : S }.
Arguments Shared {K U Q S}.
Arguments sh_net {K U Q S}.
Arguments sh_quotas {K U Q S}.
Arguments sessions_map {K U Q S}.
Arguments mobile_connections_map {K U Q S}.

Section allocate.
Context {K U Q S : Type} {KN : Kernel K} {UM : UrMap U} {M : Malloc} {QT : Quotas Q} {SM : KVStore Z Z S}.
Abbreviation world := (life * shared K U Q S)%type.

Definition set_net (w : world) (n : relay_net K U) : world :=
  (w.1, Shared n (sh_quotas w.2) (sessions_map w.2) (mobile_connections_map w.2)).
Definition set_quotas (w : world) (q : Q) : world :=
  (w.1, Shared (sh_net w.2) q (sessions_map w.2) (mobile_connections_map w.2)).
Definition set_life (w : world) (l : life) : world := (l, w.2).
Definition set_alloc (w : world) (a : allocation) : world := (life_alloc w.1 a, w.2).

(** ** Quotas *)
Context (cfg : alloc_config) (server : turn_turnserver) (e : engine).

Definition inc_quota (w : world) (username : list Z) : outcome (Z * world) :=
  let l := w.1 in
  if quota_used l then Ret (0, w)
  else if bool_decide (ac_ct cfg = TURN_CREDENTIALS_LONG_TERM) && negb (lf_origin_set l) then Ret (-1, w)
  else
    '(ok, q) ← chquotacb (sh_quotas w.2) username (ss_oauth (lf_auth l)) (realm_name (lf_ss l));
    let w := set_quotas w q in
    if (ok : bool) then
      Ret (0, set_life w (life_quota l (with_username (lf_auth l) username (hmackey_set (lf_auth l))) true))
    else Ret (-1, w).

Definition dec_quota (w : world) : outcome world :=
  let l := w.1 in
  if quota_used l then
    let w := set_life w (life_quota l (lf_auth l) false) in
    q ← raqcb (sh_quotas w.2) (username (lf_auth l)) (ss_oauth (lf_auth l)) (realm_name (lf_ss l));
    Ret (set_quotas w q)
  else Ret w.

Definition dec_bps (w : world) : world :=
  let l := w.1 in
  if truthy (ss_bps l) then
    set_life (set_quotas w (allocate_bps_func (sh_quotas w.2) (ss_bps l) false).2) (life_bps l 0)
  else w.

(** ** Maps of sessions *)
Definition delete_session_from_mobile_map (w : world) : outcome world :=
  let l := w.1 in
  if truthy (mobile_id l) then
    m ← kv_del (mobile_connections_map w.2) (mobile_id l);
    Ret (life_mobile l 0 [], Shared (sh_net w.2) (sh_quotas w.2) (sessions_map w.2) m)
  else Ret w.

Definition delete_session_from_map (w : world) : outcome world :=
  m ← kv_del (sessions_map w.2) (ss_id (lf_ss w.1));
  delete_session_from_mobile_map (w.1, Shared (sh_net w.2) (sh_quotas w.2) m (mobile_connections_map w.2)).

(** ** Sockets of the session *)

(** [ioa_socket_tobeclosed] on a handle, NULL included. *)
Definition closing (n : relay_net K U) (s : Z) : outcome (bool * relay_net K U) :=
  if s =? 0 then Ret (false, n) else
  k ← get_sock (rn_socks n) s;
  let '(c, k) := ioa_socket_tobeclosed e k in
  Ret (c, put_sock n s k).

Definition get_family (n : relay_net K U) (stun_family client_s : Z) : outcome Z :=
  if stun_family =? STUN_ATTRIBUTE_REQUESTED_ADDRESS_FAMILY_VALUE_IPV4 then Ret AF_INET
  else if stun_family =? STUN_ATTRIBUTE_REQUESTED_ADDRESS_FAMILY_VALUE_IPV6 then Ret AF_INET6
  else if stun_family =? STUN_ATTRIBUTE_REQUESTED_ADDRESS_FAMILY_VALUE_DEFAULT then
    if default_relays cfg then
      f ← get_ioa_socket_address_family (rn_socks n) client_s;
      Ret (if f =? AF_INET6 then AF_INET6 else AF_INET)
    else Ret AF_INET
  else Ret AF_INET.

Definition set_session_at (a : allocation) (i : nat) (r : relay_endpoint_session) : allocation :=
  with_sessions a (<[i := r]> (relay_sessions a)).

(** ** Relay connections *)
Context (local_relay : Z -> option ioa_addr) (now : Z).

(** The socket for the relay session of index [i], reserved or created: the
    returned code (when it is negative the function returns), [rtcp_s],
    [*out_reservation_token], [*err_code] and [*reason]. *)
Definition relay_socket (w : world) (address_family transport even_port in_token token err : Z) (reason : string) :
    outcome (Z * nat * Z * Z * world * Z * string) :=
  let a := lf_alloc w.1 in
  let n := sh_net w.2 in
  let fail i w code text := Ret (-1, i, 0, token, w, code, text) in
  if truthy in_token then
    '(x, s, n) ← get_ioa_socket_from_reservation n in_token;
    '(c, n) ← (if (x <? 0) || (s =? 0) then Ret (true, n) else closing n s);
    if (c : bool) then
      n ← IOA_CLOSE_SOCKET n s;
      fail 0%nat (set_net w n) 404 "Cannot find reserved socket"%string
    else
      f ← get_ioa_socket_address_family (rn_socks n) s;
      let i := ALLOC_INDEX f in
      newelem ← at_index (relay_sessions a) i;
      if rs_s newelem =? s then Ret (0, i, 0, token, set_net w n, err, reason)
      else
        n ← IOA_CLOSE_SOCKET n (rs_s newelem);
        Ret (0, i, 0, token, set_alloc (set_net w n) (set_session_at a i (RelaySession s 0 0)), err, reason)
  else
    f ← get_family n address_family (client_socket (lf_ss w.1));
    let i := ALLOC_INDEX f in
    newelem ← at_index (relay_sessions a) i;
    n ← IOA_CLOSE_SOCKET n (rs_s newelem);
    '(x, c, err, reason) ← create_relay_ioa_sockets (default_relays cfg) local_relay transport even_port now n
                              (client_socket (lf_ss w.1)) address_family token err reason;
    if x <? 0 then
      n ← IOA_CLOSE_SOCKET (cr_net c) (rtp_s c);
      n ← IOA_CLOSE_SOCKET n (rtcp_s c);
      Ret (-1, i, 0, out_token c, set_alloc (set_net w n) (set_session_at a i (RelaySession 0 0 0)),
           if err =? 0 then 508 else err,
           match reason with EmptyString => "Cannot create socket"%string | _ => reason end)
    else
      Ret (0, i, rtcp_s c, out_token c, set_alloc (set_net w (cr_net c)) (set_session_at a i (RelaySession (rtp_s c) 0 0)),
           err, reason).

(** [rtcp_s] is closed when no token was made for it. *)
Definition create_relay_connection (w : world) (lifetime address_family transport even_port in_token token err : Z)
    (reason : string) : outcome (Z * world * Z * Z * string) :=
  let client := client_socket (lf_ss w.1) in
  '(c, n) ← closing (sh_net w.2) client;
  let w := set_net w n in
  if (client =? 0) || c then Ret (0, w, token, err, reason) else
  '(x, i, rtcp_s, token, w, err, reason) ← relay_socket w address_family transport even_port in_token token err reason;
  if x <? 0 then Ret (-1, w, token, err, reason) else
  let a := lf_alloc w.1 in
  newelem ← at_index (relay_sessions a) i;
  let s := rs_s newelem in
  if s =? 0 then
    n ← IOA_CLOSE_SOCKET (sh_net w.2) rtcp_s;
    Ret (-1, set_net w n, token, 508, "Cannot create relay socket"%string)
  else if truthy rtcp_s && negb (truthy token) then
    n ← IOA_CLOSE_SOCKET (sh_net w.2) s;
    n ← IOA_CLOSE_SOCKET n rtcp_s;
    Ret (-1, set_alloc (set_net w n) (set_session_at a i (RelaySession 0 (rs_expiration_time newelem) (rs_lifetime_ev newelem))),
         token, 500, "Wrong reservation tokens (internal error)"%string)
  else
    f ← get_ioa_socket_address_family (rn_socks (sh_net w.2)) s;
    fc ← get_ioa_socket_address_family (rn_socks (sh_net w.2)) client;
    n ← (if (f =? AF_INET6) || (fc =? AF_INET6) then set_do_not_use_df (sh_net w.2) s else Ret (sh_net w.2));
    t ← get_ioa_socket_type (rn_socks n) s;
    '(x, n) ← (if t =? TCP_SOCKET then Ret (0, n) else register_callback_on_ioa_socket n s);
    let w := set_net w n in
    if x <? 0 then Ret (-1, w, token, err, reason) else
    let lifetime := if lifetime <? 1 then STUN_DEFAULT_ALLOCATE_LIFETIME
                    else if lifetime >? u32 (max_allocate_lifetime server) then u32 (max_allocate_lifetime server)
                    else lifetime in
    let '(ev, ts) := set_ioa_timer (a_timers a) (e_now server) (i32 lifetime) (AllocTimeout i) in
    a ← set_allocation_lifetime_ev (with_timers a ts) (u32 (ctime server + lifetime)) ev f;
    n ← set_ioa_socket_session n s (ss_ptr w.1);
    Ret (0, set_alloc (set_net w n) a, token, err, reason).

Definition refresh_relay_connection (a : allocation) (lifetime family : Z) : outcome (Z * allocation) :=
  if truthy (is_allocation_valid a) then
    let lifetime := if lifetime <? 1 then 1 else lifetime in
    let '(ev, ts) := set_ioa_timer (a_timers a) (e_now server) (i32 lifetime) (AllocTimeout (ALLOC_INDEX family)) in
    a ← set_allocation_lifetime_ev (with_timers a ts) (u32 (ctime server + lifetime)) ev family;
    Ret (0, a)
  else Ret (-1, a).

(** ** Allocate *)
Definition get_transport_value (v : Z) : Z :=
  if (v =? STUN_ATTRIBUTE_TRANSPORT_UDP_VALUE) || (v =? STUN_ATTRIBUTE_TRANSPORT_TCP_VALUE) then v else 0.

(** The local variables and the flags [ss->is_tcp_relay], [ss->is_mobile]. *)
Record alloc_req : Type := AllocReq {
  aq_transport : Z;
  aq_lifetime : Z;
  aq_even_port : Z;
  aq_dont_fragment : bool;
  aq_token : Z;
  aq_af4 : Z;
  aq_af6 : Z;
  aq_username : list Z;
  aq_bps : Z;
  aq_tcp : bool;
  aq_mobile : bool;
  aq_reply : reply }.

Definition aq_fail (q : alloc_req) (code : Z) (text : string) : alloc_req :=
  AllocReq (aq_transport q) (aq_lifetime q) (aq_even_port q) (aq_dont_fragment q) (aq_token q) (aq_af4 q) (aq_af6 q)
    (aq_username q) (aq_bps q) (aq_tcp q) (aq_mobile q) (fail_with (aq_reply q) code text).
Definition aq_code (q : alloc_req) (code : Z) : alloc_req := aq_fail q code (reason (aq_reply q)).
Definition aq_set_transport (q : alloc_req) (t : Z) (tcp : bool) : alloc_req :=
  AllocReq t (aq_lifetime q) (aq_even_port q) (aq_dont_fragment q) (aq_token q) (aq_af4 q) (aq_af6 q)
    (aq_username q) (aq_bps q) tcp (aq_mobile q) (aq_reply q).
Definition aq_set_user (q : alloc_req) (u : list Z) : alloc_req :=
  AllocReq (aq_transport q) (aq_lifetime q) (aq_even_port q) (aq_dont_fragment q) (aq_token q) (aq_af4 q) (aq_af6 q)
    u (aq_bps q) (aq_tcp q) (aq_mobile q) (aq_reply q).
Definition aq_set_lifetime (q : alloc_req) (l : Z) : alloc_req :=
  AllocReq (aq_transport q) l (aq_even_port q) (aq_dont_fragment q) (aq_token q) (aq_af4 q) (aq_af6 q)
    (aq_username q) (aq_bps q) (aq_tcp q) (aq_mobile q) (aq_reply q).
Definition aq_set_even_port (q : alloc_req) (p : Z) : alloc_req :=
  AllocReq (aq_transport q) (aq_lifetime q) p (aq_dont_fragment q) (aq_token q) (aq_af4 q) (aq_af6 q)
    (aq_username q) (aq_bps q) (aq_tcp q) (aq_mobile q) (aq_reply q).
Definition aq_set_token (q : alloc_req) (t : Z) : alloc_req :=
  AllocReq (aq_transport q) (aq_lifetime q) (aq_even_port q) (aq_dont_fragment q) t (aq_af4 q) (aq_af6 q)
    (aq_username q) (aq_bps q) (aq_tcp q) (aq_mobile q) (aq_reply q).
Definition aq_set_families (q : alloc_req) (af4 af6 : Z) : alloc_req :=
  AllocReq (aq_transport q) (aq_lifetime q) (aq_even_port q) (aq_dont_fragment q) (aq_token q) af4 af6
    (aq_username q) (aq_bps q) (aq_tcp q) (aq_mobile q) (aq_reply q).
Definition aq_set_bps (q : alloc_req) (b : Z) : alloc_req :=
  AllocReq (aq_transport q) (aq_lifetime q) (aq_even_port q) (aq_dont_fragment q) (aq_token q) (aq_af4 q) (aq_af6 q)
    (aq_username q) b (aq_tcp q) (aq_mobile q) (aq_reply q).
Definition aq_set_mobile (q : alloc_req) : alloc_req :=
  AllocReq (aq_transport q) (aq_lifetime q) (aq_even_port q) (aq_dont_fragment q) (aq_token q) (aq_af4 q) (aq_af6 q)
    (aq_username q) (aq_bps q) (aq_tcp q) true (aq_reply q).
Definition aq_unknown (q : alloc_req) (df : bool) (attr_type : Z) : outcome alloc_req :=
  r ← add_unknown (aq_reply q) attr_type;
  Ret (AllocReq (aq_transport q) (aq_lifetime q) (aq_even_port q) (df || aq_dont_fragment q) (aq_token q) (aq_af4 q) (aq_af6 q)
         (aq_username q) (aq_bps q) (aq_tcp q) (aq_mobile q) r).

(** USERNAME, before the [switch]. *)
Definition username_attr (buf : list Z) (q : alloc_req) (sar : Z) : outcome alloc_req :=
  v ← stun_attr_get_value buf (Some sar);
  match v with
  | None => Ret q
  | Some v =>
      ulen ← stun_attr_get_len buf (Some sar);
      if ulen >=? STUN_MAX_USERNAME_SIZE + 1 then Ret (aq_fail q 400 "User name is too long")
      else
        u ← rd_bytes buf v ulen;
        let u := cstr (u ++ [0]) in
        if is_secure_string u true then Ret (aq_set_user q u) else Ret (aq_code (aq_set_user q []) 400)
  end.

(** [cst] is the type of the client socket. *)
Definition transport_attr (client cst : Z) (buf : list Z) (q : alloc_req) (sar : Z) : outcome alloc_req :=
  len ← stun_attr_get_len buf (Some sar);
  if negb (len =? 4) then Ret (aq_fail q 400 "Wrong Transport Field")
  else if truthy (aq_transport q) then Ret (aq_fail q 400 "Duplicate Transport Fields")
  else
    v ← stun_attr_get_value buf (Some sar);
    match v with
    | None => Ret (aq_fail q 400 "Wrong Transport Data")
    | Some v =>
        b ← rd8 buf v;
        let t := get_transport_value b in
        let q := aq_set_transport q t (aq_tcp q) in
        let q := if t =? 0 then aq_code q 442 else q in
        let tcp := t =? STUN_ATTRIBUTE_TRANSPORT_TCP_VALUE in
        if tcp && no_tcp_relay cfg then
          Ret (aq_fail q 442 "TCP Transport is not allowed by the TURN Server configuration")
        else if (t =? STUN_ATTRIBUTE_TRANSPORT_UDP_VALUE) && no_udp_relay cfg then
          Ret (aq_fail q 442 "UDP Transport is not allowed by the TURN Server configuration")
        else if truthy client then
          if tcp && negb (is_stream_socket cst) then Ret (aq_fail q 400 "Wrong Transport Data")
          else Ret (aq_set_transport q t tcp)
        else Ret q
    end.

Definition lifetime_attr (buf : list Z) (q : alloc_req) (sar : Z) : outcome alloc_req :=
  len ← stun_attr_get_len buf (Some sar);
  if negb (len =? 4) then Ret (aq_fail q 400 "Wrong Lifetime Field")
  else
    v ← stun_attr_get_value buf (Some sar);
    match v with
    | None => Ret (aq_fail q 400 "Wrong Lifetime Data")
    | Some v => l ← rd32 buf v; Ret (aq_set_lifetime q l)
    end.

Definition even_port_attr (buf : list Z) (q : alloc_req) (sar : Z) : outcome alloc_req :=
  if truthy (aq_token q) then Ret (aq_fail q 400 "Even Port and Reservation Token cannot be used together")
  else
    p ← stun_attr_get_even_port buf (Some sar);
    let q := aq_set_even_port q p in
    if truthy p && truthy (aq_af4 q) && truthy (aq_af6 q) then
      Ret (aq_fail q 400 "Even Port cannot be used with Dual Allocation")
    else Ret q.

Definition token_attr (buf : list Z) (q : alloc_req) (sar : Z) : outcome alloc_req :=
  len ← stun_attr_get_len buf (Some sar);
  if negb (len =? 8) then Ret (aq_fail q 400 "Wrong Format of Reservation Token")
  else if truthy (aq_af4 q) || truthy (aq_af6 q) then
    Ret (aq_fail q 400 "Address family attribute can not be used with reservation token request")
  else if aq_even_port q >=? 0 then
    Ret (aq_fail q 400 "Reservation Token cannot be used in this request with even port")
  else if truthy (aq_token q) then Ret (aq_fail q 400 "Reservation Token cannot be used in this request")
  else t ← stun_attr_get_reservation_token_value buf (Some sar); Ret (aq_set_token q t).

Definition family_attr (buf : list Z) (q : alloc_req) (sar attr_type : Z) : outcome alloc_req :=
  let additional := attr_type =? STUN_ATTRIBUTE_ADDITIONAL_ADDRESS_FAMILY in
  if additional && (0 <? aq_even_port q) then Ret (aq_fail q 400 "Even Port cannot be used with Dual Allocation")
  else if truthy (aq_token q) then
    Ret (aq_fail q 400 "Address family attribute can not be used with reservation token request")
  else if truthy (aq_af4 q) || truthy (aq_af6 q) then
    Ret (aq_fail q 400 "Extra address family attribute can not be used in the request")
  else
    af_req ← stun_get_requested_address_family buf (Some sar);
    if af_req =? STUN_ATTRIBUTE_REQUESTED_ADDRESS_FAMILY_VALUE_IPV4 then
      if additional then Ret (aq_fail q 400 "Invalid value of the additional address family attribute")
      else Ret (aq_set_families q af_req (aq_af6 q))
    else if af_req =? STUN_ATTRIBUTE_REQUESTED_ADDRESS_FAMILY_VALUE_IPV6 then
      Ret (aq_set_families q (if additional then STUN_ATTRIBUTE_REQUESTED_ADDRESS_FAMILY_VALUE_IPV4 else aq_af4 q) af_req)
    else Ret (aq_code q 440).

(** One attribute. *)
Definition alloc_attr (client cst : Z) (buf : list Z) (q : alloc_req) (sar : Z) : outcome alloc_req :=
  attr_type ← stun_attr_get_type buf (Some sar);
  q ← (if attr_type =? STUN_ATTRIBUTE_USERNAME then username_attr buf q sar else Ret q);
  if negb (err_code (aq_reply q) =? 0) || SKIP_ATTRIBUTES attr_type then Ret q
  else if attr_type =? STUN_ATTRIBUTE_NEW_BANDWIDTH then b ← stun_attr_get_bandwidth buf (Some sar); Ret (aq_set_bps q b)
  else if attr_type =? STUN_ATTRIBUTE_MOBILITY_TICKET then
    if negb (ac_mobility cfg) then Ret (aq_fail q 405 "Mobility Forbidden")
    else
      len ← stun_attr_get_len buf (Some sar);
      Ret (if negb (len =? 0) then aq_fail q 400 "Wrong Mobility Field" else aq_set_mobile q)
  else if attr_type =? STUN_ATTRIBUTE_REQUESTED_TRANSPORT then transport_attr client cst buf q sar
  else if attr_type =? STUN_ATTRIBUTE_DONT_FRAGMENT then
    if dont_fragment server =? 0 then aq_unknown q true attr_type
    else Ret (AllocReq (aq_transport q) (aq_lifetime q) (aq_even_port q) true (aq_token q) (aq_af4 q) (aq_af6 q)
                (aq_username q) (aq_bps q) (aq_tcp q) (aq_mobile q) (aq_reply q))
  else if attr_type =? STUN_ATTRIBUTE_LIFETIME then lifetime_attr buf q sar
  else if attr_type =? STUN_ATTRIBUTE_EVEN_PORT then even_port_attr buf q sar
  else if attr_type =? STUN_ATTRIBUTE_RESERVATION_TOKEN then token_attr buf q sar
  else if (attr_type =? STUN_ATTRIBUTE_ADDITIONAL_ADDRESS_FAMILY) || (attr_type =? STUN_ATTRIBUTE_REQUESTED_ADDRESS_FAMILY) then
    family_attr buf q sar attr_type
  else if comprehension_required attr_type then aq_unknown q false attr_type
  else Ret q.

(** [pxor_relayed_addr1] and [pxor_relayed_addr2]: the addresses to tell the
    client. *)
Definition xor_relayed_addrs (w : world) : outcome (option ioa_addr * option ioa_addr * world) :=
  let a := lf_alloc w.1 in
  s4 ← get_relay_socket a AF_INET;
  '(r1, n) ← get_local_addr_from_ioa_socket (sh_net w.2) s4;
  s6 ← get_relay_socket a AF_INET6;
  '(r2, n) ← get_local_addr_from_ioa_socket n s6;
  f4 ← get_relay_session_failure a AF_INET;
  f6 ← get_relay_session_failure a AF_INET6;
  let public r := match external_ip cfg with Some x => set_port x (get_port r) | None => r end in
  let choose f (r : option ioa_addr) := if truthy f then Some addr_zero else public <$> r in
  Ret (choose f4 r1, choose f6 r2, set_net w n).

(** The answer to an Allocate request on an allocation that exists. *)
Definition allocate_again (w : world) (tid nbh rnd : list Z) (r : reply) : outcome (reply * world) :=
  '(x1, x2, w) ← xor_relayed_addrs w;
  match x1, x2 with
  | None, None => Ret (r, w)
  | _, _ =>
      let x := default addr_zero (match x1 with Some x => Some x | None => x2 end) in
      rs ← get_relay_session (lf_alloc w.1) (sa_family x);
      let lifetime := u32 (rs_expiration_time rs - ctime server) in
      refl ← get_remote_addr_from_ioa_socket (rn_socks (sh_net w.2)) (client_socket (lf_ss w.1));
      '(_, m) ← stun_set_allocate_response_str (addr_maps server) nbh (Some tid) x1 x2 refl lifetime
                  (max_allocate_lifetime server) 0 None 0 (Some (s_mobile_id w.1)) rnd;
      Ret (Reply (err_code r) (reason r) (unknown_attrs r) (Some m), w)
  end.

(** The bandwidth of the session: the reply and the state. *)
Definition grant_bps (w : world) (bps : Z) (r : reply) : reply * world :=
  let max := max_bps w.1 in
  let bps := if truthy max && ((bps =? 0) || (bps >? max)) then max else bps in
  if truthy bps && (ss_bps w.1 =? 0) then
    let '(got, q) := allocate_bps_func (sh_quotas w.2) bps true in
    let w := set_quotas (set_life w (life_bps w.1 got)) q in
    (if got =? 0 then fail_with r 486 "Allocation Bandwidth Quota Reached" else r, w)
  else (r, w).

Definition mark_failure (w : world) (family : Z) : world := set_alloc w (set_relay_session_failure (lf_alloc w.1) family).

(** One family: the connection and the failure mark; the default error is
    [dflt]. *)
Definition allocate_family (w : world) (lifetime af transport even_port in_token token mark dflt err : Z) (reason : string) :
    outcome (world * Z * Z * string) :=
  '(x, w, token, err, reason) ← create_relay_connection w lifetime af transport even_port in_token token err reason;
  if x <? 0 then Ret (mark_failure w mark, token, if err =? 0 then dflt else err, reason)
  else Ret (w, token, err, reason).

(** The relay connections: the reply, [err_code4], [err_code6], the token. *)
Definition allocate_families (w : world) (q : alloc_req) (lifetime : Z) (r : reply) :
    outcome (reply * Z * Z * Z * world) :=
  let tr := aq_transport q in
  let ep := aq_even_port q in
  let it := aq_token q in
  let af4 := truthy (aq_af4 q) in
  let af6 := truthy (aq_af6 q) in
  let one w af mark :=
    '(w, token, err, text) ← allocate_family w lifetime af tr ep it 0 mark 437 (err_code r) (reason r);
    Ret (fail_with r err text, 0, 0, token, w) in
  if negb af4 && negb af6 then
    f ← (if keep_address_family cfg then
           get_ioa_socket_address_family (rn_socks (sh_net w.2)) (client_socket (lf_ss w.1))
         else Ret 0);
    one w (if f =? AF_INET6 then STUN_ATTRIBUTE_REQUESTED_ADDRESS_FAMILY_VALUE_IPV6
           else if f =? AF_INET then STUN_ATTRIBUTE_REQUESTED_ADDRESS_FAMILY_VALUE_IPV4
           else STUN_ATTRIBUTE_REQUESTED_ADDRESS_FAMILY_VALUE_DEFAULT) AF_INET
  else if negb af4 then one w STUN_ATTRIBUTE_REQUESTED_ADDRESS_FAMILY_VALUE_IPV6 AF_INET6
  else if negb af6 then one w STUN_ATTRIBUTE_REQUESTED_ADDRESS_FAMILY_VALUE_IPV4 AF_INET
  else
    '(w, token, err4, reason4) ← allocate_family w lifetime STUN_ATTRIBUTE_REQUESTED_ADDRESS_FAMILY_VALUE_IPV4 tr ep it 0
                                    AF_INET 440 0 ""%string;
    '(w, token, err6, reason6) ← allocate_family w lifetime STUN_ATTRIBUTE_REQUESTED_ADDRESS_FAMILY_VALUE_IPV6 tr ep it token
                                    AF_INET6 440 0 ""%string;
    let r := if truthy err4 && truthy err6 then
               match reason4, reason6 with
               | EmptyString, EmptyString => fail_with r err4 (reason r)
               | EmptyString, _ => fail_with r err6 reason6
               | _, _ => fail_with r err4 reason4
               end
             else r in
    Ret (r, err4, err6, token, w).

Definition set_tid (a : allocation) (tid : list Z) : allocation :=
  Allocation (is_valid a) tid (addr_to_perm a) (relay_sessions a) (relay_sessions_failure a) (a_chns a) (a_owner a) (a_timers a).

(** The success response of a new allocation. *)
Definition allocate_done (w : world) (tid nbh rnd : list Z) (lifetime token : Z) (r : reply) : outcome (reply * world) :=
  let w := set_alloc w (set_tid (set_allocation_valid (lf_alloc w.1) 1) tid) in
  '(x1, x2, w) ← xor_relayed_addrs w;
  match x1, x2 with
  | None, None => Ret (r, w)
  | _, _ =>
      refl ← get_remote_addr_from_ioa_socket (rn_socks (sh_net w.2)) (client_socket (lf_ss w.1));
      '(_, m) ← stun_set_allocate_response_str (addr_maps server) nbh (Some tid) x1 x2 refl lifetime
                  (max_allocate_lifetime server) 0 None token (Some (s_mobile_id w.1)) rnd;
      m ← (if truthy (ss_bps w.1) then '(_, m) ← stun_attr_add_bandwidth_str m (ss_bps w.1); Ret m else Ret m);
      Ret (Reply (err_code r) (reason r) (unknown_attrs r) (Some m), w)
  end.

(** The part after the attributes, when they are acceptable: the reply,
    [err_code4] and [err_code6]. *)
Definition allocate_new (w : world) (q : alloc_req) (tid nbh rnd : list Z) : outcome (reply * Z * Z * world) :=
  let r := aq_reply q in
  w ← (if ac_mobility cfg && negb (is_mobile (lf_ss w.1)) then delete_session_from_mobile_map w else Ret w);
  let lifetime := stun_adjust_allocate_lifetime (aq_lifetime q) (max_allocate_lifetime server) (max_session_time_auth w.1) in
  '(x, w) ← inc_quota w (aq_username q);
  if x <? 0 then Ret (fail_with r 486 (reason r), 0, 0, w) else
  let '(r, w) := grant_bps w (aq_bps q) r in
  let dual := truthy (aq_af4 q) && truthy (aq_af6 q) in
  let r := if dual && bool_decide (is_Some (external_ip cfg)) then
             fail_with r 440 "Dual allocation cannot be supported in the current server configuration" else r in
  let r := if dual && (0 <? aq_even_port q) then
             fail_with r 440 "Dual allocation cannot be supported with even-port functionality" else r in
  '(r, err4, err6, token, w) ← (if err_code r =? 0 then allocate_families w q lifetime r else Ret (r, 0, 0, 0, w));
  if truthy (err_code r) then
    Ret (match reason r with
         | EmptyString => fail_with r (err_code r) "Cannot create relay endpoint(s)"
         | _ => r
         end, err4, err6, w)
  else
    '(r, w) ← allocate_done w tid nbh rnd lifetime token r;
    Ret (r, err4, err6, w).

(** The attributes and the checks on them. *)
Definition allocate_request (w : world) (tid buf : list Z) (len : Z) (nbh rnd : list Z) : outcome (reply * Z * Z * world) :=
  let client := client_socket (lf_ss w.1) in
  cst ← get_ioa_socket_type (rn_socks (sh_net w.2)) client;
  q ← attr_scan buf len (fun q => scan_goes_on (aq_reply q)) (alloc_attr client cst buf)
        (AllocReq 0 0 (-1) false 0 0 0 [] 0 (is_tcp_relay (lf_ss w.1)) (is_mobile (lf_ss w.1)) no_reply);
  let w := set_life w (life_ss w.1 (ss_flags (lf_ss w.1) (aq_tcp q) (aq_mobile q))) in
  let r := aq_reply q in
  let done r := Ret (r, 0, 0, w) in
  if aq_transport q =? 0 then
    done (fail_with r 400 (match reason r with EmptyString => "Transport field missed or wrong"%string | s => s end))
  else if 0 <? blen (unknown_attrs r) then done (fail_with r 420 (reason r))
  else if truthy (err_code r) then done r
  else if (aq_transport q =? STUN_ATTRIBUTE_TRANSPORT_TCP_VALUE) &&
          (aq_dont_fragment q || truthy (aq_token q) || negb (aq_even_port q =? -1)) then
    done (fail_with r 400 (match reason r with
                           | EmptyString => "Request parameters are incompatible with TCP transport"%string
                           | s => s
                           end))
  else allocate_new w q tid nbh rnd.

(** [ioa_network_buffer_get_size] answers the length of the response less that
    of the cluster header. *)
Definition add_address_error (r : reply) (family err : Z) : outcome reply :=
  match resp r with
  | Some m =>
      if truthy err then
        '(_, m) ← stun_attr_add_address_error_code (MBuf (mdata m) (u64 (mlen m - STUN_CUSTOM_HEADER_LEN))) family err;
        Ret (Reply (err_code r) (reason r) (unknown_attrs r) (Some m))
      else Ret r
  | None => Ret r
  end.

Definition handle_turn_allocate (w : world) (tid buf : list Z) (len : Z) (nbh rnd : list Z) : outcome (reply * world) :=
  '(r, err4, err6, w) ←
    (if truthy (is_allocation_valid (lf_alloc w.1)) then
       '(r, w) ← allocate_again w tid nbh rnd no_reply; Ret (r, 0, 0, w)
     else allocate_request w tid buf len nbh rnd);
  match resp r with
  | None =>
      let code := if err_code r =? 0 then 437 else err_code r in
      '(_, m) ← stun_set_allocate_response_str (addr_maps server) nbh (Some tid) None None None 0 (max_allocate_lifetime server)
                  code (reason_arg r) 0 (Some (s_mobile_id w.1)) rnd;
      Ret (Reply code (reason r) (unknown_attrs r) (Some m), w)
  | Some _ =>
      if err_code r =? 0 then
        r ← add_address_error r STUN_ATTRIBUTE_REQUESTED_ADDRESS_FAMILY_VALUE_IPV4 err4;
        r ← add_address_error r STUN_ATTRIBUTE_REQUESTED_ADDRESS_FAMILY_VALUE_IPV6 err6;
        Ret (r, w)
      else Ret (r, w)
  end.

(** ** Refresh *)

(** [af4c] and [af6c]: the families that have an open relay socket. *)
Definition open_families (w : world) : outcome (bool * bool * world) :=
  let a := lf_alloc w.1 in
  let look i (n : relay_net K U) :=
    r ← at_index (relay_sessions a) i;
    if rs_s r =? 0 then Ret (None, n) else
    '(c, n) ← closing n (rs_s r);
    if (c : bool) then Ret (None, n)
    else f ← get_ioa_socket_address_family (rn_socks n) (rs_s r); Ret (Some f, n) in
  '(f0, n) ← look 0%nat (sh_net w.2);
  '(f1, n) ← look 1%nat n;
  let has f := bool_decide (f0 = Some f \/ f1 = Some f) in
  Ret (has AF_INET, has AF_INET6, set_net w n).

(** The local variables; [rf_mid] is [mid], [rf_smid] the ticket. *)
Record refresh_req : Type := RefreshReq {
  rf_lifetime : Z;
  rf_delete : bool;
  rf_mid : Z;
  rf_smid : list Z;
  rf_af4 : bool;
  rf_af6 : bool;
  rf_reply : reply }.

Definition rf_fail (q : refresh_req) (code : Z) (text : string) : refresh_req :=
  RefreshReq (rf_lifetime q) (rf_delete q) (rf_mid q) (rf_smid q) (rf_af4 q) (rf_af6 q) (fail_with (rf_reply q) code text).

Context (string_to_mobile_id : list Z -> Z).

(** A ticket is copied over the one before it. *)
Definition ticket_attr (l : life) (buf : list Z) (q : refresh_req) (sar : Z) : outcome refresh_req :=
  if negb (ac_mobility cfg) then Ret (rf_fail q 405 "Mobility forbidden")
  else
    smid_len ← stun_attr_get_len buf (Some sar);
    if (0 <? smid_len) && (smid_len <? 33) then
      v ← stun_attr_get_value buf (Some sar);
      match v with
      | None => Ret q
      | Some v =>
          bs ← rd_bytes buf v smid_len;
          let smid := splice (rf_smid q) 0 bs in
          let mid := string_to_mobile_id (cstr smid) in
          let q := RefreshReq (rf_lifetime q) (rf_delete q) mid smid (rf_af4 q) (rf_af6 q) (rf_reply q) in
          if truthy (is_allocation_valid (lf_alloc l)) && negb (mid =? old_mobile_id l) then
            Ret (rf_fail q 400 "Mobility ticket cannot be used for a stable, already established allocation")
          else Ret q
      end
    else Ret (rf_fail q 400 "Mobility ticket has wrong length").

Definition refresh_attr (l : life) (af4c af6c : bool) (buf : list Z) (q : refresh_req) (sar : Z) : outcome refresh_req :=
  attr_type ← stun_attr_get_type buf (Some sar);
  if SKIP_ATTRIBUTES attr_type then Ret q
  else if attr_type =? STUN_ATTRIBUTE_MOBILITY_TICKET then ticket_attr l buf q sar
  else if attr_type =? STUN_ATTRIBUTE_LIFETIME then
    len ← stun_attr_get_len buf (Some sar);
    if negb (len =? 4) then Ret (rf_fail q 400 "Wrong Lifetime field format")
    else
      v ← stun_attr_get_value buf (Some sar);
      match v with
      | None => Ret (rf_fail q 400 "Wrong lifetime field data")
      | Some v =>
          lt ← rd32 buf v;
          Ret (RefreshReq lt ((lt =? 0) || rf_delete q) (rf_mid q) (rf_smid q) (rf_af4 q) (rf_af6 q) (rf_reply q))
      end
  else if (attr_type =? STUN_ATTRIBUTE_ADDITIONAL_ADDRESS_FAMILY) || (attr_type =? STUN_ATTRIBUTE_REQUESTED_ADDRESS_FAMILY) then
    af_req ← stun_get_requested_address_family buf (Some sar);
    let set4 := RefreshReq (rf_lifetime q) (rf_delete q) (rf_mid q) (rf_smid q) true (rf_af6 q) (rf_reply q) in
    let set6 := RefreshReq (rf_lifetime q) (rf_delete q) (rf_mid q) (rf_smid q) (rf_af4 q) true (rf_reply q) in
    if (af_req =? STUN_ATTRIBUTE_REQUESTED_ADDRESS_FAMILY_VALUE_IPV4) && af4c then Ret set4
    else if (af_req =? STUN_ATTRIBUTE_REQUESTED_ADDRESS_FAMILY_VALUE_IPV6) && af6c then Ret set6
    else Ret (rf_fail q 443 "Peer Address Family Mismatch (1)")
  else if comprehension_required attr_type then
    r ← add_unknown (rf_reply q) attr_type;
    Ret (RefreshReq (rf_lifetime q) (rf_delete q) (rf_mid q) (rf_smid q) (rf_af4 q) (rf_af6 q) r)
  else Ret q.

(** The families in turn; a failure of the first ends it. *)
Definition refresh_families (a : allocation) (af4 af6 : bool) (lifetime : Z) (r : reply) : outcome (reply * allocation) :=
  let fail := if err_code r =? 0 then fail_with r 437 "Cannot refresh relay connection (internal error)" else r in
  '(x, a) ← (if af4 then refresh_relay_connection a lifetime AF_INET else Ret (0, a));
  if x <? 0 then Ret (fail, a) else
  '(x, a) ← (if af6 then refresh_relay_connection a lifetime AF_INET6 else Ret (0, a));
  if x <? 0 then Ret (fail, a) else Ret (r, a).

Definition refresh_response (l : life) (lifetime : Z) (tid nbh rnd : list Z) : outcome mbuf :=
  m ← stun_init_success_response_str STUN_METHOD_REFRESH nbh (Some tid) rnd;
  m ← (match s_mobile_id l with
       | [] => Ret m
       | id => '(_, m) ← stun_attr_add_str m STUN_ATTRIBUTE_MOBILITY_TICKET (Some id) (strlen id); Ret m
       end);
  '(_, m) ← stun_attr_add_str m STUN_ATTRIBUTE_LIFETIME (Some (to_be 4 lifetime)) 4;
  Ret m.

(** [transfer] is the branch that gives the session of a mobility ticket the
    socket of this one: the ticket, [to_delete], the lifetime, the families, the
    reply so far; it may ask for no response. *)
Context (transfer : world -> refresh_req -> bool -> bool -> outcome (reply * bool * world)).

(** The reply, [*no_response] and the state.  The error response at the end of
    the function is never made: the pointer [no_response] is not NULL. *)
Definition handle_turn_refresh (w : world) (tid buf : list Z) (len : Z) (nbh rnd : list Z) :
    outcome (reply * bool * world) :=
  '(af4c, af6c, w) ← open_families w;
  let valid := truthy (is_allocation_valid (lf_alloc w.1)) in
  if negb valid && negb (ac_mobility cfg) then Ret (fail_with no_reply 437 "Invalid allocation", false, w)
  else
    q ← attr_scan buf len (fun q => scan_goes_on (rf_reply q)) (refresh_attr w.1 af4c af6c buf)
          (RefreshReq 0 false 0 (zeros 33) false false no_reply);
    let r := rf_reply q in
    if 0 <? blen (unknown_attrs r) then Ret (fail_with r 420 (reason r), false, w)
    else if truthy (err_code r) then Ret (r, false, w)
    else if negb valid then
      if truthy (rf_mid q) && negb (bool_decide (cstr (rf_smid q) = [])) then transfer w q af4c af6c
      else Ret (fail_with r 437 "Invalid allocation", false, w)
    else
      let lifetime := if rf_delete q then 0
                      else stun_adjust_allocate_lifetime (rf_lifetime q) (max_allocate_lifetime server) (max_session_time_auth w.1) in
      let both := negb (rf_af4 q) && negb (rf_af6 q) in
      '(r, a) ← refresh_families (lf_alloc w.1) (rf_af4 q || both && af4c) (rf_af6 q || both && af6c) lifetime r;
      let w := set_alloc w a in
      if truthy (err_code r) then Ret (r, false, w)
      else
        m ← refresh_response w.1 lifetime tid nbh rnd;
        Ret (Reply (err_code r) (reason r) (unknown_attrs r) (Some m), false, w).

(** ** The end of a session *)

(** The session goes on, or its memory was freed; then the timers that still
    refer to it are listed. *)
Inductive after : Type :=
| Alive (w : world)
| Gone (sh : shared K U Q S) (left : list timer).

Fixpoint close_relays (w : world) (i n : nat) : outcome world :=
  match n with
  | O => Ret w
  | Datatypes.S n =>
      r ← at_index (relay_sessions (lf_alloc w.1)) i;
      net ← IOA_CLOSE_SOCKET (sh_net w.2) (rs_s r);
      close_relays (set_alloc (set_net w net)
        (set_session_at (lf_alloc w.1) i (RelaySession 0 (rs_expiration_time r) (rs_lifetime_ev r)))) (Datatypes.S i) n
  end.

Definition close_client (w : world) : outcome world :=
  n ← IOA_CLOSE_SOCKET (sh_net w.2) (client_socket (lf_ss w.1));
  Ret (set_life (set_net w n) (life_ss w.1 (ss_client (lf_ss w.1) 0))).

(** The sockets are NULL by then. *)
Definition delete_ur_map_ss (w : world) : outcome after :=
  w ← delete_session_from_map w;
  w ← close_client w;
  w ← close_relays w 0 2;
  a ← clear_allocation (lf_alloc w.1);
  let w := set_life w (life_watchdog (life_alloc w.1 a) false) in
  Ret (Gone w.2 (a_timers (lf_alloc w.1))).

Definition turn_server_remove_all_from_ur_map_ss (w : world) : outcome after :=
  n ← clear_ioa_socket_session_if (sh_net w.2) (client_socket (lf_ss w.1)) (ss_ptr w.1);
  s4 ← get_relay_socket (lf_alloc w.1) AF_INET;
  n ← clear_ioa_socket_session_if n s4 (ss_ptr w.1);
  s6 ← get_relay_socket (lf_alloc w.1) AF_INET6;
  n ← clear_ioa_socket_session_if n s6 (ss_ptr w.1);
  delete_ur_map_ss (set_net w n).

Definition shutdown_client_connection (w : world) (force : bool) : outcome after :=
  w ← dec_quota w;
  let w := dec_bps w in
  let force := force || negb (truthy (is_allocation_valid (lf_alloc w.1))) in
  if negb force && is_mobile (lf_ss w.1) then w ← close_client w; Ret (Alive w)
  else
    w ← close_client w;
    w ← close_relays w 0 2;
    turn_server_remove_all_from_ur_map_ss w.

(** ** Timers *)
Definition client_to_be_allocated_timeout_handler (w : world) : outcome after :=
  let l := w.1 in
  let s := client_socket (lf_ss l) in
  let a := lf_alloc l in
  '(c, n) ← closing (sh_net w.2) s;
  let w := set_net w n in
  '(to_close, w) ←
    (if (s =? 0) || c then Ret (true, w)
     else
       k ← get_sock (rn_socks n) s;
       if sat k =? HTTPS_CLIENT_SOCKET then Ret (false, w)
       else
         r4 ← at_index (relay_sessions a) 0%nat;
         r6 ← at_index (relay_sessions a) 1%nat;
         '(c4, n) ← (if rs_s r4 =? 0 then Ret (true, n) else closing n (rs_s r4));
         '(c6, n) ← (if c4 then (if rs_s r6 =? 0 then Ret (true, n) else closing n (rs_s r6)) else Ret (false, n));
         Ret ((c4 && c6) || ((rs_lifetime_ev r4 =? 0) && (rs_lifetime_ev r6 =? 0)) || negb (to_be_allocated_timeout_ev l),
              set_net w n));
  if (to_close : bool) then shutdown_client_connection (set_life w (life_watchdog w.1 false)) true
  else Ret (Alive w).

(** The datagram that tells the proxy the relay address is no longer in use.
    The bytes of the source address are not set; the size of the buffer stays
    what it was when it was allocated. *)
Definition notify_release_relay_session (w : world) : outcome (world * list wire) :=
  r ← at_index (relay_sessions (lf_alloc w.1)) 0%nat;
  k ← get_sock (rn_socks (sh_net w.2)) (rs_s r);
  let nbh := ioa_network_buffer_allocate in
  h ← rd_header nbh;
  nbh ← wr_header nbh (CustomHeader STUN_CUSTOM_RELEASE_IDENTIFIER (srcIp h) (srcPort h) (sin_addr (local_addr k)) (sin_port (local_addr k)));
  '(_, socks, out) ← write_client_connection e (lf_ss w.1) (rn_socks (sh_net w.2)) nbh TTL_IGNORE TOS_IGNORE;
  Ret (set_net w (net_socks (sh_net w.2) socks), out).

(** [set_allocation_family_invalid] with the socket it closes. *)
Definition invalidate_family (w : world) (family : Z) : outcome world :=
  r ← get_relay_session (lf_alloc w.1) family;
  if rs_s r =? 0 then Ret w else
  n ← clear_ioa_socket_session_if (sh_net w.2) (rs_s r) (ss_ptr w.1);
  n ← IOA_CLOSE_SOCKET n (rs_s r);
  a ← set_allocation_family_invalid (lf_alloc w.1) family;
  Ret (set_alloc (set_net w n) a).

(** [arg] is relay session [i]; its socket belongs to the session in whose
    structure it lies. *)
Definition client_ss_allocation_timeout_handler (w : world) (i : nat) : outcome (after * list wire) :=
  rsession ← at_index (relay_sessions (lf_alloc w.1)) i;
  if rs_s rsession =? 0 then Ret (Alive w, []) else
  k ← get_sock (rn_socks (sh_net w.2)) (rs_s rsession);
  if s_session k =? 0 then Ret (Alive w, []) else
  if negb (s_session k =? ss_ptr w.1) then UB else
  '(w, out) ← notify_release_relay_session w;
  family ← get_ioa_socket_address_family (rn_socks (sh_net w.2)) (rs_s rsession);
  w ← invalidate_family w family;
  s4 ← get_relay_socket (lf_alloc w.1) AF_INET;
  s6 ← get_relay_socket (lf_alloc w.1) AF_INET6;
  if (s4 =? 0) && (s6 =? 0) then x ← shutdown_client_connection w false; Ret (x, out)
  else Ret (Alive w, out).
End allocate.
