(* ===== verification/AllocateFacts.v ===== *)
(** What the handlers of Allocate and Refresh and the end of a session
    guarantee. *)

From stdpp Require Import base option numbers list sets strings gmap.
From S2P Require Import Prelude IoAddr StunAddr StunDefs StunMsg StunMsgFacts StunAuth StunBuild StunBuildFacts KeyMap TurnMaps TurnMapsFacts.
From S2P Require Import TurnPorts TurnPortsFacts SlotTable Timers Allocation AllocationFacts NetBuffer Sockets RelayEngine RelayEngineFacts.
From S2P Require Import TurnServer TurnServerFacts DataPath DataPathFacts ServerAuth ServerAuthFacts Allocate.

(** * Timers of relay sessions *)
Section timers.
Context {M : Malloc} {ML : MallocLaws}.

(** The new timer is set before the one it replaces is deleted. *)
Lemma timers_replace f l now secs cb h0 e0 e :
  timers_inv f l -> f cb = Some (h0, e0) -> 0 < secs -> e <= now + secs ->
  exists h ts l', set_ioa_timer l now secs cb = (h, ts) /\ IOA_EVENT_DEL ts h0 = Ret l' /\ 0 < h /\
    timers_inv (upd_armed f cb (Some (h, e))) l' /\ Timer h (now + secs) cb ∈ l' /\
    (h0 = 0 -> l' = Timer h (now + secs) cb :: l) /\ (forall t, t ∈ l -> t_cb t <> cb -> t ∈ l').
Proof.
  intros I F Hs He. unfold set_ioa_timer. destruct (secs >? 0) eqn:Es; bool_arith; [|lia].
  set (h := malloc _). pose proof (malloc_pos (t_handle <$> l)) as Hp. pose proof (malloc_fresh (t_handle <$> l)) as Hf.
  fold h in Hp, Hf. destruct (timers_del f l cb h0 e0 I F) as (l1 & E1 & I1 & Sub).
  exists h, (Timer h (now + secs) cb :: l), (Timer h (now + secs) cb :: l1). 
  assert (timers_inv (upd_armed f cb (Some (h, e))) (Timer h (now + secs) cb :: l1)) as I2.
  { eapply timers_inv_proper; [|reflexivity|apply (timers_cons _ l1 h (now + secs) cb e I1)]; [|..|done| |done].
    - intros c h' e' NZ. unfold upd_armed. by destruct (decide (c = cb)).
    - intros h' e'. unfold upd_armed. by destruct (decide (cb = cb)).
    - intros (t & -> & Ht)%list_elem_of_fmap. apply Hf, list_elem_of_fmap. exists t. split; [done|]. by apply Sub. }
  split; [done|]. split; [|split; [done|split; [done|split; [left|split]]]].
  - unfold IOA_EVENT_DEL, delete_ioa_timer in *. destruct (truthy h0) eqn:T0; [|by injection E1 as ->].
    destruct (bool_decide (h0 ∈ t_handle <$> l)) eqn:B; [|done]. injection E1 as <-. apply bool_decide_eq_true in B.
    rewrite bool_decide_true by (rewrite fmap_cons; by right). rewrite filter_cons_True; [done|]. simpl. intros ->. done.
  - intros ->. by injection E1 as ->.
  - intros [h' d' c] Ht Nc. simpl in Nc. destruct (ti_needed _ _ I _ _ _ Ht) as (e' & Fc & _).
    pose proof (ti_pos _ _ I _ Ht) as Ph. simpl in Ph. destruct (ti_stored _ _ I2 c h' e') as (d'' & T2 & _); [|lia|].
    { unfold upd_armed. by destruct (decide (c = cb)). }
    pose proof T2 as [[= _ _ ->]|T3]%elem_of_cons; [done|]. apply Sub in T3.
    by destruct (timer_unique l h' d' d'' c c (ti_unique _ _ I) Ht T3) as [-> _].
Qed.

(** A relay session that gets a timer and an expiration time. *)
Lemma arm_session a i r now secs e :
  alloc_ok a -> relay_sessions a !! i = Some r -> 0 < secs -> e <= now + secs ->
  exists h ts l', set_ioa_timer (a_timers a) now secs (AllocTimeout i) = (h, ts) /\
    IOA_EVENT_DEL ts (rs_lifetime_ev r) = Ret l' /\ 0 < h /\ Timer h (now + secs) (AllocTimeout i) ∈ l' /\
    alloc_ok (set_session_at (with_timers a l') i (RelaySession (rs_s r) e h)) /\
    (rs_lifetime_ev r = 0 -> l' = Timer h (now + secs) (AllocTimeout i) :: a_timers a) /\
    (forall t, t ∈ a_timers a -> t_cb t <> AllocTimeout i -> t ∈ l').
Proof.
  intros [I T] Er Hs He.
  destruct (timers_replace (alloc_armed a) (a_timers a) now secs (AllocTimeout i) (rs_lifetime_ev r) (rs_expiration_time r) e T)
    as (h & ts & l' & E1 & E2 & Hp & T' & In & Hl); [by simpl; rewrite Er|done..|].
  exists h, ts, l'. do 4 (split; [done|]). split; [split|done].
  - apply (alloc_inv_same a); [done|done| |done]. simpl. rewrite length_insert. apply I.
  - unfold timers_ok. eapply timers_inv_proper; [|reflexivity|exact T']. intros cb h' e' NZ. unfold upd_armed.
    destruct (decide (cb = AllocTimeout i)) as [->|Nc]; simpl.
    + rewrite list_lookup_insert_eq by (eapply lookup_lt_Some; exact Er). done.
    + destruct cb as [P|C|j]; [done|done|]. simpl. rewrite list_lookup_insert_ne by congruence. done.
Qed.

(** Arming the session of a family. *)
Lemma arm_spec a f r now secs e :
  alloc_ok a -> relay_sessions a !! ALLOC_INDEX f = Some r -> 0 < secs -> e <= now + secs ->
  exists h ts l', set_ioa_timer (a_timers a) now secs (AllocTimeout (ALLOC_INDEX f)) = (h, ts) /\
    set_allocation_lifetime_ev (with_timers a ts) e h f =
      Ret (set_session_at (with_timers a l') (ALLOC_INDEX f) (RelaySession (rs_s r) e h)) /\ 0 < h /\
    Timer h (now + secs) (AllocTimeout (ALLOC_INDEX f)) ∈ l' /\
    alloc_ok (set_session_at (with_timers a l') (ALLOC_INDEX f) (RelaySession (rs_s r) e h)) /\
    (rs_lifetime_ev r = 0 -> l' = Timer h (now + secs) (AllocTimeout (ALLOC_INDEX f)) :: a_timers a) /\
    (forall t, t ∈ a_timers a -> t_cb t <> AllocTimeout (ALLOC_INDEX f) -> t ∈ l').
Proof.
  intros Ok Er Hs He. destruct (arm_session a _ r now secs e Ok Er Hs He) as (h & ts & l' & E1 & E2 & Hp & In & Ok').
  exists h, ts, l'. split; [done|]. split; [|done]. unfold set_allocation_lifetime_ev, event_del. cbn [relay_sessions with_timers a_timers].
  rewrite (at_index_ret _ _ _ Er). mstep. rewrite E2. mstep. done.
Qed.

(** A session without a timer may be replaced by another one. *)
Lemma swap_idle a i r r' :
  alloc_ok a -> relay_sessions a !! i = Some r -> rs_lifetime_ev r = 0 -> rs_lifetime_ev r' = 0 ->
  alloc_ok (set_session_at a i r').
Proof.
  intros Ok Er Z1 Z2. destruct (session_step a i r r' Ok Er Z2) as (l & El & Ok'). rewrite Z1 in El. injection El as <-. exact Ok'.
Qed.
End timers.

(** * Sessions in order *)
Definition is_open (e : engine) (k : ioa_socket) : Prop := ioa_socket_tobeclosed e k = (false, k).

Definition family_of_index (i : nat) : Z := match i with O => AF_INET | _ => AF_INET6 end.

(** A socket that serves relay session [i] of the session at [ptr]. *)
Record relay_of (e : engine) (ptr : Z) (i : nat) (k : ioa_socket) : Prop := RelayOf {
  ro_open : is_open e k;
  ro_app : sat k = RELAY_SOCKET;
  ro_parent : parent_s k = 0;
  ro_bound : Sockets.bound k = true /\ local_addr_known k = true /\ s_e k = true;
  ro_session : s_session k = ptr;
  ro_family : s_family k = family_of_index i /\ sa_family (local_addr k) = family_of_index i /\
    addr_wf (local_addr k) }.

Definition idle (r : relay_endpoint_session) : Prop := rs_s r = 0 /\ rs_lifetime_ev r = 0.

Definition connected_session (e : engine) (ptr : Z) (m : sockets) (i : nat) (r : relay_endpoint_session) : Prop :=
  rs_lifetime_ev r <> 0 /\ 0 < rs_s r /\ exists k, m !! rs_s r = Some k /\ relay_of e ptr i k.

Record client_ok (e : engine) (m : sockets) (s : Z) : Prop := ClientOk {
  cl_sock : exists k, m !! s = Some k /\ is_open e k /\ sat k <> RELAY_SOCKET /\ sat k <> RELAY_RTCP_SOCKET /\
    (connected k = true -> addr_ok (remote_addr k)) /\
    (parent_s k = 0 \/ exists p, m !! parent_s k = Some p /\ sat p <> RELAY_SOCKET);
  cl_pos : 0 < s }.

(** Sockets that are not relay sockets are as before. *)
Definition keeps_clients (m m' : sockets) : Prop := forall s k, m !! s = Some k -> sat k <> RELAY_SOCKET -> m' !! s = Some k.

Lemma client_ok_kept e m m' s : keeps_clients m m' -> client_ok e m s -> client_ok e m' s.
Proof.
  intros H [(k & E & O & A1 & A2 & C & P) Hs]. constructor; [|done]. exists k. split; [by apply H|]. do 4 (split; [done|]).
  destruct P as [P|(p & Ep & Ap)]; [by left|right]. exists p. split; [by apply H|done].
Qed.

Lemma keeps_insert (m : sockets) s k : m !! s = None -> keeps_clients m (<[s := k]> m).
Proof. intros N x y E _. rewrite lookup_insert_ne by congruence. done. Qed.

Section alloc_facts.
Context {K U Q S : Type} {KN : Kernel K} {UM : UrMap U} {M : Malloc} {ML : MallocLaws} {QT : Quotas Q} {SM : KVStore Z Z S}.
Context (cfg : alloc_config) (server : turn_turnserver) (e : engine) (local_relay : Z -> option ioa_addr) (now : Z).
Abbreviation world := (life * shared K U Q S)%type.

Definition socks_of (w : world) : sockets := rn_socks (sh_net w.2).

Record alive (w : world) (N : Z) : Prop := AliveOk {
  al_alloc : alloc_ok (lf_alloc w.1);
  al_ptr : ss_alloc_ptr (lf_ss w.1) <> 0 /\ ss_ptr w.1 <> 0;
  al_net : net_ok (sh_net w.2) N;
  al_client : client_ok e (socks_of w) (client_socket (lf_ss w.1));
  al_failure : length (relay_sessions_failure (lf_alloc w.1)) = 2%nat;
  al_sessions : forall i r, relay_sessions (lf_alloc w.1) !! i = Some r ->
    idle r \/ connected_session e (ss_ptr w.1) (socks_of w) i r }.

(** The server's limits on lifetimes. *)
Record limits_ok : Prop := LimitsOk {
  lm_server : server_ok server;
  lm_max : 1 <= max_allocate_lifetime server < 2 ^ 31 }.

(** What the two states share when only relay session, sockets and ports may
    differ. *)
Record same_rest (w w' : world) : Prop := SameRest {
  sr_valid : is_valid (lf_alloc w'.1) = is_valid (lf_alloc w.1);
  sr_perms : addr_to_perm (lf_alloc w'.1) = addr_to_perm (lf_alloc w.1);
  sr_chns : a_chns (lf_alloc w'.1) = a_chns (lf_alloc w.1);
  sr_life : life_alloc w'.1 (init_allocation 0) = life_alloc w.1 (init_allocation 0);
  sr_quotas : sh_quotas w'.2 = sh_quotas w.2;
  sr_maps : sessions_map w'.2 = sessions_map w.2 /\ mobile_connections_map w'.2 = mobile_connections_map w.2;
  sr_rtcp : map_rtcp (sh_net w'.2) = map_rtcp (sh_net w.2);
  sr_relays : relay_addrs (sh_net w'.2) = relay_addrs (sh_net w.2);
  sr_clients : keeps_clients (socks_of w) (socks_of w') }.

Lemma put_same (n : relay_net K U) s k : rn_socks n !! s = Some k -> put_sock n s k = n.
Proof. intros E. unfold put_sock, net_socks. rewrite insert_id by done. by destruct n. Qed.

Lemma get_sock_some (m : sockets) s k : 0 < s -> m !! s = Some k -> get_sock m s = Ret k.
Proof. intros P E. unfold get_sock. destruct (s =? 0) eqn:?; [bool_arith; lia|]. by rewrite E. Qed.

Lemma closing_open (n : relay_net K U) s k : 0 < s -> rn_socks n !! s = Some k -> is_open e k -> closing e n s = Ret (false, n).
Proof.
  intros P E O. unfold closing. rewrite (get_sock_some _ s k P E). destruct (s =? 0) eqn:?; [bool_arith; lia|]. mstep.
  unfold is_open in O. rewrite O. by rewrite put_same.
Qed.

Lemma is_open_live k : is_open e k -> magic_ok k = true /\ done k = false /\ 0 <= fd k.
Proof.
  unfold is_open, ioa_socket_tobeclosed. intros O. destruct (magic_ok k); [|done]. destruct (done k); [done|]. simpl in O.
  destruct (tobeclosed k); [done|]. destruct (broken k); [done|]. destruct (fd k <? 0) eqn:E; bool_arith; [done|]. auto.
Qed.

Lemma address_family_open (m : sockets) s k : 0 < s -> m !! s = Some k -> is_open e k -> parent_s k = 0 ->
  get_ioa_socket_address_family m s = Ret (s_family k).
Proof.
  intros P E O Pa. destruct (is_open_live k O) as (M1 & D & _). unfold get_ioa_socket_address_family.
  rewrite (get_sock_some m s k P E). destruct (s =? 0) eqn:?; [bool_arith; lia|]. mstep. by rewrite M1, D, Pa.
Qed.

Lemma client_family (m : sockets) s : client_ok e m s -> exists f, get_ioa_socket_address_family m s = Ret f.
Proof.
  intros [(k & E & O & _ & _ & _ & Pa) P]. destruct (is_open_live k O) as (M1 & D & _). unfold get_ioa_socket_address_family.
  rewrite (get_sock_some m s k P E). destruct (s =? 0) eqn:?; [bool_arith; lia|]. mstep. rewrite M1, D. simpl.
  destruct Pa as [->|(p & Ep & _)]; [by eexists|]. destruct (_ && _) eqn:B; [|by eexists]. bool_arith.
  unfold get_sock. destruct (parent_s k =? 0) eqn:?; [bool_arith; lia|]. rewrite Ep. mstep. destruct (_ || _); by eexists.
Qed.

(** ** Creating a relay connection *)
Lemma set_net_same (w : world) : set_net w (sh_net w.2) = w.
Proof. by destruct w as [l []]. Qed.

Definition granted (lifetime : Z) : Z :=
  if lifetime <? 1 then STUN_DEFAULT_ALLOCATE_LIFETIME
  else if lifetime >? max_allocate_lifetime server then max_allocate_lifetime server else lifetime.

Lemma granted_range lifetime : limits_ok -> 0 < granted lifetime < 2 ^ 31.
Proof.
  intros [_ Hm]. unfold granted, STUN_DEFAULT_ALLOCATE_LIFETIME. destruct (lifetime <? 1) eqn:?; bool_arith; [lia|].
  destruct (lifetime >? _) eqn:?; bool_arith; lia.
Qed.

(** The family the session index is chosen by is that of the socket. *)
Definition families_agree (w : world) (af F : Z) : Prop :=
  get_family cfg (sh_net w.2) af (client_socket (lf_ss w.1)) = Ret F /\ (F = AF_INET \/ F = AF_INET6) /\
  forall a, chosen (default_relays cfg) (client_socket (lf_ss w.1)) (sh_net w.2) af a -> sa_family a = F.

Lemma families_agree_ipv4 w : families_agree w STUN_ATTRIBUTE_REQUESTED_ADDRESS_FAMILY_VALUE_IPV4 AF_INET.
Proof. split; [done|]. split; [by left|]. intros a (_ & H & _). by apply H. Qed.

Lemma families_agree_ipv6 w : families_agree w STUN_ATTRIBUTE_REQUESTED_ADDRESS_FAMILY_VALUE_IPV6 AF_INET6.
Proof. split; [done|]. split; [by right|]. intros a (_ & _ & H & _). by apply H. Qed.

(** A socket just made, when it has been given to the session. *)
Lemma relay_adopted tr a p k k' i ptr :
  relay_sock tr a p k -> sa_family a = family_of_index i -> addr_wf a ->
  (k' = set_session (set_reading k) ptr \/ k' = set_session k ptr \/ k' = set_session (set_reading (set_df k 1 true)) ptr \/
   k' = set_session (set_df k 1 true) ptr) ->
  relay_of e ptr i k' /\ local_addr k' = set_port a p /\ st k' = st k.
Proof.
  intros [(L1 & L2 & L3 & L4 & L5) A T Ad [B1 B2] F Fd (P1 & P2 & P3 & P4)] Hf Wa Hk.
  assert ((fd k <? 0) = false) as Fk by (apply Z.ltb_ge; lia).
  split; [|by destruct Hk as [->|[->|[->| ->]]]].
  destruct Hk as [->|[->|[->| ->]]]; (constructor; simpl;
    [unfold is_open, ioa_socket_tobeclosed; simpl; by rewrite L1, L2, L3, L4, Fk, P4|done..|
     rewrite Ad, set_port_family; split; [congruence|split; [done|by apply set_port_wf]]]).
Qed.

Definition client_of (w : world) : Z := client_socket (lf_ss w.1).

Lemma relay_socket_spec w N af tr tok text F r0 :
  alive w (N + TRIES * Z.of_nat (length (relay_addrs (sh_net w.2)))) -> 0 <= N -> af_ok af ->
  client_known (default_relays cfg) (client_of w) (socks_of w) -> families_agree w af F ->
  relay_sessions (lf_alloc w.1) !! ALLOC_INDEX F = Some r0 -> idle r0 -> reason_ok text = true ->
  exists x w' err text', relay_socket cfg e local_relay now w af tr (-1) 0 tok 0 text = Ret (x, ALLOC_INDEX F, 0, tok, w', err, text') /\
    reason_ok text' = true /\ exists n', net_ok n' N /\
    ((x = -1 /\ (err = 508 \/ err = 440) /\ net_same (sh_net w.2) n' /\
      w' = set_alloc (set_net w n') (set_session_at (lf_alloc w.1) (ALLOC_INDEX F) (RelaySession 0 0 0))) \/
     (x = 0 /\ err = 0 /\ text' = text /\
      exists s a p, chosen (default_relays cfg) (client_of w) (sh_net w.2) af a /\ net_made tr (sh_net w.2) n' s a p /\
        w' = set_alloc (set_net w n') (set_session_at (lf_alloc w.1) (ALLOC_INDEX F) (RelaySession s 0 0)))).
Proof.
  intros A HN Af Ck (Gf & Kf & Ag) Er [Is Iv] Rt. unfold relay_socket. fold (client_of w). change (truthy 0) with false. cbn iota.
  fold (client_of w) in Gf. rewrite Gf. mstep. rewrite (at_index_ret _ _ _ Er). mstep. rewrite Is, close_null. mstep.
  destruct (create_relay_spec tr (default_relays cfg) local_relay (client_of w) (-1) af now (sh_net w.2) tok text N)
    as (x & c & err & text' & -> & Hrc & Htok & Okc & Hre & Hx); [lia|done|apply A|done|done|]. mstep.
  destruct Hx as [(-> & Z0 & Sm)|(-> & -> & Nz & a & p & Ch & Md)].
  - change (-1 <? 0) with true. cbn iota. rewrite Z0, Hrc, close_null. mstep. rewrite close_null. mstep. rewrite Htok.
    eexists _, _, _, _. split; [done|]. split.
    { destruct Hre as [(_ & ->)|(_ & _ & ->)]; [by destruct text|done]. }
    exists (cr_net c). split; [done|]. left. split; [done|]. split; [|done]. destruct Hre as [(-> & _)|(-> & _)]; [by left|by right].
  - change (0 <? 0) with false. cbn iota. rewrite Hrc, Htok. destruct Hre as [(_ & ->)|(? & _)]; [|done].
    eexists _, _, _, _. split; [done|]. split; [done|]. exists (cr_net c). split; [done|]. right. do 3 (split; [done|]).
    exists (rtp_s c), a, p. done.
Qed.

(** The socket handed over: no fragmentation flag for IPv6, a reader for UDP. *)
Lemma adopt_spec (n n0 : relay_net K U) tr s a p i ptr client :
  net_made tr n0 n s a p -> sa_family a = family_of_index i -> addr_wf a -> client_ok e (rn_socks n) client ->
  exists n1 n2 k k',
    get_ioa_socket_address_family (rn_socks n) s = Ret (sa_family a) /\
    (exists fc, get_ioa_socket_address_family (rn_socks n) client = Ret fc /\
      (if (sa_family a =? AF_INET6) || (fc =? AF_INET6) then set_do_not_use_df n s else Ret n) = Ret n1) /\
    get_ioa_socket_type (rn_socks n1) s = Ret (st k) /\
    (if st k =? TCP_SOCKET then Ret (0, n1) else register_callback_on_ioa_socket n1 s) = Ret (0, n2) /\
    set_ioa_socket_session n2 s ptr = Ret (net_socks n (<[s := k']> (rn_socks n0))) /\
    rn_socks n = <[s := k]> (rn_socks n0) /\ relay_of e ptr i k' /\ local_addr k' = set_port a p /\ st k' = st k.
Proof.
  intros [[Sp Sn] (k & Es & Rk) Kf _ _ _ _ _ _] Hf Wa Cl. pose proof Rk as [(L1 & L2 & L3 & L4 & L5) A T Ad [B1 B2] F Fd (P1 & P2 & P3 & P4)].
  assert (s <> 0) as Nz by lia. assert ((s =? 0) = false) as E0 by (apply Z.eqb_neq; lia).
  assert (forall m x, get_sock (<[s := x]> m) s = Ret x) as G.
  { intros m x. unfold get_sock. rewrite E0. by rewrite lookup_insert_eq. }
  destruct (client_family (rn_socks n) client Cl) as [fc Ec].
  set (k1 := if (sa_family a =? AF_INET6) || (fc =? AF_INET6) then set_df k 1 true else k).
  set (k2 := if st k =? TCP_SOCKET then k1 else set_reading k1).
  assert (st k1 = st k /\ parent_s k1 = 0 /\ read_event k1 = false) as (T1 & T2 & T3) by (unfold k1; by destruct (_ || _)).
  exists (net_socks n (<[s := k1]> (rn_socks n0))), (net_socks n (<[s := k2]> (rn_socks n0))), k, (set_session k2 ptr).
  split.
  { unfold get_ioa_socket_address_family. rewrite E0, Es, G. mstep. rewrite L1, L2, P1. simpl. by rewrite F. }
  split.
  { exists fc. split; [done|]. unfold k1. destruct (_ || _).
    - unfold set_do_not_use_df. rewrite Es, G. mstep. rewrite P1. unfold put_sock. rewrite Es, insert_insert_eq. done.
    - rewrite <- Es. by destruct n. }
  split; [unfold get_ioa_socket_type; rewrite E0; simpl; rewrite G; simpl; by rewrite T1|]. split.
  { unfold k2. destruct (st k =? TCP_SOCKET); [done|]. unfold register_callback_on_ioa_socket. simpl. rewrite G. mstep.
    rewrite T2, T3. unfold put_sock. simpl. by rewrite insert_insert_eq. }
  split.
  { unfold set_ioa_socket_session. rewrite E0. simpl. rewrite G. mstep. unfold put_sock. simpl. by rewrite insert_insert_eq. }
  split; [done|]. apply (relay_adopted tr a p k _ i ptr Rk Hf Wa). unfold k2, k1.
  destruct (st k =? TCP_SOCKET), (_ || _); auto.
Qed.

(** A relay connection of family [F] for [lifetime] seconds, on port [p] of
    [a]. *)
Record connection (w w' : world) (tr F lifetime : Z) (s : Z) (a : ioa_addr) (p : Z) : Prop := Connection {
  cn_sock : exists k, socks_of w' = <[s := k]> (socks_of w) /\ relay_of e (ss_ptr w.1) (ALLOC_INDEX F) k /\ local_addr k = set_port a p;
  cn_new : 0 < s /\ socks_of w !! s = None;
  cn_family : sa_family a = F /\ known_family a;
  cn_session : exists h, relay_sessions (lf_alloc w'.1) =
      <[ALLOC_INDEX F := RelaySession s (u32 (ctime server + granted lifetime)) h]> (relay_sessions (lf_alloc w.1)) /\ h <> 0 /\
    a_timers (lf_alloc w'.1) = Timer h (e_now server + granted lifetime) (AllocTimeout (ALLOC_INDEX F)) :: a_timers (lf_alloc w.1);
  cn_port : ip_start (rn_tp (sh_net w.2)) <= p <= ip_end (rn_tp (sh_net w.2));
  cn_free : turnipports_is_allocated (rn_tp (sh_net w.2)) tr a p = Ret false;
  cn_ports : ports_upd (rn_tp (sh_net w.2)) (rn_tp (sh_net w'.2)) tr a p true;
  cn_range : same_range (rn_tp (sh_net w.2)) (rn_tp (sh_net w'.2)) }.

Lemma sessions_kept (w w' : world) i r :
  (forall j x, relay_sessions (lf_alloc w.1) !! j = Some x -> idle x \/ connected_session e (ss_ptr w.1) (socks_of w) j x) ->
  ss_ptr w'.1 = ss_ptr w.1 -> (forall s k, socks_of w !! s = Some k -> socks_of w' !! s = Some k) ->
  relay_sessions (lf_alloc w'.1) = <[i := r]> (relay_sessions (lf_alloc w.1)) ->
  (idle r \/ connected_session e (ss_ptr w.1) (socks_of w') i r) ->
  forall j x, relay_sessions (lf_alloc w'.1) !! j = Some x -> idle x \/ connected_session e (ss_ptr w'.1) (socks_of w') j x.
Proof.
  intros H Ep Hs Er Hr j x. rewrite Er, Ep. intros [(<- & <- & _)|[Nj Ej]]%list_lookup_insert_Some; [done|].
  destruct (H j x Ej) as [I|(V & P & k & Ek & Rk)]; [by left|right]. split; [done|]. split; [done|]. exists k. split; [by apply Hs|done].
Qed.

Lemma family_index F : F = AF_INET \/ F = AF_INET6 -> F = family_of_index (ALLOC_INDEX F).
Proof. by intros [->| ->]. Qed.

Lemma create_connection_spec w N lifetime af tr tok text F r0 :
  limits_ok -> alive w (N + TRIES * Z.of_nat (length (relay_addrs (sh_net w.2)))) -> 0 <= N -> af_ok af ->
  client_known (default_relays cfg) (client_of w) (socks_of w) -> families_agree w af F ->
  relay_sessions (lf_alloc w.1) !! ALLOC_INDEX F = Some r0 -> idle r0 -> reason_ok text = true -> 0 <= lifetime ->
  exists x w' err text', create_relay_connection cfg server e local_relay now w lifetime af tr (-1) 0 tok 0 text =
      Ret (x, w', tok, err, text') /\ reason_ok text' = true /\ alive w' N /\ same_rest w w' /\
    relay_sessions_failure (lf_alloc w'.1) = relay_sessions_failure (lf_alloc w.1) /\
    ((x = -1 /\ (err = 508 \/ err = 440) /\ net_same (sh_net w.2) (sh_net w'.2) /\
      a_timers (lf_alloc w'.1) = a_timers (lf_alloc w.1) /\
      relay_sessions (lf_alloc w'.1) = <[ALLOC_INDEX F := RelaySession 0 0 0]> (relay_sessions (lf_alloc w.1))) \/
     (x = 0 /\ err = 0 /\ text' = text /\ exists s a p, connection w w' tr F lifetime s a p)).
Proof.
  intros Lm A HN Af Ck Fa Er Id Rt Hl. pose proof A as [Aa Ap An Ac Af2 As]. pose proof Fa as (Gf & Kf & Ag).
  pose proof Ac as [(kc & Ekc & Okc & _) Pc]. fold (client_of w) in *.
  unfold create_relay_connection. fold (client_of w). rewrite (closing_open _ _ _ Pc Ekc Okc). mstep. rewrite set_net_same.
  destruct (client_of w =? 0) eqn:Ec0; [bool_arith; lia|]. cbn [orb].
  destruct (relay_socket_spec w N af tr tok text F r0 A HN Af Ck Fa Er Id Rt)
    as (x & w1 & err & text' & -> & Rt' & n' & On & [(-> & He & Sm & ->)|(-> & -> & -> & s & a & p & Ch & Md & ->)]); mstep.
  - change (-1 <? 0) with true. cbn iota. set (w' := set_alloc _ _). exists (-1), w', err, text'.
    split; [done|]. split; [done|]. pose proof Sm as [Es _ _ Erc Ere]. split; [|split; [|split; [done|left; split; [done|split; [done|done]]]]].
    + assert (socks_of w' = socks_of w) as Es' by (unfold socks_of; simpl; by rewrite Es).
      constructor; [by eapply swap_idle; [exact Aa|exact Er|apply Id|]|done|done|by rewrite Es'|done|].
      apply (sessions_kept w w' (ALLOC_INDEX F) (RelaySession 0 0 0) As); [done|by rewrite Es'|done|by left].
    + constructor; try done. unfold socks_of. simpl. rewrite Es. by intros ? ?.
  - change (0 <? 0) with false. cbn iota. specialize (Ag a Ch). pose proof (family_index F Kf) as Fi. rewrite <- Ag in Fi.
    pose proof (nm_new _ _ _ _ _ _ Md) as [Sp Sn].
    set (a1 := set_session_at (lf_alloc w.1) (ALLOC_INDEX F) (RelaySession s 0 0)) in *.
    assert (relay_sessions a1 !! ALLOC_INDEX F = Some (RelaySession s 0 0)) as El.
    { simpl. apply list_lookup_insert_eq. by eapply lookup_lt_Some. }
    change (lf_alloc (set_alloc (set_net w n') a1).1) with a1. rewrite (at_index_ret _ _ _ El). mstep. cbn [rs_s].
    destruct (s =? 0) eqn:E0; [bool_arith; lia|]. change (truthy 0 && negb (truthy tok)) with false. cbn iota.
    change (sh_net (set_alloc (set_net w n') a1).2) with n'.
    destruct (nm_sock _ _ _ _ _ _ Md) as (k0 & Es0 & _).
    assert (keeps_clients (socks_of w) (rn_socks n')) as Kc by (rewrite Es0; by apply keeps_insert).
    rewrite Ag in Fi. assert (sa_family a = family_of_index (ALLOC_INDEX F)) as Fi' by congruence.
    destruct (adopt_spec n' (sh_net w.2) tr s a p (ALLOC_INDEX F) (ss_ptr w.1) (client_of w) Md Fi' (proj2 (proj1 Ch)) (client_ok_kept e _ _ _ Kc Ac))
      as (n1 & n2 & k & k' & E1 & (fc & E2 & E3) & E4 & E5 & E6 & Es & Rk & Ad & _).
    rewrite E1. mstep. rewrite E2. mstep. rewrite E3. mstep. rewrite E4. mstep. rewrite E5. mstep. change (0 <? 0) with false. cbn iota.
    pose proof (granted_range lifetime Lm) as Gr.
    assert ((if lifetime <? 1 then STUN_DEFAULT_ALLOCATE_LIFETIME else if lifetime >? u32 (max_allocate_lifetime server)
             then u32 (max_allocate_lifetime server) else lifetime) = granted lifetime) as ->.
    { unfold granted. destruct Lm as [_ Hm]. rewrite u32_small by lia. done. }
    rewrite i32_small by lia.
    assert (alloc_ok a1) as Ok1 by (by eapply swap_idle; [exact Aa|exact Er|apply Id|]).
    destruct (arm_spec a1 F (RelaySession s 0 0) (e_now server) (granted lifetime) (u32 (ctime server + granted lifetime)) Ok1 El)
      as (h & ts & l' & E7 & E8 & Hp & In & Ok' & Hl' & _); [lia| |].
    { destruct Lm as [[_ _ St] _]. unfold u32. pose proof (Z.mod_le (ctime server + granted lifetime) (2 ^ 32)). lia. }
    rewrite Ag, E7, E8. mstep. change (ss_ptr (set_net (set_alloc (set_net w n') a1) n2).1) with (ss_ptr w.1). rewrite E6. mstep.
    set (a2 := set_session_at (with_timers a1 l') (ALLOC_INDEX F) (RelaySession s (u32 (ctime server + granted lifetime)) h)) in *.
    set (n3 := net_socks n' (<[s := k']> (rn_socks (sh_net w.2)))).
    set (w' := set_alloc (set_net (set_net (set_alloc (set_net w n') a1) n2) n3) a2).
    exists 0, w', 0, text. split; [done|]. split; [done|].
    assert (relay_sessions a2 = <[ALLOC_INDEX F := RelaySession s (u32 (ctime server + granted lifetime)) h]> (relay_sessions (lf_alloc w.1))) as Er2
      by (unfold a2, a1; simpl; by rewrite list_insert_insert_eq).
    assert (forall x y, socks_of w !! x = Some y -> socks_of w' !! x = Some y) as Ks.
    { intros x y Ex. unfold socks_of, w'. simpl. rewrite lookup_insert_ne; [done|]. unfold socks_of in Ex. congruence. }
    split; [|split; [|split; [done|]]].
    + constructor; [done|done| | |done|].
      * destruct On as [O1 O2 O3 O4 O5 O6]. constructor; simpl; try done. rewrite lookup_insert_ne by lia.
        rewrite Es in O6. by rewrite lookup_insert_ne in O6 by lia.
      * eapply client_ok_kept; [|exact Ac]. intros x y Ex _. by apply Ks.
      * apply (sessions_kept w w' (ALLOC_INDEX F) _ As eq_refl Ks Er2). right. split; [simpl; lia|]. split; [done|].
        exists k'. split; [|done]. unfold socks_of, w'. simpl. by rewrite lookup_insert_eq.
    + destruct Md as [_ _ _ _ _ _ _ M1 M2]. constructor; try done. intros x y Ex _. by apply Ks.
    + right. do 3 (split; [done|]). exists s, a, p. destruct Md as [_ _ M0 M3 M4 M5 M6 _ _]. constructor; try done.
      * exists k'. done.
      * exists h. split; [done|]. split; [lia|]. by apply Hl'.
Qed.
End alloc_facts.
