(* ===== verification/AllocateHandler.v ===== *)
(** The handlers of Allocate and Refresh: what they guarantee on any request. *)

From stdpp Require Import base option numbers list sets strings gmap.
From S2P Require Import Prelude IoAddr StunAddr StunDefs StunMsg StunMsgFacts StunAuth StunBuild StunBuildFacts KeyMap TurnMaps TurnMapsFacts.
From S2P Require Import TurnPorts TurnPortsFacts SlotTable Timers Allocation AllocationFacts NetBuffer Sockets RelayEngine RelayEngineFacts.
From S2P Require Import TurnServer TurnServerFacts DataPath DataPathFacts ServerAuth ServerAuthFacts Allocate AllocateFacts.

(** * Attributes that are absent *)
Definition absent (buf : list Z) (len : Z) (ts : list Z) : Prop :=
  forall t, t ∈ ts -> stun_attr_get_first_by_type_str buf len t = Ret None.

Section scan_absent.
Context {S : Type} (buf : list Z) (len : Z) (ts : list Z) (go : S -> bool) (body : S -> Z -> outcome S) (Inv : S -> Prop).
Context (B : bytes_ok buf) (L : len <= blen buf).
Context (Hbody : forall fin a st, fin <= len -> attr_valid buf fin a -> (forall t, t ∈ ts -> stun_attr_get_type buf (Some a) <> Ret t) ->
                   Inv st -> go st = true -> exists st', body st a = Ret st' /\ Inv st').

Lemma attr_while_absent fuel fin st sar :
  stun_get_command_message_len_str buf len = Ret fin -> fin <= len -> Inv st ->
  (forall t, t ∈ ts -> attr_loop fuel buf len (fun a => x ← stun_attr_get_type buf (Some a);
                                                      if x =? t then Ret (Some a) else Ret None) sar = Ret None) ->
  (forall a, sar = Some a -> attr_valid buf fin a /\ fin - a <= Z.of_nat fuel) ->
  exists st', attr_while fuel buf len go body st sar = Ret st' /\ Inv st'.
Proof.
  intros E Hf. revert st sar. induction fuel as [|fuel IH]; intros st [a|] I Ab Ha; cbn [attr_while]; try by exists st.
  - destruct (Ha a eq_refl) as [V Hfuel]. apply attr_valid_bound in V. destruct (go st); [lia|by exists st].
  - destruct (go st) eqn:G; [|by exists st]. destruct (Ha a eq_refl) as [V Hfuel].
    destruct (type_returns buf len fin a B L Hf V) as [ty Et].
    destruct (Hbody fin a st Hf V) as (st' & -> & I'); [|done|done|].
    { intros t Ht. rewrite Et. intros [= ->]. specialize (Ab t Ht). cbn [attr_loop] in Ab. rewrite Et in Ab. revert Ab. mstep.
      by rewrite Z.eqb_refl. }
    mstep. destruct (get_next_cases buf len fin a) as (r & En & D); try done. rewrite En. mstep. apply IH; [done| |].
    + intros t Ht. specialize (Ab t Ht). cbn [attr_loop] in Ab. rewrite Et in Ab. revert Ab. mstep.
      destruct (ty =? t); mstep; [done|]. rewrite En. mstep. done.
    + intros a' ->. destruct D as [[=]|(a'' & [= <-] & ? & V')]. split; [done|lia].
Qed.

Lemma attr_scan_absent st :
  absent buf len ts -> Inv st -> exists st', attr_scan buf len go body st = Ret st' /\ Inv st'.
Proof.
  intros Ab I. unfold attr_scan, absent, stun_attr_get_first_by_type_str, attr_iter in *.
  destruct (get_first_cases buf len B L) as (r & Er & D). rewrite Er in *. mstep.
  destruct D as [->|(fin & E & -> & Hf & V)]; [exists st; by destruct (attr_fuel len)|].
  apply (attr_while_absent _ fin); [done|done|done| |].
  - intros t Ht. exact (Ab t Ht).
  - intros a [= <-]. split; [done|]. unfold attr_fuel. apply attr_valid_bound in V. lia.
Qed.
End scan_absent.

Lemma rd8_ok buf i : bytes_ok buf -> 0 <= i -> i + 1 <= blen buf -> exists v, rd8 buf i = Ret v /\ 0 <= v < 256.
Proof. intros B ? ?. eexists. split; [by apply rd8_ret|]. eapply rd8_range; [done|by apply rd8_ret]. Qed.

Lemma rd32_ok buf i : bytes_ok buf -> 0 <= i -> i + 4 <= blen buf -> exists v, rd32 buf i = Ret v /\ 0 <= v < 2 ^ 32.
Proof.
  intros B ? ?. eexists. split; [by apply rd32_ret|]. pose proof (be_range _ (bytes_ok_slice buf i 4 B)) as R.
  by rewrite blen_slice in R by lia.
Qed.

(** * The attributes of Allocate *)

(** [dual]: the request may ask for both families. *)
Record req_ok (dual : bool) (q : alloc_req) : Prop := ReqOk {
  rq_dual : dual = false -> aq_af4 q = 0 \/ aq_af6 q = 0;
  rq_resp : resp (aq_reply q) = None;
  rq_single : aq_even_port q = -1 /\ aq_token q = 0;
  rq_transport : aq_transport q = 0 \/ aq_transport q = STUN_ATTRIBUTE_TRANSPORT_UDP_VALUE \/
    aq_transport q = STUN_ATTRIBUTE_TRANSPORT_TCP_VALUE;
  rq_lifetime : 0 <= aq_lifetime q < 2 ^ 32;
  rq_reason : reason_ok (reason (aq_reply q)) = true }.

(** Attributes whose handling the theorems below leave out. *)
Definition port_attrs : list Z := [STUN_ATTRIBUTE_EVEN_PORT; STUN_ATTRIBUTE_RESERVATION_TOKEN].

Section allocate_attr.
Context (dual : bool).
Abbreviation ok := (req_ok dual).
Context (cfg : alloc_config) (server : turn_turnserver) (client cst : Z).
Context (buf : list Z) (len fin a : Z) (B : bytes_ok buf) (L : len <= blen buf) (F : fin <= len) (V : attr_valid buf fin a).

Lemma fail_ok q code text : ok q -> reason_ok text = true -> ok (aq_fail q code text).
Proof. intros [H0 H1 H2 H3 H4 H5] R. by constructor. Qed.

Lemma code_ok q code : ok q -> ok (aq_code q code).
Proof. intros H. apply fail_ok; [done|apply H]. Qed.

Lemma user_ok q u : ok q -> ok (aq_set_user q u).
Proof. intros [H0 H1 H2 H3 H4 H5]. by constructor. Qed.

Lemma username_attr_ok q : ok q -> exists q', username_attr buf q a = Ret q' /\ ok q'.
Proof.
  intros H. unfold username_attr. destruct (value_returns buf len fin a L F V) as (l & El & H0 & Hl & ->). mstep.
  destruct (l <? 1); [by exists q|]. rewrite El. mstep. destruct (l >=? _); [eexists; split; [done|by apply fail_ok]|].
  pose proof (attr_valid_bound _ _ _ V). rewrite rd_bytes_ret by lia. mstep.
  destruct (is_secure_string _ _); eexists; (split; [done|]); [by apply user_ok|by apply code_ok, user_ok].
Qed.

Lemma transport_attr_ok q : ok q -> exists q', transport_attr cfg client cst buf q a = Ret q' /\ ok q'.
Proof.
  intros H. unfold transport_attr. destruct (value_returns buf len fin a L F V) as (l & El & H0 & Hl & Ev). rewrite El. mstep.
  destruct (l =? 4) eqn:E4; bool_arith; [|eexists; split; [done|by apply fail_ok]]. cbn [negb].
  destruct (truthy _); [eexists; split; [done|by apply fail_ok]|]. rewrite Ev. mstep. subst l. change (4 <? 1) with false. cbn iota.
  pose proof (attr_valid_bound _ _ _ V). destruct (rd8_ok buf (a + 4)) as (b & -> & _); [done|lia|lia|]. mstep.
  assert (forall t tcp, t = get_transport_value b -> ok (aq_set_transport q t tcp)) as St.
  { intros t tcp ->. destruct H as [h0 h1 h2 h3 h4 h5]. constructor; simpl; try done. unfold get_transport_value.
    destruct (_ || _) eqn:E; [|by left]. apply orb_true_iff in E as [E|E]; bool_arith; auto. }
  set (t := get_transport_value b). set (q1 := if t =? 0 then _ else _).
  assert (ok q1 /\ forall x tcp, x = t -> ok (aq_set_transport q1 x tcp)) as [Q1 Q2].
  { unfold q1. destruct (t =? 0); (split; [try apply code_ok; by apply St|]); intros x tcp ->; [|by apply St].
    destruct (St t tcp eq_refl) as [h0 h1 h2 h3 h4 h5]. constructor; simpl; try done; apply H. }
  repeat (destruct (_ && _); [eexists; split; [done|by apply fail_ok]|]).
  destruct (truthy client); [|by exists q1]. destruct (_ && _); [eexists; split; [done|by apply fail_ok]|].
  eexists. split; [done|]. by apply Q2.
Qed.

Lemma lifetime_attr_ok q : ok q -> exists q', lifetime_attr buf q a = Ret q' /\ ok q'.
Proof.
  intros H. unfold lifetime_attr. destruct (value_returns buf len fin a L F V) as (l & El & H0 & Hl & Ev). rewrite El. mstep.
  destruct (l =? 4) eqn:E4; bool_arith; [|eexists; split; [done|by apply fail_ok]]. cbn [negb]. rewrite Ev. mstep. subst l.
  change (4 <? 1) with false. cbn iota. pose proof (attr_valid_bound _ _ _ V).
  destruct (rd32_ok buf (a + 4)) as (x & -> & Rx); [done|lia|lia|]. mstep. eexists. split; [done|].
  destruct H as [h0 h1 h2 h3 h4 h5]. by constructor.
Qed.

Lemma requested_family_returns : exists f, stun_get_requested_address_family buf (Some a) = Ret f.
Proof.
  destruct (value_returns buf len fin a L F V) as (l & El & H0 & Hl & Ev). pose proof (attr_valid_bound _ _ _ V).
  unfold stun_get_requested_address_family. unfold stun_attr_get_len in El. rewrite El. mstep.
  destruct (l =? 4) eqn:E4; bool_arith; [|by eexists]. cbn [negb]. destruct (rd8_ok buf (a + 4)) as (b & -> & _); [done|lia|lia|].
  mstep. destruct (b =? _); [by eexists|]. destruct (b =? _); by eexists.
Qed.

Lemma family_attr_ok q ty :
  (dual = false -> ty <> STUN_ATTRIBUTE_ADDITIONAL_ADDRESS_FAMILY) -> ok q -> exists q', family_attr buf q a ty = Ret q' /\ ok q'.
Proof.
  intros Nd H. unfold family_attr. destruct (_ && _); [eexists; split; [done|by apply fail_ok]|].
  destruct (truthy (aq_token q)); [eexists; split; [done|by apply fail_ok]|].
  destruct (_ || _) eqn:E; [eexists; split; [done|by apply fail_ok]|]. apply orb_false_iff in E as [Z4 Z6]. unfold truthy in Z4, Z6. bool_arith.
  destruct requested_family_returns as [f ->].
  mstep. assert (forall x y, (dual = false -> x = 0 \/ y = 0) -> ok (aq_set_families q x y)) as Sf
    by (intros; destruct H as [h0 h1 h2 h3 h4 h5]; by constructor).
  destruct (f =? _); [destruct (ty =? _); eexists; (split; [done|]); [by apply fail_ok|apply Sf; by right]|].
  destruct (f =? _); eexists; (split; [done|]); [|by apply code_ok]. apply Sf. intros D. left.
  destruct (ty =? _) eqn:Et; bool_arith; [by destruct (Nd D)|done].
Qed.

(** Any attribute but those for ports and reservations. *)
Lemma alloc_attr_ok q :
  (forall t, t ∈ port_attrs -> stun_attr_get_type buf (Some a) <> Ret t) ->
  (dual = false -> stun_attr_get_type buf (Some a) <> Ret STUN_ATTRIBUTE_ADDITIONAL_ADDRESS_FAMILY) -> ok q -> scan_goes_on (aq_reply q) = true ->
  exists q', alloc_attr cfg server client cst buf q a = Ret q' /\ ok q'.
Proof.
  intros Ab Nd H G. unfold alloc_attr. destruct (type_returns buf len fin a B L F V) as [ty Et]. rewrite Et in *. mstep.
  assert (exists q1, (if ty =? STUN_ATTRIBUTE_USERNAME then username_attr buf q a else Ret q) = Ret q1 /\ ok q1 /\
            (ty <> STUN_ATTRIBUTE_USERNAME -> q1 = q)) as (q1 & -> & H1 & Eq).
  { destruct (ty =? _) eqn:Eu; bool_arith; [|by exists q]. destruct (username_attr_ok q H) as (q1 & E1 & H1). exists q1. split_and!; [done|done|congruence]. }
  mstep. destruct (_ || SKIP_ATTRIBUTES ty) eqn:Es; [by exists q1|]. apply orb_false_iff in Es as [Ee Sk].
  assert (q1 = q) as -> by (apply Eq; intros ->; done). clear Eq H1.
  assert (forall t df, exists q', aq_unknown q df t = Ret q' /\ ok q') as Un.
  { intros t df. unfold aq_unknown. rewrite (add_unknown_ok _ _ G). mstep. eexists. split; [done|].
    destruct H as [h0 h1 h2 h3 h4 h5]. by constructor. }
  destruct (ty =? STUN_ATTRIBUTE_NEW_BANDWIDTH).
  { assert (exists b, stun_attr_get_bandwidth buf (Some a) = Ret b) as [b ->].
    { destruct (value_returns buf len fin a L F V) as (l & El & H0 & Hl & Ev). pose proof (attr_valid_bound _ _ _ V).
      unfold stun_attr_get_bandwidth, with_value. rewrite Ev. mstep. destruct (l <? 1); [by eexists|]. rewrite El. mstep.
      destruct (l >=? 4) eqn:?; bool_arith; [|by eexists]. destruct (rd32_ok buf (a + 4)) as (b & -> & _); [done|lia|lia|]. mstep. by eexists. }
    mstep. eexists. split; [done|]. destruct H as [h0 h1 h2 h3 h4 h5]. by constructor. }
  destruct (ty =? STUN_ATTRIBUTE_MOBILITY_TICKET).
  { destruct (ac_mobility cfg); cbn [negb]; [|eexists; split; [done|by apply fail_ok]].
    destruct (value_returns buf len fin a L F V) as (l & -> & _). mstep. eexists. split; [done|].
    destruct (l =? 0); cbn [negb]; [|by apply fail_ok]. destruct H as [h0 h1 h2 h3 h4 h5]. by constructor. }
  destruct (ty =? STUN_ATTRIBUTE_REQUESTED_TRANSPORT); [by apply transport_attr_ok|].
  destruct (ty =? STUN_ATTRIBUTE_DONT_FRAGMENT).
  { destruct (dont_fragment server =? 0); [apply Un|]. eexists. split; [done|]. destruct H as [h0 h1 h2 h3 h4 h5]. by constructor. }
  destruct (ty =? STUN_ATTRIBUTE_LIFETIME); [by apply lifetime_attr_ok|].
  destruct (ty =? STUN_ATTRIBUTE_EVEN_PORT) eqn:E1; bool_arith; [exfalso; apply (Ab STUN_ATTRIBUTE_EVEN_PORT); [left|congruence]|].
  destruct (ty =? STUN_ATTRIBUTE_RESERVATION_TOKEN) eqn:E2; bool_arith;
    [exfalso; apply (Ab STUN_ATTRIBUTE_RESERVATION_TOKEN); [right; left|congruence]|].
  destruct (_ || _); [apply family_attr_ok; [|done]; intros D ->; by apply (Nd D)|]. destruct (comprehension_required ty); [apply Un|by exists q].
Qed.
End allocate_attr.

(** * Responses *)
Definition addr_attr (tid : list Z) (t : Z) (ca : option ioa_addr) : list (Z * list Z) :=
  match ca with
  | Some a => match stun_addr_encode (Some a) true STUN_MAGIC_COOKIE (Some tid) with Some v => [(t, v)] | None => [] end
  | None => []
  end.

Definition ticket_attrs (sid : list Z) : list (Z * list Z) :=
  match sid with [] => [] | _ => [(STUN_ATTRIBUTE_MOBILITY_TICKET, sid)] end.

(** The attributes of a success response to Allocate. *)
Definition allocate_attrs (tid : list Z) (x1 x2 refl : option ioa_addr) (lifetime : Z) (sid : list Z) : list (Z * list Z) :=
  addr_attr tid STUN_ATTRIBUTE_XOR_RELAYED_ADDRESS x1 ++ addr_attr tid STUN_ATTRIBUTE_XOR_RELAYED_ADDRESS x2 ++
  addr_attr tid STUN_ATTRIBUTE_XOR_MAPPED_ADDRESS refl ++ [(STUN_ATTRIBUTE_LIFETIME, to_be 4 lifetime)] ++ ticket_attrs sid.

Definition success_msg (method : Z) (tid : list Z) (attrs : list (Z * list Z)) : smsg :=
  SMsg (stun_make_success_response method) STUN_MAGIC_COOKIE tid attrs.

(** A mobility ticket: a C string without zero bytes. *)
Definition ticket_ok (sid : list Z) : Prop := nonzero_bytes sid /\ blen sid <= 32.

Lemma addr_attr_step b m t ca :
  mrepr b m -> length (s_tid m) = 12%nat -> (forall a, ca = Some a -> addr_ok a) -> 0 <= t < 2 ^ 16 -> is_xor_type t = true ->
  mlen b + 24 < MAX_STUN_MESSAGE_SIZE -> mlen b + 24 <= blen (mdata b) ->
  exists b', (forall k, (match ca with Some ca => add_addr_or_fail [] b t ca | None => fun k => k b end) k = k b') /\
    mrepr b' (s_app m (addr_attr (s_tid m) t ca)) /\ mlen b' <= mlen b + 24 /\ blen (mdata b') = blen (mdata b).
Proof.
  intros Hm Lt Hca Ht Hx H1 H2. destruct (opt_addr_step b m t ca Hm Lt Hca Ht H1 H2) as (l & b' & K & R & Hl & Hd & Hc).
  exists b'. split; [done|]. split; [|done]. destruct ca as [a|]; unfold addr_attr; [|by subst l].
  destruct Hc as (v & -> & _ & Ev). rewrite Hx in Ev. by rewrite Ev.
Qed.

Lemma allocate_response_ret tid nbh rnd x1 x2 refl lifetime max sid :
  let granted := if lifetime <? 1 then STUN_DEFAULT_ALLOCATE_LIFETIME else if lifetime >? max then max else lifetime in
  request_args STUN_METHOD_ALLOCATE tid nbh rnd -> ticket_ok sid ->
  (forall a, x1 = Some a -> addr_ok a) -> (forall a, x2 = Some a -> addr_ok a) -> (forall a, refl = Some a -> addr_ok a) ->
  exists b, stun_set_allocate_response_str [] nbh (Some tid) x1 x2 refl lifetime max 0 None 0 (Some sid) rnd = Ret (0, b) /\
    mrepr b (success_msg STUN_METHOD_ALLOCATE tid (allocate_attrs tid x1 x2 refl granted sid)) /\ mlen b <= 150 /\
    blen (mdata b) = blen nbh.
Proof.
  intros granted [Hm [Bt Lt] [Bb Lb] [Br Lr]] [[Sb Sz] Sl] H1 H2 H3. unfold stun_set_allocate_response_str. change (0 =? 0) with true. cbn iota.
  destruct (init_success_refines STUN_METHOD_ALLOCATE nbh tid rnd) as (b0 & -> & R0 & L0 & D0); try done; try lia. mstep.
  destruct (addr_attr_step b0 _ STUN_ATTRIBUTE_XOR_RELAYED_ADDRESS x1 R0) as (b1 & K1 & R1 & L1 & D1);
    unfold MAX_STUN_MESSAGE_SIZE; try done; try lia. rewrite K1.
  destruct (addr_attr_step b1 _ STUN_ATTRIBUTE_XOR_RELAYED_ADDRESS x2 R1) as (b2 & K2 & R2 & L2 & D2);
    unfold MAX_STUN_MESSAGE_SIZE; try done; try lia. rewrite K2.
  destruct (addr_attr_step b2 _ STUN_ATTRIBUTE_XOR_MAPPED_ADDRESS refl R2) as (b3 & K3 & R3 & L3 & D3);
    unfold MAX_STUN_MESSAGE_SIZE; try done; try lia. rewrite K3. change (truthy 0) with false. mstep. fold granted.
  edestruct (add_or_fail_step b3) as (b4 & -> & R4 & L4 & D4);
    [exact R3|done|apply bytes_ok_to_be|done|..];
    try (change (pad4 (blen (to_be 4 _))) with 4; unfold MAX_STUN_MESSAGE_SIZE; lia).
  change (pad4 (blen (to_be 4 granted))) with 4 in L4. unfold strlen. rewrite (cstr_nonzero sid Sz). pose proof (blen_nonneg sid).
  unfold success_msg, allocate_attrs. revert R4. unfold s_add, s_app. cbn [s_type s_cookie s_tid s_attrs app]. rewrite <- !app_assoc. intros R4.
  destruct sid as [|c sid].
  - change (blen [] >? 0) with false. cbn iota. exists b4. split; [done|]. split; [exact R4|lia].
  - destruct (blen (c :: sid) >? 0) eqn:Es; [|revert Es; unfold blen; simpl length; intros; bool_arith; lia].
    destruct (pad4_spec (blen (c :: sid))) as [? _]; [lia|].
    edestruct (add_or_fail_step b4) as (b5 & -> & R5 & L5 & D5); [exact R4|done|exact Sb|lia|..]; try (unfold MAX_STUN_MESSAGE_SIZE; lia).
    exists b5. split; [done|]. split; [|lia]. revert R5. unfold s_add. cbn [s_type s_cookie s_tid s_attrs]. by rewrite <- !app_assoc.
Qed.

(** * Relay connections of one request *)
Section families.
Context {K U Q S : Type} {KN : Kernel K} {UM : UrMap U} {M : Malloc} {ML : MallocLaws} {QT : Quotas Q} {SM : KVStore Z Z S}.
Context (cfg : alloc_config) (server : turn_turnserver) (e : engine) (local_relay : Z -> option ioa_addr) (now : Z).
Context (Lm : limits_ok server).
Abbreviation world := (life * shared K U Q S)%type.

Abbreviation tp_of w := (rn_tp (sh_net w.2)).

(** Sockets and ports in use of [w] are in use in [w']. *)
Record grew (w w' : world) : Prop := Grew {
  gw_socks : socks_of w ⊆ socks_of w';
  gw_range : same_range (tp_of w) (tp_of w');
  gw_ports : forall tr a p, ip_start (tp_of w) <= p <= ip_end (tp_of w) ->
    (turnipports_is_allocated (tp_of w) tr a p = Ret true -> turnipports_is_allocated (tp_of w') tr a p = Ret true) /\
    (turnipports_is_allocated (tp_of w') tr a p = Ret false -> turnipports_is_allocated (tp_of w) tr a p = Ret false) }.

(** A relay session of [w'] that [w] did not have: an open socket on a port that
    was free, which expires after the granted lifetime. *)
Definition serves (w w' : world) (tr F lifetime : Z) : Prop :=
  exists s h k a p,
    relay_sessions (lf_alloc w'.1) !! ALLOC_INDEX F = Some (RelaySession s (u32 (ctime server + granted server lifetime)) h) /\
    0 < s /\ h <> 0 /\ Timer h (e_now server + granted server lifetime) (AllocTimeout (ALLOC_INDEX F)) ∈ a_timers (lf_alloc w'.1) /\
    socks_of w' !! s = Some k /\ relay_of e (ss_ptr w.1) (ALLOC_INDEX F) k /\ local_addr k = set_port a p /\ sa_family a = F /\
    known_family a /\ socks_of w !! s = None /\ ip_start (tp_of w) <= p <= ip_end (tp_of w) /\
    turnipports_is_allocated (tp_of w) tr a p = Ret false /\ turnipports_is_allocated (tp_of w') tr a p = Ret true.

Lemma grew_same w w' : net_same (sh_net w.2) (sh_net w'.2) -> grew w w'.
Proof.
  intros [Es Ep Er _ _]. constructor; [unfold socks_of; by rewrite Es|done|]. intros tr a p Hp. by rewrite Ep.
Qed.

Lemma same_pool_refl tr a : known_family a -> same_pool tr a tr a = true.
Proof. intros H. unfold same_pool. rewrite eqb_reflx. exact (key_ok_no_port a H). Qed.

Lemma connection_grew w w' tr F lt s a p : ip_inv (tp_of w) -> connection server e w w' tr F lt s a p -> grew w w'.
Proof.
  intros I [(k & Es & _) [_ Nw] [_ Kf] _ Rp Fr Up Sr]. constructor; [rewrite Es; by apply insert_subseteq|done|].
  intros tr' b q Hq. rewrite (Up tr' b q Hq). destruct (same_pool tr a tr' b) eqn:Sp; simpl; [|done].
  destruct (q =? p) eqn:Eq; bool_arith; [|done]. subst q. by rewrite (same_pool_allocated _ tr a tr' b p I Sp), Fr.
Qed.

Lemma connection_serves w w' tr F lt s a p : connection server e w w' tr F lt s a p ->
  (ALLOC_INDEX F < length (relay_sessions (lf_alloc w.1)))%nat -> serves w w' tr F lt.
Proof.
  intros [(k & Es & Rk & Ad) [Sp Nw] [Ff Kf] (h & Er & Hh & Et) Rp Fr Up Sr] Li. exists s, h, k, a, p.
  split; [rewrite Er; by apply list_lookup_insert_eq|]. do 2 (split; [done|]). split; [rewrite Et; left|].
  split; [rewrite Es; apply lookup_insert_eq|]. do 7 (split; [done|]).
  rewrite (Up tr a p Rp), (same_pool_refl tr a Kf), Z.eqb_refl. done.
Qed.

Lemma serves_later w w1 w' tr F lt : grew w w1 -> ss_ptr w1.1 = ss_ptr w.1 -> serves w1 w' tr F lt -> serves w w' tr F lt.
Proof.
  intros [Gs [G1 G2] Gp] Ep (s & h & k & a & p & H1 & H2 & H3 & H4 & H5 & H6 & H7 & H8 & H9 & Nw & Rp & Fr & Al).
  exists s, h, k, a, p. rewrite Ep in H6. do 9 (split; [done|]). split.
  - destruct (socks_of w !! s) as [x|] eqn:E; [|done]. rewrite (lookup_weaken _ _ _ _ E Gs) in Nw. done.
  - rewrite G1, G2 in Rp. split; [done|]. split; [by apply Gp|done].
Qed.

Lemma serves_kept w w1 w' tr F lt :
  grew w w1 -> grew w1 w' -> relay_sessions (lf_alloc w'.1) !! ALLOC_INDEX F = relay_sessions (lf_alloc w1.1) !! ALLOC_INDEX F ->
  a_timers (lf_alloc w1.1) ⊆ a_timers (lf_alloc w'.1) -> serves w w1 tr F lt -> serves w w' tr F lt.
Proof.
  intros [_ [R1 R2] _] [Gs _ Gp] Er Et (s & h & k & a & p & H1 & H2 & H3 & H4 & H5 & H6 & H7 & H8 & H9 & Nw & Rp & Fr & Al).
  exists s, h, k, a, p. rewrite Er. split; [done|]. split; [done|]. split; [done|]. split; [by apply Et|].
  split; [by eapply lookup_weaken|]. do 7 (split; [done|]). apply Gp; [by rewrite R1, R2|done].
Qed.

(** One family. *)
Record family_step (w w' : world) (N tr F lifetime mark : Z) (ok : bool) : Prop := FamilyStep {
  fs_alive : alive e w' N;
  fs_rest : same_rest w w';
  fs_grew : grew w w';
  fs_other : forall i, i <> ALLOC_INDEX F -> relay_sessions (lf_alloc w'.1) !! i = relay_sessions (lf_alloc w.1) !! i;
  fs_timers : a_timers (lf_alloc w.1) ⊆ a_timers (lf_alloc w'.1);
  fs_result : if ok then relay_sessions_failure (lf_alloc w'.1) = relay_sessions_failure (lf_alloc w.1) /\ serves w w' tr F lifetime
              else relay_sessions_failure (lf_alloc w'.1) = <[ALLOC_INDEX mark := 1]> (relay_sessions_failure (lf_alloc w.1)) /\
                net_same (sh_net w.2) (sh_net w'.2) /\ relay_sessions (lf_alloc w'.1) !! ALLOC_INDEX F = Some (RelaySession 0 0 0) /\
                a_timers (lf_alloc w'.1) = a_timers (lf_alloc w.1) }.

Lemma alive_mark (w : world) N mark : alive e w N -> alive e (mark_failure w mark) N.
Proof.
  intros [[Ai At] Ap An Ac Af As]. constructor; try done.
  - split; [apply (alloc_inv_same (lf_alloc w.1)); [done|done|apply Ai|done]|done].
  - simpl. by rewrite length_insert.
Qed.

Lemma allocate_family_spec (w : world) N lifetime af tr mark dflt text F :
  alive e w (N + TRIES * Z.of_nat (length (relay_addrs (sh_net w.2)))) -> 0 <= N -> af_ok af ->
  client_known (default_relays cfg) (client_of w) (socks_of w) -> families_agree cfg w af F ->
  (forall r, relay_sessions (lf_alloc w.1) !! ALLOC_INDEX F = Some r -> idle r) -> reason_ok text = true -> 0 <= lifetime ->
  exists w' err text', allocate_family cfg server e local_relay now w lifetime af tr (-1) 0 0 mark dflt 0 text = Ret (w', 0, err, text') /\
    reason_ok text' = true /\ (err = 0 \/ err = 508 \/ err = 440) /\ family_step w w' N tr F lifetime mark (err =? 0).
Proof.
  intros A HN Af Ck Fa Id Rt Hl. pose proof A as [[Ai _] _ An _ _ _].
  destruct (relay_sessions (lf_alloc w.1) !! ALLOC_INDEX F) as [r0|] eqn:Er.
  2: { apply lookup_ge_None in Er. pose proof (inv_sessions _ Ai) as L2. rewrite L2 in Er. unfold ALLOC_INDEX in Er. destruct (_ =? _); lia. }
  pose proof (lookup_lt_Some _ _ _ Er) as Li.
  destruct (create_connection_spec cfg server e local_relay now w N lifetime af tr 0 text F r0 Lm A HN Af Ck Fa Er (Id _ eq_refl) Rt Hl)
    as (x & w' & err & text' & E & Rt' & A' & Sr & Sf & [(-> & He & Ns & Et & Es)|(-> & -> & -> & s & a & p & Cn)]);
    unfold allocate_family; rewrite E; mstep.
  - change (-1 <? 0) with true. cbn iota. assert ((err =? 0) = false) as -> by (apply Z.eqb_neq; lia).
    eexists _, _, _. split; [done|]. split; [done|]. split; [by right|].
    assert ((err =? 0) = false) as -> by (apply Z.eqb_neq; lia). constructor; cbn [lf_alloc].
    + by apply alive_mark.
    + destruct Sr. by constructor.
    + destruct (grew_same w w' Ns). by constructor.
    + intros i Hi. change (relay_sessions (lf_alloc (mark_failure w' mark).1)) with (relay_sessions (lf_alloc w'.1)). rewrite Es.
      by apply list_lookup_insert_ne.
    + change (a_timers (lf_alloc (mark_failure w' mark).1)) with (a_timers (lf_alloc w'.1)). by rewrite Et.
    + split; [simpl; by rewrite Sf|]. split; [done|]. split; [|done].
      change (relay_sessions (lf_alloc (mark_failure w' mark).1)) with (relay_sessions (lf_alloc w'.1)). rewrite Es. by apply list_lookup_insert_eq.
  - change (0 <? 0) with false. cbn iota. eexists _, _, _. split; [done|]. split; [done|]. split; [by left|].
    change (0 =? 0) with true. destruct (cn_session _ _ _ _ _ _ _ _ _ _ Cn) as (h & Es & _ & Et). constructor; [done|done| | | |].
    + eapply connection_grew; [apply An|exact Cn].
    + intros i Hi. rewrite Es. by apply list_lookup_insert_ne.
    + rewrite Et. intros t Ht. by right.
    + split; [done|]. by eapply connection_serves.
Qed.

(** A client without an allocation. *)
Definition all_idle (w : world) : Prop := forall i r, relay_sessions (lf_alloc w.1) !! i = Some r -> idle r.

Lemma client_known_kept d s (m m' : sockets) : m ⊆ m' -> client_known d s m -> client_known d s m'.
Proof.
  intros H Ck D. destruct (Ck D) as (c & Ec & Kc). exists c. split; [|done]. revert Ec. unfold client_local.
  destruct (m !! s) as [k|] eqn:E; [|done]. rewrite (lookup_weaken _ _ _ _ E H). simpl.
  destruct (m !! (if parent_s k =? 0 then s else parent_s k)) as [k'|] eqn:E'; [|done].
  by rewrite (lookup_weaken _ _ _ _ E' H).
Qed.

(** The outcome for all families. *)
Record families_result (w w' : world) (N tr lifetime : Z) (r' : reply) : Prop := FamiliesResult {
  fr_alive : alive e w' N;
  fr_rest : same_rest w w';
  fr_reply : resp r' = None /\ reason_ok (reason r') = true;
  fr_result :
    (err_code r' <> 0 /\ net_same (sh_net w.2) (sh_net w'.2) /\ all_idle w' /\ a_timers (lf_alloc w'.1) = a_timers (lf_alloc w.1)) \/
    (err_code r' = 0 /\ exists F, serves w w' tr F lifetime /\
      relay_sessions_failure (lf_alloc w'.1) !! ALLOC_INDEX F = relay_sessions_failure (lf_alloc w.1) !! ALLOC_INDEX F) }.

Lemma one_family w w' N tr F lifetime mark r err text :
  all_idle w -> resp r = None -> reason_ok text = true -> err_code r = 0 -> family_step w w' N tr F lifetime mark (err =? 0) ->
  families_result w w' N tr lifetime (fail_with r err text).
Proof.
  intros Id Rp Rt Er [A Sr G Ot Ti Re]. constructor; [done|done|done|]. destruct (err =? 0) eqn:E; bool_arith.
  - right. split; [done|]. exists F. destruct Re as [-> Sv]. done.
  - left. destruct Re as (_ & Ns & Es & Et). split; [done|]. split; [done|]. split; [|done]. intros i x Ex.
    destruct (decide (i = ALLOC_INDEX F)) as [->|Ni]; [|rewrite (Ot i Ni) in Ex; by eapply Id]. rewrite Es in Ex. injection Ex as <-. done.
Qed.

Lemma same_rest_trans (w1 w2 w3 : world) : same_rest w1 w2 -> same_rest w2 w3 -> same_rest w1 w3.
Proof.
  intros [a1 a2 a3 a4 a5 [a6 a6'] a7 a8 a9] [b1 b2 b3 b4 b5 [b6 b6'] b7 b8 b9]. constructor; try congruence; [split; congruence|].
  intros s k E A. apply b9; [by apply a9|done].
Qed.

(** IPv4 first, IPv6 after it. *)
Lemma two_families w w1 w' N N' tr lifetime err4 err6 :
  all_idle w -> ss_ptr w1.1 = ss_ptr w.1 ->
  family_step w w1 N' tr AF_INET lifetime AF_INET (err4 =? 0) ->
  family_step w1 w' N tr AF_INET6 lifetime AF_INET6 (err6 =? 0) -> forall r', resp r' = None -> reason_ok (reason r') = true ->
  (err_code r' = 0 <-> err4 = 0 \/ err6 = 0) -> families_result w w' N tr lifetime r'.
Proof.
  intros Id Ep [A1 S1 G1 O1 T1 R1] [A2 S2 G2 O2 T2 R2] r' Rp' Rt' Hc. constructor; [done|by eapply same_rest_trans|done|].
  destruct (err4 =? 0) eqn:E4; bool_arith.
  - right. split; [apply Hc; by left|]. exists AF_INET. destruct R1 as [F1 Sv]. split.
    + eapply serves_kept; [exact G1|exact G2|by apply O2|done|exact Sv].
    + destruct (err6 =? 0); destruct R2 as [F2 _]; rewrite F2, F1; [done|]. by rewrite list_lookup_insert_ne.
  - destruct R1 as (F1 & Ns1 & Es1 & Et1). destruct (err6 =? 0) eqn:E6; bool_arith.
    + right. split; [apply Hc; by right|]. exists AF_INET6. destruct R2 as [F2 Sv]. split; [by eapply serves_later|].
      rewrite F2, F1. by rewrite list_lookup_insert_ne.
    + left. destruct R2 as (_ & Ns2 & Es2 & Et2). split; [intros H%Hc; lia|]. split; [by etrans|]. split; [|congruence].
      intros i x Ex. destruct (decide (i = 1%nat)) as [->|N1]; [change 1%nat with (ALLOC_INDEX AF_INET6) in Ex; rewrite Es2 in Ex; by injection Ex as <-|].
      rewrite (O2 i N1) in Ex. destruct (decide (i = 0%nat)) as [->|N0]; [change 0%nat with (ALLOC_INDEX AF_INET) in Ex; rewrite Es1 in Ex; by injection Ex as <-|].
      rewrite (O1 i N0) in Ex. by eapply Id.
Qed.

Definition dual_room (w : world) (N : Z) : Z :=
  N + TRIES * Z.of_nat (length (relay_addrs (sh_net w.2))) + TRIES * Z.of_nat (length (relay_addrs (sh_net w.2))).

Lemma alive_less (w : world) N N' : N' <= N -> alive e w N -> alive e w N'.
Proof. intros L [? ? An ? ? ?]. constructor; try done. by eapply net_ok_less. Qed.

Lemma allocate_families_spec w N dual q lifetime r :
  alive e w (dual_room w N) -> 0 <= N -> client_known (default_relays cfg) (client_of w) (socks_of w) ->
  (exists F, families_agree cfg w STUN_ATTRIBUTE_REQUESTED_ADDRESS_FAMILY_VALUE_DEFAULT F) ->
  all_idle w -> 0 <= lifetime -> req_ok dual q -> resp r = None -> reason_ok (reason r) = true -> err_code r = 0 ->
  exists r' e4 e6 w', allocate_families cfg server e local_relay now w q lifetime r = Ret (r', e4, e6, 0, w') /\
    families_result w w' N (aq_transport q) lifetime r' /\ (dual = false -> e4 = 0 /\ e6 = 0).
Proof.
  intros A HN Ck [F Fd] Id Hl Rq Rp Rt Er. unfold allocate_families. destruct (rq_single _ q Rq) as [-> ->]. rewrite Er.
  unfold dual_room in A. set (T := TRIES * _) in *. assert (0 <= T) by (unfold T, TRIES; lia).
  assert (forall af mark F, af_ok af -> families_agree cfg w af F -> exists r' e4 e6 w',
    ('(w, token, err, text) ← allocate_family cfg server e local_relay now w lifetime af (aq_transport q) (-1) 0 0 mark 437 0 (reason r);
     Ret (fail_with r err text, 0, 0, token, w)) = Ret (r', e4, e6, 0, w') /\ families_result w w' N (aq_transport q) lifetime r' /\
     (dual = false -> e4 = 0 /\ e6 = 0)) as One.
  { intros af mark F' Af Fa.
    destruct (allocate_family_spec w N lifetime af (aq_transport q) mark 437 (reason r) F') as (w' & err & text & -> & Rt' & _ & St);
      [by eapply alive_less; [|exact A]; lia|done..|by intros ? ?; eapply Id|done|done|].
    mstep. eexists _, _, _, _. split; [done|]. split; [by eapply one_family|done]. }
  destruct (truthy (aq_af4 q)) eqn:T4; [destruct (truthy (aq_af6 q)) eqn:T6|destruct (truthy (aq_af6 q))]; cbn [negb andb].
  - destruct (allocate_family_spec w (N + T) lifetime STUN_ATTRIBUTE_REQUESTED_ADDRESS_FAMILY_VALUE_IPV4 (aq_transport q) AF_INET 440 "" AF_INET)
      as (w1 & err4 & text4 & -> & Rt4 & C4 & St4);
      [done|lia|right; by left|done|apply families_agree_ipv4|by intros ? ?; eapply Id|done|done|]. mstep.
    pose proof (fs_rest _ _ _ _ _ _ _ _ St4) as Sr. pose proof (fs_grew _ _ _ _ _ _ _ _ St4) as [Gs _ _].
    assert (client_of w1 = client_of w) as Ec by (pose proof (f_equal (fun l => client_socket (lf_ss l)) (sr_life _ _ Sr)) as X; exact X).
    assert (ss_ptr w1.1 = ss_ptr w.1) as Ep by (pose proof (f_equal ss_ptr (sr_life _ _ Sr)) as X; exact X).
    destruct (allocate_family_spec w1 N lifetime STUN_ATTRIBUTE_REQUESTED_ADDRESS_FAMILY_VALUE_IPV6 (aq_transport q) AF_INET6 440 "" AF_INET6)
      as (w2 & err6 & text6 & -> & Rt6 & C6 & St6).
    { rewrite (sr_relays _ _ Sr). apply St4. } { done. } { right. by right. } { rewrite Ec. by eapply client_known_kept. }
    { apply families_agree_ipv6. } { intros x. rewrite (fs_other _ _ _ _ _ _ _ _ St4) by done. apply Id. } { done. } { done. }
    mstep. eexists _, _, _, _. split; [done|]. split; [|intros D; destruct (rq_dual _ _ Rq D) as [Z|Z]; [rewrite Z in T4|rewrite Z in T6]; done].
    eapply (two_families w w1 w2 N (N + T)); try done.
    + unfold truthy. destruct (err4 =? 0), (err6 =? 0); simpl; try done; destruct text4, text6; simpl; done.
    + unfold truthy. destruct (err4 =? 0) eqn:E4, (err6 =? 0) eqn:E6; simpl; try done; destruct text4, text6; simpl; done.
    + unfold truthy. destruct (err4 =? 0) eqn:E4, (err6 =? 0) eqn:E6; bool_arith; simpl; try (split; [by auto|by intros _]);
        destruct text4, text6; simpl; (split; [lia|intros [?|?]; done]).
  - apply (One _ AF_INET AF_INET); [right; by left|apply families_agree_ipv4].
  - apply (One _ AF_INET6 AF_INET6); [right; by right|apply families_agree_ipv6].
  - assert (exists f, (if keep_address_family cfg then get_ioa_socket_address_family (rn_socks (sh_net w.2)) (client_socket (lf_ss w.1))
                       else Ret 0) = Ret f) as [f ->].
    { destruct (keep_address_family cfg); [|by eexists]. eapply client_family, A. }
    mstep. destruct (f =? AF_INET6); [apply (One _ AF_INET AF_INET6); [right; by right|apply families_agree_ipv6]|].
    destruct (f =? AF_INET); [apply (One _ AF_INET AF_INET); [right; by left|apply families_agree_ipv4]|].
    apply (One _ AF_INET F); [by left|done].
Qed.
End families.
