(* ===== verification/AllocateOutcome.v ===== *)
(** What a client gets for an Allocate or a Refresh request. *)

From stdpp Require Import base option numbers list sets strings gmap.
From S2P Require Import Prelude IoAddr StunAddr StunDefs StunMsg StunMsgFacts StunAuth StunBuild StunBuildFacts KeyMap TurnMaps TurnMapsFacts.
From S2P Require Import TurnPorts TurnPortsFacts SlotTable Timers Allocation AllocationFacts NetBuffer Sockets RelayEngine RelayEngineFacts.
From S2P Require Import TurnServer TurnServerFacts DataPath DataPathFacts ServerAuth ServerAuthFacts Allocate AllocateFacts AllocateHandler.

(** What the callbacks of the user database promise: they return. *)
Class QuotaLaws (Q : Type) {QT : Quotas Q} : Type := {
  quota_ready : Q -> Prop;
  chquotacb_returns q user oauth realm : quota_ready q -> exists b q', chquotacb q user oauth realm = Ret (b, q');
  raqcb_returns q user oauth realm : quota_ready q -> exists q', raqcb q user oauth realm = Ret q' }.

Section outcome.
Context {K U Q S : Type} {KN : Kernel K} {UM : UrMap U} {M : Malloc} {ML : MallocLaws} {QT : Quotas Q} {QL : QuotaLaws Q}.
Context {SM : KVStore Z Z S} {HK : HashKey Z} {SL : KVLaws Z Z S}.
Context (cfg : alloc_config) (server : turn_turnserver) (e : engine) (local_relay : Z -> option ioa_addr) (now : Z).
Abbreviation world := (life * shared K U Q S)%type.

(** The parts of the state that relay connections are made of. *)
Definition core (w : world) : allocation * Z * Z * Z * relay_net K U :=
  (lf_alloc w.1, ss_alloc_ptr (lf_ss w.1), ss_ptr w.1, client_socket (lf_ss w.1), sh_net w.2).

Lemma alive_core w w' N : core w' = core w -> alive e w N -> alive e w' N.
Proof.
  unfold core. intros [= E1 E2 E3 E4 E5] [Aa Ap An Ac Af As].
  constructor; unfold socks_of in *; rewrite ?E1, ?E2, ?E3, ?E4, ?E5; done.
Qed.

Lemma serves_core w0 w w' tr F lt : core w = core w0 -> serves server e w w' tr F lt -> serves server e w0 w' tr F lt.
Proof. unfold core, serves, socks_of. intros [= E1 E2 E3 E4 E5]. by rewrite E3, E5. Qed.

(** ** The addresses told to the client *)
Definition local_of (w : world) (i : nat) : option ioa_addr :=
  r ← relay_sessions (lf_alloc w.1) !! i;
  if rs_s r =? 0 then None else local_addr <$> socks_of w !! rs_s r.

Definition public (r : ioa_addr) : ioa_addr := match external_ip cfg with Some x => set_port x (get_port r) | None => r end.

Definition told (w : world) (i : nat) : option ioa_addr :=
  if truthy (default 0 (relay_sessions_failure (lf_alloc w.1) !! i)) then Some addr_zero else public <$> local_of w i.

Lemma local_spec w N F i r :
  alive e w N -> ALLOC_INDEX F = i -> relay_sessions (lf_alloc w.1) !! i = Some r ->
  get_relay_socket (lf_alloc w.1) F = Ret (rs_s r) /\ get_local_addr_from_ioa_socket (sh_net w.2) (rs_s r) = Ret (local_of w i, sh_net w.2) /\
  (forall a, local_of w i = Some a -> addr_wf a /\ known_family a).
Proof.
  intros A Hi Er. unfold get_relay_socket, local_of. rewrite Hi, (at_index_ret _ _ _ Er), Er. mstep. split; [done|]. simpl.
  destruct (al_sessions _ _ _ A i r Er) as [[Is _]|(_ & Ps & k & Ek & Rk)]; [by rewrite Is|].
  destruct Rk as [Op Ap Pa (B1 & B2 & B3) Se (F1 & F2 & W)]. destruct (is_open_live e k Op) as (M1 & D & _).
  destruct (rs_s r =? 0) eqn:?; [bool_arith; lia|]. rewrite Ek. simpl. split.
  - pose proof (get_sock_some _ _ _ Ps Ek) as G. unfold socks_of in G. unfold get_local_addr_from_ioa_socket. rewrite G.
    destruct (rs_s r =? 0) eqn:?; [done|]. mstep. rewrite M1, D, Pa. simpl. rewrite G. mstep. by rewrite B2.
  - intros a [= <-]. split; [done|]. unfold known_family. rewrite F2. destruct i; [by left|by right].
Qed.

Lemma xor_relayed_spec w N : alive e w N -> xor_relayed_addrs cfg w = Ret (told w 0, told w 1, w).
Proof.
  intros A. pose proof A as [[Ai _] _ _ _ Af _]. pose proof (inv_sessions _ Ai) as L2.
  destruct (relay_sessions (lf_alloc w.1) !! 0%nat) as [r0|] eqn:E0; [|apply lookup_ge_None in E0; lia].
  destruct (relay_sessions (lf_alloc w.1) !! 1%nat) as [r1|] eqn:E1; [|apply lookup_ge_None in E1; lia].
  destruct (relay_sessions_failure (lf_alloc w.1) !! 0%nat) as [f0|] eqn:F0; [|apply lookup_ge_None in F0; lia].
  destruct (relay_sessions_failure (lf_alloc w.1) !! 1%nat) as [f1|] eqn:F1; [|apply lookup_ge_None in F1; lia].
  destruct (local_spec w N AF_INET 0 r0 A eq_refl E0) as (S0 & G0 & _). destruct (local_spec w N AF_INET6 1 r1 A eq_refl E1) as (S1 & G1 & _).
  unfold xor_relayed_addrs. rewrite S0. mstep. rewrite G0. mstep. rewrite S1. mstep. rewrite G1. mstep.
  unfold get_relay_session_failure. change (ALLOC_INDEX AF_INET) with 0%nat. change (ALLOC_INDEX AF_INET6) with 1%nat.
  rewrite (at_index_ret _ _ _ F0), (at_index_ret _ _ _ F1). mstep. unfold told, public. rewrite F0, F1, set_net_same. done.
Qed.

Definition external_ok : Prop := forall x, external_ip cfg = Some x -> addr_ok x.

Lemma told_ok w N i a : external_ok -> alive e w N -> told w i = Some a -> addr_ok a.
Proof.
  intros X A. unfold told. destruct (truthy _).
  { intros [= <-]. split; [by apply addr_wfb_spec|]. right. by left. }
  destruct (local_of w i) as [b|] eqn:E; [|done]. intros [= <-].
  assert (addr_wf b /\ known_family b) as [W Kb].
  { unfold local_of in E. destruct (relay_sessions (lf_alloc w.1) !! i) as [r|] eqn:Er; [|done].
    assert (i = 0 \/ i = 1)%nat as Hi by (apply lookup_lt_Some in Er; rewrite (inv_sessions _ (proj1 (al_alloc _ _ _ A))) in Er; lia).
    assert (exists F, ALLOC_INDEX F = i) as [F HF] by (destruct Hi as [->| ->]; [by exists AF_INET|by exists AF_INET6]).
    destruct (local_spec w N F i r A HF Er) as (_ & _ & H). apply H. unfold local_of. by rewrite Er. }
  unfold public. destruct (external_ip cfg) as [x|] eqn:Ex.
  - destruct (X x Ex) as [Wx Fx]. split; [by apply set_port_wf|]. rewrite set_port_family. done.
  - split; [done|]. destruct Kb; auto.
Qed.

Lemma remote_spec (w : world) N : alive e w N ->
  exists refl, get_remote_addr_from_ioa_socket (socks_of w) (client_socket (lf_ss w.1)) = Ret refl /\ forall a, refl = Some a -> addr_ok a.
Proof.
  intros [_ _ _ [(k & Ek & Ok & _ & _ & C & _) P] _ _]. destruct (is_open_live e k Ok) as (M1 & D & _).
  unfold get_remote_addr_from_ioa_socket. rewrite (get_sock_some _ _ _ P Ek). destruct (_ =? 0) eqn:?; [bool_arith; lia|]. mstep.
  rewrite M1, D. simpl. destruct (connected k); eexists; (split; [done|]); [|done]. intros a [= <-]. by apply C.
Qed.

(** ** Quotas, bandwidth, mobile ids *)
(** The session has an allocation, or the user database grants one to [u]. *)
Definition granted_to (w : world) (u : list Z) : Prop :=
  quota_used w.1 = true \/ exists q, chquotacb (sh_quotas w.2) u (ss_oauth (lf_auth w.1)) (realm_name (lf_ss w.1)) = Ret (true, q).

Lemma inc_quota_spec (w : world) u : quota_ready (sh_quotas w.2) ->
  exists x w', inc_quota cfg w u = Ret (x, w') /\ core w' = core w /\ mobile_connections_map w'.2 = mobile_connections_map w.2 /\
    s_mobile_id w'.1 = s_mobile_id w.1 /\ max_session_time_auth w'.1 = max_session_time_auth w.1 /\
    (x = -1 \/ (x = 0 /\ quota_used w'.1 = true /\ granted_to w u)).
Proof.
  intros Rq. unfold inc_quota. destruct (quota_used w.1) eqn:Eu; [exists 0, w; do 5 (split; [done|]); right; do 2 (split; [done|]); by left|]. destruct (_ && _); [exists (-1), w; by auto 10|].
  destruct (chquotacb_returns (sh_quotas w.2) u (ss_oauth (lf_auth w.1)) (realm_name (lf_ss w.1)) Rq) as (b & q' & E). rewrite E. mstep.
  destruct b; eexists _, _; (split; [done|]); do 4 (split; [done|]); [right|left; done]. do 2 (split; [done|]). right. by exists q'.
Qed.

Lemma grant_bps_spec (w : world) bps r :
  exists r' w', grant_bps w bps r = (r', w') /\ core w' = core w /\ s_mobile_id w'.1 = s_mobile_id w.1 /\ quota_used w'.1 = quota_used w.1 /\
    mobile_connections_map w'.2 = mobile_connections_map w.2 /\ max_session_time_auth w'.1 = max_session_time_auth w.1 /\
    (r' = r \/ r' = fail_with r 486 "Allocation Bandwidth Quota Reached").
Proof.
  unfold grant_bps. cbv zeta. set (b := if truthy (max_bps w.1) && _ then _ else _). destruct (truthy b && _); [|by exists r, w; auto 10].
  destruct (allocate_bps_func (sh_quotas w.2) b true) as [got q]. eexists _, _. split; [done|]. do 5 (split; [done|]). destruct (got =? 0); auto.
Qed.

Lemma delete_mobile_spec (w : world) :
  kv_inv (mobile_connections_map w.2) -> ticket_ok (s_mobile_id w.1) ->
  exists w', delete_session_from_mobile_map w = Ret w' /\ core w' = core w /\ ticket_ok (s_mobile_id w'.1) /\
    kv_inv (mobile_connections_map w'.2) /\ (forall u, granted_to w' u -> granted_to w u) /\ sh_quotas w'.2 = sh_quotas w.2 /\
    max_session_time_auth w'.1 = max_session_time_auth w.1.
Proof.
  intros I T. unfold delete_session_from_mobile_map. destruct (truthy (mobile_id w.1)); [|by exists w].
  destruct (kv_del_ok (mobile_connections_map w.2) (mobile_id w.1) I) as (m & -> & Im & _). mstep. eexists. split; [done|].
  split; [done|]. split; [|done]. split; [split; constructor|done].
Qed.

(** ** The success response *)
Context (EM : addr_maps server = []) (X : external_ok).

Lemma encode_known tid a : addr_ok a -> exists v, stun_addr_encode (Some a) true STUN_MAGIC_COOKIE (Some tid) = Some v.
Proof. intros [_ [F|[F|F]]]; unfold stun_addr_encode; rewrite F; simpl; by eexists. Qed.

Definition done_world (w : world) (tid : list Z) : world := set_alloc w (set_tid (set_allocation_valid (lf_alloc w.1) 1) tid).

Lemma alive_done w tid N : alive e w N -> alive e (done_world w tid) N.
Proof.
  intros [[Ai At] Ap An Ac Af As]. constructor; try done. split; [|done].
  apply (alloc_inv_same (lf_alloc w.1)); [done|done|apply Ai|done].
Qed.

(** A success response whose attributes start with those listed. *)
Definition response (tid nbh : list Z) (attrs : list (Z * list Z)) (size : Z) (r : reply) : Prop :=
  exists m extra, resp r = Some m /\ mrepr m (success_msg STUN_METHOD_ALLOCATE tid (attrs ++ extra)) /\ mlen m <= size /\
    blen (mdata m) = blen nbh.

Lemma allocate_done_spec w N tid nbh rnd lifetime r :
  alive e w N -> ticket_ok (s_mobile_id w.1) -> request_args STUN_METHOD_ALLOCATE tid nbh rnd ->
  (told (done_world w tid) 0 <> None \/ told (done_world w tid) 1 <> None) ->
  exists r' refl, allocate_done cfg server w tid nbh rnd lifetime 0 r = Ret (r', done_world w tid) /\ err_code r' = err_code r /\
    response tid nbh (allocate_attrs tid (told (done_world w tid) 0) (told (done_world w tid) 1) refl (granted server lifetime)
      (s_mobile_id w.1)) 160 r'.
Proof.
  intros A T Ra Ne. pose proof (alive_done w tid N A) as A'. unfold allocate_done. cbv zeta. fold (done_world w tid).
  rewrite (xor_relayed_spec _ N A'). mstep. destruct (remote_spec _ N A') as (refl & Er & Hr). unfold socks_of in Er. rewrite EM.
  destruct (allocate_response_ret tid nbh rnd (told (done_world w tid) 0) (told (done_world w tid) 1) refl lifetime
              (max_allocate_lifetime server) (s_mobile_id w.1) Ra T) as (b & Eb & Rb & Lb & Db);
    [intros; by eapply told_ok|intros; by eapply told_ok|done|]. cbv zeta in Rb. fold (granted server lifetime) in Rb.
  set (x0 := told (done_world w tid) 0) in *. set (x1 := told (done_world w tid) 1) in *.
  assert (exists r', (refl ← get_remote_addr_from_ioa_socket (rn_socks (sh_net (done_world w tid).2)) (client_socket (lf_ss (done_world w tid).1));
    '(_, m) ← stun_set_allocate_response_str [] nbh (Some tid) x0 x1 refl lifetime (max_allocate_lifetime server) 0 None 0
                (Some (s_mobile_id (done_world w tid).1)) rnd;
    m ← (if truthy (ss_bps (done_world w tid).1) then '(_, m) ← stun_attr_add_bandwidth_str m (ss_bps (done_world w tid).1); Ret m else Ret m);
    Ret (Reply (err_code r) (reason r) (unknown_attrs r) (Some m), done_world w tid)) = Ret (r', done_world w tid) /\ err_code r' = err_code r /\
    response tid nbh (allocate_attrs tid x0 x1 refl (granted server lifetime) (s_mobile_id w.1)) 160 r') as (r' & E & Ec & Rr).
  { rewrite Er. mstep. change (s_mobile_id (done_world w tid).1) with (s_mobile_id w.1). rewrite Eb. mstep.
    destruct (truthy _).
    - unfold stun_attr_add_bandwidth_str. destruct Ra as [_ _ [_ L2000] _].
      set (v := to_be 4 (u32 (ss_bps (done_world w tid).1 ≫ 7))).
      destruct (add_step b _ STUN_ATTRIBUTE_NEW_BANDWIDTH v Rb) as (b' & Ea & R' & L' & D');
        try done; try apply bytes_ok_to_be; change (pad4 (blen v)) with 4 in *; unfold MAX_STUN_MESSAGE_SIZE; try lia.
      change (blen v) with 4 in Ea. rewrite Ea. mstep. eexists. split; [done|]. split; [done|].
      exists b', [(STUN_ATTRIBUTE_NEW_BANDWIDTH, v)]. split; [done|]. split; [exact R'|]. lia.
    - mstep. eexists. split; [done|]. split; [done|]. exists b, []. rewrite app_nil_r. split; [done|]. split; [done|]. lia. }
  exists r', refl. split; [|done]. destruct x0, x1; try exact E. destruct Ne; done.
Qed.

(** ADDRESS-ERROR-CODE is never added to the response: the length passed is
    less than the one in the header of the message, and the attribute is
    written to the byte before the message. *)
Lemma address_error_ub tid nbh attrs size r family err :
  response tid nbh attrs size r -> err <> 0 -> add_address_error r family err = UB.
Proof.
  intros (m & x & Er & R & L & D) Ne. unfold add_address_error. rewrite Er.
  assert (truthy err = true) as -> by (unfold truthy; by apply negb_true_iff, Z.eqb_neq).
  unfold stun_attr_add_address_error_code. destruct (default_reason_ok err) as [Hz Hl].
  destruct (error_value_spec (u8 family) err (get_default_reason err) Hz Hl) as (av & -> & La & _).
  destruct (pad4_spec (4 + blen (get_default_reason err))) as [Pa _]; [pose proof (blen_nonneg (get_default_reason err)); lia|].
  pose proof (blen_nonneg (get_default_reason err)) as Pr.
  pose proof (repr_len _ _ _ R) as Rl. pose proof (repr_len16 _ _ _ R) as Rl16. unfold stun_attr_add_str. cbn [mdata mlen].
  set (n := u64 (mlen m - STUN_CUSTOM_HEADER_LEN)). assert (n < mlen m) as Hn.
  { unfold n, STUN_CUSTOM_HEADER_LEN. rewrite u64_small by lia. lia. }
  assert (stun_get_command_message_len_str (mdata m) n = Ret (-1)) as ->.
  { pose proof (repr_command_len _ _ _ R) as Rc. unfold stun_get_command_message_len_str in *. destruct (n <? _) eqn:En; [done|].
    destruct (mlen m <? _) eqn:Em; bool_arith; [lia|]. destruct (rd16 (mdata m) 2) as [v| |]; [|done..]. revert Rc. mstep.
    destruct (_ >? mlen m); [intros [=]; lia|]. intros [= Ev]. destruct (v + _ >? n) eqn:?; bool_arith; [done|lia]. }
  mstep. destruct (_ <? 0) eqn:E0; bool_arith; [lia|]. set (nl := if truthy _ then _ else _).
  destruct (nl >=? MAX_STUN_MESSAGE_SIZE) eqn:Em; bool_arith.
  { exfalso. revert Em. unfold nl, MAX_STUN_MESSAGE_SIZE.
    assert (0 <= Z.land (-1 + 4 + pad4 (4 + blen (get_default_reason err))) 3) by (apply Z.land_nonneg; right; done).
    destruct (truthy _); lia. }
  unfold stun_set_command_message_len_str. destruct (nl <? _); [done|].
  destruct (wr_bytes (mdata m) 2 _) eqn:Ew; [done|done|]. unfold wr_bytes in Ew. by case_match.
Qed.

(** ** The whole request *)
Context (Lm : limits_ok server).

(** A client that asks for an allocation. *)
Record may_allocate (w : world) (N : Z) : Prop := MayAllocate {
  rd_alive : alive e w (dual_room w N) /\ 0 <= N;
  rd_idle : all_idle w /\ is_valid (lf_alloc w.1) = 0;
  rd_mobile : kv_inv (mobile_connections_map w.2) /\ ticket_ok (s_mobile_id w.1);
  rd_session : 0 <= max_session_time_auth w.1;
  rd_client : client_known (default_relays cfg) (client_of w) (socks_of w);
  rd_family : exists F, families_agree cfg w STUN_ATTRIBUTE_REQUESTED_ADDRESS_FAMILY_VALUE_DEFAULT F }.

(** No relay session, socket or port is left behind. *)
Record refused (w w' : world) : Prop := Refused {
  rf_valid : is_valid (lf_alloc w'.1) = 0;
  rf_idle : all_idle w';
  rf_timers : a_timers (lf_alloc w'.1) = a_timers (lf_alloc w.1);
  rf_net : net_same (sh_net w.2) (sh_net w'.2) }.

Record accepted (w w' : world) (tid : list Z) (tr F lifetime : Z) : Prop := Accepted {
  ac_valid : is_valid (lf_alloc w'.1) = 1 /\ a_tid (lf_alloc w'.1) = tid;
  ac_quota : quota_used w'.1 = true;
  ac_granted : exists u, granted_to w u;
  ac_serves : serves server e w w' tr F lifetime;
  ac_mark : relay_sessions_failure (lf_alloc w'.1) !! ALLOC_INDEX F = relay_sessions_failure (lf_alloc w.1) !! ALLOC_INDEX F }.

Lemma may_allocate_core w w' N :
  core w' = core w -> kv_inv (mobile_connections_map w'.2) -> ticket_ok (s_mobile_id w'.1) ->
  max_session_time_auth w'.1 = max_session_time_auth w.1 -> may_allocate w N -> may_allocate w' N.
Proof.
  intros E I T Em [[A HN] [Id V] _ Hm Ck Fd]. pose proof E as E'. unfold core in E'. injection E' as E1 E2 E3 E4 E5.
  constructor; unfold all_idle, dual_room, client_of, socks_of, families_agree in *; rewrite ?E1, ?E3, ?E4, ?E5, ?Em; try done.
  split; [by eapply alive_core|done].
Qed.

Lemma told_served w w' tr F lifetime :
  serves server e w w' tr F lifetime -> exists a, told w' (ALLOC_INDEX F) = Some a.
Proof.
  intros (s & h & k & a & p & H1 & H2 & _ & _ & H5 & _). unfold told. destruct (truthy _); [by eexists|]. unfold local_of.
  rewrite H1. simpl. destruct (s =? 0) eqn:?; [bool_arith; lia|]. rewrite H5. by eexists.
Qed.

Lemma lifetime_adjusted l m : 0 <= l -> 0 <= m -> 0 <= stun_adjust_allocate_lifetime l (max_allocate_lifetime server) m.
Proof.
  intros Hl Hm. destruct Lm as [_ Hx]. unfold stun_adjust_allocate_lifetime, STUN_DEFAULT_ALLOCATE_LIFETIME, STUN_MIN_ALLOCATE_LIFETIME.
  repeat if_case; lia.
Qed.

Lemma refused_core w w' : core w' = core w -> all_idle w -> is_valid (lf_alloc w.1) = 0 -> refused w w'.
Proof.
  unfold core. intros [= E1 E2 E3 E4 E5] Id V. constructor; unfold all_idle in *; rewrite ?E1, ?E5; try done.
Qed.

(** The result of the part that makes the connections. *)
Definition new_result (w w' : world) (N : Z) (tid nbh : list Z) (dual : bool) (r : reply) (e4 e6 : Z) : Prop :=
  alive e w' N /\ (dual = false -> e4 = 0 /\ e6 = 0) /\
  ((err_code r <> 0 /\ (resp r = None /\ reason_ok (reason r) = true) /\ refused w w') \/
   (err_code r = 0 /\ exists tr F lifetime refl, accepted w w' tid tr F lifetime /\
      response tid nbh (allocate_attrs tid (told w' 0) (told w' 1) refl (granted server lifetime) (s_mobile_id w'.1)) 160 r)).

Lemma allocate_new_spec w N dual q tid nbh rnd :
  may_allocate w N -> quota_ready (sh_quotas w.2) -> req_ok dual q -> err_code (aq_reply q) = 0 -> request_args STUN_METHOD_ALLOCATE tid nbh rnd ->
  exists r e4 e6 w', allocate_new cfg server e local_relay now w q tid nbh rnd = Ret (r, e4, e6, w') /\ new_result w w' N tid nbh dual r e4 e6.
Proof.
  intros Rw Qr Rq Ec Ra. unfold allocate_new. cbv zeta.
  assert (exists w1, (if ac_mobility cfg && negb (is_mobile (lf_ss w.1)) then delete_session_from_mobile_map w else Ret w) = Ret w1 /\
            core w1 = core w /\ (forall u, granted_to w1 u -> granted_to w u) /\ sh_quotas w1.2 = sh_quotas w.2 /\ may_allocate w1 N)
    as (w1 & -> & E1 & G1 & Q1 & R1).
  { destruct (_ && _); [|by exists w]. destruct (delete_mobile_spec w) as (w1 & E & C & T & I & G1 & Q1 & Mx); [apply Rw..|].
    exists w1. do 4 (split; [done|]). by apply (may_allocate_core w). }
  mstep. set (lifetime := stun_adjust_allocate_lifetime _ _ _).
  assert (0 <= lifetime) as Hl by (apply lifetime_adjusted; [apply Rq|apply R1]).
  destruct (inc_quota_spec w1 (aq_username q) ltac:(by rewrite Q1)) as (x & w2 & -> & E2 & Em & Es & Ex & Hx). mstep.
  assert (may_allocate w2 N) as R2 by (apply (may_allocate_core w1); [done|rewrite Em; apply R1|rewrite Es; apply R1|done|done]).
  assert (forall w' r, core w' = core w -> reason_ok (reason r) = true -> err_code r <> 0 -> resp r = None ->
            new_result w w' N tid nbh dual r 0 0) as Refuse.
  { intros w' r C Rr Ne Re. destruct Rw as [[A HN] [Id V] _ _ _ _]. split; [|split; [done|left; split; [done|split; [done|by apply refused_core]]]].
    eapply alive_core; [exact C|]. eapply alive_less; [|exact A]. unfold dual_room, TRIES. lia. }
  destruct Hx as [->|(-> & Hq & Gr)].
  { change (-1 <? 0) with true. cbn iota. eexists _, _, _, _. split; [done|].
    apply Refuse; [congruence|apply Rq|done|apply Rq]. }
  change (0 <? 0) with false. cbn iota.
  destruct (grant_bps_spec w2 (aq_bps q) (aq_reply q)) as (r & w3 & -> & E3 & Es3 & Eq3 & Em3 & Ex3 & Hr).
  set (both := truthy (aq_af4 q) && truthy (aq_af6 q)). set (r1 := if both && bool_decide _ then _ else r). set (r2 := if both && _ then _ else r1).
  assert (resp r2 = None /\ reason_ok (reason r2) = true) as [Rp2 Rr2].
  { destruct Rq. unfold r2, r1. destruct (both && _), (both && _); simpl; try done; destruct Hr as [->| ->]; done. }
  assert (core w3 = core w) as C3 by congruence.
  destruct (err_code r2 =? 0) eqn:E0; bool_arith.
  2: { mstep. destruct (truthy (err_code r2)) eqn:Et; [|unfold truthy in Et; bool_arith; done].
       eexists _, _, _, _. split; [done|]. apply Refuse; destruct (reason r2) eqn:Ers; rewrite ?Ers; done. }
  assert (may_allocate w3 N) as R3 by (apply (may_allocate_core w2); [done|rewrite Em3; apply R2|rewrite Es3; apply R2|done|done]).
  pose proof R3 as [[A3 HN] [Id3 V3] [_ T3] _ Ck3 Fd3].
  destruct (allocate_families_spec cfg server e local_relay now Lm w3 N dual q lifetime r2 A3 HN Ck3 Fd3 Id3 Hl Rq Rp2 Rr2 E0)
    as (r' & e4 & e6 & w4 & -> & [A4 S4 [Rp4 Rr4] Re] & Hd). mstep. unfold core in C3. pose proof C3 as C3'. injection C3' as c1 c2 c3 c4 c5.
  pose proof (f_equal s_mobile_id (sr_life _ _ S4)) as Sm4. pose proof (f_equal quota_used (sr_life _ _ S4)) as Sq4. simpl in Sm4, Sq4.
  destruct Re as [(Ne & Ns & Id & Ti)|(Ez & F & Sv & Mk)].
  - assert (truthy (err_code r') = true) as -> by (unfold truthy; by apply negb_true_iff, Z.eqb_neq).
    eexists _, _, _, _. split; [done|]. split; [done|]. split; [done|]. left. split; [by destruct (reason r')|].
    split; [by destruct (reason r') eqn:Ers; rewrite ?Ers|].
    constructor; [rewrite (sr_valid _ _ S4); done|done|rewrite Ti; congruence|by rewrite <- c5].
  - rewrite Ez. change (truthy 0) with false. cbn iota.
    destruct (told_served w3 (done_world w4 tid) (aq_transport q) F lifetime) as [a Ea]; [exact Sv|].
    destruct (allocate_done_spec w4 N tid nbh rnd lifetime r') as (r3 & refl & -> & Er3 & Rsp);
      [done|by rewrite Sm4|done| |]. { unfold ALLOC_INDEX in Ea. destruct (_ =? _) in Ea; rewrite Ea; by auto. }
    mstep. eexists _, _, _, _. split; [done|]. split; [by apply alive_done|]. split; [done|]. right. split; [congruence|].
    exists (aq_transport q), F, lifetime, refl. split; [|exact Rsp]. constructor; [done|simpl; congruence|by eexists; apply G1| |].
    + eapply serves_core; [|exact Sv]. unfold core. congruence.
    + change (relay_sessions_failure (lf_alloc (done_world w4 tid).1)) with (relay_sessions_failure (lf_alloc w4.1)). rewrite Mk. congruence.
Qed.

Lemma allocate_request_spec w N (dual : bool) tid buf len nbh rnd :
  may_allocate w N -> quota_ready (sh_quotas w.2) -> bytes_ok buf -> len <= blen buf -> absent buf len port_attrs ->
  (dual = false -> absent buf len [STUN_ATTRIBUTE_ADDITIONAL_ADDRESS_FAMILY]) -> request_args STUN_METHOD_ALLOCATE tid nbh rnd ->
  exists r e4 e6 w', allocate_request cfg server e local_relay now w tid buf len nbh rnd = Ret (r, e4, e6, w') /\
    new_result w w' N tid nbh dual r e4 e6.
Proof.
  intros Rw Qr B L Ab Ad Ra. pose proof Rw as [[A HN] [Id V] [Im Tm] _ _ _]. unfold allocate_request. cbv zeta.
  assert (exists t, get_ioa_socket_type (rn_socks (sh_net w.2)) (client_socket (lf_ss w.1)) = Ret t) as [cst ->].
  { destruct (al_client _ _ _ A) as [(k & Ek & _) P]. unfold get_ioa_socket_type. destruct (_ =? 0) eqn:?; [by eexists|].
    pose proof (get_sock_some _ _ _ P Ek) as G. unfold socks_of in G. rewrite G. by eexists. }
  mstep. set (q0 := AllocReq _ _ _ _ _ _ _ _ _ _ _ _). assert (req_ok dual q0) as R0 by (constructor; by try left).
  set (ts := if dual then port_attrs else port_attrs ++ [STUN_ATTRIBUTE_ADDITIONAL_ADDRESS_FAMILY]).
  assert (absent buf len ts) as At by (unfold ts; destruct dual; [done|intros t [Ht|Ht]%elem_of_app; [by apply Ab|by apply (Ad eq_refl)]]).
  assert (forall t, t ∈ port_attrs -> t ∈ ts) as Sub by (intros t Ht; unfold ts; destruct dual; [done|apply elem_of_app; by left]).
  destruct (attr_scan_absent buf len ts (fun q => scan_goes_on (aq_reply q)) (alloc_attr cfg server (client_socket (lf_ss w.1)) cst buf)
              (req_ok dual) B L) with (st := q0) as (q & -> & Rq).
  { intros fin a st Hf Va Na I G. eapply alloc_attr_ok; [done..|by intros t Ht; apply Na, Sub| |done|done].
    intros D. apply Na. unfold ts. rewrite D. apply elem_of_app. right. left. } { done. } { exact R0. }
  mstep. set (w1 := set_life w (life_ss w.1 (ss_flags (lf_ss w.1) (aq_tcp q) (aq_mobile q)))). assert (core w1 = core w) as C1 by done.
  assert (forall r, reason_ok (reason r) = true -> err_code r <> 0 -> resp r = None ->
            exists r' e4 e6 w', Ret (r, 0, 0, w1) = Ret (r', e4, e6, w') /\ new_result w w' N tid nbh dual r' e4 e6) as Refuse.
  { intros r Rr Ne Re. eexists _, _, _, _. split; [done|]. split; [|split; [done|left; split; [done|split; [done|by apply refused_core]]]].
    eapply alive_core; [exact C1|]. eapply alive_less; [|exact A]. unfold dual_room, TRIES. lia. }
  pose proof Rq as [_ q1 q2 q3 q4 q5].
  destruct (aq_transport q =? 0); [apply Refuse; [by destruct (reason (aq_reply q)) eqn:Ers; rewrite ?Ers|done|done]|].
  destruct (0 <? blen _); [by apply Refuse|].
  destruct (truthy (err_code (aq_reply q))) eqn:Et.
  { apply Refuse; [done| |done]. intros E. by rewrite E in Et. }
  destruct (_ && _); [apply Refuse; [by destruct (reason (aq_reply q)) eqn:Ers; rewrite ?Ers|done|done]|].
  destruct (allocate_new_spec w1 N dual q tid nbh rnd) as (r & e4 & e6 & w' & E & A' & Hd & Res); try done.
  { by apply (may_allocate_core w). } { unfold truthy in Et. by bool_arith. }
  exists r, e4, e6, w'. split; [exact E|]. split; [done|]. split; [done|]. destruct Res as [(Ne & Re & [f1 f2 f3 f4])|(Ez & tr & F & lt & refl & [a1 a2 a3 a4 a5] & Rs)].
  - left. split; [done|]. split; [done|]. by constructor.
  - right. split; [done|]. exists tr, F, lt, refl. split; [|done]. constructor; try done.
Qed.

(** The answer of the handler when it gives one. *)
Definition answered (w w' : world) (tid nbh : list Z) (r : reply) : Prop :=
  (err_code r <> 0 /\ refused w w' /\ exists m text, resp r = Some m /\ mrepr m (error_msg STUN_METHOD_ALLOCATE tid (u16 (err_code r)) text [])) \/
  (err_code r = 0 /\ exists tr F lifetime refl, accepted w w' tid tr F lifetime /\
     response tid nbh (allocate_attrs tid (told w' 0) (told w' 1) refl (granted server lifetime) (s_mobile_id w'.1)) 160 r).

Lemma handle_allocate_spec w N (dual : bool) tid buf len nbh rnd :
  may_allocate w N -> quota_ready (sh_quotas w.2) -> bytes_ok buf -> len <= blen buf -> absent buf len port_attrs ->
  (dual = false -> absent buf len [STUN_ATTRIBUTE_ADDITIONAL_ADDRESS_FAMILY]) -> request_args STUN_METHOD_ALLOCATE tid nbh rnd ->
  (exists r w', handle_turn_allocate cfg server e local_relay now w tid buf len nbh rnd = Ret (r, w') /\ alive e w' N /\ answered w w' tid nbh r) \/
  (dual = true /\ handle_turn_allocate cfg server e local_relay now w tid buf len nbh rnd = UB).
Proof.
  intros Rw Qr B L Ab Ad Ra. unfold handle_turn_allocate. pose proof (proj2 (rd_idle _ _ Rw)) as V. unfold is_allocation_valid. rewrite V.
  change (truthy 0) with false. cbn iota.
  destruct (allocate_request_spec w N dual tid buf len nbh rnd Rw Qr B L Ab Ad Ra) as (r & e4 & e6 & w' & -> & A' & Hd & Res). mstep.
  destruct Res as [(Ne & [Re Rr] & Rf)|(Ez & tr & F & lt & refl & Ac & Rs)].
  - left. rewrite Re. assert ((err_code r =? 0) = false) as -> by by apply Z.eqb_neq. unfold stun_set_allocate_response_str.
    assert ((err_code r =? 0) = false) as -> by by apply Z.eqb_neq.
    destruct (error_response_ret STUN_METHOD_ALLOCATE tid nbh rnd r (u16 (err_code r)) Ra Rr) as (m & -> & Rm & _). mstep.
    eexists _, _. split; [done|]. split; [done|]. left. split; [done|]. split; [done|]. eexists m, _. split; [done|exact Rm].
  - pose proof Rs as (m & x & Em & _). rewrite Em, Ez. change (0 =? 0) with true. cbn iota.
    destruct (decide (e4 = 0)) as [->|N4].
    2: { right. rewrite (address_error_ub _ _ _ _ _ _ _ Rs N4). split; [|done]. destruct dual; [done|]. by destruct (Hd eq_refl). }
    assert (forall f, add_address_error r f 0 = Ret r) as No by (intros; unfold add_address_error; by rewrite Em). rewrite No. mstep.
    destruct (decide (e6 = 0)) as [->|N6].
    2: { right. rewrite (address_error_ub _ _ _ _ _ _ _ Rs N6). split; [|done]. destruct dual; [done|]. by destruct (Hd eq_refl). }
    rewrite No. mstep. left. eexists _, _. split; [done|]. split; [done|]. right. split; [done|]. by exists tr, F, lt, refl.
Qed.

Lemma attrs_relayed tid x0 x1 refl lt sid i a v :
  (i = 0 \/ i = 1)%nat -> (if i is O then x0 else x1) = Some a -> stun_addr_encode (Some a) true STUN_MAGIC_COOKIE (Some tid) = Some v ->
  (STUN_ATTRIBUTE_XOR_RELAYED_ADDRESS, v) ∈ allocate_attrs tid x0 x1 refl lt sid.
Proof.
  intros Hi E Ev. unfold allocate_attrs. destruct Hi as [->| ->]; subst; rewrite !elem_of_app; [left|right; left];
    unfold addr_attr; rewrite Ev; left.
Qed.

End outcome.

(** ** Instances *)
#[local] Instance ex_store : KVStore Z Z (gmap Z Z) := {|
  kv_inv _ := True;
  kv_value_ok _ := True;
  kv_abs m k := m !! k;
  kv_get m k := Ret (m !! k);
  kv_put m k v := Ret (<[k := v]> m);
  kv_del m k := Ret (delete k m) |}.

#[local] Instance ex_store_laws : KVLaws Z Z (gmap Z Z).
Proof.
  constructor; [done|..].
  - intros m k v _ _ _. exists (<[k := v]> m). split; [done|]. split; [done|]. intros k'. simpl. destruct (k =? k') eqn:E; bool_arith.
    + subst. apply lookup_insert_eq.
    + by apply lookup_insert_ne.
  - intros m k _. exists (delete k m). split; [done|]. split; [done|]. intros k'. simpl. destruct (k =? k') eqn:E; bool_arith.
    + subst. apply lookup_delete_eq.
    + by apply lookup_delete_ne.
Qed.

(** A database that counts the allocations and allows [2] of them. *)
#[local] Instance ex_quotas : Quotas Z := {|
  chquotacb n _ _ _ := Ret (if n <? 2 then (true, n + 1) else (false, n));
  raqcb n _ _ _ := Ret (n - 1);
  allocate_bps_func n bps add := (bps, n) |}.

#[local] Instance ex_quota_laws : QuotaLaws Z.
Proof. exists (fun _ => True); intros; simpl; [destruct (_ <? _); by eexists _, _|by eexists]. Defined.

Definition ex_cfg : alloc_config := AllocConfig false false false None false TURN_CREDENTIALS_NONE false.

Definition ex_alloc_server : turn_turnserver :=
  TurnServer true false [] [] [] [] 300 600 1000 1000 false false [] 1 true false 3600.

Definition ex_alloc_engine : engine := Engine 1 (fun _ => 0) true false true 1 1 1.

(** The client's socket is 5. *)
Definition ex_client : ioa_socket :=
  IoaSocket 3 0 true false AF_INET UDP_SOCKET CLIENT_SOCKET false (ex_v4 192 0 2 1 3478) true (ex_v4 198 51 100 7 5000) true false 1 0
    false false false 64 64 0 0 0 (TrafficBytes 0 0) (TrafficBytes 0 0) true true true.

Definition ex_life (failure : list Z) : life :=
  Life (Session 1 (Allocation 0 (zeros 12) init_turn_permission_hashtable (replicate 2 (RelaySession 0 0 0)) failure ch_map_zero 1 [])
          2 false false 5 [] false false)
    (AuthSession [] 0 [] [] false [] false []) true 9 false 0 0 0 0 0 [] false.

(** The kernel refuses the first port. *)
Definition ex_shared_of {Q} (q : Q) : shared Z (list (Z * rtcp_alloc_type)) Q (gmap Z Z) :=
  Shared (net_socks (ex_net 1) {[5 := ex_client]}) q ∅ ∅.
Definition ex_shared : shared Z (list (Z * rtcp_alloc_type)) Z (gmap Z Z) := ex_shared_of 0.

Definition ex_allocate : list Z := [0; 3; 0; 16] ++ to_be 4 STUN_MAGIC_COOKIE ++ zeros 12 ++
  [0; 0x19; 0; 4; 17; 0; 0; 0] ++ [0; 0x0D; 0; 4; 0; 0; 7; 8].

Lemma ex_alive {Q} (q : Q) failure N : length failure = 2%nat -> N <= 1000000 -> alive ex_alloc_engine (ex_life failure, ex_shared_of q) N.
Proof.
  intros Lf HN. constructor; try done.
  - destruct (init_allocation_ok 1) as [I T]. split; [apply (alloc_inv_same (init_allocation 1)); done|exact T].
  - destruct (net_ok_less _ 1000000 N HN (ex_net_ok 1)) as [n1 n2 n3 n4 n5 n6]. constructor; try done.
  - constructor; [|done]. exists ex_client. split; [done|]. split; [done|]. do 2 (split; [done|]). split; [intros _; split; [by apply addr_wfb_spec|by left]|by left].
  - intros i r. destruct i as [|[|i]]; simpl; intros [= <-]; by left.
Qed.

Lemma ex_may_allocate {Q} (q : Q) failure : length failure = 2%nat -> may_allocate ex_cfg ex_alloc_engine (ex_life failure, ex_shared_of q) 100.
Proof.
  intros Lf. constructor; try done.
  - split; [|done]. apply ex_alive; [done|vm_compute; congruence].
  - split; [|done]. intros i r. destruct i as [|[|i]]; simpl; intros [= <-]; done.
  - split; [done|]. split; [split; constructor|done].
  - exists AF_INET. split; [reflexivity|]. split; [by left|]. intros a (_ & _ & _ & H & _). apply H; [done|done|].
    exists ex_relay. split; [left|done].
Qed.

Lemma ex_limits : limits_ok ex_alloc_server.
Proof. constructor; [constructor; vm_compute; split; congruence|vm_compute; split; congruence]. Qed.

Lemma ex_allocate_plain : absent ex_allocate (blen ex_allocate) (STUN_ATTRIBUTE_ADDITIONAL_ADDRESS_FAMILY :: port_attrs).
Proof.
  intros t [->|[->|Ht]%elem_of_cons]%elem_of_cons; [vm_compute; reflexivity..|]. apply list_elem_of_singleton in Ht as ->. vm_compute. reflexivity.
Qed.

Lemma ex_allocate_args : request_args STUN_METHOD_ALLOCATE (zeros 12) (zeros 2000) (zeros 12).
Proof. constructor; try done; by split; [apply bytes_okb_spec|]. Qed.

Definition ex_allocated (failure : list Z) : outcome (reply * (life * shared Z (list (Z * rtcp_alloc_type)) Z (gmap Z Z))) :=
  handle_turn_allocate (KN := ex_kernel) (UM := ex_reservations) (M := bump) ex_cfg ex_alloc_server ex_alloc_engine
    (fun _ => None) 1000 (ex_life failure, ex_shared) (zeros 12) ex_allocate (blen ex_allocate) (zeros 2000) (zeros 12).

Lemma ex_allocated_addr :
  match ex_allocated [0; 0] with
  | Ret (r, w') => err_code r = 0 /\ local_of w' 0 = Some (ex_v4 192 0 2 1 49154) /\ local_of w' 1 = None
  | _ => False
  end.
Proof. vm_compute. auto. Qed.


(** A kernel that has no descriptor for the first [n] sockets. *)
Definition ex_exhausted : Kernel Z := {|
  k_socket n _ _ := if 0 <? n then (-1, n - 1) else (4, n);
  k_bind n _ _ _ := (true, n);
  k_name _ _ := None;
  k_ttl _ _ _ := 64;
  k_tos _ _ _ := 0;
  k_random n := (fun i => (Z.of_nat i, 3), n) |}.

Definition ex_exhausted_allocate (w : life * shared Z (list (Z * rtcp_alloc_type)) Z (gmap Z Z)) :=
  handle_turn_allocate (KN := ex_exhausted) (UM := ex_reservations) (M := bump) ex_cfg ex_alloc_server ex_alloc_engine
    (fun _ => None) 1000 w (zeros 12) ex_allocate (blen ex_allocate) (zeros 2000) (zeros 12).

(** The mark that a failed Allocate request leaves is never cleared: the client
    tries again when the kernel has descriptors, gets a relay socket on
    192.0.2.1:49154 and a success response, but the relayed address in it is
    0.0.0.0:0. *)
Theorem failed_allocate_hides_address :
  match ex_exhausted_allocate (ex_life [0; 0], ex_shared) with
  | Ret (r1, w1) => err_code r1 = 508 /\
      match ex_exhausted_allocate w1 with
      | Ret (r2, w2) => err_code r2 = 0 /\ local_of w2 0 = Some (ex_v4 192 0 2 1 49154) /\
          match resp r2 with
          | Some m => stun_attr_get_first_addr_str [] (mdata m) (mlen m) STUN_ATTRIBUTE_XOR_RELAYED_ADDRESS None = Ret (Some (ex_v4 0 0 0 0 0))
          | None => False
          end
      | _ => False
      end
  | _ => False
  end.
Proof. vm_compute. auto. Qed.

(** A request for both families of a server that has an IPv4 relay address. *)
Definition ex_dual : list Z := [0; 3; 0; 16] ++ to_be 4 STUN_MAGIC_COOKIE ++ zeros 12 ++
  [0; 0x19; 0; 4; 17; 0; 0; 0] ++ [0x80; 0x32; 0; 4; 2; 0; 0; 0].

(** When one of the two families fails the response is overwritten: the error
    code of the family is written from the byte before the message on. *)
Theorem partial_dual_corrupts_response :
  handle_turn_allocate (KN := ex_kernel) (UM := ex_reservations) (M := bump) ex_cfg ex_alloc_server ex_alloc_engine
    (fun _ => None) 1000 (ex_life [0; 0], ex_shared) (zeros 12) ex_dual (blen ex_dual) (zeros 2000) (zeros 12) = UB.
Proof. vm_compute. reflexivity. Qed.
