(* ===== verification/AuthFlow.v ===== *)
(** The way of a request through the authentication thread: the check that
    postpones it ([check_stun_auth] of ServerAuth), the question
    ([start_user_check] of apps/relay/userdb.c), the answer
    ([auth_server_receive_message] of apps/relay/netengine.c, with
    [get_user_key] of UserKey) and the session that takes it
    ([resume_processing_after_username_check] of server/ns_turn_server.c),
    after which the message is read again.

    Messages between the threads are values: the queues of libevent keep their
    order. *)

From stdpp Require Import base option numbers list strings gmap.
From S2P Require Import Prelude IoAddr StunAddr StunDefs StunMsg StunMsgFacts StunFraming StunAuth StunAuthFacts StunBuild OAuth.
From S2P Require Import KeyMap TurnMaps Base64 TurnPorts SlotTable Timers Allocation NetBuffer Sockets RelayEngine TurnServer TurnServerFacts.
From S2P Require Import DataPath ServerAuth ServerAuthFacts UserDb UserDbFacts UserKey UserKeyFacts Allocate.

Definition STUN_MAX_PWD_SIZE : Z := 256.
Definition TURNSERVER_ID_BOUNDARY_BETWEEN_TCP_AND_UDP : Z := 0x80.

(** [resume_func] is always [resume_processing_after_username_check]. *)
Record auth_message : Type := AuthMessage {
  am_id : Z;
  am_ct : turn_credential_type;
  am_in_oauth : bool;
  am_out_oauth : bool;
  am_max_session_time : Z;
  am_username : list Z;
  am_realm : list Z;
  am_key : list Z;
  am_pwd : list Z;
  am_in_buffer : ioa_net_data;
  am_ctxkey : Z;
  am_success : bool }.

(** The message, and [*postpone_reply] with the OAuth flag, which it leaves. *)
Definition start_user_check (id : Z) (ct : turn_credential_type) (in_oauth out_oauth : bool) (usname realm : list Z)
    (in_buffer : ioa_net_data) (ctxkey : Z) : auth_message * (bool * bool) :=
  (AuthMessage id ct in_oauth out_oauth 0 (take (Z.to_nat STUN_MAX_USERNAME_SIZE) (cstr usname)) (realm_strcpy realm)
     (zeros (Z.to_nat HMACKEY_SIZE)) (zeros (Z.to_nat (STUN_MAX_PWD_SIZE + 1))) in_buffer ctxkey false, (true, out_oauth)).

Section auth_thread.
Context {C : Crypto} {E : Evp}.
Context (tp : turn_params) (dbd : dbdriver) (rdb : ram_db).

(** What the thread fills in; [key0] is the array [key], [decoded0] and [pwdtmp]
    are the local arrays of [get_user_key]. *)
Definition auth_answer (now ctime : Z) (key0 decoded0 pwdtmp : list Z) (am : auth_message) : outcome auth_message :=
  inb ← the_nbh (am_in_buffer am);
  buf ← nb_from inb (ioa_network_buffer_data inb);
  u ← get_user_key tp dbd rdb now (am_in_oauth am) (am_out_oauth am) ctime (am_username am) (am_realm am) key0 buf
        (ioa_network_buffer_get_size inb) decoded0 pwdtmp;
  let success := negb (uk_ret u <? 0) in
  Ret (AuthMessage (am_id am) (am_ct am) (am_in_oauth am) (uk_oauth u) (uk_max_session_time u) (am_username am) (uk_realm u)
         (if success then uk_key u else am_key am) (am_pwd am) (am_in_buffer am) (am_ctxkey am) success).

(** The relay thread the answer goes to: its kind and number.  [udp] and
    [general] tell which of the threads run. *)
Definition auth_output (general udp : list bool) (am : auth_message) : option (bool * Z) :=
  let dest := am_id am in
  let pick (is_udp : bool) (rs : list bool) dest :=
    if dest >=? blen rs then None
    else match rs !! Z.to_nat dest with Some true => Some (is_udp, dest) | _ => None end in
  if dest >=? TURNSERVER_ID_BOUNDARY_BETWEEN_TCP_AND_UDP then pick true udp (dest - TURNSERVER_ID_BOUNDARY_BETWEEN_TCP_AND_UDP)
  else pick false general dest.

(** All messages that wait: what is sent, in order. *)
Fixpoint auth_server_receive_message (general udp : list bool) (now ctime : Z) (key0 decoded0 pwdtmp : list Z)
    (input : list auth_message) : outcome (list ((bool * Z) * auth_message)) :=
  match input with
  | [] => Ret []
  | am :: input =>
      am ← auth_answer now ctime key0 decoded0 pwdtmp am;
      rest ← auth_server_receive_message general udp now ctime key0 decoded0 pwdtmp input;
      match auth_output general udp am with
      | Some d => Ret ((d, am) :: rest)
      | None => Ret rest
      end
  end.
End auth_thread.

Definition life_auth (l : life) (a : auth_session) (t bps : Z) : life :=
  Life (Session (ss_id (lf_ss l)) (ss_alloc (lf_ss l)) (ss_alloc_ptr (lf_ss l)) (is_tcp_relay (lf_ss l)) (is_mobile (lf_ss l))
          (client_socket (lf_ss l)) (realm_options_name a) (to_be_closed (lf_ss l)) (enforce_fingerprints (lf_ss l)))
    a (lf_origin_set l) (ss_ptr l) (quota_used l) t bps (ss_bps l) (mobile_id l) (old_mobile_id l) (s_mobile_id l)
    (to_be_allocated_timeout_ev l).

(** The credentials of the session as the check sees them. *)
Definition life_credentials (l : life) : auth_session := with_realm (lf_auth l) (realm_name (lf_ss l)).

Section resume.
Context {K U Q S : Type} {KN : Kernel K} {UM : UrMap U} {M : Malloc} {QT : Quotas Q} {SM : KVStore Z Z S} {C : Crypto}.
Context (cfg : alloc_config).

(** [get_realm_options_by_name]: the name and [max_bps]. *)
Context (realm_options_of : Q -> list Z -> outcome (list Z * Z * Q)).

(** The session takes the answer: the lines before the message is read again. *)
Definition resume_session (am : auth_message) (w : life * shared K U Q S) : outcome (life * shared K U Q S) :=
  if am_success am then
    let a := life_credentials w.1 in
    let a := AuthSession (nonce a) (nonce_expiration_time a) (username a) (am_key am) true (am_pwd am) (am_out_oauth am)
               (realm_options_name a) in
    let w := set_life w (life_auth w.1 a (u32 (am_max_session_time am)) (max_bps w.1)) in
    if negb (hd 0 (am_realm am) =? 0) && negb (strcmp (am_realm am) (realm_name (lf_ss w.1)) =? 0) then
      w ← dec_quota w;
      '(name, bps, q) ← realm_options_of (sh_quotas w.2) (am_realm am);
      let w := set_quotas w q in
      let w := set_life w (life_auth w.1 (with_realm (lf_auth w.1) name) (max_session_time_auth w.1) bps) in
      '(_, w) ← inc_quota cfg w (username (lf_auth w.1));
      Ret w
    else Ret w
  else Ret w.

(** One check of a request of the session, in the thread [id]. *)
Definition check_life (realm_by_name : list Z -> list Z) (id : Z) (server : auth_server) (w : life * shared K U Q S)
    (in_buffer : ioa_net_data) (tid buf : list Z) (len : Z) (nbh : list Z) (method : Z) (can_resume : bool) (rnd : Z * Z) (rnd_tid : list Z) :
    outcome (auth_result * (life * shared K U Q S)) :=
  res ← check_stun_auth
          (fun a us realm => (start_user_check id (as_ct server) (as_oauth server) (ss_oauth a) us realm in_buffer (ss_id (lf_ss w.1))).2)
          realm_by_name server (life_credentials w.1) no_reply tid buf len nbh method can_resume rnd rnd_tid;
  Ret (res, set_life w (life_auth w.1 (ar_session res) (max_session_time_auth w.1) (max_bps w.1))).
End resume.
