(* ===== verification/AuthFlowFacts.v ===== *)
(** Both passes of a request over the authentication thread: a request that the
    first check postpones is served after the answer exactly when its
    credentials are right. *)

From stdpp Require Import base option numbers list strings gmap.
From S2P Require Import Prelude IoAddr StunAddr StunDefs StunMsg StunMsgFacts StunFraming StunAuth StunAuthFacts StunBuild StunBuildFacts OAuth OAuthFacts.
From S2P Require Import KeyMap TurnMaps Base64 TurnPorts SlotTable Timers Allocation NetBuffer Sockets RelayEngine TurnServer TurnServerFacts.
From S2P Require Import DataPath ServerAuth ServerAuthFacts UserDb UserDbFacts UserKey UserKeyFacts Allocate AllocateOutcome AuthFlow.

(** The message has all attributes of credentials, those of the session [a]. *)
Record complete (buf : list Z) (len : Z) (a : auth_session) : Prop := Complete {
  cm_integrity : exists p, stun_attr_get_first_by_type_str buf len STUN_ATTRIBUTE_MESSAGE_INTEGRITY = Ret (Some p) /\
    stun_attr_get_len buf (Some p) = Ret SHA1SIZEBYTES;
  cm_realm : exists p, stun_attr_get_first_by_type_str buf len STUN_ATTRIBUTE_REALM = Ret (Some p) /\
    copy_attr buf p (STUN_MAX_REALM_SIZE + 1) = Ret (realm_options_name a) /\ is_secure_string (realm_options_name a) false = true;
  cm_username : exists p, stun_attr_get_first_by_type_str buf len STUN_ATTRIBUTE_USERNAME = Ret (Some p) /\
    copy_attr buf p (STUN_MAX_USERNAME_SIZE + 1) = Ret (username a) /\ is_secure_string (username a) true = true;
  cm_nonce : exists p n, stun_attr_get_first_by_type_str buf len STUN_ATTRIBUTE_NONCE = Ret (Some p) /\
    copy_attr buf p (STUN_MAX_NONCE_SIZE + 1) = Ret n }.

Section passes.
Context {C : Crypto} {CL : CryptoLaws C}.
Context (userkeycb : auth_session -> list Z -> list Z -> bool * bool) (realm_by_name : list Z -> list Z).
Context (server : auth_server) (tid buf nbh rnd_tid : list Z) (len method : Z).
Hypothesis Hserver : auth_server_ok server.
Hypothesis Hbytes : bytes_ok buf.
Hypothesis Hlen : len <= blen buf.
Hypothesis Hargs : request_args method tid nbh rnd_tid.
Hypothesis Hmethod : method <> STUN_METHOD_CONNECTION_BIND.

Lemma check_realm_pass a realm a' used :
  auth_session_ok a -> nonzero_bytes realm -> ss_oauth a = false ->
  check_realm realm_by_name a no_reply method realm = (a', inl used) -> a' = a /\ used = realm /\ realm = realm_options_name a /\
    is_secure_string realm false = true.
Proof.
  intros Ha Hr Ho. unfold check_realm. destruct (is_secure_string realm false); cbn [negb]; [|intros [= _ [=]]].
  destruct (method =? STUN_METHOD_CONNECTION_BIND) eqn:?; bool_arith; [done|].
  destruct (strcmp realm (realm_options_name a) =? 0) eqn:E; cbn [negb]; bool_arith.
  - intros [= <- <-]. split_and!; try done. by apply strcmp_eq in E; [|done|apply Ha].
  - rewrite Ho. cbn [negb]. destruct (_ =? _); intros [= _ [=]].
Qed.

Lemma check_username_pass a us a' :
  auth_session_ok a -> nonzero_bytes us -> ss_oauth a = false ->
  check_username a no_reply method us = (a', None) -> a' = with_username a us (hmackey_set a) /\ is_secure_string us true = true.
Proof.
  intros Ha Hu Ho. unfold check_username. destruct (is_secure_string us true); cbn [negb]; [|intros [=]].
  case_bool_decide as En; cbn [negb]; [by intros [= <-]|].
  destruct (strcmp (username a) us =? 0) eqn:E; cbn [negb]; bool_arith.
  - apply strcmp_eq in E; [|apply Ha|done]. intros [= <-]. split; [|done]. subst us. by destruct a.
  - rewrite Ho. destruct (_ =? _); intros [=].
Qed.

Lemma no_postpone_challenge a res :
  (r ← create_challenge_response server a (fail_with no_reply 401 (reason no_reply)) tid nbh method rnd_tid; Ret (AuthResult a r false false))
    = Ret res -> postpone_reply res = false /\ message_integrity res = false.
Proof. destruct (create_challenge_response _ _ _ _ _ _ _); mstep; intros [=]; by subst. Qed.

(** What a postponed request has: the callback was asked about the user and the
    realm that are now the session's. *)
Lemma postponed_complete a rnd res :
  auth_session_ok a -> times_ok server a -> ss_oauth a = false -> (forall a us r, (userkeycb a us r).2 = ss_oauth a) ->
  check_stun_auth userkeycb realm_by_name server a no_reply tid buf len nbh method true rnd rnd_tid = Ret res -> postpone_reply res = true ->
  complete buf len (ar_session res) /\ auth_session_ok (ar_session res) /\ ss_oauth (ar_session res) = false /\
  message_integrity res = false /\ (userkeycb (ar_session res) (username (ar_session res)) (realm_options_name (ar_session res))).1 = true /\
  hmackey (ar_session res) = hmackey a /\
  ((hmackey_set (ar_session res) || negb (hd 0 (pwd (ar_session res)) =? 0)) = true -> ~ signed (slice (hmackey a) 0 16) buf len).
Proof.
  intros Ha Ht Ho Hcb. unfold check_stun_auth, need_stun_authentication. rewrite bool_decide_true by apply Hserver.
  destruct (renew_nonce_ret server a rnd Hserver Ha Ht) as (n & t & -> & H0 & Hn). mstep. cbv zeta.
  assert (ss_oauth (with_nonce a n t) = false) as O0 by done. assert (hmackey (with_nonce a n t) = hmackey a) as K0 by done.
  revert H0 O0 K0. generalize (with_nonce a n t). intros a0 H0 O0 K0. cbn [negb].
  destruct (search_by_type_safe buf len STUN_ATTRIBUTE_MESSAGE_INTEGRITY Hbytes Hlen) as ([p|] & Ep & Hp); rewrite Ep; mstep.
  2: { intros E P. apply no_postpone_challenge in E. destruct E. congruence. }
  destruct (Hp p eq_refl) as (l & Hp20 & _ & El & _). rewrite El. mstep.
  destruct (l =? SHA1SIZEBYTES) eqn:El20; cbn [negb]; [|intros E P; apply no_postpone_challenge in E; destruct E; congruence].
  destruct (string_attr buf len STUN_ATTRIBUTE_REALM (STUN_MAX_REALM_SIZE + 1)) as ([ra|] & Era & Hra); try done;
    rewrite Era; mstep; [|intros [= <-]; done].
  destruct (Hra ra eq_refl) as (realm & Ecr & Hrz & Hrl). rewrite Ecr. mstep.
  destruct (check_realm realm_by_name a0 no_reply method realm) as [a1 [used|e]] eqn:Er; [|by intros [= <-]].
  destruct (check_realm_pass a0 realm a1 used H0 Hrz O0 Er) as (-> & -> & -> & Rs). clear Er.
  destruct (string_attr buf len STUN_ATTRIBUTE_USERNAME (STUN_MAX_USERNAME_SIZE + 1)) as ([ua|] & Eua & Hua); try done;
    rewrite Eua; mstep; [|by intros [= <-]].
  destruct (Hua ua eq_refl) as (us & Ecu & Huz & Hul). rewrite Ecu. mstep.
  destruct (check_username a0 no_reply method us) as [a2 [e|]] eqn:Eu; [by intros [= <-]|].
  destruct (check_username_pass a0 us a2 H0 Huz O0 Eu) as (-> & Us). clear Eu.
  destruct (string_attr buf len STUN_ATTRIBUTE_NONCE (STUN_MAX_NONCE_SIZE + 1)) as ([na|] & Ena & Hna); try done;
    rewrite Ena; mstep; [|by intros [= <-]].
  destruct (Hna na eq_refl) as (nn & Ecn & _). rewrite Ecn. mstep. cbv zeta. set (a2 := with_username a0 us (hmackey_set a0)).
  assert (auth_session_ok a2) as H2 by (destruct H0; constructor; try done; cbn; split; [done|lia]).
  assert (forall res, (let '(postpone, oauth) := userkeycb a2 us (realm_options_name a0) in
     if (postpone : bool) then Ret (AuthResult (with_oauth a2 oauth) no_reply false true)
     else r ← create_challenge_response server (with_oauth a2 oauth) (fail_with no_reply 401 (reason no_reply)) tid nbh method rnd_tid;
          Ret (AuthResult (with_oauth a2 oauth) r false false)) = Ret res -> postpone_reply res = true ->
     ar_session res = a2 /\ message_integrity res = false /\ (userkeycb a2 us (realm_options_name a0)).1 = true) as Ask.
  { intros r. pose proof (Hcb a2 us (realm_options_name a0)) as Hc. destruct (userkeycb a2 us _) as [[] o]; cbn [fst snd] in *.
    - intros [= <-] _. rewrite Hc. by destruct a2.
    - intros E P. apply no_postpone_challenge in E as [E _]. congruence. }
  assert (complete buf len a2) as Cm.
  { constructor; [exists p; bool_arith; subst; done|exists ra; by split_and!|exists ua; by split_and!|by exists na, nn]. }
  destruct (negb (hmackey_set a2) && (hd 0 (pwd a2) =? 0)) eqn:Ek.
  - intros E P. destruct (Ask _ E P) as (-> & Hm & Hq). split_and!; try done.
    apply andb_true_iff in Ek as [Ek1 Ek2]. rewrite Ek2. apply negb_true_iff in Ek1. by rewrite Ek1.
  - rewrite (sv_ct _ Hserver). destruct (check_signed buf len (hmackey a2) (pwd a2) Hbytes Hlen) as (r & -> & Hr); [apply H2|]. mstep.
    destruct (r <? 1) eqn:E1; [|by intros [= <-]]. intros E P. destruct (Ask _ E P) as (-> & Hm & Hq). split_and!; try done.
    intros _ S. change (hmackey a2) with (hmackey a0) in Hr. rewrite K0 in Hr. apply Hr in S. bool_arith. lia.
Qed.

(** A complete message is served exactly when there is a key and it signs. *)
Lemma recheck a rnd :
  auth_session_ok a -> times_ok server a -> ss_oauth a = false -> complete buf len a ->
  exists res, check_stun_auth userkeycb realm_by_name server a no_reply tid buf len nbh method false rnd rnd_tid = Ret res /\
    postpone_reply res = false /\
    (message_integrity res = true <->
     (hmackey_set a || negb (hd 0 (pwd a) =? 0)) = true /\ signed (slice (hmackey a) 0 16) buf len).
Proof.
  intros Ha Ht Ho [(p & Ep & El) (ra & Era & Ecr & Rs) (ua & Eua & Ecu & Us) (na & nn & Ena & Ecn)].
  unfold check_stun_auth, need_stun_authentication. rewrite bool_decide_true by apply Hserver.
  destruct (renew_nonce_ret server a rnd Hserver Ha Ht) as (n & t & -> & H0 & Hn). mstep. cbv zeta. cbn [negb].
  rewrite Ep. mstep. rewrite El. mstep. rewrite Z.eqb_refl. cbn [negb]. rewrite Era. mstep. rewrite Ecr. mstep.
  assert (check_realm realm_by_name (with_nonce a n t) no_reply method (realm_options_name a) = (with_nonce a n t, inl (realm_options_name a))) as ->.
  { unfold check_realm. rewrite Rs. cbn [negb]. destruct (method =? STUN_METHOD_CONNECTION_BIND) eqn:?; bool_arith; [done|].
    cbn [realm_options_name with_nonce]. by rewrite (proj2 (strcmp_eq _ _ (proj1 (so_realm _ Ha)) (proj1 (so_realm _ Ha))) eq_refl). }
  rewrite Eua. mstep. rewrite Ecu. mstep.
  assert (check_username (with_nonce a n t) no_reply method (username a) = (with_nonce a n t, None)) as ->.
  { unfold check_username. rewrite Us. cbn [negb]. cbn [username with_nonce]. case_bool_decide as E; cbn [negb].
    - rewrite E. unfold with_username, with_nonce. cbn. by rewrite <- E.
    - by rewrite (proj2 (strcmp_eq _ _ (proj1 (so_username _ Ha)) (proj1 (so_username _ Ha))) eq_refl). }
  rewrite Ena. mstep. rewrite Ecn. mstep. cbn [hmackey_set pwd with_nonce hmackey].
  destruct (create_challenge_ret server (with_nonce a n t) no_reply method tid nbh rnd_tid) as (m & Em & _); try done. rewrite Em.
  destruct (negb (hmackey_set a) && (hd 0 (pwd a) =? 0)) eqn:Ek.
  - mstep. eexists. split; [done|]. split; [done|]. apply andb_true_iff in Ek as [Ek1 Ek2]. apply negb_true_iff in Ek1. rewrite Ek1, Ek2.
    split; [done|]. by intros [? _].
  - rewrite (sv_ct _ Hserver). destruct (check_signed buf len (hmackey a) (pwd a) Hbytes Hlen) as (r & -> & Hr); [apply Ha|]. mstep.
    assert ((hmackey_set a || negb (hd 0 (pwd a) =? 0)) = true) as -> by (destruct (hmackey_set a), (hd 0 (pwd a) =? 0); done).
    destruct (r <? 1) eqn:E1; mstep; (eexists; split; [done|]; split; [done|]; cbn [message_integrity]); rewrite <- Hr; bool_arith.
    + split; [done|]. intros [_ ?]. bool_arith. lia.
    + split; [|done]. intros _. split; [done|]. apply Z.ltb_lt. lia.
Qed.
End passes.

(** ** The names in the messages *)
Lemma key_realm {C : Crypto} {E : Evp} tp dbd rdb now ctime us realm key buf len d0 pwdtmp u :
  get_user_key tp dbd rdb now false false ctime us realm key buf len d0 pwdtmp = Ret u -> uk_realm u = realm.
Proof.
  unfold get_user_key. cbn [andb]. mstep. intros ([r k] & _ & [= <-])%bind_ret. done.
Qed.

Lemma cstr_take_all l n : nonzero_bytes l -> blen l <= n -> take (Z.to_nat n) (cstr l) = l.
Proof. intros [_ Hz] L. rewrite (cstr_nonzero l Hz). apply take_ge. unfold blen in L. lia. Qed.

Lemma life_auth_credentials l a t b : life_credentials (life_auth l a t b) = a.
Proof. by destruct a. Qed.

Section flow.
Context {K U Q S : Type} {KN : Kernel K} {UM : UrMap U} {M : Malloc} {QT : Quotas Q} {SM : KVStore Z Z S}.
Context {C : Crypto} {CL : CryptoLaws C}.
Context (cfg : alloc_config) (realm_options_of : Q -> list Z -> outcome (list Z * Z * Q)).

(** An answer for the realm of the session changes its credentials only. *)
Lemma resume_same_realm (am : auth_message) (w : life * shared K U Q S) :
  auth_session_ok (life_credentials w.1) -> am_success am = true -> am_realm am = realm_name (lf_ss w.1) ->
  exists w', resume_session cfg realm_options_of am w = Ret w' /\ w'.2 = w.2 /\
    life_credentials w'.1 = AuthSession (nonce (lf_auth w.1)) (nonce_expiration_time (lf_auth w.1)) (username (lf_auth w.1)) (am_key am) true
                              (am_pwd am) (am_out_oauth am) (realm_name (lf_ss w.1)).
Proof.
  intros Ha Hs Hr. unfold resume_session. rewrite Hs. cbv zeta. cbn [lf_ss life_auth set_life fst realm_name realm_options_name life_credentials with_realm].
  pose proof (proj1 (so_realm _ Ha)) as Hz. cbn [realm_options_name life_credentials with_realm] in Hz.
  rewrite Hr, (proj2 (strcmp_eq _ _ Hz Hz) eq_refl), andb_false_r. eexists. split; [done|]. by split.
Qed.

(** The question of a postponed request. *)
Definition question (id : Z) (server : auth_server) (w : life * shared K U Q S) (in_buffer : ioa_net_data) : auth_message :=
  let a := life_credentials w.1 in
  (start_user_check id (as_ct server) (as_oauth server) (ss_oauth a) (username a) (realm_options_name a) in_buffer (ss_id (lf_ss w.1))).1.

End flow.

(** ** Instances *)
#[local] Existing Instances toy_crypto toy_laws toy_evp ex_quotas.

(** A CreatePermission request of "2000:u" of realm "r", signed under the secret
    "s". *)
Definition ex_rest_request : outcome mbuf :=
  let name := [50; 48; 48; 48; 58; 117] in
  m ← stun_init_request_str STUN_METHOD_CREATE_PERMISSION (zeros 200) (zeros 12);
  '(_, m) ← stun_attr_add_str m STUN_ATTRIBUTE_USERNAME (Some name) 6;
  '(_, m) ← stun_attr_add_str m STUN_ATTRIBUTE_REALM (Some [114]) 1;
  '(_, m) ← stun_attr_add_str m STUN_ATTRIBUTE_NONCE (Some (replicate 16 102)) 16;
  '(_, m) ← stun_attr_add_integrity_str (zeros 64) TURN_CREDENTIALS_LONG_TERM m (default [] (rest_key name [114] [115])) [] SHATYPE_SHA1;
  Ret m.
Definition ex_rest_inb : stun_buffer :=
  match ex_rest_request with
  | Ret m => StunBuffer (zeros (Z.to_nat (STUN_CHANNEL_HEADER_LENGTH + STUN_CUSTOM_HEADER_LEN)) ++ mdata m) (mlen m + STUN_CUSTOM_HEADER_LEN) 0 0
  | _ => ioa_network_buffer_allocate
  end.
Definition ex_rest_buf : list Z :=
  match nb_from ex_rest_inb (ioa_network_buffer_data ex_rest_inb) with Ret b => b | _ => [] end.
Definition ex_rest_in : ioa_net_data := NetData addr_zero (Some ex_rest_inb) 0 0.

Definition ex_rest_session : auth_session := AuthSession (replicate 16 102) 1600 [] (zeros 64) false (zeros 257) false [114].
Abbreviation ex_world := (life * shared Z (list (Z * rtcp_alloc_type)) Z (gmap Z Z))%type.
Definition ex_rest_world : ex_world := (life_auth (ex_life [0; 0]) ex_rest_session 0 0, ex_shared).
Definition ex_rest_first : outcome (auth_result * ex_world) :=
  check_life (fun _ => [114]) 1 ex_auth_server ex_rest_world ex_rest_in (zeros 12) ex_rest_buf (ioa_network_buffer_get_size ex_rest_inb) (zeros 2000)
    STUN_METHOD_CREATE_PERMISSION true (1, 2) (zeros 12).
Definition ex_rest_res : auth_result * ex_world :=
  match ex_rest_first with Ret x => x | _ => (AuthResult ex_rest_session no_reply false false, ex_rest_world) end.

Lemma ex_rest_first_ret : ex_rest_first = Ret (ex_rest_res.1, ex_rest_res.2).
Proof. vm_compute. reflexivity. Qed.

Lemma ex_rest_session_ok : auth_session_ok ex_rest_session.
Proof.
  constructor; try done.
  - right. split; [|done]. split; [by apply bytes_okb_spec|by repeat constructor].
  - split; [|done]. split; [by apply bytes_okb_spec|by repeat constructor].
  - split; [|done]. split; [by apply bytes_okb_spec|by repeat constructor].
Qed.


(** The request above is served; with another secret it is not. *)
Example rest_served :
  (fun secret =>
     let tp := TurnParams true 58 [secret] [] 1000 in
     am ← auth_answer tp no_driver ex_rest_db 0 1000 (zeros 64) [] [] (question 1 ex_auth_server ex_rest_res.2 ex_rest_in);
     w ← resume_session ex_cfg (fun q _ => Ret ([], 0, q)) am ex_rest_res.2;
     '(res, _) ← check_life (fun _ => [114]) 1 ex_auth_server w ex_rest_in (zeros 12) ex_rest_buf (ioa_network_buffer_get_size ex_rest_inb)
        (zeros 2000) STUN_METHOD_CREATE_PERMISSION false (3, 4) (zeros 12);
     Ret (message_integrity res)) <$> [[115]; [116]] = [Ret true; Ret false].
Proof. vm_compute. reflexivity. Qed.
