(* ===== verification/RefreshOutcome.v ===== *)
(** What a client gets for a Refresh request on its allocation. *)

From stdpp Require Import base option numbers list sets strings gmap.
From S2P Require Import Prelude IoAddr StunAddr StunDefs StunMsg StunMsgFacts StunAuth StunBuild StunBuildFacts KeyMap TurnMaps TurnMapsFacts.
From S2P Require Import TurnPorts TurnPortsFacts SlotTable Timers Allocation AllocationFacts NetBuffer Sockets RelayEngine RelayEngineFacts.
From S2P Require Import TurnServer TurnServerFacts DataPath DataPathFacts ServerAuth ServerAuthFacts Allocate AllocateFacts AllocateHandler AllocateOutcome.

Section refresh.
Context {K U Q S : Type} {KN : Kernel K} {UM : UrMap U} {M : Malloc} {ML : MallocLaws} {QT : Quotas Q} {SM : KVStore Z Z S}.
Context (cfg : alloc_config) (server : turn_turnserver) (e : engine).
Context (string_to_mobile_id : list Z -> Z).
Abbreviation world := (life * shared K U Q S)%type.
Context (transfer : world -> refresh_req -> bool -> bool -> outcome (reply * bool * world)).

(** ** The families that have a relay socket *)
Definition open_at (w : world) (i : nat) : bool :=
  match relay_sessions (lf_alloc w.1) !! i with Some r => negb (rs_s r =? 0) | None => false end.

Lemma session_at (w : world) N i : alive e w N -> (i < 2)%nat -> exists r, relay_sessions (lf_alloc w.1) !! i = Some r.
Proof.
  intros A Hi. destruct (relay_sessions (lf_alloc w.1) !! i) as [r|] eqn:E; [by exists r|].
  apply lookup_ge_None in E. rewrite (inv_sessions _ (proj1 (al_alloc _ _ _ A))) in E. lia.
Qed.

Lemma open_families_spec (w : world) N : alive e w N -> open_families e w = Ret (open_at w 0, open_at w 1, w).
Proof.
  intros A. destruct (session_at w N 0 A) as [r0 E0]; [lia|]. destruct (session_at w N 1 A) as [r1 E1]; [lia|].
  assert (forall i r, relay_sessions (lf_alloc w.1) !! i = Some r ->
    (if rs_s r =? 0 then Ret (None, sh_net w.2) else
     '(c, n) ← closing e (sh_net w.2) (rs_s r);
     if (c : bool) then Ret (None, n)
     else f ← get_ioa_socket_address_family (rn_socks n) (rs_s r); Ret (Some f, n)) =
    Ret (if open_at w i then Some (family_of_index i) else None, sh_net w.2)) as H.
  { intros i r Er. unfold open_at. rewrite Er. destruct (al_sessions _ _ _ A i r Er) as [[-> _]|(_ & Ps & k & Ek & [Op _ Pa _ _ (F1 & _)])]; [done|].
    destruct (rs_s r =? 0) eqn:?; [bool_arith; lia|]. simpl. rewrite (closing_open e _ _ k Ps Ek Op). mstep.
    pose proof (address_family_open e _ _ k Ps Ek Op Pa) as Ef. unfold socks_of in Ef. rewrite Ef. mstep. by rewrite F1. }
  unfold open_families. rewrite (at_index_ret _ _ _ E0). mstep. rewrite (H 0%nat r0 E0). mstep. rewrite (at_index_ret _ _ _ E1). mstep.
  rewrite (H 1%nat r1 E1). mstep. rewrite set_net_same. by destruct (open_at w 0), (open_at w 1).
Qed.

(** ** The attributes *)
Definition family_attrs : list Z := [STUN_ATTRIBUTE_ADDITIONAL_ADDRESS_FAMILY; STUN_ATTRIBUTE_REQUESTED_ADDRESS_FAMILY].

(** [named]: the request may name families. *)
Record refresh_ok (af4c af6c named : bool) (q : refresh_req) : Prop := RefreshOk {
  ro_resp : resp (rf_reply q) = None;
  ro_reason : reason_ok (reason (rf_reply q)) = true;
  ro_lifetime : 0 <= rf_lifetime q < 2 ^ 32;
  ro_families : (rf_af4 q = true -> af4c = true) /\ (rf_af6 q = true -> af6c = true) /\ (named = false -> rf_af4 q = false /\ rf_af6 q = false) }.

Lemma rf_fail_ok x y z q code text : refresh_ok x y z q -> reason_ok text = true -> refresh_ok x y z (rf_fail q code text).
Proof. intros [h1 h2 h3 h4] R. by constructor. Qed.

Section refresh_attr.
Context (l : life) (af4c af6c named : bool) (buf : list Z) (len fin a : Z).
Context (B : bytes_ok buf) (L : len <= blen buf) (F : fin <= len) (V : attr_valid buf fin a).
Abbreviation ok := (refresh_ok af4c af6c named).
Context (Na : named = false -> forall t, t ∈ family_attrs -> stun_attr_get_type buf (Some a) <> Ret t).

Lemma ticket_attr_ok q : ok q -> exists q', ticket_attr cfg string_to_mobile_id l buf q a = Ret q' /\ ok q'.
Proof.
  intros H. unfold ticket_attr. destruct (ac_mobility cfg); cbn [negb]; [|eexists; split; [done|by apply rf_fail_ok]].
  destruct (value_returns buf len fin a L F V) as (n & En & H0 & Hn & Ev). rewrite En. mstep.
  destruct ((0 <? n) && (n <? 33)) eqn:E; [|eexists; split; [done|by apply rf_fail_ok]]. bool_arith.
  rewrite Ev. mstep. destruct (n <? 1); [by exists q|]. pose proof (attr_valid_bound _ _ _ V). rewrite rd_bytes_ret by lia. mstep.
  set (q1 := RefreshReq _ _ _ _ _ _ _). assert (ok q1) as Hq1.
  { destruct H as [h1 h2 h3 h4]. by constructor. }
  destruct (_ && _); eexists; (split; [done|]); [by apply rf_fail_ok|done].
Qed.

Lemma refresh_attr_ok q : ok q -> scan_goes_on (rf_reply q) = true ->
  exists q', refresh_attr cfg string_to_mobile_id l af4c af6c buf q a = Ret q' /\ ok q'.
Proof.
  intros H G. unfold refresh_attr. destruct (type_returns buf len fin a B L F V) as [ty Et]. rewrite Et in *. mstep.
  destruct (SKIP_ATTRIBUTES ty); [by exists q|]. destruct (ty =? STUN_ATTRIBUTE_MOBILITY_TICKET); [by apply ticket_attr_ok|].
  destruct (value_returns buf len fin a L F V) as (n & En & H0 & Hn & Ev). pose proof (attr_valid_bound _ _ _ V).
  destruct (ty =? STUN_ATTRIBUTE_LIFETIME).
  { rewrite En. mstep. destruct (n =? 4) eqn:E4; bool_arith; cbn [negb]; [|eexists; split; [done|by apply rf_fail_ok]]. rewrite Ev. mstep.
    subst n. change (4 <? 1) with false. cbn iota. destruct (rd32_ok buf (a + 4)) as (x & -> & Rx); [done|lia|lia|]. mstep.
    eexists. split; [done|]. destruct H as [h1 h2 h3 h4]. by constructor. }
  destruct (_ || _) eqn:Ef.
  { assert (named = true) as Hn1.
    { destruct named; [done|]. destruct (Na eq_refl ty); [|done]. unfold family_attrs. apply orb_true_iff in Ef as [Ef|Ef]; bool_arith; set_solver. }
    destruct (requested_family_returns buf len fin a B L F V) as [f ->].
    mstep. pose proof H as [h1 h2 h3 (h5 & h6 & h7)].
    destruct (_ && af4c) eqn:E4; [eexists; split; [done|]; apply andb_true_iff in E4 as [_ ->]; constructor; try done; split_and!; try done; congruence|].
    destruct (_ && af6c) eqn:E6; [eexists; split; [done|]; apply andb_true_iff in E6 as [_ ->]; constructor; try done; split_and!; try done; congruence|].
    eexists. split; [done|]. by apply rf_fail_ok. }
  destruct (comprehension_required ty); [|by exists q]. rewrite (add_unknown_ok _ _ G). mstep. eexists. split; [done|].
  destruct H as [h1 h2 h3 h4]. by constructor.
Qed.
End refresh_attr.

(** ** Timers *)
Context (Lm : limits_ok server).

(** The relay session of index [i] has the same socket and a timer that fires
    after [lt] seconds. *)
Definition rearmed (a a' : allocation) (i : nat) (lt : Z) : Prop :=
  exists r h, relay_sessions a !! i = Some r /\ relay_sessions a' !! i = Some (RelaySession (rs_s r) (u32 (ctime server + lt)) h) /\ h <> 0 /\
    Timer h (e_now server + lt) (AllocTimeout i) ∈ a_timers a'.

Definition untouched (a a' : allocation) (i : nat) : Prop :=
  relay_sessions a' !! i = relay_sessions a !! i /\ forall t, t ∈ a_timers a -> t_cb t = AllocTimeout i -> t ∈ a_timers a'.

(** The rest of the allocation. *)
Record same_body (a a' : allocation) : Prop := SameBody {
  sb_valid : is_valid a' = is_valid a;
  sb_tid : a_tid a' = a_tid a;
  sb_perms : addr_to_perm a' = addr_to_perm a;
  sb_chns : a_chns a' = a_chns a;
  sb_failure : relay_sessions_failure a' = relay_sessions_failure a }.

Definition at_least_one (lt : Z) : Z := if lt <? 1 then 1 else lt.

Lemma refresh_one w N F lt :
  alive e w N -> is_valid (lf_alloc w.1) <> 0 -> F = AF_INET \/ F = AF_INET6 -> open_at w (ALLOC_INDEX F) = true -> 0 <= lt < 2 ^ 31 ->
  exists a', refresh_relay_connection server (lf_alloc w.1) lt F = Ret (0, a') /\ alive e (set_alloc w a') N /\ same_body (lf_alloc w.1) a' /\
    rearmed (lf_alloc w.1) a' (ALLOC_INDEX F) (at_least_one lt) /\ forall i, i <> ALLOC_INDEX F -> untouched (lf_alloc w.1) a' i.
Proof.
  intros A V HF Op Hlt. pose proof A as [Aa Ap An Ac Af As]. unfold open_at in Op.
  destruct (relay_sessions (lf_alloc w.1) !! ALLOC_INDEX F) as [r|] eqn:Er; [|done]. bool_arith.
  unfold refresh_relay_connection, is_allocation_valid. assert (truthy (is_valid (lf_alloc w.1)) = true) as -> by (unfold truthy; by apply negb_true_iff, Z.eqb_neq).
  fold (at_least_one lt). set (lt' := at_least_one lt). assert (1 <= lt' < 2 ^ 31) as Hlt' by (unfold lt', at_least_one; if_case; lia).
  rewrite i32_small by lia.
  destruct (arm_spec (lf_alloc w.1) F r (e_now server) lt' (u32 (ctime server + lt')) Aa Er) as (h & ts & l' & E1 & E2 & Hp & In & Ok' & _ & Kt); [lia| |].
  { destruct Lm as [[_ _ St] _]. unfold u32. pose proof (Z.mod_le (ctime server + lt') (2 ^ 32)). lia. }
  rewrite E1, E2. mstep. set (a' := set_session_at _ _ _) in *. exists a'. split; [done|].
  assert (relay_sessions a' = <[ALLOC_INDEX F := RelaySession (rs_s r) (u32 (ctime server + lt')) h]> (relay_sessions (lf_alloc w.1))) as Es by done.
  assert (relay_sessions a' !! ALLOC_INDEX F = Some (RelaySession (rs_s r) (u32 (ctime server + lt')) h)) as El
    by (rewrite Es; apply list_lookup_insert_eq; by eapply lookup_lt_Some).
  split; [|split; [done|split]].
  - constructor; try done. apply (sessions_kept e w (set_alloc w a') (ALLOC_INDEX F) _ As eq_refl ltac:(done) Es).
    right. destruct (As _ _ Er) as [[Z0 _]|(_ & Ps & k & Ek & Rk)]; [done|]. split; [simpl; lia|]. split; [done|]. by exists k.
  - exists r, h. split; [done|]. split; [done|]. split; [lia|done].
  - intros i Hi. split; [rewrite Es; by apply list_lookup_insert_ne|]. intros t Ht Ecb. apply Kt; [done|]. rewrite Ecb. by intros [= ->].
Qed.

Lemma refresh_both w N sel4 sel6 lt r :
  alive e w N -> is_valid (lf_alloc w.1) <> 0 -> (sel4 = true -> open_at w 0 = true) -> (sel6 = true -> open_at w 1 = true) -> 0 <= lt < 2 ^ 31 ->
  exists a', refresh_families server (lf_alloc w.1) sel4 sel6 lt r = Ret (r, a') /\ alive e (set_alloc w a') N /\ same_body (lf_alloc w.1) a' /\
    (if sel4 then rearmed (lf_alloc w.1) a' 0 (at_least_one lt) else untouched (lf_alloc w.1) a' 0) /\
    (if sel6 then rearmed (lf_alloc w.1) a' 1 (at_least_one lt) else untouched (lf_alloc w.1) a' 1).
Proof.
  intros A V H4 H6 Hlt. unfold refresh_families.
  assert (exists a1, (if sel4 then refresh_relay_connection server (lf_alloc w.1) lt AF_INET else Ret (0, lf_alloc w.1)) = Ret (0, a1) /\
            alive e (set_alloc w a1) N /\ same_body (lf_alloc w.1) a1 /\ untouched (lf_alloc w.1) a1 1 /\
            (if sel4 then rearmed (lf_alloc w.1) a1 0 (at_least_one lt) else untouched (lf_alloc w.1) a1 0)) as (a1 & -> & A1 & B1 & O1 & R1).
  { destruct sel4; [|exists (lf_alloc w.1); split_and!; [done|by destruct w as [[] ?]; destruct A|done|done|done]].
    destruct (refresh_one w N AF_INET lt) as (a1 & E1 & A1 & B1 & R1 & O1); [done|done|by left|by apply H4|done|]. exists a1. split_and!; auto. }
  mstep. change (0 <? 0) with false. cbn iota. pose proof (sb_valid _ _ B1) as V1.
  destruct sel6.
  - destruct (refresh_one (set_alloc w a1) N AF_INET6 lt) as (a2 & E2 & A2 & B2 & R2 & O2); [done|change (is_valid a1 <> 0); by rewrite V1|by right| |done|].
    { unfold open_at. change (lf_alloc (set_alloc w a1).1) with a1. destruct O1 as [O1 _]. change (ALLOC_INDEX AF_INET6) with 1%nat. rewrite O1. by apply H6. }
    change (lf_alloc (set_alloc w a1).1) with a1 in *. rewrite E2. mstep. exists a2. split; [done|]. split; [done|].
    split; [destruct B1, B2; constructor; congruence|]. split.
    + specialize (O2 0%nat ltac:(done)) as [O2 T2]. destruct sel4.
      * destruct R1 as (x & h & X1 & X2 & X3 & X4). exists x, h. rewrite O2. split; [done|]. split; [done|]. split; [done|]. by apply T2.
      * destruct R1 as [X1 X2]. split; [congruence|]. intros t Ht Ec. apply T2; [by apply X2|done].
    + destruct R2 as (x & h & X1 & X2 & X3 & X4). destruct O1 as [O1 _]. change (ALLOC_INDEX AF_INET6) with 1%nat in *. rewrite O1 in X1. by exists x, h.
  - mstep. exists a1. split; [done|]. split; [done|]. split; [done|]. split; [done|done].
Qed.

Lemma refresh_response_spec (w : world) lt tid nbh rnd :
  request_args STUN_METHOD_REFRESH tid nbh rnd -> ticket_ok (s_mobile_id w.1) ->
  exists m, refresh_response w.1 lt tid nbh rnd = Ret m /\
    mrepr m (success_msg STUN_METHOD_REFRESH tid (ticket_attrs (s_mobile_id w.1) ++ [(STUN_ATTRIBUTE_LIFETIME, to_be 4 lt)])).
Proof.
  intros [Hm [Bt Lt] [Bb Lb] [Br Lr]] [Sz Sl]. unfold refresh_response.
  destruct (init_success_refines STUN_METHOD_REFRESH nbh tid rnd) as (b0 & -> & R0 & L0 & D0); try done; try lia. mstep.
  assert (forall b1 l, mrepr b1 (success_msg STUN_METHOD_REFRESH tid l) -> mlen b1 <= 100 -> blen (mdata b1) = blen nbh ->
    exists m, ('(_, m) ← stun_attr_add_str b1 STUN_ATTRIBUTE_LIFETIME (Some (to_be 4 lt)) 4; Ret m) = Ret m /\
      mrepr m (success_msg STUN_METHOD_REFRESH tid (l ++ [(STUN_ATTRIBUTE_LIFETIME, to_be 4 lt)]))) as Last.
  { intros b1 l R1 L1 D1. destruct (add_step b1 _ STUN_ATTRIBUTE_LIFETIME (to_be 4 lt) R1) as (b2 & E2 & R2 & L2 & D2);
      try done; try apply bytes_ok_to_be; try (change (pad4 (blen (to_be 4 lt))) with 4; unfold MAX_STUN_MESSAGE_SIZE; lia).
    change (blen (to_be 4 lt)) with 4 in E2. rewrite E2. mstep. exists b2. split; [done|exact R2]. }
  destruct (s_mobile_id w.1) as [|c sid]; [apply Last; [done|lia|done]|].
  destruct (add_string b0 _ STUN_ATTRIBUTE_MOBILITY_TICKET (c :: sid) 32 R0) as (b1 & E1 & R1 & L1 & D1); try done; try lia.
  cbv zeta. rewrite E1. mstep. apply Last; [exact R1|lia|congruence].
Qed.

(** ** The request *)
Lemma lifetime_range l m : 0 <= l -> 0 <= m -> 0 <= stun_adjust_allocate_lifetime l (max_allocate_lifetime server) m < 2 ^ 31.
Proof.
  intros Hl Hm. destruct Lm as [_ Hx]. unfold stun_adjust_allocate_lifetime, STUN_MIN_ALLOCATE_LIFETIME, STUN_DEFAULT_ALLOCATE_LIFETIME.
  set (x := if l =? 0 then 600 else _). assert (0 <= x < 2 ^ 31) as R by (unfold x; repeat if_case; lia).
  destruct (_ && _) eqn:E; [|done]. bool_arith. lia.
Qed.

Lemma refresh_scan l af4c af6c named buf len q0 :
  bytes_ok buf -> len <= blen buf -> (named = false -> absent buf len family_attrs) -> refresh_ok af4c af6c named q0 ->
  exists q, attr_scan buf len (fun q => scan_goes_on (rf_reply q)) (refresh_attr cfg string_to_mobile_id l af4c af6c buf) q0 = Ret q /\
    refresh_ok af4c af6c named q.
Proof.
  intros B L Ab H0. apply (attr_scan_absent buf len (if named then [] else family_attrs) _ _ (refresh_ok af4c af6c named) B L); [|destruct named; [by intros t []%elem_of_nil|by apply Ab]|done].
  intros fin a st Hf Va Na Ok G. eapply (refresh_attr_ok l af4c af6c named buf len fin a); try done. by intros ->.
Qed.

(** C26. A Refresh request on a valid allocation always returns.  An error
    leaves the session as it was.  Otherwise the response is a success for the
    transaction whose LIFETIME is the lifetime granted, and the relay session
    of each family that was refreshed (each open one, when the request names
    none) expires after that time, after one second when it is 0; its socket
    and the other sessions, permissions and channels are untouched. *)
Theorem refresh_outcome w N tid buf len nbh rnd :
  alive e w N -> is_valid (lf_alloc w.1) <> 0 -> ticket_ok (s_mobile_id w.1) -> 0 <= max_session_time_auth w.1 ->
  bytes_ok buf -> len <= blen buf -> request_args STUN_METHOD_REFRESH tid nbh rnd ->
  exists r w', handle_turn_refresh cfg server e string_to_mobile_id transfer w tid buf len nbh rnd = Ret (r, false, w') /\
    ((err_code r <> 0 /\ w' = w) \/
     (err_code r = 0 /\ exists m lt sel4 sel6 a', w' = set_alloc w a' /\ resp r = Some m /\
        mrepr m (success_msg STUN_METHOD_REFRESH tid (ticket_attrs (s_mobile_id w.1) ++ [(STUN_ATTRIBUTE_LIFETIME, to_be 4 lt)])) /\
        0 <= lt < 2 ^ 31 /\ alive e w' N /\ same_body (lf_alloc w.1) a' /\
        (if sel4 : bool then rearmed (lf_alloc w.1) a' 0 (at_least_one lt) else untouched (lf_alloc w.1) a' 0) /\
        (if sel6 : bool then rearmed (lf_alloc w.1) a' 1 (at_least_one lt) else untouched (lf_alloc w.1) a' 1) /\
        (absent buf len family_attrs -> sel4 = open_at w 0 /\ sel6 = open_at w 1))).
Proof.
  intros A V T Hm B L Ra. unfold handle_turn_refresh. rewrite (open_families_spec w N A). mstep. unfold is_allocation_valid.
  assert (truthy (is_valid (lf_alloc w.1)) = true) as -> by (unfold truthy; by apply negb_true_iff, Z.eqb_neq). cbn [negb andb].
  set (q0 := RefreshReq _ _ _ _ _ _ _).
  assert (forall z, refresh_ok (open_at w 0) (open_at w 1) z q0) as Ok0 by (intros; by constructor).
  destruct (refresh_scan w.1 (open_at w 0) (open_at w 1) true buf len q0 B L ltac:(done) (Ok0 true)) as (q & Eq & [h1 h2 h3 (h4 & h5 & _)]).
  rewrite Eq. mstep. destruct (0 <? blen _); [eexists _, _; split; [done|by left]|].
  destruct (truthy (err_code (rf_reply q))) eqn:Ec.
  { eexists _, _. split; [done|]. left. split; [|done]. intros E. by rewrite E in Ec. }
  set (lt := if rf_delete q then 0 else _).
  assert (0 <= lt < 2 ^ 31) as Hlt by (unfold lt; destruct (rf_delete q); [lia|apply lifetime_range; [lia|done]]).
  set (both := negb (rf_af4 q) && negb (rf_af6 q)).
  destruct (refresh_both w N (rf_af4 q || both && open_at w 0) (rf_af6 q || both && open_at w 1) lt (rf_reply q) A V) as (a' & -> & A' & Sb & R4 & R6);
    [by intros [?|[_ ?]%andb_true_iff]%orb_true_iff; auto..|done|]. mstep. rewrite Ec.
  destruct (refresh_response_spec (set_alloc w a') lt tid nbh rnd Ra T) as (m & -> & Rm). mstep.
  eexists _, _. split; [done|]. right. cbn [err_code]. split; [unfold truthy in Ec; by bool_arith|].
  exists m, lt, (rf_af4 q || both && open_at w 0), (rf_af6 q || both && open_at w 1), a'. do 8 (split; [done|]).
  intros Ab. destruct (refresh_scan w.1 (open_at w 0) (open_at w 1) false buf len q0 B L (fun _ => Ab) (Ok0 false)) as (q' & Eq' & [_ _ _ (_ & _ & h6)]).
  rewrite Eq in Eq'. injection Eq' as <-. unfold both. destruct (h6 eq_refl) as [-> ->]. done.
Qed.
End refresh.

(** ** Instances *)
#[local] Existing Instance ex_store.
#[local] Existing Instance ex_quotas.
#[local] Existing Instance ex_quota_laws.
#[local] Existing Instance ex_store_laws.

(** A Refresh request with a lifetime of 1000 seconds. *)
Definition ex_refresh : list Z := [0; 4; 0; 8] ++ to_be 4 STUN_MAGIC_COOKIE ++ zeros 12 ++ [0; 0x0D; 0; 4; 0; 0; 3; 232].

Abbreviation ex_world := (life * shared Z (list (Z * rtcp_alloc_type)) Z (gmap Z Z))%type.

Definition ex_transfer (w : ex_world) (q : refresh_req) (af4 af6 : bool) : outcome (reply * bool * ex_world) := Ret (no_reply, true, w).

Definition ex_refreshed (w : ex_world) : outcome (reply * bool * ex_world) :=
  handle_turn_refresh (M := bump) ex_cfg ex_alloc_server ex_alloc_engine (fun _ => 0) ex_transfer w (zeros 12) ex_refresh (blen ex_refresh)
    (zeros 2000) (zeros 12).

Lemma ex_refreshed_runs :
  match ex_allocated [0; 0] with
  | Ret (r, w) => err_code r = 0 /\ is_valid (lf_alloc w.1) = 1 /\ s_mobile_id w.1 = [] /\ max_session_time_auth w.1 = 0 /\
      match ex_refreshed w with Ret (r', _, w') => err_code r' = 0 /\ open_at w 0 = true | _ => False end
  | _ => False
  end.
Proof. vm_compute. auto 10. Qed.

Lemma ex_refresh_args : request_args STUN_METHOD_REFRESH (zeros 12) (zeros 2000) (zeros 12).
Proof. constructor; try done; by split; [apply bytes_okb_spec|]. Qed.

Lemma ex_refresh_plain : absent ex_refresh (blen ex_refresh) family_attrs.
Proof.
  intros t [->|Ht]%elem_of_cons; [vm_compute; reflexivity|]. apply list_elem_of_singleton in Ht as ->. vm_compute. reflexivity.
Qed.

Lemma ex_allocated_alive : exists r w, ex_allocated [0; 0] = Ret (r, w) /\ alive ex_alloc_engine w 100.
Proof.
  destruct (@handle_allocate_spec _ _ _ _ ex_kernel ex_reservations bump bump_laws ex_quotas ex_quota_laws ex_store _ ex_store_laws
              ex_cfg ex_alloc_server ex_alloc_engine (fun _ => None) 1000 eq_refl) with (w := (ex_life [0; 0], ex_shared)) (N := 100)
    (dual := false) (tid := zeros 12) (buf := ex_allocate) (len := blen ex_allocate) (nbh := zeros 2000) (rnd := zeros 12)
    as [(r & w & E & A & _)|[? _]].
  - intros x [=].
  - exact ex_limits.
  - apply ex_may_allocate. reflexivity.
  - exact I.
  - apply bytes_okb_spec. vm_compute. reflexivity.
  - reflexivity.
  - intros t Ht. apply ex_allocate_plain. by right.
  - intros _ t Ht. apply ex_allocate_plain. apply list_elem_of_singleton in Ht as ->. left.
  - exact ex_allocate_args.
  - exists r, w. split; [exact E|exact A].
  - discriminate.
Qed.

Lemma refresh_outcome_witness :
  exists r w r' w' m lt, ex_allocated [0; 0] = Ret (r, w) /\ ex_refreshed w = Ret (r', false, w') /\ resp r' = Some m /\
    mrepr m (success_msg STUN_METHOD_REFRESH (zeros 12) [(STUN_ATTRIBUTE_LIFETIME, to_be 4 lt)]) /\
    rearmed ex_alloc_server (lf_alloc w.1) (lf_alloc w'.1) 0 (at_least_one lt).
Proof.
  destruct ex_allocated_alive as (r & w & E & A). pose proof ex_refreshed_runs as H. rewrite E in H. destruct H as (_ & V & Es & Em & H).
  destruct (@refresh_outcome _ _ _ _ bump bump_laws ex_cfg ex_alloc_server ex_alloc_engine (fun _ => 0) ex_transfer ex_limits
              w 100 (zeros 12) ex_refresh (blen ex_refresh) (zeros 2000) (zeros 12)) as (r' & w' & Er & Hr).
  - exact A.
  - rewrite V. discriminate.
  - rewrite Es. split; [split; constructor|discriminate].
  - rewrite Em. discriminate.
  - apply bytes_okb_spec. vm_compute. reflexivity.
  - reflexivity.
  - exact ex_refresh_args.
  - fold (ex_refreshed w) in Er. rewrite Er in H. destruct H as [Ec Op].
    destruct Hr as [[Ne _]|(_ & m & lt & s4 & s6 & a' & -> & Em' & Rm & _ & _ & _ & R4 & _ & Hs)]; [exfalso; exact (Ne Ec)|].
    destruct (Hs ex_refresh_plain) as [S4 _]. rewrite Op in S4. subst s4. rewrite Es in Rm.
    exists r, w, r', (set_alloc w a'), m, lt. split; [exact E|]. split; [exact Er|]. split; [exact Em'|]. split; [exact Rm|exact R4].
Defined.
