(* ===== verification/SessionEnd.v ===== *)
(** The end of a session: what its timers and its shutdown give back. *)

From stdpp Require Import base option numbers list sets strings gmap.
From S2P Require Import Prelude IoAddr StunAddr StunDefs StunMsg StunMsgFacts StunAuth StunBuild StunBuildFacts KeyMap TurnMaps TurnMapsFacts.
From S2P Require Import TurnPorts TurnPortsFacts SlotTable Timers Allocation AllocationFacts NetBuffer Sockets RelayEngine RelayEngineFacts.
From S2P Require Import TurnServer TurnServerFacts DataPath DataPathFacts ServerAuth ServerAuthFacts Allocate AllocateFacts AllocateHandler AllocateOutcome RefreshOutcome.

(** * Ports that become free *)

(** The ports of the listed pools and addresses are free, the others as before. *)
Definition ports_freed (tp tp' : turnipports) (l : list (Z * ioa_addr)) : Prop :=
  forall tr b q, ip_start tp <= q <= ip_end tp ->
    turnipports_is_allocated tp' tr b q =
      if existsb (fun x => same_pool x.1 x.2 tr b && (q =? get_port x.2)) l then Ret false else turnipports_is_allocated tp tr b q.

Lemma ports_freed_app tp tp1 tp2 l1 l2 :
  same_range tp tp1 -> ports_freed tp tp1 l1 -> ports_freed tp1 tp2 l2 -> ports_freed tp tp2 (l1 ++ l2).
Proof.
  intros [R1 R2] F1 F2 tr b q Hq. rewrite existsb_app, F2, F1 by lia. destruct (existsb _ l1), (existsb _ l2); done.
Qed.

(** The port that closing a socket frees. *)
Definition frees (k : ioa_socket) : list (Z * ioa_addr) :=
  if Sockets.bound k && s_e k && is_relay_sock k then [(sock_transport k, local_addr k)] else [].

Definition freed_by (m : sockets) (s : Z) : list (Z * ioa_addr) := default [] (frees <$> m !! s).

(** No socket, or one that is open. *)
Definition live (m : sockets) (s : Z) : Prop := s = 0 \/ exists k, 0 < s /\ m !! s = Some k /\ magic_ok k = true /\ done k = false.

Section session_end.
Context {K U Q S : Type} {KN : Kernel K} {UM : UrMap U} {M : Malloc} {ML : MallocLaws} {QT : Quotas Q} {QL : QuotaLaws Q}.
Context {SM : KVStore Z Z S} {HK : HashKey Z} {HL : HashKeyLaws Z} {SL : KVLaws Z Z S}.
Context (e : engine).
Abbreviation world := (life * shared K U Q S)%type.

Lemma close_live (n : relay_net K U) s N :
  net_ok n N -> 1 <= N -> live (rn_socks n) s ->
  exists n', IOA_CLOSE_SOCKET n s = Ret n' /\ net_ok n' (N - 1) /\ rn_socks n' = delete s (rn_socks n) /\
    ports_freed (rn_tp n) (rn_tp n') (freed_by (rn_socks n) s) /\ same_range (rn_tp n) (rn_tp n') /\ map_rtcp n' = map_rtcp n /\
    relay_addrs n' = relay_addrs n.
Proof.
  intros Hn HN Lv. pose proof Hn as [I Hr Hp Hf Hc Hz]. unfold freed_by. destruct Lv as [->|(k & Ps & Ek & Mk & Dk)].
  { exists n. rewrite close_null, Hz, delete_id by done. split; [done|]. split; [eapply net_ok_less; [|exact Hn]; lia|]. by split_and!. }
  unfold IOA_CLOSE_SOCKET, close_ioa_socket. rewrite (get_sock_some _ _ _ Ps Ek). destruct (s =? 0) eqn:?; [bool_arith; lia|]. mstep.
  rewrite Mk, Dk, Ek. simpl. unfold frees. destruct (_ && _).
  - destruct (ip_release_spec (rn_tp n) (sock_transport k) (local_addr k) N I Hr HN) as (tp' & -> & I' & R' & [S1 S2] & U'). mstep.
    eexists. split; [done|]. split; [constructor; simpl; try done; [by rewrite S1|rewrite lookup_delete_None; by right]|].
    split; [done|]. split; [|done]. intros tr b q Hq. simpl. rewrite orb_false_r. by apply U'.
  - mstep. eexists. split; [done|]. split; [|by split_and!].
    constructor; simpl; try done; [by eapply room_less; [|exact Hr]; lia|rewrite lookup_delete_None; by right].
Qed.

(** ** A session that can be closed *)
Definition session_socket (w : world) (i : nat) : Z := default 0 (rs_s <$> relay_sessions (lf_alloc w.1) !! i).

Record closable (w : world) (N : Z) : Prop := Closable {
  cb_alloc : alloc_ok (lf_alloc w.1);
  cb_net : net_ok (sh_net w.2) N;
  cb_maps : kv_inv (sessions_map w.2) /\ kv_inv (mobile_connections_map w.2);
  cb_client : live (socks_of w) (client_of w);
  cb_relays : forall i, live (socks_of w) (session_socket w i);
  cb_apart : forall i, session_socket w i = 0 \/ session_socket w i <> client_of w;
  cb_apart2 : session_socket w 0 = 0 \/ session_socket w 0 <> session_socket w 1 }.

Lemma alive_closable w N :
  alive e w N -> kv_inv (sessions_map w.2) -> kv_inv (mobile_connections_map w.2) -> closable w N.
Proof.
  intros A I1 I2. pose proof A as [Aa Ap An Ac Af As].
  assert (forall i, session_socket w i = 0 \/ exists k, 0 < session_socket w i /\ socks_of w !! session_socket w i = Some k /\ relay_of e (ss_ptr w.1) i k) as Hs.
  { intros i. unfold session_socket. destruct (relay_sessions (lf_alloc w.1) !! i) as [r|] eqn:Er; [|by left]. simpl.
    destruct (As i r Er) as [[? _]|(_ & Ps & k & Ek & Rk)]; [by left|right]. by exists k. }
  destruct Ac as [(kc & Ek & Oc & N1 & N2 & _) Pc]. destruct (is_open_live e kc Oc) as (M1 & D1 & _). constructor; try done.
  - right. by exists kc.
  - intros i. destruct (Hs i) as [?|(k & P & E & R)]; [by left|right]. exists k. destruct (is_open_live e k (ro_open _ _ _ _ R)) as (? & ? & _). done.
  - intros i. destruct (Hs i) as [?|(k & P & E & R)]; [by left|right]. intros Eq. rewrite Eq in E. unfold client_of, socks_of in *.
    rewrite Ek in E. injection E as <-. by apply N1, R.
  - destruct (Hs 0%nat) as [?|(k & P & E & R)]; [by left|]. destruct (Hs 1%nat) as [E1|(k1 & P1 & E1 & R1)]; [right; lia|right].
    intros Eq. rewrite Eq, E1 in E. injection E as ->. destruct (ro_family _ _ _ _ R) as [F0 _], (ro_family _ _ _ _ R1) as [F1 _].
    rewrite F0 in F1. done.
Qed.

Lemma no_relay_socket w N F : closable w N -> (forall j, session_socket w j = 0) -> get_relay_socket (lf_alloc w.1) F = Ret 0.
Proof.
  intros C Zs. pose proof (inv_sessions _ (proj1 (cb_alloc _ _ C))) as L2. specialize (Zs (ALLOC_INDEX F)).
  unfold get_relay_socket, session_socket in *. destruct (relay_sessions (lf_alloc w.1) !! ALLOC_INDEX F) as [r|] eqn:Er.
  - rewrite (at_index_ret _ _ _ Er). mstep. simpl in Zs. by rewrite Zs.
  - apply lookup_ge_None in Er. unfold ALLOC_INDEX in Er. destruct (F =? AF_INET6); lia.
Qed.

(** ** Closing the sockets *)

(** What remains of the session when sockets of the list are closed. *)
Record closed (w w' : world) (l : list Z) : Prop := Closed {
  cd_socks : forall s, socks_of w' !! s = if decide (s ∈ l) then None else socks_of w !! s;
  cd_ports : ports_freed (rn_tp (sh_net w.2)) (rn_tp (sh_net w'.2)) (l ≫= freed_by (socks_of w));
  cd_range : same_range (rn_tp (sh_net w.2)) (rn_tp (sh_net w'.2));
  cd_rtcp : map_rtcp (sh_net w'.2) = map_rtcp (sh_net w.2) /\ relay_addrs (sh_net w'.2) = relay_addrs (sh_net w.2);
  cd_quotas : sh_quotas w'.2 = sh_quotas w.2;
  cd_maps : sessions_map w'.2 = sessions_map w.2 /\ mobile_connections_map w'.2 = mobile_connections_map w.2;
  cd_life : ss_ptr w'.1 = ss_ptr w.1 /\ ss_id (lf_ss w'.1) = ss_id (lf_ss w.1) /\ mobile_id w'.1 = mobile_id w.1 }.

Lemma alloc_ok_socket a i r s : alloc_ok a -> relay_sessions a !! i = Some r ->
  alloc_ok (set_session_at a i (RelaySession s (rs_expiration_time r) (rs_lifetime_ev r))).
Proof.
  intros [I T] Er. split.
  - apply (alloc_inv_same a); [done|done| |done]. simpl. rewrite length_insert. apply I.
  - unfold timers_ok. eapply timers_inv_proper; [|reflexivity|exact T]. intros [P|C|j] h x NZ; simpl; [done|done|].
    destruct (decide (i = j)) as [<-|Ni]; [rewrite list_lookup_insert_eq, Er by (by eapply lookup_lt_Some); done|].
    by rewrite list_lookup_insert_ne.
Qed.

Lemma live_kept (m m' : sockets) s (l : list Z) : (forall x, m' !! x = if decide (x ∈ l) then None else m !! x) -> s ∉ l -> live m s -> live m' s.
Proof.
  intros H Ns [->|(k & P & E & R)]; [by left|right]. exists k. split; [done|]. split; [|done]. rewrite H. by destruct (decide (s ∈ l)).
Qed.

Lemma closable_after w w1 s N :
  closable w N -> alloc_ok (lf_alloc w1.1) -> net_ok (sh_net w1.2) (N - 1) -> closed w w1 [s] ->
  (client_of w1 = 0 \/ (client_of w1 = client_of w /\ client_of w <> s)) ->
  (forall i, session_socket w1 i = 0 \/ (session_socket w1 i = session_socket w i /\ session_socket w i <> s)) ->
  closable w1 (N - 1).
Proof.
  intros [_ _ Cm Cc Cr Ca Cb] Ok On [Cs _ _ _ _ [M1 M2] _] Hc Hi.
  constructor; [done|done|by rewrite M1, M2| | | |].
  - destruct Hc as [->|[-> Nc]]; [by left|]. eapply live_kept; [exact Cs|set_solver|done].
  - intros i. destruct (Hi i) as [->|[-> Ni]]; [by left|]. eapply live_kept; [exact Cs|set_solver|done].
  - intros i. destruct (Hi i) as [->|[-> Ni]]; [by left|]. destruct (Ca i) as [?|Na]; [by left|].
    destruct Hc as [->|[-> _]]; [|by right]. destruct (decide (session_socket w i = 0)); [by left|by right].
  - destruct (Hi 0%nat) as [->|[-> N0]]; [by left|]. destruct Cb as [?|Nb]; [by left|]. destruct (Hi 1%nat) as [->|[-> _]]; [|by right].
    destruct (decide (session_socket w 0 = 0)); [by left|by right].
Qed.

Lemma closed_trans w w1 w2 l1 l2 :
  closed w w1 l1 -> closed w1 w2 l2 -> (forall s, s ∈ l2 -> s ∉ l1 \/ socks_of w !! s = None) -> closed w w2 (l1 ++ l2).
Proof.
  intros [a1 a2 [a3 a3'] [a4 a4'] a5 [a6 a6'] (a7 & a8 & a9)] [b1 b2 [b3 b3'] [b4 b4'] b5 [b6 b6'] (b7 & b8 & b9)] D.
  assert (forall l, (forall s, s ∈ l -> s ∉ l1 \/ socks_of w !! s = None) -> (l ≫= freed_by (socks_of w1)) = (l ≫= freed_by (socks_of w))) as F.
  { induction l as [|s l IH]; intros H; [done|]. rewrite !bind_cons. rewrite IH by (intros; apply H; by right). f_equal. unfold freed_by. rewrite a1.
    destruct (decide (s ∈ l1)) as [Hs|]; [|done]. destruct (H s) as [?|E]; [left|done|]. by rewrite E. }
  constructor; try congruence.
  - intros s. rewrite b1, a1. destruct (decide (s ∈ l1)), (decide (s ∈ l2)), (decide (s ∈ l1 ++ l2)); set_solver.
  - rewrite bind_app. eapply ports_freed_app; [by split|exact a2|]. rewrite <- (F l2 D). exact b2.
  - split; congruence.
  - split; congruence.
  - split; congruence.
  - split_and!; congruence.
Qed.

Lemma close_client_spec w N :
  closable w N -> 1 <= N ->
  exists w', close_client w = Ret w' /\ closed w w' [client_of w] /\ w'.1 = life_ss w.1 (ss_client (lf_ss w.1) 0) /\ closable w' (N - 1).
Proof.
  intros C HN. pose proof C as [Ca Cn Cm Cc Cr Cp Cq]. unfold close_client.
  destruct (close_live (sh_net w.2) (client_of w) N Cn HN Cc) as (n' & E & On & Es & Pf & Sr & Er & El). unfold client_of in E. rewrite E. mstep.
  eexists. split; [done|]. assert (closed w (set_life (set_net w n') (life_ss w.1 (ss_client (lf_ss w.1) 0))) [client_of w]) as Cd.
  { constructor; try done.
    - intros s. unfold socks_of. simpl. rewrite Es. destruct (decide (s ∈ [client_of w])) as [->%list_elem_of_singleton|Ns]; [apply lookup_delete_eq|].
      apply lookup_delete_ne. set_solver.
    - cbn [mbind list_bind]. by rewrite app_nil_r. }
  split; [exact Cd|]. split; [done|]. eapply closable_after; [exact C|exact Ca|exact On|exact Cd|by left|].
  intros i. destruct (Cp i) as [H|H]; [by left|right; by split].
Qed.

Lemma close_relay_step w N i r :
  closable w N -> 1 <= N -> (i < 2)%nat -> relay_sessions (lf_alloc w.1) !! i = Some r ->
  exists n, IOA_CLOSE_SOCKET (sh_net w.2) (rs_s r) = Ret n /\
    let w' := set_alloc (set_net w n) (set_session_at (lf_alloc w.1) i (RelaySession 0 (rs_expiration_time r) (rs_lifetime_ev r))) in
    closed w w' [session_socket w i] /\ closable w' (N - 1) /\ client_of w' = client_of w /\
    forall j, session_socket w' j = if decide (j = i) then 0 else session_socket w j.
Proof.
  intros C HN Hi Er. pose proof C as [Ca Cn Cm Cc Cr Cp Cq]. assert (session_socket w i = rs_s r) as Ei by (unfold session_socket; by rewrite Er).
  destruct (close_live (sh_net w.2) (session_socket w i) N Cn HN (Cr i)) as (n' & E & On & Es & Pf & Sr & Em & El). rewrite Ei in E.
  exists n'. split; [done|]. intros w'.
  assert (forall j, session_socket w' j = if decide (j = i) then 0 else session_socket w j) as Hs.
  { intros j. unfold session_socket, w'. simpl. destruct (decide (j = i)) as [->|Nj].
    - by rewrite list_lookup_insert_eq by (by eapply lookup_lt_Some).
    - by rewrite list_lookup_insert_ne. }
  assert (closed w w' [session_socket w i]) as Cd.
  { constructor; try done.
    - intros s. unfold socks_of. simpl. rewrite Es. destruct (decide (s ∈ [session_socket w i])) as [->%list_elem_of_singleton|Ns]; [apply lookup_delete_eq|].
      apply lookup_delete_ne. set_solver.
    - cbn [mbind list_bind]. by rewrite app_nil_r. }
  split; [done|]. split; [|by split]. eapply closable_after; [exact C|by apply alloc_ok_socket|exact On|exact Cd| |].
  - destruct (Cp i) as [H|H]; [|by right]. rewrite H. destruct (decide (client_of w = 0)); [by left|by right].
  - intros j. rewrite Hs. destruct (decide (j = i)) as [->|Nj]; [by left|]. destruct (decide (session_socket w j = 0)); [by left|right].
    split; [done|]. assert (j < 2)%nat as Hj.
    { apply not_ge. intros G. apply n. unfold session_socket. rewrite lookup_ge_None_2; [done|]. rewrite (inv_sessions _ (proj1 Ca)). lia. }
    intros Eq. destruct Cq as [Z0|Nq].
    + assert (i = 0 /\ j = 1 \/ i = 1 /\ j = 0)%nat as [[-> ->]|[-> ->]] by lia; congruence.
    + assert (i = 0 /\ j = 1 \/ i = 1 /\ j = 0)%nat as [[-> ->]|[-> ->]] by lia; congruence.
Qed.

Lemma close_relays_spec w N :
  closable w N -> 2 <= N ->
  exists w', close_relays w 0 2 = Ret w' /\ closed w w' [session_socket w 0; session_socket w 1] /\ closable w' (N - 2) /\
    client_of w' = client_of w /\ (forall j, session_socket w' j = 0) /\ w' = (life_alloc w.1 (lf_alloc w'.1), w'.2).
Proof.
  intros C HN. pose proof (inv_sessions _ (proj1 (cb_alloc _ _ C))) as L2. cbn [close_relays].
  destruct (relay_sessions (lf_alloc w.1) !! 0%nat) as [r0|] eqn:E0; [|apply lookup_ge_None in E0; lia].
  rewrite (at_index_ret _ _ _ E0). mstep. destruct (close_relay_step w N 0 r0 C ltac:(lia) ltac:(lia) E0) as (n0 & -> & H). mstep.
  set (w1 := set_alloc _ _) in *. destruct H as (Cd & C1 & Ec & Es). pose proof (inv_sessions _ (proj1 (cb_alloc _ _ C1))) as L2'.
  destruct (relay_sessions (lf_alloc w1.1) !! 1%nat) as [r1|] eqn:E1; [|apply lookup_ge_None in E1; lia].
  rewrite (at_index_ret _ _ _ E1). mstep. destruct (close_relay_step w1 (N - 1) 1 r1 C1 ltac:(lia) ltac:(lia) E1) as (n1 & -> & H). mstep.
  set (w2 := set_alloc (set_net w1 n1) _) in *. destruct H as (Cd1 & C2 & Ec1 & Es1). exists w2. split; [done|].
  assert (session_socket w1 1 = session_socket w 1) as S1 by (by rewrite Es).
  split; [|split; [by replace (N - 2) with (N - 1 - 1) by lia|split; [congruence|split; [|done]]]].
  - rewrite S1 in Cd1. apply (closed_trans w w1 w2 [_] [_] Cd Cd1). intros s ->%list_elem_of_singleton.
    destruct (cb_apart2 _ _ C) as [Z0|Nq]; [|left; set_solver]. rewrite Z0. destruct (decide (session_socket w 1 = 0)) as [Z1|]; [|left; set_solver].
    right. rewrite Z1. apply (nk_null _ _ (cb_net _ _ C)).
  - intros j. rewrite Es1, Es. destruct (decide (j = 1%nat)); [done|]. destruct (decide (j = 0%nat)); [done|].
    unfold session_socket. rewrite lookup_ge_None_2; [done|]. lia.
Qed.

(** ** Quotas *)

(** The allocation and the bandwidth of the session are given back. *)
Definition given_back (w : world) (q : Q) : Prop :=
  exists q1, (if quota_used w.1 then raqcb (sh_quotas w.2) (username (lf_auth w.1)) (ss_oauth (lf_auth w.1)) (realm_name (lf_ss w.1)) = Ret q1
              else q1 = sh_quotas w.2) /\
    q = if truthy (ss_bps w.1) then (allocate_bps_func q1 (ss_bps w.1) false).2 else q1.

(** The session but for its quotas. *)
Record same_session (w w' : world) : Prop := SameSession {
  sn_core : core w' = core w;
  sn_maps : sessions_map w'.2 = sessions_map w.2 /\ mobile_connections_map w'.2 = mobile_connections_map w.2;
  sn_ids : ss_id (lf_ss w'.1) = ss_id (lf_ss w.1) /\ mobile_id w'.1 = mobile_id w.1 /\ is_mobile (lf_ss w'.1) = is_mobile (lf_ss w.1) }.

Lemma quotas_given_back w : quota_ready (sh_quotas w.2) ->
  exists w1, dec_quota w = Ret w1 /\ same_session w (dec_bps w1) /\ given_back w (sh_quotas (dec_bps w1).2).
Proof.
  intros Qr. assert (exists w1, dec_quota w = Ret w1 /\ same_session w w1 /\ ss_bps w1.1 = ss_bps w.1 /\
    (if quota_used w.1 then raqcb (sh_quotas w.2) (username (lf_auth w.1)) (ss_oauth (lf_auth w.1)) (realm_name (lf_ss w.1)) = Ret (sh_quotas w1.2)
     else sh_quotas w1.2 = sh_quotas w.2)) as (w1 & E & [S1 S2 S3] & Eb & Hq).
  { unfold dec_quota. destruct (quota_used w.1); [|by exists w]. cbn [sh_quotas set_life snd].
    destruct (raqcb_returns (sh_quotas w.2) (username (lf_auth w.1)) (ss_oauth (lf_auth w.1)) (realm_name (lf_ss w.1)) Qr) as (q & Eq). rewrite Eq. mstep.
    eexists. split; [done|]. split; [by constructor|]. by split. }
  exists w1. split; [done|]. unfold dec_bps, given_back. rewrite Eb. destruct (truthy (ss_bps w.1)).
  - split; [by constructor|]. exists (sh_quotas w1.2). split; [by destruct (quota_used w.1)|done].
  - split; [by constructor|]. exists (sh_quotas w1.2). split; [by destruct (quota_used w.1)|done].
Qed.

Lemma closable_session w w' N : same_session w w' -> closable w N -> closable w' N.
Proof.
  intros [E [M1 M2] _] [c1 c2 c3 c4 c5 c6 c7]. unfold core in E. injection E as E1 E2 E3 E4 E5.
  unfold socks_of, client_of, session_socket in *.
  constructor; unfold socks_of, client_of, session_socket; rewrite ?E1, ?E4, ?E5, ?M1, ?M2; done.
Qed.

(** ** The end *)

(** The handles of the session. *)
Definition handles (w : world) : list Z := [client_of w; session_socket w 0; session_socket w 1].

Record ended (w : world) (sh : shared K U Q S) : Prop := Ended {
  en_socks : forall s, rn_socks (sh_net sh) !! s = if decide (s ∈ handles w) then None else socks_of w !! s;
  en_ports : ports_freed (rn_tp (sh_net w.2)) (rn_tp (sh_net sh)) (handles w ≫= freed_by (socks_of w));
  en_rtcp : map_rtcp (sh_net sh) = map_rtcp (sh_net w.2);
  en_quotas : given_back w (sh_quotas sh);
  en_map : forall id, kv_abs (sessions_map sh) id = if key_eqb (ss_id (lf_ss w.1)) id then None else kv_abs (sessions_map w.2) id }.

(** Freeing the memory of a session whose sockets are closed. *)
Lemma delete_session_spec w N :
  closable w N -> 3 <= N -> client_of w = 0 -> (forall j, session_socket w j = 0) ->
  exists sh, turn_server_remove_all_from_ur_map_ss w = Ret (Gone sh []) /\ rn_socks (sh_net sh) = socks_of w /\
    ports_freed (rn_tp (sh_net w.2)) (rn_tp (sh_net sh)) [] /\ map_rtcp (sh_net sh) = map_rtcp (sh_net w.2) /\ sh_quotas sh = sh_quotas w.2 /\
    forall id, kv_abs (sessions_map sh) id = if key_eqb (ss_id (lf_ss w.1)) id then None else kv_abs (sessions_map w.2) id.
Proof.
  intros C HN Zc Zs. pose proof C as [Ca Cn [Cm1 Cm2] _ _ _ _]. pose proof (inv_sessions _ (proj1 Ca)) as L2.
  assert (forall F, get_relay_socket (lf_alloc w.1) F = Ret 0) as G by (intros F; by apply (no_relay_socket w N)).
  assert (forall (n : relay_net K U) x, clear_ioa_socket_session_if n 0 x = Ret n) as Cl by done.
  unfold turn_server_remove_all_from_ur_map_ss. unfold client_of in Zc. rewrite Zc, !G. do 3 (rewrite Cl; mstep). rewrite set_net_same. unfold delete_ur_map_ss, delete_session_from_map.
  destruct (kv_del_ok (sessions_map w.2) (ss_id (lf_ss w.1)) Cm1) as (m & -> & Im & Hm). mstep.
  set (w1 := (w.1, Shared _ _ m _)).
  assert (exists w2, delete_session_from_mobile_map w1 = Ret w2 /\ core w2 = core w /\ sessions_map w2.2 = m /\ sh_quotas w2.2 = sh_quotas w.2 /\
            kv_inv (mobile_connections_map w2.2)) as (w2 & -> & Co & Es & Eq & Im2).
  { unfold delete_session_from_mobile_map. destruct (truthy (mobile_id w1.1)); [|by exists w1].
    destruct (kv_del_ok (mobile_connections_map w.2) (mobile_id w1.1) Cm2) as (m2 & E2 & I2 & _).
    change (mobile_connections_map w1.2) with (mobile_connections_map w.2). rewrite E2. mstep. by eexists. }
  mstep. assert (closable w2 N) as C2.
  { destruct C as [c1 c2 c3 c4 c5 c6 c7]. unfold core in Co. injection Co as E1 E2 E3 E4 E5. unfold socks_of, client_of, session_socket in *.
    constructor; unfold socks_of, client_of, session_socket; rewrite ?E1, ?E4, ?E5, ?Es; done. }
  unfold core in Co. injection Co as E1 E2 E3 E4 E5.
  assert (client_of w2 = 0) as Zc2 by (unfold client_of; congruence).
  assert (forall j, session_socket w2 j = 0) as Zs2 by (intros j; unfold session_socket in *; rewrite E1; apply Zs).
  destruct (close_client_spec w2 N C2 ltac:(lia)) as (w3 & -> & D3 & L3 & C3). mstep.
  destruct (close_relays_spec w3 (N - 1) C3 ltac:(lia)) as (w4 & -> & D4 & C4 & _ & _ & _). mstep.
  destruct (clear_allocation_spec (lf_alloc w4.1) (cb_alloc _ _ C4)) as (a' & -> & _ & Ta & _). mstep. cbn [fst lf_alloc life_alloc life_watchdog].
  change (a_timers (lf_alloc (set_life w4 (life_watchdog (life_alloc w4.1 a') false)).1)) with (a_timers a'). rewrite Ta.
  exists w4.2. split; [done|].
  assert (forall j, session_socket w3 j = 0) as Zs3 by (intros j; unfold session_socket; rewrite L3; apply Zs2).
  rewrite Zc2 in D3. rewrite !Zs3 in D4.
  assert (closed w2 w4 ([0] ++ [0; 0])) as [d1 d2 d3 [d4 d4'] d5 [d6 d6'] _].
  { eapply closed_trans; [exact D3|exact D4|]. intros s Hs. right. assert (s = 0) as -> by set_solver. apply (nk_null _ _ (cb_net _ _ C2)). }
  assert (freed_by (socks_of w2) 0 = []) as F0 by (unfold freed_by, socks_of; by rewrite (nk_null _ _ (cb_net _ _ C2))).
  split.
  { apply map_eq. intros s. fold (socks_of w4). rewrite d1. unfold socks_of. rewrite E5. destruct (decide (s ∈ [0] ++ [0; 0])) as [Hs|]; [|done].
    assert (s = 0) as -> by set_solver. symmetry. apply (nk_null _ _ Cn). }
  split; [change ([0] ++ [0; 0]) with [0; 0; 0] in d2; rewrite !bind_cons, !F0, E5 in d2; exact d2|]. split; [congruence|]. split; [congruence|]. intros id. rewrite d6, Es. apply Hm.
Qed.

Lemma shutdown_spec w N force :
  closable w N -> quota_ready (sh_quotas w.2) -> 6 <= N -> (force || negb (truthy (is_valid (lf_alloc w.1)))) = true \/ is_mobile (lf_ss w.1) = false ->
  exists sh, shutdown_client_connection w force = Ret (Gone sh []) /\ ended w sh.
Proof.
  intros C Qr HN Hf. unfold shutdown_client_connection. destruct (quotas_given_back w Qr) as (w1 & -> & Ss & Gb). mstep. cbv zeta.
  set (w2 := dec_bps w1) in *. pose proof (closable_session w w2 N Ss C) as C2. destruct Ss as [Co [M1 M2] (I1 & I2 & I3)].
  unfold core in Co. injection Co as E1 E2 E3 E4 E5. unfold is_allocation_valid. rewrite E1, I3.
  assert (negb (force || negb (truthy (is_valid (lf_alloc w.1)))) && is_mobile (lf_ss w.1) = false) as ->.
  { destruct Hf as [-> | ->]; [done|by rewrite andb_false_r]. }
  destruct (close_client_spec w2 N C2 ltac:(lia)) as (w3 & -> & D3 & L3 & C3). mstep.
  destruct (close_relays_spec w3 (N - 1) C3 ltac:(lia)) as (w4 & -> & D4 & C4 & Ec4 & Es4 & _). mstep.
  assert (client_of w3 = 0) as Zc3 by (unfold client_of; by rewrite L3).
  assert (forall j, session_socket w3 j = session_socket w j) as Es3 by (intros j; unfold session_socket, lf_alloc; rewrite L3; unfold lf_alloc in E1; simpl; by rewrite E1).
  assert (client_of w2 = client_of w) as Ec2 by exact E4.
  destruct (delete_session_spec w4 (N - 1 - 2) C4 ltac:(lia)) as (sh & -> & Hs & Hp & Hr & Hq & Hm); [congruence|done|].
  exists sh. split; [done|]. rewrite !Es3 in D4. rewrite Ec2 in D3.
  assert (closed w2 w4 ([client_of w] ++ [session_socket w 0; session_socket w 1])) as [d1 d2 d3 [d4 d4'] d5 [d6 d6'] (d7 & d8 & d9)].
  { eapply closed_trans; [exact D3|exact D4|]. intros s Hx. destruct (decide (s = client_of w)) as [->|]; [right|left; set_solver].
    assert (client_of w = 0) as ->; [|apply (nk_null _ _ (cb_net _ _ C2))]. pose proof (cb_apart _ _ C 0%nat). pose proof (cb_apart _ _ C 1%nat).
    apply elem_of_cons in Hx as [Hx|Hx%list_elem_of_singleton]; lia. }
  unfold socks_of in *. rewrite E5 in d1, d2, d3, d4. constructor.
  - intros s. rewrite Hs. apply d1.
  - rewrite <- (app_nil_r (handles w ≫= _)). eapply ports_freed_app; [exact d3|exact d2|exact Hp].
  - congruence.
  - rewrite Hq, d5. exact Gb.
  - intros id. rewrite Hm, d8, d6, I1, M1. done.
Qed.

(** C7. Closing a session gives everything back: its timers are deleted, its
    client socket and relay sockets are closed, the relay ports return to
    their pools and no other port changes, the allocation and bandwidth quotas
    are released, and the session leaves the server's map; the sockets of other
    sessions are untouched. *)
Theorem session_end_returns_all w N :
  alive e w N -> 6 <= N -> quota_ready (sh_quotas w.2) -> kv_inv (sessions_map w.2) -> kv_inv (mobile_connections_map w.2) ->
  exists sh, shutdown_client_connection w true = Ret (Gone sh []) /\ ended w sh.
Proof. intros A HN Qr I1 I2. apply (shutdown_spec w N); [by apply alive_closable|done|done|by left]. Qed.

(** ** The allocation timer *)
Lemma send_only (m m' : sockets) s dest nbh ttl tos rc out :
  send_data_from_ioa_socket_nbh e m s dest nbh ttl tos = Ret (rc, m', out) -> forall x, x <> s -> m' !! x = m !! x.
Proof.
  intros E x Hx. assert (m' = m \/ exists k, m' = <[s := k]> m) as [->|[k ->]]; [|done|by apply lookup_insert_ne].
  revert E. unfold send_data_from_ioa_socket_nbh. destruct (s =? 0); [intros [= _ <- _]; by left|].
  destruct (get_sock m s) as [k| |]; [|done..]. mstep. destruct (_ || _); [intros [= _ <- _]; by left|].
  destruct (ioa_socket_check_bandwidth e k nbh false) as [[ok k1]| |]; [|done..]. mstep. destruct ok; cbn [negb]; [|intros [= _ <- _]; right; by eexists].
  destruct (ioa_socket_tobeclosed e k1) as [tbc k2]. destruct (_ || _); [intros [= _ <- _]; right; by eexists|].
  destruct (_ && _); [destruct (_ && _); [intros [= _ <- _]; right; by eexists|]|].
  - destruct (_ || _); [|intros [= _ <- _]; right; by eexists]. destruct (rd_bytes _ _ _); [|done..]. mstep.
    destruct (_ <? 0); intros [= _ <- _]; right; by eexists.
  - destruct (ssl _).
    + destruct (rd_bytes _ _ _); [|done..]. mstep. destruct (_ <? 0); [|destruct (_ =? 0)]; intros [= _ <- _]; right; by eexists.
    + match goal with |- (let '(_, _) := ?x in _) = _ -> _ => destruct x as [d k3] end. destruct (rd_bytes _ _ _); [|done..]. mstep. destruct (_ <? 0); intros [= _ <- _]; right; by eexists.
Qed.

(** The notice to the proxy: the release identifier and the relay address. *)
Definition release_header (relay : ioa_addr) : stun_custom_header :=
  CustomHeader STUN_CUSTOM_RELEASE_IDENTIFIER (zeros 4) (zeros 2) (sin_addr relay) (sin_port relay).

Lemma notify_spec (w : world) N r k :
  alive e w N -> socks_ok (socks_of w) -> relay_sessions (lf_alloc w.1) !! 0%nat = Some r -> 0 < rs_s r -> socks_of w !! rs_s r = Some k ->
  exists m' out, notify_release_relay_session e w = Ret (set_net w (net_socks (sh_net w.2) m'), out) /\ socks_like (socks_of w) m' /\
    (forall x, x <> client_of w -> m' !! x = socks_of w !! x) /\ emits (socks_of w) (client_of w) None (header_bytes (release_header (local_addr k))) out /\
    does_send e (socks_of w) (client_of w) out.
Proof.
  intros A So Er Ps Ek. unfold notify_release_relay_session. rewrite (at_index_ret _ _ _ Er). mstep.
  pose proof (get_sock_some _ _ _ Ps Ek) as G. unfold socks_of in G. rewrite G. mstep.
  assert (nb_ok ioa_network_buffer_allocate) as Nb by (constructor; vm_compute; congruence).
  rewrite (rd_header_ret _ Nb) by (vm_compute; congruence). mstep.
  destruct (So _ _ Ek) as (_ & [_ _ W] & _). destruct W as (_ & [Wp _] & [Wa _] & _).
  set (h := CustomHeader _ _ _ _ _). assert (h = release_header (local_addr k)) as Eh by (unfold h, release_header; f_equal; vm_compute; reflexivity).
  rewrite Eh. assert (header_wf (release_header (local_addr k))) as Hw.
  { unfold header_wf, header_bytes. simpl. rewrite !length_app. simpl. lia. }
  rewrite (wr_header_ret _ _ Nb) by (done || (vm_compute; congruence)). mstep. set (nbh := with_mem _ _).
  assert (sendable nbh) as Sd.
  { constructor; [constructor; [|vm_compute; congruence]|vm_compute; congruence..]. unfold nbh. cbn [sb_mem with_mem].
    rewrite blen_splice; [apply Nb|vm_compute; congruence|]. unfold blen at 1. rewrite Hw. vm_compute. congruence. }
  assert (datagram nbh = header_bytes (release_header (local_addr k))) as D.
  { unfold nbh. rewrite header_datagram by (done || (vm_compute; congruence)). change (sent_len ioa_network_buffer_allocate - 14) with 0.
    by rewrite slice_0, app_nil_r. }
  unfold write_client_connection. destruct (al_client _ _ _ A) as [(kc & Ekc & _) Pc]. fold (client_of w). fold (client_of w) in Ekc, Pc.
  destruct (client_of w =? 0) eqn:?; [bool_arith; lia|].
  destruct (send_spec e (socks_of w) (client_of w) None nbh TTL_IGNORE TOS_IGNORE So) as (rc & m' & out & E & L & Em & Ds); [right; by exists kc|done|].
  unfold socks_of in E. rewrite E. mstep. exists m', out. split; [done|]. split; [done|]. split; [by eapply send_only|]. rewrite <- D. done.
Qed.

(** The state after the family of the expired session was invalidated. *)
Lemma invalidate_spec w N r k m' :
  alive e w N -> 1 <= N -> kv_inv (sessions_map w.2) -> kv_inv (mobile_connections_map w.2) ->
  relay_sessions (lf_alloc w.1) !! 0%nat = Some r -> session_socket w 1 = 0 -> 0 < rs_s r -> socks_of w !! rs_s r = Some k ->
  relay_of e (ss_ptr w.1) 0 k -> rs_s r <> client_of w -> socks_like (socks_of w) m' -> (forall x, x <> client_of w -> m' !! x = socks_of w !! x) ->
  exists w', invalidate_family (set_net w (net_socks (sh_net w.2) m')) AF_INET = Ret w' /\ closable w' (N - 1) /\
    socks_of w' = delete (rs_s r) m' /\ (forall j, session_socket w' j = 0) /\
    ports_freed (rn_tp (sh_net w.2)) (rn_tp (sh_net w'.2)) (frees k) /\ same_range (rn_tp (sh_net w.2)) (rn_tp (sh_net w'.2)) /\
    map_rtcp (sh_net w'.2) = map_rtcp (sh_net w.2) /\ w'.1 = life_alloc w.1 (lf_alloc w'.1) /\
    sh_quotas w'.2 = sh_quotas w.2 /\ sessions_map w'.2 = sessions_map w.2 /\ is_valid (lf_alloc w'.1) = is_valid (lf_alloc w.1).
Proof.
  intros A HN I1 I2 Er Z1 Ps Ek Rk Nc Lk Ot. pose proof A as [Aa Ap An Ac Af As].
  assert (m' !! rs_s r = Some k) as Ek' by (by rewrite Ot). set (n0 := net_socks (sh_net w.2) m').
  unfold invalidate_family, get_relay_session. change (ALLOC_INDEX AF_INET) with 0%nat.
  change (lf_alloc (set_net w n0).1) with (lf_alloc w.1). rewrite (at_index_ret _ _ _ Er). mstep.
  assert ((rs_s r =? 0) = false) as E0 by (apply Z.eqb_neq; lia). rewrite E0. change (sh_net (set_net w n0).2) with n0.
  change (ss_ptr (set_net w n0).1) with (ss_ptr w.1). unfold clear_ioa_socket_session_if. rewrite E0.
  change (rn_socks n0) with m'. rewrite (get_sock_some m' _ _ Ps Ek'). mstep. rewrite (ro_session _ _ _ _ Rk), Z.eqb_refl. mstep.
  set (n1 := put_sock n0 (rs_s r) (set_session k 0)). assert (net_ok n1 N) as On1.
  { destruct An as [a1 a2 a3 a4 a5 a6]. constructor; try done. unfold n1. simpl. rewrite lookup_insert_ne by lia.
    rewrite Ot; [done|]. destruct Ac as [_ Pc]. unfold client_of. lia. }
  destruct (is_open_live e k (ro_open _ _ _ _ Rk)) as (Mk & Dk & _).
  destruct (close_live n1 (rs_s r) N On1 HN) as (n2 & -> & On2 & Es2 & Pf & Sr & Em & El).
  { right. exists (set_session k 0). split; [done|]. split; [apply lookup_insert_eq|done]. }
  mstep. unfold set_allocation_family_invalid. change (ALLOC_INDEX AF_INET) with 0%nat. rewrite (at_index_ret _ _ _ Er). mstep.
  assert (truthy (rs_s r) = true) as -> by (unfold truthy; by rewrite E0).
  destruct (session_step (lf_alloc w.1) 0 r (RelaySession 0 (rs_expiration_time r) 0) Aa Er eq_refl) as (l & El' & Ok'). unfold event_del.
  rewrite El'. mstep. set (a' := with_sessions _ _) in *. eexists. split; [done|]. set (w' := set_alloc _ _).
  assert (socks_of w' = delete (rs_s r) m') as Sw by (unfold socks_of, w'; simpl; by rewrite Es2; unfold n1; simpl; rewrite delete_insert_eq).
  assert (forall j, session_socket w' j = 0) as Zs.
  { intros j. change (default 0 (rs_s <$> <[0%nat := RelaySession 0 (rs_expiration_time r) 0]> (relay_sessions (lf_alloc w.1)) !! j) = 0).
    destruct (decide (j = 0%nat)) as [->|Nj]; [by rewrite list_lookup_insert_eq by (by eapply lookup_lt_Some)|].
    rewrite list_lookup_insert_ne by done. destruct (decide (j = 1%nat)) as [->|]; [exact Z1|].
    rewrite lookup_ge_None_2; [done|]. rewrite (inv_sessions _ (proj1 Aa)). lia. }
  split; [|split_and!; try done].
  - constructor; [exact Ok'|exact On2|done| | | |].
    + right. destruct Ac as [(kc & Ekc & Oc & _) Pc]. destruct (is_open_live e kc Oc) as (M1 & D1 & _).
      destruct (socks_like_lookup _ _ _ _ Lk Ekc) as (k' & E' & S'). exists k'. split; [exact Pc|]. rewrite Sw.
      split; [rewrite lookup_delete_ne by done; exact E'|]. unfold static in S'. injection S' as _ _ H1 _ _ _ _ _ _ _ _ H2 _. split; congruence.
    + intros i. left. apply Zs.
    + intros i. left. apply Zs.
    + left. apply Zs.
  - assert (freed_by (rn_socks n1) (rs_s r) = frees k) as Fk by (unfold freed_by, n1; simpl; by rewrite lookup_insert_eq). rewrite Fk in Pf. exact Pf.
Qed.

Lemma frees_client (k : ioa_socket) : sat k <> RELAY_SOCKET -> sat k <> RELAY_RTCP_SOCKET -> frees k = [].
Proof.
  intros N1 N2. unfold frees, is_relay_sock. destruct (sat k =? RELAY_SOCKET) eqn:?; bool_arith; [done|].
  destruct (sat k =? RELAY_RTCP_SOCKET) eqn:?; bool_arith; [done|]. by rewrite andb_false_r.
Qed.


(** The timer of an IPv6 allocation without an IPv4 one: the notice reads the
    address of the IPv4 relay socket, which is a null pointer. *)
Theorem ipv6_timeout_null_pointer w N r k :
  alive e w N -> relay_sessions (lf_alloc w.1) !! 1%nat = Some r -> 0 < rs_s r -> socks_of w !! rs_s r = Some k -> session_socket w 0 = 0 ->
  client_ss_allocation_timeout_handler e w 1 = UB.
Proof.
  intros A Er Ps Ek Z0. pose proof A as [Aa [_ Ap] An Ac Af As].
  assert (relay_of e (ss_ptr w.1) 1 k) as Rk by (destruct (As _ _ Er) as [[? _]|(_ & _ & k' & Ek' & Rk)]; [lia|]; by rewrite Ek in Ek'; injection Ek' as ->).
  unfold client_ss_allocation_timeout_handler. rewrite (at_index_ret _ _ _ Er). mstep. destruct (rs_s r =? 0) eqn:?; [bool_arith; lia|].
  pose proof (get_sock_some _ _ _ Ps Ek) as G. unfold socks_of in G. rewrite G. mstep. rewrite (ro_session _ _ _ _ Rk).
  destruct (ss_ptr w.1 =? 0) eqn:?; [bool_arith; lia|]. rewrite Z.eqb_refl. cbn [negb]. unfold notify_release_relay_session.
  destruct (relay_sessions (lf_alloc w.1) !! 0%nat) as [r0|] eqn:E0; [|apply lookup_ge_None in E0; rewrite (inv_sessions _ (proj1 Aa)) in E0; lia].
  rewrite (at_index_ret _ _ _ E0). mstep. unfold session_socket in Z0. rewrite E0 in Z0. simpl in Z0. by rewrite Z0.
Qed.

(** ** The watchdog *)
Lemma idle_sessions w i : all_idle w -> session_socket w i = 0.
Proof. intros Id. unfold session_socket. destruct (relay_sessions (lf_alloc w.1) !! i) as [r|] eqn:E; [|done]. simpl. by destruct (Id i r E). Qed.

(** The watchdog of a client closes a session that got no relay
    connection in time, giving everything back, and leaves one that has an open
    relay session as it is. *)
Theorem watchdog_outcome w N k :
  alive e w N -> 6 <= N -> quota_ready (sh_quotas w.2) -> kv_inv (sessions_map w.2) -> kv_inv (mobile_connections_map w.2) ->
  socks_of w !! client_of w = Some k -> sat k <> HTTPS_CLIENT_SOCKET -> to_be_allocated_timeout_ev w.1 = true ->
  (all_idle w -> exists sh, client_to_be_allocated_timeout_handler e w = Ret (Gone sh []) /\ ended w sh) /\
  (session_socket w 0 <> 0 -> client_to_be_allocated_timeout_handler e w = Ret (Alive w)).
Proof.
  intros A HN Qr I1 I2 Ek Nh Wd. pose proof A as [Aa [_ Ap] An Ac Af As]. destruct Ac as [(kc & Ekc & Oc & _) Pc].
  fold (client_of w) in Ekc, Pc. rewrite Ek in Ekc. injection Ekc as <-.
  pose proof (inv_sessions _ (proj1 Aa)) as L2.
  destruct (relay_sessions (lf_alloc w.1) !! 0%nat) as [r0|] eqn:E0; [|apply lookup_ge_None in E0; lia].
  destruct (relay_sessions (lf_alloc w.1) !! 1%nat) as [r1|] eqn:E1; [|apply lookup_ge_None in E1; lia].
  unfold client_to_be_allocated_timeout_handler. fold (client_of w). rewrite (closing_open e _ _ k Pc Ek Oc). mstep.
  destruct (client_of w =? 0) eqn:?; [bool_arith; lia|]. cbn [orb]. pose proof (get_sock_some _ _ _ Pc Ek) as G. unfold socks_of in G. rewrite G. mstep.
  destruct (sat k =? HTTPS_CLIENT_SOCKET) eqn:?; [bool_arith; done|]. rewrite (at_index_ret _ _ _ E0). mstep. rewrite (at_index_ret _ _ _ E1). mstep.
  split.
  - intros Id. destruct (Id _ _ E0) as [-> _]. destruct (Id _ _ E1) as [-> _]. change (0 =? 0) with true. mstep. cbn [andb orb]. rewrite set_net_same.
    change (set_net (set_net w (sh_net w.2)) (sh_net w.2)) with (set_net w (sh_net w.2)). rewrite ?set_net_same.
    set (w1 := set_life w (life_watchdog w.1 false)).
    assert (closable w1 N) as C1 by (destruct (alive_closable w N A I1 I2); by constructor).
    destruct (shutdown_spec w1 N true C1 Qr HN ltac:(by left)) as (sh & E & [s1 s2 s3 s4 s5]). exists sh. split; [exact E|]. by constructor.
  - intros Op. unfold session_socket in Op. rewrite E0 in Op. simpl in Op.
    destruct (As _ _ E0) as [[? _]|(V0 & Ps & k0 & Ek0 & R0)]; [done|]. destruct (rs_s r0 =? 0) eqn:?; [bool_arith; done|].
    rewrite (closing_open e _ _ k0 Ps Ek0 (ro_open _ _ _ _ R0)). mstep. cbn [andb orb].
    destruct (rs_lifetime_ev r0 =? 0) eqn:?; [bool_arith; done|]. cbn [andb orb]. rewrite Wd. cbn [negb].
    change (set_net (set_net w (sh_net w.2)) (sh_net w.2)) with (set_net w (sh_net w.2)). by rewrite set_net_same.
Qed.
End session_end.

(** ** Instances *)
#[local] Existing Instance ex_store.
#[local] Existing Instance ex_quotas.
#[local] Existing Instance ex_quota_laws.
#[local] Existing Instance ex_store_laws.

Definition sock_okb (h : Z) (k : ioa_socket) : bool :=
  negb (h =? 0) && negb (bev k) && negb (ssl k) && addr_wfb (local_addr k) && (parent_s k =? 0).

Lemma sock_okb_spec (m : sockets) : forallb (fun x => sock_okb x.1 x.2) (map_to_list m) = true -> socks_ok m.
Proof.
  intros H h k E. rewrite forallb_forall in H. specialize (H (h, k)).
  assert (sock_okb h k = true) as Hb by (apply H, list_elem_of_In, elem_of_map_to_list, E). unfold sock_okb in Hb. bool_arith.
  split; [done|]. split; [|by left]. constructor; [done|done|by apply addr_wfb_spec].
Qed.

Lemma ex_allocated_state :
  match ex_allocated [0; 0] with
  | Ret (_, w) => forallb (fun x => sock_okb x.1 x.2) (map_to_list (socks_of w)) = true /\ session_socket w 0 = 6 /\ session_socket w 1 = 0 /\
      is_mobile (lf_ss w.1) = false /\ local_addr <$> socks_of w !! 6 = Some (ex_v4 192 0 2 1 49154)
  | _ => False
  end.
Proof. vm_compute. auto 10. Qed.

Lemma session_end_returns_all_witness :
  exists r w sh, ex_allocated [0; 0] = Ret (r, w) /\ shutdown_client_connection w true = Ret (Gone sh []) /\ ended w sh.
Proof.
  destruct ex_allocated_alive as (r & w & E & A).
  destruct (session_end_returns_all (ML := bump_laws) (SL := ex_store_laws) ex_alloc_engine w 100 A) as (sh & Es & En);
    [lia|exact I|exact I|exact I|]. exists r, w, sh. split; [exact E|]. split; [exact Es|exact En].
Defined.


Definition ex_watched : ex_world := (life_watchdog (ex_life [0; 0]) true, ex_shared).

Lemma watchdog_outcome_witness :
  exists sh, client_to_be_allocated_timeout_handler ex_alloc_engine ex_watched = Ret (Gone sh []) /\ ended ex_watched sh.
Proof.
  assert (alive ex_alloc_engine ex_watched 100) as A.
  { destruct (ex_alive 0 [0; 0] 100 eq_refl ltac:(lia)) as [a1 a2 a3 a4 a5 a6]. by constructor. }
  destruct (watchdog_outcome (ML := bump_laws) (SL := ex_store_laws) ex_alloc_engine ex_watched 100 ex_client A) as [H _];
    [lia|exact I|exact I|exact I|reflexivity|discriminate|reflexivity|].
  apply H. intros i r. destruct i as [|[|i]]; simpl; intros [= <-]; done.
Defined.
