(* ===== verification/QuotaSystem.v ===== *)
(** The user database behind the quota callbacks of the server: UserDb as an
    instance of the interface [Quotas] that the handlers of Allocate and the end
    of a session are proved against. *)

From stdpp Require Import base option numbers list sets strings gmap.
From S2P Require Import Prelude IoAddr StunAddr StunDefs StunMsg StunMsgFacts StunAuth StunBuild StunBuildFacts KeyMap TurnMaps TurnMapsFacts.
From S2P Require Import TurnPorts TurnPortsFacts SlotTable Timers Allocation AllocationFacts NetBuffer Sockets RelayEngine RelayEngineFacts.
From S2P Require Import TurnServer TurnServerFacts DataPath DataPathFacts ServerAuth ServerAuthFacts UserDb UserDbFacts.
From S2P Require Import Allocate AllocateFacts AllocateHandler AllocateOutcome RefreshOutcome SessionEnd.

(** The realms and [bps_capacity_allocated]. *)
Abbreviation user_quotas := (realm_db * Z)%type.

Definition userdb_quotas (tp : turn_params) : Quotas user_quotas := {|
  chquotacb q user oauth realm := '(x, db) ← check_new_allocation_quota tp q.1 (Some user) oauth realm; Ret (negb (x <? 0), (db, q.2));
  raqcb q user oauth realm := db ← release_allocation_quota tp q.1 (Some user) oauth realm; Ret (db, q.2);
  allocate_bps_func q bps add := let '(got, a) := allocate_bps tp q.2 bps add in (got, (q.1, a)) |}.

(** The totals are within the range of [int]. *)
Record userdb_ready (db : realm_db) : Prop := UserdbReady {
  ur_ok : db_ok db;
  ur_totals : Forall (fun r => 0 <= total_current_allocs r < 2 ^ 31 - 1) (rp_heap db) }.

(** The parameters of the realm after looking it up. *)
Lemma ready_realm db name : userdb_ready db ->
  exists p db' r, get_realm db name = Ret (p, db') /\ rp_get db' p = Ret r /\ string_map_inv (alloc_counters r) /\
    0 <= total_current_allocs r < 2 ^ 31 - 1 /\ (realm_of db name <> 0 -> db' = db /\ p = realm_of db name).
Proof.
  intros [Ok T]. destruct (get_realm_spec db name Ok) as (p & db' & ext & r & E & Ok' & Hh & _ & _ & P1 & Er & Ext).
  exists p, db', r. split; [done|]. split; [by apply rp_get_at|]. pose proof (db_counters _ Ok') as F. rewrite Forall_lookup in F.
  split; [by apply (F _ _ Er)|]. split.
  - rewrite Hh in Er. rewrite Forall_lookup in T. apply lookup_app_Some in Er as [Er|[_ Er]]; [by apply (T _ _ Er)|].
    destruct Ext as [->|(d & Ed & ->)]; [done|]. apply list_lookup_singleton_Some in Er as [_ <-]. apply (T _ _ Ed).
  - intros Nz. revert E. unfold get_realm, realm_of in *. destruct (bool_decide (cstr name = [])); [by intros [= <- <-]|].
    rewrite (string_get_abs _ _ (db_realms _ Ok)). mstep. destruct (string_map_abs (realms db) name) as [q|]; [by intros [= <- <-]|done].
Qed.

Lemma check_returns tp db user oauth realm : userdb_ready db ->
  exists x db', check_new_allocation_quota tp db (Some user) oauth realm = Ret (x, db') /\ (x = 0 \/ x = -1).
Proof.
  intros R. unfold check_new_allocation_quota.
  assert (exists name, (if oauth then Ret [] else Ret (get_real_username tp user)) = Ret name) as [name ->] by (destruct oauth; by eexists).
  mstep. destruct (ready_realm db realm R) as (p & db' & r & -> & G & Ir & T & _). mstep. rewrite G. mstep.
  assert (int_inc (total_current_allocs r) = Ret (total_current_allocs r + 1)) as -> by (unfold int_inc; if_case; done). mstep.
  destruct (_ && _); [eexists _, _; split; [done|by right]|]. destruct (negb _); [|eexists _, _; split; [done|by left]].
  rewrite (string_get_abs _ _ Ir). mstep. destruct (string_map_abs _ name) as [v|].
  - destruct (_ && _); [eexists _, _; split; [done|by right]|].
    destruct (string_put_spec (alloc_counters r) name (u64 (v + 1)) Ir) as (m & f & -> & _). mstep. eexists _, _. split; [done|by left].
  - destruct (string_put_spec (alloc_counters r) name 1 Ir) as (m & f & -> & _). mstep. eexists _, _. split; [done|by left].
Qed.

Lemma release_returns tp db user oauth realm : userdb_ready db -> exists db', release_allocation_quota tp db (Some user) oauth realm = Ret db'.
Proof.
  intros R. unfold release_allocation_quota. cbv zeta. set (name := if oauth then [] else _).
  destruct (ready_realm db realm R) as (p & db' & r & -> & G & Ir & T & _). mstep. rewrite G. mstep.
  assert (exists n, (if truthy (total_current_allocs r) then int_dec (total_current_allocs r) else Ret 0) = Ret n) as [n ->].
  { destruct (truthy _); [|by eexists]. unfold int_dec. if_case. by eexists. }
  destruct (negb _); mstep; [|by eexists]. rewrite (string_get_abs _ _ Ir). mstep. destruct (string_map_abs _ name) as [v|]; [|mstep; by eexists].
  destruct (truthy v); [|mstep; by eexists].
  destruct (string_put_spec (alloc_counters r) name (u64 (v - 1)) Ir) as (m & f & -> & _). mstep. by eexists.
Qed.

Definition userdb_quota_laws (tp : turn_params) : QuotaLaws (QT := userdb_quotas tp) user_quotas.
Proof.
  exists (fun q => userdb_ready q.1).
  - intros q user oauth realm R. destruct (check_returns tp q.1 user oauth realm R) as (x & db' & E & _). cbv beta iota delta [chquotacb userdb_quotas]. rewrite E. mstep. by eexists _, _.
  - intros q user oauth realm R. destruct (release_returns tp q.1 user oauth realm R) as (db' & E). cbv beta iota delta [raqcb userdb_quotas]. rewrite E. mstep. by eexists.
Defined.

Section system.
Context (tp : turn_params).
Context {K U S : Type} {KN : Kernel K} {UM : UrMap U} {M : Malloc} {ML : MallocLaws}.
Context {SM : KVStore Z Z S} {HK : HashKey Z} {HL : HashKeyLaws Z} {SL : KVLaws Z Z S}.
Context (cfg : alloc_config) (server : turn_turnserver) (e : engine) (local_relay : Z -> option ioa_addr) (now : Z).
Context (EM : addr_maps server = []) (X : external_ok cfg) (Lm : limits_ok server).
Abbreviation world := (life * shared K U user_quotas S)%type.
Let QT : Quotas user_quotas := userdb_quotas tp.
#[local] Existing Instance QT.
Let QL : QuotaLaws user_quotas := userdb_quota_laws tp.
#[local] Existing Instance QL.


(** What the session holds. *)
Definition session_ticket (w : world) : ticket :=
  Ticket (username (lf_auth w.1)) (ss_oauth (lf_auth w.1)) (realm_name (lf_ss w.1)).

(** C12. When a session that holds an allocation ends, the ledger of the user
    database loses exactly the entry of that session: the counters of its
    realm and user go down by one, those of the others stay exact. *)
Theorem session_end_updates_ledger (w : world) N known B held :
  alive e w N -> 6 <= N -> userdb_ready (sh_quotas w.2).1 -> kv_inv (sessions_map w.2) -> kv_inv (mobile_connections_map w.2) ->
  quota_used w.1 = true -> (0 < known <= length (rp_heap (sh_quotas w.2).1))%nat -> B < 2 ^ 31 ->
  ledger tp (sh_quotas w.2).1 known B (session_ticket w :: held) ->
  exists sh, shutdown_client_connection w true = Ret (Gone sh []) /\ ended w sh /\ ledger tp (sh_quotas sh).1 known B held.
Proof.
  intros A HN Rd I1 I2 Hq Hk HB Lg. destruct (shutdown_spec (QL := QL) w N true (alive_closable e w N A I1 I2) Rd HN ltac:(by left)) as (sh & E & En).
  exists sh. split; [done|]. split; [done|]. destruct (en_quotas _ _ En) as (q1 & Hr & Eq). rewrite Hq in Hr.
  destruct (give_spec tp _ known B held _ Hk Lg HB) as (db' & Eg & _ & Lg'). cbn [session_ticket tk_user tk_oauth tk_realm] in Eg.
  cbv beta iota delta [raqcb QT userdb_quotas] in Hr. rewrite Eg in Hr. mstep. cbn [mbind outcome_bind] in Hr. injection Hr as <-. rewrite Eq. destruct (truthy _); [|done].
  cbv beta iota delta [allocate_bps_func QT userdb_quotas]. by destruct (allocate_bps _ _ _ _).
Qed.
End system.

(** A database whose ledger is kept is ready for the callbacks. *)
Lemma ledger_ready tp db known B held : ledger tp db known B held -> B < 2 ^ 31 - 1 -> userdb_ready db.
Proof.
  intros (Ok & _ & Ac) HB. constructor; [done|]. apply Forall_lookup. intros i r E. destruct (ac_total _ _ _ _ _ (Ac i r E)). lia.
Qed.

(** ** Instances *)
#[local] Existing Instance ex_store.
#[local] Existing Instance ex_store_laws.

(** Two allocations in the default realm, which has a total quota of two. *)
Definition ex_full : realm_params := RealmParams true (RealmOptions [] 0 2 1) 2 ur_string_map_create.
Definition ex_full_db : realm_db := RealmDb [ex_full] ur_string_map_create [] ur_string_map_create [].

Lemma ex_full_ready : userdb_ready ex_full_db.
Proof.
  constructor; [|constructor; [simpl; lia|constructor]].
  constructor; [apply string_map_init_inv|done|constructor; [apply string_map_init_inv|constructor]|constructor; [simpl; lia|constructor]|].
  intros k p. rewrite string_map_abs_create. done.
Qed.

Definition ex_full_world : life * shared Z (list (Z * rtcp_alloc_type)) user_quotas (gmap Z Z) := (ex_life [0; 0], ex_shared_of (ex_full_db, 0)).


(** The session of user "a", which holds the one allocation of [ex_db]. *)
Definition ex_holder : ticket := Ticket [97] false [].
Definition ex_holding_life : life :=
  life_quota (ex_life [0; 0]) (AuthSession [] 0 [97] [] false [] false []) true.

Lemma ex_held : exists db, check_new_allocation_quota ex_tp ex_db (Some [97]) false [] = Ret (0, db).
Proof. eexists. vm_compute. reflexivity. Qed.

Lemma session_end_updates_ledger_witness :
  exists db sh, ledger ex_tp db 1 1 [ex_holder] /\
    shutdown_client_connection (QT := userdb_quotas ex_tp) (ex_holding_life, ex_shared_of (db, 0)) true = Ret (Gone sh []) /\
    ledger ex_tp (sh_quotas sh).1 1 1 [].
Proof.
  destruct ex_held as [db Eh]. assert (0 < 1 <= length (rp_heap ex_db))%nat as Hk by (simpl; lia).
  destruct (take_spec ex_tp ex_db 1 0 [] ex_holder Hk (unused_ledger ex_tp ex_db ex_unused) ltac:(lia)) as (x & db' & E & L & H).
  cbn [ex_holder tk_user tk_oauth tk_realm] in E. rewrite Eh in E. injection E as <- <-.
  destruct H as [[_ Lg]|[Ne _]]; [|discriminate Ne].
  assert (alive ex_alloc_engine (ex_holding_life, ex_shared_of (db, 0)) 100) as A.
  { destruct (ex_alive (db, 0) [0; 0] 100 eq_refl ltac:(lia)) as [a1 a2 a3 a4 a5 a6]. by constructor. }
  destruct (session_end_updates_ledger (ML := bump_laws) (SL := ex_store_laws) ex_tp ex_alloc_engine (ex_holding_life, ex_shared_of (db, 0)) 100 1 1 [] A)
    as (sh & Es & _ & Lg').
  - lia.
  - apply (ledger_ready _ _ _ _ _ Lg). lia.
  - exact I.
  - exact I.
  - reflexivity.
  - split; [lia|]. etransitivity; [|exact L]. simpl. lia.
  - lia.
  - exact Lg.
  - exists db, sh. split; [exact Lg|]. split; [exact Es|exact Lg'].
Defined.
