(* ===== verification/Binding.v ===== *)
(** Binding requests: [handle_turn_binding] of server/ns_turn_server.c, with the
    NAT behaviour discovery of RFC 5780 and the compatibility with classic STUN.

    The callback that gives the alternative address of a listener and the path
    MTU that the kernel tells for a descriptor are arguments of the section.
    [response_origin] and [response_destination] are not set by the caller:
    what they hold is an argument of the handler. *)

From stdpp Require Import base option numbers list strings gmap.
From S2P Require Import Prelude IoAddr StunAddr StunDefs StunMsg StunFraming StunBuild SlotTable TurnMaps Timers.
From S2P Require Import Allocation NetBuffer TurnPorts Sockets RelayEngine TurnServer.

Definition OLD_STUN_ATTRIBUTE_PASSWORD : Z := 0x0007.

(** The local variables of the handler. *)
Record binding_req : Type := BindingReq {
  bi_reply : reply;
  change_ip : Z;
  change_port : Z;
  padding : bool;
  response_port : option Z;
  use_reflected_from : bool;
  bi_destination : ioa_addr }.

Definition bi_fail (q : binding_req) (code : Z) (text : string) : binding_req :=
  BindingReq (fail_with (bi_reply q) code text) (change_ip q) (change_port q) (padding q) (response_port q) (use_reflected_from q) (bi_destination q).

Section binding.
Context {K U : Type} {KN : Kernel K}.
Abbreviation net := (relay_net K U).
Context (rfc5780 : bool) (alt_addr_cb : option (option ioa_addr -> ioa_addr -> Z * ioa_addr)) (get_socket_mtu : Z -> Z -> Z).
Context (maps : list addr_mapping).

Definition is_rfc5780 : bool := rfc5780 && bool_decide (alt_addr_cb <> None).

(** The callback gets the local address, or the null pointer, and the variable
    of the caller. *)
Definition get_other_address (n : net) (s : Z) (alt : ioa_addr) : outcome (Z * ioa_addr * net) :=
  match alt_addr_cb with
  | Some cb =>
      if is_rfc5780 && negb (s =? 0) then '(local, n) ← get_local_addr_from_ioa_socket n s; Ret (cb local alt, n)
      else Ret (-1, alt, n)
  | None => Ret (-1, alt, n)
  end.

Definition get_local_mtu_ioa_socket (socks : sockets) (s : Z) : outcome Z :=
  if s =? 0 then Ret (-1) else
  k ← get_sock socks s;
  k ← get_sock socks (if parent_s k =? 0 then s else parent_s k);
  Ret (get_socket_mtu (fd k) (s_family k)).

Definition binding_attr (sock_type : Z) (old_stun : bool) (buf : list Z) (len : Z) (q : binding_req) (sar : Z) : outcome binding_req :=
  let r := bi_reply q in
  attr_type ← stun_attr_get_type buf (Some sar);
  if (attr_type =? OLD_STUN_ATTRIBUTE_PASSWORD) || SKIP_ATTRIBUTES attr_type then Ret q
  else if attr_type =? STUN_ATTRIBUTE_CHANGE_REQUEST then
    o ← stun_attr_get_change_request_str buf (Some sar);
    let '(ci, cp) := default (change_ip q, change_port q) o in
    let q := BindingReq r ci cp (padding q) (response_port q) (use_reflected_from q) (bi_destination q) in
    if negb is_rfc5780 && (truthy ci || truthy cp) then
      Ret (bi_fail q 420 "Unknown attribute: TURN server was configured without RFC 5780 support")
    else if (truthy ci || truthy cp) && negb (sock_type =? UDP_SOCKET) then
      Ret (bi_fail q 400 "Wrong request: applicable only to UDP protocol")
    else Ret q
  else if attr_type =? STUN_ATTRIBUTE_PADDING then
    if bool_decide (response_port q <> None) then
      Ret (bi_fail q 400 "Wrong request format: you cannot use PADDING and RESPONSE_PORT together")
    else if negb (sock_type =? UDP_SOCKET) && negb (sock_type =? DTLS_SOCKET) then
      Ret (bi_fail q 400 "Wrong request: padding applicable only to UDP and DTLS protocols")
    else Ret (BindingReq r (change_ip q) (change_port q) true (response_port q) (use_reflected_from q) (bi_destination q))
  else if attr_type =? STUN_ATTRIBUTE_RESPONSE_PORT then
    if padding q then
      Ret (bi_fail q 400 "Wrong request format: you cannot use PADDING and RESPONSE_PORT together")
    else if negb (sock_type =? UDP_SOCKET) then
      Ret (bi_fail q 400 "Wrong request: applicable only to UDP protocol")
    else
      rp ← stun_attr_get_response_port_str buf (Some sar);
      if rp >=? 0 then
        Ret (BindingReq r (change_ip q) (change_port q) (padding q) (Some (u16 rp)) (use_reflected_from q) (bi_destination q))
      else Ret (bi_fail q 400 "Wrong response port format")
  else if attr_type =? OLD_STUN_ATTRIBUTE_RESPONSE_ADDRESS then
    if old_stun then
      '(_, d) ← stun_attr_get_addr_str maps buf len (Some sar) (Some (bi_destination q));
      Ret (BindingReq r (change_ip q) (change_port q) (padding q) (response_port q) true d)
    else Ret q
  else if comprehension_required attr_type then
    r ← add_unknown r attr_type;
    Ret (BindingReq r (change_ip q) (change_port q) (padding q) (response_port q) (use_reflected_from q) (bi_destination q))
  else Ret q.

(** What the handler leaves: the reply, and the two addresses with the marks
    that they were changed. *)
Record binding_result : Type := BindingResult {
  bd_reply : reply;
  origin_changed : bool;
  response_origin : ioa_addr;
  dest_changed : bool;
  response_destination : ioa_addr }.

(** The result of [stun_attr_add_addr_str] is ignored. *)
Definition add_addr (m : mbuf) (t : Z) (a : ioa_addr) : outcome mbuf := '(_, m) ← stun_attr_add_addr_str maps m t a; Ret m.

Definition other_origin (q : binding_req) (origin other : ioa_addr) : bool * ioa_addr :=
  if truthy (change_ip q) then
    (true, if truthy (change_port q) then other else set_port other (get_port origin))
  else if truthy (change_port q) then (true, set_port origin (get_port other))
  else (false, origin).

Definition binding_mtu (mtu : Z) : Z := u16 (Z.shiftl (Z.shiftr (if mtu <? 68 then 1500 else mtu) 2) 2).

(** Padding up to the path MTU; the result of the writer is ignored. *)
Definition binding_padding (q : binding_req) (socks : sockets) (s : Z) (m : mbuf) : outcome mbuf :=
  if padding q then
    mtu ← get_local_mtu_ioa_socket socks s;
    '(_, m) ← stun_attr_add_padding_str m (binding_mtu mtu);
    Ret m
  else Ret m.

(** The branch of RFC 5780 with an alternative address. *)
Definition binding_other (q : binding_req) (old_stun : bool) (socks : sockets) (s : Z) (m : mbuf) (remote origin other : ioa_addr) :
    outcome binding_result :=
  let r := bi_reply q in
  let '(oc, origin) := other_origin q origin other in
  m ← add_addr m (if old_stun then OLD_STUN_ATTRIBUTE_SOURCE_ADDRESS else STUN_ATTRIBUTE_RESPONSE_ORIGIN) origin;
  m ← add_addr m (if old_stun then OLD_STUN_ATTRIBUTE_CHANGED_ADDRESS else STUN_ATTRIBUTE_OTHER_ADDRESS) other;
  let '(dc, dest) := match response_port q with Some p => (true, set_port remote p) | None => (false, remote) end in
  m ← binding_padding q socks s m;
  Ret (BindingResult (Reply (err_code r) (reason r) (unknown_attrs r) (Some m)) oc origin dc dest).

(** The response has been started in [m]; [other0] is what the variable for the
    alternative address holds. *)
Definition binding_success (q : binding_req) (old_stun : bool) (n : net) (s : Z) (m : mbuf) (remote origin0 other0 : ioa_addr) :
    outcome (binding_result * net) :=
  let r := bi_reply q in
  '(local, n) ← get_local_addr_from_ioa_socket n s;
  let origin := default origin0 local in
  let done m := BindingResult (Reply (err_code r) (reason r) (unknown_attrs r) (Some m)) false origin false (bi_destination q) in
  m ← (if old_stun && use_reflected_from q then add_addr m OLD_STUN_ATTRIBUTE_REFLECTED_FROM remote else Ret m);
  if negb is_rfc5780 then
    if old_stun then
      m ← add_addr m OLD_STUN_ATTRIBUTE_SOURCE_ADDRESS origin;
      m ← add_addr m OLD_STUN_ATTRIBUTE_CHANGED_ADDRESS origin;
      Ret (done m, n)
    else m ← add_addr m STUN_ATTRIBUTE_RESPONSE_ORIGIN origin; Ret (done m, n)
  else
    '(ret, other, n) ← get_other_address n s other0;
    if ret =? 0 then b ← binding_other q old_stun (rn_socks n) s m remote origin other; Ret (b, n) else Ret (done m, n).

Definition handle_turn_binding (n : net) (s : Z) (tid buf : list Z) (len : Z) (nbh rnd : list Z)
    (cookie : Z) (old_stun : bool) (origin0 dest0 other0 : ioa_addr) : outcome (binding_result * net) :=
  sock_type ← get_ioa_socket_type (rn_socks n) s;
  if s =? 0 then Ret (BindingResult no_reply false origin0 false dest0, n) else
  q ← attr_scan buf len (fun q => scan_goes_on (bi_reply q)) (binding_attr sock_type old_stun buf len)
        (BindingReq no_reply 0 0 false None false dest0);
  let r := bi_reply q in
  let none r := Ret (BindingResult r false origin0 false (bi_destination q), n) in
  if 0 <? blen (unknown_attrs r) then none (Reply 420 (reason r) (unknown_attrs r) (resp r))
  else if truthy (err_code r) then none r
  else
    remote ← get_remote_addr_from_ioa_socket (rn_socks n) s;
    match remote with
    | None => none r
    | Some remote =>
        '(ret, m) ← stun_set_binding_response_str maps nbh (Some tid) (Some remote) 0 None cookie old_stun rnd;
        if ret >=? 0 then binding_success q old_stun n s m remote origin0 other0 else none r
    end.
End binding.
