(* ===== verification/BindingFacts.v ===== *)
(** Properties of the Binding handler: what an answer of the server holds and
    where it is sent. *)

From stdpp Require Import base option numbers list strings gmap.
From S2P Require Import Prelude IoAddr StunAddr StunDefs StunMsg StunMsgFacts StunFraming StunBuild StunBuildFacts SlotTable TurnMaps Timers.
From S2P Require Import Allocation NetBuffer TurnPorts Sockets RelayEngine RelayEngineFacts TurnServer TurnServerFacts Binding.

Section binding_facts.
Context {K U : Type} {KN : Kernel K}.
Abbreviation net := (relay_net K U).
Context (rfc5780 : bool) (alt_addr_cb : option (option ioa_addr -> ioa_addr -> Z * ioa_addr)).
Abbreviation rfc := (is_rfc5780 rfc5780 alt_addr_cb).

(** * The attributes of the request *)

Section scan.
Context (sock_type : Z).

(** What the loop keeps: a change of the addresses is only asked for on UDP,
    that of the origin only with RFC 5780. *)
Record scanned (q : binding_req) : Prop := Scanned {
  sc_resp : resp (bi_reply q) = None;
  sc_code : err_code (bi_reply q) ∈ [0; 400; 420];
  sc_port : forall p, response_port q = Some p -> 0 <= p < 2 ^ 16 /\ sock_type = UDP_SOCKET;
  sc_change : err_code (bi_reply q) = 0 -> truthy (change_ip q) || truthy (change_port q) = true ->
    rfc = true /\ sock_type = UDP_SOCKET }.

Section attribute.
Context (buf : list Z) (len fin a : Z) (B : bytes_ok buf) (L : len <= blen buf) (F : fin <= len).
Context (V : attr_valid buf fin a).

Lemma change_request_returns : exists o, stun_attr_get_change_request_str buf (Some a) = Ret o.
Proof.
  destruct (value_returns buf len fin a L F V) as (l & El & H0 & Hl & Ev). pose proof (attr_valid_bound _ _ _ V).
  unfold stun_attr_get_change_request_str. rewrite El. mstep. destruct (l =? 4) eqn:?; bool_arith; [|by eexists].
  rewrite Ev. mstep. destruct (l <? 1); [by eexists|]. rewrite rd8_ret by lia. by eexists.
Qed.

Lemma response_port_returns : exists p, stun_attr_get_response_port_str buf (Some a) = Ret p /\ p < 2 ^ 16.
Proof.
  destruct (value_returns buf len fin a L F V) as (l & El & H0 & Hl & Ev). pose proof (attr_valid_bound _ _ _ V).
  unfold stun_attr_get_response_port_str. rewrite El. mstep. destruct (l >=? 2) eqn:?; bool_arith; [|by eexists].
  rewrite Ev. mstep. destruct (l <? 1); [by eexists|]. destruct (rd16_ok buf (a + 4)) as (n & -> & ?); [done|lia|lia|].
  exists n. split; [done|lia].
Qed.

Lemma binding_attr_ok q :
  scanned q -> scan_goes_on (bi_reply q) = true ->
  exists q', binding_attr rfc5780 alt_addr_cb [] sock_type false buf len q a = Ret q' /\ scanned q'.
Proof.
  intros Q G. pose proof Q as [R C P X]. unfold binding_attr. cbv zeta.
  destruct (type_returns buf len fin a B L F V) as [t ->]. mstep.
  assert (forall c x, c ∈ [400; 420] -> forall ci cp, scanned (bi_fail (BindingReq (bi_reply q) ci cp (padding q) (response_port q)
            (use_reflected_from q) (bi_destination q)) c x)) as Fail.
  { intros c x Hc ci cp. split; simpl; [done|set_solver|done|]. intros ->. set_solver. }
  assert (forall c x, c ∈ [400; 420] -> scanned (bi_fail q c x)) as Fail'.
  { intros c x Hc. specialize (Fail c x Hc (change_ip q) (change_port q)). by destruct q. }
  destruct (_ || SKIP_ATTRIBUTES t); [by eexists|]. destruct (t =? STUN_ATTRIBUTE_CHANGE_REQUEST).
  { destruct change_request_returns as [o ->]. mstep. destruct (default _ o) as [ci cp].
    destruct (negb rfc && _) eqn:E1; [eexists; split; [done|]; apply Fail; set_solver|].
    destruct ((truthy ci || truthy cp) && _) eqn:E2; [eexists; split; [done|]; apply Fail; set_solver|].
    eexists. split; [done|]. split; simpl; [done|done|done|]. intros _ Hc. rewrite Hc in E1, E2. destruct rfc; [|done].
    by destruct (sock_type =? UDP_SOCKET) eqn:?; bool_arith. }
  destruct (t =? STUN_ATTRIBUTE_PADDING).
  { destruct (bool_decide _); [eexists; split; [done|]; apply Fail'; set_solver|].
    destruct (_ && _); [eexists; split; [done|]; apply Fail'; set_solver|]. eexists. split; [done|]. by split. }
  destruct (t =? STUN_ATTRIBUTE_RESPONSE_PORT).
  { destruct (padding q); [eexists; split; [done|]; apply Fail'; set_solver|].
    destruct (negb (sock_type =? UDP_SOCKET)) eqn:Eu; [eexists; split; [done|]; apply Fail'; set_solver|].
    destruct response_port_returns as (p & -> & Hp). mstep.
    destruct (p >=? 0); eexists; (split; [done|]); [|apply Fail'; set_solver].
    split; simpl; [done|done| |done]. intros p' [= <-]. bool_arith. split; [apply u16_range|done]. }
  destruct (t =? OLD_STUN_ATTRIBUTE_RESPONSE_ADDRESS); [by eexists|].
  destruct (comprehension_required t); [|by eexists]. rewrite (add_unknown_ok _ _ G). mstep. eexists. split; [done|]. by split.
Qed.
End attribute.

Lemma binding_scan buf len q :
  bytes_ok buf -> len <= blen buf -> scanned q ->
  exists q', attr_scan buf len (fun q => scan_goes_on (bi_reply q)) (binding_attr rfc5780 alt_addr_cb [] sock_type false buf len) q = Ret q' /\
    scanned q'.
Proof.
  intros B L. apply (attr_scan_inv buf len _ _ scanned B L). intros fin a st F V I G. by apply (binding_attr_ok buf len fin a B L F V).
Qed.
End scan.

(** * The response *)

(** The message under construction answers the transaction with both forms of
    the client's address, then has the attributes [l]. *)
Definition carries (b : mbuf) (id : list Z) (remote : ioa_addr) (l : list (Z * list Z)) : Prop :=
  exists v1 v2, mrepr b (SMsg (stun_make_success_response STUN_METHOD_BINDING) STUN_MAGIC_COOKIE id
                   ((STUN_ATTRIBUTE_XOR_MAPPED_ADDRESS, v1) :: (STUN_ATTRIBUTE_MAPPED_ADDRESS, v2) :: l)) /\
    (0 < blen v1 /\ stun_addr_encode (Some remote) true STUN_MAGIC_COOKIE (Some id) = Some v1) /\
    (0 < blen v2 /\ stun_addr_encode (Some remote) false STUN_MAGIC_COOKIE (Some id) = Some v2).

Section response.
Context (id : list Z) (remote : ioa_addr) (Bi : bytes_ok id) (Li : length id = 12%nat) (Hr : addr_ok remote).

Lemma set_binding_refines buf rnd cookie :
  bytes_ok buf -> 200 <= blen buf -> bytes_ok rnd -> length rnd = 12%nat ->
  exists b, stun_set_binding_response_str [] buf (Some id) (Some remote) 0 None cookie false rnd = Ret (0, b) /\
    carries b id remote [] /\ mlen b <= 68 /\ blen (mdata b) = blen buf.
Proof.
  intros B L Br Lr. unfold stun_set_binding_response_str. change (0 =? 0) with true. cbn [negb]. cbn iota.
  destruct (init_success_refines STUN_METHOD_BINDING buf id rnd) as (b0 & -> & R0 & L0 & D0); try done; try lia. mstep.
  destruct (opt_addr_step b0 _ STUN_ATTRIBUTE_XOR_MAPPED_ADDRESS (Some remote) R0) as (l1 & b1 & K1 & R1 & L1 & D1 & v1 & -> & P1 & E1);
    unfold MAX_STUN_MESSAGE_SIZE; try done; try lia; [by intros ? [= <-]|]. rewrite K1.
  destruct (opt_addr_step b1 _ STUN_ATTRIBUTE_MAPPED_ADDRESS (Some remote) R1) as (l2 & b2 & K2 & R2 & L2 & D2 & v2 & -> & P2 & E2);
    unfold MAX_STUN_MESSAGE_SIZE; try done; try lia; [by intros ? [= <-]|]. rewrite K2.
  exists b2. split; [done|]. split; [|split; lia]. by exists v1, v2.
Qed.

Lemma add_addr_step b l t ca :
  carries b id remote l -> addr_ok ca -> 0 <= t < 2 ^ 16 -> mlen b + 24 < MAX_STUN_MESSAGE_SIZE -> mlen b + 24 <= blen (mdata b) ->
  exists v b', add_addr [] b t ca = Ret b' /\ carries b' id remote (l ++ [(t, v)]) /\ mlen b' <= mlen b + 24 /\
    blen (mdata b') = blen (mdata b) /\ 0 < blen v /\ stun_addr_encode (Some ca) (is_xor_type t) STUN_MAGIC_COOKIE (Some id) = Some v.
Proof.
  intros (v1 & v2 & R & H1 & H2) [W F] Ht Hmax Hcap.
  destruct (add_addr_refines b _ t ca R Li W F Ht Hmax Hcap) as (v & b' & E & Lv & A & R' & L & D).
  exists v, b'. unfold add_addr. rewrite A. split; [done|]. split; [by exists v1, v2|]. split; [lia|]. split; [done|]. split; [lia|done].
Qed.

(** Padding that the message has no room for is left out. *)
Lemma add_padding_step b l n :
  carries b id remote l -> 0 <= n < 2 ^ 16 -> MAX_STUN_MESSAGE_SIZE <= blen (mdata b) ->
  exists c b' l', stun_attr_add_padding_str b n = Ret (c, b') /\ carries b' id remote (l ++ l').
Proof.
  intros (v1 & v2 & R & H1 & H2) Hn Hcap. unfold stun_attr_add_padding_str. remember (zeros (Z.to_nat n)) as v eqn:Ev.
  assert (blen v = n) as Hv by (subst v; unfold zeros, blen; rewrite length_replicate; lia).
  assert (bytes_ok v) as Bv by (subst v; by apply Forall_replicate).
  pose proof (repr_len _ _ _ R) as HL. rewrite <- Hv.
  destruct (decide (mlen b + 4 + pad4 (blen v) < MAX_STUN_MESSAGE_SIZE)) as [Hmax|Hmax].
  - destruct (add_step b _ STUN_ATTRIBUTE_PADDING v R) as (b' & -> & R' & _); [done|done|lia|lia|lia|].
    exists 0, b', [(STUN_ATTRIBUTE_PADDING, v)]. split; [done|]. by exists v1, v2.
  - exists (-1), b, []. rewrite app_nil_r. split; [|by exists v1, v2].
    unfold stun_attr_add_str. rewrite (repr_command_len _ _ _ R). mstep. destruct (blen v <? 0) eqn:?; [bool_arith; blia|].
    destruct (attrs_at_le _ _ _ _ (repr_attrs _ _ _ R)) as [_ Hmod]. rewrite round_up_newlen; [| |lia].
    + destruct (_ >=? MAX_STUN_MESSAGE_SIZE) eqn:?; [done|bool_arith; lia].
    + replace (mlen b) with (mlen b - 20 + 5 * 4) by lia. by rewrite Z.mod_add by lia.
Qed.

(** What a client reads in the answer. *)
Definition answers (b : mbuf) : Prop :=
  stun_is_success_response_str (Some (mdata b)) (mlen b) = Ret true /\
  stun_get_method_str (Some (mdata b)) (mlen b) = Ret STUN_METHOD_BINDING /\
  stun_tid_from_message_str (mdata b) (mlen b) = Ret id /\
  exists xa ma,
    (stun_attr_get_first_addr_str [] (mdata b) (mlen b) STUN_ATTRIBUTE_XOR_MAPPED_ADDRESS None = Ret (Some xa) /\ same_endpoint xa remote) /\
    (stun_attr_get_first_addr_str [] (mdata b) (mlen b) STUN_ATTRIBUTE_MAPPED_ADDRESS None = Ret (Some ma) /\ same_endpoint ma remote).

Definition names_origin (b : mbuf) (origin : ioa_addr) : Prop :=
  exists oa, stun_attr_get_first_addr_str [] (mdata b) (mlen b) STUN_ATTRIBUTE_RESPONSE_ORIGIN None = Ret (Some oa) /\ same_endpoint oa origin.

Lemma carries_answers b l : carries b id remote l -> answers b.
Proof.
  intros (v1 & v2 & R & [P1 E1] & [P2 E2]). destruct Hr as [W _].
  destruct (get_first_addr_repr _ _ _ [] ((STUN_ATTRIBUTE_MAPPED_ADDRESS, v2) :: l) STUN_ATTRIBUTE_XOR_MAPPED_ADDRESS v1 remote R) as (xa & X); try done.
  destruct (get_first_addr_repr _ _ _ [(STUN_ATTRIBUTE_XOR_MAPPED_ADDRESS, v1)] l STUN_ATTRIBUTE_MAPPED_ADDRESS v2 remote R) as (ma & Y); try done.
  split. { unfold stun_is_success_response_str. rewrite (repr_not_channel _ _ _ R). mstep. by rewrite (repr_msg_type _ _ _ R). }
  split; [by rewrite (repr_method _ _ _ R)|]. split; [|by exists xa, ma].
  unfold stun_tid_from_message_str. pose proof (repr_len _ _ _ R). rewrite (rd_bytes_ret _ 8 12) by lia. by rewrite (repr_tid _ _ _ R).
Qed.

Lemma carries_origin b l v origin :
  carries b id remote ((STUN_ATTRIBUTE_RESPONSE_ORIGIN, v) :: l) -> addr_ok origin -> 0 < blen v ->
  stun_addr_encode (Some origin) false STUN_MAGIC_COOKIE (Some id) = Some v -> names_origin b origin.
Proof.
  intros (v1 & v2 & R & _) [W _] P E.
  by destruct (get_first_addr_repr _ _ _ [(STUN_ATTRIBUTE_XOR_MAPPED_ADDRESS, v1); (STUN_ATTRIBUTE_MAPPED_ADDRESS, v2)] l STUN_ATTRIBUTE_RESPONSE_ORIGIN v origin R) as (oa & X); try done; exists oa.
Qed.

(** * Where the response goes *)

(** The alternative address of the listener at [c]. *)
Definition alternative (c other0 : ioa_addr) : option ioa_addr :=
  match alt_addr_cb with
  | Some cb => if rfc && ((cb (Some c) other0).1 =? 0) then Some (cb (Some c) other0).2 else None
  | None => None
  end.

(** A response leaves the server elsewhere, or goes to another port, only over
    UDP with the alternative address; it goes to the host of the client, and
    comes from one of the four combinations of the addresses and ports of the
    listener and of the alternative one. *)
Definition routed (sock_type : Z) (c other0 : ioa_addr) (r : binding_result) : Prop :=
  (origin_changed r = false -> response_origin r = c) /\
  (origin_changed r || dest_changed r = true -> sock_type = UDP_SOCKET /\
     exists o, alternative c other0 = Some o /\
       (response_destination r = remote \/ exists p, 0 <= p < 2 ^ 16 /\ response_destination r = set_port remote p) /\
       response_origin r ∈ [c; o; set_port o (get_port c); set_port c (get_port o)]).

Lemma set_port_ok a p : addr_ok a -> addr_ok (set_port a p).
Proof. intros [W F]. split; [by apply set_port_wf|]. by rewrite set_port_family. Qed.

Lemma other_origin_spec sock_type q c o :
  scanned sock_type q -> err_code (bi_reply q) = 0 -> addr_ok c -> addr_ok o ->
  exists oc origin, other_origin q c o = (oc, origin) /\ addr_ok origin /\ (oc = false -> origin = c) /\
    (oc = true -> sock_type = UDP_SOCKET) /\ origin ∈ [c; o; set_port o (get_port c); set_port c (get_port o)].
Proof.
  intros Q E0 Hc Ho. pose proof (sc_change _ _ Q E0) as X. unfold other_origin.
  destruct (truthy (change_ip q)), (truthy (change_port q)); simpl in X; (eexists _, _; split; [done|]);
    (split; [auto using set_port_ok|split; [done|split; [naive_solver|set_solver]]]).
Qed.

Section success.
Context (get_socket_mtu : Z -> Z -> Z) (n : net) (s : Z) (k : ioa_socket) (c other0 : ioa_addr).
Context (Z0 : rn_socks n !! 0 = None) (Es : rn_socks n !! s = Some k).
Context (Ec : client_local s (rn_socks n) = Some c) (Hc : addr_ok c).
Context (Ho : forall o, alternative c other0 = Some o -> addr_ok o).

Lemma known_sock x y : rn_socks n !! x = Some y -> get_sock (rn_socks n) x = Ret y.
Proof. intros Ex. unfold get_sock. destruct (x =? 0) eqn:?; [bool_arith; congruence|]. by rewrite Ex. Qed.

Lemma remote_known : connected k = true -> get_remote_addr_from_ioa_socket (rn_socks n) s = Ret (Some (remote_addr k)).
Proof.
  intros Cn. unfold get_remote_addr_from_ioa_socket. destruct (s =? 0) eqn:?; [bool_arith; congruence|].
  rewrite (known_sock _ _ Es). mstep. pose proof Ec as E. unfold client_local in E. rewrite Es in E. simpl in E.
  destruct (rn_socks n !! (if parent_s k =? 0 then s else parent_s k)) as [k'|]; [|done]. simpl in E. rewrite Cn. by destruct (magic_ok k), (Sockets.done k).
Qed.

Lemma padding_step q b l :
  carries b id remote l -> MAX_STUN_MESSAGE_SIZE <= blen (mdata b) ->
  exists b' l', binding_padding get_socket_mtu q (rn_socks n) s b = Ret b' /\ carries b' id remote (l ++ l').
Proof.
  intros C Hcap. unfold binding_padding. destruct (padding q); [|exists b, []; by rewrite app_nil_r].
  assert (exists mtu, get_local_mtu_ioa_socket get_socket_mtu (rn_socks n) s = Ret mtu) as [mtu ->].
  { unfold get_local_mtu_ioa_socket. destruct (s =? 0) eqn:?; [by eexists|]. rewrite (known_sock _ _ Es). mstep.
    pose proof Ec as E. unfold client_local in E. rewrite Es in E. simpl in E.
    destruct (rn_socks n !! (if parent_s k =? 0 then s else parent_s k)) as [k'|] eqn:E'; [|done]. rewrite (known_sock _ _ E'). by eexists. }
  mstep. destruct (add_padding_step b l (binding_mtu mtu) C) as (x & b' & l' & -> & C'); [apply u16_range|done|].
  by exists b', l'.
Qed.

Lemma get_other_spec :
  rfc = true -> exists ret o, get_other_address rfc5780 alt_addr_cb n s other0 = Ret (ret, o, n) /\
    alternative c other0 = if ret =? 0 then Some o else None.
Proof.
  intros E. unfold get_other_address, alternative. rewrite E. destruct (s =? 0) eqn:?; [bool_arith; congruence|].
  revert E. unfold is_rfc5780. destruct alt_addr_cb as [cb|]; intros E;
    [|apply andb_prop in E as [_ E]; by apply bool_decide_eq_true in E].
  cbn [negb andb]. rewrite (client_local_spec s n c Z0 Ec). mstep. destruct (cb (Some c) other0) as [ret o]. by exists ret, o.
Qed.

Section request.
Context (q : binding_req) (b : mbuf) (Q : scanned (st k) q) (E0 : err_code (bi_reply q) = 0) (U0 : unknown_attrs (bi_reply q) = []).
Context (C : carries b id remote []) (Hl : mlen b <= 68) (Hcap : MAX_STUN_MESSAGE_SIZE <= blen (mdata b)).

Lemma origin_step origin :
  addr_ok origin -> exists v b', add_addr [] b STUN_ATTRIBUTE_RESPONSE_ORIGIN origin = Ret b' /\
    carries b' id remote [(STUN_ATTRIBUTE_RESPONSE_ORIGIN, v)] /\ mlen b' <= 92 /\ blen (mdata b') = blen (mdata b) /\ 0 < blen v /\
    stun_addr_encode (Some origin) false STUN_MAGIC_COOKIE (Some id) = Some v.
Proof.
  intros W. unfold MAX_STUN_MESSAGE_SIZE in *.
  destruct (add_addr_step b [] STUN_ATTRIBUTE_RESPONSE_ORIGIN origin C W) as (v & b' & A & C' & L & D & P & E);
    unfold MAX_STUN_MESSAGE_SIZE; try lia; [done|]. exists v, b'. split_and!; auto. lia.
Qed.

Lemma other_spec o :
  alternative c other0 = Some o ->
  exists r b' l, binding_other get_socket_mtu [] q false (rn_socks n) s b remote c o = Ret r /\
    bd_reply r = Reply 0 (reason (bi_reply q)) [] (Some b') /\ carries b' id remote l /\ routed (st k) c other0 r /\
    names_origin b' (response_origin r).
Proof.
  intros Eo. pose proof (Ho o Eo) as Wo. unfold binding_other. cbv zeta. rewrite E0, U0.
  destruct (other_origin_spec (st k) q c o Q E0 Hc Wo) as (oc & origin & -> & Worig & Same & Ud & In).
  destruct (origin_step origin Worig) as (v & b1 & -> & C1 & L1 & D1 & P1 & En). mstep.
  destruct (add_addr_step b1 _ STUN_ATTRIBUTE_OTHER_ADDRESS o C1 Wo) as (v2 & b2 & -> & C2 & L2 & D2 & _);
    [done|unfold MAX_STUN_MESSAGE_SIZE in *; lia..|]. mstep.
  destruct (padding_step q b2 _ C2 ltac:(lia)) as (b3 & l3 & -> & C3). 
  pose proof (carries_origin _ _ _ _ C3 Worig P1 En) as N3. pose proof (sc_port _ _ Q) as Hp.
  destruct (response_port q) as [p|]; mstep; (eexists _, b3, _; split; [done|]; split; [done|]; split; [exact C3|]; split; [|exact N3]);
    (split; [exact Same|]; simpl; intros X).
  - destruct (Hp p eq_refl) as [Hp1 Hp2]. split; [done|]. exists o. split; [done|]. split; [|done]. right. by exists p.
  - rewrite orb_false_r in X. split; [by apply Ud|]. exists o. split; [done|]. split; [by left|done].
Qed.

Lemma success_spec origin0 :
  exists r b' l, binding_success rfc5780 alt_addr_cb get_socket_mtu [] q false n s b remote origin0 other0 = Ret (r, n) /\
    bd_reply r = Reply 0 (reason (bi_reply q)) [] (Some b') /\ carries b' id remote l /\ routed (st k) c other0 r /\
    (rfc = false \/ alternative c other0 <> None -> names_origin b' (response_origin r)).
Proof.
  unfold binding_success. cbv zeta. rewrite (client_local_spec s n c Z0 Ec). mstep. rewrite E0, U0. simpl default. cbn [andb]. mstep.
  assert (forall b' d, routed (st k) c other0 (BindingResult (Reply 0 (reason (bi_reply q)) [] (Some b')) false c false d)) as Plain by done.
  destruct rfc eqn:Erfc; cbn [negb].
  - destruct (get_other_spec Erfc) as (ret & o & -> & Ea). mstep. destruct (ret =? 0).
    + destruct (other_spec o Ea) as (r & b' & l & -> & Er & C' & Rt & No). mstep. by exists r, b', l.
    + eexists _, b, []. split; [done|]. split; [done|]. split; [exact C|]. split; [apply Plain|]. rewrite Ea. by intros [|].
  - destruct (origin_step c Hc) as (v & b1 & -> & C1 & _ & _ & P1 & En). mstep.
    eexists _, b1, _. split; [done|]. split; [done|]. split; [exact C1|]. split; [apply Plain|]. intros _.
    exact (carries_origin _ _ _ _ C1 Hc P1 En).
Qed.
End request.
End success.
End response.
End binding_facts.

(** * Claims *)


(** A listener on UDP with an alternative address; the request asks for an
    answer from the other address, to port 6000. *)
Definition ex_listener : ioa_socket :=
  IoaSocket 3 0 true false AF_INET UDP_SOCKET CLIENT_SOCKET false (ex_v4 192 0 2 1 3478) true (ex_v4 198 51 100 7 5000) true false 1 0
    false false false 64 64 0 0 0 (TrafficBytes 0 0) (TrafficBytes 0 0) true true true.
Definition ex_listening : relay_net Z (list (Z * rtcp_alloc_type)) := net_socks (ex_net 0) {[5 := ex_listener]}.
Definition ex_alternative : option (option ioa_addr -> ioa_addr -> Z * ioa_addr) := Some (fun _ _ => (0, ex_v4 203 0 113 9 3479)).
Definition ex_binding : list Z := [0; 1; 0; 16] ++ to_be 4 STUN_MAGIC_COOKIE ++ zeros 12 ++ [0; 3; 0; 4; 0; 0; 0; 6] ++ [0; 39; 0; 4; 23; 112; 0; 0].
Definition ex_discovery : outcome (binding_result * relay_net Z (list (Z * rtcp_alloc_type))) :=
  handle_turn_binding (KN := ex_kernel) true ex_alternative (fun _ _ => 1500) [] ex_listening 5 (zeros 12) ex_binding 36
    (zeros (Z.to_nat 65507)) (zeros 12) STUN_MAGIC_COOKIE false addr_zero addr_zero addr_zero.


(** The answer of the example leaves from the alternative address to the port
    the client asked for. *)
Example ex_discovery_elsewhere :
  match ex_discovery with
  | Ret (r, _) => origin_changed r = true /\ response_origin r = ex_v4 203 0 113 9 3479 /\ dest_changed r = true /\
      response_destination r = ex_v4 198 51 100 7 6000
  | _ => False
  end.
Proof. vm_compute. by split_and!. Qed.
