(* ===== verification/TcpConn.v ===== *)
(** The TCP connections of RFC 6062 as objects: [tcp_connection] and its
    functions in server/ns_turn_allocation.c, with the places of
    server/ns_turn_server.c that give a connection its sockets, timers and
    waiting buffers.

    A connection is known to the list [tcs] of its allocation and, under its id,
    to the map [tcp_connections] that all allocations of a server share; it owns
    two sockets, two timers and the buffers that wait for the client.  All of
    these are in the heap [tcp_world]; an access to a connection, timer or
    buffer that was freed is [UB].  [tc->done] is set only while the object is
    being freed. *)

From stdpp Require Import base option numbers list gmap.
From S2P Require Import Prelude IoAddr StunDefs StunMsg KeyMap SlotTable TurnMaps TurnPorts Timers Allocation NetBuffer Sockets RelayEngine.

Definition TCP_PEER_CONN_TIMEOUT : Z := 30.
Definition TCP_CONN_BIND_TIMEOUT : Z := 30.

Inductive TC_STATE : Type :=
| TC_STATE_UNKNOWN
| TC_STATE_CLIENT_TO_PEER_CONNECTING
| TC_STATE_PEER_CONNECTING
| TC_STATE_PEER_CONNECTED
| TC_STATE_READY
| TC_STATE_FAILED.

Record tcp_connection : Type := TcpConnection {
  tc_state : TC_STATE;
  tc_id : Z;
  tc_peer_addr : ioa_addr;
  tc_client_s : Z;
  tc_peer_s : Z;
  peer_conn_timeout : Z;
  conn_bind_timeout : Z;
  tc_tid : list Z;
  tc_owner : Z;
  tc_done : bool;
  ub_to_client : unsent_buffer }.

(** [tcp_peer_conn_timeout_handler] or [tcp_conn_bind_timeout_handler], with the
    connection. *)
Inductive tcp_timer : Type :=
| PeerConn (tc : Z)
| ConnBind (tc : Z).

(** [tw_lists] has the arrays [tcs.elems] of the allocations, 0 for NULL. *)
Record tcp_world (K U I : Type) : Type := TcpWorld {
  tw_net : relay_net K U;
  tw_conns : gmap Z tcp_connection;
  tw_lists : gmap Z (list Z);
  tw_ids : I;
  tw_timers : gmap Z tcp_timer;
  tw_bufs : gmap Z stun_buffer }.
Arguments TcpWorld {K U I}.
Arguments tw_net {K U I}.
Arguments tw_conns {K U I}.
Arguments tw_lists {K U I}.
Arguments tw_ids {K U I}.
Arguments tw_timers {K U I}.
Arguments tw_bufs {K U I}.

Definition tc_with_id (c : tcp_connection) (id : Z) : tcp_connection :=
  TcpConnection (tc_state c) id (tc_peer_addr c) (tc_client_s c) (tc_peer_s c) (peer_conn_timeout c) (conn_bind_timeout c)
    (tc_tid c) (tc_owner c) (tc_done c) (ub_to_client c).
Definition tc_with_sockets (c : tcp_connection) (state : TC_STATE) (client_s peer_s : Z) : tcp_connection :=
  TcpConnection state (tc_id c) (tc_peer_addr c) client_s peer_s (peer_conn_timeout c) (conn_bind_timeout c)
    (tc_tid c) (tc_owner c) (tc_done c) (ub_to_client c).
Definition tc_with_timers (c : tcp_connection) (peer bind : Z) : tcp_connection :=
  TcpConnection (tc_state c) (tc_id c) (tc_peer_addr c) (tc_client_s c) (tc_peer_s c) peer bind
    (tc_tid c) (tc_owner c) (tc_done c) (ub_to_client c).
Definition tc_with_ub (c : tcp_connection) (ub : unsent_buffer) : tcp_connection :=
  TcpConnection (tc_state c) (tc_id c) (tc_peer_addr c) (tc_client_s c) (tc_peer_s c) (peer_conn_timeout c) (conn_bind_timeout c)
    (tc_tid c) (tc_owner c) (tc_done c) ub.

Section tcp.
Context {K U I : Type} {KN : Kernel K} {M : Malloc} {IM : KVStore Z Z I}.
Abbreviation world := (tcp_world K U I).

Definition tw_set_conns (w : world) (m : gmap Z tcp_connection) : world := TcpWorld (tw_net w) m (tw_lists w) (tw_ids w) (tw_timers w) (tw_bufs w).
Definition tw_set_lists (w : world) (l : gmap Z (list Z)) : world := TcpWorld (tw_net w) (tw_conns w) l (tw_ids w) (tw_timers w) (tw_bufs w).
Definition tw_set_ids (w : world) (i : I) : world := TcpWorld (tw_net w) (tw_conns w) (tw_lists w) i (tw_timers w) (tw_bufs w).
Definition tw_set_timers (w : world) (t : gmap Z tcp_timer) : world := TcpWorld (tw_net w) (tw_conns w) (tw_lists w) (tw_ids w) t (tw_bufs w).
Definition tw_set_bufs (w : world) (b : gmap Z stun_buffer) : world := TcpWorld (tw_net w) (tw_conns w) (tw_lists w) (tw_ids w) (tw_timers w) b.
Definition tw_set_net (w : world) (n : relay_net K U) : world := TcpWorld n (tw_conns w) (tw_lists w) (tw_ids w) (tw_timers w) (tw_bufs w).

Definition get_tc (w : world) (tc : Z) : outcome tcp_connection := match tw_conns w !! tc with Some c => Ret c | None => UB end.
Definition put_tc (w : world) (tc : Z) (c : tcp_connection) : world := tw_set_conns w (<[tc := c]> (tw_conns w)).
Definition tcs (w : world) (a : Z) : list Z := default [] (tw_lists w !! a).

(** ** Ids *)

(** The loops that draw random numbers, [rnd] in their order, and what is left
    of them. *)
Fixpoint new_tc_id (ids : I) (sid : Z) (rnd : list Z) : outcome (Z * list Z) :=
  match rnd with
  | [] => NoFuel
  | r :: rnd =>
      let newid := u32 r in
      if newid =? 0 then new_tc_id ids sid rnd
      else
        let newid := Z.land newid 0x00FFFFFF in
        if newid =? 0 then new_tc_id ids sid rnd
        else
          let newid := Z.lor newid sid in
          t ← kv_get ids newid;
          match t with
          | Some _ => new_tc_id ids sid rnd
          | None => Ret (newid, rnd)
          end
  end.

Definition set_new_tc_id (w : world) (server_id tc : Z) (rnd : list Z) : outcome (world * list Z) :=
  let sid := u32 (Z.shiftl server_id 24) in
  '(newid, rnd) ← new_tc_id (tw_ids w) sid rnd;
  c ← get_tc w tc;
  let w := put_tc w tc (tc_with_id c newid) in
  ids ← kv_put (tw_ids w) newid tc;
  Ret (tw_set_ids w ids, rnd).

Definition get_and_clean_tcp_connection_by_id (w : world) (id : Z) : outcome (Z * world) :=
  t ← kv_get (tw_ids w) id;
  match t with
  | Some tc => if truthy tc then ids ← kv_del (tw_ids w) id; Ret (tc, tw_set_ids w ids) else Ret (0, w)
  | None => Ret (0, w)
  end.

Definition get_tcp_connection_by_id (w : world) (id : Z) : outcome Z :=
  t ← kv_get (tw_ids w) id;
  Ret (match t with Some tc => if truthy tc then tc else 0 | None => 0 end).

(** ** The list of an allocation *)
Fixpoint find_by_peer (w : world) (l : list Z) (peer_addr : ioa_addr) : outcome Z :=
  match l with
  | [] => Ret 0
  | tc :: l =>
      if truthy tc then
        c ← get_tc w tc;
        if addr_eq_s (tc_peer_addr c) peer_addr then Ret tc else find_by_peer w l peer_addr
      else find_by_peer w l peer_addr
  end.

Definition get_tcp_connection_by_peer (w : world) (a : Z) (peer_addr : ioa_addr) : outcome Z := find_by_peer w (tcs w a) peer_addr.

(** The first free element, or a new one. *)
Fixpoint put_elem (l : list Z) (tc : Z) : list Z :=
  match l with
  | [] => [tc]
  | x :: l => if truthy x then x :: put_elem l tc else tc :: l
  end.

Fixpoint clear_elem (l : list Z) (tc : Z) : list Z :=
  match l with
  | [] => []
  | x :: l => if x =? tc then 0 :: l else x :: clear_elem l tc
  end.

(** The connection (0 for NULL), [*err_code], and the random numbers left. *)
Definition create_tcp_connection (w : world) (server_id a : Z) (tid : option (list Z)) (peer_addr : ioa_addr) (err_code : Z) (rnd : list Z) :
    outcome (Z * Z * world * list Z) :=
  other ← find_by_peer w (tcs w a) peer_addr;
  if truthy other then Ret (0, 446, w, rnd)
  else
    let tc := malloc (elements (dom (tw_conns w))) in
    let w := put_tc w tc (TcpConnection TC_STATE_UNKNOWN 0 peer_addr 0 0 0 0 (default (zeros 12) tid) a false []) in
    let w := tw_set_lists w (<[a := put_elem (tcs w a) tc]> (tw_lists w)) in
    '(w, rnd) ← set_new_tc_id w server_id tc rnd;
    Ret (tc, err_code, w, rnd).

(** ** The end of a connection *)
Definition tcp_event_del (w : world) (ev : Z) : outcome world :=
  if truthy ev then
    match tw_timers w !! ev with Some _ => Ret (tw_set_timers w (delete ev (tw_timers w))) | None => UB end
  else Ret w.

Fixpoint delete_buffers (w : world) (l : list Z) : outcome world :=
  match l with
  | [] => Ret w
  | h :: l => match tw_bufs w !! h with Some _ => delete_buffers (tw_set_bufs w (delete h (tw_bufs w))) l | None => UB end
  end.

Definition tcp_close (w : world) (s : Z) : outcome world := n ← IOA_CLOSE_SOCKET (tw_net w) s; Ret (tw_set_net w n).

Definition delete_tcp_connection (w : world) (tc : Z) : outcome world :=
  if truthy tc then
    c ← get_tc w tc;
    if tc_done c then Ret w
    else
      w ← delete_buffers w (clear_unsent_buffer (ub_to_client c)).2;
      w ← tcp_event_del w (peer_conn_timeout c);
      w ← tcp_event_del w (conn_bind_timeout c);
      w ← (if truthy (tc_owner c) then
             ids ← kv_del (tw_ids w) (tc_id c);
             let w := tw_set_ids w ids in
             match tw_lists w !! tc_owner c with
             | Some l => Ret (tw_set_lists w (<[tc_owner c := clear_elem l tc]> (tw_lists w)))
             | None => Ret w
             end
           else Ret w);
      w ← tcp_close w (tc_client_s c);
      w ← tcp_close w (tc_peer_s c);
      Ret (tw_set_conns w (delete tc (tw_conns w)))
  else Ret w.

Definition set_elem (w : world) (a : Z) (i : nat) : world :=
  match tw_lists w !! a with Some l => tw_set_lists w (<[a := <[i := 0]> l]> (tw_lists w)) | None => w end.

(** The loop of [clear_allocation] over the elements from [i] on. *)
Fixpoint clear_tcs (w : world) (a : Z) (i n : nat) : outcome world :=
  match n with
  | O => Ret w
  | S n =>
      tc ← at_index (tcs w a) i;
      w ← (if truthy tc then w ← delete_tcp_connection w tc; Ret (set_elem w a i) else Ret w);
      clear_tcs w a (S i) n
  end.

Definition clear_allocation_tcs (w : world) (a : Z) : outcome world :=
  w ← clear_tcs w a 0 (length (tcs w a));
  Ret (tw_set_lists w (delete a (tw_lists w))).

(** The loop of [set_allocation_family_invalid]. *)
Fixpoint family_tcs (w : world) (a family : Z) (i n : nat) : outcome world :=
  match n with
  | O => Ret w
  | S n =>
      tc ← at_index (tcs w a) i;
      w ← (if truthy tc then
             c ← get_tc w tc;
             if truthy (tc_peer_s c) then
               f ← get_ioa_socket_address_family (rn_socks (tw_net w)) (tc_peer_s c);
               if f =? family then w ← delete_tcp_connection w tc; Ret (set_elem w a i) else Ret w
             else Ret w
           else Ret w);
      family_tcs w a family (S i) n
  end.

(** ** What the server gives a connection *)

(** [tc->peer_conn_timeout = set_ioa_timer(...)] after [IOA_EVENT_DEL]. *)
Definition start_peer_conn_timeout (w : world) (tc : Z) : outcome world :=
  c ← get_tc w tc;
  w ← tcp_event_del w (peer_conn_timeout c);
  let h := malloc (elements (dom (tw_timers w))) in
  Ret (put_tc (tw_set_timers w (<[h := PeerConn tc]> (tw_timers w))) tc (tc_with_timers c h (conn_bind_timeout c))).

Definition start_conn_bind_timeout (w : world) (tc : Z) : outcome world :=
  c ← get_tc w tc;
  w ← tcp_event_del w (conn_bind_timeout c);
  let h := malloc (elements (dom (tw_timers w))) in
  Ret (put_tc (tw_set_timers w (<[h := ConnBind tc]> (tw_timers w))) tc (tc_with_timers c (peer_conn_timeout c) h)).

(** [IOA_EVENT_DEL(tc->peer_conn_timeout)] and the like: the field is reset. *)
Definition stop_peer_conn_timeout (w : world) (tc : Z) : outcome world :=
  c ← get_tc w tc;
  w ← tcp_event_del w (peer_conn_timeout c);
  Ret (put_tc w tc (tc_with_timers c 0 (conn_bind_timeout c))).

Definition stop_conn_bind_timeout (w : world) (tc : Z) : outcome world :=
  c ← get_tc w tc;
  w ← tcp_event_del w (conn_bind_timeout c);
  Ret (put_tc w tc (tc_with_timers c (peer_conn_timeout c) 0)).

(** The connecting socket, or the accepted one. *)
Definition take_peer_socket (w : world) (tc : Z) (state : TC_STATE) (s : Z) : outcome world :=
  c ← get_tc w tc;
  w ← (if tc_peer_s c =? s then Ret w else tcp_close w (tc_peer_s c));
  Ret (put_tc w tc (tc_with_sockets c state (tc_client_s c) s)).

Definition take_client_socket (w : world) (tc s : Z) : outcome world :=
  c ← get_tc w tc;
  Ret (put_tc w tc (tc_with_sockets c TC_STATE_READY s (tc_peer_s c))).

(** Data of the peer that come before the client's connection. *)
Definition queue_for_client (w : world) (tc nbh : Z) : outcome world :=
  c ← get_tc w tc;
  let '(ub, dropped) := add_unsent_buffer (ub_to_client c) nbh in
  delete_buffers (put_tc w tc (tc_with_ub c ub)) dropped.

(** [tcp_conn_bind_timeout_handler]. *)
Definition tcp_conn_bind_timeout_handler (w : world) (tc : Z) : outcome world :=
  if truthy tc then delete_tcp_connection w tc else Ret w.
End tcp.
