(* ===== verification/TcpConnFacts.v ===== *)
(** Properties of the TCP connections: over any sequence of operations the
    lists, the ids, the timers, the sockets and the buffers agree, and nothing
    is used after it was freed. *)

From stdpp Require Import base option numbers list gmap.
From S2P Require Import Prelude IoAddr StunAddr StunDefs StunMsg KeyMap SlotTable TurnMaps TurnPorts Timers Allocation NetBuffer Sockets RelayEngine.
From S2P Require Import TurnMapsFacts RelayEngineFacts TcpConn.

(** * Arrays with free elements *)
Definition nz (l : list Z) : list Z := filter (fun x => x <> 0) l.

Lemma truthy_nz x : x <> 0 -> truthy x = true.
Proof. intros N. unfold truthy. by destruct (x =? 0) eqn:?; bool_arith. Qed.

Lemma truthy_true x : truthy x = true -> x <> 0.
Proof. unfold truthy. by destruct (x =? 0) eqn:?; bool_arith. Qed.

Lemma elem_of_nz x l : x ∈ nz l <-> x <> 0 /\ x ∈ l.
Proof. unfold nz. by rewrite list_elem_of_filter. Qed.

Lemma nz_cons x l : nz (x :: l) = if truthy x then x :: nz l else nz l.
Proof. unfold nz, truthy. rewrite filter_cons. destruct (x =? 0) eqn:?; bool_arith; by case_decide. Qed.

Lemma put_elem_perm l tc : tc <> 0 -> nz (put_elem l tc) ≡ₚ tc :: nz l.
Proof.
  intros N. pose proof (truthy_nz tc N) as T.
  induction l as [|x l IH]; simpl; [rewrite nz_cons, T; done|]. destruct (truthy x) eqn:Ex.
  - rewrite !nz_cons, Ex, IH. constructor.
  - by rewrite !nz_cons, Ex, T.
Qed.

Lemma clear_elem_perm l tc : tc <> 0 -> tc ∈ l -> nz l ≡ₚ tc :: nz (clear_elem l tc).
Proof.
  intros N. pose proof (truthy_nz tc N) as T.
  induction l as [|x l IH]; simpl; intros Hin; [by apply elem_of_nil in Hin|]. destruct (x =? tc) eqn:E; bool_arith.
  - subst x. by rewrite !nz_cons, T.
  - apply elem_of_cons in Hin as [->|Hin]; [done|]. rewrite !nz_cons. destruct (truthy x); [|by apply IH].
    rewrite (IH Hin). constructor.
Qed.

(** The element is where it was found. *)
Lemma clear_elem_at l tc i : tc <> 0 -> NoDup (nz l) -> l !! i = Some tc -> clear_elem l tc = <[i := 0]> l.
Proof.
  intros N. revert i. induction l as [|x l IH]; intros i ND E; [done|]. simpl. destruct i as [|i]; simpl in E.
  - injection E as ->. by rewrite Z.eqb_refl.
  - rewrite nz_cons in ND. destruct (x =? tc) eqn:Ex; bool_arith.
    + subst x. pose proof (truthy_nz tc N) as T.
      rewrite T in ND. apply NoDup_cons in ND as [ND _]. exfalso. apply ND, elem_of_nz. split; [done|]. by eapply list_elem_of_lookup_2.
    + simpl. f_equal. apply IH; [|done]. destruct (truthy x); [by apply NoDup_cons in ND as [_ ?]|done].
Qed.

Section tcp_facts.
Context {K U I : Type} {KN : Kernel K} {M : Malloc} {ML : MallocLaws} {IM : KVStore Z Z I} {HK : HashKey Z} {HL : HashKeyLaws Z} {IL : KVLaws Z Z I}.
Context (Hkey : forall k k' : Z, key_eqb k k' = (k =? k')).
Context (Hok : forall k : Z, key_ok k) (Hval : forall v : Z, kv_value_ok v).
Abbreviation world := (tcp_world K U I).

(** * What a connection owns *)
Inductive res : Type :=
| RTimer (h : Z)
| RSock (s : Z)
| RBuf (b : Z).

#[export] Instance res_eq_dec : EqDecision res.
Proof. solve_decision. Defined.

Definition owned (c : tcp_connection) : list res :=
  (RTimer <$> nz [peer_conn_timeout c; conn_bind_timeout c]) ++ (RSock <$> nz [tc_client_s c; tc_peer_s c]) ++
  (RBuf <$> nz (ub_to_client c)).

Definition res_live (w : world) (r : res) : Prop :=
  match r with
  | RTimer h => is_Some (tw_timers w !! h)
  | RSock s => exists k, rn_socks (tw_net w) !! s = Some k /\ magic_ok k = true /\ Sockets.done k = false /\
             is_relay_sock k = false /\ parent_s k = 0
  | RBuf b => is_Some (tw_bufs w !! b)
  end.

(** The connections are the elements of the lists of their allocations, with
    different peers; the ids lead to connections; what a connection owns exists
    and is its own; the timers are those of the connections. *)
Record tcp_inv (w : world) : Prop := TcpInv {
  ti_ids : kv_inv (tw_ids w);
  ti_id : forall i tc, kv_abs (tw_ids w) i = Some tc -> exists c, tw_conns w !! tc = Some c /\ tc_id c = i;
  ti_conn : forall tc c, tw_conns w !! tc = Some c -> 0 < tc /\ tc_done c = false /\ tc_owner c <> 0 /\ tc ∈ nz (tcs w (tc_owner c));
  ti_elem : forall a tc, tc ∈ nz (tcs w a) -> exists c, tw_conns w !! tc = Some c /\ tc_owner c = a;
  ti_nodup : forall a, NoDup (nz (tcs w a));
  ti_peer : forall tc c tc' c', tw_conns w !! tc = Some c -> tw_conns w !! tc' = Some c' -> tc_owner c = tc_owner c' ->
    addr_eq_s (tc_peer_addr c) (tc_peer_addr c') = true -> tc = tc';
  ti_owned : forall tc c, tw_conns w !! tc = Some c -> NoDup (owned c) /\ forall r, r ∈ owned c -> res_live w r;
  ti_disj : forall tc c tc' c' r, tw_conns w !! tc = Some c -> tw_conns w !! tc' = Some c' -> r ∈ owned c -> r ∈ owned c' -> tc = tc';
  ti_timer : forall h t, tw_timers w !! h = Some t -> h <> 0 /\
    match t with
    | PeerConn tc => exists c, tw_conns w !! tc = Some c /\ peer_conn_timeout c = h
    | ConnBind tc => exists c, tw_conns w !! tc = Some c /\ conn_bind_timeout c = h
    end }.

Lemma elem_of_owned c r :
  r ∈ owned c <-> match r with
                  | RTimer h => h <> 0 /\ (h = peer_conn_timeout c \/ h = conn_bind_timeout c)
                  | RSock s => s <> 0 /\ (s = tc_client_s c \/ s = tc_peer_s c)
                  | RBuf b => b ∈ nz (ub_to_client c)
                  end.
Proof.
  assert (forall x a b : Z, x ∈ nz [a; b] <-> x <> 0 /\ (x = a \/ x = b)) as E.
  { intros x a b. rewrite elem_of_nz, elem_of_cons, list_elem_of_singleton. done. }
  unfold owned. rewrite !elem_of_app, !list_elem_of_fmap. destruct r as [h|h|h]; split; intros H.
  - destruct H as [(x & [= ->] & H)|[(x & [=] & _)|(x & [=] & _)]]. by apply E.
  - left. exists h. split; [done|]. by apply E.
  - destruct H as [(x & [=] & _)|[(x & [= ->] & H)|(x & [=] & _)]]. by apply E.
  - right. left. exists h. split; [done|]. by apply E.
  - destruct H as [(x & [=] & _)|[(x & [=] & _)|(x & [= ->] & H)]]. done.
  - right. right. by exists h.
Qed.

(** ** Freeing what it owns *)
Lemma event_del_spec (w : world) h :
  (h <> 0 -> is_Some (tw_timers w !! h)) -> exists w', tcp_event_del w h = Ret w' /\ w' = tw_set_timers w (if truthy h then delete h (tw_timers w) else tw_timers w).
Proof.
  intros H. unfold tcp_event_del. destruct (truthy h) eqn:E.
  - destruct H as [t ->]; [by apply truthy_true|]. by eexists.
  - exists w. by destruct w.
Qed.

Lemma delete_buffers_spec (w : world) l :
  NoDup l -> (forall h, h ∈ l -> is_Some (tw_bufs w !! h)) ->
  exists b, delete_buffers w l = Ret (tw_set_bufs w b) /\ forall h, b !! h = if decide (h ∈ l) then None else tw_bufs w !! h.
Proof.
  revert w. induction l as [|x l IH]; intros w ND H; cbn [delete_buffers].
  { exists (tw_bufs w). split; [by destruct w|]. intros h. by rewrite decide_False by apply not_elem_of_nil. }
  apply NoDup_cons in ND as [Nx ND]. destruct (H x) as [v E]; [set_solver|]. rewrite E.
  destruct (IH (tw_set_bufs w (delete x (tw_bufs w))) ND) as (b & -> & Hb).
  { intros h Hh. simpl. rewrite lookup_delete_ne by set_solver. apply H. set_solver. }
  exists b. split; [done|]. intros h. rewrite Hb. cbn [tw_bufs tw_set_bufs]. destruct (decide (h = x)) as [->|N].
  - rewrite lookup_delete_eq, (decide_True _ _ (P := x ∈ x :: l)) by set_solver. by destruct (decide _).
  - rewrite lookup_delete_ne by done. destruct (decide (h ∈ l)).
    + by rewrite decide_True by set_solver.
    + by rewrite decide_False by set_solver.
Qed.

Lemma tcp_close_spec (w : world) s :
  (s <> 0 -> res_live w (RSock s)) ->
  exists n, tcp_close w s = Ret (tw_set_net w n) /\ rn_socks n = if truthy s then delete s (rn_socks (tw_net w)) else rn_socks (tw_net w).
Proof.
  intros H. unfold tcp_close, IOA_CLOSE_SOCKET, close_ioa_socket, truthy. destruct (s =? 0) eqn:E; bool_arith.
  { exists (tw_net w). done. }
  destruct (H E) as (k & Ek & M1 & D1 & R1 & _). unfold get_sock. destruct (s =? 0) eqn:?; [bool_arith; done|]. rewrite Ek. mstep.
  rewrite M1, D1, R1, andb_false_r. simpl. by eexists.
Qed.

(** What is left when a connection is freed. *)
Record freed (w : world) (tc : Z) (c : tcp_connection) (w' : world) : Prop := Freed {
  fr_conns : tw_conns w' = delete tc (tw_conns w);
  fr_lists : tw_lists w' = <[tc_owner c := clear_elem (tcs w (tc_owner c)) tc]> (tw_lists w);
  fr_ids : kv_inv (tw_ids w') /\ forall i, kv_abs (tw_ids w') i = if tc_id c =? i then None else kv_abs (tw_ids w) i;
  fr_timers : forall h, tw_timers w' !! h = if decide (RTimer h ∈ owned c) then None else tw_timers w !! h;
  fr_socks : forall s, rn_socks (tw_net w') !! s = if decide (RSock s ∈ owned c) then None else rn_socks (tw_net w) !! s;
  fr_bufs : forall b, tw_bufs w' !! b = if decide (RBuf b ∈ owned c) then None else tw_bufs w !! b }.

(** Deleting one key, then another, either of which may be missing. *)
Lemma delete_two {A} (m : gmap Z A) x y h (P : Prop) {D : Decision P} :
  (P <-> h <> 0 /\ (h = x \/ h = y)) ->
  (if truthy y then delete y (if truthy x then delete x m else m) else if truthy x then delete x m else m) !! h = if decide P then None else m !! h.
Proof.
  intros E. unfold truthy. destruct (decide P) as [HP|HP]; rewrite E in HP.
  - destruct HP as [N [->| ->]]; destruct (_ =? 0) eqn:?; bool_arith; simpl; repeat (destruct (_ =? 0) eqn:?; bool_arith; simpl); try done;
      rewrite ?lookup_delete_eq; try done; by rewrite lookup_delete_None, lookup_delete_eq; right.
  - destruct (x =? 0) eqn:?, (y =? 0) eqn:?; bool_arith; simpl; try done; rewrite ?lookup_delete_ne; try done; intros <-; tauto.
Qed.

Lemma owned_nodup c :
  NoDup (owned c) <-> NoDup (nz [peer_conn_timeout c; conn_bind_timeout c]) /\ NoDup (nz [tc_client_s c; tc_peer_s c]) /\ NoDup (nz (ub_to_client c)).
Proof.
  unfold owned. rewrite !NoDup_app. split.
  - intros (T & _ & S & _ & B). split_and!; by eapply NoDup_fmap_1.
  - intros (T & S & B). split; [apply NoDup_fmap_2; [by intros ? ? [= ->]|done]|]. split.
    { intros x (y & -> & _)%list_elem_of_fmap [(z & [=] & _)%list_elem_of_fmap|(z & [=] & _)%list_elem_of_fmap]%elem_of_app. }
    split; [apply NoDup_fmap_2; [by intros ? ? [= ->]|done]|]. split; [|apply NoDup_fmap_2; [by intros ? ? [= ->]|done]].
    intros x (y & -> & _)%list_elem_of_fmap (z & [=] & _)%list_elem_of_fmap.
Qed.

Lemma nodup_two a b : NoDup (nz [a; b]) <-> (a <> 0 -> b <> a).
Proof.
  rewrite !nz_cons. destruct (decide (a = 0)) as [->|Na]; [simpl; destruct (truthy b); split; intros; try done; repeat constructor; set_solver|].
  rewrite (truthy_nz a Na). destruct (decide (b = 0)) as [->|Nb]; [simpl; split; [congruence|intros _; repeat constructor; set_solver]|].
  rewrite (truthy_nz b Nb). simpl. rewrite NoDup_cons, list_elem_of_singleton. split; [intros [? _] _ ?; congruence|].
  intros H. split; [intros ->; by apply H|]. apply NoDup_singleton.
Qed.

Lemma delete_spec w tc c :
  tcp_inv w -> tw_conns w !! tc = Some c -> exists w', delete_tcp_connection w tc = Ret w' /\ freed w tc c w'.
Proof.
  intros Inv Ec. destruct (ti_conn w Inv tc c Ec) as (P & D & O & L). destruct (ti_owned w Inv tc c Ec) as [ND Lv].
  destruct (proj1 (owned_nodup c) ND) as (NT & NS & NB). rewrite nodup_two in NT, NS.
  unfold delete_tcp_connection, get_tc. rewrite (truthy_nz tc) by lia. rewrite Ec. mstep. rewrite D. change ((clear_unsent_buffer (ub_to_client c)).2) with (nz (ub_to_client c)).
  destruct (delete_buffers_spec w (nz (ub_to_client c)) NB) as (b & -> & Hb).
  { intros h Hh. apply (Lv (RBuf h)). by apply elem_of_owned. }
  mstep. destruct (event_del_spec (tw_set_bufs w b) (peer_conn_timeout c)) as (w1 & -> & ->).
  { intros N. apply (Lv (RTimer _)), elem_of_owned. auto. }
  mstep. match goal with |- context [tcp_event_del ?x (conn_bind_timeout c)] => destruct (event_del_spec x (conn_bind_timeout c)) as (w2 & -> & ->) end.
  { intros N. simpl. destruct (Lv (RTimer (conn_bind_timeout c))) as [t Et]; [apply elem_of_owned; auto|]. destruct (truthy _) eqn:T; [|by exists t].
    rewrite lookup_delete_ne; [by exists t|]. intros E. apply NT; congruence. }
  mstep. rewrite (truthy_nz _ O). destruct (kv_del_ok (tw_ids w) (tc_id c) (ti_ids w Inv)) as (ids & E1 & E2 & E3). simpl tw_ids. rewrite E1. mstep.
  assert (exists l, tw_lists w !! tc_owner c = Some l) as [l El].
  { destruct (tw_lists w !! tc_owner c) eqn:El; [by eexists|]. unfold tcs in L. rewrite El in L. by apply elem_of_nz in L as [_ L%elem_of_nil]. }
  simpl tw_lists. rewrite El. mstep. 
  match goal with |- context [tcp_close ?x (tc_client_s c)] => destruct (tcp_close_spec x (tc_client_s c)) as (n1 & -> & N1) end.
  { intros N. apply (Lv (RSock _)), elem_of_owned. auto. }
  mstep. match goal with |- context [tcp_close ?x (tc_peer_s c)] => destruct (tcp_close_spec x (tc_peer_s c)) as (n2 & -> & N2) end.
  { intros N. simpl. rewrite N1. destruct (Lv (RSock (tc_peer_s c))) as (k & Ek & Hk); [apply elem_of_owned; auto|]. exists k. split; [|done]. simpl.
    destruct (truthy _) eqn:T; [|done]. rewrite lookup_delete_ne; [done|]. intros E. apply NS; congruence. }
  mstep. eexists. split; [done|]. simpl in *. split; simpl.
  - done.
  - unfold tcs. by rewrite El.
  - split; [done|]. intros i. rewrite E3, Hkey. done.
  - intros h. apply delete_two. rewrite elem_of_owned. done.
  - intros s. rewrite N2, N1. apply delete_two. rewrite elem_of_owned. done.
  - intros h. rewrite Hb. destruct (decide _) as [X|X]; destruct (decide (RBuf h ∈ _)) as [Y|Y]; rewrite elem_of_owned in Y; done.
Qed.

Lemma tcs_insert (w w' : world) a l b :
  tw_lists w' = <[a := l]> (tw_lists w) -> tcs w' b = if decide (b = a) then l else tcs w b.
Proof. intros E. unfold tcs. rewrite E. case_decide as D; [subst; by rewrite lookup_insert_eq|by rewrite lookup_insert_ne]. Qed.

(** The elements of the lists after the connection is gone. *)
Lemma freed_elems w tc c w' a x :
  tcp_inv w -> tw_conns w !! tc = Some c -> freed w tc c w' -> x ∈ nz (tcs w' a) <-> x <> tc /\ x ∈ nz (tcs w a).
Proof.
  intros Inv Ec F. destruct (ti_conn w Inv tc c Ec) as (P & _ & _ & L). rewrite (tcs_insert w w' _ _ a (fr_lists _ _ _ _ F)). case_decide as D.
  - subst a. pose proof (clear_elem_perm (tcs w (tc_owner c)) tc ltac:(lia) ltac:(by apply elem_of_nz in L as [_ ?])) as Pm.
    pose proof (ti_nodup w Inv (tc_owner c)) as ND. rewrite Pm in ND. apply NoDup_cons in ND as [N1 N2]. rewrite Pm, elem_of_cons. naive_solver.
  - split; [|naive_solver]. intros Hx. split; [|done]. intros ->. destruct (ti_elem w Inv a tc Hx) as (c' & Ec' & <-). naive_solver.
Qed.

Lemma freed_inv w tc c w' : tcp_inv w -> tw_conns w !! tc = Some c -> freed w tc c w' -> tcp_inv w'.
Proof.
  intros Inv Ec F. pose proof (freed_elems w tc c w') as El. pose proof F as [F1 F2 [F3 F4] F5 F6 F7].
  assert (forall x y, tw_conns w' !! x = Some y -> x <> tc /\ tw_conns w !! x = Some y) as Old.
  { intros x y. rewrite F1, lookup_delete_Some. naive_solver. }
  assert (forall x y, tw_conns w !! x = Some y -> x <> tc -> tw_conns w' !! x = Some y) as New.
  { intros x y E N. by rewrite F1, lookup_delete_ne. }
  assert (forall x y r, tw_conns w !! x = Some y -> x <> tc -> r ∈ owned y -> r ∉ owned c) as Other.
  { intros x y r E N R1 R2. exact (N (ti_disj w Inv x y tc c r E Ec R1 R2)). }
  split.
  - done.
  - intros i x. rewrite F4. destruct (tc_id c =? i) eqn:Ei; [done|]. bool_arith. intros X. destruct (ti_id w Inv i x X) as (y & Ey & <-).
    exists y. split; [|done]. apply New; [done|]. naive_solver.
  - intros x y X. destruct (Old x y X) as [N E]. destruct (ti_conn w Inv x y E) as (? & ? & ? & ?). do 3 (split; [done|]). by apply El.
  - intros a x X. apply El in X as [N X]; [|done..]. destruct (ti_elem w Inv a x X) as (y & Ey & <-). exists y. split; [by apply New|done].
  - intros a. rewrite (tcs_insert w w' _ _ a F2). case_decide; [subst a|apply (ti_nodup w Inv)].
    destruct (ti_conn w Inv tc c Ec) as (P & _ & _ & L). pose proof (ti_nodup w Inv (tc_owner c)) as ND.
    rewrite (clear_elem_perm _ tc) in ND; [by apply NoDup_cons in ND as [_ ?]|lia|by apply elem_of_nz in L as [_ ?]].
  - intros x y x' y' X X'. destruct (Old x y X), (Old x' y' X'). by eapply (ti_peer w Inv).
  - intros x y X. destruct (Old x y X) as [N E]. destruct (ti_owned w Inv x y E) as [ND Lv]. split; [done|]. intros r R.
    pose proof (Other x y r E N R) as O. specialize (Lv r R). destruct r as [h|h|h]; simpl in *.
    + by rewrite F5, decide_False.
    + by rewrite F6, decide_False.
    + by rewrite F7, decide_False.
  - intros x y x' y' r X X'. destruct (Old x y X), (Old x' y' X'). by eapply (ti_disj w Inv).
  - intros h t. rewrite F5. destruct (decide _) as [D|D]; [done|]. intros Et. destruct (ti_timer w Inv h t Et) as [N T]. split; [done|].
    rewrite elem_of_owned in D. destruct t as [x|x]; destruct T as (y & Ey & Eh); exists y; (split; [|done]); (apply New; [done|]); intros ->; naive_solver.
Qed.

(** ** Many connections *)

(** Only connections of the allocation are gone, with all they owned. *)
Record shrunk (a : Z) (w w' : world) : Prop := Shrunk {
  sh_conn : forall tc c, tw_conns w' !! tc = Some c -> tw_conns w !! tc = Some c;
  sh_gone : forall tc c, tw_conns w !! tc = Some c ->
    tw_conns w' !! tc = Some c \/ (tc_owner c = a /\ tw_conns w' !! tc = None /\ forall r, r ∈ owned c -> ~ res_live w' r);
  sh_res : forall r, res_live w' r -> res_live w r;
  sh_id : forall i tc, kv_abs (tw_ids w') i = Some tc -> kv_abs (tw_ids w) i = Some tc }.

Lemma shrunk_refl a w : shrunk a w w.
Proof. split; auto. Qed.

Lemma shrunk_trans a w1 w2 w3 : shrunk a w1 w2 -> shrunk a w2 w3 -> shrunk a w1 w3.
Proof.
  intros [A1 A2 A3 A4] [B1 B2 B3 B4]. split; auto. intros tc c E. destruct (A2 tc c E) as [E'|(O & E' & R)].
  - by apply B2.
  - right. split; [done|]. split; [|intros r Hr L; exact (R r Hr (B3 r L))].
    destruct (tw_conns w3 !! tc) as [c'|] eqn:E3; [|done]. by rewrite (B1 tc c' E3) in E'.
Qed.

Lemma freed_shrunk w tc c w' : tw_conns w !! tc = Some c -> freed w tc c w' -> shrunk (tc_owner c) w w'.
Proof.
  intros Ec [F1 F2 [F3 F4] F5 F6 F7]. split.
  - intros x y. rewrite F1, lookup_delete_Some. naive_solver.
  - intros x y E. destruct (decide (x = tc)) as [->|N]; [|left; by rewrite F1, lookup_delete_ne]. right.
    assert (y = c) as -> by congruence. split; [done|]. split; [by rewrite F1, lookup_delete_eq|]. intros r R L. destruct r as [h|h|h]; simpl in L.
    + rewrite F5, decide_True in L by done. by destruct L.
    + rewrite F6, decide_True in L by done. by destruct L as (k & [=] & _).
    + rewrite F7, decide_True in L by done. by destruct L.
  - intros [h|h|h]; simpl.
    + rewrite F5. destruct (decide _); [by intros [? ?]|done].
    + rewrite F6. destruct (decide _); [by intros (k & [=] & _)|done].
    + rewrite F7. destruct (decide _); [by intros [? ?]|done].
  - intros i x. rewrite F4. by destruct (_ =? i).
Qed.

(** One round of the loops that free connections. *)
Lemma drop_elem w a i tc :
  tcp_inv w -> tcs w a !! i = Some tc -> tc <> 0 ->
  exists w', (w ← delete_tcp_connection w tc; Ret (set_elem w a i)) = Ret w' /\ tcp_inv w' /\ shrunk a w w' /\ tcs w' a = <[i := 0]> (tcs w a) /\
    tw_conns w' !! tc = None.
Proof.
  intros Inv E N. assert (tc ∈ nz (tcs w a)) as L by (apply elem_of_nz; split; [done|by eapply list_elem_of_lookup_2]).
  destruct (ti_elem w Inv a tc L) as (c & Ec & Oc). destruct (delete_spec w tc c Inv Ec) as (w' & -> & F). mstep.
  assert (tcs w' a = <[i := 0]> (tcs w a)) as Et.
  { rewrite (tcs_insert w w' _ _ a (fr_lists _ _ _ _ F)), decide_True by done. rewrite Oc. apply clear_elem_at; [done|apply (ti_nodup w Inv)|done]. }
  assert (set_elem w' a i = w') as ->.
  { unfold set_elem. destruct (tw_lists w' !! a) as [l|] eqn:El; [|done]. unfold tcs in Et at 1. rewrite El in Et. simpl in Et.
    rewrite Et, list_insert_insert_eq, <- Et, insert_id by done. by destruct w'. }
  exists w'. split; [done|]. split; [by eapply freed_inv|]. split; [rewrite <- Oc; by eapply freed_shrunk|]. split; [done|].
  by rewrite (fr_conns _ _ _ _ F), lookup_delete_eq.
Qed.

Lemma clear_tcs_spec n : forall w a i,
  tcp_inv w -> (i + n = length (tcs w a))%nat -> (forall j, (j < i)%nat -> tcs w a !! j = Some 0) ->
  exists w', clear_tcs w a i n = Ret w' /\ tcp_inv w' /\ shrunk a w w' /\ nz (tcs w' a) = [].
Proof.
  induction n as [|n IH]; intros w a i Inv Hl Hz; cbn [clear_tcs].
  { exists w. split; [done|]. split; [done|]. split; [apply shrunk_refl|]. destruct (nz (tcs w a)) as [|x l] eqn:E; [done|].
    assert (x ∈ nz (tcs w a)) as [N [j Hj]%list_elem_of_lookup]%elem_of_nz by (rewrite E; set_solver).
    rewrite Hz in Hj by (apply lookup_lt_Some in Hj; lia). by injection Hj as <-. }
  destruct (lookup_lt_is_Some_2 (tcs w a) i) as [tc Ei]; [lia|]. unfold at_index. rewrite Ei. mstep.
  destruct (truthy tc) eqn:T.
  - destruct (drop_elem w a i tc Inv Ei (truthy_true _ T)) as (w1 & E1 & Inv1 & S1 & Et & _). rewrite E1. mstep.
    destruct (IH w1 a (S i) Inv1) as (w2 & -> & Inv2 & S2 & Nz).
    + rewrite Et, length_insert. lia.
    + intros j Hj. rewrite Et. destruct (decide (j = i)) as [->|]; [apply list_lookup_insert_eq; lia|]. rewrite list_lookup_insert_ne by done. apply Hz. lia.
    + exists w2. split; [done|]. split; [done|]. split; [by eapply shrunk_trans|done].
  - mstep. apply IH; [done|lia|]. intros j Hj. destruct (decide (j = i)) as [->|]; [|apply Hz; lia].
    rewrite Ei. unfold truthy in T. bool_arith. by subst.
Qed.

Lemma family_tcs_spec n : forall w a f i,
  tcp_inv w -> (i + n = length (tcs w a))%nat -> exists w', family_tcs w a f i n = Ret w' /\ tcp_inv w' /\ shrunk a w w'.
Proof.
  induction n as [|n IH]; intros w a f i Inv Hl; cbn [family_tcs]; [exists w; auto using shrunk_refl|].
  destruct (lookup_lt_is_Some_2 (tcs w a) i) as [tc Ei]; [lia|]. unfold at_index. rewrite Ei. mstep.
  assert (exists w', family_tcs w a f (S i) n = Ret w' /\ tcp_inv w' /\ shrunk a w w') as Skip by (apply IH; [done|lia]).
  destruct (truthy tc) eqn:T; [|exact Skip]. pose proof (truthy_true _ T) as N.
  destruct (ti_elem w Inv a tc) as (c & Ec & _); [apply elem_of_nz; split; [done|by eapply list_elem_of_lookup_2]|].
  unfold get_tc. rewrite Ec. mstep. destruct (truthy (tc_peer_s c)) eqn:Tp; [|exact Skip]. pose proof (truthy_true _ Tp) as Np.
  destruct (proj2 (ti_owned w Inv tc c Ec) (RSock (tc_peer_s c))) as (k & Ek & M1 & D1 & _ & P1); [apply elem_of_owned; auto|].
  assert (get_ioa_socket_address_family (rn_socks (tw_net w)) (tc_peer_s c) = Ret (s_family k)) as ->.
  { unfold get_ioa_socket_address_family, get_sock. destruct (tc_peer_s c =? 0) eqn:?; [by bool_arith|]. rewrite Ek. mstep. by rewrite M1, D1, P1. }
  mstep. destruct (s_family k =? f); [|exact Skip].
  destruct (drop_elem w a i tc Inv Ei N) as (w1 & E1 & Inv1 & S1 & Et & _). rewrite E1. mstep.
  destruct (IH w1 a f (S i) Inv1) as (w2 & -> & Inv2 & S2); [rewrite Et, length_insert; lia|].
  exists w2. split; [done|]. split; [done|]. by eapply shrunk_trans.
Qed.

(** ** A connection gets or loses something *)
Definition unowned (w : world) (r : res) : Prop := forall tc c, tw_conns w !! tc = Some c -> r ∉ owned c.

Section update.
Context (w : world) (tc : Z) (c : tcp_connection) (Inv : tcp_inv w) (Ec : tw_conns w !! tc = Some c).

(** The connection is replaced by one with the same identity. *)
Lemma update_inv w' c' :
  tw_conns w' = <[tc := c']> (tw_conns w) -> tw_lists w' = tw_lists w -> tw_ids w' = tw_ids w ->
  tc_id c' = tc_id c -> tc_peer_addr c' = tc_peer_addr c -> tc_owner c' = tc_owner c -> tc_done c' = tc_done c ->
  NoDup (owned c') -> (forall r, r ∈ owned c' -> res_live w' r /\ (r ∈ owned c \/ unowned w r)) ->
  (forall r, r ∉ owned c -> res_live w r -> ~ unowned w r -> res_live w' r) ->
  (forall h t, tw_timers w' !! h = Some t -> tw_timers w !! h = Some t /\ RTimer h ∉ owned c \/ h <> 0 /\ match t with
      | PeerConn x => x = tc /\ peer_conn_timeout c' = h
      | ConnBind x => x = tc /\ conn_bind_timeout c' = h end) ->
  tcp_inv w'.
Proof.
  intros E1 E2 E3 I1 I2 I3 I4 ND Own Keep Tim.
  assert (forall a, tcs w' a = tcs w a) as Et by (intros a; unfold tcs; by rewrite E2).
  assert (forall x y, tw_conns w' !! x = Some y -> exists y0, tw_conns w !! x = Some y0 /\ tc_id y = tc_id y0 /\ tc_peer_addr y = tc_peer_addr y0 /\
            tc_owner y = tc_owner y0 /\ tc_done y = tc_done y0 /\ (x = tc /\ y = c' \/ x <> tc /\ y = y0)) as Old.
  { intros x y. rewrite E1, lookup_insert_Some. intros [[<- <-]|[N E]]; [exists c; auto 9|exists y; auto 9]. }
  assert (forall x y, tw_conns w !! x = Some y -> exists y', tw_conns w' !! x = Some y' /\ tc_id y' = tc_id y /\ tc_owner y' = tc_owner y) as New.
  { intros x y E. rewrite E1. destruct (decide (x = tc)) as [->|N].
    - exists c'. rewrite lookup_insert_eq. assert (y = c) as -> by congruence. done.
    - exists y. by rewrite lookup_insert_ne. }
  split.
  - rewrite E3. apply (ti_ids w Inv).
  - intros i x. rewrite E3. intros X. destruct (ti_id w Inv i x X) as (y & Ey & <-). destruct (New x y Ey) as (y' & ? & ? & _). by exists y'.
  - intros x y X. destruct (Old x y X) as (y0 & E0 & _ & _ & O & D & _). rewrite O, D, Et. by apply (ti_conn w Inv).
  - intros a x. rewrite Et. intros X. destruct (ti_elem w Inv a x X) as (y & Ey & <-). destruct (New x y Ey) as (y' & ? & _ & ?). by exists y'.
  - intros a. rewrite Et. apply (ti_nodup w Inv).
  - intros x y x' y' X X' O P. destruct (Old x y X) as (y0 & ? & _ & P0 & O0 & _), (Old x' y' X') as (y1 & ? & _ & P1 & O1 & _).
    eapply (ti_peer w Inv); [done|done|congruence|by rewrite <- P0, <- P1].
  - intros x y X. destruct (Old x y X) as (y0 & E0 & _ & _ & _ & _ & [[-> ->]|[N ->]]); [split; [done|intros r Hr; by apply Own]|].
    destruct (ti_owned w Inv x y0 E0) as [N0 L0]. split; [done|]. intros r R. apply Keep; [|by apply L0|intros Un; by apply (Un x y0)].
    intros R'. exact (N (ti_disj w Inv x y0 tc c r E0 Ec R R')).
  - intros x y x' y' r X X' R R'. destruct (Old x y X) as (y0 & E0 & _ & _ & _ & _ & D0), (Old x' y' X') as (y1 & F0 & _ & _ & _ & _ & D1).
    assert (forall z yz, tw_conns w !! z = Some yz -> z <> tc -> r ∈ owned yz -> r ∉ owned c') as No.
    { intros z yz Ez Nz Rz Rc. destruct (Own r Rc) as [_ [Rc'|Un]]; [exact (Nz (ti_disj w Inv z yz tc c r Ez Ec Rz Rc'))|by apply (Un z yz)]. }
    destruct D0 as [[-> ->]|[N0 ->]], D1 as [[-> ->]|[N1 ->]]; [done| | |by eapply (ti_disj w Inv)]; exfalso; [by eapply (No x' y1)|by eapply (No x y0)].
  - intros h t X. destruct (Tim h t X) as [[X0 R0]|[Nh X1]].
    + destruct (ti_timer w Inv h t X0) as [Nh T]. split; [done|]. rewrite elem_of_owned in R0.
      destruct t as [x|x]; destruct T as (y & Ey & Eh); exists y; (split; [|done]); rewrite E1, lookup_insert_ne; try done; intros <-; naive_solver.
    + split; [done|]. destruct t as [x|x]; destruct X1 as [-> X1]; exists c'; (split; [by rewrite E1, lookup_insert_eq|done]).
Qed.

(** *** Timers *)
Lemma retime p b (T : gmap Z tcp_timer) :
  NoDup (nz [p; b]) -> (forall h, h ∈ nz [p; b] -> is_Some (T !! h) /\ (RTimer h ∈ owned c \/ unowned w (RTimer h))) ->
  (forall h t, T !! h = Some t -> tw_timers w !! h = Some t /\ RTimer h ∉ owned c \/ h <> 0 /\ match t with
      | PeerConn x => x = tc /\ p = h
      | ConnBind x => x = tc /\ b = h end) ->
  (forall h, RTimer h ∉ owned c -> is_Some (tw_timers w !! h) -> is_Some (T !! h)) ->
  tcp_inv (put_tc (tw_set_timers w T) tc (tc_with_timers c p b)).
Proof.
  intros ND Own Tim Keep. destruct (ti_owned w Inv tc c Ec) as [NDc Lv]. destruct (proj1 (owned_nodup c) NDc) as (_ & NS & NB).
  eapply (update_inv _ (tc_with_timers c p b)); try done.
  - apply owned_nodup. done.
  - intros r R. rewrite elem_of_owned in R. destruct r as [h|h|h].
    + apply (Own h). apply elem_of_nz. simpl in R. set_solver.
    + assert (RSock h ∈ owned c) as Rc by (by apply elem_of_owned). split; [exact (Lv _ Rc)|by left].
    + assert (RBuf h ∈ owned c) as Rc by (by apply elem_of_owned). split; [exact (Lv _ Rc)|by left].
  - intros [h|h|h] N L _; [by apply Keep|done|done].
Qed.

Lemma timer_of h t :
  tw_timers w !! h = Some t -> RTimer h ∈ owned c -> (t = PeerConn tc /\ peer_conn_timeout c = h) \/ (t = ConnBind tc /\ conn_bind_timeout c = h).
Proof.
  intros Et R. destruct (ti_timer w Inv h t Et) as [N T]. destruct t as [x|x]; destruct T as (y & Ey & Eh);
    (assert (x = tc) as -> by (eapply (ti_disj w Inv x y tc c (RTimer h)); [done|done|apply elem_of_owned; auto|done]));
    (assert (y = c) as -> by congruence); auto.
Qed.

(** The fresh handle of a timer. *)
Lemma fresh_timer (T : gmap Z tcp_timer) : T !! malloc (elements (dom T)) = None /\ malloc (elements (dom T)) <> 0.
Proof.
  split; [|pose proof (malloc_pos (elements (dom T))); lia].
  apply not_elem_of_dom. intros H. apply (malloc_fresh (elements (dom T))). by apply elem_of_elements.
Qed.

Lemma live_timer h : h <> 0 -> (h = peer_conn_timeout c \/ h = conn_bind_timeout c) -> is_Some (tw_timers w !! h).
Proof. intros N E. apply (proj2 (ti_owned w Inv tc c Ec) (RTimer h)). by apply elem_of_owned. Qed.

Lemma unowned_timer h : tw_timers w !! h = None -> unowned w (RTimer h).
Proof. intros E x y Ey R. destruct (proj2 (ti_owned w Inv x y Ey) (RTimer h) R) as [t Et]. congruence. Qed.

Definition without (h : Z) : gmap Z tcp_timer := if truthy h then delete h (tw_timers w) else tw_timers w.

Lemma without_some h x t : without h !! x = Some t <-> tw_timers w !! x = Some t /\ (h <> 0 -> x <> h).
Proof.
  unfold without. destruct (truthy h) eqn:T; [rewrite lookup_delete_Some; apply truthy_true in T; naive_solver|].
  unfold truthy in T. bool_arith. naive_solver.
Qed.

(** One of the two fields gets a new timer, or none. *)
Definition field (peer : bool) : Z := if peer then peer_conn_timeout c else conn_bind_timeout c.
Definition with_field (peer : bool) (h : Z) : tcp_connection :=
  if peer then tc_with_timers c h (conn_bind_timeout c) else tc_with_timers c (peer_conn_timeout c) h.

Lemma field_set (peer : bool) (h : Z) (T : gmap Z tcp_timer) :
  (forall x t, T !! x = Some t <-> (h <> 0 /\ x = h /\ t = (if peer then PeerConn tc else ConnBind tc)) \/ (x <> h /\ without (field peer) !! x = Some t)) ->
  (h <> 0 -> without (field peer) !! h = None) ->
  tcp_inv (put_tc (tw_set_timers w T) tc (with_field peer h)).
Proof.
  intros HT Hh. destruct (proj1 (owned_nodup c) (proj1 (ti_owned w Inv tc c Ec))) as (NT & _). rewrite nodup_two in NT.
  set (other := if peer then conn_bind_timeout c else peer_conn_timeout c).
  assert (other <> 0 -> exists t, tw_timers w !! other = Some t /\ without (field peer) !! other = Some t) as Ho.
  { intros N. destruct (live_timer other N) as [t Et]; [unfold other; destruct peer; auto|]. exists t. split; [done|]. apply without_some. split; [done|].
    unfold other, field in *. destruct peer; intros ? ?; naive_solver. }
  assert (other <> 0 -> other <> h) as Noh.
  { intros N ->. destruct (Ho N) as (t & _ & Et). by rewrite (Hh N) in Et. }
  assert (with_field peer h = if peer then tc_with_timers c h other else tc_with_timers c other h) as -> by (unfold with_field, other; by destruct peer).
  assert (forall x, x ∈ nz [h; other] -> is_Some (T !! x) /\ (RTimer x ∈ owned c \/ unowned w (RTimer x))) as Own.
  { intros x [N Hx]%elem_of_nz. apply elem_of_cons in Hx as [->|Hx].
    - split; [eexists; apply HT; by left|]. destruct (decide (h = field peer)) as [E|E].
      + left. apply elem_of_owned. split; [done|]. unfold field in E. destruct peer; auto.
      + right. apply unowned_timer. destruct (tw_timers w !! h) as [t|] eqn:Et; [|done]. specialize (Hh N).
        assert (without (field peer) !! h = Some t) as X by (apply without_some; split; [done|congruence]). congruence.
    - apply list_elem_of_singleton in Hx as ->. destruct (Ho N) as (t & E1 & E2). split; [exists t; apply HT; right; auto|].
      left. apply elem_of_owned. split; [done|]. unfold other. destruct peer; auto. }
  assert (forall x t, T !! x = Some t -> tw_timers w !! x = Some t /\ RTimer x ∉ owned c \/ x <> 0 /\
            match t with PeerConn y => y = tc /\ (if peer then h else other) = x | ConnBind y => y = tc /\ (if peer then other else h) = x end) as Tim.
  { intros x t Et. apply HT in Et as [(N & -> & ->)|[N Et]]; [right; by destruct peer|].
    apply without_some in Et as [Et Nx]. destruct (decide (RTimer x ∈ owned c)) as [R|R]; [|by left]. right.
    pose proof (proj1 (ti_timer w Inv x t Et)) as Nz. split; [done|].
    destruct (timer_of x t Et R) as [[-> E]|[-> E]]; (split; [done|]); unfold field, other in *; destruct peer; try done; naive_solver. }
  assert (forall x, RTimer x ∉ owned c -> is_Some (tw_timers w !! x) -> is_Some (T !! x)) as Keep.
  { intros x R [t Et]. destruct (decide (x = h)) as [->|N].
    - destruct (decide (h = 0)) as [->|N0]; [|eexists; apply HT; by left]. by destruct (ti_timer w Inv 0 t Et).
    - exists t. apply HT. right. split; [done|]. apply without_some. split; [done|]. intros Nf ->. apply R, elem_of_owned. split; [done|].
      unfold field. destruct peer; auto. }
  destruct peer; apply retime; try done.
  - apply nodup_two. intros N E. apply Noh; [congruence|done].
  - apply nodup_two. intros N E. by apply Noh.
  - intros x Hx. apply Own. apply elem_of_nz in Hx as [? ?]. apply elem_of_nz. set_solver.
Qed.

Lemma field_start (peer : bool) (T := without (field peer)) (h := malloc (elements (dom T))) :
  tcp_inv (put_tc (tw_set_timers w (<[h := if peer then PeerConn tc else ConnBind tc]> T)) tc (with_field peer h)).
Proof.
  destruct (fresh_timer T) as [Fr Nz]. apply field_set; [|done]. intros x t. rewrite lookup_insert_Some. fold h T. naive_solver.
Qed.

Lemma field_stop peer : tcp_inv (put_tc (tw_set_timers w (without (field peer))) tc (with_field peer 0)).
Proof.
  apply field_set; [|done]. intros x t. split; [|naive_solver]. intros E. right. split; [|done]. intros ->.
  apply without_some in E as [E _]. by destruct (ti_timer w Inv 0 t E).
Qed.

Lemma field_deleted peer : tcp_event_del w (field peer) = Ret (tw_set_timers w (without (field peer))).
Proof.
  destruct (event_del_spec w (field peer)) as (w1 & -> & ->); [|done]. intros N. apply live_timer; [done|]. unfold field. destruct peer; auto.
Qed.

(** *** Sockets and buffers *)
Lemma same_timers h t : tw_timers w !! h = Some t -> tw_timers w !! h = Some t /\ RTimer h ∉ owned c \/ h <> 0 /\
  match t with PeerConn x => x = tc /\ peer_conn_timeout c = h | ConnBind x => x = tc /\ conn_bind_timeout c = h end.
Proof.
  intros Et. destruct (decide (RTimer h ∈ owned c)) as [R|R]; [right|by left]. split; [apply (ti_timer w Inv h t Et)|].
  by destruct (timer_of h t Et R) as [[-> ?]|[-> ?]].
Qed.

Lemma resocket (n : relay_net K U) state cs ps :
  NoDup (nz [cs; ps]) ->
  (forall s, s ∈ nz [cs; ps] -> res_live (tw_set_net w n) (RSock s) /\ (RSock s ∈ owned c \/ unowned w (RSock s))) ->
  (forall s, RSock s ∉ owned c -> res_live w (RSock s) -> res_live (tw_set_net w n) (RSock s)) ->
  tcp_inv (put_tc (tw_set_net w n) tc (tc_with_sockets c state cs ps)).
Proof.
  intros ND Own Keep. destruct (ti_owned w Inv tc c Ec) as [NDc Lv]. destruct (proj1 (owned_nodup c) NDc) as (NT & _ & NB).
  eapply (update_inv _ (tc_with_sockets c state cs ps)); try done.
  - apply owned_nodup. done.
  - intros r R. rewrite elem_of_owned in R. destruct r as [h|h|h].
    + assert (RTimer h ∈ owned c) as Rc by (by apply elem_of_owned). split; [exact (Lv _ Rc)|by left].
    + apply (Own h). apply elem_of_nz. simpl in R. set_solver.
    + assert (RBuf h ∈ owned c) as Rc by (by apply elem_of_owned). split; [exact (Lv _ Rc)|by left].
  - intros [h|h|h] N L _; [done|by apply Keep|done].
  - intros h t Et. exact (same_timers h t Et).
Qed.

Lemma take_peer_spec state s :
  s <> 0 -> res_live w (RSock s) -> s = tc_peer_s c \/ unowned w (RSock s) ->
  exists w', take_peer_socket w tc state s = Ret w' /\ tcp_inv w'.
Proof.
  intros Ns Ls Un. destruct (ti_owned w Inv tc c Ec) as [NDc Lv]. destruct (proj1 (owned_nodup c) NDc) as (_ & NS & _). rewrite nodup_two in NS.
  assert (tc_client_s c <> 0 -> RSock (tc_client_s c) ∈ owned c) as Oc by (intros; apply elem_of_owned; auto).
  assert (tc_peer_s c <> 0 -> RSock (tc_peer_s c) ∈ owned c) as Op by (intros; apply elem_of_owned; auto).
  assert (s <> tc_peer_s c -> unowned w (RSock s)) as Un' by naive_solver.
  unfold take_peer_socket, get_tc. rewrite Ec. mstep. destruct (tc_peer_s c =? s) eqn:E; bool_arith; mstep.
  - eexists. split; [done|]. assert (w = tw_set_net w (tw_net w)) as -> by (by destruct w). apply resocket; [rewrite <- E; by apply nodup_two| |done].
    intros x [N Hx]%elem_of_nz. assert (RSock x ∈ owned c) as R by (apply elem_of_owned; set_solver). split; [exact (Lv _ R)|by left].
  - destruct (tcp_close_spec w (tc_peer_s c)) as (n & -> & En); [auto|]. mstep. eexists. split; [done|].
    assert (forall x, (tc_peer_s c <> 0 -> x <> tc_peer_s c) -> res_live w (RSock x) -> res_live (tw_set_net w n) (RSock x)) as Kp.
    { intros x Nx (k & Ek & Hk). exists k. split; [|done]. simpl. rewrite En. destruct (truthy _) eqn:T; [|done].
      apply truthy_true in T. rewrite lookup_delete_ne; [done|]. intros X. by apply (Nx T). }
    apply resocket.
    + apply nodup_two. intros N E'. apply (Un' ltac:(congruence) tc c Ec). rewrite E'. by apply Oc.
    + intros x [N Hx]%elem_of_nz. apply elem_of_cons in Hx as [->|Hx%list_elem_of_singleton].
      * split; [apply Kp; [|apply Lv; auto]|left; auto]. intros _ X. apply (NS N). by symmetry.
      * subst x. split; [apply Kp; [congruence|done]|right; apply Un'; congruence].
    + intros x R L. apply Kp; [|done]. intros Np ->. by apply R, Op.
Qed.

Lemma take_client_spec s :
  s <> 0 -> tc_client_s c = 0 -> res_live w (RSock s) -> unowned w (RSock s) ->
  exists w', take_client_socket w tc s = Ret w' /\ tcp_inv w'.
Proof.
  intros Ns Cz Ls Un. destruct (ti_owned w Inv tc c Ec) as [NDc Lv]. unfold take_client_socket, get_tc. rewrite Ec. mstep. eexists. split; [done|].
  assert (tc_peer_s c <> 0 -> RSock (tc_peer_s c) ∈ owned c) as Op by (intros; apply elem_of_owned; auto).
  assert (w = tw_set_net w (tw_net w)) as -> by (by destruct w). apply resocket; [| |done].
  - apply nodup_two. intros _ E. apply (Un tc c Ec). rewrite <- E. apply Op. congruence.
  - intros x [N Hx]%elem_of_nz. apply elem_of_cons in Hx as [->|Hx%list_elem_of_singleton]; [split; [done|by right]|].
    subst x. split; [exact (Lv _ (Op N))|left; auto].
Qed.

Lemma queue_spec nbh :
  nbh <> 0 -> res_live w (RBuf nbh) -> unowned w (RBuf nbh) -> exists w', queue_for_client w tc nbh = Ret w' /\ tcp_inv w'.
Proof.
  intros N Lb Un. destruct (ti_owned w Inv tc c Ec) as [NDc Lv]. destruct (proj1 (owned_nodup c) NDc) as (NT & NS & NB).
  unfold queue_for_client, get_tc, add_unsent_buffer. rewrite Ec. mstep. destruct (_ >=? _); cbn [delete_buffers].
  - destruct Lb as [v Ev]. simpl tw_bufs. rewrite Ev. eexists. split; [done|].
    assert (tc_with_ub c (ub_to_client c) = c) as -> by (by destruct c).
    eapply (update_inv _ c); try done.
    + intros r R. split; [|by left]. specialize (Lv r R). destruct r as [h|h|h]; [done|done|]. simpl in *. rewrite lookup_delete_ne; [done|].
      intros <-. by apply (Un tc c Ec).
    + intros r _ L Nr. destruct r as [h|h|h]; [done|done|]. simpl in *. rewrite lookup_delete_ne; [done|]. by intros <-.
    + intros h t Et. exact (same_timers h t Et).
  - eexists. split; [done|]. assert (nz (ub_to_client c ++ [nbh]) = nz (ub_to_client c) ++ [nbh]) as Enz.
    { unfold nz. rewrite filter_app. f_equal. by rewrite filter_cons_True. }
    assert (nbh ∉ nz (ub_to_client c)) as Nin by (intros X; apply (Un tc c Ec), elem_of_owned, X).
    eapply (update_inv _ (tc_with_ub c (ub_to_client c ++ [nbh]))); try done.
    + apply owned_nodup. split; [done|]. split; [done|]. simpl. rewrite Enz. apply NoDup_app. split; [done|]. split; [set_solver|apply NoDup_singleton].
    + intros r R. rewrite elem_of_owned in R. destruct r as [h|h|h].
      * assert (RTimer h ∈ owned c) as Rc by (by apply elem_of_owned). split; [exact (Lv _ Rc)|by left].
      * assert (RSock h ∈ owned c) as Rc by (by apply elem_of_owned). split; [exact (Lv _ Rc)|by left].
      * simpl in R. rewrite Enz in R. apply elem_of_app in R as [R| ->%list_elem_of_singleton]; [|split; [done|by right]].
        assert (RBuf h ∈ owned c) as Rc by (by apply elem_of_owned). split; [exact (Lv _ Rc)|by left].
    + intros h t Et. exact (same_timers h t Et).
Qed.
End update.

(** ** A new connection *)

Lemma find_by_peer_spec w a peer :
  tcp_inv w -> exists r, get_tcp_connection_by_peer w a peer = Ret r /\
    ((r = 0 /\ forall tc c, tw_conns w !! tc = Some c -> tc_owner c = a -> addr_eq_s (tc_peer_addr c) peer = false) \/
     exists c, tw_conns w !! r = Some c /\ tc_owner c = a /\ addr_eq_s (tc_peer_addr c) peer = true).
Proof.
  intros Inv. unfold get_tcp_connection_by_peer.
  assert (forall l, (forall x, x ∈ nz l -> exists c, tw_conns w !! x = Some c /\ tc_owner c = a) ->
            exists r, find_by_peer w l peer = Ret r /\
              ((r = 0 /\ forall x c, x ∈ nz l -> tw_conns w !! x = Some c -> addr_eq_s (tc_peer_addr c) peer = false) \/
               exists c, tw_conns w !! r = Some c /\ tc_owner c = a /\ addr_eq_s (tc_peer_addr c) peer = true)) as H.
  { induction l as [|x l IH]; intros Hl; cbn [find_by_peer]; [exists 0; split; [done|]; left; split; [done|]; by intros ? ? ?%elem_of_nil|].
    rewrite nz_cons in Hl |- *. destruct (truthy x); [|by apply IH]. destruct (Hl x) as (c & Ec & Oc); [set_solver|]. unfold get_tc. rewrite Ec. mstep.
    destruct (addr_eq_s _ _) eqn:E; [exists x; split; [done|]; right; by exists c|].
    destruct IH as (r & -> & [[-> H]|H]); [intros y Hy; apply Hl; set_solver|exists 0|exists r; auto]. split; [done|]. left. split; [done|].
    intros y cy [->|Hy]%elem_of_cons Ey; [congruence|by eapply H]. }
  destruct (H (tcs w a)) as (r & -> & D); [apply (ti_elem w Inv)|]. exists r. split; [done|]. destruct D as [[-> D]|D]; [left|by right].
  split; [done|]. intros tc c Ec Oc. eapply D; [|exact Ec]. rewrite <- Oc. by apply (ti_conn w Inv tc c).
Qed.

(** A random number that gives an id not in use. *)
Definition usable (ids : I) (server_id r : Z) : Prop :=
  Z.land (u32 r) 0x00FFFFFF <> 0 /\ kv_abs ids (Z.lor (Z.land (u32 r) 0x00FFFFFF) (u32 (Z.shiftl server_id 24))) = None.

Lemma new_tc_id_spec ids server_id rnd :
  kv_inv ids -> Exists (usable ids server_id) rnd ->
  exists id rnd', new_tc_id ids (u32 (Z.shiftl server_id 24)) rnd = Ret (id, rnd') /\ kv_abs ids id = None.
Proof.
  intros Inv H. induction H as [r rnd [N E]|r rnd H (id & rnd' & IH & F)]; cbn [new_tc_id]; cbv zeta.
  - destruct (u32 r =? 0) eqn:E0; bool_arith; [by rewrite E0 in N|]. destruct (Z.land _ _ =? 0) eqn:?; bool_arith; [done|].
    rewrite (kv_get_ok _ _ Inv), E. mstep. eexists _, _. split; [done|exact E].
  - destruct (u32 r =? 0); [eauto|]. destruct (Z.land _ _ =? 0); [eauto|]. rewrite (kv_get_ok _ _ Inv). mstep.
    destruct (kv_abs ids (Z.lor _ _)) eqn:E; [eauto|]. mstep. eexists _, _. split; [done|exact E].
Qed.

(** A connection without anything is added. *)
Lemma added_inv w tc a peer tid id ids w' :
  tcp_inv w -> a <> 0 -> 0 < tc -> tw_conns w !! tc = None -> kv_inv ids -> kv_abs (tw_ids w) id = None ->
  (forall i, kv_abs ids i = if id =? i then Some tc else kv_abs (tw_ids w) i) ->
  (forall x c, tw_conns w !! x = Some c -> tc_owner c = a -> addr_eq_s (tc_peer_addr c) peer = false) ->
  w' = TcpWorld (tw_net w) (<[tc := TcpConnection TC_STATE_UNKNOWN id peer 0 0 0 0 tid a false []]> (tw_conns w))
         (<[a := put_elem (tcs w a) tc]> (tw_lists w)) ids (tw_timers w) (tw_bufs w) ->
  tcp_inv w'.
Proof.
  intros Inv Na P Fr Ii Fi Hi Np ->. set (c := TcpConnection _ _ _ _ _ _ _ _ _ _ _). set (w' := TcpWorld _ _ _ _ _ _).
  assert (forall b, tcs w' b = if decide (b = a) then put_elem (tcs w a) tc else tcs w b) as Et by (intros b; by apply tcs_insert).
  assert (forall b x, x ∈ nz (tcs w' b) <-> (x = tc /\ b = a) \/ x ∈ nz (tcs w b)) as El.
  { intros b x. rewrite Et. case_decide as D; [subst b; rewrite put_elem_perm by lia; rewrite elem_of_cons|]; naive_solver. }
  assert (owned c = []) as Oc by done.
  assert (forall x y, tw_conns w' !! x = Some y -> (x = tc /\ y = c) \/ (x <> tc /\ tw_conns w !! x = Some y)) as Old.
  { intros x y. simpl. rewrite lookup_insert_Some. naive_solver. }
  assert (forall x y, tw_conns w !! x = Some y -> tw_conns w' !! x = Some y) as New.
  { intros x y E. simpl. rewrite lookup_insert_ne; [done|]. congruence. }
  assert (tw_conns w' !! tc = Some c) as Ec by apply lookup_insert_eq.
  split.
  - done.
  - intros i x. simpl tw_ids. rewrite Hi. destruct (id =? i) eqn:E; bool_arith; [intros [= <-]; by exists c|].
    intros X. destruct (ti_id w Inv i x X) as (y & Ey & <-). exists y. auto.
  - intros x y [[-> ->]|[N E]]%Old.
    + do 3 (split; [done|]). apply El. by left.
    + destruct (ti_conn w Inv x y E) as (? & ? & ? & ?). do 3 (split; [done|]). apply El. by right.
  - intros b x [[-> ->]|X]%El; [by exists c|]. destruct (ti_elem w Inv b x X) as (y & Ey & ?). exists y. auto.
  - intros b. rewrite Et. case_decide; [|apply (ti_nodup w Inv)]. rewrite put_elem_perm by lia. apply NoDup_cons. split; [|apply (ti_nodup w Inv)].
    intros X. destruct (ti_elem w Inv a tc X) as (y & Ey & _). congruence.
  - intros x y x' y' [[-> ->]|[N E]]%Old [[-> ->]|[N' E']]%Old O; [done| | |by eapply (ti_peer w Inv)]; simpl in *; intros X.
    + rewrite addr_eq_s_sym, (Np x' y' E') in X by done. done.
    + rewrite (Np x y E) in X by done. done.
  - intros x y [[-> ->]|[N E]]%Old; [rewrite Oc; split; [constructor|by intros r ?%elem_of_nil]|]. by apply (ti_owned w Inv x y).
  - intros x y x' y' r [[-> ->]|[N E]]%Old [[-> ->]|[N' E']]%Old; rewrite ?Oc; [done|by intros ?%elem_of_nil|by intros _ ?%elem_of_nil|by apply (ti_disj w Inv)].
  - intros h t Eh. destruct (ti_timer w Inv h t Eh) as [Nh T]. split; [done|]. destruct t; destruct T as (y & Ey & Ety); exists y; auto.
Qed.

Lemma create_spec w server_id a tid peer err rnd :
  tcp_inv w -> a <> 0 -> Exists (usable (tw_ids w) server_id) rnd ->
  exists tc err' w' rnd', create_tcp_connection w server_id a tid peer err rnd = Ret (tc, err', w', rnd') /\ tcp_inv w' /\
    ((tc = 0 /\ err' = 446 /\ w' = w /\ exists x c, tw_conns w !! x = Some c /\ tc_owner c = a /\ addr_eq_s (tc_peer_addr c) peer = true) \/
     (err' = err /\ tw_conns w !! tc = None /\ exists c, tw_conns w' = <[tc := c]> (tw_conns w) /\ tc_owner c = a /\ tc_peer_addr c = peer /\
        kv_abs (tw_ids w') (tc_id c) = Some tc /\ owned c = [])).
Proof.
  intros Inv Na Us. unfold create_tcp_connection. destruct (find_by_peer_spec w a peer Inv) as (r & E & D).
  unfold get_tcp_connection_by_peer in E. rewrite E. mstep. destruct D as [[-> Np]|(c & Ec & Oc & Pc)].
  2: { destruct (ti_conn w Inv r c Ec) as [P _]. rewrite (truthy_nz r) by lia. eexists 0, 446, w, rnd. split; [done|]. split; [done|]. left. eauto 9. }
  change (truthy 0) with false. cbn iota zeta. set (tc := malloc (elements (dom (tw_conns w)))).
  assert (tw_conns w !! tc = None) as Fr.
  { apply not_elem_of_dom. intros H. apply (malloc_fresh (elements (dom (tw_conns w)))). by apply elem_of_elements. }
  unfold set_new_tc_id. destruct (new_tc_id_spec (tw_ids w) server_id rnd (ti_ids w Inv) Us) as (id & rnd' & En & Fi).
  simpl tw_ids. rewrite En. mstep. unfold get_tc. simpl tw_conns. rewrite lookup_insert_eq. mstep.
  destruct (kv_put_ok (tw_ids w) id tc (ti_ids w Inv) (Hok id) (Hval tc)) as (ids & Ep & Ii & Hi). simpl tw_ids. rewrite Ep. mstep.
  eexists tc, err, _, rnd'. split; [done|]. assert (forall i, kv_abs ids i = if id =? i then Some tc else kv_abs (tw_ids w) i) as Hi' by (intros i; by rewrite Hi, Hkey).
  split.
  - eapply (added_inv w tc a peer (default (zeros 12) tid) id ids); try done; [apply malloc_pos|].
    unfold put_tc, tw_set_conns, tw_set_lists, tw_set_ids, tc_with_id. simpl. by rewrite insert_insert_eq.
  - right. split; [done|]. split; [done|]. eexists. split; [simpl; by rewrite insert_insert_eq|]. split; [done|]. split; [done|].
    split; [|done]. simpl. by rewrite Hi', Z.eqb_refl.
Qed.

(** * Sequences of operations *)

(** The calls of the server on a connection, the timeout that ends one, and what
    the engine brings: a data socket, a buffer. *)
Inductive tcp_op : Type :=
| TcpCreate (server_id a : Z) (tid : option (list Z)) (peer : ioa_addr) (rnd : list Z)
| TcpDelete (tc : Z)
| TcpBindTimeout (h tc : Z)
| TcpClean (id : Z)
| TcpClear (a : Z)
| TcpFamily (a family : Z)
| TcpStart (peer : bool) (tc : Z)
| TcpStop (peer : bool) (tc : Z)
| TcpPeerSocket (tc : Z) (state : TC_STATE) (s : Z)
| TcpClientSocket (tc s : Z)
| TcpQueue (tc nbh : Z)
| TcpSocket (s : Z) (k : ioa_socket)
| TcpBuffer (h : Z) (b : stun_buffer).

Definition tcp_run (w : world) (o : tcp_op) : outcome world :=
  match o with
  | TcpCreate server_id a tid peer rnd => '(_, _, w, _) ← create_tcp_connection w server_id a tid peer 0 rnd; Ret w
  | TcpDelete tc => delete_tcp_connection w tc
  | TcpBindTimeout _ tc => tcp_conn_bind_timeout_handler w tc
  | TcpClean id => '(_, w) ← get_and_clean_tcp_connection_by_id w id; Ret w
  | TcpClear a => clear_allocation_tcs w a
  | TcpFamily a family => family_tcs w a family 0 (length (tcs w a))
  | TcpStart peer tc => if peer then start_peer_conn_timeout w tc else start_conn_bind_timeout w tc
  | TcpStop peer tc => if peer then stop_peer_conn_timeout w tc else stop_conn_bind_timeout w tc
  | TcpPeerSocket tc state s => take_peer_socket w tc state s
  | TcpClientSocket tc s => take_client_socket w tc s
  | TcpQueue tc nbh => queue_for_client w tc nbh
  | TcpSocket s k => Ret (tw_set_net w (put_sock (tw_net w) s k))
  | TcpBuffer h b => Ret (tw_set_bufs w (<[h := b]> (tw_bufs w)))
  end.

(** When the code calls it: on a connection that exists, with a socket or a
    buffer that nobody has. *)
Definition tcp_op_ok (w : world) (o : tcp_op) : Prop :=
  match o with
  | TcpCreate server_id a _ _ rnd => a <> 0 /\ Exists (usable (tw_ids w) server_id) rnd
  | TcpDelete tc | TcpStart _ tc | TcpStop _ tc => is_Some (tw_conns w !! tc)
  | TcpBindTimeout h tc => tw_timers w !! h = Some (ConnBind tc)
  | TcpClean _ | TcpClear _ | TcpFamily _ _ => True
  | TcpPeerSocket tc _ s => exists c, tw_conns w !! tc = Some c /\ s <> 0 /\ res_live w (RSock s) /\ (s = tc_peer_s c \/ unowned w (RSock s))
  | TcpClientSocket tc s => exists c, tw_conns w !! tc = Some c /\ s <> 0 /\ tc_client_s c = 0 /\ res_live w (RSock s) /\ unowned w (RSock s)
  | TcpQueue tc nbh => is_Some (tw_conns w !! tc) /\ nbh <> 0 /\ res_live w (RBuf nbh) /\ unowned w (RBuf nbh)
  | TcpSocket s k => rn_socks (tw_net w) !! s = None
  | TcpBuffer h b => tw_bufs w !! h = None
  end.

Inductive tcp_trace : world -> list tcp_op -> world -> Prop :=
| trace_nil w : tcp_trace w [] w
| trace_cons w o w1 ops w2 : tcp_op_ok w o -> tcp_run w o = Ret w1 -> tcp_trace w1 ops w2 -> tcp_trace w (o :: ops) w2.

(** Only the sockets, buffers and ids changed, and no connection lost anything. *)
Lemma inv_grow w w' :
  tcp_inv w -> tw_conns w' = tw_conns w -> tw_lists w' = tw_lists w -> tw_timers w' = tw_timers w -> kv_inv (tw_ids w') ->
  (forall i tc, kv_abs (tw_ids w') i = Some tc -> kv_abs (tw_ids w) i = Some tc) -> (forall r, res_live w r -> res_live w' r) -> tcp_inv w'.
Proof.
  intros Inv E1 E2 E3 Ii Hi Keep. assert (forall a, tcs w' a = tcs w a) as Et by (intros a; unfold tcs; by rewrite E2).
  destruct Inv as [I1 I2 I3 I4 I5 I6 I7 I8 I9]. split; rewrite ?E1, ?E3; auto; intros; rewrite ?Et in *; auto.
  destruct (I7 tc c) as [? L]; [done|]. split; [done|]. auto.
Qed.

Lemma clear_spec w a :
  tcp_inv w -> exists w', clear_allocation_tcs w a = Ret w' /\ tcp_inv w' /\ shrunk a w w' /\ forall tc c, tw_conns w' !! tc = Some c -> tc_owner c <> a.
Proof.
  intros Inv. unfold clear_allocation_tcs. destruct (clear_tcs_spec (length (tcs w a)) w a 0 Inv) as (w1 & -> & Inv1 & S1 & Nz); [done|lia|]. mstep.
  eexists. split; [done|]. set (w2 := tw_set_lists w1 _).
  assert (forall b, nz (tcs w2 b) = nz (tcs w1 b)) as Et.
  { intros b. unfold tcs at 1. simpl. destruct (decide (b = a)) as [->|N]; [rewrite lookup_delete_eq; by rewrite Nz|by rewrite lookup_delete_ne]. }
  split; [|split].
  - destruct Inv1 as [I1 I2 I3 I4 I5 I6 I7 I8 I9]. split; auto; try (intros; rewrite Et in *; auto).
  - destruct S1 as [A1 A2 A3 A4]. split; auto.
  - intros tc c E <-. destruct (ti_conn w1 Inv1 tc c E) as (_ & _ & _ & L). rewrite Nz in L. by apply elem_of_nil in L.
Qed.

Lemma tcp_run_ok w o : tcp_inv w -> tcp_op_ok w o -> exists w', tcp_run w o = Ret w' /\ tcp_inv w'.
Proof.
  intros Inv Ok. destruct o as [server_id a tid peer rnd|tc|h tc|id|a|a f|peer tc|peer tc|tc state s|tc s|tc nbh|s k|h b]; cbn [tcp_run tcp_op_ok] in *.
  - destruct Ok as [Na Us]. destruct (create_spec w server_id a tid peer 0 rnd Inv Na Us) as (tc & err & w' & rnd' & -> & Inv' & _). mstep. by exists w'.
  - destruct Ok as [c Ec]. destruct (delete_spec w tc c Inv Ec) as (w' & -> & F). exists w'. split; [done|]. by eapply freed_inv.
  - destruct (ti_timer w Inv h _ Ok) as (_ & c & Ec & _). destruct (delete_spec w tc c Inv Ec) as (w' & E & F).
    unfold tcp_conn_bind_timeout_handler. rewrite (truthy_nz tc) by (destruct (ti_conn w Inv tc c Ec); lia). exists w'. split; [done|]. by eapply freed_inv.
  - unfold get_and_clean_tcp_connection_by_id. rewrite (kv_get_ok _ _ (ti_ids w Inv)). mstep.
    destruct (kv_abs (tw_ids w) id) as [tc|]; mstep; [|by exists w]. destruct (truthy tc); mstep; [|by exists w].
    destruct (kv_del_ok (tw_ids w) id (ti_ids w Inv)) as (ids & -> & Ii & Hi). mstep. eexists. split; [done|].
    apply (inv_grow w); try done. intros i x. simpl. rewrite Hi. by destruct (key_eqb id i).
  - destruct (clear_spec w a Inv) as (w' & -> & Inv' & _). by exists w'.
  - destruct (family_tcs_spec (length (tcs w a)) w a f 0 Inv) as (w' & -> & Inv' & _); [done|]. by exists w'.
  - destruct Ok as [c Ec]. destruct peer; [unfold start_peer_conn_timeout|unfold start_conn_bind_timeout]; unfold get_tc; rewrite Ec; mstep;
      [pose proof (field_deleted w tc c Inv Ec true) as E|pose proof (field_deleted w tc c Inv Ec false) as E]; cbn [field] in E; rewrite E; mstep;
      (eexists; split; [done|]); [exact (field_start w tc c Inv Ec true)|exact (field_start w tc c Inv Ec false)].
  - destruct Ok as [c Ec]. destruct peer; [unfold stop_peer_conn_timeout|unfold stop_conn_bind_timeout]; unfold get_tc; rewrite Ec; mstep;
      [pose proof (field_deleted w tc c Inv Ec true) as E|pose proof (field_deleted w tc c Inv Ec false) as E]; cbn [field] in E; rewrite E; mstep;
      (eexists; split; [done|]); [exact (field_stop w tc c Inv Ec true)|exact (field_stop w tc c Inv Ec false)].
  - destruct Ok as (c & Ec & Ns & Ls & Un). exact (take_peer_spec w tc c Inv Ec state s Ns Ls Un).
  - destruct Ok as (c & Ec & Ns & Cz & Ls & Un). exact (take_client_spec w tc c Inv Ec s Ns Cz Ls Un).
  - destruct Ok as ([c Ec] & N & Lb & Un). exact (queue_spec w tc c Inv Ec nbh N Lb Un).
  - eexists. split; [done|]. apply (inv_grow w); try done; [apply (ti_ids w Inv)|]. intros [h|x|h]; simpl; try done. intros (k' & E & Hk). exists k'.
    split; [|done]. rewrite lookup_insert_ne; [done|]. congruence.
  - eexists. split; [done|]. apply (inv_grow w); try done; [apply (ti_ids w Inv)|]. intros [x|x|x]; simpl; try done. intros [v E]. exists v.
    rewrite lookup_insert_ne; [done|]. congruence.
Qed.

Lemma trace_inv w ops w' : tcp_inv w -> tcp_trace w ops w' -> tcp_inv w'.
Proof.
  intros Inv T. induction T as [|w o w1 ops w2 Ok E T IH]; [done|]. apply IH. destruct (tcp_run_ok w o Inv Ok) as (w' & E' & Inv'). congruence.
Qed.

Lemma initial_inv n ids : kv_inv ids -> (forall i, kv_abs ids i = None) -> tcp_inv (TcpWorld n ∅ ∅ ids ∅ ∅).
Proof.
  intros Ii Hi. split; simpl; try done.
  - intros i tc. by rewrite Hi.
  - intros a tc H. unfold tcs in H. simpl in H. by apply elem_of_nil in H.
  - intros a. constructor.
Qed.

Lemma by_id_spec w id : tcp_inv w -> exists r, get_tcp_connection_by_id w id = Ret r /\ (r <> 0 -> exists c, tw_conns w !! r = Some c /\ tc_id c = id).
Proof.
  intros Inv. unfold get_tcp_connection_by_id. rewrite (kv_get_ok _ _ (ti_ids w Inv)). mstep. eexists. split; [done|].
  destruct (kv_abs (tw_ids w) id) as [tc|] eqn:E; [|done]. destruct (truthy tc); [|done]. intros _. by apply (ti_id w Inv).
Qed.
End tcp_facts.

(** * Claims *)

(** C30. The connections of RFC 6062 stay consistent over any sequence of the
    calls that the server makes on them, of timeouts, and of sockets and buffers
    that arrive: from an empty server, every further call on an existing
    connection returns, without a use after free or a double free of a
    connection, timer, socket or buffer; an id leads to nothing or to an existing
    connection with that id; a peer of an allocation leads to its only
    connection; and the end of an allocation frees its connections, with all
    that they owned, and no others. *)
Theorem tcp_connections_safe {K U I : Type} {KN : Kernel K} {M : Malloc} {ML : MallocLaws} {IM : KVStore Z Z I} {IL : KVLaws Z Z I (HK := lm_key)}
    (n : relay_net K U) (ids : I) ops w :
  (forall v, kv_value_ok v) -> kv_inv ids -> (forall i, kv_abs ids i = None) -> tcp_trace (TcpWorld n ∅ ∅ ids ∅ ∅) ops w ->
  (forall o, tcp_op_ok w o -> exists w', tcp_run w o = Ret w') /\
  (forall id, exists r, get_tcp_connection_by_id w id = Ret r /\ (r <> 0 -> exists c, tw_conns w !! r = Some c /\ tc_id c = id)) /\
  (forall a peer, exists r, get_tcp_connection_by_peer w a peer = Ret r /\
     forall tc c, tw_conns w !! tc = Some c -> tc_owner c = a -> addr_eq_s (tc_peer_addr c) peer = true -> tc = r) /\
  (forall a, exists w', clear_allocation_tcs w a = Ret w' /\ shrunk a w w' /\ forall tc c, tw_conns w' !! tc = Some c -> tc_owner c <> a).
Proof.
  intros Hval Ii Hi T. assert (forall k k' : Z, key_eqb k k' = (k =? k')) as Hkey by done.
  assert (forall k : Z, key_ok k) as Hok by (intros k; apply Z.eqb_refl).
  pose proof (trace_inv Hkey Hok Hval _ _ _ (initial_inv n ids Ii Hi) T) as Inv. split_and!.
  - intros o Ok. destruct (tcp_run_ok Hkey Hok Hval w o Inv Ok) as (w' & E & _). by exists w'.
  - intros id. by apply by_id_spec.
  - intros a peer. destruct (find_by_peer_spec Hkey Hok Hval w a peer Inv) as (r & E & D). exists r. split; [done|]. intros tc c Ec Oc Pc.
    destruct D as [[-> D]|(c' & Ec' & Oc' & Pc')]; [by rewrite (D tc c Ec Oc) in Pc|]. eapply (ti_peer w Inv tc c r c' Ec Ec'); [congruence|].
    eapply addr_eq_s_trans; [exact Pc|]. by rewrite addr_eq_s_sym.
  - intros a. destruct (clear_spec Hkey Hok Hval w a Inv) as (w' & E & _ & S & No). by exists w'.
Qed.

(** ** Instances *)
Definition ex_ids : KVStore Z Z (gmap Z Z) := {|
  kv_inv _ := True;
  kv_value_ok _ := True;
  kv_abs m k := m !! k;
  kv_get m k := Ret (m !! k);
  kv_put m k v := Ret (<[k := v]> m);
  kv_del m k := Ret (delete k m) |}.

Lemma ex_ids_laws : KVLaws Z Z (gmap Z Z) (HK := lm_key) (KV := ex_ids).
Proof.
  constructor; [done|..].
  - intros m k v _ _ _. exists (<[k := v]> m). split; [done|]. split; [done|]. intros k'. simpl. destruct (k =? k') eqn:E; bool_arith.
    + subst. apply lookup_insert_eq.
    + by apply lookup_insert_ne.
  - intros m k _. exists (delete k m). split; [done|]. split; [done|]. intros k'. simpl. destruct (k =? k') eqn:E; bool_arith.
    + subst. apply lookup_delete_eq.
    + by apply lookup_delete_ne.
Qed.

Definition ex_tcp : tcp_world Z (list (Z * rtcp_alloc_type)) (gmap Z Z) := TcpWorld (ex_net 0) ∅ ∅ ∅ ∅ ∅.
Definition ex_tcp_run (w : tcp_world Z (list (Z * rtcp_alloc_type)) (gmap Z Z)) (ops : list tcp_op) :
    outcome (tcp_world Z (list (Z * rtcp_alloc_type)) (gmap Z Z)) :=
  foldl (fun r o => w ← r; tcp_run (M := bump) (IM := ex_ids) w o) (Ret w) ops.
Definition ex_connect : list tcp_op := [TcpCreate 1 7 None (ex_v4 198 51 100 7 5000) [0; 5]; TcpStart true 1].
Definition ex_after (ops : list tcp_op) : tcp_world Z (list (Z * rtcp_alloc_type)) (gmap Z Z) :=
  match ex_tcp_run ex_tcp ops with Ret w => w | _ => ex_tcp end.

Lemma tcp_connections_safe_witness :
  let w := ex_after ex_connect in
  (forall o, tcp_op_ok (IM := ex_ids) w o -> exists w', tcp_run (M := bump) (IM := ex_ids) w o = Ret w') /\
  (forall id, exists r, get_tcp_connection_by_id (IM := ex_ids) w id = Ret r /\ (r <> 0 -> exists c, tw_conns w !! r = Some c /\ tc_id c = id)) /\
  (forall a peer, exists r, get_tcp_connection_by_peer w a peer = Ret r /\
     forall tc c, tw_conns w !! tc = Some c -> tc_owner c = a -> addr_eq_s (tc_peer_addr c) peer = true -> tc = r) /\
  (forall a, exists w', clear_allocation_tcs (IM := ex_ids) w a = Ret w' /\ shrunk (IM := ex_ids) a w w' /\
     forall tc c, tw_conns w' !! tc = Some c -> tc_owner c <> a).
Proof.
  apply (tcp_connections_safe (KN := ex_kernel) (M := bump) (ML := bump_laws) (IM := ex_ids) (IL := ex_ids_laws) (ex_net 0) ∅ ex_connect).
  - done.
  - done.
  - intros i. apply lookup_empty.
  - eapply (trace_cons _ _ (ex_after (take 1 ex_connect))); [split; [done|]| |].
    + apply Exists_cons_tl, Exists_cons_hd. split; [done|]. apply lookup_empty.
    + vm_compute. reflexivity.
    + eapply (trace_cons _ _ (ex_after ex_connect)); [|vm_compute; reflexivity|apply trace_nil]. vm_compute. by eexists.
Defined.

(** An id that was cleared by ConnectionBind can be drawn again for another
    connection; the end of the first connection then removes the id of the
    second, which no client can bind any more. *)
Example reused_id_forgotten :
  let id := 16777221 in
  let w := ex_after [TcpCreate 1 7 None (ex_v4 198 51 100 7 5000) [5]; TcpClean id; TcpCreate 1 7 None (ex_v4 198 51 100 8 5000) [5]; TcpDelete 1] in
  (tc_id <$> tw_conns w !! 2) = Some id /\ get_tcp_connection_by_id (IM := ex_ids) w id = Ret 0.
Proof. vm_compute. done. Qed.

(** Data of the peer that come before the client's connection are kept in
    sixteen buffers; the seventeenth is dropped, and the stream goes on after
    it. *)
Example seventeenth_buffer_lost :
  let bufs := Z.of_nat <$> seq 1 17 in
  let w := ex_after (TcpCreate 1 7 None (ex_v4 198 51 100 7 5000) [5] :: ((fun h => TcpBuffer h (StunBuffer [] 0 0 0)) <$> bufs)) in
  match ex_tcp_run w (TcpQueue 1 <$> bufs) with
  | Ret w' => (ub_to_client <$> tw_conns w' !! 1) = Some (Z.of_nat <$> seq 1 16) /\ tw_bufs w' !! 17 = None
  | _ => False
  end.
Proof. vm_compute. done. Qed.
