(* ===== verification/Command.v ===== *)
(** Dispatch of STUN messages: [handle_turn_command], [set_alternate_server] of
    src/coturn/src/server/ns_turn_server.c and the origins of
    src/coturn/src/apps/common/ns_turn_utils.c.

    The handlers of Allocate, Refresh, Connect, ConnectionBind and Binding are
    fields of a record; those of ChannelBind, CreatePermission and Send are the
    ones of TurnServer and DataPath.  The URI parser (libevent), the realm
    tables and the address of the client socket are arguments. *)

From stdpp Require Import base option numbers list strings gmap.
From S2P Require Import Prelude IoAddr StunAddr StunDefs StunMsg StunFraming StunCrc StunFingerprint StunAuth StunBuild.
From S2P Require Import SlotTable TurnMaps Timers Allocation NetBuffer Sockets TurnServer DataPath ServerAuth.

Definition STUN_MAX_ORIGIN_SIZE : Z := 127.

(** ** Origins *)
Definition get_default_protocol_port (scheme : list Z) : Z :=
  match list_find (fun p => bytes_of_string p.1 = scheme)
          [("ftp"%string, 21); ("svn"%string, 3690); ("ssh"%string, 22); ("sip"%string, 5060); ("http"%string, 80);
           ("ldap"%string, 389); ("sips"%string, 5061); ("turn"%string, 3478); ("stun"%string, 3478);
           ("https"%string, 443); ("ldaps"%string, 636); ("turns"%string, 5349); ("stuns"%string, 5349);
           ("telnet"%string, 23); ("radius"%string, 1645); ("svn+ssh"%string, 22)] with
  | Some (_, (_, port)) => port
  | None => 0
  end.

(** What the URI parser gives: scheme, host and port; empty for NULL. *)
Record evhttp_uri : Type := EvUri { ev_scheme : list Z; ev_host : list Z; ev_port : Z }.

(** [snprintf(..,"%d",n)] of a positive number. *)
Fixpoint decimal (fuel : nat) (n : Z) : list Z :=
  match fuel with
  | O => []
  | S f => (if n <? 10 then [] else decimal f (n / 10)) ++ [48 + n mod 10]
  end.

(** [otmp], an array of 254 characters. *)
Definition canonic (u : evhttp_uri) : list Z :=
  let scheme := tolower <$> ev_scheme u in
  let port := if ev_port u <? 1 then get_default_protocol_port scheme else ev_port u in
  let rest := bytes_of_string "://" ++ ev_host u ++ (if 0 <? port then bytes_of_string ":" ++ decimal 10 port else []) in
  let rest := take (Z.to_nat (2 * STUN_MAX_ORIGIN_SIZE - blen scheme - 1 - 1)) rest in
  scheme ++ take 3 rest ++ (tolower <$> drop 3 rest).

Section origins.
Context (evhttp_uri_parse : list Z -> option evhttp_uri).

(** The returned code and the string left in [co]. *)
Definition get_canonic_origin (o : list Z) (sz : Z) : Z * list Z :=
  if bool_decide (o = []) then (-1, []) else
  match evhttp_uri_parse o with
  | Some u =>
      if negb (bool_decide (ev_scheme u = [])) && (blen (ev_scheme u) <? sz) && (blen (ev_scheme u) <? STUN_MAX_ORIGIN_SIZE)
         && negb (bool_decide (ev_host u = []))
      then (0, take (Z.to_nat sz) (canonic u)) else (-1, take (Z.to_nat sz) o)
  | None => (-1, take (Z.to_nat sz) o)
  end.

(** ** State *)

(** Lists of alternate servers are empty for NULL. *)
Record server_config : Type := ServerConfig {
  no_stun : bool;
  stun_only : bool;
  secure_stun : bool;
  mobility : bool;
  check_origin : bool;
  alternate_servers : list ioa_addr;
  tls_alternate_servers : list ioa_addr;
  aux_servers : list ioa_addr;
  self_udp_balance : bool }.

(** [realm_name] of the session is its realm; that of [cw_auth] is a copy. *)
Record cmd_world : Type := CmdWorld {
  cw_ss : ts_ur_super_session;
  cw_auth : auth_session;
  origin : list Z;
  origin_set : bool;
  as_counter : Z;
  cw_socks : sockets }.

Definition set_realm (ss : ts_ur_super_session) (r : list Z) : ts_ur_super_session :=
  Session (ss_id ss) (ss_alloc ss) (ss_alloc_ptr ss) (is_tcp_relay ss) (is_mobile ss) (client_socket ss) r
    (to_be_closed ss) (enforce_fingerprints ss).

Definition with_ss (w : cmd_world) (ss : ts_ur_super_session) : cmd_world :=
  CmdWorld ss (cw_auth w) (origin w) (origin_set w) (as_counter w) (cw_socks w).
Definition with_auth (w : cmd_world) (a : auth_session) : cmd_world :=
  CmdWorld (set_realm (cw_ss w) (realm_options_name a)) a (origin w) (origin_set w) (as_counter w) (cw_socks w).
Definition with_origin (w : cmd_world) (o : list Z) (set : bool) : cmd_world :=
  CmdWorld (cw_ss w) (cw_auth w) o set (as_counter w) (cw_socks w).
Definition with_counter (w : cmd_world) (c : Z) : cmd_world :=
  CmdWorld (cw_ss w) (cw_auth w) (origin w) (origin_set w) c (cw_socks w).
Definition with_socks (w : cmd_world) (s : sockets) : cmd_world :=
  CmdWorld (cw_ss w) (cw_auth w) (origin w) (origin_set w) (as_counter w) s.

(** ** Alternate servers *)
Fixpoint next_alternate (n : nat) (addrs : list ioa_addr) (counter : Z) (family : Z) : outcome (Z * option ioa_addr) :=
  match n with
  | O => Ret (counter, None)
  | S n =>
      let counter := if counter >=? Z.of_nat (length addrs) then 0 else counter in
      match addrs !! Z.to_nat counter with
      | None => UB
      | Some addr =>
          if sa_family addr =? family then Ret (counter + 1, Some addr)
          else next_alternate n addrs (counter + 1) family
      end
  end.

Definition set_alternate_server (server : turn_turnserver) (asl : list ioa_addr) (local_addr : option ioa_addr) (counter method : Z)
    (tid nbh rnd : list Z) (r : reply) : outcome (Z * reply) :=
  match asl, local_addr with
  | [], _ | _, None => Ret (counter, r)
  | _, Some local =>
      if existsb (fun a => addr_eq (Some a) (Some local)) asl then Ret (counter, r) else
      '(counter, found) ← next_alternate (length asl) asl counter (sa_family local);
      match found with
      | None => Ret (counter, r)
      | Some addr =>
          m ← stun_init_error_response_str method nbh 300 (reason_arg r) (Some tid) rnd;
          '(_, m) ← stun_attr_add_addr_str (addr_maps server) m STUN_ATTRIBUTE_ALTERNATE_SERVER addr;
          Ret (counter, Reply 300 (reason r) (unknown_attrs r) (Some m))
      end
  end.

(** The list chosen for the type of the client socket. *)
Definition choose_servers (cfg : server_config) (cst : Z) : list ioa_addr :=
  if ((cst =? UDP_SOCKET) || (cst =? DTLS_SOCKET)) && self_udp_balance cfg && (0 <? blen (aux_servers cfg))
  then aux_servers cfg
  else if ((cst =? TLS_SOCKET) || (cst =? DTLS_SOCKET) || (cst =? TLS_SCTP_SOCKET)) && (0 <? blen (tls_alternate_servers cfg))
  then tls_alternate_servers cfg
  else alternate_servers cfg.

(** ** The origin of a session *)

(** The value of a nonempty ORIGIN attribute, as a string. *)
Definition origin_of (buf : list Z) (sar : Z) : outcome (option (list Z)) :=
  ty ← stun_attr_get_type buf (Some sar);
  if negb (ty =? STUN_ATTRIBUTE_ORIGIN) then Ret None else
  sarlen ← stun_attr_get_len buf (Some sar);
  if negb (0 <? sarlen) then Ret None else
  v ← stun_attr_get_value buf (Some sar);
  match v with
  | Some v => o ← rd_bytes buf v sarlen; Ret (Some (get_canonic_origin (cstr (o ++ [0])) STUN_MAX_ORIGIN_SIZE).2)
  | None => UB
  end.

Definition same_origin (o corigin : list Z) : bool :=
  bool_decide (take (Z.to_nat STUN_MAX_ORIGIN_SIZE) o = take (Z.to_nat STUN_MAX_ORIGIN_SIZE) corigin).

(** [origin_found] and [norigins]. *)
Definition match_origin (w : cmd_world) (buf : list Z) (len : Z) : outcome (bool * Z) :=
  attr_scan buf len (fun st => negb st.1)
    (fun st sar =>
       o ← origin_of buf sar;
       match o with
       | Some c => Ret (same_origin (origin w) c, st.2 + 1)
       | None => Ret st
       end) (false, 0).

Definition check_session_origin (cfg : server_config) (w : cmd_world) (r : reply) (buf : list Z) (len : Z) : outcome reply :=
  if negb (origin_set w) then Ret r else
  '(found, norigins) ← match_origin w buf len;
  if negb (check_origin cfg) then Ret r
  else if negb (bool_decide (origin w = [])) then
    if (found : bool) then Ret r
    else Ret (fail_with r 441 "The origin attribute does not match the initial session origin value")
  else if 0 <? norigins then
    Ret (fail_with r 441 "The origin attribute is empty, does not match the initial session origin value")
  else Ret r.

Context (realm_by_origin : list Z -> bool * list Z).

(** The first origins of an Allocate request, up to one that has a realm. *)
Definition first_origin (w : cmd_world) (r : reply) (method : Z) (buf : list Z) (len : Z) : outcome cmd_world :=
  if negb (err_code r =? 0) || origin_set w || negb (method =? STUN_METHOD_ALLOCATE) then Ret w else
  '(w, _) ← attr_scan buf len (fun st => negb st.2)
    (fun st sar =>
       o ← origin_of buf sar;
       match o with
       | Some c =>
           let c := take (Z.to_nat STUN_MAX_ORIGIN_SIZE) c in
           let '(found, realm) := realm_by_origin c in
           Ret (with_ss (with_origin st.1 c (origin_set st.1)) (set_realm (cw_ss st.1) realm), found)
       | None => Ret st
       end) (w, false);
  Ret (with_origin w (origin w) true).
End origins.

(** ** Handlers *)

(** The handlers that are not translated.  They get the transaction id, the
    message and the buffer of the reply; ConnectionBind and Refresh also get
    [message_integrity] and [can_resume], Refresh may ask for no response, and
    Binding may redirect it: the origin and the destination. *)
Record handlers : Type := Handlers {
  handle_turn_allocate : cmd_world -> list Z -> ioa_net_data -> list Z -> outcome (reply * cmd_world);
  handle_turn_connect : cmd_world -> list Z -> ioa_net_data -> outcome (reply * cmd_world);
  handle_turn_connection_bind : cmd_world -> list Z -> ioa_net_data -> list Z -> bool -> bool -> outcome (reply * cmd_world);
  handle_turn_refresh : cmd_world -> list Z -> ioa_net_data -> list Z -> bool -> bool -> outcome (reply * bool * cmd_world);
  handle_turn_binding : cmd_world -> list Z -> ioa_net_data -> list Z -> outcome (reply * option (ioa_addr * ioa_addr)) }.

(** What a command does: the new state, the reply and [no_response], what was
    sent to peers, the message (its buffer may have been given away) and a
    redirected response. *)
Record cmd_effect : Type := CmdEffect {
  ce_world : cmd_world;
  ce_reply : reply;
  no_response : bool;
  ce_wires : list wire;
  ce_in : ioa_net_data;
  ce_redirected : option (ioa_addr * ioa_addr * mbuf) }.

Definition SOFTWARE_added (server : turn_turnserver) (m : mbuf) : outcome mbuf :=
  let field := get_version server in
  '(_, m) ← stun_attr_add_str m STUN_ATTRIBUTE_SOFTWARE (Some field) (strlen field);
  Ret m.

Section commands.
Context {C : Crypto} {Mal : Malloc}.
Context (userkeycb : auth_session -> list Z -> list Z -> bool * bool).
Context (realm_by_name : list Z -> list Z) (realm_by_origin : list Z -> bool * list Z).
Context (evhttp_uri_parse : list Z -> option evhttp_uri).
Context (H : handlers) (cfg : server_config) (server : turn_turnserver) (auth : auth_server) (e : engine).

Definition dispatch_request (w : cmd_world) (r : reply) (method : Z) (tid : list Z) (in_buffer : ioa_net_data) (buf : list Z)
    (len : Z) (nbh rnd : list Z) (message_integrity can_resume : bool) : outcome cmd_effect :=
  let done x w no_resp := Ret (CmdEffect w x no_resp [] in_buffer None) in
  if method =? STUN_METHOD_ALLOCATE then
    '(r, w) ← handle_turn_allocate H w tid in_buffer nbh; done r w false
  else if method =? STUN_METHOD_CONNECT then
    '(r, w) ← handle_turn_connect H w tid in_buffer; done r w (err_code r =? 0)
  else if method =? STUN_METHOD_CONNECTION_BIND then
    '(r, w) ← handle_turn_connection_bind H w tid in_buffer nbh message_integrity can_resume; done r w false
  else if method =? STUN_METHOD_REFRESH then
    '(r, nr, w) ← handle_turn_refresh H w tid in_buffer nbh message_integrity can_resume; done r w nr
  else if method =? STUN_METHOD_CHANNEL_BIND then
    let sock_type s := match cw_socks w !! s with Some k => st k | None => UNKNOWN_SOCKET end in
    '(r, ss) ← handle_turn_channel_bind sock_type server (cw_ss w) tid buf len nbh rnd; done r (with_ss w ss) false
  else if method =? STUN_METHOD_CREATE_PERMISSION then
    '(r, ss) ← handle_turn_create_permission server (cw_ss w) tid buf len nbh rnd; done r (with_ss w ss) false
  else if method =? STUN_METHOD_BINDING then
    '(r, changed) ← handle_turn_binding H w tid in_buffer nbh;
    match changed, resp r with
    | Some (response_origin, response_destination), Some m =>
        if err_code r =? 0 then
          m ← SOFTWARE_added server m;
          Ret (CmdEffect w (Reply (err_code r) (reason r) (unknown_attrs r) (Some m)) true [] in_buffer
                 (Some (response_origin, response_destination, m)))
        else done r w false
    | _, _ => done r w false
    end
  else done r w false.

Definition dispatch_indication (w : cmd_world) (r : reply) (method : Z) (in_buffer : ioa_net_data) : outcome cmd_effect :=
  let done r := Ret (CmdEffect w r true [] in_buffer None) in
  if method =? STUN_METHOD_SEND then
    '(r, in_buffer, socks, out) ← handle_turn_send e server (cw_ss w) (cw_socks w) in_buffer;
    Ret (CmdEffect (with_socks w socks) r true out in_buffer None)
  else if method =? STUN_METHOD_DATA then done (fail_with r 403 (reason r))
  else done r.

(** The checks of a TURN request before authentication. *)
Definition before_auth (w : cmd_world) (r : reply) (method : Z) (tid buf : list Z) (len : Z) (nbh rnd : list Z)
    (local_addr : option ioa_addr) : outcome (cmd_world * reply) :=
  '(w, r) ← (if method =? STUN_METHOD_ALLOCATE then
               cst ← get_ioa_socket_type (cw_socks w) (client_socket (cw_ss w));
               '(c, r) ← set_alternate_server server (choose_servers cfg cst) local_addr (as_counter w) method tid nbh rnd r;
               Ret (with_counter w c, r)
             else Ret (w, r));
  r ← check_session_origin evhttp_uri_parse cfg w r buf len;
  w ← first_origin evhttp_uri_parse realm_by_origin w r method buf len;
  Ret (w, r).

(** Is [check_stun_auth] called for the method? *)
Definition auth_called (w : cmd_world) (method : Z) : bool :=
  negb (method =? STUN_METHOD_CONNECTION_BIND) &&
  (negb (mobility cfg) || negb (method =? STUN_METHOD_REFRESH) || truthy (is_allocation_valid (ss_alloc (cw_ss w)))).

Definition authenticate (w : cmd_world) (r : reply) (method : Z) (tid buf : list Z) (len : Z) (nbh : list Z) (can_resume : bool)
    (rnd_nonce : Z * Z) (rnd : list Z) : outcome (cmd_world * reply * bool * bool) :=
  if negb (err_code r =? 0) || bool_decide (resp r <> None) || negb (auth_called w method)
  then Ret (w, r, false, false)
  else
    res ← check_stun_auth userkeycb realm_by_name auth (with_realm (cw_auth w) (realm_name (cw_ss w))) r tid buf len nbh method
            can_resume rnd_nonce rnd;
    Ret (with_auth w (ar_session res), ar_reply res, message_integrity res, postpone_reply res).

(** The request branch: the effect and [message_integrity]. *)
Definition handle_request (w : cmd_world) (method : Z) (tid : list Z) (in_buffer : ioa_net_data) (buf : list Z) (len : Z)
    (nbh : list Z) (can_resume : bool) (local_addr : option ioa_addr) (rnd_nonce : Z * Z) (rnd : list Z) :
    outcome (cmd_effect * bool) :=
  let silent w r := Ret (CmdEffect w r true [] in_buffer None, false) in
  if (method =? STUN_METHOD_BINDING) && no_stun cfg then silent w no_reply
  else if negb (method =? STUN_METHOD_BINDING) && stun_only cfg then silent w no_reply
  else
    '(w, r, mi, postponed) ←
      (if negb (method =? STUN_METHOD_BINDING) || secure_stun cfg then
         '(w, r) ← before_auth w no_reply method tid buf len nbh rnd local_addr;
         authenticate w r method tid buf len nbh can_resume rnd_nonce rnd
       else Ret (w, no_reply, false, false));
    if (err_code r =? 0) && bool_decide (resp r = None) && negb postponed then
      x ← dispatch_request w r method tid in_buffer buf len nbh rnd mi can_resume; Ret (x, mi)
    else Ret (CmdEffect w r postponed [] in_buffer None, mi).

(** The response: unknown attributes, the default error, SOFTWARE and
    MESSAGE-INTEGRITY. *)
Definition reply_buffer (r : reply) (nbh : list Z) : list Z :=
  match resp r with Some m => mdata m | None => nbh end.

Definition unknown_response (r : reply) (method : Z) (tid nbh rnd : list Z) : outcome reply :=
  if 0 <? blen (unknown_attrs r) then
    m ← stun_init_error_response_str method (reply_buffer r nbh) 420 None (Some tid) rnd;
    '(_, m) ← stun_attr_add_str m STUN_ATTRIBUTE_UNKNOWN_ATTRIBUTES (Some (concat (to_be 2 <$> unknown_attrs r)))
                (u16 (blen (unknown_attrs r)) * 2);
    Ret (Reply 420 (reason r) (unknown_attrs r) (Some m))
  else Ret r.

Definition finish_response (w : cmd_world) (r : reply) (mi : bool) (method : Z) (tid nbh rnd hmac : list Z) : outcome mbuf :=
  m ← (match resp r with
       | Some m => Ret m
       | None => stun_init_error_response_str method nbh (if err_code r =? 0 then 400 else err_code r) (reason_arg r) (Some tid) rnd
       end);
  m ← SOFTWARE_added server m;
  if (mi : bool) then
    '(_, m) ← stun_attr_add_integrity_str hmac (as_ct auth) m (hmackey (cw_auth w)) (pwd (cw_auth w)) SHATYPE_SHA1;
    Ret m
  else Ret m.

(** The returned code, the effect and the response to send. *)
Definition handle_turn_command (w : cmd_world) (in_buffer : ioa_net_data) (nbh : list Z) (can_resume : bool)
    (local_addr : option ioa_addr) (rnd_nonce : Z * Z) (rnd hmac : list Z) : outcome (Z * cmd_effect * option mbuf) :=
  if client_socket (cw_ss w) =? 0 then Ret (-1, CmdEffect w no_reply true [] in_buffer None, None) else
  inb ← the_nbh in_buffer;
  buf ← nb_from inb (ioa_network_buffer_data inb);
  let len := ioa_network_buffer_get_size inb in
  method ← stun_get_method_str (Some buf) len;
  tid ← stun_tid_from_message_str buf len;
  isreq ← stun_is_request_str (Some buf) len;
  isind ← (if (isreq : bool) then Ret false else stun_is_indication_str (Some buf) len);
  '(x, mi) ← (if (isreq : bool) then handle_request w method tid in_buffer buf len nbh can_resume local_addr rnd_nonce rnd
              else x ← (if (isind : bool) then dispatch_indication w no_reply method in_buffer
                        else Ret (CmdEffect w no_reply true [] in_buffer None));
                   Ret (x, false));
  let w := ce_world x in
  let ss := cw_ss w in
  if to_be_closed ss || (client_socket ss =? 0) then Ret (0, x, resp (ce_reply x)) else
  k ← get_sock (cw_socks w) (client_socket ss);
  let '(closing, k) := ioa_socket_tobeclosed e k in
  let w := with_socks w (<[client_socket ss := k]> (cw_socks w)) in
  let x := CmdEffect w (ce_reply x) (no_response x) (ce_wires x) (ce_in x) (ce_redirected x) in
  if closing then Ret (0, x, resp (ce_reply x)) else
  r ← unknown_response (ce_reply x) method tid nbh rnd;
  if no_response x then Ret (0, x, None) else
  m ← finish_response w r mi method tid nbh rnd hmac;
  Ret (0, x, Some m).
End commands.
