(* ===== verification/CommandFacts.v ===== *)
(** The gate of the server: a TURN request that is not authentic runs no
    handler, changes no allocation and is answered with an error. *)

From stdpp Require Import base option numbers list strings gmap sets.
From S2P Require Import Prelude IoAddr StunAddr StunDefs StunMsg StunMsgFacts StunFraming StunCrc StunFingerprint.
From S2P Require Import StunAuth StunAuthFacts StunBuild StunBuildFacts SlotTable TurnMaps Timers Allocation NetBuffer Sockets.
From S2P Require Import TurnServer TurnServerFacts TurnSession DataPath DataPathFacts Cluster ServerAuth ServerAuthFacts Command.

(** * Replies under construction *)

(** An error response to the request. *)
Definition error_made (method : Z) (tid : list Z) (m : mbuf) : Prop :=
  exists code text attrs, mrepr m (error_msg method tid code text attrs).

Record reply_ok (method : Z) (tid : list Z) (r : reply) : Prop := ReplyOk {
  rp_unknown : unknown_attrs r = [];
  rp_reason : reason_ok (reason r) = true;
  rp_zero : err_code r = 0 -> r = no_reply;
  rp_resp : forall m, resp r = Some m -> err_code r <> 0 /\ error_made method tid m /\ mlen m <= 1300 /\ 2000 <= blen (mdata m) }.

Lemma no_reply_ok method tid : reply_ok method tid no_reply.
Proof. by constructor. Qed.

Lemma fail_with_ok method tid r code text :
  reply_ok method tid r -> code <> 0 -> reason_ok text = true -> reply_ok method tid (fail_with r code text).
Proof. intros [? ? _ Hr] Hc Ht. constructor; try done. intros m Hm. cbn in Hm. destruct (Hr m Hm) as [_ ?]. done. Qed.

(** * Origins and alternate servers *)
Section before.
Context (evhttp_uri_parse : list Z -> option evhttp_uri) (realm_by_origin : list Z -> bool * list Z).
Context (buf : list Z) (len : Z).
Hypothesis Hbytes : bytes_ok buf.
Hypothesis Hlen : len <= blen buf.

Lemma origin_of_returns fin a :
  fin <= len -> attr_valid buf fin a -> exists o, origin_of evhttp_uri_parse buf a = Ret o.
Proof.
  intros Hf (Ha & l & El & Hl & Hle). destruct (pad4_spec l Hl) as [? _]. unfold origin_of, stun_attr_get_type.
  destruct (rd16_ok buf a) as (t & -> & _); [done|lia|lia|]. mstep.
  destruct (negb (t =? STUN_ATTRIBUTE_ORIGIN)); [eauto|].
  unfold stun_attr_get_len, stun_attr_get_value. rewrite El. mstep.
  destruct (0 <? l) eqn:?; simpl; [|eauto]. bool_arith. destruct (l <? 1) eqn:?; bool_arith; [lia|]. mstep.
  rewrite rd_bytes_ret by lia. mstep. eauto.
Qed.

Lemma check_origin_returns cfg w r method tid :
  reply_ok method tid r ->
  exists r', check_session_origin evhttp_uri_parse cfg w r buf len = Ret r' /\ reply_ok method tid r'.
Proof.
  intros Hr. unfold check_session_origin. destruct (origin_set w); simpl; [|eauto].
  destruct (attr_scan_inv buf len (fun st : bool * Z => negb st.1)
    (fun st sar => o ← origin_of evhttp_uri_parse buf sar;
       match o with Some c => Ret (same_origin (origin w) c, st.2 + 1) | None => Ret st end) (fun _ => True))
    with (st := (false, 0)) as ([found n] & E & _); try done.
  { intros fin a st Hf V _ _. destruct (origin_of_returns fin a Hf V) as ([c|] & ->); mstep; eauto. }
  unfold match_origin. rewrite E. mstep.
  destruct (negb (check_origin cfg)); [eauto|]. destruct (negb (bool_decide _)).
  - destruct found; [eauto|]. eexists. split; [done|]. by apply fail_with_ok.
  - destruct (0 <? n); [|eauto]. eexists. split; [done|]. by apply fail_with_ok.
Qed.

(** States that differ in the realm, the origin and the counter only. *)
Definition realm_good (r : list Z) : Prop := nonzero_bytes r /\ blen r <= STUN_MAX_REALM_SIZE.

Definition same_state (w w' : cmd_world) : Prop :=
  cw_ss w' = set_realm (cw_ss w) (realm_name (cw_ss w')) /\ realm_good (realm_name (cw_ss w')) /\
  cw_auth w' = cw_auth w /\ cw_socks w' = cw_socks w.

Lemma same_state_refl w : realm_good (realm_name (cw_ss w)) -> same_state w w.
Proof. intros. split; [by destruct w as [[]]|]. by split_and!. Qed.

Hypothesis realms_good : forall o, realm_good (realm_by_origin o).2.

Lemma first_origin_returns w r method :
  realm_good (realm_name (cw_ss w)) ->
  exists w', first_origin evhttp_uri_parse realm_by_origin w r method buf len = Ret w' /\ same_state w w'.
Proof.
  intros Hw. unfold first_origin. destruct (_ || _ || _); [eauto using same_state_refl|].
  match goal with |- context [attr_scan _ _ ?g ?b _] =>
    destruct (attr_scan_inv buf len g b (fun st => same_state w st.1)) with (st := (w, false)) as ([w' f] & E & I)
  end; try done; [|by apply same_state_refl|].
  { intros fin a [w1 f] Hf V (S1 & S2 & S3 & S4) _. cbn [fst] in S1, S2, S3, S4. destruct (origin_of_returns fin a Hf V) as ([c|] & ->); mstep; [|by eexists].
    destruct (realm_by_origin _) as [fnd realm] eqn:Er. eexists. split; [done|]. cbn [fst].
    pose proof (realms_good (take (Z.to_nat STUN_MAX_ORIGIN_SIZE) c)) as G. rewrite Er in G.
    split; [|by split_and!]. cbn [cw_ss with_ss realm_name set_realm]. by rewrite S1. }
  rewrite E. mstep. eexists. split; [done|]. exact I.
Qed.
End before.

Lemma next_alternate_returns addrs family n counter :
  addrs <> [] -> 0 <= counter ->
  exists c o, next_alternate n addrs counter family = Ret (c, o) /\ 0 <= c /\ forall a, o = Some a -> a ∈ addrs.
Proof.
  intros Hne. revert counter. induction n as [|n IH]; intros counter Hc; simpl.
  { eexists _, _. split; [done|]. split; [done|]. by intros a [=]. }
  set (c := if counter >=? _ then 0 else counter).
  assert (0 <= c < Z.of_nat (length addrs)) as Hc'.
  { unfold c. destruct addrs as [|x l]; [done|]. cbn [length] in *. destruct (_ >=? _) eqn:?; bool_arith; lia. }
  destruct (addrs !! Z.to_nat c) as [a|] eqn:E; [|apply lookup_ge_None in E; lia].
  destruct (sa_family a =? family); [|apply IH; lia].
  eexists _, _. split; [done|]. split; [lia|]. intros ? [= <-]. by eapply list_elem_of_lookup_2.
Qed.

Definition alternate_ok (a : ioa_addr) : Prop :=
  addr_wf a /\ (sa_family a = AF_INET \/ sa_family a = 0 \/ sa_family a = AF_INET6).

Record config_ok (cfg : server_config) : Prop := ConfigOk {
  cf_alt : Forall alternate_ok (alternate_servers cfg);
  cf_tls : Forall alternate_ok (tls_alternate_servers cfg);
  cf_aux : Forall alternate_ok (aux_servers cfg) }.

Lemma choose_servers_ok cfg cst : config_ok cfg -> Forall alternate_ok (choose_servers cfg cst).
Proof. intros []. unfold choose_servers. by repeat case_match. Qed.

Section gate.
Context {C : Crypto} {CL : CryptoLaws C} {Mal : Malloc}.
Context (userkeycb : auth_session -> list Z -> list Z -> bool * bool).
Context (realm_by_name : list Z -> list Z) (realm_by_origin : list Z -> bool * list Z).
Context (evhttp_uri_parse : list Z -> option evhttp_uri).
Context (H : handlers) (cfg : server_config) (server : turn_turnserver) (auth : auth_server) (e : engine).
Hypothesis names_ok : forall r, realm_good (realm_by_name r).
Hypothesis origins_ok : forall o, realm_good (realm_by_origin o).2.
Hypothesis Hcfg : config_ok cfg.
Hypothesis Hmaps : addr_maps server = [].
Hypothesis Hauth : auth_server_ok auth.

Lemma alternate_returns asl local counter method tid nbh rnd r :
  Forall alternate_ok asl -> 0 <= counter -> request_args method tid nbh rnd -> reply_ok method tid r ->
  exists c r', set_alternate_server server asl local counter method tid nbh rnd r = Ret (c, r') /\ 0 <= c /\
    reply_ok method tid r'.
Proof.
  intros Ha Hc Hargs Hr. unfold set_alternate_server.
  destruct asl as [|a0 asl]; [eauto|]. destruct local as [local|]; [|eauto].
  destruct (existsb _ _); [eauto|].
  destruct (next_alternate_returns (a0 :: asl) (sa_family local) (length (a0 :: asl)) counter) as (c & o & -> & Hc' & Ho);
    [done|done|]. mstep. destruct o as [a|]; [|eauto].
  destruct (error_response_ret method tid nbh rnd r 300 Hargs (rp_reason _ _ _ Hr)) as (m & -> & R & Hl & Hd). mstep.
  rewrite Forall_forall in Ha. destruct (Ha a (Ho a eq_refl)) as [Wf Fam].
  pose proof (proj2 (ra_nbh _ _ _ _ Hargs)). rewrite Hmaps.
  destruct (add_addr_refines m _ STUN_ATTRIBUTE_ALTERNATE_SERVER a R) as (v & m' & _ & Lv & -> & R' & Hl' & Hd');
    [apply Hargs|done|done|done|unfold MAX_STUN_MESSAGE_SIZE; lia|lia|].
  mstep. eexists _, _. split; [done|]. split; [done|]. constructor; [apply Hr|apply Hr|done|].
  intros m0 [= <-]. split; [done|]. split; [|lia].
  exists 300, (effective_reason 300 (reason_arg r)), [(STUN_ATTRIBUTE_ALTERNATE_SERVER, v)]. exact R'.
Qed.

Section request.
Context (w : cmd_world) (method : Z) (tid buf nbh rnd : list Z) (len : Z) (local : option ioa_addr) (rnd_nonce : Z * Z).
Hypothesis Hbytes : bytes_ok buf.
Hypothesis Hlen : len <= blen buf.
Hypothesis Hargs : request_args method tid nbh rnd.
Hypothesis Hcounter : 0 <= as_counter w.
Hypothesis Hclient : client_socket (cw_ss w) <> 0 /\ is_Some (cw_socks w !! client_socket (cw_ss w)).
Hypothesis Hrealm : realm_good (realm_name (cw_ss w)).

Lemma before_auth_returns :
  exists w1 r, before_auth realm_by_origin evhttp_uri_parse cfg server w no_reply method tid buf len nbh rnd local = Ret (w1, r) /\
    same_state w w1 /\ reply_ok method tid r.
Proof.
  unfold before_auth.
  assert (exists w1 r, (if method =? STUN_METHOD_ALLOCATE then
               cst ← get_ioa_socket_type (cw_socks w) (client_socket (cw_ss w));
               '(c, r) ← set_alternate_server server (choose_servers cfg cst) local (as_counter w) method tid nbh rnd no_reply;
               Ret (with_counter w c, r)
             else Ret (w, no_reply)) = Ret (w1, r) /\ same_state w w1 /\ reply_ok method tid r) as (w1 & r & -> & S1 & R1).
  { destruct (method =? STUN_METHOD_ALLOCATE).
    2: { eexists _, _. split; [done|]. split; [by apply same_state_refl|apply no_reply_ok]. }
    destruct Hclient as [N [k Ek]]. unfold get_ioa_socket_type. destruct (_ =? 0) eqn:?; bool_arith; [done|].
    rewrite (get_sock_ret _ _ k) by done. mstep.
    destruct (alternate_returns (choose_servers cfg (st k)) local (as_counter w) method tid nbh rnd no_reply) as (c & r & -> & _ & R);
      [by apply choose_servers_ok|done|done|apply no_reply_ok|]. mstep.
    eexists _, _. split; [done|]. split; [|done]. by apply (same_state_refl w). }
  mstep. destruct (check_origin_returns evhttp_uri_parse buf len Hbytes Hlen cfg w1 r method tid R1) as (r' & -> & R').
  mstep. destruct (first_origin_returns evhttp_uri_parse realm_by_origin buf len Hbytes Hlen origins_ok w1 r' method)
    as (w2 & -> & S2); [by destruct S1 as (_ & ? & _)|].
  mstep. eexists _, _. split; [done|]. split; [|done].
  destruct S1 as (A1 & B1 & C1 & D1), S2 as (A2 & B2 & C2 & D2). split; [by rewrite A2, A1|]. split_and!; congruence.
Qed.

(** The session authentication works on. *)
Definition auth_view (w : cmd_world) : auth_session := with_realm (cw_auth w) (realm_name (cw_ss w)).

Hypothesis Hsession : auth_session_ok (auth_view w).
Hypothesis Htimes : times_ok auth (auth_view w).

Definition is_authentic : Prop :=
  exists a, same_keys (auth_view w) a /\ authentic buf len method a.

(** The request is settled before any handler: the state, the reply and
    whether it is postponed. *)
Lemma authenticate_cases w1 r can_resume :
  auth_called cfg w method = true -> same_state w w1 -> reply_ok method tid r ->
  is_authentic \/
  exists w2 r2 postponed,
    authenticate userkeycb realm_by_name cfg auth w1 r method tid buf len nbh can_resume rnd_nonce rnd =
      Ret (w2, r2, false, postponed) /\
    cw_ss w2 = set_realm (cw_ss w) (realm_name (cw_ss w2)) /\ cw_socks w2 = cw_socks w /\ reply_ok method tid r2 /\
    (err_code r2 =? 0) && bool_decide (resp r2 = None) && negb postponed = false.
Proof.
  intros Hc (S1 & S2 & S3 & S4) R. unfold authenticate.
  assert (auth_called cfg w1 method = true) as ->.
  { unfold auth_called in *. rewrite S1. done. }
  rewrite orb_false_r.
  destruct (negb (err_code r =? 0) || bool_decide (resp r <> None)) eqn:E.
  { right. eexists _, _, _. split; [done|]. split; [done|]. split; [done|]. split; [done|].
    apply orb_true_iff in E as [E|E]; bool_arith; [destruct (err_code r =? 0) eqn:?; bool_arith; done|].
    apply bool_decide_eq_true in E. rewrite bool_decide_false by done. by rewrite andb_false_r. }
  apply orb_false_iff in E as [E1 E2]. bool_arith. apply bool_decide_eq_false, dec_stable in E2.
  fold (auth_view w1).
  assert (auth_view w1 = with_realm (auth_view w) (realm_name (cw_ss w1))) as Ev.
  { unfold auth_view. rewrite S3. done. }
  assert (auth_session_ok (auth_view w1)) as Hs1. { rewrite Ev. destruct Hsession. by constructor. }
  rewrite (rp_zero _ _ _ R E1).
  destruct (check_stun_auth_cases userkeycb realm_by_name names_ok auth tid buf nbh rnd len method can_resume Hauth Hbytes Hlen
              Hargs (auth_view w1) rnd_nonce Hs1) as (res & -> & O & Hok & Hk); [by rewrite Ev|].
  mstep. assert (same_keys (auth_view w) (ar_session res)) as Hk' by (by rewrite Ev in Hk).
  destruct O as [a Ha|a Hr|a code text Hcode Ht|a m Hm Hl Hd]; [left; by exists a|right..];
    (eexists _, _, _; split; [done|]; split; [cbn [with_auth cw_ss]; by rewrite S1|]; split; [done|]; split; [|try done]).
  - apply no_reply_ok.
  - apply fail_with_ok; [apply no_reply_ok|set_solver|done].
  - cbn. assert (code <> 0) by set_solver. by destruct (code =? 0) eqn:?; bool_arith.
  - constructor; try done. intros m0 [= <-]. split; [done|]. split; [|done].
    exists 401, (get_default_reason 401), (drop 1 (challenge_attrs auth a)). exact Hm.
Qed.

(** ** The response *)
Lemma version_string_ok : nonzero_bytes (get_version server) /\ blen (get_version server) <= 26.
Proof. unfold get_version. destruct (no_software_attribute server); (split; [by apply reason_ok_spec|done]). Qed.

Lemma software_added m method0 tid0 code text attrs :
  mrepr m (error_msg method0 tid0 code text attrs) -> mlen m <= 1300 -> 2000 <= blen (mdata m) ->
  exists m', SOFTWARE_added server m = Ret m' /\
    mrepr m' (error_msg method0 tid0 code text (attrs ++ [(STUN_ATTRIBUTE_SOFTWARE, get_version server)])).
Proof.
  intros R Hl Hd. unfold SOFTWARE_added. destruct version_string_ok as [Hz Hn].
  destruct (add_string m _ STUN_ATTRIBUTE_SOFTWARE (get_version server) 26 R) as (m' & -> & R' & _); try done; try lia.
  mstep. exists m'. split; [done|]. exact R'.
Qed.

Lemma finish_error w0 r hmac :
  reply_ok method tid r ->
  exists m, finish_response server auth w0 r false method tid nbh rnd hmac = Ret m /\ error_made method tid m.
Proof.
  intros R. unfold finish_response.
  assert (exists m, match resp r with Some m => Ret m
            | None => stun_init_error_response_str method nbh (if err_code r =? 0 then 400 else err_code r) (reason_arg r) (Some tid) rnd
            end = Ret m /\ error_made method tid m /\ mlen m <= 1300 /\ 2000 <= blen (mdata m)) as (m & -> & (c & t & l & M) & Hl & Hd).
  { destruct (resp r) as [m|] eqn:E. { exists m. destruct (rp_resp _ _ _ R m E) as (_ & ?). done. }
    destruct (error_response_ret method tid nbh rnd r (if err_code r =? 0 then 400 else err_code r) Hargs (rp_reason _ _ _ R))
      as (m & -> & Rm & Hl & Hd). pose proof (proj2 (ra_nbh _ _ _ _ Hargs)).
    exists m. split; [done|]. split; [by eexists _, _, _|]. lia. }
  mstep. destruct (software_added m _ _ _ _ _ M Hl Hd) as (m' & -> & R'). mstep.
  exists m'. split; [done|]. by eexists _, _, _.
Qed.

(** The message has arrived: [buf] and [len] are those of the input buffer, and
    the message is a request of the method. *)
Record request_arrives (in_buffer : ioa_net_data) : Prop := RequestArrives {
  ri_nbh : exists inb, the_nbh in_buffer = Ret inb /\ nb_from inb (ioa_network_buffer_data inb) = Ret buf /\
    ioa_network_buffer_get_size inb = len;
  ri_method : stun_get_method_str (Some buf) len = Ret method;
  ri_tid : stun_tid_from_message_str buf len = Ret tid;
  ri_request : stun_is_request_str (Some buf) len = Ret true }.

(** A request that is settled early: no handler ran. *)
Definition settled (in_buffer : ioa_net_data) (x : cmd_effect) (o : option mbuf) : Prop :=
  cw_ss (ce_world x) = set_realm (cw_ss w) (realm_name (cw_ss (ce_world x))) /\
  socks_like (cw_socks w) (cw_socks (ce_world x)) /\ ce_wires x = [] /\ ce_redirected x = None /\ ce_in x = in_buffer /\
  forall m, o = Some m -> error_made method tid m.

Lemma request_settled in_buffer can_resume :
  method <> STUN_METHOD_BINDING -> auth_called cfg w method = true ->
  is_authentic \/
  exists x, handle_request userkeycb realm_by_name realm_by_origin evhttp_uri_parse H cfg server auth w method tid in_buffer
              buf len nbh can_resume local rnd_nonce rnd = Ret (x, false) /\
    cw_ss (ce_world x) = set_realm (cw_ss w) (realm_name (cw_ss (ce_world x))) /\ cw_socks (ce_world x) = cw_socks w /\
    ce_wires x = [] /\ ce_redirected x = None /\ ce_in x = in_buffer /\ reply_ok method tid (ce_reply x).
Proof.
  intros Hb Hc. unfold handle_request. destruct (method =? STUN_METHOD_BINDING) eqn:?; bool_arith; [done|]. cbn [andb negb orb].
  destruct (stun_only cfg).
  { right. eexists. split; [done|]. cbn. split; [by destruct w as [[]]|]. split_and!; done || apply no_reply_ok. }
  destruct before_auth_returns as (w1 & r & -> & S1 & R1). mstep.
  destruct (authenticate_cases w1 r can_resume Hc S1 R1) as [A|(w2 & r2 & po & -> & E2 & K2 & R2 & D)]; [by left|right].
  mstep. rewrite D. eexists. split; [done|]. by split_and!.
Qed.

Lemma command_settled in_buffer can_resume hmac :
  request_arrives in_buffer -> method <> STUN_METHOD_BINDING -> auth_called cfg w method = true ->
  is_authentic \/
  exists x o, handle_turn_command userkeycb realm_by_name realm_by_origin evhttp_uri_parse H cfg server auth e w in_buffer nbh
                can_resume local rnd_nonce rnd hmac = Ret (0, x, o) /\ settled in_buffer x o.
Proof.
  intros [(inb & E1 & E2 & E3) Em Et Er] Hb Hc.
  destruct (request_settled in_buffer can_resume Hb Hc) as [A|(x & Ex & Ss & So & Wi & Re & In & R)]; [by left|right].
  destruct Hclient as [N [k Ek]]. unfold handle_turn_command.
  destruct (client_socket (cw_ss w) =? 0) eqn:Ez; bool_arith; [done|].
  rewrite E1. mstep. rewrite E2. mstep. rewrite E3, Em. mstep. rewrite Et. mstep. rewrite Er. mstep. rewrite Ex. mstep.
  assert (client_socket (cw_ss (ce_world x)) = client_socket (cw_ss w)) as Ecs by (by rewrite Ss).
  assert (forall m, resp (ce_reply x) = Some m -> error_made method tid m) as Hresp.
  { intros m Hm. by apply (rp_resp _ _ _ R). }
  cbv zeta. rewrite Ecs, (proj2 (Z.eqb_neq _ _) Ez), orb_false_r. destruct (to_be_closed _).
  { eexists _, _. split; [done|]. split_and!; try done. by rewrite So. }
  rewrite So, (get_sock_ret _ _ k) by done. mstep.
  pose proof (tobeclosed_static e k) as Hk. destruct (ioa_socket_tobeclosed e k) as [cl k']. cbn [snd] in Hk.
  assert (socks_like (cw_socks w) (<[client_socket (cw_ss w) := k']> (cw_socks w))) as Hl by (by eapply socks_like_insert).
  destruct cl.
  { eexists _, _. split; [done|]. by split_and!. }
  unfold unknown_response. cbn [ce_reply no_response]. rewrite (rp_unknown _ _ _ R). cbn [blen length].
  change (0 <? blen []) with false. mstep. destruct (no_response x).
  { eexists _, _. split; [done|]. split_and!; try done. }
  destruct (finish_error (with_socks (ce_world x) (<[client_socket (cw_ss w) := k']> (cw_socks w))) (ce_reply x) hmac R) as (m & -> & Hm).
  mstep. eexists _, _. split; [done|]. split_and!; try done. by intros ? [= <-].
Qed.
End request.
End gate.

(** * Properties *)


(** ** Examples

    Handlers that grant everything, a server without alternates, and the
    session of TurnSession with the keys of ServerAuthFacts. *)
Definition ex_grant (w : cmd_world) : reply * cmd_world :=
  (no_reply, with_ss w (with_alloc (cw_ss w) (set_allocation_valid (ss_alloc (cw_ss w)) 1))).
Definition ex_handlers : handlers :=
  Handlers (fun w _ _ _ => Ret (ex_grant w)) (fun w _ _ => Ret (ex_grant w)) (fun w _ _ _ _ _ => Ret (ex_grant w))
    (fun w _ _ _ _ _ => Ret (no_reply, false, w)) (fun w _ _ _ => Ret (no_reply, None)).
Definition ex_config : server_config := ServerConfig false false false false false [] [] [] false.
Definition ex_world : cmd_world :=
  CmdWorld (set_realm ex_session [114]) ex_auth_session [] false 0 (ex_socks ex_host).
Definition ex_realm (o : list Z) : bool * list Z := (false, [114]).

Definition ex_run (msg : list Z) : outcome (Z * cmd_effect * option mbuf) :=
  handle_turn_command (C := toy_crypto) (Mal := bump) ex_no_database (fun _ => [114]) ex_realm (fun _ => None) ex_handlers ex_config
    ex_server ex_auth_server ex_engine ex_world (ex_in (fill (ex_proxy_header ++ msg))) (zeros 2000) true None (1, 2) (zeros 12)
    (zeros 64).

(** The unsigned request of TurnSession. *)
Definition ex_unsigned : list Z := slice (mdata (ex_perm_msg ex_addr_value)) 0 (mlen (ex_perm_msg ex_addr_value)).

(** The same, signed. *)
Definition ex_permit : list Z :=
  match (m ← stun_init_request_str STUN_METHOD_CREATE_PERMISSION (zeros 200) (zeros 12);
         '(_, m) ← stun_attr_add_str m STUN_ATTRIBUTE_XOR_PEER_ADDRESS (Some ex_addr_value) (blen ex_addr_value);
         '(_, m) ← stun_attr_add_str m STUN_ATTRIBUTE_USERNAME (Some [117]) 1;
         '(_, m) ← stun_attr_add_str m STUN_ATTRIBUTE_REALM (Some [114]) 1;
         '(_, m) ← stun_attr_add_str m STUN_ATTRIBUTE_NONCE (Some [111; 108; 100]) 3;
         stun_attr_add_integrity_str (C := toy_crypto) (zeros 64) TURN_CREDENTIALS_LONG_TERM m (zeros 64) [] SHATYPE_SHA1) with
  | Ret (_, m) => slice (mdata m) 0 (mlen m)
  | _ => []
  end.

(** The signed request is served: the session has a permission afterwards. *)
Example signed_request_served :
  match ex_run ex_permit with
  | Ret (rc, x, Some m) => rc = 0 /\ perms_in_use (cw_ss (ce_world x)) = 1%nat /\
      stun_is_success_response_str (Some (mdata m)) (mlen m) = Ret true
  | _ => False
  end.
Proof. vm_compute. done. Qed.

(** The bytes from the beginning of the unsigned message on. *)
Definition ex_unsigned_buf : list Z :=
  match nb_from (fill (ex_proxy_header ++ ex_unsigned)) (ioa_network_buffer_data (fill (ex_proxy_header ++ ex_unsigned))) with
  | Ret b => b
  | _ => []
  end.

Lemma ex_realm_good : realm_good [114].
Proof. split; [|done]. split; [by apply bytes_okb_spec|by repeat constructor]. Qed.

