(* ===== verification/Proxy.v ===== *)
(** The proxy in front of a server of the cluster:
    src/coturn-proxy/src/stun_proxy_mgr.cpp, stun_proxy.cpp, stun_proxy_mgr.h,
    stun_proxy.h and stun_custom_header.h.

    The proxy owns the public UDP port of its host.  It puts a header in front
    of what clients send and passes it to the server; it takes the header off
    what the server sends and finds the client it is for, by the source in the
    header of a response and by the peer of a permission for data; and it passes
    what another server forwards to the relay address named in the header.

    An IPv4 address in a [uint32_t] is kept as its four bytes in memory, so that
    [htonl] and [ntohl] reverse the list; a port in a [uint16_t] is a number.
    The host is little-endian.  The functions of the STUN library that the proxy
    links are those of src/coturn/src/client; its table of public and private
    addresses is empty.  Log output is not modelled. *)

From stdpp Require Import base option numbers list strings gmap pretty.
From S2P Require Import Prelude IoAddr StunDefs StunMsg StunBuild NetBuffer.

(** ** stun_custom_header *)
Definition PACKET_MTU : Z := 1500.

(** [inet_ntoa]: dotted decimal. *)
Definition inet_ntoa (ip : list Z) : string :=
  match ip with
  | [a; b; c; d] => (pretty a +:+ "." +:+ pretty b +:+ "." +:+ pretty c +:+ "." +:+ pretty d)%string
  | _ => ""
  end.

Definition ip2string (ip : list Z) : string := inet_ntoa ip.

(** [ntohs] of a port number. *)
Definition ntohs (p : Z) : Z := be (to_le 2 p).

Definition IsStunExtensionHeader (h : stun_custom_header) : bool := bytes_eqb (identifier h) STUN_CUSTOM_IDENTIFIER.
Definition IsStunExtensionRelayHeader (h : stun_custom_header) : bool :=
  bytes_eqb (identifier h) STUN_CUSTOM_DATA_IDENTIFIER.
Definition IsStunExtensionReleaseHeader (h : stun_custom_header) : bool :=
  bytes_eqb (identifier h) STUN_CUSTOM_RELEASE_IDENTIFIER.

Definition GetSrcIntIp (h : stun_custom_header) : list Z := hton (srcIp h).
Definition GetSrcPort (h : stun_custom_header) : Z := ntohs (le (srcPort h)).
Definition GetDstIp (h : stun_custom_header) : string :=
  if negb (bytes_eqb (dstIp h) (zeros 4)) then inet_ntoa (hton (dstIp h)) else "".
Definition GetDstIntIp (h : stun_custom_header) : list Z := hton (dstIp h).
Definition GetDstPort (h : stun_custom_header) : Z := ntohs (le (dstPort h)).

(** ** State *)

(** [channel_num] and the fields of [proxyinfo] that are never set are left out. *)
Record requestinfo : Type := RequestInfo { rq_srcip : list Z; rq_srcport : Z; rq_peerip : list Z; rq_peerport : Z }.
Record proxyinfo : Type := ProxyInfo { pi_srcip : list Z; pi_srcport : Z }.
Record AddrInfo : Type := AddrInfoOf { ai_ip : list Z; ai_port : Z }.

(** The global constants and [mn_local_udp_ip] of the configuration. *)
Record proxy_conf : Type := ProxyConf { g_coturn_ip : list Z; g_coturn_port : Z; mn_local_udp_ip : list Z }.

(** A transaction id is the key of [mapRequests]. *)
Record StunProxyMgr : Type := ProxyMgr {
  local_proxy_ip : list Z;
  local_proxy_port : Z;
  mapPeerInfo : gmap string proxyinfo;
  mapAllocInfo : gmap string AddrInfo;
  mapLocalRemote : gmap string AddrInfo;
  mapRequests : gmap (list Z) requestinfo }.

Definition with_peers (m : StunProxyMgr) x := ProxyMgr (local_proxy_ip m) (local_proxy_port m) x (mapAllocInfo m) (mapLocalRemote m) (mapRequests m).
Definition with_allocs (m : StunProxyMgr) x := ProxyMgr (local_proxy_ip m) (local_proxy_port m) (mapPeerInfo m) x (mapLocalRemote m) (mapRequests m).
Definition with_remotes (m : StunProxyMgr) x := ProxyMgr (local_proxy_ip m) (local_proxy_port m) (mapPeerInfo m) (mapAllocInfo m) x (mapRequests m).
Definition with_requests (m : StunProxyMgr) x := ProxyMgr (local_proxy_ip m) (local_proxy_port m) (mapPeerInfo m) (mapAllocInfo m) (mapLocalRemote m) x.

(** A datagram that leaves the proxy. *)
Record sent : Type := Sent { to_ip : list Z; to_port : Z; sent_bytes : list Z }.

Definition SendToByAddr (cf : proxy_conf) (iSrcIp : list Z) (iSrcPort : Z) (pBuffer : list Z) (nLen : Z) : outcome sent :=
  bytes ← rd_bytes pBuffer 0 (i32 nLen);
  Ret (Sent (if bytes_eqb iSrcIp (mn_local_udp_ip cf) then [127; 0; 0; 1] else iSrcIp) iSrcPort bytes).

(** The first attribute of a type, read as an address. *)
Definition GetStunAttrAddress (data : list Z) (len : Z) (attr_type : Z) : outcome (bool * ioa_addr) :=
  r ← attr_iter data len (fun sar =>
        t ← stun_attr_get_type data (Some sar);
        if negb (t =? attr_type) then Ret None
        else '(_, addr) ← stun_attr_get_addr_str [] data len (Some sar) None; Ret (Some addr));
  match r with
  | Some addr => Ret (true, addr)
  | None => Ret (false, addr_zero)
  end.

(** ** Handlers *)
Section proxy.
Context (cf : proxy_conf).

(** [p_buffer] is the array of the packet, [n_len] the length received. *)
Definition HandlePacketFromClient (m : StunProxyMgr) (srcip : list Z) (srcport : Z) (p_buffer : list Z) (n_len : Z) :
    outcome (StunProxyMgr * list sent) :=
  let header := CustomHeader STUN_CUSTOM_IDENTIFIER srcip (to_le 2 srcport) (hton (local_proxy_ip m))
                  (to_le 2 (ntohs (local_proxy_port m))) in
  let custom_packet_len := u64 (n_len + STUN_CUSTOM_HEADER_LEN) in
  if custom_packet_len <? PACKET_MTU then
    data ← rd_bytes p_buffer 0 n_len;
    let custom_packet_buffer := header_bytes header ++ data in
    method ← stun_get_method_str (Some p_buffer) n_len;
    req ← stun_is_request_str (Some p_buffer) n_len;
    m ← (if req && (method =? STUN_METHOD_CREATE_PERMISSION) then
           tid ← stun_tid_from_message_str p_buffer n_len;
           '(_, peer_addr) ← GetStunAttrAddress p_buffer n_len STUN_ATTRIBUTE_XOR_PEER_ADDRESS;
           Ret (with_requests m (<[tid := RequestInfo srcip srcport (sin_addr peer_addr) (le (sin_port peer_addr))]> (mapRequests m)))
         else Ret m);
    s ← SendToByAddr cf (g_coturn_ip cf) (g_coturn_port cf) custom_packet_buffer custom_packet_len;
    Ret (m, [s])
  else Ret (m, []).

(** [None]: the process aborts. *)
Definition HandleSuccessResponse (m : StunProxyMgr) (method : Z) (buffer : list Z) (len : Z) :
    outcome (option (StunProxyMgr * list sent)) :=
  h ← header_of <$> rd_bytes buffer 0 STUN_CUSTOM_HEADER_LEN;
  let p_payload := drop (Z.to_nat STUN_CUSTOM_HEADER_LEN) buffer in
  let n_payload_len := u64 (len - STUN_CUSTOM_HEADER_LEN) in
  m ← (if method =? STUN_METHOD_ALLOCATE then
         '(_, relay_addr) ← GetStunAttrAddress p_payload n_payload_len STUN_ATTRIBUTE_XOR_RELAYED_ADDRESS;
         '(_, mapped_addr) ← GetStunAttrAddress p_payload n_payload_len STUN_ATTRIBUTE_XOR_MAPPED_ADDRESS;
         let key := (ip2string (sin_addr mapped_addr) +:+ pretty (ntohs (le (sin_port mapped_addr))))%string in
         let info := AddrInfoOf (sin_addr relay_addr) (le (sin_port relay_addr)) in
         match mapAllocInfo m !! key with
         | Some _ => Ret None
         | None => Ret (Some (with_allocs m (<[key := info]> (mapAllocInfo m))))
         end
       else if method =? STUN_METHOD_CREATE_PERMISSION then
         tid ← stun_tid_from_message_str p_payload n_payload_len;
         match mapRequests m !! tid with
         | Some it =>
             let s_key := (ip2string (rq_peerip it) +:+ pretty (rq_peerport it))%string in
             let m := with_peers m (<[s_key := ProxyInfo (rq_srcip it) (rq_srcport it)]> (mapPeerInfo m)) in
             let key := (ip2string (rq_srcip it) +:+ pretty (rq_srcport it))%string in
             let m :=
               match mapAllocInfo m !! key with
               | Some ita =>
                   let key2 := (ip2string (ai_ip ita) +:+ pretty (ntohs (ai_port ita)))%string in
                   let info := AddrInfoOf (rq_peerip it) (rq_peerport it) in
                   let m := with_remotes m (match mapLocalRemote m !! key2 with
                                            | Some _ => mapLocalRemote m
                                            | None => <[key2 := info]> (mapLocalRemote m)
                                            end) in
                   with_allocs m (delete key (mapAllocInfo m))
               | None => m
               end in
             Ret (Some (with_requests m (delete tid (mapRequests m))))
         | None => Ret (Some m)
         end
       else Ret (Some m));
  match m with
  | None => Ret None
  | Some m =>
      s ← SendToByAddr cf (hton (GetSrcIntIp h)) (ntohs (GetSrcPort h)) p_payload n_payload_len;
      Ret (Some (m, [s]))
  end.

Definition HandleErrorResponse (m : StunProxyMgr) (method : Z) (buffer : list Z) (len : Z) :
    outcome (StunProxyMgr * list sent) :=
  h ← header_of <$> rd_bytes buffer 0 STUN_CUSTOM_HEADER_LEN;
  let p_payload := drop (Z.to_nat STUN_CUSTOM_HEADER_LEN) buffer in
  let n_payload_len := u64 (len - STUN_CUSTOM_HEADER_LEN) in
  m ← (if method =? STUN_METHOD_CREATE_PERMISSION then
         tid ← stun_tid_from_message_str p_payload n_payload_len;
         Ret (with_requests m (delete tid (mapRequests m)))
       else Ret m);
  s ← SendToByAddr cf (hton (GetSrcIntIp h)) (ntohs (GetSrcPort h)) p_payload n_payload_len;
  Ret (m, [s]).

(** Data for the client that has the permission of a peer. *)
Definition to_client (m : StunProxyMgr) (key : string) (p_payload : list Z) (n_payload_len : Z) : outcome (list sent) :=
  match mapPeerInfo m !! key with
  | Some it => s ← SendToByAddr cf (pi_srcip it) (pi_srcport it) p_payload n_payload_len; Ret [s]
  | None => Ret []
  end.

(** What a server forwards goes to the relay address in the header. *)
Definition relay_packet (h : stun_custom_header) (method : Z) (p_buffer : list Z) (n_len : Z) (p_payload : list Z)
    (n_payload_len : Z) : outcome (list sent) :=
  let send := s ← SendToByAddr cf (hton (GetDstIntIp h)) (GetDstPort h) p_buffer n_len; Ret [s] in
  is_chan ← is_channel_msg_str (Some p_payload) n_payload_len;
  if (is_chan : bool) then send
  else
    ind ← stun_is_indication_str (Some p_payload) n_payload_len;
    if ind && (method =? STUN_METHOD_SEND) then send else Ret [].

Definition client_packet (m : StunProxyMgr) (h : stun_custom_header) (method : Z) (p_buffer : list Z) (n_len : Z)
    (p_payload : list Z) (n_payload_len : Z) : outcome (option (StunProxyMgr * list sent)) :=
  is_chan ← is_channel_msg_str (Some p_payload) n_payload_len;
  if (is_chan : bool) then
    out ← to_client m (GetDstIp h +:+ pretty (GetDstPort h))%string p_payload n_payload_len;
    Ret (Some (m, out))
  else
    ind ← stun_is_indication_str (Some p_payload) n_payload_len;
    if (ind : bool) then
      if method =? STUN_METHOD_DATA then
        '(_, peer_addr) ← GetStunAttrAddress p_payload n_payload_len STUN_ATTRIBUTE_XOR_PEER_ADDRESS;
        out ← to_client m (ip2string (sin_addr peer_addr) +:+ pretty (le (sin_port peer_addr)))%string p_payload n_payload_len;
        Ret (Some (m, out))
      else Ret (Some (m, []))
    else
      success ← stun_is_success_response_str (Some p_payload) n_payload_len;
      if (success : bool) then HandleSuccessResponse m method p_buffer n_len
      else
        '(err, _, _) ← stun_is_error_response_str p_payload n_payload_len None None 0;
        if (err : bool) then r ← HandleErrorResponse m method p_buffer n_len; Ret (Some r)
        else Ret (Some (m, [])).

(** A relay session ended: the peer of its permission is forgotten. *)
Definition release_packet (m : StunProxyMgr) (h : stun_custom_header) : StunProxyMgr :=
  let key := (ip2string (hton (GetDstIntIp h)) +:+ pretty (GetDstPort h))%string in
  match mapLocalRemote m !! key with
  | Some it =>
      let key2 := (ip2string (ai_ip it) +:+ pretty (ai_port it))%string in
      let m := with_peers m (delete key2 (mapPeerInfo m)) in
      with_remotes m (delete key (mapLocalRemote m))
  | None => m
  end.

Definition HandlePacketFromCoturn (m : StunProxyMgr) (p_buffer : list Z) (n_len : Z) :
    outcome (option (StunProxyMgr * list sent)) :=
  h ← header_of <$> rd_bytes p_buffer 0 STUN_CUSTOM_HEADER_LEN;
  let p_payload := drop (Z.to_nat STUN_CUSTOM_HEADER_LEN) p_buffer in
  let n_payload_len := u64 (n_len - STUN_CUSTOM_HEADER_LEN) in
  method ← stun_get_method_str (Some p_payload) n_payload_len;
  if IsStunExtensionRelayHeader h then
    out ← relay_packet h method p_buffer n_len p_payload n_payload_len;
    Ret (Some (m, out))
  else if IsStunExtensionHeader h then client_packet m h method p_buffer n_len p_payload n_payload_len
  else if IsStunExtensionReleaseHeader h then Ret (Some (release_packet m h, []))
  else Ret (Some (m, [])).

Definition PacketCallbackAsync (m : StunProxyMgr) (srcip : list Z) (srcport : Z) (p_buffer : list Z) (n_len : Z) :
    outcome (option (StunProxyMgr * list sent)) :=
  if srcport =? g_coturn_port cf then HandlePacketFromCoturn m p_buffer n_len
  else
    h ← header_of <$> rd_bytes p_buffer 0 STUN_CUSTOM_HEADER_LEN;
    if IsStunExtensionRelayHeader h then HandlePacketFromCoturn m p_buffer n_len
    else r ← HandlePacketFromClient m srcip srcport p_buffer n_len; Ret (Some r).

(** The cleared array of a packet with the received bytes. *)
Definition PacketBuffer (data : list Z) : list Z := data ++ zeros (Z.to_nat PACKET_MTU - length data).

(** One turn of the receive loop of [CStunProxy::Start]; the callback runs on
    the worker, in the order of the datagrams. *)
Definition receive (m : StunProxyMgr) (srcip : list Z) (srcport : Z) (data : list Z) :
    outcome (option (StunProxyMgr * list sent)) :=
  let n := blen data in
  if (n =? 10) && bytes_eqb data (bytes_of_string "offcncloud") then
    s ← SendToByAddr cf srcip srcport data n; Ret (Some (m, [s]))
  else PacketCallbackAsync m srcip srcport (PacketBuffer data) n.
End proxy.
