(* ===== verification/ProxyFacts.v ===== *)
(** What the proxy guarantees: no datagram makes it access memory outside its
    buffers, responses return to the client that asked, and data of a peer reach
    the client that has the permission for it. *)

From stdpp Require Import base option numbers list strings gmap pretty sets relations.
From S2P Require Import Prelude IoAddr StunAddr StunDefs StunMsg StunMsgFacts StunBuild StunBuildFacts.
From S2P Require Import TurnServer TurnServerFacts NetBuffer Sockets DataPath DataPathFacts Proxy.

(** * Classes of messages *)
Inductive msg_class : Type := ChannelMsg | RequestMsg | IndicationMsg | SuccessMsg | ErrorMsg | OtherMsg.

#[export] Instance msg_class_eq : EqDecision msg_class.
Proof. solve_decision. Defined.

Definition msg_type (buf : list Z) (len : Z) : Z := if len <? 2 then 65535 else Z.land (be (slice buf 0 2)) 0x3FFF.

Definition classify (buf : list Z) (len : Z) : msg_class :=
  if (len >=? 4) && STUN_VALID_CHANNEL (be (slice buf 0 2)) then ChannelMsg
  else let t := msg_type buf len in
    if IS_STUN_REQUEST t then RequestMsg else if IS_STUN_INDICATION t then IndicationMsg
    else if IS_STUN_SUCCESS_RESP t then SuccessMsg else if IS_STUN_ERR_RESP t then ErrorMsg else OtherMsg.

Definition has_class (buf : list Z) (len : Z) (c : msg_class) : bool := bool_decide (classify buf len = c).

Definition method_in (buf : list Z) (len : Z) : Z := if len <? 2 then 65535 else method_of_type (be (slice buf 0 2)).

Section classes.
Context (buf : list Z) (len : Z) (L : 4 <= blen buf).

Lemma class_channel : is_channel_msg_str (Some buf) len = Ret (has_class buf len ChannelMsg).
Proof.
  unfold is_channel_msg_str, has_class, classify. destruct (len >=? 4); simpl.
  - rewrite (rd16_ret buf 0) by lia. mstep. by destruct (STUN_VALID_CHANNEL _); repeat case_match.
  - by repeat case_match.
Qed.

Lemma type_ret : stun_get_msg_type_str (Some buf) len = Ret (msg_type buf len).
Proof. unfold stun_get_msg_type_str, msg_type. destruct (len <? 2); [done|]. by rewrite (rd16_ret buf 0) by lia. Qed.

(** The four tests of the message type exclude each other. *)
Lemma class_request : stun_is_request_str (Some buf) len = Ret (has_class buf len RequestMsg).
Proof.
  unfold stun_is_request_str. rewrite class_channel, type_ret. unfold has_class, classify.
  destruct (_ && _); mstep; [done|]. destruct (IS_STUN_REQUEST _); [done|by repeat case_match].
Qed.

Lemma class_indication : stun_is_indication_str (Some buf) len = Ret (has_class buf len IndicationMsg).
Proof.
  unfold stun_is_indication_str. rewrite class_channel, type_ret. unfold has_class, classify.
  destruct (_ && _); mstep; [done|]. destruct (IS_STUN_REQUEST _) eqn:E.
  - unfold IS_STUN_REQUEST, IS_STUN_INDICATION in *. apply Z.eqb_eq in E. by rewrite E.
  - destruct (IS_STUN_INDICATION _); [done|by repeat case_match].
Qed.

Lemma class_success : stun_is_success_response_str (Some buf) len = Ret (has_class buf len SuccessMsg).
Proof.
  unfold stun_is_success_response_str. rewrite class_channel, type_ret. unfold has_class, classify.
  destruct (_ && _); mstep; [done|]. unfold IS_STUN_REQUEST, IS_STUN_INDICATION, IS_STUN_SUCCESS_RESP.
  destruct (_ =? 0) eqn:E; [apply Z.eqb_eq in E; by rewrite E|].
  destruct (_ =? 16) eqn:E2; [apply Z.eqb_eq in E2; by rewrite E2|].
  destruct (_ =? 256); [done|by repeat case_match].
Qed.

Lemma class_error : stun_is_error_response_str buf len None None 0 = Ret (has_class buf len ErrorMsg, None, None).
Proof.
  unfold stun_is_error_response_str. rewrite class_channel, type_ret. unfold has_class, classify.
  destruct (_ && _); mstep; [done|]. unfold IS_STUN_REQUEST, IS_STUN_INDICATION, IS_STUN_SUCCESS_RESP, IS_STUN_ERR_RESP.
  destruct (_ =? 0) eqn:E; [apply Z.eqb_eq in E; by rewrite E|].
  destruct (_ =? 16) eqn:E2; [apply Z.eqb_eq in E2; by rewrite E2|].
  destruct (_ =? 256) eqn:E3; [apply Z.eqb_eq in E3; by rewrite E3|].
  by destruct (_ =? 272).
Qed.

Lemma method_ret : stun_get_method_str (Some buf) len = Ret (method_in buf len).
Proof. unfold stun_get_method_str, method_in. destruct (len <? 2); [done|]. by rewrite (rd16_ret buf 0) by lia. Qed.
End classes.

(** * Reading an address *)
Lemma get_attr_address_ret buf len ty :
  bytes_ok buf -> len <= blen buf -> exists b x, GetStunAttrAddress buf len ty = Ret (b, x) /\ sized x.
Proof.
  intros B L. unfold GetStunAttrAddress.
  destruct (attr_iter_returns buf len (fun sar =>
        t ← stun_attr_get_type buf (Some sar);
        if negb (t =? ty) then Ret None
        else '(_, addr) ← stun_attr_get_addr_str [] buf len (Some sar) None; Ret (Some addr)) B L) as (r & -> & Hr).
  { intros fin a F V. destruct (type_returns buf len fin a B L F V) as [t ->]. mstep.
    destruct (negb (t =? ty)); [by eexists|]. destruct (get_addr_returns buf len fin a B L F V []) as (r & ca & ->). mstep.
    by eexists. }
  mstep. destruct r as [x|]; [|by exists false, addr_zero]. exists true, x. split; [done|].
  destruct (Hr x eq_refl) as (fin & a & F & V & E). destruct (type_returns buf len fin a B L F V) as [t Et].
  rewrite Et in E. revert E. mstep. destruct (negb (t =? ty)); [done|].
  destruct (get_addr_returns buf len fin a B L F V []) as (r & ca & Ea). rewrite Ea. mstep. intros [= ->].
  eapply (get_addr_sized []); [constructor|exact Ea].
Qed.

(** * Packets *)
Section packet.
Context (data : list Z) (B : bytes_ok data) (L : blen data <= PACKET_MTU).

Definition packet_payload : list Z := drop 14 (PacketBuffer data).

Lemma packet_size : blen (PacketBuffer data) = PACKET_MTU.
Proof. unfold PacketBuffer, blen, zeros in *. rewrite length_app, length_replicate. unfold PACKET_MTU in *. lia. Qed.

Lemma packet_bytes : bytes_ok (PacketBuffer data).
Proof. unfold PacketBuffer. auto using bytes_ok_zeros with bytes. Qed.

Lemma payload_size : blen packet_payload = 1486.
Proof. pose proof packet_size as E. unfold packet_payload, blen, PACKET_MTU in *. rewrite length_drop. lia. Qed.

Lemma payload_bytes : bytes_ok packet_payload.
Proof. pose proof packet_bytes. unfold packet_payload. auto with bytes. Qed.

Lemma packet_data i n : 0 <= i -> 0 <= n -> i + n <= blen data -> slice (PacketBuffer data) i n = slice data i n.
Proof. intros. apply slice_app_l; lia. Qed.

Definition packet_header : stun_custom_header := header_of (slice (PacketBuffer data) 0 14).

Lemma packet_header_ret :
  (header_of <$> rd_bytes (PacketBuffer data) 0 STUN_CUSTOM_HEADER_LEN) = Ret packet_header.
Proof. rewrite rd_bytes_ret; [done|lia|done|rewrite packet_size; vm_compute; congruence]. Qed.

(** Behind the data there are zeros. *)
Lemma short_payload : blen data <= 14 -> slice packet_payload 0 2 = [0; 0].
Proof.
  intros H. unfold packet_payload, PacketBuffer, slice.
  change (Z.to_nat 0) with 0%nat. rewrite drop_0. rewrite drop_app, drop_ge by (unfold blen in *; lia). simpl.
  unfold zeros. rewrite drop_replicate. unfold blen, PACKET_MTU in *.
  replace (Z.to_nat 1500 - length data - (14 - length data))%nat with (S (S 1484)) by lia. done.
Qed.
End packet.

(** * The proxy as a reactive system

    What a datagram is to the proxy, and what it does about it; the handlers
    implement this. *)
Inductive arrival : Type :=
| Health
| TooLong
| ClientMsg (asked : option (list Z * ioa_addr))
| Forwarded (ip : list Z) (port : Z)
| PeerData (key : string)
| AllocateOk (mapped relay : ioa_addr)
| PermissionOk (tid : list Z)
| PermissionErr (tid : list Z)
| Response
| Released (key : string)
| Junk.

(** The keys of the maps: an address followed by its port. *)
Definition addr_key (ip : list Z) (port : Z) : string := (ip2string ip +:+ pretty port)%string.

Definition attr_addr (buf : list Z) (len ty : Z) : ioa_addr :=
  match GetStunAttrAddress buf len ty with Ret (_, x) => x | _ => addr_zero end.

(** A CreatePermission request: its transaction id and the peer asked for. *)
Definition asked (data : list Z) : option (list Z * ioa_addr) :=
  let buf := PacketBuffer data in
  if has_class buf (blen data) RequestMsg && (method_in buf (blen data) =? STUN_METHOD_CREATE_PERMISSION)
  then Some (slice buf 8 12, attr_addr buf (blen data) STUN_ATTRIBUTE_XOR_PEER_ADDRESS) else None.

(** The message behind the header. *)
Definition response_of (payload : list Z) (len : Z) (c : msg_class) : arrival :=
  let method := method_in payload len in
  match c with
  | SuccessMsg =>
      if method =? STUN_METHOD_ALLOCATE then
        AllocateOk (attr_addr payload len STUN_ATTRIBUTE_XOR_MAPPED_ADDRESS)
          (attr_addr payload len STUN_ATTRIBUTE_XOR_RELAYED_ADDRESS)
      else if method =? STUN_METHOD_CREATE_PERMISSION then PermissionOk (slice payload 8 12) else Response
  | ErrorMsg => if method =? STUN_METHOD_CREATE_PERMISSION then PermissionErr (slice payload 8 12) else Response
  | _ => Junk
  end.

Definition server_arrival (data : list Z) : arrival :=
  let h := packet_header data in
  let payload := packet_payload data in
  let len := u64 (blen data - 14) in
  let c := classify payload len in
  if IsStunExtensionRelayHeader h then
    if bool_decide (c = ChannelMsg) || (bool_decide (c = IndicationMsg) && (method_in payload len =? STUN_METHOD_SEND))
    then Forwarded (dstIp h) (GetDstPort h) else Junk
  else if IsStunExtensionHeader h then
    match c with
    | ChannelMsg => PeerData (GetDstIp h +:+ pretty (GetDstPort h))
    | IndicationMsg =>
        if method_in payload len =? STUN_METHOD_DATA then
          let x := attr_addr payload len STUN_ATTRIBUTE_XOR_PEER_ADDRESS in PeerData (addr_key (sin_addr x) (le (sin_port x)))
        else Junk
    | _ => response_of payload len c
    end
  else if IsStunExtensionReleaseHeader h then Released (addr_key (dstIp h) (GetDstPort h))
  else Junk.

Section reaction.
Context (cf : proxy_conf).

Definition is_health (data : list Z) : bool := (blen data =? 10) && bytes_eqb data (bytes_of_string "offcncloud").

Definition arrives (port : Z) (data : list Z) : arrival :=
  if is_health data then Health
  else if (port =? g_coturn_port cf) || IsStunExtensionRelayHeader (packet_header data) then server_arrival data
  else if blen data + 14 <? PACKET_MTU then ClientMsg (asked data) else TooLong.

(** Where a datagram to an address really goes. *)
Definition hop (ip : list Z) : list Z := if bytes_eqb ip (mn_local_udp_ip cf) then [127; 0; 0; 1] else ip.

(** The header in front of a client's datagram. *)
Definition proxy_header (m : StunProxyMgr) (ip : list Z) (port : Z) : stun_custom_header :=
  CustomHeader STUN_CUSTOM_IDENTIFIER ip (to_le 2 port) (hton (local_proxy_ip m)) (to_le 2 (ntohs (local_proxy_port m))).

Definition remember (m : StunProxyMgr) (ip : list Z) (port : Z) (q : option (list Z * ioa_addr)) : StunProxyMgr :=
  match q with
  | Some (tid, x) => with_requests m (<[tid := RequestInfo ip port (sin_addr x) (le (sin_port x))]> (mapRequests m))
  | None => m
  end.

(** The client of a permission, and the peer of its relay address. *)
Definition grant (m : StunProxyMgr) (it : requestinfo) : StunProxyMgr :=
  let m := with_peers m (<[addr_key (rq_peerip it) (rq_peerport it) := ProxyInfo (rq_srcip it) (rq_srcport it)]> (mapPeerInfo m)) in
  let key := addr_key (rq_srcip it) (rq_srcport it) in
  match mapAllocInfo m !! key with
  | Some ita =>
      let key2 := addr_key (ai_ip ita) (ntohs (ai_port ita)) in
      let info := AddrInfoOf (rq_peerip it) (rq_peerport it) in
      with_allocs (with_remotes m (match mapLocalRemote m !! key2 with
                                   | Some _ => mapLocalRemote m
                                   | None => <[key2 := info]> (mapLocalRemote m)
                                   end)) (delete key (mapAllocInfo m))
  | None => m
  end.

Definition alloc_key (mapped : ioa_addr) : string := addr_key (sin_addr mapped) (ntohs (le (sin_port mapped))).

Definition forget (m : StunProxyMgr) (key : string) : StunProxyMgr :=
  match mapLocalRemote m !! key with
  | Some it => with_remotes (with_peers m (delete (addr_key (ai_ip it) (ai_port it)) (mapPeerInfo m))) (delete key (mapLocalRemote m))
  | None => m
  end.

(** The state after the datagram, [None] when the process aborts. *)
Definition next_state (m : StunProxyMgr) (ip : list Z) (port : Z) (a : arrival) : option StunProxyMgr :=
  match a with
  | ClientMsg q => Some (remember m ip port q)
  | AllocateOk mapped relay =>
      match mapAllocInfo m !! alloc_key mapped with
      | Some _ => None
      | None => Some (with_allocs m (<[alloc_key mapped := AddrInfoOf (sin_addr relay) (le (sin_port relay))]> (mapAllocInfo m)))
      end
  | PermissionOk tid =>
      match mapRequests m !! tid with
      | Some it => Some (with_requests (grant m it) (delete tid (mapRequests m)))
      | None => Some m
      end
  | PermissionErr tid => Some (with_requests m (delete tid (mapRequests m)))
  | Released key => Some (forget m key)
  | _ => Some m
  end.

(** What is sent; a response goes back to the source in its header. *)
Definition sends (m : StunProxyMgr) (ip : list Z) (port : Z) (data : list Z) (a : arrival) : list sent :=
  let h := packet_header data in
  match a with
  | Health => [Sent (hop ip) port data]
  | ClientMsg _ => [Sent (hop (g_coturn_ip cf)) (g_coturn_port cf) (header_bytes (proxy_header m ip port) ++ data)]
  | Forwarded ip' port' => [Sent (hop ip') port' data]
  | PeerData key =>
      match mapPeerInfo m !! key with
      | Some it => [Sent (hop (pi_srcip it)) (pi_srcport it) (drop 14 data)]
      | None => []
      end
  | AllocateOk _ _ | PermissionOk _ | PermissionErr _ | Response => [Sent (hop (srcIp h)) (le (srcPort h)) (drop 14 data)]
  | _ => []
  end.

Definition react (m : StunProxyMgr) (ip : list Z) (port : Z) (data : list Z) : option (StunProxyMgr * list sent) :=
  let a := arrives port data in
  m' ← next_state m ip port a; Some (m', sends m ip port data a).
End reaction.

(** * The handlers implement the reactions *)
Lemma hton_hton l : hton (hton l) = l.
Proof. apply rev_involutive. Qed.

Lemma ntohs_bytes l : bytes_ok l -> length l = 2%nat -> ntohs (le l) = be l.
Proof. intros B L. unfold ntohs. rewrite <- L at 1. by rewrite to_le_le. Qed.

Lemma ntohs_twice l : bytes_ok l -> length l = 2%nat -> ntohs (ntohs (le l)) = le l.
Proof.
  intros B L. rewrite ntohs_bytes by done. destruct l as [|x [|y []]]; try done.
  apply Forall_cons in B as [Bx B]. apply Forall_cons in B as [By Bn].
  assert (be [x; y] = le [y; x]) as -> by (unfold le, be; simpl; lia).
  rewrite ntohs_bytes; [unfold le, be; simpl; lia|by apply Forall_cons; split; [|apply Forall_cons]|done].
Qed.

Lemma send_ret cf ip port buf n :
  0 <= n <= blen buf -> n < 2 ^ 31 -> SendToByAddr cf ip port buf n = Ret (Sent (hop cf ip) port (slice buf 0 n)).
Proof. intros H Hn. unfold SendToByAddr. rewrite i32_small by lia. rewrite rd_bytes_ret by lia. done. Qed.

Lemma attr_addr_ret buf len ty :
  bytes_ok buf -> len <= blen buf ->
  exists b, GetStunAttrAddress buf len ty = Ret (b, attr_addr buf len ty) /\ sized (attr_addr buf len ty).
Proof.
  intros B L. unfold attr_addr. destruct (get_attr_address_ret buf len ty B L) as (b & x & -> & S). by exists b.
Qed.

Section implements.
Context (cf : proxy_conf) (data : list Z) (B : bytes_ok data) (L : blen data <= PACKET_MTU).

Lemma from_client_ret m ip port :
  length ip = 4%nat -> length (local_proxy_ip m) = 4%nat ->
  HandlePacketFromClient cf m ip port (PacketBuffer data) (blen data) =
  Ret (if blen data + 14 <? PACKET_MTU
       then (remember m ip port (asked data),
             [Sent (hop cf (g_coturn_ip cf)) (g_coturn_port cf) (header_bytes (proxy_header m ip port) ++ data)])
       else (m, [])).
Proof.
  intros Li Lp. pose proof (packet_size data L) as P. pose proof (packet_bytes data B) as Pb. pose proof (blen_nonneg data).
  assert (blen (header_bytes (proxy_header m ip port)) = 14) as Lh.
  { unfold header_bytes, blen. cbn [identifier srcIp srcPort dstIp dstPort proxy_header].
    rewrite !length_app, !length_to_le. unfold hton. rewrite length_rev. change (length STUN_CUSTOM_IDENTIFIER) with 2%nat. lia. }
  unfold HandlePacketFromClient. change STUN_CUSTOM_HEADER_LEN with 14. unfold PACKET_MTU in *.
  rewrite (u64_small (blen data + 14)) by lia. destruct (_ <? 1500) eqn:?; bool_arith; [|done].
  rewrite rd_bytes_ret by lia. mstep. rewrite packet_data, slice_all by (done || lia).
  rewrite method_ret, class_request by lia. mstep. fold (proxy_header m ip port).
  assert (forall m' : StunProxyMgr, (s ← SendToByAddr cf (g_coturn_ip cf) (g_coturn_port cf) (header_bytes (proxy_header m ip port) ++ data) (blen data + 14);
      Ret (m', [s])) = Ret (m', [Sent (hop cf (g_coturn_ip cf)) (g_coturn_port cf) (header_bytes (proxy_header m ip port) ++ data)])) as Snd.
  { intros m'. rewrite send_ret by (rewrite ?blen_app; lia). mstep. rewrite slice_all by (rewrite blen_app; lia). done. }
  unfold asked. destruct (_ && _); mstep; [|apply Snd].
  unfold stun_tid_from_message_str. rewrite rd_bytes_ret by lia. mstep.
  destruct (attr_addr_ret (PacketBuffer data) (blen data) STUN_ATTRIBUTE_XOR_PEER_ADDRESS Pb ltac:(lia)) as (b & -> & _). mstep.
  apply Snd.
Qed.

Lemma src_back : hton (GetSrcIntIp (packet_header data)) = srcIp (packet_header data) /\
  ntohs (GetSrcPort (packet_header data)) = le (srcPort (packet_header data)).
Proof.
  split; [apply hton_hton|]. pose proof (packet_size data L) as P. pose proof (packet_bytes data B) as Pb.
  apply ntohs_twice; unfold packet_header, header_of; simpl; [auto with bytes|].
  pose proof (blen_slice (PacketBuffer data) 0 14 ltac:(lia) ltac:(lia) ltac:(unfold PACKET_MTU in *; lia)) as L14.
  pose proof (blen_slice (slice (PacketBuffer data) 0 14) 6 2). unfold blen in *. lia.
Qed.

(** Messages behind a whole header. *)
Section whole.
Context (H14 : 14 <= blen data).
Abbreviation len := (blen data - 14).
Abbreviation payload := (packet_payload data).

Lemma len_ret : u64 (blen data - 14) = len.
Proof. apply u64_small. unfold PACKET_MTU in *. lia. Qed.

Lemma payload_sent : slice payload 0 len = drop 14 data.
Proof.
  unfold packet_payload, PacketBuffer, slice. change (Z.to_nat 0) with 0%nat. rewrite drop_0.
  unfold blen in *. rewrite drop_app_le by lia. rewrite take_app_le by (rewrite length_drop; lia).
  apply take_ge. rewrite length_drop. lia.
Qed.

Lemma send_payload ip port : SendToByAddr cf ip port payload len = Ret (Sent (hop cf ip) port (drop 14 data)).
Proof.
  pose proof (payload_size data L). unfold PACKET_MTU in *. rewrite send_ret by lia. by rewrite payload_sent.
Qed.

Lemma tid_ret : stun_tid_from_message_str payload len = Ret (slice payload 8 12).
Proof. pose proof (payload_size data L). unfold stun_tid_from_message_str. by rewrite rd_bytes_ret by lia. Qed.

Lemma payload_addr ty : exists b, GetStunAttrAddress payload len ty = Ret (b, attr_addr payload len ty).
Proof.
  pose proof (payload_size data L). pose proof (payload_bytes data B). unfold PACKET_MTU in *.
  destruct (attr_addr_ret payload len ty) as (b & E & _); [done|lia|]. by exists b.
Qed.

Lemma success_ret m :
  HandleSuccessResponse cf m (method_in payload len) (PacketBuffer data) (blen data) =
  Ret (m' ← next_state m [] 0 (response_of payload len SuccessMsg);
       Some (m', [Sent (hop cf (srcIp (packet_header data))) (le (srcPort (packet_header data))) (drop 14 data)])).
Proof.
  unfold HandleSuccessResponse. rewrite (packet_header_ret data L). mstep. change STUN_CUSTOM_HEADER_LEN with 14.
  change (Z.to_nat 14) with 14%nat. fold payload. rewrite len_ret. destruct src_back as [-> ->]. unfold response_of.
  destruct (_ =? STUN_METHOD_ALLOCATE).
  { destruct (payload_addr STUN_ATTRIBUTE_XOR_RELAYED_ADDRESS) as (b1 & ->). mstep.
    destruct (payload_addr STUN_ATTRIBUTE_XOR_MAPPED_ADDRESS) as (b2 & ->). mstep. simpl. unfold alloc_key, addr_key.
    destruct (mapAllocInfo m !! _); mstep; [done|]. by rewrite send_payload. }
  destruct (_ =? STUN_METHOD_CREATE_PERMISSION); [|mstep; by rewrite send_payload].
  rewrite tid_ret. mstep. simpl. destruct (mapRequests m !! _) as [it|]; mstep; [|by rewrite send_payload].
  rewrite send_payload. mstep. unfold grant, addr_key. by destruct (mapAllocInfo _ !! _).
Qed.

Lemma error_ret m :
  HandleErrorResponse cf m (method_in payload len) (PacketBuffer data) (blen data) =
  Ret (default m (next_state m [] 0 (response_of payload len ErrorMsg)),
       [Sent (hop cf (srcIp (packet_header data))) (le (srcPort (packet_header data))) (drop 14 data)]).
Proof.
  unfold HandleErrorResponse. rewrite (packet_header_ret data L). mstep. change STUN_CUSTOM_HEADER_LEN with 14.
  change (Z.to_nat 14) with 14%nat. fold payload. rewrite len_ret. destruct src_back as [-> ->]. unfold response_of.
  destruct (_ =? STUN_METHOD_CREATE_PERMISSION); [rewrite tid_ret|]; mstep; by rewrite send_payload.
Qed.
End whole.

Lemma send_packet ip port : SendToByAddr cf ip port (PacketBuffer data) (blen data) = Ret (Sent (hop cf ip) port data).
Proof.
  pose proof (packet_size data L). pose proof (blen_nonneg data). unfold PACKET_MTU in *. rewrite send_ret by lia.
  rewrite packet_data, slice_all by (done || lia). done.
Qed.

(** Less than a header: the payload is zero and no message. *)
Lemma short_class : blen data < 14 -> classify (packet_payload data) (u64 (blen data - 14)) = RequestMsg.
Proof.
  intros H. pose proof (blen_nonneg data).
  assert (2 <= u64 (blen data - 14)) as Hu.
  { unfold u64. rewrite <- (Z.mod_add _ 1), Z.mod_small by lia. lia. }
  unfold classify, msg_type. rewrite short_payload by lia. change (be [0; 0]) with 0.
  change (STUN_VALID_CHANNEL 0) with false. rewrite andb_false_r. by destruct (_ <? 2) eqn:?; bool_arith; [lia|].
Qed.

Lemma client_ret m ip port h :
  h = packet_header data -> IsStunExtensionRelayHeader h = false -> IsStunExtensionHeader h = true ->
  client_packet cf m h (method_in (packet_payload data) (u64 (blen data - 14))) (PacketBuffer data) (blen data)
    (packet_payload data) (u64 (blen data - 14))
  = Ret (m' ← next_state m ip port (server_arrival data); Some (m', sends cf m ip port data (server_arrival data))).
Proof.
  intros Eh Hr Hh. pose proof (payload_size data L) as P. unfold client_packet, server_arrival. rewrite <- Eh, Hr, Hh.
  rewrite class_channel, class_indication, class_success by lia. unfold has_class.
  destruct (decide (14 <= blen data)) as [H14|H14].
  2: { rewrite short_class by lia. rewrite class_error by lia. unfold has_class. rewrite short_class by lia. by mstep. }
  rewrite len_ret by done. destruct (classify _ _) eqn:Ec; mstep.
  - unfold to_client. simpl. destruct (mapPeerInfo m !! _); [|done]. by rewrite send_payload.
  - simpl. rewrite class_error by lia. unfold has_class. by rewrite Ec.
  - simpl. destruct (_ =? STUN_METHOD_DATA); [|done]. destruct (payload_addr STUN_ATTRIBUTE_XOR_PEER_ADDRESS) as (b & ->). mstep.
    unfold to_client, addr_key. simpl. destruct (mapPeerInfo m !! _); [|done]. by rewrite send_payload.
  - simpl. rewrite success_ret by done. unfold response_of. by repeat case_match; simpl; rewrite <- ?Eh.
  - simpl. rewrite class_error by lia. unfold has_class. rewrite Ec. mstep. simpl. rewrite error_ret by done. mstep.
    unfold response_of. by repeat case_match; simpl; rewrite <- ?Eh.
  - simpl. rewrite class_error by lia. unfold has_class. by rewrite Ec.
Qed.

Lemma from_coturn_ret m ip port :
  HandlePacketFromCoturn cf m (PacketBuffer data) (blen data) =
  Ret (m' ← next_state m ip port (server_arrival data); Some (m', sends cf m ip port data (server_arrival data))).
Proof.
  pose proof (payload_size data L) as P. unfold HandlePacketFromCoturn. rewrite (packet_header_ret data L). mstep.
  change STUN_CUSTOM_HEADER_LEN with 14. change (Z.to_nat 14) with 14%nat. fold (packet_payload data).
  rewrite method_ret by lia. mstep. destruct (IsStunExtensionRelayHeader _) eqn:Hr.
  - unfold relay_packet, server_arrival. rewrite Hr, class_channel, class_indication by lia. mstep. unfold has_class.
    unfold GetDstIntIp. rewrite hton_hton, send_packet. destruct (bool_decide (_ = ChannelMsg)); mstep; [done|].
    by destruct (_ && _); mstep.
  - destruct (IsStunExtensionHeader _) eqn:Hh; [by apply client_ret|].
    unfold server_arrival. rewrite Hr, Hh. destruct (IsStunExtensionReleaseHeader _); [|done].
    simpl. unfold release_packet, forget, addr_key, GetDstIntIp. rewrite hton_hton. by destruct (mapLocalRemote m !! _).
Qed.

(** Every datagram is handled, as [react] says. *)
Lemma receive_refines m ip port :
  length ip = 4%nat -> length (local_proxy_ip m) = 4%nat -> receive cf m ip port data = Ret (react cf m ip port data).
Proof.
  intros Li Lp. pose proof (packet_size data L) as P. unfold receive, react, arrives, is_health.
  destruct (_ && bytes_eqb _ _) eqn:G.
  { pose proof (blen_nonneg data). unfold PACKET_MTU in *. rewrite send_ret by lia. mstep. by rewrite slice_all. }
  unfold PacketCallbackAsync. destruct (port =? g_coturn_port cf); simpl; [by apply from_coturn_ret|].
  rewrite (packet_header_ret data L). mstep. destruct (IsStunExtensionRelayHeader _); [by apply from_coturn_ret|].
  rewrite from_client_ret by done. mstep. by destruct (_ <? PACKET_MTU).
Qed.
End implements.
