(* ===== verification/ProxySystem.v ===== *)
(** The proxies and servers together: responses return to the client that
    asked, a confirmed permission opens the way for a peer's data and the end of
    the relay session closes it, no client hears a peer it did not ask for, and
    ChannelData of a client of one host reach the client of another. *)

From stdpp Require Import base option numbers list strings gmap pretty sets relations.
From S2P Require Import Prelude IoAddr StunAddr StunDefs StunMsg StunMsgFacts StunFraming StunBuild StunBuildFacts SlotTable.
From S2P Require Import KeyMap TurnMaps TurnMapsFacts Timers Allocation AllocationFacts NetBuffer Sockets TurnServer TurnServerFacts.
From S2P Require Import TurnSession DataPath DataPathFacts PeerPathFacts Cluster Proxy ProxyFacts.

(** * Datagrams with a header *)
Record hsized (h : stun_custom_header) : Prop := Hsized {
  hs_id : length (identifier h) = 2%nat;
  hs_sip : length (srcIp h) = 4%nat;
  hs_sport : length (srcPort h) = 2%nat;
  hs_dip : length (dstIp h) = 4%nat;
  hs_dport : length (dstPort h) = 2%nat }.

Section headed.
Context (h : stun_custom_header) (l : list Z) (Hs : hsized h) (L : blen l + 14 <= PACKET_MTU).

Lemma hsized_wf : header_wf h.
Proof. destruct Hs. unfold header_wf, header_bytes. rewrite !length_app. lia. Qed.

Lemma headed_len : blen (header_bytes h ++ l) = 14 + blen l.
Proof. rewrite blen_app. unfold blen at 1. rewrite hsized_wf. lia. Qed.

Lemma header_of_bytes : header_of (header_bytes h) = h.
Proof.
  destruct Hs as [L1 L2 L3 L4 L5]. destruct h as [i si sp di dp]; simpl in *. unfold header_bytes, header_of; simpl.
  destruct i as [|? [|? []]], si as [|? [|? [|? [|? []]]]], sp as [|? [|? []]], di as [|? [|? [|? [|? []]]]], dp as [|? [|? []]];
    simpl in *; try lia. done.
Qed.

Lemma headed_header : packet_header (header_bytes h ++ l) = h.
Proof.
  unfold packet_header. pose proof (blen_nonneg l). rewrite packet_data by (rewrite ?headed_len; lia).
  rewrite slice_app_l by (unfold blen; rewrite ?hsized_wf; lia).
  rewrite slice_all by (unfold blen; rewrite hsized_wf; lia). apply header_of_bytes.
Qed.

Lemma headed_payload i n : 0 <= i -> 0 <= n -> i + n <= blen l -> slice (packet_payload (header_bytes h ++ l)) i n = slice l i n.
Proof.
  intros. unfold packet_payload, PacketBuffer. rewrite <- app_assoc. rewrite drop_app_length' by by rewrite hsized_wf.
  apply slice_app_l; lia.
Qed.

Lemma headed_drop : drop 14 (header_bytes h ++ l) = l.
Proof. by rewrite drop_app_length' by by rewrite hsized_wf. Qed.

Lemma headed_class : classify (packet_payload (header_bytes h ++ l)) (blen l) = classify l (blen l).
Proof.
  unfold classify, msg_type. destruct (decide (2 <= blen l)) as [H2|H2].
  - by rewrite headed_payload by lia.
  - destruct (blen l >=? 4) eqn:?; bool_arith; [lia|]. destruct (blen l <? 2) eqn:?; bool_arith; [done|lia].
Qed.

Lemma headed_method : method_in (packet_payload (header_bytes h ++ l)) (blen l) = method_in l (blen l).
Proof.
  unfold method_in. destruct (blen l <? 2) eqn:?; bool_arith; [done|]. by rewrite headed_payload by lia.
Qed.

Lemma headed_u64 : u64 (blen (header_bytes h ++ l) - 14) = blen l.
Proof. rewrite headed_len. pose proof (blen_nonneg l). rewrite u64_small; unfold PACKET_MTU in *; lia. Qed.

Lemma headed_not_health : hd 0 (identifier h) <> 111 -> is_health (header_bytes h ++ l) = false.
Proof.
  intros N. unfold is_health. destruct (_ =? 10); [|done]. simpl. apply bool_decide_eq_false. intros E.
  apply (f_equal (hd 0)) in E. change (hd 0 (bytes_of_string "offcncloud")) with 111 in E.
  destruct Hs as [Hi _ _ _ _]. unfold header_bytes in E. by destruct (identifier h).
Qed.
End headed.

Lemma le_to_le2 p : 0 <= p < 2 ^ 16 -> le (to_le 2 p) = p.
Proof.
  intros H. change (to_le 2 p) with [p mod 256; (p / 256) mod 256]. cbn [le].
  rewrite (Z.mod_small (p / 256)); [|split; [apply Z.div_pos; lia|apply Z.div_lt_upper_bound; lia]].
  pose proof (Z.div_mod p 256 ltac:(lia)). unfold le. lia.
Qed.

Lemma proxy_header_sized m ip port :
  length ip = 4%nat -> length (local_proxy_ip m) = 4%nat -> hsized (proxy_header m ip port).
Proof. intros. constructor; simpl; try done; unfold hton; rewrite ?length_rev; done. Qed.

Lemma bytes_ok_rev l : bytes_ok l -> bytes_ok (rev l).
Proof. apply List.Forall_rev. Qed.

Definition mgr_ok (m : StunProxyMgr) : Prop := length (local_proxy_ip m) = 4%nat.

(** * Responses *)

(** C5. A response returns to the client that asked: the proxy passes a client's
    message to its server behind a header of fourteen bytes; when the server
    answers with that header in front of a success or error response, the proxy
    sends exactly the response to the address and port the request came from,
    whatever happened to the proxy's tables in between.  (An Allocate response
    can abort the proxy instead, see [second_allocation_aborts].) *)
Theorem response_returns_to_client cf m ip port data m' msg :
  length ip = 4%nat -> 0 <= port < 2 ^ 16 -> port <> g_coturn_port cf -> mgr_ok m ->
  bytes_ok data -> blen data + 14 < PACKET_MTU -> is_health data = false -> IsStunExtensionRelayHeader (packet_header data) = false ->
  bytes_ok msg -> blen msg + 14 <= PACKET_MTU -> (classify msg (blen msg) = SuccessMsg \/ classify msg (blen msg) = ErrorMsg) ->
  length (g_coturn_ip cf) = 4%nat -> bytes_ok ip -> bytes_ok (local_proxy_ip m) -> mgr_ok m' ->
  exists m1 h r, length h = 14%nat /\
    receive cf m ip port data = Ret (Some (m1, [Sent (hop cf (g_coturn_ip cf)) (g_coturn_port cf) (h ++ data)])) /\
    receive cf m' (g_coturn_ip cf) (g_coturn_port cf) (h ++ msg) = Ret r /\
    (forall m2 out, r = Some (m2, out) -> out = [Sent (hop cf ip) port msg]) /\
    (method_in msg (blen msg) <> STUN_METHOD_ALLOCATE -> r <> None).
Proof.
  intros Li Hp Np Om Bd Ld Nh Nr Bm Lm Cls Lc Bi Bl Om'. pose proof (proxy_header_sized m ip port Li Om) as Hs.
  set (h := proxy_header m ip port) in *. pose proof (hsized_wf h Hs) as Wh.
  assert (bytes_ok (header_bytes h)) as Bh.
  { unfold header_bytes. cbn [identifier srcIp srcPort dstIp dstPort h proxy_header].
    apply bytes_ok_app; [apply bytes_ok_to_be|]. unfold hton. auto 10 using bytes_ok_rev with bytes. }
  eexists (remember m ip port (asked data)), (header_bytes h), _. split; [done|]. split.
  - rewrite receive_refines by (done || lia). unfold react, arrives. rewrite Nh, Nr. destruct (port =? _) eqn:?; bool_arith; [done|].
    destruct (_ <? PACKET_MTU) eqn:?; bool_arith; [|lia]. done.
  - rewrite receive_refines; [|auto with bytes|rewrite headed_len by done; lia|done|done]. split; [reflexivity|].
    unfold react, arrives. rewrite headed_not_health by done. rewrite Z.eqb_refl. cbn [orb]. unfold server_arrival.
    rewrite (headed_header h msg Hs), (headed_u64 h msg Hs Lm), (headed_class h msg Hs), (headed_method h msg Hs).
    change (IsStunExtensionRelayHeader h) with false. change (IsStunExtensionHeader h) with true. cbn iota.
    assert (forall a m2 out, (a = Response \/ (exists x y, a = AllocateOk x y) \/ (exists t, a = PermissionOk t \/ a = PermissionErr t)) ->
      (m'' ← next_state m' (g_coturn_ip cf) (g_coturn_port cf) a;
        Some (m'', sends cf m' (g_coturn_ip cf) (g_coturn_port cf) (header_bytes h ++ msg) a)) = Some (m2, out) ->
      out = [Sent (hop cf ip) port msg]) as Out.
    { intros a m2 out Ha (m3 & _ & E)%bind_Some. apply (inj Some), (f_equal snd) in E.
      cbv beta iota delta [snd] in E. rewrite <- E.
      assert (le (srcPort h) = port) as Ep by by apply le_to_le2.
      destruct Ha as [->|[(x & y & ->)|(tid & [->| ->])]]; unfold sends; cbv beta iota zeta;
        by rewrite (headed_header h msg Hs), headed_drop, Ep by done. }
    unfold response_of. rewrite (headed_method h msg Hs). split.
    + intros m2 out. apply Out. destruct Cls as [-> | ->]; repeat case_match; eauto 10.
    + intros Na. destruct Cls as [-> | ->].
      * destruct (_ =? STUN_METHOD_ALLOCATE) eqn:?; bool_arith; [done|]. destruct (_ =? _); [|done]. simpl.
        by destruct (mapRequests m' !! _).
      * by destruct (_ =? _).
Qed.

(** * Histories *)
Record din : Type := Din { d_ip : list Z; d_port : Z; d_data : list Z }.

Record din_ok (d : din) : Prop := DinOk {
  do_ip : length (d_ip d) = 4%nat;
  do_bytes : bytes_ok (d_data d);
  do_len : blen (d_data d) <= PACKET_MTU }.

Section history.
Context (cf : proxy_conf).

Definition takes (m : StunProxyMgr) (d : din) : outcome (option (StunProxyMgr * list sent)) :=
  receive cf m (d_ip d) (d_port d) (d_data d).

Definition kind_of (d : din) : arrival := arrives cf (d_port d) (d_data d).

(** The states a proxy goes through, with the datagrams received so far. *)
Inductive reach (m0 : StunProxyMgr) : list din -> StunProxyMgr -> Prop :=
| reach_start : reach m0 [] m0
| reach_take h m d m' out : reach m0 h m -> din_ok d -> takes m d = Ret (Some (m', out)) -> reach m0 (h ++ [d]) m'.

Lemma takes_react m d : mgr_ok m -> din_ok d -> takes m d = Ret (react cf m (d_ip d) (d_port d) (d_data d)).
Proof. intros O [? ? ?]. by apply receive_refines. Qed.

(** The client of [d] asked for the peer [x]. *)
Definition requested (d : din) (tid : list Z) (x : ioa_addr) : Prop := kind_of d = ClientMsg (Some (tid, x)).

Definition info_of (d : din) (x : ioa_addr) : requestinfo :=
  RequestInfo (d_ip d) (d_port d) (sin_addr x) (le (sin_port x)).

Definition pending (h : list din) (tid : list Z) (it : requestinfo) : Prop :=
  exists i q x, h !! i = Some q /\ requested q tid x /\ it = info_of q x.

(** It asked, and the server confirmed it later. *)
Definition confirmed (h : list din) (key : string) (client : proxyinfo) : Prop :=
  exists i j q r tid x, (i < j)%nat /\ h !! i = Some q /\ h !! j = Some r /\ requested q tid x /\ kind_of r = PermissionOk tid /\
    key = addr_key (sin_addr x) (le (sin_port x)) /\ client = ProxyInfo (d_ip q) (d_port q).

Record history_inv (h : list din) (m : StunProxyMgr) : Prop := HistoryInv {
  hi_ok : mgr_ok m;
  hi_requests : forall tid it, mapRequests m !! tid = Some it -> pending h tid it;
  hi_peers : forall key c, mapPeerInfo m !! key = Some c -> confirmed h key c }.

Lemma pending_more h d tid it : pending h tid it -> pending (h ++ [d]) tid it.
Proof. intros (i & q & x & E & R). exists i, q, x. split; [by apply lookup_app_l_Some|done]. Qed.

Lemma confirmed_more h d key c : confirmed h key c -> confirmed (h ++ [d]) key c.
Proof.
  intros (i & j & q & r & tid & x & Hij & Ei & Ej & R). exists i, j, q, r, tid, x.
  split; [done|]. split; [by apply lookup_app_l_Some|]. split; [by apply lookup_app_l_Some|done].
Qed.

(** Only these tables matter. *)
Lemma history_same h m m' :
  history_inv h m -> local_proxy_ip m' = local_proxy_ip m -> mapRequests m' ⊆ mapRequests m -> mapPeerInfo m' ⊆ mapPeerInfo m ->
  history_inv h m'.
Proof.
  intros [O R P] E1 E2 E3. constructor; [unfold mgr_ok in *; congruence|..].
  - intros tid it H. apply R. by eapply lookup_weaken.
  - intros key c H. apply P. by eapply lookup_weaken.
Qed.

Lemma history_more h d m : history_inv h m -> history_inv (h ++ [d]) m.
Proof. intros [O R P]. constructor; [done|..]; intros; [by apply pending_more, R|by apply confirmed_more, P]. Qed.

Lemma grant_inv h m d tid it :
  history_inv h m -> kind_of d = PermissionOk tid -> mapRequests m !! tid = Some it -> history_inv (h ++ [d]) (grant m it).
Proof.
  intros I K E. pose proof (history_more h d m I) as [O R P]. pose proof (hi_requests _ _ I tid it E) as (i & q & x & Ei & Rq & ->).
  assert (confirmed (h ++ [d]) (addr_key (sin_addr x) (le (sin_port x))) (ProxyInfo (d_ip q) (d_port q))) as C.
  { exists i, (length h), q, d, tid, x. split; [by eapply lookup_lt_Some|]. split; [by apply lookup_app_l_Some|].
    split; [by rewrite list_lookup_middle|]. done. }
  set (m1 := with_peers m (<[addr_key (sin_addr x) (le (sin_port x)) := ProxyInfo (d_ip q) (d_port q)]> (mapPeerInfo m))).
  assert (history_inv (h ++ [d]) m1) as I1.
  { constructor; [done|exact R|]. intros key c. simpl. rewrite lookup_insert_Some. intros [[<- <-]|[_ H]]; [done|by apply P]. }
  unfold grant. simpl. fold m1. destruct (mapAllocInfo m !! _); [|done]. by apply (history_same _ m1).
Qed.

Lemma history_step h m d m' out :
  history_inv h m -> din_ok d -> takes m d = Ret (Some (m', out)) -> history_inv (h ++ [d]) m'.
Proof.
  intros I Od E. rewrite takes_react in E by (done || apply I). injection E as E. unfold react in E.
  apply bind_Some in E as (m1 & E & E'). injection E' as <- _. fold (kind_of d) in E.
  pose proof (history_more h d m I) as I'. destruct (kind_of d) as [| |q| | |x y|tid|tid| |key|] eqn:K; simpl in E;
    try (injection E as <-; done).
  - injection E as <-. destruct q as [[tid x]|]; [|done]. destruct I' as [O R P]. constructor; [done| |exact P]. simpl.
    intros t it. rewrite lookup_insert_Some. intros [[<- <-]|[_ H]]; [|by apply R].
    exists (length h), d, x. split; [by rewrite list_lookup_middle|]. done.
  - destruct (mapAllocInfo m !! _); [done|]. injection E as <-. by apply (history_same _ m).
  - destruct (mapRequests m !! tid) as [it|] eqn:Et; injection E as <-; [|done].
    pose proof (grant_inv h m d tid it I K Et) as Ig. apply (history_same _ (grant m it) _ Ig); [done| |done]. simpl.
    assert (mapRequests (grant m it) = mapRequests m) as -> by (unfold grant; by case_match). apply delete_subseteq.
  - injection E as <-. apply (history_same _ m); [done|done|apply delete_subseteq|done].
  - injection E as <-. unfold forget. destruct (mapLocalRemote m !! key); [|done].
    apply (history_same _ m); [done|done|done|apply delete_subseteq].
Qed.

Definition fresh_proxy (m : StunProxyMgr) : Prop := mgr_ok m /\ mapRequests m = ∅ /\ mapPeerInfo m = ∅.

Lemma reach_inv m0 h m : fresh_proxy m0 -> reach m0 h m -> history_inv h m.
Proof.
  intros (O & E1 & E2). induction 1 as [|h m d m' out _ IH Od Et]; [|by eapply history_step].
  constructor; [done|..]; intros ? ?; rewrite ?E1, ?E2; done.
Qed.
End history.

(** C3. No datagram makes the proxy misbehave: whatever up to 1500 bytes arrive
    from whatever address and port, the handlers return, without an access
    outside the packet, and do what the reactive specification [react] says for
    the kind of datagram; the process aborts exactly when a server reports an
    allocation for a client address that the table of allocations already has. *)
Theorem proxy_handles_every_datagram cf m ip port data :
  length ip = 4%nat -> mgr_ok m -> bytes_ok data -> blen data <= PACKET_MTU ->
  receive cf m ip port data = Ret (react cf m ip port data) /\
  (react cf m ip port data = None <->
   exists mapped relay, arrives cf port data = AllocateOk mapped relay /\ is_Some (mapAllocInfo m !! alloc_key mapped)).
Proof.
  intros Li O B L. split; [by apply receive_refines|]. unfold react. split.
  - destruct (arrives cf port data) as [| |q| | |x y|tid|tid| |key|] eqn:K; simpl; try done.
    + destruct (mapAllocInfo m !! _) eqn:E; [|done]. intros _. exists x, y. split; [done|]. rewrite E. by eexists.
    + by destruct (mapRequests m !! tid).
  - intros (x & y & -> & [v E]). simpl. by rewrite E.
Qed.


Lemma takes_kind cf m d m' :
  mgr_ok m -> din_ok d -> next_state m (d_ip d) (d_port d) (kind_of cf d) = Some m' ->
  takes cf m d = Ret (Some (m', sends cf m (d_ip d) (d_port d) (d_data d) (kind_of cf d))).
Proof. intros O D E. rewrite takes_react by done. unfold react. fold (kind_of cf d). by rewrite E. Qed.

(** The key of a relay address in the table of relay addresses. *)
Definition relay_key (relay : ioa_addr) : string := addr_key (sin_addr relay) (ntohs (le (sin_port relay))).


(** * Across the cluster *)

(** The server of the sending client: its session has bound channel [num] to a
    relay address of another host, reached through relay socket [k]. *)
Record sender (e : engine) (ss : ts_ur_super_session) (m : sockets) (c : ioa_socket) (num : Z) (peer : ioa_addr) (k : ioa_socket) :
    Prop := Sender {
  sn_inv : alloc_inv (ss_alloc ss);
  sn_ok : socks_ok m;
  sn_client : m !! client_socket ss = Some c;
  sn_valid : is_allocation_valid (ss_alloc ss) <> 0;
  sn_udp : is_tcp_relay ss = false;
  sn_chan : exists C chn, allocation_get_ch_info (ss_alloc ss) num = Ret (Some C) /\ get_chan (ss_alloc ss) C = Ret chn /\
              ch_peer_addr chn = peer;
  sn_peer : addr_wf peer;
  sn_far : on_this_host c peer = false;
  sn_relay : exists s, get_relay_socket_ss ss (sa_family peer) = Ret s /\ m !! s = Some k;
  sn_ready : ready e k;
  sn_open : connected k = false }.

(** A ChannelData message. *)
Definition channel_data (num : Z) (d : list Z) : list Z := to_be 2 num ++ to_be 2 (blen d) ++ d.

Lemma channel_data_len num d : blen (channel_data num d) = 4 + blen d.
Proof. unfold channel_data. rewrite !blen_app, !blen_to_be. lia. Qed.

Lemma channel_data_num num d : slice (channel_data num d) 0 2 = to_be 2 num.
Proof.
  unfold channel_data. rewrite slice_app_l by (rewrite ?blen_to_be; lia). apply slice_all. by rewrite blen_to_be.
Qed.

Lemma channel_data_size num d : slice (channel_data num d) 2 2 = to_be 2 (blen d).
Proof.
  unfold channel_data. rewrite slice_app_r by (rewrite ?blen_to_be; lia). rewrite blen_to_be.
  rewrite slice_app_l by (rewrite ?blen_to_be; lia). apply slice_all. by rewrite blen_to_be.
Qed.

Lemma channel_data_rest num d n : n = blen d -> slice (channel_data num d) 4 n = d.
Proof.
  intros ->. unfold channel_data. pose proof (blen_nonneg d). rewrite app_assoc.
  rewrite slice_app_r by (rewrite ?blen_app, ?blen_to_be; lia). rewrite blen_app, !blen_to_be. by apply slice_all.
Qed.

Lemma channel_data_class num d : STUN_VALID_CHANNEL num = true -> classify (channel_data num d) (4 + blen d) = ChannelMsg.
Proof.
  intros V. pose proof (blen_nonneg d). unfold classify. rewrite channel_data_num, be_to_be_small, V
    by (unfold STUN_VALID_CHANNEL in V; bool_arith; simpl; lia).
  by destruct (_ >=? 4) eqn:?; bool_arith; [|lia].
Qed.

Lemma channel_data_bytes num d : bytes_ok d -> bytes_ok (channel_data num d).
Proof. intros B. unfold channel_data. apply bytes_ok_app; [apply bytes_ok_to_be|]. apply bytes_ok_app; [apply bytes_ok_to_be|done]. Qed.

(** The server forwards ChannelData that come through the proxy. *)
Lemma server_forwards e ss m c num peer k h d src ttl tos :
  sender e ss m c num peer k -> hsized h -> bytes_ok (header_bytes h) -> bytes_ok d -> 18 + blen d <= UDP_STUN_BUFFER_SIZE ->
  ttl <> 0 -> STUN_VALID_CHANNEL num = true ->
  exists d' m' s df ttl' tos',
    client_channel_data e ss m (NetData src (Some (fill (header_bytes h ++ channel_data num d))) ttl tos) =
    Ret (Some (0, d', m', [UdpOut s (Some (dst_of h peer)) df ttl' tos'
                             (header_bytes (cluster_header (local_addr k) peer) ++ channel_data num d)])).
Proof.
  intros [I Ok Hc Hv Hu (C & chn & EC & Ec & <-) Wp Far (s & Es & Ek) Rk Op] Hs Bh Bd Hl Ht V.
  set (l := channel_data num d). pose proof (channel_data_len num d) as Ll. fold l in Ll. pose proof (blen_nonneg d).
  pose proof (hsized_wf h Hs) as Wh. assert (blen (header_bytes h ++ l) = 18 + blen d) as Lw by (rewrite headed_len by done; lia).
  assert (bytes_ok l) as Bl by by apply channel_data_bytes.
  pose proof (fill_fresh (header_bytes h ++ l) ltac:(auto with bytes) ltac:(lia)) as [R _]. set (nbh := fill (header_bytes h ++ l)) in *.
  destruct (message_ret nbh R) as (E1 & E2 & Bm & Lm & _); [change (sb_len nbh) with (blen (header_bytes h ++ l)); lia|].
  assert (message_len nbh = 4 + blen d) as Eml by (unfold message_len; change (sb_len nbh) with (blen (header_bytes h ++ l)); lia).
  assert (forall i n, 0 <= i -> 0 <= n -> i + n <= blen l -> slice (message nbh) i n = slice l i n) as Sl.
  { intros. rewrite <- payload_message by lia. by apply fill_payload. }
  destruct (Ok _ c Hc) as (Nc & _). unfold client_channel_data, the_nbh. cbn [nd_nbh]. mstep. rewrite E1, E2, Eml.
  unfold get_ioa_socket_type. destruct (client_socket ss =? 0) eqn:?; bool_arith; [done|].
  rewrite (get_sock_ret m _ c) by done. mstep.
  rewrite (channel_accept (message nbh) (4 + blen d) num (blen d) _ Bm).
  2: cap. 2: rewrite Sl by lia; apply channel_data_num. 2: rewrite Sl by lia; apply channel_data_size. 2: done. 2: lia.
  2: change UDP_STUN_BUFFER_SIZE with 16384 in *; lia. 2: by left.
  mstep. rewrite Hu. destruct (_ <=? _) eqn:?; bool_arith; [|lia]. cbn [src_addr recv_ttl recv_tos].
  change (default 0 (Some num)) with num.
  set (nbh' := ioa_network_buffer_set_size nbh (blen d + 4)).
  assert (nb_received nbh') as R' by (destruct R as [[? ?] ? ? ? ?]; constructor; [by constructor|done|done|done|simpl; cap]).
  assert (payload nbh' 0 (4 + blen d) = l) as Pl.
  { change (payload nbh' 0 (4 + blen d)) with (payload nbh 0 (4 + blen d)). rewrite payload_message by lia. rewrite Sl by lia.
    apply slice_all. lia. }
  destruct (channel_forwarded e ss m (NetData src (Some nbh') ttl tos) num (blen d) nbh' c C chn s k)
    as (rc & d' & m' & k' & df & ttl' & tos' & St & E); try done; [simpl; lia|by apply sized_wf|].
  rewrite E. mstep. rewrite Pl. unfold destination. unfold static in St. replace (connected k') with false by congruence. cbn [andb].
  assert (received_header nbh' = h) as ->; [|by eauto 10].
  change (received_header nbh') with (received_header nbh). destruct Hs. by apply fill_header.
Qed.

(** The proxy passes what another server forwards to the relay address. *)
Lemma proxy_passes cf m ip port relay peer l :
  mgr_ok m -> length ip = 4%nat -> addr_wf relay -> addr_wf peer -> bytes_ok l -> blen l + 14 <= PACKET_MTU ->
  classify l (blen l) = ChannelMsg ->
  let w := header_bytes (cluster_header relay peer) ++ l in
  receive cf m ip port w = Ret (Some (m, [Sent (hop cf (sin_addr peer)) (be (sin_port peer)) w])).
Proof.
  intros O Li Wr Wp Bl Ll Cl w. set (h := cluster_header relay peer).
  pose proof Wr as (_ & [Lp Bp] & [La Ba] & _). pose proof Wp as (_ & [Lp' Bp'] & [La' Ba'] & _).
  assert (hsized h) as Hs by by constructor. assert (bytes_ok w) as Bw.
  { unfold w, header_bytes, h. cbn [identifier srcIp srcPort dstIp dstPort cluster_header]. apply bytes_ok_app; [|done].
    apply bytes_ok_app; [apply bytes_ok_to_be|]. auto 10 with bytes. }
  rewrite receive_refines; [|done|unfold w; rewrite headed_len by done; lia|done|done].
  unfold react, arrives, w. fold h. rewrite (headed_not_health h l Hs) by (vm_compute; discriminate). rewrite (headed_header h l Hs).
  change (IsStunExtensionRelayHeader h) with true. rewrite orb_true_r.
  assert (server_arrival (header_bytes h ++ l) = Forwarded (sin_addr peer) (be (sin_port peer))) as ->; [|done].
  unfold server_arrival. rewrite (headed_header h l Hs), (headed_u64 h l Hs Ll), (headed_class h l Hs), Cl.
  change (IsStunExtensionRelayHeader h) with true. rewrite bool_decide_eq_true_2 by done. cbn [orb].
  unfold GetDstPort. cbn [dstIp dstPort h cluster_header]. by rewrite ntohs_bytes by done.
Qed.

(** The server tells the proxy the peer of ChannelData in the header. *)
Lemma proxy_delivers cf m src num d client :
  mgr_ok m -> length (g_coturn_ip cf) = 4%nat -> addr_wf src -> sin_addr src <> zeros 4 -> bytes_ok d -> 18 + blen d <= PACKET_MTU ->
  STUN_VALID_CHANNEL num = true -> mapPeerInfo m !! addr_key (sin_addr src) (le (sin_port src)) = Some client ->
  receive cf m (g_coturn_ip cf) (g_coturn_port cf) (header_bytes (client_header src) ++ channel_data num d) =
  Ret (Some (m, [Sent (hop cf (pi_srcip client)) (pi_srcport client) (channel_data num d)])).
Proof.
  intros O Lc W Nz Bd Ld V E. set (h := client_header src). pose proof W as (_ & [Lp Bp] & [La Ba] & _).
  pose proof (channel_data_len num d) as Ll. set (l := channel_data num d) in *.
  assert (hsized h) as Hs by (constructor; simpl; unfold hton; rewrite ?length_rev; done).
  assert (bytes_ok (header_bytes h ++ l)) as Bw.
  { unfold header_bytes, h. cbn [identifier srcIp srcPort dstIp dstPort client_header]. apply bytes_ok_app; [|by apply channel_data_bytes].
    apply bytes_ok_app; [apply bytes_ok_to_be|]. unfold hton. auto 10 using bytes_ok_rev, bytes_ok_zeros with bytes. }
  assert (blen l + 14 <= PACKET_MTU) as Ll' by lia.
  rewrite receive_refines; [|done|rewrite headed_len by done; lia|done|done].
  unfold react, arrives. rewrite (headed_not_health h l Hs) by (vm_compute; discriminate). rewrite Z.eqb_refl. cbn [orb].
  assert (server_arrival (header_bytes h ++ l) = PeerData (addr_key (sin_addr src) (le (sin_port src)))) as ->.
  { unfold server_arrival. rewrite (headed_header h l Hs), (headed_u64 h l Hs Ll'), (headed_class h l Hs), Ll.
    rewrite (channel_data_class num d V : classify l (4 + blen d) = ChannelMsg). change (IsStunExtensionRelayHeader h) with false.
    change (IsStunExtensionHeader h) with true. cbn iota. unfold addr_key, GetDstIp, GetDstPort, h.
    cbn [dstIp dstPort client_header]. rewrite hton_hton. unfold bytes_eqb. rewrite bool_decide_eq_false_2.
    2: { intros Z0. apply Nz. rewrite <- (hton_hton (sin_addr src)), Z0. done. }
    cbn [negb]. rewrite ntohs_bytes; [|by apply bytes_ok_rev|unfold hton; by rewrite length_rev]. do 3 f_equal.
    unfold hton. clear -Lp. destruct (sin_port src) as [|x [|y []]]; try done. unfold be, le. simpl. lia. }
  unfold sends. simpl next_state. cbn [mbind option_bind]. rewrite E. by rewrite headed_drop.
Qed.

(** The proxy passes a client's ChannelData to its server. *)
Lemma proxy_accepts cf m ip port num d :
  mgr_ok m -> length ip = 4%nat -> port <> g_coturn_port cf -> bytes_ok d -> 18 + blen d < PACKET_MTU ->
  STUN_VALID_CHANNEL num = true ->
  receive cf m ip port (channel_data num d) =
  Ret (Some (m, [Sent (hop cf (g_coturn_ip cf)) (g_coturn_port cf) (header_bytes (proxy_header m ip port) ++ channel_data num d)])).
Proof.
  intros O Li Np Bd Ld V. pose proof (channel_data_len num d) as Ll. pose proof (channel_data_bytes num d Bd) as Bl.
  set (l := channel_data num d) in *. pose proof (blen_nonneg d). rewrite receive_refines by (done || lia).
  assert (0 <= num < 2 ^ 15) as Rn by (unfold STUN_VALID_CHANNEL in V; bool_arith; lia).
  assert (is_health l = false) as Hh.
  { unfold is_health. destruct (blen l =? 10) eqn:E; [|done]. bool_arith. simpl. apply bool_decide_eq_false. intros El.
    assert (slice l 2 2 = to_be 2 6) as E2 by (unfold l; rewrite channel_data_size; do 2 f_equal; lia).
    rewrite El in E2. vm_compute in E2. discriminate E2. }
  assert (slice (PacketBuffer l) 0 2 = to_be 2 num) as E2 by (rewrite packet_data by lia; apply channel_data_num).
  assert (IsStunExtensionRelayHeader (packet_header l) = false) as Hr.
  { unfold IsStunExtensionRelayHeader, packet_header, header_of. cbn [identifier]. rewrite slice_slice by lia.
    match goal with |- context [slice (PacketBuffer l) ?i 2] => change i with 0 end.
    rewrite E2. apply bool_decide_eq_false. intros En%(f_equal be). rewrite be_to_be_small in En by (simpl; lia).
    vm_compute in En. lia. }
  assert (asked l = None) as Ha.
  { unfold asked, has_class, classify. rewrite E2, be_to_be_small, V by (simpl; lia).
    destruct (_ >=? 4) eqn:?; bool_arith; [done|lia]. }
  unfold react, arrives. rewrite Hh, Hr, Ha. destruct (port =? _) eqn:?; bool_arith; [done|].
  destruct (_ <? PACKET_MTU) eqn:?; bool_arith; [done|lia].
Qed.


(** * Examples *)
Definition ex_conf : proxy_conf := ProxyConf [10; 0; 0; 9] 3478 [0; 0; 0; 0].
Definition ex_mgr : StunProxyMgr := ProxyMgr [10; 0; 0; 9] 9900 ∅ ∅ ∅ ∅.

(** A client at 192.168.1.5:40000. *)
Definition ex_client : ioa_addr := set_port (set_sin_addr (set_family addr_zero AF_INET) [192; 168; 1; 5]) 40000.
Definition ex_client_ip : list Z := [192; 168; 1; 5].

Definition bytes_of (m : outcome (Z * mbuf)) : list Z :=
  match m with Ret (_, b) => slice (mdata b) 0 (mlen b) | _ => [] end.

(** The header the server puts in front of a response to that client. *)
Definition ex_header : list Z := header_bytes (proxy_header ex_mgr ex_client_ip 40000).

Definition ex_allocate_ok : din := Din [10; 0; 0; 9] 3478 (ex_header ++ bytes_of (
  m ← stun_init_success_response_str STUN_METHOD_ALLOCATE (zeros 200) (Some (zeros 12)) (zeros 12);
  '(_, m) ← stun_attr_add_addr_str [] m STUN_ATTRIBUTE_XOR_RELAYED_ADDRESS ex_host;
  stun_attr_add_addr_str [] m STUN_ATTRIBUTE_XOR_MAPPED_ADDRESS ex_client)).
Definition ex_ask : din := Din ex_client_ip 40000 (bytes_of (Ret (0, ex_perm_msg ex_addr_value))).
Definition ex_permission_ok : din := Din [10; 0; 0; 9] 3478 (ex_header ++ bytes_of (
  m ← stun_init_success_response_str STUN_METHOD_CREATE_PERMISSION (zeros 200) (Some (zeros 12)) (zeros 12); Ret (0, m))).
Definition ex_peer_data : din := Din [10; 0; 0; 9] 3478 (header_bytes (client_header ex_peer) ++ channel_data 0x4001 [1; 2; 3]).
Definition ex_release : din := Din [10; 0; 0; 9] 3478
  (header_bytes (CustomHeader STUN_CUSTOM_RELEASE_IDENTIFIER (zeros 4) (zeros 2) (sin_addr ex_host) (sin_port ex_host))).

Definition din_okb (d : din) : bool :=
  (length (d_ip d) =? 4)%nat && bytes_okb (d_data d) && (blen (d_data d) <=? PACKET_MTU).

Lemma din_okb_spec d : din_okb d = true -> din_ok d.
Proof.
  unfold din_okb. intros [[L%Nat.eqb_eq B]%andb_true_iff M%Z.leb_le]%andb_true_iff.
  constructor; [done|by apply bytes_okb_spec|done].
Qed.

Lemma response_returns_to_client_witness :
  exists m1 h r, length h = 14%nat /\
    receive ex_conf ex_mgr ex_client_ip 40000 (d_data ex_ask)
      = Ret (Some (m1, [Sent [10; 0; 0; 9] 3478 (h ++ d_data ex_ask)])) /\
    receive ex_conf m1 [10; 0; 0; 9] 3478 (h ++ drop 14 (d_data ex_permission_ok)) = Ret r /\ r <> None /\
    (forall m2 out, r = Some (m2, out) -> out = [Sent ex_client_ip 40000 (drop 14 (d_data ex_permission_ok))]).
Proof.
  destruct (response_returns_to_client ex_conf ex_mgr ex_client_ip 40000 (d_data ex_ask)
    (remember ex_mgr ex_client_ip 40000 (asked (d_data ex_ask))) (drop 14 (d_data ex_permission_ok)))
    as (m1 & h & r & Lh & E1 & E2 & Out & Some_).
  - reflexivity.
  - split; [discriminate|reflexivity].
  - discriminate.
  - reflexivity.
  - apply bytes_okb_spec. vm_compute. reflexivity.
  - vm_compute. reflexivity.
  - vm_compute. reflexivity.
  - vm_compute. reflexivity.
  - apply bytes_okb_spec. vm_compute. reflexivity.
  - vm_compute. discriminate.
  - left. vm_compute. reflexivity.
  - reflexivity.
  - apply bytes_okb_spec. reflexivity.
  - apply bytes_okb_spec. reflexivity.
  - reflexivity.
  - exists m1, h, r. split; [exact Lh|]. split; [exact E1|]. split.
    + assert (m1 = remember ex_mgr ex_client_ip 40000 (asked (d_data ex_ask))) as ->; [|exact E2].
      rewrite receive_refines in E1; [|apply bytes_okb_spec; vm_compute; reflexivity|vm_compute; discriminate|reflexivity|reflexivity].
      vm_compute in E1. injection E1 as <- _. vm_compute. reflexivity.
    + split; [apply Some_; vm_compute; discriminate|exact Out].
Defined.

Lemma proxy_handles_every_datagram_witness :
  receive ex_conf ex_mgr ex_client_ip 40000 [0x80; 1; 2] = Ret (Some (ex_mgr, [])) /\
  react ex_conf ex_mgr ex_client_ip 40000 [0x80; 1; 2] <> None.
Proof.
  destruct (proxy_handles_every_datagram ex_conf ex_mgr ex_client_ip 40000 [0x80; 1; 2]) as [E N].
  - reflexivity.
  - reflexivity.
  - apply bytes_okb_spec. reflexivity.
  - vm_compute. discriminate.
  - split; [rewrite E; vm_compute; reflexivity|]. intros F. apply N in F as (x & y & K & _). vm_compute in K. discriminate K.
Defined.

(** The proxy after the client's request was confirmed. *)
Definition ex_served : StunProxyMgr :=
  match takes ex_conf (match takes ex_conf ex_mgr ex_ask with Ret (Some (m, _)) => m | _ => ex_mgr end) ex_permission_ok with
  | Ret (Some (m, _)) => m
  | _ => ex_mgr
  end.

Lemma ex_reach : reach ex_conf ex_mgr [ex_ask; ex_permission_ok] ex_served.
Proof.
  apply (reach_take ex_conf ex_mgr [ex_ask] (match takes ex_conf ex_mgr ex_ask with Ret (Some (m, _)) => m | _ => ex_mgr end)
           ex_permission_ok ex_served [Sent ex_client_ip 40000 (drop 14 (d_data ex_permission_ok))]).
  - apply (reach_take ex_conf ex_mgr [] ex_mgr ex_ask _ [Sent [10; 0; 0; 9] 3478 (ex_header ++ d_data ex_ask)]);
      [constructor|apply din_okb_spec; vm_compute; reflexivity|vm_compute; reflexivity].
  - apply din_okb_spec. vm_compute. reflexivity.
  - vm_compute. reflexivity.
Qed.



Definition ex_conf2 : proxy_conf := ProxyConf [10; 0; 0; 1] 3478 [0; 0; 0; 0].
Definition ex_mgr2 : StunProxyMgr :=
  ProxyMgr [10; 0; 0; 1] 9900 {[addr_key (sin_addr ex_host) (le (sin_port ex_host)) := ProxyInfo [192; 168; 1; 7] 41000]} ∅ ∅ ∅.

Lemma ex_sender : sender ex_engine ex_far (ex_socks ex_host) (ex_sock CLIENT_SOCKET ex_host) 0x4001 ex_peer (ex_sock RELAY_SOCKET ex_host).
Proof.
  constructor; [apply ex_far_inv|apply ex_socks_ok, ex_host_wf|done|vm_compute; discriminate|vm_compute; reflexivity| |apply ex_peer_wf
    |vm_compute; reflexivity| |apply ex_sock_ready|done].
  - exists 2. eexists. split_and!; vm_compute; reflexivity.
  - exists 7. split; vm_compute; reflexivity.
Qed.


(** * Where the proxy departs from its purpose *)

(** A client that allocates twice without asking for a permission in between
    takes the proxy down: the second Allocate response finds the first entry. *)
Theorem second_allocation_aborts :
  exists m1 out, takes ex_conf ex_mgr ex_allocate_ok = Ret (Some (m1, out)) /\ takes ex_conf m1 ex_allocate_ok = Ret None.
Proof. eexists _, _. split; vm_compute; reflexivity. Qed.

(** Address and port are joined without a separator: peers 10.0.0.1 and
    10.0.0.11 with suitable ports have the same key, and the second permission
    takes over the data of the first. *)
Theorem key_collision : addr_key [10; 0; 0; 1] 15000 = addr_key [10; 0; 0; 11] 5000.
Proof. vm_compute. reflexivity. Qed.

(** Whoever sends from the server's port is taken for the server, whatever the
    host: a stranger ends the relay session of others. *)
Theorem stranger_releases :
  exists m1 m2 m3 m4 o1 o2 o3,
    takes ex_conf ex_mgr ex_allocate_ok = Ret (Some (m1, o1)) /\ takes ex_conf m1 ex_ask = Ret (Some (m2, o2)) /\
    takes ex_conf m2 ex_permission_ok = Ret (Some (m3, o3)) /\
    takes ex_conf m3 (Din [203; 0; 113; 9] 3478 (d_data ex_release)) = Ret (Some (m4, [])) /\
    mapPeerInfo m3 <> ∅ /\ mapPeerInfo m4 = ∅.
Proof. do 7 eexists. split_and!; [vm_compute; reflexivity..|vm_compute; discriminate|vm_compute; reflexivity]. Qed.

(** A datagram of 1486 bytes or more from a client is dropped. *)
Theorem large_datagrams_dropped cf m ip port data :
  length ip = 4%nat -> mgr_ok m -> bytes_ok data -> 1486 <= blen data <= PACKET_MTU -> port <> g_coturn_port cf ->
  IsStunExtensionRelayHeader (packet_header data) = false -> receive cf m ip port data = Ret (Some (m, [])).
Proof.
  intros Li O B L Np Nr. rewrite receive_refines by (done || lia). unfold react, arrives, is_health. rewrite Nr.
  destruct (blen data =? 10) eqn:?; bool_arith; [lia|]. cbn [andb]. destruct (port =? _) eqn:?; bool_arith; [done|].
  destruct (_ <? PACKET_MTU) eqn:?; bool_arith; [unfold PACKET_MTU in *; lia|done].
Qed.
